(* ===== verification/_CoqProject ===== *)
-Q . S2P
Prelude.v
PyText.v
PyTime.v
Sanitizer.v
Json.v
AgentTypes.v
AgentState.v
Commands.v
OperationReduce.v
FinalizeEvidence.v
Store.v
Events.v
EventStore.v
Codec.v
Jsonl.v
Operations.v
FinalizeOps.v
Controller.v
Frames.v
Outcomes.v
Apply.v
Observations.v
Outbox.v
OutboxFacts.v
System.v
Demo.v
StatesInv.v
Lifecycle.v
Records.v
Replay.v
Terminal.v
Ledger.v
Projection.v
Safety.v
Streams.v
ReadBack.v
JsonlFacts.v
Creation.v
Delivery.v
Outgoing.v
Draining.v
JsonlDelivery.v
Recovery.v
RecoveryFacts.v
Restarting.v
Archive.v
ArchiveFacts.v
Archiving.v
SessionReservation.v
Reservations.v
CronModels.v
CronSchedules.v
CronStore.v
CronImport.v
CronScheduler.v
CronFacts.v
CronInvariant.v
CronLedger.v
CronSteps.v
Scheduling.v
RuntimeResources.v
RuntimeLedger.v
RuntimeManager.v
GenerationFacts.v
Generations.v
DurableTools.v
Contracts.v
ToolFacts.v
ToolRuns.v
ToolLedger.v
Tools.v
ToolGate.v
ProviderContext.v
Sessions.v
SessionFacts.v
SessionDisk.v
SessionSteps.v
Conversations.v
