(* ===== verification/Prelude.v ===== *)
(** * Yuan Ye Study Agent: durable control plane, verification library

    ** The program

    A Gateway process runs Agent tasks ("Runs").  What must survive a crash is
    its control plane: one SQLite database that only the state controller
    writes, the canonical events every committed command appends, the outbox
    that carries those events to their sinks, and the finalization protocol
    that lets a Run end.  Around it stand the start-up recovery of interrupted
    Runs, the archive of old event bodies, the reservation of sessions, the
    scheduler of cron jobs, the ledger of which generation of plugins is in
    force, the durable execution of tools, and the files of the conversations.
    The parts modelled here, and the files of the development that model them:

    - Agent/state.py, the contracts.  AgentTypes: enums and the two state
      machines.  AgentState: snapshots and records with their validators.
      Commands: the command classes.  OperationReduce: [reduce_operation], the
      retry delays and [is_runnable].
    - gateway/state_controller.py, the single writer.  Store: tables,
      constraints, triggers, statements.  Events: [_write_event].  Operations:
      the operation ledger.  FinalizeOps: the finalize writers and the terminal
      proof.  Controller: [apply], [create_run], [create_state].  Observations:
      tool observations.
    - gateway/finalize_evidence.py: FinalizeEvidence.
    - gateway/audit.py: Sanitizer.
    - gateway/outbox.py.  Outbox: the dispatcher.  Jsonl: the JSONL sink.
    - gateway/event_store.py: EventStore (reads, rebuild, cursors), Archive
      (the archive service: preparing, writing and verifying the file,
      committing, recovery of interrupted archives).
    - gateway/recovery.py: Recovery ([RecoveryCoordinator.recover]).
    - gateway/session_reservation.py: SessionReservation (the registry and
      the tasks that wait on its condition).
    - cron/models.py: CronModels.  cron/schedule.py: CronSchedules.
      cron/store.py: CronStore, and CronImport (the jobs of an older version,
      [_migrate_legacy_json_once]).  cron/service.py and cron/scheduler.py:
      CronScheduler.
    - Agent/resources.py: RuntimeResources (descriptors, generations, plans),
      RuntimeManager ([RuntimePluginManager]).  Their tables in
      gateway/state_controller.py: RuntimeLedger.
    - gateway/durable_execution.py: DurableTools ([DurableToolCoordinator]).
    - tool/registry.py and tool/contracts.py: Tools ([execute] and the pair
      [prepare_invocation], [execute_prepared], each with its own checks).
    - memory/session.py and memory/models.py: Sessions.
      memory/provider_context.py: ProviderContext.

    ** How a reader should see the model

    PyText and PyTime are the parts of Python the code leans on: strings,
    SHA-256, JSON, [datetime].  They are executable; SHA-256 is the real one.

    A transaction is [Tx Db A]: a function from the store to a result and a
    new store, or to an exception.  [BEGIN IMMEDIATE] makes transactions
    atomic, and an exception rolls the store back, so an error carries no
    store.  Where a failed call does keep what it did (files, a drain of the
    queue), the operation returns its state next to its result.

    The methods on runtime generations issue no BEGIN, and the connection
    commits every statement: they are [Auto] computations, which return the
    states after each statement in order.  A crash stops at one of them.

    The tool coordinator runs in a monad of its own: it applies commands to the
    store, waits while other tasks change it, and calls tools.  The session
    store runs over a directory and keeps every directory it passes through.

    System gives the reachable stores: the closure of a fresh database under
    the transactions of the controller, the dispatcher and the tool
    observations, in any order and from any number of processes.  An invariant
    is proved once per write primitive ([closed], [reachable_keeps]) and then
    holds of every reachable store.  Outgoing adds what the dispatchers hold
    between their transactions ([World]): the stores that queries ran on and the
    claims they made; JsonlDelivery adds the files of the sink; ReadBack has the
    writes alone ([write_step]).  Demo executes one Run from creation to
    SUCCEEDED; the witnesses of the theorems are taken from it.

    ** What the theorems show

    - Runs (Lifecycle, Terminal, StatesInv): a Run moves along the edges of
      its two state machines, its stored snapshot is always valid, terminal
      states are final, and SUCCEEDED, FAILED and CANCELLED are only reached
      with the complete proof of finalization.
    - Commands (Replay, Creation): a command takes effect at most once, also
      across restarts; two commands on one revision cannot both commit; an old
      Gateway is fenced; an idempotency key creates one Run.
    - Side effects (Ledger, Projection, Safety): at most one side effect of a
      Run is open; history does not change; the ledger is the reduction of its
      attempts; a retry, a recovery, a denial and a checkpoint keep their
      contracts.
    - Events (Streams, ReadBack): streams are contiguous, events are sanitized
      and hashed, every one is delivered to every enabled sink, and what
      [_write_event] writes is read back after any further writes.
    - Delivery (Delivery, Outgoing, Draining): sinks see a stream in order,
      even when a delivery is claimed long after it was found due, one attempt
      at a time; an outbox row is complete exactly when it should
      be; a restart recovers what was in flight; the queue drains.
    - The JSONL projection (JsonlFacts, JsonlDelivery): through restarts and
      failures of the operating system the file of a Run holds its delivered
      events once each, in order, and equals the file rebuilt from the store,
      as long as a line whose write fails leaves nothing in the file; when it
      does, the line is there twice or cut.
    - Recovery (RecoveryFacts, Restarting): a start accounts for every Run
      that had not ended, none whose side effect may have happened is queued
      again, and a Run interrupted during a model call stops the start.
    - The archive (ArchiveFacts, Archiving): reading is the same before,
      during and after archiving; only delivered events of ended Runs are
      archived; a prepared archive completes when its file can be written.
    - Reservations (Reservations): the registry implements a map from sessions
      to owners, is exclusive and loses no wake-up.
    - Cron (CronFacts, CronInvariant, CronLedger, CronSteps, Scheduling): a job
      has one Run at a time whatever the interleaving of clients, scheduler
      and Runs; dispatches keep their history; counters agree with them and
      with what was imported; stale writers are refused; of the due periods, the
      first 100,000 at most, each is accounted for once; the operations keep to
      the changes of the tables; and where the scheduler does not do as it means
      to.

    - Runtime generations (GenerationFacts, Generations), at every statement
      and so at every crash: the head moves along one lineage; what is
      referred to is not collected; executable plugins change only with an
      approval; an interrupted activation can be repeated; a plugin that keeps
      failing is replaced, and exactly what needs it goes with it; a plugin
      reformatted while a plan waits blocks further reloads.

    - Durable tools (Contracts, ToolFacts, ToolRuns, ToolLedger): a body starts
      only inside an open attempt of its operation; one whose effect may have
      happened does not start again; what a call answers is in the ledger;
      retries end.
    - The tool registry (Tools, ToolGate): a tool runs only past every gate;
      the copy of the checks that prepared calls go through agrees with the one
      for direct calls; a subagent gets only the tools it may use.

    - Conversations (SessionFacts, SessionDisk, SessionSteps, Conversations): a
      record is appended once; new segments and edits are atomic under a crash
      and a compaction keeps the records it protects, while the name of the new
      segment is not in use; what is restored is a conversation a model accepts;
      an edit after a compaction loses it.

    Frames, Outcomes, Apply, Records, OutboxFacts and Json, Codec hold the
    lemmas these rest on.

    ** Modelling decisions

    - A [str] is its UTF-8 bytes; code points where the code counts them.
    - A JSON object is an association list with distinct keys; pydantic's own
      dump of a command is a parameter ([cf_dump]); a column that holds the
      JSON of a record holds the record.  The zlib encoding of stored results
      is not modelled.
    - pydantic: building and reading run all validators ([checked]);
      [model_copy] runs none; [model_validate] on an instance runs the
      after-validators.  Fields with a constant value are left out.
    - Time, random ids and the answer of the write gate come from an
      environment, a fresh one for each transaction.  Delays are integer
      microseconds; naive datetimes get a fixed zone.
    - Floats in JSON are compared by their text.
    - [fresh_ids] says that clients do not reuse operation and attempt ids;
      only Projection needs it.
    - Theorems on the dispatcher that need new SHA-256 ids say so.
    - Files are a map from paths to bytes.  Temporary files and directories are
      not modelled; a run id is a plain file name.  A file written next to its
      place and renamed appears whole or not at all.  What the operating system
      does to the files of the JSONL sink is an argument ([SinkIo]): a write that
      raises has left some first bytes of the line.
    - [json.dumps] with allow_nan=False is [json_dumps_finite], which refuses
      NaN and the infinities.
    - Cron: a time is a UTC instant in microseconds; time zones and cron
      expressions (zoneinfo, croniter) are a [Calendar], a parameter.  Jobs and
      dispatches that were read may be old when they are written with: the
      steps of [cron_step] write with any version read before.  What Python and
      SQLite make of a float, a list or an object in the file of an older version
      is a [Platform], a parameter.  The float
      quotient of [next_future] is exact below 2^32 seconds and is an integer
      division here.

    - Runtime generations: what the providers find on disk and whether an
      artifact can be written and tested are arguments.  Operations of one
      process exclude each other (the write gate), so they interleave whole.
      A reference id is a SHA-256 of its owner and generation;
      [reference_unshared] says no other owner has the same one.

    - Durable tools: a tool answers from an oracle; during a wait other tasks
      take any steps of the controller.  Messages are texts of the model, not
      the code's.  The validation of arguments (pydantic) is a parameter.
    - The session store: a segment is a list of lines, whole or cut by a crash;
      writes to one file take effect in order; links and names with a slash are
      taken as outside the directory.

    Fuel: [json_loads] gets three steps per byte, which Json proves enough for
    every printed document; [run_until_idle] gets a bound on its rounds, which
    Draining proves enough when it exceeds the number of open deliveries.
    The due periods of a job are bounded by 100,000 and the candidates of a cron
    expression by 10,000, as in the code.  [disable_closure] gets one pass per
    descriptor and one more, which GenerationFacts proves enough.  The attempts of a tool
    call get more rounds than the policy has attempts, which ToolLedger proves
    enough.  Everything else recurses on its data.

    ** Not modelled

    The Gateway application, its HTTP and WebSocket API, the Agent loop, model
    clients and their durable hooks, the tools themselves, the rest of memory
    (recall, profiles, structured memory) and user interfaces: asynchronous I/O
    around the control plane.  The list of sessions, which reads file times.
    The queries, migrations and health reports of the state controller.  The
    heartbeat task of the scheduler; the task that calls the archive service.
    The providers of runtime plugins, their artifacts and settings.

    ** Plan

    What a next extension would take: gateway/finalize.py (the coordinator that
    drives the finalize operations) over Sessions and Controller, the ledger of
    extension grants, the sandbox (locks, logical paths), backup. *)

From stdpp Require Export base tactics option list list_numbers gmap fin_maps strings sorting.
From Stdlib Require Export ZArith Lia.

#[global] Open Scope Z_scope.

(* ------------------------------------------------------------------ *)
(** ** Errors

    The exception classes that the modelled code raises.  The payload is the
    literal message of the source, or a short form of it for an f-string. *)
(* source: gateway/state_controller.py:105-110 StateConflictError *)
Inductive pyerr : Type :=
| StateConflictError (msg : string)
| StateInvariantError (msg : string)
| KeyError (key : string)
| ValueError (msg : string)
| ValidationError (model : string)
| IntegrityError (constraint : string)
| TypeError (msg : string)
| RuntimeError (msg : string)
| OverflowError (msg : string)
| ProjectionConflict (msg : string)
| EventStoreIntegrityError (msg : string)
| FileNotFoundError (path : string)
| AttributeError (msg : string)
| UnicodeError (msg : string)
| MaintenanceBlockedError (msg : string)
| PermissionError (msg : string)
| OSError (msg : string)
| BashUnavailableError (msg : string).

#[export] Instance pyerr_eq_dec : EqDecision pyerr.
Proof. solve_decision. Defined.

(* ------------------------------------------------------------------ *)
(** ** Results and transactions *)

Inductive res (A : Type) : Type :=
| Ok (a : A)
| Err (e : pyerr).
Arguments Ok {A} a.
Arguments Err {A} e.

#[export] Instance res_ret : MRet res := λ A a, Ok a.
#[export] Instance res_bind : MBind res := λ A B k m,
  match m with Ok a => k a | Err e => Err e end.

Definition res_of_option {A} (e : pyerr) (o : option A) : res A :=
  match o with Some a => Ok a | None => Err e end.

Definition is_ok {A} (r : res A) : bool := match r with Ok _ => true | Err _ => false end.

(** A transaction body: it reads and writes the store, and raising an
    exception discards every write it made (SQLite rollback). *)
Definition Tx (St A : Type) : Type := St → res (A * St).

#[export] Instance tx_ret {St} : MRet (Tx St) := λ A a s, Ok (a, s).
#[export] Instance tx_bind {St} : MBind (Tx St) := λ A B k m s,
  match m s with Ok (a, s') => k a s' | Err e => Err e end.

Definition tx_fail {St A} (e : pyerr) : Tx St A := λ _, Err e.
Definition tx_lift {St A} (r : res A) : Tx St A := λ s,
  match r with Ok a => Ok (a, s) | Err e => Err e end.
Definition tx_gets {St A} (f : St → A) : Tx St A := λ s, Ok (f s, s).
Definition tx_read {St A} (f : St → res A) : Tx St A := λ s,
  match f s with Ok a => Ok (a, s) | Err e => Err e end.
Definition tx_modify {St} (f : St → St) : Tx St unit := λ s, Ok (tt, f s).

(** [require P e] goes on when [P] holds and raises [e] otherwise;
    [reject P e] is the [if P: raise e] of the source. *)
Definition require {St} (P : Prop) `{Decision P} (e : pyerr) : Tx St unit := λ s,
  if decide P then Ok (tt, s) else Err e.
Definition reject {St} (P : Prop) `{Decision P} (e : pyerr) : Tx St unit := λ s,
  if decide P then Err e else Ok (tt, s).
Arguments require {St} P {_} e.
Arguments reject {St} P {_} e.

(* ------------------------------------------------------------------ *)
(** ** Functional record update: [r ⟪ field := v ⟫]

    [Eta R] names a record type by its eta-expansion; the setter of any field
    is derived from it by abstracting that field. *)
Class Eta (R : Type) := eta_of : R → R.
Class Upd {R T : Type} (proj : R → T) := upd : T → R → R.
Arguments upd {R T} proj {_} _ _ /.

Ltac derive_upd :=
  match goal with
  | |- @Upd ?R ?T ?proj =>
      let e := eval cbv delta [eta_of] in (eta_of (R:=R)) in
      let e := eval hnf in e in
      let f := constr:(λ (v : T) (r : R),
        ltac:(let b := eval cbv beta in (e r) in
              let b := eval pattern (proj r) in b in
              match b with ?g _ => let b' := eval cbv beta in (g v) in exact b' end)) in
      exact f
  end.
#[export] Hint Extern 0 (Upd _) => derive_upd : typeclass_instances.

Notation "r ⟪ p := v ⟫" := (upd p v r)
  (at level 1, left associativity, p at level 9, v at level 200,
   format "r  ⟪  p  :=  v  ⟫").

(* ------------------------------------------------------------------ *)
(** ** Python odds and ends *)

(** [value or default] on an optional string: None and "" are falsy. *)
Definition truthy (o : option string) : bool :=
  match o with Some s => negb (bool_decide (s = "")) | None => false end.
Definition str_or (o : option string) (d : string) : string :=
  match o with Some s => if decide (s = "") then d else s | None => d end.
Definition opt_str_or (o d : option string) : option string :=
  if truthy o then o else d.

(** [s.startswith(p)] *)
Fixpoint startswith (p s : string) : bool :=
  match p, s with
  | EmptyString, _ => true
  | String a p', String b s' => bool_decide (a = b) && startswith p' s'
  | String _ _, EmptyString => false
  end.

Definition nonempty (s : string) : bool := negb (bool_decide (s = "")).
Definition opt_nonempty (o : option string) : bool :=
  match o with Some s => nonempty s | None => true end.
Definition is_some {A} (o : option A) : bool := match o with Some _ => true | None => false end.
Definition is_none {A} (o : option A) : bool := negb (is_some o).

Definition is_lower_hex (c : Ascii.ascii) : bool :=
  let n := Ascii.nat_of_ascii c in
  ((48 <=? n) && (n <=? 57) || (97 <=? n) && (n <=? 102))%nat.

(** pydantic's [pattern=r"^[0-9a-f]{64}$"] *)
Definition hex64 (s : string) : bool :=
  (String.length s =? 64)%nat && forallb is_lower_hex (String.list_ascii_of_string s).
Definition opt_hex64 (o : option string) : bool :=
  match o with Some s => hex64 s | None => true end.

(* ------------------------------------------------------------------ *)
(** ** Lemmas on transactions *)

Section tx.
Context {St : Type}.

Lemma tx_bind_ok {A B} (k : A → Tx St B) (m : Tx St A) s b s' :
  mbind k m s = Ok (b, s') ↔ ∃ a s1, m s = Ok (a, s1) ∧ k a s1 = Ok (b, s').
Proof.
  unfold mbind, tx_bind. destruct (m s) as [[a s1]|e]; split.
  - eauto.
  - by intros (? & ? & [= <- <-] & ?).
  - done.
  - by intros (? & ? & ? & ?).
Qed.

Lemma tx_ret_ok {A} (a b : A) (s s' : St) : mret (M:=Tx St) a s = Ok (b, s') ↔ a = b ∧ s = s'.
Proof. unfold mret, tx_ret. split; [by intros [= <- <-] | by intros [-> ->]]. Qed.

Lemma tx_gets_ok {A} (f : St → A) s b s' : tx_gets f s = Ok (b, s') ↔ b = f s ∧ s' = s.
Proof. unfold tx_gets. split; [by intros [= <- <-] | by intros [-> ->]]. Qed.

Lemma tx_read_ok {A} (f : St → res A) s b s' : tx_read f s = Ok (b, s') ↔ f s = Ok b ∧ s' = s.
Proof.
  unfold tx_read. destruct (f s); split;
    [by intros [= <- <-] | by intros [[= ->] ->] | done | by intros [? _]].
Qed.

Lemma tx_lift_ok {A} (r : res A) (s : St) b s' : tx_lift r s = Ok (b, s') ↔ r = Ok b ∧ s' = s.
Proof.
  unfold tx_lift. destruct r; split;
    [by intros [= <- <-] | by intros [[= ->] ->] | done | by intros [? _]].
Qed.

Lemma tx_modify_ok (f : St → St) s u s' : tx_modify f s = Ok (u, s') ↔ s' = f s.
Proof. unfold tx_modify. destruct u. split; [by intros [= <-] | by intros ->]. Qed.

Lemma require_ok (P : Prop) `{Decision P} e (s : St) u s' :
  require P e s = Ok (u, s') ↔ P ∧ s' = s.
Proof.
  unfold require. destruct u. case_decide; split;
    [by intros [= <-] | by intros [_ ->] | done | by intros [? _]].
Qed.

Lemma reject_ok (P : Prop) `{Decision P} e (s : St) u s' :
  reject P e s = Ok (u, s') ↔ ¬ P ∧ s' = s.
Proof.
  unfold reject. destruct u. case_decide; split;
    [done | by intros [? _] | by intros [= <-] | by intros [_ ->]].
Qed.

Lemma tx_fail_ok {A} e (s : St) (a : A) s' : tx_fail e s = Ok (a, s') ↔ False.
Proof. done. Qed.
End tx.

Lemma res_bind_ok {A B} (k : A → res B) (m : res A) b :
  mbind k m = Ok b ↔ ∃ a, m = Ok a ∧ k a = Ok b.
Proof. destruct m; split; [eauto | by intros (? & [= <-] & ?) | done | by intros (? & ? & ?)]. Qed.

Lemma res_ret_ok {A} (a b : A) : mret (M:=res) a = Ok b ↔ a = b.
Proof. unfold mret, res_ret. split; congruence. Qed.

Lemma res_of_option_ok {A} e (o : option A) a : res_of_option e o = Ok a ↔ o = Some a.
Proof. destruct o; split; simpl; congruence. Qed.

(** [tx_inv H] takes a successful run of a transaction apart, one primitive
    at a time, and substitutes the intermediate stores. *)
Ltac tx_step H :=
  lazymatch type of H with
  | @mbind (Tx _) _ _ _ _ _ _ = Ok _ =>
      let a := fresh "v" in let s := fresh "s" in let H1 := fresh "Hm" in
      apply tx_bind_ok in H; destruct H as (a & s & H1 & H); tx_inv H1; tx_inv H
  | @mret (Tx _) _ _ _ _ = Ok _ => apply tx_ret_ok in H; destruct H; simplify_eq
  | tx_gets _ _ = Ok _ => apply tx_gets_ok in H; destruct H; subst
  | tx_read _ _ = Ok _ => apply tx_read_ok in H; destruct H as [H ?]; subst
  | tx_lift _ _ = Ok _ => apply tx_lift_ok in H; destruct H as [H ?]; subst; tx_inv H
  | tx_modify _ _ = Ok _ => apply tx_modify_ok in H; subst
  | require _ _ _ = Ok _ => apply require_ok in H; destruct H as [H ?]; subst
  | reject _ _ _ = Ok _ => apply reject_ok in H; destruct H as [H ?]; subst; try apply dec_stable in H
  | tx_fail _ _ = Ok _ => destruct H; fail
  | @mbind res _ _ _ _ _ = Ok _ =>
      let a := fresh "v" in let H1 := fresh "Hm" in
      apply res_bind_ok in H; destruct H as (a & H1 & H); tx_inv H1; tx_inv H
  | @mret res _ _ _ = Ok _ => apply (proj1 (res_ret_ok _ _)) in H; simplify_eq
  | res_of_option _ _ = Ok _ => apply res_of_option_ok in H
  | Err _ = Ok _ => discriminate H
  | Ok _ = Ok _ => injection H as H; simplify_eq
  end
with tx_inv H := try tx_step H.

(** Case analysis on whatever an [if]/[match] of a goal or hypothesis tests. *)
Ltac split_if H :=
  match type of H with
  | context [if decide ?P then _ else _] => destruct (decide P)
  | context [if ?b then _ else _] => destruct b eqn:?
  | context [match ?x with _ => _ end] => destruct x eqn:?
  end.

(** Cases of a membership hypothesis in an explicit list. *)
Ltac elem_cases H :=
  simpl in H;
  lazymatch type of H with
  | _ ∈ [] => by apply not_elem_of_nil in H
  | _ ∈ _ :: _ => apply elem_of_cons in H; destruct H as [H|H]; [|elem_cases H]
  end.
Ltac elem_here := repeat first [by left | right]; fail.

(* ------------------------------------------------------------------ *)
(** ** Relations between the stores before and after a transaction

    [tx_rel R m]: every successful run of [m] relates the store it starts
    from to the one it leaves by the preorder [R].  The rules compose, so one
    lemma per write primitive and [tx_frame] give the relation of a whole
    handler. *)
Definition tx_rel {St A} (R : St → St → Prop) (m : Tx St A) : Prop :=
  ∀ s a s', m s = Ok (a, s') → R s s'.

Section tx_rel.
Context {St : Type} (R : St → St → Prop) `{!PreOrder R}.

Lemma tx_rel_ret {A} (a : A) : tx_rel R (mret a).
Proof. intros s b s' [_ ->]%tx_ret_ok. reflexivity. Qed.
Lemma tx_rel_bind {A B} (m : Tx St A) (k : A → Tx St B) :
  tx_rel R m → (∀ a, tx_rel R (k a)) → tx_rel R (mbind k m).
Proof. intros Hm Hk s b s' (a & s1 & H1 & H2)%tx_bind_ok. etrans; [by eapply Hm|by eapply Hk]. Qed.
Lemma tx_rel_fail {A} e : tx_rel R (tx_fail (A:=A) e).
Proof. by intros s a s' []%tx_fail_ok. Qed.
Lemma tx_rel_gets {A} (f : St → A) : tx_rel R (tx_gets f).
Proof. intros s a s' [_ ->]%tx_gets_ok. reflexivity. Qed.
Lemma tx_rel_read {A} (f : St → res A) : tx_rel R (tx_read f).
Proof. intros s a s' [_ ->]%tx_read_ok. reflexivity. Qed.
Lemma tx_rel_lift {A} (r : res A) : tx_rel R (tx_lift r).
Proof. intros s a s' [_ ->]%tx_lift_ok. reflexivity. Qed.
Lemma tx_rel_require P `{Decision P} e : tx_rel R (require P e).
Proof. intros s a s' [_ ->]%require_ok. reflexivity. Qed.
Lemma tx_rel_reject P `{Decision P} e : tx_rel R (reject P e).
Proof. intros s a s' [_ ->]%reject_ok. reflexivity. Qed.
Lemma tx_rel_modify (f : St → St) : (∀ s, R s (f s)) → tx_rel R (tx_modify f).
Proof. intros Hf s a s' ->%tx_modify_ok. apply Hf. Qed.
End tx_rel.

(** A part of the store that a transaction leaves alone. *)
Definition same_part {St T} (f : St → T) (s s' : St) : Prop := f s' = f s.
#[export] Instance same_part_preorder {St T} (f : St → T) : PreOrder (same_part f).
Proof. unfold same_part. split; [done|]. intros x y z H1 H2. congruence. Qed.

(** An invariant that a transaction preserves. *)
Definition keeps {St} (P : St → Prop) (s s' : St) : Prop := P s → P s'.
#[export] Instance keeps_preorder {St} (P : St → Prop) : PreOrder (keeps P).
Proof. unfold keeps. split; [by intros ??|]. intros x y z H1 H2 H. auto. Qed.

Create HintDb tx_frame discriminated.

(** Take a handler apart along binds and case analyses; the lemmas of
    [tx_frame] close the primitives. *)
Ltac tx_frame1 :=
  lazymatch goal with
  | |- tx_rel _ (mret _) => apply tx_rel_ret; apply _
  | |- tx_rel _ (tx_fail _) => apply tx_rel_fail
  | |- tx_rel _ (tx_gets _) => apply tx_rel_gets; apply _
  | |- tx_rel _ (tx_read _) => apply tx_rel_read; apply _
  | |- tx_rel _ (tx_lift _) => apply tx_rel_lift; apply _
  | |- tx_rel _ (require _ _) => apply tx_rel_require; apply _
  | |- tx_rel _ (reject _ _) => apply tx_rel_reject; apply _
  | |- tx_rel _ (mbind _ _) => apply tx_rel_bind; [apply _| |intros ?]
  | |- tx_rel _ (match ?x with _ => _ end) => destruct x
  | |- tx_rel _ _ => solve [eauto 2 with tx_frame]
  end.
Ltac tx_frame := repeat (tx_frame1; cbv beta zeta).

(** What holds of every value a transaction returns. *)
Definition tx_post {St A} (Q : A → Prop) (m : Tx St A) : Prop :=
  ∀ s a s', m s = Ok (a, s') → Q a.

Section tx_post.
Context {St : Type}.
Lemma tx_post_ret {A} (Q : A → Prop) (a : A) : Q a → tx_post (St:=St) Q (mret a).
Proof. by intros H s b s' [<- _]%tx_ret_ok. Qed.
Lemma tx_post_bind {A B} (Q : B → Prop) (m : Tx St A) (k : A → Tx St B) :
  (∀ a, tx_post Q (k a)) → tx_post Q (mbind k m).
Proof. intros Hk s b s' (a & s1 & H1 & H2)%tx_bind_ok. by eapply Hk. Qed.
Lemma tx_post_bind_with {A B} (P : A → Prop) (Q : B → Prop) (m : Tx St A) (k : A → Tx St B) :
  tx_post P m → (∀ a, P a → tx_post Q (k a)) → tx_post Q (mbind k m).
Proof. intros Hm Hk s b s' (a & s1 & H1 & H2)%tx_bind_ok. eapply Hk, H2. by eapply Hm. Qed.
Lemma tx_post_fail {A} (Q : A → Prop) e : tx_post (St:=St) Q (tx_fail e).
Proof. by intros s a s' []%tx_fail_ok. Qed.
Lemma tx_post_lift {A} (Q : A → Prop) (r : res A) :
  (∀ a, r = Ok a → Q a) → tx_post (St:=St) Q (tx_lift r).
Proof. intros H s a s' [? _]%tx_lift_ok. auto. Qed.
End tx_post.

(** Reduce [tx_post] of a handler to its return statements. *)
Ltac tx_post1 :=
  lazymatch goal with
  | |- tx_post _ (mret _) => apply tx_post_ret
  | |- tx_post _ (tx_fail _) => apply tx_post_fail
  | |- tx_post _ (tx_lift _) => apply tx_post_lift; intros ? ?
  | |- tx_post _ (mbind _ _) => apply tx_post_bind; intros ?
  | |- tx_post _ (match ?x with _ => _ end) => destruct x eqn:?
  end.
Ltac tx_post := repeat (tx_post1; cbv beta zeta).

Create HintDb gateway discriminated.
