(* ===== verification/PyText.v ===== *)
(** * PyText: the text half of the Python standard library the code uses

    Python [str] is modelled as a [string] holding its UTF-8 bytes.  This file
    gives what the control plane uses on such strings: code points and slices,
    [hashlib.sha256(...).hexdigest()], JSON values with
    [json.dumps(value, ensure_ascii=False, sort_keys=True,
    separators=(",", ":"))], and [json.loads].  Everything is executable. *)

From S2P Require Import Prelude.
From stdpp Require Export pretty.
From Stdlib Require Import Ascii.

#[local] Open Scope Z_scope.

(** ** Code points *)

Definition byte_of (c : ascii) : Z := Z.of_N (N_of_ascii c).
Definition byte_to (z : Z) : ascii := ascii_of_N (Z.to_N z).

(** The continuation bytes that follow a UTF-8 lead byte. *)
Definition utf8_extra (b : Z) : nat :=
  if b <? 0xC0 then 0%nat else if b <? 0xE0 then 1%nat else if b <? 0xF0 then 2%nat else 3%nat.

Definition utf8_head (b : Z) : Z :=
  if b <? 0x80 then b else if b <? 0xE0 then Z.land b 0x1F
  else if b <? 0xF0 then Z.land b 0x0F else Z.land b 0x07.

(** [acc] is the code point being read and [n] the bytes it still needs. *)
Fixpoint utf8_scan (n : nat) (acc : Z) (s : string) : list Z :=
  match s with
  | EmptyString => []
  | String c s' =>
      let b := byte_of c in
      match n with
      | O => match utf8_extra b with
             | O => b :: utf8_scan 0 0 s'
             | m => utf8_scan m (utf8_head b) s'
             end
      | S O => (acc * 64 + Z.land b 0x3F) :: utf8_scan 0 0 s'
      | S m => utf8_scan m (acc * 64 + Z.land b 0x3F) s'
      end
  end.

Definition code_points (s : string) : list Z := utf8_scan 0 0 s.

Definition utf8_encode1 (c : Z) : list Z :=
  if c <? 0x80 then [c]
  else if c <? 0x800 then [0xC0 + c / 64; 0x80 + c mod 64]
  else if c <? 0x10000 then [0xE0 + c / 4096; 0x80 + (c / 64) mod 64; 0x80 + c mod 64]
  else [0xF0 + c / 262144; 0x80 + (c / 4096) mod 64; 0x80 + (c / 64) mod 64; 0x80 + c mod 64].

Definition bytes_to_string (bs : list Z) : string :=
  String.string_of_list_ascii (map byte_to bs).

Definition of_code_points (cs : list Z) : string :=
  bytes_to_string (mjoin (map utf8_encode1 cs)).

(** [len(s)] and [s[:n]] count code points. *)
Definition py_len (s : string) : Z := Z.of_nat (length (code_points s)).
Definition py_take (n : nat) (s : string) : string :=
  of_code_points (take n (code_points s)).

(** [sep.join(parts)] *)
Fixpoint join (sep : string) (parts : list string) : string :=
  match parts with
  | [] => ""
  | [x] => x
  | x :: xs => x +:+ sep +:+ join sep xs
  end.

(** [str(n)] for an integer *)
Definition str_of_int (n : Z) : string := pretty n.

(** ** SHA-256 *)

Section sha256.

Let w32 (x : Z) : Z := Z.land x 4294967295.
Let rotr (n x : Z) : Z := Z.lor (Z.shiftr x n) (w32 (Z.shiftl x (32 - n))).

(** The constants of the standard: the first 32 bits of the fractional parts of
    the cube roots and of the square roots of the first primes. *)
Definition is_prime (n : Z) : bool :=
  forallb (λ d, negb (n mod d =? 0)) (seqZ 2 (Z.sqrt n - 1)).
Definition first_primes (bound : Z) : list Z := List.filter is_prime (seqZ 2 bound).
(** The largest [r] in [lo, lo + 2^bits) with [r^3 <= n]. *)
Fixpoint cube_root (bits : nat) (lo n : Z) : Z :=
  match bits with
  | O => lo
  | S b => let mid := lo + 2 ^ Z.of_nat b in
           cube_root b (if mid * mid * mid <=? n then mid else lo) n
  end.
Definition sha256_k : list Z := Eval vm_compute in
  map (λ p, cube_root 36 0 (p * 2 ^ 96) mod 2 ^ 32) (take 64 (first_primes 400)).
Definition sha256_iv : list Z := Eval vm_compute in
  map (λ p, Z.sqrt (p * 2 ^ 64) mod 2 ^ 32) (take 8 (first_primes 400)).

Definition sha256_round (st : list Z) (k w : Z) : list Z :=
  match st with
  | [a; b; c; d; e; f; g; h] =>
      let s1 := Z.lxor (rotr 6 e) (Z.lxor (rotr 11 e) (rotr 25 e)) in
      let ch := Z.lxor (Z.land e f) (Z.land (4294967295 - e) g) in
      let t1 := w32 (h + s1 + ch + k + w) in
      let s0 := Z.lxor (rotr 2 a) (Z.lxor (rotr 13 a) (rotr 22 a)) in
      let maj := Z.lxor (Z.land a b) (Z.lxor (Z.land a c) (Z.land b c)) in
      [w32 (t1 + s0 + maj); a; b; c; w32 (d + t1); e; f; g]
  | _ => st
  end.

(** The sixteen-word window slides by one word per round. *)
Definition sha256_slide (win : list Z) : list Z :=
  let w i := default 0 (win !! i) in
  let s0 := Z.lxor (rotr 7 (w 1%nat)) (Z.lxor (rotr 18 (w 1%nat)) (Z.shiftr (w 1%nat) 3)) in
  let s1 := Z.lxor (rotr 17 (w 14%nat)) (Z.lxor (rotr 19 (w 14%nat)) (Z.shiftr (w 14%nat) 10)) in
  tail win ++ [w32 (w 0%nat + s0 + w 9%nat + s1)].

Fixpoint sha256_rounds (ks : list Z) (win st : list Z) : list Z :=
  match ks with
  | [] => st
  | k :: ks' => sha256_rounds ks' (sha256_slide win) (sha256_round st k (default 0 (head win)))
  end.

Fixpoint words_of (bs : list Z) : list Z :=
  match bs with
  | a :: b :: c :: d :: r => (a * 16777216 + b * 65536 + c * 256 + d) :: words_of r
  | _ => []
  end.

Definition be_bytes (n : nat) (x : Z) : list Z :=
  map (λ i, Z.shiftr x (8 * (Z.of_nat n - 1 - Z.of_nat i)) mod 256) (seq 0 n).

Definition sha256_pad (bs : list Z) : list Z :=
  let len := Z.of_nat (length bs) in
  bs ++ [0x80] ++ replicate (Z.to_nat ((55 - len) mod 64)) 0 ++ be_bytes 8 (8 * len).

Fixpoint sha256_blocks (fuel : nat) (st bs : list Z) : list Z :=
  match fuel, bs with
  | S fuel', _ :: _ =>
      let st' := sha256_rounds sha256_k (words_of (take 64 bs)) st in
      sha256_blocks fuel' (zip_with (λ x y, w32 (x + y)) st st') (drop 64 bs)
  | _, _ => st
  end.

Definition hex_digit (d : Z) : ascii := byte_to (if d <? 10 then 48 + d else 87 + d).

Definition hex_of_bytes (bs : list Z) : string :=
  String.string_of_list_ascii (mjoin (map (λ b, [hex_digit (b / 16); hex_digit (b mod 16)]) bs)).

(** [hashlib.sha256(s.encode("utf-8")).hexdigest()] *)
Definition sha256_hex (s : string) : string :=
  let bs := map byte_of (String.list_ascii_of_string s) in
  let padded := sha256_pad bs in
  hex_of_bytes (mjoin (map (be_bytes 4)
    (sha256_blocks (length padded / 64) sha256_iv padded))).

End sha256.

(** ** JSON *)

(** A decoded JSON document.  [JFloat] keeps the literal of a number that is
    not an integer. *)
Inductive json : Type :=
| JNull
| JBool (b : bool)
| JInt (z : Z)
| JFloat (repr : string)
| JStr (s : string)
| JArr (items : list json)
| JObj (fields : list (string * json)).

Definition jopt (o : option string) : json :=
  match o with Some s => JStr s | None => JNull end.

Definition dquote : ascii := "034".
Definition backslash : ascii := "092".
Definition str1 (c : ascii) : string := String c "".

(** [{**d, k: v}]: an existing key keeps its position. *)
Fixpoint dict_set (k : string) (v : json) (d : list (string * json)) : list (string * json) :=
  match d with
  | [] => [(k, v)]
  | (k', v') :: d' => if decide (k = k') then (k', v) :: d' else (k', v') :: dict_set k v d'
  end.
Definition dict_update (d upd : list (string * json)) : list (string * json) :=
  foldl (λ acc kv, dict_set kv.1 kv.2 acc) d upd.
Fixpoint dict_get (k : string) (d : list (string * json)) : option json :=
  match d with
  | [] => None
  | (k', v) :: d' => if decide (k = k') then Some v else dict_get k d'
  end.

Definition escape_char (c : ascii) : string :=
  if decide (c = dquote) then String backslash (str1 dquote)
  else if decide (c = backslash) then String backslash (str1 backslash)
  else match byte_of c with
  | 10 => String backslash "n"
  | 13 => String backslash "r"
  | 9 => String backslash "t"
  | 8 => String backslash "b"
  | 12 => String backslash "f"
  | b => if b <? 32
         then String backslash ("u00" +:+ hex_of_bytes [b])
         else str1 c
  end.

Fixpoint escape (s : string) : string :=
  match s with
  | EmptyString => ""
  | String c s' => escape_char c +:+ escape s'
  end.

Definition quote (s : string) : string := str1 dquote +:+ escape s +:+ str1 dquote.

Definition key_le (a b : string * string) : Prop := String.leb a.1 b.1 = true.
#[export] Instance key_le_dec a b : Decision (key_le a b).
Proof. unfold key_le. apply _. Defined.

(** [json.dumps(value, ensure_ascii=False, sort_keys=True, separators=(",", ":"))] *)
Fixpoint json_dumps (j : json) : string :=
  match j with
  | JNull => "null"
  | JBool true => "true"
  | JBool false => "false"
  | JInt z => str_of_int z
  | JFloat r => r
  | JStr s => quote s
  | JArr l => "[" +:+ join "," (map json_dumps l) +:+ "]"
  | JObj kvs =>
      let printed := map (λ kv, (kv.1, json_dumps kv.2)) kvs in
      "{" +:+ join "," (map (λ kv, quote kv.1 +:+ ":" +:+ kv.2) (merge_sort key_le printed)) +:+ "}"
  end.

(** No number of the document is NaN or an infinity. *)
Fixpoint finite (j : json) : bool :=
  match j with
  | JFloat r => negb (bool_decide (r ∈ ["NaN"; "Infinity"; "-Infinity"]))
  | JArr l => forallb finite l
  | JObj d => forallb (λ kv, finite kv.2) d
  | _ => true
  end.

(** [json.dumps(..., allow_nan=False)] *)
Definition json_dumps_finite (j : json) : res string :=
  if finite j then Ok (json_dumps j)
  else Err (ValueError "Out of range float values are not JSON compliant").

(** ** [json.loads] *)

Definition is_ws (c : ascii) : bool :=
  existsb (λ b, byte_of c =? b) [32; 9; 10; 13].

Fixpoint skip_ws (s : string) : string :=
  match s with
  | String c s' => if is_ws c then skip_ws s' else s
  | EmptyString => s
  end.

Definition digit_val (c : ascii) : option Z :=
  let b := byte_of c in if (48 <=? b) && (b <=? 57) then Some (b - 48) else None.

Definition hex_val (c : ascii) : option Z :=
  let b := byte_of c in
  if (48 <=? b) && (b <=? 57) then Some (b - 48)
  else if (97 <=? b) && (b <=? 102) then Some (b - 87)
  else if (65 <=? b) && (b <=? 70) then Some (b - 55) else None.

(** The body of a string literal, after its opening quote. *)
Fixpoint parse_str (s : string) (acc : list Z) : option (list Z * string) :=
  match s with
  | EmptyString => None
  | String c s' =>
      if decide (c = dquote) then Some (acc, s')
      else if decide (c = backslash) then
        match s' with
        | String e r =>
            match byte_of e with
            | 34 | 92 | 47 => parse_str r (acc ++ [byte_of e])
            | 110 => parse_str r (acc ++ [10])
            | 114 => parse_str r (acc ++ [13])
            | 116 => parse_str r (acc ++ [9])
            | 98 => parse_str r (acc ++ [8])
            | 102 => parse_str r (acc ++ [12])
            | 117 =>
                match r with
                | String h1 (String h2 (String h3 (String h4 r'))) =>
                    match hex_val h1, hex_val h2, hex_val h3, hex_val h4 with
                    | Some a, Some b, Some c, Some d =>
                        parse_str r' (acc ++ utf8_encode1 (((a * 16 + b) * 16 + c) * 16 + d))
                    | _, _, _, _ => None
                    end
                | _ => None
                end
            | _ => None
            end
        | EmptyString => None
        end
      else if byte_of c <? 32 then None
      else parse_str s' (acc ++ [byte_of c])
  end.

Definition num_char (c : ascii) : bool :=
  is_some (digit_val c) || existsb (λ b, byte_of c =? b) [43; 45; 46; 69; 101].

Fixpoint span_num (s : string) : string * string :=
  match s with
  | String c s' => if num_char c then let '(a, r) := span_num s' in (String c a, r) else ("", s)
  | EmptyString => ("", s)
  end.

Fixpoint digits_val (s : string) (acc : Z) : option Z :=
  match s with
  | EmptyString => Some acc
  | String c s' => d ← digit_val c; digits_val s' (acc * 10 + d)
  end.

(** An integer literal has no leading zero; any other number is kept as written. *)
Definition number_of (tok : string) : option json :=
  match tok with
  | EmptyString => None
  | String c r =>
      let neg := bool_decide (c = "-"%char) in
      let body := if neg then r else tok in
      match body with
      | EmptyString => None
      | String "0" EmptyString => Some (JInt 0)
      | String "0" _ => if is_some (digits_val body 0) then None else Some (JFloat tok)
      | String d _ =>
          if is_none (digit_val d) then None else
          match digits_val body 0 with
          | Some v => Some (JInt (if neg then - v else v))
          | None => Some (JFloat tok)
          end
      end
  end.

(** The parser proper; [fuel] bounds the nesting and is never exhausted on an
    input whose length it exceeds. *)
Fixpoint parse_value (fuel : nat) (s : string) : option (json * string) :=
  match fuel with
  | O => None
  | S fuel' =>
      match skip_ws s with
      | EmptyString => None
      | String "n" (String "u" (String "l" (String "l" r))) => Some (JNull, r)
      | String "t" (String "r" (String "u" (String "e" r))) => Some (JBool true, r)
      | String "f" (String "a" (String "l" (String "s" (String "e" r)))) => Some (JBool false, r)
      | String "N" (String "a" (String "N" r)) => Some (JFloat "NaN", r)
      | String "I" (String "n" (String "f" (String "i" (String "n" (String "i" (String "t"
          (String "y" r))))))) => Some (JFloat "Infinity", r)
      | String "-" (String "I" (String "n" (String "f" (String "i" (String "n" (String "i" (String "t"
          (String "y" r)))))))) => Some (JFloat "-Infinity", r)
      | String "[" r =>
          match skip_ws r with
          | String "]" r' => Some (JArr [], r')
          | _ => '(l, r') ← parse_items fuel' r; Some (JArr l, r')
          end
      | String "{" r =>
          match skip_ws r with
          | String "}" r' => Some (JObj [], r')
          | _ => '(l, r') ← parse_fields fuel' r []; Some (JObj l, r')
          end
      | String c r =>
          if decide (c = dquote) then '(b, r') ← parse_str r []; Some (JStr (bytes_to_string b), r')
          else let '(tok, r') := span_num (String c r) in j ← number_of tok; Some (j, r')
      end
  end
with parse_items (fuel : nat) (s : string) : option (list json * string) :=
  match fuel with
  | O => None
  | S fuel' =>
      '(j, r) ← parse_value fuel' s;
      match skip_ws r with
      | String "," r' => '(l, r'') ← parse_items fuel' r'; Some (j :: l, r'')
      | String "]" r' => Some ([j], r')
      | _ => None
      end
  end
with parse_fields (fuel : nat) (s : string) (acc : list (string * json)) :
    option (list (string * json) * string) :=
  match fuel with
  | O => None
  | S fuel' =>
      match skip_ws s with
      | String q r =>
          if decide (q = dquote) then
            '(b, r1) ← parse_str r [];
            match skip_ws r1 with
            | String ":" r2 =>
                '(j, r3) ← parse_value fuel' r2;
                let acc' := dict_set (bytes_to_string b) j acc in
                match skip_ws r3 with
                | String "," r4 => parse_fields fuel' r4 acc'
                | String "}" r4 => Some (acc', r4)
                | _ => None
                end
            | _ => None
            end
          else None
      | EmptyString => None
      end
  end.

(** [json.loads(s)]; [None] is [json.JSONDecodeError]. *)
Definition json_loads (s : string) : option json :=
  '(j, r) ← parse_value (3 * (String.length s + 1)) s;
  match skip_ws r with EmptyString => Some j | _ => None end.

(** ** Bytes *)

(** [bytes.decode("utf-8")] succeeds; [n] continuation bytes are expected, the
    first of them between [lo] and [hi]. *)
Fixpoint utf8_valid (n : nat) (lo hi : Z) (s : string) : bool :=
  match s with
  | EmptyString => (n =? 0)%nat
  | String c s' =>
      let b := byte_of c in
      match n with
      | S m => (lo <=? b) && (b <=? hi) && utf8_valid m 0x80 0xBF s'
      | O => if b <? 0x80 then utf8_valid 0 0x80 0xBF s'
             else if b <? 0xC2 then false
             else if b <? 0xE0 then utf8_valid 1 0x80 0xBF s'
             else if b =? 0xE0 then utf8_valid 2 0xA0 0xBF s'
             else if b =? 0xED then utf8_valid 2 0x80 0x9F s'
             else if b <? 0xF0 then utf8_valid 2 0x80 0xBF s'
             else if b =? 0xF0 then utf8_valid 3 0x90 0xBF s'
             else if b <? 0xF4 then utf8_valid 3 0x80 0xBF s'
             else if b =? 0xF4 then utf8_valid 3 0x80 0x8F s'
             else false
      end
  end.
Definition is_utf8 (s : string) : bool := utf8_valid 0 0x80 0xBF s.

(** ** Known answers *)

Example sha256_abc :
  sha256_hex "abc" = "ba7816bf8f01cfea414140de5dae2223b00361a396177a9cb410ff61f20015ad".
Proof. vm_compute. reflexivity. Qed.

Example json_dumps_sorts :
  json_dumps (JObj [("b", JArr [JInt (-1); JNull]); ("a", JBool true)])
  = "{" +:+ quote "a" +:+ ":true," +:+ quote "b" +:+ ":[-1,null]}".
Proof. vm_compute. reflexivity. Qed.

#[global] Opaque sha256_hex.
