(* ===== verification/PyTime.v ===== *)
(** * PyTime: the part of Python's [datetime] the control plane uses

    A [datetime] is a wall-clock time, in microseconds since
    0001-01-01T00:00:00, with an optional UTC offset in seconds.  The file
    gives [isoformat], [fromisoformat] (on the extended calendar forms that
    [isoformat] writes: YYYY-MM-DDTHH:MM:SS[.ffffff][+HH:MM[:SS]]), ordering
    and shifting, on the proleptic Gregorian calendar of CPython, and proves
    that the two conversions are inverse. *)

From S2P Require Import Prelude PyText.
From Stdlib Require Import Ascii.

#[local] Open Scope Z_scope.

Record datetime : Type := mkdatetime {
  dt_local : Z;
  dt_utcoff : option Z
}.
#[export] Instance datetime_eq_dec : EqDecision datetime.
Proof. solve_decision. Defined.

(** ** Calendar *)

Definition is_leap (y : Z) : bool :=
  (y mod 4 =? 0) && (negb (y mod 100 =? 0) || (y mod 400 =? 0)).

Definition month_lengths (leap : bool) : list Z :=
  [31; if leap then 29 else 28; 31; 30; 31; 30; 31; 31; 30; 31; 30; 31].

Definition days_before_year (y : Z) : Z :=
  (y - 1) * 365 + (y - 1) / 4 - (y - 1) / 100 + (y - 1) / 400.

Definition days_before_month (leap : bool) (m : Z) : Z :=
  foldr Z.add 0 (take (Z.to_nat (m - 1)) (month_lengths leap)).

(** Days since 0001-01-01 of a calendar date. *)
Definition ymd_to_ord (y m d : Z) : Z :=
  days_before_year y + days_before_month (is_leap y) m + (d - 1).

Fixpoint find_month (m : Z) (lens : list Z) (r : Z) : Z * Z :=
  match lens with
  | [] => (m, r + 1)
  | l :: lens' => if r <? l then (m, r + 1) else find_month (m + 1) lens' (r - l)
  end.

Definition ord_to_ymd (n : Z) : Z * Z * Z :=
  let n400 := n / 146097 in
  let r400 := n mod 146097 in
  let n100 := r400 / 36524 in
  let r100 := r400 mod 36524 in
  let n4 := r100 / 1461 in
  let r4 := r100 mod 1461 in
  let n1 := r4 / 365 in
  let r := r4 mod 365 in
  let y := n400 * 400 + n100 * 100 + n4 * 4 + n1 + 1 in
  if (n1 =? 4) || (n100 =? 4) then (y - 1, 12, 31)
  else let '(m, d) := find_month 1 (month_lengths (is_leap y)) r in (y, m, d).

(** ** Printing *)

Definition digit (d : Z) : ascii := byte_to (48 + d).

Fixpoint digits (w : nat) (z : Z) : string :=
  match w with
  | O => ""
  | S w' => String (digit (z / 10 ^ Z.of_nat w')) (digits w' (z mod 10 ^ Z.of_nat w'))
  end.

Definition day_us : Z := 86400000000.

Definition iso_offset (o : option Z) : string :=
  match o with
  | None => ""
  | Some off =>
      let a := Z.abs off in
      (if off <? 0 then "-" else "+") +:+ digits 2 (a / 3600) +:+ ":" +:+ digits 2 (a / 60 mod 60)
      +:+ (if a mod 60 =? 0 then "" else ":" +:+ digits 2 (a mod 60))
  end.

Definition isoformat (dt : datetime) : string :=
  let '(y, m, d) := ord_to_ymd (dt_local dt / day_us) in
  let us := dt_local dt mod day_us in
  let s := us / 1000000 in
  digits 4 y +:+ "-" +:+ digits 2 m +:+ "-" +:+ digits 2 d +:+ "T"
  +:+ digits 2 (s / 3600) +:+ ":" +:+ digits 2 (s / 60 mod 60) +:+ ":" +:+ digits 2 (s mod 60)
  +:+ (if us mod 1000000 =? 0 then "" else "." +:+ digits 6 (us mod 1000000))
  +:+ iso_offset (dt_utcoff dt).

(** ** Parsing *)

Fixpoint take_digits (w : nat) (s : string) (acc : Z) : option (Z * string) :=
  match w, s with
  | O, _ => Some (acc, s)
  | S w', String c s' => d ← digit_val c; take_digits w' s' (acc * 10 + d)
  | S _, EmptyString => None
  end.

Definition expect (c : ascii) (s : string) : option string :=
  match s with
  | String c' s' => if decide (c = c') then Some s' else None
  | EmptyString => None
  end.

Definition parse_offset (s : string) : option (option Z) :=
  match s with
  | EmptyString => Some None
  | String c s1 =>
      sign ← (if decide (c = "+"%char) then Some 1
              else if decide (c = "-"%char) then Some (-1) else None);
      '(h, s2) ← take_digits 2 s1 0;
      s3 ← expect ":" s2;
      '(m, s4) ← take_digits 2 s3 0;
      '(sec, s5) ← match s4 with
                   | EmptyString => Some (0, "")
                   | _ => s5 ← expect ":" s4; take_digits 2 s5 0
                   end;
      if (h <? 24) && (m <? 60) && (sec <? 60) && bool_decide (s5 = "")
      then Some (Some (sign * (h * 3600 + m * 60 + sec))) else None
  end.

Definition parse_fraction (s : string) : option (Z * string) :=
  match s with
  | String "." s1 => take_digits 6 s1 0
  | _ => Some (0, s)
  end.

(** [datetime.fromisoformat(s)]; [None] is its [ValueError]. *)
Definition fromisoformat (s : string) : option datetime :=
  '(y, s) ← take_digits 4 s 0;
  s ← expect "-" s;
  '(m, s) ← take_digits 2 s 0;
  s ← expect "-" s;
  '(d, s) ← take_digits 2 s 0;
  s ← expect "T" s;
  '(hh, s) ← take_digits 2 s 0;
  s ← expect ":" s;
  '(mm, s) ← take_digits 2 s 0;
  s ← expect ":" s;
  '(ss, s) ← take_digits 2 s 0;
  '(us, s) ← parse_fraction s;
  off ← parse_offset s;
  if (1 <=? y) && (1 <=? m) && (m <=? 12) && (1 <=? d)
     && (d <=? default 0 (month_lengths (is_leap y) !! Z.to_nat (m - 1)))
     && (hh <? 24) && (mm <? 60) && (ss <? 60)
  then Some (mkdatetime (ymd_to_ord y m d * day_us
                         + (hh * 3600 + mm * 60 + ss) * 1000000 + us) off)
  else None.

(** [s.replace("Z", "+00:00")] *)
Fixpoint replace_Z (s : string) : string :=
  match s with
  | EmptyString => ""
  | String c s' => if decide (c = "Z"%char) then "+00:00" +:+ replace_Z s' else String c (replace_Z s')
  end.

Definition parse_iso (s : string) : res datetime :=
  res_of_option (ValueError "Invalid isoformat string") (fromisoformat s).

(** ** Ordering and shifting *)

Definition max_local : Z := 3652059 * day_us.

(** The instant of an aware datetime, in microseconds of UTC. *)
Definition instant (dt : datetime) : Z :=
  dt_local dt - default 0 (dt_utcoff dt) * 1000000.

(** [a < b]: comparing an aware with a naive datetime raises [TypeError]. *)
Definition dt_lt (a b : datetime) : res bool :=
  if bool_decide (is_some (dt_utcoff a) = is_some (dt_utcoff b))
  then Ok (instant a <? instant b)
  else Err (TypeError "can't compare offset-naive and offset-aware datetimes").

(** [datetime.fromtimestamp(a.timestamp() + delay, tz=a.tzinfo)], with the
    delay in microseconds. *)
Definition dt_shift (a : datetime) (us : Z) : res datetime :=
  let l := dt_local a + us in
  if (0 <=? l) && (l <? max_local) then Ok (mkdatetime l (dt_utcoff a))
  else Err (ValueError "year is out of range").

Definition dt_valid (dt : datetime) : Prop :=
  0 ≤ dt_local dt < max_local ∧
  match dt_utcoff dt with Some o => -86400 < o < 86400 | None => True end.

(** ** Inversion of the calendar *)

#[local] Ltac Zify.zify_post_hook ::= Z.div_mod_to_equations.

(** Evaluate calendar tables at a closed month. *)
Ltac eval_calendar :=
  repeat match goal with
  | |- context [days_before_month ?l ?m] =>
      let t := eval vm_compute in (days_before_month l m) in change (days_before_month l m) with t
  | |- context [default 0 (month_lengths ?l !! ?k)] =>
      let t := eval vm_compute in (default 0 (month_lengths l !! k)) in
      change (default 0 (month_lengths l !! k)) with t
  end.

Lemma find_month_ok (leap : bool) (r m d : Z) :
  0 ≤ r < (if leap then 366 else 365) →
  find_month 1 (month_lengths leap) r = (m, d) →
  1 ≤ m ≤ 12 ∧ 1 ≤ d ∧ days_before_month leap m + (d - 1) = r ∧
  d ≤ default 0 (month_lengths leap !! Z.to_nat (m - 1)).
Proof.
  intros Hr. destruct leap; simpl;
    repeat (match goal with |- context [?a <? ?b] => destruct (Z.ltb_spec a b) end;
            [intros [= <- <-]; eval_calendar; lia|]);
    intros [= <- <-]; lia.
Qed.

(** The year that CPython's [_ord2ymd] computes starts at or before [n]. *)
Lemma cycle_year n400 n100 n4 n1 :
  0 ≤ n400 → 0 ≤ n100 ≤ 3 → 0 ≤ n4 ≤ 24 → 0 ≤ n1 ≤ 3 →
  let y := n400 * 400 + n100 * 100 + n4 * 4 + n1 + 1 in
  days_before_year y = n400 * 146097 + n100 * 36524 + n4 * 1461 + n1 * 365 ∧
  is_leap y = (n1 =? 3) && (negb (n4 =? 24) || (n100 =? 3)).
Proof.
  intros H1 H2 H3 H4 y. unfold days_before_year, is_leap.
  assert (y = n400 * 400 + n100 * 100 + n4 * 4 + n1 + 1) as Hy by done. clearbody y.
  assert ((y - 1) / 4 = n400 * 100 + n100 * 25 + n4) as -> by lia.
  assert ((y - 1) / 100 = n400 * 4 + n100) as -> by lia.
  assert ((y - 1) / 400 = n400) as -> by lia.
  split; [lia|].
  assert (y mod 4 =? 0 = (n1 =? 3)) as -> by lia.
  destruct (Z.eqb_spec n1 3) as [->|]; [|done]. simpl.
  assert (y mod 100 =? 0 = (n4 =? 24)) as -> by lia.
  destruct (Z.eqb_spec n4 24) as [->|]; [|done]. simpl. lia.
Qed.

Lemma month_length_le leap m :
  1 ≤ m ≤ 12 → default 0 (month_lengths leap !! Z.to_nat (m - 1)) ≤ 31.
Proof.
  intros H. assert (m ∈ [1;2;3;4;5;6;7;8;9;10;11;12]) as Hm
    by (apply list_elem_of_In; simpl; lia).
  elem_cases Hm; subst; destruct leap; vm_compute; done.
Qed.

Lemma ord_ymd_inv n y m d :
  0 ≤ n < 3652059 → ord_to_ymd n = (y, m, d) →
  ymd_to_ord y m d = n ∧ 1 ≤ y ≤ 9999 ∧ 1 ≤ m ≤ 12 ∧ 1 ≤ d ≤ 31 ∧
  d ≤ default 0 (month_lengths (is_leap y) !! Z.to_nat (m - 1)).
Proof.
  intros Hn. unfold ord_to_ymd, ymd_to_ord.
  set (n400 := n / 146097). set (r400 := n mod 146097).
  set (n100 := r400 / 36524). set (r100 := r400 mod 36524).
  set (n4 := r100 / 1461). set (r4 := r100 mod 1461).
  set (n1 := r4 / 365). set (r := r4 mod 365).
  assert (0 ≤ n400 ≤ 24) by (unfold n400; lia).
  assert (n = n400 * 146097 + r400 ∧ 0 ≤ r400 < 146097) as [? ?]
    by (unfold n400, r400; lia).
  assert (r400 = n100 * 36524 + r100 ∧ 0 ≤ r100 < 36524 ∧ 0 ≤ n100 ≤ 4) as (? & ? & ?)
    by (unfold n100, r100; lia).
  assert (r100 = n4 * 1461 + r4 ∧ 0 ≤ r4 < 1461 ∧ 0 ≤ n4 ≤ 24) as (? & ? & ?)
    by (unfold n4, r4; lia).
  assert (r4 = n1 * 365 + r ∧ 0 ≤ r < 365 ∧ 0 ≤ n1 ≤ 4) as (? & ? & ?)
    by (unfold n1, r; lia).
  clearbody n400 r400 n100 r100 n4 r4 n1 r.
  destruct (Z.eqb_spec n1 4) as [->|Hn1]; [|destruct (Z.eqb_spec n100 4) as [->|Hn100]]; cbn [orb].
  - intros [= <- <- <-].
    assert (n100 ≤ 3) by lia.
    destruct (cycle_year n400 n100 n4 3) as [Hd Hl]; try lia.
    replace (n400 * 400 + n100 * 100 + n4 * 4 + 4 + 1 - 1)
      with (n400 * 400 + n100 * 100 + n4 * 4 + 3 + 1) by lia.
    rewrite Hd, Hl.
    assert ((3 =? 3) && (negb (n4 =? 24) || (n100 =? 3)) = true) as -> by lia. eval_calendar. lia.
  - intros [= <- <- <-].
    assert (n4 = 0 ∧ n1 = 0 ∧ r = 0) as (-> & -> & ->) by lia.
    destruct (cycle_year n400 3 24 3) as [Hd Hl]; try lia.
    replace (n400 * 400 + 4 * 100 + 0 * 4 + 0 + 1 - 1)
      with (n400 * 400 + 3 * 100 + 24 * 4 + 3 + 1) by lia.
    rewrite Hd, Hl. simpl (_ && _). eval_calendar. lia.
  - destruct (cycle_year n400 n100 n4 n1) as [Hd Hl]; try lia.
    set (y0 := n400 * 400 + n100 * 100 + n4 * 4 + n1 + 1) in *.
    destruct (find_month 1 (month_lengths (is_leap y0)) r) as [m' d'] eqn:Hf. intros [= <- <- <-].
    assert (y0 ≤ 9999) by (unfold y0; lia).
    apply find_month_ok in Hf as (? & ? & Hr & Hle); [|destruct (is_leap _); lia].
    pose proof (month_length_le (is_leap y0) m' ltac:(lia)).
    repeat split; lia.
Qed.

(** ** Inversion of the digits *)

Lemma digit_val_digit d : 0 ≤ d ≤ 9 → digit_val (digit d) = Some d.
Proof.
  intros H. assert (d ∈ [0;1;2;3;4;5;6;7;8;9]) as Hd by (apply list_elem_of_In; simpl; lia).
  elem_cases Hd; subst; reflexivity.
Qed.

Lemma take_digits_digits w : ∀ z r acc,
  0 ≤ z < 10 ^ Z.of_nat w →
  take_digits w (digits w z +:+ r) acc = Some (acc * 10 ^ Z.of_nat w + z, r).
Proof.
  induction w as [|w IH]; intros z r acc Hz; simpl.
  - assert (z = 0) as -> by (simpl in Hz; lia). simpl. do 2 f_equal. lia.
  - rewrite Nat2Z.inj_succ, Z.pow_succ_r in Hz |- * by lia.
    assert (0 < 10 ^ Z.of_nat w) by lia.
    pose proof (Z.div_mod z (10 ^ Z.of_nat w)).
    pose proof (Z.mod_pos_bound z (10 ^ Z.of_nat w)).
    rewrite digit_val_digit.
    2:{ split; [apply Z.div_pos; lia|]. apply Z.lt_succ_r, Z.div_lt_upper_bound; lia. }
    cbn [mbind option_bind]. rewrite IH by lia. do 2 f_equal. nia.
Qed.

Lemma take_digits2 z r : 0 ≤ z < 100 → take_digits 2 (digits 2 z +:+ r) 0 = Some (z, r).
Proof. intros. rewrite take_digits_digits by (simpl; lia). do 2 f_equal; lia. Qed.
Lemma take_digits4 z r : 0 ≤ z < 10000 → take_digits 4 (digits 4 z +:+ r) 0 = Some (z, r).
Proof. intros. rewrite take_digits_digits by (simpl; lia). do 2 f_equal; lia. Qed.
Lemma take_digits6 z r : 0 ≤ z < 1000000 → take_digits 6 (digits 6 z +:+ r) 0 = Some (z, r).
Proof. intros. rewrite take_digits_digits by (simpl; lia). do 2 f_equal; lia. Qed.

Lemma expect_cons c s : expect c (String c s) = Some s.
Proof. simpl. by rewrite decide_True. Qed.

Lemma sapp_cons c s t : String c s +:+ t = String c (s +:+ t).
Proof. done. Qed.
Lemma sapp_nil t : "" +:+ t = t.
Proof. done. Qed.
Lemma sapp_assoc (a b c : string) : (a +:+ b) +:+ c = a +:+ (b +:+ c).
Proof. induction a as [|x a IH]; [done|]. by rewrite !sapp_cons, IH. Qed.
Lemma sapp_nil_r (a : string) : a +:+ "" = a.
Proof. induction a as [|x a IH]; [done|]. by rewrite !sapp_cons, IH. Qed.

#[local] Opaque digits take_digits.

(** One field of a timestamp: its digits or its separator. *)
Ltac field :=
  rewrite ?sapp_assoc, ?sapp_cons, ?sapp_nil;
  first [rewrite take_digits2 by lia | rewrite take_digits4 by lia | rewrite expect_cons];
  cbn [mbind option_bind].

Lemma parse_offset_iso o :
  match o with Some o => -86400 < o < 86400 | None => True end →
  parse_offset (iso_offset o) = Some o.
Proof.
  destruct o as [o|]; [|done]. intros Ho. unfold iso_offset.
  set (a := Z.abs o). assert (0 ≤ a < 86400) by lia.
  assert (∃ c sgn, (if o <? 0 then "-" else "+") = str1 c ∧ o = sgn * a ∧
      (if decide (c = "+"%char) then Some 1
       else if decide (c = "-"%char) then Some (-1) else None) = Some sgn) as (c & sgn & -> & Hs & Hc).
  { destruct (Z.ltb_spec o 0); [exists "-"%char, (-1) | exists "+"%char, 1]; repeat split; lia. }
  clearbody a. unfold str1. rewrite sapp_cons, sapp_nil. unfold parse_offset. rewrite Hc.
  cbn [mbind option_bind]. do 2 field.
  destruct (Z.eqb_spec (a mod 60) 0) as [Hz|Hz].
  - rewrite take_digits2 by lia. cbn [mbind option_bind].
    assert ((a / 3600 <? 24) && (a / 60 mod 60 <? 60) && (0 <? 60) && bool_decide ("" = "") = true)
      as -> by (rewrite bool_decide_true by done; lia).
    rewrite Hs. do 3 f_equal. lia.
  - do 2 field.
    rewrite <- (sapp_nil_r (digits 2 (a mod 60))), take_digits2 by lia. cbn [mbind option_bind].
    assert ((a / 3600 <? 24) && (a / 60 mod 60 <? 60) && (a mod 60 <? 60) && bool_decide ("" = "") = true)
      as -> by (rewrite bool_decide_true by done; lia).
    rewrite Hs. do 3 f_equal. lia.
Qed.

Lemma parse_fraction_iso u r :
  0 ≤ u < 1000000 → (u = 0 → match r with String "." _ => False | _ => True end) →
  parse_fraction ((if u =? 0 then "" else "." +:+ digits 6 u) +:+ r) = Some (u, r).
Proof.
  intros Hu Hr. destruct (Z.eqb_spec u 0) as [->|].
  - rewrite sapp_nil. destruct r as [|c r]; [done|]. specialize (Hr eq_refl).
    destruct c as [[] [] [] [] [] [] [] []]; done.
  - rewrite !sapp_cons, sapp_nil. simpl. by rewrite take_digits6.
Qed.

Lemma iso_offset_head o : match iso_offset o with String "." _ => False | _ => True end.
Proof. destruct o as [o|]; [|done]. unfold iso_offset. by destruct (o <? 0). Qed.

(** [datetime.fromisoformat] inverts [isoformat]. *)
Lemma fromisoformat_isoformat dt : dt_valid dt → fromisoformat (isoformat dt) = Some dt.
Proof.
  intros [Hl Ho]. unfold isoformat, max_local, day_us in *.
  destruct (ord_to_ymd _) as [[y m] d] eqn:Hc.
  apply ord_ymd_inv in Hc as (Hord & Hy & Hm & Hd & Hd'); [|lia].
  set (us := dt_local dt mod 86400000000) in *. set (s := us / 1000000) in *.
  assert (0 ≤ us < 86400000000) by (unfold us; lia).
  assert (0 ≤ s < 86400) by (unfold s; lia).
  unfold fromisoformat. do 11 field.
  rewrite parse_fraction_iso; [|lia|intros _; apply iso_offset_head]. cbn [mbind option_bind].
  rewrite parse_offset_iso by done. cbn [mbind option_bind].
  rewrite (proj2 (Z.leb_le 1 y)), (proj2 (Z.leb_le 1 m)), (proj2 (Z.leb_le m 12)),
    (proj2 (Z.leb_le 1 d)), (proj2 (Z.leb_le d _)) by lia.
  assert ((s / 3600 <? 24) = true ∧ (s / 60 mod 60 <? 60) = true ∧ (s mod 60 <? 60) = true)
    as (-> & -> & ->) by lia.
  cbn [andb]. destruct dt as [l o]; cbn [dt_local dt_utcoff] in *. do 2 f_equal.
  rewrite Hord. unfold s, us, day_us. lia.
Qed.

Lemma parse_iso_isoformat dt : dt_valid dt → parse_iso (isoformat dt) = Ok dt.
Proof. intros H. unfold parse_iso. by rewrite fromisoformat_isoformat. Qed.

Example isoformat_ex :
  isoformat (mkdatetime (ymd_to_ord 2026 2 28 * day_us + 3600000000 + 5) (Some 28800))
  = "2026-02-28T01:00:00.000005+08:00".
Proof. vm_compute. reflexivity. Qed.

(** ** Bounds of parsed timestamps *)

Lemma digit_val_bound c d : digit_val c = Some d → 0 ≤ d ≤ 9.
Proof. unfold digit_val. destruct (_ && _) eqn:E; [|done]. intros [= <-]. lia. Qed.

#[local] Transparent take_digits.
Lemma take_digits_nonneg w : ∀ s acc z r,
  0 ≤ acc → take_digits w s acc = Some (z, r) → 0 ≤ z.
Proof.
  induction w as [|w IH]; intros s acc z r Hacc; simpl; [by intros [= <- <-]|].
  destruct s as [|c s]; [done|]. intros (d & Hd & H)%bind_Some.
  apply digit_val_bound in Hd. apply (IH s (acc * 10 + d) z r); [lia|done].
Qed.
#[local] Opaque take_digits.

Lemma parse_offset_bound s o :
  parse_offset s = Some o → match o with Some o => -86400 < o < 86400 | None => True end.
Proof.
  unfold parse_offset. destruct s as [|c s]; [by intros [= <-]|].
  intros (sgn & Hs & H)%bind_Some.
  assert (sgn = 1 ∨ sgn = -1) as Hsgn by (repeat case_decide; simplify_eq; auto).
  apply bind_Some in H as ([h s2] & Hh & H). apply take_digits_nonneg in Hh; [|done].
  apply bind_Some in H as (s3 & _ & H).
  apply bind_Some in H as ([m s4] & Hm & H). apply take_digits_nonneg in Hm; [|done].
  apply bind_Some in H as ([sec s5] & Hsec & H).
  assert (0 ≤ sec).
  { destruct s4; [by simplify_eq|]. apply bind_Some in Hsec as (? & _ & Hsec).
    by apply take_digits_nonneg in Hsec. }
  destruct (_ && _) eqn:E in H; simplify_eq. repeat (apply andb_true_iff in E as [E ?]). lia.
Qed.

Lemma fromisoformat_offset s dt :
  fromisoformat s = Some dt →
  match dt_utcoff dt with Some o => -86400 < o < 86400 | None => True end.
Proof.
  unfold fromisoformat. intros H.
  repeat match type of H with
  | mbind _ _ = Some _ =>
      let x := fresh "x" in let Hx := fresh "Hx" in
      apply bind_Some in H as (x & Hx & H); try destruct x as [? ?]
  end.
  destruct (_ && _) in H; simplify_eq. simpl.
  match goal with H : parse_offset _ = Some _ |- _ => by apply parse_offset_bound in H end.
Qed.

(** Shifting a parsed timestamp gives one that prints and parses back. *)
Lemma dt_shift_valid s a us b :
  fromisoformat s = Some a → dt_shift a us = Ok b → dt_valid b ∧ dt_local b = dt_local a + us
  ∧ dt_utcoff b = dt_utcoff a.
Proof.
  intros Ha%fromisoformat_offset. unfold dt_shift, dt_valid.
  destruct (_ && _) eqn:E; [|done]. intros [= <-]. simpl. split_and!; first [done|lia].
Qed.
