(* ===== verification/Sanitizer.v ===== *)
(** * Sanitizer: the sanitizer of gateway/audit.py

    [AuditSanitizer] runs three regular expressions.  Each is given here as
    the matcher it denotes, on code points, with Python's Unicode case folding
    and Unicode white space.  The two inline patterns are deterministic (no
    two of their alternatives or adjacent character classes overlap), so the
    leftmost greedy match needs no backtracking. *)

From S2P Require Import Prelude PyText.

#[local] Open Scope Z_scope.

(** ** Characters *)

(** Case folding onto ASCII lower case under [re.IGNORECASE]: besides the
    upper-case letters, U+0130, U+0131, U+017F and U+212A fold onto letters. *)
Definition fold_char (c : Z) : Z :=
  if (65 <=? c) && (c <=? 90) then c + 32
  else if (c =? 0x130) || (c =? 0x131) then 105
  else if c =? 0x17F then 115
  else if c =? 0x212A then 107
  else c.

(** [\s] on str patterns. *)
Definition is_space (c : Z) : bool :=
  ((9 <=? c) && (c <=? 13)) || ((28 <=? c) && (c <=? 32)) || (c =? 0x85) || (c =? 0xA0)
  || (c =? 0x1680) || ((0x2000 <=? c) && (c <=? 0x200A)) || (c =? 0x2028) || (c =? 0x2029)
  || (c =? 0x202F) || (c =? 0x205F) || (c =? 0x3000).

Definition ascii_points (s : string) : list Z := map byte_of (String.list_ascii_of_string s).

(** ** Matchers *)

(** A literal, ignoring case. *)
Fixpoint match_lit (lit s : list Z) : option (list Z) :=
  match lit, s with
  | [], _ => Some s
  | x :: lit', c :: s' => if fold_char c =? x then match_lit lit' s' else None
  | _ :: _, [] => None
  end.

(** The longest prefix whose characters satisfy [p], and the rest. *)
Fixpoint span (p : Z → bool) (s : list Z) : list Z * list Z :=
  match s with
  | c :: s' => if p c then let '(a, r) := span p s' in (c :: a, r) else ([], s)
  | [] => ([], [])
  end.

(** [[_-]?] *)
Definition skip_sep (s : list Z) : list Z :=
  match s with c :: s' => if (c =? 95) || (c =? 45) then s' else s | [] => [] end.

(** [a[_-]?b]: no keyword part begins with a separator. *)
Definition match_pair (a b : list Z) (s : list Z) : option (list Z) :=
  r ← match_lit a s; match_lit b (skip_sep r).

Definition first_match (ms : list (list Z → option (list Z))) (s : list Z) : option (list Z) :=
  foldr (λ m acc, match m s with Some r => Some r | None => acc end) None ms.

(** Does a match of [m] start somewhere in [s]? *)
Fixpoint searches (m : list Z → option (list Z)) (s : list Z) : bool :=
  is_some (m s) || match s with _ :: s' => searches m s' | [] => false end.

(* source: gateway/audit.py:12-15 AuditSanitizer *)
Definition sensitive_at : list Z → option (list Z) := first_match
  [match_pair (ascii_points "api") (ascii_points "key"); match_lit (ascii_points "authorization"); match_lit (ascii_points "cookie");
   match_lit (ascii_points "password"); match_lit (ascii_points "passwd"); match_lit (ascii_points "secret");
   match_pair (ascii_points "access") (ascii_points "token"); match_pair (ascii_points "refresh") (ascii_points "token")].

(** [_SENSITIVE_KEY.search(key)] *)
(* source: gateway/audit.py:12-15 AuditSanitizer._SENSITIVE_KEY *)
Definition sensitive_key (key : string) : bool := searches sensitive_at (code_points key).

(** Characters of a bearer token: [[A-Za-z0-9._~+/=-]]. *)
(* source: gateway/audit.py:17-17 AuditSanitizer *)
Definition token_char (c : Z) : bool :=
  let f := fold_char c in
  ((97 <=? f) && (f <=? 122)) || ((48 <=? f) && (f <=? 57))
  || existsb (Z.eqb f) [46; 95; 126; 43; 47; 61; 45].

(** Characters of a value: [[^\s,;]]. *)
(* source: gateway/audit.py:18-18 AuditSanitizer *)
Definition value_char (c : Z) : bool := negb (is_space c || (c =? 44) || (c =? 59)).

(** The part of [s] a matcher consumed, given what it left. *)
Definition consumed (s rest : list Z) : list Z := take (length s - length rest) s.

(** The first pattern: [bearer], white space (group 1), then a token.  A
    matcher returns group 1 and what follows the match. *)
(* source: gateway/audit.py:17-17 AuditSanitizer *)
Definition match_bearer (s : list Z) : option (list Z * list Z) :=
  r ← match_lit (ascii_points "bearer") s;
  let '(ws, r1) := span is_space r in
  let '(tok, r2) := span token_char r1 in
  match ws, tok with
  | _ :: _, _ :: _ => Some (consumed s r1, r2)
  | _, _ => None
  end.

(* source: gateway/audit.py:18-18 AuditSanitizer *)
Definition secret_word : list Z → option (list Z) := first_match
  [match_pair (ascii_points "api") (ascii_points "key"); match_lit (ascii_points "token");
   match_lit (ascii_points "password"); match_lit (ascii_points "secret")].

(** The second pattern: a secret word, white space, [=] or [:], white space
    (all of it group 1), then a value. *)
(* source: gateway/audit.py:18-18 AuditSanitizer *)
Definition match_assignment (s : list Z) : option (list Z * list Z) :=
  r ← secret_word s;
  match (span is_space r).2 with
  | c :: r1 =>
      if (c =? 61) || (c =? 58) then
        let r2 := (span is_space r1).2 in
        let '(v, r3) := span value_char r2 in
        match v with _ :: _ => Some (consumed s r2, r3) | [] => None end
      else None
  | [] => None
  end.

(* source: gateway/audit.py:16-19 AuditSanitizer._INLINE *)
Definition INLINE : list (list Z → option (list Z * list Z)) := [match_bearer; match_assignment].

(** [pattern.sub(r"\1[REDACTED]", s)]: leftmost matches, left to right.  Every
    step consumes at least one character, so [length s] steps suffice. *)
Fixpoint redact (m : list Z → option (list Z * list Z)) (fuel : nat) (s : list Z) : list Z :=
  match fuel, s with
  | S fuel', c :: s' =>
      match m s with
      | Some (g, r) => g ++ (ascii_points "[REDACTED]") ++ redact m fuel' r
      | None => c :: redact m fuel' s'
      end
  | _, _ => s
  end.

Definition pattern_sub (m : list Z → option (list Z * list Z)) (s : list Z) : list Z :=
  redact m (length s) s.

(* source: gateway/audit.py:25-25 AuditSanitizer.sanitize *)
Definition REDACTED : string := "[REDACTED]".

(** ** [AuditSanitizer.sanitize] *)

(** The branch for [str]. *)
(* source: gateway/audit.py:31-35 AuditSanitizer.sanitize *)
Definition sanitize_text (s : string) : string :=
  of_code_points (foldl (λ acc m, pattern_sub m acc) (code_points s) INLINE).

(* source: gateway/audit.py:21-36 AuditSanitizer.sanitize *)
Fixpoint sanitize (value : json) : json :=
  match value with
  | JObj fields =>
      JObj (map (λ kv, (kv.1, if sensitive_key kv.1 then JStr REDACTED else sanitize kv.2)) fields)
  | JArr items => JArr (map sanitize items)
  | JStr s => JStr (sanitize_text s)
  | JNull | JBool _ | JInt _ | JFloat _ => value
  end.

(** [AuditSanitizer.sanitize] on a dict, kept as a dict. *)
(* source: gateway/audit.py:23-27 AuditSanitizer.sanitize *)
Definition sanitize_dict (d : list (string * json)) : list (string * json) :=
  map (λ kv, (kv.1, if sensitive_key kv.1 then JStr REDACTED else sanitize kv.2)) d.

Lemma sanitize_JObj d : sanitize (JObj d) = JObj (sanitize_dict d).
Proof. done. Qed.

(** ** Induction over JSON documents *)

Section json_ind'.
Variable P : json → Prop.
Hypothesis Hnull : P JNull.
Hypothesis Hbool : ∀ b, P (JBool b).
Hypothesis Hint : ∀ z, P (JInt z).
Hypothesis Hfloat : ∀ r, P (JFloat r).
Hypothesis Hstr : ∀ s, P (JStr s).
Hypothesis Harr : ∀ l, Forall P l → P (JArr l).
Hypothesis Hobj : ∀ d, Forall (λ kv, P kv.2) d → P (JObj d).

Fixpoint json_ind' (j : json) : P j :=
  match j with
  | JNull => Hnull
  | JBool b => Hbool b
  | JInt z => Hint z
  | JFloat r => Hfloat r
  | JStr s => Hstr s
  | JArr l => Harr l
      ((fix go (l : list json) : Forall P l :=
          match l with
          | [] => Forall_nil_2 _
          | x :: l' => Forall_cons_2 _ _ _ (json_ind' x) (go l')
          end) l)
  | JObj d => Hobj d
      ((fix go (d : list (string * json)) : Forall (λ kv, P kv.2) d :=
          match d with
          | [] => Forall_nil_2 _
          | kv :: d' => Forall_cons_2 (λ kv, P kv.2) _ _ (json_ind' kv.2) (go d')
          end) d)
  end.
End json_ind'.

(** ** What a sanitized document keeps *)

(** No value under a sensitive key survives, at any depth. *)
Fixpoint no_secrets (value : json) : bool :=
  match value with
  | JObj fields =>
      forallb (λ kv, if sensitive_key kv.1
                     then match kv.2 with JStr s => bool_decide (s = REDACTED) | _ => false end
                     else no_secrets kv.2) fields
  | JArr items => forallb no_secrets items
  | _ => true
  end.

(** The keys of every object, in order: sanitizing changes no key and drops none. *)
Fixpoint same_shape (a b : json) : bool :=
  match a, b with
  | JObj d1, JObj d2 =>
      (length d1 =? length d2)%nat
      && forallb (λ b, b) (zip_with (λ kv1 kv2, bool_decide (kv1.1 = kv2.1)
                             && (sensitive_key kv1.1 || same_shape kv1.2 kv2.2)) d1 d2)
  | JArr l1, JArr l2 =>
      (length l1 =? length l2)%nat && forallb (λ b, b) (zip_with same_shape l1 l2)
  | JStr _, JStr _ => true
  | JNull, JNull => true
  | JBool x, JBool y => bool_decide (x = y)
  | JInt x, JInt y => bool_decide (x = y)
  | JFloat x, JFloat y => bool_decide (x = y)
  | _, _ => false
  end.

Lemma sanitize_no_secrets value : no_secrets (sanitize value) = true.
Proof.
  induction value as [| | | | |l IH|d IH] using json_ind'; try done; simpl.
  - apply forallb_forall. intros x Hx. apply in_map_iff in Hx as (y & <- & Hy).
    rewrite Forall_forall in IH. apply IH. by apply list_elem_of_In.
  - apply forallb_forall. intros x Hx. apply in_map_iff in Hx as (y & <- & Hy). simpl.
    destruct (sensitive_key y.1) eqn:E; [by rewrite bool_decide_true|].
    rewrite Forall_forall in IH. apply IH. by apply list_elem_of_In.
Qed.

Lemma sanitize_same_shape value : same_shape value (sanitize value) = true.
Proof.
  induction value as [| | | | |l IH|d IH] using json_ind'; try (simpl; by rewrite ?bool_decide_true).
  - simpl. rewrite length_map, Nat.eqb_refl. simpl.
    induction IH as [|x l Hx _ IHl]; [done|]. simpl. by rewrite Hx.
  - simpl. rewrite length_map, Nat.eqb_refl. simpl.
    induction IH as [|x l Hx _ IHl]; [done|]. simpl. rewrite bool_decide_true by done.
    destruct (sensitive_key x.1); simpl; [done|]. by rewrite Hx.
Qed.

Example redact_bearer :
  sanitize_text "Authorization: BEARER  abc.def=/x, token = s3cr;et"
  = "Authorization: BEARER  [REDACTED], token = [REDACTED];et".
Proof. vm_compute. reflexivity. Qed.
Example redact_key : sensitive_key "X-Api-Key" = true ∧ sensitive_key "token" = false.
Proof. vm_compute. done. Qed.
