(* ===== verification/Json.v ===== *)
(** * Json: what [json.dumps] writes, [json.loads] reads

    The printer sorts the keys of every object; the parser returns the document
    with its objects in that order ([json_sort]).  The fuel of [json_loads] is
    enough for everything the printer can write. *)

From S2P Require Import Prelude PyText PyTime Sanitizer.
From Stdlib Require Import Ascii.

#[local] Open Scope Z_scope.

(** ** Documents *)

(** A float, as [json.dumps] writes it. *)
Definition float_token (r : string) : bool :=
  bool_decide (r ∈ ["NaN"; "Infinity"; "-Infinity"])
  || forallb num_char (String.list_ascii_of_string r)
     && match number_of r with Some (JFloat r') => bool_decide (r' = r) | _ => false end.

(** The documents that Python dicts, lists and scalars give: every object has
    distinct keys, every float is a float. *)
Fixpoint json_wf (j : json) : bool :=
  match j with
  | JFloat r => float_token r
  | JArr l => forallb json_wf l
  | JObj d => bool_decide (NoDup d.*1) && forallb (λ kv, json_wf kv.2) d
  | _ => true
  end.

(** Objects with their keys in the order of [sort_keys=True]. *)
Definition field_le (a b : string * json) : Prop := String.leb a.1 b.1 = true.
#[export] Instance field_le_dec a b : Decision (field_le a b).
Proof. unfold field_le. apply _. Defined.

Fixpoint json_sort (j : json) : json :=
  match j with
  | JArr l => JArr (map json_sort l)
  | JObj d => JObj (merge_sort field_le (map (λ kv, (kv.1, json_sort kv.2)) d))
  | _ => j
  end.

(** A bound on the fuel the parser needs. *)
Fixpoint json_need (j : json) : nat :=
  match j with
  | JArr l => S (sum_list_with (λ x, S (json_need x)) l)
  | JObj d => S (sum_list_with (λ kv, S (json_need kv.2)) d)
  | _ => 1
  end%nat.

(** ** Sorting commutes with a map that keeps the order *)

Section sort_map.
Context {A B : Type} (R : A → A → Prop) (S : B → B → Prop) (f : A → B).
Context {HR : ∀ x y, Decision (R x y)} {HS : ∀ x y, Decision (S x y)}.
Hypothesis HRS : ∀ x y, R x y ↔ S (f x) (f y).

Lemma list_merge_map l1 : ∀ l2, map f (list_merge R l1 l2) = list_merge S (map f l1) (map f l2).
Proof.
  induction l1 as [|x l1 IH1]; intros l2; [by destruct l2|].
  induction l2 as [|y l2 IH2]; [done|]. cbn [map]. rewrite !list_merge_cons.
  destruct (decide (R x y)) as [H|H].
  - rewrite decide_True by (by apply HRS). cbn [map]. f_equal. apply (IH1 (y :: l2)).
  - rewrite decide_False by (by rewrite <- HRS). cbn [map]. f_equal. apply IH2.
Qed.

Lemma merge_list_to_stack_map st : ∀ l,
  map (fmap (map f)) (merge_list_to_stack R st l)
  = merge_list_to_stack S (map (fmap (map f)) st) (map f l).
Proof.
  induction st as [|[l'|] st IH]; intros l; [done| |done]. cbn. f_equal. by rewrite IH, list_merge_map.
Qed.

Lemma merge_stack_map st : map f (merge_stack R st) = merge_stack S (map (fmap (map f)) st).
Proof.
  induction st as [|[l|] st IH]; [done| |done]. cbn. by rewrite list_merge_map, IH.
Qed.

Lemma merge_sort_map l : map f (merge_sort R l) = merge_sort S (map f l).
Proof.
  unfold merge_sort. change (@nil (option (list B))) with (map (fmap (map f)) (@nil (option (list A)))).
  generalize (@nil (option (list A))). induction l as [|x l IH]; intros st; cbn [map merge_sort_aux].
  - apply merge_stack_map.
  - by rewrite IH, merge_list_to_stack_map.
Qed.
End sort_map.

(** ** Strings *)

Lemma parse_escape_char c r acc :
  parse_str (escape_char c +:+ r) acc = parse_str r (acc ++ [byte_of c]).
Proof. destruct c as [[] [] [] [] [] [] [] []]; reflexivity. Qed.

Lemma parse_escape s : ∀ r acc,
  parse_str (escape s +:+ String dquote r) acc = Some (acc ++ map byte_of (String.list_ascii_of_string s), r).
Proof.
  induction s as [|c s IH]; intros r acc; cbn [escape].
  - cbn. by rewrite app_nil_r.
  - rewrite sapp_assoc, parse_escape_char, IH. cbn. by rewrite <- app_assoc.
Qed.

Lemma byte_to_of c : byte_to (byte_of c) = c.
Proof. unfold byte_to, byte_of. by rewrite N2Z.id, ascii_N_embedding. Qed.

Lemma bytes_to_string_of s : bytes_to_string (map byte_of (String.list_ascii_of_string s)) = s.
Proof.
  unfold bytes_to_string. induction s as [|c s IH]; [done|]. cbn. by rewrite byte_to_of, IH.
Qed.

Lemma parse_quote s r :
  ('(b, r') ← parse_str (escape s +:+ String dquote r) []; Some (bytes_to_string b, r')) = Some (s, r).
Proof. rewrite parse_escape. unfold mbind, option_bind. by rewrite app_nil_l, bytes_to_string_of. Qed.

(** ** Numbers *)

Definition ends_number (r : string) : Prop :=
  match r with EmptyString => True | String c _ => num_char c = false end.

Lemma span_num_app t r :
  forallb num_char (String.list_ascii_of_string t) = true → ends_number r → span_num (t +:+ r) = (t, r).
Proof.
  intros Ht Hr. induction t as [|c t IH]; cbn [String.list_ascii_of_string forallb] in Ht.
  - destruct r as [|c r]; [done|]. unfold ends_number in Hr. rewrite sapp_nil. cbn [span_num]. by rewrite Hr.
  - apply andb_true_iff in Ht as [Hc Ht]. rewrite sapp_cons. cbn [span_num]. by rewrite Hc, (IH Ht).
Qed.

Definition is_digit (c : ascii) : bool := is_some (digit_val c).
Definition all_digits (s : string) : bool := forallb is_digit (String.list_ascii_of_string s).

(** The decimal digits of a positive number. *)
Record decimal (x : N) (d : string) : Prop := {
  dc_print : ∀ s, pretty_N_go x s = d +:+ s;
  dc_digits : all_digits d = true;
  dc_head : ∃ c t, d = String c t ∧ c ≠ "0"%char;
  dc_value : ∀ s acc, digits_val (d +:+ s) acc
                      = digits_val s (acc * 10 ^ Z.of_nat (String.length d) + Z.of_N x)
}.

Lemma pretty_digit (x : N) : (x < 10)%N → digit_val (pretty_N_char x) = Some (Z.of_N x).
Proof.
  intros H. assert (x ∈ [0; 1; 2; 3; 4; 5; 6; 7; 8; 9]%N) as Hx by (rewrite !elem_of_cons, elem_of_nil; lia).
  elem_cases Hx; by subst.
Qed.

Lemma all_digits_cons c s : all_digits (String c s) = is_digit c && all_digits s.
Proof. done. Qed.
Lemma all_digits_app a b : all_digits (a +:+ b) = all_digits a && all_digits b.
Proof. induction a as [|c a IH]; [done|]. by rewrite sapp_cons, !all_digits_cons, IH, andb_assoc. Qed.
Lemma length_sapp a b : String.length (a +:+ b) = (String.length a + String.length b)%nat.
Proof. induction a as [|c a IH]; [done|]. rewrite sapp_cons. simpl. by rewrite IH. Qed.

Lemma decimal_exists x : (0 < x)%N → ∃ d, decimal x d.
Proof.
  induction (N.lt_wf_0 x) as [x _ IH]. intros Hx.
  set (q := (x / 10)%N). set (c := pretty_N_char (x mod 10)).
  assert (digit_val c = Some (Z.of_N (x mod 10))) as Hc by (apply pretty_digit, N.mod_lt; lia).
  pose proof (N.div_mod x 10 ltac:(lia)) as Hdm. fold q in Hdm.
  destruct (decide (q = 0)%N) as [Hq|Hq].
  - exists (str1 c). split.
    + intros s. rewrite pretty_N_go_step by done. fold q. by rewrite Hq.
    + unfold str1. rewrite all_digits_cons. unfold is_digit. by rewrite Hc.
    + exists c, "". split; [done|]. intros E. rewrite E in Hc.
      change (digit_val "0") with (Some 0) in Hc. assert (0 = Z.of_N (x mod 10)) by congruence. lia.
    + intros s acc. unfold str1. rewrite sapp_cons, sapp_nil. cbn [digits_val]. rewrite Hc. unfold mbind, option_bind. f_equal. change (String.length (String c "")) with 1%nat. lia.
  - destruct (IH q ltac:(apply N.div_lt; lia) ltac:(lia)) as [d [P D (c0 & t & -> & H0) V]].
    set (d := String c0 t) in *. exists (d +:+ str1 c). split.
    + intros s. rewrite pretty_N_go_step by done. fold q c. by rewrite P, sapp_assoc.
    + rewrite all_digits_app, D. unfold str1. rewrite all_digits_cons. unfold is_digit. by rewrite Hc.
    + by exists c0, (t +:+ str1 c).
    + intros s acc. rewrite sapp_assoc, V. unfold str1. rewrite sapp_cons, sapp_nil. cbn [digits_val].
      rewrite Hc. unfold mbind, option_bind. f_equal. rewrite length_sapp.
      change (String.length (String c "")) with 1%nat. rewrite Nat2Z.inj_add, Z.pow_add_r by lia. lia.
Qed.

Lemma digits_num s : all_digits s = true → forallb num_char (String.list_ascii_of_string s) = true.
Proof.
  unfold all_digits. intros H. apply forallb_forall. intros c Hc. rewrite forallb_forall in H.
  unfold num_char. specialize (H c Hc). unfold is_digit in H. by rewrite H.
Qed.

Lemma number_of_decimal x d : decimal x d → number_of d = Some (JInt (Z.of_N x)).
Proof.
  intros [_ D (c & t & -> & Hc) V]. rewrite all_digits_cons in D. apply andb_true_iff in D as [Hd _].
  specialize (V "" 0). rewrite sapp_nil_r, Z.mul_0_l, Z.add_0_l in V.
  change (digits_val "" (Z.of_N x)) with (Some (Z.of_N x)) in V. unfold number_of.
  rewrite bool_decide_false by (intros ->; done).
  destruct c as [[] [] [] [] [] [] [] []]; try (by vm_compute in Hd); try done; by rewrite V.
Qed.

Lemma number_of_negative x d : decimal x d → number_of (String "-" d) = Some (JInt (- Z.of_N x)).
Proof.
  intros [_ D (c & t & -> & Hc) V]. rewrite all_digits_cons in D. apply andb_true_iff in D as [Hd _].
  specialize (V "" 0). rewrite sapp_nil_r, Z.mul_0_l, Z.add_0_l in V.
  change (digits_val "" (Z.of_N x)) with (Some (Z.of_N x)) in V. unfold number_of. rewrite bool_decide_true by done.
  destruct c as [[] [] [] [] [] [] [] []]; try (by vm_compute in Hd); try done; by rewrite V.
Qed.

(** The first character of a number. *)
Definition starts_number (s : string) : Prop :=
  ∃ c t, s = String c t ∧ (c = "-"%char ∨ is_digit c = true).

Lemma str_of_pos p : ∃ d, decimal (N.pos p) d ∧ str_of_int (Z.pos p) = d ∧ str_of_int (Z.neg p) = String "-" d.
Proof.
  destruct (decimal_exists (N.pos p) ltac:(lia)) as [d D]. exists d. split; [done|].
  assert (pretty (N.pos p) = d) as <-; [|done].
  unfold pretty, pretty_N. rewrite decide_False by done. by rewrite (dc_print _ _ D), sapp_nil_r.
Qed.

Lemma str_of_int_number z :
  number_of (str_of_int z) = Some (JInt z) ∧ starts_number (str_of_int z) ∧
  forallb num_char (String.list_ascii_of_string (str_of_int z)) = true.
Proof.
  destruct z as [|p|p]; [split; [done|]; split; [|done]; exists "0"%char, ""; auto|..];
    destruct (str_of_pos p) as (d & D & Hp & Hn); rewrite ?Hp, ?Hn.
  - split; [by apply (number_of_decimal _ _ D)|]. split; [|apply digits_num, D].
    destruct (dc_head _ _ D) as (c & t & -> & _). exists c, t. split; [done|]. right.
    pose proof (dc_digits _ _ D) as H. rewrite all_digits_cons in H. by apply andb_true_iff in H as [H _].
  - split; [by apply (number_of_negative _ _ D)|]. split; [exists "-"%char, d; auto|].
    cbn [String.list_ascii_of_string forallb]. rewrite (digits_num d) by apply D. done.
Qed.

(** ** Values *)

Lemma parse_number f s r :
  starts_number s → number_of s ≠ None → forallb num_char (String.list_ascii_of_string s) = true →
  ends_number r → parse_value (S f) (s +:+ r) = (j ← number_of s; Some (j, r)).
Proof.
  intros (c & t & -> & Hc) Hn Hs Hr. pose proof (span_num_app _ _ Hs Hr) as Hspan. rewrite sapp_cons in *.
  assert (parse_value (S f) (String c (t +:+ r))
    = let '(tok, r') := span_num (String c (t +:+ r)) in j ← number_of tok; Some (j, r')) as ->.
  { destruct Hc as [->|Hc]; [destruct t as [|c t]; [by destruct Hn|]|].
    - cbn [String.list_ascii_of_string forallb] in Hs. rewrite !andb_true_iff in Hs. destruct Hs as (_ & Hc & _).
      clear Hn Hr Hspan. rewrite sapp_cons. destruct c as [[] [] [] [] [] [] [] []]; first [discriminate Hc|reflexivity].
    - clear Hs Hn Hr Hspan. destruct c as [[] [] [] [] [] [] [] []]; first [discriminate Hc|reflexivity]. }
  by rewrite Hspan.
Qed.

(** The first character of a value: no space, and not what closes a list. *)
Definition opens (s : string) : Prop :=
  ∃ c t, s = String c t ∧ is_ws c = false ∧ c ≠ "]"%char.

Lemma starts_number_opens s : starts_number s → opens s.
Proof.
  intros (c & t & -> & Hc). exists c, t. split; [done|]. destruct Hc as [->|Hc]; [done|].
  destruct c as [[] [] [] [] [] [] [] []]; first [discriminate Hc|done].
Qed.

Lemma float_token_spec r :
  float_token r = true → r ∈ ["NaN"; "Infinity"; "-Infinity"] ∨
  number_of r = Some (JFloat r) ∧ starts_number r ∧ forallb num_char (String.list_ascii_of_string r) = true.
Proof.
  unfold float_token. intros [H%bool_decide_eq_true|[Hn H]%andb_true_iff]%orb_true_iff; [by left|right].
  assert (number_of r = Some (JFloat r)) as Hr.
  { destruct (number_of r) as [[]|]; try done. by apply bool_decide_eq_true in H as ->. }
  split; [done|]. split; [|done]. clear H. destruct r as [|c r]; [done|]. exists c, r. split; [done|].
  unfold number_of in Hr. destruct (decide (c = "-"%char)) as [->|Hc]; [by left|]. right.
  rewrite bool_decide_false in Hr by done. unfold is_digit.
  destruct (digit_val c) as [v|] eqn:E; [done|]. exfalso.
  destruct c as [[] [] [] [] [] [] [] []]; first [discriminate E|discriminate Hr].
Qed.

Lemma dumps_opens j : json_wf j = true → opens (json_dumps j).
Proof.
  destruct j as [|[]|z|r|s|l|d]; intros H; cbn [json_dumps].
  1,2,3: by eexists _, _.
  - apply starts_number_opens, str_of_int_number.
  - destruct (float_token_spec r H) as [Hr|(_ & Hr & _)]; [|by apply starts_number_opens].
    elem_cases Hr; subst r; by eexists _, _.
  - by eexists _, _.
  - by eexists _, _.
  - by eexists _, _.
Qed.

Lemma skip_opens s r : opens s → skip_ws (s +:+ r) = s +:+ r.
Proof. intros (c & t & -> & Hc & _). rewrite sapp_cons. cbn [skip_ws]. by rewrite Hc. Qed.

(** Parsing a printed value, whatever follows it. *)
Definition reads_back (j : json) : Prop := ∀ fuel r,
  (json_need j ≤ fuel)%nat → ends_number r → parse_value fuel (json_dumps j +:+ r) = Some (json_sort j, r).

Lemma join_cons sep x y l : join sep (x :: y :: l) = x +:+ sep +:+ join sep (y :: l).
Proof. done. Qed.

Lemma skip_comma s : skip_ws ("," +:+ s) = String "," s.
Proof. done. Qed.

Lemma parse_items_dumps l : l ≠ [] → Forall reads_back l → ∀ fuel r,
  (sum_list_with (λ x, S (json_need x)) l ≤ fuel)%nat →
  parse_items fuel (join "," (map json_dumps l) +:+ "]" +:+ r) = Some (map json_sort l, r).
Proof.
  intros Hne H. induction H as [|x l Hx Hl IH]; [done|]. intros fuel r Hf. cbn [sum_list_with] in Hf.
  destruct fuel as [|fuel]; [lia|]. cbn [parse_items]. destruct l as [|y l].
  - cbn [map join]. rewrite Hx by (cbn in *; first [lia|done]). done.
  - cbn [map]. rewrite join_cons, !sapp_assoc. rewrite Hx by first [lia|done].
    unfold mbind at 1, option_bind at 1.
    rewrite skip_comma. cbv iota beta. cbn [map] in IH. rewrite IH by first [done|lia]. done.
Qed.

(** A field of an object, as it is printed. *)
Definition field_dumps (kv : string * json) : string := quote kv.1 +:+ ":" +:+ json_dumps kv.2.
Definition field_sort (kv : string * json) : string * json := (kv.1, json_sort kv.2).

Lemma dict_set_new k v d : k ∉ d.*1 → dict_set k v d = d ++ [(k, v)].
Proof.
  induction d as [|[k' v'] d IH]; [done|]. intros Hk. cbn in *. apply not_elem_of_cons in Hk as [H1 H2].
  rewrite decide_False by done. by rewrite IH.
Qed.

Lemma parse_fields_dumps d : d ≠ [] → Forall (λ kv, reads_back kv.2) d → ∀ fuel r acc,
  NoDup (acc.*1 ++ d.*1) → (sum_list_with (λ kv, S (json_need kv.2)) d ≤ fuel)%nat →
  parse_fields fuel (join "," (map field_dumps d) +:+ "}" +:+ r) acc = Some (acc ++ map field_sort d, r).
Proof.
  intros Hne H. induction H as [|[k x] d Hx Hd IH]; [done|]. intros fuel r acc Hnd Hf.
  cbn [sum_list_with] in Hf. destruct fuel as [|fuel]; [lia|]. cbn [snd] in Hf, Hx.
  assert (k ∉ acc.*1) as Hk.
  { apply NoDup_app in Hnd as (_ & Hn & _). intros Hin. apply (Hn k Hin). left. }
  assert (∀ s, parse_fields (S fuel) (field_dumps (k, x) +:+ s) acc
    = ('(j, r3) ← parse_value fuel (json_dumps x +:+ s);
       match skip_ws r3 with
       | String "," r4 => parse_fields fuel r4 (dict_set k j acc)
       | String "}" r4 => Some (dict_set k j acc, r4)
       | _ => None end)) as Hstep.
  { intros s. unfold field_dumps, quote, str1. cbn [fst snd]. rewrite !sapp_assoc, sapp_cons, sapp_nil.
    cbn [parse_fields]. rewrite sapp_cons, sapp_nil.
    change (skip_ws (String dquote ?t)) with (String dquote t). cbv iota beta.
    rewrite decide_True by done. rewrite parse_escape. unfold mbind at 1, option_bind at 1.
    rewrite app_nil_l, bytes_to_string_of. done. }
  destruct d as [|y d]; cbn [map].
  - cbn [join]. rewrite Hstep, Hx by (cbn in *; first [lia|done]). cbn. by rewrite dict_set_new.
  - rewrite join_cons, sapp_assoc, Hstep, sapp_assoc, Hx by first [lia|done].
    cbn [map] in IH. unfold mbind at 1, option_bind at 1.
    rewrite skip_comma. cbv iota beta.
    assert (NoDup ((acc ++ [(k, json_sort x)]).*1 ++ (y :: d).*1)) as Hnd'.
    { rewrite fmap_app, <- app_assoc. exact Hnd. }
    rewrite dict_set_new, (IH ltac:(done)) by first [done|lia]. by rewrite <- app_assoc.
Qed.

(** ** The round trip *)

Lemma dumps_object d :
  json_dumps (JObj d) = "{" +:+ join "," (map field_dumps (merge_sort field_le d)) +:+ "}".
Proof.
  cbn [json_dumps]. f_equal. f_equal. f_equal.
  rewrite <- (merge_sort_map field_le key_le (λ kv, (kv.1, json_dumps kv.2))) by done.
  by rewrite map_map.
Qed.

Lemma sort_object d : json_sort (JObj d) = JObj (map field_sort (merge_sort field_le d)).
Proof. cbn [json_sort]. f_equal. symmetry. by apply merge_sort_map. Qed.

Lemma sum_list_with_perm {A} (f : A → nat) l1 l2 : l1 ≡ₚ l2 → sum_list_with f l1 = sum_list_with f l2.
Proof. induction 1; cbn; lia. Qed.

Lemma wf_fields d : json_wf (JObj d) = true → NoDup d.*1 ∧ Forall (λ kv, json_wf kv.2 = true) d.
Proof.
  cbn [json_wf]. intros [H1%bool_decide_eq_true H2]%andb_true_iff. split; [done|].
  rewrite forallb_forall in H2. apply Forall_forall. intros kv Hin. by apply H2, list_elem_of_In.
Qed.
Lemma wf_items l : json_wf (JArr l) = true → Forall (λ x, json_wf x = true) l.
Proof.
  cbn [json_wf]. intros H2. rewrite forallb_forall in H2. apply Forall_forall.
  intros x Hin. by apply H2, list_elem_of_In.
Qed.

Lemma fields_quoted d : d ≠ [] → ∃ t, join "," (map field_dumps d) = String dquote t.
Proof.
  destruct d as [|[k x] d]; [done|]. intros _. destruct d; cbn [map join]; unfold field_dumps at 1, quote, str1;
    rewrite ?sapp_assoc, sapp_cons, ?sapp_nil; by eexists.
Qed.

Lemma reads_back_wf j : json_wf j = true → reads_back j.
Proof.
  induction j as [|b|z|t|s|l IH|d IH] using json_ind'; intros Hwf fuel r Hf Hr;
    (destruct fuel as [|fuel]; [cbn in Hf; lia|]).
  - done.
  - by destruct b.
  - destruct (str_of_int_number z) as (Hn & Hs & Hd). cbn [json_dumps].
    rewrite parse_number by (congruence || done). by rewrite Hn.
  - cbn [json_dumps]. destruct (float_token_spec t Hwf) as [Ht|(Hn & Hs & Hd)].
    { elem_cases Ht; subst t; done. }
    rewrite parse_number by (congruence || done). by rewrite Hn.
  - cbn [json_dumps]. unfold quote, str1. rewrite !sapp_assoc, !sapp_cons, !sapp_nil.
    change (parse_value (S fuel) (String dquote (escape s +:+ String dquote r)))
      with ('(b, r') ← parse_str (escape s +:+ String dquote r) []; Some (JStr (bytes_to_string b), r')).
    rewrite parse_escape. unfold mbind, option_bind. by rewrite app_nil_l, bytes_to_string_of.
  - destruct l as [|x l]; [done|]. apply wf_items in Hwf. rewrite Forall_forall in IH, Hwf.
    assert (Forall reads_back (x :: l)) as Hl by (apply Forall_forall; auto).
    assert (opens (join "," (map json_dumps (x :: l)))) as Ho.
    { destruct (dumps_opens x ltac:(apply Hwf; left)) as (c & t & E & H1 & H2). exists c.
      destruct l; cbn [map join]; rewrite E; [by exists t|]. rewrite sapp_cons. by eexists. }
    cbn [json_dumps]. rewrite !sapp_assoc. rewrite sapp_cons, sapp_nil.
    pose proof (skip_opens _ ("]" +:+ r) Ho) as Hs. destruct Ho as (c & t & Hj & _ & Hc).
    assert (parse_value (S fuel) (String "[" (join "," (map json_dumps (x :: l)) +:+ "]" +:+ r))
      = ('(l, r') ← parse_items fuel (join "," (map json_dumps (x :: l)) +:+ "]" +:+ r); Some (JArr l, r'))) as ->.
    { cbn [parse_value skip_ws]. change (is_ws "[") with false. cbv iota beta. rewrite Hs.
      rewrite Hj, sapp_cons.
      destruct c as [[] [] [] [] [] [] [] []]; first [reflexivity|by destruct Hc]. }
    cbn [json_need] in Hf. rewrite parse_items_dumps by first [done|lia]. done.
  - destruct d as [|kv d]; [done|]. apply wf_fields in Hwf as [Hnd Hwf]. rewrite Forall_forall in IH, Hwf.
    set (e := merge_sort field_le (kv :: d)).
    assert (e ≡ₚ kv :: d) as Hperm by apply merge_sort_Permutation.
    assert (e ≠ []) as Hne by (intros E; rewrite E in Hperm; by apply Permutation_nil_cons in Hperm).
    assert (Forall (λ kv, reads_back kv.2) e) as He.
    { apply Forall_forall. intros x Hx. rewrite Hperm in Hx. auto. }
    rewrite dumps_object, sort_object. fold e. rewrite !sapp_assoc, sapp_cons, sapp_nil.
    assert (parse_value (S fuel) (String "{" (join "," (map field_dumps e) +:+ "}" +:+ r))
      = ('(l, r') ← parse_fields fuel (join "," (map field_dumps e) +:+ "}" +:+ r) []; Some (JObj l, r'))) as ->.
    { destruct (fields_quoted e Hne) as [t ->]. rewrite sapp_cons. reflexivity. }
    rewrite (parse_fields_dumps e Hne He fuel r []); [done| |].
    + change (NoDup (e.*1)). by rewrite Hperm.
    + rewrite (sum_list_with_perm _ _ _ Hperm). cbn [json_need] in Hf. lia.
Qed.

(** The fuel that [json_loads] starts with covers every printed document. *)
Lemma length_join sep (l : list string) :
  (sum_list_with String.length l ≤ String.length (join sep l))%nat ∧
  (sep ≠ "" → length l ≤ S (String.length (join sep l)) ∧
     sum_list_with String.length l + length l ≤ S (String.length (join sep l)))%nat.
Proof.
  induction l as [|x [|y l] IH]; cbn [join sum_list_with length] in *; [lia|lia|].
  rewrite !length_sapp. destruct IH as [H1 H2]. split; [lia|]. intros Hs.
  specialize (H2 Hs). destruct sep; [done|]. change (String.length (String a sep)) with (S (String.length sep)). lia.
Qed.

Lemma need_dumps j : json_wf j = true → (json_need j ≤ 2 * String.length (json_dumps j))%nat.
Proof.
  assert (∀ s, opens s → 1 ≤ String.length s)%nat as H1 by (intros s (c & t & -> & _); cbn; lia).
  induction j as [|b|z|t|s|l IH|d IH] using json_ind'; intros Hwf;
    try (pose proof (H1 _ (dumps_opens _ Hwf)); cbn [json_need]; lia).
  - apply wf_items in Hwf. cbn [json_need json_dumps].
    destruct (length_join "," (map json_dumps l)) as [_ Hj]. specialize (Hj ltac:(done)). rewrite length_map in Hj.
    rewrite !length_sapp. change (String.length "[") with 1%nat. change (String.length "]") with 1%nat.
    assert (sum_list_with (λ x, S (json_need x)) l
            ≤ length l + 2 * sum_list_with String.length (map json_dumps l))%nat; [|lia].
    clear Hj. induction IH as [|x l Hx Hl IHl]; [done|]. apply Forall_cons in Hwf as [Hw Hwf].
    cbn [map sum_list_with length]. specialize (IHl Hwf). specialize (Hx Hw). lia.
  - apply wf_fields in Hwf as [_ Hwf]. rewrite dumps_object. set (e := merge_sort field_le d).
    assert (e ≡ₚ d) as Hp by apply merge_sort_Permutation. cbn [json_need].
    rewrite <- (sum_list_with_perm _ _ _ Hp). rewrite <- Hp in IH, Hwf.
    destruct (length_join "," (map field_dumps e)) as [_ Hj]. specialize (Hj ltac:(done)). rewrite length_map in Hj.
    rewrite !length_sapp. change (String.length "{") with 1%nat. change (String.length "}") with 1%nat.
    assert (sum_list_with (λ kv, S (json_need kv.2)) e
            ≤ length e + 2 * sum_list_with String.length (map field_dumps e))%nat; [|lia].
    clear Hj Hp. clearbody e. induction IH as [|x e Hx Hl IHl]; [done|]. apply Forall_cons in Hwf as [Hw Hwf].
    cbn [map sum_list_with length]. specialize (IHl Hwf). specialize (Hx Hw).
    assert (String.length (json_dumps x.2) ≤ String.length (field_dumps x))%nat; [|lia].
    unfold field_dumps. rewrite !length_sapp. lia.
Qed.

(** What [json.dumps] wrote, [json.loads] reads back, with sorted keys. *)
Lemma loads_dumps j : json_wf j = true → json_loads (json_dumps j) = Some (json_sort j).
Proof.
  intros H. unfold json_loads. pose proof (need_dumps _ H) as Hn.
  pose proof (reads_back_wf _ H (3 * (String.length (json_dumps j) + 1))%nat "" ltac:(lia) I) as Hr.
  rewrite sapp_nil_r in Hr. by rewrite Hr.
Qed.

(** ** What keeps a document well formed *)

Lemma fields_wf d :
  json_wf (JObj d) = true ↔ NoDup d.*1 ∧ Forall (λ kv, json_wf kv.2 = true) d.
Proof.
  split; [apply wf_fields|]. intros [H1 H2]. cbn [json_wf]. rewrite bool_decide_true by done. cbn.
  apply forallb_forall. intros x Hx%list_elem_of_In. rewrite Forall_forall in H2. auto.
Qed.

Lemma sanitize_wf j : json_wf j = true → json_wf (sanitize j) = true.
Proof.
  induction j as [|b|z|t|s|l IH|d IH] using json_ind'; intros Hwf; try done.
  - apply wf_items in Hwf. cbn [sanitize json_wf]. apply forallb_forall.
    intros x (y & <- & Hy%list_elem_of_In)%in_map_iff. rewrite Forall_forall in IH, Hwf. auto.
  - apply fields_wf in Hwf as [Hn Hw]. rewrite sanitize_JObj. apply fields_wf. unfold sanitize_dict.
    rewrite <- list_fmap_compose. split; [exact Hn|]. apply Forall_forall.
    intros x (y & -> & Hy)%list_elem_of_fmap. rewrite Forall_forall in IH, Hw. cbn.
    destruct (sensitive_key y.1); auto.
Qed.

Lemma dict_set_keys k v d : k ∈ d.*1 → (dict_set k v d).*1 = d.*1.
Proof.
  induction d as [|[k' v'] d IH]; intros H; [by apply not_elem_of_nil in H|]. cbn in *.
  destruct (decide (k = k')) as [->|Hne]; [done|]. cbn. f_equal. apply IH.
  apply elem_of_cons in H as [H|H]; [congruence|done].
Qed.

Lemma dict_set_wf k v d :
  json_wf v = true → json_wf (JObj d) = true → json_wf (JObj (dict_set k v d)) = true.
Proof.
  rewrite !fields_wf. intros Hv [Hn Hw]. split.
  - destruct (decide (k ∈ d.*1)) as [Hk|Hk]; [by rewrite dict_set_keys|].
    rewrite dict_set_new, fmap_app by done. apply NoDup_app. split; [done|]. split; [|apply NoDup_singleton].
    intros x Hx ->%list_elem_of_singleton. done.
  - clear Hn. induction Hw as [|[k' v'] d Hx Hw IH]; cbn; [by repeat constructor|].
    destruct (decide (k = k')); by constructor.
Qed.

Lemma dict_update_wf u : ∀ d,
  Forall (λ kv, json_wf kv.2 = true) u → json_wf (JObj d) = true → json_wf (JObj (dict_update d u)) = true.
Proof.
  unfold dict_update. induction u as [|kv u IH]; intros d Hu Hd; [done|]. apply Forall_cons in Hu as [H Hu].
  cbn. apply IH; [done|]. by apply dict_set_wf.
Qed.

Lemma jopt_wf o : json_wf (jopt o) = true.
Proof. by destruct o. Qed.

(** ** Reading fields of a sorted object *)

Lemma dict_get_perm k d1 d2 : NoDup d1.*1 → d1 ≡ₚ d2 → dict_get k d1 = dict_get k d2.
Proof.
  intros Hn Hp. revert Hn. induction Hp as [|[k1 v1] l1 l2 Hp IH|[k1 v1] [k2 v2] l|l1 l2 l3 H1 IH1 H2 IH2];
    intros Hn; cbn.
  - done.
  - apply NoDup_cons in Hn as [_ Hn]. by rewrite IH.
  - apply NoDup_cons in Hn as [Hk _]. repeat case_decide; try done. subst. destruct Hk. left.
  - rewrite IH1 by done. apply IH2. by rewrite <- H1.
Qed.

Lemma dict_get_map k f d :
  dict_get k (map (λ kv : string * json, (kv.1, f kv.2)) d) = f <$> dict_get k d.
Proof. induction d as [|[k' v] d IH]; [done|]. cbn. by case_decide. Qed.

(** The fields of [json_sort (JObj d)]. *)
Definition sort_fields (d : list (string * json)) : list (string * json) :=
  merge_sort field_le (map (λ kv, (kv.1, json_sort kv.2)) d).
Lemma json_sort_JObj d : json_sort (JObj d) = JObj (sort_fields d).
Proof. done. Qed.

Lemma sort_fields_perm d : sort_fields d ≡ₚ map (λ kv, (kv.1, json_sort kv.2)) d.
Proof. apply merge_sort_Permutation. Qed.

Lemma dict_get_sort k d : NoDup d.*1 → dict_get k (sort_fields d) = json_sort <$> dict_get k d.
Proof.
  intros Hn. rewrite <- dict_get_map. symmetry. apply dict_get_perm; [|by rewrite sort_fields_perm].
  by rewrite <- list_fmap_compose.
Qed.

Lemma dict_get_wf k d v : Forall (λ kv, json_wf kv.2 = true) d → dict_get k d = Some v → json_wf v = true.
Proof.
  induction 1 as [|[k' v'] d Hv Hd IH]; [done|]. cbn. case_decide; [by intros [= <-]|done].
Qed.

(** ** One text for one document

    The order of the keys of a dict does not show in its canonical text. *)

Lemma compare_ascii_lt_trans a b c :
  Ascii.compare a b = Lt → Ascii.compare b c = Lt → Ascii.compare a c = Lt.
Proof. unfold Ascii.compare. rewrite !N.compare_lt_iff. lia. Qed.

Lemma compare_string_trans a : ∀ b c,
  String.compare a b ≠ Gt → String.compare b c ≠ Gt → String.compare a c ≠ Gt.
Proof.
  induction a as [|x a IH]; intros [|y b] [|z c]; cbn; try done.
  destruct (Ascii.compare x y) eqn:Exy; [apply Ascii.compare_eq_iff in Exy as ->| |done].
  - destruct (Ascii.compare y z) eqn:Eyz; [apply IH|done|done].
  - intros _. destruct (Ascii.compare y z) eqn:Eyz; [apply Ascii.compare_eq_iff in Eyz as ->| |done].
    + by rewrite Exy.
    + by rewrite (compare_ascii_lt_trans _ _ _ Exy Eyz).
Qed.

Lemma leb_compare a b : String.leb a b = true ↔ String.compare a b ≠ Gt.
Proof. unfold String.leb. by destruct (String.compare a b). Qed.

#[export] Instance field_le_trans : Transitive field_le.
Proof. intros a b c. unfold field_le. rewrite !leb_compare. apply compare_string_trans. Qed.
#[export] Instance field_le_total : Total field_le.
Proof. intros a b. unfold field_le. apply String.leb_total. Qed.

Lemma field_le_unique d x y :
  NoDup d.*1 → x ∈ d → y ∈ d → field_le x y → field_le y x → x = y.
Proof.
  intros Hn Hx Hy H1 H2. pose proof (String.leb_antisym _ _ H1 H2) as E.
  induction d as [|z d IH]; [by apply not_elem_of_nil in Hx|].
  rewrite fmap_cons in Hn. apply NoDup_cons in Hn as [Hk Hn].
  apply elem_of_cons in Hx as [Ex|Hx]; apply elem_of_cons in Hy as [Ey|Hy].
  - congruence.
  - destruct Hk. rewrite <- Ex, E. by apply list_elem_of_fmap_2.
  - destruct Hk. rewrite <- Ey, <- E. by apply list_elem_of_fmap_2.
  - by apply IH.
Qed.

Lemma sort_unique d1 d2 : NoDup d1.*1 → d1 ≡ₚ d2 → merge_sort field_le d1 = merge_sort field_le d2.
Proof.
  intros Hn Hp. apply (StronglySorted_unique_strong field_le); [|apply StronglySorted_merge_sort; apply _..|].
  - intros x y Hx Hy. rewrite merge_sort_Permutation in Hx, Hy. rewrite <- Hp in Hy.
    by apply (field_le_unique d1).
  - by rewrite !merge_sort_Permutation.
Qed.

Lemma sort_idem d : NoDup d.*1 → merge_sort field_le (merge_sort field_le d) = merge_sort field_le d.
Proof. intros Hn. symmetry. apply sort_unique; [done|by rewrite merge_sort_Permutation]. Qed.

Lemma keys_field_sort d : (map field_sort d).*1 = d.*1.
Proof. rewrite <- list_fmap_compose. done. Qed.

Lemma dumps_sort j : json_wf j = true → json_dumps (json_sort j) = json_dumps j.
Proof.
  induction j as [|b|z|t|s|l IH|d IH] using json_ind'; intros Hwf; try done.
  - apply wf_items in Hwf. cbn [json_sort json_dumps]. do 3 f_equal. rewrite map_map.
    apply map_ext_in. intros x Hx%list_elem_of_In. rewrite Forall_forall in IH, Hwf. auto.
  - apply fields_wf in Hwf as [Hn Hw]. rewrite sort_object, !dumps_object.
    rewrite <- (merge_sort_map field_le field_le field_sort) by done. rewrite sort_idem by done.
    do 3 f_equal. rewrite map_map. apply map_ext_in. intros kv Hx%list_elem_of_In.
    rewrite merge_sort_Permutation in Hx. rewrite Forall_forall in IH, Hw.
    unfold field_dumps, field_sort. cbn. by rewrite IH by auto.
Qed.

Lemma json_sort_idem j : json_wf j = true → json_sort (json_sort j) = json_sort j.
Proof.
  induction j as [|b|z|t|s|l IH|d IH] using json_ind'; intros Hwf; try done.
  - apply wf_items in Hwf. cbn [json_sort]. f_equal. rewrite map_map.
    apply map_ext_in. intros x Hx%list_elem_of_In. rewrite Forall_forall in IH, Hwf. auto.
  - apply fields_wf in Hwf as [Hn Hw]. rewrite sort_object, sort_object.
    rewrite <- (merge_sort_map field_le field_le field_sort) by done. rewrite sort_idem by done.
    f_equal. rewrite map_map. apply map_ext_in. intros kv Hx%list_elem_of_In.
    rewrite merge_sort_Permutation in Hx. rewrite Forall_forall in IH, Hw.
    unfold field_sort. cbn. by rewrite IH by auto.
Qed.

Lemma json_sort_wf j : json_wf j = true → json_wf (json_sort j) = true.
Proof.
  induction j as [|b|z|t|s|l IH|d IH] using json_ind'; intros Hwf; try done.
  - apply wf_items in Hwf. cbn [json_sort json_wf]. apply forallb_forall.
    intros x (y & <- & Hy%list_elem_of_In)%in_map_iff. rewrite Forall_forall in IH, Hwf. auto.
  - apply fields_wf in Hwf as [Hn Hw]. rewrite sort_object. apply fields_wf. rewrite keys_field_sort.
    rewrite merge_sort_Permutation. split; [done|]. apply Forall_forall.
    intros x (y & -> & Hy)%list_elem_of_fmap. rewrite Forall_forall in IH, Hw. cbn. auto.
Qed.

Lemma dumps_eq j j' :
  json_wf j = true → json_wf j' = true → json_dumps j = json_dumps j' ↔ json_sort j = json_sort j'.
Proof.
  intros H H'. split; intros E.
  - pose proof (loads_dumps _ H) as L. rewrite E, (loads_dumps _ H') in L. congruence.
  - by rewrite <- (dumps_sort _ H), E, dumps_sort.
Qed.
