(* ===== verification/AgentTypes.v ===== *)
(** * AgentTypes: the enumerations and the two state machines of Agent/state.py

    The outer machine moves the task state of a Run, the inner one the
    execution state of its agent loop. *)

From S2P Require Import Prelude.
From stdpp Require Import relations.

#[local] Open Scope Z_scope.

(* source: Agent/state.py TaskState *)
Inductive TaskState : Set :=
| TS_CREATED | TS_QUEUED | TS_STARTING | TS_RUNNING | TS_RECOVERING | TS_RECOVERY_REQUIRED
| TS_CANCELLING | TS_FINALIZING | TS_SUCCEEDED | TS_FAILED | TS_CANCELLED | TS_INTERRUPTED.
#[export] Instance TaskState_eq_dec : EqDecision TaskState.
Proof. solve_decision. Defined.

(* source: Agent/state.py TaskState *)
Definition TaskState_value (t : TaskState) : string :=
  match t with
  | TS_CREATED => "created" | TS_QUEUED => "queued" | TS_STARTING => "starting"
  | TS_RUNNING => "running" | TS_RECOVERING => "recovering"
  | TS_RECOVERY_REQUIRED => "recovery_required" | TS_CANCELLING => "cancelling"
  | TS_FINALIZING => "finalizing" | TS_SUCCEEDED => "succeeded" | TS_FAILED => "failed"
  | TS_CANCELLED => "cancelled" | TS_INTERRUPTED => "interrupted"
  end.

(* source: Agent/state.py ExecutionState *)
Inductive ExecutionState : Set :=
| ES_THINKING | ES_WAITING_HUMAN | ES_ACTING | ES_OBSERVING | ES_FINISHED.
#[export] Instance ExecutionState_eq_dec : EqDecision ExecutionState.
Proof. solve_decision. Defined.

(* source: Agent/state.py ExecutionState *)
Definition ExecutionState_value (e : ExecutionState) : string :=
  match e with
  | ES_THINKING => "thinking" | ES_WAITING_HUMAN => "waiting_human" | ES_ACTING => "acting"
  | ES_OBSERVING => "observing" | ES_FINISHED => "finished"
  end.

(* source: Agent/state.py ExecutionOutcome *)
Inductive ExecutionOutcome : Set := EO_SUCCESS | EO_ERROR | EO_CANCELLED | EO_EXHAUSTED.
#[export] Instance ExecutionOutcome_eq_dec : EqDecision ExecutionOutcome.
Proof. solve_decision. Defined.

(* source: Agent/state.py ExecutionOutcome *)
Definition ExecutionOutcome_value (o : ExecutionOutcome) : string :=
  match o with
  | EO_SUCCESS => "success" | EO_ERROR => "error" | EO_CANCELLED => "cancelled"
  | EO_EXHAUSTED => "exhausted"
  end.

(* source: Agent/state.py TerminalTarget *)
Inductive TerminalTarget : Set := TT_SUCCEEDED | TT_FAILED | TT_CANCELLED.
#[export] Instance TerminalTarget_eq_dec : EqDecision TerminalTarget.
Proof. solve_decision. Defined.

(* source: Agent/state.py TerminalTarget *)
Definition TerminalTarget_value (t : TerminalTarget) : string :=
  match t with TT_SUCCEEDED => "succeeded" | TT_FAILED => "failed" | TT_CANCELLED => "cancelled" end.

(** [TaskState(target.value)] *)
Definition TaskState_of_target (t : TerminalTarget) : TaskState :=
  match t with TT_SUCCEEDED => TS_SUCCEEDED | TT_FAILED => TS_FAILED | TT_CANCELLED => TS_CANCELLED end.

(* source: Agent/state.py WorkloadKind *)
Inductive WorkloadKind : Set :=
| WK_CHAT | WK_CRON | WK_DREAM | WK_DREAM_BACKFILL | WK_DREAM_ROLLBACK | WK_CODE_SESSION_START
| WK_CODE_TURN | WK_CODE_FINALIZE | WK_CODE_ABORT | WK_HARNESS_EVOLUTION | WK_HARNESS_DREAM
| WK_MAINTENANCE | WK_LATEX_COMPILATION.
#[export] Instance WorkloadKind_eq_dec : EqDecision WorkloadKind.
Proof. solve_decision. Defined.

(* source: Agent/state.py WorkloadKind *)
Definition WorkloadKind_value (k : WorkloadKind) : string :=
  match k with
  | WK_CHAT => "chat" | WK_CRON => "cron" | WK_DREAM => "dream"
  | WK_DREAM_BACKFILL => "dream_backfill" | WK_DREAM_ROLLBACK => "dream_rollback"
  | WK_CODE_SESSION_START => "code_session_start" | WK_CODE_TURN => "code_turn"
  | WK_CODE_FINALIZE => "code_finalize" | WK_CODE_ABORT => "code_abort"
  | WK_HARNESS_EVOLUTION => "harness_evolution" | WK_HARNESS_DREAM => "harness_dream"
  | WK_MAINTENANCE => "maintenance" | WK_LATEX_COMPILATION => "latex_compilation"
  end.

(* source: Agent/state.py PersistenceContract *)
Inductive PersistenceContract : Set :=
| PC_CONVERSATION_SESSION | PC_SESSION_BACKED_WORKLOAD | PC_CONTROL_ONLY.
#[export] Instance PersistenceContract_eq_dec : EqDecision PersistenceContract.
Proof. solve_decision. Defined.

(* source: Agent/state.py PersistenceContract *)
Definition PersistenceContract_value (p : PersistenceContract) : string :=
  match p with
  | PC_CONVERSATION_SESSION => "conversation_session"
  | PC_SESSION_BACKED_WORKLOAD => "session_backed_workload"
  | PC_CONTROL_ONLY => "control_only"
  end.

(* source: Agent/state.py OperationStatus *)
Inductive OperationStatus : Set :=
| OS_PREPARED | OS_RUNNING | OS_COMPLETED | OS_FAILED | OS_SKIPPED | OS_UNKNOWN | OS_ABANDONED.
#[export] Instance OperationStatus_eq_dec : EqDecision OperationStatus.
Proof. solve_decision. Defined.

(* source: Agent/state.py OperationStatus *)
Definition OperationStatus_value (s : OperationStatus) : string :=
  match s with
  | OS_PREPARED => "prepared" | OS_RUNNING => "running" | OS_COMPLETED => "completed"
  | OS_FAILED => "failed" | OS_SKIPPED => "skipped" | OS_UNKNOWN => "unknown"
  | OS_ABANDONED => "abandoned"
  end.

(* source: Agent/state.py OperationFailureKind *)
Inductive OperationFailureKind : Set := FK_TERMINAL | FK_RETRYABLE | FK_UNKNOWN_EFFECT.
#[export] Instance OperationFailureKind_eq_dec : EqDecision OperationFailureKind.
Proof. solve_decision. Defined.

(* source: Agent/state.py AttemptRecoveryResolution *)
Inductive AttemptRecoveryResolution : Set :=
| RR_UNRESOLVED | RR_RETRY_AUTHORIZED | RR_CONFIRMED_SUCCEEDED | RR_CONFIRMED_FAILED.
#[export] Instance AttemptRecoveryResolution_eq_dec : EqDecision AttemptRecoveryResolution.
Proof. solve_decision. Defined.

(* source: Agent/state.py OperationKind *)
Inductive OperationKind : Set :=
| OK_MODEL | OK_TOOL | OK_APPROVAL | OK_MEMORY | OK_SESSION_INDEX | OK_INBOX | OK_EVENT
| OK_AUDIT | OK_FINALIZE | OK_SUBAGENT | OK_CRON_DISPATCH | OK_LATEX.
#[export] Instance OperationKind_eq_dec : EqDecision OperationKind.
Proof. solve_decision. Defined.

(* source: Agent/state.py ToolIdempotency *)
Inductive ToolIdempotency : Set :=
| TI_PURE | TI_IDEMPOTENT | TI_EXTERNALLY_IDEMPOTENT | TI_NON_IDEMPOTENT.
#[export] Instance ToolIdempotency_eq_dec : EqDecision ToolIdempotency.
Proof. solve_decision. Defined.

(* source: Agent/state.py ApprovalStatus *)
Inductive ApprovalStatus : Set := AS_PENDING | AS_APPROVED | AS_DENIED | AS_TIMEOUT.
#[export] Instance ApprovalStatus_eq_dec : EqDecision ApprovalStatus.
Proof. solve_decision. Defined.

(* source: Agent/state.py ApprovalStatus *)
Definition ApprovalStatus_value (s : ApprovalStatus) : string :=
  match s with
  | AS_PENDING => "pending" | AS_APPROVED => "approved" | AS_DENIED => "denied"
  | AS_TIMEOUT => "timeout"
  end.

(* source: Agent/state.py ReconcileStatus *)
Inductive ReconcileStatus : Set := RS_COMPLETED | RS_NOT_APPLIED | RS_FAILED | RS_UNKNOWN.
#[export] Instance ReconcileStatus_eq_dec : EqDecision ReconcileStatus.
Proof. solve_decision. Defined.

(* source: Agent/state.py ToolObservationState *)
Inductive ToolObservationState : Set := TO_MATERIALIZED | TO_PUBLISHED.
#[export] Instance ToolObservationState_eq_dec : EqDecision ToolObservationState.
Proof. solve_decision. Defined.

(* source: Agent/state.py TERMINAL_STATES *)
Definition TERMINAL_STATES : list TaskState :=
  [TS_SUCCEEDED; TS_FAILED; TS_CANCELLED; TS_INTERRUPTED].

(* source: Agent/state.py OUTER_TRANSITIONS *)
Definition OUTER_TRANSITIONS (source : TaskState) : list TaskState :=
  match source with
  | TS_CREATED => [TS_QUEUED; TS_FINALIZING]
  | TS_QUEUED => [TS_STARTING; TS_CANCELLING; TS_FINALIZING]
  | TS_STARTING => [TS_RUNNING; TS_RECOVERING; TS_CANCELLING; TS_FINALIZING; TS_INTERRUPTED]
  | TS_RUNNING =>
      [TS_RECOVERING; TS_RECOVERY_REQUIRED; TS_CANCELLING; TS_FINALIZING; TS_INTERRUPTED]
  | TS_RECOVERING =>
      [TS_QUEUED; TS_STARTING; TS_RUNNING; TS_RECOVERY_REQUIRED; TS_CANCELLING;
       TS_FINALIZING; TS_INTERRUPTED]
  | TS_RECOVERY_REQUIRED => [TS_RECOVERING; TS_CANCELLING; TS_FINALIZING]
  | TS_CANCELLING => [TS_RECOVERY_REQUIRED; TS_FINALIZING]
  | TS_FINALIZING =>
      [TS_SUCCEEDED; TS_FAILED; TS_CANCELLED; TS_RECOVERING; TS_RECOVERY_REQUIRED; TS_INTERRUPTED]
  | TS_SUCCEEDED | TS_FAILED | TS_CANCELLED | TS_INTERRUPTED => []
  end.

(* source: Agent/state.py INNER_TRANSITIONS *)
Definition INNER_TRANSITIONS (source : ExecutionState) : list ExecutionState :=
  match source with
  | ES_THINKING => [ES_WAITING_HUMAN; ES_ACTING; ES_OBSERVING; ES_FINISHED]
  | ES_WAITING_HUMAN => [ES_ACTING; ES_OBSERVING; ES_FINISHED]
  | ES_ACTING => [ES_OBSERVING; ES_FINISHED]
  | ES_OBSERVING => [ES_THINKING; ES_FINISHED]
  | ES_FINISHED => []
  end.

(* source: Agent/state.py validate_outer_transition *)
Definition validate_outer_transition (source target : TaskState) : res unit :=
  if decide (target ∈ OUTER_TRANSITIONS source) then Ok tt
  else Err (ValueError ("illegal outer FSM transition: " +:+ TaskState_value source
                        +:+ " -> " +:+ TaskState_value target)).

(* source: Agent/state.py validate_inner_transition *)
Definition validate_inner_transition (source target : ExecutionState) : res unit :=
  if decide (target ∈ INNER_TRANSITIONS source) then Ok tt
  else Err (ValueError ("illegal inner FSM transition: " +:+ ExecutionState_value source
                        +:+ " -> " +:+ ExecutionState_value target)).

(** The normal terminal states, which only a finalize proof may reach. *)
Definition NORMAL_TERMINAL : list TaskState := [TS_SUCCEEDED; TS_FAILED; TS_CANCELLED].

Definition outer_step (a b : TaskState) : Prop := b ∈ OUTER_TRANSITIONS a.
Definition inner_step (a b : ExecutionState) : Prop := b ∈ INNER_TRANSITIONS a.
#[export] Instance outer_step_dec a b : Decision (outer_step a b).
Proof. unfold outer_step. apply _. Defined.
#[export] Instance inner_step_dec a b : Decision (inner_step a b).
Proof. unfold inner_step. apply _. Defined.

(** ** Lemmas *)

Lemma validate_outer_ok a b : validate_outer_transition a b = Ok tt ↔ outer_step a b.
Proof. unfold validate_outer_transition, outer_step. case_decide; split; done. Qed.

Lemma validate_inner_ok a b : validate_inner_transition a b = Ok tt ↔ inner_step a b.
Proof. unfold validate_inner_transition, inner_step. case_decide; split; done. Qed.

Lemma outer_terminal a b : a ∈ TERMINAL_STATES → ¬ outer_step a b.
Proof. unfold outer_step, TERMINAL_STATES. intros Ha Hb. elem_cases Ha; subst; elem_cases Hb. Qed.

Lemma outer_to_normal_terminal a b :
  outer_step a b → b ∈ NORMAL_TERMINAL → a = TS_FINALIZING.
Proof.
  unfold outer_step, NORMAL_TERMINAL. intros Ha Hb.
  destruct a; try done; elem_cases Ha; subst; by elem_cases Hb.
Qed.

Lemma inner_finished b : ¬ inner_step ES_FINISHED b.
Proof. unfold inner_step. intros H. elem_cases H. Qed.

Lemma TaskState_value_inj a b : TaskState_value a = TaskState_value b → a = b.
Proof. by destruct a, b. Qed.

Lemma target_value_eq t s :
  TerminalTarget_value t = TaskState_value s ↔ s = TaskState_of_target t.
Proof. split; [by destruct t, s | by intros ->; destruct t]. Qed.

Lemma target_normal t : TaskState_of_target t ∈ NORMAL_TERMINAL.
Proof. apply (bool_decide_unpack _). by destruct t. Qed.

Lemma normal_terminal_terminal s : s ∈ NORMAL_TERMINAL → s ∈ TERMINAL_STATES.
Proof.
  unfold NORMAL_TERMINAL. intros H. apply (bool_decide_unpack _). elem_cases H; by subst.
Qed.
