(* ===== verification/AgentState.v ===== *)
(** * AgentState: the records of Agent/state.py

    The immutable snapshots and records of the control plane, with the field
    constraints and the validators that pydantic runs on them.

    Constant fields ([schema_version], [parent], [protocol_version]) carry no
    information and are left out.  A [dict[str, Any]] is an association list of
    JSON values in insertion order.  Retry delays are whole microseconds.
    A [_valid] function is the check made when an instance is built or read
    back from JSON; [validate_*] are the after-validators, which
    [model_validate] also runs on an existing instance. *)

From S2P Require Import Prelude PyText AgentTypes.

#[local] Open Scope Z_scope.

(** Raise [ValidationError] unless the check holds. *)
Definition checked {A} (model : string) (valid : A → bool) (a : A) : res A :=
  if valid a then Ok a else Err (ValidationError model).

Lemma checked_ok {A} model (valid : A → bool) a b :
  checked model valid a = Ok b ↔ valid a = true ∧ b = a.
Proof.
  unfold checked. destruct (valid a); split; intros H;
    [by injection H as <- | by destruct H as [_ ->] | done | by destruct H].
Qed.

Definition opt_all {A} (p : A → bool) (o : option A) : bool :=
  match o with Some a => p a | None => true end.

(** ** Execution snapshot *)

(* source: Agent/state.py ExecutionSnapshot *)
Record ExecutionSnapshot := mkExecutionSnapshot {
  ex_state : ExecutionState;
  ex_outcome : option ExecutionOutcome;
  ex_finish_reason : option string;
  ex_entered_at : string
}.
#[export] Instance ExecutionSnapshot_eq_dec : EqDecision ExecutionSnapshot.
Proof. solve_decision. Defined.

(* source: Agent/state.py ExecutionSnapshot.validate_finished *)
Definition validate_finished (e : ExecutionSnapshot) : bool :=
  if decide (ex_state e = ES_FINISHED)
  then is_some (ex_outcome e) && truthy (ex_finish_reason e)
  else is_none (ex_outcome e) && is_none (ex_finish_reason e).

(** ** Safe checkpoint *)

(* source: Agent/state.py SafeCheckpoint *)
Record SafeCheckpoint := mkSafeCheckpoint {
  ck_checkpoint_id : string;
  ck_run_id : string;
  ck_turn_id : option string;
  ck_state_revision : Z;
  ck_last_determined_operation_id : option string;
  ck_last_determined_attempt_id : option string;
  ck_current_operation_id : option string;
  ck_current_attempt_id : option string;
  ck_session_segment : string;
  ck_last_record_id : string;
  ck_created_at : string
}.
#[export] Instance SafeCheckpoint_eq_dec : EqDecision SafeCheckpoint.
Proof. solve_decision. Defined.

(* source: Agent/state.py SafeCheckpoint *)
Definition SafeCheckpoint_valid (c : SafeCheckpoint) : bool :=
  nonempty (ck_checkpoint_id c) && nonempty (ck_run_id c) && (0 <=? ck_state_revision c)
  && nonempty (ck_session_segment c) && nonempty (ck_last_record_id c).

(** ** The snapshot of a Run *)

(* source: Agent/state.py AgentState *)
Record AgentState := mkAgentState {
  st_revision : Z;
  st_gateway_epoch : string;
  st_run_id : string;
  st_workload_kind : WorkloadKind;
  st_persistence_contract : PersistenceContract;
  st_project_id : string;
  st_session_id : option string;
  st_client_id : string;
  st_parent_run_id : option string;
  st_idempotency_key : string;
  st_request_hash : string;
  st_task_state : TaskState;
  st_execution : option ExecutionSnapshot;
  st_terminal_target : option TerminalTarget;
  st_finalize_generation : option Z;
  st_turn_id : option string;
  st_current_operation_id : option string;
  st_current_attempt_id : option string;
  st_model_call_id : option string;
  st_tool_call_id : option string;
  st_approval_id : option string;
  st_safe_checkpoint : option SafeCheckpoint;
  st_cancellation_requested : bool;
  st_deadline_at : option string;
  st_recovery_reason : option string;
  st_model_attempt : Z;
  st_recovery_attempt : Z;
  st_input_tokens : Z;
  st_output_tokens : Z;
  st_diagnostics : list (string * json);
  st_last_progress_at : string;
  st_operation_started_at : option string;
  st_operation_heartbeat_at : option string;
  st_created_at : string;
  st_started_at : option string;
  st_updated_at : string;
  st_finished_at : option string;
  st_result_summary : option string;
  st_error : option string
}.
#[export] Instance AgentState_eta : Eta AgentState := λ r, mkAgentState
  (st_revision r) (st_gateway_epoch r) (st_run_id r) (st_workload_kind r)
  (st_persistence_contract r) (st_project_id r) (st_session_id r) (st_client_id r)
  (st_parent_run_id r) (st_idempotency_key r) (st_request_hash r) (st_task_state r)
  (st_execution r) (st_terminal_target r) (st_finalize_generation r) (st_turn_id r)
  (st_current_operation_id r) (st_current_attempt_id r) (st_model_call_id r)
  (st_tool_call_id r) (st_approval_id r) (st_safe_checkpoint r)
  (st_cancellation_requested r) (st_deadline_at r) (st_recovery_reason r)
  (st_model_attempt r) (st_recovery_attempt r) (st_input_tokens r) (st_output_tokens r)
  (st_diagnostics r) (st_last_progress_at r) (st_operation_started_at r)
  (st_operation_heartbeat_at r) (st_created_at r) (st_started_at r) (st_updated_at r)
  (st_finished_at r) (st_result_summary r) (st_error r).

(* source: Agent/state.py AgentState.recovery_required *)
Definition recovery_required (s : AgentState) : bool :=
  bool_decide (st_task_state s = TS_RECOVERY_REQUIRED).

(* source: Agent/state.py AgentState.validate_lifecycle *)
Definition validate_lifecycle (s : AgentState) : bool :=
  negb (bool_decide (st_task_state s = TS_FINALIZING) && is_none (st_terminal_target s))
  && (if decide (st_task_state s ∈ [TS_SUCCEEDED; TS_FAILED; TS_CANCELLED])
      then match st_terminal_target s with
           | Some t => bool_decide (TerminalTarget_value t = TaskState_value (st_task_state s))
           | None => false
           end && is_some (st_finished_at s)
      else true)
  && (if decide (st_task_state s ∈ TERMINAL_STATES ∧ st_task_state s ≠ TS_INTERRUPTED)
      then match st_execution s with
           | Some e => bool_decide (ex_state e = ES_FINISHED)
           | None => true
           end
      else true).

(* source: Agent/state.py AgentState *)
Definition AgentState_fields (s : AgentState) : bool :=
  (0 <=? st_revision s) && nonempty (st_gateway_epoch s) && nonempty (st_run_id s)
  && nonempty (st_project_id s) && nonempty (st_client_id s)
  && nonempty (st_idempotency_key s) && hex64 (st_request_hash s)
  && opt_all validate_finished (st_execution s)
  && opt_all (λ g, 1 <=? g) (st_finalize_generation s)
  && opt_all SafeCheckpoint_valid (st_safe_checkpoint s)
  && (0 <=? st_model_attempt s) && (0 <=? st_recovery_attempt s)
  && (0 <=? st_input_tokens s) && (0 <=? st_output_tokens s).

(* source: Agent/state.py AgentState *)
Definition AgentState_valid (s : AgentState) : bool :=
  AgentState_fields s && validate_lifecycle s.

(* source: Agent/state.py FinalizeGenerationRecord *)
Record FinalizeGenerationRecord := mkFinalizeGenerationRecord {
  fg_run_id : string;
  fg_generation : Z;
  fg_terminal_target : TerminalTarget;
  fg_persistence_contract : PersistenceContract;
  fg_created_at : string;
  fg_supersedes_generation : option Z
}.
(* source: Agent/state.py FinalizeGenerationRecord *)
Definition FinalizeGenerationRecord_valid (r : FinalizeGenerationRecord) : bool :=
  nonempty (fg_run_id r) && (1 <=? fg_generation r)
  && opt_all (λ g, 1 <=? g) (fg_supersedes_generation r).

(** ** Logical operations and their attempts *)

(* source: Agent/state.py RetryPolicySnapshot *)
Record RetryPolicySnapshot := mkRetryPolicySnapshot {
  rp_max_attempts : Z;
  rp_base_us : Z;
  rp_max_us : Z;
  rp_automatic : bool;
  rp_requires_reconcile : bool;
  rp_requires_human_confirmation : bool
}.
#[export] Instance RetryPolicySnapshot_eq_dec : EqDecision RetryPolicySnapshot.
Proof. solve_decision. Defined.
(* source: Agent/state.py RetryPolicySnapshot *)
Definition RetryPolicySnapshot_valid (r : RetryPolicySnapshot) : bool :=
  (1 <=? rp_max_attempts r) && (0 <=? rp_base_us r) && (0 <=? rp_max_us r).

(** The policy of an operation created without one. *)
(* source: Agent/state.py RetryPolicySnapshot *)
Definition no_retry_policy : RetryPolicySnapshot := mkRetryPolicySnapshot 1 0 0 false false false.

(* source: Agent/state.py ImmutableOperationMetadata *)
Record ImmutableOperationMetadata := mkImmutableOperationMetadata {
  im_operation_id : string;
  im_parent_operation_id : option string;
  im_run_id : string;
  im_turn_id : option string;
  im_kind : OperationKind;
  im_name : string;
  im_stable_key : string;
  im_request_hash : string;
  im_idempotency : ToolIdempotency;
  im_side_effecting : bool;
  im_logical_model_call_id : option string;
  im_source_model_call_id : option string;
  im_tool_call_id : option string;
  im_tool_batch_id : option string;
  im_tool_call_position : option Z;
  im_external_idempotency_key : option string
}.

(* source: Agent/state.py OperationAttempt *)
Record OperationAttempt := mkOperationAttempt {
  at_attempt_id : string;
  at_operation_id : string;
  at_run_id : string;
  at_attempt_no : Z;
  at_request_hash : string;
  at_side_effecting : bool;
  at_status : OperationStatus;
  at_failure_kind : option OperationFailureKind;
  at_failure_reason : option string;
  at_recovery_resolution : option AttemptRecoveryResolution;
  at_result : option string;
  at_result_hash : option string;
  at_result_source : option string;
  at_skip_reason : option string;
  at_abandonment_reason : option string;
  at_started_at : option string;
  at_heartbeat_at : option string;
  at_heartbeat_expires_at : option string;
  at_completed_at : option string;
  at_model_call_id : option string;
  at_external_request_id : option string;
  at_reconcile_status : option ReconcileStatus;
  at_reconcile_evidence : option string;
  at_risk_confirmed_by : option string;
  at_risk_confirmation_reason : option string;
  at_created_at : string;
  at_updated_at : string
}.
#[export] Instance OperationAttempt_eta : Eta OperationAttempt := λ r, mkOperationAttempt
  (at_attempt_id r) (at_operation_id r) (at_run_id r) (at_attempt_no r) (at_request_hash r)
  (at_side_effecting r) (at_status r) (at_failure_kind r) (at_failure_reason r)
  (at_recovery_resolution r) (at_result r) (at_result_hash r) (at_result_source r)
  (at_skip_reason r) (at_abandonment_reason r) (at_started_at r) (at_heartbeat_at r)
  (at_heartbeat_expires_at r) (at_completed_at r) (at_model_call_id r)
  (at_external_request_id r) (at_reconcile_status r) (at_reconcile_evidence r)
  (at_risk_confirmed_by r) (at_risk_confirmation_reason r) (at_created_at r) (at_updated_at r).

(** An attempt as [OperationAttempt(...)] builds it from the fields given at
    every creation: the rest takes its default. *)
(* source: Agent/state.py OperationAttempt *)
Definition new_attempt (attempt_id operation_id run_id : string) (attempt_no : Z)
    (request_hash : string) (side_effecting : bool) (timestamp : string) : OperationAttempt :=
  mkOperationAttempt attempt_id operation_id run_id attempt_no request_hash side_effecting
    OS_PREPARED None None None None None None None None None None None None None None None None
    None None timestamp timestamp.

(* source: Agent/state.py OperationAttempt.validate_status_evidence *)
Definition validate_status_evidence (a : OperationAttempt) : bool :=
  match at_status a with
  | OS_FAILED => bool_decide (at_failure_kind a ∈ [Some FK_TERMINAL; Some FK_RETRYABLE])
  | OS_UNKNOWN =>
      bool_decide (at_failure_kind a = Some FK_UNKNOWN_EFFECT)
      && is_some (at_recovery_resolution a)
  | _ => is_none (at_failure_kind a)
  end
  && (if decide (at_status a = OS_SKIPPED)
      then bool_decide (at_result_source a = Some "NOT_EXECUTED") && truthy (at_skip_reason a)
      else is_none (at_skip_reason a))
  && (if decide (at_status a = OS_ABANDONED)
      then truthy (at_abandonment_reason a)
      else is_none (at_abandonment_reason a)).

(* source: Agent/state.py OperationAttempt *)
Definition OperationAttempt_fields (a : OperationAttempt) : bool :=
  nonempty (at_attempt_id a) && nonempty (at_operation_id a) && nonempty (at_run_id a)
  && (1 <=? at_attempt_no a) && hex64 (at_request_hash a) && opt_hex64 (at_result_hash a).

(* source: Agent/state.py OperationAttempt *)
Definition OperationAttempt_valid (a : OperationAttempt) : bool :=
  OperationAttempt_fields a && validate_status_evidence a.

(** The literals of [MaterializedToolObservation.status]. *)
(* source: Agent/state.py MaterializedToolObservation *)
Inductive ObservationStatus : Set := OB_SUCCESS | OB_ERROR | OB_CANCELLED | OB_SKIPPED.
#[export] Instance ObservationStatus_eq_dec : EqDecision ObservationStatus.
Proof. solve_decision. Defined.

(* source: Agent/state.py MaterializedToolObservation *)
Record MaterializedToolObservation := mkMaterializedToolObservation {
  ob_observation_id : string;
  ob_run_id : string;
  ob_operation_id : option string;
  ob_attempt_id : option string;
  ob_logical_model_call_id : string;
  ob_tool_call_id : string;
  ob_position : Z;
  ob_name : string;
  ob_arguments : list (string * json);
  ob_status : ObservationStatus;
  ob_finalized_content : string;
  ob_content_hash : string;
  ob_state : ToolObservationState;
  ob_session_record_id : option string;
  ob_revision : Z;
  ob_created_at : string;
  ob_published_at : option string
}.
#[export] Instance MaterializedToolObservation_eta : Eta MaterializedToolObservation := λ r,
  mkMaterializedToolObservation (ob_observation_id r) (ob_run_id r) (ob_operation_id r)
  (ob_attempt_id r) (ob_logical_model_call_id r) (ob_tool_call_id r) (ob_position r) (ob_name r)
  (ob_arguments r) (ob_status r) (ob_finalized_content r) (ob_content_hash r) (ob_state r)
  (ob_session_record_id r) (ob_revision r) (ob_created_at r) (ob_published_at r).
(* source: Agent/state.py MaterializedToolObservation *)
Definition MaterializedToolObservation_valid (o : MaterializedToolObservation) : bool :=
  nonempty (ob_observation_id o) && nonempty (ob_run_id o)
  && nonempty (ob_logical_model_call_id o) && nonempty (ob_tool_call_id o)
  && (0 <=? ob_position o) && nonempty (ob_name o) && hex64 (ob_content_hash o)
  && (0 <=? ob_revision o).

(* source: Agent/state.py OperationAggregate *)
Record OperationAggregate := mkOperationAggregate {
  ag_status : OperationStatus;
  ag_failure_kind : option OperationFailureKind;
  ag_failure_reason : option string;
  ag_latest_attempt_no : Z;
  ag_next_retry_at : option string;
  ag_result : option string;
  ag_result_hash : option string;
  ag_result_source : option string;
  ag_skip_reason : option string
}.
#[export] Instance OperationAggregate_eq_dec : EqDecision OperationAggregate.
Proof. solve_decision. Defined.

(* source: Agent/state.py OperationAggregate.validate_status_evidence *)
Definition validate_aggregate_evidence (g : OperationAggregate) : bool :=
  match ag_status g with
  | OS_FAILED => bool_decide (ag_failure_kind g ∈ [Some FK_TERMINAL; Some FK_RETRYABLE])
  | OS_UNKNOWN => bool_decide (ag_failure_kind g = Some FK_UNKNOWN_EFFECT)
  | _ => is_none (ag_failure_kind g)
  end
  && negb (bool_decide (ag_status g = OS_SKIPPED) && negb (truthy (ag_skip_reason g))).

(* source: Agent/state.py OperationAggregate *)
Definition OperationAggregate_valid (g : OperationAggregate) : bool :=
  (1 <=? ag_latest_attempt_no g) && validate_aggregate_evidence g.

(* source: Agent/state.py OperationRecord *)
Record OperationRecord := mkOperationRecord {
  op_operation_id : string;
  op_parent_operation_id : option string;
  op_run_id : string;
  op_turn_id : option string;
  op_kind : OperationKind;
  op_name : string;
  op_stable_key : string;
  op_request_hash : string;
  op_idempotency : ToolIdempotency;
  op_side_effecting : bool;
  op_logical_model_call_id : option string;
  op_source_model_call_id : option string;
  op_tool_call_id : option string;
  op_tool_batch_id : option string;
  op_tool_call_position : option Z;
  op_external_idempotency_key : option string;
  op_retry_policy_snapshot : RetryPolicySnapshot;
  op_status : OperationStatus;
  op_failure_kind : option OperationFailureKind;
  op_failure_reason : option string;
  op_latest_attempt_no : Z;
  op_next_retry_at : option string;
  op_result : option string;
  op_result_hash : option string;
  op_result_source : option string;
  op_unknown_reason : option string;
  op_reconcile_status : option ReconcileStatus;
  op_reconcile_evidence : option string;
  op_checkpoint_id : option string;
  op_attempt : Z;
  op_started_at : option string;
  op_heartbeat_at : option string;
  op_heartbeat_expires_at : option string;
  op_completed_at : option string;
  op_error : option string;
  op_created_at : string;
  op_updated_at : string
}.
#[export] Instance OperationRecord_eta : Eta OperationRecord := λ r, mkOperationRecord
  (op_operation_id r) (op_parent_operation_id r) (op_run_id r) (op_turn_id r) (op_kind r)
  (op_name r) (op_stable_key r) (op_request_hash r) (op_idempotency r) (op_side_effecting r)
  (op_logical_model_call_id r) (op_source_model_call_id r) (op_tool_call_id r)
  (op_tool_batch_id r) (op_tool_call_position r) (op_external_idempotency_key r)
  (op_retry_policy_snapshot r) (op_status r) (op_failure_kind r) (op_failure_reason r)
  (op_latest_attempt_no r) (op_next_retry_at r) (op_result r) (op_result_hash r)
  (op_result_source r) (op_unknown_reason r) (op_reconcile_status r) (op_reconcile_evidence r)
  (op_checkpoint_id r) (op_attempt r) (op_started_at r) (op_heartbeat_at r)
  (op_heartbeat_expires_at r) (op_completed_at r) (op_error r) (op_created_at r) (op_updated_at r).

(* source: Agent/state.py OperationRecord *)
Definition OperationRecord_valid (o : OperationRecord) : bool :=
  nonempty (op_operation_id o) && nonempty (op_run_id o) && nonempty (op_name o)
  && nonempty (op_stable_key o) && hex64 (op_request_hash o)
  && opt_all (λ p, 0 <=? p) (op_tool_call_position o)
  && RetryPolicySnapshot_valid (op_retry_policy_snapshot o)
  && (1 <=? op_latest_attempt_no o) && opt_hex64 (op_result_hash o) && (0 <=? op_attempt o).

(* source: Agent/state.py OperationRecord.immutable_metadata *)
Definition immutable_metadata (o : OperationRecord) : ImmutableOperationMetadata :=
  mkImmutableOperationMetadata
    (op_operation_id o) (op_parent_operation_id o) (op_run_id o) (op_turn_id o) (op_kind o)
    (op_name o) (op_stable_key o) (op_request_hash o) (op_idempotency o) (op_side_effecting o)
    (op_logical_model_call_id o) (op_source_model_call_id o) (op_tool_call_id o)
    (op_tool_batch_id o) (op_tool_call_position o) (op_external_idempotency_key o).

(* source: Agent/state.py ImmutableOperationMetadata *)
Definition ImmutableOperationMetadata_valid (m : ImmutableOperationMetadata) : bool :=
  nonempty (im_operation_id m) && nonempty (im_run_id m) && nonempty (im_name m)
  && nonempty (im_stable_key m) && hex64 (im_request_hash m)
  && opt_all (λ p, 0 <=? p) (im_tool_call_position m).

(** An operation as [OperationRecord(...)] builds it: the immutable metadata
    is given, the rest takes its default. *)
(* source: Agent/state.py OperationRecord *)
Definition new_operation (m : ImmutableOperationMetadata) (policy : RetryPolicySnapshot)
    (timestamp : string) : OperationRecord :=
  mkOperationRecord (im_operation_id m) (im_parent_operation_id m) (im_run_id m) (im_turn_id m)
    (im_kind m) (im_name m) (im_stable_key m) (im_request_hash m) (im_idempotency m)
    (im_side_effecting m) (im_logical_model_call_id m) (im_source_model_call_id m)
    (im_tool_call_id m) (im_tool_batch_id m) (im_tool_call_position m)
    (im_external_idempotency_key m) policy
    OS_PREPARED None None 1 None None None None None None None None 0 None None None None None
    timestamp timestamp.

(* source: Agent/state.py DurableApproval *)
Record DurableApproval := mkDurableApproval {
  ap_approval_id : string;
  ap_operation_id : string;
  ap_attempt_id : string;
  ap_attempt_no : Z;
  ap_stable_key : string;
  ap_request_hash : string;
  ap_run_id : string;
  ap_client_id : string;
  ap_tool_name : string;
  ap_arguments_hash : string;
  ap_arguments_json : string;
  ap_status : ApprovalStatus;
  ap_created_at : string;
  ap_expires_at : string;
  ap_decided_at : option string;
  ap_decided_by : option string;
  ap_reason : option string
}.
#[export] Instance DurableApproval_eta : Eta DurableApproval := λ r, mkDurableApproval
  (ap_approval_id r) (ap_operation_id r) (ap_attempt_id r) (ap_attempt_no r) (ap_stable_key r)
  (ap_request_hash r) (ap_run_id r) (ap_client_id r) (ap_tool_name r) (ap_arguments_hash r)
  (ap_arguments_json r) (ap_status r) (ap_created_at r) (ap_expires_at r) (ap_decided_at r)
  (ap_decided_by r) (ap_reason r).
(* source: Agent/state.py DurableApproval *)
Definition DurableApproval_valid (a : DurableApproval) : bool :=
  nonempty (ap_approval_id a) && nonempty (ap_operation_id a) && nonempty (ap_attempt_id a)
  && (1 <=? ap_attempt_no a) && nonempty (ap_stable_key a) && hex64 (ap_request_hash a)
  && nonempty (ap_run_id a) && nonempty (ap_client_id a) && nonempty (ap_tool_name a)
  && hex64 (ap_arguments_hash a).

(* source: Agent/state.py ReconcileResult *)
Record ReconcileResult := mkReconcileResult {
  rr_status : ReconcileStatus;
  rr_evidence : string;
  rr_result_source : string;
  rr_observed_result : option string;
  rr_checked_at : string
}.

(** ** Scheduling *)

(** [state.diagnostics.get("fencing_token_valid") is False] *)
Definition fencing_token_invalid (s : AgentState) : bool :=
  match dict_get "fencing_token_valid" (st_diagnostics s) with
  | Some (JBool false) => true
  | _ => false
  end.

(* source: Agent/state.py projected_run_status *)
Definition projected_run_status (s : AgentState) : string :=
  match st_task_state s with
  | TS_CREATED | TS_QUEUED => "queued"
  | TS_SUCCEEDED => "completed"
  | TS_FAILED => "failed"
  | TS_CANCELLED => "cancelled"
  | TS_INTERRUPTED => "interrupted"
  | _ => "running"
  end.

(** ** What the validators say *)

Lemma lifecycle_normal_terminal s :
  validate_lifecycle s = true → st_task_state s ∈ NORMAL_TERMINAL →
  ∃ t, st_terminal_target s = Some t ∧ st_task_state s = TaskState_of_target t ∧
       is_some (st_finished_at s) = true ∧
       opt_all (λ e, bool_decide (ex_state e = ES_FINISHED)) (st_execution s) = true.
Proof.
  unfold validate_lifecycle, NORMAL_TERMINAL. intros H Hin.
  rewrite (decide_True _ _ Hin) in H.
  assert (st_task_state s ∈ TERMINAL_STATES ∧ st_task_state s ≠ TS_INTERRUPTED) as Ht.
  { split; [by apply normal_terminal_terminal|]. intros E. rewrite E in Hin. by elem_cases Hin. }
  rewrite (decide_True _ _ Ht) in H.
  apply andb_true_iff in H as [H Hex]. apply andb_true_iff in H as [_ H].
  apply andb_true_iff in H as [Htt Hf].
  destruct (st_terminal_target s) as [t|]; [|done].
  apply bool_decide_eq_true in Htt. exists t. repeat split; [|done|].
  - apply target_value_eq in Htt. done.
  - by destruct (st_execution s).
Qed.

Lemma lifecycle_finalizing s :
  validate_lifecycle s = true → st_task_state s = TS_FINALIZING →
  is_some (st_terminal_target s) = true.
Proof.
  unfold validate_lifecycle. intros H E. rewrite E in H.
  by destruct (st_terminal_target s).
Qed.

Lemma immutable_metadata_new m policy ts : immutable_metadata (new_operation m policy ts) = m.
Proof. by destruct m. Qed.

Lemma validate_status_finished a :
  validate_status_evidence a = true →
  (at_status a = OS_FAILED → at_failure_kind a = Some FK_TERMINAL ∨ at_failure_kind a = Some FK_RETRYABLE)
  ∧ (at_status a = OS_UNKNOWN → at_failure_kind a = Some FK_UNKNOWN_EFFECT ∧
                                 is_some (at_recovery_resolution a) = true)
  ∧ (at_status a ∉ [OS_FAILED; OS_UNKNOWN] → at_failure_kind a = None).
Proof.
  unfold validate_status_evidence. intros H. apply andb_true_iff in H as [H _].
  apply andb_true_iff in H as [H _]. split_and!; intros E; try rewrite E in H.
  - apply bool_decide_eq_true in H. elem_cases H; auto.
  - apply andb_true_iff in H as [H ?]. by apply bool_decide_eq_true in H.
  - destruct (at_status a); try (by destruct (at_failure_kind a)); by destruct E; elem_here.
Qed.
