(* ===== verification/Commands.v ===== *)
(** * Commands: the state commands of Agent/state.py

    Every command of the Union [Command] is a header, the fields of the class
    [StateCommand], and a body, one constructor per subclass holding the fields
    that subclass adds.  [command_valid] is the check pydantic makes when the
    command object is built. *)

From S2P Require Import Prelude PyText Json AgentTypes AgentState.

#[local] Open Scope Z_scope.

(* source: Agent/state.py StateCommand *)
Record StateCommand := mkStateCommand {
  sc_command_id : string;
  sc_event_key : string;
  sc_causation_id : option string;
  sc_correlation_id : option string;
  sc_run_id : string;
  sc_expected_revision : Z;
  sc_gateway_epoch : string
}.
(* source: Agent/state.py StateCommand *)
Definition StateCommand_valid (c : StateCommand) : bool :=
  nonempty (sc_command_id c) && nonempty (sc_event_key c) && opt_nonempty (sc_causation_id c)
  && opt_nonempty (sc_correlation_id c) && nonempty (sc_run_id c)
  && (0 <=? sc_expected_revision c) && nonempty (sc_gateway_epoch c).

(** A header built inside the controller: the optional fields take their default. *)
Definition sub_command (c : StateCommand) (command_id : string) : StateCommand :=
  mkStateCommand command_id "primary" None None
    (sc_run_id c) (sc_expected_revision c) (sc_gateway_epoch c).

(** ** Bodies that more than one handler takes apart *)

(* source: Agent/state.py TransitionCommand *)
Record TransitionCommand := mkTransitionCommand {
  tc_task_state : option TaskState;
  tc_execution_state : option ExecutionState;
  tc_outcome : option ExecutionOutcome;
  tc_finish_reason : option string;
  tc_terminal_target : option TerminalTarget;
  tc_reason : string;
  tc_error : option string;
  tc_result_summary : option string
}.
(* source: Agent/state.py TransitionCommand.has_transition *)
Definition has_transition (c : TransitionCommand) : bool :=
  negb (is_none (tc_task_state c) && is_none (tc_execution_state c))
  && (if decide (tc_execution_state c = Some ES_FINISHED)
      then is_some (tc_outcome c) && truthy (tc_finish_reason c)
      else is_none (tc_outcome c) && is_none (tc_finish_reason c)).

(* source: Agent/state.py UpdateStateMetadataCommand *)
Record UpdateStateMetadataCommand := mkUpdateStateMetadataCommand {
  um_model_attempt : option Z;
  um_recovery_attempt : option Z;
  um_input_tokens : option Z;
  um_output_tokens : option Z;
  um_last_progress_at : option string;
  um_diagnostics : option (list (string * json))
}.

(* source: Agent/state.py FinalizeInboxCommand *)
Record FinalizeInboxCommand := mkFinalizeInboxCommand {
  fi_operation_id : string;
  fi_attempt_id : string;
  fi_generation : Z;
  fi_stable_key : string;
  fi_request_hash : string;
  fi_title : string;
  fi_summary : string;
  fi_status : string
}.

(* source: Agent/state.py FinalizeAuditCommand *)
Record FinalizeAuditCommand := mkFinalizeAuditCommand {
  fa_operation_id : string;
  fa_attempt_id : string;
  fa_generation : Z;
  fa_stable_key : string;
  fa_request_hash : string;
  fa_receipt_id : string;
  fa_receipt_generation : Z;
  fa_receipt_json : string;
  fa_receipt_hash : string;
  fa_evidence_json : string;
  fa_evidence_hash : string
}.

(* source: Agent/state.py BeginOperationCommand *)
Record BeginOperationCommand := mkBeginOperationCommand {
  bo_operation_id : string;
  bo_parent_operation_id : option string;
  bo_turn_id : option string;
  bo_kind : OperationKind;
  bo_name : string;
  bo_request_hash : string;
  bo_idempotency : ToolIdempotency
}.

(* source: Agent/state.py CreateOperationWithAttemptCommand *)
Record CreateOperationWithAttemptCommand := mkCreateOperationWithAttemptCommand {
  co_operation_id : string;
  co_attempt_id : string;
  co_parent_operation_id : option string;
  co_turn_id : option string;
  co_kind : OperationKind;
  co_name : string;
  co_stable_key : string;
  co_request_hash : string;
  co_idempotency : ToolIdempotency;
  co_side_effecting : bool;
  co_logical_model_call_id : option string;
  co_source_model_call_id : option string;
  co_tool_call_id : option string;
  co_tool_batch_id : option string;
  co_tool_call_position : option Z;
  co_model_call_id : option string;
  co_external_request_id : option string;
  co_external_idempotency_key : option string;
  co_retry_policy_snapshot : RetryPolicySnapshot
}.

(* source: Agent/state.py BeginOperationAttemptCommand *)
Record BeginOperationAttemptCommand := mkBeginOperationAttemptCommand {
  ba_operation_id : string;
  ba_attempt_id : string;
  ba_expected_latest_attempt_no : Z;
  ba_request_hash : string;
  ba_model_call_id : option string;
  ba_external_request_id : option string;
  ba_risk_confirmed_by : option string;
  ba_risk_confirmation_reason : option string
}.
(* source: Agent/state.py BeginOperationAttemptCommand *)
Definition BeginOperationAttemptCommand_valid (c : BeginOperationAttemptCommand) : bool :=
  nonempty (ba_operation_id c) && nonempty (ba_attempt_id c)
  && (1 <=? ba_expected_latest_attempt_no c) && hex64 (ba_request_hash c).

(** The literals of [RecoveryDecisionCommand.action]. *)
(* source: Agent/state.py RecoveryDecisionCommand *)
Inductive RecoveryAction : Set := RA_RETRY | RA_CONFIRM_SUCCEEDED | RA_FAIL | RA_CANCEL.
#[export] Instance RecoveryAction_eq_dec : EqDecision RecoveryAction.
Proof. solve_decision. Defined.
(* source: Agent/state.py RecoveryDecisionCommand *)
Definition RecoveryAction_value (a : RecoveryAction) : string :=
  match a with
  | RA_RETRY => "retry" | RA_CONFIRM_SUCCEEDED => "confirm_succeeded"
  | RA_FAIL => "fail" | RA_CANCEL => "cancel"
  end.

(* source: Agent/state.py RecoveryDecisionCommand *)
Record RecoveryDecisionCommand := mkRecoveryDecisionCommand {
  rc_action : RecoveryAction;
  rc_operation_id : option string;
  rc_actor : string;
  rc_reason : string;
  rc_observed_result : option string;
  rc_risk_confirmed : bool
}.
(* source: Agent/state.py RecoveryDecisionCommand.validate_recovery *)
Definition validate_recovery (c : RecoveryDecisionCommand) : bool :=
  negb (bool_decide (rc_action c = RA_CONFIRM_SUCCEEDED) && negb (truthy (rc_observed_result c))).

(** ** The Union *)

(* source: Agent/state.py:741-890 Command *)
Inductive CommandBody :=
| AdoptGatewayEpoch (previous_gateway_epoch reason : string)
| Transition (c : TransitionCommand)
| UpdateStateMetadata (c : UpdateStateMetadataCommand)
| RecordRuntimeEvent (event_type : string) (payload : list (string * json)) (mark_progress : bool)
| BindSession (session_id : string)
| UpgradePersistenceContract (reason : string)
| StartReplacementFinalizeGeneration (generation : Z) (supersedes : option Z)
    (invalidated_generation : Z) (reason : string)
| StartFinalizeGeneration (generation : Z) (supersedes : option Z)
| InvalidateFinalizeGeneration (generation : Z) (reason : string)
| FinalizeAudit (c : FinalizeAuditCommand)
| FinalizeInbox (c : FinalizeInboxCommand)
| FinalizeTerminal (generation : Z) (reason : string)
| CreateOperationWithAttempt (c : CreateOperationWithAttemptCommand)
| BeginOperationAttempt (c : BeginOperationAttemptCommand)
| StartOperationAttempt (attempt_id : string) (heartbeat_expires_at : option string)
| CompleteOperationAttempt (attempt_id result result_hash result_source : string)
| FailOperationAttempt (attempt_id : string) (failure_kind : OperationFailureKind)
    (failure_reason : string)
| MarkOperationAttemptUnknown (attempt_id failure_reason : string)
| SkipOperationAttempt (attempt_id skip_reason : string)
| AbandonOperationAttempt (attempt_id abandonment_reason : string)
| HeartbeatOperationAttempt (attempt_id heartbeat_at heartbeat_expires_at : string)
| ReconcileOperationAttempt (attempt_id : string) (result : ReconcileResult)
| BeginOperation (c : BeginOperationCommand)
| StartOperation (operation_id : string) (heartbeat_expires_at : option string)
| CompleteOperation (operation_id result result_hash result_source : string)
| FailOperation (operation_id error : string) (failure_kind : OperationFailureKind)
| MarkOperationUnknown (operation_id unknown_reason : string)
| AbandonOperation (operation_id reason : string)
| HeartbeatOperation (operation_id heartbeat_at heartbeat_expires_at : string)
| ReconcileOperation (operation_id : string) (result : ReconcileResult)
| CreateApproval (approval : DurableApproval)
| DecideApproval (approval_id : string) (approved : bool) (decided_by reason : string)
| ExpireApproval (approval_id : string)
| RequestCancellation (reason : string)
| CreateSafeCheckpoint (checkpoint : SafeCheckpoint)
| RecoveryDecision (c : RecoveryDecisionCommand).

Record Command := mkCommand { cm_head : StateCommand; cm_body : CommandBody }.

Definition opt_ge0 (o : option Z) : bool := opt_all (λ z, 0 <=? z) o.

(** The field constraints and validators of each command class. *)
(* source: Agent/state.py:624-773 Command *)
Definition body_valid (b : CommandBody) : bool :=
  match b with
  | AdoptGatewayEpoch p r => nonempty p && nonempty r
  | Transition c => nonempty (tc_reason c) && has_transition c
  | UpdateStateMetadata c =>
      opt_ge0 (um_model_attempt c) && opt_ge0 (um_recovery_attempt c)
      && opt_ge0 (um_input_tokens c) && opt_ge0 (um_output_tokens c)
  | RecordRuntimeEvent t _ _ => nonempty t
  | BindSession s => nonempty s
  | UpgradePersistenceContract r => nonempty r
  | StartFinalizeGeneration g s => (1 <=? g) && opt_all (λ z, 1 <=? z) s
  | StartReplacementFinalizeGeneration g s i r =>
      (1 <=? g) && opt_all (λ z, 1 <=? z) s && (1 <=? i) && nonempty r
  | InvalidateFinalizeGeneration g r => (1 <=? g) && nonempty r
  | FinalizeInbox c =>
      nonempty (fi_operation_id c) && nonempty (fi_attempt_id c) && (1 <=? fi_generation c)
      && nonempty (fi_stable_key c) && hex64 (fi_request_hash c) && nonempty (fi_title c)
      && bool_decide (fi_status c ∈ ["completed"; "failed"; "cancelled"])
  | FinalizeAudit c =>
      nonempty (fa_operation_id c) && nonempty (fa_attempt_id c) && (1 <=? fa_generation c)
      && nonempty (fa_stable_key c) && hex64 (fa_request_hash c) && nonempty (fa_receipt_id c)
      && (1 <=? fa_receipt_generation c) && hex64 (fa_receipt_hash c) && hex64 (fa_evidence_hash c)
  | FinalizeTerminal g r => (1 <=? g) && nonempty r
  | BeginOperation c =>
      nonempty (bo_operation_id c) && nonempty (bo_name c) && hex64 (bo_request_hash c)
  | CreateOperationWithAttempt c =>
      nonempty (co_operation_id c) && nonempty (co_attempt_id c) && nonempty (co_name c)
      && nonempty (co_stable_key c) && hex64 (co_request_hash c)
      && opt_ge0 (co_tool_call_position c)
      && RetryPolicySnapshot_valid (co_retry_policy_snapshot c)
  | BeginOperationAttempt c => BeginOperationAttemptCommand_valid c
  | StartOperationAttempt a _ => nonempty a
  | CompleteOperationAttempt a _ h s => nonempty a && hex64 h && nonempty s
  | FailOperationAttempt a k r =>
      nonempty a && nonempty r && negb (bool_decide (k = FK_UNKNOWN_EFFECT))
  | MarkOperationAttemptUnknown a r | SkipOperationAttempt a r
  | AbandonOperationAttempt a r => nonempty a && nonempty r
  | HeartbeatOperationAttempt a _ _ => nonempty a
  | ReconcileOperationAttempt a _ => nonempty a
  | StartOperation o _ => nonempty o
  | CompleteOperation o _ h s => nonempty o && hex64 h && nonempty s
  | FailOperation o e _ => nonempty o && nonempty e
  | MarkOperationUnknown o r | AbandonOperation o r => nonempty o && nonempty r
  | HeartbeatOperation o _ _ => nonempty o
  | ReconcileOperation o _ => nonempty o
  | CreateApproval a => DurableApproval_valid a
  | DecideApproval a _ d _ => nonempty a && nonempty d
  | ExpireApproval a => nonempty a
  | RequestCancellation r => nonempty r
  | CreateSafeCheckpoint k => SafeCheckpoint_valid k
  | RecoveryDecision c => nonempty (rc_actor c) && nonempty (rc_reason c) && validate_recovery c
  end.

(** A payload is a Python dict: its keys are distinct, its floats are floats. *)
Definition payload_wf (b : CommandBody) : bool :=
  match b with RecordRuntimeEvent _ payload _ => json_wf (JObj payload) | _ => true end.

Definition command_valid (c : Command) : bool :=
  StateCommand_valid (cm_head c) && body_valid (cm_body c) && payload_wf (cm_body c).

Lemma command_head c : command_valid c = true → StateCommand_valid (cm_head c) = true.
Proof. unfold command_valid. by intros [[H _]%andb_true_iff _]%andb_true_iff. Qed.
Lemma command_body c : command_valid c = true → body_valid (cm_body c) = true.
Proof. unfold command_valid. by intros [[_ H]%andb_true_iff _]%andb_true_iff. Qed.
Lemma command_payload c : command_valid c = true → payload_wf (cm_body c) = true.
Proof. unfold command_valid. by intros [_ H]%andb_true_iff. Qed.

(* source: Agent/state.py ApplyResult *)
Record ApplyResult := mkApplyResult {
  ar_state : AgentState;
  ar_operation : option OperationRecord;
  ar_attempt : option OperationAttempt;
  ar_approval : option DurableApproval;
  ar_event_id : option string;
  ar_duplicate : bool
}.
#[export] Instance ApplyResult_eta : Eta ApplyResult := λ r, mkApplyResult
  (ar_state r) (ar_operation r) (ar_attempt r) (ar_approval r) (ar_event_id r) (ar_duplicate r).
