(* ===== verification/OperationReduce.v ===== *)
(** * OperationReduce: from attempts to the state of a logical operation

    [reduce_operation] of Agent/state.py computes the aggregate of an operation
    from its attempts alone, and [is_runnable] is the predicate every scheduler
    shares.  [aggregate_operation] (gateway/state_controller.py) writes the
    aggregate back into the ledger record. *)

From S2P Require Import Prelude PyText PyTime AgentTypes AgentState.

#[local] Open Scope Z_scope.

(** ** Reduction *)

Definition no_le (a b : OperationAttempt) : Prop := at_attempt_no a ≤ at_attempt_no b.
#[export] Instance no_le_dec a b : Decision (no_le a b).
Proof. unfold no_le. apply _. Defined.
#[export] Instance no_le_total : Total no_le.
Proof. intros a b. unfold no_le. lia. Qed.
#[export] Instance no_le_trans : Transitive no_le.
Proof. intros a b c. unfold no_le. lia. Qed.

(** An attempt whose effect is still open. *)
(* source: Agent/state.py reduce_operation *)
Definition attempt_active (a : OperationAttempt) : bool :=
  bool_decide (at_status a ∈ [OS_PREPARED; OS_RUNNING])
  || bool_decide (at_status a = OS_UNKNOWN ∧ at_recovery_resolution a = Some RR_UNRESOLVED).

(** Does the attempt carry the identity of its operation? *)
(* source: Agent/state.py reduce_operation *)
Definition inherits (m : ImmutableOperationMetadata) (a : OperationAttempt) : bool :=
  bool_decide (at_operation_id a = im_operation_id m)
  && bool_decide (at_run_id a = im_run_id m)
  && bool_decide (at_request_hash a = im_request_hash m)
  && bool_decide (at_side_effecting a = im_side_effecting m).

(** [min(max_seconds, base_seconds * 2 ** (attempt_no - 1))]: the product of a
    float and an int, which Python refuses when the int does not fit a float. *)
(* source: Agent/state.py:498-498 reduce_operation *)
Definition retry_delay (p : RetryPolicySnapshot) (attempt_no : Z) : res Z :=
  if 1024 <=? attempt_no - 1 then Err (OverflowError "int too large to convert to float")
  else Ok (Z.min (rp_max_us p) (rp_base_us p * 2 ^ (attempt_no - 1))).

(** [next_retry_at] of a retryable failure. *)
(* source: Agent/state.py:496-501 reduce_operation *)
Definition next_retry_at (p : RetryPolicySnapshot) (latest : OperationAttempt) : res string :=
  match at_completed_at latest with
  | Some c =>
      if bool_decide (c = "") then Err (ValueError "RETRYABLE Attempt requires completed_at") else
      completed ← parse_iso (replace_Z c);
      delay ← retry_delay p (at_attempt_no latest);
      next ← dt_shift completed delay;
      mret (isoformat next)
  | None => Err (ValueError "RETRYABLE Attempt requires completed_at")
  end.

(* source: Agent/state.py reduce_operation *)
Definition plain_aggregate (a : OperationAttempt) : OperationAggregate :=
  mkOperationAggregate (at_status a) (at_failure_kind a) (at_failure_reason a) (at_attempt_no a)
    None (at_result a) (at_result_hash a) (at_result_source a) (at_skip_reason a).

(** The case analysis on the latest of [n] ordered attempts. *)
(* source: Agent/state.py:475-517 reduce_operation *)
Definition reduce_latest (p : RetryPolicySnapshot) (n : Z) (latest : OperationAttempt) :
    res OperationAggregate :=
  if decide (at_status latest = OS_UNKNOWN ∧
             at_recovery_resolution latest = Some RR_CONFIRMED_SUCCEEDED) then
    mret (mkOperationAggregate OS_COMPLETED None None (at_attempt_no latest) None
            (at_result latest) (at_result_hash latest)
            (Some (str_or (at_result_source latest) "human_confirmed")) None)
  else if decide (at_status latest = OS_UNKNOWN ∧
                  at_recovery_resolution latest = Some RR_CONFIRMED_FAILED) then
    mret (mkOperationAggregate OS_FAILED (Some FK_TERMINAL)
            (Some (str_or (at_failure_reason latest) "human_confirmed_failed"))
            (at_attempt_no latest) None None None None None)
  else if decide (at_status latest = OS_FAILED ∧ at_failure_kind latest = Some FK_RETRYABLE) then
    if decide (rp_max_attempts p ≤ n) then
      mret (mkOperationAggregate OS_FAILED (Some FK_TERMINAL) (Some "retry_exhausted")
              (at_attempt_no latest) None None None None None)
    else
      next ← next_retry_at p latest;
      mret (mkOperationAggregate OS_FAILED (Some FK_RETRYABLE) (at_failure_reason latest)
              (at_attempt_no latest) (Some next) None None None None)
  else mret (plain_aggregate latest).

(* source: Agent/state.py reduce_operation *)
Definition reduce_operation (metadata : ImmutableOperationMetadata)
    (attempts : list OperationAttempt) (retry_policy : RetryPolicySnapshot) :
    res OperationAggregate :=
  let ordered := merge_sort no_le attempts in
  match last ordered with
  | None => Err (ValueError "Logical Operation needs at least one Attempt")
  | Some latest =>
      if decide (map at_attempt_no ordered ≠ seqZ 1 (Z.of_nat (length ordered))) then
        Err (ValueError "Attempt numbers must be contiguous from 1")
      else if existsb (λ a, negb (inherits metadata a)) ordered then
        Err (ValueError "Attempt must inherit its Logical Operation")
      else if decide (1 < length (filter (λ a, attempt_active a = true) ordered))%nat then
        Err (ValueError "at most one active Attempt per Logical Operation")
      else
        g ← reduce_latest retry_policy (Z.of_nat (length ordered)) latest;
        checked "OperationAggregate" OperationAggregate_valid g
  end.

(* source: gateway/state_controller.py StateController._aggregate_operation *)
Definition aggregate_operation (operation : OperationRecord) (attempts : list OperationAttempt)
    (timestamp : string) : res OperationRecord :=
  m ← checked "ImmutableOperationMetadata" ImmutableOperationMetadata_valid
        (immutable_metadata operation);
  g ← reduce_operation m attempts (op_retry_policy_snapshot operation);
  match last attempts with
  | None => Err (ValueError "Logical Operation needs at least one Attempt")
  | Some latest => mret (operation
      ⟪ op_status := ag_status g ⟫ ⟪ op_failure_kind := ag_failure_kind g ⟫
      ⟪ op_failure_reason := ag_failure_reason g ⟫
      ⟪ op_latest_attempt_no := ag_latest_attempt_no g ⟫
      ⟪ op_next_retry_at := ag_next_retry_at g ⟫ ⟪ op_result := ag_result g ⟫
      ⟪ op_result_hash := ag_result_hash g ⟫ ⟪ op_result_source := ag_result_source g ⟫
      ⟪ op_attempt := ag_latest_attempt_no g ⟫ ⟪ op_started_at := at_started_at latest ⟫
      ⟪ op_heartbeat_at := at_heartbeat_at latest ⟫
      ⟪ op_heartbeat_expires_at := at_heartbeat_expires_at latest ⟫
      ⟪ op_completed_at := at_completed_at latest ⟫ ⟪ op_error := ag_failure_reason g ⟫
      ⟪ op_unknown_reason := if decide (ag_status g = OS_UNKNOWN)
                             then ag_failure_reason g else None ⟫
      ⟪ op_updated_at := timestamp ⟫)
  end.

(** ** Scheduling *)

(** [now.astimezone()] attaches the local zone to a naive [now]. *)
Definition aware (local_offset : Z) (now : datetime) : datetime :=
  match dt_utcoff now with Some _ => now | None => mkdatetime (dt_local now) (Some local_offset) end.

(** [selected >= t], [t] the instant a timestamp of the state names. *)
(* source: Agent/state.py is_runnable *)
Definition reached (now : datetime) (t : string) : res bool :=
  d ← parse_iso (replace_Z t);
  b ← dt_lt now d;
  mret (negb b).

(* source: Agent/state.py:965-969 is_runnable *)
Definition past_deadline (state : AgentState) (now : datetime) : res bool :=
  match st_deadline_at state with
  | Some d => if bool_decide (d = "") || st_cancellation_requested state
              then mret false else reached now d
  | None => mret false
  end.

(* source: Agent/state.py:988-996 is_runnable *)
Definition retry_due (operation : option OperationRecord) (now : datetime) : res bool :=
  match operation with
  | Some o =>
      if decide (op_status o = OS_FAILED) then
        if decide (op_failure_kind o ≠ Some FK_RETRYABLE) then mret true else
        match op_next_retry_at o with
        | Some t => if bool_decide (t = "") || negb (rp_automatic (op_retry_policy_snapshot o))
                    then mret false else reached now t
        | None => mret false
        end
      else mret true
  | None => mret true
  end.

(* source: Agent/state.py is_runnable *)
Definition is_runnable (local_offset : Z) (state : AgentState) (operation : option OperationRecord)
    (attempt : option OperationAttempt) (now : datetime) : res bool :=
  let now := aware local_offset now in
  if decide (st_task_state state ∈ TERMINAL_STATES ++ [TS_RECOVERY_REQUIRED]) then mret false else
  if fencing_token_invalid state then mret false else
  late ← past_deadline state now;
  if late : bool then mret false else
  match ex_state <$> st_execution state with
  | Some ES_WAITING_HUMAN => mret false
  | Some ES_ACTING =>
      match operation, attempt with
      | Some _, Some a =>
          match at_status a with
          | OS_PREPARED | OS_COMPLETED | OS_FAILED | OS_SKIPPED | OS_ABANDONED => mret true
          | OS_UNKNOWN | OS_RUNNING => mret false
          end
      | _, _ => mret false
      end
  | _ => retry_due operation now
  end.

(** ** Lemmas on the reduction *)

(** What a successful reduction has checked. *)
Record reduction (m : ImmutableOperationMetadata) (l : list OperationAttempt)
    (p : RetryPolicySnapshot) (latest : OperationAttempt) (g : OperationAggregate) : Prop := {
  rd_last : last (merge_sort no_le l) = Some latest;
  rd_numbers : map at_attempt_no (merge_sort no_le l) = seqZ 1 (Z.of_nat (length l));
  rd_inherits : ∀ a, a ∈ l → inherits m a = true;
  rd_active : (length (filter (λ a, attempt_active a = true) l) ≤ 1)%nat;
  rd_latest : reduce_latest p (Z.of_nat (length l)) latest = Ok g;
  rd_valid : OperationAggregate_valid g = true
}.

Arguments rd_last {m l p latest g}.
Arguments rd_numbers {m l p latest g}.
Arguments rd_inherits {m l p latest g}.
Arguments rd_active {m l p latest g}.
Arguments rd_latest {m l p latest g}.
Arguments rd_valid {m l p latest g}.

Lemma length_sorted l : length (merge_sort no_le l) = length l.
Proof. by rewrite (merge_sort_Permutation no_le l). Qed.

Lemma reduce_operation_ok m l p g :
  reduce_operation m l p = Ok g ↔ ∃ latest, reduction m l p latest g.
Proof.
  unfold reduce_operation. rewrite length_sorted. split.
  - destruct (last _) as [latest|] eqn:Hl; [|done]. intros H. exists latest.
    case_decide as Hn; [done|].
    destruct (existsb _ _) eqn:Hi; [done|]. case_decide as Ha; [done|].
    apply res_bind_ok in H as (g' & Hg & H). apply checked_ok in H as [Hv ->].
    split; try done.
    + intros a Hin. destruct (inherits m a) eqn:E; [done|].
      apply not_true_iff_false in Hi as []. apply existsb_exists. exists a. rewrite E.
      split; [|done]. apply list_elem_of_In. by rewrite merge_sort_Permutation.
    + rewrite (merge_sort_Permutation no_le l) in Ha. lia.
  - intros (latest & [Hl Hn Hi Ha Hg Hv]). rewrite Hl.
    rewrite decide_False by (intros []; done).
    replace (existsb _ _) with false.
    2:{ symmetry. apply not_true_iff_false. rewrite existsb_exists.
        intros (a & Hin & E). rewrite Hi in E; [done|].
        apply list_elem_of_In in Hin. by rewrite merge_sort_Permutation in Hin. }
    rewrite decide_False by (rewrite merge_sort_Permutation; lia).
    apply res_bind_ok. exists g. split; [done|]. by apply checked_ok.
Qed.

Lemma last_seqZ n m : 0 < n → last (seqZ m n) = Some (m + n - 1).
Proof.
  intros Hn. rewrite last_lookup, length_seqZ.
  apply lookup_seqZ. split; lia.
Qed.

Section reduction.
Context {m l p latest g} (R : reduction m l p latest g).

Lemma reduction_latest_in : latest ∈ l.
Proof.
  rewrite <- (merge_sort_Permutation no_le l).
  pose proof (rd_last R) as [l' ->]%last_Some.
  apply elem_of_app. right. apply list_elem_of_here.
Qed.

Lemma reduction_latest_no : at_attempt_no latest = Z.of_nat (length l).
Proof.
  pose proof (f_equal last (rd_numbers R)) as H.
  rewrite fmap_last, (rd_last R) in H. simpl in H.
  destruct l as [|x l']; [done|].
  rewrite last_seqZ in H by (simpl; lia). injection H as ->. simpl. lia.
Qed.

Lemma reduction_nonempty : l ≠ [].
Proof. intros ->. by pose proof (rd_last R). Qed.
End reduction.

(** Attempt numbers of a reduced history identify its attempts. *)
Lemma numbers_NoDup l n : map at_attempt_no (merge_sort no_le l) = seqZ 1 n → NoDup (map at_attempt_no l).
Proof.
  intros H. rewrite <- (merge_sort_Permutation no_le l), H. apply NoDup_seqZ.
Qed.

Lemma sorted_by_number l1 l2 :
  l1 ≡ₚ l2 → Sorted no_le l1 → Sorted no_le l2 → map at_attempt_no l1 = map at_attempt_no l2.
Proof.
  intros Hp H1 H2. apply (Sorted_unique Z.le).
  - apply Sorted_fmap with no_le; [by intros ?? |done].
  - apply Sorted_fmap with no_le; [by intros ?? |done].
  - by rewrite Hp.
Qed.

Lemma NoDup_map_inj {A B} (f : A → B) l x y :
  NoDup (map f l) → x ∈ l → y ∈ l → f x = f y → x = y.
Proof.
  intros Hd [i Hi]%list_elem_of_lookup [j Hj]%list_elem_of_lookup E.
  assert (i = j) as ->; [|congruence].
  apply (NoDup_lookup _ i j (f x) Hd); rewrite list_lookup_fmap.
  - by rewrite Hi.
  - by rewrite Hj, E.
Qed.

Lemma sorted_history_unique l1 l2 n :
  l1 ≡ₚ l2 → map at_attempt_no (merge_sort no_le l1) = seqZ 1 n →
  merge_sort no_le l1 = merge_sort no_le l2.
Proof.
  intros Hp Hn. apply (Sorted_unique_strong no_le); try apply Sorted_merge_sort, _.
  - intros x y Hx Hy Hxy Hyx. apply (NoDup_map_inj at_attempt_no (merge_sort no_le l1)).
    + rewrite Hn. apply NoDup_seqZ.
    + done.
    + by rewrite merge_sort_Permutation, Hp, <- (merge_sort_Permutation no_le l2).
    + unfold no_le in *. lia.
  - by rewrite !merge_sort_Permutation.
Qed.

Lemma inherits_all m l1 l2 :
  l1 ≡ₚ l2 → existsb (λ a, negb (inherits m a)) l1 = existsb (λ a, negb (inherits m a)) l2.
Proof.
  intros Hp. apply eq_true_iff_eq. rewrite !existsb_exists.
  split; intros (a & Ha & E); exists a; (split; [|done]);
    apply list_elem_of_In; apply list_elem_of_In in Ha; by rewrite ?Hp, <- ?Hp in *.
Qed.

(** ** Lemmas on retries *)

Lemma retry_delay_bounds p n delay :
  RetryPolicySnapshot_valid p = true → 1 ≤ n → retry_delay p n = Ok delay →
  0 ≤ delay ≤ rp_max_us p.
Proof.
  unfold RetryPolicySnapshot_valid, retry_delay. intros Hv Hn.
  destruct (1024 <=? n - 1); [done|]. intros [= <-].
  assert (0 < 2 ^ (n - 1)) by (apply Z.pow_pos_nonneg; lia).
  assert (0 ≤ rp_base_us p * 2 ^ (n - 1)) by (apply Z.mul_nonneg_nonneg; lia). lia.
Qed.

(** From the attempt 1025 on, the delay of a retry cannot be computed. *)
Lemma retry_delay_overflow p n :
  (∃ e, retry_delay p n = Err e) ↔ 1025 ≤ n.
Proof.
  unfold retry_delay. destruct (Z.leb_spec 1024 (n - 1)); split; intros; try lia; eauto.
  by destruct H0.
Qed.

Lemma next_retry_at_ok p a s :
  next_retry_at p a = Ok s ↔
  ∃ c d delay e, at_completed_at a = Some c ∧ c ≠ "" ∧ fromisoformat (replace_Z c) = Some d ∧
           retry_delay p (at_attempt_no a) = Ok delay ∧
           dt_shift d delay = Ok e ∧ s = isoformat e.
Proof.
  unfold next_retry_at. destruct (at_completed_at a) as [c|].
  2:{ split; [done|]. by intros (? & ? & ? & ? & ? & _). }
  split.
  - destruct (bool_decide (c = "")) eqn:E; [done|]. apply bool_decide_eq_false in E.
    intros (d & Hd & H)%res_bind_ok. apply res_of_option_ok in Hd.
    apply res_bind_ok in H as (delay & Hdl & H).
    apply res_bind_ok in H as (e & He & H). apply (proj1 (res_ret_ok _ _)) in H.
    by exists c, d, delay, e.
  - intros (c' & d & delay & e & [= <-] & Hc & Hd & Hdl & He & ->).
    rewrite bool_decide_false by done.
    unfold parse_iso. rewrite Hd. simpl. cbn [mbind res_bind]. rewrite Hdl.
    cbn [mbind res_bind]. by rewrite He.
Qed.

Lemma reduce_latest_retryable p n a g :
  reduce_latest p n a = Ok g → ag_failure_kind g = Some FK_RETRYABLE →
  OperationAggregate_valid g = true →
  at_status a = OS_FAILED ∧ at_failure_kind a = Some FK_RETRYABLE ∧ n < rp_max_attempts p ∧
  ∃ s, next_retry_at p a = Ok s ∧ ag_next_retry_at g = Some s.
Proof.
  unfold reduce_latest. intros H Hk Hv.
  case_decide; [by apply (proj1 (res_ret_ok _ _)) in H as <-|].
  case_decide; [by apply (proj1 (res_ret_ok _ _)) in H as <-|].
  case_decide as Hr.
  - case_decide; [by apply (proj1 (res_ret_ok _ _)) in H as <-|].
    apply res_bind_ok in H as (s & Hs & H). apply (proj1 (res_ret_ok _ _)) in H as <-.
    destruct Hr. split_and!; [done..|lia|]. by exists s.
  - apply (proj1 (res_ret_ok _ _)) in H as <-. simpl in Hk. exfalso. apply Hr. split; [|done].
    unfold OperationAggregate_valid, validate_aggregate_evidence in Hv. simpl in Hv.
    rewrite Hk in Hv. destruct (at_status a); try done; by rewrite andb_false_r in Hv.
Qed.

Lemma reduce_operation_perm m l1 l2 p :
  l1 ≡ₚ l2 → reduce_operation m l1 p = reduce_operation m l2 p.
Proof.
  intros Hp. unfold reduce_operation.
  assert (map at_attempt_no (merge_sort no_le l1) = map at_attempt_no (merge_sort no_le l2)) as Hm.
  { apply sorted_by_number; try apply Sorted_merge_sort, _. by rewrite !merge_sort_Permutation. }
  assert (length (merge_sort no_le l1) = length (merge_sort no_le l2)) as Hlen
    by (by rewrite !merge_sort_Permutation, Hp).
  destruct (decide (map at_attempt_no (merge_sort no_le l1)
                    = seqZ 1 (Z.of_nat (length (merge_sort no_le l1))))) as [E|E].
  - by rewrite (sorted_history_unique l1 l2 _ Hp E).
  - rewrite <- Hm, <- Hlen.
    destruct (last (merge_sort no_le l1)) eqn:E1, (last (merge_sort no_le l2)) eqn:E2.
    + by rewrite !(decide_True _ _ E).
    + apply last_None in E2. rewrite E2 in Hlen. apply nil_length_inv in Hlen. by rewrite Hlen in E1.
    + apply last_None in E1. rewrite E1 in Hlen. symmetry in Hlen.
      apply nil_length_inv in Hlen. by rewrite Hlen in E2.
    + done.
Qed.

(** ** Claims *)

(** C7: the aggregate of a logical operation does not depend on
    the order in which its attempts are given (the code sorts them), errors
    included. *)
Theorem reduce_order_insensitive m l1 l2 p :
  l1 ≡ₚ l2 → reduce_operation m l1 p = reduce_operation m l2 p.
Proof. apply reduce_operation_perm. Qed.

(** C8: when the aggregate is a retryable failure, fewer attempts
    than [max_attempts] have been made, and [next_retry_at] parses back to the
    completion time of the last attempt plus a delay between 0 and
    [max_seconds]. *)
Theorem retry_bounds m l p g :
  RetryPolicySnapshot_valid p = true →
  reduce_operation m l p = Ok g → ag_failure_kind g = Some FK_RETRYABLE →
  Z.of_nat (length l) < rp_max_attempts p ∧
  ∃ latest c done_at next,
    latest ∈ l ∧ at_completed_at latest = Some c ∧ parse_iso (replace_Z c) = Ok done_at ∧
    ag_next_retry_at g = Some next ∧
    ∃ delay, 0 ≤ delay ≤ rp_max_us p ∧
      parse_iso next = Ok (mkdatetime (dt_local done_at + delay) (dt_utcoff done_at)).
Proof.
  intros Hp (latest & R)%reduce_operation_ok Hk.
  destruct (reduce_latest_retryable _ _ _ _ (rd_latest R) Hk (rd_valid R))
    as (_ & _ & Hn & s & Hs & Hg).
  split; [done|]. apply next_retry_at_ok in Hs as (c & d & delay & e & Hc & _ & Hd & Hdl & He & ->).
  destruct (dt_shift_valid _ _ _ _ Hd He) as (Hv & Hl & Ho).
  pose proof (reduction_latest_no R) as Hno. pose proof (reduction_nonempty R) as Hne.
  exists latest, c, d, (isoformat e). split_and!.
  - apply (reduction_latest_in R).
  - done.
  - unfold parse_iso. by rewrite Hd.
  - done.
  - exists delay. split.
    + apply (retry_delay_bounds p (at_attempt_no latest)); [done| |done].
      destruct l; simpl in *; [done|lia].
    + rewrite parse_iso_isoformat by done. destruct e; simpl in *. by subst.
Qed.

(** A Run the scheduler may run is neither terminal nor
    waiting for recovery, is not fenced, is not waiting for a human; in ACTING it has an
    attempt that is neither RUNNING nor of unknown effect; and, unless
    cancellation was requested, its deadline has not passed. *)
Lemma runnable_safe off s op at_ now :
  is_runnable off s op at_ now = Ok true →
  st_task_state s ∉ TERMINAL_STATES ∧ st_task_state s ≠ TS_RECOVERY_REQUIRED ∧
  fencing_token_invalid s = false ∧
  (∀ e, st_execution s = Some e → ex_state e ≠ ES_WAITING_HUMAN) ∧
  (∀ e, st_execution s = Some e → ex_state e = ES_ACTING →
     is_some op = true ∧ ∃ a, at_ = Some a ∧ at_status a ∉ [OS_RUNNING; OS_UNKNOWN]) ∧
  (∀ d, st_deadline_at s = Some d → d ≠ "" → st_cancellation_requested s = false →
     ∃ t, parse_iso (replace_Z d) = Ok t ∧ instant (aware off now) < instant t).
Proof.
  unfold is_runnable. case_decide as Ht; [done|]. destruct (fencing_token_invalid s) eqn:Hf; [done|].
  intros (late & Hlate & H)%res_bind_ok. destruct late; [done|].
  split_and!.
  - intros Hin. apply Ht, elem_of_app. by left.
  - intros E. apply Ht, elem_of_app. right. rewrite E. elem_here.
  - done.
  - intros e He E. by rewrite He in H; simpl in H; rewrite E in H.
  - intros e He E. rewrite He in H. simpl in H. rewrite E in H.
    destruct op; [|done]. destruct at_ as [a|]; [|done]. split; [done|]. exists a. split; [done|].
    destruct (at_status a); try done; intros Hin; elem_cases Hin; done.
  - intros d Hd Hne Hc. unfold past_deadline in Hlate.
    rewrite Hd, bool_decide_false, Hc in Hlate by done. simpl in Hlate. unfold reached in Hlate.
    apply res_bind_ok in Hlate as (t & Ht' & Hlate). exists t. split; [done|].
    apply res_bind_ok in Hlate as (b & Hb & Hlate). apply (proj1 (res_ret_ok _ _)) in Hlate.
    unfold dt_lt in Hb. destruct (bool_decide _); simplify_eq.
    apply negb_false_iff in Hlate. by apply Z.ltb_lt.
Qed.

(** ** Witnesses *)

Definition sample_metadata : ImmutableOperationMetadata :=
  mkImmutableOperationMetadata "op" None "run" None OK_TOOL "write" "key" (sha256_hex "request")
    TI_IDEMPOTENT true None None None None None None.
Definition sample_policy : RetryPolicySnapshot :=
  mkRetryPolicySnapshot 3 2000000 60000000 true false false.
Definition sample_attempt (no : Z) : OperationAttempt :=
  (new_attempt "attempt" "op" "run" no (sha256_hex "request") true "2026-01-01T00:00:00+00:00")
    ⟪ at_status := OS_FAILED ⟫ ⟪ at_failure_kind := Some FK_RETRYABLE ⟫
    ⟪ at_failure_reason := Some "timeout" ⟫
    ⟪ at_completed_at := Some "2026-01-01T00:00:05+00:00" ⟫.

Lemma reduce_order_insensitive_witness :
  reduce_operation sample_metadata [sample_attempt 2; sample_attempt 1] sample_policy
    = reduce_operation sample_metadata [sample_attempt 1; sample_attempt 2] sample_policy.
Proof. apply reduce_order_insensitive. apply perm_swap. Defined.

Lemma retry_bounds_witness : ∃ g,
  reduce_operation sample_metadata [sample_attempt 1; sample_attempt 2] sample_policy = Ok g ∧
  ag_next_retry_at g = Some "2026-01-01T00:00:09+00:00" ∧
  Z.of_nat (length [sample_attempt 1; sample_attempt 2]) < rp_max_attempts sample_policy.
Proof.
  destruct (reduce_operation sample_metadata [sample_attempt 1; sample_attempt 2] sample_policy)
    as [g|e] eqn:E; [|vm_compute in E; discriminate E].
  exists g. split; [reflexivity|].
  assert (ag_next_retry_at g = Some "2026-01-01T00:00:09+00:00" ∧
          ag_failure_kind g = Some FK_RETRYABLE) as [Hn Hk].
  { pose proof E as E'. vm_compute in E'. injection E' as <-. split; reflexivity. }
  split; [exact Hn|]. apply (retry_bounds sample_metadata _ sample_policy g eq_refl E Hk).
Defined.

(** A chat Run that is thinking, before its deadline. *)
Definition sample_state : AgentState :=
  mkAgentState 3 "epoch" "run" WK_CHAT PC_CONVERSATION_SESSION "project" None "client" None "key"
    (sha256_hex "request") TS_RUNNING
    (Some (mkExecutionSnapshot ES_THINKING None None "2026-01-01T00:00:00+00:00"))
    None None None None None None None None None false (Some "2026-01-01T01:00:00+00:00") None
    0 0 0 0 [] "2026-01-01T00:00:00+00:00" None None "2026-01-01T00:00:00+00:00" None
    "2026-01-01T00:00:00+00:00" None None None.

