(* ===== verification/FinalizeEvidence.v ===== *)
(** * FinalizeEvidence: identities and evidence of gateway/finalize_evidence.py

    FINALIZING proves four steps.  Each step has a deterministic identity,
    derived from the Run, and leaves an evidence document whose hash is taken
    on canonical, sanitized JSON. *)

From S2P Require Import Prelude PyText AgentTypes AgentState Sanitizer.

#[local] Open Scope Z_scope.

(* source: gateway/finalize_evidence.py FinalizeStep *)
Inductive FinalizeStep : Set := FS_MEMORY | FS_SESSION_INDEX | FS_AUDIT | FS_INBOX.
#[export] Instance FinalizeStep_eq_dec : EqDecision FinalizeStep.
Proof. solve_decision. Defined.
(* source: gateway/finalize_evidence.py FinalizeStep *)
Definition FinalizeStep_value (s : FinalizeStep) : string :=
  match s with
  | FS_MEMORY => "memory" | FS_SESSION_INDEX => "session_index"
  | FS_AUDIT => "audit" | FS_INBOX => "inbox"
  end.
(** [for step in FinalizeStep] *)
(* source: gateway/finalize_evidence.py FinalizeStep *)
Definition FinalizeSteps : list FinalizeStep := [FS_MEMORY; FS_SESSION_INDEX; FS_AUDIT; FS_INBOX].
(* source: gateway/finalize_evidence.py FinalizeStep *)
Definition FinalizeStep_of (s : string) : option FinalizeStep :=
  list_find (λ x, FinalizeStep_value x = s) FinalizeSteps ≫= λ p, Some p.2.

(* source: gateway/finalize_evidence.py FinalizeRequirement *)
Inductive FinalizeRequirement : Set := FR_REQUIRED | FR_NOT_APPLICABLE.
#[export] Instance FinalizeRequirement_eq_dec : EqDecision FinalizeRequirement.
Proof. solve_decision. Defined.

(* source: gateway/finalize_evidence.py FinalizeEvidenceReferences *)
Record FinalizeEvidenceReferences := mkReferences {
  fr_segments : list string;
  fr_first_record_id : option string;
  fr_last_record_id : option string;
  fr_final_record_id : option string;
  fr_record_count : option Z;
  fr_memory_attempt_id : option string;
  fr_memory_result_hash : option string;
  fr_session_index_attempt_id : option string;
  fr_session_index_result_hash : option string;
  fr_receipt_id : option string;
  fr_inbox_item_id : option string
}.
(* source: gateway/finalize_evidence.py FinalizeEvidenceReferences *)
Definition References_valid (r : FinalizeEvidenceReferences) : bool :=
  opt_all (λ n, 0 <=? n) (fr_record_count r) && opt_hex64 (fr_memory_result_hash r)
  && opt_hex64 (fr_session_index_result_hash r).
(* source: gateway/finalize_evidence.py FinalizeEvidenceReferences *)
Definition no_references : FinalizeEvidenceReferences :=
  mkReferences [] None None None None None None None None None None.
#[export] Instance References_eta : Eta FinalizeEvidenceReferences := λ r, mkReferences
  (fr_segments r) (fr_first_record_id r) (fr_last_record_id r) (fr_final_record_id r)
  (fr_record_count r) (fr_memory_attempt_id r) (fr_memory_result_hash r)
  (fr_session_index_attempt_id r) (fr_session_index_result_hash r) (fr_receipt_id r)
  (fr_inbox_item_id r).

(** The fields both kinds of evidence have. *)
(* source: gateway/finalize_evidence.py VerifiedArtifactEvidence *)
Record EvidenceHead := mkEvidenceHead {
  ev_step : FinalizeStep;
  ev_run_id : string;
  ev_generation : Z;
  ev_operation_id : string;
  ev_attempt_id : string
}.
(* source: gateway/finalize_evidence.py VerifiedArtifactEvidence *)
Definition EvidenceHead_valid (h : EvidenceHead) : bool :=
  nonempty (ev_run_id h) && (1 <=? ev_generation h) && nonempty (ev_operation_id h)
  && nonempty (ev_attempt_id h).

(* source: gateway/finalize_evidence.py VerifiedArtifactEvidence *)
Record VerifiedArtifactEvidence := mkVerified {
  ve_head : EvidenceHead;
  ve_artifact_kind : string;
  ve_artifact_id : string;
  ve_artifact_hash : string;
  ve_verification_method : string;
  ve_references : FinalizeEvidenceReferences
}.

(* source: gateway/finalize_evidence.py NotApplicableEvidence *)
Record NotApplicableEvidence := mkNotApplicable {
  na_head : EvidenceHead;
  na_workload_kind : string;
  na_persistence_contract : PersistenceContract;
  na_policy_reason : string
}.

(* source: gateway/finalize_evidence.py FinalizeStepEvidence *)
Inductive FinalizeStepEvidence :=
| Verified (e : VerifiedArtifactEvidence)
| NotApplicable (e : NotApplicableEvidence).

Definition evidence_head (e : FinalizeStepEvidence) : EvidenceHead :=
  match e with Verified v => ve_head v | NotApplicable n => na_head n end.

(* source: gateway/finalize_evidence.py VerifiedArtifactEvidence *)
Definition Evidence_valid (e : FinalizeStepEvidence) : bool :=
  EvidenceHead_valid (evidence_head e) &&
  match e with
  | Verified v =>
      nonempty (ve_artifact_kind v) && nonempty (ve_artifact_id v) && hex64 (ve_artifact_hash v)
      && nonempty (ve_verification_method v) && References_valid (ve_references v)
  | NotApplicable n => nonempty (na_workload_kind n) && nonempty (na_policy_reason n)
  end.

(** ** JSON of evidence: [model_dump(mode="json", exclude_none=True)] *)

Definition some_field (k : string) (o : option string) : list (string * json) :=
  match o with Some s => [(k, JStr s)] | None => [] end.

(* source: gateway/finalize_evidence.py FinalizeEvidenceReferences *)
Definition references_json (r : FinalizeEvidenceReferences) : json := JObj (
  [("segments", JArr (map JStr (fr_segments r)))]
  ++ some_field "first_record_id" (fr_first_record_id r)
  ++ some_field "last_record_id" (fr_last_record_id r)
  ++ some_field "final_record_id" (fr_final_record_id r)
  ++ match fr_record_count r with Some n => [("record_count", JInt n)] | None => [] end
  ++ some_field "memory_attempt_id" (fr_memory_attempt_id r)
  ++ some_field "memory_result_hash" (fr_memory_result_hash r)
  ++ some_field "session_index_attempt_id" (fr_session_index_attempt_id r)
  ++ some_field "session_index_result_hash" (fr_session_index_result_hash r)
  ++ some_field "receipt_id" (fr_receipt_id r)
  ++ some_field "inbox_item_id" (fr_inbox_item_id r)).

(* source: gateway/finalize_evidence.py VerifiedArtifactEvidence *)
Definition head_json (kind : string) (h : EvidenceHead) : list (string * json) :=
  [("kind", JStr kind); ("protocol_version", JInt 2);
   ("step", JStr (FinalizeStep_value (ev_step h))); ("run_id", JStr (ev_run_id h));
   ("generation", JInt (ev_generation h)); ("operation_id", JStr (ev_operation_id h));
   ("attempt_id", JStr (ev_attempt_id h))].

(* source: gateway/finalize_evidence.py FinalizeEvidenceCodec.encode *)
Definition evidence_json (e : FinalizeStepEvidence) : json :=
  match e with
  | Verified v => JObj (head_json "verified" (ve_head v) ++
      [("artifact_kind", JStr (ve_artifact_kind v)); ("artifact_id", JStr (ve_artifact_id v));
       ("artifact_hash", JStr (ve_artifact_hash v));
       ("verification_method", JStr (ve_verification_method v));
       ("references", references_json (ve_references v))])
  | NotApplicable n => JObj (head_json "not_applicable" (na_head n) ++
      [("workload_kind", JStr (na_workload_kind n));
       ("persistence_contract", JStr (PersistenceContract_value (na_persistence_contract n)));
       ("policy_reason", JStr (na_policy_reason n))])
  end.

(** ** Strict validation of a JSON document *)

Definition as_str (j : json) : option string := match j with JStr s => Some s | _ => None end.
Definition as_int (j : json) : option Z := match j with JInt z => Some z | _ => None end.
Definition as_obj (j : json) : option (list (string * json)) :=
  match j with JObj d => Some d | _ => None end.

Definition req {A} (k : string) (f : json → option A) (d : list (string * json)) : option A :=
  dict_get k d ≫= f.
(** An optional field: absent or null is [None]. *)
Definition opt {A} (k : string) (f : json → option A) (d : list (string * json)) :
    option (option A) :=
  match dict_get k d with
  | None | Some JNull => Some None
  | Some j => Some <$> f j
  end.
Definition with_default {A} (k : string) (f : json → option A) (a : A) (d : list (string * json)) :
    option A :=
  match dict_get k d with None => Some a | Some j => f j end.
(** [extra="forbid"] *)
Definition only_keys (ks : list string) (d : list (string * json)) : option unit :=
  if forallb (λ kv, bool_decide (kv.1 ∈ ks)) d then Some tt else None.

Definition as_strings (j : json) : option (list string) :=
  match j with JArr l => mapM as_str l | _ => None end.

(* source: gateway/finalize_evidence.py FinalizeEvidenceReferences *)
Definition references_keys : list string :=
  ["segments"; "first_record_id"; "last_record_id"; "final_record_id"; "record_count";
   "memory_attempt_id"; "memory_result_hash"; "session_index_attempt_id";
   "session_index_result_hash"; "receipt_id"; "inbox_item_id"].

(* source: gateway/finalize_evidence.py FinalizeEvidenceReferences *)
Definition references_of (j : json) : option FinalizeEvidenceReferences :=
  d ← as_obj j;
  _ ← only_keys references_keys d;
  segs ← with_default "segments" as_strings [] d;
  f1 ← opt "first_record_id" as_str d;
  f2 ← opt "last_record_id" as_str d;
  f3 ← opt "final_record_id" as_str d;
  f4 ← opt "record_count" as_int d;
  f5 ← opt "memory_attempt_id" as_str d;
  f6 ← opt "memory_result_hash" as_str d;
  f7 ← opt "session_index_attempt_id" as_str d;
  f8 ← opt "session_index_result_hash" as_str d;
  f9 ← opt "receipt_id" as_str d;
  f10 ← opt "inbox_item_id" as_str d;
  Some (mkReferences segs f1 f2 f3 f4 f5 f6 f7 f8 f9 f10).

Definition literal2 (j : json) : option unit :=
  match j with JInt 2 => Some tt | _ => None end.

(* source: gateway/finalize_evidence.py VerifiedArtifactEvidence *)
Definition head_keys : list string :=
  ["kind"; "protocol_version"; "step"; "run_id"; "generation"; "operation_id"; "attempt_id"].

(* source: gateway/finalize_evidence.py VerifiedArtifactEvidence *)
Definition head_of (d : list (string * json)) : option EvidenceHead :=
  _ ← with_default "protocol_version" literal2 tt d;
  step ← req "step" (λ j, as_str j ≫= FinalizeStep_of) d;
  run ← req "run_id" as_str d;
  gen ← req "generation" as_int d;
  oid ← req "operation_id" as_str d;
  aid ← req "attempt_id" as_str d;
  Some (mkEvidenceHead step run gen oid aid).

Definition PersistenceContract_of (s : string) : option PersistenceContract :=
  list_find (λ x, PersistenceContract_value x = s)
    [PC_CONVERSATION_SESSION; PC_SESSION_BACKED_WORKLOAD; PC_CONTROL_ONLY] ≫= λ p, Some p.2.

(** The discriminated union: the tag [kind] selects the model. *)
(* source: gateway/finalize_evidence.py FinalizeEvidenceCodec.decode *)
Definition evidence_of (j : json) : option FinalizeStepEvidence :=
  d ← as_obj j;
  kind ← req "kind" as_str d;
  e ← (if decide (kind = "verified") then
         _ ← only_keys (head_keys ++ ["artifact_kind"; "artifact_id"; "artifact_hash";
                                      "verification_method"; "references"]) d;
         h ← head_of d;
         k ← req "artifact_kind" as_str d;
         i ← req "artifact_id" as_str d;
         x ← req "artifact_hash" as_str d;
         v ← req "verification_method" as_str d;
         r ← with_default "references" references_of no_references d;
         Some (Verified (mkVerified h k i x v r))
       else if decide (kind = "not_applicable") then
         _ ← only_keys (head_keys ++ ["workload_kind"; "persistence_contract"; "policy_reason"]) d;
         h ← head_of d;
         w ← req "workload_kind" as_str d;
         p ← req "persistence_contract" (λ j, as_str j ≫= PersistenceContract_of) d;
         r ← req "policy_reason" as_str d;
         Some (NotApplicable (mkNotApplicable h w p r))
       else None);
  if Evidence_valid e then Some e else None.

(** [_EVIDENCE_ADAPTER.validate_json(value, strict=True)] *)
(* source: gateway/finalize_evidence.py FinalizeEvidenceCodec.decode *)
Definition decode (value : string) : res FinalizeStepEvidence :=
  res_of_option (ValidationError "FinalizeStepEvidence") (json_loads value ≫= evidence_of).

(* source: gateway/finalize_evidence.py EncodedFinalizeEvidence *)
Record EncodedFinalizeEvidence := mkEncoded {
  en_value : FinalizeStepEvidence;
  en_serialized : string;
  en_result_hash : string
}.

(* source: gateway/finalize_evidence.py FinalizeEvidenceCodec.encode *)
Definition encode (value : FinalizeStepEvidence) : res EncodedFinalizeEvidence :=
  let sanitized_json := json_dumps (sanitize (evidence_json value)) in
  final ← decode sanitized_json;
  let canonical := json_dumps (evidence_json final) in
  mret (mkEncoded final canonical (sha256_hex canonical)).

(* source: gateway/finalize_evidence.py FinalizeEvidenceCodec.verify *)
Definition verify (value result_hash : string) : res FinalizeStepEvidence :=
  v ← decode value;
  encoded ← encode v;
  if decide (en_result_hash encoded ≠ result_hash)
  then Err (ValueError "Finalize Evidence result_hash mismatch")
  else mret (en_value encoded).

(** ** Identities *)

(* source: gateway/finalize_evidence.py FinalizeOperationIdentity *)
Record FinalizeOperationIdentity := mkIdentity {
  id_run_id : string;
  id_generation : Z;
  id_step : FinalizeStep;
  id_stable_key : string;
  id_operation_id : string;
  id_request_hash : string
}.

(* source: gateway/finalize_evidence.py FinalizeIdentity.for_step *)
Definition finalize_stable_key (generation : Z) (step : FinalizeStep) : string :=
  "finalize:v2:g" +:+ str_of_int generation +:+ ":" +:+ FinalizeStep_value step.

(* source: gateway/finalize_evidence.py FinalizeIdentity.for_step *)
Definition finalize_request (state : AgentState) (generation : Z) (step : FinalizeStep) : json :=
  JObj [("protocol_version", JInt 2); ("run_id", JStr (st_run_id state));
        ("generation", JInt generation); ("step", JStr (FinalizeStep_value step));
        ("workload_kind", JStr (WorkloadKind_value (st_workload_kind state)));
        ("persistence_contract",
          JStr (PersistenceContract_value (st_persistence_contract state)));
        ("project_id", JStr (st_project_id state)); ("session_id", jopt (st_session_id state));
        ("turn_id", jopt (st_turn_id state));
        ("terminal_target", jopt (TerminalTarget_value <$> st_terminal_target state))].

(* source: gateway/finalize_evidence.py FinalizeIdentity.for_step *)
Definition for_step (state : AgentState) (generation : Z) (step : FinalizeStep) :
    res FinalizeOperationIdentity :=
  let stable_key := finalize_stable_key generation step in
  let identity := mkIdentity (st_run_id state) generation step stable_key
    (sha256_hex (st_run_id state +:+ ":" +:+ stable_key))
    (sha256_hex (json_dumps (finalize_request state generation step))) in
  checked "FinalizeOperationIdentity" (λ i, 1 <=? id_generation i) identity.

(* source: gateway/finalize_evidence.py FinalizeIdentity.command_id *)
Definition finalize_command_id (run_id : string) (generation : Z) (step : FinalizeStep)
    (action : string) : string :=
  "finalize:v2:" +:+ run_id +:+ ":g" +:+ str_of_int generation +:+ ":"
  +:+ FinalizeStep_value step +:+ ":" +:+ action.

(** ** Requirement policy *)

(* source: gateway/finalize_evidence.py FinalizeRequirementPolicy.requirements *)
Definition requirements (state : AgentState) (step : FinalizeStep) : FinalizeRequirement :=
  let session_required := bool_decide (st_persistence_contract state
                            ∈ [PC_CONVERSATION_SESSION; PC_SESSION_BACKED_WORKLOAD]) in
  match step with
  | FS_MEMORY | FS_SESSION_INDEX => if session_required then FR_REQUIRED else FR_NOT_APPLICABLE
  | FS_AUDIT | FS_INBOX => FR_REQUIRED
  end.

(* source: gateway/finalize_evidence.py FinalizeRequirementPolicy.validate *)
Definition validate_requirement (state : AgentState) (evidence : FinalizeStepEvidence) : res unit :=
  let step := ev_step (evidence_head evidence) in
  match requirements state step, evidence with
  | FR_REQUIRED, NotApplicable _ => Err (ValueError "Finalize step is required")
  | FR_NOT_APPLICABLE, Verified _ => Err (ValueError "Finalize step must be not_applicable")
  | FR_REQUIRED, Verified _ => mret tt
  | FR_NOT_APPLICABLE, NotApplicable n =>
      if decide (na_persistence_contract n ≠ st_persistence_contract state)
      then Err (ValueError "Finalize N/A persistence contract mismatch")
      else if decide (na_workload_kind n ≠ WorkloadKind_value (st_workload_kind state))
      then Err (ValueError "Finalize N/A workload kind mismatch")
      else mret tt
  end.

(** [isinstance(evidence, VerifiedArtifactEvidence)] *)
Definition as_verified (e : FinalizeStepEvidence) : option VerifiedArtifactEvidence :=
  match e with Verified v => Some v | NotApplicable _ => None end.
