(* ===== verification/Store.v ===== *)
(** * Store: the SQLite tables the controller writes

    One finite map per table, from its primary key to a row.  A row keeps the
    columns the code writes; a JSON column that holds a whole record is the
    record.  The [insert_]/[save_]/[update_] functions are the SQL statements
    of gateway/state_controller.py with the constraints, unique indexes,
    foreign keys and triggers of its schema: a violated one raises
    [IntegrityError], and the transaction is rolled back. *)

From S2P Require Import Prelude PyText AgentTypes AgentState Commands FinalizeEvidence.

#[local] Open Scope Z_scope.

(** ** Rows *)

(* source: gateway/state_controller.py@TABLE agent_states *)
Record StateRow := mkStateRow {
  sr_revision : Z;
  sr_gateway_epoch : string;
  sr_task_state : TaskState;
  sr_execution_state : option ExecutionState;
  sr_recovery_required : bool;
  sr_body : AgentState;
  sr_updated_at : string;
  sr_snapshot_stream_sequence : Z
}.
#[export] Instance StateRow_eta : Eta StateRow := λ r, mkStateRow
  (sr_revision r) (sr_gateway_epoch r) (sr_task_state r) (sr_execution_state r)
  (sr_recovery_required r) (sr_body r) (sr_updated_at r) (sr_snapshot_stream_sequence r).

(* source: gateway/store.py@TABLE runs *)
Record RunRow := mkRunRow {
  ru_project_id : string;
  ru_session_id : option string;
  ru_client_id : string;
  ru_task : string;
  ru_status : string;
  ru_created_at : string;
  ru_started_at : option string;
  ru_finished_at : option string;
  ru_answer : option string;
  ru_error : option string;
  ru_task_state : option TaskState;
  ru_execution_state : option ExecutionState;
  ru_execution_outcome : option ExecutionOutcome;
  ru_finish_reason : option string;
  ru_state_revision : Z;
  ru_workload_kind : WorkloadKind;
  ru_recovery_required : bool;
  ru_terminal_target : option TerminalTarget;
  ru_model_profile_id : string;
  ru_reasoning_effort : string;
  ru_ui_context : option json
}.

(* source: gateway/state_controller.py@TABLE operation_ledger *)
Record OpRow := mkOpRow {
  or_run_id : string;
  or_parent_operation_id : option string;
  or_kind : OperationKind;
  or_status : OperationStatus;
  or_body : OperationRecord;
  or_updated_at : string;
  or_stable_key : string;
  or_request_hash : string;
  or_side_effecting : bool
}.
#[export] Instance OpRow_eta : Eta OpRow := λ r, mkOpRow
  (or_run_id r) (or_parent_operation_id r) (or_kind r) (or_status r) (or_body r)
  (or_updated_at r) (or_stable_key r) (or_request_hash r) (or_side_effecting r).

(* source: gateway/state_controller.py@TABLE operation_attempts *)
Record AttRow := mkAttRow {
  tr_operation_id : string;
  tr_run_id : string;
  tr_attempt_no : Z;
  tr_request_hash : string;
  tr_side_effecting : bool;
  tr_status : OperationStatus;
  tr_failure_kind : option OperationFailureKind;
  tr_recovery_resolution : option AttemptRecoveryResolution;
  tr_body : OperationAttempt;
  tr_updated_at : string
}.
#[export] Instance AttRow_eta : Eta AttRow := λ r, mkAttRow
  (tr_operation_id r) (tr_run_id r) (tr_attempt_no r) (tr_request_hash r) (tr_side_effecting r)
  (tr_status r) (tr_failure_kind r) (tr_recovery_resolution r) (tr_body r) (tr_updated_at r).

(* source: gateway/state_controller.py@TABLE durable_approvals *)
Record ApprovalRow := mkApprovalRow {
  pr_run_id : string;
  pr_operation_id : string;
  pr_status : ApprovalStatus;
  pr_body : DurableApproval;
  pr_expires_at : string;
  pr_updated_at : string;
  pr_attempt_id : string
}.
#[export] Instance ApprovalRow_eta : Eta ApprovalRow := λ r, mkApprovalRow
  (pr_run_id r) (pr_operation_id r) (pr_status r) (pr_body r) (pr_expires_at r)
  (pr_updated_at r) (pr_attempt_id r).

(* source: gateway/state_controller.py@TABLE processed_commands *)
Record ProcessedRow := mkProcessedRow {
  pc_run_id : string;
  pc_command_hash : string;
  pc_result : ApplyResult;
  pc_processed_at : string
}.

(* source: gateway/state_controller.py@TABLE idempotency_records *)
Record IdempotencyRow := mkIdempotencyRow {
  ir_request_hash : string;
  ir_run_id : string;
  ir_response : option json;
  ir_created_at : string;
  ir_updated_at : string
}.

(* source: gateway/state_controller.py@TABLE tool_observations *)
Record ObservationRow := mkObservationRow {
  nr_run_id : string;
  nr_operation_id : option string;
  nr_attempt_id : option string;
  nr_tool_call_id : string;
  nr_position : Z;
  nr_state : ToolObservationState;
  nr_body : MaterializedToolObservation;
  nr_content_hash : string;
  nr_revision : Z;
  nr_created_at : string;
  nr_updated_at : string
}.
#[export] Instance ObservationRow_eta : Eta ObservationRow := λ r, mkObservationRow
  (nr_run_id r) (nr_operation_id r) (nr_attempt_id r) (nr_tool_call_id r) (nr_position r)
  (nr_state r) (nr_body r) (nr_content_hash r) (nr_revision r) (nr_created_at r) (nr_updated_at r).

(* source: gateway/state_controller.py@TABLE recovery_decisions *)
Record DecisionRow := mkDecisionRow {
  dr_command_id : string;
  dr_run_id : string;
  dr_operation_id : option string;
  dr_attempt_id : option string;
  dr_action : RecoveryAction;
  dr_actor : string;
  dr_reason : string;
  dr_decision : json;
  dr_created_at : string
}.

(* source: gateway/state_controller.py@TABLE state_transitions *)
Record TransitionRow := mkTransitionRow {
  xr_command_id : string;
  xr_run_id : string;
  xr_from_task_state : TaskState;
  xr_to_task_state : TaskState;
  xr_from_execution_state : option ExecutionState;
  xr_to_execution_state : option ExecutionState;
  xr_reason : string;
  xr_revision : Z;
  xr_created_at : string
}.

(* source: gateway/state_controller.py@TABLE finalize_generation_invalidations *)
Record InvalidationRow := mkInvalidationRow {
  vr_command_id : string;
  vr_run_id : string;
  vr_generation : Z;
  vr_reason : string;
  vr_created_at : string
}.

(* source: gateway/state_controller.py@TABLE run_audit_receipts *)
Record ReceiptRow := mkReceiptRow {
  cr_run_id : string;
  cr_finalize_generation : Z;
  cr_receipt_generation : Z;
  cr_receipt_json : string;
  cr_receipt_hash : string;
  cr_created_at : string
}.
#[export] Instance ReceiptRow_eq_dec : EqDecision ReceiptRow.
Proof. solve_decision. Defined.

(* source: gateway/state_controller.py@TABLE run_current_audit_receipt *)
Record CurrentReceiptRow := mkCurrentReceiptRow {
  kr_receipt_id : string;
  kr_updated_at : string
}.

(* source: gateway/store.py@TABLE inbox *)
Record InboxRow := mkInboxRow {
  br_run_id : string;
  br_project_id : string;
  br_session_id : option string;
  br_title : string;
  br_summary : string;
  br_status : string;
  br_created_at : string;
  br_is_read : bool
}.

(** The literals of [gateway_events.storage_tier]. *)
(* source: gateway/state_controller.py@TABLE gateway_events *)
Inductive StorageTier : Set := TIER_HOT | TIER_ARCHIVED.
#[export] Instance StorageTier_eq_dec : EqDecision StorageTier.
Proof. solve_decision. Defined.

(* source: gateway/state_controller.py@TABLE gateway_events *)
Record EventRow := mkEventRow {
  er_command_id : option string;
  er_event_key : option string;
  er_stream_id : string;
  er_stream_sequence : Z;
  er_event_type : string;
  er_envelope_version : Z;
  er_schema_version : Z;
  er_occurred_at : string;
  er_run_id : string;
  er_session_id : option string;
  er_causation_id : option string;
  er_correlation_id : option string;
  er_canonical_event_json : option string;
  er_payload_hash : string;
  er_canonical_hash : string;
  er_storage_tier : StorageTier;
  er_archive_id : option string;
  er_revision : Z
}.
#[export] Instance EventRow_eta : Eta EventRow := λ r, mkEventRow
  (er_command_id r) (er_event_key r) (er_stream_id r) (er_stream_sequence r) (er_event_type r)
  (er_envelope_version r) (er_schema_version r) (er_occurred_at r) (er_run_id r)
  (er_session_id r) (er_causation_id r) (er_correlation_id r) (er_canonical_event_json r)
  (er_payload_hash r) (er_canonical_hash r) (er_storage_tier r) (er_archive_id r) (er_revision r).

(* source: gateway/state_controller.py@TABLE event_sinks *)
Record SinkRow := mkSinkRow {
  sk_enabled : bool;
  sk_config_version : Z;
  sk_config_hash : string;
  sk_required_by_default : bool;
  sk_updated_at : string
}.

(* source: gateway/state_controller.py@TABLE event_outbox *)
Record OutboxRow := mkOutboxRow {
  ox_event_id : string;
  ox_created_at : string;
  ox_completed_at : option string;
  ox_revision : Z
}.
#[export] Instance OutboxRow_eta : Eta OutboxRow := λ r, mkOutboxRow
  (ox_event_id r) (ox_created_at r) (ox_completed_at r) (ox_revision r).

(** The literals of [event_deliveries.status]. *)
(* source: gateway/state_controller.py@TABLE event_deliveries *)
Inductive DeliveryStatus : Set :=
| DS_PENDING | DS_DELIVERING | DS_RETRYING | DS_DELIVERED | DS_DEAD_LETTERED.
#[export] Instance DeliveryStatus_eq_dec : EqDecision DeliveryStatus.
Proof. solve_decision. Defined.

(* source: gateway/state_controller.py@TABLE event_deliveries *)
Record DeliveryRow := mkDeliveryRow {
  dl_outbox_id : string;
  dl_event_id : string;
  dl_sink_id : string;
  dl_required : bool;
  dl_sink_config_version : Z;
  dl_sink_config_hash : string;
  dl_status : DeliveryStatus;
  dl_attempt_count : Z;
  dl_next_retry_at : option string;
  dl_last_error_type : option string;
  dl_last_error : option string;
  dl_delivered_at : option string;
  dl_dead_lettered_at : option string;
  dl_revision : Z
}.
#[export] Instance DeliveryRow_eta : Eta DeliveryRow := λ r, mkDeliveryRow
  (dl_outbox_id r) (dl_event_id r) (dl_sink_id r) (dl_required r) (dl_sink_config_version r)
  (dl_sink_config_hash r) (dl_status r) (dl_attempt_count r) (dl_next_retry_at r)
  (dl_last_error_type r) (dl_last_error r) (dl_delivered_at r) (dl_dead_lettered_at r)
  (dl_revision r).

(** The literals of [event_delivery_attempts.status]. *)
(* source: gateway/state_controller.py@TABLE event_delivery_attempts *)
Inductive DeliveryAttemptStatus : Set := DA_DELIVERING | DA_SUCCEEDED | DA_FAILED | DA_INTERRUPTED.
#[export] Instance DeliveryAttemptStatus_eq_dec : EqDecision DeliveryAttemptStatus.
Proof. solve_decision. Defined.

(* source: gateway/state_controller.py@TABLE event_delivery_attempts *)
Record DeliveryAttemptRow := mkDeliveryAttemptRow {
  dt_delivery_id : string;
  dt_attempt_no : Z;
  dt_gateway_epoch : string;
  dt_status : DeliveryAttemptStatus;
  dt_started_at : string;
  dt_completed_at : option string;
  dt_error_type : option string;
  dt_error_summary : option string
}.
#[export] Instance DeliveryAttemptRow_eta : Eta DeliveryAttemptRow := λ r, mkDeliveryAttemptRow
  (dt_delivery_id r) (dt_attempt_no r) (dt_gateway_epoch r) (dt_status r) (dt_started_at r)
  (dt_completed_at r) (dt_error_type r) (dt_error_summary r).

(* source: gateway/state_controller.py@TABLE event_consumer_cursors *)
Record CursorRow := mkCursorRow {
  cu_last_sequence : Z;
  cu_revision : Z;
  cu_updated_at : string
}.

(** The literals of [gateway_event_archives.status]. *)
(* source: gateway/state_controller.py@TABLE gateway_event_archives *)
Inductive ArchiveStatus : Set := AR_PREPARING | AR_VERIFIED | AR_FAILED | AR_RECOVERY_REQUIRED.
#[export] Instance ArchiveStatus_eq_dec : EqDecision ArchiveStatus.
Proof. solve_decision. Defined.

(* source: gateway/state_controller.py@TABLE gateway_event_archives *)
Record ArchiveRow := mkArchiveRow {
  gx_stream_id : string;
  gx_first_sequence : Z;
  gx_last_sequence : Z;
  gx_event_count : Z;
  gx_events_content_hash : option string;
  gx_manifest_hash : option string;
  gx_members_hash : option string;
  gx_archive_path : string;
  gx_status : ArchiveStatus;
  gx_created_at : string;
  gx_verified_at : option string;
  gx_revision : Z
}.
#[export] Instance ArchiveRow_eta : Eta ArchiveRow := λ r, mkArchiveRow
  (gx_stream_id r) (gx_first_sequence r) (gx_last_sequence r) (gx_event_count r)
  (gx_events_content_hash r) (gx_manifest_hash r) (gx_members_hash r) (gx_archive_path r)
  (gx_status r) (gx_created_at r) (gx_verified_at r) (gx_revision r).

(** Keyed by the archive and the event; [event_id] is unique in the table. *)
(* source: gateway/state_controller.py@TABLE gateway_event_archive_members *)
Record MemberRow := mkMemberRow {
  mb_archive_id : string;
  mb_stream_sequence : Z;
  mb_canonical_hash : string;
  mb_byte_offset : option Z;
  mb_byte_length : option Z
}.
#[export] Instance MemberRow_eta : Eta MemberRow := λ r, mkMemberRow
  (mb_archive_id r) (mb_stream_sequence r) (mb_canonical_hash r) (mb_byte_offset r)
  (mb_byte_length r).

(* source: gateway/state_controller.py@TABLE runtime_generation_references *)
Record GenerationRefRow := mkGenerationRefRow {
  gr_generation_id : string;
  gr_owner_kind : string;
  gr_owner_id : string;
  gr_active : bool;
  gr_created_at : string
}.

(** ** The database *)

Record Db := mkDb {
  db_states : gmap string StateRow;
  db_runs : gmap string RunRow;
  db_operations : gmap string OpRow;
  db_attempts : gmap string AttRow;
  db_approvals : gmap string ApprovalRow;
  db_processed : gmap string ProcessedRow;
  db_idempotency : gmap (string * string * string) IdempotencyRow;
  db_observations : gmap string ObservationRow;
  db_decisions : gmap string DecisionRow;
  db_transitions : gmap string TransitionRow;
  db_generations : gmap (string * Z) FinalizeGenerationRecord;
  db_invalidations : gmap string InvalidationRow;
  db_receipts : gmap string ReceiptRow;
  db_current_receipt : gmap string CurrentReceiptRow;
  db_inbox : gmap string InboxRow;
  db_sequences : gmap string Z;
  db_events : gmap string EventRow;
  db_sinks : gmap string SinkRow;
  db_outbox : gmap string OutboxRow;
  db_deliveries : gmap string DeliveryRow;
  db_delivery_attempts : gmap string DeliveryAttemptRow;
  db_cursors : gmap (string * string) CursorRow;
  db_archives : gmap string ArchiveRow;
  db_members : gmap string MemberRow;
  db_files : gmap string string;
  db_runtime_generations : gmap string (option string);
  db_generation_refs : gmap string GenerationRefRow
}.
#[export] Instance Db_eta : Eta Db := λ r, mkDb
  (db_states r) (db_runs r) (db_operations r) (db_attempts r) (db_approvals r) (db_processed r)
  (db_idempotency r) (db_observations r) (db_decisions r) (db_transitions r) (db_generations r)
  (db_invalidations r) (db_receipts r) (db_current_receipt r) (db_inbox r) (db_sequences r)
  (db_events r) (db_sinks r) (db_outbox r) (db_deliveries r) (db_delivery_attempts r)
  (db_cursors r) (db_archives r) (db_members r) (db_files r) (db_runtime_generations r)
  (db_generation_refs r).

Definition empty_db : Db :=
  mkDb ∅ ∅ ∅ ∅ ∅ ∅ ∅ ∅ ∅ ∅ ∅ ∅ ∅ ∅ ∅ ∅ ∅ ∅ ∅ ∅ ∅ ∅ ∅ ∅ ∅ ∅ ∅.

(** ** Constraints *)

(** Does another row than the one under [k] satisfy [p]? *)
Definition other {A} (m : gmap string A) (k : string) (p : A → bool) : bool :=
  existsb (λ kv, negb (bool_decide (kv.1 = k)) && p kv.2) (map_to_list m).
Definition anyrow {K A} `{Countable K} (m : gmap K A) (p : A → bool) : bool :=
  existsb (λ kv, p kv.2) (map_to_list m).

Definition abort_if (b : bool) (name : string) : Tx Db unit :=
  reject (b = true) (IntegrityError name).

(** The predicate of the partial index [one_active_side_effect_attempt_per_run]. *)
(* source: gateway/state_controller.py@INDEX one_active_side_effect_attempt_per_run *)
Definition open_side_effect (r : AttRow) : bool :=
  tr_side_effecting r &&
  (bool_decide (tr_status r ∈ [OS_PREPARED; OS_RUNNING])
   || bool_decide (tr_status r = OS_UNKNOWN ∧ tr_recovery_resolution r = Some RR_UNRESOLVED)).

(** The CHECK on [status], [failure_kind] and [recovery_resolution]. *)
(* source: gateway/state_controller.py@TABLE operation_attempts *)
Definition attempt_check (r : AttRow) : bool :=
  (1 <=? tr_attempt_no r) &&
  match tr_status r with
  | OS_FAILED => bool_decide (tr_failure_kind r ∈ [Some FK_TERMINAL; Some FK_RETRYABLE])
  | OS_UNKNOWN => bool_decide (tr_failure_kind r = Some FK_UNKNOWN_EFFECT)
                  && is_some (tr_recovery_resolution r)
  | _ => is_none (tr_failure_kind r)
  end.

(** Two attempts of the ledger with the same non-null external identity. *)
Definition same_some (a b : option string) : bool :=
  match a, b with Some x, Some y => bool_decide (x = y) | _, _ => false end.

(* source: gateway/state_controller.py@INDEX operation_attempt_model_call_uq *)
Definition attempt_clash (r r' : AttRow) : bool :=
  same_some (at_model_call_id (tr_body r)) (at_model_call_id (tr_body r'))
  || same_some (at_external_request_id (tr_body r)) (at_external_request_id (tr_body r'))
  || (open_side_effect r && open_side_effect r' && bool_decide (tr_run_id r = tr_run_id r'))
  || (bool_decide (tr_operation_id r = tr_operation_id r')
      && bool_decide (tr_attempt_no r = tr_attempt_no r')).

(* source: gateway/state_controller.py@TRIGGER finished_attempt_is_immutable *)
Definition FINISHED_STATUSES : list OperationStatus :=
  [OS_COMPLETED; OS_FAILED; OS_SKIPPED; OS_ABANDONED].

(** The trigger that keeps the status of a finished attempt. *)
(* source: gateway/state_controller.py@TRIGGER finished_attempt_is_immutable *)
Definition finished_attempt_is_immutable (old new : AttRow) : bool :=
  bool_decide (tr_status old ∈ FINISHED_STATUSES) && negb (bool_decide (tr_status new = tr_status old)).

(* source: gateway/state_controller.py@TRIGGER normal_terminal_requires_finalizing *)
Definition normal_terminal_requires_finalizing (old new : TaskState) : bool :=
  bool_decide (new ∈ [TS_SUCCEEDED; TS_FAILED; TS_CANCELLED])
  && negb (bool_decide (new = old)) && negb (bool_decide (old = TS_FINALIZING)).

(** ** Reads *)

(* source: gateway/state_controller.py StateController._state_in *)
Definition state_in (run_id : string) (db : Db) : res AgentState :=
  match db_states db !! run_id with
  | None => Err (KeyError run_id)
  | Some row => checked "AgentState" AgentState_valid (sr_body row)
  end.

(* source: gateway/state_controller.py StateController._operation_in *)
Definition operation_in (operation_id : string) (db : Db) : res OperationRecord :=
  match db_operations db !! operation_id with
  | None => Err (KeyError operation_id)
  | Some row => checked "OperationRecord" OperationRecord_valid (or_body row)
  end.

(* source: gateway/state_controller.py StateController._attempt_in *)
Definition attempt_in (attempt_id : string) (db : Db) : res OperationAttempt :=
  match db_attempts db !! attempt_id with
  | None => Err (KeyError attempt_id)
  | Some row => checked "OperationAttempt" OperationAttempt_valid (tr_body row)
  end.

(** Rows of one operation, [ORDER BY attempt_no]. *)
Definition row_no_le (a b : AttRow) : Prop := tr_attempt_no a ≤ tr_attempt_no b.
#[export] Instance row_no_le_dec a b : Decision (row_no_le a b).
Proof. unfold row_no_le. apply _. Defined.
#[export] Instance row_no_le_total : Total row_no_le.
Proof. intros a b. unfold row_no_le. lia. Qed.
#[export] Instance row_no_le_trans : Transitive row_no_le.
Proof. intros a b c. unfold row_no_le. lia. Qed.

(* source: gateway/state_controller.py StateController._attempts_in *)
Definition attempt_rows (operation_id : string) (db : Db) : list AttRow :=
  merge_sort row_no_le
    (filter (λ r, tr_operation_id r = operation_id) (map snd (map_to_list (db_attempts db)))).

(* source: gateway/state_controller.py StateController._attempts_in *)
Definition attempts_in (operation_id : string) (db : Db) : res (list OperationAttempt) :=
  match attempt_rows operation_id db with
  | [] => Err (KeyError operation_id)
  | rows => mapM (λ r, checked "OperationAttempt" OperationAttempt_valid (tr_body r)) rows
  end.

(* source: gateway/state_controller.py StateController._current_attempt_in *)
Definition current_attempt_in (operation_id : string) (db : Db) : res OperationAttempt :=
  attempts ← attempts_in operation_id db;
  let active := filter (λ a,
    at_status a ∈ [OS_PREPARED; OS_RUNNING]
    ∨ (at_status a = OS_UNKNOWN ∧ at_recovery_resolution a = Some RR_UNRESOLVED)) attempts in
  match last active with
  | Some a => mret a
  | None => res_of_option (RuntimeError "list index out of range") (last attempts)
  end.

(* source: gateway/state_controller.py StateController._approval_in *)
Definition approval_in (approval_id : string) (db : Db) : res DurableApproval :=
  match db_approvals db !! approval_id with
  | None => Err (KeyError approval_id)
  | Some row => checked "DurableApproval" DurableApproval_valid (pr_body row)
  end.

(** The row of [operation_ledger] with a given stable key in its run. *)
Definition operation_by_key (run_id : string) (kind : OperationKind) (stable_key : string)
    (db : Db) : option OpRow :=
  snd <$> find (λ kv, bool_decide (or_run_id kv.2 = run_id) && bool_decide (or_kind kv.2 = kind)
                      && bool_decide (or_stable_key kv.2 = stable_key))
               (map_to_list (db_operations db)).

(** ** Writes *)

Definition run_exists (run_id : string) (db : Db) : bool := is_some (db_runs db !! run_id).

(* source: gateway/state_controller.py StateController._save_operation *)
Definition save_operation (o : OperationRecord) : Tx Db unit :=
  db ← tx_gets (λ db, db);
  match db_operations db !! op_operation_id o with
  | Some row =>
      tx_modify (λ db, db ⟪ db_operations := <[op_operation_id o :=
        row ⟪ or_status := op_status o ⟫ ⟪ or_body := o ⟫ ⟪ or_updated_at := op_updated_at o ⟫]>
        (db_operations db) ⟫)
  | None =>
      abort_if (anyrow (db_operations db) (λ r,
        bool_decide (or_run_id r = op_run_id o) && bool_decide (or_kind r = op_kind o)
        && bool_decide (or_stable_key r = op_stable_key o))) "operation_stable_key_uq";;
      abort_if (negb (run_exists (op_run_id o) db)) "operation_ledger.run_id";;
      tx_modify (λ db, db ⟪ db_operations := <[op_operation_id o :=
        mkOpRow (op_run_id o) (op_parent_operation_id o) (op_kind o) (op_status o) o
          (op_updated_at o) (op_stable_key o) (op_request_hash o) (op_side_effecting o)]>
        (db_operations db) ⟫)
  end.

(* source: gateway/state_controller.py StateController._save_attempt *)
Definition fresh_attempt_row (a : OperationAttempt) : AttRow :=
  mkAttRow (at_operation_id a) (at_run_id a) (at_attempt_no a) (at_request_hash a)
    (at_side_effecting a) (at_status a) (at_failure_kind a) (at_recovery_resolution a) a
    (at_updated_at a).

(* source: gateway/state_controller.py StateController._save_attempt *)
Definition save_attempt (a : OperationAttempt) : Tx Db unit :=
  db ← tx_gets (λ db, db);
  let id := at_attempt_id a in
  let new := match db_attempts db !! id with
             | Some old => old ⟪ tr_status := at_status a ⟫ ⟪ tr_failure_kind := at_failure_kind a ⟫
                 ⟪ tr_recovery_resolution := at_recovery_resolution a ⟫ ⟪ tr_body := a ⟫
                 ⟪ tr_updated_at := at_updated_at a ⟫
             | None => fresh_attempt_row a
             end in
  abort_if (match db_attempts db !! id with
            | Some old => finished_attempt_is_immutable old new
            | None => false
            end) "finished OperationAttempt is immutable";;
  abort_if (negb (attempt_check new)) "operation_attempts CHECK";;
  abort_if (other (db_attempts db) id (attempt_clash new)) "operation_attempts UNIQUE";;
  abort_if (negb (is_some (db_operations db !! tr_operation_id new)
                  && run_exists (tr_run_id new) db)) "operation_attempts FOREIGN KEY";;
  tx_modify (λ db, db ⟪ db_attempts := <[id := new]> (db_attempts db) ⟫).

(* source: gateway/state_controller.py@TABLE durable_approvals *)
Definition approval_refs (a : DurableApproval) (db : Db) : bool :=
  run_exists (ap_run_id a) db && is_some (db_operations db !! ap_operation_id a)
  && is_some (db_attempts db !! ap_attempt_id a).

(* source: gateway/state_controller.py StateController._save_approval *)
Definition approval_row (a : DurableApproval) (updated_at : string) : ApprovalRow :=
  mkApprovalRow (ap_run_id a) (ap_operation_id a) (ap_status a) a (ap_expires_at a)
    updated_at (ap_attempt_id a).

(** A plain INSERT into [durable_approvals]. *)
(* source: gateway/state_controller.py:1689-1697 StateController.apply *)
Definition insert_approval (a : DurableApproval) (updated_at : string) : Tx Db unit :=
  db ← tx_gets (λ db, db);
  abort_if (is_some (db_approvals db !! ap_approval_id a)) "durable_approvals PRIMARY KEY";;
  abort_if (anyrow (db_approvals db) (λ r, bool_decide (pr_attempt_id r = ap_attempt_id a)))
    "one_approval_per_attempt";;
  abort_if (negb (approval_refs a db)) "durable_approvals FOREIGN KEY";;
  tx_modify (λ db, db ⟪ db_approvals :=
    <[ap_approval_id a := approval_row a updated_at]> (db_approvals db) ⟫).

(* source: gateway/state_controller.py StateController._save_approval *)
Definition save_approval (a : DurableApproval) : Tx Db unit :=
  db ← tx_gets (λ db, db);
  let updated_at := str_or (ap_decided_at a) (ap_created_at a) in
  match db_approvals db !! ap_approval_id a with
  | Some old =>
      tx_modify (λ db, db ⟪ db_approvals := <[ap_approval_id a :=
        old ⟪ pr_status := ap_status a ⟫ ⟪ pr_body := a ⟫ ⟪ pr_updated_at := updated_at ⟫]>
        (db_approvals db) ⟫)
  | None => insert_approval a updated_at
  end.

(* source: gateway/state_controller.py StateController._state_row *)
Definition state_row (s : AgentState) (snapshot : Z) : StateRow :=
  mkStateRow (st_revision s) (st_gateway_epoch s) (st_task_state s)
    (ex_state <$> st_execution s) (recovery_required s) s (st_updated_at s) snapshot.

(** [INSERT INTO runs] and [INSERT INTO event_sequences] of a new Run. *)
(* source: gateway/state_controller.py:1277-1286 StateController.create_run *)
Definition insert_run (run_id : string) (r : RunRow) : Tx Db unit :=
  db ← tx_gets (λ db, db);
  abort_if (run_exists run_id db) "runs PRIMARY KEY";;
  tx_modify (λ db, db ⟪ db_runs := <[run_id := r]> (db_runs db) ⟫).
(* source: gateway/state_controller.py:1287-1289 StateController.create_run *)
Definition insert_sequence (run_id : string) : Tx Db unit :=
  db ← tx_gets (λ db, db);
  abort_if (is_some (db_sequences db !! run_id)) "event_sequences PRIMARY KEY";;
  tx_modify (λ db, db ⟪ db_sequences := <[run_id := 0]> (db_sequences db) ⟫).

(** [INSERT INTO agent_states] *)
(* source: gateway/state_controller.py:1212-1216 StateController.create_state *)
Definition insert_state (s : AgentState) : Tx Db unit :=
  db ← tx_gets (λ db, db);
  abort_if (is_some (db_states db !! st_run_id s)) "agent_states PRIMARY KEY";;
  tx_modify (λ db, db ⟪ db_states := <[st_run_id s := state_row s 0]> (db_states db) ⟫).

(** [UPDATE agent_states ... WHERE run_id=? AND revision=?], with its trigger
    and the row count check that follows it. *)
(* source: gateway/state_controller.py:1789-1795 StateController.apply *)
Definition update_state (s : AgentState) (previous_revision : Z) : Tx Db unit :=
  db ← tx_gets (λ db, db);
  match db_states db !! st_run_id s with
  | Some old =>
      if decide (sr_revision old = previous_revision) then
        abort_if (normal_terminal_requires_finalizing (sr_task_state old) (st_task_state s))
          "normal terminal state requires FINALIZING";;
        tx_modify (λ db, db ⟪ db_states := <[st_run_id s :=
          state_row s (sr_snapshot_stream_sequence old)]> (db_states db) ⟫)
      else tx_fail (StateConflictError "State CAS update failed")
  | None => tx_fail (StateConflictError "State CAS update failed")
  end.

(* source: gateway/state_controller.py StateController._update_run_projection *)
Definition project_run (s : AgentState) (r : RunRow) : RunRow :=
  mkRunRow (ru_project_id r) (st_session_id s) (ru_client_id r) (ru_task r)
    (projected_run_status s) (ru_created_at r) (st_started_at s) (st_finished_at s)
    (if decide (st_task_state s = TS_SUCCEEDED) then st_result_summary s else None) (st_error s)
    (Some (st_task_state s)) (ex_state <$> st_execution s) (st_execution s ≫= ex_outcome)
    (st_execution s ≫= ex_finish_reason) (st_revision s) (st_workload_kind s)
    (recovery_required s) (st_terminal_target s) (ru_model_profile_id r)
    (ru_reasoning_effort r) (ru_ui_context r).
(* source: gateway/state_controller.py StateController._update_run_projection *)
Definition update_run_projection (s : AgentState) : Tx Db unit :=
  tx_modify (λ db, db ⟪ db_runs := alter (project_run s) (st_run_id s) (db_runs db) ⟫).

(** [INSERT INTO state_transitions] *)
(* source: gateway/state_controller.py:1797-1808 StateController.apply *)
Definition insert_transition (id : string) (r : TransitionRow) : Tx Db unit :=
  db ← tx_gets (λ db, db);
  abort_if (is_some (db_transitions db !! id)) "state_transitions PRIMARY KEY";;
  abort_if (negb (run_exists (xr_run_id r) db)) "state_transitions FOREIGN KEY";;
  tx_modify (λ db, db ⟪ db_transitions := <[id := r]> (db_transitions db) ⟫).

(** [INSERT INTO recovery_decisions] *)
(* source: gateway/state_controller.py:3860-3868 StateController._apply_recovery *)
Definition insert_decision (id : string) (r : DecisionRow) : Tx Db unit :=
  db ← tx_gets (λ db, db);
  abort_if (is_some (db_decisions db !! id)
            || anyrow (db_decisions db) (λ r', bool_decide (dr_command_id r' = dr_command_id r)))
    "recovery_decisions UNIQUE";;
  abort_if (negb (run_exists (dr_run_id r) db
                  && opt_all (λ o, is_some (db_operations db !! o)) (dr_operation_id r)
                  && opt_all (λ a, is_some (db_attempts db !! a)) (dr_attempt_id r)))
    "recovery_decisions FOREIGN KEY";;
  tx_modify (λ db, db ⟪ db_decisions := <[id := r]> (db_decisions db) ⟫).

(** [INSERT INTO processed_commands] *)
(* source: gateway/state_controller.py:1822-1832 StateController.apply *)
Definition insert_processed (command_id : string) (r : ProcessedRow) : Tx Db unit :=
  db ← tx_gets (λ db, db);
  abort_if (is_some (db_processed db !! command_id)) "processed_commands PRIMARY KEY";;
  tx_modify (λ db, db ⟪ db_processed := <[command_id := r]> (db_processed db) ⟫).

(** [INSERT INTO finalize_generations] *)
(* source: gateway/state_controller.py StateController._insert_finalize_generation *)
Definition insert_finalize_generation (r : FinalizeGenerationRecord) : Tx Db unit :=
  db ← tx_gets (λ db, db);
  let key := (fg_run_id r, fg_generation r) in
  abort_if (is_some (db_generations db !! key)) "finalize_generations PRIMARY KEY";;
  abort_if (fg_generation r <? 1) "finalize_generations CHECK";;
  abort_if (negb (run_exists (fg_run_id r) db)) "finalize_generations FOREIGN KEY";;
  tx_modify (λ db, db ⟪ db_generations := <[key := r]> (db_generations db) ⟫).

(** [INSERT INTO finalize_generation_invalidations] *)
(* source: gateway/state_controller.py:1457-1463 StateController.apply *)
Definition insert_invalidation (id : string) (r : InvalidationRow) : Tx Db unit :=
  db ← tx_gets (λ db, db);
  abort_if (is_some (db_invalidations db !! id)
            || anyrow (db_invalidations db) (λ r', bool_decide (vr_command_id r' = vr_command_id r)))
    "finalize_generation_invalidations UNIQUE";;
  abort_if (negb (is_some (db_generations db !! (vr_run_id r, vr_generation r))))
    "finalize_generation_invalidations FOREIGN KEY";;
  tx_modify (λ db, db ⟪ db_invalidations := <[id := r]> (db_invalidations db) ⟫).

(** Is a generation of a run invalidated? *)
Definition invalidated (run_id : string) (generation : Z) (db : Db) : bool :=
  anyrow (db_invalidations db) (λ r,
    bool_decide (vr_run_id r = run_id) && bool_decide (vr_generation r = generation)).

(** [INSERT INTO run_audit_receipts] *)
(* source: gateway/state_controller.py:4016-4018 StateController._finalize_audit *)
Definition insert_receipt (id : string) (r : ReceiptRow) : Tx Db unit :=
  db ← tx_gets (λ db, db);
  abort_if (is_some (db_receipts db !! id)
            || anyrow (db_receipts db) (λ r', bool_decide (cr_run_id r' = cr_run_id r)
                 && bool_decide (cr_receipt_generation r' = cr_receipt_generation r)))
    "run_audit_receipts UNIQUE";;
  abort_if (cr_receipt_generation r <? 1) "run_audit_receipts CHECK";;
  abort_if (negb (is_some (db_generations db !! (cr_run_id r, cr_finalize_generation r))))
    "run_audit_receipts FOREIGN KEY";;
  tx_modify (λ db, db ⟪ db_receipts := <[id := r]> (db_receipts db) ⟫).

(** The upsert of [run_current_audit_receipt]. *)
(* source: gateway/state_controller.py:4024-4028 StateController._finalize_audit *)
Definition set_current_receipt (run_id receipt_id timestamp : string) : Tx Db unit :=
  db ← tx_gets (λ db, db);
  abort_if (other (db_current_receipt db) run_id (λ r, bool_decide (kr_receipt_id r = receipt_id)))
    "run_current_audit_receipt UNIQUE";;
  abort_if (negb (run_exists run_id db && is_some (db_receipts db !! receipt_id)))
    "run_current_audit_receipt FOREIGN KEY";;
  tx_modify (λ db, db ⟪ db_current_receipt :=
    <[run_id := mkCurrentReceiptRow receipt_id timestamp]> (db_current_receipt db) ⟫).

(** [INSERT INTO inbox] *)
(* source: gateway/state_controller.py:4063-4070 StateController._finalize_inbox *)
Definition insert_inbox (id : string) (r : InboxRow) : Tx Db unit :=
  db ← tx_gets (λ db, db);
  abort_if (is_some (db_inbox db !! id)
            || anyrow (db_inbox db) (λ r', bool_decide (br_run_id r' = br_run_id r))) "inbox UNIQUE";;
  tx_modify (λ db, db ⟪ db_inbox := <[id := r]> (db_inbox db) ⟫).
