(* ===== verification/Events.v ===== *)
(** * Events: the canonical event and its outbox row

    [_write_event] appends one event to the stream of a Run, in the same
    transaction as the state change it reports, and snapshots the delivery
    policy of every enabled sink. *)

From S2P Require Import Prelude PyText Sanitizer Json AgentTypes AgentState Commands Store.

#[local] Open Scope Z_scope.

(* source: gateway/event_store.py canonical_json *)
Definition canonical_json (value : json) : string := json_dumps value.

(* source: gateway/event_store.py sha256_text *)
Definition sha256_text (value : string) : string := sha256_hex value.

(* source: gateway/models.py GatewayEventEnvelope *)
Record GatewayEventEnvelope := mkEnvelope {
  ge_version : Z;
  ge_event_id : string;
  ge_sequence : Z;
  ge_timestamp : string;
  ge_project_id : string;
  ge_session_id : option string;
  ge_run_id : option string;
  ge_type : string;
  ge_payload : list (string * json);
  ge_command_id : option string;
  ge_event_key : option string;
  ge_stream_id : option string;
  ge_stream_sequence : option Z;
  ge_event_type : option string;
  ge_schema_version : Z;
  ge_causation_id : option string;
  ge_correlation_id : option string;
  ge_payload_hash : option string
}.

(* source: gateway/models.py GatewayEventEnvelope *)
Definition Envelope_valid (e : GatewayEventEnvelope) : bool :=
  bool_decide (ge_version e ∈ [1; 2; 3]) && nonempty (ge_event_id e) && (1 <=? ge_sequence e)
  && nonempty (ge_timestamp e) && nonempty (ge_project_id e) && nonempty (ge_type e)
  && opt_all (λ n, 1 <=? n) (ge_stream_sequence e) && (1 <=? ge_schema_version e)
  && opt_hex64 (ge_payload_hash e).

Definition jint_opt (o : option Z) : json := match o with Some z => JInt z | None => JNull end.

(** [event.model_dump(mode="json")] *)
(* source: gateway/models.py GatewayEventEnvelope *)
Definition envelope_json (e : GatewayEventEnvelope) : json := JObj
  [("version", JInt (ge_version e)); ("event_id", JStr (ge_event_id e));
   ("sequence", JInt (ge_sequence e)); ("timestamp", JStr (ge_timestamp e));
   ("project_id", JStr (ge_project_id e)); ("session_id", jopt (ge_session_id e));
   ("run_id", jopt (ge_run_id e)); ("type", JStr (ge_type e)); ("payload", JObj (ge_payload e));
   ("command_id", jopt (ge_command_id e)); ("event_key", jopt (ge_event_key e));
   ("stream_id", jopt (ge_stream_id e)); ("stream_sequence", jint_opt (ge_stream_sequence e));
   ("event_type", jopt (ge_event_type e)); ("schema_version", JInt (ge_schema_version e));
   ("causation_id", jopt (ge_causation_id e)); ("correlation_id", jopt (ge_correlation_id e));
   ("payload_hash", jopt (ge_payload_hash e))].

(** ** Names and payloads *)

(* source: gateway/state_controller.py StateController._event_type *)
Definition event_type (c : Command) : string :=
  match cm_body c with
  | Transition _ => "state_transitioned"
  | UpdateStateMetadata _ => "state_metadata_updated"
  | RecordRuntimeEvent t _ _ => t
  | BindSession _ => "session_bound"
  | UpgradePersistenceContract _ => "persistence_contract_upgraded"
  | StartFinalizeGeneration _ _ => "finalize_generation_started"
  | StartReplacementFinalizeGeneration _ _ _ _ => "finalize_generation_replaced"
  | InvalidateFinalizeGeneration _ _ => "finalize_generation_invalidated"
  | FinalizeAudit _ => "finalize_audit_created"
  | FinalizeInbox _ => "inbox_created"
  | FinalizeTerminal _ _ => "run_terminal"
  | BeginOperation _ => "operation_prepared"
  | CreateOperationWithAttempt _ => "operation_created"
  | BeginOperationAttempt _ => "operation_attempt_prepared"
  | StartOperationAttempt _ _ => "operation_attempt_started"
  | CompleteOperationAttempt _ _ _ _ => "operation_attempt_completed"
  | FailOperationAttempt _ _ _ => "operation_attempt_failed"
  | MarkOperationAttemptUnknown _ _ => "operation_attempt_unknown"
  | SkipOperationAttempt _ _ => "operation_attempt_skipped"
  | AbandonOperationAttempt _ _ => "operation_attempt_abandoned"
  | HeartbeatOperationAttempt _ _ _ => "operation_attempt_heartbeat"
  | ReconcileOperationAttempt _ _ => "operation_attempt_reconciled"
  | StartOperation _ _ => "operation_started"
  | CompleteOperation _ _ _ _ => "operation_completed"
  | FailOperation _ _ _ => "operation_failed"
  | MarkOperationUnknown _ _ => "operation_unknown"
  | AbandonOperation _ _ => "operation_abandoned"
  | HeartbeatOperation _ _ _ => "operation_heartbeat"
  | ReconcileOperation _ _ => "operation_reconciled"
  | CreateApproval _ => "approval_created"
  | DecideApproval _ _ _ _ => "approval_decided"
  | ExpireApproval _ => "approval_expired"
  | RequestCancellation _ => "cancellation_requested"
  | CreateSafeCheckpoint _ => "safe_checkpoint_created"
  | RecoveryDecision _ => "recovery_decided"
  | AdoptGatewayEpoch _ _ => "gateway_epoch_adopted"
  end.

Definition execution_value (s : AgentState) : json :=
  jopt ((λ e, ExecutionState_value (ex_state e)) <$> st_execution s).

(* source: gateway/state_controller.py StateController._event_payload *)
Definition event_payload (command : Command) (before after : AgentState)
    (operation : option OperationRecord) (attempt : option OperationAttempt)
    (approval : option DurableApproval) : list (string * json) :=
  let base :=
    [("command_id", JStr (sc_command_id (cm_head command)));
     ("revision", JInt (st_revision after));
     ("task_state", JStr (TaskState_value (st_task_state after)));
     ("execution_state", execution_value after)] in
  match cm_body command with
  | RecordRuntimeEvent _ payload _ =>
      dict_set "revision" (JInt (st_revision after)) (sanitize_dict payload)
  | _ =>
      let p1 := match cm_body command with
        | Transition c => dict_update base
            [("from_task_state", JStr (TaskState_value (st_task_state before)));
             ("to_task_state", JStr (TaskState_value (st_task_state after)));
             ("from_execution_state", execution_value before);
             ("to_execution_state", execution_value after); ("reason", JStr (tc_reason c))]
        | _ => base
        end in
      let p2 := match operation with
        | Some o => dict_update p1 [("operation_id", JStr (op_operation_id o));
                       ("operation_status", JStr (OperationStatus_value (op_status o)))]
        | None => p1
        end in
      let p3 := match attempt with
        | Some a => dict_update p2 [("attempt_id", JStr (at_attempt_id a));
                       ("attempt_no", JInt (at_attempt_no a));
                       ("attempt_status", JStr (OperationStatus_value (at_status a)));
                       ("model_call_id", jopt (at_model_call_id a))]
        | None => p2
        end in
      match approval with
      | Some a => dict_update p3 [("approval_id", JStr (ap_approval_id a));
                       ("approval_status", JStr (ApprovalStatus_value (ap_status a)))]
      | None => p3
      end
  end.

(** ** Writing *)

(** The first event of a stream. *)
Definition stream_rows (stream_id : string) (db : Db) : list EventRow :=
  filter (λ r, er_stream_id r = stream_id) (map snd (map_to_list (db_events db))).
Definition seq_le (a b : EventRow) : Prop := er_stream_sequence a ≤ er_stream_sequence b.
#[export] Instance seq_le_dec a b : Decision (seq_le a b).
Proof. unfold seq_le. apply _. Defined.
#[export] Instance seq_le_total : Total seq_le.
Proof. intros a b. unfold seq_le. lia. Qed.
#[export] Instance seq_le_trans : Transitive seq_le.
Proof. intros a b c. unfold seq_le. lia. Qed.

(* source: gateway/state_controller.py:4231-4243 StateController._write_event *)
Definition select_correlation_id (state : AgentState) (correlation_id : option string) (db : Db) :
    string :=
  let parent :=
    match correlation_id, st_parent_run_id state with
    | None, Some p =>
        if bool_decide (p = "") then None else
        match head (merge_sort seq_le (stream_rows p db)) with
        | Some r => Some (str_or (er_correlation_id r) p)
        | None => Some p
        end
    | _, _ => None
    end in
  match correlation_id with
  | Some c => str_or (Some c) (st_run_id state)
  | None => str_or parent (st_run_id state)
  end.

(** [INSERT INTO gateway_events] with the indexes of its table. *)
(* source: gateway/state_controller.py:4266-4277 StateController._write_event *)
Definition insert_event (event_id : string) (r : EventRow) : Tx Db unit :=
  db ← tx_gets (λ db, db);
  abort_if (is_some (db_events db !! event_id)) "gateway_events PRIMARY KEY";;
  abort_if (anyrow (db_events db) (λ r',
      bool_decide (er_stream_id r' = er_stream_id r)
      && bool_decide (er_stream_sequence r' = er_stream_sequence r))) "gateway_events UNIQUE";;
  abort_if (is_some (er_command_id r) && is_some (er_event_key r)
      && anyrow (db_events db) (λ r', bool_decide (er_command_id r' = er_command_id r)
      && bool_decide (er_event_key r' = er_event_key r))) "gateway_event_command_key_uq";;
  abort_if (er_stream_sequence r <? 1) "gateway_events CHECK";;
  tx_modify (λ db, db ⟪ db_events := <[event_id := r]> (db_events db) ⟫).

(** [INSERT INTO event_outbox] *)
(* source: gateway/state_controller.py:4278-4284 StateController._write_event *)
Definition insert_outbox (outbox_id : string) (r : OutboxRow) : Tx Db unit :=
  db ← tx_gets (λ db, db);
  abort_if (is_some (db_outbox db !! outbox_id)
            || anyrow (db_outbox db) (λ r', bool_decide (ox_event_id r' = ox_event_id r)))
    "event_outbox UNIQUE";;
  tx_modify (λ db, db ⟪ db_outbox := <[outbox_id := r]> (db_outbox db) ⟫).

(** [INSERT INTO event_deliveries] *)
(* source: gateway/state_controller.py:4292-4302 StateController._write_event *)
Definition insert_delivery (delivery_id : string) (r : DeliveryRow) : Tx Db unit :=
  db ← tx_gets (λ db, db);
  abort_if (is_some (db_deliveries db !! delivery_id)
            || anyrow (db_deliveries db) (λ r', bool_decide (dl_event_id r' = dl_event_id r)
                 && bool_decide (dl_sink_id r' = dl_sink_id r))) "event_deliveries UNIQUE";;
  tx_modify (λ db, db ⟪ db_deliveries := <[delivery_id := r]> (db_deliveries db) ⟫).

(* source: gateway/state_controller.py:4289-4291 StateController._write_event *)
Definition delivery_id_of (event_id sink_id : string) : string :=
  sha256_hex ("event-delivery:v2:" +:+ event_id +:+ ":" +:+ sink_id).

(** A pending delivery with the sink's current policy. *)
(* source: gateway/state_controller.py:4285-4303 StateController._write_event *)
Definition delivery_snapshot (outbox_id event_id sink_id : string) (s : SinkRow) : DeliveryRow :=
  mkDeliveryRow outbox_id event_id sink_id (sk_required_by_default s) (sk_config_version s)
    (sk_config_hash s) DS_PENDING 0 None None None None None 0.

(* source: gateway/state_controller.py:4285-4303 StateController._write_event *)
Fixpoint insert_deliveries (outbox_id event_id : string) (sinks : list (string * SinkRow)) :
    Tx Db unit :=
  match sinks with
  | [] => mret tt
  | (sink_id, s) :: sinks' =>
      insert_delivery (delivery_id_of event_id sink_id)
        (delivery_snapshot outbox_id event_id sink_id s);;
      insert_deliveries outbox_id event_id sinks'
  end.

(** [SELECT * FROM event_sinks WHERE enabled=1 ORDER BY sink_id] *)
Definition sink_le (a b : string * SinkRow) : Prop := String.leb a.1 b.1 = true.
#[export] Instance sink_le_dec a b : Decision (sink_le a b).
Proof. unfold sink_le. apply _. Defined.
(* source: gateway/state_controller.py:4285-4288 StateController._write_event *)
Definition enabled_sinks (db : Db) : list (string * SinkRow) :=
  merge_sort sink_le (filter (λ kv, sk_enabled kv.2 = true) (map_to_list (db_sinks db))).

(** An outbox row without required deliveries is complete at once. *)
(* source: gateway/state_controller.py:4304-4308 StateController._write_event *)
Definition complete_empty_outbox (outbox_id timestamp : string) : Tx Db unit :=
  tx_modify (λ db,
    if anyrow (db_deliveries db) (λ d, bool_decide (dl_outbox_id d = outbox_id) && dl_required d)
    then db
    else db ⟪ db_outbox := alter (λ r,
      r ⟪ ox_completed_at := Some timestamp ⟫ ⟪ ox_revision := ox_revision r + 1 ⟫)
      outbox_id (db_outbox db) ⟫).

Definition newline : Ascii.ascii := Ascii.ascii_of_nat 10.

(* source: gateway/state_controller.py:4206-4218 StateController._write_event *)
Definition next_sequence (run_id : string) (db : Db) : Z := default 0 (db_sequences db !! run_id) + 1.

(** The envelope of a new event: [command_id] is given by every caller of this
    development, and an empty one falls back to a hash of the content. *)
(* source: gateway/state_controller.py:4219-4264 StateController._write_event *)
Definition make_event (state : AgentState) (type : string) (payload : list (string * json))
    (command_id event_key : string) (causation_id : option string) (correlation_id : string)
    (sequence : Z) (timestamp : string) : GatewayEventEnvelope :=
  let sanitized_payload := sanitize_dict payload in
  let payload_hash := sha256_text (canonical_json (JObj sanitized_payload)) in
  let nl := str1 newline in
  let selected_command_id :=
    if bool_decide (command_id = "")
    then sha256_hex ("domain-event:v2" +:+ nl +:+ st_run_id state +:+ nl +:+ type +:+ nl
                     +:+ canonical_json (JObj sanitized_payload))
    else command_id in
  let event_id := sha256_hex ("gateway-event:v2" +:+ nl +:+ selected_command_id +:+ nl
                              +:+ event_key +:+ nl +:+ st_run_id state) in
  mkEnvelope 2 event_id sequence timestamp (st_project_id state) (st_session_id state)
    (Some (st_run_id state)) type sanitized_payload (Some selected_command_id) (Some event_key)
    (Some (st_run_id state)) (Some sequence) (Some type) 1 causation_id (Some correlation_id)
    (Some payload_hash).

(* source: gateway/state_controller.py:4266-4277 StateController._write_event *)
Definition event_row (state : AgentState) (e : GatewayEventEnvelope) : EventRow :=
  let json := canonical_json (envelope_json e) in
  mkEventRow (ge_command_id e) (ge_event_key e) (st_run_id state) (ge_sequence e) (ge_type e) 2
    (ge_schema_version e) (ge_timestamp e) (st_run_id state) (st_session_id state)
    (ge_causation_id e) (ge_correlation_id e) (Some json)
    (default "" (ge_payload_hash e)) (sha256_text json) TIER_HOT None 0.

(* source: gateway/state_controller.py StateController._write_event *)
Definition write_event (event_now : string) (state : AgentState) (type : string)
    (payload : list (string * json)) (command_id event_key : string)
    (causation_id correlation_id : option string) : Tx Db GatewayEventEnvelope :=
  db ← tx_gets (λ db, db);
  let sequence := next_sequence (st_run_id state) db in
  tx_modify (λ db, db ⟪ db_sequences := <[st_run_id state := sequence]> (db_sequences db) ⟫);;
  event ← tx_lift (checked "GatewayEventEnvelope" Envelope_valid
    (make_event state type payload command_id event_key causation_id
       (select_correlation_id state correlation_id db) sequence event_now));
  insert_event (ge_event_id event) (event_row state event);;
  let outbox_id := sha256_hex ("event-outbox:v2:" +:+ ge_event_id event) in
  insert_outbox outbox_id (mkOutboxRow (ge_event_id event) event_now None 0);;
  insert_deliveries outbox_id (ge_event_id event) (enabled_sinks db);;
  complete_empty_outbox outbox_id event_now;;
  tx_modify (λ db, db ⟪ db_states :=
    alter (λ r, r ⟪ sr_snapshot_stream_sequence := sequence ⟫) (st_run_id state) (db_states db) ⟫);;
  mret event.

(** ** Payloads are well formed *)

Lemma event_payload_wf c b a o t p :
  payload_wf (cm_body c) = true → json_wf (JObj (event_payload c b a o t p)) = true.
Proof.
  intros Hc. assert (∀ s, json_wf (execution_value s) = true) as He by (intros; apply jopt_wf).
  unfold event_payload. cbv zeta.
  destruct (cm_body c); try (apply dict_set_wf; [done|]; rewrite <- sanitize_JObj; by apply sanitize_wf);
    repeat case_match;
    repeat lazymatch goal with |- json_wf (JObj (dict_update _ _)) = true => apply dict_update_wf end;
    lazymatch goal with
    | |- Forall _ _ => idtac
    | |- _ => apply fields_wf; split; [by apply (bool_decide_unpack _); vm_compute|]
    end;
    repeat (apply Forall_cons_2; [first [reflexivity|apply He|apply jopt_wf]|]); apply Forall_nil_2.
Qed.
