(* ===== verification/EventStore.v ===== *)
(** * EventStore: reading events back (gateway/event_store.py)

    The canonical body of an event is in its row while it is hot, and in a
    verified archive file afterwards; [read_canonical] and [read_stream] hide
    the difference.  The files of the archive directory are the map [db_files].
    Also the consumer cursors. *)

From S2P Require Import Prelude PyText PyTime Sanitizer Json AgentTypes AgentState Commands.
From S2P Require Import FinalizeEvidence Store Events.

#[local] Open Scope Z_scope.

(** ** Envelopes *)

(* source: gateway/models.py GatewayEventEnvelope *)
Definition envelope_keys : list string :=
  ["version"; "event_id"; "sequence"; "timestamp"; "project_id"; "session_id"; "run_id"; "type";
   "payload"; "command_id"; "event_key"; "stream_id"; "stream_sequence"; "event_type";
   "schema_version"; "causation_id"; "correlation_id"; "payload_hash"].

(** The strict model on a JSON document. *)
(* source: gateway/models.py GatewayEventEnvelope *)
Definition envelope_of (j : json) : option GatewayEventEnvelope :=
  d ← as_obj j;
  _ ← only_keys envelope_keys d;
  version ← with_default "version" as_int 1 d;
  event_id ← req "event_id" as_str d;
  sequence ← req "sequence" as_int d;
  timestamp ← req "timestamp" as_str d;
  project ← req "project_id" as_str d;
  session ← opt "session_id" as_str d;
  run ← opt "run_id" as_str d;
  type ← req "type" as_str d;
  payload ← with_default "payload" as_obj [] d;
  command ← opt "command_id" as_str d;
  key ← opt "event_key" as_str d;
  stream ← opt "stream_id" as_str d;
  stream_sequence ← opt "stream_sequence" as_int d;
  event_type ← opt "event_type" as_str d;
  schema ← with_default "schema_version" as_int 1 d;
  causation ← opt "causation_id" as_str d;
  correlation ← opt "correlation_id" as_str d;
  hash ← opt "payload_hash" as_str d;
  let e := mkEnvelope version event_id sequence timestamp project session run type payload command key
    stream stream_sequence event_type schema causation correlation hash in
  if Envelope_valid e then Some e else None.

(* source: gateway/event_store.py parse_canonical_event *)
Definition parse_canonical_event (raw : string) : res GatewayEventEnvelope :=
  res_of_option (ValidationError "GatewayEventEnvelope") (json_loads raw ≫= envelope_of).

(* source: gateway/event_store.py GatewayEventSchemaRegistry.upcast_envelope *)
Definition upcast_envelope (e : GatewayEventEnvelope) : GatewayEventEnvelope :=
  if 2 <=? ge_version e then e
  else mkEnvelope (ge_version e) (ge_event_id e) (ge_sequence e) (ge_timestamp e) (ge_project_id e)
    (ge_session_id e) (ge_run_id e) (ge_type e) (ge_payload e) (ge_command_id e) (ge_event_key e)
    (ge_run_id e) (Some (ge_sequence e)) (Some (ge_type e)) 1 (ge_causation_id e)
    (ge_correlation_id e) (ge_payload_hash e).

(* source: gateway/event_store.py project_event *)
Definition project_event (raw : string) : res GatewayEventEnvelope :=
  e ← parse_canonical_event raw; mret (upcast_envelope e).

(* source: gateway/event_store.py CanonicalEventRecord *)
Record CanonicalEventRecord := mkCanonicalEventRecord {
  ce_event_id : string;
  ce_stream_id : string;
  ce_stream_sequence : Z;
  ce_canonical_event_json : string;
  ce_canonical_hash : string
}.

(* source: gateway/event_store.py CanonicalEventRecord.envelope *)
Definition envelope (r : CanonicalEventRecord) : res GatewayEventEnvelope :=
  project_event (ce_canonical_event_json r).

(** ** Bytes *)

(** The bytes before and after the first newline. *)
Fixpoint split_newline (s : string) : option (string * string) :=
  match s with
  | EmptyString => None
  | String c s' =>
      if decide (c = newline) then Some ("", s')
      else '(a, b) ← split_newline s'; Some (String c a, b)
  end.

(** [s[offset:offset + length]], for the offsets the archive stores, which
    are not negative. *)
Definition slice (offset length : Z) (s : string) : string :=
  String.substring (Z.to_nat offset) (Z.to_nat length) s.

(** [json.get(k) != s], for a column that may be NULL. *)
Definition get_is (k : string) (d : list (string * json)) (s : option string) : bool :=
  match dict_get k d, s with
  | Some (JStr a), Some b => bool_decide (a = b)
  | (None | Some JNull), None => true
  | _, _ => false
  end.

(** ** Reading *)

(** The row of [_read_archive_member]'s join. *)
(* source: gateway/event_store.py:170-180 EventStore._read_archive_member *)
Definition archive_member (archive_id event_id : string) (db : Db) : option (MemberRow * ArchiveRow) :=
  m ← db_members db !! event_id;
  a ← db_archives db !! mb_archive_id m;
  if decide (mb_archive_id m = archive_id) then Some (m, a) else None.

(* source: gateway/event_store.py:185-201 EventStore._read_archive_member *)
Definition check_archive (a : ArchiveRow) (bytes : string) : res unit :=
  '(first, rest) ← res_of_option (EventStoreIntegrityError "Archive manifest is missing")
                     (split_newline bytes);
  header ← (if is_utf8 first
            then res_of_option (EventStoreIntegrityError "Archive manifest is invalid") (json_loads first)
            else Err (EventStoreIntegrityError "Archive manifest is invalid"));
  match header with
  | JObj h =>
      match dict_get "archive_manifest" h with
      | Some (JObj manifest) =>
          if get_is "manifest_hash" h (gx_manifest_hash a)
             && bool_decide (Some (sha256_text (canonical_json (JObj manifest))) = gx_manifest_hash a)
             && get_is "members_hash" manifest (gx_members_hash a)
             && bool_decide (Some (sha256_hex rest) = gx_events_content_hash a)
          then Ok tt else Err (EventStoreIntegrityError "Archive integrity evidence mismatch")
      | _ => Err (EventStoreIntegrityError "Archive integrity evidence mismatch")
      end
  | _ => Err (AttributeError "get")
  end.

(* source: gateway/event_store.py EventStore._read_archive_member *)
Definition read_archive_member (event_id : string) (r : EventRow) (db : Db) : res string :=
  match er_archive_id r with
  | None | Some EmptyString => Err (EventStoreIntegrityError "Archived event has no archive identity")
  | Some archive_id =>
      match archive_member archive_id event_id db with
      | Some (m, a) =>
          if decide (gx_status a ≠ AR_VERIFIED)
          then Err (EventStoreIntegrityError "Archived event has no verified member evidence") else
          match mb_byte_offset m, mb_byte_length m with
          | Some offset, Some length =>
              bytes ← res_of_option (FileNotFoundError (gx_archive_path a))
                        (db_files db !! gx_archive_path a);
              check_archive a bytes;;
              let data := slice offset length bytes in
              if is_utf8 data then Ok data
              else Err (EventStoreIntegrityError "Archive member is not UTF-8")
          | _, _ => Err (EventStoreIntegrityError "Verified archive member has no byte location")
          end
      | None => Err (EventStoreIntegrityError "Archived event has no verified member evidence")
      end
  end.

(** [a or b], for a text or an integer that may be missing. *)
(* source: gateway/event_store.py:214-215 EventStore._validate_row *)
Definition envelope_stream (e : GatewayEventEnvelope) : option string :=
  match ge_stream_id e with Some s => if decide (s = "") then ge_run_id e else Some s | None => ge_run_id e end.
(* source: gateway/event_store.py:214-215 EventStore._validate_row *)
Definition envelope_sequence (e : GatewayEventEnvelope) : Z :=
  match ge_stream_sequence e with Some n => if n =? 0 then ge_sequence e else n | None => ge_sequence e end.

(* source: gateway/event_store.py EventStore._validate_row *)
Definition validate_row (event_id : string) (r : EventRow) (raw : string) : res CanonicalEventRecord :=
  let digest := sha256_text raw in
  if decide (digest ≠ er_canonical_hash r) then Err (EventStoreIntegrityError "Canonical hash mismatch") else
  e ← parse_canonical_event raw;
  if decide (ge_event_id e = event_id ∧ envelope_stream e = Some (er_stream_id r)
             ∧ envelope_sequence e = er_stream_sequence r)
  then mret (mkCanonicalEventRecord event_id (er_stream_id r) (er_stream_sequence r) raw digest)
  else Err (EventStoreIntegrityError "Canonical envelope identity differs from its index row").

(** A row, wherever its body is. *)
(* source: gateway/event_store.py:119-122 EventStore.read_canonical *)
Definition read_row (event_id : string) (r : EventRow) (db : Db) : res CanonicalEventRecord :=
  raw ← match er_canonical_event_json r with
        | Some raw => mret raw
        | None => read_archive_member event_id r db
        end;
  validate_row event_id r raw.

(* source: gateway/event_store.py EventStore.read_canonical *)
Definition read_canonical (event_id : string) (db : Db) : res CanonicalEventRecord :=
  r ← res_of_option (KeyError event_id) (db_events db !! event_id);
  read_row event_id r db.

Definition row_le (a b : string * EventRow) : Prop := er_stream_sequence a.2 ≤ er_stream_sequence b.2.
#[export] Instance row_le_dec a b : Decision (row_le a b).
Proof. unfold row_le. apply _. Defined.
#[export] Instance row_le_total : Total row_le.
Proof. intros a b. unfold row_le. lia. Qed.

(** [WHERE stream_id=? AND stream_sequence>? ORDER BY stream_sequence]; a
    negative [LIMIT] is none. *)
(* source: gateway/event_store.py:127-136 EventStore.read_stream *)
Definition stream_events (stream_id : string) (after : Z) (limit : option Z) (db : Db) :
    list (string * EventRow) :=
  let rows := merge_sort row_le (filter (λ kv, er_stream_id kv.2 = stream_id ∧ after < er_stream_sequence kv.2)
                (map_to_list (db_events db))) in
  match limit with Some n => if 0 <=? n then take (Z.to_nat n) rows else rows | None => rows end.

(* source: gateway/event_store.py:139-149 EventStore.read_stream *)
Fixpoint read_rows (rows : list (string * EventRow)) (previous : Z) (db : Db) :
    res (list CanonicalEventRecord) :=
  match rows with
  | [] => Ok []
  | (id, r) :: rows' =>
      record ← read_row id r db;
      if ce_stream_sequence record <=? previous
      then Err (EventStoreIntegrityError "Event stream is not strictly ordered")
      else records ← read_rows rows' (ce_stream_sequence record) db; mret (record :: records)
  end.

(* source: gateway/event_store.py EventStore.read_stream *)
Definition read_stream (stream_id : string) (after : Z) (limit : option Z) (db : Db) :
    res (list CanonicalEventRecord) :=
  read_rows (stream_events stream_id after limit db) after db.

(* source: gateway/event_store.py EventStore.read_projection_stream *)
Definition read_projection_stream (stream_id : string) (after : Z) (limit : option Z) (db : Db) :
    res (list GatewayEventEnvelope) :=
  records ← read_stream stream_id after limit db; mapM envelope records.

(* source: gateway/event_store.py EventStore.max_sequence *)
Definition max_sequence (stream_id : string) (db : Db) : Z :=
  foldr (λ r, Z.max (er_stream_sequence r)) 0 (stream_rows stream_id db).

(** ** The JSONL projection *)

(** The lines of [rebuild_jsonl]; the file replaces the projection at once. *)
(* source: gateway/event_store.py:289-292 ProjectionRebuilder.rebuild_jsonl *)
Definition jsonl_of (records : list CanonicalEventRecord) : string :=
  foldr (λ r acc, ce_canonical_event_json r +:+ str1 newline +:+ acc) "" records.

(* source: gateway/event_store.py ProjectionRebuilder.rebuild_jsonl *)
Definition rebuild_jsonl (directory stream_id : string) (db : Db) (files : gmap string string) :
    res (string * gmap string string) :=
  records ← read_stream stream_id 0 None db;
  let target := directory +:+ "/" +:+ stream_id +:+ ".jsonl" in
  mret (target, <[target := jsonl_of records]> files).

(** ** Consumer cursors *)

(* source: gateway/event_store.py EventConsumerCursorStore.advance_in_transaction *)
Definition advance_in_transaction (timestamp consumer_id stream_id : string)
    (expected_revision processed_sequence : Z) : Tx Db Z :=
  db ← tx_gets (λ db, db);
  match db_cursors db !! (consumer_id, stream_id) with
  | None =>
      reject (expected_revision ≠ 0) (EventStoreIntegrityError "Consumer cursor revision conflict");;
      abort_if (processed_sequence <? 0) "event_consumer_cursors CHECK";;
      tx_modify (λ db, db ⟪ db_cursors :=
        <[(consumer_id, stream_id) := mkCursorRow processed_sequence 1 timestamp]> (db_cursors db) ⟫);;
      mret 1
  | Some current =>
      reject (cu_revision current ≠ expected_revision)
        (EventStoreIntegrityError "Consumer cursor revision conflict");;
      reject (processed_sequence < cu_last_sequence current)
        (EventStoreIntegrityError "Consumer cursor cannot move backwards");;
      abort_if (processed_sequence <? 0) "event_consumer_cursors CHECK";;
      tx_modify (λ db, db ⟪ db_cursors := <[(consumer_id, stream_id) :=
        mkCursorRow processed_sequence (cu_revision current + 1) timestamp]> (db_cursors db) ⟫);;
      mret (expected_revision + 1)
  end.
