(* ===== verification/Codec.v ===== *)
(** * Codec: what is written can be read

    The JSON of finalize evidence and of event envelopes, through
    [json.dumps] and the strict parsers. *)

From S2P Require Import Prelude PyText PyTime Sanitizer Json AgentTypes AgentState Commands.
From S2P Require Import FinalizeEvidence Store Events EventStore.

#[local] Open Scope Z_scope.

(** ** Field access does not see the order of keys *)

(** A conversion that the order of keys does not change. *)
Definition flat {A} (f : json → option A) : Prop := ∀ j, json_wf j = true → f (json_sort j) = f j.

Create HintDb flat.

Lemma flat_str : flat as_str.
Proof. by intros []. Qed.
Lemma flat_int : flat as_int.
Proof. by intros []. Qed.
Lemma flat_literal2 : flat literal2.
Proof. by intros []. Qed.
Lemma flat_compose {A B} (f : json → option A) (g : A → option B) : flat f → flat (λ j, f j ≫= g).
Proof. intros H j Hj. by rewrite H. Qed.
Lemma flat_strings : flat as_strings.
Proof.
  intros [| | | | |l|]; try done. intros _. cbn. induction l as [|x l IH]; [done|].
  cbn. rewrite IH. by destruct x.
Qed.
#[local] Hint Resolve flat_str flat_int flat_literal2 flat_strings flat_compose : flat.

Section fields.
Context (d : list (string * json)) (Hd : json_wf (JObj d) = true).

Lemma fields_nodup : NoDup d.*1.
Proof. by apply fields_wf in Hd as [? _]. Qed.

Lemma get_sort k : dict_get k (sort_fields d) = json_sort <$> dict_get k d.
Proof. apply dict_get_sort, fields_nodup. Qed.
Lemma get_wf k v : dict_get k d = Some v → json_wf v = true.
Proof. apply fields_wf in Hd as [_ Hw]. by apply dict_get_wf. Qed.

Lemma req_sort {A} k (f : json → option A) : flat f → req k f (sort_fields d) = req k f d.
Proof.
  intros Hf. unfold req. rewrite get_sort. destruct (dict_get k d) as [v|] eqn:E; [|done].
  cbn. by apply Hf, (get_wf k).
Qed.
Lemma opt_sort {A} k (f : json → option A) : flat f → opt k f (sort_fields d) = opt k f d.
Proof.
  intros Hf. unfold opt. rewrite get_sort. destruct (dict_get k d) as [v|] eqn:E; [|done].
  cbn. pose proof (Hf v (get_wf _ _ E)) as H. destruct v; try done; cbn in *; by rewrite H.
Qed.
Lemma default_sort {A} k (f : json → option A) a : flat f → with_default k f a (sort_fields d) = with_default k f a d.
Proof.
  intros Hf. unfold with_default. rewrite get_sort. destruct (dict_get k d) as [v|] eqn:E; [|done].
  cbn. by apply Hf, (get_wf k).
Qed.
Lemma keys_sort ks : only_keys ks (sort_fields d) = only_keys ks d.
Proof.
  unfold only_keys. assert (forallb (λ kv, bool_decide (kv.1 ∈ ks)) (sort_fields d)
    = forallb (λ kv, bool_decide (kv.1 ∈ ks)) d) as ->; [|done].
  apply eq_true_iff_eq. rewrite !forallb_forall.
  assert (∀ k, k ∈ (sort_fields d).*1 ↔ k ∈ d.*1) as H.
  { intros k. rewrite sort_fields_perm, <- list_fmap_compose. done. }
  split; intros Hx kv Hin; apply bool_decide_eq_true.
  - assert (kv.1 ∈ (sort_fields d).*1) as (kv' & E & Hk)%list_elem_of_fmap
      by (apply H, list_elem_of_fmap_2, list_elem_of_In, Hin).
    rewrite E. apply list_elem_of_In in Hk. apply Hx in Hk. by apply bool_decide_eq_true in Hk.
  - assert (kv.1 ∈ d.*1) as (kv' & E & Hk)%list_elem_of_fmap
      by (apply H, list_elem_of_fmap_2, list_elem_of_In, Hin).
    rewrite E. apply list_elem_of_In in Hk. apply Hx in Hk. by apply bool_decide_eq_true in Hk.
Qed.
End fields.

Lemma flat_head : ∀ d, json_wf (JObj d) = true → head_of (sort_fields d) = head_of d.
Proof.
  intros d Hd. unfold head_of. by rewrite (default_sort d Hd), !(req_sort d Hd) by auto with flat.
Qed.

Lemma flat_references : flat references_of.
Proof.
  intros [| | | | | |d] Hd; try done. rewrite json_sort_JObj. unfold references_of, as_obj, mbind, option_bind.
  rewrite (keys_sort d), (default_sort d Hd), !(opt_sort d Hd) by auto with flat. done.
Qed.
#[local] Hint Resolve flat_references : flat.

Lemma flat_evidence : flat evidence_of.
Proof.
  intros [| | | | | |d] Hd; try done. rewrite json_sort_JObj. unfold evidence_of, as_obj, mbind, option_bind.
  rewrite !(keys_sort d), !(default_sort d Hd), (flat_head d Hd),
    (req_sort d Hd "persistence_contract" (λ j, match as_str j with
       | Some x => PersistenceContract_of x | None => None end) (flat_compose _ _ flat_str)),
    !(req_sort d Hd) by auto with flat. done.
Qed.

(** ** Evidence *)

Lemma dict_get_app k d1 d2 :
  dict_get k (d1 ++ d2) = match dict_get k d1 with Some v => Some v | None => dict_get k d2 end.
Proof. induction d1 as [|[k' v] d1 IH]; [done|]. cbn. by case_decide. Qed.
Lemma dict_get_some_field k k' o :
  dict_get k (some_field k' o) = if decide (k = k') then JStr <$> o else None.
Proof. destruct o; [done|]. by case_decide. Qed.

(** The fields of an object are among [ks], in that order. *)
Lemma some_field_keys k o : (some_field k o).*1 `sublist_of` [k].
Proof. destruct o; cbn; [done|apply sublist_nil_l]. Qed.

Lemma sublist_keys d ks :
  NoDup ks → d.*1 `sublist_of` ks → NoDup d.*1 ∧ only_keys ks d = Some tt.
Proof.
  intros Hn Hs. split; [by eapply sublist_NoDup|]. unfold only_keys.
  assert (forallb (λ kv : string * json, bool_decide (kv.1 ∈ ks)) d = true) as ->; [|done].
  apply forallb_forall. intros kv Hin%list_elem_of_In. apply bool_decide_eq_true.
  eapply elem_of_sublist; [|exact Hs]. by apply list_elem_of_fmap_2.
Qed.

Definition references_fields (r : FinalizeEvidenceReferences) : list (string * json) :=
  match references_json r with JObj d => d | _ => [] end.

Lemma references_keys_ok r :
  NoDup (references_fields r).*1 ∧ only_keys references_keys (references_fields r) = Some tt.
Proof.
  apply sublist_keys; [by apply (bool_decide_unpack _); vm_compute|].
  unfold references_fields, references_json. rewrite !fmap_app.
  change references_keys with (["segments"] ++ ["first_record_id"] ++ ["last_record_id"] ++
    ["final_record_id"] ++ ["record_count"] ++ ["memory_attempt_id"] ++ ["memory_result_hash"] ++
    ["session_index_attempt_id"] ++ ["session_index_result_hash"] ++ ["receipt_id"] ++ ["inbox_item_id"]).
  repeat apply sublist_app; try apply some_field_keys; [done|].
  destruct (fr_record_count r); [done|apply sublist_nil_l].
Qed.

(** Looking up one field of the references. *)
Ltac references_field o :=
  unfold references_fields, references_json; rewrite !dict_get_app, !dict_get_some_field;
  destruct (fr_record_count _); destruct o; reflexivity.

Lemma opt_str k f d (o : option string) :
  dict_get k d = JStr <$> o → f = as_str → opt k f d = Some o.
Proof. unfold opt. intros -> ->. by destruct o. Qed.

Lemma references_of_json r : references_of (references_json r) = Some r.
Proof.
  change (references_json r) with (JObj (references_fields r)).
  unfold references_of, as_obj, mbind, option_bind.
  rewrite (proj2 (references_keys_ok r)).
  rewrite (opt_str "first_record_id" _ _ (fr_first_record_id r)) by (done || references_field (fr_first_record_id r)).
  rewrite (opt_str "last_record_id" _ _ (fr_last_record_id r)) by (done || references_field (fr_last_record_id r)).
  rewrite (opt_str "final_record_id" _ _ (fr_final_record_id r)) by (done || references_field (fr_final_record_id r)).
  rewrite (opt_str "memory_attempt_id" _ _ (fr_memory_attempt_id r))
    by (done || references_field (fr_memory_attempt_id r)).
  rewrite (opt_str "memory_result_hash" _ _ (fr_memory_result_hash r))
    by (done || references_field (fr_memory_result_hash r)).
  rewrite (opt_str "session_index_attempt_id" _ _ (fr_session_index_attempt_id r))
    by (done || references_field (fr_session_index_attempt_id r)).
  rewrite (opt_str "session_index_result_hash" _ _ (fr_session_index_result_hash r))
    by (done || references_field (fr_session_index_result_hash r)).
  rewrite (opt_str "receipt_id" _ _ (fr_receipt_id r)) by (done || references_field (fr_receipt_id r)).
  rewrite (opt_str "inbox_item_id" _ _ (fr_inbox_item_id r)) by (done || references_field (fr_inbox_item_id r)).
  assert (opt "record_count" as_int (references_fields r) = Some (fr_record_count r)) as ->.
  { unfold opt, references_fields, references_json. rewrite !dict_get_app, !dict_get_some_field.
    by destruct (fr_record_count r). }
  assert (with_default "segments" as_strings [] (references_fields r) = Some (fr_segments r)) as ->; [|by destruct r].
  unfold with_default, references_fields, references_json. cbn [app dict_get].
  rewrite decide_True by done. by apply (mapM_fmap_Some as_str JStr).
Qed.

(** The JSON of valid evidence is read back as it was. *)
Lemma evidence_of_json e : Evidence_valid e = true → evidence_of (evidence_json e) = Some e.
Proof.
  intros Hv. destruct e as [[[st run gen oid aid] k i h m r]|[[st run gen oid aid] w c p]].
  - pose proof (references_of_json r) as Hr. unfold evidence_of, evidence_json, head_of, req, with_default.
    destruct st; lazy -[Evidence_valid references_of references_json]; rewrite Hr;
      lazy -[Evidence_valid]; by rewrite Hv.
  - unfold evidence_of, evidence_json, head_of, req, with_default.
    destruct st, c; lazy -[Evidence_valid]; by rewrite Hv.
Qed.

Lemma references_json_wf r : json_wf (references_json r) = true.
Proof.
  change (references_json r) with (JObj (references_fields r)). apply fields_wf.
  split; [apply references_keys_ok|].
  assert (∀ k o, Forall (λ kv, json_wf kv.2 = true) (some_field k o)) as Hs
    by (intros k [o|]; repeat constructor).
  unfold references_fields, references_json. rewrite !Forall_app. split_and!; try apply Hs.
  - repeat constructor. cbn. apply forallb_forall. by intros x (y & <- & _)%in_map_iff.
  - destruct (fr_record_count r); repeat constructor.
Qed.

Lemma evidence_json_wf e : json_wf (evidence_json e) = true.
Proof.
  destruct e as [v|n]; apply fields_wf; (split; [by apply (bool_decide_unpack _); vm_compute|]);
    repeat (apply Forall_cons_2; [first [reflexivity|apply references_json_wf]|]); apply Forall_nil_2.
Qed.

Lemma decode_dumps e : Evidence_valid e = true → decode (json_dumps (evidence_json e)) = Ok e.
Proof.
  intros Hv. unfold decode. rewrite (loads_dumps _ (evidence_json_wf e)). cbn.
  by rewrite (flat_evidence _ (evidence_json_wf e)), evidence_of_json.
Qed.

(** ** Envelopes *)

(** An envelope with the keys of its payload in order. *)
Definition normal_envelope (e : GatewayEventEnvelope) : GatewayEventEnvelope :=
  mkEnvelope (ge_version e) (ge_event_id e) (ge_sequence e) (ge_timestamp e) (ge_project_id e)
    (ge_session_id e) (ge_run_id e) (ge_type e) (sort_fields (ge_payload e)) (ge_command_id e)
    (ge_event_key e) (ge_stream_id e) (ge_stream_sequence e) (ge_event_type e) (ge_schema_version e)
    (ge_causation_id e) (ge_correlation_id e) (ge_payload_hash e).

Definition envelope_fields (e : GatewayEventEnvelope) : list (string * json) :=
  match envelope_json e with JObj d => d | _ => [] end.

Lemma jint_opt_wf o : json_wf (jint_opt o) = true.
Proof. by destruct o. Qed.

Lemma envelope_json_wf e :
  json_wf (JObj (ge_payload e)) = true → json_wf (JObj (envelope_fields e)) = true.
Proof.
  intros Hp. apply fields_wf. split; [by apply (bool_decide_unpack _); vm_compute|].
  unfold envelope_fields, envelope_json.
  repeat (apply Forall_cons_2; [first [reflexivity|exact Hp|apply jopt_wf|apply jint_opt_wf]|]); apply Forall_nil_2.
Qed.

Lemma opt_jopt (o : option string) : match jopt o with JNull => Some None | j => Some <$> as_str j end = Some o.
Proof. by destruct o. Qed.
Lemma opt_jint (o : option Z) : match jint_opt o with JNull => Some None | j => Some <$> as_int j end = Some o.
Proof. by destruct o. Qed.

Lemma opt_get_str k d o : dict_get k d = Some (jopt o) → opt k as_str d = Some o.
Proof. unfold opt. intros ->. by destruct o. Qed.
Lemma opt_get_int k d o : dict_get k d = Some (jint_opt o) → opt k as_int d = Some o.
Proof. unfold opt. intros ->. by destruct o. Qed.
Lemma req_get {A} k (f : json → option A) d v : dict_get k d = Some v → req k f d = f v.
Proof. unfold req. by intros ->. Qed.
Lemma default_get {A} k (f : json → option A) a d v : dict_get k d = Some v → with_default k f a d = f v.
Proof. unfold with_default. by intros ->. Qed.

Lemma envelope_of_json e :
  json_wf (JObj (ge_payload e)) = true → Envelope_valid e = true →
  envelope_of (json_sort (envelope_json e)) = Some (normal_envelope e).
Proof.
  intros Hp Hv. pose proof (envelope_json_wf _ Hp) as Hd.
  change (envelope_json e) with (JObj (envelope_fields e)). rewrite json_sort_JObj.
  unfold envelope_of, mbind, option_bind.
  change (as_obj (JObj ?x)) with (Some x). cbv beta iota.
  rewrite (keys_sort _), !(default_sort _ Hd _ as_int), !(req_sort _ Hd), !(opt_sort _ Hd) by auto with flat.
  assert (only_keys envelope_keys (envelope_fields e) = Some tt) as -> by reflexivity.
  assert (with_default "payload" as_obj [] (sort_fields (envelope_fields e)) = Some (sort_fields (ge_payload e))) as ->.
  { unfold with_default. by rewrite (get_sort _ Hd). }
  erewrite (default_get "version"), (req_get "event_id"), (req_get "sequence"), (req_get "timestamp"),
    (req_get "project_id"), (opt_get_str "session_id"), (opt_get_str "run_id"), (req_get "type"),
    (opt_get_str "command_id"), (opt_get_str "event_key"), (opt_get_str "stream_id"),
    (opt_get_int "stream_sequence"), (opt_get_str "event_type"), (default_get "schema_version"),
    (opt_get_str "causation_id"), (opt_get_str "correlation_id"), (opt_get_str "payload_hash") by reflexivity.
  cbn -[Envelope_valid]. fold (normal_envelope e).
  by change (Envelope_valid (normal_envelope e)) with (Envelope_valid e); rewrite Hv.
Qed.

Lemma parse_canonical_dumps e :
  json_wf (JObj (ge_payload e)) = true → Envelope_valid e = true →
  parse_canonical_event (canonical_json (envelope_json e)) = Ok (normal_envelope e).
Proof.
  intros Hp Hv. unfold parse_canonical_event, canonical_json.
  rewrite (loads_dumps (envelope_json e)) by (exact (envelope_json_wf e Hp)). cbn [mbind option_bind].
  unfold mbind, option_bind. by rewrite envelope_of_json.
Qed.
