(* ===== verification/Jsonl.v ===== *)
(** * Jsonl: the append-once JSONL sink (gateway/outbox.py JsonlEventSink)

    One file per Run, one canonical event per line, and an index of the event
    ids written so far, rebuilt from the file when the process starts.  Files
    are a map from paths to bytes.  The operating system may refuse any access
    ([SinkIo]); a failed call keeps what it wrote before it failed, so every
    operation returns the state with its result. *)

From S2P Require Import Prelude PyText PyTime Sanitizer Json AgentTypes AgentState Commands.
From S2P Require Import FinalizeEvidence Store Events EventStore Codec.

#[local] Open Scope Z_scope.

(** ** Text files *)

Definition carriage_return : Ascii.ascii := Ascii.ascii_of_nat 13.

(** Universal newlines: reading turns CR LF and CR into LF. *)
Fixpoint translate_newlines (s : string) : string :=
  match s with
  | EmptyString => ""
  | String c s' =>
      if decide (c = carriage_return) then
        String newline (match s' with
                        | String c' s'' => if decide (c' = newline) then translate_newlines s''
                                           else translate_newlines s'
                        | EmptyString => "" end)
      else String c (translate_newlines s')
  end.

(** [for line in handle], each line without its newline. *)
Fixpoint text_lines (s : string) : list string :=
  match s with
  | EmptyString => []
  | String c s' =>
      if decide (c = newline) then "" :: text_lines s'
      else match text_lines s' with [] => [str1 c] | l :: ls => String c l :: ls end
  end.

(** [str.isspace] of a code point. *)
Definition is_space (c : Z) : bool :=
  (9 <=? c) && (c <=? 13) || (28 <=? c) && (c <=? 32) || (8192 <=? c) && (c <=? 8202)
  || existsb (Z.eqb c) [133; 160; 5760; 8232; 8233; 8239; 8287; 12288].
Definition is_blank (s : string) : bool := forallb is_space (code_points s).

Definition is_ascii (s : string) : bool :=
  forallb (λ c, byte_of c <? 128) (String.list_ascii_of_string s).

(** ** The sink *)

(* source: gateway/outbox.py JsonlEventSink.__init__ *)
Record JsonlEventSink := mkJsonlEventSink {
  js_runs_directory : string;
  js_files : gmap string string;
  js_known : gmap (option string) (gmap string string)
}.
#[export] Instance JsonlEventSink_eta : Eta JsonlEventSink := λ r, mkJsonlEventSink
  (js_runs_directory r) (js_files r) (js_known r).

(** What becomes of a text that is appended to a file with [write], [flush] and
    [fsync]: it is written; the file could not be opened; or one of the calls
    raised when so many bytes of the text were in the file, all of them when it
    was [fsync]. *)
Inductive WriteOutcome := Written | NotOpened | Cut (bytes : nat).
#[export] Instance WriteOutcome_eq_dec : EqDecision WriteOutcome.
Proof. solve_decision. Defined.

(** What the operating system does to the accesses of one call: whether the
    event file can be read, whether the index can be replaced, and what becomes
    of the line of the event and of the line of the index. *)
Record SinkIo := mkSinkIo { io_read : bool; io_replace : bool; io_event : WriteOutcome; io_index : WriteOutcome }.
Definition io_ok : SinkIo := mkSinkIo true true Written Written.
Definition os_error {A} : res A := Err (OSError "").

(** [f"{selected_run_id}"] of a run id that may be missing. *)
Definition run_name (run_id : option string) : string := default "None" run_id.

(* source: gateway/outbox.py:55-55 JsonlEventSink.append_once *)
Definition jsonl_path (st : JsonlEventSink) (run_id : option string) : string :=
  js_runs_directory st +:+ "/" +:+ run_name run_id +:+ ".jsonl".
(* source: gateway/outbox.py JsonlEventSink._index_path *)
Definition index_path (st : JsonlEventSink) (run_id : option string) : string :=
  js_runs_directory st +:+ "/" +:+ run_name run_id +:+ ".events.idx".

(* source: gateway/outbox.py:92-104 JsonlEventSink._load_index *)
Fixpoint load_lines (path : string) (lines : list string) (values : gmap string string) :
    res (gmap string string) :=
  match lines with
  | [] => Ok values
  | line :: rest =>
      if is_blank line then load_lines path rest values else
      match parse_canonical_event line with
      | Err _ => Err (RuntimeError ("Gateway Event JSONL contains a damaged record: " +:+ path))
      | Ok event =>
          let digest := sha256_text line in
          let id := ge_event_id event in
          if decide (values !! id = None ∨ values !! id = Some digest)
          then load_lines path rest (<[id := digest]> values)
          else Err (ProjectionConflict ("Duplicate JSONL event identity: " +:+ id))
      end
  end.

(* source: gateway/outbox.py JsonlEventSink._load_index *)
Definition load_index (io : SinkIo) (path : string) (files : gmap string string) : res (gmap string string) :=
  match files !! path with
  | None => Ok ∅
  | Some bytes =>
      if negb (io_read io) then os_error
      else if is_utf8 bytes then load_lines path (text_lines (translate_newlines bytes)) ∅
      else Err (UnicodeError "utf-8")
  end.

Definition index_line (event_id digest : string) : string := event_id +:+ " " +:+ digest +:+ str1 newline.

Definition entry_le (a b : string * string) : Prop := String.leb a.1 b.1 = true.
#[export] Instance entry_le_dec a b : Decision (entry_le a b).
Proof. unfold entry_le. apply _. Defined.

(** The index is written to a temporary file, which nothing reads and which then
    replaces it. *)
(* source: gateway/outbox.py JsonlEventSink._rewrite_index *)
Definition rewrite_index (io : SinkIo) (run_id : option string) (values : gmap string string) (st : JsonlEventSink) :
    res unit * JsonlEventSink :=
  let text := foldr (λ kv acc, index_line kv.1 kv.2 +:+ acc) "" (merge_sort entry_le (map_to_list values)) in
  if negb (is_ascii text) then (Err (UnicodeError "ascii"), st)
  else if negb (io_replace io) then (os_error, st)
  else (Ok tt, st ⟪ js_files := <[index_path st run_id := text]> (js_files st) ⟫).

(** The index of a Run, read from its file the first time. *)
(* source: gateway/outbox.py:56-60 JsonlEventSink.append_once *)
Definition known_events (io : SinkIo) (run_id : option string) (st : JsonlEventSink) :
    res (gmap string string) * JsonlEventSink :=
  match js_known st !! run_id with
  | Some known => (Ok known, st)
  | None =>
      match load_index io (jsonl_path st run_id) (js_files st) with
      | Err e => (Err e, st)
      | Ok known =>
          match rewrite_index io run_id known (st ⟪ js_known := <[run_id := known]> (js_known st) ⟫) with
          | (Ok _, st') => (Ok known, st')
          | (Err e, st') => (Err e, st')
          end
      end
  end.

Definition append_file (path text : string) (files : gmap string string) : gmap string string :=
  <[path := default "" (files !! path) +:+ text]> files.

(** [with path.open("a") as handle: write; flush; fsync]; the answer tells whether
    nothing was raised. *)
(* source: gateway/outbox.py:69-72 JsonlEventSink.append_once *)
Definition write_file (outcome : WriteOutcome) (path text : string) (files : gmap string string) :
    bool * gmap string string :=
  match outcome with
  | Written => (true, append_file path text files)
  | NotOpened => (false, files)
  | Cut bytes => (false, append_file path (String.substring 0 bytes text) files)
  end.

(** A text that is not ASCII is refused by [write], once the file is open. *)
Definition index_outcome (io : SinkIo) (line : string) : WriteOutcome :=
  match io_index io with NotOpened => NotOpened | outcome => if is_ascii line then outcome else Cut 0 end.

(** The event is known from the moment its line is written, whether or not the
    line of the index is. *)
(* source: gateway/outbox.py:68-84 JsonlEventSink.append_once *)
Definition append_event (io : SinkIo) (run_id : option string) (event_id hash raw : string)
    (known : gmap string string) (st : JsonlEventSink) : res bool * JsonlEventSink :=
  let (written, files) := write_file (io_event io) (jsonl_path st run_id) (raw +:+ str1 newline) (js_files st) in
  let st1 := st ⟪ js_files := files ⟫ in
  if negb written then (os_error, st1) else
  let st2 := st1 ⟪ js_known := <[run_id := <[event_id := hash]> known]> (js_known st1) ⟫ in
  let line := index_line event_id hash in
  let (indexed, files) := write_file (index_outcome io line) (index_path st2 run_id) line (js_files st2) in
  (if indexed then Ok true
   else if is_ascii line || bool_decide (io_index io = NotOpened) then os_error else Err (UnicodeError "ascii"),
   st2 ⟪ js_files := files ⟫).

(* source: gateway/outbox.py JsonlEventSink.append_once *)
Definition append_once (io : SinkIo) (raw hash : string) (run_id : option string) (st : JsonlEventSink) :
    res bool * JsonlEventSink :=
  match parse_canonical_event raw with
  | Err e => (Err e, st)
  | Ok event =>
      let selected_run_id := match run_id with
                             | Some r => if decide (r = "") then ge_run_id event else Some r
                             | None => ge_run_id event end in
      if decide (sha256_text raw ≠ hash)
      then (Err (ProjectionConflict "JSONL input hash does not match canonical content"), st) else
      match known_events io selected_run_id st with
      | (Err e, st1) => (Err e, st1)
      | (Ok known, st1) =>
          match known !! ge_event_id event with
          | Some existing =>
              if decide (existing = hash) then (Ok false, st1)
              else (Err (ProjectionConflict "event_id already has different canonical content"), st1)
          | None => append_event io selected_run_id (ge_event_id event) hash raw known st1
          end
      end
  end.

(** A new process: the files stay, the indexes are read again. *)
Definition restart (st : JsonlEventSink) : JsonlEventSink := st ⟪ js_known := ∅ ⟫.
