(* ===== verification/Operations.v ===== *)
(** * Operations: the operation ledger of the controller

    The methods of StateController that create, advance, reconcile and
    recover the attempts of a logical operation
    (gateway/state_controller.py).  Each runs inside the transaction of
    [apply] on the state it has loaded. *)

From S2P Require Import Prelude PyText PyTime AgentTypes AgentState Sanitizer Commands.
From S2P Require Import OperationReduce Store.

#[local] Open Scope Z_scope.

(** What a command reads from outside: the two calls of [now_iso], and the
    [uuid4().hex] of each call site of one command (0: a row of its own table,
    1: a new attempt, 2: its model call, 3: its external request, 4: the
    transition row). *)
Record Env := mkEnv {
  env_now : string;
  env_event_now : string;
  env_uuid : nat → string
}.

(** The after-validators of [OperationAttempt.model_validate(copy)]. *)
Definition revalidate_attempt (a : OperationAttempt) : res OperationAttempt :=
  checked "OperationAttempt" validate_status_evidence a.

(* source: gateway/state_controller.py StateController._update_attempt *)
Definition replace_attempt (attempt_id : string) (a : OperationAttempt)
    (l : list OperationAttempt) : list OperationAttempt :=
  map (λ x, if decide (at_attempt_id x = attempt_id) then a else x) l.

(* source: gateway/state_controller.py StateController._update_attempt *)
Definition update_attempt (state : AgentState) (attempt_id timestamp : string)
    (allowed : list OperationStatus) (updates : OperationAttempt → OperationAttempt) :
    Tx Db (OperationRecord * OperationAttempt) :=
  attempt ← tx_read (attempt_in attempt_id);
  reject (at_run_id attempt ≠ st_run_id state ∨ at_status attempt ∉ allowed)
    (StateInvariantError "Attempt is not of this Run or its status forbids the operation");;
  attempt ← tx_lift (revalidate_attempt ((updates attempt) ⟪ at_updated_at := timestamp ⟫));
  operation ← tx_read (operation_in (at_operation_id attempt));
  attempts ← tx_read (attempts_in (op_operation_id operation));
  operation ← tx_lift (aggregate_operation operation
    (replace_attempt attempt_id attempt attempts) timestamp);
  mret (operation, attempt).

(* source: gateway/state_controller.py StateController._begin_operation *)
Definition begin_operation (state : AgentState) (command : BeginOperationCommand)
    (timestamp : string) : Tx Db OperationRecord :=
  db ← tx_gets (λ db, db);
  match db_operations db !! bo_operation_id command with
  | Some _ =>
      existing ← tx_read (operation_in (bo_operation_id command));
      reject (op_run_id existing ≠ st_run_id state
              ∨ op_request_hash existing ≠ bo_request_hash command)
        (StateConflictError "operation_id is already used by another operation");;
      mret existing
  | None =>
      let side_effecting := bool_decide (bo_kind command = OK_TOOL)
                            && negb (bool_decide (bo_idempotency command = TI_PURE)) in
      reject (side_effecting = true ∧ anyrow (db_operations db) (λ r,
                bool_decide (or_run_id r = st_run_id state) && bool_decide (or_kind r = OK_TOOL)
                && bool_decide (or_status r ∈ [OS_PREPARED; OS_RUNNING; OS_UNKNOWN])) = true)
        (StateInvariantError "at most one active side-effect operation per Run");;
      operation ← tx_lift (checked "OperationRecord" OperationRecord_valid
        (new_operation (mkImmutableOperationMetadata (bo_operation_id command)
          (bo_parent_operation_id command) (st_run_id state) (bo_turn_id command)
          (bo_kind command) (bo_name command) ("legacy:" +:+ bo_operation_id command)
          (bo_request_hash command) (bo_idempotency command) side_effecting
          None None None None None None) no_retry_policy timestamp));
      attempt ← tx_lift (checked "OperationAttempt" OperationAttempt_valid
        (new_attempt ("attempt:" +:+ bo_operation_id command +:+ ":1")
          (op_operation_id operation) (op_run_id operation) 1 (op_request_hash operation)
          (op_side_effecting operation) timestamp));
      save_operation operation;;
      save_attempt attempt;;
      mret operation
  end.

(** The metadata a command must repeat to name an existing operation. *)
(* source: gateway/state_controller.py:3562-3575 StateController._create_operation_with_attempt *)
Definition same_operation (o : OperationRecord) (c : CreateOperationWithAttemptCommand) : bool :=
  bool_decide (op_request_hash o = co_request_hash c)
  && bool_decide (op_name o = co_name c)
  && bool_decide (op_side_effecting o = co_side_effecting c)
  && bool_decide (op_idempotency o = co_idempotency c)
  && bool_decide (op_parent_operation_id o = co_parent_operation_id c)
  && bool_decide (op_logical_model_call_id o = co_logical_model_call_id c)
  && bool_decide (op_source_model_call_id o = co_source_model_call_id c)
  && bool_decide (op_tool_call_id o = co_tool_call_id c)
  && bool_decide (op_tool_batch_id o = co_tool_batch_id c)
  && bool_decide (op_tool_call_position o = co_tool_call_position c)
  && bool_decide (op_retry_policy_snapshot o = co_retry_policy_snapshot c)
  && bool_decide (op_external_idempotency_key o = co_external_idempotency_key c).

(* source: gateway/state_controller.py StateController._create_operation_with_attempt *)
Definition create_operation_with_attempt (state : AgentState)
    (command : CreateOperationWithAttemptCommand) (timestamp : string) :
    Tx Db (OperationRecord * OperationAttempt) :=
  db ← tx_gets (λ db, db);
  match operation_by_key (st_run_id state) (co_kind command) (co_stable_key command) db with
  | Some row =>
      operation ← tx_lift (checked "OperationRecord" OperationRecord_valid (or_body row));
      require (same_operation operation command = true)
        (StateConflictError "the same stable_key cannot redefine a Logical Operation");;
      attempt ← tx_read (current_attempt_in (op_operation_id operation));
      mret (operation, attempt)
  | None =>
      operation ← tx_lift (checked "OperationRecord" OperationRecord_valid
        (new_operation (mkImmutableOperationMetadata (co_operation_id command)
          (co_parent_operation_id command) (st_run_id state) (co_turn_id command)
          (co_kind command) (co_name command) (co_stable_key command)
          (co_request_hash command) (co_idempotency command) (co_side_effecting command)
          (co_logical_model_call_id command) (co_source_model_call_id command)
          (co_tool_call_id command) (co_tool_batch_id command) (co_tool_call_position command)
          (co_external_idempotency_key command)) (co_retry_policy_snapshot command) timestamp));
      attempt ← tx_lift (checked "OperationAttempt" OperationAttempt_valid
        ((new_attempt (co_attempt_id command) (co_operation_id command) (st_run_id state) 1
           (co_request_hash command) (co_side_effecting command) timestamp)
          ⟪ at_model_call_id := co_model_call_id command ⟫
          ⟪ at_external_request_id := co_external_request_id command ⟫));
      operation ← tx_lift (aggregate_operation operation [attempt] timestamp);
      mret (operation, attempt)
  end.

(** [next_retry_at] is set and [timestamp] is before it. *)
(* source: gateway/state_controller.py StateController._begin_operation_attempt *)
Definition retry_too_early (operation : OperationRecord) (timestamp : string) : res bool :=
  match op_next_retry_at operation with
  | Some t => if bool_decide (t = "") then mret false else
      now ← parse_iso timestamp; at_ ← parse_iso t; dt_lt now at_
  | None => mret false
  end.

(* source: gateway/state_controller.py StateController._begin_operation_attempt *)
Definition begin_operation_attempt (state : AgentState) (command : BeginOperationAttemptCommand)
    (timestamp : string) : Tx Db (OperationRecord * OperationAttempt) :=
  operation ← tx_read (operation_in (ba_operation_id command));
  attempts ← tx_read (attempts_in (op_operation_id operation));
  latest ← tx_lift (res_of_option (RuntimeError "list index out of range") (last attempts));
  reject (op_run_id operation ≠ st_run_id state
          ∨ op_request_hash operation ≠ ba_request_hash command)
    (StateConflictError "Attempt request_hash differs from its Logical Operation");;
  reject (at_attempt_no latest ≠ ba_expected_latest_attempt_no command)
    (StateConflictError "latest attempt CAS conflict");;
  reject (op_status operation ∈ [OS_COMPLETED; OS_SKIPPED])
    (StateInvariantError "a determined Operation takes no new Attempt");;
  reject (op_status operation = OS_FAILED ∧ op_failure_kind operation = Some FK_TERMINAL)
    (StateInvariantError "a TERMINAL Operation cannot be retried");;
  reject (at_status latest = OS_UNKNOWN
          ∧ at_recovery_resolution latest ≠ Some RR_RETRY_AUTHORIZED)
    (StateInvariantError "an UNKNOWN Attempt needs authorization before a new Attempt");;
  reject (rp_max_attempts (op_retry_policy_snapshot operation) ≤ Z.of_nat (length attempts))
    (StateInvariantError "Operation has reached max_attempts");;
  early ← tx_lift (retry_too_early operation timestamp);
  reject (early = true) (StateInvariantError "next_retry_at has not been reached");;
  attempt ← tx_lift (checked "OperationAttempt" OperationAttempt_valid
    ((new_attempt (ba_attempt_id command) (op_operation_id operation) (st_run_id state)
       (at_attempt_no latest + 1) (op_request_hash operation) (op_side_effecting operation)
       timestamp)
      ⟪ at_model_call_id := ba_model_call_id command ⟫
      ⟪ at_external_request_id := ba_external_request_id command ⟫
      ⟪ at_risk_confirmed_by := ba_risk_confirmed_by command ⟫
      ⟪ at_risk_confirmation_reason := ba_risk_confirmation_reason command ⟫));
  operation ← tx_lift (aggregate_operation operation (attempts ++ [attempt]) timestamp);
  mret (operation, attempt).

(** ** Reconciliation *)

(* source: gateway/state_controller.py StateController._reconcile_attempt *)
Definition set_common (r : ReconcileResult) (timestamp : string) (a : OperationAttempt) :
    OperationAttempt :=
  a ⟪ at_reconcile_status := Some (rr_status r) ⟫
    ⟪ at_reconcile_evidence := Some (sanitize_text (rr_evidence r)) ⟫
    ⟪ at_result_source := Some (rr_result_source r) ⟫
    ⟪ at_completed_at := Some timestamp ⟫.

(* source: gateway/state_controller.py StateController._reconcile_attempt *)
Definition set_result (observed : string) (a : OperationAttempt) : OperationAttempt :=
  a ⟪ at_result := Some (sanitize_text observed) ⟫ ⟪ at_result_hash := Some (sha256_hex observed) ⟫.

(* source: gateway/state_controller.py StateController._reconcile_attempt *)
Definition reconcile_attempt (state : AgentState) (attempt_id : string)
    (result : ReconcileResult) (timestamp : string) :
    Tx Db (OperationRecord * OperationAttempt) :=
  current ← tx_read (attempt_in attempt_id);
  let common := set_common result timestamp in
  let update := update_attempt state attempt_id timestamp in
  match rr_status result with
  | RS_COMPLETED =>
      let observed := str_or (rr_observed_result result) "" in
      if decide (at_status current = OS_UNKNOWN) then
        update [OS_UNKNOWN] (λ a, set_result observed
          ((common a) ⟪ at_recovery_resolution := Some RR_CONFIRMED_SUCCEEDED ⟫
             ⟪ at_completed_at := None ⟫))
      else
        update [OS_RUNNING; OS_UNKNOWN] (λ a, set_result observed
          ((common a) ⟪ at_status := OS_COMPLETED ⟫ ⟪ at_failure_kind := None ⟫
             ⟪ at_failure_reason := None ⟫ ⟪ at_recovery_resolution := None ⟫))
  | RS_NOT_APPLIED =>
      update [OS_RUNNING; OS_UNKNOWN] (λ a, (common a) ⟪ at_status := OS_FAILED ⟫
        ⟪ at_failure_kind := Some FK_RETRYABLE ⟫
        ⟪ at_failure_reason := Some "reconcile_not_applied" ⟫
        ⟪ at_recovery_resolution := None ⟫)
  | RS_FAILED =>
      let reason := sanitize_text (str_or (Some (rr_evidence result)) "reconcile_failed") in
      if decide (at_status current = OS_UNKNOWN) then
        update [OS_UNKNOWN] (λ a, (common a)
          ⟪ at_recovery_resolution := Some RR_CONFIRMED_FAILED ⟫
          ⟪ at_failure_reason := Some reason ⟫ ⟪ at_completed_at := None ⟫)
      else
        update [OS_RUNNING; OS_UNKNOWN] (λ a, (common a) ⟪ at_status := OS_FAILED ⟫
          ⟪ at_failure_kind := Some FK_TERMINAL ⟫ ⟪ at_failure_reason := Some reason ⟫
          ⟪ at_recovery_resolution := None ⟫)
  | RS_UNKNOWN =>
      update [OS_RUNNING; OS_UNKNOWN] (λ a, (common a) ⟪ at_status := OS_UNKNOWN ⟫
        ⟪ at_failure_kind := Some FK_UNKNOWN_EFFECT ⟫
        ⟪ at_failure_reason :=
            Some (sanitize_text (str_or (Some (rr_evidence result)) "reconcile_unknown")) ⟫
        ⟪ at_recovery_resolution := Some RR_UNRESOLVED ⟫ ⟪ at_completed_at := None ⟫)
  end.

(** ** Recovery decisions *)

(** [command.model_dump(mode="json")] of a recovery decision. *)
(* source: gateway/state_controller.py StateController._apply_recovery *)
Definition recovery_json (h : StateCommand) (c : RecoveryDecisionCommand) : json := JObj
  [("command_id", JStr (sc_command_id h)); ("event_key", JStr (sc_event_key h));
   ("causation_id", jopt (sc_causation_id h)); ("correlation_id", jopt (sc_correlation_id h));
   ("run_id", JStr (sc_run_id h)); ("expected_revision", JInt (sc_expected_revision h));
   ("gateway_epoch", JStr (sc_gateway_epoch h));
   ("action", JStr (RecoveryAction_value (rc_action c)));
   ("operation_id", jopt (rc_operation_id c)); ("actor", JStr (rc_actor c));
   ("reason", JStr (rc_reason c)); ("observed_result", jopt (rc_observed_result c));
   ("risk_confirmed", JBool (rc_risk_confirmed c))].

(** [last_recovery_decision] of the diagnostics. *)
(* source: gateway/state_controller.py StateController._apply_recovery *)
Definition recovery_diagnostic (state : AgentState) (c : RecoveryDecisionCommand)
    (timestamp : string) : list (string * json) :=
  dict_set "last_recovery_decision" (sanitize (JObj
    [("action", JStr (RecoveryAction_value (rc_action c))); ("actor", JStr (rc_actor c));
     ("reason", JStr (rc_reason c)); ("risk_confirmed", JBool (rc_risk_confirmed c));
     ("at", JStr timestamp)])) (st_diagnostics state).

(* source: gateway/state_controller.py StateController._apply_recovery *)
Definition set_risk (c : RecoveryDecisionCommand) (a : OperationAttempt) : OperationAttempt :=
  a ⟪ at_risk_confirmed_by := Some (rc_actor c) ⟫
    ⟪ at_risk_confirmation_reason := Some (sanitize_text (rc_reason c)) ⟫.

(** A human confirms that an unknown effect took place. *)
(* source: gateway/state_controller.py:3767-3782 StateController._apply_recovery *)
Definition recovery_confirm (state : AgentState) (c : RecoveryDecisionCommand)
    (operation : option OperationRecord) (attempt : option OperationAttempt)
    (timestamp : string) : Tx Db (OperationRecord * OperationAttempt) :=
  match operation, attempt with
  | Some _, Some a =>
      reject (at_status a ≠ OS_UNKNOWN)
        (StateInvariantError "only an unknown Operation can be confirmed");;
      let observed := str_or (rc_observed_result c) "" in
      update_attempt state (at_attempt_id a) timestamp [OS_UNKNOWN] (λ a, set_risk c
        ((set_result observed (a ⟪ at_recovery_resolution := Some RR_CONFIRMED_SUCCEEDED ⟫))
           ⟪ at_result_source := Some "human_confirmed" ⟫
           ⟪ at_reconcile_evidence :=
               Some ("actor=" +:+ rc_actor c +:+ "; reason=" +:+ rc_reason c) ⟫))
  | _, _ => tx_fail (StateInvariantError "only an unknown Operation can be confirmed")
  end.

(** The new attempt a retry begins. *)
(* source: gateway/state_controller.py StateController._apply_recovery *)
Definition retry_command (env : Env) (c : RecoveryDecisionCommand) (o : OperationRecord) :
    BeginOperationAttemptCommand :=
  mkBeginOperationAttemptCommand (op_operation_id o) (env_uuid env 1) (op_latest_attempt_no o)
    (op_request_hash o)
    (if decide (op_kind o = OK_MODEL) then Some (env_uuid env 2) else None)
    (if decide (op_kind o = OK_TOOL) then Some (env_uuid env 3) else None)
    (if rc_risk_confirmed c then Some (rc_actor c) else None)
    (if rc_risk_confirmed c then Some (rc_reason c) else None).

(* source: gateway/state_controller.py:3792-3831 StateController._apply_recovery *)
Definition recovery_retry (env : Env) (state : AgentState) (c : RecoveryDecisionCommand)
    (operation : option OperationRecord) (attempt : option OperationAttempt)
    (timestamp : string) : Tx Db (OperationRecord * OperationAttempt) :=
  match operation, attempt with
  | Some o, Some a =>
      reject (op_status o ∉ [OS_UNKNOWN; OS_FAILED])
        (StateInvariantError "only an unknown or failed Operation can be retried");;
      reject (op_idempotency o = TI_NON_IDEMPOTENT ∧ rc_risk_confirmed c = false)
        (StateInvariantError "retrying a NON_IDEMPOTENT Operation needs risk confirmation");;
      o ← (if decide (at_status a = OS_UNKNOWN) then
             '(o', a') ← update_attempt state (at_attempt_id a) timestamp [OS_UNKNOWN]
               (λ a, set_risk c (a ⟪ at_recovery_resolution := Some RR_RETRY_AUTHORIZED ⟫));
             save_attempt a';;
             save_operation o';;
             mret o'
           else mret o);
      command ← tx_lift (checked "BeginOperationAttemptCommand"
        BeginOperationAttemptCommand_valid (retry_command env c o));
      begin_operation_attempt state command timestamp
  | _, _ => tx_fail (StateInvariantError "only an unknown or failed Operation can be retried")
  end.

(* source: gateway/state_controller.py:3832-3853 StateController._apply_recovery *)
Definition recovery_fail (state : AgentState) (c : RecoveryDecisionCommand)
    (a : OperationAttempt) (timestamp : string) : Tx Db (OperationRecord * OperationAttempt) :=
  if decide (at_status a = OS_UNKNOWN) then
    update_attempt state (at_attempt_id a) timestamp [OS_UNKNOWN]
      (λ a, set_risk c (a ⟪ at_recovery_resolution := Some RR_CONFIRMED_FAILED ⟫))
  else
    update_attempt state (at_attempt_id a) timestamp [OS_PREPARED; OS_RUNNING]
      (λ a, a ⟪ at_status := OS_FAILED ⟫ ⟪ at_failure_kind := Some FK_TERMINAL ⟫
              ⟪ at_failure_reason := Some (sanitize_text (rc_reason c)) ⟫
              ⟪ at_completed_at := Some timestamp ⟫).

Definition some_pair {A B} (p : A * B) : option A * option B := (Some p.1, Some p.2).

(** The effect of the decision on the operation it names. *)
(* source: gateway/state_controller.py:3767-3855 StateController._apply_recovery *)
Definition recovery_effect (env : Env) (state : AgentState) (c : RecoveryDecisionCommand)
    (operation : option OperationRecord) (attempt : option OperationAttempt)
    (timestamp : string) : Tx Db (option OperationRecord * option OperationAttempt) :=
  match rc_action c with
  | RA_CONFIRM_SUCCEEDED =>
      p ← recovery_confirm state c operation attempt timestamp; mret (some_pair p)
  | RA_RETRY =>
      if decide (operation = None ∧ is_some (st_finalize_generation state) = true
                 ∧ st_task_state state = TS_RECOVERY_REQUIRED)
      then mret (operation, attempt)
      else p ← recovery_retry env state c operation attempt timestamp; mret (some_pair p)
  | RA_FAIL =>
      match operation, attempt with
      | Some _, Some a => p ← recovery_fail state c a timestamp; mret (some_pair p)
      | _, _ => mret (operation, attempt)
      end
  | RA_CANCEL => mret (operation, attempt)
  end.

(* source: gateway/state_controller.py:1782-1787 StateController.apply *)
Definition save_opt {A} (save : A → Tx Db unit) (o : option A) : Tx Db unit :=
  match o with Some a => save a | None => mret tt end.

(** [current_attempt_in] of an operation the command names, if it names one. *)
(* source: gateway/state_controller.py StateController._apply_recovery *)
Definition recovery_target (state : AgentState) (c : RecoveryDecisionCommand) :
    Tx Db (option OperationRecord * option OperationAttempt) :=
  if truthy (rc_operation_id c) then
    operation ← tx_read (operation_in (default "" (rc_operation_id c)));
    attempt ← tx_read (current_attempt_in (op_operation_id operation));
    reject (op_run_id operation ≠ st_run_id state)
      (StateInvariantError "Recovery Operation is not of this Run");;
    mret (Some operation, Some attempt)
  else mret (None, None).

(* source: gateway/state_controller.py StateController._apply_recovery *)
Definition apply_recovery (env : Env) (state : AgentState) (h : StateCommand)
    (c : RecoveryDecisionCommand) (timestamp : string) :
    Tx Db (AgentState * option OperationRecord * option OperationAttempt) :=
  target ← recovery_target state c;
  let diagnostic := recovery_diagnostic state c timestamp in
  after ← recovery_effect env state c target.1 target.2 timestamp;
  let state := if decide (rc_action c = RA_CANCEL)
               then state ⟪ st_cancellation_requested := true ⟫ else state in
  save_opt save_operation after.1;;
  save_opt save_attempt after.2;;
  insert_decision (env_uuid env 0) (mkDecisionRow (sc_command_id h) (st_run_id state)
    (op_operation_id <$> after.1) (at_attempt_id <$> after.2) (rc_action c) (rc_actor c)
    (sanitize_text (rc_reason c)) (sanitize (recovery_json h c)) timestamp);;
  mret (state ⟪ st_diagnostics := diagnostic ⟫ ⟪ st_last_progress_at := timestamp ⟫,
        after.1, after.2).
