(* ===== verification/FinalizeOps.v ===== *)
(** * FinalizeOps: committing the proof of FINALIZING

    The methods of StateController that check a finalize evidence, that write
    the audit receipt and the inbox item together with the completed attempt
    that records their evidence, and that check the four evidences before a
    terminal state is committed (gateway/state_controller.py). *)

From S2P Require Import Prelude PyText AgentTypes AgentState Sanitizer Commands.
From S2P Require Import OperationReduce FinalizeEvidence Store Operations.

#[local] Open Scope Z_scope.

(* source: gateway/state_controller.py _finalize_operation_kind *)
Definition finalize_operation_kind (step : FinalizeStep) : OperationKind :=
  match step with
  | FS_MEMORY => OK_MEMORY | FS_SESSION_INDEX => OK_SESSION_INDEX
  | FS_AUDIT => OK_AUDIT | FS_INBOX => OK_INBOX
  end.

(** The canonical, sanitized JSON of a value and its hash. *)
(* source: gateway/state_controller.py StateController._canonical_hash *)
Definition canonical_hash (value : json) : string := sha256_hex (json_dumps (sanitize value)).

(* source: gateway/state_controller.py StateController._validate_finalize_evidence *)
Definition validate_finalize_evidence (state : AgentState) (operation : OperationRecord)
    (attempt : OperationAttempt) (result result_hash : string) : res FinalizeStepEvidence :=
  match verify result result_hash with
  | Err _ => Err (StateInvariantError "Invalid Finalize Evidence")
  | Ok evidence =>
      let h := evidence_head evidence in
      if decide (ev_run_id h ≠ st_run_id state)
      then Err (StateInvariantError "Finalize Evidence run mismatch")
      else if decide (Some (ev_generation h) ≠ st_finalize_generation state)
      then Err (StateInvariantError "Finalize Evidence generation mismatch")
      else if decide (ev_operation_id h ≠ op_operation_id operation)
      then Err (StateInvariantError "Finalize Evidence operation mismatch")
      else if decide (ev_attempt_id h ≠ at_attempt_id attempt)
      then Err (StateInvariantError "Finalize Evidence attempt mismatch")
      else
        expected ← for_step state (ev_generation h) (ev_step h);
        if decide (op_stable_key operation ≠ id_stable_key expected
                   ∨ op_request_hash operation ≠ id_request_hash expected)
        then Err (StateInvariantError "Finalize Evidence identity mismatch")
        else match validate_requirement state evidence with
             | Err _ => Err (StateInvariantError "Finalize requirement violated")
             | Ok _ => mret evidence
             end
  end.

(* source: gateway/state_controller.py StateController._completed_sqlite_finalize_operation *)
Definition completed_sqlite_finalize_operation (state : AgentState)
    (operation_id attempt_id stable_key request_hash : string) (kind : OperationKind)
    (name evidence_json evidence_hash timestamp : string) :
    res (OperationRecord * OperationAttempt) :=
  operation ← checked "OperationRecord" OperationRecord_valid
    (new_operation (mkImmutableOperationMetadata operation_id None (st_run_id state)
       (st_turn_id state) kind name stable_key request_hash TI_IDEMPOTENT false
       None None None None None None) no_retry_policy timestamp);
  attempt ← checked "OperationAttempt" OperationAttempt_valid
    ((new_attempt attempt_id operation_id (st_run_id state) 1 request_hash false timestamp)
       ⟪ at_status := OS_COMPLETED ⟫ ⟪ at_result := Some evidence_json ⟫
       ⟪ at_result_hash := Some evidence_hash ⟫
       ⟪ at_result_source := Some "sqlite_transaction" ⟫
       ⟪ at_started_at := Some timestamp ⟫ ⟪ at_completed_at := Some timestamp ⟫);
  operation ← aggregate_operation operation [attempt] timestamp;
  mret (operation, attempt).

(** Is the command's identity the one of the step? *)
(* source: gateway/state_controller.py StateController._validate_finalize_evidence *)
Definition identity_matches (i : FinalizeOperationIdentity)
    (operation_id stable_key request_hash : string) : bool :=
  bool_decide (operation_id = id_operation_id i) && bool_decide (stable_key = id_stable_key i)
  && bool_decide (request_hash = id_request_hash i).

(** The receipt of an audit command: canonical and sanitized JSON with its hash,
    which the evidence of the command references.  A receipt that holds a NaN or
    an infinity cannot be printed again: [ValueError], before any comparison. *)
(* source: gateway/state_controller.py:3986-4007 StateController._finalize_audit *)
Definition check_audit_receipt (command : FinalizeAuditCommand) :
    res (EncodedFinalizeEvidence * VerifiedArtifactEvidence) :=
  receipt_value ← res_of_option (StateInvariantError "Audit receipt is not valid JSON")
    (json_loads (fa_receipt_json command));
  canonical_receipt ← json_dumps_finite (sanitize receipt_value);
  if decide (canonical_receipt ≠ fa_receipt_json command)
  then Err (StateInvariantError "Audit receipt is not canonical or sanitized")
  else if decide (sha256_hex (fa_receipt_json command) ≠ fa_receipt_hash command)
  then Err (StateInvariantError "Audit receipt hash mismatch")
  else
    decoded ← decode (fa_evidence_json command);
    encoded ← encode decoded;
    if decide (en_result_hash encoded ≠ fa_evidence_hash command)
    then Err (StateInvariantError "Audit Evidence hash mismatch")
    else
      evidence ← res_of_option (StateInvariantError "Audit Evidence must be verified")
        (as_verified (en_value encoded));
      if decide (ev_step (ve_head evidence) ≠ FS_AUDIT
                 ∨ ve_artifact_hash evidence ≠ fa_receipt_hash command)
      then Err (StateInvariantError "Audit Evidence does not reference the receipt")
      else if decide (fr_receipt_id (ve_references evidence) ≠ Some (fa_receipt_id command))
      then Err (StateInvariantError "Audit Evidence receipt_id mismatch")
      else mret (encoded, evidence).

(** The receipt row is inserted once; a later command must repeat it. *)
(* source: gateway/state_controller.py:4008-4023 StateController._finalize_audit *)
Definition put_receipt (receipt_id : string) (row : ReceiptRow) : Tx Db unit :=
  db ← tx_gets (λ db, db);
  match db_receipts db !! receipt_id with
  | None => insert_receipt receipt_id row
  | Some existing =>
      reject (existing ≠ row) (StateConflictError "Immutable audit receipt content conflict")
  end.

(* source: gateway/state_controller.py StateController._finalize_audit *)
Definition finalize_audit (state : AgentState) (command : FinalizeAuditCommand)
    (timestamp : string) : Tx Db (OperationRecord * OperationAttempt) :=
  reject (st_task_state state ≠ TS_FINALIZING
          ∨ st_finalize_generation state ≠ Some (fa_generation command))
    (StateInvariantError "Audit receipt requires the current FINALIZING generation");;
  identity ← tx_lift (for_step state (fa_generation command) FS_AUDIT);
  require (identity_matches identity (fa_operation_id command) (fa_stable_key command)
             (fa_request_hash command) = true)
    (StateInvariantError "Audit finalize identity mismatch");;
  checked_receipt ← tx_lift (check_audit_receipt command);
  let encoded := checked_receipt.1 in
  put_receipt (fa_receipt_id command) (mkReceiptRow (st_run_id state) (fa_generation command)
    (fa_receipt_generation command) (fa_receipt_json command) (fa_receipt_hash command) timestamp);;
  set_current_receipt (st_run_id state) (fa_receipt_id command) timestamp;;
  p ← tx_lift (completed_sqlite_finalize_operation state (fa_operation_id command)
    (fa_attempt_id command) (fa_stable_key command) (fa_request_hash command) OK_AUDIT
    "finalize_audit" (en_serialized encoded) (en_result_hash encoded) timestamp);
  tx_lift (validate_finalize_evidence state p.1 p.2 (en_serialized encoded)
    (en_result_hash encoded));;
  mret p.

(** The row a run's inbox item is hashed on. *)
(* source: gateway/state_controller.py StateController._finalize_inbox *)
Definition inbox_json (item_id : string) (r : InboxRow) : json := JObj
  [("item_id", JStr item_id); ("run_id", JStr (br_run_id r)); ("project_id", JStr (br_project_id r));
   ("session_id", jopt (br_session_id r)); ("title", JStr (br_title r));
   ("summary", JStr (br_summary r)); ("status", JStr (br_status r));
   ("created_at", JStr (br_created_at r))].

(* source: gateway/state_controller.py StateController._finalize_inbox *)
Definition inbox_item_id (run_id : string) : string :=
  py_take 32 (sha256_hex (run_id +:+ ":finalize:v2:inbox")).

(** The deterministic inbox item of a Run: created once, and never different. *)
(* source: gateway/state_controller.py:4056-4081 StateController._finalize_inbox *)
Definition put_inbox (state : AgentState) (command : FinalizeInboxCommand) (timestamp : string) :
    Tx Db InboxRow :=
  let item_id := inbox_item_id (st_run_id state) in
  let wanted created_at := mkInboxRow (st_run_id state) (st_project_id state)
    (st_session_id state) (py_take 120 (fi_title command)) (sanitize_text (fi_summary command))
    (fi_status command) created_at false in
  db ← tx_gets (λ db, db);
  match db_inbox db !! item_id with
  | None => insert_inbox item_id (wanted timestamp);; mret (wanted timestamp)
  | Some existing =>
      let expected := wanted (br_created_at existing) in
      reject (br_run_id existing ≠ br_run_id expected
              ∨ br_project_id existing ≠ br_project_id expected
              ∨ br_session_id existing ≠ br_session_id expected
              ∨ br_title existing ≠ br_title expected
              ∨ br_summary existing ≠ br_summary expected
              ∨ br_status existing ≠ br_status expected)
        (StateConflictError "Deterministic Inbox item content conflict");;
      mret expected
  end.

(* source: gateway/state_controller.py StateController._finalize_inbox *)
Definition finalize_inbox (state : AgentState) (command : FinalizeInboxCommand)
    (timestamp : string) : Tx Db (OperationRecord * OperationAttempt) :=
  reject (st_task_state state ≠ TS_FINALIZING
          ∨ st_finalize_generation state ≠ Some (fi_generation command))
    (StateInvariantError "Inbox requires the current FINALIZING generation");;
  identity ← tx_lift (for_step state (fi_generation command) FS_INBOX);
  require (identity_matches identity (fi_operation_id command) (fi_stable_key command)
             (fi_request_hash command) = true)
    (StateInvariantError "Inbox finalize identity mismatch");;
  let item_id := inbox_item_id (st_run_id state) in
  expected ← put_inbox state command timestamp;
  _ ← tx_lift (checked "OperationAttempt" OperationAttempt_valid
    (new_attempt (fi_attempt_id command) (fi_operation_id command) (st_run_id state) 1
       (fi_request_hash command) false timestamp));
  evidence ← tx_lift (checked "VerifiedArtifactEvidence" (λ v, Evidence_valid (Verified v))
    (mkVerified (mkEvidenceHead FS_INBOX (st_run_id state) (fi_generation command)
       (fi_operation_id command) (fi_attempt_id command)) "gateway_inbox_row" item_id
       (canonical_hash (inbox_json item_id expected)) "sqlite_row_canonical_hash"
       (no_references ⟪ fr_inbox_item_id := Some item_id ⟫)));
  encoded ← tx_lift (encode (Verified evidence));
  p ← tx_lift (completed_sqlite_finalize_operation state (fi_operation_id command)
    (fi_attempt_id command) (fi_stable_key command) (fi_request_hash command) OK_INBOX
    "finalize_inbox" (en_serialized encoded) (en_result_hash encoded) timestamp);
  tx_lift (validate_finalize_evidence state p.1 p.2 (en_serialized encoded)
    (en_result_hash encoded));;
  mret p.

(** ** Before the terminal state *)

(** The completed operation of a step, its attempt and its verified evidence. *)
(* source: gateway/state_controller.py:4129-4147 StateController._validate_terminal_finalize *)
Definition step_evidence (state : AgentState) (generation : Z) (step : FinalizeStep) (db : Db) :
    res (FinalizeStepEvidence * OperationAttempt) :=
  identity ← for_step state generation step;
  row ← res_of_option (StateInvariantError "Missing Finalize Evidence")
    (operation_by_key (st_run_id state) (finalize_operation_kind step) (id_stable_key identity) db);
  operation ← checked "OperationRecord" OperationRecord_valid (or_body row);
  if decide (op_operation_id operation ≠ id_operation_id identity
             ∨ op_status operation ≠ OS_COMPLETED)
  then Err (StateInvariantError "Finalize Operation is not completed")
  else
    attempt ← current_attempt_in (op_operation_id operation) db;
    if negb (truthy (at_result attempt) && truthy (at_result_hash attempt))
    then Err (StateInvariantError "Finalize Attempt lacks Evidence")
    else
      evidence ← validate_finalize_evidence state operation attempt
        (default "" (at_result attempt)) (default "" (at_result_hash attempt));
      mret (evidence, attempt).

(** Session index evidence points at the memory attempt. *)
(* source: gateway/state_controller.py StateController._validate_terminal_finalize *)
Definition index_references_memory (index : FinalizeStepEvidence) (memory : OperationAttempt) : bool :=
  match index with
  | Verified v =>
      bool_decide (fr_memory_attempt_id (ve_references v) = Some (at_attempt_id memory))
      && bool_decide (fr_memory_result_hash (ve_references v) = at_result_hash memory)
  | NotApplicable _ => true
  end.

(** The current receipt of the run is the one the audit evidence names, and the
    audit evidence names the memory and the index attempts. *)
(* source: gateway/state_controller.py:4156-4174 StateController._validate_terminal_finalize *)
Definition audit_matches_receipt (state : AgentState) (generation : Z)
    (audit : FinalizeStepEvidence) (memory index : OperationAttempt) (db : Db) : bool :=
  match db_current_receipt db !! st_run_id state, audit with
  | Some current, Verified v =>
      match db_receipts db !! kr_receipt_id current with
      | Some r =>
          bool_decide (cr_finalize_generation r = generation)
          && bool_decide (fr_receipt_id (ve_references v) = Some (kr_receipt_id current))
          && bool_decide (ve_artifact_hash v = cr_receipt_hash r)
          && bool_decide (fr_memory_attempt_id (ve_references v) = Some (at_attempt_id memory))
          && bool_decide (fr_memory_result_hash (ve_references v) = at_result_hash memory)
          && bool_decide (fr_session_index_attempt_id (ve_references v) = Some (at_attempt_id index))
          && bool_decide (fr_session_index_result_hash (ve_references v) = at_result_hash index)
      | None => false
      end
  | _, _ => false
  end.

(* source: gateway/state_controller.py:4175-4191 StateController._validate_terminal_finalize *)
Definition check_inbox_evidence (inbox : FinalizeStepEvidence) (db : Db) : res unit :=
  match inbox with
  | Verified v =>
      if negb (truthy (fr_inbox_item_id (ve_references v)))
      then Err (StateInvariantError "Inbox Evidence is not verified") else
      let item_id := default "" (fr_inbox_item_id (ve_references v)) in
      row ← res_of_option (StateInvariantError "Inbox Evidence row is missing")
        (db_inbox db !! item_id);
      if decide (canonical_hash (inbox_json item_id row) ≠ ve_artifact_hash v)
      then Err (StateInvariantError "Inbox Evidence row hash mismatch") else mret tt
  | NotApplicable _ => Err (StateInvariantError "Inbox Evidence is not verified")
  end.

(* source: gateway/state_controller.py StateController._validate_terminal_finalize *)
Definition validate_terminal_finalize (state : AgentState) (generation : Z) (db : Db) : res unit :=
  if decide (st_finalize_generation state ≠ Some generation)
  then Err (StateInvariantError "FinalizeTerminalCommand generation mismatch")
  else if negb (is_some (db_generations db !! (st_run_id state, generation)))
  then Err (StateInvariantError "Current finalize generation is missing")
  else if invalidated (st_run_id state) generation db
  then Err (StateInvariantError "Current finalize generation has been invalidated")
  else
    memory ← step_evidence state generation FS_MEMORY db;
    index ← step_evidence state generation FS_SESSION_INDEX db;
    audit ← step_evidence state generation FS_AUDIT db;
    inbox ← step_evidence state generation FS_INBOX db;
    if negb (index_references_memory index.1 memory.2)
    then Err (StateInvariantError "Session Index Evidence does not reference Memory Evidence")
    else if negb (audit_matches_receipt state generation audit.1 memory.2 index.2 db)
    then Err (StateInvariantError "Current audit receipt does not match Audit Evidence")
    else check_inbox_evidence inbox.1 db.
