(* ===== verification/Controller.v ===== *)
(** * Controller: StateController.apply and the creation of Runs

    [apply] is one transaction: it replays a processed command, checks the
    revision and the fencing epoch, runs the handler of the command, saves the
    records the handler returns, commits the new state by compare-and-set,
    appends the event and remembers the result. *)

From S2P Require Import Prelude PyText PyTime AgentTypes AgentState Sanitizer Commands.
From S2P Require Import OperationReduce FinalizeEvidence Store Events Operations FinalizeOps.

#[local] Open Scope Z_scope.

(** The controller object: its epoch and pydantic's [model_dump_json] of a
    command, which the source only calls. *)
Record Config := mkConfig {
  cf_gateway_epoch : string;
  cf_dump : Command → string
}.

(** The local variables of [apply] after the handler: the new state, the
    records to save, and whether a transition row is due. *)
Record Outcome := mkOutcome {
  oc_state : AgentState;
  oc_operation : option OperationRecord;
  oc_attempt : option OperationAttempt;
  oc_approval : option DurableApproval;
  oc_transition : bool
}.
Definition just (s : AgentState) : Outcome := mkOutcome s None None None false.
Definition moved (s : AgentState) : Outcome := mkOutcome s None None None true.
Definition with_attempt (s : AgentState) (p : OperationRecord * OperationAttempt) : Outcome :=
  mkOutcome s (Some p.1) (Some p.2) None false.

(** ** FSM transitions *)

(* source: gateway/state_controller.py StateController._validate_terminal_mapping *)
Definition validate_terminal_mapping (s : AgentState) : res unit :=
  if decide (st_task_state s ∉ [TS_SUCCEEDED; TS_FAILED; TS_CANCELLED]) then mret tt else
  match st_execution s with
  | None => mret tt
  | Some e =>
      let expected := match ex_outcome e with
        | Some EO_SUCCESS => Some TS_SUCCEEDED
        | Some EO_ERROR | Some EO_EXHAUSTED => Some TS_FAILED
        | Some EO_CANCELLED => Some TS_CANCELLED
        | None => None
        end in
      if decide (expected = Some (st_task_state s)) then mret tt
      else Err (StateInvariantError "FINISHED outcome cannot be projected to the task state")
  end.

(** The outer half of a transition. *)
(* source: gateway/state_controller.py:3452-3465 StateController._apply_transition *)
Definition move_task (state : AgentState) (c : TransitionCommand) (timestamp : string) :
    res AgentState :=
  match tc_task_state c with
  | None => mret state
  | Some t =>
      validate_outer_transition (st_task_state state) t;;
      let s1 := state ⟪ st_task_state := t ⟫ in
      let s2 := if decide (t = TS_RUNNING ∧ st_started_at state = None)
                then s1 ⟪ st_started_at := Some timestamp ⟫ else s1 in
      s3 ← (if decide (t = TS_FINALIZING) then
              match (match tc_terminal_target c with
                     | Some x => Some x | None => st_terminal_target state end) with
              | None => Err (StateInvariantError "entering FINALIZING needs terminal_target")
              | Some target => mret (s2 ⟪ st_terminal_target := Some target ⟫)
              end
            else mret (match tc_terminal_target c with
                       | Some x => s2 ⟪ st_terminal_target := Some x ⟫ | None => s2 end));
      mret (if decide (t ∈ [TS_SUCCEEDED; TS_FAILED; TS_CANCELLED; TS_INTERRUPTED])
            then s3 ⟪ st_finished_at := Some timestamp ⟫ else s3)
  end.

(** The inner half. *)
(* source: gateway/state_controller.py:3466-3477 StateController._apply_transition *)
Definition move_execution (before state : AgentState) (c : TransitionCommand)
    (timestamp : string) : res AgentState :=
  match tc_execution_state c with
  | None => mret state
  | Some e =>
      match st_execution before with
      | None => if decide (e = ES_THINKING) then mret tt
                else Err (StateInvariantError "the inner FSM starts at THINKING")
      | Some x => validate_inner_transition (ex_state x) e
      end;;
      snapshot ← checked "ExecutionSnapshot" validate_finished
        (mkExecutionSnapshot e (tc_outcome c) (tc_finish_reason c) timestamp);
      mret (state ⟪ st_execution := Some snapshot ⟫)
  end.

(* source: gateway/state_controller.py StateController._apply_transition *)
Definition apply_transition (state : AgentState) (c : TransitionCommand) (timestamp : string) :
    res AgentState :=
  s1 ← move_task state c timestamp;
  s2 ← move_execution state s1 c timestamp;
  let s3 := match tc_error c with
            | Some e => s2 ⟪ st_error := Some (sanitize_text e) ⟫ | None => s2 end in
  let s4 := match tc_result_summary c with
            | Some r => s3 ⟪ st_result_summary := Some r ⟫ | None => s3 end in
  let selected := s4 ⟪ st_last_progress_at := timestamp ⟫ in
  validate_terminal_mapping selected;;
  mret selected.

(** ** Handlers of the Run itself *)

(* source: gateway/state_controller.py:1367-1374 StateController.apply *)
Definition adopt_epoch (cfg : Config) (state : AgentState) (previous timestamp : string) : Outcome :=
  just (state ⟪ st_gateway_epoch := cf_gateway_epoch cfg ⟫
              ⟪ st_diagnostics := dict_set "last_epoch_adoption"
                  (JObj [("from", JStr previous); ("at", JStr timestamp)])
                  (st_diagnostics state) ⟫).

(* source: gateway/state_controller.py:1375-1383 StateController.apply *)
Definition handle_transition (state : AgentState) (c : TransitionCommand) (timestamp : string) :
    res Outcome :=
  if decide (tc_task_state c ∈ [Some TS_SUCCEEDED; Some TS_FAILED; Some TS_CANCELLED])
  then Err (StateInvariantError "a normal terminal state is committed by FinalizeTerminalCommand")
  else s ← apply_transition state c timestamp; mret (moved s).

(* source: gateway/state_controller.py:1384-1396 StateController.apply *)
Definition update_metadata (state : AgentState) (c : UpdateStateMetadataCommand) : Outcome :=
  just (state
    ⟪ st_model_attempt := default (st_model_attempt state) (um_model_attempt c) ⟫
    ⟪ st_recovery_attempt := default (st_recovery_attempt state) (um_recovery_attempt c) ⟫
    ⟪ st_input_tokens := default (st_input_tokens state) (um_input_tokens c) ⟫
    ⟪ st_output_tokens := default (st_output_tokens state) (um_output_tokens c) ⟫
    ⟪ st_last_progress_at := default (st_last_progress_at state) (um_last_progress_at c) ⟫
    ⟪ st_diagnostics := match um_diagnostics c with
                        | Some d => dict_update (st_diagnostics state) (sanitize_dict d)
                        | None => st_diagnostics state
                        end ⟫).

(* source: gateway/state_controller.py:1400-1403 StateController.apply *)
Definition bind_session (state : AgentState) (session_id : string) : res Outcome :=
  if decide (is_some (st_session_id state) = true ∧ st_session_id state ≠ Some session_id)
  then Err (StateConflictError "Run is bound to another Session")
  else mret (just (state ⟪ st_session_id := Some session_id ⟫)).

(* source: gateway/state_controller.py:1404-1413 StateController.apply *)
Definition upgrade_persistence (state : AgentState) : res Outcome :=
  if decide (st_task_state state ∈ TS_FINALIZING :: TERMINAL_STATES)
  then Err (StateInvariantError "Persistence contract must be fixed before FINALIZING")
  else if decide (st_persistence_contract state ≠ PC_CONTROL_ONLY) then
    if decide (st_persistence_contract state ≠ PC_SESSION_BACKED_WORKLOAD)
    then Err (StateConflictError "Persistence contract cannot be replaced or downgraded")
    else mret (just state)
  else mret (just (state ⟪ st_persistence_contract := PC_SESSION_BACKED_WORKLOAD ⟫)).

(** ** Finalize generations *)

(* source: gateway/state_controller.py:1414-1436 StateController.apply *)
Definition start_replacement (state : AgentState) (generation invalidated_generation : Z)
    (timestamp : string) : Tx Db Outcome :=
  match st_terminal_target state with
  | Some target =>
      reject (st_task_state state ≠ TS_FINALIZING)
        (StateInvariantError "Replacement finalize generation requires FINALIZING");;
      reject (st_finalize_generation state ≠ Some invalidated_generation)
        (StateConflictError "Finalize generation changed before replacement");;
      reject (generation ≠ invalidated_generation + 1)
        (StateInvariantError "Finalize generation must increase by exactly one");;
      inv ← tx_gets (invalidated (st_run_id state) invalidated_generation);
      require (inv = true) (StateInvariantError "Replacement requires a durable invalidation");;
      record ← tx_lift (checked "FinalizeGenerationRecord" FinalizeGenerationRecord_valid
        (mkFinalizeGenerationRecord (st_run_id state) generation target
           (st_persistence_contract state) timestamp (Some invalidated_generation)));
      insert_finalize_generation record;;
      mret (just (state ⟪ st_finalize_generation := Some generation ⟫))
  | None => tx_fail (StateInvariantError "Replacement finalize generation requires FINALIZING")
  end.

(* source: gateway/state_controller.py:1437-1453 StateController.apply *)
Definition start_finalize (state : AgentState) (generation : Z) (supersedes : option Z)
    (timestamp : string) : Tx Db Outcome :=
  match st_terminal_target state with
  | Some target =>
      reject (st_task_state state ≠ TS_FINALIZING)
        (StateInvariantError "Finalize generation requires FINALIZING");;
      match st_finalize_generation state with
      | None =>
          reject (generation ≠ 1 ∨ supersedes ≠ None)
            (StateInvariantError "First finalize generation must be generation 1");;
          record ← tx_lift (checked "FinalizeGenerationRecord" FinalizeGenerationRecord_valid
            (mkFinalizeGenerationRecord (st_run_id state) 1 target
               (st_persistence_contract state) timestamp None));
          insert_finalize_generation record;;
          mret (just (state ⟪ st_finalize_generation := Some 1 ⟫))
      | Some g =>
          reject (g ≠ generation) (StateConflictError "Finalize generation already exists");;
          mret (just state)
      end
  | None => tx_fail (StateInvariantError "Finalize generation requires FINALIZING")
  end.

(* source: gateway/state_controller.py:1454-1464 StateController.apply *)
Definition invalidate_generation (env : Env) (h : StateCommand) (state : AgentState)
    (generation : Z) (reason timestamp : string) : Tx Db Outcome :=
  reject (st_finalize_generation state ≠ Some generation)
    (StateConflictError "Only the current finalize generation can be invalidated");;
  insert_invalidation (env_uuid env 0) (mkInvalidationRow (sc_command_id h) (st_run_id state)
    generation (sanitize_text reason) timestamp);;
  mret (just state).

(* source: gateway/state_controller.py:1469-1483 StateController.apply *)
Definition finalize_terminal (state : AgentState) (generation : Z) (reason timestamp : string) :
    Tx Db Outcome :=
  match st_terminal_target state with
  | Some target =>
      reject (st_task_state state ≠ TS_FINALIZING)
        (StateInvariantError "FinalizeTerminalCommand needs FINALIZING and terminal_target");;
      tx_read (validate_terminal_finalize state generation);;
      let c := mkTransitionCommand (Some (TaskState_of_target target)) None None None None
                 reason None None in
      s ← tx_lift (apply_transition state c timestamp);
      mret (moved s)
  | None => tx_fail (StateInvariantError "FinalizeTerminalCommand needs FINALIZING and terminal_target")
  end.

(** ** Handlers of operations *)

(* source: gateway/state_controller.py:1484-1493 StateController.apply *)
Definition handle_create_operation (state : AgentState) (c : CreateOperationWithAttemptCommand)
    (timestamp : string) : Tx Db Outcome :=
  p ← create_operation_with_attempt state c timestamp;
  let s1 := state ⟪ st_current_operation_id := Some (op_operation_id p.1) ⟫
                  ⟪ st_current_attempt_id := Some (at_attempt_id p.2) ⟫
                  ⟪ st_turn_id := opt_str_or (co_turn_id c) (st_turn_id state) ⟫ in
  let s2 := if decide (co_kind c = OK_MODEL)
            then s1 ⟪ st_model_call_id := at_model_call_id p.2 ⟫ else s1 in
  let s3 := if decide (co_kind c = OK_TOOL)
            then s2 ⟪ st_tool_call_id := opt_str_or (co_tool_call_id c)
                        (Some (op_operation_id p.1)) ⟫ else s2 in
  mret (with_attempt s3 p).

(* source: gateway/state_controller.py:1494-1500 StateController.apply *)
Definition handle_begin_attempt (state : AgentState) (c : BeginOperationAttemptCommand)
    (timestamp : string) : Tx Db Outcome :=
  p ← begin_operation_attempt state c timestamp;
  let s1 := state ⟪ st_current_operation_id := Some (op_operation_id p.1) ⟫
                  ⟪ st_current_attempt_id := Some (at_attempt_id p.2) ⟫ in
  let s2 := if decide (op_kind p.1 = OK_MODEL)
            then s1 ⟪ st_model_call_id := at_model_call_id p.2 ⟫ else s1 in
  mret (with_attempt s2 p).

(** The updates the attempt commands and their operation-level twins share. *)
(* source: gateway/state_controller.py:1505-1506 StateController.apply *)
Definition set_running (timestamp : string) (expires : option string) (a : OperationAttempt) :
    OperationAttempt :=
  a ⟪ at_status := OS_RUNNING ⟫ ⟪ at_started_at := Some timestamp ⟫
    ⟪ at_heartbeat_at := Some timestamp ⟫ ⟪ at_heartbeat_expires_at := expires ⟫.
(* source: gateway/state_controller.py:1527-1531 StateController.apply *)
Definition set_completed (timestamp result result_hash result_source : string)
    (a : OperationAttempt) : OperationAttempt :=
  a ⟪ at_status := OS_COMPLETED ⟫ ⟪ at_failure_kind := None ⟫ ⟪ at_failure_reason := None ⟫
    ⟪ at_recovery_resolution := None ⟫ ⟪ at_result := Some (sanitize_text result) ⟫
    ⟪ at_result_hash := Some result_hash ⟫ ⟪ at_result_source := Some result_source ⟫
    ⟪ at_completed_at := Some timestamp ⟫.
(* source: gateway/state_controller.py:1538-1540 StateController.apply *)
Definition set_failed (timestamp : string) (kind : OperationFailureKind) (reason : string)
    (a : OperationAttempt) : OperationAttempt :=
  a ⟪ at_status := OS_FAILED ⟫ ⟪ at_failure_kind := Some kind ⟫
    ⟪ at_failure_reason := Some (sanitize_text reason) ⟫ ⟪ at_completed_at := Some timestamp ⟫.
(* source: gateway/state_controller.py:1548-1551 StateController.apply *)
Definition set_unknown (reason : string) (a : OperationAttempt) : OperationAttempt :=
  a ⟪ at_status := OS_UNKNOWN ⟫ ⟪ at_failure_kind := Some FK_UNKNOWN_EFFECT ⟫
    ⟪ at_failure_reason := Some (sanitize_text reason) ⟫
    ⟪ at_recovery_resolution := Some RR_UNRESOLVED ⟫.
(* source: gateway/state_controller.py:1558-1560 StateController.apply *)
Definition set_skipped (timestamp reason : string) (a : OperationAttempt) : OperationAttempt :=
  a ⟪ at_status := OS_SKIPPED ⟫ ⟪ at_result_source := Some "NOT_EXECUTED" ⟫
    ⟪ at_skip_reason := Some reason ⟫ ⟪ at_completed_at := Some timestamp ⟫.
(* source: gateway/state_controller.py:1566-1568 StateController.apply *)
Definition set_abandoned (timestamp reason : string) (a : OperationAttempt) : OperationAttempt :=
  a ⟪ at_status := OS_ABANDONED ⟫ ⟪ at_abandonment_reason := Some (sanitize_text reason) ⟫
    ⟪ at_completed_at := Some timestamp ⟫.
(* source: gateway/state_controller.py:1574-1575 StateController.apply *)
Definition set_heartbeat (at_ expires : string) (a : OperationAttempt) : OperationAttempt :=
  a ⟪ at_heartbeat_at := Some at_ ⟫ ⟪ at_heartbeat_expires_at := Some expires ⟫.

Definition progressed (timestamp : string) (s : AgentState) : AgentState :=
  s ⟪ st_last_progress_at := timestamp ⟫.

(** A completed finalize attempt must carry valid evidence. *)
(* source: gateway/state_controller.py:1513-1523 StateController.apply *)
Definition guard_finalize_completion (state : AgentState) (attempt_id result result_hash : string) :
    Tx Db unit :=
  selected_attempt ← tx_read (attempt_in attempt_id);
  selected_operation ← tx_read (operation_in (at_operation_id selected_attempt));
  if startswith "finalize:v2:" (op_stable_key selected_operation) then
    reject (at_status selected_attempt ≠ OS_RUNNING)
      (StateInvariantError "Finalize file Attempt must be RUNNING before completion");;
    tx_lift (validate_finalize_evidence state selected_operation selected_attempt
      result result_hash);;
    mret tt
  else mret tt.

(** The commands that name an attempt. *)
(* source: gateway/state_controller.py:1501-1579 StateController.apply *)
Definition handle_attempt (state : AgentState) (b : CommandBody) (timestamp : string) :
    Tx Db Outcome :=
  let update id allowed f := update_attempt state id timestamp allowed f in
  match b with
  | StartOperationAttempt id expires =>
      p ← update id [OS_PREPARED] (set_running timestamp expires);
      mret (with_attempt (state ⟪ st_current_operation_id := Some (op_operation_id p.1) ⟫
        ⟪ st_current_attempt_id := Some (at_attempt_id p.2) ⟫
        ⟪ st_operation_started_at := Some timestamp ⟫
        ⟪ st_operation_heartbeat_at := Some timestamp ⟫
        ⟪ st_last_progress_at := timestamp ⟫) p)
  | CompleteOperationAttempt id result hash source =>
      guard_finalize_completion state id result hash;;
      p ← update id [OS_RUNNING; OS_UNKNOWN] (set_completed timestamp result hash source);
      mret (with_attempt (progressed timestamp state) p)
  | FailOperationAttempt id kind reason =>
      p ← update id [OS_PREPARED; OS_RUNNING] (set_failed timestamp kind reason);
      mret (with_attempt (progressed timestamp state) p)
  | MarkOperationAttemptUnknown id reason =>
      p ← update id [OS_RUNNING] (set_unknown reason);
      mret (with_attempt (state ⟪ st_recovery_reason := at_failure_reason p.2 ⟫) p)
  | SkipOperationAttempt id reason =>
      p ← update id [OS_PREPARED] (set_skipped timestamp (sanitize_text reason));
      mret (with_attempt state p)
  | AbandonOperationAttempt id reason =>
      p ← update id [OS_PREPARED; OS_RUNNING] (set_abandoned timestamp reason);
      mret (with_attempt state p)
  | HeartbeatOperationAttempt id at_ expires =>
      p ← update id [OS_RUNNING] (set_heartbeat at_ expires);
      mret (with_attempt (state ⟪ st_operation_heartbeat_at := Some at_ ⟫) p)
  | ReconcileOperationAttempt id result =>
      p ← reconcile_attempt state id result timestamp;
      mret (with_attempt state p)
  | _ => tx_fail (TypeError "not an attempt command")
  end.

(* source: gateway/state_controller.py:1580-1589 StateController.apply *)
Definition handle_begin_operation (state : AgentState) (c : BeginOperationCommand)
    (timestamp : string) : Tx Db Outcome :=
  o ← begin_operation state c timestamp;
  a ← tx_read (current_attempt_in (op_operation_id o));
  let s1 := state ⟪ st_current_operation_id := Some (op_operation_id o) ⟫
                  ⟪ st_current_attempt_id := Some (at_attempt_id a) ⟫
                  ⟪ st_turn_id := opt_str_or (bo_turn_id c) (st_turn_id state) ⟫ in
  let s2 := if decide (bo_kind c = OK_MODEL)
            then s1 ⟪ st_model_call_id := Some (op_operation_id o) ⟫ else s1 in
  let s3 := if decide (bo_kind c = OK_TOOL)
            then s2 ⟪ st_tool_call_id := Some (op_operation_id o) ⟫ else s2 in
  mret (with_attempt s3 (o, a)).

(** The attempt a command that names an operation works on. *)
(* source: gateway/state_controller.py:1592-1593 StateController.apply *)
Definition selected_attempt (operation_id : string) : Tx Db (OperationRecord * OperationAttempt) :=
  o ← tx_read (operation_in operation_id);
  a ← tx_read (current_attempt_in (op_operation_id o));
  mret (o, a).

(** The commands that name an operation: they act on its current attempt. *)
(* source: gateway/state_controller.py:1590-1676 StateController.apply *)
Definition handle_operation (state : AgentState) (b : CommandBody) (timestamp : string) :
    Tx Db Outcome :=
  let update (a : OperationAttempt) allowed f :=
    update_attempt state (at_attempt_id a) timestamp allowed f in
  match b with
  | StartOperation id expires =>
      s ← selected_attempt id;
      p ← update s.2 [OS_PREPARED] (set_running timestamp expires);
      mret (with_attempt (state ⟪ st_operation_started_at := Some timestamp ⟫
        ⟪ st_operation_heartbeat_at := Some timestamp ⟫
        ⟪ st_last_progress_at := timestamp ⟫) p)
  | CompleteOperation id result hash source =>
      s ← selected_attempt id;
      p ← update s.2 [OS_RUNNING; OS_UNKNOWN] (set_completed timestamp result hash source);
      mret (with_attempt (progressed timestamp state) p)
  | FailOperation id error kind =>
      s ← selected_attempt id;
      p ← update s.2 [OS_PREPARED; OS_RUNNING] (set_failed timestamp kind error);
      mret (with_attempt (progressed timestamp state) p)
  | MarkOperationUnknown id reason =>
      s ← selected_attempt id;
      p ← update s.2 [OS_RUNNING] (set_unknown reason);
      mret (with_attempt (state ⟪ st_recovery_reason := op_unknown_reason p.1 ⟫) p)
  | AbandonOperation id reason =>
      o ← tx_read (operation_in id);
      reject (op_run_id o ≠ st_run_id state ∨ op_kind o ≠ OK_MODEL)
        (StateInvariantError "only a model Operation of this Run can be abandoned");;
      a ← tx_read (current_attempt_in (op_operation_id o));
      p ← update a [OS_PREPARED; OS_RUNNING] (set_abandoned timestamp reason);
      mret (with_attempt state p)
  | HeartbeatOperation id at_ expires =>
      s ← selected_attempt id;
      p ← update s.2 [OS_RUNNING] (set_heartbeat at_ expires);
      mret (with_attempt (state ⟪ st_operation_heartbeat_at := Some at_ ⟫) p)
  | ReconcileOperation id result =>
      s ← selected_attempt id;
      p ← reconcile_attempt state (at_attempt_id s.2) result timestamp;
      mret (with_attempt state p)
  | _ => tx_fail (TypeError "not an operation command")
  end.

(** ** Approvals and checkpoints *)

(* source: gateway/state_controller.py:1677-1698 StateController.apply *)
Definition create_approval (state : AgentState) (approval : DurableApproval)
    (timestamp : string) : Tx Db Outcome :=
  reject (ap_run_id approval ≠ st_run_id state)
    (StateInvariantError "Approval is not of this Run");;
  a ← tx_read (attempt_in (ap_attempt_id approval));
  o ← tx_read (operation_in (ap_operation_id approval));
  reject (at_operation_id a ≠ ap_operation_id approval
          ∨ at_attempt_no a ≠ ap_attempt_no approval
          ∨ op_request_hash o ≠ ap_request_hash approval)
    (StateInvariantError "Approval differs from the frozen Tool Attempt request");;
  insert_approval approval timestamp;;
  mret (mkOutcome (state ⟪ st_approval_id := Some (ap_approval_id approval) ⟫)
          None None (Some approval) false).

(** A decided approval; when it forbids the attempt, the attempt is skipped. *)
(* source: gateway/state_controller.py:1712-1721 StateController.apply *)
Definition settle_approval (state : AgentState) (approval : DurableApproval)
    (timestamp skip_reason : string) (skips : bool) : Tx Db Outcome :=
  if skips && nonempty (ap_attempt_id approval) then
    p ← update_attempt state (ap_attempt_id approval) timestamp [OS_PREPARED]
          (set_skipped timestamp skip_reason);
    mret (mkOutcome state (Some p.1) (Some p.2) (Some approval) false)
  else mret (mkOutcome state None None (Some approval) false).

(* source: gateway/state_controller.py:1699-1721 StateController.apply *)
Definition decide_approval (state : AgentState) (approval_id : string) (approved : bool)
    (decided_by reason timestamp : string) : Tx Db Outcome :=
  approval ← tx_read (approval_in approval_id);
  reject (ap_run_id approval ≠ st_run_id state)
    (StateInvariantError "Approval is not of this Run");;
  let desired := if approved then AS_APPROVED else AS_DENIED in
  reject (ap_status approval ≠ AS_PENDING ∧ ap_status approval ≠ desired)
    (StateConflictError "Approval has received the opposite decision");;
  if decide (ap_status approval = AS_PENDING) then
    settle_approval state (approval ⟪ ap_status := desired ⟫
      ⟪ ap_decided_at := Some timestamp ⟫ ⟪ ap_decided_by := Some decided_by ⟫
      ⟪ ap_reason := Some (sanitize_text reason) ⟫) timestamp "approval_denied" (negb approved)
  else mret (mkOutcome state None None (Some approval) false).

(* source: gateway/state_controller.py:1722-1743 StateController.apply *)
Definition expire_approval (state : AgentState) (approval_id timestamp : string) :
    Tx Db Outcome :=
  approval ← tx_read (approval_in approval_id);
  reject (ap_run_id approval ≠ st_run_id state)
    (StateInvariantError "Approval is not of this Run");;
  if decide (ap_status approval = AS_PENDING) then
    expires ← tx_lift (parse_iso (ap_expires_at approval));
    now ← tx_lift (parse_iso timestamp);
    early ← tx_lift (dt_lt now expires);
    reject (early = true) (StateInvariantError "Approval has not expired");;
    settle_approval state (approval ⟪ ap_status := AS_TIMEOUT ⟫
      ⟪ ap_decided_at := Some timestamp ⟫ ⟪ ap_decided_by := Some "gateway-timeout" ⟫
      ⟪ ap_reason := Some "approval expired" ⟫) timestamp "approval_timeout" true
  else mret (mkOutcome state None None (Some approval) false).

(* source: gateway/state_controller.py:1749-1770 StateController.apply *)
Definition create_safe_checkpoint (state : AgentState) (k : SafeCheckpoint) : Tx Db Outcome :=
  active ← tx_gets (λ db, anyrow (db_attempts db) (λ r,
    bool_decide (tr_run_id r = st_run_id state) && open_side_effect r));
  reject (active = true)
    (StateInvariantError "an undetermined side effect forbids a SafeCheckpoint");;
  reject (ck_run_id k ≠ st_run_id state ∨ ck_state_revision k ≠ st_revision state)
    (StateInvariantError "SafeCheckpoint has another Run or revision");;
  (if truthy (ck_current_attempt_id k) then
     a ← tx_read (attempt_in (default "" (ck_current_attempt_id k)));
     reject (Some (at_operation_id a) ≠ ck_current_operation_id k)
       (StateInvariantError "SafeCheckpoint Operation/Attempt references disagree")
   else mret tt);;
  (if truthy (ck_last_determined_attempt_id k) then
     a ← tx_read (attempt_in (default "" (ck_last_determined_attempt_id k)));
     reject (at_status a ∈ [OS_PREPARED; OS_RUNNING; OS_UNKNOWN])
       (StateInvariantError "SafeCheckpoint cannot name an undetermined Attempt")
   else mret tt);;
  mret (just (state ⟪ st_safe_checkpoint := Some k ⟫)).

(** ** Dispatch *)

(** The chain of [isinstance] tests of [apply]. *)
(* source: gateway/state_controller.py:1360-1509 StateController.apply *)
Definition dispatch (cfg : Config) (env : Env) (state : AgentState) (command : Command) :
    Tx Db Outcome :=
  let timestamp := env_now env in
  let h := cm_head command in
  match cm_body command with
  | AdoptGatewayEpoch previous _ => mret (adopt_epoch cfg state previous timestamp)
  | Transition c => tx_lift (handle_transition state c timestamp)
  | UpdateStateMetadata c => mret (update_metadata state c)
  | RecordRuntimeEvent _ _ mark =>
      mret (just (if mark : bool then progressed timestamp state else state))
  | BindSession id => tx_lift (bind_session state id)
  | UpgradePersistenceContract _ => tx_lift (upgrade_persistence state)
  | StartReplacementFinalizeGeneration g _ i _ => start_replacement state g i timestamp
  | StartFinalizeGeneration g s => start_finalize state g s timestamp
  | InvalidateFinalizeGeneration g r => invalidate_generation env h state g r timestamp
  | FinalizeAudit c => p ← finalize_audit state c timestamp; mret (with_attempt state p)
  | FinalizeInbox c => p ← finalize_inbox state c timestamp; mret (with_attempt state p)
  | FinalizeTerminal g r => finalize_terminal state g r timestamp
  | CreateOperationWithAttempt c => handle_create_operation state c timestamp
  | BeginOperationAttempt c => handle_begin_attempt state c timestamp
  | (StartOperationAttempt _ _ | CompleteOperationAttempt _ _ _ _ | FailOperationAttempt _ _ _
    | MarkOperationAttemptUnknown _ _ | SkipOperationAttempt _ _ | AbandonOperationAttempt _ _
    | HeartbeatOperationAttempt _ _ _ | ReconcileOperationAttempt _ _) as b =>
      handle_attempt state b timestamp
  | BeginOperation c => handle_begin_operation state c timestamp
  | (StartOperation _ _ | CompleteOperation _ _ _ _ | FailOperation _ _ _
    | MarkOperationUnknown _ _ | AbandonOperation _ _ | HeartbeatOperation _ _ _
    | ReconcileOperation _ _) as b => handle_operation state b timestamp
  | CreateApproval a => create_approval state a timestamp
  | DecideApproval id approved by_ reason => decide_approval state id approved by_ reason timestamp
  | ExpireApproval id => expire_approval state id timestamp
  | RequestCancellation reason =>
      mret (just (state ⟪ st_cancellation_requested := true ⟫
                        ⟪ st_recovery_reason := Some (sanitize_text reason) ⟫))
  | CreateSafeCheckpoint k => create_safe_checkpoint state k
  | RecoveryDecision c =>
      r ← apply_recovery env state h c timestamp;
      mret (mkOutcome r.1.1 r.1.2 r.2 None false)
  end.

(** [apply]'s reason column: only the two transition commands have one here. *)
(* source: gateway/state_controller.py:1797-1808 StateController.apply *)
Definition transition_reason (b : CommandBody) : string :=
  match b with Transition c => tc_reason c | FinalizeTerminal _ r => r | _ => "" end.

(* source: gateway/state_controller.py:1797-1808 StateController.apply *)
Definition transition_row (command : Command) (previous state : AgentState) (timestamp : string) :
    TransitionRow :=
  mkTransitionRow (sc_command_id (cm_head command)) (st_run_id state) (st_task_state previous)
    (st_task_state state) (ex_state <$> st_execution previous) (ex_state <$> st_execution state)
    (transition_reason (cm_body command)) (st_revision state) timestamp.

(** From the handler's outcome to the committed result. *)
(* source: gateway/state_controller.py:1778-1833 StateController.apply *)
Definition commit (env : Env) (command : Command) (command_hash : string) (previous : AgentState)
    (o : Outcome) : Tx Db ApplyResult :=
  let timestamp := env_now env in
  let h := cm_head command in
  state ← tx_lift (checked "AgentState" validate_lifecycle
    ((oc_state o) ⟪ st_revision := st_revision (oc_state o) + 1 ⟫
                  ⟪ st_updated_at := timestamp ⟫));
  save_opt save_operation (oc_operation o);;
  save_opt save_attempt (oc_attempt o);;
  save_opt save_approval (oc_approval o);;
  update_state state (st_revision previous);;
  update_run_projection state;;
  (if oc_transition o
   then insert_transition (env_uuid env 4) (transition_row command previous state timestamp)
   else mret tt);;
  event ← write_event (env_event_now env) state (event_type command)
    (event_payload command previous state (oc_operation o) (oc_attempt o) (oc_approval o))
    (sc_command_id h) (sc_event_key h) (sc_causation_id h)
    (Some (str_or (sc_correlation_id h) (st_run_id state)));
  let result := mkApplyResult state (oc_operation o) (oc_attempt o) (oc_approval o)
    (Some (ge_event_id event)) false in
  insert_processed (sc_command_id h)
    (mkProcessedRow (st_run_id state) command_hash result timestamp);;
  mret result.

(** Strict validation of a stored result. *)
(* source: Agent/state.py ApplyResult *)
Definition ApplyResult_valid (r : ApplyResult) : bool :=
  AgentState_valid (ar_state r) && opt_all OperationRecord_valid (ar_operation r)
  && opt_all OperationAttempt_valid (ar_attempt r) && opt_all DurableApproval_valid (ar_approval r).

Definition is_adopt (b : CommandBody) : bool :=
  match b with AdoptGatewayEpoch _ _ => true | _ => false end.

(** The revision and fencing checks. *)
(* source: gateway/state_controller.py:1347-1358 StateController.apply *)
Definition fence (cfg : Config) (command : Command) (state : AgentState) : Tx Db unit :=
  let h := cm_head command in
  reject (st_revision state ≠ sc_expected_revision h)
    (StateConflictError "State revision conflict");;
  reject (sc_gateway_epoch h ≠ cf_gateway_epoch cfg)
    (StateConflictError "Gateway epoch/fencing token mismatch");;
  match cm_body command with
  | AdoptGatewayEpoch previous _ =>
      reject (previous ≠ st_gateway_epoch state)
        (StateConflictError "the epoch to adopt has changed")
  | _ => reject (st_gateway_epoch state ≠ cf_gateway_epoch cfg)
           (StateConflictError "an old Gateway instance may not write")
  end.

(** The [gate] argument is the answer of the write gate, when there is one. *)
(* source: gateway/state_controller.py:1325-1360 StateController.apply *)
Definition apply (cfg : Config) (gate : res unit) (env : Env) (command : Command) :
    Tx Db ApplyResult :=
  tx_lift gate;;
  let h := cm_head command in
  let command_hash := sha256_hex (cf_dump cfg command) in
  db ← tx_gets (λ db, db);
  match db_processed db !! sc_command_id h with
  | Some row =>
      reject (pc_command_hash row ≠ command_hash)
        (StateConflictError "one command_id used for different commands");;
      result ← tx_lift (checked "ApplyResult" ApplyResult_valid (pc_result row));
      mret (result ⟪ ar_duplicate := true ⟫)
  | None =>
      state ← tx_read (state_in (sc_run_id h));
      fence cfg command state;;
      outcome ← dispatch cfg env state command;
      commit env command command_hash state outcome
  end.

(** ** Creating Runs *)

(* source: gateway/state_controller.py _default_persistence_contract *)
Definition default_persistence_contract (k : WorkloadKind) : PersistenceContract :=
  if decide (k = WK_CHAT) then PC_CONVERSATION_SESSION else PC_CONTROL_ONLY.

(** The arguments of [create_run]; those of [create_state] are among them. *)
(* source: gateway/state_controller.py:1219-1241 StateController.create_run *)
Record RunRequest := mkRunRequest {
  rq_run_id : string;
  rq_workload_kind : WorkloadKind;
  rq_project_id : string;
  rq_client_id : string;
  rq_task : string;
  rq_idempotency_key : string;
  rq_request_hash : string;
  rq_persistence_contract : option PersistenceContract;
  rq_session_id : option string;
  rq_parent_run_id : option string;
  rq_deadline_at : option string;
  rq_runtime_generation_id : option string;
  rq_model_profile_id : string;
  rq_reasoning_effort : string;
  rq_ui_context : option json
}.

(** The initial snapshot both constructors build. *)
(* source: gateway/state_controller.py:1184-1203 StateController.create_state *)
Definition initial_state (cfg : Config) (rq : RunRequest) (timestamp : string) : res AgentState :=
  checked "AgentState" AgentState_valid
    (mkAgentState 0 (cf_gateway_epoch cfg) (rq_run_id rq) (rq_workload_kind rq)
       (default (default_persistence_contract (rq_workload_kind rq)) (rq_persistence_contract rq))
       (rq_project_id rq) (rq_session_id rq) (rq_client_id rq) (rq_parent_run_id rq)
       (rq_idempotency_key rq) (rq_request_hash rq) TS_CREATED None None None
       (Some ("turn:" +:+ rq_run_id rq)) None None None None None None false (rq_deadline_at rq)
       None 0 0 0 0 [] timestamp None None timestamp None timestamp None None None).

(* source: gateway/state_controller.py:1218-1222 StateController.create_state *)
Definition created_payload (s : AgentState) : list (string * json) :=
  [("task_state", JStr (TaskState_value (st_task_state s)))].

(* source: gateway/state_controller.py:1218-1222 StateController.create_state *)
Definition write_created (event_now : string) (s : AgentState) : Tx Db GatewayEventEnvelope :=
  write_event event_now s "state_created" (created_payload s)
    ("run:" +:+ st_run_id s +:+ ":create") "primary" None (Some (st_run_id s)).

(* source: gateway/state_controller.py StateController.create_state *)
Definition create_state (cfg : Config) (env : Env) (rq : RunRequest) : Tx Db AgentState :=
  state ← tx_lift (initial_state cfg rq (env_now env));
  db ← tx_gets (λ db, db);
  match db_states db !! rq_run_id rq with
  | Some _ => tx_read (state_in (rq_run_id rq))
  | None =>
      insert_state state;;
      update_run_projection state;;
      write_created (env_event_now env) state;;
      mret state
  end.

(** The row [create_run] inserts into [runs]. *)
(* source: gateway/state_controller.py:1277-1285 StateController.create_run *)
Definition new_run_row (rq : RunRequest) (timestamp : string) : RunRow :=
  mkRunRow (rq_project_id rq) (rq_session_id rq) (rq_client_id rq) (rq_task rq) "queued" timestamp
    None None None None None None None None 0 WK_CHAT false None (rq_model_profile_id rq)
    (rq_reasoning_effort rq)
    (match rq_ui_context rq with Some (JObj []) => None | c => c end).

(* source: gateway/state_controller.py:1300-1315 StateController.create_run *)
Definition bind_runtime_generation (run_id generation_id timestamp : string) : Tx Db unit :=
  db ← tx_gets (λ db, db);
  reject (db_runtime_generations db !! generation_id ≠ Some None)
    (StateInvariantError "Run Runtime generation is unavailable");;
  let reference_id :=
    sha256_hex ("runtime-generation-ref:run:" +:+ run_id +:+ ":" +:+ generation_id) in
  abort_if (is_some (db_generation_refs db !! reference_id)
            || anyrow (db_generation_refs db) (λ r, gr_active r
                 && bool_decide (gr_owner_kind r = "run") && bool_decide (gr_owner_id r = run_id)))
    "one_active_runtime_generation_reference";;
  tx_modify (λ db, db ⟪ db_generation_refs := <[reference_id :=
    mkGenerationRefRow generation_id "run" run_id true timestamp]> (db_generation_refs db) ⟫).

(* source: gateway/state_controller.py StateController.create_run *)
Definition create_run (cfg : Config) (env : Env) (rq : RunRequest) : Tx Db (AgentState * bool) :=
  let timestamp := env_now env in
  let run_id := rq_run_id rq in
  db ← tx_gets (λ db, db);
  let key := (rq_client_id rq, WorkloadKind_value (rq_workload_kind rq), rq_idempotency_key rq) in
  match db_idempotency db !! key with
  | Some existing =>
      reject (ir_request_hash existing ≠ rq_request_hash rq)
        (StateConflictError "Idempotency-Key is used for another request");;
      state ← tx_read (state_in (ir_run_id existing));
      mret (state, true)
  | None =>
      state ← tx_lift (initial_state cfg rq timestamp);
      insert_run run_id (new_run_row rq timestamp);;
      insert_sequence run_id;;
      insert_state state;;
      tx_modify (λ db, db ⟪ db_idempotency := <[key :=
        mkIdempotencyRow (rq_request_hash rq) run_id None timestamp timestamp]>
        (db_idempotency db) ⟫);;
      match rq_runtime_generation_id rq with
      | Some g => bind_runtime_generation run_id g timestamp
      | None => mret tt
      end;;
      update_run_projection state;;
      write_created (env_event_now env) state;;
      mret (state, false)
  end.
