(* ===== verification/Frames.v ===== *)
(** * Frames: what each write of the store can change

    Lemmas on the primitives of Store.v and Events.v, in the form
    [tx_rel R m] of the prelude, and from them the same facts about every
    handler.  [committed] is the part of the store that only [commit] writes:
    a handler never touches it. *)

From S2P Require Import Prelude PyText PyTime AgentTypes AgentState Sanitizer Commands.
From S2P Require Import OperationReduce FinalizeEvidence Store Events Operations FinalizeOps.
From S2P Require Import Controller.

#[local] Open Scope Z_scope.

(** ** Primitives *)

Lemma abort_if_ok b name (s : Db) u s' : abort_if b name s = Ok (u, s') ↔ b = false ∧ s' = s.
Proof. unfold abort_if. by rewrite reject_ok, not_true_iff_false. Qed.

Lemma tx_rel_abort_if R `{!PreOrder R} b name : tx_rel R (abort_if b name).
Proof. intros s u s' [_ ->]%abort_if_ok. reflexivity. Qed.
#[export] Hint Extern 1 (tx_rel _ (abort_if _ _)) => apply tx_rel_abort_if; apply _ : tx_frame.

(** A primitive is made of checks and one update of the store: the relation
    need only hold for that update. *)
Ltac prim := unfold save_opt; tx_frame; try (apply tx_rel_modify; intros ?).

(** [save_operation] and the others, relative to a preorder closed under
    updating the table they write. *)
Section writes.
Context (R : Db → Db → Prop) `{!PreOrder R}.

Lemma save_operation_rel o :
  (∀ db t, R db (db ⟪ db_operations := t ⟫)) → tx_rel R (save_operation o).
Proof. intros H. unfold save_operation. prim; apply H. Qed.
Lemma save_attempt_rel a :
  (∀ db t, R db (db ⟪ db_attempts := t ⟫)) → tx_rel R (save_attempt a).
Proof. intros H. unfold save_attempt. prim; apply H. Qed.
Lemma insert_approval_rel a u :
  (∀ db t, R db (db ⟪ db_approvals := t ⟫)) → tx_rel R (insert_approval a u).
Proof. intros H. unfold insert_approval. prim; apply H. Qed.
Lemma save_approval_rel a :
  (∀ db t, R db (db ⟪ db_approvals := t ⟫)) → tx_rel R (save_approval a).
Proof. intros H. unfold save_approval, insert_approval. prim; apply H. Qed.
Lemma insert_decision_rel i r :
  (∀ db t, R db (db ⟪ db_decisions := t ⟫)) → tx_rel R (insert_decision i r).
Proof. intros H. unfold insert_decision. prim; apply H. Qed.
Lemma insert_finalize_generation_rel r :
  (∀ db t, R db (db ⟪ db_generations := t ⟫)) → tx_rel R (insert_finalize_generation r).
Proof. intros H. unfold insert_finalize_generation. prim; apply H. Qed.
Lemma insert_invalidation_rel i r :
  (∀ db t, R db (db ⟪ db_invalidations := t ⟫)) → tx_rel R (insert_invalidation i r).
Proof. intros H. unfold insert_invalidation. prim; apply H. Qed.
Lemma insert_receipt_rel i r :
  (∀ db t, R db (db ⟪ db_receipts := t ⟫)) → tx_rel R (insert_receipt i r).
Proof. intros H. unfold insert_receipt. prim; apply H. Qed.
Lemma set_current_receipt_rel i r t' :
  (∀ db t, R db (db ⟪ db_current_receipt := t ⟫)) → tx_rel R (set_current_receipt i r t').
Proof. intros H. unfold set_current_receipt. prim; apply H. Qed.
Lemma insert_inbox_rel i r :
  (∀ db t, R db (db ⟪ db_inbox := t ⟫)) → tx_rel R (insert_inbox i r).
Proof. intros H. unfold insert_inbox. prim; apply H. Qed.
Lemma insert_transition_rel i r :
  (∀ db t, R db (db ⟪ db_transitions := t ⟫)) → tx_rel R (insert_transition i r).
Proof. intros H. unfold insert_transition. prim; apply H. Qed.
Lemma insert_processed_rel i r :
  (∀ db t, R db (db ⟪ db_processed := t ⟫)) → tx_rel R (insert_processed i r).
Proof. intros H. unfold insert_processed. prim; apply H. Qed.
Lemma update_state_rel st r :
  (∀ db t, R db (db ⟪ db_states := t ⟫)) → tx_rel R (update_state st r).
Proof. intros H. unfold update_state. prim; apply H. Qed.
Lemma insert_state_rel st :
  (∀ db t, R db (db ⟪ db_states := t ⟫)) → tx_rel R (insert_state st).
Proof. intros H. unfold insert_state. prim; apply H. Qed.
Lemma update_run_projection_rel st :
  (∀ db t, R db (db ⟪ db_runs := t ⟫)) → tx_rel R (update_run_projection st).
Proof. intros H. unfold update_run_projection. prim; apply H. Qed.
Lemma insert_deliveries_rel o e sinks :
  (∀ db t, R db (db ⟪ db_deliveries := t ⟫)) → tx_rel R (insert_deliveries o e sinks).
Proof.
  intros H. induction sinks as [|[i s] sinks IH]; simpl; [tx_frame|].
  apply tx_rel_bind; [done| |done]. unfold insert_delivery. prim. apply H.
Qed.

(** [write_event] writes the tables of the event store and the stream
    position kept in [agent_states]. *)
Lemma write_event_rel n st ty p c k ca co :
  (∀ db t, R db (db ⟪ db_sequences := t ⟫)) → (∀ db t, R db (db ⟪ db_events := t ⟫)) →
  (∀ db t, R db (db ⟪ db_outbox := t ⟫)) → (∀ db t, R db (db ⟪ db_deliveries := t ⟫)) →
  (∀ db t, R db (db ⟪ db_states := t ⟫)) → tx_rel R (write_event n st ty p c k ca co).
Proof.
  intros H1 H2 H3 H4 H5. unfold write_event.
  pose proof (λ o e sinks, insert_deliveries_rel o e sinks H4).
  unfold insert_event, insert_outbox, complete_empty_outbox.
  prim; auto. case_match; [reflexivity|auto].
Qed.
End writes.

(** ** Handlers *)

Definition committed (db : Db) :=
  (db_states db, db_runs db, db_processed db, db_idempotency db, db_observations db,
   db_transitions db, db_sequences db, db_events db, (db_sinks db, db_outbox db, db_deliveries db),
   (db_runtime_generations db, db_generation_refs db)).

Ltac frame_hint lem := apply lem; [apply _|done].
#[export] Hint Extern 1 (tx_rel (same_part _) (save_operation _)) => frame_hint save_operation_rel : tx_frame.
#[export] Hint Extern 1 (tx_rel (same_part _) (save_attempt _)) => frame_hint save_attempt_rel : tx_frame.
#[export] Hint Extern 1 (tx_rel (same_part _) (insert_approval _ _)) => frame_hint insert_approval_rel : tx_frame.
#[export] Hint Extern 1 (tx_rel (same_part _) (save_approval _)) => frame_hint save_approval_rel : tx_frame.
#[export] Hint Extern 1 (tx_rel (same_part _) (insert_decision _ _)) => frame_hint insert_decision_rel : tx_frame.
#[export] Hint Extern 1 (tx_rel (same_part _) (insert_finalize_generation _)) =>
  frame_hint insert_finalize_generation_rel : tx_frame.
#[export] Hint Extern 1 (tx_rel (same_part _) (insert_invalidation _ _)) =>
  frame_hint insert_invalidation_rel : tx_frame.
#[export] Hint Extern 1 (tx_rel (same_part _) (insert_receipt _ _)) => frame_hint insert_receipt_rel : tx_frame.
#[export] Hint Extern 1 (tx_rel (same_part _) (set_current_receipt _ _ _)) =>
  frame_hint set_current_receipt_rel : tx_frame.
#[export] Hint Extern 1 (tx_rel (same_part _) (insert_inbox _ _)) => frame_hint insert_inbox_rel : tx_frame.
#[export] Hint Extern 1 (tx_rel (same_part _) (update_run_projection _)) =>
  frame_hint update_run_projection_rel : tx_frame.
#[export] Hint Extern 1 (tx_rel (same_part _) (update_state _ _)) => frame_hint update_state_rel : tx_frame.
#[export] Hint Extern 1 (tx_rel (same_part _) (insert_transition _ _)) => frame_hint insert_transition_rel : tx_frame.
#[export] Hint Extern 1 (tx_rel (same_part _) (insert_processed _ _)) => frame_hint insert_processed_rel : tx_frame.
#[export] Hint Extern 1 (tx_rel (same_part _) (write_event _ _ _ _ _ _ _ _)) =>
  apply write_event_rel; [apply _|done..] : tx_frame.

(** [update_attempt] only reads. *)
Lemma update_attempt_rel R `{!PreOrder R} s i t al f : tx_rel R (update_attempt s i t al f).
Proof. unfold update_attempt. tx_frame. Qed.
#[export] Hint Extern 1 (tx_rel _ (update_attempt _ _ _ _ _)) =>
  apply update_attempt_rel; apply _ : tx_frame.
Lemma begin_operation_attempt_rel R `{!PreOrder R} s c t : tx_rel R (begin_operation_attempt s c t).
Proof. unfold begin_operation_attempt. tx_frame. Qed.
#[export] Hint Extern 1 (tx_rel _ (begin_operation_attempt _ _ _)) =>
  apply begin_operation_attempt_rel; apply _ : tx_frame.

(** Every handler, relative to a preorder closed under the writes the
    handlers make. *)
Section handlers.
Context (R : Db → Db → Prop) `{!PreOrder R}.
Hypothesis Hop : ∀ o, tx_rel R (save_operation o).
Hypothesis Hat : ∀ a, tx_rel R (save_attempt a).
Hypothesis Hap : ∀ a u, tx_rel R (insert_approval a u).
Hypothesis Hde : ∀ i r, tx_rel R (insert_decision i r).
Hypothesis Hge : ∀ r, tx_rel R (insert_finalize_generation r).
Hypothesis Hiv : ∀ i r, tx_rel R (insert_invalidation i r).
Hypothesis Hre : ∀ i r, tx_rel R (insert_receipt i r).
Hypothesis Hcu : ∀ i r t, tx_rel R (set_current_receipt i r t).
Hypothesis Hin : ∀ i r, tx_rel R (insert_inbox i r).

Lemma dispatch_rel cfg env state command : tx_rel R (dispatch cfg env state command).
Proof.
  unfold dispatch. destruct (cm_body command);
    unfold start_replacement, start_finalize, invalidate_generation, finalize_audit, put_receipt,
      finalize_inbox, put_inbox, finalize_terminal, handle_create_operation,
      create_operation_with_attempt, handle_begin_attempt, handle_attempt,
      guard_finalize_completion, reconcile_attempt, handle_begin_operation, begin_operation,
      handle_operation, selected_attempt, reconcile_attempt, create_approval, decide_approval,
      expire_approval, settle_approval, create_safe_checkpoint, apply_recovery, recovery_target,
      recovery_effect, recovery_confirm, recovery_retry, recovery_fail, save_opt;
    tx_frame; auto.
Qed.
End handlers.

Lemma dispatch_committed cfg env state command :
  tx_rel (same_part committed) (dispatch cfg env state command).
Proof. apply dispatch_rel; first apply _; intros; by eauto with tx_frame. Qed.
