(* ===== verification/Outcomes.v ===== *)
(** * Outcomes: the state a handler returns

    What [dispatch] may change in the snapshot of a Run, command by command. *)

From S2P Require Import Prelude PyText PyTime AgentTypes AgentState Sanitizer Commands.
From S2P Require Import OperationReduce FinalizeEvidence Store Events Operations FinalizeOps.
From S2P Require Import Controller.

#[local] Open Scope Z_scope.

(** Fields no handler ever changes. *)
Definition identity (s : AgentState) :=
  (st_revision s, st_run_id s, st_workload_kind s, st_project_id s, st_client_id s,
   st_parent_run_id s, st_idempotency_key s, st_request_hash s, st_deadline_at s, st_created_at s).

(** The fields of the two state machines and of their result. *)
Definition control (s : AgentState) :=
  (st_task_state s, st_execution s, st_terminal_target s, st_started_at s, st_finished_at s,
   st_result_summary s, st_error s).

(** Fields no transition changes. *)
Definition rest (s : AgentState) :=
  (st_finalize_generation s, st_safe_checkpoint s, st_persistence_contract s, st_gateway_epoch s,
   (st_model_attempt s, st_recovery_attempt s, st_input_tokens s, st_output_tokens s),
   (st_session_id s, st_cancellation_requested s)).

(** The commands that change [finalize_generation]. *)
Definition generation_command (b : CommandBody) : bool :=
  match b with
  | StartFinalizeGeneration _ _ | StartReplacementFinalizeGeneration _ _ _ _ => true
  | _ => false
  end.

(** ** Transitions *)

Lemma move_task_ok s c t s' :
  move_task s c t = Ok s' →
  identity s' = identity s ∧ st_execution s' = st_execution s ∧
  rest s' = rest s ∧
  match tc_task_state c with
  | Some x => outer_step (st_task_state s) x ∧ st_task_state s' = x
  | None => s' = s
  end.
Proof.
  unfold move_task. destruct (tc_task_state c) as [x|].
  2:{ intros H. apply (proj1 (res_ret_ok _ _)) in H as <-. done. }
  intros ([] & Hv & H)%res_bind_ok. apply validate_outer_ok in Hv.
  apply res_bind_ok in H as (s3 & Hs3 & H). apply (proj1 (res_ret_ok _ _)) in H as <-.
  set (s2 := if decide (x = TS_RUNNING ∧ st_started_at s = None) then _ else _) in *.
  assert (∃ t', s3 = s2 ⟪ st_terminal_target := t' ⟫) as [t' ->].
  { case_decide.
    - destruct (tc_terminal_target c) as [tt|]; [|destruct (st_terminal_target s) as [tt|]; [|done]];
        apply (proj1 (res_ret_ok _ _)) in Hs3 as <-; eauto.
    - apply (proj1 (res_ret_ok _ _)) in Hs3 as <-. destruct (tc_terminal_target c); [eauto|].
      exists (st_terminal_target s2). by destruct s2. }
  unfold s2. repeat case_decide; split_and!; done.
Qed.

Lemma move_execution_ok s0 s c t s' :
  move_execution s0 s c t = Ok s' →
  (tc_execution_state c = None ∧ s' = s) ∨
  ∃ e, tc_execution_state c = Some (ex_state e) ∧ validate_finished e = true ∧
       s' = s ⟪ st_execution := Some e ⟫ ∧
       match st_execution s0 with
       | Some x => inner_step (ex_state x) (ex_state e)
       | None => ex_state e = ES_THINKING
       end.
Proof.
  unfold move_execution. destruct (tc_execution_state c) as [e|].
  2:{ intros H. apply (proj1 (res_ret_ok _ _)) in H as <-. auto. }
  intros ([] & Hv & H)%res_bind_ok. right.
  apply res_bind_ok in H as (x & Hx & H). apply checked_ok in Hx as [Hx ->].
  apply (proj1 (res_ret_ok _ _)) in H as <-.
  exists (mkExecutionSnapshot e (tc_outcome c) (tc_finish_reason c) t).
  split_and!; [done..|]. simpl.
  destruct (st_execution s0) as [y|].
  - by apply validate_inner_ok.
  - by case_decide.
Qed.

(** What a transition leaves of the snapshot, and how it moves the machines. *)
Record transition_effect (s : AgentState) (c : TransitionCommand) (s' : AgentState) : Prop := {
  te_identity : identity s' = identity s;
  te_rest : rest s' = rest s;
  te_outer : match tc_task_state c with
             | Some x => outer_step (st_task_state s) x ∧ st_task_state s' = x
             | None => st_task_state s' = st_task_state s
             end;
  te_inner : match tc_execution_state c with
             | Some e => ∃ x, st_execution s' = Some x ∧ ex_state x = e ∧
                 validate_finished x = true ∧
                 match st_execution s with
                 | Some y => inner_step (ex_state y) e
                 | None => e = ES_THINKING
                 end
             | None => st_execution s' = st_execution s
             end;
  te_mapping : validate_terminal_mapping s' = Ok tt
}.

Lemma transition_rest s c s' :
  transition_effect s c s' →
  identity s' = identity s ∧ st_gateway_epoch s' = st_gateway_epoch s ∧
  st_finalize_generation s' = st_finalize_generation s.
Proof.
  intros T. pose proof (te_rest _ _ _ T) as E. unfold rest in E. injection E as ? ? ? ? ? ? ? ? ? ?.
  split_and!; [apply T|done..].
Qed.

Lemma apply_transition_ok s c t s' : apply_transition s c t = Ok s' → transition_effect s c s'.
Proof.
  unfold apply_transition.
  intros (s1 & (Hi & He & Hr & Ht)%move_task_ok & H)%res_bind_ok.
  apply res_bind_ok in H as (s2 & Hm%move_execution_ok & H).
  set (s3 := match tc_error c with Some _ => _ | None => _ end) in *.
  set (s4 := match tc_result_summary c with Some _ => _ | None => _ end) in *.
  apply res_bind_ok in H as ([] & Hmap & H). apply (proj1 (res_ret_ok _ _)) in H as <-.
  assert (∃ e r, s4 = s2 ⟪ st_error := e ⟫ ⟪ st_result_summary := r ⟫) as (e & r & E).
  { unfold s4, s3. exists (match tc_error c with Some e => Some (sanitize_text e) | None => st_error s2 end),
      (match tc_result_summary c with Some r => Some r | None => st_result_summary s2 end).
    destruct (tc_error c), (tc_result_summary c); by destruct s2. }
  clearbody s4. subst s4.
  assert (tc_execution_state c = None ∧ s2 = s1 ∨
          ∃ x, tc_execution_state c = Some (ex_state x) ∧ s2 = s1 ⟪ st_execution := Some x ⟫) as Hs2
    by (destruct Hm as [[? ->]|(x & ? & _ & -> & _)]; eauto).
  split; try done.
  1-2: destruct Hs2 as [[_ ->]|(x & _ & ->)]; done.
  - destruct (tc_task_state c) as [x|]; [destruct Ht as [Ht1 Ht2]; split; [done|]|subst s1];
      destruct Hs2 as [[_ ->]|(y & _ & ->)]; done.
  - destruct Hm as [[-> ->]|(x & -> & Hv & -> & Hin)]; [done|]. by exists x.
Qed.

(** ** All commands *)

(** The transition [FinalizeTerminalCommand] makes. *)
Definition terminal_command (target : TerminalTarget) (reason : string) : TransitionCommand :=
  mkTransitionCommand (Some (TaskState_of_target target)) None None None None reason None None.

(** Which part of the snapshot each command may change. *)
Definition outcome_ok (cfg : Config) (state : AgentState) (b : CommandBody) (o : Outcome) : Prop :=
  identity (oc_state o) = identity state ∧
  (st_gateway_epoch (oc_state o) = if is_adopt b then cf_gateway_epoch cfg else st_gateway_epoch state) ∧
  (generation_command b = false →
     st_finalize_generation (oc_state o) = st_finalize_generation state) ∧
  match b with
  | Transition c => oc_transition o = true ∧ transition_effect state c (oc_state o) ∧
      tc_task_state c ∉ [Some TS_SUCCEEDED; Some TS_FAILED; Some TS_CANCELLED] ∧
      oc_operation o = None ∧ oc_attempt o = None
  | FinalizeTerminal _ r => oc_transition o = true ∧
      st_task_state state = TS_FINALIZING ∧ oc_operation o = None ∧ oc_attempt o = None ∧
      ∃ target, st_terminal_target state = Some target ∧
        transition_effect state (terminal_command target r) (oc_state o)
  | _ => oc_transition o = false ∧ control (oc_state o) = control state
  end.

Definition recovered (state : AgentState) (r : AgentState * option OperationRecord * option OperationAttempt) : Prop :=
  ∃ c d t, r.1.1 = state ⟪ st_cancellation_requested := c ⟫ ⟪ st_diagnostics := d ⟫
                         ⟪ st_last_progress_at := t ⟫.

Lemma apply_recovery_post env state h c t :
  tx_post (recovered state) (apply_recovery env state h c t).
Proof.
  unfold apply_recovery. tx_post; unfold recovered; simpl; case_decide; [by eauto|].
  by exists (st_cancellation_requested state), (recovery_diagnostic state c t), t; destruct state.
Qed.

Lemma finalize_terminal_ok state g r t db o db' :
  finalize_terminal state g r t db = Ok (o, db') →
  db' = db ∧ ∃ target s, o = moved s ∧ st_terminal_target state = Some target ∧
    st_task_state state = TS_FINALIZING ∧ validate_terminal_finalize state g db = Ok tt ∧
    transition_effect state (terminal_command target r) s.
Proof.
  unfold finalize_terminal. destruct (st_terminal_target state) as [target|]; [|done].
  intros H. tx_inv H. split; [done|]. exists target, v1.
  destruct v0. split_and!; [done..|]. by eapply apply_transition_ok.
Qed.

Lemma dispatch_outcome cfg env state command :
  tx_post (outcome_ok cfg state (cm_body command)) (dispatch cfg env state command).
Proof.
  unfold dispatch. destruct (cm_body command) eqn:Hb;
    [..|eapply tx_post_bind_with; [apply apply_recovery_post|];
        intros r (? & ? & ? & E); apply tx_post_ret; unfold outcome_ok; simpl; by rewrite E];
    try (intros db o db' (_ & target & s & -> & Ht & Hf & _ & Hs)%finalize_terminal_ok;
         destruct (transition_rest _ _ _ Hs) as (? & ? & ?); split_and!; eauto; fail);
    unfold start_replacement, start_finalize, invalidate_generation,
      handle_create_operation, handle_begin_attempt, handle_attempt, handle_begin_operation,
      handle_operation, create_approval, decide_approval, expire_approval, settle_approval,
      create_safe_checkpoint, with_attempt, progressed;
    tx_post; try (by split_and!; repeat case_match);
    unfold handle_transition, bind_session, upgrade_persistence in *.
  - case_decide; [done|]. apply res_bind_ok in H as (s & Hs%apply_transition_ok & H).
    apply (proj1 (res_ret_ok _ _)) in H as <-. destruct (transition_rest _ _ _ Hs) as (? & ? & ?).
    by split_and!.
  - case_decide; [done|]. apply (proj1 (res_ret_ok _ _)) in H as <-. by split_and!.
  - repeat case_decide; try done; apply (proj1 (res_ret_ok _ _)) in H as <-; by split_and!.
Qed.

(** ** Field constraints *)

(** The constrained fields outside [identity]. *)
Definition constrained (s : AgentState) : bool :=
  nonempty (st_gateway_epoch s) && opt_all validate_finished (st_execution s)
  && opt_all (λ g, 1 <=? g) (st_finalize_generation s)
  && opt_all SafeCheckpoint_valid (st_safe_checkpoint s)
  && (0 <=? st_model_attempt s) && (0 <=? st_recovery_attempt s)
  && (0 <=? st_input_tokens s) && (0 <=? st_output_tokens s).

Lemma fields_split s :
  AgentState_fields s = true ↔
  constrained s = true ∧
  (0 <=? st_revision s) && nonempty (st_run_id s) && nonempty (st_project_id s)
  && nonempty (st_client_id s) && nonempty (st_idempotency_key s) && hex64 (st_request_hash s) = true.
Proof. unfold AgentState_fields, constrained. rewrite !andb_true_iff. tauto. Qed.

Lemma transition_constrained s c s' :
  transition_effect s c s' → constrained s = true → constrained s' = true.
Proof.
  intros T. pose proof (te_rest _ _ _ T) as E. unfold rest in E. unfold constrained.
  injection E as -> -> _ -> -> -> -> -> _ _. pose proof (te_inner _ _ _ T) as Hi.
  destruct (tc_execution_state c).
  - destruct Hi as (x & -> & _ & Hv & _). rewrite !andb_true_iff. simpl. rewrite Hv. naive_solver.
  - by rewrite Hi.
Qed.

Lemma dispatch_constrained cfg env state command :
  constrained state = true → body_valid (cm_body command) = true →
  nonempty (cf_gateway_epoch cfg) = true →
  tx_post (λ o, constrained (oc_state o) = true) (dispatch cfg env state command).
Proof.
  intros Hs Hb He. unfold dispatch. destruct (cm_body command) eqn:Hbody;
    [..|eapply tx_post_bind_with; [apply apply_recovery_post|];
        intros r (? & ? & ? & E); apply tx_post_ret; simpl; by rewrite E];
    try (intros db o db' (_ & target & s & -> & _ & _ & _ & Hs')%finalize_terminal_ok;
         by eapply transition_constrained);
    unfold start_replacement, start_finalize, invalidate_generation,
      handle_create_operation, handle_begin_attempt, handle_attempt, handle_begin_operation,
      handle_operation, create_approval, decide_approval, expire_approval, settle_approval,
      create_safe_checkpoint, with_attempt, progressed;
    tx_post; try (done || (simpl; repeat case_match; done));
    unfold handle_transition, bind_session, upgrade_persistence, constrained in *;
    simpl in Hb; rewrite ?andb_true_iff in Hb.
  - rewrite !andb_true_iff in *. simpl. naive_solver.
  - case_decide; [done|]. apply res_bind_ok in H as (s & Hs'%apply_transition_ok & H).
    apply (proj1 (res_ret_ok _ _)) in H as <-. by eapply transition_constrained.
  - rewrite !andb_true_iff in *. simpl.
    destruct (um_model_attempt c), (um_recovery_attempt c), (um_input_tokens c),
      (um_output_tokens c); simpl in *; naive_solver.
  - case_decide; [done|]. by apply (proj1 (res_ret_ok _ _)) in H as <-.
  - repeat case_decide; try done; by apply (proj1 (res_ret_ok _ _)) in H as <-.
  - rewrite !andb_true_iff in *. simpl. naive_solver.
  - rewrite !andb_true_iff in *. simpl. naive_solver.
  - rewrite !andb_true_iff in *. simpl. naive_solver.
Qed.
