(* ===== verification/Apply.v ===== *)
(** * Apply: one successful run of [apply]

    Inversion of the write primitives, of [commit] and of [apply] into a
    record of facts about the stores before and after; the theorems on
    commands are read off these records. *)

From S2P Require Import Prelude PyText PyTime AgentTypes AgentState Sanitizer Commands.
From S2P Require Import OperationReduce FinalizeEvidence Store Events Operations FinalizeOps.
From S2P Require Import Controller Frames Outcomes.

#[local] Open Scope Z_scope.

(** ** Inversion of the primitives *)

Ltac abort_inv H := repeat (apply tx_bind_ok in H as ([] & ? & [_ ->]%abort_if_ok & H)).

Lemma update_state_ok s rev db u db' :
  update_state s rev db = Ok (u, db') →
  ∃ old, db_states db !! st_run_id s = Some old ∧ sr_revision old = rev ∧
    normal_terminal_requires_finalizing (sr_task_state old) (st_task_state s) = false ∧
    db' = db ⟪ db_states :=
      <[st_run_id s := state_row s (sr_snapshot_stream_sequence old)]> (db_states db) ⟫.
Proof.
  unfold update_state. intros (d & s1 & [-> ->]%tx_gets_ok & H)%tx_bind_ok.
  destruct (db_states db !! st_run_id s) as [old|] eqn:E; [|by apply tx_fail_ok in H].
  case_decide; [|by apply tx_fail_ok in H].
  apply tx_bind_ok in H as ([] & ? & [Hab ->]%abort_if_ok & H).
  apply tx_modify_ok in H. eauto 10.
Qed.

Lemma insert_processed_ok c r db u db' :
  insert_processed c r db = Ok (u, db') →
  db_processed db !! c = None ∧ db' = db ⟪ db_processed := <[c := r]> (db_processed db) ⟫.
Proof.
  unfold insert_processed. intros (d & s1 & [-> ->]%tx_gets_ok & H)%tx_bind_ok.
  apply tx_bind_ok in H as ([] & ? & [Hab ->]%abort_if_ok & H).
  apply tx_modify_ok in H. split; [|done]. by destruct (db_processed db !! c).
Qed.

(** ** Events *)

(** The deliveries of one event: those it found, and one per sink. *)
Record deliveries_appended (outbox_id event_id : string) (sinks : list (string * SinkRow))
    (m m' : gmap string DeliveryRow) : Prop := {
  da_kept : ∀ k v, m !! k = Some v → m' !! k = Some v;
  da_sink : ∀ id s, (id, s) ∈ sinks →
      m' !! delivery_id_of event_id id = Some (delivery_snapshot outbox_id event_id id s);
  da_only : ∀ k v, m' !! k = Some v → m !! k = Some v ∨
      ∃ id s, (id, s) ∈ sinks ∧ k = delivery_id_of event_id id ∧
        v = delivery_snapshot outbox_id event_id id s
}.

Definition outbox_id_of (event_id : string) : string := sha256_hex ("event-outbox:v2:" +:+ event_id).

Lemma insert_deliveries_ok o e sinks : ∀ db u db',
  insert_deliveries o e sinks db = Ok (u, db') →
  deliveries_appended o e sinks (db_deliveries db) (db_deliveries db').
Proof.
  induction sinks as [|[i s] sinks IH]; intros db u db' H; cbn [insert_deliveries] in H.
  - apply tx_ret_ok in H as [_ <-]. split; [done| |by left]. by intros id s []%not_elem_of_nil.
  - apply tx_bind_ok in H as ([] & s1 & H1 & H). destruct (IH _ _ _ H) as [Hk Hs Ho].
    unfold insert_delivery in H1. apply tx_bind_ok in H1 as (d & s2 & [-> ->]%tx_gets_ok & H1).
    apply tx_bind_ok in H1 as ([] & s2 & [Hn ->]%abort_if_ok & H1). apply tx_modify_ok in H1 as ->.
    cbn in *. apply orb_false_iff in Hn as [Hn _]. split.
    + intros k v Hv. apply Hk. rewrite lookup_insert_ne; [done|]. intros <-. by rewrite Hv in Hn.
    + intros id s' [[= -> ->]|Hin]%elem_of_cons; [|by apply Hs]. apply Hk, lookup_insert_eq.
    + intros k v Hv. destruct (Ho k v Hv) as [Hx|(id & s' & Hin & -> & ->)].
      * apply lookup_insert_Some in Hx as [[<- <-]|[_ Hx]]; [|by left].
        right. exists i, s. split; [left|done].
      * right. exists id, s'. split; [by right|done].
Qed.

(** Does the outbox row have a required delivery? *)
Definition has_required (outbox_id : string) (m : gmap string DeliveryRow) : bool :=
  anyrow m (λ d, bool_decide (dl_outbox_id d = outbox_id) && dl_required d).

(** The facts about one [write_event]. *)
Record event_written (now : string) (state : AgentState) (type : string)
    (payload : list (string * json)) (command_id event_key : string)
    (causation_id correlation_id : option string)
    (db : Db) (e : GatewayEventEnvelope) (db' : Db) : Prop := {
  ew_event : e = make_event state type payload command_id event_key causation_id
      (select_correlation_id state correlation_id db) (next_sequence (st_run_id state) db) now;
  ew_valid : Envelope_valid e = true;
  ew_sequences : db_sequences db' =
      <[st_run_id state := next_sequence (st_run_id state) db]> (db_sequences db);
  ew_events : db_events db' = <[ge_event_id e := event_row state e]> (db_events db);
  ew_fresh_id : db_events db !! ge_event_id e = None;
  ew_fresh_sequence : anyrow (db_events db) (λ r, bool_decide (er_stream_id r = st_run_id state)
      && bool_decide (er_stream_sequence r = next_sequence (st_run_id state) db)) = false;
  ew_states : db_states db' =
      alter (λ r, r ⟪ sr_snapshot_stream_sequence := next_sequence (st_run_id state) db ⟫)
        (st_run_id state) (db_states db);
  ew_fresh_outbox : db_outbox db !! outbox_id_of (ge_event_id e) = None;
  ew_deliveries : deliveries_appended (outbox_id_of (ge_event_id e)) (ge_event_id e)
      (enabled_sinks db) (db_deliveries db) (db_deliveries db');
  ew_outbox : db_outbox db' = <[outbox_id_of (ge_event_id e) :=
      if has_required (outbox_id_of (ge_event_id e)) (db_deliveries db')
      then mkOutboxRow (ge_event_id e) now None 0
      else mkOutboxRow (ge_event_id e) now (Some now) 1]> (db_outbox db)
}.

(** The tables [write_event] leaves alone. *)
Definition off_stream (db : Db) :=
  (db_runs db, db_operations db, db_attempts db, db_approvals db, db_processed db,
   db_idempotency db, db_observations db, db_decisions db, db_transitions db,
   (db_generations db, db_invalidations db, db_receipts db, db_current_receipt db, db_inbox db),
   (db_sinks db, db_runtime_generations db, db_generation_refs db)).

Lemma insert_deliveries_same {T} (f : Db → T) o e sinks :
  (∀ db t, f (db ⟪ db_deliveries := t ⟫) = f db) →
  tx_rel (same_part f) (insert_deliveries o e sinks).
Proof. intros H. apply insert_deliveries_rel; [apply _|]. intros db t. apply H. Qed.

Lemma write_event_ok now state type payload c k ca co db e db' :
  write_event now state type payload c k ca co db = Ok (e, db') →
  event_written now state type payload c k ca co db e db'.
Proof.
  unfold write_event. intros (d & s1 & [-> ->]%tx_gets_ok & H)%tx_bind_ok.
  apply tx_bind_ok in H as ([] & s1 & ->%tx_modify_ok & H).
  apply tx_bind_ok in H as (e' & s1 & [[Hv ->]%checked_ok ->]%tx_lift_ok & H).
  remember (make_event _ _ _ _ _ _ _ _ _) as e0 eqn:He0.
  apply tx_bind_ok in H as ([] & s2 & Hev & H).
  unfold insert_event in Hev. apply tx_bind_ok in Hev as (d & s1 & [-> ->]%tx_gets_ok & Hev).
  apply tx_bind_ok in Hev as ([] & s1 & [Hpk ->]%abort_if_ok & Hev).
  apply tx_bind_ok in Hev as ([] & s1 & [Huq ->]%abort_if_ok & Hev).
  abort_inv Hev. apply tx_modify_ok in Hev as ->.
  apply tx_bind_ok in H as ([] & s3 & Hout & H).
  unfold insert_outbox in Hout. apply tx_bind_ok in Hout as (d & s1 & [-> ->]%tx_gets_ok & Hout).
  apply tx_bind_ok in Hout as ([] & s1 & [Hox ->]%abort_if_ok & Hout). apply tx_modify_ok in Hout as ->.
  apply tx_bind_ok in H as ([] & s4 & Hdel & H).
  pose proof (insert_deliveries_ok _ _ _ _ _ _ Hdel) as Hda.
  pose proof (insert_deliveries_same db_outbox _ _ _ ltac:(done) _ _ _ Hdel) as F4.
  pose proof (insert_deliveries_same db_sequences _ _ _ ltac:(done) _ _ _ Hdel) as F1.
  pose proof (insert_deliveries_same db_events _ _ _ ltac:(done) _ _ _ Hdel) as F2.
  pose proof (insert_deliveries_same db_states _ _ _ ltac:(done) _ _ _ Hdel) as F3.
  unfold same_part in *. cbn in F1, F2, F3, F4.
  apply tx_bind_ok in H as ([] & s5 & ->%tx_modify_ok & H).
  apply tx_bind_ok in H as ([] & s6 & ->%tx_modify_ok & H).
  apply tx_ret_ok in H as [<- <-]. cbn in Hpk.
  change (sha256_hex ("event-outbox:v2:" +:+ ge_event_id e0)) with (outbox_id_of (ge_event_id e0)) in *.
  change (anyrow (db_deliveries s4) _) with (has_required (outbox_id_of (ge_event_id e0)) (db_deliveries s4)).
  apply orb_false_iff in Hox as [Hox _]. cbn in Hox.
  assert (db_outbox db !! outbox_id_of (ge_event_id e0) = None) as Hnone
    by by destruct (db_outbox db !! _).
  destruct (has_required (outbox_id_of (ge_event_id e0)) (db_deliveries s4)) eqn:Hreq;
    (split; [done|done|..]; cbn; rewrite ?Hreq; try congruence; try done;
     [by destruct (db_events db !! ge_event_id e0)|by rewrite He0 in Huq|..]).
  rewrite F4, alter_insert_eq. done.
Qed.

Lemma write_event_off_stream now state type payload c k ca co :
  tx_rel (same_part off_stream) (write_event now state type payload c k ca co).
Proof. apply write_event_rel; [apply _|done..]. Qed.

(** ** Committing *)

(** The state [commit] writes. *)
Definition next_state (env : Env) (s : AgentState) : AgentState :=
  s ⟪ st_revision := st_revision s + 1 ⟫ ⟪ st_updated_at := env_now env ⟫.

(** The three records of an outcome, saved. *)
Definition save_outcome (o : Outcome) : Tx Db unit :=
  save_opt save_operation (oc_operation o);;
  save_opt save_attempt (oc_attempt o);;
  save_opt save_approval (oc_approval o).

(** The tables of operations, attempts, approvals and of what belongs to
    FINALIZING: what handlers and [save_outcome] write. *)
Definition ledger (db : Db) :=
  (db_operations db, db_attempts db, db_approvals db, db_decisions db,
   (db_generations db, db_invalidations db, db_receipts db, db_current_receipt db, db_inbox db)).

Record commit_facts (env : Env) (command : Command) (hash : string) (previous : AgentState)
    (o : Outcome) (db : Db) (r : ApplyResult) (db' : Db) : Prop := {
  cf_lifecycle : validate_lifecycle (next_state env (oc_state o)) = true;
  cf_saved : ∃ db1, save_outcome o db = Ok (tt, db1) ∧ ledger db' = ledger db1 ∧
                    committed db1 = committed db;
  cf_row : ∃ old, db_states db !! st_run_id (oc_state o) = Some old ∧
      sr_revision old = st_revision previous ∧
      normal_terminal_requires_finalizing (sr_task_state old) (st_task_state (oc_state o)) = false;
  cf_states : db_states db' = <[st_run_id (oc_state o) :=
      state_row (next_state env (oc_state o)) (next_sequence (st_run_id (oc_state o)) db)]>
      (db_states db);
  cf_runs : db_runs db' =
      alter (project_run (next_state env (oc_state o))) (st_run_id (oc_state o)) (db_runs db);
  cf_transitions : if oc_transition o
      then db_transitions db' = <[env_uuid env 4 :=
             transition_row command previous (next_state env (oc_state o)) (env_now env)]>
             (db_transitions db)
           ∧ db_transitions db !! env_uuid env 4 = None
      else db_transitions db' = db_transitions db;
  cf_event : ∃ e db1 db2, event_written (env_event_now env) (next_state env (oc_state o))
      (event_type command)
      (event_payload command previous (next_state env (oc_state o)) (oc_operation o)
         (oc_attempt o) (oc_approval o))
      (sc_command_id (cm_head command)) (sc_event_key (cm_head command))
      (sc_causation_id (cm_head command))
      (Some (str_or (sc_correlation_id (cm_head command)) (st_run_id (oc_state o)))) db1 e db2 ∧
      db_sequences db1 = db_sequences db ∧ db_events db1 = db_events db ∧
      db_sequences db' = db_sequences db2 ∧ db_events db' = db_events db2 ∧
      r = mkApplyResult (next_state env (oc_state o)) (oc_operation o) (oc_attempt o)
            (oc_approval o) (Some (ge_event_id e)) false;
  cf_outbox : ∃ now st ty p c k ca co e db1 db2, ar_event_id r = Some (ge_event_id e) ∧
      event_written now st ty p c k ca co db1 e db2 ∧
      (db_outbox db1, db_deliveries db1, db_sinks db1) = (db_outbox db, db_deliveries db, db_sinks db) ∧
      (db_outbox db', db_deliveries db') = (db_outbox db2, db_deliveries db2);
  cf_processed : db_processed db' = <[sc_command_id (cm_head command) :=
      mkProcessedRow (st_run_id (oc_state o)) hash r (env_now env)]> (db_processed db)
}.

Lemma save_outcome_committed o : tx_rel (same_part committed) (save_outcome o).
Proof. unfold save_outcome, save_opt. tx_frame. Qed.

Lemma commit_ok env command hash previous o db r db' :
  commit env command hash previous o db = Ok (r, db') →
  commit_facts env command hash previous o db r db'.
Proof.
  unfold commit. intros (st & s0 & [[Hlc ->]%checked_ok ->]%tx_lift_ok & H)%tx_bind_ok.
  fold (next_state env (oc_state o)) in *.
  apply tx_bind_ok in H as ([] & s1 & H1 & H). apply tx_bind_ok in H as ([] & s2 & H2 & H).
  apply tx_bind_ok in H as ([] & s3 & H3 & H).
  assert (save_outcome o db = Ok (tt, s3)) as Hsave.
  { unfold save_outcome. apply tx_bind_ok. exists tt, s1. split; [done|].
    apply tx_bind_ok. by exists tt, s2. }
  pose proof (save_outcome_committed o _ _ _ Hsave) as Hc. clear H1 H2 H3.
  unfold same_part, committed in Hc. injection Hc as Cs Cr Cp Ci Co Ct Csq Ce Csk Cox Cdl Crg Cgr.
  apply tx_bind_ok in H as ([] & s4 & (old & Hold & Hrev & Htrig & ->)%update_state_ok & H).
  apply tx_bind_ok in H as ([] & s5 & ->%tx_modify_ok & H).
  apply tx_bind_ok in H as ([] & s6 & Htr & H).
  apply tx_bind_ok in H as (e & s7 & Hev & H).
  apply tx_bind_ok in H as ([] & s8 & [Hnone ->]%insert_processed_ok & H).
  apply tx_ret_ok in H as [<- <-].
  pose proof (write_event_off_stream _ _ _ _ _ _ _ _ _ _ _ Hev) as Hoff.
  apply write_event_ok in Hev.
  unfold same_part, off_stream in Hoff.
  injection Hoff as Or Oo Oa Oap Op Oi Oob Ode Otr Og Oiv Ore Ocu Oin Osk Org Ogr.
  set (st' := next_state env (oc_state o)) in *.
  set (t := if oc_transition o then _ else _) in Htr.
  assert (∃ tt', s6 = (s3 ⟪ db_states := <[st_run_id st' := state_row st' (sr_snapshot_stream_sequence old)]> (db_states s3) ⟫
       ⟪ db_runs := alter (project_run st') (st_run_id st') (db_runs s3) ⟫) ⟪ db_transitions := tt' ⟫ ∧
     if oc_transition o then tt' = <[env_uuid env 4 := transition_row command previous st' (env_now env)]> (db_transitions s3)
        ∧ db_transitions s3 !! env_uuid env 4 = None
     else tt' = db_transitions s3) as (tt' & -> & Htt).
  { subst t. destruct (oc_transition o).
    - unfold insert_transition in Htr. apply tx_bind_ok in Htr as (d & s9 & [-> ->]%tx_gets_ok & Htr).
      apply tx_bind_ok in Htr as ([] & s9 & [Hpk ->]%abort_if_ok & Htr). abort_inv Htr.
      apply tx_modify_ok in Htr as ->. eexists. split; [done|]. split; [done|].
      cbn in Hpk. by destruct (db_transitions s3 !! _).
    - apply tx_ret_ok in Htr as [_ <-]. exists (db_transitions s3). by destruct s3. }
  clear Htr t. cbn in *.
  split.
  - done.
  - exists s3. split; [done|]. split; [|unfold committed; congruence].
    unfold ledger. cbn. congruence.
  - exists old. rewrite <- Cs. done.
  - cbn. rewrite (ew_states _ _ _ _ _ _ _ _ _ _ _ Hev). cbn. rewrite alter_insert_eq, Cs.
    unfold next_sequence. cbn. by rewrite Csq.
  - cbn. rewrite Or, Cr. done.
  - destruct (oc_transition o); cbn; rewrite Otr; [destruct Htt as [-> ?]; by rewrite <- Ct|].
    by rewrite Htt.
  - eexists e, _, s7. split; [exact Hev|]. cbn. by rewrite Csq, Ce.
  - do 8 eexists. eexists e, _, s7. split; [done|]. split; [exact Hev|]. cbn. by rewrite Cox, Cdl, Csk.
  - cbn. by rewrite Op, Cp.
Qed.

(** ** [apply] *)

Record fresh_run (cfg : Config) (env : Env) (command : Command) (db : Db) (r : ApplyResult)
    (db' : Db) (state : AgentState) (o : Outcome) (db1 : Db) : Prop := {
  fr_new : db_processed db !! sc_command_id (cm_head command) = None;
  fr_state : state_in (sc_run_id (cm_head command)) db = Ok state;
  fr_revision : st_revision state = sc_expected_revision (cm_head command);
  fr_epoch : sc_gateway_epoch (cm_head command) = cf_gateway_epoch cfg;
  fr_fence : match cm_body command with
             | AdoptGatewayEpoch previous _ => previous = st_gateway_epoch state
             | _ => st_gateway_epoch state = cf_gateway_epoch cfg
             end;
  fr_dispatch : dispatch cfg env state command db = Ok (o, db1);
  fr_commit : commit_facts env command (sha256_hex (cf_dump cfg command)) state o db1 r db'
}.

(** A processed command: nothing is written. *)
Definition replayed (cfg : Config) (command : Command) (db : Db) (r : ApplyResult) (db' : Db) : Prop :=
  db' = db ∧ ∃ row, db_processed db !! sc_command_id (cm_head command) = Some row ∧
    pc_command_hash row = sha256_hex (cf_dump cfg command) ∧
    ApplyResult_valid (pc_result row) = true ∧ r = (pc_result row) ⟪ ar_duplicate := true ⟫.

Lemma apply_ok cfg gate env command db r db' :
  apply cfg gate env command db = Ok (r, db') →
  gate = Ok tt ∧
  (replayed cfg command db r db' ∨
   ∃ state o db1, fresh_run cfg env command db r db' state o db1).
Proof.
  unfold apply. intros ([] & s0 & [-> ->]%tx_lift_ok & H)%tx_bind_ok. split; [done|].
  apply tx_bind_ok in H as (d & s1 & [-> ->]%tx_gets_ok & H).
  destruct (db_processed db !! _) as [row|] eqn:Hp.
  - left. apply tx_bind_ok in H as ([] & s1 & [Hh%dec_stable ->]%reject_ok & H).
    apply tx_bind_ok in H as (x & s1 & [[Hv ->]%checked_ok ->]%tx_lift_ok & H).
    apply tx_ret_ok in H as [<- <-]. split; [done|]. eauto.
  - right. apply tx_bind_ok in H as (state & s1 & [Hs ->]%tx_read_ok & H).
    apply tx_bind_ok in H as ([] & s1 & Hf & H).
    apply tx_bind_ok in H as (o & db1 & Hd & H). exists state, o, db1.
    unfold fence in Hf.
    apply tx_bind_ok in Hf as ([] & s2 & [Hr%dec_stable ->]%reject_ok & Hf).
    apply tx_bind_ok in Hf as ([] & s2 & [He%dec_stable ->]%reject_ok & Hf).
    assert (s1 = db ∧ match cm_body command with
             | AdoptGatewayEpoch previous _ => previous = st_gateway_epoch state
             | _ => st_gateway_epoch state = cf_gateway_epoch cfg
             end) as [-> Hfence].
    { destruct (cm_body command); apply reject_ok in Hf as [?%dec_stable ->]; done. }
    split; try done. by apply commit_ok in H.
Qed.

(** ** Coherence of the rows of [agent_states] *)

(** Every row is the projection of the snapshot it stores. *)
Definition states_wf (db : Db) : Prop :=
  ∀ run row, db_states db !! run = Some row →
    st_run_id (sr_body row) = run ∧
    row = state_row (sr_body row) (sr_snapshot_stream_sequence row).

Lemma state_in_ok run db s :
  state_in run db = Ok s ↔
  ∃ row, db_states db !! run = Some row ∧ AgentState_valid (sr_body row) = true ∧ s = sr_body row.
Proof.
  unfold state_in. destruct (db_states db !! run) as [row|].
  - rewrite checked_ok. naive_solver.
  - split; [done|]. by intros (? & ? & _).
Qed.

(** What [apply] did, in terms of the row it found and the row it left. *)
Record stepped (env : Env) (command : Command) (db : Db) (r : ApplyResult) (db' : Db)
    (row : StateRow) (o : Outcome) : Prop := {
  sp_row : db_states db !! sc_run_id (cm_head command) = Some row;
  sp_valid : AgentState_valid (sr_body row) = true;
  sp_run : st_run_id (sr_body row) = sc_run_id (cm_head command);
  sp_result : ar_state r = next_state env (oc_state o) ∧ ar_operation r = oc_operation o ∧
              ar_attempt r = oc_attempt o ∧ ar_approval r = oc_approval o ∧ ar_duplicate r = false;
  sp_lifecycle : validate_lifecycle (ar_state r) = true;
  sp_trigger : normal_terminal_requires_finalizing (st_task_state (sr_body row))
                 (st_task_state (ar_state r)) = false;
  sp_states : db_states db' = <[sc_run_id (cm_head command) :=
      state_row (ar_state r) (next_sequence (sc_run_id (cm_head command)) db)]> (db_states db);
  sp_runs : db_runs db' =
      alter (project_run (ar_state r)) (sc_run_id (cm_head command)) (db_runs db);
  sp_identity : identity (oc_state o) = identity (sr_body row)
}.

Lemma committed_same db db1 :
  committed db1 = committed db →
  db_states db1 = db_states db ∧ db_runs db1 = db_runs db ∧ db_processed db1 = db_processed db ∧
  db_idempotency db1 = db_idempotency db ∧ db_transitions db1 = db_transitions db ∧
  db_sequences db1 = db_sequences db ∧ db_events db1 = db_events db ∧ db_sinks db1 = db_sinks db.
Proof. unfold committed. intros E. injection E as ? ? ? ? ? ? ? ? ? ? ? ? ?. by split_and!. Qed.

Lemma fresh_stepped cfg env command db r db' state o db1 :
  states_wf db → fresh_run cfg env command db r db' state o db1 →
  ∃ row, sr_body row = state ∧ stepped env command db r db' row o.
Proof.
  intros Hwf F. pose proof (fr_state _ _ _ _ _ _ _ _ _ F) as Hs.
  apply state_in_ok in Hs as (row & Hrow & Hv & ->).
  destruct (Hwf _ _ Hrow) as [Hrun Heq].
  pose proof (dispatch_outcome _ _ _ _ _ _ _ (fr_dispatch _ _ _ _ _ _ _ _ _ F)) as Ho.
  destruct Ho as (Hid & _ & _ & _).
  pose proof (dispatch_committed _ _ _ _ _ _ _ (fr_dispatch _ _ _ _ _ _ _ _ _ F)) as Hc.
  apply committed_same in Hc as (Cs & Cr & _ & _ & _ & Csq & _ & _).
  assert (st_run_id (oc_state o) = sc_run_id (cm_head command)) as Hrun'.
  { unfold identity in Hid. injection Hid as ? Hr. by rewrite Hr, Hrun. }
  destruct (fr_commit _ _ _ _ _ _ _ _ _ F) as [Hl _ Hold Hst Hru _ Hev _ _].
  destruct Hev as (e & d1 & d2 & _ & _ & _ & _ & _ & ->).
  destruct Hold as (old & Ho & _ & Ht). rewrite Cs, Hrun', Hrow in Ho. injection Ho as <-.
  rewrite Heq in Ht. exists row. split; [done|]. split; try done.
  - simpl. rewrite Hst, Hrun', Cs. unfold next_sequence. by rewrite Csq.
  - simpl. by rewrite Hru, Hrun', Cr.
Qed.
