(* ===== verification/Observations.v ===== *)
(** * Observations: tool observations and the read methods of StateController

    A finalized tool result is materialized once and published once; a retry
    of either call must repeat the same content
    (gateway/state_controller.py). *)

From S2P Require Import Prelude PyText AgentTypes AgentState Commands Store Events Operations.
From S2P Require Import Frames.

#[local] Open Scope Z_scope.

(** Python's [==] on JSON values: dictionaries compare without order, and a
    bool equals the integer it stands for.  Floats compare by literal. *)
Fixpoint py_eq (a b : json) : bool :=
  match a, b with
  | JNull, JNull => true
  | JBool x, JBool y => bool_decide (x = y)
  | JBool x, JInt n | JInt n, JBool x => Z.b2z x =? n
  | JInt m, JInt n => m =? n
  | JFloat r, JFloat s => bool_decide (r = s)
  | JStr s, JStr t => bool_decide (s = t)
  | JArr l, JArr l' =>
      (fix go (l l' : list json) : bool :=
         match l, l' with
         | [], [] => true
         | x :: l, y :: l' => py_eq x y && go l l'
         | _, _ => false
         end) l l'
  | JObj d, JObj d' =>
      (length d =? length d')%nat
      && forallb (λ kv, match dict_get kv.1 d' with
                        | Some v => py_eq kv.2 v | None => false end) d
  | _, _ => false
  end.

(** The fields a repeated materialization must not change. *)
(* source: gateway/state_controller.py:1893-1901 StateController.materialize_tool_observation *)
Definition same_observation (a b : MaterializedToolObservation) : bool :=
  bool_decide (ob_observation_id a = ob_observation_id b)
  && bool_decide (ob_run_id a = ob_run_id b)
  && bool_decide (ob_operation_id a = ob_operation_id b)
  && bool_decide (ob_attempt_id a = ob_attempt_id b)
  && bool_decide (ob_logical_model_call_id a = ob_logical_model_call_id b)
  && bool_decide (ob_tool_call_id a = ob_tool_call_id b)
  && (ob_position a =? ob_position b) && bool_decide (ob_name a = ob_name b)
  && py_eq (JObj (ob_arguments a)) (JObj (ob_arguments b))
  && bool_decide (ob_status a = ob_status b)
  && bool_decide (ob_finalized_content a = ob_finalized_content b)
  && bool_decide (ob_content_hash a = ob_content_hash b).

(* source: gateway/state_controller.py:1907-1920 StateController.materialize_tool_observation *)
Definition observation_row (o : MaterializedToolObservation) (updated_at : string) : ObservationRow :=
  mkObservationRow (ob_run_id o) (ob_operation_id o) (ob_attempt_id o) (ob_tool_call_id o)
    (ob_position o) (ob_state o) o (ob_content_hash o) (ob_revision o) (ob_created_at o) updated_at.

(** [INSERT INTO tool_observations] *)
(* source: gateway/state_controller.py:1907-1920 StateController.materialize_tool_observation *)
Definition insert_observation (o : MaterializedToolObservation) (updated_at : string) : Tx Db unit :=
  db ← tx_gets (λ db, db);
  abort_if (is_some (db_observations db !! ob_observation_id o)
            || anyrow (db_observations db) (λ r, bool_decide (nr_run_id r = ob_run_id o)
                 && bool_decide (nr_tool_call_id r = ob_tool_call_id o)))
    "tool_observations UNIQUE";;
  abort_if ((ob_position o <? 0) || (ob_revision o <? 0)) "tool_observations CHECK";;
  abort_if (negb (run_exists (ob_run_id o) db
                  && opt_all (λ i, is_some (db_operations db !! i)) (ob_operation_id o)
                  && opt_all (λ i, is_some (db_attempts db !! i)) (ob_attempt_id o)))
    "tool_observations FOREIGN KEY";;
  tx_modify (λ db, db ⟪ db_observations :=
    <[ob_observation_id o := observation_row o updated_at]> (db_observations db) ⟫).

(** The operation and the attempt an observation names belong to it. *)
(* source: gateway/state_controller.py:1864-1886 StateController.materialize_tool_observation *)
Definition check_observation_owner (o : MaterializedToolObservation) : Tx Db unit :=
  tx_read (state_in (ob_run_id o));;
  match ob_operation_id o with
  | Some id =>
      operation ← tx_read (operation_in id);
      reject (op_run_id operation ≠ ob_run_id o)
        (StateInvariantError "Tool observation Operation belongs to another Run");;
      reject (op_tool_call_id operation ≠ Some (ob_tool_call_id o))
        (StateInvariantError "Tool observation tool_call_id mismatch")
  | None => mret tt
  end;;
  match ob_attempt_id o with
  | Some id =>
      attempt ← tx_read (attempt_in id);
      reject (at_run_id attempt ≠ ob_run_id o
              ∨ Some (at_operation_id attempt) ≠ ob_operation_id o)
        (StateInvariantError "Tool observation Attempt identity mismatch");;
      reject (at_status attempt ∉ FINISHED_STATUSES)
        (StateInvariantError "Tool observation requires a determined Attempt")
  | None => mret tt
  end.

(* source: gateway/state_controller.py StateController.materialize_tool_observation *)
Definition materialize_tool_observation (gate : res unit) (env : Env)
    (o : MaterializedToolObservation) : Tx Db MaterializedToolObservation :=
  tx_lift gate;;
  reject (ob_content_hash o ≠ sha256_hex (ob_finalized_content o))
    (StateInvariantError "Tool observation content_hash mismatch");;
  check_observation_owner o;;
  db ← tx_gets (λ db, db);
  match db_observations db !! ob_observation_id o with
  | Some row =>
      existing ← tx_lift (checked "MaterializedToolObservation"
        MaterializedToolObservation_valid (nr_body row));
      require (same_observation existing o = true)
        (StateConflictError "Tool observation content conflict");;
      mret existing
  | None => insert_observation o (env_now env);; mret o
  end.

(* source: gateway/state_controller.py StateController.mark_tool_observation_published *)
Definition mark_tool_observation_published (gate : res unit) (env : Env)
    (observation_id session_record_id : string) : Tx Db MaterializedToolObservation :=
  tx_lift gate;;
  db ← tx_gets (λ db, db);
  row ← tx_lift (res_of_option (KeyError observation_id) (db_observations db !! observation_id));
  existing ← tx_lift (checked "MaterializedToolObservation"
    MaterializedToolObservation_valid (nr_body row));
  if decide (ob_state existing = TO_PUBLISHED) then
    reject (ob_session_record_id existing ≠ Some session_record_id)
      (StateConflictError "Published Tool observation record_id conflict");;
    mret existing
  else
    let published := existing ⟪ ob_state := TO_PUBLISHED ⟫
      ⟪ ob_session_record_id := Some session_record_id ⟫
      ⟪ ob_published_at := Some (env_now env) ⟫ ⟪ ob_revision := ob_revision existing + 1 ⟫ in
    require (nr_revision row = ob_revision existing)
      (StateConflictError "Tool observation publish revision conflict");;
    tx_modify (λ db, db ⟪ db_observations := <[observation_id :=
      row ⟪ nr_state := TO_PUBLISHED ⟫ ⟪ nr_body := published ⟫
          ⟪ nr_revision := ob_revision published ⟫ ⟪ nr_updated_at := env_now env ⟫]>
      (db_observations db) ⟫);;
    mret published.

(** ** Queries *)

(* source: gateway/state_controller.py StateController.tool_observation *)
Definition tool_observation (observation_id : string) (db : Db) :
    res (option MaterializedToolObservation) :=
  match db_observations db !! observation_id with
  | Some row => o ← checked "MaterializedToolObservation"
                      MaterializedToolObservation_valid (nr_body row); mret (Some o)
  | None => mret None
  end.

(** [ORDER BY created_at,position] *)
Definition published_le (a b : ObservationRow) : Prop :=
  if decide (nr_created_at a = nr_created_at b) then nr_position a ≤ nr_position b
  else String.leb (nr_created_at a) (nr_created_at b) = true.
#[export] Instance published_le_dec a b : Decision (published_le a b).
Proof. unfold published_le. case_decide; apply _. Defined.

(* source: gateway/state_controller.py StateController.unpublished_tool_observations *)
Definition unpublished_tool_observations (run_id : string) (db : Db) :
    res (list MaterializedToolObservation) :=
  mapM (λ r, checked "MaterializedToolObservation" MaterializedToolObservation_valid (nr_body r))
    (merge_sort published_le
      (filter (λ r, nr_run_id r = run_id ∧ nr_state r = TO_MATERIALIZED)
        (map snd (map_to_list (db_observations db))))).

(** [ORDER BY updated_at DESC LIMIT 1] *)
Definition op_updated_ge (a b : OpRow) : Prop := String.leb (or_updated_at b) (or_updated_at a) = true.
#[export] Instance op_updated_ge_dec a b : Decision (op_updated_ge a b).
Proof. unfold op_updated_ge. apply _. Defined.

(* source: gateway/state_controller.py StateController.active_operation *)
Definition active_operation (run_id : string) (db : Db) : res (option OperationRecord) :=
  match head (merge_sort op_updated_ge
    (filter (λ r, or_run_id r = run_id ∧ or_status r ∈ [OS_PREPARED; OS_RUNNING; OS_UNKNOWN])
      (map snd (map_to_list (db_operations db))))) with
  | Some row => o ← checked "OperationRecord" OperationRecord_valid (or_body row); mret (Some o)
  | None => mret None
  end.

Definition approval_updated_ge (a b : ApprovalRow) : Prop :=
  String.leb (pr_updated_at b) (pr_updated_at a) = true.
#[export] Instance approval_updated_ge_dec a b : Decision (approval_updated_ge a b).
Proof. unfold approval_updated_ge. apply _. Defined.

(* source: gateway/state_controller.py StateController.list_approvals *)
Definition list_approvals (status : option string) (db : Db) : res (list DurableApproval) :=
  match status with
  | Some s =>
      if decide (s ∈ map ApprovalStatus_value [AS_PENDING; AS_APPROVED; AS_DENIED; AS_TIMEOUT])
      then mret tt else Err (ValueError "Unknown approval status")
  | None => mret tt
  end;;
  mapM (λ r, checked "DurableApproval" DurableApproval_valid (pr_body r))
    (merge_sort approval_updated_ge
      (filter (λ r, opt_all (λ s, bool_decide (ApprovalStatus_value (pr_status r) = s)) status = true)
        (map snd (map_to_list (db_approvals db))))).

(** ** Frames *)

Lemma materialize_rel R `{!PreOrder R} gate env o :
  (∀ db t, R db (db ⟪ db_observations := t ⟫)) → tx_rel R (materialize_tool_observation gate env o).
Proof.
  intros H. unfold materialize_tool_observation, check_observation_owner, insert_observation.
  prim; apply H.
Qed.

Lemma mark_published_rel R `{!PreOrder R} gate env i s :
  (∀ db t, R db (db ⟪ db_observations := t ⟫)) →
  tx_rel R (mark_tool_observation_published gate env i s).
Proof. intros H. unfold mark_tool_observation_published. prim; apply H. Qed.
