(* ===== verification/Outbox.v ===== *)
(** * Outbox: delivery of events to their sinks (gateway/outbox.py)

    [OutboxDispatcher] claims due deliveries under a compare-and-swap, calls
    the sink outside any transaction and settles the delivery.  Each definition
    below is one transaction of the dispatcher; [drain] composes them the way
    [drain_once] does, with the answer of every sink as an argument. *)

From S2P Require Import Prelude PyText PyTime AgentTypes AgentState Sanitizer Commands Store Events.
From S2P Require Import OperationReduce FinalizeEvidence Operations FinalizeOps Controller Frames.

#[local] Open Scope Z_scope.

(** The settings of the dispatcher; the two delays are in microseconds. *)
(* source: gateway/outbox.py OutboxDispatcher.__init__ *)
Record DispatcherConfig := mkDispatcherConfig {
  dc_gateway_epoch : string;
  dc_retry_max_attempts : Z;
  dc_retry_base : Z;
  dc_retry_max : Z;
  dc_dead_letter_enabled : bool
}.

(** What one transaction reads of the clock: [now_iso()], the local time to
    the second, and [datetime.now(timezone.utc)]. *)
Record DispatchEnv := mkDispatchEnv {
  de_now : string;
  de_utc : datetime
}.

(* source: gateway/outbox.py ClaimedDelivery *)
Record ClaimedDelivery := mkClaimedDelivery {
  cd_delivery_id : string;
  cd_attempt_id : string;
  cd_attempt_no : Z;
  cd_revision : Z;
  cd_sink_id : string;
  cd_event_id : string;
  cd_canonical_event_json : string;
  cd_canonical_hash : string
}.

(** ** Due deliveries *)

(** [status IN ('pending','retrying') AND (next_retry_at IS NULL OR next_retry_at<=?)]:
    a comparison of texts. *)
(* source: gateway/outbox.py:253-254 OutboxDispatcher._due_deliveries *)
Definition claimable (now : string) (d : DeliveryRow) : bool :=
  bool_decide (dl_status d ∈ [DS_PENDING; DS_RETRYING])
  && opt_all (λ t, String.leb t now) (dl_next_retry_at d).

(* source: gateway/outbox.py:260-260 OutboxDispatcher._due_deliveries *)
Definition settled (d : DeliveryRow) : bool :=
  bool_decide (dl_status d ∈ [DS_DELIVERED; DS_DEAD_LETTERED]).

(** An earlier event of the stream is not settled for the same sink. *)
(* source: gateway/outbox.py:255-260 OutboxDispatcher._due_deliveries *)
Definition blocked (d : DeliveryRow) (e : EventRow) (db : Db) : bool :=
  anyrow (db_deliveries db) (λ p,
    match db_events db !! dl_event_id p with
    | Some pe => bool_decide (dl_sink_id p = dl_sink_id d)
                 && bool_decide (er_stream_id pe = er_stream_id e)
                 && (er_stream_sequence pe <? er_stream_sequence e) && negb (settled p)
    | None => false
    end).

(** One row of the join, with the columns it is ordered by. *)
(* source: gateway/outbox.py:249-262 OutboxDispatcher._due_deliveries *)
Record DueDelivery := mkDueDelivery {
  du_delivery_id : string;
  du_revision : Z;
  du_created_at : string;
  du_stream_id : string;
  du_stream_sequence : Z;
  du_sink_id : string
}.

(** [ORDER BY o.created_at,e.stream_id,e.stream_sequence,d.sink_id] *)
Definition text_compare (a b : string) (eq : comparison) : comparison :=
  if decide (a = b) then eq else if String.leb a b then Lt else Gt.
(* source: gateway/outbox.py:261-261 OutboxDispatcher._due_deliveries *)
Definition due_le (a b : DueDelivery) : Prop :=
  text_compare (du_created_at a) (du_created_at b)
    (text_compare (du_stream_id a) (du_stream_id b)
      (if decide (du_stream_sequence a = du_stream_sequence b)
       then text_compare (du_sink_id a) (du_sink_id b) Eq
       else if du_stream_sequence a <? du_stream_sequence b then Lt else Gt)) ≠ Gt.
#[export] Instance due_le_dec a b : Decision (due_le a b).
Proof. unfold due_le. apply _. Defined.

(* source: gateway/outbox.py:249-260 OutboxDispatcher._due_deliveries *)
Definition due_row (now : string) (db : Db) (kv : string * DeliveryRow) : option DueDelivery :=
  let '(id, d) := kv in
  o ← db_outbox db !! dl_outbox_id d;
  e ← db_events db !! dl_event_id d;
  if claimable now d && negb (blocked d e db)
  then Some (mkDueDelivery id (dl_revision d) (ox_created_at o) (er_stream_id e)
               (er_stream_sequence e) (dl_sink_id d))
  else None.

(* source: gateway/outbox.py OutboxDispatcher._due_deliveries *)
Definition due_deliveries (now : string) (db : Db) : list DueDelivery :=
  take 100 (merge_sort due_le (omap (due_row now db) (map_to_list (db_deliveries db)))).

(** ** Claiming *)

(* source: gateway/outbox.py:288-290 OutboxDispatcher._claim *)
Definition delivery_attempt_id (delivery_id : string) (attempt_no : Z) : string :=
  sha256_hex ("event-delivery-attempt:" +:+ delivery_id +:+ ":" +:+ str_of_int attempt_no).

(** [INSERT INTO event_delivery_attempts] with its constraints and the index
    one_active_delivery_attempt. *)
(* source: gateway/outbox.py:291-296 OutboxDispatcher._claim *)
Definition insert_delivery_attempt (attempt_id : string) (r : DeliveryAttemptRow) : Tx Db unit :=
  db ← tx_gets (λ db, db);
  abort_if (is_some (db_delivery_attempts db !! attempt_id)) "event_delivery_attempts PRIMARY KEY";;
  abort_if (anyrow (db_delivery_attempts db) (λ r',
      bool_decide (dt_delivery_id r' = dt_delivery_id r)
      && bool_decide (dt_attempt_no r' = dt_attempt_no r))) "event_delivery_attempts UNIQUE";;
  abort_if (bool_decide (dt_status r = DA_DELIVERING)
            && anyrow (db_delivery_attempts db) (λ r',
                 bool_decide (dt_delivery_id r' = dt_delivery_id r)
                 && bool_decide (dt_status r' = DA_DELIVERING))) "one_active_delivery_attempt";;
  abort_if (dt_attempt_no r <? 1) "event_delivery_attempts CHECK";;
  tx_modify (λ db, db ⟪ db_delivery_attempts := <[attempt_id := r]> (db_delivery_attempts db) ⟫).

(** [None]: another worker was faster, and the transaction is rolled back. *)
(* source: gateway/outbox.py OutboxDispatcher._claim *)
Definition claim (cfg : DispatcherConfig) (env : DispatchEnv) (delivery_id : string)
    (expected_revision : Z) : Tx Db (option ClaimedDelivery) :=
  db ← tx_gets (λ db, db);
  match db_deliveries db !! delivery_id with
  | Some d =>
      if (dl_revision d =? expected_revision) && claimable (de_now env) d then
        let row := d ⟪ dl_status := DS_DELIVERING ⟫
          ⟪ dl_attempt_count := dl_attempt_count d + 1 ⟫ ⟪ dl_revision := dl_revision d + 1 ⟫ in
        tx_modify (λ db, db ⟪ db_deliveries := <[delivery_id := row]> (db_deliveries db) ⟫);;
        match db_events db !! dl_event_id d with
        | Some e =>
            match er_canonical_event_json e with
            | Some body =>
                let attempt_no := dl_attempt_count row in
                let attempt_id := delivery_attempt_id delivery_id attempt_no in
                insert_delivery_attempt attempt_id (mkDeliveryAttemptRow delivery_id attempt_no
                  (dc_gateway_epoch cfg) DA_DELIVERING (de_now env) None None None);;
                mret (Some (mkClaimedDelivery delivery_id attempt_id attempt_no (dl_revision row)
                  (dl_sink_id row) (dl_event_id row) body (er_canonical_hash e)))
            | None => tx_fail (RuntimeError "Due delivery has no hot canonical event body")
            end
        | None => tx_fail (RuntimeError "Due delivery has no hot canonical event body")
        end
      else mret None
  | None => mret None
  end.

(** ** Settling *)

(** [UPDATE event_delivery_attempts ... WHERE attempt_id=? AND status='delivering'] *)
(* source: gateway/outbox.py OutboxDispatcher._settle_attempt *)
Definition settle_attempt (c : ClaimedDelivery) (status : DeliveryAttemptStatus) (timestamp : string)
    (error_type error_summary : option string) : Tx Db unit :=
  db ← tx_gets (λ db, db);
  match db_delivery_attempts db !! cd_attempt_id c with
  | Some a =>
      require (dt_status a = DA_DELIVERING) (RuntimeError "Delivery attempt is no longer active");;
      tx_modify (λ db, db ⟪ db_delivery_attempts := <[cd_attempt_id c :=
        a ⟪ dt_status := status ⟫ ⟪ dt_completed_at := Some timestamp ⟫
          ⟪ dt_error_type := error_type ⟫ ⟪ dt_error_summary := error_summary ⟫]>
        (db_delivery_attempts db) ⟫)
  | None => tx_fail (RuntimeError "Delivery attempt is no longer active")
  end.

(** [UPDATE event_deliveries ... WHERE delivery_id=? AND revision=? AND status='delivering'] *)
(* source: gateway/outbox.py:342-353 OutboxDispatcher._finish_success *)
Definition settle_delivery (c : ClaimedDelivery) (f : DeliveryRow → DeliveryRow) (message : string) :
    Tx Db unit :=
  db ← tx_gets (λ db, db);
  match db_deliveries db !! cd_delivery_id c with
  | Some d =>
      require (dl_revision d = cd_revision c ∧ dl_status d = DS_DELIVERING) (RuntimeError message);;
      tx_modify (λ db, db ⟪ db_deliveries := <[cd_delivery_id c :=
        (f d) ⟪ dl_revision := dl_revision d + 1 ⟫]> (db_deliveries db) ⟫)
  | None => tx_fail (RuntimeError message)
  end.

(** The outbox row has a required delivery that is not delivered yet. *)
(* source: gateway/outbox.py:382-383 OutboxDispatcher._complete_outbox_if_ready *)
Definition outstanding (event_id : string) (db : Db) : bool :=
  anyrow (db_deliveries db) (λ d, bool_decide (dl_event_id d = event_id) && dl_required d
    && negb (bool_decide (dl_status d = DS_DELIVERED))).

(** [completed_at IS NULL AND NOT EXISTS (...)] *)
(* source: gateway/outbox.py:381-383 OutboxDispatcher._complete_outbox_if_ready *)
Definition completes (db : Db) (o : OutboxRow) : bool :=
  is_none (ox_completed_at o) && negb (outstanding (ox_event_id o) db).
(* source: gateway/outbox.py:381-381 OutboxDispatcher._complete_outbox_if_ready *)
Definition completed (timestamp : string) (o : OutboxRow) : OutboxRow :=
  o ⟪ ox_completed_at := Some timestamp ⟫ ⟪ ox_revision := ox_revision o + 1 ⟫.

(* source: gateway/outbox.py OutboxDispatcher._complete_outbox_if_ready *)
Definition complete_outbox_if_ready (event_id timestamp : string) : Tx Db unit :=
  tx_modify (λ db, db ⟪ db_outbox :=
    (λ o, if bool_decide (ox_event_id o = event_id) && completes db o
          then completed timestamp o else o) <$> db_outbox db ⟫).

(* source: gateway/outbox.py:312-313 OutboxDispatcher._finish_success *)
Definition set_delivered (timestamp : string) (d : DeliveryRow) : DeliveryRow :=
  d ⟪ dl_status := DS_DELIVERED ⟫ ⟪ dl_next_retry_at := None ⟫ ⟪ dl_last_error_type := None ⟫
    ⟪ dl_last_error := None ⟫ ⟪ dl_delivered_at := Some timestamp ⟫.

(* source: gateway/outbox.py OutboxDispatcher._finish_success *)
Definition finish_success (env : DispatchEnv) (c : ClaimedDelivery) : Tx Db unit :=
  settle_attempt c DA_SUCCEEDED (de_now env) None None;;
  settle_delivery c (set_delivered (de_now env)) "Delivery completion CAS failed";;
  complete_outbox_if_ready (cd_event_id c) (de_now env).

(** An exception of a sink: [type(error).__name__] and [str(error)]. *)
Record SinkError := mkSinkError { se_type : string; se_text : string }.

(* source: gateway/outbox.py:326-326 OutboxDispatcher._finish_failure *)
Definition error_summary (e : SinkError) : string :=
  py_take 2000 (sanitize_text (if decide (se_text e = "") then se_type e else se_text e)).

(* source: gateway/outbox.py:327-327 OutboxDispatcher._finish_failure *)
Definition is_dead (cfg : DispatcherConfig) (attempt_no : Z) : bool :=
  dc_dead_letter_enabled cfg && (dc_retry_max_attempts cfg <=? attempt_no).

(** [min(retry_max_seconds, retry_base_seconds * (2 ** max(0, attempt_no - 1)))]:
    the product of a float and an int, which Python refuses when the int does
    not fit a float. *)
(* source: gateway/outbox.py:328-331 OutboxDispatcher._finish_failure *)
Definition backoff (cfg : DispatcherConfig) (attempt_no : Z) : res Z :=
  let exponent := Z.max 0 (attempt_no - 1) in
  if 1024 <=? exponent then Err (OverflowError "int too large to convert to float")
  else Ok (Z.min (dc_retry_max cfg) (dc_retry_base cfg * 2 ^ exponent)).

(** [a + timedelta(seconds=...)]: a sum outside the years 1 to 9999, or a
    timedelta of more than 999999999 days, is an [OverflowError]. *)
Definition dt_add (a : datetime) (us : Z) : res datetime :=
  let l := dt_local a + us in
  if (0 <=? l) && (l <? max_local) then Ok (mkdatetime l (dt_utcoff a))
  else Err (OverflowError "date value out of range").

(* source: gateway/outbox.py:332-334 OutboxDispatcher._finish_failure *)
Definition next_retry (env : DispatchEnv) (dead : bool) (delay : Z) : res (option string) :=
  if dead then mret None
  else at_ ← dt_add (de_utc env) delay; mret (Some (isoformat at_)).

(* source: gateway/outbox.py:341-350 OutboxDispatcher._finish_failure *)
Definition set_undelivered (dead : bool) (retry_at : option string)
    (error_type summary timestamp : string) (d : DeliveryRow) : DeliveryRow :=
  d ⟪ dl_status := if dead then DS_DEAD_LETTERED else DS_RETRYING ⟫ ⟪ dl_next_retry_at := retry_at ⟫
    ⟪ dl_last_error_type := Some error_type ⟫ ⟪ dl_last_error := Some summary ⟫
    ⟪ dl_dead_lettered_at := if dead then Some timestamp else None ⟫.

(* source: gateway/outbox.py OutboxDispatcher._finish_failure *)
Definition finish_failure (cfg : DispatcherConfig) (env : DispatchEnv) (c : ClaimedDelivery)
    (error : SinkError) : Tx Db unit :=
  let summary := error_summary error in
  let dead := is_dead cfg (cd_attempt_no c) in
  delay ← tx_lift (backoff cfg (cd_attempt_no c));
  retry_at ← tx_lift (next_retry env dead delay);
  settle_attempt c DA_FAILED (de_now env) (Some (se_type error)) (Some summary);;
  settle_delivery c (set_undelivered dead retry_at (se_type error) summary (de_now env))
    "Delivery failure CAS failed".

(** ** Startup *)

(** Rows whose parents are missing. *)
(* source: gateway/outbox.py:392-407 OutboxDispatcher.reconcile_startup *)
Definition delivery_orphans (db : Db) : bool :=
  anyrow (db_delivery_attempts db) (λ a, is_none (db_deliveries db !! dt_delivery_id a))
  || anyrow (db_outbox db) (λ o, is_none (db_events db !! ox_event_id o))
  || anyrow (db_deliveries db) (λ d, is_none (db_outbox db !! dl_outbox_id d)
                                     || is_none (db_events db !! dl_event_id d)).

(** Attempts left in flight by a process that died. *)
(* source: gateway/outbox.py:408-410 OutboxDispatcher.reconcile_startup *)
Definition active_attempts (db : Db) : list (string * string) :=
  omap (λ kv : string * DeliveryAttemptRow,
          if decide (dt_status kv.2 = DA_DELIVERING) then Some (kv.1, dt_delivery_id kv.2) else None)
    (map_to_list (db_delivery_attempts db)).

(* source: gateway/outbox.py:412-417 OutboxDispatcher.reconcile_startup *)
Definition set_interrupted (timestamp : string) (a : DeliveryAttemptRow) : DeliveryAttemptRow :=
  if decide (dt_status a = DA_DELIVERING) then
    a ⟪ dt_status := DA_INTERRUPTED ⟫ ⟪ dt_completed_at := Some timestamp ⟫
      ⟪ dt_error_type := Some "GatewayRestart" ⟫
      ⟪ dt_error_summary := Some "delivery interrupted before durable result" ⟫
  else a.
(* source: gateway/outbox.py:418-423 OutboxDispatcher.reconcile_startup *)
Definition set_retrying (timestamp : string) (d : DeliveryRow) : DeliveryRow :=
  if decide (dl_status d = DS_DELIVERING) then
    d ⟪ dl_status := DS_RETRYING ⟫ ⟪ dl_next_retry_at := Some timestamp ⟫
      ⟪ dl_last_error_type := Some "GatewayRestart" ⟫
      ⟪ dl_last_error := Some "delivery interrupted" ⟫ ⟪ dl_revision := dl_revision d + 1 ⟫
  else d.

(* source: gateway/outbox.py:411-423 OutboxDispatcher.reconcile_startup *)
Fixpoint interrupt (timestamp : string) (active : list (string * string)) (db : Db) : Db :=
  match active with
  | [] => db
  | (attempt_id, delivery_id) :: rest =>
      interrupt timestamp rest
        ((db ⟪ db_delivery_attempts := alter (set_interrupted timestamp) attempt_id
                                         (db_delivery_attempts db) ⟫)
           ⟪ db_deliveries := alter (set_retrying timestamp) delivery_id (db_deliveries db) ⟫)
  end.

(* source: gateway/outbox.py:424-429 OutboxDispatcher.reconcile_startup *)
Definition complete_all (timestamp : string) (db : Db) : Db :=
  db ⟪ db_outbox := (λ o, if completes db o then completed timestamp o else o) <$> db_outbox db ⟫.

(** The result counts the interrupted attempts and the completed rows. *)
(* source: gateway/outbox.py OutboxDispatcher.reconcile_startup *)
Definition reconcile_startup (env : DispatchEnv) : Tx Db (Z * Z) :=
  db ← tx_gets (λ db, db);
  require (delivery_orphans db = false)
    (RuntimeError "Gateway Event delivery invariant violation");;
  let active := active_attempts db in
  tx_modify (interrupt (de_now env) active);;
  db1 ← tx_gets (λ db, db);
  tx_modify (complete_all (de_now env));;
  mret (Z.of_nat (length active),
        Z.of_nat (length (filter (λ o, completes db1 o = true) (map snd (map_to_list (db_outbox db1)))))).

(** ** Draining

    [drain_once] takes a batch of due deliveries and handles them one after the
    other; between two of its transactions the sinks answer.  [SinkAnswer] is
    what the awaited call does: it returns, raises, or is cancelled.  The sinks
    have a state of their own, [S]. *)

Inductive SinkAnswer := Delivered | Raised (e : SinkError) | Cancelled.

Section draining.
Context {S : Type}.

Record DrainResult := mkDrainResult { dr_db : Db; dr_sinks : S; dr_outcome : res Z }.

(** A transaction that raises leaves the store as it was, and the exception
    leaves [drain_once]. *)
(* source: gateway/outbox.py:207-229 OutboxDispatcher.drain_once *)
Fixpoint drain (cfg : DispatcherConfig) (env : nat → DispatchEnv)
    (sink : ClaimedDelivery → S → SinkAnswer * S)
    (due : list DueDelivery) (count : Z) (db : Db) (st : S) : DrainResult :=
  match due with
  | [] => mkDrainResult db st (Ok count)
  | x :: rest =>
      let n := length due in
      match claim cfg (env (2 * n)%nat) (du_delivery_id x) (du_revision x) db with
      | Err e => mkDrainResult db st (Err e)
      | Ok (None, db1) => drain cfg env sink rest count db1 st
      | Ok (Some c, db1) =>
          let (answer, st1) := sink c st in
          let settle :=
            match answer with
            | Delivered => Some (finish_success (env (2 * n + 1)%nat) c)
            | Raised e => Some (finish_failure cfg (env (2 * n + 1)%nat) c e)
            | Cancelled => None
            end in
          match settle with
          | None => mkDrainResult db1 st1 (Err (RuntimeError "CancelledError"))
          | Some tx =>
              match tx db1 with
              | Err e => mkDrainResult db1 st1 (Err e)
              | Ok (_, db2) => drain cfg env sink rest (count + 1) db2 st1
              end
          end
      end
  end.

(** A dispatcher paused for maintenance claims nothing. *)
(* source: gateway/outbox.py OutboxDispatcher.drain_once *)
Definition drain_once (cfg : DispatcherConfig) (paused : bool) (env : nat → DispatchEnv)
    (sink : ClaimedDelivery → S → SinkAnswer * S) (db : Db) (st : S) : DrainResult :=
  if paused then mkDrainResult db st (Ok 0)
  else drain cfg env sink (due_deliveries (de_now (env 0%nat)) db) 0 db st.

(** The loop of the dispatcher until it waits for new events; [fuel] bounds
    its rounds, and [None] is running out of it. *)
(* source: gateway/outbox.py:232-242 OutboxDispatcher._run *)
Fixpoint run_until_idle (cfg : DispatcherConfig) (env : nat → nat → DispatchEnv)
    (sink : ClaimedDelivery → S → SinkAnswer * S) (fuel : nat) (db : Db) (st : S) : option DrainResult :=
  match fuel with
  | O => None
  | Datatypes.S fuel' =>
      let r := drain_once cfg false (env fuel') sink db st in
      match dr_outcome r with
      | Ok processed =>
          if processed =? 0 then Some r else run_until_idle cfg env sink fuel' (dr_db r) (dr_sinks r)
      | Err _ => Some r
      end
  end.

End draining.
Arguments DrainResult : clear implicits.

(** ** Pausing for maintenance *)

(* source: backup/models.py QuiesceResult *)
Record QuiesceResult := mkQuiesceResult {
  qr_participant : string;
  qr_maintenance_epoch : Z;
  qr_acknowledged : bool;
  qr_safe_boundary : option string;
  qr_stale : bool
}.

(** The state is [_paused_epoch]. *)
(* source: gateway/outbox.py OutboxDispatcher.quiesce *)
Definition quiesce (epoch : Z) (paused : option Z) : QuiesceResult * option Z :=
  match paused with
  | Some p =>
      if epoch <? p
      then (mkQuiesceResult "outbox" epoch (epoch =? p) 
              (if epoch =? p then Some "delivery_attempt_persisted" else None) (epoch <? p), paused)
      else (mkQuiesceResult "outbox" epoch true
              (Some "delivery_attempt_persisted_backlog_preserved") false, Some epoch)
  | None => (mkQuiesceResult "outbox" epoch true
               (Some "delivery_attempt_persisted_backlog_preserved") false, Some epoch)
  end.

(* source: gateway/outbox.py OutboxDispatcher.resume *)
Definition resume (epoch : Z) (paused : option Z) : option Z :=
  if decide (paused = Some epoch) then None else paused.

(** ** The dispatcher as a step relation *)

(** A claim that [_claim] returned: its attempt and its delivery exist. *)
Definition claim_of (c : ClaimedDelivery) (db : Db) : Prop :=
  ∃ a d, db_delivery_attempts db !! cd_attempt_id c = Some a ∧
    dt_delivery_id a = cd_delivery_id c ∧ dt_attempt_no a = cd_attempt_no c ∧
    db_deliveries db !! cd_delivery_id c = Some d ∧ dl_event_id d = cd_event_id c ∧
    dl_sink_id d = cd_sink_id c.

(** [_due_deliveries] found the delivery ready: nothing earlier is open. *)
Definition unblocked (id : string) (db : Db) : Prop :=
  ∀ d e, db_deliveries db !! id = Some d → db_events db !! dl_event_id d = Some e →
    blocked d e db = false.

Inductive dispatcher_step : Db → Db → Prop :=
| ds_claim cfg env id rev r db db' :
    unblocked id db → claim cfg env id rev db = Ok (r, db') → dispatcher_step db db'
| ds_success env c u db db' :
    claim_of c db → finish_success env c db = Ok (u, db') → dispatcher_step db db'
| ds_failure cfg env c e u db db' :
    claim_of c db → finish_failure cfg env c e db = Ok (u, db') → dispatcher_step db db'
| ds_reconcile env n db db' :
    reconcile_startup env db = Ok (n, db') → dispatcher_step db db'.

(** The dispatcher writes the tables of the outbox and no other. *)
Definition redelivered (db db' : Db) : Prop :=
  ∃ dl da ob, db' = ((db ⟪ db_deliveries := dl ⟫) ⟪ db_delivery_attempts := da ⟫) ⟪ db_outbox := ob ⟫.

#[export] Instance redelivered_preorder : PreOrder redelivered.
Proof.
  split.
  - intros db. exists (db_deliveries db), (db_delivery_attempts db), (db_outbox db). by destruct db.
  - intros ? ? ? (a & b & c & ->) (a' & b' & c' & ->). by exists a', b', c'.
Qed.
Lemma redelivered_deliveries db t : redelivered db (db ⟪ db_deliveries := t ⟫).
Proof. exists t, (db_delivery_attempts db), (db_outbox db). by destruct db. Qed.
Lemma redelivered_attempts db t : redelivered db (db ⟪ db_delivery_attempts := t ⟫).
Proof. exists (db_deliveries db), t, (db_outbox db). by destruct db. Qed.
Lemma redelivered_outbox db t : redelivered db (db ⟪ db_outbox := t ⟫).
Proof. exists (db_deliveries db), (db_delivery_attempts db), t. by destruct db. Qed.

#[local] Hint Resolve redelivered_deliveries redelivered_attempts redelivered_outbox : core.

Lemma claim_redelivered cfg env id rev : tx_rel redelivered (claim cfg env id rev).
Proof. unfold claim, insert_delivery_attempt. prim; auto. Qed.

Lemma settle_attempt_redelivered c st t a b : tx_rel redelivered (settle_attempt c st t a b).
Proof. unfold settle_attempt. prim; auto. Qed.
Lemma settle_delivery_redelivered c f m : tx_rel redelivered (settle_delivery c f m).
Proof. unfold settle_delivery. prim; auto. Qed.
#[local] Hint Resolve settle_attempt_redelivered settle_delivery_redelivered : core.

Lemma interrupt_redelivered t l : ∀ db, redelivered db (interrupt t l db).
Proof.
  induction l as [|[a d] l IH]; intros db; [reflexivity|]. cbn [interrupt].
  etrans; [|apply IH]. etrans; [apply redelivered_attempts|apply redelivered_deliveries].
Qed.

Lemma dispatcher_redelivered db db' : dispatcher_step db db' → redelivered db db'.
Proof.
  destruct 1 as [cfg env id rev r db db' _ H|env c u db db' _ H|cfg env c e u db db' _ H|env n db db' H].
  - by apply claim_redelivered in H.
  - assert (tx_rel redelivered (finish_success env c)) as Hr; [|by apply Hr in H].
    unfold finish_success, complete_outbox_if_ready.
    prim; auto.
  - assert (tx_rel redelivered (finish_failure cfg env c e)) as Hr; [|by apply Hr in H].
    unfold finish_failure. prim; auto.
  - assert (tx_rel redelivered (reconcile_startup env)) as Hr; [|by apply Hr in H].
    unfold reconcile_startup. prim; [apply interrupt_redelivered|apply redelivered_outbox].
Qed.
