(* ===== verification/OutboxFacts.v ===== *)
(** * OutboxFacts: what each transaction of the dispatcher does

    Inversion of the transactions of Outbox.v, and the state machine that a
    delivery goes through. *)

From stdpp Require Import relations.
From S2P Require Import Prelude PyText PyTime AgentTypes AgentState Sanitizer Commands Store Events.
From S2P Require Import OperationReduce FinalizeEvidence Operations FinalizeOps Controller Frames.
From S2P Require Import Outcomes Apply Observations Outbox.

#[local] Open Scope Z_scope.

(** ** Inversion *)

(** A claim that succeeded. *)
Record claimed (cfg : DispatcherConfig) (env : DispatchEnv) (id : string) (d : DeliveryRow)
    (c : ClaimedDelivery) (db db' : Db) : Prop := {
  cl_row : db_deliveries db !! id = Some d;
  cl_claimable : claimable (de_now env) d = true;
  cl_ids : cd_delivery_id c = id ∧ cd_attempt_no c = dl_attempt_count d + 1 ∧
      cd_attempt_id c = delivery_attempt_id id (dl_attempt_count d + 1) ∧
      cd_revision c = dl_revision d + 1 ∧ cd_sink_id c = dl_sink_id d ∧ cd_event_id c = dl_event_id d;
  cl_body : ∃ e, db_events db !! dl_event_id d = Some e ∧
      er_canonical_event_json e = Some (cd_canonical_event_json c) ∧
      er_canonical_hash e = cd_canonical_hash c;
  cl_fresh : db_delivery_attempts db !! cd_attempt_id c = None;
  cl_idle : ∀ k a, db_delivery_attempts db !! k = Some a → dt_delivery_id a = id →
      dt_status a ≠ DA_DELIVERING;
  cl_number : 1 ≤ dl_attempt_count d + 1;
  cl_deliveries : db_deliveries db' = <[id := ((d ⟪ dl_status := DS_DELIVERING ⟫)
      ⟪ dl_attempt_count := dl_attempt_count d + 1 ⟫) ⟪ dl_revision := dl_revision d + 1 ⟫]>
      (db_deliveries db);
  cl_attempts : db_delivery_attempts db' = <[cd_attempt_id c := mkDeliveryAttemptRow id
      (dl_attempt_count d + 1) (dc_gateway_epoch cfg) DA_DELIVERING (de_now env) None None None]>
      (db_delivery_attempts db);
  cl_outbox : db_outbox db' = db_outbox db;
  cl_events : db_events db' = db_events db
}.

Lemma anyrow_false_lookup {K A} `{Countable K} (m : gmap K A) p k v :
  anyrow m p = false → m !! k = Some v → p v = false.
Proof.
  unfold anyrow. intros Hx Hv. destruct (p v) eqn:E; [|done].
  assert (existsb (λ kv, p kv.2) (map_to_list m) = true) as Hy; [|congruence].
  apply existsb_exists. exists (k, v). split; [|done]. by apply list_elem_of_In, elem_of_map_to_list.
Qed.

Lemma insert_delivery_attempt_ok i r db u db' :
  insert_delivery_attempt i r db = Ok (u, db') →
  db_delivery_attempts db !! i = None ∧ 1 ≤ dt_attempt_no r ∧
  (dt_status r = DA_DELIVERING → ∀ k a, db_delivery_attempts db !! k = Some a →
     dt_delivery_id a = dt_delivery_id r → dt_status a ≠ DA_DELIVERING) ∧
  db' = db ⟪ db_delivery_attempts := <[i := r]> (db_delivery_attempts db) ⟫.
Proof.
  unfold insert_delivery_attempt. intros (d & s1 & [-> ->]%tx_gets_ok & H)%tx_bind_ok.
  apply tx_bind_ok in H as ([] & s1 & [Hp ->]%abort_if_ok & H).
  apply tx_bind_ok in H as ([] & s1 & [_ ->]%abort_if_ok & H).
  apply tx_bind_ok in H as ([] & s1 & [Ha ->]%abort_if_ok & H).
  apply tx_bind_ok in H as ([] & s1 & [Hn ->]%abort_if_ok & H). apply tx_modify_ok in H as ->.
  split_and!; [by destruct (db_delivery_attempts db !! i)|lia| |done].
  intros Hs k a Hk E Hd. rewrite Hs in Ha. cbn in Ha.
  apply (anyrow_false_lookup _ _ _ _ Ha) in Hk. by rewrite E, Hd, !bool_decide_true in Hk.
Qed.

Lemma claim_ok cfg env id rev r db db' :
  claim cfg env id rev db = Ok (r, db') →
  (r = None ∧ db' = db) ∨
  ∃ d c, r = Some c ∧ dl_revision d = rev ∧ claimed cfg env id d c db db'.
Proof.
  unfold claim. intros (x & s1 & [-> ->]%tx_gets_ok & H)%tx_bind_ok.
  destruct (db_deliveries db !! id) as [d|] eqn:Hd; [|apply tx_ret_ok in H as [<- <-]; by left].
  destruct (_ && _) eqn:E; [|apply tx_ret_ok in H as [<- <-]; by left].
  apply andb_true_iff in E as [Hrev%Z.eqb_eq Hc]. cbv zeta in H.
  apply tx_bind_ok in H as ([] & s1 & ->%tx_modify_ok & H).
  destruct (db_events db !! dl_event_id d) as [e|] eqn:He; [|done].
  destruct (er_canonical_event_json e) as [body|] eqn:Hb; [|done].
  apply tx_bind_ok in H as ([] & s1 & (Hf & Hn & Hi & ->)%insert_delivery_attempt_ok & H).
  apply tx_ret_ok in H as [<- <-]. right. exists d. eexists. split; [reflexivity|]. split; [done|].
  cbn in *. split; try done; [by exists e|by apply Hi].
Qed.

(** A settled claim: the attempt [a] and the delivery [d] it was made for. *)
Record settling (c : ClaimedDelivery) (st : DeliveryAttemptStatus) (f : DeliveryRow → DeliveryRow)
    (a : DeliveryAttemptRow) (d : DeliveryRow) (db db' : Db) : Prop := {
  sg_attempt : db_delivery_attempts db !! cd_attempt_id c = Some a;
  sg_active : dt_status a = DA_DELIVERING;
  sg_delivery : db_deliveries db !! cd_delivery_id c = Some d;
  sg_delivering : dl_status d = DS_DELIVERING ∧ dl_revision d = cd_revision c;
  sg_attempts : ∃ a', db_delivery_attempts db' = <[cd_attempt_id c := a']> (db_delivery_attempts db) ∧
      dt_status a' = st ∧ dt_delivery_id a' = dt_delivery_id a ∧ dt_attempt_no a' = dt_attempt_no a;
  sg_deliveries : db_deliveries db' =
      <[cd_delivery_id c := (f d) ⟪ dl_revision := dl_revision d + 1 ⟫]> (db_deliveries db);
  sg_events : db_events db' = db_events db
}.

Lemma settle_attempt_ok c st t x y db u db1 :
  settle_attempt c st t x y db = Ok (u, db1) →
  ∃ a a', db_delivery_attempts db !! cd_attempt_id c = Some a ∧ dt_status a = DA_DELIVERING ∧
    dt_status a' = st ∧ dt_delivery_id a' = dt_delivery_id a ∧ dt_attempt_no a' = dt_attempt_no a ∧
    db1 = db ⟪ db_delivery_attempts := <[cd_attempt_id c := a']> (db_delivery_attempts db) ⟫.
Proof.
  unfold settle_attempt. intros (z & s1 & [-> ->]%tx_gets_ok & H)%tx_bind_ok.
  destruct (db_delivery_attempts db !! _) as [a|] eqn:Ha; [|done].
  apply tx_bind_ok in H as ([] & s1 & [Hs ->]%require_ok & H). apply tx_modify_ok in H as ->.
  exists a. eexists. repeat (split; [done|]). split; [|split; [|split; [|reflexivity]]]; done.
Qed.

Lemma settle_delivery_ok c f m db u db1 :
  settle_delivery c f m db = Ok (u, db1) →
  ∃ d, db_deliveries db !! cd_delivery_id c = Some d ∧ dl_revision d = cd_revision c ∧
    dl_status d = DS_DELIVERING ∧
    db1 = db ⟪ db_deliveries := <[cd_delivery_id c := (f d) ⟪ dl_revision := dl_revision d + 1 ⟫]>
                                  (db_deliveries db) ⟫.
Proof.
  unfold settle_delivery. intros (z & s1 & [-> ->]%tx_gets_ok & H)%tx_bind_ok.
  destruct (db_deliveries db !! _) as [d|] eqn:Hd; [|done].
  apply tx_bind_ok in H as ([] & s1 & [[Hr Hs] ->]%require_ok & H). apply tx_modify_ok in H as ->.
  by exists d.
Qed.

(** Completing an outbox row, as the queries see it: [db] has the deliveries. *)
Definition complete_if (p : OutboxRow → bool) (t : string) (db : Db) (o : OutboxRow) : OutboxRow :=
  if p o && completes db o then Outbox.completed t o else o.

Lemma finish_success_ok env c db u db' :
  finish_success env c db = Ok (u, db') →
  ∃ a d, settling c DA_SUCCEEDED (set_delivered (de_now env)) a d db db' ∧
    db_outbox db' = complete_if (λ o, bool_decide (ox_event_id o = cd_event_id c)) (de_now env) db'
                    <$> db_outbox db.
Proof.
  unfold finish_success. intros ([] & s1 & Ha & H)%tx_bind_ok.
  apply settle_attempt_ok in Ha as (a & a' & Ha & Hs & H1 & H2 & H3 & ->).
  apply tx_bind_ok in H as ([] & s1 & Hd & H).
  apply settle_delivery_ok in Hd as (d & Hd & Hr & Hds & ->). apply tx_modify_ok in H as ->.
  exists a, d. split; [|done]. split; try done. by exists a'.
Qed.

Lemma finish_failure_ok cfg env c e db u db' :
  finish_failure cfg env c e db = Ok (u, db') →
  ∃ a d delay next, backoff cfg (cd_attempt_no c) = Ok delay ∧
    next_retry env (is_dead cfg (cd_attempt_no c)) delay = Ok next ∧
    settling c DA_FAILED (set_undelivered (is_dead cfg (cd_attempt_no c)) next (se_type e)
      (error_summary e) (de_now env)) a d db db' ∧
    db_outbox db' = db_outbox db.
Proof.
  unfold finish_failure. cbv zeta. intros (delay & s1 & [Hb ->]%tx_lift_ok & H)%tx_bind_ok.
  apply tx_bind_ok in H as (next & s1 & [Hn ->]%tx_lift_ok & H).
  apply tx_bind_ok in H as ([] & s1 & Ha & H).
  apply settle_attempt_ok in Ha as (a & a' & Ha & Hs & H1 & H2 & H3 & ->).
  apply settle_delivery_ok in H as (d & Hd & Hr & Hds & ->).
  exists a, d, delay, next. do 2 (split; [done|]). split; [|done]. split; try done. by exists a'.
Qed.

(** ** Startup *)

Lemma elem_of_active db k id :
  (k, id) ∈ active_attempts db ↔
  ∃ a, db_delivery_attempts db !! k = Some a ∧ dt_status a = DA_DELIVERING ∧ dt_delivery_id a = id.
Proof.
  unfold active_attempts. rewrite list_elem_of_omap. split.
  - intros ([k' a] & Hin & H). cbn in H. case_decide; [|done]. injection H as <- <-.
    apply elem_of_map_to_list in Hin. eauto.
  - intros (a & Ha & Hs & <-). exists (k, a). split; [by apply elem_of_map_to_list|].
    cbn. by rewrite decide_True.
Qed.

Lemma interrupt_same {T} (f : Db → T) t l :
  (∀ db x, f (db ⟪ db_delivery_attempts := x ⟫) = f db) →
  (∀ db x, f (db ⟪ db_deliveries := x ⟫) = f db) → ∀ db, f (interrupt t l db) = f db.
Proof.
  intros H1 H2. induction l as [|[k id] l IH]; intros db; [done|]. cbn [interrupt]. by rewrite IH, H2, H1.
Qed.

Lemma set_interrupted_idem t a : set_interrupted t (set_interrupted t a) = set_interrupted t a.
Proof. unfold set_interrupted at 2 3. case_decide as E; [done|]. unfold set_interrupted. by rewrite decide_False. Qed.
Lemma set_retrying_idem t d : set_retrying t (set_retrying t d) = set_retrying t d.
Proof. unfold set_retrying at 2 3. case_decide as E; [done|]. unfold set_retrying. by rewrite decide_False. Qed.

(** Updating by an idempotent function at a sequence of keys. *)
Lemma alter_again {A} (f : A → A) (m : gmap string A) k k' (l : list string) :
  (∀ a, f (f a) = f a) →
  (λ a, if decide (k' ∈ l) then f a else a) <$> (alter f k m !! k')
  = (λ a, if decide (k' ∈ k :: l) then f a else a) <$> (m !! k').
Proof.
  intros Hf. destruct (decide (k' = k)) as [->|Hne].
  - rewrite lookup_alter_eq, <- option_fmap_compose. apply option_fmap_ext. intros a. cbn.
    rewrite (decide_True (P := k ∈ k :: l)) by left. by case_decide.
  - rewrite lookup_alter_ne by done. apply option_fmap_ext. intros a.
    apply decide_ext. set_solver.
Qed.

Lemma interrupt_lookup t l : ∀ db k,
  db_delivery_attempts (interrupt t l db) !! k
    = (λ a, if decide (k ∈ l.*1) then set_interrupted t a else a) <$> db_delivery_attempts db !! k ∧
  db_deliveries (interrupt t l db) !! k
    = (λ d, if decide (k ∈ l.*2) then set_retrying t d else d) <$> db_deliveries db !! k.
Proof.
  induction l as [|[i id] l IH]; intros db k; cbn [interrupt].
  - cbn. split; symmetry; apply option_fmap_id.
  - destruct (IH ((db ⟪ db_delivery_attempts := alter (set_interrupted t) i (db_delivery_attempts db) ⟫)
      ⟪ db_deliveries := alter (set_retrying t) id (db_deliveries db) ⟫) k) as [-> ->].
    split; apply alter_again; [apply set_interrupted_idem|apply set_retrying_idem].
Qed.

(** An attempt of the delivery is in flight. *)
Definition in_flight (id : string) (db : Db) : bool :=
  bool_decide (id ∈ (active_attempts db).*2).

Lemma in_flight_spec id db :
  in_flight id db = true ↔
  ∃ k a, db_delivery_attempts db !! k = Some a ∧ dt_status a = DA_DELIVERING ∧ dt_delivery_id a = id.
Proof.
  unfold in_flight. rewrite bool_decide_eq_true, list_elem_of_fmap. split.
  - intros ([k i] & -> & (a & ?)%elem_of_active). eauto.
  - intros (k & a & H). exists (k, id). split; [done|]. apply elem_of_active. eauto.
Qed.

Record reconciled (t : string) (n : Z * Z) (db db' : Db) : Prop := {
  rc_sound : delivery_orphans db = false;
  rc_count : n.1 = Z.of_nat (length (active_attempts db));
  rc_attempts : db_delivery_attempts db' = set_interrupted t <$> db_delivery_attempts db;
  rc_deliveries : ∀ k, db_deliveries db' !! k =
      (λ d, if in_flight k db then set_retrying t d else d) <$> db_deliveries db !! k;
  rc_outbox : db_outbox db' = complete_if (λ _, true) t db' <$> db_outbox db;
  rc_events : db_events db' = db_events db
}.

Lemma reconcile_ok env n db db' :
  reconcile_startup env db = Ok (n, db') → reconciled (de_now env) n db db'.
Proof.
  unfold reconcile_startup. intros (x & s1 & [-> ->]%tx_gets_ok & H)%tx_bind_ok.
  apply tx_bind_ok in H as ([] & s1 & [Ho ->]%require_ok & H). cbv zeta in H.
  apply tx_bind_ok in H as ([] & s1 & ->%tx_modify_ok & H).
  apply tx_bind_ok in H as (x & s1 & [-> ->]%tx_gets_ok & H).
  apply tx_bind_ok in H as ([] & s1 & ->%tx_modify_ok & H). apply tx_ret_ok in H as [<- <-].
  set (l := active_attempts db). set (t := de_now env).
  split; [done|done| | | |].
  - apply map_eq. intros k. cbn. destruct (interrupt_lookup t l db k) as [-> _].
    rewrite lookup_fmap. destruct (db_delivery_attempts db !! k) as [a|] eqn:Ha; [|done]. cbn.
    case_decide as Hin; [done|]. unfold set_interrupted. rewrite decide_False; [done|].
    intros Hs. apply Hin, list_elem_of_fmap. exists (k, dt_delivery_id a). split; [done|].
    apply elem_of_active. eauto.
  - intros k. cbn. destruct (interrupt_lookup t l db k) as [_ ->]. apply option_fmap_ext.
    intros d. unfold in_flight. fold l. by destruct (decide (k ∈ l.*2)) as [Hk|Hk];
      [rewrite bool_decide_true|rewrite bool_decide_false].
  - cbn. by rewrite (interrupt_same db_outbox).
  - cbn. by rewrite (interrupt_same db_events).
Qed.

(** ** The life of a delivery *)

(** The policy a delivery was created with (trigger immutable_delivery_snapshot). *)
(* source: gateway/state_controller.py@TRIGGER immutable_delivery_snapshot *)
Definition frozen (d : DeliveryRow) :=
  (dl_outbox_id d, dl_event_id d, dl_sink_id d, dl_required d, dl_sink_config_version d,
   dl_sink_config_hash d).

Inductive delivery_edge : DeliveryStatus → DeliveryStatus → Prop :=
| edge_claim s : s = DS_PENDING ∨ s = DS_RETRYING → delivery_edge s DS_DELIVERING
| edge_deliver : delivery_edge DS_DELIVERING DS_DELIVERED
| edge_retry : delivery_edge DS_DELIVERING DS_RETRYING
| edge_dead : delivery_edge DS_DELIVERING DS_DEAD_LETTERED.

Definition delivery_moves (d d' : DeliveryRow) : Prop :=
  d' = d ∨
  frozen d' = frozen d ∧ delivery_edge (dl_status d) (dl_status d') ∧
  dl_revision d' = dl_revision d + 1 ∧
  dl_attempt_count d' = dl_attempt_count d + (if decide (dl_status d' = DS_DELIVERING) then 1 else 0).

Definition outbox_moves (o o' : OutboxRow) : Prop :=
  o' = o ∨ ox_completed_at o = None ∧ ∃ t, o' = Outbox.completed t o.

(** Row by row: none is added, none is lost, each one moves. *)
Definition rows_move {A} (R : A → A → Prop) (m m' : gmap string A) : Prop :=
  ∀ k, match m !! k, m' !! k with
       | Some a, Some a' => R a a' | None, None => True | _, _ => False end.

Lemma rows_move_fmap {A} (R : A → A → Prop) m m' (f : string → A → A) :
  (∀ k, m' !! k = f k <$> m !! k) → (∀ k a, m !! k = Some a → R a (f k a)) → rows_move R m m'.
Proof. intros E H k. rewrite E. destruct (m !! k) eqn:Hk; [by apply H|done]. Qed.

Lemma rows_move_refl {A} (R : A → A → Prop) m : (∀ a, R a a) → rows_move R m m.
Proof. intros H k. destruct (m !! k); [apply H|done]. Qed.

Lemma rows_move_insert {A} (R : A → A → Prop) m k a a' :
  (∀ a, R a a) → m !! k = Some a → R a a' → rows_move R m (<[k := a']> m).
Proof.
  intros Hr Hk Ha i. destruct (decide (i = k)) as [->|Hne].
  - by rewrite Hk, lookup_insert_eq.
  - rewrite lookup_insert_ne by done. destruct (m !! i); [apply Hr|done].
Qed.

Lemma rows_move_fwd {A} (R : A → A → Prop) m m' k a :
  rows_move R m m' → m !! k = Some a → ∃ a', m' !! k = Some a' ∧ R a a'.
Proof. intros H Hk. specialize (H k). rewrite Hk in H. destruct (m' !! k); [eauto|done]. Qed.
Lemma rows_move_bwd {A} (R : A → A → Prop) m m' k a' :
  rows_move R m m' → m' !! k = Some a' → ∃ a, m !! k = Some a ∧ R a a'.
Proof. intros H Hk. specialize (H k). rewrite Hk in H. destruct (m !! k); [eauto|done]. Qed.

Lemma settling_moves c st f a d db db' :
  settling c st f a d db db' → frozen (f d) = frozen d → dl_attempt_count (f d) = dl_attempt_count d →
  dl_status (f d) ≠ DS_DELIVERING → delivery_edge DS_DELIVERING (dl_status (f d)) →
  rows_move delivery_moves (db_deliveries db) (db_deliveries db').
Proof.
  intros S Hf Hc Hs He. rewrite (sg_deliveries _ _ _ _ _ _ _ S).
  apply (rows_move_insert _ _ _ d); [by left|apply (sg_delivery _ _ _ _ _ _ _ S)|]. right.
  destruct (sg_delivering _ _ _ _ _ _ _ S) as [-> _]. cbn.
  rewrite decide_False by done. split; [exact Hf|]. split; [done|]. split; [done|]. rewrite Hc. lia.
Qed.

Lemma complete_if_moves p t db o : outbox_moves o (complete_if p t db o).
Proof.
  unfold complete_if. destruct (p o && _) eqn:E; [|by left].
  apply andb_true_iff in E as [_ E]. unfold completes in E. apply andb_true_iff in E as [E _].
  right. split; [by destruct (ox_completed_at o)|]. by exists t.
Qed.

Lemma retrying_moves t d : delivery_moves d (set_retrying t d).
Proof.
  unfold set_retrying. case_decide as E; [|by left]. right. rewrite E.
  split; [done|]. split; [apply edge_retry|]. split; [done|]. rewrite decide_False by done. cbn. lia.
Qed.

Lemma dispatcher_moves db db' :
  dispatcher_step db db' →
  rows_move delivery_moves (db_deliveries db) (db_deliveries db') ∧
  rows_move outbox_moves (db_outbox db) (db_outbox db').
Proof.
  assert (∀ o, outbox_moves o o) as Ho by (by left).
  assert (∀ d, delivery_moves d d) as Hd by (by left).
  destruct 1 as [cfg env id rev r db db' _ H|env c u db db' _ H|cfg env c e u db db' _ H|env n db db' H].
  - apply claim_ok in H as [[_ ->]|(d & c & _ & _ & C)]; [by split; apply rows_move_refl|].
    rewrite (cl_outbox _ _ _ _ _ _ _ C), (cl_deliveries _ _ _ _ _ _ _ C).
    split; [|by apply rows_move_refl].
    apply (rows_move_insert _ _ _ d); [done|apply (cl_row _ _ _ _ _ _ _ C)|]. right. cbn.
    split; [done|]. split; [|done]. apply edge_claim.
    pose proof (cl_claimable _ _ _ _ _ _ _ C) as Hc. unfold claimable in Hc.
    apply andb_true_iff in Hc as [Hc%bool_decide_eq_true _]. elem_cases Hc; auto.
  - apply finish_success_ok in H as (a & d & S & ->). split.
    + apply (settling_moves _ _ _ _ _ _ _ S); try done. apply edge_deliver.
    + eapply rows_move_fmap; [intros; apply lookup_fmap|intros; apply complete_if_moves].
  - apply finish_failure_ok in H as (a & d & delay & next & _ & _ & S & ->). split.
    + apply (settling_moves _ _ _ _ _ _ _ S); unfold set_undelivered; try done; cbn;
        destruct (is_dead _ _); first [done|constructor].
    + by apply rows_move_refl.
  - apply reconcile_ok in H as R. split.
    + eapply rows_move_fmap; [apply (rc_deliveries _ _ _ _ R)|]. intros k d _. cbn.
      destruct (in_flight k db); [apply retrying_moves|done].
    + rewrite (rc_outbox _ _ _ _ R).
      eapply rows_move_fmap; [intros; apply lookup_fmap|intros; apply complete_if_moves].
Qed.
