(* ===== verification/System.v ===== *)
(** * System: the reachable stores of the control plane

    A step of the system is one committed transaction of the controller.  An
    epoch may change between two steps (another Gateway instance), so every
    step has a controller of its own.  A transaction that raises leaves the
    store as it was and is no step. *)

From stdpp Require Import relations.
From S2P Require Import Prelude PyText PyTime Sanitizer Json AgentTypes AgentState Commands.
From S2P Require Import OperationReduce FinalizeEvidence Store Events Operations FinalizeOps.
From S2P Require Import Controller Frames Outcomes Apply Observations Outbox.

#[local] Open Scope Z_scope.

Inductive gateway_step : Db → Db → Prop :=
| step_apply cfg gate env c r db db' :
    command_valid c = true → apply cfg gate env c db = Ok (r, db') → gateway_step db db'
| step_create_run cfg env rq r db db' :
    create_run cfg env rq db = Ok (r, db') → gateway_step db db'
| step_create_state cfg env rq s db db' :
    create_state cfg env rq db = Ok (s, db') → gateway_step db db'
| step_materialize gate env o o' db db' :
    materialize_tool_observation gate env o db = Ok (o', db') → gateway_step db db'
| step_publish gate env i s o db db' :
    mark_tool_observation_published gate env i s db = Ok (o, db') → gateway_step db db'
| step_dispatcher db db' : dispatcher_step db db' → gateway_step db db'.

(** ** Fresh identifiers

    [_create_operation_with_attempt], [_begin_operation_attempt] and the two
    finalize writers do not check that the operation and attempt ids they are
    given are unused: the upserts would overwrite another record.  The clients
    draw them from [uuid4] or derive them from the Run; [fresh_ids] says so. *)
Definition fresh_ids (env : Env) (c : Command) (db : Db) : bool :=
  let new_operation id := is_none (db_operations db !! id) in
  let new_attempt id := is_none (db_attempts db !! id) in
  match cm_body c with
  | CreateOperationWithAttempt b =>
      is_some (operation_by_key (sc_run_id (cm_head c)) (co_kind b) (co_stable_key b) db)
      || new_operation (co_operation_id b) && new_attempt (co_attempt_id b)
  | BeginOperationAttempt b => new_attempt (ba_attempt_id b)
  | BeginOperation b =>
      is_some (db_operations db !! bo_operation_id b)
      || new_attempt ("attempt:" +:+ bo_operation_id b +:+ ":1")
  | FinalizeAudit b => new_operation (fa_operation_id b) && new_attempt (fa_attempt_id b)
  | FinalizeInbox b => new_operation (fi_operation_id b) && new_attempt (fi_attempt_id b)
  | RecoveryDecision _ => new_attempt (env_uuid env 1)
  | _ => true
  end.

(** The steps of a system whose clients never reuse an identifier. *)
Inductive tidy_step : Db → Db → Prop :=
| tidy_apply cfg gate env c r db db' :
    command_valid c = true → fresh_ids env c db = true →
    apply cfg gate env c db = Ok (r, db') → tidy_step db db'
| tidy_other db db' :
    gateway_step db db' → db_operations db' = db_operations db →
    db_attempts db' = db_attempts db → tidy_step db db'.

(** A fresh database: the schema, some event sinks and runtime generations. *)
Definition initial (db : Db) : Prop :=
  ∃ sinks gens, db = (empty_db ⟪ db_sinks := sinks ⟫) ⟪ db_runtime_generations := gens ⟫.

Definition reachable (db : Db) : Prop := ∃ db0, initial db0 ∧ rtc gateway_step db0 db.

Definition tidy_reachable (db : Db) : Prop := ∃ db0, initial db0 ∧ rtc tidy_step db0 db.

Lemma tidy_gateway db db' : tidy_step db db' → gateway_step db db'.
Proof. intros []; [by eapply step_apply|done]. Qed.
Lemma tidy_is_reachable db : tidy_reachable db → reachable db.
Proof.
  intros (db0 & Hi & Hr). exists db0. split; [done|].
  eapply rtc_congruence with (f := id); [|exact Hr]. exact tidy_gateway.
Qed.

Lemma reachable_ind' (P : Db → Prop) :
  (∀ db, initial db → P db) → (∀ db db', P db → gateway_step db db' → P db') →
  ∀ db, reachable db → P db.
Proof.
  intros H0 HS db (db0 & Hi & Hr). specialize (H0 _ Hi). clear Hi.
  induction Hr as [|x y z Hxy _ IH]; eauto.
Qed.

(** ** Preorders closed under every write *)

Record closed (R : Db → Db → Prop) : Prop := {
  cl_preorder : PreOrder R;
  cl_operation : ∀ o, tx_rel R (save_operation o);
  cl_attempt : ∀ a, tx_rel R (save_attempt a);
  cl_insert_approval : ∀ a u, tx_rel R (insert_approval a u);
  cl_approval : ∀ a, tx_rel R (save_approval a);
  cl_decision : ∀ i r, tx_rel R (insert_decision i r);
  cl_generation : ∀ r, tx_rel R (insert_finalize_generation r);
  cl_invalidation : ∀ i r, tx_rel R (insert_invalidation i r);
  cl_receipt : ∀ i r, tx_rel R (insert_receipt i r);
  cl_current_receipt : ∀ i r t, tx_rel R (set_current_receipt i r t);
  cl_inbox : ∀ i r, tx_rel R (insert_inbox i r);
  cl_transition : ∀ i r, tx_rel R (insert_transition i r);
  cl_processed : ∀ i r, tx_rel R (insert_processed i r);
  cl_state : ∀ s r, tx_rel R (update_state s r);
  cl_new_state : ∀ s, tx_rel R (insert_state s);
  cl_projection : ∀ s, tx_rel R (update_run_projection s);
  cl_event : ∀ n s ty p c k ca co, json_wf (JObj p) = true → tx_rel R (write_event n s ty p c k ca co);
  cl_run : ∀ id r, tx_rel R (insert_run id r);
  cl_sequence : ∀ id, tx_rel R (insert_sequence id);
  cl_idempotency : ∀ db t, R db (db ⟪ db_idempotency := t ⟫);
  cl_references : ∀ db t, R db (db ⟪ db_generation_refs := t ⟫);
  cl_observation : ∀ db t, R db (db ⟪ db_observations := t ⟫);
  cl_dispatcher : ∀ db db', dispatcher_step db db' → R db db'
}.

Section closed.
Context (R : Db → Db → Prop) (C : closed R).
#[local] Instance closed_preorder : PreOrder R := cl_preorder R C.

Lemma apply_rel cfg gate env c : payload_wf (cm_body c) = true → tx_rel R (apply cfg gate env c).
Proof.
  intros Hc. pose proof (λ b a o t p, event_payload_wf c b a o t p Hc).
  destruct C. unfold apply, commit, fence, save_opt. tx_frame; auto.
  apply dispatch_rel; auto.
Qed.

Lemma bind_runtime_generation_rel r g t : tx_rel R (bind_runtime_generation r g t).
Proof. destruct C. unfold bind_runtime_generation. prim; auto. Qed.

Lemma create_state_rel cfg env rq : tx_rel R (create_state cfg env rq).
Proof. destruct C. unfold create_state, write_created. tx_frame; auto. Qed.

Lemma create_run_rel cfg env rq : tx_rel R (create_run cfg env rq).
Proof.
  pose proof bind_runtime_generation_rel. destruct C.
  unfold create_run, write_created. tx_frame; auto; apply tx_rel_modify; auto.
Qed.

Lemma gateway_step_rel db db' : gateway_step db db' → R db db'.
Proof.
  destruct 1 as [cfg gate env c r db db' Hc H|cfg env rq r db db' H|cfg env rq s db db' H
    |gate env o o' db db' H|gate env i s o db db' H|db db' H].
  - apply command_payload in Hc. by apply apply_rel in H.
  - by apply create_run_rel in H.
  - by apply create_state_rel in H.
  - by apply (materialize_rel R) in H; [|destruct C..].
  - by apply (mark_published_rel R) in H; [|destruct C..].
  - by apply (cl_dispatcher R C).
Qed.
End closed.

(** An invariant closed under every write holds of every reachable store. *)
Lemma reachable_keeps (P : Db → Prop) :
  closed (keeps P) → (∀ db, initial db → P db) → ∀ db, reachable db → P db.
Proof.
  intros C H0. apply reachable_ind'; [done|].
  intros db db' H Hstep. by apply (gateway_step_rel _ C) in Hstep; apply Hstep.
Qed.

(** Creating a Run and recording observations write no operation, no attempt
    and no approval. *)
Definition ledger_tables (db : Db) := (db_operations db, db_attempts db, db_approvals db).

Lemma create_run_ledger cfg env rq : tx_rel (same_part ledger_tables) (create_run cfg env rq).
Proof.
  unfold create_run, write_created, bind_runtime_generation, insert_run, insert_sequence,
    update_run_projection.
  prim; try done; apply insert_state_rel; try done; apply _.
Qed.

Lemma create_state_ledger cfg env rq : tx_rel (same_part ledger_tables) (create_state cfg env rq).
Proof.
  unfold create_state, write_created, update_run_projection.
  prim; try done; apply insert_state_rel; try done; apply _.
Qed.

(** A step is a command, or it leaves the ledger alone. *)
Lemma step_ledger db db' :
  gateway_step db db' →
  ledger_tables db' = ledger_tables db ∨
  ∃ cfg gate env c r, command_valid c = true ∧ apply cfg gate env c db = Ok (r, db').
Proof.
  intros [cfg gate env c r db1 db2 Hc H|cfg env rq r db1 db2 H|cfg env rq s db1 db2 H
    |gate env o o' db1 db2 H|gate env i s o db1 db2 H|db1 db2 H].
  - right. by exists cfg, gate, env, c, r.
  - left. apply (create_run_ledger _ _ _ _ _ _ H).
  - left. apply (create_state_ledger _ _ _ _ _ _ H).
  - left. by apply (materialize_rel (same_part ledger_tables)) in H.
  - left. by apply (mark_published_rel (same_part ledger_tables)) in H.
  - left. apply dispatcher_redelivered in H as (dl & da & ob & ->). done.
Qed.
