(* ===== verification/Demo.v ===== *)
(** * Demo: one Run, executed

    A concrete Run from its creation to SUCCEEDED, as the commands an
    orchestrator submits.  [demo n] is the store after the first [n] of them;
    the witnesses of the other files apply their theorems to these stores. *)

From stdpp Require Import relations.
From S2P Require Import Prelude PyText PyTime AgentTypes AgentState Sanitizer Commands.
From S2P Require Import OperationReduce FinalizeEvidence Store Events Operations FinalizeOps.
From S2P Require Import Controller System.

#[local] Open Scope Z_scope.

Definition demo_cfg : Config := mkConfig "epoch-1" (λ c, sc_command_id (cm_head c)).
(** The same controller after a restart: another epoch. *)
Definition demo_cfg2 : Config := mkConfig "epoch-2" (λ c, sc_command_id (cm_head c)).

Definition demo_time (n : nat) : string :=
  "2026-01-01T00:00:" +:+ (if (n <? 10)%nat then "0" else "") +:+ str_of_int (Z.of_nat n) +:+ "+00:00".
Definition demo_env (n : nat) : Env :=
  mkEnv (demo_time n) (demo_time n)
    (λ i, "uuid-" +:+ str_of_int (Z.of_nat n) +:+ "-" +:+ str_of_int (Z.of_nat i)).

Definition demo_hash (s : string) : string := sha256_hex s.

Definition demo_request : RunRequest :=
  mkRunRequest "run-1" WK_CRON "project-1" "client-1" "tidy the notes" "key-1" (demo_hash "request")
    None None None None None "default" "medium" None.

Definition demo_policy : RetryPolicySnapshot := mkRetryPolicySnapshot 3 0 0 true false false.

Definition demo_create (id stable_key request_hash : string) (kind : OperationKind)
    (side_effecting : bool) : CommandBody :=
  CreateOperationWithAttempt (mkCreateOperationWithAttemptCommand id ("attempt-" +:+ id) None None
    kind "operation" stable_key request_hash
    (if side_effecting then TI_NON_IDEMPOTENT else TI_IDEMPOTENT) side_effecting
    None None None None None None None None demo_policy).

Definition demo_move (t : TaskState) (target : option TerminalTarget) : CommandBody :=
  Transition (mkTransitionCommand (Some t) None None None target "demo" None None).

(** The state the finalize identities are derived from: only the run id,
    the project, the turn and the target matter. *)
Definition demo_final_state : AgentState :=
  match initial_state demo_cfg demo_request (demo_time 0) with
  | Ok s => s ⟪ st_terminal_target := Some TT_SUCCEEDED ⟫
  | Err _ => mkAgentState 0 "" "" WK_CRON PC_CONTROL_ONLY "" None "" None "" "" TS_CREATED None
      None None None None None None None None None false None None 0 0 0 0 [] "" None None "" None
      "" None None None
  end.
Definition demo_identity (s : FinalizeStep) : FinalizeOperationIdentity :=
  match for_step demo_final_state 1 s with
  | Ok i => i | Err _ => mkIdentity "" 0 s "" "" ""
  end.

Definition demo_head (s : FinalizeStep) (attempt_id : string) : EvidenceHead :=
  mkEvidenceHead s "run-1" 1 (id_operation_id (demo_identity s)) attempt_id.
Definition demo_encoded (e : FinalizeStepEvidence) : EncodedFinalizeEvidence :=
  match encode e with Ok x => x | Err _ => mkEncoded e "" "" end.

(** Memory and session index do not apply to a control-only workload. *)
Definition demo_skipped (s : FinalizeStep) : EncodedFinalizeEvidence :=
  demo_encoded (NotApplicable (mkNotApplicable
    (demo_head s ("attempt-" +:+ id_operation_id (demo_identity s))) "cron" PC_CONTROL_ONLY
    "control_only_workload")).
Definition demo_file_step (s : FinalizeStep) (kind : OperationKind) : list CommandBody :=
  let i := demo_identity s in
  let a := "attempt-" +:+ id_operation_id i in
  [demo_create (id_operation_id i) (id_stable_key i) (id_request_hash i) kind false;
   StartOperationAttempt a None;
   CompleteOperationAttempt a (en_serialized (demo_skipped s)) (en_result_hash (demo_skipped s))
     "finalize"].

Definition demo_receipt : string := json_dumps (JObj [("run", JStr "run-1")]).
Definition demo_audit : CommandBody :=
  let i := demo_identity FS_AUDIT in
  let reference (s : FinalizeStep) := "attempt-" +:+ id_operation_id (demo_identity s) in
  let e := demo_encoded (Verified (mkVerified (demo_head FS_AUDIT "attempt-audit")
    "run_audit_receipt" "receipt-1" (demo_hash demo_receipt) "canonical_hash"
    (no_references
       ⟪ fr_memory_attempt_id := Some (reference FS_MEMORY) ⟫
       ⟪ fr_memory_result_hash := Some (en_result_hash (demo_skipped FS_MEMORY)) ⟫
       ⟪ fr_session_index_attempt_id := Some (reference FS_SESSION_INDEX) ⟫
       ⟪ fr_session_index_result_hash := Some (en_result_hash (demo_skipped FS_SESSION_INDEX)) ⟫
       ⟪ fr_receipt_id := Some "receipt-1" ⟫))) in
  FinalizeAudit (mkFinalizeAuditCommand (id_operation_id i) "attempt-audit" 1 (id_stable_key i)
    (id_request_hash i) "receipt-1" 1 demo_receipt (demo_hash demo_receipt)
    (en_serialized e) (en_result_hash e)).
Definition demo_inbox : CommandBody :=
  let i := demo_identity FS_INBOX in
  FinalizeInbox (mkFinalizeInboxCommand (id_operation_id i) "attempt-inbox" 1 (id_stable_key i)
    (id_request_hash i) "done" "all notes are tidy" "completed").

Definition demo_approval : DurableApproval :=
  mkDurableApproval "approval-1" "op-2" "attempt-op-2" 1 "tool:2" (demo_hash "op-2") "run-1"
    "client-1" "write" (demo_hash "arguments") "{}" AS_PENDING (demo_time 12) (demo_time 59)
    None None None.
Definition demo_again : BeginOperationAttemptCommand :=
  mkBeginOperationAttemptCommand "op-3" "attempt-op-3-again" 1 (demo_hash "op-3") None None None None.

Definition demo_bodies : list CommandBody :=
  [demo_move TS_QUEUED None; demo_move TS_STARTING None; demo_move TS_RUNNING None;
   demo_create "op-1" "tool:1" (demo_hash "op-1") OK_TOOL true;
   StartOperationAttempt "attempt-op-1" None;
   MarkOperationAttemptUnknown "attempt-op-1" "worker lost";
   demo_move TS_RECOVERY_REQUIRED None;
   RecoveryDecision (mkRecoveryDecisionCommand RA_RETRY (Some "op-1") "operator" "looked at it"
     None true);
   StartOperationAttempt "uuid-8-1" None;
   CompleteOperationAttempt "uuid-8-1" "written" (demo_hash "written") "tool";
   demo_create "op-2" "tool:2" (demo_hash "op-2") OK_TOOL true;
   CreateApproval demo_approval;
   DecideApproval "approval-1" false "operator" "too risky";
   demo_create "op-3" "tool:3" (demo_hash "op-3") OK_TOOL false;
   StartOperationAttempt "attempt-op-3" None;
   FailOperationAttempt "attempt-op-3" FK_RETRYABLE "timeout";
   BeginOperationAttempt demo_again;
   StartOperationAttempt "attempt-op-3-again" None;
   CompleteOperationAttempt "attempt-op-3-again" "read" (demo_hash "read") "tool";
   CreateSafeCheckpoint (mkSafeCheckpoint "checkpoint-1" "run-1" None 19 (Some "op-3")
     (Some "attempt-op-3-again") None None "segment-1" "record-1" (demo_time 20));
   demo_move TS_FINALIZING (Some TT_SUCCEEDED);
   StartFinalizeGeneration 1 None]
  ++ demo_file_step FS_MEMORY OK_MEMORY ++ demo_file_step FS_SESSION_INDEX OK_SESSION_INDEX
  ++ [demo_audit; demo_inbox; FinalizeTerminal 1 "done"].

(** The [n]-th command, from 1; the state is at revision [n - 1] then. *)
Definition demo_command (n : nat) : Command :=
  mkCommand (mkStateCommand ("command-" +:+ str_of_int (Z.of_nat n)) "primary" None None "run-1"
    (Z.of_nat n - 1) "epoch-1") (default (BindSession "") (demo_bodies !! (n - 1)%nat)).

Definition demo_apply (n : nat) (db : Db) : res (ApplyResult * Db) :=
  apply demo_cfg (Ok tt) (demo_env n) (demo_command n) db.

(** A step that raises, or a command pydantic refuses, changes nothing. *)
Definition demo_step (n : nat) (db : Db) : Db :=
  if command_valid (demo_command n) then
    match demo_apply n db with Ok (_, db') => db' | Err _ => db end
  else db.

(** A fresh database with one required event sink. *)
Definition demo_empty : Db :=
  empty_db ⟪ db_sinks := {["audit-log" := mkSinkRow true 1 (demo_hash "config") true (demo_time 0)]} ⟫.
Lemma demo_empty_initial : initial demo_empty.
Proof. exists (db_sinks demo_empty), ∅. reflexivity. Qed.

Definition demo_created : Db :=
  match create_run demo_cfg (demo_env 0) demo_request demo_empty with
  | Ok (_, db) => db | Err _ => demo_empty
  end.
Fixpoint demo (n : nat) : Db :=
  match n with O => demo_created | S m => demo_step (S m) (demo m) end.

Definition demo_result (n : nat) : option ApplyResult :=
  match demo_apply n (demo (n - 1)) with Ok (r, _) => Some r | Err _ => None end.

Lemma demo_created_reachable : reachable demo_created.
Proof.
  unfold demo_created. exists demo_empty. split; [apply demo_empty_initial|].
  destruct (create_run _ _ _ _) as [[r db]|e] eqn:E; [|done].
  apply rtc_once. eapply step_create_run. exact E.
Qed.

Lemma demo_steps n k : rtc gateway_step (demo n) (demo (k + n)).
Proof.
  induction k as [|k IH]; [done|]. etrans; [exact IH|]. simpl. unfold demo_step.
  destruct (command_valid _) eqn:Hv; [|done].
  destruct (demo_apply _ _) as [[r db]|e] eqn:E; [|done].
  apply rtc_once. eapply step_apply; [exact Hv|exact E].
Qed.

Lemma demo_reachable n : reachable (demo n).
Proof.
  destruct demo_created_reachable as (db0 & Hi & Hr). exists db0. split; [done|].
  etrans; [exact Hr|]. pose proof (demo_steps 0 n) as H. by rewrite Nat.add_0_r in H.
Qed.

(** A computation that succeeds, as the equation the theorems ask for. *)
Lemma ok_eq {A B} (r : res (A * B)) : is_ok r = true → ∃ a b, r = Ok (a, b).
Proof. destruct r as [[a b]|e]; [by eauto|done]. Qed.

(** ** The whole run, evaluated once

    [demo_check] is what the witnesses need to know of each step; one
    evaluation proves all of it. *)

Definition demo_task (n : nat) : TaskState :=
  nth n ([TS_CREATED; TS_QUEUED; TS_STARTING] ++ replicate 4 TS_RUNNING
    ++ replicate 14 TS_RECOVERY_REQUIRED ++ replicate 10 TS_FINALIZING) TS_SUCCEEDED.

Definition demo_row_check (n : nat) (db : Db) : bool :=
  match db_states db !! "run-1" with
  | Some row => bool_decide (st_revision (sr_body row) = Z.of_nat n)
                && bool_decide (st_task_state (sr_body row) = demo_task n)
  | None => false
  end.

(** What single steps are known for. *)
Definition demo_extra (n : nat) (r : ApplyResult) (db' : Db) : bool :=
  match n with
  | 4 => is_some (db_attempts db' !! "attempt-op-1")
  | 12 => match db_approvals db' !! "approval-1" with
          | Some row => bool_decide (ap_status (pr_body row) = AS_PENDING)
          | None => false
          end
  | 31 => is_some (db_operations db' !! "op-1") && is_some (db_attempts db' !! "attempt-op-1")
          && is_some (db_attempts db' !! "uuid-8-1")
  | _ => true
  end%nat.

Definition demo_check (n : nat) (r : ApplyResult) (db db' : Db) : bool :=
  command_valid (demo_command n) && fresh_ids (demo_env n) (demo_command n) db
  && is_none (db_processed db !! sc_command_id (cm_head (demo_command n)))
  && demo_row_check n db' && demo_extra n r db'.

Fixpoint demo_checks (n k : nat) (db : Db) : bool :=
  match k with
  | O => true
  | S k' => match demo_apply n db with
            | Ok (r, db') => demo_check n r db db' && demo_checks (S n) k' db'
            | Err _ => false
            end
  end.

Lemma demo_evaluated : demo_row_check 0 demo_created && demo_checks 1 31 demo_created = true.
Proof. vm_cast_no_check (eq_refl true). Qed.

Lemma demo_checks_ok k : ∀ n,
  (1 ≤ n)%nat → demo_checks n k (demo (n - 1)) = true →
  ∀ m, (n ≤ m < n + k)%nat →
    ∃ r, demo_apply m (demo (m - 1)) = Ok (r, demo m) ∧ demo_check m r (demo (m - 1)) (demo m) = true.
Proof.
  induction k as [|k IH]; intros n Hn H m Hm; [lia|]. cbn [demo_checks] in H.
  destruct (demo_apply n (demo (n - 1))) as [[r db']|e] eqn:E; [|done].
  apply andb_true_iff in H as [Hc H].
  assert (demo n = db') as <-.
  { destruct n as [|n']; [lia|]. replace (S n' - 1)%nat with n' in E by lia.
    cbn [demo]. unfold demo_step. rewrite E.
    unfold demo_check in Hc. rewrite !andb_true_iff in Hc. by destruct Hc as [[[[-> _] _] _] _]. }
  destruct (decide (m = n)) as [->|Hne]; [by eauto|].
  apply (IH (S n)); [lia| |lia]. by replace (S n - 1)%nat with n by lia.
Qed.

(** What every step of the demo satisfies. *)
Record demo_facts (n : nat) (r : ApplyResult) : Prop := {
  df_valid : command_valid (demo_command n) = true;
  df_fresh : fresh_ids (demo_env n) (demo_command n) (demo (n - 1)) = true;
  df_apply : apply demo_cfg (Ok tt) (demo_env n) (demo_command n) (demo (n - 1)) = Ok (r, demo n);
  df_new : db_processed (demo (n - 1)) !! sc_command_id (cm_head (demo_command n)) = None;
  df_row : ∃ row, db_states (demo n) !! "run-1" = Some row ∧
      st_revision (sr_body row) = Z.of_nat n ∧ st_task_state (sr_body row) = demo_task n;
  df_extra : demo_extra n r (demo n) = true
}.

Lemma demo_row_check_ok n db :
  demo_row_check n db = true →
  ∃ row, db_states db !! "run-1" = Some row ∧
    st_revision (sr_body row) = Z.of_nat n ∧ st_task_state (sr_body row) = demo_task n.
Proof.
  unfold demo_row_check. destruct (db_states db !! "run-1") as [row|]; [|done].
  intros [H1%bool_decide_eq_true H2%bool_decide_eq_true]%andb_true_iff. eauto.
Qed.

Lemma demo_ok n : (1 ≤ n ≤ 31)%nat → ∃ r, demo_facts n r.
Proof.
  intros Hn. pose proof demo_evaluated as H. apply andb_true_iff in H as [_ H].
  destruct (demo_checks_ok 31 1 ltac:(lia) H n ltac:(lia)) as (r & Ha & Hc).
  unfold demo_check in Hc. rewrite !andb_true_iff in Hc. destruct Hc as [[[[Hv Hf] Hnew] Hrow] Hx].
  exists r. split; [done|done|exact Ha| |by apply demo_row_check_ok|done].
  by destruct (db_processed _ !! _).
Qed.

Lemma demo_row n :
  (n ≤ 31)%nat → ∃ row, db_states (demo n) !! "run-1" = Some row ∧
    st_revision (sr_body row) = Z.of_nat n ∧ st_task_state (sr_body row) = demo_task n.
Proof.
  intros Hn. destruct n as [|n].
  - pose proof demo_evaluated as H. apply andb_true_iff in H as [H _]. by apply demo_row_check_ok.
  - destruct (demo_ok (S n) ltac:(lia)) as [r F]. apply (df_row _ _ F).
Qed.

Lemma demo_tidy n : (n ≤ 31)%nat → tidy_reachable (demo n).
Proof.
  intros Hn. exists demo_empty. split; [apply demo_empty_initial|].
  induction n as [|n IH].
  - apply rtc_once. apply tidy_other; cbn [demo]; unfold demo_created;
      destruct (create_run _ _ _ _) as [[r db]|e] eqn:E.
    + eapply step_create_run. exact E.
    + pose proof demo_evaluated as H. unfold demo_row_check, demo_created in H. by rewrite E in H.
    + apply create_run_ledger in E. by injection E.
    + done.
    + apply create_run_ledger in E. by injection E.
    + done.
  - destruct (demo_ok (S n) ltac:(lia)) as [r F]. eapply rtc_r; [apply IH; lia|].
    pose proof (df_apply _ _ F) as H. replace (S n - 1)%nat with n in H by lia.
    pose proof (df_fresh _ _ F) as Hf. replace (S n - 1)%nat with n in Hf by lia.
    eapply tidy_apply; [apply (df_valid _ _ F)|exact Hf|exact H].
Qed.

(** How the demo begins. *)
Definition starts {A} (x : res ((A * bool) * Db)) : bool :=
  match x with Ok ((_, b), _) => negb b | Err _ => false end.
Definition store_of {A} (e : Db) (x : res (A * Db)) : Db :=
  match x with Ok (_, db) => db | Err _ => e end.
Lemma begins {A} (x : res ((A * bool) * Db)) (e : Db) :
  starts x = true → ∃ s, x = Ok ((s, false), store_of e x).
Proof. destruct x as [[[s []] db]|]; [done|by exists s|done]. Qed.

Lemma demo_begins : starts (create_run demo_cfg (demo_env 0) demo_request demo_empty) = true.
Proof. vm_cast_no_check (@eq_refl bool true). Qed.

Lemma demo_created_ok : ∃ s,
  create_run demo_cfg (demo_env 0) demo_request demo_empty = Ok ((s, false), demo 0).
Proof.
  pose proof (begins (create_run demo_cfg (demo_env 0) demo_request demo_empty) demo_empty demo_begins)
    as H.
  cbn [demo]. unfold demo_created. unfold store_of in H. exact H.
Qed.

Lemma demo_empty_reachable : reachable demo_empty.
Proof. exists demo_empty. split; [apply demo_empty_initial|apply rtc_refl]. Qed.

#[global] Opaque demo demo_apply demo_created.
