(* ===== verification/StatesInv.v ===== *)
(** * StatesInv: the rows of [agent_states] in every reachable store

    Each row is the projection of a valid snapshot, and its run has a row of
    [runs] projected from the same snapshot. *)

From stdpp Require Import relations.
From S2P Require Import Prelude PyText PyTime AgentTypes AgentState Sanitizer Commands.
From S2P Require Import OperationReduce FinalizeEvidence Store Events Operations FinalizeOps.
From S2P Require Import Controller Frames Outcomes Apply Observations Outbox System.

#[local] Open Scope Z_scope.

(** Closure of an invariant that looks at few tables: the writes of the other
    tables keep it by computation. *)
Ltac closed_by_frame_with tac :=
  split; try apply _;
  try (intros; first
    [ apply save_operation_rel | apply save_attempt_rel | apply insert_approval_rel
    | apply save_approval_rel | apply insert_decision_rel | apply insert_finalize_generation_rel
    | apply insert_invalidation_rel | apply insert_receipt_rel | apply set_current_receipt_rel
    | apply insert_inbox_rel | apply insert_transition_rel | apply insert_processed_rel
    | apply update_state_rel | apply insert_state_rel | apply update_run_projection_rel
    | apply write_event_rel ]; first [apply _ | tac]; fail);
  try (intros; tac; fail);
  try (let H := fresh "H" in
       intros ? ? (? & ? & ? & H)%dispatcher_redelivered; rewrite H; tac; fail);
  try (intros; unfold insert_run; prim; tac; fail);
  try (intros; unfold insert_sequence; prim; tac; fail).
(** For an invariant [keeps P], and for a relation that follows from a table
    being left alone. *)
Ltac closed_by_frame := closed_by_frame_with ltac:(intros; by intros ?).
Ltac closed_by_same lem := closed_by_frame_with ltac:(intros; apply lem; reflexivity).

Lemma states_wf_closed : closed (keeps states_wf).
Proof.
  closed_by_frame.
  - intros s r db u db' (old & _ & _ & _ & ->)%update_state_ok Hwf run row. cbn.
    intros [[<- <-]|[_ H]]%lookup_insert_Some; [done|by apply Hwf].
  - intros s db u db' (d & s1 & [-> ->]%tx_gets_ok & H)%tx_bind_ok Hwf run row.
    abort_inv H. apply tx_modify_ok in H as ->. cbn.
    intros [[<- <-]|[_ H]]%lookup_insert_Some; [done|by apply Hwf].
  - intros n s ty p c k ca co Hpay db e db' He%write_event_ok Hwf run row.
    rewrite (ew_states _ _ _ _ _ _ _ _ _ _ _ He).
    intros [(-> & row' & [Hr Heq]%Hwf & ->)|[_ H]]%lookup_alter_Some; [|by apply Hwf].
    rewrite Heq. done.
Qed.

Lemma reachable_states_wf db : reachable db → states_wf db.
Proof.
  apply reachable_keeps; [apply states_wf_closed|].
  intros ? (sinks & gens & ->) run row H. cbn in H. by rewrite lookup_empty in H.
Qed.

(** ** Creating a Run *)

(** A new Run: its snapshot, its row of [agent_states] and its first event. *)
Record run_created (cfg : Config) (env : Env) (rq : RunRequest) (db : Db) (s : AgentState)
    (db' : Db) (seq : Z) : Prop := {
  rn_state : initial_state cfg rq (env_now env) = Ok s;
  rn_new : db_states db !! rq_run_id rq = None;
  rn_states : db_states db' = <[rq_run_id rq := state_row s seq]> (db_states db);
  rn_processed : db_processed db' = db_processed db;
  rn_runs : ∃ m, (m = db_runs db ∨ m = <[rq_run_id rq := new_run_row rq (env_now env)]> (db_runs db)) ∧
      db_runs db' = alter (project_run s) (rq_run_id rq) m
}.

Lemma initial_state_ok cfg rq t s :
  initial_state cfg rq t = Ok s →
  AgentState_valid s = true ∧ st_run_id s = rq_run_id rq ∧ st_revision s = 0 ∧
  st_task_state s = TS_CREATED ∧ st_execution s = None ∧ st_finalize_generation s = None ∧
  st_gateway_epoch s = cf_gateway_epoch cfg ∧ st_request_hash s = rq_request_hash rq.
Proof. intros [H ->]%checked_ok. done. Qed.

Lemma insert_state_ok s db u db' :
  insert_state s db = Ok (u, db') →
  db_states db !! st_run_id s = None ∧
  db' = db ⟪ db_states := <[st_run_id s := state_row s 0]> (db_states db) ⟫.
Proof.
  intros (d & s1 & [-> ->]%tx_gets_ok & H)%tx_bind_ok.
  apply tx_bind_ok in H as ([] & ? & [Ha ->]%abort_if_ok & H). apply tx_modify_ok in H as ->.
  split; [|done]. by destruct (db_states db !! _).
Qed.

Lemma write_created_ok n s db e db' :
  write_created n s db = Ok (e, db') →
  db_processed db' = db_processed db ∧ db_runs db' = db_runs db ∧
  db_states db' = alter (λ r, r ⟪ sr_snapshot_stream_sequence := next_sequence (st_run_id s) db ⟫)
    (st_run_id s) (db_states db).
Proof.
  unfold write_created. intros H. pose proof (write_event_off_stream _ _ _ _ _ _ _ _ _ _ _ H) as Hoff.
  apply write_event_ok in H. unfold same_part, off_stream in Hoff.
  injection Hoff as Er _ _ _ Ep _. split_and!; [done|done|].
  apply (ew_states _ _ _ _ _ _ _ _ _ _ _ H).
Qed.

Lemma create_state_ok cfg env rq s db db' :
  create_state cfg env rq db = Ok (s, db') →
  (db' = db ∧ state_in (rq_run_id rq) db = Ok s) ∨
  run_created cfg env rq db s db' (next_sequence (rq_run_id rq) db).
Proof.
  unfold create_state. intros (s0 & s1 & [Hs ->]%tx_lift_ok & H)%tx_bind_ok.
  apply tx_bind_ok in H as (d & s1 & [-> ->]%tx_gets_ok & H).
  destruct (db_states db !! rq_run_id rq) eqn:Hn.
  - apply tx_read_ok in H as [H ->]. auto.
  - right. destruct (initial_state_ok _ _ _ _ Hs) as (_ & Hrun & _).
    apply tx_bind_ok in H as ([] & s1 & [_ ->]%insert_state_ok & H).
    apply tx_bind_ok in H as ([] & s1 & ->%tx_modify_ok & H).
    apply tx_bind_ok in H as (e & s2 & (Hp & Hru & Hst)%write_created_ok & H).
    apply tx_ret_ok in H as [<- <-]. rewrite Hrun in *. split; try done.
    + rewrite Hst. cbn. by rewrite alter_insert_eq.
    + exists (db_runs db). split; [by left|]. by rewrite Hru.
Qed.

Lemma create_run_ok cfg env rq s b db db' :
  create_run cfg env rq db = Ok ((s, b), db') →
  (b = true ∧ db' = db ∧
   ∃ row, db_idempotency db !! (rq_client_id rq, WorkloadKind_value (rq_workload_kind rq),
                                rq_idempotency_key rq) = Some row ∧
     ir_request_hash row = rq_request_hash rq ∧ state_in (ir_run_id row) db = Ok s) ∨
  (b = false ∧ run_created cfg env rq db s db' 1 ∧
   db_idempotency db' = <[(rq_client_id rq, WorkloadKind_value (rq_workload_kind rq),
       rq_idempotency_key rq) := mkIdempotencyRow (rq_request_hash rq) (rq_run_id rq) None
       (env_now env) (env_now env)]> (db_idempotency db) ∧
   db_runs db !! rq_run_id rq = None).
Proof.
  unfold create_run. intros (d & s1 & [-> ->]%tx_gets_ok & H)%tx_bind_ok.
  destruct (db_idempotency db !! _) as [row|] eqn:Hi.
  - apply tx_bind_ok in H as ([] & s1 & [Hh%dec_stable ->]%reject_ok & H).
    apply tx_bind_ok in H as (s0 & s1 & [Hs ->]%tx_read_ok & H).
    apply tx_ret_ok in H as [[= <- <-] <-]. left. eauto 10.
  - right. apply tx_bind_ok in H as (s0 & s1 & [Hs ->]%tx_lift_ok & H).
    destruct (initial_state_ok _ _ _ _ Hs) as (_ & Hrun & _).
    apply tx_bind_ok in H as ([] & s1 & Hr & H).
    apply tx_bind_ok in Hr as (d & s2 & [-> ->]%tx_gets_ok & Hr).
    apply tx_bind_ok in Hr as ([] & s2 & [Hre ->]%abort_if_ok & Hr). apply tx_modify_ok in Hr as ->.
    apply tx_bind_ok in H as ([] & s1 & Hr & H).
    apply tx_bind_ok in Hr as (d & s2 & [-> ->]%tx_gets_ok & Hr).
    abort_inv Hr. apply tx_modify_ok in Hr as ->.
    apply tx_bind_ok in H as ([] & s1 & [Hn ->]%insert_state_ok & H).
    apply tx_bind_ok in H as ([] & s1 & ->%tx_modify_ok & H). cbn in Hn.
    apply tx_bind_ok in H as ([] & s1 & Hg & H).
    set (db2 := _ ⟪ db_idempotency := _ ⟫) in Hg.
    assert (∃ t, s1 = db2 ⟪ db_generation_refs := t ⟫) as [t ->].
    { destruct (rq_runtime_generation_id rq).
      - apply tx_bind_ok in Hg as (d & sa & [-> ->]%tx_gets_ok & Hg).
        apply tx_bind_ok in Hg as ([] & sa & [_ ->]%reject_ok & Hg).
        abort_inv Hg. apply tx_modify_ok in Hg as ->. eauto.
      - apply tx_ret_ok in Hg as [_ <-]. exists (db_generation_refs db2). done. }
    apply tx_bind_ok in H as ([] & s1 & ->%tx_modify_ok & H).
    apply tx_bind_ok in H as (e & s2 & Hw & H). apply tx_ret_ok in H as [[= <- <-] <-].
    pose proof (write_event_off_stream _ _ _ _ _ _ _ _ _ _ _ Hw) as Hoff.
    apply write_created_ok in Hw as (Hp & Hru & Hst). subst db2. rewrite Hrun in *.
    split_and!; [done| |..].
    + split; try done.
      * rewrite Hst. cbn. rewrite alter_insert_eq. unfold next_sequence. cbn. by rewrite lookup_insert_eq.
      * exists (<[rq_run_id rq := new_run_row rq (env_now env)]> (db_runs db)).
        split; [by right|]. by rewrite Hru.
    + unfold same_part, off_stream in Hoff. by injection Hoff as _ _ _ _ _ -> _.
    + unfold run_exists in Hre. by destruct (db_runs db !! _).
Qed.

(** ** Validity *)

Definition states_valid (db : Db) : Prop :=
  ∀ run row, db_states db !! run = Some row → AgentState_valid (sr_body row) = true.

Lemma observation_states gate env o o' db db' :
  materialize_tool_observation gate env o db = Ok (o', db') → db_states db' = db_states db.
Proof. intros H. by apply (materialize_rel (same_part db_states)) in H. Qed.
Lemma published_states gate env i s o db db' :
  mark_tool_observation_published gate env i s db = Ok (o, db') → db_states db' = db_states db.
Proof. intros H. by apply (mark_published_rel (same_part db_states)) in H. Qed.

Lemma result_valid cfg env c db r db' state o db1 :
  command_valid c = true → states_wf db → fresh_run cfg env c db r db' state o db1 →
  AgentState_valid (ar_state r) = true.
Proof.
  intros Hc Hwf F. destruct (fresh_stepped _ _ _ _ _ _ _ _ _ Hwf F) as (row & <- & S).
  pose proof (sp_valid _ _ _ _ _ _ _ S) as Hv. unfold AgentState_valid in *.
  apply andb_true_iff in Hv as [Hf _]. apply fields_split in Hf as [Hf1 Hf2].
  apply andb_true_iff. split; [|apply (sp_lifecycle _ _ _ _ _ _ _ S)].
  destruct (sp_result _ _ _ _ _ _ _ S) as (-> & _). apply fields_split.
  pose proof (command_body _ Hc) as Hb. apply command_head in Hc as Hh.
  assert (nonempty (cf_gateway_epoch cfg) = true) as He.
  { rewrite <- (fr_epoch _ _ _ _ _ _ _ _ _ F). unfold StateCommand_valid in Hh.
    by apply andb_true_iff in Hh as [_ ?]. }
  split.
  - pose proof (dispatch_constrained _ env _ _ Hf1 Hb He _ _ _ (fr_dispatch _ _ _ _ _ _ _ _ _ F)) as H.
    exact H.
  - pose proof (sp_identity _ _ _ _ _ _ _ S) as E. unfold identity in E.
    injection E as E1 E2 _ E4 E5 _ E7 E8 _ _. unfold next_state. cbn [st_revision st_run_id
      st_project_id st_client_id st_idempotency_key st_request_hash upd].
    rewrite E1, E2, E4, E5, E7, E8. rewrite !andb_true_iff in *. destruct_and?. split_and!; try done. lia.
Qed.

Lemma states_valid_step db db' :
  states_wf db → states_valid db → gateway_step db db' → states_valid db'.
Proof.
  intros Hwf Hv Hs.
  destruct Hs as [cfg gate env c r db db' Hc H|cfg env rq r db db' H|cfg env rq s db db' H
    |gate env o o' db db' H|gate env i s o db db' H|db db' H].
  - apply apply_ok in H as [_ [[-> _]|(state & o & db1 & F)]]; [done|].
    pose proof (result_valid _ _ _ _ _ _ _ _ _ Hc Hwf F) as Hr.
    destruct (fresh_stepped _ _ _ _ _ _ _ _ _ Hwf F) as (row & <- & S).
    intros run row'. rewrite (sp_states _ _ _ _ _ _ _ S).
    intros [[<- <-]|[_ H]]%lookup_insert_Some; [done|by eapply Hv].
  - destruct r as [s b]. apply create_run_ok in H as [(_ & -> & _)|(_ & Hn & _ & _)]; [done|].
    intros run row'. rewrite (rn_states _ _ _ _ _ _ _ Hn).
    destruct (initial_state_ok _ _ _ _ (rn_state _ _ _ _ _ _ _ Hn)) as [Hval _].
    intros [[<- <-]|[_ H]]%lookup_insert_Some; [done|by eapply Hv].
  - apply create_state_ok in H as [[-> _]|Hn]; [done|].
    intros run row'. rewrite (rn_states _ _ _ _ _ _ _ Hn).
    destruct (initial_state_ok _ _ _ _ (rn_state _ _ _ _ _ _ _ Hn)) as [Hval _].
    intros [[<- <-]|[_ H]]%lookup_insert_Some; [done|by eapply Hv].
  - unfold states_valid. by rewrite (observation_states _ _ _ _ _ _ H).
  - unfold states_valid. by rewrite (published_states _ _ _ _ _ _ _ H).
  - unfold states_valid. by apply dispatcher_redelivered in H as (dl & da & ob & ->).
Qed.

Lemma reachable_states_ok db : reachable db → states_wf db ∧ states_valid db.
Proof.
  revert db. apply (reachable_ind' (λ db, states_wf db ∧ states_valid db)).
  - intros d (sinks & gens & ->). split; intros run row H; cbn in H; by rewrite lookup_empty in H.
  - intros d d' [Hwf Hv] Hs. split.
    + by apply (gateway_step_rel _ states_wf_closed) in Hs; apply Hs.
    + by eapply states_valid_step.
Qed.
