(* ===== verification/Lifecycle.v ===== *)
(** * Lifecycle: how a Run moves through its two state machines

    Every committed transaction moves every Run by at most one edge of each
    machine, so the history of a Run is a path of both; the normal terminal
    states are reached from FINALIZING, by the terminal command, on proof. *)

From stdpp Require Import relations.
From S2P Require Import Prelude PyText PyTime AgentTypes AgentState Sanitizer Commands.
From S2P Require Import OperationReduce FinalizeEvidence Store Events Operations FinalizeOps.
From S2P Require Import Controller Frames Outcomes Apply Observations Outbox System Demo StatesInv.

#[local] Open Scope Z_scope.

(** An edge of the inner machine: it starts at THINKING. *)
Definition exec_step (a b : option ExecutionState) : Prop :=
  match a, b with
  | None, Some e => e = ES_THINKING
  | Some x, Some y => inner_step x y
  | _, None => False
  end.

Definition exec_state (s : AgentState) : option ExecutionState := ex_state <$> st_execution s.

(** Who the Run is: everything in [identity] but the revision. *)
Definition run_identity (s : AgentState) :=
  (st_run_id s, st_workload_kind s, st_project_id s, st_client_id s, st_parent_run_id s,
   st_idempotency_key s, st_request_hash s, st_deadline_at s, st_created_at s).

(** One command's effect on the snapshot of its Run. *)
Record moved_by (c : CommandBody) (s s' : AgentState) : Prop := {
  mv_identity : run_identity s' = run_identity s;
  mv_revision : st_revision s' = st_revision s + 1;
  mv_outer : st_task_state s' = st_task_state s ∨ outer_step (st_task_state s) (st_task_state s');
  mv_inner : exec_state s' = exec_state s ∨ exec_step (exec_state s) (exec_state s');
  mv_mapping : validate_terminal_mapping s = Ok tt → validate_terminal_mapping s' = Ok tt
}.

Lemma mapping_control s s' :
  control s' = control s → validate_terminal_mapping s' = validate_terminal_mapping s.
Proof.
  unfold control, validate_terminal_mapping. intros E. injection E as -> -> _ _ _ _ _. done.
Qed.

Lemma outcome_moved cfg env state c o :
  outcome_ok cfg state c o → moved_by c state (next_state env (oc_state o)).
Proof.
  intros (Hid & _ & _ & H).
  assert (control (oc_state o) = control state ∨
          ∃ t, transition_effect state t (oc_state o)) as Hc
    by (destruct c; try (left; apply H); right;
        [destruct H as (_ & ? & _)|destruct H as (_ & _ & _ & _ & tg & _ & ?)]; eauto).
  unfold identity in Hid. injection Hid as Erev ? ? ? ? ? ? ? ? ?.
  split.
  - unfold run_identity, next_state. cbn. congruence.
  - unfold next_state. cbn. by rewrite Erev.
  - unfold next_state. cbn. destruct Hc as [E|[t T]].
    + unfold control in E. injection E as -> _ _ _ _ _ _. by left.
    + pose proof (te_outer _ _ _ T) as Ho. destruct (tc_task_state t); [|by left].
      destruct Ho as [Ho ->]. by right.
  - unfold next_state, exec_state. cbn. destruct Hc as [E|[t T]].
    + unfold control in E. injection E as _ -> _ _ _ _ _. by left.
    + pose proof (te_inner _ _ _ T) as Hi. destruct (tc_execution_state t); [|left; by rewrite Hi].
      destruct Hi as (x & -> & <- & _ & Hi). right. by destruct (st_execution state).
  - intros Hm. transitivity (validate_terminal_mapping (oc_state o)); [done|].
    destruct Hc as [E|[t T]]; [by rewrite (mapping_control _ _ E)|apply (te_mapping _ _ _ T)].
Qed.

(** What a step does to the row of a Run that exists. *)
Lemma step_row db db' run row :
  states_wf db → gateway_step db db' → db_states db !! run = Some row →
  ∃ row', db_states db' !! run = Some row' ∧
    (sr_body row' = sr_body row ∨ ∃ c, moved_by c (sr_body row) (sr_body row')).
Proof.
  intros Hwf Hs Hrow.
  destruct Hs as [cfg gate env c r db db' Hc H|cfg env rq r db db' H|cfg env rq s db db' H
    |gate env o o' db db' H|gate env i s o db db' H|db db' H].
  - apply apply_ok in H as [_ [[-> _]|(state & o & db1 & F)]]; [by eauto|].
    destruct (fresh_stepped _ _ _ _ _ _ _ _ _ Hwf F) as (row0 & <- & S).
    rewrite (sp_states _ _ _ _ _ _ _ S).
    destruct (decide (run = sc_run_id (cm_head c))) as [->|Hne].
    + rewrite lookup_insert_eq. eexists. split; [done|]. right. exists (cm_body c).
      pose proof (sp_row _ _ _ _ _ _ _ S) as Hr. rewrite Hrow in Hr. injection Hr as <-.
      destruct (sp_result _ _ _ _ _ _ _ S) as (-> & _). cbn.
      eapply outcome_moved, dispatch_outcome, (fr_dispatch _ _ _ _ _ _ _ _ _ F).
    + rewrite lookup_insert_ne by done. eauto.
  - destruct r as [s b]. apply create_run_ok in H as [(_ & -> & _)|(_ & Hn & _ & _)]; [by eauto|].
    rewrite (rn_states _ _ _ _ _ _ _ Hn). rewrite lookup_insert_ne; [by eauto|].
    intros <-. by rewrite (rn_new _ _ _ _ _ _ _ Hn) in Hrow.
  - apply create_state_ok in H as [[-> _]|Hn]; [by eauto|].
    rewrite (rn_states _ _ _ _ _ _ _ Hn). rewrite lookup_insert_ne; [by eauto|].
    intros <-. by rewrite (rn_new _ _ _ _ _ _ _ Hn) in Hrow.
  - rewrite (observation_states _ _ _ _ _ _ H). eauto.
  - rewrite (published_states _ _ _ _ _ _ _ H). eauto.
  - apply dispatcher_redelivered in H as (dl & da & ob & ->). by eauto.
Qed.

(** The outcome of a finished inner loop matches the terminal state, in every
    reachable store. *)
Definition mapping_ok (db : Db) : Prop :=
  ∀ run row, db_states db !! run = Some row → validate_terminal_mapping (sr_body row) = Ok tt.

Lemma step_new_row db db' run row' :
  states_wf db → gateway_step db db' → db_states db !! run = None →
  db_states db' !! run = Some row' →
  st_task_state (sr_body row') = TS_CREATED ∧ st_execution (sr_body row') = None ∧
  st_revision (sr_body row') = 0.
Proof.
  intros Hwf Hs Hnone.
  destruct Hs as [cfg gate env c r db db' Hc H|cfg env rq r db db' H|cfg env rq s db db' H
    |gate env o o' db db' H|gate env i s o db db' H|db db' H].
  - apply apply_ok in H as [_ [[-> _]|(state & o & db1 & F)]]; [congruence|].
    destruct (fresh_stepped _ _ _ _ _ _ _ _ _ Hwf F) as (row0 & <- & S).
    rewrite (sp_states _ _ _ _ _ _ _ S), lookup_insert_ne; [congruence|].
    intros <-. by rewrite (sp_row _ _ _ _ _ _ _ S) in Hnone.
  - destruct r as [s b]. apply create_run_ok in H as [(_ & -> & _)|(_ & Hn & _ & _)]; [congruence|].
    rewrite (rn_states _ _ _ _ _ _ _ Hn).
    intros [[<- <-]|[_ ?]]%lookup_insert_Some; [|congruence].
    by destruct (initial_state_ok _ _ _ _ (rn_state _ _ _ _ _ _ _ Hn)) as (_ & _ & ? & ? & ? & _).
  - apply create_state_ok in H as [[-> _]|Hn]; [congruence|].
    rewrite (rn_states _ _ _ _ _ _ _ Hn).
    intros [[<- <-]|[_ ?]]%lookup_insert_Some; [|congruence].
    by destruct (initial_state_ok _ _ _ _ (rn_state _ _ _ _ _ _ _ Hn)) as (_ & _ & ? & ? & ? & _).
  - rewrite (observation_states _ _ _ _ _ _ H). congruence.
  - rewrite (published_states _ _ _ _ _ _ _ H). congruence.
  - apply dispatcher_redelivered in H as (dl & da & ob & ->). cbn. congruence.
Qed.

Lemma reachable_mapping db : reachable db → states_wf db ∧ mapping_ok db.
Proof.
  revert db. apply (reachable_ind' (λ db, states_wf db ∧ mapping_ok db)).
  - intros d (sinks & gens & ->). split; intros run row H; cbn in H; by rewrite lookup_empty in H.
  - intros d d' [Hwf Hm] Hs. split.
    { by apply (gateway_step_rel _ states_wf_closed) in Hs; apply Hs. }
    intros run row' Hrow'. destruct (db_states d !! run) as [row|] eqn:E.
    + destruct (step_row _ _ _ _ Hwf Hs E) as (row2 & H2 & Hcase). rewrite Hrow' in H2.
      injection H2 as <-. destruct Hcase as [->|[c Hmv]]; [by eapply Hm|].
      apply (mv_mapping _ _ _ Hmv). by eapply Hm.
    + destruct (step_new_row _ _ _ _ Hwf Hs E Hrow') as (Ht & _).
      unfold validate_terminal_mapping. rewrite Ht. rewrite decide_True; [done|].
      intros Hin. by elem_cases Hin.
Qed.

Lemma history db db' run row :
  states_wf db → rtc gateway_step db db' → db_states db !! run = Some row →
  ∃ row', db_states db' !! run = Some row' ∧
    run_identity (sr_body row') = run_identity (sr_body row) ∧
    st_revision (sr_body row) ≤ st_revision (sr_body row') ∧
    rtc outer_step (st_task_state (sr_body row)) (st_task_state (sr_body row')) ∧
    rtc exec_step (exec_state (sr_body row)) (exec_state (sr_body row')).
Proof.
  intros Hwf Hsteps. revert row.
  induction Hsteps as [d|d d1 d2 Hs _ IH]; intros row Hrow.
  { exists row. split_and!; try done; lia. }
  destruct (step_row _ _ _ _ Hwf Hs Hrow) as (row1 & H1 & Hcase).
  destruct (IH (gateway_step_rel _ states_wf_closed _ _ Hs Hwf) row1 H1)
    as (row2 & H2 & Hi & Hrev & Ho & He).
  exists row2. split; [done|]. destruct Hcase as [E|[c M]]; [by rewrite E in *|].
  split_and!.
  - by rewrite Hi, (mv_identity _ _ _ M).
  - pose proof (mv_revision _ _ _ M). lia.
  - destruct (mv_outer _ _ _ M) as [E|E]; [by rewrite <- E|by eapply rtc_l].
  - destruct (mv_inner _ _ _ M) as [E|E]; [by rewrite <- E|by eapply rtc_l].
Qed.

Lemma rtc_terminal a b : a ∈ TERMINAL_STATES → rtc outer_step a b → b = a.
Proof.
  intros Ha H. destruct H as [|x y z Hxy _]; [done|]. by apply outer_terminal in Hxy.
Qed.

(** ** Claims *)

(** C4: from any reachable store on, whatever transactions
    commit, a Run keeps its row and its identity, its revision never
    decreases, its task state follows a path of OUTER_TRANSITIONS and its
    execution state a path of INNER_TRANSITIONS that starts at THINKING. *)
Theorem fsm_history db db' run row :
  reachable db → rtc gateway_step db db' → db_states db !! run = Some row →
  ∃ row', db_states db' !! run = Some row' ∧
    run_identity (sr_body row') = run_identity (sr_body row) ∧
    st_revision (sr_body row) ≤ st_revision (sr_body row') ∧
    rtc outer_step (st_task_state (sr_body row)) (st_task_state (sr_body row')) ∧
    rtc exec_step (exec_state (sr_body row)) (exec_state (sr_body row')).
Proof.
  intros [Hwf _]%reachable_states_ok. by apply history.
Qed.

(** A Run in a terminal state stays in it for ever, and
    a finished inner loop stays finished. *)
Lemma terminal_absorbing db db' run row row' :
  reachable db → rtc gateway_step db db' →
  db_states db !! run = Some row → db_states db' !! run = Some row' →
  (st_task_state (sr_body row) ∈ TERMINAL_STATES →
     st_task_state (sr_body row') = st_task_state (sr_body row)) ∧
  (exec_state (sr_body row) = Some ES_FINISHED → exec_state (sr_body row') = Some ES_FINISHED).
Proof.
  intros [Hwf _]%reachable_states_ok Hs H H'.
  destruct (history _ _ _ _ Hwf Hs H) as (row2 & H2 & _ & _ & Ho & He).
  rewrite H' in H2. injection H2 as <-.
  split.
  - intros Ht. by apply rtc_terminal.
  - intros E. rewrite E in He. apply rtc_inv in He as [<-|(y & Hy & _)]; [done|].
    destruct y as [y|]; [|done]. by apply inner_finished in Hy.
Qed.

(** In every reachable store, a Run in a normal terminal
    state has the matching [terminal_target] and a finishing time, and its
    agent loop, if it had one, is FINISHED with an outcome that projects onto
    that state. *)
Lemma terminal_outcome db run row :
  reachable db → db_states db !! run = Some row →
  st_task_state (sr_body row) ∈ NORMAL_TERMINAL →
  (∃ t, st_terminal_target (sr_body row) = Some t ∧
        st_task_state (sr_body row) = TaskState_of_target t) ∧
  is_some (st_finished_at (sr_body row)) = true ∧
  ∀ e, st_execution (sr_body row) = Some e →
    ex_state e = ES_FINISHED ∧
    match st_task_state (sr_body row) with
    | TS_SUCCEEDED => ex_outcome e = Some EO_SUCCESS
    | TS_FAILED => ex_outcome e = Some EO_ERROR ∨ ex_outcome e = Some EO_EXHAUSTED
    | TS_CANCELLED => ex_outcome e = Some EO_CANCELLED
    | _ => False
    end.
Proof.
  intros Hr Hrow Ht. destruct (reachable_mapping _ Hr) as [_ Hm].
  destruct (reachable_states_ok _ Hr) as [_ Hv].
  specialize (Hm _ _ Hrow). specialize (Hv _ _ Hrow).
  unfold AgentState_valid in Hv. apply andb_true_iff in Hv as [_ Hl].
  destruct (lifecycle_normal_terminal _ Hl Ht) as (t & Htt & Hst & Hf & He).
  split; [by eauto|]. split; [done|]. intros e Hex. rewrite Hex in He. simpl in He.
  apply bool_decide_eq_true in He. split; [done|].
  unfold validate_terminal_mapping in Hm. rewrite decide_False, Hex in Hm by (by intros []).
  destruct (st_task_state (sr_body row)); try (by elem_cases Ht);
    case_decide as E; try done; destruct (ex_outcome e) as [[]|]; auto; done.
Qed.

(** C15: every stored snapshot is well typed: in every reachable store the
    row of a Run holds a snapshot of that Run that satisfies all of the
    validators of [AgentState], its columns are the fields of the snapshot,
    and therefore reading it back never raises. *)
Theorem snapshots_typed db run row :
  reachable db → db_states db !! run = Some row →
  state_in run db = Ok (sr_body row) ∧ AgentState_valid (sr_body row) = true ∧
  st_run_id (sr_body row) = run ∧ sr_revision row = st_revision (sr_body row) ∧
  sr_task_state row = st_task_state (sr_body row) ∧
  sr_execution_state row = exec_state (sr_body row) ∧
  sr_recovery_required row = recovery_required (sr_body row) ∧
  sr_gateway_epoch row = st_gateway_epoch (sr_body row).
Proof.
  intros [Hwf Hv]%reachable_states_ok Hrow. destruct (Hwf _ _ Hrow) as [Hid E]. specialize (Hv _ _ Hrow).
  unfold state_in, checked. rewrite Hrow, Hv. split; [done|]. split; [done|]. split; [done|].
  by rewrite E.
Qed.

(** ** Witnesses *)

Lemma snapshots_typed_witness : ∃ row,
  db_states (demo 3) !! "run-1" = Some row ∧ state_in "run-1" (demo 3) = Ok (sr_body row).
Proof.
  destruct (demo_row 3 ltac:(lia)) as (row & Hrow & _). exists row. split; [exact Hrow|].
  exact (proj1 (snapshots_typed (demo 3) "run-1" row (demo_reachable 3) Hrow)).
Defined.

Lemma demo_reaches n m : (n ≤ m)%nat → rtc gateway_step (demo n) (demo m).
Proof. intros H. replace m with ((m - n) + n)%nat by lia. apply demo_steps. Qed.

Lemma fsm_history_witness : ∃ row row',
  db_states (demo 3) !! "run-1" = Some row ∧ db_states (demo 31) !! "run-1" = Some row' ∧
  st_revision (sr_body row) ≤ st_revision (sr_body row') ∧ rtc outer_step TS_RUNNING TS_SUCCEEDED.
Proof.
  destruct (demo_row 3 ltac:(lia)) as (row & Hrow & _ & Ht).
  destruct (demo_row 31 ltac:(lia)) as (row' & Hrow' & _ & Ht').
  destruct (fsm_history (demo 3) (demo 31) "run-1" row (demo_reachable 3)
    (demo_reaches 3 31 ltac:(lia)) Hrow) as (row2 & H2 & _ & Hrev & Ho & _).
  rewrite Hrow' in H2. injection H2 as <-. rewrite Ht, Ht' in Ho. exists row, row'. by split_and!.
Defined.

