(* ===== verification/Records.v ===== *)
(** * Records: the records a handler returns are valid

    Every operation, attempt and approval that [dispatch] hands to [commit]
    satisfies the constraints pydantic puts on it, although the code builds
    most of them by [model_copy], which checks nothing. *)

From S2P Require Import Prelude PyText PyTime AgentTypes AgentState Sanitizer Commands.
From S2P Require Import OperationReduce FinalizeEvidence Store Events Operations FinalizeOps.
From S2P Require Import Controller Frames Outcomes.

#[local] Open Scope Z_scope.

(** ** SHA-256 digests are 64 lower-case hexadecimal digits *)

#[local] Transparent sha256_hex.

Lemma hex_digit_lower d : 0 ≤ d < 16 → is_lower_hex (hex_digit d) = true.
Proof.
  intros H. assert (d ∈ [0;1;2;3;4;5;6;7;8;9;10;11;12;13;14;15]) as Hd
    by (apply list_elem_of_In; simpl; lia).
  elem_cases Hd; subst; reflexivity.
Qed.

Lemma list_ascii_string l : String.list_ascii_of_string (String.string_of_list_ascii l) = l.
Proof. apply String.list_ascii_of_string_of_list_ascii. Qed.

Lemma length_string l : String.length (String.string_of_list_ascii l) = length l.
Proof. induction l; simpl; congruence. Qed.

Lemma hex_of_bytes_hex bs :
  Forall (λ b, 0 ≤ b < 256) bs → 
  String.length (hex_of_bytes bs) = (2 * length bs)%nat ∧
  forallb is_lower_hex (String.list_ascii_of_string (hex_of_bytes bs)) = true.
Proof.
  intros H. unfold hex_of_bytes. rewrite length_string, list_ascii_string.
  induction H as [|b bs Hb _ [IH1 IH2]]; [done|]. simpl. split; [simpl in *; lia|].
  simpl in IH2. rewrite IH2, !hex_digit_lower; [done|..].
  - apply Z.mod_pos_bound. lia.
  - split; [apply Z.div_pos; lia|apply Z.div_lt_upper_bound; lia].
Qed.

Lemma sha256_round_length st k w : length st = 8%nat → length (sha256_round st k w) = 8%nat.
Proof. intros H. do 9 (destruct st as [|? st]; try done). Qed.

Lemma sha256_rounds_length ks : ∀ win st,
  length st = 8%nat → length (sha256_rounds ks win st) = 8%nat.
Proof. induction ks; intros win st H; simpl; [done|]. by apply IHks, sha256_round_length. Qed.

Lemma sha256_blocks_length fuel : ∀ st bs,
  length st = 8%nat → length (sha256_blocks fuel st bs) = 8%nat.
Proof.
  induction fuel as [|fuel IH]; intros st [|b bs] H; try done.
  cbn [sha256_blocks]. apply IH. rewrite length_zip_with, sha256_rounds_length, H; done.
Qed.

Lemma be_bytes_bound n x : length (be_bytes n x) = n ∧ Forall (λ b, 0 ≤ b < 256) (be_bytes n x).
Proof.
  unfold be_bytes. rewrite length_map, length_seq. split; [done|].
  apply Forall_map, Forall_forall. intros i _. apply Z.mod_pos_bound. lia.
Qed.

Lemma digest_bytes st :
  length (mjoin (map (be_bytes 4) st)) = (4 * length st)%nat ∧
  Forall (λ b, 0 ≤ b < 256) (mjoin (map (be_bytes 4) st)).
Proof.
  induction st as [|x st [IH1 IH2]]; [done|]. destruct (be_bytes_bound 4 x) as [Hl Hf].
  change (mjoin (map (be_bytes 4) (x :: st)))
    with (be_bytes 4 x ++ mjoin (map (be_bytes 4) st)).
  rewrite length_app, Hl, IH1. split; [cbn [length]; lia|]. by apply Forall_app.
Qed.

Lemma sha256_hex_hex64 s : hex64 (sha256_hex s) = true.
Proof.
  unfold hex64, sha256_hex. set (st := sha256_blocks _ _ _).
  assert (length st = 8%nat) as Hst by (apply sha256_blocks_length; done).
  destruct (digest_bytes st) as [Hl Hf]. destruct (hex_of_bytes_hex _ Hf) as [-> ->].
  by rewrite Hl, Hst.
Qed.
#[local] Opaque sha256_hex.

(** ** Operations *)

Lemma aggregate_operation_ok o l t o' :
  aggregate_operation o l t = Ok o' ↔
  ImmutableOperationMetadata_valid (immutable_metadata o) = true ∧
  ∃ g latest, reduce_operation (immutable_metadata o) l (op_retry_policy_snapshot o) = Ok g ∧
    last l = Some latest ∧
    o' = o
      ⟪ op_status := ag_status g ⟫ ⟪ op_failure_kind := ag_failure_kind g ⟫
      ⟪ op_failure_reason := ag_failure_reason g ⟫
      ⟪ op_latest_attempt_no := ag_latest_attempt_no g ⟫
      ⟪ op_next_retry_at := ag_next_retry_at g ⟫ ⟪ op_result := ag_result g ⟫
      ⟪ op_result_hash := ag_result_hash g ⟫ ⟪ op_result_source := ag_result_source g ⟫
      ⟪ op_attempt := ag_latest_attempt_no g ⟫ ⟪ op_started_at := at_started_at latest ⟫
      ⟪ op_heartbeat_at := at_heartbeat_at latest ⟫
      ⟪ op_heartbeat_expires_at := at_heartbeat_expires_at latest ⟫
      ⟪ op_completed_at := at_completed_at latest ⟫ ⟪ op_error := ag_failure_reason g ⟫
      ⟪ op_unknown_reason := if decide (ag_status g = OS_UNKNOWN)
                             then ag_failure_reason g else None ⟫
      ⟪ op_updated_at := t ⟫.
Proof.
  unfold aggregate_operation. rewrite res_bind_ok. split.
  - intros (m & [Hv ->]%checked_ok & H). split; [done|].
    apply res_bind_ok in H as (g & Hg & H). destruct (last l) as [latest|]; [|done].
    apply (proj1 (res_ret_ok _ _)) in H as <-. by exists g, latest.
  - intros (Hv & g & latest & Hg & Hl & ->). exists (immutable_metadata o). split.
    + by apply checked_ok.
    + apply res_bind_ok. exists g. split; [done|]. by rewrite Hl.
Qed.

Lemma reduce_latest_hash p n a g :
  reduce_latest p n a = Ok g → ag_result_hash g = at_result_hash a ∨ ag_result_hash g = None.
Proof.
  unfold reduce_latest. intros H.
  repeat case_decide; try (apply (proj1 (res_ret_ok _ _)) in H as <-; auto; fail).
  apply res_bind_ok in H as (s & _ & H). apply (proj1 (res_ret_ok _ _)) in H as <-. auto.
Qed.

Lemma aggregate_operation_valid o l t o' :
  OperationRecord_valid o = true → Forall (λ a, OperationAttempt_fields a = true) l →
  aggregate_operation o l t = Ok o' → OperationRecord_valid o' = true.
Proof.
  intros Ho Hl (_ & g & latest & (a & R)%reduce_operation_ok & _ & ->)%aggregate_operation_ok.
  assert (1 ≤ ag_latest_attempt_no g) as Hno.
  { pose proof (rd_valid R) as Hv. unfold OperationAggregate_valid in Hv. lia. }
  assert (opt_hex64 (ag_result_hash g) = true) as Hh.
  { destruct (reduce_latest_hash _ _ _ _ (rd_latest R)) as [->| ->]; [|done].
    rewrite Forall_forall in Hl. specialize (Hl a (reduction_latest_in R)).
    unfold OperationAttempt_fields in Hl. by apply andb_true_iff in Hl as [_ ?]. }
  unfold OperationRecord_valid in *. cbn. rewrite !andb_true_iff in *. destruct_and?.
  split_and!; try done; lia.
Qed.

(** ** Attempts *)

Lemma mapM_checked_ok {A B} name (v : B → bool) (f : A → B) rs : ∀ l,
  mapM (λ r, checked name v (f r)) rs = Ok l ↔ l = map f rs ∧ Forall (λ b, v b = true) l.
Proof.
  induction rs as [|x rs IH]; intros l; simpl.
  - rewrite res_ret_ok. split; [intros <-; by split; [|constructor]|]. by intros [-> _].
  - rewrite res_bind_ok. split.
    + intros (a & [Hv ->]%checked_ok & H). apply res_bind_ok in H as (l' & [-> Hl]%IH & H).
      apply (proj1 (res_ret_ok _ _)) in H as <-. split; [done|by constructor].
    + intros [-> [Hv Hl]%Forall_cons]. exists (f x). split; [by apply checked_ok|].
      apply res_bind_ok. exists (map f rs). split; [by apply IH|done].
Qed.

Lemma attempts_in_ok id db l :
  attempts_in id db = Ok l ↔
  attempt_rows id db ≠ [] ∧ l = map tr_body (attempt_rows id db) ∧
  Forall (λ a, OperationAttempt_valid a = true) l.
Proof.
  unfold attempts_in. destruct (attempt_rows id db) as [|r rows].
  - split; [done|by intros [? _]].
  - rewrite mapM_checked_ok. naive_solver.
Qed.

Lemma attempt_in_ok id db a :
  attempt_in id db = Ok a ↔
  ∃ row, db_attempts db !! id = Some row ∧ OperationAttempt_valid (tr_body row) = true ∧ a = tr_body row.
Proof.
  unfold attempt_in. destruct (db_attempts db !! id) as [row|].
  - rewrite checked_ok. naive_solver.
  - split; [done|]. by intros (? & ? & _).
Qed.

Lemma operation_in_ok id db o :
  operation_in id db = Ok o ↔
  ∃ row, db_operations db !! id = Some row ∧ OperationRecord_valid (or_body row) = true ∧ o = or_body row.
Proof.
  unfold operation_in. destruct (db_operations db !! id) as [row|].
  - rewrite checked_ok. naive_solver.
  - split; [done|]. by intros (? & ? & _).
Qed.

Lemma approval_in_ok id db a :
  approval_in id db = Ok a ↔
  ∃ row, db_approvals db !! id = Some row ∧ DurableApproval_valid (pr_body row) = true ∧ a = pr_body row.
Proof.
  unfold approval_in. destruct (db_approvals db !! id) as [row|].
  - rewrite checked_ok. naive_solver.
  - split; [done|]. by intros (? & ? & _).
Qed.

Lemma current_attempt_in_ok id db a :
  current_attempt_in id db = Ok a → OperationAttempt_valid a = true ∧ a ∈ map tr_body (attempt_rows id db).
Proof.
  unfold current_attempt_in. intros (l & (_ & -> & Hl)%attempts_in_ok & H)%res_bind_ok.
  rewrite Forall_forall in Hl.
  destruct (last (filter _ _)) as [x|] eqn:E.
  - apply (proj1 (res_ret_ok _ _)) in H as <-. apply last_Some_elem_of, list_elem_of_filter in E as [_ E].
    auto.
  - apply res_of_option_ok, last_Some_elem_of in H. auto.
Qed.

(** The update of an attempt in place: what [update_attempt] returns. *)
Record attempt_updated (state : AgentState) (id t : string) (allowed : list OperationStatus)
    (f : OperationAttempt → OperationAttempt) (db : Db)
    (p : OperationRecord * OperationAttempt) (old : OperationAttempt) : Prop := {
  au_old : attempt_in id db = Ok old;
  au_run : at_run_id old = st_run_id state;
  au_allowed : at_status old ∈ allowed;
  au_new : p.2 = (f old) ⟪ at_updated_at := t ⟫;
  au_evidence : validate_status_evidence p.2 = true;
  au_aggregate : ∃ o l, operation_in (at_operation_id p.2) db = Ok o ∧
      attempts_in (op_operation_id o) db = Ok l ∧
      aggregate_operation o (replace_attempt id p.2 l) t = Ok p.1
}.

Lemma update_attempt_ok state id t allowed f db p db' :
  update_attempt state id t allowed f db = Ok (p, db') →
  db' = db ∧ ∃ old, attempt_updated state id t allowed f db p old.
Proof.
  unfold update_attempt, revalidate_attempt.
  intros (old & s1 & [Hold ->]%tx_read_ok & H)%tx_bind_ok.
  apply tx_bind_ok in H as ([] & s1 & [Hr ->]%reject_ok & H).
  apply tx_bind_ok in H as (a & s1 & [[Hv ->]%checked_ok ->]%tx_lift_ok & H).
  apply tx_bind_ok in H as (o & s1 & [Ho ->]%tx_read_ok & H).
  apply tx_bind_ok in H as (l & s1 & [Hl ->]%tx_read_ok & H).
  apply tx_bind_ok in H as (o' & s1 & [Hag ->]%tx_lift_ok & H).
  apply tx_ret_ok in H as [<- <-]. split; [done|]. exists old.
  assert (at_run_id old = st_run_id state ∧ at_status old ∈ allowed) as [? ?].
  { destruct (decide (at_run_id old = st_run_id state)); [|tauto].
    destruct (decide (at_status old ∈ allowed)); tauto. }
  split; eauto.
Qed.

Definition valid_pair (p : OperationRecord * OperationAttempt) : Prop :=
  OperationRecord_valid p.1 = true ∧ OperationAttempt_valid p.2 = true.

(** The updates the commands make touch no constrained field but the result
    hash. *)
Definition keeps_fields (f : OperationAttempt → OperationAttempt) : Prop :=
  ∀ a, OperationAttempt_fields a = true → OperationAttempt_fields (f a) = true.

Lemma valid_fields a : OperationAttempt_valid a = true → OperationAttempt_fields a = true.
Proof. unfold OperationAttempt_valid. by intros [? _]%andb_true_iff. Qed.

Lemma attempt_updated_valid state id t allowed f db p old :
  keeps_fields f → attempt_updated state id t allowed f db p old → valid_pair p.
Proof.
  intros Hf [Hold _ _ Hnew Hev (o & l & Ho & Hl & Hag)].
  apply attempt_in_ok in Hold as (row & _ & Hv%valid_fields & ->).
  assert (OperationAttempt_fields p.2 = true) as Hp by (rewrite Hnew; by apply Hf).
  split; [|unfold OperationAttempt_valid; by rewrite Hp, Hev].
  apply operation_in_ok in Ho as (ro & _ & Hov & ->).
  eapply aggregate_operation_valid; [exact Hov| |exact Hag].
  apply attempts_in_ok in Hl as (_ & _ & Hl). unfold replace_attempt. apply Forall_fmap.
  eapply Forall_impl; [exact Hl|]. intros x Hx. cbn. case_decide; [done|by apply valid_fields].
Qed.

Lemma update_attempt_valid state id t allowed f :
  keeps_fields f → tx_post valid_pair (update_attempt state id t allowed f).
Proof.
  intros Hf db p db' [_ [old H]]%update_attempt_ok. by eapply attempt_updated_valid.
Qed.

(** ** Handlers *)

Ltac keeps_fields :=
  let a := fresh "a" in let H := fresh "H" in
  intros a H; unfold OperationAttempt_fields in *; cbn in *; rewrite ?sha256_hex_hex64;
  rewrite !andb_true_iff in *; naive_solver.

Lemma reconcile_attempt_valid state id r t : tx_post valid_pair (reconcile_attempt state id r t).
Proof.
  unfold reconcile_attempt. apply tx_post_bind. intros cur.
  destruct (rr_status r); try case_decide; apply update_attempt_valid; keeps_fields.
Qed.

Lemma begin_operation_attempt_valid state c t :
  tx_post valid_pair (begin_operation_attempt state c t).
Proof.
  unfold begin_operation_attempt. intros db p db'.
  intros (o & s1 & [Ho ->]%tx_read_ok & H)%tx_bind_ok.
  apply tx_bind_ok in H as (l & s1 & [Hl ->]%tx_read_ok & H).
  apply tx_bind_ok in H as (latest & s1 & [_ ->]%tx_lift_ok & H).
  do 6 (apply tx_bind_ok in H as ([] & s1 & [_ ->]%reject_ok & H)).
  apply tx_bind_ok in H as (early & s1 & [_ ->]%tx_lift_ok & H).
  apply tx_bind_ok in H as ([] & s1 & [_ ->]%reject_ok & H).
  apply tx_bind_ok in H as (a & s1 & [[Ha ->]%checked_ok ->]%tx_lift_ok & H).
  apply tx_bind_ok in H as (o' & s1 & [Hag ->]%tx_lift_ok & H).
  apply tx_ret_ok in H as [<- <-]. split; [|exact Ha].
  apply operation_in_ok in Ho as (ro & _ & Hov & ->).
  apply attempts_in_ok in Hl as (_ & _ & Hl).
  eapply aggregate_operation_valid; [exact Hov| |exact Hag].
  apply Forall_app. split; [|constructor; [by apply valid_fields|done]].
  eapply Forall_impl; [exact Hl|]. intros x. apply valid_fields.
Qed.

Lemma create_operation_valid state c t :
  tx_post valid_pair (create_operation_with_attempt state c t).
Proof.
  unfold create_operation_with_attempt. intros db p db'.
  intros (d & s1 & [-> ->]%tx_gets_ok & H)%tx_bind_ok.
  destruct (operation_by_key _ _ _ _) as [row|].
  - apply tx_bind_ok in H as (o & s1 & [[Ho ->]%checked_ok ->]%tx_lift_ok & H).
    apply tx_bind_ok in H as ([] & s1 & [_ ->]%require_ok & H).
    apply tx_bind_ok in H as (a & s1 & [[Ha _]%current_attempt_in_ok ->]%tx_read_ok & H).
    by apply tx_ret_ok in H as [<- <-].
  - apply tx_bind_ok in H as (o & s1 & [[Ho ->]%checked_ok ->]%tx_lift_ok & H).
    apply tx_bind_ok in H as (a & s1 & [[Ha ->]%checked_ok ->]%tx_lift_ok & H).
    apply tx_bind_ok in H as (o' & s1 & [Hag ->]%tx_lift_ok & H).
    apply tx_ret_ok in H as [<- <-]. split; [|exact Ha].
    eapply aggregate_operation_valid; [exact Ho| |exact Hag].
    constructor; [by apply valid_fields|done].
Qed.

Lemma completed_sqlite_valid state a b c d k n e h t p :
  completed_sqlite_finalize_operation state a b c d k n e h t = Ok p → valid_pair p.
Proof.
  unfold completed_sqlite_finalize_operation. intros (o & [Ho ->]%checked_ok & H)%res_bind_ok.
  apply res_bind_ok in H as (x & [Ha ->]%checked_ok & H).
  apply res_bind_ok in H as (o' & Hag & H). apply (proj1 (res_ret_ok _ _)) in H as <-.
  split; [|exact Ha]. eapply aggregate_operation_valid; [exact Ho| |exact Hag].
  constructor; [by apply valid_fields|done].
Qed.

Lemma finalize_audit_valid state c t : tx_post valid_pair (finalize_audit state c t).
Proof.
  unfold finalize_audit. do 6 (apply tx_post_bind; intros ?).
  eapply tx_post_bind_with; [apply tx_post_lift; intros p; apply completed_sqlite_valid|].
  intros p Hp. apply tx_post_bind. intros _. by apply tx_post_ret.
Qed.

Lemma finalize_inbox_valid state c t : tx_post valid_pair (finalize_inbox state c t).
Proof.
  unfold finalize_inbox. do 7 (apply tx_post_bind; intros ?).
  eapply tx_post_bind_with; [apply tx_post_lift; intros p; apply completed_sqlite_valid|].
  intros p Hp. apply tx_post_bind. intros _. by apply tx_post_ret.
Qed.

Lemma begin_operation_valid state c t :
  tx_post (λ o, OperationRecord_valid o = true) (begin_operation state c t).
Proof.
  unfold begin_operation. intros db x db' (d & s1 & [-> ->]%tx_gets_ok & H)%tx_bind_ok.
  destruct (db_operations db !! _).
  - apply tx_bind_ok in H as (y & s1 & [(r & _ & Hv & ->)%operation_in_ok ->]%tx_read_ok & H).
    apply tx_bind_ok in H as ([] & s1 & [_ ->]%reject_ok & H). by apply tx_ret_ok in H as [<- _].
  - apply tx_bind_ok in H as ([] & s1 & [_ ->]%reject_ok & H).
    apply tx_bind_ok in H as (y & s1 & [[Hv Hy]%checked_ok ->]%tx_lift_ok & H).
    apply tx_bind_ok in H as (a & s1 & _ & H). apply tx_bind_ok in H as ([] & s2 & _ & H).
    apply tx_bind_ok in H as ([] & s3 & _ & H). apply tx_ret_ok in H as [<- _]. by rewrite Hy.
Qed.

(** The records of an outcome, which [commit] saves and returns. *)
Definition outcome_valid (o : Outcome) : Prop :=
  opt_all OperationRecord_valid (oc_operation o) = true ∧
  opt_all OperationAttempt_valid (oc_attempt o) = true ∧
  opt_all DurableApproval_valid (oc_approval o) = true.

Lemma with_attempt_valid s p : valid_pair p → outcome_valid (with_attempt s p).
Proof. by intros []. Qed.

(** An updated attempt, then its outcome. *)
Ltac by_update lem :=
  eapply tx_post_bind_with; [apply lem|intros ? ?; apply tx_post_ret, with_attempt_valid; assumption].
Ltac by_fields := by_update update_attempt_valid; keeps_fields.

Lemma handle_attempt_valid state b t :
  body_valid b = true → tx_post outcome_valid (handle_attempt state b t).
Proof.
  intros Hb. destruct b; try apply tx_post_fail; cbn in Hb.
  1, 3-7: by_fields.
  - apply tx_post_bind. intros _. by_fields.
  - by_update reconcile_attempt_valid.
Qed.

Lemma handle_operation_valid state b t :
  body_valid b = true → tx_post outcome_valid (handle_operation state b t).
Proof.
  intros Hb. destruct b; try apply tx_post_fail; cbn in Hb.
  1-4, 6: apply tx_post_bind; intros ?; by_fields.
  - do 3 (apply tx_post_bind; intros ?). by_fields.
  - apply tx_post_bind; intros ?. by_update reconcile_attempt_valid.
Qed.

Lemma approval_read_valid id (m : DurableApproval → Tx Db Outcome) :
  (∀ a, DurableApproval_valid a = true → tx_post outcome_valid (m a)) →
  tx_post outcome_valid (a ← tx_read (approval_in id); m a).
Proof.
  intros Hm. eapply tx_post_bind_with; [|exact Hm].
  intros db a db' [(row & _ & Hv & ->)%approval_in_ok _]%tx_read_ok. done.
Qed.

Lemma settle_approval_valid state a t r b :
  DurableApproval_valid a = true → tx_post outcome_valid (settle_approval state a t r b).
Proof.
  intros Ha. unfold settle_approval. case_match; [|by apply tx_post_ret].
  eapply tx_post_bind_with; [apply update_attempt_valid; keeps_fields|].
  intros p [? ?]. by apply tx_post_ret.
Qed.

Definition opt_valid (p : option OperationRecord * option OperationAttempt) : Prop :=
  opt_all OperationRecord_valid p.1 = true ∧ opt_all OperationAttempt_valid p.2 = true.

Lemma recovery_target_valid state c : tx_post opt_valid (recovery_target state c).
Proof.
  unfold recovery_target. destruct (truthy _); [|by apply tx_post_ret].
  intros db p db' (o & s1 & [(r & _ & Ho & ->)%operation_in_ok ->]%tx_read_ok & H)%tx_bind_ok.
  apply tx_bind_ok in H as (a & s1 & [[Ha _]%current_attempt_in_ok ->]%tx_read_ok & H).
  apply tx_bind_ok in H as ([] & s1 & _ & H). by apply tx_ret_ok in H as [<- _].
Qed.

Lemma recovery_retry_valid env state c o a t :
  tx_post valid_pair (recovery_retry env state c o a t).
Proof.
  unfold recovery_retry. destruct o as [o|], a as [a|]; try apply tx_post_fail.
  do 4 (apply tx_post_bind; intros ?). apply begin_operation_attempt_valid.
Qed.

Lemma recovery_effect_valid env state c o a t :
  opt_valid (o, a) → tx_post opt_valid (recovery_effect env state c o a t).
Proof.
  intros Hoa. unfold recovery_effect.
  destruct (rc_action c); try case_decide; try (by apply tx_post_ret).
  - eapply tx_post_bind_with; [apply recovery_retry_valid|intros p ?; by apply tx_post_ret].
  - unfold recovery_confirm. destruct o as [o|], a as [a|];
      try (apply tx_post_bind_with with (λ _, False); [apply tx_post_fail|done]).
    eapply tx_post_bind_with; [|intros p Hp; apply tx_post_ret; exact Hp].
    apply tx_post_bind. intros _. apply update_attempt_valid. keeps_fields.
  - destruct o as [o|], a as [a|]; try (by apply tx_post_ret).
    eapply tx_post_bind_with; [|intros p Hp; apply tx_post_ret; exact Hp].
    unfold recovery_fail. case_decide; apply update_attempt_valid; keeps_fields.
Qed.

Lemma apply_recovery_valid env state h c t :
  tx_post (λ r, opt_valid (r.1.2, r.2)) (apply_recovery env state h c t).
Proof.
  unfold apply_recovery. eapply tx_post_bind_with; [apply recovery_target_valid|].
  intros [o a] Hoa. eapply tx_post_bind_with; [by apply recovery_effect_valid|].
  intros [o' a'] Hoa'. do 3 (apply tx_post_bind; intros _). by apply tx_post_ret.
Qed.

Lemma dispatch_valid cfg env state command :
  body_valid (cm_body command) = true → tx_post outcome_valid (dispatch cfg env state command).
Proof.
  intros Hb. unfold dispatch. destruct (cm_body command) eqn:E;
    try (by apply handle_attempt_valid); try (by apply handle_operation_valid);
    try (by apply tx_post_ret);
    try (unfold start_replacement, start_finalize, invalidate_generation,
      create_safe_checkpoint, finalize_terminal; tx_post; done).
  - apply tx_post_lift. unfold handle_transition. intros o H. case_decide; tx_inv H. done.
  - apply tx_post_lift. unfold bind_session. intros o H. case_decide; tx_inv H. done.
  - apply tx_post_lift. unfold upgrade_persistence. intros o H. repeat case_decide; by tx_inv H.
  - by_update finalize_audit_valid.
  - by_update finalize_inbox_valid.
  - by_update create_operation_valid.
  - by_update begin_operation_attempt_valid.
  - eapply tx_post_bind_with; [apply begin_operation_valid|]. intros o Ho.
    eapply (tx_post_bind_with (λ a, OperationAttempt_valid a = true)).
    + by intros db a db' [[Ha _]%current_attempt_in_ok _]%tx_read_ok.
    + intros a Ha. by apply tx_post_ret.
  - unfold create_approval. do 5 (apply tx_post_bind; intros ?). by apply tx_post_ret.
  - apply approval_read_valid. intros a Ha. do 2 (apply tx_post_bind; intros _).
    case_decide; [by apply settle_approval_valid|by apply tx_post_ret].
  - apply approval_read_valid. intros a Ha. apply tx_post_bind. intros _.
    case_decide; [|by apply tx_post_ret]. do 4 (apply tx_post_bind; intros ?).
    by apply settle_approval_valid.
  - eapply tx_post_bind_with; [apply apply_recovery_valid|]. intros r []. by apply tx_post_ret.
Qed.
