(* ===== verification/Replay.v ===== *)
(** * Replay: a command takes effect at most once

    [processed_commands] remembers the result of every command.  Submitting a
    command again, to this Gateway or to a later one, returns the remembered
    result and writes nothing; two commands prepared against the same revision
    cannot both commit. *)

From stdpp Require Import relations.
From S2P Require Import Prelude PyText PyTime AgentTypes AgentState Sanitizer Commands.
From S2P Require Import OperationReduce FinalizeEvidence Store Events Operations FinalizeOps.
From S2P Require Import Controller Frames Outcomes Apply Observations Outbox System Demo StatesInv.
From S2P Require Import Lifecycle Records.

#[local] Open Scope Z_scope.

(** ** Processed commands are never forgotten *)

Definition keeps_processed (db db' : Db) : Prop :=
  ∀ id row, db_processed db !! id = Some row → db_processed db' !! id = Some row.
#[local] Instance keeps_processed_preorder : PreOrder keeps_processed.
Proof. split; [by intros ???|]. intros x y z H1 H2 id row H. by apply H2, H1. Qed.

Lemma keeps_processed_closed : closed keeps_processed.
Proof.
  closed_by_frame.
  intros id r db u db' [Hn ->]%insert_processed_ok id' row. cbn. intros H.
  rewrite lookup_insert_ne; [done|]. intros <-. congruence.
Qed.

Lemma steps_keep_processed db db' : rtc gateway_step db db' → keeps_processed db db'.
Proof.
  induction 1 as [|x y z Hxy _ IH]; [done|].
  etrans; [|exact IH]. by apply (gateway_step_rel _ keeps_processed_closed).
Qed.

(** ** The result [apply] remembers *)

Lemma apply_remembers cfg gate env c db r db' :
  reachable db → command_valid c = true → apply cfg gate env c db = Ok (r, db') →
  ∃ row, db_processed db' !! sc_command_id (cm_head c) = Some row ∧
    pc_command_hash row = sha256_hex (cf_dump cfg c) ∧ ApplyResult_valid (pc_result row) = true ∧
    r ⟪ ar_duplicate := true ⟫ = (pc_result row) ⟪ ar_duplicate := true ⟫.
Proof.
  intros [Hwf _]%reachable_states_ok Hc H.
  apply apply_ok in H as [_ [(-> & row & Hp & Hh & Hv & ->)|(state & o & db1 & F)]].
  - exists row. by split_and!.
  - pose proof (result_valid _ _ _ _ _ _ _ _ _ Hc Hwf F) as Hs.
    pose proof (cf_processed _ _ _ _ _ _ _ _ (fr_commit _ _ _ _ _ _ _ _ _ F)) as Hp.
    rewrite Hp, lookup_insert_eq. eexists. split; [done|]. split; [done|]. split; [|done].
    pose proof (command_body _ Hc) as Hb.
    destruct (dispatch_valid cfg env state c Hb _ _ _ (fr_dispatch _ _ _ _ _ _ _ _ _ F))
      as (Ho & Ha & Hap).
    destruct (fresh_stepped _ _ _ _ _ _ _ _ _ Hwf F) as (row & _ & S).
    destruct (sp_result _ _ _ _ _ _ _ S) as (_ & E1 & E2 & E3 & _). cbn.
    unfold ApplyResult_valid. by rewrite Hs, E1, E2, E3, Ho, Ha, Hap.
Qed.

Lemma apply_replay cfg env c db row :
  db_processed db !! sc_command_id (cm_head c) = Some row →
  pc_command_hash row = sha256_hex (cf_dump cfg c) → ApplyResult_valid (pc_result row) = true →
  apply cfg (Ok tt) env c db = Ok ((pc_result row) ⟪ ar_duplicate := true ⟫, db).
Proof.
  intros Hp Hh Hv. unfold apply, tx_lift, tx_gets, mbind, tx_bind. rewrite Hp.
  unfold reject. rewrite decide_False by (intros E; by apply E).
  unfold checked. by rewrite Hv.
Qed.

(** ** Claims *)

(** C2: once a command has committed, submitting it again, at any
    later time, to any controller that dumps it the same way (whatever its
    epoch, clock and identifiers), returns the same result marked as a
    duplicate and leaves the store as it is. *)
Theorem exactly_once cfg gate env c db r db1 :
  reachable db → command_valid c = true → apply cfg gate env c db = Ok (r, db1) →
  ∀ db2 cfg' env', rtc gateway_step db1 db2 → cf_dump cfg' c = cf_dump cfg c →
    apply cfg' (Ok tt) env' c db2 = Ok (r ⟪ ar_duplicate := true ⟫, db2).
Proof.
  intros Hr Hc H db2 cfg' env' Hs Hd.
  destruct (apply_remembers _ _ _ _ _ _ _ Hr Hc H) as (row & Hp & Hh & Hv & ->).
  apply apply_replay; [by apply (steps_keep_processed _ _ Hs)|congruence|done].
Qed.

(** A command id that has committed is never accepted
    for a command with another content hash. *)
Lemma command_id_conflict cfg gate env c db r db1 :
  reachable db → command_valid c = true → apply cfg gate env c db = Ok (r, db1) →
  ∀ db2 cfg' gate' env' c', rtc gateway_step db1 db2 →
    sc_command_id (cm_head c') = sc_command_id (cm_head c) →
    sha256_hex (cf_dump cfg' c') ≠ sha256_hex (cf_dump cfg c) →
    ∃ e, apply cfg' gate' env' c' db2 = Err e ∧
      (gate' = Ok tt → e = StateConflictError "one command_id used for different commands").
Proof.
  intros Hr Hc H db2 cfg' gate' env' c' Hs Hid Hne.
  destruct (apply_remembers _ _ _ _ _ _ _ Hr Hc H) as (row & Hp & Hh & _).
  apply (steps_keep_processed _ _ Hs) in Hp. rewrite <- Hid in Hp.
  unfold apply, tx_lift, tx_gets, mbind, tx_bind. destruct gate' as [[]|e]; [|by (eexists; split)].
  rewrite Hp. unfold reject. rewrite decide_True by congruence. eauto.
Qed.

(** The state of a Run only moves forward. *)
Lemma steps_revision db db' run row :
  reachable db → rtc gateway_step db db' → db_states db !! run = Some row →
  ∃ row', db_states db' !! run = Some row' ∧
    st_revision (sr_body row) ≤ st_revision (sr_body row').
Proof.
  intros [Hwf _]%reachable_states_ok Hs H.
  destruct (history _ _ _ _ Hwf Hs H) as (row' & ? & _ & ? & _). eauto.
Qed.

Lemma reachable_step db db' : reachable db → gateway_step db db' → reachable db'.
Proof. intros (db0 & Hi & Hr) Hs. exists db0. split; [done|]. by eapply rtc_r. Qed.
Lemma reachable_steps db db' : reachable db → rtc gateway_step db db' → reachable db'.
Proof. intros (db0 & Hi & Hr) Hs. exists db0. split; [done|]. by etrans. Qed.

(** C6: of two commands prepared against the same revision of a
    Run, the second is refused: after the first has committed, at any later
    time and by any controller, it raises StateConflictError. *)
Theorem cas_exclusive cfg gate env c1 db r db1 :
  reachable db → command_valid c1 = true →
  db_processed db !! sc_command_id (cm_head c1) = None →
  apply cfg gate env c1 db = Ok (r, db1) →
  ∀ db2 cfg' env' c2, rtc gateway_step db1 db2 →
    db_processed db2 !! sc_command_id (cm_head c2) = None →
    sc_run_id (cm_head c2) = sc_run_id (cm_head c1) →
    sc_expected_revision (cm_head c2) = sc_expected_revision (cm_head c1) →
    apply cfg' (Ok tt) env' c2 db2 = Err (StateConflictError "State revision conflict").
Proof.
  intros Hr Hc Hnew H db2 cfg' env' c2 Hs Hn2 Hrun Hrev.
  assert (reachable db1) as Hr1 by (eapply reachable_step; [done|by econstructor]).
  pose proof (reachable_steps _ _ Hr1 Hs) as Hr2.
  apply apply_ok in H as [_ [(_ & row & Hp & _)|(state & o & dbx & F)]]; [congruence|].
  destruct (reachable_states_ok _ Hr) as [Hwf _].
  destruct (fresh_stepped _ _ _ _ _ _ _ _ _ Hwf F) as (row & <- & S).
  pose proof (fr_revision _ _ _ _ _ _ _ _ _ F) as Hexp.
  destruct (sp_result _ _ _ _ _ _ _ S) as (Hst & _).
  assert (db_states db1 !! sc_run_id (cm_head c1) =
    Some (state_row (ar_state r) (next_sequence (sc_run_id (cm_head c1)) db))) as Hrow1
    by (rewrite (sp_states _ _ _ _ _ _ _ S); apply lookup_insert_eq).
  destruct (steps_revision _ _ _ _ Hr1 Hs Hrow1) as (row2 & Hrow2 & Hle).
  destruct (reachable_states_ok _ Hr2) as [_ Hv2].
  assert (state_in (sc_run_id (cm_head c2)) db2 = Ok (sr_body row2)) as Hin.
  { apply state_in_ok. rewrite Hrun. eauto. }
  pose proof (sp_identity _ _ _ _ _ _ _ S) as Hid. unfold identity in Hid. injection Hid as Hid _.
  rewrite Hst in Hle. cbn in Hle.
  unfold apply, tx_lift, tx_gets, tx_read, mbind, tx_bind. rewrite Hn2, Hin.
  unfold fence, mbind, tx_bind, reject. rewrite decide_True; [done|lia].
Qed.

(** A command whose fencing epoch is not the
    controller's, or that reaches a controller other than the one that owns the
    Run (and does not adopt its epoch), never commits. *)
Lemma stale_epoch_fenced cfg gate env c db r db' row :
  apply cfg gate env c db = Ok (r, db') →
  db_processed db !! sc_command_id (cm_head c) = None →
  db_states db !! sc_run_id (cm_head c) = Some row →
  sc_gateway_epoch (cm_head c) = cf_gateway_epoch cfg ∧
  st_revision (sr_body row) = sc_expected_revision (cm_head c) ∧
  match cm_body c with
  | AdoptGatewayEpoch previous _ =>
      previous = st_gateway_epoch (sr_body row) ∧
      st_gateway_epoch (ar_state r) = cf_gateway_epoch cfg
  | _ => st_gateway_epoch (sr_body row) = cf_gateway_epoch cfg
  end.
Proof.
  intros H Hn Hrow.
  apply apply_ok in H as [_ [(_ & row' & Hp & _)|(state & o & dbx & F)]]; [congruence|].
  pose proof (fr_state _ _ _ _ _ _ _ _ _ F) as Hs. apply state_in_ok in Hs as (row' & Hr' & _ & ->).
  rewrite Hrow in Hr'. injection Hr' as <-.
  split; [by apply (fr_epoch _ _ _ _ _ _ _ _ _ F)|].
  split; [by apply (fr_revision _ _ _ _ _ _ _ _ _ F)|].
  pose proof (fr_fence _ _ _ _ _ _ _ _ _ F) as Hf. pose proof (fr_dispatch _ _ _ _ _ _ _ _ _ F) as Hd.
  destruct (cf_event _ _ _ _ _ _ _ _ (fr_commit _ _ _ _ _ _ _ _ _ F))
    as (e & d1 & d2 & _ & _ & _ & _ & _ & ->).
  unfold dispatch in Hd. destruct (cm_body c); try done. split; [done|].
  by apply tx_ret_ok in Hd as [<- _].
Qed.

(** ** Witnesses *)

Lemma demo_same_dump : cf_dump demo_cfg2 = cf_dump demo_cfg.
Proof. done. Qed.

(** The RUNNING transition of the demo, submitted again after the Run has ended. *)
Lemma exactly_once_witness : ∃ r,
  apply demo_cfg (Ok tt) (demo_env 3) (demo_command 3) (demo 2) = Ok (r, demo 3) ∧
  apply demo_cfg2 (Ok tt) (demo_env 99) (demo_command 3) (demo 31)
    = Ok (r ⟪ ar_duplicate := true ⟫, demo 31).
Proof.
  destruct (demo_ok 3 ltac:(lia)) as [r F]. exists r. split; [apply (df_apply _ _ F)|].
  apply (exactly_once demo_cfg (Ok tt) (demo_env 3) (demo_command 3) (demo 2) r (demo 3)
    (demo_reachable 2) (df_valid _ _ F) (df_apply _ _ F)).
  - apply (demo_reaches 3 31). lia.
  - by rewrite demo_same_dump.
Defined.

(** A command that reuses the id of the third one. *)
Definition demo_clash : Command :=
  mkCommand (cm_head (demo_command 3)) (BindSession "session-1").
Definition demo_cfg3 : Config :=
  mkConfig "epoch-1" (λ c, match cm_body c with BindSession s => s | _ => sc_command_id (cm_head c) end).

(** A second command prepared against revision 2. *)
Definition demo_rival : Command :=
  mkCommand (mkStateCommand "rival" "primary" None None "run-1" 2 "epoch-1")
    (RequestCancellation "stop").

Lemma rival_is_new : db_processed (demo 3) !! "rival" = None.
Proof. vm_cast_no_check (@eq_refl (option ProcessedRow) None). Qed.

Lemma cas_exclusive_witness :
  apply demo_cfg (Ok tt) (demo_env 22) demo_rival (demo 3)
    = Err (StateConflictError "State revision conflict").
Proof.
  destruct (demo_ok 3 ltac:(lia)) as [r F].
  apply (cas_exclusive demo_cfg (Ok tt) (demo_env 3) (demo_command 3) (demo 2) r (demo 3)
    (demo_reachable 2) (df_valid _ _ F) (df_new _ _ F) (df_apply _ _ F) (demo 3) demo_cfg
    (demo_env 22) demo_rival); [done|exact rival_is_new|done|done].
Defined.

