(* ===== verification/Terminal.v ===== *)
(** * Terminal: a normal terminal state is only reached with its proof

    [finalize_proof] says what SUCCEEDED, FAILED or CANCELLED promise: the
    current generation of FINALIZING is recorded and was not invalidated, its
    four steps have a completed operation whose attempt holds evidence that
    hashes to the hash recorded with it, that belongs to this Run, generation,
    operation and attempt and that satisfies the persistence contract; the
    session index points at the memory attempt, the audit evidence at both and
    at the current receipt, and the inbox evidence at the inbox row. *)

From stdpp Require Import relations.
From S2P Require Import Prelude PyText PyTime AgentTypes AgentState Sanitizer Commands.
From S2P Require Import OperationReduce FinalizeEvidence Store Events Operations FinalizeOps.
From S2P Require Import Controller Frames Outcomes Apply Observations Outbox System Demo StatesInv.
From S2P Require Import Lifecycle Records Replay.

#[local] Open Scope Z_scope.

(** ** The specification *)

(** The attempt [a] of step [s] proves [ev]. *)
Record step_proved (state : AgentState) (g : Z) (s : FinalizeStep) (db : Db)
    (ev : FinalizeStepEvidence) (a : OperationAttempt) : Prop := {
  pv_operation : ∃ id row, db_operations db !! id = Some row ∧
      or_run_id row = st_run_id state ∧ or_kind row = finalize_operation_kind s ∧
      or_stable_key row = finalize_stable_key g s ∧
      op_status (or_body row) = OS_COMPLETED ∧
      op_operation_id (or_body row) = sha256_hex (st_run_id state +:+ ":" +:+ finalize_stable_key g s) ∧
      op_stable_key (or_body row) = finalize_stable_key g (ev_step (evidence_head ev)) ∧
      op_request_hash (or_body row)
        = sha256_hex (json_dumps (finalize_request state g (ev_step (evidence_head ev)))) ∧
      a ∈ map tr_body (attempt_rows (op_operation_id (or_body row)) db) ∧
      ev_operation_id (evidence_head ev) = op_operation_id (or_body row);
  pv_run : ev_run_id (evidence_head ev) = st_run_id state;
  pv_generation : ev_generation (evidence_head ev) = g;
  pv_attempt : ev_attempt_id (evidence_head ev) = at_attempt_id a;
  pv_valid : Evidence_valid ev = true;
  pv_hash : at_result_hash a = Some (sha256_hex (json_dumps (evidence_json ev)));
  pv_requirement : validate_requirement state ev = Ok tt
}.

Record finalize_proof (state : AgentState) (g : Z) (db : Db) : Prop := {
  fp_generation : st_finalize_generation state = Some g;
  fp_recorded : is_some (db_generations db !! (st_run_id state, g)) = true;
  fp_current : invalidated (st_run_id state) g db = false;
  fp_steps : ∃ memory index audit inbox ma ia aa ba,
      step_proved state g FS_MEMORY db memory ma ∧ step_proved state g FS_SESSION_INDEX db index ia ∧
      step_proved state g FS_AUDIT db audit aa ∧ step_proved state g FS_INBOX db inbox ba ∧
      (∀ v, index = Verified v → fr_memory_attempt_id (ve_references v) = Some (at_attempt_id ma) ∧
         fr_memory_result_hash (ve_references v) = at_result_hash ma) ∧
      (∃ v current receipt, audit = Verified v ∧
         db_current_receipt db !! st_run_id state = Some current ∧
         db_receipts db !! kr_receipt_id current = Some receipt ∧
         cr_finalize_generation receipt = g ∧ ve_artifact_hash v = cr_receipt_hash receipt ∧
         fr_receipt_id (ve_references v) = Some (kr_receipt_id current) ∧
         fr_memory_attempt_id (ve_references v) = Some (at_attempt_id ma) ∧
         fr_memory_result_hash (ve_references v) = at_result_hash ma ∧
         fr_session_index_attempt_id (ve_references v) = Some (at_attempt_id ia) ∧
         fr_session_index_result_hash (ve_references v) = at_result_hash ia) ∧
      (∃ v item row, inbox = Verified v ∧ fr_inbox_item_id (ve_references v) = Some item ∧
         db_inbox db !! item = Some row ∧ ve_artifact_hash v = canonical_hash (inbox_json item row))
}.

(** ** The checks imply it *)

Lemma for_step_ok state g s i :
  for_step state g s = Ok i →
  1 ≤ g ∧ i = mkIdentity (st_run_id state) g s (finalize_stable_key g s)
    (sha256_hex (st_run_id state +:+ ":" +:+ finalize_stable_key g s))
    (sha256_hex (json_dumps (finalize_request state g s))).
Proof.
  unfold for_step. cbv zeta. intros [H ->]%checked_ok. split; [by apply Z.leb_le in H|done].
Qed.

Lemma decode_ok t v : decode t = Ok v → Evidence_valid v = true.
Proof.
  unfold decode. intros H%res_of_option_ok. apply bind_Some in H as (j & _ & H).
  unfold evidence_of in H. apply bind_Some in H as (d & _ & H). apply bind_Some in H as (k & _ & H).
  apply bind_Some in H as (e & _ & H). destruct (Evidence_valid e) eqn:E; [|done]. by injection H as <-.
Qed.

Lemma encode_ok v e :
  encode v = Ok e →
  decode (json_dumps (sanitize (evidence_json v))) = Ok (en_value e) ∧
  Evidence_valid (en_value e) = true ∧
  en_serialized e = json_dumps (evidence_json (en_value e)) ∧
  en_result_hash e = sha256_hex (en_serialized e).
Proof.
  unfold encode. intros (f & Hf & H)%res_bind_ok. apply (proj1 (res_ret_ok _ _)) in H as <-.
  split_and!; try done. by apply decode_ok in Hf.
Qed.

Lemma verify_ok t h v :
  verify t h = Ok v →
  Evidence_valid v = true ∧ h = sha256_hex (json_dumps (evidence_json v)).
Proof.
  unfold verify. intros (v0 & _ & H)%res_bind_ok. apply res_bind_ok in H as (e & He & H).
  case_decide as Hn; [done|]. apply (proj1 (res_ret_ok _ _)) in H as <-.
  apply encode_ok in He as (_ & Hv & Hs & Hh). split; [done|].
  by rewrite <- Hn, Hh, Hs.
Qed.

Lemma validate_requirement_unit state ev u : validate_requirement state ev = Ok u → u = tt.
Proof. by destruct u. Qed.

Lemma validate_finalize_evidence_ok state o a t h ev :
  validate_finalize_evidence state o a t h = Ok ev →
  verify t h = Ok ev ∧ ev_run_id (evidence_head ev) = st_run_id state ∧
  Some (ev_generation (evidence_head ev)) = st_finalize_generation state ∧
  ev_operation_id (evidence_head ev) = op_operation_id o ∧
  ev_attempt_id (evidence_head ev) = at_attempt_id a ∧
  op_stable_key o = finalize_stable_key (ev_generation (evidence_head ev)) (ev_step (evidence_head ev)) ∧
  op_request_hash o = sha256_hex (json_dumps (finalize_request state
    (ev_generation (evidence_head ev)) (ev_step (evidence_head ev)))) ∧
  validate_requirement state ev = Ok tt.
Proof.
  unfold validate_finalize_evidence. destruct (verify t h) as [e|] eqn:Hv; [|done].
  do 4 (case_decide as H1; [done|]; revert H1).
  intros Ha Ho Hg Hr H. apply res_bind_ok in H as (i & [_ ->]%for_step_ok & H).
  case_decide as Hi; [done|]. cbn in Hi.
  destruct (validate_requirement state e) as [[]|] eqn:Hq; [|done].
  apply (proj1 (res_ret_ok _ _)) in H as <-.
  split_and!; try done.
  - destruct (decide (op_stable_key o = finalize_stable_key (ev_generation (evidence_head e))
      (ev_step (evidence_head e)))); [done|]. tauto.
  - destruct (decide (op_request_hash o = sha256_hex (json_dumps (finalize_request state
      (ev_generation (evidence_head e)) (ev_step (evidence_head e)))))); [done|]. tauto.
Qed.

Lemma operation_by_key_ok run kind key db row :
  operation_by_key run kind key db = Some row →
  ∃ id, db_operations db !! id = Some row ∧ or_run_id row = run ∧ or_kind row = kind ∧
        or_stable_key row = key.
Proof.
  unfold operation_by_key. intros ([id r] & Hf & E)%fmap_Some. cbn in E. subst r.
  apply find_some in Hf as [Hin Hp]. apply list_elem_of_In, elem_of_map_to_list in Hin.
  exists id. split; [done|]. cbn in Hp. rewrite !andb_true_iff, !bool_decide_eq_true in Hp. tauto.
Qed.

Lemma step_evidence_ok state g s db ev a :
  st_finalize_generation state = Some g →
  step_evidence state g s db = Ok (ev, a) → step_proved state g s db ev a.
Proof.
  intros Hg. unfold step_evidence. intros (i & [_ ->]%for_step_ok & H)%res_bind_ok. cbn in H.
  apply res_bind_ok in H as (row & Hk%res_of_option_ok & H).
  apply operation_by_key_ok in Hk as (id & Hrow & Hrun & Hkind & Hkey).
  apply res_bind_ok in H as (o & [Ho ->]%checked_ok & H).
  case_decide as Hs; [done|].
  assert (op_operation_id (or_body row)
      = sha256_hex (st_run_id state +:+ ":" +:+ finalize_stable_key g s) ∧
    op_status (or_body row) = OS_COMPLETED) as [Hid Hst].
  { split; apply dec_stable; tauto. }
  apply res_bind_ok in H as (x & [Hx Hin]%current_attempt_in_ok & H).
  destruct (truthy (at_result x) && truthy (at_result_hash x)) eqn:Ht; [|done]. cbn in H.
  apply res_bind_ok in H as (e & He & H). apply (proj1 (res_ret_ok _ _)) in H as [= <- <-].
  apply validate_finalize_evidence_ok in He as ([Hv Hh]%verify_ok & H1 & H2 & H3 & H4 & H5 & H6 & H7).
  rewrite Hg in H2. injection H2 as H2. rewrite H2 in *.
  split; try done.
  - exists id, row. by split_and!.
  - destruct (at_result_hash x); [|by rewrite andb_false_r in Ht]. by rewrite <- Hh.
Qed.

Lemma index_references_memory_ok index ma :
  index_references_memory index ma = true →
  ∀ v, index = Verified v → fr_memory_attempt_id (ve_references v) = Some (at_attempt_id ma) ∧
    fr_memory_result_hash (ve_references v) = at_result_hash ma.
Proof.
  intros H v ->. cbn in H. by rewrite andb_true_iff, !bool_decide_eq_true in H.
Qed.

Lemma audit_matches_receipt_ok state g audit ma ia db :
  audit_matches_receipt state g audit ma ia db = true →
  ∃ v current receipt, audit = Verified v ∧
    db_current_receipt db !! st_run_id state = Some current ∧
    db_receipts db !! kr_receipt_id current = Some receipt ∧
    cr_finalize_generation receipt = g ∧ ve_artifact_hash v = cr_receipt_hash receipt ∧
    fr_receipt_id (ve_references v) = Some (kr_receipt_id current) ∧
    fr_memory_attempt_id (ve_references v) = Some (at_attempt_id ma) ∧
    fr_memory_result_hash (ve_references v) = at_result_hash ma ∧
    fr_session_index_attempt_id (ve_references v) = Some (at_attempt_id ia) ∧
    fr_session_index_result_hash (ve_references v) = at_result_hash ia.
Proof.
  unfold audit_matches_receipt. destruct (db_current_receipt db !! _) as [k|]; [|done].
  destruct audit as [v|]; [|done]. destruct (db_receipts db !! _) as [r|] eqn:Hr; [|done].
  rewrite !andb_true_iff, !bool_decide_eq_true. intros H. exists v, k, r. tauto.
Qed.

Lemma check_inbox_evidence_ok inbox db u :
  check_inbox_evidence inbox db = Ok u →
  ∃ v item row, inbox = Verified v ∧ fr_inbox_item_id (ve_references v) = Some item ∧
    db_inbox db !! item = Some row ∧ ve_artifact_hash v = canonical_hash (inbox_json item row).
Proof.
  unfold check_inbox_evidence. destruct inbox as [v|]; [|done].
  destruct (fr_inbox_item_id (ve_references v)) as [i|] eqn:E; [|done].
  case_match; [done|]. cbn. intros (row & Hr%res_of_option_ok & Hd)%res_bind_ok.
  case_decide as Hn; [done|]. exists v, i, row. by split_and!.
Qed.

Lemma validate_terminal_finalize_ok state g db :
  validate_terminal_finalize state g db = Ok tt → finalize_proof state g db.
Proof.
  unfold validate_terminal_finalize. case_decide as Hg; [done|].
  destruct (is_some _) eqn:Hr; [|done]. cbn.
  destruct (invalidated _ _ _) eqn:Hi; [done|].
  intros ([memory ma] & Hm & H)%res_bind_ok. apply res_bind_ok in H as ([index ia] & Hx & H).
  apply res_bind_ok in H as ([audit aa] & Ha & H). apply res_bind_ok in H as ([inbox ba] & Hb & H).
  cbn in H. destruct (index_references_memory index ma) eqn:H1; [|done]. cbn in H.
  destruct (audit_matches_receipt _ _ _ _ _ _) eqn:H2; [|done]. cbn in H.
  split; [done..|].
  exists memory, index, audit, inbox, ma, ia, aa, ba.
  split_and!; try (by apply step_evidence_ok).
  - by apply index_references_memory_ok.
  - by apply audit_matches_receipt_ok.
  - by apply check_inbox_evidence_ok in H.
Qed.

(** ** Entering a normal terminal state *)

(** The step by which a Run enters a normal terminal state. *)
Record terminal_entry (db : Db) (run : string) (target : TaskState) : Prop := {
  en_reachable : reachable db;
  en_proof : ∃ row g, db_states db !! run = Some row ∧ st_run_id (sr_body row) = run ∧
      st_task_state (sr_body row) = TS_FINALIZING ∧
      (∃ t, st_terminal_target (sr_body row) = Some t ∧ target = TaskState_of_target t) ∧
      finalize_proof (sr_body row) g db
}.

Lemma dispatch_terminal cfg env state command db o db' :
  dispatch cfg env state command db = Ok (o, db') →
  st_task_state state ∉ NORMAL_TERMINAL → st_task_state (oc_state o) ∈ NORMAL_TERMINAL →
  ∃ t g, db' = db ∧ st_task_state state = TS_FINALIZING ∧ st_terminal_target state = Some t ∧
    st_task_state (oc_state o) = TaskState_of_target t ∧ finalize_proof state g db.
Proof.
  intros Hd Hbefore Hafter. pose proof (dispatch_outcome _ _ _ _ _ _ _ Hd) as (_ & _ & _ & Ho).
  destruct (cm_body command) eqn:Hb;
    try (destruct Ho as [_ Hc]; unfold control in Hc; injection Hc as Hc _; congruence).
  - (* a plain transition *)
    destruct Ho as (_ & T & Hn & _). exfalso. pose proof (te_outer _ _ _ T) as Hout.
    destruct (tc_task_state c) as [t|].
    + destruct Hout as [_ E]. rewrite E in Hafter. apply Hn. unfold NORMAL_TERMINAL in Hafter.
      elem_cases Hafter; subst; elem_here.
    + congruence.
  - unfold dispatch in Hd. rewrite Hb in Hd.
    apply finalize_terminal_ok in Hd as (-> & t & s & -> & Ht & Hf & Hv & T).
    exists t, generation. split_and!; try done.
    + pose proof (te_outer _ _ _ T) as Hout. by destruct Hout.
    + by apply validate_terminal_finalize_ok.
Qed.

(** The row of a Run that a step takes into a normal terminal state. *)
Lemma step_terminal db db' run row row' :
  reachable db → gateway_step db db' → db_states db !! run = Some row →
  db_states db' !! run = Some row' →
  st_task_state (sr_body row) ∉ NORMAL_TERMINAL → st_task_state (sr_body row') ∈ NORMAL_TERMINAL →
  terminal_entry db run (st_task_state (sr_body row')).
Proof.
  intros Hr Hs Hrow Hrow' Hbefore Hafter. destruct (reachable_states_ok _ Hr) as [Hwf _].
  assert (∀ db2, db_states db2 !! run = Some row → db_states db2 !! run = Some row' → False) as Hno.
  { intros db2 H1 H2. rewrite H1 in H2. injection H2 as <-. done. }
  destruct Hs as [cfg gate env c r db db' Hc H|cfg env rq r db db' H|cfg env rq s db db' H
    |gate env o o' db db' H|gate env i s o db db' H|db db' H].
  - apply apply_ok in H as [_ [[-> _]|(state & o & db1 & F)]]; [by destruct (Hno db)|].
    destruct (fresh_stepped _ _ _ _ _ _ _ _ _ Hwf F) as (row0 & <- & S).
    rewrite (sp_states _ _ _ _ _ _ _ S) in Hrow'.
    apply lookup_insert_Some in Hrow' as [[<- <-]|[_ H]]; [|by destruct (Hno db)].
    pose proof (sp_row _ _ _ _ _ _ _ S) as Hr0. rewrite Hrow in Hr0. injection Hr0 as <-.
    destruct (sp_result _ _ _ _ _ _ _ S) as (E & _). rewrite E in Hafter |- *. cbn in Hafter |- *.
    destruct (dispatch_terminal _ _ _ _ _ _ _ (fr_dispatch _ _ _ _ _ _ _ _ _ F) Hbefore Hafter)
      as (t & g & -> & Hf & Ht & Hto & Hp).
    split; [done|]. exists row, g. split_and!; try done; [apply (sp_run _ _ _ _ _ _ _ S)|by eauto].
  - destruct r as [s b]. apply create_run_ok in H as [(_ & -> & _)|(_ & Hn & _ & _)]; [by destruct (Hno db)|].
    rewrite (rn_states _ _ _ _ _ _ _ Hn) in Hrow'.
    apply lookup_insert_Some in Hrow' as [[<- _]|[_ H]]; [|by destruct (Hno db)].
    by rewrite (rn_new _ _ _ _ _ _ _ Hn) in Hrow.
  - apply create_state_ok in H as [[-> _]|Hn]; [by destruct (Hno db)|].
    rewrite (rn_states _ _ _ _ _ _ _ Hn) in Hrow'.
    apply lookup_insert_Some in Hrow' as [[<- _]|[_ H]]; [|by destruct (Hno db)].
    by rewrite (rn_new _ _ _ _ _ _ _ Hn) in Hrow.
  - rewrite (observation_states _ _ _ _ _ _ H) in Hrow'. by destruct (Hno db).
  - rewrite (published_states _ _ _ _ _ _ _ H) in Hrow'. by destruct (Hno db).
  - apply dispatcher_redelivered in H as (dl & da & ob & ->). by destruct (Hno db).
Qed.

(** ** Claims *)

(** C1: whenever a Run is found SUCCEEDED, FAILED or CANCELLED
    in a reachable store, it got there by one transaction out of FINALIZING,
    towards the terminal target it had recorded, at a store where
    [finalize_proof] held of its current generation. *)
Theorem terminal_proved db run row :
  reachable db → db_states db !! run = Some row → st_task_state (sr_body row) ∈ NORMAL_TERMINAL →
  ∃ db0 db1, terminal_entry db0 run (st_task_state (sr_body row)) ∧
    gateway_step db0 db1 ∧ rtc gateway_step db1 db.
Proof.
  intros Hr. revert run row. assert (reachable db ∧ ∀ run row, db_states db !! run = Some row →
    st_task_state (sr_body row) ∈ NORMAL_TERMINAL →
    ∃ db0 db1, terminal_entry db0 run (st_task_state (sr_body row)) ∧
      gateway_step db0 db1 ∧ rtc gateway_step db1 db) as [_ H]; [|exact H].
  revert db Hr. apply reachable_ind'.
  - intros d Hi. split; [by exists d|]. destruct Hi as (sinks & gens & ->).
    intros run row H. cbn in H. by rewrite lookup_empty in H.
  - intros d d' [Hr IH] Hs. split; [by eapply reachable_step|]. intros run row' Hrow' Ht.
    destruct (reachable_states_ok _ Hr) as [Hwf _].
    destruct (db_states d !! run) as [row|] eqn:Hrow.
    + destruct (decide (st_task_state (sr_body row) ∈ NORMAL_TERMINAL)) as [Hin|Hin].
      * destruct (history _ _ _ _ Hwf (rtc_once _ _ Hs) Hrow) as (row2 & H2 & _ & _ & Ho & _).
        rewrite Hrow' in H2. injection H2 as <-.
        rewrite (rtc_terminal _ _ (normal_terminal_terminal _ Hin) Ho).
        destruct (IH _ _ Hrow Hin) as (d0 & d1 & He & H01 & H1). exists d0, d1.
        split_and!; [done..|]. by eapply rtc_r.
      * exists d, d'. split; [|done]. by eapply step_terminal.
    + destruct (step_new_row _ _ _ _ Hwf Hs Hrow Hrow') as (E & _). rewrite E in Ht.
      unfold NORMAL_TERMINAL in Ht. by elem_cases Ht.
Qed.

(** The outer machine has no dead end: from every state
    that is not terminal there is a path to each of SUCCEEDED, FAILED and
    CANCELLED, at most two transitions long; likewise the inner machine can
    finish from every state, in at most one. *)
Lemma terminal_reachable s t :
  s ∉ TERMINAL_STATES → t ∈ NORMAL_TERMINAL →
  (∃ n, (n ≤ 2)%nat ∧ nsteps outer_step n s t) ∧
  ∀ e, e = ES_FINISHED ∨ inner_step e ES_FINISHED.
Proof.
  intros Hs Ht. split.
  - assert (outer_step TS_FINALIZING t) as Hf.
    { unfold NORMAL_TERMINAL in Ht. elem_cases Ht; subst; apply (bool_decide_unpack _); done. }
    destruct (decide (s = TS_FINALIZING)) as [->|Hne].
    + exists 1%nat. split; [lia|]. by apply nsteps_once.
    + exists 2%nat. split; [lia|]. econstructor; [|by apply nsteps_once].
      destruct s; try (by destruct Hs; apply (bool_decide_unpack _)); try done;
        apply (bool_decide_unpack _); done.
  - intros e. destruct e; [right|right|right|right|by left]; apply (bool_decide_unpack _); done.
Qed.

(** ** Witnesses *)

Lemma terminal_proved_witness : ∃ row db0 db1,
  db_states (demo 31) !! "run-1" = Some row ∧
  terminal_entry db0 "run-1" TS_SUCCEEDED ∧ gateway_step db0 db1 ∧ rtc gateway_step db1 (demo 31).
Proof.
  destruct (demo_row 31 ltac:(lia)) as (row & Hrow & _ & Ht).
  destruct (terminal_proved (demo 31) "run-1" row (demo_reachable 31) Hrow) as (db0 & db1 & H).
  - rewrite Ht. left.
  - rewrite Ht in H. exists row, db0, db1. split; [exact Hrow|exact H].
Defined.

