(* ===== verification/Ledger.v ===== *)
(** * Ledger: what the tables of operations guarantee in every reachable store

    The attempts of [operation_attempts]: numbers and external identities are
    not shared, at most one side effect of a Run is open, what an attempt is an
    attempt of never changes, and a finished attempt stays finished. *)

From stdpp Require Import relations.
From S2P Require Import Prelude PyText PyTime AgentTypes AgentState Sanitizer Commands.
From S2P Require Import OperationReduce FinalizeEvidence Store Events Operations FinalizeOps.
From S2P Require Import Controller Frames Outcomes Apply Observations Outbox System Demo StatesInv.
From S2P Require Import Lifecycle Records Replay.

#[local] Open Scope Z_scope.

(** ** Scans *)

Lemma other_false {A} (m : gmap string A) k p :
  other m k p = false ↔ ∀ k' v, k' ≠ k → m !! k' = Some v → p v = false.
Proof.
  unfold other. split.
  - intros H k' v Hne Hv. destruct (p v) eqn:E; [|done].
    assert (existsb (λ kv, negb (bool_decide (kv.1 = k)) && p kv.2) (map_to_list m) = true) as Hx.
    { apply existsb_exists. exists (k', v). split.
      - by apply list_elem_of_In, elem_of_map_to_list.
      - cbn. by rewrite bool_decide_false, E. }
    congruence.
  - intros H. apply not_true_iff_false. intros (x & Hin & Hp)%existsb_exists.
    destruct x as [k' v]. apply list_elem_of_In, elem_of_map_to_list in Hin.
    apply andb_true_iff in Hp as [Hk Hp]. cbn in Hk, Hp.
    apply negb_true_iff, bool_decide_eq_false in Hk. rewrite (H k' v Hk Hin) in Hp. done.
Qed.

Lemma anyrow_false {K A} `{Countable K} (m : gmap K A) p :
  anyrow m p = false ↔ ∀ k v, m !! k = Some v → p v = false.
Proof.
  unfold anyrow. split.
  - intros Hx k v Hv. destruct (p v) eqn:E; [|done].
    assert (existsb (λ kv, p kv.2) (map_to_list m) = true) as Hy.
    { apply existsb_exists. exists (k, v). split; [|done].
      by apply list_elem_of_In, elem_of_map_to_list. }
    congruence.
  - intros Hx. apply not_true_iff_false. intros ([k v] & Hin & Hp)%existsb_exists.
    apply list_elem_of_In, elem_of_map_to_list in Hin. cbn in Hp. by rewrite (Hx k v Hin) in Hp.
Qed.

Lemma anyrow_true {K A} `{Countable K} (m : gmap K A) p :
  anyrow m p = true ↔ ∃ k v, m !! k = Some v ∧ p v = true.
Proof.
  unfold anyrow. split.
  - intros ([k v] & Hin & Hp)%existsb_exists. apply list_elem_of_In, elem_of_map_to_list in Hin. eauto.
  - intros (k & v & Hv & Hp). apply existsb_exists. exists (k, v). split; [|done].
    by apply list_elem_of_In, elem_of_map_to_list.
Qed.

(** ** [save_attempt] *)

(** The row an upsert leaves. *)
Definition upserted (old : option AttRow) (a : OperationAttempt) : AttRow :=
  match old with
  | Some old => old ⟪ tr_status := at_status a ⟫ ⟪ tr_failure_kind := at_failure_kind a ⟫
      ⟪ tr_recovery_resolution := at_recovery_resolution a ⟫ ⟪ tr_body := a ⟫
      ⟪ tr_updated_at := at_updated_at a ⟫
  | None => fresh_attempt_row a
  end.

Record attempt_saved (a : OperationAttempt) (db db' : Db) (new : AttRow) : Prop := {
  as_new : new = upserted (db_attempts db !! at_attempt_id a) a;
  as_finished : ∀ old, db_attempts db !! at_attempt_id a = Some old →
      tr_status old ∈ FINISHED_STATUSES → tr_status new = tr_status old;
  as_check : attempt_check new = true;
  as_unique : ∀ id r, id ≠ at_attempt_id a → db_attempts db !! id = Some r → attempt_clash new r = false;
  as_operation : is_some (db_operations db !! tr_operation_id new) = true;
  as_store : db' = db ⟪ db_attempts := <[at_attempt_id a := new]> (db_attempts db) ⟫
}.

Lemma save_attempt_ok a db u db' :
  save_attempt a db = Ok (u, db') → ∃ new, attempt_saved a db db' new.
Proof.
  unfold save_attempt. intros (d & s1 & [-> ->]%tx_gets_ok & H)%tx_bind_ok.
  fold (upserted (db_attempts db !! at_attempt_id a) a) in H.
  set (new := upserted _ _) in H.
  apply tx_bind_ok in H as ([] & s1 & [Hf ->]%abort_if_ok & H).
  apply tx_bind_ok in H as ([] & s1 & [Hc ->]%abort_if_ok & H).
  apply tx_bind_ok in H as ([] & s1 & [Hu ->]%abort_if_ok & H).
  apply tx_bind_ok in H as ([] & s1 & [Hk ->]%abort_if_ok & H).
  apply tx_modify_ok in H as ->. exists new. split; try done.
  - intros old Ho Hin. rewrite Ho in Hf. unfold finished_attempt_is_immutable in Hf.
    rewrite bool_decide_true in Hf by done. cbn in Hf.
    by apply negb_false_iff, bool_decide_eq_true in Hf.
  - by apply negb_false_iff in Hc.
  - intros id r Hne Hr. by apply (proj1 (other_false _ _ _) Hu id r).
  - by apply negb_false_iff, andb_true_iff in Hk as [? _].
Qed.

(** ** No two attempts clash *)

Lemma same_some_sym a b : same_some a b = same_some b a.
Proof. destruct a, b; cbn; try done. apply bool_decide_ext. split; congruence. Qed.

Lemma attempt_clash_sym r r' : attempt_clash r r' = attempt_clash r' r.
Proof.
  unfold attempt_clash.
  rewrite (same_some_sym (at_model_call_id _)), (same_some_sym (at_external_request_id _)).
  rewrite (andb_comm (open_side_effect r)).
  by rewrite !(bool_decide_ext (tr_run_id r = tr_run_id r') (tr_run_id r' = tr_run_id r)),
    !(bool_decide_ext (tr_operation_id r = tr_operation_id r') (tr_operation_id r' = tr_operation_id r)),
    !(bool_decide_ext (tr_attempt_no r = tr_attempt_no r') (tr_attempt_no r' = tr_attempt_no r))
    by (split; congruence).
Qed.

Definition attempts_distinct (db : Db) : Prop :=
  ∀ i j r r', i ≠ j → db_attempts db !! i = Some r → db_attempts db !! j = Some r' →
    attempt_clash r r' = false.

Lemma attempts_distinct_closed : closed (keeps attempts_distinct).
Proof.
  closed_by_frame.
  intros a db u db' [new S]%save_attempt_ok Hd i j r r' Hne. rewrite (as_store _ _ _ _ S). cbn.
  intros [[<- <-]|[Hi Hr]]%lookup_insert_Some [[Hj <-]|[Hj Hr']]%lookup_insert_Some.
  - done.
  - by apply (as_unique _ _ _ _ S j).
  - rewrite attempt_clash_sym. subst j. apply (as_unique _ _ _ _ S i); [congruence|done].
  - by apply (Hd i j).
Qed.

(** Every attempt passes the CHECK of its table and belongs to an operation. *)
Definition attempts_checked (db : Db) : Prop :=
  ∀ i r, db_attempts db !! i = Some r →
    attempt_check r = true ∧ is_some (db_operations db !! tr_operation_id r) = true.

Lemma save_operation_ok o db u db' :
  save_operation o db = Ok (u, db') →
  ∃ row, db' = db ⟪ db_operations := <[op_operation_id o := row]> (db_operations db) ⟫ ∧
    match db_operations db !! op_operation_id o with
    | Some old => row = old ⟪ or_status := op_status o ⟫ ⟪ or_body := o ⟫
                            ⟪ or_updated_at := op_updated_at o ⟫
    | None => row = mkOpRow (op_run_id o) (op_parent_operation_id o) (op_kind o) (op_status o) o
          (op_updated_at o) (op_stable_key o) (op_request_hash o) (op_side_effecting o) ∧
        (∀ id r, db_operations db !! id = Some r →
           ¬ (or_run_id r = op_run_id o ∧ or_kind r = op_kind o ∧ or_stable_key r = op_stable_key o))
    end.
Proof.
  unfold save_operation. intros (d & s1 & [-> ->]%tx_gets_ok & H)%tx_bind_ok.
  destruct (db_operations db !! op_operation_id o) as [old|] eqn:E.
  - apply tx_modify_ok in H as ->. by eexists.
  - apply tx_bind_ok in H as ([] & s1 & [Hu ->]%abort_if_ok & H).
    apply tx_bind_ok in H as ([] & s1 & [_ ->]%abort_if_ok & H).
    apply tx_modify_ok in H as ->. eexists. split; [done|]. split; [done|].
    intros id r Hr (H1 & H2 & H3). pose proof (proj1 (anyrow_false _ _) Hu id r Hr) as Hx. cbn in Hx.
    by rewrite !bool_decide_true in Hx.
Qed.

Lemma attempts_checked_closed : closed (keeps attempts_checked).
Proof.
  closed_by_frame.
  - intros o db u db' (row & -> & _)%save_operation_ok Hc i r. cbn. intros Hr.
    destruct (Hc i r Hr) as [? Hs]. split; [done|].
    destruct (decide (tr_operation_id r = op_operation_id o)) as [->|Hne].
    + by rewrite lookup_insert_eq.
    + by rewrite lookup_insert_ne.
  - intros a db u db' [new S]%save_attempt_ok Hc i r. rewrite (as_store _ _ _ _ S). cbn.
    intros [[<- <-]|[_ Hr]]%lookup_insert_Some; [|by apply (Hc i r)].
    split; [apply (as_check _ _ _ _ S)|apply (as_operation _ _ _ _ S)].
Qed.

Lemma empty_attempts (P : Db → Prop) :
  (∀ db, db_attempts db = ∅ → P db) → ∀ db, initial db → P db.
Proof. intros H db (sinks & gens & ->). by apply H. Qed.

Lemma reachable_attempts db : reachable db → attempts_distinct db ∧ attempts_checked db.
Proof.
  intros Hr. split; revert db Hr; apply reachable_keeps.
  - apply attempts_distinct_closed.
  - apply empty_attempts. intros db E i j r r' _ Hi. by rewrite E, lookup_empty in Hi.
  - apply attempts_checked_closed.
  - apply empty_attempts. intros db E i r Hi. by rewrite E, lookup_empty in Hi.
Qed.

(** The columns that repeat the stored snapshot. *)
Definition attempts_keyed (db : Db) : Prop :=
  ∀ i r, db_attempts db !! i = Some r →
    at_attempt_id (tr_body r) = i ∧ tr_status r = at_status (tr_body r).

Lemma upserted_body old a : tr_body (upserted old a) = a ∧ tr_status (upserted old a) = at_status a.
Proof. by destruct old. Qed.

Lemma attempts_keyed_closed : closed (keeps attempts_keyed).
Proof.
  closed_by_frame.
  intros a db u db' [new S]%save_attempt_ok Hk i r. rewrite (as_store _ _ _ _ S). cbn.
  intros [[<- <-]|[_ Hr]]%lookup_insert_Some; [|by apply (Hk i r)].
  rewrite (as_new _ _ _ _ S). by destruct (upserted_body (db_attempts db !! at_attempt_id a) a) as [-> ->].
Qed.

Lemma reachable_keyed db : reachable db → attempts_keyed db.
Proof.
  revert db. apply reachable_keeps; [apply attempts_keyed_closed|].
  apply empty_attempts. intros db E i r Hi. by rewrite E, lookup_empty in Hi.
Qed.

(** ** The life of one attempt *)

(** The columns an attempt keeps. *)
Definition attempt_key (r : AttRow) :=
  (tr_operation_id r, tr_run_id r, tr_attempt_no r, tr_request_hash r, tr_side_effecting r).

Definition attempts_grow (db db' : Db) : Prop :=
  ∀ id r, db_attempts db !! id = Some r →
    ∃ r', db_attempts db' !! id = Some r' ∧ attempt_key r' = attempt_key r ∧
      (tr_status r ∈ FINISHED_STATUSES → tr_status r' = tr_status r).
#[local] Instance attempts_grow_preorder : PreOrder attempts_grow.
Proof.
  split.
  - intros db id r H. by exists r.
  - intros x y z H1 H2 id r H. destruct (H1 id r H) as (r1 & Hr1 & K1 & F1).
    destruct (H2 id r1 Hr1) as (r2 & Hr2 & K2 & F2). exists r2. split; [done|].
    split; [congruence|]. intros Hf. rewrite F2, F1; [done|done|]. by rewrite F1.
Qed.

Lemma attempts_grow_same db db' : db_attempts db' = db_attempts db → attempts_grow db db'.
Proof. intros E id r. rewrite E. eauto. Qed.

Lemma attempts_grow_closed : closed attempts_grow.
Proof.
  closed_by_same attempts_grow_same.
  intros a db u db' [new S]%save_attempt_ok id r Hr. rewrite (as_store _ _ _ _ S). cbn.
  destruct (decide (id = at_attempt_id a)) as [->|Hne].
  - rewrite lookup_insert_eq. exists new. split; [done|]. split.
    + by rewrite (as_new _ _ _ _ S), Hr.
    + by apply (as_finished _ _ _ _ S).
  - rewrite lookup_insert_ne by done. by exists r.
Qed.

Lemma steps_grow db db' : rtc gateway_step db db' → attempts_grow db db'.
Proof.
  induction 1 as [|x y z Hxy _ IH]; [reflexivity|].
  etrans; [|exact IH]. by apply (gateway_step_rel _ attempts_grow_closed).
Qed.

(** ** Claims *)

(** C5: in every reachable store a Run has at most one
    side-effecting attempt that is PREPARED, RUNNING or of unresolved unknown
    effect, and no two attempts share an attempt number of an operation, a
    model call id or an external request id. *)
Theorem one_open_side_effect db i j r r' :
  reachable db → db_attempts db !! i = Some r → db_attempts db !! j = Some r' → i ≠ j →
  (tr_run_id r = tr_run_id r' → open_side_effect r && open_side_effect r' = false) ∧
  (tr_operation_id r = tr_operation_id r' → tr_attempt_no r ≠ tr_attempt_no r') ∧
  (∀ x, at_model_call_id (tr_body r) = Some x → at_model_call_id (tr_body r') ≠ Some x) ∧
  (∀ x, at_external_request_id (tr_body r) = Some x → at_external_request_id (tr_body r') ≠ Some x).
Proof.
  intros [Hd _]%reachable_attempts Hi Hj Hne. specialize (Hd i j r r' Hne Hi Hj).
  unfold attempt_clash in Hd. rewrite !orb_false_iff in Hd. destruct Hd as [[[H1 H2] H3] H4].
  split_and!.
  - intros E. rewrite (bool_decide_true _ E) in H3. by rewrite andb_true_r in H3.
  - intros E En. by rewrite !bool_decide_true in H4.
  - intros x Ex Ex'. rewrite Ex, Ex' in H1. cbn in H1. by rewrite bool_decide_true in H1.
  - intros x Ex Ex'. rewrite Ex, Ex' in H2. cbn in H2. by rewrite bool_decide_true in H2.
Qed.

(** An attempt is never deleted and never becomes an attempt
    of another operation, Run, number or request; once COMPLETED, FAILED,
    SKIPPED or ABANDONED it keeps that status for ever. *)
Lemma attempt_history db db' id r :
  rtc gateway_step db db' → db_attempts db !! id = Some r →
  ∃ r', db_attempts db' !! id = Some r' ∧
    tr_operation_id r' = tr_operation_id r ∧ tr_run_id r' = tr_run_id r ∧
    tr_attempt_no r' = tr_attempt_no r ∧ tr_request_hash r' = tr_request_hash r ∧
    tr_side_effecting r' = tr_side_effecting r ∧
    (tr_status r ∈ FINISHED_STATUSES → tr_status r' = tr_status r).
Proof.
  intros Hs Hr. destruct (steps_grow _ _ Hs id r Hr) as (r' & Hr' & Hk & Hf).
  unfold attempt_key in Hk. injection Hk as ? ? ? ? ?. exists r'. by split_and!.
Qed.

(** ** Witnesses *)

Lemma lookup_some {A} (o : option A) : is_some o = true → ∃ a, o = Some a.
Proof. destruct o; [by eauto|done]. Qed.

(** The two attempts of the side-effecting operation of the demo. *)
Lemma one_open_side_effect_witness : ∃ r r',
  db_attempts (demo 31) !! "attempt-op-1" = Some r ∧ db_attempts (demo 31) !! "uuid-8-1" = Some r' ∧
  (tr_operation_id r = tr_operation_id r' → tr_attempt_no r ≠ tr_attempt_no r').
Proof.
  destruct (demo_ok 31 ltac:(lia)) as [res F]. pose proof (df_extra _ _ F) as H. unfold demo_extra in H.
  apply andb_true_iff in H as [H H2]. apply andb_true_iff in H as [_ H1].
  apply lookup_some in H1 as [r Hr]. apply lookup_some in H2 as [r' Hr'].
  exists r, r'. split; [exact Hr|]. split; [exact Hr'|].
  apply (one_open_side_effect (demo 31) "attempt-op-1" "uuid-8-1" r r' (demo_reachable 31) Hr Hr').
  discriminate.
Defined.

