(* ===== verification/Projection.v ===== *)
(** * Projection: the ledger is the fold of its attempts

    An [OperationRecord] repeats what its attempts say.  In every store reached
    by clients that never reuse an identifier, each row of [operation_ledger]
    is the reduction of the rows of [operation_attempts] that belong to it, and
    never has more attempts than its retry policy allows. *)

From stdpp Require Import relations.
From S2P Require Import Prelude PyText PyTime AgentTypes AgentState Sanitizer Commands.
From S2P Require Import OperationReduce FinalizeEvidence Store Events Operations FinalizeOps.
From S2P Require Import Controller Frames Outcomes Apply Observations Outbox System Demo StatesInv.
From S2P Require Import Lifecycle Records Replay Ledger.

#[local] Open Scope Z_scope.

(** ** The attempts of an operation, as a bag *)

Definition attempts_of (id : string) (m : gmap string AttRow) : list AttRow :=
  filter (λ r, tr_operation_id r = id) (map snd (map_to_list m)).
Definition bodies_of (id : string) (m : gmap string AttRow) : list OperationAttempt :=
  map tr_body (attempts_of id m).

Lemma attempt_rows_perm id db :
  map tr_body (attempt_rows id db) ≡ₚ bodies_of id (db_attempts db).
Proof. unfold bodies_of, attempt_rows. by rewrite merge_sort_Permutation. Qed.

Lemma bodies_of_lookup id m k r :
  m !! k = Some r →
  bodies_of id m ≡ₚ (if decide (tr_operation_id r = id) then [tr_body r] else [])
    ++ bodies_of id (delete k m).
Proof.
  intros H. unfold bodies_of, attempts_of.
  rewrite <- (map_to_list_delete m k r H). cbn [map snd].
  rewrite filter_cons. by destruct (decide _).
Qed.

Lemma bodies_of_insert id m k r :
  bodies_of id (<[k := r]> m) ≡ₚ (if decide (tr_operation_id r = id) then [tr_body r] else [])
    ++ bodies_of id (delete k m).
Proof. by rewrite (bodies_of_lookup id _ k r), delete_insert_eq by apply lookup_insert_eq. Qed.

Lemma elem_of_bodies id m a :
  a ∈ bodies_of id m ↔ ∃ k r, m !! k = Some r ∧ tr_operation_id r = id ∧ a = tr_body r.
Proof.
  unfold bodies_of, attempts_of. rewrite list_elem_of_fmap. split.
  - intros (r & -> & [Hid ([k r'] & -> & Hin)%list_elem_of_fmap]%list_elem_of_filter).
    apply elem_of_map_to_list in Hin. by exists k, r'.
  - intros (k & r & Hk & Hid & ->). exists r. split; [done|]. apply list_elem_of_filter.
    split; [done|]. apply list_elem_of_fmap. exists (k, r). split; [done|].
    by apply elem_of_map_to_list.
Qed.

(** ** The projection *)

Definition summary (o : OperationRecord) :=
  (op_status o, op_failure_kind o, op_failure_reason o, op_latest_attempt_no o,
   op_next_retry_at o, op_result o, op_result_hash o, op_result_source o).
Definition ag_summary (g : OperationAggregate) :=
  (ag_status g, ag_failure_kind g, ag_failure_reason g, ag_latest_attempt_no g,
   ag_next_retry_at g, ag_result g, ag_result_hash g, ag_result_source g).

(** The operation record is what the reduction of these attempts says. *)
Definition projects (o : OperationRecord) (l : list OperationAttempt) : Prop :=
  Z.of_nat (length l) ≤ rp_max_attempts (op_retry_policy_snapshot o) ∧
  ∃ g, reduce_operation (immutable_metadata o) l (op_retry_policy_snapshot o) = Ok g ∧
       summary o = ag_summary g.

Lemma projects_perm o l l' : l ≡ₚ l' → projects o l → projects o l'.
Proof.
  intros Hp [Hn (g & Hg & Hs)]. split; [by rewrite <- Hp|]. exists g.
  by rewrite <- (reduce_operation_perm _ _ _ _ Hp).
Qed.

(** The immutable half of an operation. *)
Definition same_contract (o o' : OperationRecord) : Prop :=
  immutable_metadata o = immutable_metadata o' ∧
  op_retry_policy_snapshot o = op_retry_policy_snapshot o'.

Lemma aggregate_projects o l t o' :
  aggregate_operation o l t = Ok o' →
  Z.of_nat (length l) ≤ rp_max_attempts (op_retry_policy_snapshot o) →
  projects o' l ∧ same_contract o' o ∧ op_operation_id o' = op_operation_id o.
Proof.
  intros (_ & g & latest & Hg & _ & ->)%aggregate_operation_ok Hn.
  split; [|done]. split; [done|]. by exists g.
Qed.

(** ** Coherence of the two tables *)

Definition op_coherent (id : string) (row : OpRow) : Prop :=
  op_operation_id (or_body row) = id ∧ or_run_id row = op_run_id (or_body row) ∧
  or_kind row = op_kind (or_body row) ∧ or_status row = op_status (or_body row) ∧
  or_stable_key row = op_stable_key (or_body row) ∧
  or_request_hash row = op_request_hash (or_body row) ∧
  or_side_effecting row = op_side_effecting (or_body row).

Definition att_coherent (id : string) (r : AttRow) : Prop :=
  r = fresh_attempt_row (tr_body r) ∧ at_attempt_id (tr_body r) = id.

Record ledger_ok (db : Db) : Prop := {
  lk_operations : ∀ id row, db_operations db !! id = Some row → op_coherent id row;
  lk_attempts : ∀ id r, db_attempts db !! id = Some r → att_coherent id r;
  lk_owner : ∀ id r, db_attempts db !! id = Some r →
      is_some (db_operations db !! tr_operation_id r) = true;
  lk_projects : ∀ id row, db_operations db !! id = Some row →
      projects (or_body row) (bodies_of id (db_attempts db))
}.

(** Saving [o] and [a] together keeps the ledger coherent. *)
Record sound (db : Db) (o : OperationRecord) (a : OperationAttempt) : Prop := {
  so_id : at_operation_id a = op_operation_id o;
  so_operation : ∀ row, db_operations db !! op_operation_id o = Some row →
      same_contract (or_body row) o;
  so_attempt : ∀ r, db_attempts db !! at_attempt_id a = Some r →
      attempt_key r = attempt_key (fresh_attempt_row a);
  so_projects : projects o (bodies_of (op_operation_id o)
      (<[at_attempt_id a := fresh_attempt_row a]> (db_attempts db)));
  so_started : ∀ r, db_attempts db !! at_attempt_id a = Some r →
      at_status a = OS_PREPARED → at_status (tr_body r) = OS_PREPARED
}.

Lemma upserted_fresh old a :
  (∀ r, old = Some r → attempt_key r = attempt_key (fresh_attempt_row a)) →
  upserted old a = fresh_attempt_row a.
Proof.
  destruct old as [r|]; [|done]. intros H. specialize (H r eq_refl). destruct r.
  unfold attempt_key, fresh_attempt_row in *. cbn in *. injection H as -> -> -> -> ->. done.
Qed.

(** The two tables after both are saved, in either order. *)
Record pair_saved (o : OperationRecord) (a : OperationAttempt) (db db' : Db) : Prop := {
  ps_operations : ∃ row, db_operations db' = <[op_operation_id o := row]> (db_operations db) ∧
      match db_operations db !! op_operation_id o with
      | Some old => row = old ⟪ or_status := op_status o ⟫ ⟪ or_body := o ⟫
                              ⟪ or_updated_at := op_updated_at o ⟫
      | None => row = mkOpRow (op_run_id o) (op_parent_operation_id o) (op_kind o) (op_status o) o
          (op_updated_at o) (op_stable_key o) (op_request_hash o) (op_side_effecting o)
      end;
  ps_attempts : db_attempts db' =
      <[at_attempt_id a := upserted (db_attempts db !! at_attempt_id a) a]> (db_attempts db)
}.

Lemma save_pair_saved o a db u db1 u' db' :
  save_operation o db = Ok (u, db1) → save_attempt a db1 = Ok (u', db') → pair_saved o a db db'.
Proof.
  intros (row & -> & Hrow)%save_operation_ok [new S]%save_attempt_ok.
  rewrite (as_store _ _ _ _ S), (as_new _ _ _ _ S). split; [|done].
  exists row. split; [done|]. destruct (db_operations db !! _); [done|by destruct Hrow].
Qed.

Lemma save_pair_reversed o a db u db1 u' db' :
  save_attempt a db = Ok (u, db1) → save_operation o db1 = Ok (u', db') → pair_saved o a db db'.
Proof.
  intros [new S]%save_attempt_ok (row & -> & Hrow)%save_operation_ok.
  rewrite (as_store _ _ _ _ S), (as_new _ _ _ _ S) in *. cbn in Hrow. split; [|done].
  exists row. split; [done|]. destruct (db_operations db !! _); [done|by destruct Hrow].
Qed.

Lemma pair_saved_ok o a db db' :
  ledger_ok db → sound db o a → pair_saved o a db db' → ledger_ok db' ∧ sound db' o a.
Proof.
  intros L S [(row & Hops & Hrow) Hatts].
  rewrite (upserted_fresh _ _ (so_attempt _ _ _ S)) in Hatts.
  assert (op_coherent (op_operation_id o) row ∧ or_body row = o) as [Hco Hbody].
  { destruct (db_operations db !! op_operation_id o) as [old|] eqn:E; subst row; [|done].
    destruct (lk_operations _ L _ _ E) as (_ & Ha & Hb & _ & Hc & Hd & He).
    destruct (so_operation _ _ _ S _ E) as [Hm _]. unfold immutable_metadata in Hm.
    injection Hm as ? ? ? ? ? ? ? ? ? ? ? ? ? ? ? ?. split; [|done]. unfold op_coherent. cbn.
    split_and!; congruence. }
  assert (∀ id, id ≠ op_operation_id o →
    bodies_of id (db_attempts db) ≡ₚ bodies_of id (db_attempts db')) as Hother.
  { intros id Hne. rewrite Hatts, bodies_of_insert. cbn. rewrite (so_id _ _ _ S).
    rewrite decide_False by done. destruct (db_attempts db !! at_attempt_id a) as [r|] eqn:E.
    - rewrite (bodies_of_lookup id _ _ _ E). rewrite decide_False; [done|].
      pose proof (so_attempt _ _ _ S _ E) as Hk. unfold attempt_key in Hk. cbn in Hk.
      injection Hk as -> _ _ _ _. by rewrite (so_id _ _ _ S).
    - by rewrite delete_id. }
  split.
  - split.
    + intros id row'. rewrite Hops. intros [[<- <-]|[_ H]]%lookup_insert_Some; [done|].
      by apply (lk_operations _ L).
    + intros id r. rewrite Hatts. intros [[<- <-]|[_ H]]%lookup_insert_Some; [done|].
      by apply (lk_attempts _ L).
    + intros id r. rewrite Hatts, Hops. intros [[<- <-]|[_ H]]%lookup_insert_Some.
      * cbn. rewrite (so_id _ _ _ S). by rewrite lookup_insert_eq.
      * pose proof (lk_owner _ L _ _ H) as Ho.
        destruct (decide (tr_operation_id r = op_operation_id o)) as [->|Hne];
          [by rewrite lookup_insert_eq|by rewrite lookup_insert_ne].
    + intros id row'. rewrite Hops. intros [[<- <-]|[Hne H]]%lookup_insert_Some.
      * rewrite Hbody, Hatts. apply (so_projects _ _ _ S).
      * eapply projects_perm; [by apply Hother|]. by apply (lk_projects _ L).
  - split.
    + apply (so_id _ _ _ S).
    + intros row'. rewrite Hops, lookup_insert_eq. intros [= <-]. by rewrite Hbody.
    + intros r. rewrite Hatts, lookup_insert_eq. by intros [= <-].
    + rewrite Hatts, insert_insert_eq. apply (so_projects _ _ _ S).
    + intros r. rewrite Hatts, lookup_insert_eq. by intros [= <-].
Qed.

(** ** Handlers return sound pairs *)

(** The pair of an existing operation and one of its attempts. *)
Lemma existing_sound db o a :
  ledger_ok db → (∃ id row, db_operations db !! id = Some row ∧ or_body row = o) →
  a ∈ map tr_body (attempt_rows (op_operation_id o) db) → sound db o a.
Proof.
  intros L (id & row & Hrow & <-) Ha. rewrite attempt_rows_perm in Ha.
  apply elem_of_bodies in Ha as (k & r & Hr & Hid & ->).
  destruct (lk_attempts _ L _ _ Hr) as [Hr0 Hk]. destruct (lk_operations _ L _ _ Hrow) as [Hoid _].
  rewrite Hoid in *. split.
  - rewrite Hr0 in Hid. cbn in Hid. congruence.
  - rewrite Hoid. intros row'. rewrite Hrow. by intros [= <-].
  - rewrite Hk. intros r'. rewrite Hr. intros [= <-]. by rewrite <- Hr0.
  - rewrite Hk, <- Hr0, insert_id by done. rewrite Hoid. by apply (lk_projects _ L).
  - rewrite Hk. intros r'. rewrite Hr. by intros [= <-].
Qed.

Lemma operation_in_exists id db o :
  operation_in id db = Ok o → ∃ id row, db_operations db !! id = Some row ∧ or_body row = o.
Proof. intros (row & H & _ & ->)%operation_in_ok. by exists id, row. Qed.

(** Updates that keep what an attempt is an attempt of, and do not make it
    PREPARED again. *)
Definition keeps_key (f : OperationAttempt → OperationAttempt) : Prop :=
  ∀ a, at_attempt_id (f a) = at_attempt_id a ∧
    attempt_key (fresh_attempt_row (f a)) = attempt_key (fresh_attempt_row a) ∧
    (at_status (f a) = OS_PREPARED → at_status a = OS_PREPARED).

Lemma replace_attempt_perm m oid id r a :
  (∀ k r, m !! k = Some r → att_coherent k r) →
  m !! id = Some r → tr_operation_id r = oid → at_operation_id a = oid → at_attempt_id a = id →
  replace_attempt id a (bodies_of oid m) ≡ₚ bodies_of oid (<[id := fresh_attempt_row a]> m).
Proof.
  intros Hm Hr Ho Hoa Hia. unfold replace_attempt.
  rewrite (bodies_of_lookup oid m id r Hr), bodies_of_insert. cbn [tr_operation_id fresh_attempt_row].
  rewrite !decide_True by done. cbn [app map].
  destruct (Hm _ _ Hr) as [_ Hid]. rewrite decide_True by done. apply Permutation_skip.
  assert (∀ x, x ∈ bodies_of oid (delete id m) → at_attempt_id x ≠ id) as Hne.
  { intros x (k & r' & Hk & _ & ->)%elem_of_bodies. apply lookup_delete_Some in Hk as [Hk Hk'].
    destruct (Hm _ _ Hk') as [_ ->]. congruence. }
  induction (bodies_of oid (delete id m)) as [|x l IH]; [done|]. cbn [map].
  rewrite decide_False by (apply Hne; left). f_equiv. apply IH. intros y Hy. apply Hne. by right.
Qed.

Lemma update_attempt_sound state id t allowed f db p db' :
  keeps_key f → ledger_ok db → update_attempt state id t allowed f db = Ok (p, db') →
  db' = db ∧ sound db p.1 p.2.
Proof.
  intros Hf L [-> [old U]]%update_attempt_ok. split; [done|].
  destruct U as [Hold _ _ Hnew _ (o & l & Ho & Hl & Hag)].
  apply attempt_in_ok in Hold as (r & Hr & _ & ->).
  destruct (lk_attempts _ L _ _ Hr) as [Hr0 Hid]. destruct (Hf (tr_body r)) as (Hfi & Hfk & Hfs).
  assert (at_attempt_id p.2 = id) as Hpi by (rewrite Hnew; cbn; congruence).
  assert (attempt_key (fresh_attempt_row p.2) = attempt_key r) as Hpk.
  { rewrite Hnew, Hr0. transitivity (attempt_key (fresh_attempt_row (f (tr_body r)))); [done|exact Hfk]. }
  pose proof Hpk as Hpo. unfold attempt_key in Hpo. cbn in Hpo. injection Hpo as Hpo _ _ _ _.
  apply operation_in_ok in Ho as (row & Hrow & _ & ->).
  destruct (lk_operations _ L _ _ Hrow) as [Hoid _]. rewrite Hoid in Hl.
  apply attempts_in_ok in Hl as (_ & -> & _).
  destruct (lk_projects _ L _ _ Hrow) as [Hn _].
  destruct (aggregate_projects _ _ _ _ Hag) as (Hp & Hs & Hi).
  { unfold replace_attempt. by rewrite length_map, attempt_rows_perm. }
  split.
  - by rewrite Hi, Hoid.
  - rewrite Hi, Hoid, Hrow. intros ? [= <-]. destruct Hs. by split.
  - rewrite Hpi. intros r'. rewrite Hr. by intros [= <-].
  - eapply projects_perm; [|exact Hp]. rewrite Hi, Hoid, Hpi.
    rewrite <- (replace_attempt_perm _ _ _ r); try done; [|apply (lk_attempts _ L)].
    unfold replace_attempt. by rewrite attempt_rows_perm.
  - rewrite Hpi, Hnew. intros r'. rewrite Hr. by intros [= <-].
Qed.

Lemma update_attempt_exists state id t allowed f db p db' :
  keeps_key f → ledger_ok db → update_attempt state id t allowed f db = Ok (p, db') →
  is_some (db_attempts db !! at_attempt_id p.2) = true.
Proof.
  intros Hf L [_ [old U]]%update_attempt_ok. destruct U as [Hold _ _ Hnew _ _].
  apply attempt_in_ok in Hold as (r & Hr & _ & ->).
  destruct (lk_attempts _ L _ _ Hr) as [_ Hid]. rewrite Hnew. cbn.
  destruct (Hf (tr_body r)) as [-> _]. by rewrite Hid, Hr.
Qed.

(** A new attempt of an operation that exists. *)
Lemma begin_attempt_sound state c t db p db' :
  ledger_ok db → db_attempts db !! ba_attempt_id c = None →
  begin_operation_attempt state c t db = Ok (p, db') → db' = db ∧ sound db p.1 p.2.
Proof.
  intros L Hfresh. unfold begin_operation_attempt.
  intros (o & s1 & [Ho ->]%tx_read_ok & H)%tx_bind_ok.
  apply tx_bind_ok in H as (l & s1 & [Hl ->]%tx_read_ok & H).
  apply tx_bind_ok in H as (latest & s1 & [_ ->]%tx_lift_ok & H).
  do 5 (apply tx_bind_ok in H as ([] & s1 & [_ ->]%reject_ok & H)).
  apply tx_bind_ok in H as ([] & s1 & [Hmax ->]%reject_ok & H).
  apply tx_bind_ok in H as (early & s1 & [_ ->]%tx_lift_ok & H).
  apply tx_bind_ok in H as ([] & s1 & [_ ->]%reject_ok & H).
  apply tx_bind_ok in H as (a & s1 & [[_ Ha]%checked_ok ->]%tx_lift_ok & H).
  apply tx_bind_ok in H as (o' & s1 & [Hag ->]%tx_lift_ok & H).
  apply tx_ret_ok in H as [<- <-]. split; [done|]. cbn [fst snd].
  assert (at_attempt_id a = ba_attempt_id c ∧ at_operation_id a = op_operation_id o) as [Hi Hao]
    by (rewrite Ha; done).
  apply operation_in_ok in Ho as (row & Hrow & _ & ->).
  destruct (lk_operations _ L _ _ Hrow) as [Hoid _]. rewrite Hoid in *.
  apply attempts_in_ok in Hl as (_ & -> & _).
  destruct (aggregate_projects _ _ _ _ Hag) as (Hp & Hs & Hi').
  { rewrite length_app. cbn. lia. }
  split.
  - congruence.
  - rewrite Hi', Hoid, Hrow. intros ? [= <-]. destruct Hs. by split.
  - rewrite Hi, Hfresh. done.
  - eapply projects_perm; [|exact Hp]. rewrite Hi', Hoid, Hi, bodies_of_insert. cbn.
    rewrite decide_True, delete_id by done.
    by rewrite attempt_rows_perm, Permutation_app_comm.
  - rewrite Hi, Hfresh. done.
Qed.

(** The first attempt of a new operation. *)
Lemma new_pair_sound db o a o' t :
  ledger_ok db → db_operations db !! op_operation_id o = None →
  db_attempts db !! at_attempt_id a = None → at_operation_id a = op_operation_id o →
  1 ≤ rp_max_attempts (op_retry_policy_snapshot o) →
  aggregate_operation o [a] t = Ok o' → sound db o' a.
Proof.
  intros L Ho Ha Hao Hmax Hag.
  destruct (aggregate_projects _ _ _ _ Hag) as (Hp & Hs & Hi); [done|].
  split.
  - congruence.
  - intros row. by rewrite Hi, Ho.
  - intros r. by rewrite Ha.
  - eapply projects_perm; [|exact Hp]. rewrite Hi, bodies_of_insert. cbn.
    rewrite decide_True, delete_id by done.
    enough (bodies_of (op_operation_id o) (db_attempts db) = []) as -> by done.
    destruct (bodies_of _ _) as [|x l] eqn:E; [done|]. exfalso.
    assert (x ∈ bodies_of (op_operation_id o) (db_attempts db)) as Hx by (rewrite E; left).
    apply elem_of_bodies in Hx as (k & r & Hr & Hid & _).
    pose proof (lk_owner _ L _ _ Hr) as Hown. by rewrite Hid, Ho in Hown.
  - intros r. by rewrite Ha.
Qed.

Lemma valid_max_attempts o :
  OperationRecord_valid o = true → 1 ≤ rp_max_attempts (op_retry_policy_snapshot o).
Proof.
  unfold OperationRecord_valid, RetryPolicySnapshot_valid. rewrite !andb_true_iff, !Z.leb_le. tauto.
Qed.

Lemma create_operation_sound env state h c t db p db' :
  ledger_ok db → st_run_id state = sc_run_id h →
  fresh_ids env (mkCommand h (CreateOperationWithAttempt c)) db = true →
  create_operation_with_attempt state c t db = Ok (p, db') → db' = db ∧ sound db p.1 p.2.
Proof.
  intros L Hrun Hf. unfold create_operation_with_attempt.
  intros (d & s1 & [-> ->]%tx_gets_ok & H)%tx_bind_ok. unfold fresh_ids in Hf. cbn in Hf.
  rewrite Hrun in H. destruct (operation_by_key _ _ _ _) as [row|] eqn:Hk.
  - apply tx_bind_ok in H as (o & s1 & [[_ ->]%checked_ok ->]%tx_lift_ok & H).
    apply tx_bind_ok in H as ([] & s1 & [_ ->]%require_ok & H).
    apply tx_bind_ok in H as (a & s1 & [[_ Ha]%current_attempt_in_ok ->]%tx_read_ok & H).
    apply tx_ret_ok in H as [<- <-]. split; [done|]. apply existing_sound; [done| |done].
    unfold operation_by_key in Hk. apply fmap_Some in Hk as ([id r] & Hk & E). cbn in E. subst r.
    apply find_some in Hk as [Hin _]. apply list_elem_of_In, elem_of_map_to_list in Hin.
    by exists id, row.
  - cbn in Hf. apply andb_true_iff in Hf as [Hfo Hfa].
    apply tx_bind_ok in H as (o & s1 & [[Hv Ho]%checked_ok ->]%tx_lift_ok & H).
    apply tx_bind_ok in H as (a & s1 & [[_ Ha]%checked_ok ->]%tx_lift_ok & H).
    apply tx_bind_ok in H as (o' & s1 & [Hag ->]%tx_lift_ok & H).
    apply tx_ret_ok in H as [<- <-]. split; [done|]. apply valid_max_attempts in Hv.
    eapply new_pair_sound; [done|..|exact Hag]; rewrite ?Ho, ?Ha in *; try done.
    + by destruct (db_operations db !! _).
    + by destruct (db_attempts db !! _).
Qed.

(** ** The rest of the handlers *)

Definition tables (db : Db) := (db_operations db, db_attempts db).

Lemma ledger_ok_same db db' : tables db' = tables db → ledger_ok db → ledger_ok db'.
Proof. unfold tables. intros [= E1 E2] []. split; by rewrite ?E1, ?E2. Qed.
Lemma sound_same db db' o a : tables db' = tables db → sound db o a → sound db' o a.
Proof. unfold tables. intros [= E1 E2] []. split; by rewrite ?E1, ?E2. Qed.

Lemma reduce_first m id oid run h se t policy :
  oid = im_operation_id m → run = im_run_id m → h = im_request_hash m → se = im_side_effecting m →
  reduce_operation m [new_attempt id oid run 1 h se t] policy
    = Ok (plain_aggregate (new_attempt id oid run 1 h se t)).
Proof.
  intros -> -> -> ->. unfold reduce_operation. cbn.
  unfold inherits. cbn. by rewrite !bool_decide_true.
Qed.

Lemma begin_operation_sound env h state c t db o db' :
  ledger_ok db → fresh_ids env (mkCommand h (BeginOperation c)) db = true →
  begin_operation state c t db = Ok (o, db') →
  ledger_ok db' ∧ ∃ id row, db_operations db' !! id = Some row ∧ or_body row = o.
Proof.
  intros L Hf. unfold begin_operation. intros (d & s1 & [-> ->]%tx_gets_ok & H)%tx_bind_ok.
  unfold fresh_ids in Hf. cbn in Hf.
  destruct (db_operations db !! bo_operation_id c) as [old|] eqn:Hold.
  - apply tx_bind_ok in H as (x & s1 & [Hx ->]%tx_read_ok & H).
    apply tx_bind_ok in H as ([] & s1 & [_ ->]%reject_ok & H). apply tx_ret_ok in H as [<- <-].
    split; [done|]. by eapply operation_in_exists.
  - cbn in Hf. apply tx_bind_ok in H as ([] & s1 & [_ ->]%reject_ok & H).
    apply tx_bind_ok in H as (x & s1 & [[Hv Hx]%checked_ok ->]%tx_lift_ok & H).
    apply tx_bind_ok in H as (a & s1 & [[_ Ha]%checked_ok ->]%tx_lift_ok & H).
    apply tx_bind_ok in H as ([] & s2 & Hso & H). apply tx_bind_ok in H as ([] & s3 & Hsa & H).
    apply tx_ret_ok in H as [<- <-].
    assert (sound db x a) as S.
    { split.
      - by rewrite Ha.
      - rewrite Hx. cbn. by rewrite Hold.
      - rewrite Ha. cbn. intros r Hr. by rewrite Hr in Hf.
      - assert (bodies_of (op_operation_id x) (db_attempts db) = []) as Hnil.
        { destruct (bodies_of _ _) as [|y l] eqn:E; [done|]. exfalso.
          assert (y ∈ bodies_of (op_operation_id x) (db_attempts db)) as Hy by (rewrite E; left).
          apply elem_of_bodies in Hy as (k & r & Hr & Hid & _).
          pose proof (lk_owner _ L _ _ Hr) as Hown. rewrite Hid, Hx in Hown. cbn in Hown.
          by rewrite Hold in Hown. }
        eapply (projects_perm x [a]).
        + rewrite bodies_of_insert. rewrite decide_True by (by rewrite Ha).
          rewrite delete_id, Hnil; [done|]. rewrite Ha. cbn.
          by destruct (db_attempts db !! _).
        + apply valid_max_attempts in Hv. rewrite <- Hx in Hv. split; [done|].
          exists (plain_aggregate a). split.
          * rewrite Ha. by apply reduce_first.
          * by rewrite Hx, Ha.
      - rewrite Ha. cbn. intros r Hr. by rewrite Hr in Hf. }
    destruct (pair_saved_ok _ _ _ _ L S (save_pair_saved _ _ _ _ _ _ _ Hso Hsa)) as [L' _].
    split; [done|]. destruct (save_pair_saved _ _ _ _ _ _ _ Hso Hsa) as [(row & Hops & Hrow) _].
    exists (op_operation_id x), row. rewrite Hops, lookup_insert_eq. split; [done|].
    rewrite Hx in Hrow |- *. cbn in Hrow. rewrite Hold in Hrow. by subst row.
Qed.

Lemma completed_sqlite_sound state oid aid k h kind n e eh t p db :
  ledger_ok db → db_operations db !! oid = None → db_attempts db !! aid = None →
  completed_sqlite_finalize_operation state oid aid k h kind n e eh t = Ok p → sound db p.1 p.2.
Proof.
  intros L Ho Ha. unfold completed_sqlite_finalize_operation.
  intros (o & [Hv Hx]%checked_ok & H)%res_bind_ok.
  apply res_bind_ok in H as (a & [_ Hxa]%checked_ok & H).
  apply res_bind_ok in H as (o' & Hag & H). apply (proj1 (res_ret_ok _ _)) in H as <-.
  apply valid_max_attempts in Hv.
  eapply new_pair_sound; [done|..|exact Hag]; by rewrite ?Hx, ?Hxa in *.
Qed.

(** The finalize writers touch neither table before they return their pair. *)
Lemma finalize_audit_sound env h state c t db p db' :
  ledger_ok db → fresh_ids env (mkCommand h (FinalizeAudit c)) db = true →
  finalize_audit state c t db = Ok (p, db') → tables db' = tables db ∧ sound db p.1 p.2.
Proof.
  intros L Hf. unfold fresh_ids in Hf. cbn in Hf. apply andb_true_iff in Hf as [Hfo Hfa].
  assert (db_operations db !! fa_operation_id c = None) as Ho by by destruct (db_operations db !! _).
  assert (db_attempts db !! fa_attempt_id c = None) as Ha by by destruct (db_attempts db !! _).
  intros H. assert (tx_rel (same_part tables) (finalize_audit state c t)) as R.
  { unfold finalize_audit, put_receipt. tx_frame. }
  pose proof (R _ _ _ H) as Ht. split; [exact Ht|].
  unfold finalize_audit in H. do 6 (apply tx_bind_ok in H as (? & ? & _ & H)).
  apply tx_bind_ok in H as (q & s1 & [Hq ->]%tx_lift_ok & H).
  apply tx_bind_ok in H as (? & ? & _ & H). apply tx_ret_ok in H as [<- _].
  by eapply completed_sqlite_sound.
Qed.

Lemma finalize_inbox_sound env h state c t db p db' :
  ledger_ok db → fresh_ids env (mkCommand h (FinalizeInbox c)) db = true →
  finalize_inbox state c t db = Ok (p, db') → tables db' = tables db ∧ sound db p.1 p.2.
Proof.
  intros L Hf. unfold fresh_ids in Hf. cbn in Hf. apply andb_true_iff in Hf as [Hfo Hfa].
  assert (db_operations db !! fi_operation_id c = None) as Ho by by destruct (db_operations db !! _).
  assert (db_attempts db !! fi_attempt_id c = None) as Ha by by destruct (db_attempts db !! _).
  intros H. assert (tx_rel (same_part tables) (finalize_inbox state c t)) as R.
  { unfold finalize_inbox, put_inbox. tx_frame. }
  pose proof (R _ _ _ H) as Ht. split; [exact Ht|].
  unfold finalize_inbox in H. do 7 (apply tx_bind_ok in H as (? & ? & _ & H)).
  apply tx_bind_ok in H as (q & s1 & [Hq ->]%tx_lift_ok & H).
  apply tx_bind_ok in H as (? & ? & _ & H). apply tx_ret_ok in H as [<- _].
  by eapply completed_sqlite_sound.
Qed.

Definition outcome_sound (db : Db) (o : Outcome) : Prop :=
  match oc_operation o, oc_attempt o with
  | Some op, Some a => sound db op a
  | None, None => True
  | _, _ => False
  end.

(** What a handler that starts from a coherent ledger ends with. *)
Definition sound_run (m : Tx Db Outcome) : Prop :=
  ∀ db o db', ledger_ok db → m db = Ok (o, db') → ledger_ok db' ∧ outcome_sound db' o.

Lemma update_sound_run state id t allowed f (k : OperationRecord * OperationAttempt → Outcome) :
  keeps_key f → (∀ p, oc_operation (k p) = Some p.1 ∧ oc_attempt (k p) = Some p.2) →
  sound_run (p ← update_attempt state id t allowed f; mret (k p)).
Proof.
  intros Hf Hk db o db' L (p & s1 & H & Ho)%tx_bind_ok. apply tx_ret_ok in Ho as [<- <-].
  destruct (update_attempt_sound _ _ _ _ _ _ _ _ Hf L H) as [-> S]. split; [done|].
  unfold outcome_sound. by destruct (Hk p) as [-> ->].
Qed.

(** A read, a check or a value first. *)
Lemma sound_run_bind {A} (m : Tx Db A) (k : A → Tx Db Outcome) :
  (∀ db a db', m db = Ok (a, db') → db' = db) → (∀ a, sound_run (k a)) →
  sound_run (mbind k m).
Proof. intros Hm Hk db o db' L (a & s1 & H & Ho)%tx_bind_ok. rewrite (Hm _ _ _ H) in Ho. by eapply Hk. Qed.

(** Transactions that only read. *)
Lemma read_only {A} (m : Tx Db A) : tx_rel eq m → ∀ db a db', m db = Ok (a, db') → db' = db.
Proof. intros H db a db' Hm. by rewrite (H _ _ _ Hm). Qed.

Ltac by_update_sound := apply update_sound_run; [by intros ?|by intros ?].
Ltac skip_read := apply sound_run_bind; [apply read_only; by tx_frame|intros ?].

Lemma reconcile_sound_run state id r t k :
  (∀ p, oc_operation (k p) = Some p.1 ∧ oc_attempt (k p) = Some p.2) →
  sound_run (p ← reconcile_attempt state id r t; mret (k p)).
Proof.
  intros Hk db o db' L (p & s1 & H & Ho)%tx_bind_ok. apply tx_ret_ok in Ho as [<- <-].
  unfold reconcile_attempt in H. apply tx_bind_ok in H as (cur & s2 & [_ ->]%tx_read_ok & H).
  assert (s1 = db ∧ sound db p.1 p.2) as [-> S].
  { destruct (rr_status r); try case_decide; eapply update_attempt_sound; eauto; by intros ?. }
  split; [done|]. unfold outcome_sound. by destruct (Hk p) as [-> ->].
Qed.

Lemma handle_attempt_sound state b t : sound_run (handle_attempt state b t).
Proof.
  unfold handle_attempt.
  destruct b; try (intros ? ? ? ? H; by apply tx_fail_ok in H); try by_update_sound.
  - apply sound_run_bind; [|intros _; by_update_sound].
    apply read_only. unfold guard_finalize_completion. by tx_frame.
  - by apply reconcile_sound_run.
Qed.

Lemma handle_operation_sound state b t : sound_run (handle_operation state b t).
Proof.
  unfold handle_operation, selected_attempt.
  destruct b; try (intros ? ? ? ? H; by apply tx_fail_ok in H).
  1-4, 6: skip_read; by_update_sound.
  - do 3 skip_read. by_update_sound.
  - skip_read. by apply reconcile_sound_run.
Qed.

Lemma settle_approval_sound state a t r b : sound_run (settle_approval state a t r b).
Proof.
  unfold settle_approval. case_match; [by_update_sound|].
  intros db o db' L [<- <-]%tx_ret_ok. done.
Qed.

Lemma decide_approval_sound state i b y r t : sound_run (decide_approval state i b y r t).
Proof.
  unfold decide_approval. do 3 skip_read. case_decide; [apply settle_approval_sound|].
  intros db o db' L [<- <-]%tx_ret_ok. done.
Qed.

Lemma expire_approval_sound state i t : sound_run (expire_approval state i t).
Proof.
  unfold expire_approval. do 2 skip_read. case_decide.
  - do 4 skip_read. apply settle_approval_sound.
  - intros db o db' L [<- <-]%tx_ret_ok. done.
Qed.

(** Handlers that leave the two tables alone and return no operation. *)
Lemma quiet_sound (m : Tx Db Outcome) :
  tx_rel (same_part tables) m → tx_post (λ o, oc_operation o = None ∧ oc_attempt o = None) m →
  sound_run m.
Proof.
  intros Hr Hp db o db' L H. split; [by eapply ledger_ok_same; [apply (Hr _ _ _ H)|]|].
  destruct (Hp _ _ _ H) as [Ho Ha]. unfold outcome_sound. by rewrite Ho, Ha.
Qed.

(** ** Recovery *)

Definition opt_sound (db : Db) (p : option OperationRecord * option OperationAttempt) : Prop :=
  match p with (Some o, Some a) => sound db o a | (None, None) => True | _ => False end.

Lemma recovery_target_sound state c db p db' :
  ledger_ok db → recovery_target state c db = Ok (p, db') → db' = db ∧ opt_sound db p.
Proof.
  intros L. unfold recovery_target. destruct (truthy _); [|by intros [<- <-]%tx_ret_ok].
  intros (o & s1 & [Ho ->]%tx_read_ok & H)%tx_bind_ok.
  apply tx_bind_ok in H as (a & s1 & [[_ Ha]%current_attempt_in_ok ->]%tx_read_ok & H).
  apply tx_bind_ok in H as ([] & s1 & [_ ->]%reject_ok & H). apply tx_ret_ok in H as [<- <-].
  split; [done|]. cbn. apply existing_sound; [done| |done]. by eapply operation_in_exists.
Qed.

Lemma recovery_retry_sound env state c o a t db p db' :
  ledger_ok db → db_attempts db !! env_uuid env 1 = None →
  recovery_retry env state c o a t db = Ok (p, db') → ledger_ok db' ∧ sound db' p.1 p.2.
Proof.
  intros L Hfresh. unfold recovery_retry.
  destruct o as [o|], a as [a|]; try (by intros []%tx_fail_ok).
  intros ([] & s1 & [_ ->]%reject_ok & H)%tx_bind_ok.
  apply tx_bind_ok in H as ([] & s1 & [_ ->]%reject_ok & H).
  apply tx_bind_ok in H as (o1 & s1 & Ho1 & H).
  assert (ledger_ok s1 ∧ db_attempts s1 !! env_uuid env 1 = None) as [L1 Hf1].
  { case_decide; [|by apply tx_ret_ok in Ho1 as [_ <-]].
    apply tx_bind_ok in Ho1 as ([o2 a2] & s2 & Hu & Ho1).
    pose proof Hu as Hex. apply update_attempt_exists in Hex; [|by intros ?|exact L].
    apply update_attempt_sound in Hu as [-> S]; [|by intros ?|done]. cbn in S, Ho1, Hex.
    apply tx_bind_ok in Ho1 as ([] & s3 & Ha2 & Ho1).
    apply tx_bind_ok in Ho1 as ([] & s4 & Ho2 & Ho1). apply tx_ret_ok in Ho1 as [_ <-].
    pose proof (save_pair_reversed _ _ _ _ _ _ _ Ha2 Ho2) as P.
    destruct (pair_saved_ok _ _ _ _ L S P) as [L' _]. split; [done|].
    rewrite (ps_attempts _ _ _ _ P). rewrite lookup_insert_ne; [done|].
    intros E. rewrite <- E in Hfresh. by rewrite Hfresh in Hex. }
  apply tx_bind_ok in H as (cmd & s2 & [[_ ->]%checked_ok ->]%tx_lift_ok & H).
  by apply begin_attempt_sound in H as [-> S].
Qed.

Lemma recovery_effect_sound env state c p t db q db' :
  ledger_ok db → db_attempts db !! env_uuid env 1 = None → opt_sound db p →
  recovery_effect env state c p.1 p.2 t db = Ok (q, db') → ledger_ok db' ∧ opt_sound db' q.
Proof.
  destruct p as [o a]. intros L Hf S. unfold recovery_effect. cbn [fst snd].
  destruct (rc_action c).
  - case_decide; [by intros [<- <-]%tx_ret_ok|].
    intros (p & s1 & Hr & Hp)%tx_bind_ok. apply tx_ret_ok in Hp as [<- <-].
    by eapply recovery_retry_sound.
  - intros (p & s1 & H & Hp)%tx_bind_ok. apply tx_ret_ok in Hp as [<- <-].
    unfold recovery_confirm in H. destruct o, a; try (by apply tx_fail_ok in H).
    apply tx_bind_ok in H as ([] & s2 & [_ ->]%reject_ok & H).
    apply update_attempt_sound in H as [-> S']; [done|by intros ?|done].
  - destruct o, a; try (by intros [<- <-]%tx_ret_ok).
    intros (p & s1 & H & Hp)%tx_bind_ok. apply tx_ret_ok in Hp as [<- <-].
    unfold recovery_fail in H. case_decide;
      apply update_attempt_sound in H as [-> S']; done || by intros ?.
  - by intros [<- <-]%tx_ret_ok.
Qed.

Lemma save_opt_sound p db db' u db1 u' :
  ledger_ok db → opt_sound db p → save_opt save_operation p.1 db = Ok (u, db1) →
  save_opt save_attempt p.2 db1 = Ok (u', db') → ledger_ok db' ∧ opt_sound db' p.
Proof.
  destruct p as [[o|] [a|]]; try done; cbn [fst snd save_opt].
  - intros L S H1 H2. apply (pair_saved_ok _ _ _ _ L S). by eapply save_pair_saved.
  - by intros L _ [_ <-]%tx_ret_ok [_ <-]%tx_ret_ok.
Qed.

Lemma apply_recovery_sound env state h c t db r db' :
  ledger_ok db → db_attempts db !! env_uuid env 1 = None →
  apply_recovery env state h c t db = Ok (r, db') → ledger_ok db' ∧ opt_sound db' (r.1.2, r.2).
Proof.
  intros L Hf. unfold apply_recovery.
  intros (p & s1 & Hp & H)%tx_bind_ok. destruct (recovery_target_sound _ _ _ _ _ L Hp) as [-> Sp].
  apply tx_bind_ok in H as (q & s2 & Hq & H).
  destruct (recovery_effect_sound _ _ _ _ _ _ _ _ L Hf Sp Hq) as [L2 Sq].
  apply tx_bind_ok in H as ([] & s3 & H1 & H). apply tx_bind_ok in H as ([] & s4 & H2 & H).
  destruct (save_opt_sound _ _ _ _ _ _ L2 Sq H1 H2) as [L4 S4].
  apply tx_bind_ok in H as ([] & s5 & H3 & H). apply tx_ret_ok in H as [<- <-].
  assert (tables s5 = tables s4) as E.
  { apply (insert_decision_rel (same_part tables)) in H3; [exact H3|done]. }
  split; [by eapply ledger_ok_same|]. cbn. destruct q as [[o|] [a|]]; try done.
  by eapply sound_same.
Qed.

(** ** [dispatch], [commit], [apply] *)

Ltac quiet :=
  lazymatch goal with
  | L : ledger_ok ?db |- ?m ?db = Ok (?o, ?db') → _ =>
      intros Hm; refine (quiet_sound m _ _ db o db' L Hm);
      [tx_frame|tx_post; split; reflexivity]
  end.

Lemma lift_quiet_sound (r : res Outcome) :
  (∀ o, r = Ok o → oc_operation o = None ∧ oc_attempt o = None) → sound_run (tx_lift r).
Proof.
  intros H. apply quiet_sound; [tx_frame|]. by apply tx_post_lift.
Qed.

Lemma dispatch_sound cfg env state h b db o db' :
  ledger_ok db → st_run_id state = sc_run_id h → fresh_ids env (mkCommand h b) db = true →
  dispatch cfg env state (mkCommand h b) db = Ok (o, db') → ledger_ok db' ∧ outcome_sound db' o.
Proof.
  intros L Hrun Hf. unfold dispatch. cbn [cm_body cm_head].
  destruct b; try (by apply handle_attempt_sound); try (by apply handle_operation_sound);
    try (by apply decide_approval_sound); try (by apply expire_approval_sound);
    try (by intros [<- <-]%tx_ret_ok);
    unfold start_replacement, start_finalize, invalidate_generation, create_safe_checkpoint,
      finalize_terminal;
    try (quiet; fail).
  - apply lift_quiet_sound; [|done]. unfold handle_transition. intros x H.
    case_decide; [done|]. by tx_inv H.
  - apply lift_quiet_sound; [|done]. unfold bind_session. intros x H. case_decide; [done|]. by tx_inv H.
  - apply lift_quiet_sound; [|done]. unfold upgrade_persistence. intros x H.
    repeat case_decide; try done; by tx_inv H.
  - intros (p & s1 & H & Ho)%tx_bind_ok. apply tx_ret_ok in Ho as [<- <-].
    destruct (finalize_audit_sound _ _ _ _ _ _ _ _ L Hf H) as [Ht S].
    split; [by eapply ledger_ok_same|]. cbn. by eapply sound_same.
  - intros (p & s1 & H & Ho)%tx_bind_ok. apply tx_ret_ok in Ho as [<- <-].
    destruct (finalize_inbox_sound _ _ _ _ _ _ _ _ L Hf H) as [Ht S].
    split; [by eapply ledger_ok_same|]. cbn. by eapply sound_same.
  - intros (p & s1 & H & Ho)%tx_bind_ok. apply tx_ret_ok in Ho as [<- <-].
    by destruct (create_operation_sound _ _ _ _ _ _ _ _ L Hrun Hf H) as [-> S].
  - intros (p & s1 & H & Ho)%tx_bind_ok. apply tx_ret_ok in Ho as [<- <-].
    unfold fresh_ids in Hf. cbn in Hf.
    assert (db_attempts db !! ba_attempt_id c = None) as Hn by by destruct (db_attempts db !! _).
    by destruct (begin_attempt_sound _ _ _ _ _ _ L Hn H) as [-> S].
  - intros (x & s1 & H & Ho)%tx_bind_ok.
    apply tx_bind_ok in Ho as (a & s2 & [[_ Ha]%current_attempt_in_ok ->]%tx_read_ok & Ho).
    apply tx_ret_ok in Ho as [<- <-].
    destruct (begin_operation_sound _ _ _ _ _ _ _ _ L Hf H) as [L' Hx].
    split; [done|]. cbn. by apply existing_sound.
  - unfold create_approval. intros H. refine (quiet_sound _ _ _ db o db' L H).
    + tx_frame.
    + do 5 (apply tx_post_bind; intros ?). by apply tx_post_ret.
  - intros (r & s1 & H & Ho)%tx_bind_ok. apply tx_ret_ok in Ho as [<- <-].
    unfold fresh_ids in Hf. cbn in Hf.
    assert (db_attempts db !! env_uuid env 1 = None) as Hn by by destruct (db_attempts db !! _).
    apply apply_recovery_sound in H as [L' S]; [|done|done].
    split; [done|]. destruct r as [[st [op|]] [a|]]; done.
Qed.

Lemma apply_ledger cfg gate env c db r db' :
  states_wf db → ledger_ok db → fresh_ids env c db = true →
  apply cfg gate env c db = Ok (r, db') → ledger_ok db'.
Proof.
  intros Hwf L Hf H. apply apply_ok in H as [_ [[-> _]|(state & o & db1 & F)]]; [done|].
  destruct (fresh_stepped _ _ _ _ _ _ _ _ _ Hwf F) as (row & <- & S).
  destruct c as [h b].
  destruct (dispatch_sound _ _ _ _ _ _ _ _ L (sp_run _ _ _ _ _ _ _ S) Hf
    (fr_dispatch _ _ _ _ _ _ _ _ _ F)) as [L1 S1].
  destruct (cf_saved _ _ _ _ _ _ _ _ (fr_commit _ _ _ _ _ _ _ _ _ F)) as (d & Hs & Hl & _).
  assert (tables db' = tables d) as Ht by (unfold ledger in Hl; unfold tables; congruence).
  eapply ledger_ok_same; [exact Ht|]. unfold save_outcome in Hs.
  apply tx_bind_ok in Hs as ([] & s1 & H1 & Hs). apply tx_bind_ok in Hs as ([] & s2 & H2 & H3).
  destruct (save_opt_sound (oc_operation o, oc_attempt o) db1 s2 tt s1 tt L1) as [L2 _]; [|done|done|].
  { unfold outcome_sound in S1. by destruct (oc_operation o), (oc_attempt o). }
  eapply ledger_ok_same; [|exact L2]. unfold save_opt in H3. destruct (oc_approval o).
  - by apply (save_approval_rel (same_part tables)) in H3.
  - by apply tx_ret_ok in H3 as [_ <-].
Qed.

Lemma initial_ledger db : initial db → ledger_ok db.
Proof. intros (sinks & gens & ->). split; intros id x H; cbn in H; by rewrite lookup_empty in H. Qed.

Lemma tidy_ledger db : tidy_reachable db → ledger_ok db.
Proof.
  intros (db0 & Hi & Hr). assert (states_wf db0 ∧ ledger_ok db0) as H.
  { split; [|by apply initial_ledger]. apply reachable_states_wf. by exists db0. }
  enough (states_wf db ∧ ledger_ok db) by tauto.
  clear Hi. induction Hr as [|x y z Hxy _ IH]; [done|]. apply IH. destruct H as [Hwf L]. split.
  - by apply (gateway_step_rel _ states_wf_closed _ _ (tidy_gateway _ _ Hxy)).
  - destruct Hxy as [cfg gate env c r db db' _ Hf H|db db' _ E1 E2].
    + by eapply apply_ledger.
    + eapply ledger_ok_same; [|exact L]. unfold tables. by rewrite E1, E2.
Qed.

Lemma Sorted_map_in {A B} (R : A → A → Prop) (R' : B → B → Prop) (f : A → B) l :
  (∀ x y, x ∈ l → y ∈ l → R x y → R' (f x) (f y)) → Sorted R l → Sorted R' (map f l).
Proof.
  intros Hf Hs. induction Hs as [|x l Hs IH Hd]; [constructor|]. cbn. constructor.
  - apply IH. intros y z Hy Hz. apply Hf; by right.
  - destruct Hd as [|y l Hxy]; constructor. apply Hf; [left|right; left|done].
Qed.

Lemma attempt_rows_numbers db id :
  ledger_ok db → Sorted no_le (map tr_body (attempt_rows id db)).
Proof.
  intros L. apply (Sorted_map_in row_no_le); [|apply Sorted_merge_sort, _].
  assert (∀ x, x ∈ attempt_rows id db → tr_attempt_no x = at_attempt_no (tr_body x)) as H.
  { intros x Hx. unfold attempt_rows in Hx. rewrite merge_sort_Permutation in Hx.
    apply list_elem_of_filter in Hx as [_ ([k r] & -> & Hin)%list_elem_of_fmap].
    apply elem_of_map_to_list in Hin. destruct (lk_attempts _ L _ _ Hin) as [E _]. cbn. by rewrite E. }
  intros x y Hx Hy. unfold row_no_le, no_le. by rewrite (H _ Hx), (H _ Hy).
Qed.

(** ** Claims *)

(** C3: in every store reached by clients that never reuse an
    identifier, the status, failure, latest attempt, retry time and result of
    each row of the operation ledger are those [reduce_operation] computes from
    the attempts stored for it; the attempts are numbered 1 to n without a gap,
    n is at least 1 and at most [max_attempts], and each repeats the Run, the
    request and the side-effect flag of its operation. *)
Theorem ledger_projection db id row :
  tidy_reachable db → db_operations db !! id = Some row →
  let l := map tr_body (attempt_rows id db) in
  (∃ g, reduce_operation (immutable_metadata (or_body row)) l
          (op_retry_policy_snapshot (or_body row)) = Ok g ∧
        summary (or_body row) = ag_summary g ∧ or_status row = ag_status g) ∧
  map at_attempt_no l = seqZ 1 (Z.of_nat (length l)) ∧
  1 ≤ Z.of_nat (length l) ≤ rp_max_attempts (op_retry_policy_snapshot (or_body row)) ∧
  Forall (λ a, at_operation_id a = id ∧ at_run_id a = or_run_id row ∧
               at_request_hash a = or_request_hash row ∧
               at_side_effecting a = or_side_effecting row) l.
Proof.
  intros L%tidy_ledger Hrow l.
  destruct (lk_operations _ L _ _ Hrow) as (Hid & Hrun & _ & Hst & _ & Hrh & Hse).
  pose proof (projects_perm _ _ _ (symmetry (attempt_rows_perm id db)) (lk_projects _ L _ _ Hrow))
    as [Hn (g & Hg & Hs)]. fold l in Hn, Hg.
  destruct (proj1 (reduce_operation_ok _ _ _ _) Hg) as (latest & R).
  pose proof (reduction_nonempty R) as Hne.
  assert (∀ a, a ∈ l → inherits (immutable_metadata (or_body row)) a = true) as Hi by apply R.
  split_and!.
  - exists g. split_and!; [done|done|]. rewrite Hst. by injection Hs.
  - rewrite <- (rd_numbers R). apply sorted_by_number.
    + by rewrite merge_sort_Permutation.
    + by apply attempt_rows_numbers.
    + apply Sorted_merge_sort, _.
  - destruct l; [done|cbn; lia].
  - done.
  - apply Forall_forall. intros a Ha%Hi. unfold inherits in Ha.
    rewrite !andb_true_iff, !bool_decide_eq_true in Ha. cbn in Ha. rewrite Hrun, Hrh, Hse, <- Hid. tauto.
Qed.

(** ** Witnesses *)

Lemma ledger_projection_witness : ∃ row,
  db_operations (demo 31) !! "op-1" = Some row ∧
  1 ≤ Z.of_nat (length (map tr_body (attempt_rows "op-1" (demo 31))))
    ≤ rp_max_attempts (op_retry_policy_snapshot (or_body row)).
Proof.
  destruct (demo_ok 31 ltac:(lia)) as [res F]. pose proof (df_extra _ _ F) as H. unfold demo_extra in H.
  apply andb_true_iff in H as [H _]. apply andb_true_iff in H as [H _].
  apply lookup_some in H as [row Hrow]. exists row. split; [exact Hrow|].
  apply (ledger_projection (demo 31) "op-1" row (demo_tidy 31 ltac:(lia)) Hrow).
Defined.
