(* ===== verification/Safety.v ===== *)
(** * Safety: when a side effect may be tried

    The contracts of the commands that put a side effect within reach: a new
    attempt of an operation, a retry decided by a human, a decision on an
    approval, a safe checkpoint. *)

From stdpp Require Import relations.
From S2P Require Import Prelude PyText PyTime AgentTypes AgentState Sanitizer Commands.
From S2P Require Import OperationReduce FinalizeEvidence Store Events Operations FinalizeOps.
From S2P Require Import Controller Frames Outcomes Apply Observations Outbox System Demo StatesInv.
From S2P Require Import Lifecycle Records Replay Ledger Projection.

#[local] Open Scope Z_scope.

(** ** A new attempt *)

(** What [_begin_operation_attempt] has checked. *)
Record attempt_begun (state : AgentState) (c : BeginOperationAttemptCommand) (t : string) (db : Db)
    (p : OperationRecord * OperationAttempt) (o : OperationRecord) (l : list OperationAttempt)
    (latest : OperationAttempt) : Prop := {
  ab_operation : operation_in (ba_operation_id c) db = Ok o;
  ab_attempts : attempts_in (op_operation_id o) db = Ok l;
  ab_latest : last l = Some latest;
  ab_run : op_run_id o = st_run_id state ∧ op_request_hash o = ba_request_hash c;
  ab_expected : at_attempt_no latest = ba_expected_latest_attempt_no c;
  ab_open : op_status o ∉ [OS_COMPLETED; OS_SKIPPED] ∧
            ¬ (op_status o = OS_FAILED ∧ op_failure_kind o = Some FK_TERMINAL);
  ab_authorized : at_status latest = OS_UNKNOWN → at_recovery_resolution latest = Some RR_RETRY_AUTHORIZED;
  ab_max : Z.of_nat (length l) < rp_max_attempts (op_retry_policy_snapshot o);
  ab_due : retry_too_early o t = Ok false;
  ab_new : p.2 = (new_attempt (ba_attempt_id c) (op_operation_id o) (st_run_id state)
       (at_attempt_no latest + 1) (op_request_hash o) (op_side_effecting o) t)
      ⟪ at_model_call_id := ba_model_call_id c ⟫
      ⟪ at_external_request_id := ba_external_request_id c ⟫
      ⟪ at_risk_confirmed_by := ba_risk_confirmed_by c ⟫
      ⟪ at_risk_confirmation_reason := ba_risk_confirmation_reason c ⟫;
  ab_aggregate : aggregate_operation o (l ++ [p.2]) t = Ok p.1
}.

Lemma begin_operation_attempt_ok state c t db p db' :
  begin_operation_attempt state c t db = Ok (p, db') →
  db' = db ∧ ∃ o l latest, attempt_begun state c t db p o l latest.
Proof.
  unfold begin_operation_attempt. intros (o & s1 & [Ho ->]%tx_read_ok & H)%tx_bind_ok.
  apply tx_bind_ok in H as (l & s1 & [Hl ->]%tx_read_ok & H).
  apply tx_bind_ok in H as (latest & s1 & [Hla%res_of_option_ok ->]%tx_lift_ok & H).
  apply tx_bind_ok in H as ([] & s1 & [H1 ->]%reject_ok & H).
  apply tx_bind_ok in H as ([] & s1 & [H2 ->]%reject_ok & H).
  apply tx_bind_ok in H as ([] & s1 & [H3 ->]%reject_ok & H).
  apply tx_bind_ok in H as ([] & s1 & [H4 ->]%reject_ok & H).
  apply tx_bind_ok in H as ([] & s1 & [H5 ->]%reject_ok & H).
  apply tx_bind_ok in H as ([] & s1 & [H6 ->]%reject_ok & H).
  apply tx_bind_ok in H as (early & s1 & [He ->]%tx_lift_ok & H).
  apply tx_bind_ok in H as ([] & s1 & [H7 ->]%reject_ok & H).
  apply tx_bind_ok in H as (a & s1 & [[_ Ha]%checked_ok ->]%tx_lift_ok & H).
  apply tx_bind_ok in H as (o' & s1 & [Hag ->]%tx_lift_ok & H).
  apply tx_ret_ok in H as [<- <-]. split; [done|]. exists o, l, latest.
  destruct early; [done|]. split; try done.
  - split; apply dec_stable; tauto.
  - by apply dec_stable.
  - intros Hu. apply dec_stable. tauto.
  - lia.
Qed.

Lemma active_snoc l a :
  (length (filter (λ a, attempt_active a = true) (l ++ [a])) ≤ 1)%nat → attempt_active a = true →
  Forall (λ x, attempt_active x = false) l.
Proof.
  intros H Ha. rewrite filter_app, length_app in H.
  rewrite (filter_cons_True _ a []) in H by done. cbn in H.
  assert (filter (λ a, attempt_active a = true) l = []) as E by (apply nil_length_inv; lia).
  apply Forall_forall. intros x Hx. apply not_true_iff_false. intros Hx'.
  assert (x ∈ filter (λ a, attempt_active a = true) l) as Hin by (by apply list_elem_of_filter).
  rewrite E in Hin. by apply not_elem_of_nil in Hin.
Qed.

(** The last attempt carries the number of attempts. *)
Lemma latest_number db id row latest :
  ledger_ok db → db_operations db !! id = Some row →
  last (map tr_body (attempt_rows id db)) = Some latest →
  at_attempt_no latest = Z.of_nat (length (map tr_body (attempt_rows id db))).
Proof.
  intros L Hrow Hlast. set (l := map tr_body (attempt_rows id db)) in *.
  destruct (lk_projects _ L _ _ Hrow) as [_ (g & Hg & _)].
  rewrite <- (reduce_operation_perm _ _ _ _ (attempt_rows_perm _ _)) in Hg. fold l in Hg.
  apply reduce_operation_ok in Hg as (lat & R).
  assert (map at_attempt_no l = seqZ 1 (Z.of_nat (length l))) as Hs.
  { rewrite <- (rd_numbers R). apply sorted_by_number.
    - by rewrite merge_sort_Permutation.
    - by apply attempt_rows_numbers.
    - apply Sorted_merge_sort, _. }
  assert (last (map at_attempt_no l) = Some (at_attempt_no latest)) as Hm
    by (change (map at_attempt_no l) with (at_attempt_no <$> l); by rewrite fmap_last, Hlast).
  rewrite Hs, last_seqZ in Hm by (destruct l; [done|cbn; lia]). injection Hm. lia.
Qed.

(** When BeginOperationAttempt commits, the operation was
    neither determined nor terminally failed, none of its attempts could still
    take effect, the last one was the one the client expected and, if its
    effect was unknown, a retry had been authorized; fewer than [max_attempts]
    attempts existed and [next_retry_at] had passed; and the command adds one
    PREPARED attempt with the next number and the request of the operation. *)
Lemma retry_contract cfg gate env c b db r db' :
  tidy_reachable db → cm_body c = BeginOperationAttempt b →
  db_processed db !! sc_command_id (cm_head c) = None →
  apply cfg gate env c db = Ok (r, db') →
  ∃ row latest a,
    db_operations db !! ba_operation_id b = Some row ∧
    or_run_id row = sc_run_id (cm_head c) ∧ or_request_hash row = ba_request_hash b ∧
    let l := map tr_body (attempt_rows (ba_operation_id b) db) in
    last l = Some latest ∧ Z.of_nat (length l) = ba_expected_latest_attempt_no b ∧
    Z.of_nat (length l) < rp_max_attempts (op_retry_policy_snapshot (or_body row)) ∧
    or_status row ∉ [OS_COMPLETED; OS_SKIPPED] ∧
    ¬ (or_status row = OS_FAILED ∧ op_failure_kind (or_body row) = Some FK_TERMINAL) ∧
    Forall (λ x, attempt_active x = false) l ∧
    (at_status latest = OS_UNKNOWN → at_recovery_resolution latest = Some RR_RETRY_AUTHORIZED) ∧
    retry_too_early (or_body row) (env_now env) = Ok false ∧
    ar_attempt r = Some a ∧ at_attempt_id a = ba_attempt_id b ∧
    at_attempt_no a = Z.of_nat (length l) + 1 ∧ at_status a = OS_PREPARED ∧
    at_request_hash a = or_request_hash row ∧ at_side_effecting a = or_side_effecting row.
Proof.
  intros Ht Hb Hn H. pose proof (tidy_ledger _ Ht) as L.
  destruct (reachable_states_ok _ (tidy_is_reachable _ Ht)) as [Hwf _].
  apply apply_ok in H as [_ [(_ & row & Hp & _)|(state & o & db1 & F)]]; [congruence|].
  destruct (fresh_stepped _ _ _ _ _ _ _ _ _ Hwf F) as (srow & <- & S).
  pose proof (fr_dispatch _ _ _ _ _ _ _ _ _ F) as Hd. unfold dispatch in Hd. rewrite Hb in Hd.
  unfold handle_begin_attempt in Hd. apply tx_bind_ok in Hd as (p & s1 & Hd & Ho).
  apply tx_ret_ok in Ho as [<- _].
  apply begin_operation_attempt_ok in Hd as [-> (op & l & latest & B)].
  pose proof (ab_operation _ _ _ _ _ _ _ _ B) as Hop. apply operation_in_ok in Hop as (row & Hrow & _ & ->).
  destruct (lk_operations _ L _ _ Hrow) as (Hid & Hrun & _ & Hst & _ & Hrh & Hse).
  pose proof (ab_attempts _ _ _ _ _ _ _ _ B) as Hl. rewrite Hid in Hl.
  apply attempts_in_ok in Hl as (_ & -> & _). set (l := map tr_body _) in *.
  destruct (ab_run _ _ _ _ _ _ _ _ B) as [Hr1 Hr2].
  pose proof (latest_number _ _ _ _ L Hrow (ab_latest _ _ _ _ _ _ _ _ B)) as Hno. fold l in Hno.
  exists row, latest, p.2. destruct (sp_result _ _ _ _ _ _ _ S) as (_ & _ & Ha & _).
  pose proof (ab_new _ _ _ _ _ _ _ _ B) as Hnew.
  cbv zeta. split_and!; try done.
  - by rewrite Hrun, Hr1, (sp_run _ _ _ _ _ _ _ S).
  - by rewrite Hrh.
  - apply (ab_latest _ _ _ _ _ _ _ _ B).
  - rewrite <- Hno. apply (ab_expected _ _ _ _ _ _ _ _ B).
  - apply (ab_max _ _ _ _ _ _ _ _ B).
  - rewrite Hst. apply (ab_open _ _ _ _ _ _ _ _ B).
  - rewrite Hst. apply (ab_open _ _ _ _ _ _ _ _ B).
  - pose proof (ab_aggregate _ _ _ _ _ _ _ _ B) as Hag.
    apply aggregate_operation_ok in Hag as (_ & g' & _ & Hg' & _).
    apply reduce_operation_ok in Hg' as (lat' & R').
    apply (active_snoc _ p.2 (rd_active R')). by rewrite Hnew.
  - apply (ab_authorized _ _ _ _ _ _ _ _ B).
  - apply (ab_due _ _ _ _ _ _ _ _ B).
  - by rewrite Hnew.
  - rewrite Hnew. cbn. by rewrite Hno.
  - by rewrite Hnew.
  - by rewrite Hnew, Hrh.
  - by rewrite Hnew, Hse.
Qed.

(** ** A retry decided by a human *)

Lemma insert_decision_ok i r db u db' :
  insert_decision i r db = Ok (u, db') → db_decisions db' !! i = Some r.
Proof.
  unfold insert_decision. intros (d & s1 & [-> ->]%tx_gets_ok & H)%tx_bind_ok.
  abort_inv H. apply tx_modify_ok in H as ->. apply lookup_insert_eq.
Qed.

Lemma save_outcome_decisions o db u db' :
  save_outcome o db = Ok (u, db') → db_decisions db' = db_decisions db.
Proof.
  assert (tx_rel (same_part db_decisions) (save_outcome o)) as H
    by (unfold save_outcome, save_opt; tx_frame).
  apply H.
Qed.


Lemma recovery_retry_ok env state c o a t db p db' :
  recovery_retry env state c o a t db = Ok (p, db') →
  ∃ o1 a1, o = Some o1 ∧ a = Some a1 ∧ op_status o1 ∈ [OS_UNKNOWN; OS_FAILED] ∧
  (op_idempotency o1 = TI_NON_IDEMPOTENT →
     rc_risk_confirmed c = true ∧ at_risk_confirmed_by p.2 = Some (rc_actor c) ∧
     at_risk_confirmation_reason p.2 = Some (rc_reason c)) ∧
  at_attempt_id p.2 = env_uuid env 1 ∧ at_status p.2 = OS_PREPARED.
Proof.
  unfold recovery_retry. destruct o as [o|], a as [a|]; try (by intros []%tx_fail_ok).
  intros ([] & s1 & [H1 ->]%reject_ok & H)%tx_bind_ok.
  apply tx_bind_ok in H as ([] & s1 & [H2 ->]%reject_ok & H).
  apply tx_bind_ok in H as (o1 & s1 & _ & H).
  apply tx_bind_ok in H as (cmd & s2 & [[_ ->]%checked_ok ->]%tx_lift_ok & H).
  apply begin_operation_attempt_ok in H as [-> (o2 & l & latest & B)].
  pose proof (ab_new _ _ _ _ _ _ _ _ B) as Hnew. exists o, a.
  split_and!; try done; try (by rewrite Hnew).
  - by apply dec_stable.
  - intros Hi. destruct (rc_risk_confirmed c) eqn:Hr; [|by destruct H2].
    rewrite Hnew. cbn. by rewrite Hr.
Qed.

(** When a recovery decision retries an operation,
    the operation was UNKNOWN or FAILED; if it is not idempotent, the decision
    confirmed the risk and the new attempt records who confirmed it and why; and
    the decision itself is recorded with its actor. *)
Lemma recovery_retry_confirmed cfg gate env c d oid db r db' :
  reachable db → cm_body c = RecoveryDecision d → rc_action d = RA_RETRY →
  rc_operation_id d = Some oid → oid ≠ "" →
  db_processed db !! sc_command_id (cm_head c) = None →
  apply cfg gate env c db = Ok (r, db') →
  ∃ row a decision,
    db_operations db !! oid = Some row ∧ op_status (or_body row) ∈ [OS_UNKNOWN; OS_FAILED] ∧
    ar_attempt r = Some a ∧ at_attempt_id a = env_uuid env 1 ∧ at_status a = OS_PREPARED ∧
    (op_idempotency (or_body row) = TI_NON_IDEMPOTENT →
       rc_risk_confirmed d = true ∧ at_risk_confirmed_by a = Some (rc_actor d) ∧
       at_risk_confirmation_reason a = Some (rc_reason d)) ∧
    db_decisions db' !! env_uuid env 0 = Some decision ∧
    dr_action decision = RA_RETRY ∧ dr_actor decision = rc_actor d ∧
    dr_attempt_id decision = Some (at_attempt_id a).
Proof.
  intros Hr Hb Hact Hoid Hne Hn H. destruct (reachable_states_ok _ Hr) as [Hwf _].
  apply apply_ok in H as [_ [(_ & row & Hp & _)|(state & o & db1 & F)]]; [congruence|].
  destruct (fresh_stepped _ _ _ _ _ _ _ _ _ Hwf F) as (srow & <- & S).
  pose proof (fr_dispatch _ _ _ _ _ _ _ _ _ F) as Hd. unfold dispatch in Hd. rewrite Hb in Hd.
  apply tx_bind_ok in Hd as (q & s1 & Hd & Ho). apply tx_ret_ok in Ho as [<- ->].
  unfold apply_recovery in Hd. apply tx_bind_ok in Hd as (tg & s2 & Ht & Hd).
  unfold recovery_target in Ht. rewrite Hoid in Ht. cbn [truthy default] in Ht.
  rewrite bool_decide_false in Ht by done. cbn [negb] in Ht.
  apply tx_bind_ok in Ht as (o & s3 & [(row & Hrow & _ & ->)%operation_in_ok ->]%tx_read_ok & Ht).
  apply tx_bind_ok in Ht as (a0 & s3 & [_ ->]%tx_read_ok & Ht).
  apply tx_bind_ok in Ht as ([] & s3 & [_ ->]%reject_ok & Ht). apply tx_ret_ok in Ht as [<- ->].
  apply tx_bind_ok in Hd as (af & s4 & He & Hd). unfold recovery_effect in He. rewrite Hact in He.
  cbn [fst snd] in He. rewrite decide_False in He by (by intros []).
  apply tx_bind_ok in He as (p & s5 & Hre & He). apply tx_ret_ok in He as [<- <-].
  apply recovery_retry_ok in Hre as (o1 & a1 & [= <-] & _ & Hst & Hconf & Hid & Hpr).
  apply tx_bind_ok in Hd as ([] & s6 & H1 & Hd). apply tx_bind_ok in Hd as ([] & s7 & H2 & Hd).
  apply tx_bind_ok in Hd as ([] & s8 & H3 & Hd). apply tx_ret_ok in Hd as [<- <-].
  destruct (sp_result _ _ _ _ _ _ _ S) as (_ & _ & Ha & _). cbn in Ha.
  destruct (cf_saved _ _ _ _ _ _ _ _ (fr_commit _ _ _ _ _ _ _ _ _ F)) as (dd & Hs & Hl & _).
  assert (db_decisions db' = db_decisions s8) as Hdec.
  { transitivity (db_decisions dd); [by injection Hl|].
    apply (save_outcome_decisions _ _ _ _ Hs). }
  apply insert_decision_ok in H3. rewrite <- Hdec in H3.
  exists row, p.2. eexists. do 6 (split; [assumption|]). split; [exact H3|].
  split; [exact Hact|]. by split.
Qed.

(** ** Safe checkpoints *)

(** When a safe checkpoint commits, no side-effecting
    attempt of the Run is PREPARED, RUNNING or of unresolved unknown effect;
    the checkpoint names the revision it was taken at, and the attempt it calls
    determined is. *)
Lemma checkpoint_quiescent cfg gate env c k db r db' :
  reachable db → cm_body c = CreateSafeCheckpoint k →
  db_processed db !! sc_command_id (cm_head c) = None →
  apply cfg gate env c db = Ok (r, db') →
  (∀ id row, db_attempts db' !! id = Some row → tr_run_id row = sc_run_id (cm_head c) →
     open_side_effect row = false) ∧
  st_safe_checkpoint (ar_state r) = Some k ∧ ck_run_id k = sc_run_id (cm_head c) ∧
  st_revision (ar_state r) = ck_state_revision k + 1 ∧
  (∀ i, ck_last_determined_attempt_id k = Some i → i ≠ "" →
     ∃ row, db_attempts db' !! i = Some row ∧
       at_status (tr_body row) ∉ [OS_PREPARED; OS_RUNNING; OS_UNKNOWN]).
Proof.
  intros Hr Hb Hn H. destruct (reachable_states_ok _ Hr) as [Hwf _].
  apply apply_ok in H as [_ [(_ & row & Hp & _)|(state & o & db1 & F)]]; [congruence|].
  destruct (fresh_stepped _ _ _ _ _ _ _ _ _ Hwf F) as (srow & <- & S).
  pose proof (fr_dispatch _ _ _ _ _ _ _ _ _ F) as Hd. unfold dispatch in Hd. rewrite Hb in Hd.
  unfold create_safe_checkpoint in Hd.
  apply tx_bind_ok in Hd as (act & s1 & [-> ->]%tx_gets_ok & Hd).
  apply tx_bind_ok in Hd as ([] & s1 & [Hact ->]%reject_ok & Hd).
  apply tx_bind_ok in Hd as ([] & s1 & [Hrun ->]%reject_ok & Hd).
  apply tx_bind_ok in Hd as (? & s1 & Hcur & Hd).
  assert (s1 = db) as ->.
  { eapply read_only; [|exact Hcur]. by tx_frame. }
  apply tx_bind_ok in Hd as (? & s2 & Hdet & Hd).
  assert (s2 = db) as ->.
  { eapply read_only; [|exact Hdet]. by tx_frame. }
  apply tx_ret_ok in Hd as [<- <-].
  destruct (cf_saved _ _ _ _ _ _ _ _ (fr_commit _ _ _ _ _ _ _ _ _ F)) as (d & Hs & Hl & _).
  assert (db_attempts db' = db_attempts db) as ->.
  { assert (d = db) as -> by (by unfold save_outcome in Hs; cbn in Hs; tx_inv Hs).
    unfold ledger in Hl. congruence. }
  destruct (sp_result _ _ _ _ _ _ _ S) as (E & _). rewrite E. cbn.
  rewrite <- (sp_run _ _ _ _ _ _ _ S).
  assert (ck_run_id k = st_run_id (sr_body srow) ∧ ck_state_revision k = st_revision (sr_body srow))
    as [Hk1 Hk2] by (split; apply dec_stable; tauto).
  split_and!; [|done|done|by rewrite Hk2|].
  - intros id row Hrow Hro. apply not_true_iff_false in Hact.
    pose proof (proj1 (anyrow_false _ _) Hact id row Hrow) as Hx. cbn in Hx.
    by rewrite bool_decide_true in Hx.
  - intros i Hi Hne. rewrite Hi in Hdet. cbn [truthy default] in Hdet.
    rewrite bool_decide_false in Hdet by done. cbn [negb] in Hdet.
    apply tx_bind_ok in Hdet as (a & s3 & [(row & Hrow & _ & ->)%attempt_in_ok ->]%tx_read_ok & Hdet).
    apply reject_ok in Hdet as [Hdet _]. by exists row.
Qed.

(** ** Approvals *)

Definition approvals_coherent (db : Db) : Prop :=
  ∀ id row, db_approvals db !! id = Some row →
    ap_approval_id (pr_body row) = id ∧ pr_status row = ap_status (pr_body row).

Lemma insert_approval_ok a u db v db' :
  insert_approval a u db = Ok (v, db') →
  db_approvals db !! ap_approval_id a = None ∧
  db' = db ⟪ db_approvals := <[ap_approval_id a := approval_row a u]> (db_approvals db) ⟫.
Proof.
  unfold insert_approval. intros (d & s1 & [-> ->]%tx_gets_ok & H)%tx_bind_ok.
  apply tx_bind_ok in H as ([] & s1 & [Hn ->]%abort_if_ok & H). abort_inv H.
  apply tx_modify_ok in H as ->. split; [|done]. by destruct (db_approvals db !! _).
Qed.

Lemma save_approval_ok a db v db' :
  save_approval a db = Ok (v, db') →
  ∃ row, db' = db ⟪ db_approvals := <[ap_approval_id a := row]> (db_approvals db) ⟫ ∧
    pr_body row = a ∧ pr_status row = ap_status a.
Proof.
  unfold save_approval. intros (d & s1 & [-> ->]%tx_gets_ok & H)%tx_bind_ok. cbv zeta in H.
  destruct (db_approvals db !! _).
  - apply tx_modify_ok in H as ->. by eexists.
  - apply insert_approval_ok in H as [_ ->]. by eexists.
Qed.

Lemma approvals_coherent_closed : closed (keeps approvals_coherent).
Proof.
  closed_by_frame.
  - intros a u db v db' [_ ->]%insert_approval_ok Hc id row. cbn.
    intros [[<- <-]|[_ H]]%lookup_insert_Some; [done|by apply Hc].
  - intros a db v db' (r & -> & Hb & Hs)%save_approval_ok Hc id row. cbn.
    intros [[<- <-]|[_ H]]%lookup_insert_Some; [by rewrite Hb|by apply Hc].
Qed.

(** What a handler does to the approvals, and which one it returns. *)
Inductive approval_effect (db db1 : Db) : option DurableApproval → Prop :=
| ae_none : db_approvals db1 = db_approvals db → approval_effect db db1 None
| ae_same id row : db_approvals db1 = db_approvals db → db_approvals db !! id = Some row →
    approval_effect db db1 (Some (pr_body row))
| ae_decided id row a : db_approvals db1 = db_approvals db → db_approvals db !! id = Some row →
    ap_status (pr_body row) = AS_PENDING → ap_approval_id a = ap_approval_id (pr_body row) →
    approval_effect db db1 (Some a)
| ae_new a u : db_approvals db !! ap_approval_id a = None →
    db_approvals db1 = <[ap_approval_id a := approval_row a u]> (db_approvals db) →
    approval_effect db db1 (Some a).

Lemma settle_approval_effect state a t r b db o db1 :
  settle_approval state a t r b db = Ok (o, db1) → db1 = db ∧ oc_approval o = Some a.
Proof.
  unfold settle_approval. case_match.
  - intros (p & s1 & [-> _]%update_attempt_ok & Ho)%tx_bind_ok. by apply tx_ret_ok in Ho as [<- <-].
  - by intros [<- <-]%tx_ret_ok.
Qed.

Lemma quiet_approval db (m : Tx Db Outcome) o db1 :
  tx_rel (same_part db_approvals) m → tx_post (λ o, oc_approval o = None) m →
  m db = Ok (o, db1) → approval_effect db db1 (oc_approval o).
Proof. intros Hr Hp H. rewrite (Hp _ _ _ H). constructor. apply (Hr _ _ _ H). Qed.

Lemma dispatch_approvals cfg env state c db o db1 :
  dispatch cfg env state c db = Ok (o, db1) → approval_effect db db1 (oc_approval o).
Proof.
  unfold dispatch. destruct (cm_body c);
    try (intros Hm; refine (quiet_approval db _ o db1 _ _ Hm);
      unfold start_replacement, start_finalize, invalidate_generation, finalize_audit, put_receipt,
        finalize_inbox, put_inbox, finalize_terminal, handle_create_operation,
        create_operation_with_attempt, handle_begin_attempt, handle_attempt,
        guard_finalize_completion, reconcile_attempt, handle_begin_operation, begin_operation,
        handle_operation, selected_attempt, reconcile_attempt, create_safe_checkpoint,
        apply_recovery, recovery_target, recovery_effect, recovery_confirm, recovery_retry,
        recovery_fail, save_opt;
      [tx_frame|tx_post; done]; fail).
  - intros Hm. refine (quiet_approval db _ o db1 _ _ Hm); [tx_frame|].
    apply tx_post_lift. unfold handle_transition. intros x H. case_decide; [done|]. by tx_inv H.
  - intros Hm. refine (quiet_approval db _ o db1 _ _ Hm); [tx_frame|].
    apply tx_post_lift. unfold bind_session. intros x H. case_decide; [done|]. by tx_inv H.
  - intros Hm. refine (quiet_approval db _ o db1 _ _ Hm); [tx_frame|].
    apply tx_post_lift. unfold upgrade_persistence. intros x H. repeat case_decide; try done; by tx_inv H.
  - intros ([] & s1 & [_ ->]%reject_ok & H)%tx_bind_ok.
    apply tx_bind_ok in H as (a & s1 & [_ ->]%tx_read_ok & H).
    apply tx_bind_ok in H as (x & s1 & [_ ->]%tx_read_ok & H).
    apply tx_bind_ok in H as ([] & s1 & [_ ->]%reject_ok & H).
    apply tx_bind_ok in H as ([] & s1 & [Hn ->]%insert_approval_ok & H). apply tx_ret_ok in H as [<- <-].
    by eapply ae_new.
  - intros (a & s1 & [(row & Hrow & _ & ->)%approval_in_ok ->]%tx_read_ok & H)%tx_bind_ok.
    apply tx_bind_ok in H as ([] & s1 & [_ ->]%reject_ok & H).
    apply tx_bind_ok in H as ([] & s1 & [_ ->]%reject_ok & H). case_decide as Hp.
    + apply settle_approval_effect in H as [-> ->]. by eapply ae_decided.
    + apply tx_ret_ok in H as [<- <-]. by eapply ae_same.
  - intros (a & s1 & [(row & Hrow & _ & ->)%approval_in_ok ->]%tx_read_ok & H)%tx_bind_ok.
    apply tx_bind_ok in H as ([] & s1 & [_ ->]%reject_ok & H). case_decide as Hp.
    + do 3 (apply tx_bind_ok in H as (? & s1 & [_ ->]%tx_lift_ok & H)).
      apply tx_bind_ok in H as ([] & s1 & [_ ->]%reject_ok & H).
      apply settle_approval_effect in H as [-> ->]. by eapply ae_decided.
    + apply tx_ret_ok in H as [<- <-]. by eapply ae_same.
Qed.

(** An approval that has been decided is not decided again. *)
Definition approval_kept (row row' : ApprovalRow) : Prop :=
  pr_status row ≠ AS_PENDING → pr_status row' = pr_status row ∧ pr_body row' = pr_body row.

Lemma apply_approvals cfg gate env c db r db' :
  approvals_coherent db → apply cfg gate env c db = Ok (r, db') →
  ∀ id row, db_approvals db !! id = Some row →
    ∃ row', db_approvals db' !! id = Some row' ∧ approval_kept row row'.
Proof.
  intros Hc H id row Hrow.
  apply apply_ok in H as [_ [(-> & _)|(state & o & db1 & F)]].
  { exists row. by split. }
  pose proof (dispatch_approvals _ _ _ _ _ _ _ (fr_dispatch _ _ _ _ _ _ _ _ _ F)) as He.
  destruct (cf_saved _ _ _ _ _ _ _ _ (fr_commit _ _ _ _ _ _ _ _ _ F)) as (d & Hs & Hl & _).
  assert (db_approvals db' = db_approvals d) as -> by (unfold ledger in Hl; congruence).
  unfold save_outcome in Hs. apply tx_bind_ok in Hs as ([] & s1 & H1 & Hs).
  apply tx_bind_ok in Hs as ([] & s2 & H2 & H3).
  assert (db_approvals s2 = db_approvals db1) as E2.
  { assert (tx_rel (same_part db_approvals) (save_opt save_operation (oc_operation o))) as R1
      by (unfold save_opt; tx_frame).
    assert (tx_rel (same_part db_approvals) (save_opt save_attempt (oc_attempt o))) as R2
      by (unfold save_opt; tx_frame).
    transitivity (db_approvals s1); [apply (R2 _ _ _ H2)|apply (R1 _ _ _ H1)]. }
  destruct He as [E|id' row' E Hr|id' row' a E Hr Hp Hid|a u Hn E]; cbn [save_opt] in H3.
  - apply tx_ret_ok in H3 as [_ <-]. rewrite E2, E. by exists row.
  - apply save_approval_ok in H3 as (rw & -> & Hb & Hst). cbn. rewrite E2, E.
    destruct (Hc _ _ Hr) as [-> Hs']. destruct (decide (id = id')) as [->|Hne].
    + rewrite lookup_insert_eq. exists rw. split; [done|]. rewrite Hrow in Hr. injection Hr as <-.
      intros _. by rewrite Hst, Hs'.
    + rewrite lookup_insert_ne by done. by exists row.
  - apply save_approval_ok in H3 as (rw & -> & Hb & Hst). cbn. rewrite E2, E.
    destruct (Hc _ _ Hr) as [Hk Hs']. rewrite Hid, Hk. destruct (decide (id = id')) as [->|Hne].
    + rewrite lookup_insert_eq. exists rw. split; [done|]. rewrite Hrow in Hr. injection Hr as <-.
      intros Hx. by rewrite Hs' in Hx.
    + rewrite lookup_insert_ne by done. by exists row.
  - apply save_approval_ok in H3 as (rw & -> & Hb & Hst). cbn. rewrite E2, E.
    rewrite insert_insert_eq. rewrite lookup_insert_ne by (intros <-; congruence). by exists row.
Qed.

Lemma steps_approvals db db' :
  reachable db → rtc gateway_step db db' →
  ∀ id row, db_approvals db !! id = Some row →
    ∃ row', db_approvals db' !! id = Some row' ∧ approval_kept row row'.
Proof.
  intros Hr Hs. induction Hs as [x|x y z Hxy _ IH]; intros id row Hrow; [by exists row|].
  assert (approvals_coherent x) as Hc.
  { revert Hr. apply reachable_keeps; [apply approvals_coherent_closed|].
    intros d (sinks & gens & ->) i w H. cbn in H. by rewrite lookup_empty in H. }
  assert (∃ row1, db_approvals y !! id = Some row1 ∧ approval_kept row row1) as (row1 & H1 & K1).
  { destruct (step_ledger _ _ Hxy) as [E|(cfg & gate & env & c & r & _ & H)].
    - unfold ledger_tables in E. injection E as _ _ E. exists row. by rewrite E.
    - by eapply apply_approvals. }
  destruct (IH (reachable_step _ _ Hr Hxy) _ _ H1) as (row2 & H2 & K2).
  exists row2. split; [done|]. intros Hp. destruct (K1 Hp) as [E1 B1].
  destruct K2 as [E2 B2]; [congruence|]. by rewrite E2, E1, B2, B1.
Qed.

(** An approval is never deleted; once approved, denied
    or timed out it keeps that status, its decider and its reason for ever. *)
Lemma approval_decided_once db db' id row :
  reachable db → rtc gateway_step db db' → db_approvals db !! id = Some row →
  ∃ row', db_approvals db' !! id = Some row' ∧
    (pr_status row ≠ AS_PENDING →
       pr_status row' = pr_status row ∧ ap_decided_by (pr_body row') = ap_decided_by (pr_body row) ∧
       ap_reason (pr_body row') = ap_reason (pr_body row)).
Proof.
  intros Hr Hs Hrow. destruct (steps_approvals _ _ Hr Hs id row Hrow) as (row' & H & K).
  exists row'. split; [done|]. intros Hp. by destruct (K Hp) as [-> ->].
Qed.

(** The row of the attempt a command returns. *)
Lemma saved_attempt_row env c hash prev o db r db' (K : commit_facts env c hash prev o db r db') a :
  oc_attempt o = Some a →
  ∃ row, db_attempts db' !! at_attempt_id a = Some row ∧ tr_status row = at_status a.
Proof.
  intros Ha. destruct (cf_saved _ _ _ _ _ _ _ _ K) as (d & Hs & Hl & _).
  assert (db_attempts db' = db_attempts d) as -> by (unfold ledger in Hl; congruence).
  unfold save_outcome in Hs. apply tx_bind_ok in Hs as ([] & s1 & _ & Hs).
  apply tx_bind_ok in Hs as ([] & s2 & H2 & H3). rewrite Ha in H2. cbn in H2.
  apply save_attempt_ok in H2 as [new S].
  assert (db_attempts d = db_attempts s2) as ->.
  { assert (tx_rel (same_part db_attempts) (save_opt save_approval (oc_approval o))) as R
      by (unfold save_opt; tx_frame).
    apply (R _ _ _ H3). }
  exists new. rewrite (as_store _ _ _ _ S). cbn. rewrite lookup_insert_eq. split; [done|].
  rewrite (as_new _ _ _ _ S). apply upserted_body.
Qed.

(** When a pending approval is denied, the attempt it was
    asked for is SKIPPED in the same transaction, and stays SKIPPED in every
    later store; the denial fails if the attempt has already started. *)
Lemma denied_never_runs cfg gate env c id by_ reason db r db1 db2 arow :
  reachable db → command_valid c = true → cm_body c = DecideApproval id false by_ reason →
  db_processed db !! sc_command_id (cm_head c) = None →
  db_approvals db !! id = Some arow → ap_status (pr_body arow) = AS_PENDING →
  apply cfg gate env c db = Ok (r, db1) → rtc gateway_step db1 db2 →
  ∃ row0 row, db_attempts db !! ap_attempt_id (pr_body arow) = Some row0 ∧
    tr_status row0 = OS_PREPARED ∧
    db_attempts db2 !! ap_attempt_id (pr_body arow) = Some row ∧ tr_status row = OS_SKIPPED.
Proof.
  intros Hr Hv Hb Hn Harow Hpend H Hs. destruct (reachable_states_ok _ Hr) as [Hwf _].
  apply apply_ok in H as [_ [(_ & row & Hp & _)|(state & o & dbx & F)]]; [congruence|].
  pose proof (fr_dispatch _ _ _ _ _ _ _ _ _ F) as Hd. unfold dispatch in Hd. rewrite Hb in Hd.
  unfold decide_approval in Hd.
  apply tx_bind_ok in Hd as (a & s1 & [(ar & Har & Hav & ->)%approval_in_ok ->]%tx_read_ok & Hd).
  rewrite Harow in Har. injection Har as <-.
  apply tx_bind_ok in Hd as ([] & s1 & [_ ->]%reject_ok & Hd).
  apply tx_bind_ok in Hd as ([] & s1 & [_ ->]%reject_ok & Hd).
  rewrite decide_True in Hd by done. unfold settle_approval in Hd.
  assert (nonempty (ap_attempt_id (pr_body arow)) = true) as Hne.
  { unfold DurableApproval_valid in Hav. rewrite !andb_true_iff in Hav. tauto. }
  cbn [negb ap_attempt_id upd] in Hd. rewrite Hne in Hd. cbn [andb] in Hd.
  apply tx_bind_ok in Hd as (p & s1 & [-> [old U]]%update_attempt_ok & Ho).
  apply tx_ret_ok in Ho as [<- <-].
  pose proof (au_old _ _ _ _ _ _ _ _ U) as Hold.
  apply attempt_in_ok in Hold as (r0 & Hr0 & _ & ->). cbn in Hr0.
  destruct (reachable_keyed _ Hr _ _ Hr0) as [Hid0 Hst0].
  pose proof (au_allowed _ _ _ _ _ _ _ _ U) as Hal. elem_cases Hal.
  pose proof (au_new _ _ _ _ _ _ _ _ U) as Hnew.
  assert (at_attempt_id p.2 = ap_attempt_id (pr_body arow) ∧ at_status p.2 = OS_SKIPPED) as [Hpi Hps]
    by (by rewrite Hnew).
  destruct (saved_attempt_row _ _ _ _ _ _ _ _ (fr_commit _ _ _ _ _ _ _ _ _ F) p.2 eq_refl)
    as (row1 & Hrow1 & Hst1).
  rewrite Hpi in Hrow1. rewrite Hps in Hst1.
  destruct (steps_grow _ _ Hs _ _ Hrow1) as (row2 & Hrow2 & _ & Hfin).
  exists r0, row2. split_and!; [done|congruence|done|].
  rewrite Hfin; [done|]. rewrite Hst1. unfold FINISHED_STATUSES. elem_here.
Qed.

(** ** Witnesses *)

Definition demo_retry : RecoveryDecisionCommand :=
  mkRecoveryDecisionCommand RA_RETRY (Some "op-1") "operator" "looked at it" None true.

Lemma demo_approval_row : ∃ row,
  db_approvals (demo 12) !! "approval-1" = Some row ∧ ap_status (pr_body row) = AS_PENDING.
Proof.
  destruct (demo_ok 12 ltac:(lia)) as [r F]. pose proof (df_extra _ _ F) as H. unfold demo_extra in H.
  destruct (db_approvals (demo 12) !! "approval-1") as [row|]; [|discriminate H].
  exists row. by apply bool_decide_eq_true in H.
Qed.

