(* ===== verification/Streams.v ===== *)
(** * Streams: the canonical events of a Run

    The events of a Run form a stream numbered from 1 without a gap; each
    command that commits appends exactly one event, in the same transaction,
    with one delivery for every enabled sink; an event is sanitized and carries
    the hashes of its own content. *)

From stdpp Require Import relations.
From S2P Require Import Prelude PyText PyTime Sanitizer Json AgentTypes AgentState Commands.
From S2P Require Import OperationReduce FinalizeEvidence Store Events Operations FinalizeOps.
From S2P Require Import Controller Frames Outcomes Apply Observations System Demo StatesInv.
From S2P Require Import Outbox OutboxFacts.
From S2P Require Import Lifecycle Records Replay Ledger.

#[local] Open Scope Z_scope.

(** ** Streams without gaps *)

Definition stream_length (run : string) (db : Db) : Z := default 0 (db_sequences db !! run).

Record streams_ok (db : Db) : Prop := {
  ss_bound : ∀ id r, db_events db !! id = Some r →
      1 ≤ er_stream_sequence r ≤ stream_length (er_stream_id r) db;
  ss_unique : ∀ i j r r', db_events db !! i = Some r → db_events db !! j = Some r' →
      er_stream_id r = er_stream_id r' → er_stream_sequence r = er_stream_sequence r' → i = j;
  ss_total : ∀ run k, 1 ≤ k ≤ stream_length run db →
      ∃ id r, db_events db !! id = Some r ∧ er_stream_id r = run ∧ er_stream_sequence r = k
}.

Lemma streams_ok_same db db' :
  db_events db' = db_events db → (∀ run, stream_length run db' = stream_length run db) →
  streams_ok db → streams_ok db'.
Proof.
  intros E El []. split; rewrite ?E; [|done|].
  - intros id r H. rewrite El. eauto.
  - intros run k. rewrite El. eauto.
Qed.

Lemma streams_ok_event now s ty p c k ca co db e db' :
  event_written now s ty p c k ca co db e db' → 0 ≤ stream_length (st_run_id s) db →
  streams_ok db → streams_ok db'.
Proof.
  intros W Hn H. set (run := st_run_id s) in *.
  assert (∀ r, stream_length r db' = if decide (r = run) then stream_length run db + 1
                                     else stream_length r db) as Hl.
  { intros r. unfold stream_length at 1. rewrite (ew_sequences _ _ _ _ _ _ _ _ _ _ _ W).
    fold run. case_decide as E; [subst r; by rewrite lookup_insert_eq|by rewrite lookup_insert_ne]. }
  pose proof (ew_events _ _ _ _ _ _ _ _ _ _ _ W) as He.
  assert (er_stream_id (event_row s e) = run ∧
          er_stream_sequence (event_row s e) = stream_length run db + 1) as [Hi Hs].
  { split; [done|]. cbn. by rewrite (ew_event _ _ _ _ _ _ _ _ _ _ _ W). }
  pose proof (ew_fresh_id _ _ _ _ _ _ _ _ _ _ _ W) as Hfresh.
  split.
  - intros id r. rewrite He, Hl. intros [[<- <-]|[_ Hr]]%lookup_insert_Some.
    + rewrite Hi, Hs, decide_True by done. lia.
    + pose proof (ss_bound _ H _ _ Hr). case_decide as E; [rewrite E in *|]; lia.
  - intros i j r r'. rewrite He.
    intros [[<- <-]|[Hi1 Hr]]%lookup_insert_Some [[<- <-]|[Hj Hr']]%lookup_insert_Some E1 E2.
    + done.
    + pose proof (ss_bound _ H _ _ Hr'). rewrite Hs, Hi in *. rewrite <- E1 in *. lia.
    + pose proof (ss_bound _ H _ _ Hr). rewrite Hs, Hi in *. rewrite E1 in *. lia.
    + by eapply (ss_unique _ H).
  - intros r n. rewrite Hl, He. case_decide as E; [subst r|].
    + intros Hk. destruct (decide (n = stream_length run db + 1)) as [->|Hne].
      * exists (ge_event_id e), (event_row s e). by rewrite lookup_insert_eq.
      * destruct (ss_total _ H run n) as (id & r & Hr & ? & ?); [lia|].
        exists id, r. rewrite lookup_insert_ne; [done|]. intros <-. congruence.
    + intros Hk. destruct (ss_total _ H r n Hk) as (id & w & Hr & ? & ?).
      exists id, w. rewrite lookup_insert_ne; [done|]. intros <-. congruence.
Qed.

Definition sequences_nonneg (db : Db) : Prop := ∀ run, 0 ≤ stream_length run db.

Lemma insert_sequence_ok run db u db' :
  insert_sequence run db = Ok (u, db') →
  db_sequences db !! run = None ∧ db' = db ⟪ db_sequences := <[run := 0]> (db_sequences db) ⟫.
Proof.
  unfold insert_sequence. intros (d & s1 & [-> ->]%tx_gets_ok & H)%tx_bind_ok.
  apply tx_bind_ok in H as ([] & ? & [Ha ->]%abort_if_ok & H). apply tx_modify_ok in H as ->.
  split; [|done]. by destruct (db_sequences db !! _).
Qed.

Lemma streams_keep db db' :
  db_events db' = db_events db → db_sequences db' = db_sequences db →
  keeps (λ db, sequences_nonneg db ∧ streams_ok db) db db'.
Proof.
  intros E1 E2 [Hn Hs]. assert (∀ r, stream_length r db' = stream_length r db) as E
    by (intros r; unfold stream_length; by rewrite E2).
  split; [intros r; rewrite E; apply Hn|apply (streams_ok_same db); [done|exact E|done]].
Qed.

Lemma streams_closed : closed (keeps (λ db, sequences_nonneg db ∧ streams_ok db)).
Proof.
  closed_by_same streams_keep.
  - intros n s ty p c k ca co Hpay db e db' He%write_event_ok [Hn Hs]. split.
    + intros run. unfold stream_length. rewrite (ew_sequences _ _ _ _ _ _ _ _ _ _ _ He).
      destruct (decide (run = st_run_id s)) as [->|Hne].
      * rewrite lookup_insert_eq. cbn. unfold next_sequence. pose proof (Hn (st_run_id s)) as Hx.
        unfold stream_length in Hx. lia.
      * rewrite lookup_insert_ne by done. apply Hn.
    + by eapply streams_ok_event.
  - intros run db u db' [Hnone ->]%insert_sequence_ok [Hn Hs].
    assert (∀ r, stream_length r (db ⟪ db_sequences := <[run := 0]> (db_sequences db) ⟫)
                 = stream_length r db) as E.
    { intros r. unfold stream_length. cbn. destruct (decide (r = run)) as [->|Hne].
      - by rewrite lookup_insert_eq, Hnone.
      - by rewrite lookup_insert_ne. }
    split; [intros r; rewrite E; apply Hn|apply (streams_ok_same db); [done|exact E|done]].
Qed.

Lemma reachable_streams db : reachable db → sequences_nonneg db ∧ streams_ok db.
Proof.
  apply (reachable_keeps (λ db, sequences_nonneg db ∧ streams_ok db) streams_closed).
  intros d (sinks & gens & ->). split.
  - intros run. unfold stream_length. cbn. by rewrite lookup_empty.
  - split; cbn.
    + intros id r H. by rewrite lookup_empty in H.
    + intros i j r r' H. by rewrite lookup_empty in H.
    + intros run k. unfold stream_length. cbn. rewrite lookup_empty. cbn. lia.
Qed.

(** ** The content of an event *)

(** The row is the canonical form of a sanitized envelope, with its hashes. *)
Definition event_sound (id : string) (r : EventRow) : Prop :=
  ∃ e, ge_event_id e = id ∧ Envelope_valid e = true ∧
    no_secrets (JObj (ge_payload e)) = true ∧ json_wf (JObj (ge_payload e)) = true ∧
    ge_payload_hash e = Some (sha256_hex (canonical_json (JObj (ge_payload e)))) ∧
    er_payload_hash r = sha256_hex (canonical_json (JObj (ge_payload e))) ∧
    er_canonical_event_json r = Some (canonical_json (envelope_json e)) ∧
    er_canonical_hash r = sha256_hex (canonical_json (envelope_json e)) ∧
    er_stream_id r = er_run_id r ∧ ge_run_id e = Some (er_run_id r) ∧
    ge_stream_sequence e = Some (er_stream_sequence r) ∧ er_event_type r = ge_type e ∧
    ge_version e = 2 ∧ ge_stream_id e = Some (er_stream_id r) ∧
    ∃ key, id = sha256_hex key.

Definition events_sound (db : Db) : Prop := ∀ id r, db_events db !! id = Some r → event_sound id r.

Lemma no_secrets_sanitize_dict d : no_secrets (JObj (sanitize_dict d)) = true.
Proof. rewrite <- sanitize_JObj. apply sanitize_no_secrets. Qed.

Lemma event_row_sound now s ty p c k ca co db e db' :
  json_wf (JObj p) = true → event_written now s ty p c k ca co db e db' →
  event_sound (ge_event_id e) (event_row s e).
Proof.
  intros Hp W. exists e. split; [done|]. split; [apply (ew_valid _ _ _ _ _ _ _ _ _ _ _ W)|].
  rewrite (ew_event _ _ _ _ _ _ _ _ _ _ _ W).
  split; [apply no_secrets_sanitize_dict|]. split; [apply sanitize_wf in Hp; by rewrite sanitize_JObj in Hp|].
  split_and!; try done. by eexists.
Qed.

Lemma events_sound_closed : closed (keeps events_sound).
Proof.
  closed_by_frame.
  intros n s ty p c k ca co Hpay db e db' W%write_event_ok Hs id r.
  rewrite (ew_events _ _ _ _ _ _ _ _ _ _ _ W).
  intros [[<- <-]|[_ H]]%lookup_insert_Some; [by eapply event_row_sound|by apply (Hs id r)].
Qed.

Lemma reachable_events db : reachable db → events_sound db.
Proof.
  revert db. apply reachable_keeps; [apply events_sound_closed|].
  intros d (sinks & gens & ->) i w H. cbn in H. by rewrite lookup_empty in H.
Qed.

(** ** The outbox *)

(** Every delivery belongs to an outbox row. *)
Definition deliveries_owned (db : Db) : Prop :=
  ∀ k v, db_deliveries db !! k = Some v → is_some (db_outbox db !! dl_outbox_id v) = true.

Lemma deliveries_owned_event now s ty p c k ca co db e db' :
  event_written now s ty p c k ca co db e db' → deliveries_owned db → deliveries_owned db'.
Proof.
  intros W Hd i v Hv. set (o := outbox_id_of (ge_event_id e)) in *.
  assert (dl_outbox_id v = o ∨ is_some (db_outbox db !! dl_outbox_id v) = true) as [->|Hx].
  { destruct (da_only _ _ _ _ _ (ew_deliveries _ _ _ _ _ _ _ _ _ _ _ W) i v Hv)
      as [H|(id & sk & _ & _ & ->)]; [right; by apply (Hd i v)|by left]. }
  - rewrite (ew_outbox _ _ _ _ _ _ _ _ _ _ _ W). fold o. rewrite lookup_insert_eq. done.
  - rewrite (ew_outbox _ _ _ _ _ _ _ _ _ _ _ W). fold o.
    destruct (decide (dl_outbox_id v = o)) as [->|Hne];
      [by rewrite lookup_insert_eq|by rewrite lookup_insert_ne].
Qed.

Lemma deliveries_owned_closed : closed (keeps deliveries_owned).
Proof.
  closed_by_frame.
  - intros n s ty p c k ca co Hpay db e db' W%write_event_ok Hd.
    exact (deliveries_owned_event _ _ _ _ _ _ _ _ _ _ _ W Hd).
  - intros db db' [Hm Ho]%dispatcher_moves Hd k v' Hv'.
    destruct (rows_move_bwd _ _ _ _ _ Hm Hv') as (v & Hv & Hmv).
    assert (dl_outbox_id v' = dl_outbox_id v) as ->
      by (destruct Hmv as [->|(Hf & _)]; [done|unfold frozen in Hf; congruence]).
    specialize (Hd k v Hv). destruct (db_outbox db !! dl_outbox_id v) as [o|] eqn:E; [|done].
    by destruct (rows_move_fwd _ _ _ _ _ Ho E) as (o' & -> & _).
Qed.

Lemma elem_of_enabled db sid s :
  (sid, s) ∈ enabled_sinks db ↔ db_sinks db !! sid = Some s ∧ sk_enabled s = true.
Proof.
  unfold enabled_sinks. rewrite merge_sort_Permutation, list_elem_of_filter, elem_of_map_to_list.
  cbn. tauto.
Qed.

(** ** Claims *)

(** C9: in every reachable store the events of a Run are
    numbered 1 to n, each number exactly once, where n is the value of its row
    of event_sequences. *)
Theorem stream_contiguous db run k :
  reachable db →
  (1 ≤ k ≤ stream_length run db ↔
   ∃ id r, db_events db !! id = Some r ∧ er_stream_id r = run ∧ er_stream_sequence r = k) ∧
  ∀ i j r r', db_events db !! i = Some r → db_events db !! j = Some r' →
    er_stream_id r = er_stream_id r' → er_stream_sequence r = er_stream_sequence r' → i = j.
Proof.
  intros [_ H]%reachable_streams. split; [|apply H]. split; [apply H|].
  intros (id & r & Hr & <- & <-). by apply (ss_bound _ H id).
Qed.

(** Every stored event is the canonical JSON of a sanitized
    envelope of its stream, with no value left under a sensitive key at any
    depth of its payload, and its two hashes are the SHA-256 of that payload
    and of that JSON. *)
Lemma event_integrity db id r :
  reachable db → db_events db !! id = Some r → event_sound id r.
Proof. intros Hr. by apply reachable_events. Qed.

(** A command that commits for the first time appends
    exactly one event, whose id it returns: of the Run's stream, with the next
    number, the command's id and the type of the command; it changes no other
    event and no other stream. *)
Lemma one_event_per_command cfg gate env c db r db' :
  reachable db → db_processed db !! sc_command_id (cm_head c) = None →
  apply cfg gate env c db = Ok (r, db') →
  let run := sc_run_id (cm_head c) in
  ∃ id row, ar_event_id r = Some id ∧ db_events db !! id = None ∧
    db_events db' = <[id := row]> (db_events db) ∧
    er_stream_id row = run ∧ er_stream_sequence row = stream_length run db + 1 ∧
    er_event_type row = event_type c ∧
    (sc_command_id (cm_head c) ≠ "" → er_command_id row = Some (sc_command_id (cm_head c))) ∧
    db_sequences db' = <[run := stream_length run db + 1]> (db_sequences db).
Proof.
  intros Hr Hn H run. destruct (reachable_states_ok _ Hr) as [Hwf _].
  apply apply_ok in H as [_ [(_ & row & Hp & _)|(state & o & db1 & F)]]; [congruence|].
  destruct (fresh_stepped _ _ _ _ _ _ _ _ _ Hwf F) as (srow & <- & S).
  pose proof (dispatch_committed _ _ _ _ _ _ _ (fr_dispatch _ _ _ _ _ _ _ _ _ F)) as Hc.
  apply committed_same in Hc as (_ & _ & _ & _ & _ & Csq & Ce & _).
  destruct (cf_event _ _ _ _ _ _ _ _ (fr_commit _ _ _ _ _ _ _ _ _ F))
    as (e & d1 & d2 & W & E1 & E2 & E3 & E4 & Er).
  assert (st_run_id (oc_state o) = run) as Hrun.
  { pose proof (sp_identity _ _ _ _ _ _ _ S) as Hid. unfold identity in Hid.
    injection Hid as _ -> _. apply (sp_run _ _ _ _ _ _ _ S). }
  pose proof (ew_event _ _ _ _ _ _ _ _ _ _ _ W) as He.
  exists (ge_event_id e), (event_row (next_state env (oc_state o)) e). split_and!.
  - by rewrite Er.
  - rewrite <- Ce, <- E2. apply (ew_fresh_id _ _ _ _ _ _ _ _ _ _ _ W).
  - rewrite E4, (ew_events _ _ _ _ _ _ _ _ _ _ _ W), E2, Ce. done.
  - exact Hrun.
  - cbn. rewrite He. cbn. unfold next_sequence, stream_length. by rewrite E1, Csq, Hrun.
  - cbn. by rewrite He.
  - intros Hne. cbn. rewrite He. cbn. by rewrite bool_decide_false.
  - rewrite E3, (ew_sequences _ _ _ _ _ _ _ _ _ _ _ W), E1, Csq. cbn. rewrite Hrun.
    unfold next_sequence, stream_length. by rewrite E1, Csq.
Qed.

(** The transaction that commits a command also writes
    the outbox row of its event and, for every enabled sink and no other, one
    PENDING delivery with the policy of the sink at that moment; the outbox row
    is complete at once exactly when no enabled sink is required. *)
Lemma transactional_outbox cfg gate env c db r db' :
  reachable db → db_processed db !! sc_command_id (cm_head c) = None →
  apply cfg gate env c db = Ok (r, db') →
  ∃ eid row, ar_event_id r = Some eid ∧
    db_outbox db' !! outbox_id_of eid = Some row ∧ ox_event_id row = eid ∧
    (∀ sid s, db_sinks db !! sid = Some s → sk_enabled s = true →
       db_deliveries db' !! delivery_id_of eid sid
         = Some (delivery_snapshot (outbox_id_of eid) eid sid s)) ∧
    (∀ k d, db_deliveries db' !! k = Some d → dl_outbox_id d = outbox_id_of eid →
       ∃ sid s, db_sinks db !! sid = Some s ∧ sk_enabled s = true ∧
                d = delivery_snapshot (outbox_id_of eid) eid sid s) ∧
    (ox_completed_at row = None ↔
       ∃ sid s, db_sinks db !! sid = Some s ∧ sk_enabled s = true ∧ sk_required_by_default s = true).
Proof.
  intros Hr Hn H.
  apply apply_ok in H as [_ [(_ & row & Hp & _)|(state & o & db1 & F)]]; [congruence|].
  pose proof (dispatch_committed _ _ _ _ _ _ _ (fr_dispatch _ _ _ _ _ _ _ _ _ F)) as Hc.
  assert (db_outbox db1 = db_outbox db ∧ db_deliveries db1 = db_deliveries db ∧
          db_sinks db1 = db_sinks db) as (Eo & Ed & Es)
    by (unfold same_part, committed in Hc; by injection Hc).
  destruct (cf_outbox _ _ _ _ _ _ _ _ (fr_commit _ _ _ _ _ _ _ _ _ F))
    as (now & st & ty & p & ci & k & ca & co & e & d1 & d2 & He & W & E1 & E2).
  injection E1 as E1o E1d E1s. injection E2 as E2o E2d.
  assert (deliveries_owned d1) as Hown.
  { intros i v. rewrite E1d, E1o, Ed, Eo. revert i v. change (deliveries_owned db). revert Hr.
    apply reachable_keeps; [apply deliveries_owned_closed|].
    intros d (sinks & gens & ->) i v Hx. cbn in Hx. by rewrite lookup_empty in Hx. }
  set (eid := ge_event_id e) in *. set (oid := outbox_id_of eid).
  pose proof (ew_deliveries _ _ _ _ _ _ _ _ _ _ _ W) as [_ Hsink Honly].
  pose proof (ew_outbox _ _ _ _ _ _ _ _ _ _ _ W) as Hout.
  pose proof (ew_fresh_outbox _ _ _ _ _ _ _ _ _ _ _ W) as Hfresh. fold eid oid in Hsink, Honly, Hout, Hfresh.
  assert (∀ sid s, (sid, s) ∈ enabled_sinks d1 ↔ db_sinks db !! sid = Some s ∧ sk_enabled s = true)
    as Hen by (intros; by rewrite elem_of_enabled, E1s, Es).
  assert (∀ k d, db_deliveries d2 !! k = Some d → dl_outbox_id d = oid →
    ∃ sid s, db_sinks db !! sid = Some s ∧ sk_enabled s = true ∧ d = delivery_snapshot oid eid sid s)
    as Hfrom.
  { intros i d Hd Ho. destruct (Honly i d Hd) as [Hx|(sid & s & [??]%Hen & _ & ->)]; [|by exists sid, s].
    pose proof (Hown i d Hx) as Hy. by rewrite Ho, Hfresh in Hy. }
  exists eid. eexists. split; [done|]. rewrite E2o, E2d, Hout, lookup_insert_eq.
  split; [done|]. split; [by case_match|]. split_and!.
  - intros sid s H1 H2. by apply Hsink, Hen.
  - exact Hfrom.
  - destruct (has_required oid (db_deliveries d2)) eqn:Hreq; cbn; (split; [intros Hx|intros Hx]).
    + apply anyrow_true in Hreq as (i & d & Hd & Hp).
      apply andb_true_iff in Hp as [Ho%bool_decide_eq_true Hp].
      destruct (Hfrom i d Hd Ho) as (sid & s & H1 & H2 & ->). by exists sid, s.
    + done.
    + done.
    + destruct Hx as (sid & s & H1 & H2 & H3). exfalso.
      assert ((sid, s) ∈ enabled_sinks d1) as Hin by (by apply Hen).
      pose proof (proj1 (anyrow_false _ _) Hreq _ _ (Hsink _ _ Hin)) as Hz. cbn in Hz.
      by rewrite bool_decide_true, H3 in Hz.
Qed.

(** ** Witnesses *)

Lemma demo_length : stream_length "run-1" (demo 3) = 4.
Proof. vm_cast_no_check (@eq_refl Z 4). Qed.

Lemma stream_contiguous_witness : stream_length "run-1" (demo 3) = 4 ∧
  ∃ id r, db_events (demo 3) !! id = Some r ∧ er_stream_sequence r = 2.
Proof.
  split; [exact demo_length|].
  destruct (stream_contiguous (demo 3) "run-1" 2 (demo_reachable 3)) as [[H _] _].
  rewrite demo_length in H. destruct (H ltac:(lia)) as (id & r & Hr & _ & E).
  exists id, r. split; [exact Hr|exact E].
Defined.

Lemma demo_event : ∃ id row, db_events (demo 3) !! id = Some row.
Proof.
  destruct (demo_ok 3 ltac:(lia)) as [r F].
  destruct (apply_ok _ _ _ _ _ _ _ (df_apply _ _ F)) as [_ [(_ & row & Hp & _)|(st & o & d & R)]].
  - pose proof (df_new _ _ F) as Hn. congruence.
  - destruct (cf_event _ _ _ _ _ _ _ _ (fr_commit _ _ _ _ _ _ _ _ _ R))
      as (e & d1 & d2 & W & _ & _ & _ & E & _).
    exists (ge_event_id e), (event_row (next_state (demo_env 3) (oc_state o)) e).
    rewrite E, (ew_events _ _ _ _ _ _ _ _ _ _ _ W). apply lookup_insert_eq.
Qed.

