(* ===== verification/ReadBack.v ===== *)
(** * ReadBack: what the controller writes, the event store reads

    The write path of the events (Events.v, Controller.v) against their read
    path (EventStore.v): an event that [_write_event] wrote is read back as it
    was written after any further writes, and a stream is read whole and in
    order. *)

From stdpp Require Import relations.
From S2P Require Import Prelude PyText PyTime Sanitizer Json AgentTypes AgentState Commands.
From S2P Require Import OperationReduce FinalizeEvidence Store Events EventStore Codec Operations FinalizeOps.
From S2P Require Import Controller Frames Outcomes Apply Observations Outbox OutboxFacts.
From S2P Require Import System Demo StatesInv Lifecycle Records Replay Ledger Streams.

#[local] Open Scope Z_scope.

(** ** One event *)

(** The row keeps the canonical text of the envelope, its hash, and its place. *)
Record row_of (id : string) (r : EventRow) (e : GatewayEventEnvelope) : Prop := {
  rf_id : ge_event_id e = id;
  rf_valid : Envelope_valid e = true;
  rf_payload : json_wf (JObj (ge_payload e)) = true;
  rf_text : er_canonical_event_json r = Some (canonical_json (envelope_json e));
  rf_hash : er_canonical_hash r = sha256_text (canonical_json (envelope_json e));
  rf_run : ge_run_id e = Some (er_stream_id r);
  rf_stream : ge_stream_id e = Some (er_stream_id r);
  rf_sequence : ge_stream_sequence e = Some (er_stream_sequence r);
  rf_version : ge_version e = 2
}.

Lemma read_row_of id r e db :
  row_of id r e →
  read_row id r db = Ok (mkCanonicalEventRecord id (er_stream_id r) (er_stream_sequence r)
    (canonical_json (envelope_json e)) (sha256_text (canonical_json (envelope_json e)))).
Proof.
  intros [Hid Hv Hp Ht Hh Hrun Hst Hseq Hver]. unfold read_row. rewrite Ht. unfold validate_row, mbind, res_bind, mret, res_ret.
  rewrite decide_False by (intros Hn; apply Hn; by rewrite Hh).
  rewrite (parse_canonical_dumps e Hp Hv). rewrite decide_True; [done|].
  unfold envelope_stream, envelope_sequence. cbn. rewrite Hseq, Hst. split; [done|]. split.
  - case_decide; [|done]. by rewrite Hrun.
  - destruct (er_stream_sequence r =? 0) eqn:E; [|done]. cbn in *.
    unfold Envelope_valid in Hv. rewrite Hseq in Hv. cbn in Hv. rewrite !andb_true_iff in Hv. lia.
Qed.

Lemma event_sound_row id r : event_sound id r → ∃ e, row_of id r e ∧ hex64 id = true.
Proof.
  intros (e & He & Hv & _ & Hwf & _ & _ & Hraw & Hhash & Hstream & Hrun & Hseq & _ & Hver & Hsid & key & Hkey).
  rewrite <- Hstream in Hrun. exists e. split; [by split|]. rewrite Hkey. apply sha256_hex_hex64.
Qed.

Lemma read_sound id r db :
  event_sound id r →
  ∃ e raw, er_canonical_event_json r = Some raw ∧ er_canonical_hash r = sha256_text raw ∧
    raw = canonical_json (envelope_json e) ∧ ge_run_id e = Some (er_stream_id r) ∧ hex64 id = true ∧
    json_wf (JObj (ge_payload e)) = true ∧ Envelope_valid e = true ∧ ge_version e = 2 ∧
    ge_event_id e = id ∧ ge_stream_sequence e = Some (er_stream_sequence r) ∧
    read_row id r db = Ok (mkCanonicalEventRecord id (er_stream_id r) (er_stream_sequence r) raw (sha256_text raw)).
Proof.
  intros (e & R & Hx)%event_sound_row. exists e, (canonical_json (envelope_json e)).
  rewrite (read_row_of _ _ _ db R). by destruct R.
Qed.

Lemma read_reachable db id r :
  reachable db → db_events db !! id = Some r →
  ∃ record, read_row id r db = Ok record ∧ ce_event_id record = id ∧
    ce_stream_sequence record = er_stream_sequence r.
Proof.
  intros Hr Hi. destruct (read_sound id r db (reachable_events _ Hr _ _ Hi)) as (e & raw & H).
  eexists. split; [apply H|done].
Qed.

(** ** A stream *)

Lemma seqZ_sorted n : ∀ a, StronglySorted Z.le (seqZ a (Z.of_nat n)).
Proof.
  induction n as [|n IH]; intros a; [by rewrite seqZ_nil by lia; constructor|].
  rewrite seqZ_cons by lia. replace (Z.pred (Z.of_nat (S n))) with (Z.of_nat n) by lia. constructor; [apply IH|].
  apply Forall_seqZ. lia.
Qed.

Lemma sorted_seqs (l : list Z) a n :
  0 ≤ n → Sorted Z.le l → NoDup l → (∀ k, k ∈ l ↔ a ≤ k < a + n) → l = seqZ a n.
Proof.
  intros H0 Hs Hn Hk. assert (AntiSymm (=) Z.le) by (intros ? ? ? ?; lia).
  apply (StronglySorted_unique Z.le).
  - apply Sorted_StronglySorted; [intros ? ? ?; lia|done].
  - rewrite <- (Z2Nat.id n) by done. apply seqZ_sorted.
  - apply NoDup_Permutation; [done|apply NoDup_seqZ|]. intros k. by rewrite Hk, elem_of_seqZ.
Qed.

Definition row_sequence (kv : string * EventRow) : Z := er_stream_sequence kv.2.

Lemma elem_of_stream run after db kv :
  kv ∈ stream_events run after None db ↔
  db_events db !! kv.1 = Some kv.2 ∧ er_stream_id kv.2 = run ∧ after < row_sequence kv.
Proof.
  unfold stream_events. rewrite merge_sort_Permutation, list_elem_of_filter.
  destruct kv as [id r]. rewrite elem_of_map_to_list. unfold row_sequence. cbn. tauto.
Qed.

Lemma stream_sequences run after db :
  streams_ok db → 0 ≤ after ≤ stream_length run db →
  map row_sequence (stream_events run after None db) = seqZ (after + 1) (stream_length run db - after).
Proof.
  intros S Ha. apply sorted_seqs; [lia| | |].
  - apply (Sorted_fmap row_sequence row_le); [done|]. apply Sorted_merge_sort. apply _.
  - apply NoDup_fmap_2_strong.
    + intros [i r] [j r'] H1%elem_of_stream H2%elem_of_stream E. cbn in *.
      destruct H1 as (H1 & E1 & _), H2 as (H2 & E2 & _).
      assert (i = j) as <- by (apply (ss_unique _ S i j r r'); [done|done|congruence|exact E]). congruence.
    + unfold stream_events. rewrite merge_sort_Permutation. apply NoDup_filter, NoDup_map_to_list.
  - intros k. rewrite list_elem_of_fmap. split.
    + intros (kv & -> & (H & Hr & Hk)%elem_of_stream). pose proof (ss_bound _ S _ _ H). rewrite Hr in *.
      unfold row_sequence in *. lia.
    + intros Hk. destruct (ss_total _ S run k ltac:(lia)) as (id & r & H & Hr & Hs).
      exists (id, r). split; [done|]. apply elem_of_stream. unfold row_sequence. cbn. split_and!; [done..|lia].
Qed.

Lemma read_rows_ok db rows : ∀ previous n,
  map row_sequence rows = seqZ (previous + 1) n →
  (∀ kv, kv ∈ rows → ∃ record, read_row kv.1 kv.2 db = Ok record ∧
     ce_event_id record = kv.1 ∧ ce_stream_sequence record = row_sequence kv) →
  ∃ records, read_rows rows previous db = Ok records ∧
    Forall2 (λ kv record, read_row kv.1 kv.2 db = Ok record) rows records ∧
    map ce_event_id records = rows.*1 ∧ map ce_stream_sequence records = map row_sequence rows.
Proof.
  induction rows as [|[id r] rows IH]; intros previous n Hn Hrow; [by exists []|].
  destruct (Hrow (id, r) ltac:(left)) as (record & Hrd & Hid & Hsq). cbn in Hrd, Hid.
  destruct (decide (0 < n)) as [Hp|]; [|by rewrite seqZ_nil in Hn by lia].
  rewrite seqZ_cons in Hn by done. cbn [map] in Hn. injection Hn as Hh Ht.
  destruct (IH (previous + 1) (Z.pred n)) as (records & Hrs & Hf & Hi & Hs).
  { by rewrite Ht. } { intros kv Hk. apply Hrow. by right. }
  exists (record :: records). cbn [read_rows]. rewrite Hrd. unfold mbind, res_bind, mret, res_ret.
  rewrite Hsq, Hh. rewrite (proj2 (Z.leb_gt _ _)) by lia. rewrite Hrs.
  split; [done|]. split; [by constructor|]. cbn. by rewrite Hid, Hi, Hsq, Hh, Hs.
Qed.

Lemma stream_records db run after :
  reachable db → 0 ≤ after ≤ stream_length run db →
  ∃ records, read_stream run after None db = Ok records ∧
    Forall2 (λ kv record, read_row kv.1 kv.2 db = Ok record) (stream_events run after None db) records ∧
    map ce_event_id records = (stream_events run after None db).*1 ∧
    map ce_stream_sequence records = seqZ (after + 1) (stream_length run db - after).
Proof.
  intros Hr Ha. destruct (reachable_streams _ Hr) as [_ S].
  rewrite <- (stream_sequences run after db S Ha).
  apply (read_rows_ok db _ after (stream_length run db - after)); [by apply stream_sequences|].
  intros [id r] (H & _)%elem_of_stream. by apply read_reachable.
Qed.

(** ** What a read returns *)

Lemma normal_envelope_text e :
  json_wf (JObj (ge_payload e)) = true →
  canonical_json (envelope_json (normal_envelope e)) = canonical_json (envelope_json e).
Proof.
  intros Hp. unfold canonical_json. apply dumps_eq.
  - apply (envelope_json_wf (normal_envelope e)). change (ge_payload (normal_envelope e)) with (sort_fields (ge_payload e)).
    rewrite <- json_sort_JObj. by apply json_sort_wf.
  - by apply envelope_json_wf.
  - change (envelope_json ?x) with (JObj (envelope_fields x)). rewrite !json_sort_JObj. unfold sort_fields.
    do 2 f_equal. unfold envelope_fields, envelope_json. cbn [map].
    repeat lazymatch goal with |- ?x :: _ = ?y :: _ => f_equal end; try reflexivity.
    apply (f_equal (pair "payload")). change (json_sort (JObj (sort_fields (ge_payload e))) = json_sort (JObj (ge_payload e))).
    by rewrite <- json_sort_JObj, json_sort_idem.
Qed.

Lemma evidence_of_valid j e : evidence_of j = Some e → Evidence_valid e = true.
Proof.
  unfold evidence_of. intros (d & _ & (k & _ & (x & _ & H)%bind_Some)%bind_Some)%bind_Some.
  destruct (Evidence_valid x) eqn:E; congruence.
Qed.

Lemma decode_valid s e : decode s = Ok e → Evidence_valid e = true.
Proof.
  unfold decode. destruct (json_loads s ≫= evidence_of) as [x|] eqn:E; [|done]. intros [= <-].
  apply bind_Some in E as (j & _ & E). by eapply evidence_of_valid.
Qed.

Lemma elem_of_stream_rows run db r :
  r ∈ stream_rows run db ↔ ∃ id, db_events db !! id = Some r ∧ er_stream_id r = run.
Proof.
  unfold stream_rows. rewrite list_elem_of_filter, list_elem_of_fmap. split.
  - intros [E ([id x] & -> & H%elem_of_map_to_list)]. by exists id.
  - intros (id & H & E). split; [done|]. exists (id, r). by rewrite elem_of_map_to_list.
Qed.

Lemma foldr_max_spec (l : list EventRow) n :
  0 ≤ n → (∀ r, r ∈ l → er_stream_sequence r ≤ n) →
  (n = 0 ∨ ∃ r, r ∈ l ∧ er_stream_sequence r = n) →
  foldr (λ r, Z.max (er_stream_sequence r)) 0 l = n.
Proof.
  intros Hn Hle Hex. assert (foldr (λ r, Z.max (er_stream_sequence r)) 0 l ≤ n) as H1.
  { clear Hex. induction l as [|x l IH]; [done|]. cbn. pose proof (Hle x ltac:(left)).
    assert (∀ r, r ∈ l → er_stream_sequence r ≤ n) as Hl by (intros r Hr; apply Hle; by right).
    specialize (IH Hl). lia. }
  assert (∀ r, r ∈ l → er_stream_sequence r ≤ foldr (λ r, Z.max (er_stream_sequence r)) 0 l) as H2.
  { clear. induction l as [|x l IH]; intros r Hr; [by apply not_elem_of_nil in Hr|].
    apply elem_of_cons in Hr as [->|Hr]; cbn; [lia|]. specialize (IH r Hr). lia. }
  assert (0 ≤ foldr (λ r, Z.max (er_stream_sequence r)) 0 l) as H3 by (clear; induction l; cbn; lia).
  destruct Hex as [->|(r & Hr & <-)]; [lia|]. specialize (H2 r Hr). lia.
Qed.

Lemma max_sequence_length run db : streams_ok db → sequences_nonneg db → max_sequence run db = stream_length run db.
Proof.
  intros S Hn. unfold max_sequence. apply foldr_max_spec; [apply Hn|..].
  - intros r (id & H & <-)%elem_of_stream_rows. by apply (ss_bound _ S id).
  - destruct (decide (stream_length run db = 0)) as [->|Hp]; [by left|]. right.
    destruct (ss_total _ S run (stream_length run db)) as (id & r & H & E & Es); [specialize (Hn run); lia|].
    exists r. split; [|done]. apply elem_of_stream_rows. by exists id.
Qed.

Lemma read_rows_take db rows : ∀ previous n records,
  read_rows rows previous db = Ok records → read_rows (take n rows) previous db = Ok (take n records).
Proof.
  induction rows as [|[id r] rows IH]; intros previous n records H.
  - cbn in H. injection H as <-. by rewrite !take_nil.
  - destruct n as [|n]; [done|]. cbn [take read_rows] in *. unfold mbind, res_bind, mret, res_ret in *.
    destruct (read_row id r db) as [record|]; [|done]. destruct (_ <=? _); [done|].
    destruct (read_rows rows _ db) as [l|] eqn:E; [|done]. injection H as <-.
    by rewrite (IH _ n _ E).
Qed.

(** ** What is written later

    The statements that the transactions of the controller and the dispatcher
    are made of.  Any part of a transaction, and any sequence of transactions,
    is a sequence of these. *)
Inductive write_step : Db → Db → Prop :=
| ws_operation o u db db' : save_operation o db = Ok (u, db') → write_step db db'
| ws_attempt a u db db' : save_attempt a db = Ok (u, db') → write_step db db'
| ws_insert_approval a t u db db' : insert_approval a t db = Ok (u, db') → write_step db db'
| ws_approval a u db db' : save_approval a db = Ok (u, db') → write_step db db'
| ws_decision i r u db db' : insert_decision i r db = Ok (u, db') → write_step db db'
| ws_generation r u db db' : insert_finalize_generation r db = Ok (u, db') → write_step db db'
| ws_invalidation i r u db db' : insert_invalidation i r db = Ok (u, db') → write_step db db'
| ws_receipt i r u db db' : insert_receipt i r db = Ok (u, db') → write_step db db'
| ws_current_receipt i r t u db db' : set_current_receipt i r t db = Ok (u, db') → write_step db db'
| ws_inbox i r u db db' : insert_inbox i r db = Ok (u, db') → write_step db db'
| ws_transition i r u db db' : insert_transition i r db = Ok (u, db') → write_step db db'
| ws_processed i r u db db' : insert_processed i r db = Ok (u, db') → write_step db db'
| ws_state s r u db db' : update_state s r db = Ok (u, db') → write_step db db'
| ws_new_state s u db db' : insert_state s db = Ok (u, db') → write_step db db'
| ws_projection s u db db' : update_run_projection s db = Ok (u, db') → write_step db db'
| ws_event n s ty p c k ca co e db db' :
    json_wf (JObj p) = true → write_event n s ty p c k ca co db = Ok (e, db') → write_step db db'
| ws_run id r u db db' : insert_run id r db = Ok (u, db') → write_step db db'
| ws_sequence id u db db' : insert_sequence id db = Ok (u, db') → write_step db db'
| ws_idempotency db t : write_step db (db ⟪ db_idempotency := t ⟫)
| ws_references db t : write_step db (db ⟪ db_generation_refs := t ⟫)
| ws_observation db t : write_step db (db ⟪ db_observations := t ⟫)
| ws_dispatcher db db' : dispatcher_step db db' → write_step db db'.

Lemma write_steps_closed : closed (rtc write_step).
Proof.
  split; [split; [intros x; apply rtc_refl|intros x y z; apply rtc_trans]|..].
  all: try (intros; intros db x db' Hw; apply rtc_once; econstructor; eassumption).
  all: intros; apply rtc_once; by constructor.
Qed.

Lemma write_step_rel R : closed R → ∀ db db', write_step db db' → R db db'.
Proof.
  intros C db db' Hs. destruct C, Hs; auto;
    match goal with K : context [tx_rel R _], H : _ = Ok (_, _) |- _ => solve [eapply K; eassumption] end.
Qed.

Lemma write_steps_rel R : closed R → ∀ db db', rtc write_step db db' → R db db'.
Proof.
  intros C db db' Hs. pose proof (cl_preorder R C). induction Hs as [x|x y z Hxy _ IH]; [reflexivity|].
  etrans; [|exact IH]. by apply write_step_rel.
Qed.

Lemma transaction_writes db db' : rtc gateway_step db db' → rtc write_step db db'.
Proof.
  induction 1 as [|x y z Hxy _ IH]; [apply rtc_refl|]. etrans; [|exact IH].
  apply (gateway_step_rel _ write_steps_closed _ _ Hxy).
Qed.

Definition events_kept (db db' : Db) : Prop :=
  ∀ id r, db_events db !! id = Some r → db_events db' !! id = Some r.
#[export] Instance events_kept_preorder : PreOrder events_kept.
Proof. split; [by intros ???|]. intros x y z H1 H2 id r H. by apply H2, H1. Qed.
Lemma events_kept_closed : closed events_kept.
Proof.
  assert (∀ db db', db_events db' = db_events db → events_kept db db') as Hsame by (by intros db db' E id r; rewrite E).
  closed_by_same Hsame.
  intros n s ty p c k ca co Hpay db e db' W%write_event_ok id r H.
  rewrite (ew_events _ _ _ _ _ _ _ _ _ _ _ W), lookup_insert_ne; [done|].
  intros <-. by rewrite (ew_fresh_id _ _ _ _ _ _ _ _ _ _ _ W) in H.
Qed.

Lemma written_row now s ty p c k ca co db e db' :
  json_wf (JObj p) = true → event_written now s ty p c k ca co db e db' →
  row_of (ge_event_id e) (event_row s e) e.
Proof.
  intros Hp W. pose proof (ew_valid _ _ _ _ _ _ _ _ _ _ _ W) as Hv. rewrite (ew_event _ _ _ _ _ _ _ _ _ _ _ W) in *.
  split; try done. apply sanitize_wf in Hp. by rewrite sanitize_JObj in Hp.
Qed.

(** ** Claims *)

(** C12: an event that is written is read back.  When [_write_event] has
    inserted the envelope [e] into its stream, then after whatever the rest of
    the transaction and later transactions write, [read_canonical] finds it
    under its id, with the stream and the number it was given, verifies its
    hash and identity, and returns the canonical text of [e]; the envelope
    parsed from the text is [e] with the keys of its payload sorted, and its
    canonical text is the same.  (Moving the event to an archive is not among
    these writes; that it changes no read is a property of its own.) *)
Theorem event_read_back now s type payload command_id key causation correlation db e db1 db2 :
  json_wf (JObj payload) = true →
  write_event now s type payload command_id key causation correlation db = Ok (e, db1) →
  rtc write_step db1 db2 →
  let text := canonical_json (envelope_json e) in
  ∃ record, read_canonical (ge_event_id e) db2 = Ok record ∧
    record = mkCanonicalEventRecord (ge_event_id e) (st_run_id s) (next_sequence (st_run_id s) db) text (sha256_text text) ∧
    envelope record = Ok (normal_envelope e) ∧
    canonical_json (envelope_json (normal_envelope e)) = text.
Proof.
  intros Hp W%write_event_ok Hs text. pose proof (written_row _ _ _ _ _ _ _ _ _ _ _ Hp W) as R.
  assert (db_events db2 !! ge_event_id e = Some (event_row s e)) as He.
  { apply (write_steps_rel _ events_kept_closed _ _ Hs). by rewrite (ew_events _ _ _ _ _ _ _ _ _ _ _ W), lookup_insert_eq. }
  eexists. unfold read_canonical. rewrite He. split; [exact (read_row_of _ _ _ db2 R)|].
  split; [f_equal; by rewrite (ew_event _ _ _ _ _ _ _ _ _ _ _ W)|]. split; [|by apply normal_envelope_text, R].
  unfold envelope, project_event. cbn [ce_canonical_event_json]. rewrite (parse_canonical_dumps e) by apply R.
  unfold mbind, res_bind, mret, res_ret, upcast_envelope. cbn. by rewrite (rf_version _ _ _ R).
Qed.

(** A stream is read whole and in order: from any position up to its
    end, [read_stream] returns exactly the events of the stream after that
    position, numbered without gaps, each verified; a limit cuts the same list
    short; [max_sequence] is the number of its events. *)
Lemma stream_read_back db run after :
  reachable db → 0 ≤ after ≤ max_sequence run db →
  ∃ records, read_stream run after None db = Ok records ∧
    map ce_stream_sequence records = seqZ (after + 1) (max_sequence run db - after) ∧
    (∀ record, record ∈ records → read_canonical (ce_event_id record) db = Ok record) ∧
    (∀ id, id ∈ map ce_event_id records ↔ ∃ r, db_events db !! id = Some r ∧ er_stream_id r = run ∧
       after < er_stream_sequence r) ∧
    ∀ n, read_stream run after (Some (Z.of_nat n)) db = Ok (take n records).
Proof.
  intros Hr Ha. destruct (reachable_streams _ Hr) as [Hn S]. rewrite (max_sequence_length _ _ S Hn) in *.
  destruct (stream_records db run after Hr Ha) as (records & Hrd & Hf & Hids & Hsq).
  exists records. split; [exact Hrd|]. split; [exact Hsq|]. split; [|split].
  - intros record (i & Hi)%list_elem_of_lookup. destruct (Forall2_lookup_r _ _ _ _ _ Hf Hi) as ([id r] & Hk & Hx).
    apply list_elem_of_lookup_2, elem_of_stream in Hk as (Hev & _).
    destruct (read_reachable db id r Hr Hev) as (x & Hx' & Hid & _). cbn in *.
    assert (x = record) as -> by congruence. unfold read_canonical. by rewrite Hid, Hev.
  - intros id. rewrite Hids, list_elem_of_fmap. split.
    + intros ([i r] & -> & (H & E & Hlt)%elem_of_stream). by exists r.
    + intros (r & H & E & Hlt). exists (id, r). split; [done|]. by apply elem_of_stream.
  - intros n. unfold read_stream in *. assert (stream_events run after (Some (Z.of_nat n)) db
      = take n (stream_events run after None db)) as ->.
    { unfold stream_events. rewrite (proj2 (Z.leb_le _ _)) by lia. by rewrite Nat2Z.id. }
    by apply read_rows_take.
Qed.

(** Canonical text is a faithful code of documents: [json.loads] of the
    canonical text of a document is the document with its keys sorted, and two
    documents have the same canonical text exactly when they agree up to the
    order of keys, so two payloads have different hashed texts as soon as they
    differ. *)
Lemma canonical_text j j' :
  json_wf j = true → json_wf j' = true →
  json_loads (canonical_json j) = Some (json_sort j) ∧
  (canonical_json j = canonical_json j' ↔ json_sort j = json_sort j').
Proof. intros H H'. split; [by apply loads_dumps|by apply dumps_eq]. Qed.

(** Finalize evidence survives its encoding: what [encode] stores is the
    canonical text of valid evidence, which [decode] reads back unchanged, and
    its hash is the SHA-256 of that text; evidence without secrets is stored
    as it was given, and [verify] accepts the stored text with the stored hash
    and rejects it with any other. *)
Lemma evidence_roundtrip e x :
  encode e = Ok x →
  decode (en_serialized x) = Ok (en_value x) ∧ Evidence_valid (en_value x) = true ∧
  en_result_hash x = sha256_hex (en_serialized x) ∧
  (Evidence_valid e = true → sanitize (evidence_json e) = evidence_json e →
   en_value x = e ∧
   ∀ h, verify (en_serialized x) h =
     if decide (h = en_result_hash x) then Ok e
     else Err (ValueError "Finalize Evidence result_hash mismatch")).
Proof.
  unfold encode, mbind, res_bind, mret, res_ret. destruct (decode _) as [final|] eqn:E; [|done].
  intros [= <-]. cbn [en_serialized en_value en_result_hash]. pose proof (decode_valid _ _ E) as Hv.
  split; [by apply decode_dumps|]. split; [done|]. split; [done|]. intros He Hs.
  rewrite Hs, decode_dumps in E by done. injection E as <-. split; [done|]. intros h.
  unfold verify, encode, mbind, res_bind, mret, res_ret. rewrite (decode_dumps _ He), Hs, (decode_dumps _ He).
  cbn [en_result_hash en_value]. case_decide as H1; case_decide as H2; by try congruence.
Qed.

(** ** Witnesses *)

(** Two events are written to the demo, one after the other. *)
Definition note_event (n : nat) (command : string) : Tx Db GatewayEventEnvelope :=
  write_event (demo_time n) demo_final_state "note" [("n", JInt (Z.of_nat n)); ("a", JStr "text")] command "primary" None None.
Lemma note_written : is_ok (note_event 40 "note-1" (demo 3)) = true.
Proof. vm_cast_no_check (@eq_refl bool true). Qed.
Lemma note_followed :
  match note_event 40 "note-1" (demo 3) with Ok (_, db1) => is_ok (note_event 41 "note-2" db1) | Err _ => false end = true.
Proof. vm_cast_no_check (@eq_refl bool true). Qed.

Lemma event_read_back_witness : ∃ e db1 e2 db2 record,
  note_event 40 "note-1" (demo 3) = Ok (e, db1) ∧ note_event 41 "note-2" db1 = Ok (e2, db2) ∧
  read_canonical (ge_event_id e) db2 = Ok record ∧ ce_canonical_event_json record = canonical_json (envelope_json e).
Proof.
  destruct (ok_eq _ note_written) as (e & db1 & E1). pose proof note_followed as H. rewrite E1 in H.
  destruct (ok_eq _ H) as (e2 & db2 & E2).
  destruct (event_read_back (demo_time 40) demo_final_state "note" [("n", JInt 40); ("a", JStr "text")] "note-1" "primary"
    None None (demo 3) e db1 db2 eq_refl E1) as (record & Hrd & -> & _).
  { apply rtc_once. eapply ws_event; [|exact E2]. reflexivity. }
  eexists e, db1, e2, db2, _. split; [exact E1|]. split; [exact E2|]. split; [exact Hrd|reflexivity].
Defined.

Lemma demo_max : max_sequence "run-1" (demo 3) = 4.
Proof. destruct (reachable_streams _ (demo_reachable 3)). by rewrite max_sequence_length, demo_length. Qed.

Definition sample_document : json :=
  JObj [("b", JArr [JInt (-12); JNull; JBool true]); ("a", JStr "x
y"); ("c", JObj [("z", JFloat "1.5"); ("k", JStr "")])].

Definition sample_evidence : FinalizeStepEvidence :=
  NotApplicable (mkNotApplicable (mkEvidenceHead FS_MEMORY "run-1" 1 (demo_hash "operation") "attempt-1")
    "cron" PC_CONTROL_ONLY "control_only_workload").

Lemma sample_evidence_encodes : is_ok (encode sample_evidence) = true.
Proof. vm_cast_no_check (@eq_refl bool true). Qed.
Lemma sample_evidence_clean :
  sanitize (evidence_json sample_evidence) = evidence_json sample_evidence.
Proof. vm_cast_no_check (@eq_refl json (evidence_json sample_evidence)). Qed.
Lemma sample_evidence_valid : Evidence_valid sample_evidence = true.
Proof. vm_cast_no_check (@eq_refl bool true). Qed.

