(* ===== verification/JsonlFacts.v ===== *)
(** * JsonlFacts: the file of a Run is its history

    Canonical text has no line breaks, so the lines of the file are the events
    appended to it; appending an event again, in this process or after a
    restart, changes nothing. *)

From S2P Require Import Prelude PyText PyTime Sanitizer Json AgentTypes AgentState Commands.
From S2P Require Import FinalizeEvidence Store Events EventStore Codec Jsonl Records.

#[local] Open Scope Z_scope.

(** ** Canonical text is one line *)

(** No control characters. *)
Definition clean (s : string) : bool := forallb (λ c, 32 <=? byte_of c) (String.list_ascii_of_string s).

Lemma clean_cons c s : clean (String c s) = (32 <=? byte_of c) && clean s.
Proof. done. Qed.
Lemma clean_app a b : clean (a +:+ b) = clean a && clean b.
Proof. induction a as [|c a IH]; [done|]. by rewrite sapp_cons, !clean_cons, IH, andb_assoc. Qed.

Lemma clean_escape s : clean (escape s) = true.
Proof.
  induction s as [|c s IH]; [done|]. cbn [escape]. rewrite clean_app, IH, andb_true_r.
  destruct c as [[] [] [] [] [] [] [] []]; reflexivity.
Qed.
Lemma clean_quote s : clean (quote s) = true.
Proof. unfold quote, str1. by rewrite !clean_app, clean_escape. Qed.

Lemma clean_join sep l : clean sep = true → Forall (λ s, clean s = true) l → clean (join sep l) = true.
Proof.
  intros Hs. induction 1 as [|x [|y l] Hx Hl IH]; [done|done|]. rewrite join_cons, !clean_app, Hx, Hs. exact IH.
Qed.

Lemma clean_number s : forallb num_char (String.list_ascii_of_string s) = true → clean s = true.
Proof.
  unfold clean. rewrite !forallb_forall. intros H c Hc. specialize (H c Hc).
  destruct c as [[] [] [] [] [] [] [] []]; first [discriminate H|reflexivity].
Qed.

Lemma clean_dumps j : json_wf j = true → clean (json_dumps j) = true.
Proof.
  induction j as [|b|z|t|s|l IH|d IH] using json_ind'; intros Hwf; cbn [json_dumps].
  - done.
  - by destruct b.
  - apply clean_number, str_of_int_number.
  - destruct (float_token_spec t Hwf) as [Ht|(_ & _ & H)]; [by elem_cases Ht; subst t|by apply clean_number].
  - apply clean_quote.
  - apply wf_items in Hwf. rewrite !clean_app. apply andb_true_iff. split; [done|]. rewrite clean_join; [done|done|].
    apply Forall_fmap. rewrite Forall_forall in *. intros x Hx. apply IH; auto.
  - apply fields_wf in Hwf as [_ Hw]. change (clean (json_dumps (JObj d)) = true). rewrite dumps_object.
    rewrite !clean_app, clean_join; [done|done|]. apply Forall_fmap, Forall_forall. intros kv Hkv.
    rewrite merge_sort_Permutation in Hkv. rewrite Forall_forall in IH, Hw.
    change (clean (field_dumps kv) = true). unfold field_dumps.
    by rewrite !clean_app, clean_quote, IH by auto.
Qed.

(** ** The lines of a file *)

Lemma translate_line a s :
  clean a = true → translate_newlines (a +:+ String newline s) = a +:+ String newline (translate_newlines s).
Proof.
  induction a as [|c a IH].
  - intros _. rewrite !sapp_nil. cbn [translate_newlines]. by rewrite decide_False.
  - rewrite clean_cons. intros [Hc Ha]%andb_true_iff. rewrite !sapp_cons. cbn [translate_newlines].
    rewrite decide_False by (intros ->; done). by rewrite IH.
Qed.

Lemma text_lines_line a s : clean a = true → text_lines (a +:+ String newline s) = a :: text_lines s.
Proof.
  induction a as [|c a IH].
  - intros _. rewrite !sapp_nil. cbn [text_lines]. by rewrite decide_True.
  - rewrite clean_cons. intros [Hc Ha]%andb_true_iff. rewrite !sapp_cons. cbn [text_lines].
    rewrite decide_False by (intros ->; done). by rewrite IH.
Qed.

(** The file of a sequence of lines. *)
Definition file_of (raws : list string) : string := foldr (λ r acc, r +:+ String newline acc) "" raws.

Lemma file_of_cons r raws : file_of (r :: raws) = r +:+ String newline (file_of raws).
Proof. done. Qed.
Lemma file_of_app a b : file_of (a ++ b) = file_of a +:+ file_of b.
Proof. induction a as [|r a IH]; [done|]. cbn [app]. by rewrite !file_of_cons, IH, sapp_assoc, sapp_cons. Qed.

Lemma lines_of_file raws :
  Forall (λ r, clean r = true) raws → text_lines (translate_newlines (file_of raws)) = raws.
Proof.
  induction 1 as [|r raws Hr H IH]; [done|]. by rewrite file_of_cons, translate_line, text_lines_line, IH.
Qed.

Lemma jsonl_file records : jsonl_of records = file_of (map ce_canonical_event_json records).
Proof. induction records as [|r l IH]; [done|]. cbn [map]. rewrite file_of_cons, <- IH. done. Qed.

(** Valid UTF-8, piece by piece. *)
Lemma utf8_app a : ∀ n lo hi b, utf8_valid n lo hi a = true → is_utf8 b = true → utf8_valid n lo hi (a +:+ b) = true.
Proof.
  unfold is_utf8. induction a as [|c a IH]; intros n lo hi b Ha Hb.
  - cbn in Ha. apply Nat.eqb_eq in Ha as ->. rewrite sapp_nil.
    destruct b as [|c b]; [done|exact Hb].
  - rewrite sapp_cons. cbn [utf8_valid] in *. destruct n as [|n].
    + repeat match goal with |- context [if ?x then _ else _] => destruct x; [by first [done|apply IH]|] end. done.
    + rewrite !andb_true_iff in *. destruct Ha as [H1 H2]. split; [exact H1|by apply IH].
Qed.

Lemma utf8_file raws : Forall (λ r, is_utf8 r = true) raws → is_utf8 (file_of raws) = true.
Proof.
  induction 1 as [|r raws Hr H IH]; [done|]. rewrite file_of_cons. by apply utf8_app.
Qed.

(** ** Canonical events *)

(** The canonical text of an event of a Run, as the controller writes it. *)
Record canonical_event (run : string) (e : GatewayEventEnvelope) (raw : string) : Prop := {
  cv_text : raw = canonical_json (envelope_json e);
  cv_valid : Envelope_valid e = true;
  cv_payload : json_wf (JObj (ge_payload e)) = true;
  cv_run : ge_run_id e = Some run;
  cv_ascii : is_ascii (ge_event_id e) = true;
  cv_utf8 : is_utf8 raw = true
}.

Lemma canonical_parse run e raw : canonical_event run e raw → parse_canonical_event raw = Ok (normal_envelope e).
Proof. intros []. subst raw. by apply parse_canonical_dumps. Qed.

Lemma canonical_clean run e raw : canonical_event run e raw → clean raw = true.
Proof. intros []. subst raw. apply clean_dumps. by apply (envelope_json_wf e). Qed.

Lemma code_points_cons c s : byte_of c < 128 → code_points (String c s) = byte_of c :: code_points s.
Proof.
  intros H. unfold code_points. cbn [utf8_scan]. unfold utf8_extra.
  rewrite (proj2 (Z.ltb_lt _ _)) by lia. done.
Qed.

Lemma canonical_not_blank run e raw : canonical_event run e raw → is_blank raw = false.
Proof.
  intros [Ht _ Hp _ _ _]. subst raw. unfold canonical_json.
  change (envelope_json e) with (JObj (envelope_fields e)). rewrite dumps_object, sapp_cons.
  unfold is_blank. rewrite code_points_cons by done. done.
Qed.

(** ** The index *)

Definition history := list (GatewayEventEnvelope * string).
Definition event_ids (h : history) : list string := map (λ p, ge_event_id p.1) h.
Definition index_from (values : gmap string string) (h : history) : gmap string string :=
  foldl (λ m p, <[ge_event_id p.1 := sha256_text p.2]> m) values h.
Definition index_of (h : history) : gmap string string := index_from ∅ h.

Lemma index_snoc h p : index_of (h ++ [p]) = <[ge_event_id p.1 := sha256_text p.2]> (index_of h).
Proof. unfold index_of, index_from. by rewrite foldl_app. Qed.

Lemma index_lookup h id d :
  index_of h !! id = Some d → ∃ p, p ∈ h ∧ ge_event_id p.1 = id ∧ sha256_text p.2 = d.
Proof.
  induction h as [|p h IH] using rev_ind; [by unfold index_of; cbn; rewrite lookup_empty|].
  rewrite index_snoc. intros [[<- <-]|[_ H]]%lookup_insert_Some.
  - exists p. set_solver.
  - destruct (IH H) as (q & ? & ?). exists q. set_solver.
Qed.

Lemma index_none h id : index_of h !! id = None ↔ id ∉ event_ids h.
Proof.
  induction h as [|p h IH] using rev_ind; [by unfold index_of; cbn; rewrite lookup_empty; set_solver|].
  rewrite index_snoc. unfold event_ids in *. rewrite map_app, lookup_insert_None, IH. set_solver.
Qed.

Lemma load_lines_ok path run h : ∀ values,
  Forall (λ p, canonical_event run p.1 p.2) h → NoDup (event_ids h) →
  (∀ p, p ∈ h → values !! ge_event_id p.1 = None) →
  load_lines path (map snd h) values = Ok (index_from values h).
Proof.
  induction h as [|p h IH]; intros values Hc Hn Hv; [done|].
  apply Forall_cons in Hc as [Hp Hc]. apply NoDup_cons in Hn as [Hp' Hn].
  cbn [map load_lines]. rewrite (canonical_not_blank _ _ _ Hp), (canonical_parse _ _ _ Hp).
  change (ge_event_id (normal_envelope p.1)) with (ge_event_id p.1).
  rewrite decide_True by (left; apply Hv; left). rewrite IH; [done..|].
  intros q Hq. rewrite lookup_insert_ne; [apply Hv; by right|]. intros E. apply Hp'. rewrite E.
  unfold event_ids. apply list_elem_of_fmap. by exists q.
Qed.

(** ** ASCII *)

Lemma is_ascii_cons c s : is_ascii (String c s) = (byte_of c <? 128) && is_ascii s.
Proof. done. Qed.
Lemma is_ascii_app a b : is_ascii (a +:+ b) = is_ascii a && is_ascii b.
Proof. induction a as [|c a IH]; [done|]. by rewrite sapp_cons, !is_ascii_cons, IH, andb_assoc. Qed.

Lemma hex64_ascii s : hex64 s = true → is_ascii s = true.
Proof.
  unfold hex64. intros [_ H]%andb_true_iff. unfold is_ascii. rewrite forallb_forall in *.
  intros c Hc. specialize (H c Hc).
  destruct c as [[] [] [] [] [] [] [] []]; first [discriminate H|reflexivity].
Qed.
Lemma sha256_ascii s : is_ascii (sha256_text s) = true.
Proof. apply hex64_ascii, sha256_hex_hex64. Qed.

Lemma index_line_ascii id d : is_ascii id = true → is_ascii d = true → is_ascii (index_line id d) = true.
Proof. unfold index_line. rewrite !is_ascii_app. by intros -> ->. Qed.

Lemma index_text_ascii l :
  Forall (λ kv : string * string, is_ascii kv.1 = true ∧ is_ascii kv.2 = true) l →
  is_ascii (foldr (λ kv acc, index_line kv.1 kv.2 +:+ acc) "" l) = true.
Proof.
  induction 1 as [|kv l [H1 H2] H IH]; [done|]. cbn [foldr]. by rewrite is_ascii_app, index_line_ascii.
Qed.

(** ** The sink as a set of histories *)

(** The file and the index of a Run hold exactly [h]. *)
Record holds (st : JsonlEventSink) (run : string) (h : history) : Prop := {
  ho_file : default "" (js_files st !! jsonl_path st (Some run)) = file_of (map snd h);
  ho_known : js_known st !! Some run = None ∨ js_known st !! Some run = Some (index_of h);
  ho_events : Forall (λ p, canonical_event run p.1 p.2) h;
  ho_ids : NoDup (event_ids h)
}.

Lemma file_of_empty raws : file_of raws = "" → raws = [].
Proof. destruct raws as [|[|c r] raws]; [done|done|done]. Qed.

Lemma load_index_reads io st run h :
  holds st run h → io_read io = true → load_index io (jsonl_path st (Some run)) (js_files st) = Ok (index_of h).
Proof.
  intros [Hf _ Hc Hn] Hio. unfold load_index. destruct (js_files st !! _) as [bytes|]; cbn in Hf.
  - rewrite Hio. cbn [negb]. subst bytes. rewrite utf8_file, lines_of_file.
    + apply (load_lines_ok _ run); [done|done|]. intros p _. apply lookup_empty.
    + apply Forall_fmap. eapply Forall_impl; [exact Hc|]. intros p. apply canonical_clean.
    + apply Forall_fmap. eapply Forall_impl; [exact Hc|]. intros p. apply cv_utf8.
  - symmetry in Hf. apply file_of_empty in Hf. destruct h; [done|discriminate].
Qed.

Lemma load_index_ok io st run h :
  holds st run h → load_index io (jsonl_path st (Some run)) (js_files st) = Ok (index_of h) ∨
    load_index io (jsonl_path st (Some run)) (js_files st) = os_error ∧ io ≠ io_ok.
Proof.
  intros H. destruct (io_read io) eqn:Hio; [left; by apply load_index_reads|].
  unfold load_index at 2. destruct (js_files st !! _) eqn:E.
  - right. rewrite Hio. split; [done|]. by intros ->.
  - left. pose proof (load_index_reads io_ok _ _ _ H eq_refl) as K. unfold load_index in *. by rewrite E in *.
Qed.

(** An index file is no event file, whatever the Runs are called. *)
Lemma last_char_app a c : ∀ b d, a +:+ str1 c = b +:+ str1 d → c = d.
Proof.
  induction a as [|x a IH]; intros [|y b] d E; cbn in E.
  - by injection E.
  - injection E as -> E. by destruct b.
  - injection E as -> E. by destruct a.
  - injection E as -> E. by apply (IH b).
Qed.
Lemma jsonl_index_differ st st' run run' : jsonl_path st (Some run) ≠ index_path st' (Some run').
Proof.
  unfold jsonl_path, index_path. change ".jsonl" with (".json" +:+ str1 (Ascii.ascii_of_nat 108)).
  change ".events.idx" with (".events.id" +:+ str1 (Ascii.ascii_of_nat 120)).
  rewrite <- !sapp_assoc. by intros E%last_char_app.
Qed.

Lemma paths_differ st st' run : js_runs_directory st' = js_runs_directory st → jsonl_path st (Some run) ≠ index_path st' (Some run).
Proof.
  unfold jsonl_path, index_path. intros -> E. rewrite <- !sapp_assoc in E. by apply (inj _) in E.
Qed.

Lemma index_entries_ascii st run h :
  holds st run h →
  is_ascii (foldr (λ kv acc, index_line kv.1 kv.2 +:+ acc) "" (merge_sort entry_le (map_to_list (index_of h)))) = true.
Proof.
  intros H. apply index_text_ascii, Forall_forall. intros [id d] Hin. rewrite merge_sort_Permutation in Hin.
  apply elem_of_map_to_list, index_lookup in Hin as (p & Hp & <- & <-). cbn.
  pose proof (ho_events _ _ _ H) as Hc. rewrite Forall_forall in Hc.
  split; [apply (Hc p Hp)|apply sha256_ascii].
Qed.

(** The index of a Run is read, unless the operating system refuses. *)
Lemma known_events_ok io st run h :
  holds st run h → ∃ x st', known_events io (Some run) st = (x, st') ∧ holds st' run h ∧
    js_runs_directory st' = js_runs_directory st ∧
    (x = Ok (index_of h) ∨ x = os_error ∧ io ≠ io_ok).
Proof.
  intros H. unfold known_events. destruct (ho_known _ _ _ H) as [E|E]; rewrite E.
  2: { do 2 eexists. split; [done|]. split; [done|]. split; [done|by left]. }
  destruct (load_index_ok io _ _ _ H) as [->|[-> Hio]].
  2: { do 2 eexists. split; [done|]. split; [done|]. split; [done|by right]. }
  unfold rewrite_index. rewrite (index_entries_ascii _ _ _ H). cbn [negb].
  assert (holds (st ⟪ js_known := <[Some run := index_of h]> (js_known st) ⟫) run h) as H1.
  { destruct H as [Hf _ Hc Hn]. split; [done|right; apply lookup_insert_eq|done|done]. }
  destruct (io_replace io) eqn:Hio; cbn [negb]; do 2 eexists; (split; [done|]).
  - split; [|split; [done|by left]]. destruct H1 as [Hf Hk Hc Hn]. split; [|done..].
    rewrite <- Hf. cbn. rewrite lookup_insert_ne; [done|]. by intros Hx; symmetry in Hx; apply paths_differ in Hx.
  - split; [done|]. split; [done|]. right. split; [done|]. by intros ->.
Qed.

Lemma known_stays io st run h :
  holds st run h → io_read io = true → io_replace io = true →
  ∃ st', known_events io (Some run) st = (Ok (index_of h), st') ∧ holds st' run h ∧
    js_known st' !! Some run = Some (index_of h) ∧ js_runs_directory st' = js_runs_directory st.
Proof.
  intros H H1 H2. unfold known_events. destruct (ho_known _ _ _ H) as [E|E]; rewrite E; [|by exists st].
  rewrite (load_index_reads _ _ _ _ H H1). unfold rewrite_index. rewrite (index_entries_ascii _ _ _ H), H2. cbn [negb].
  eexists. split; [done|]. split; [|split; [apply lookup_insert_eq|done]].
  destruct H as [Hf _ Hc Hn]. split; [|right; apply lookup_insert_eq|done|done].
  rewrite <- Hf. cbn. rewrite lookup_insert_ne; [done|]. by intros Hx; symmetry in Hx; apply paths_differ in Hx.
Qed.

(** ** Appending *)

(** What one append leaves of the history. *)
Definition appended (p : GatewayEventEnvelope * string) (h : history) : history :=
  if decide (ge_event_id p.1 ∈ event_ids h) then h else h ++ [p].

Lemma appended_cases p h :
  appended p h = h ∧ ge_event_id p.1 ∈ event_ids h ∨ appended p h = h ++ [p] ∧ ge_event_id p.1 ∉ event_ids h.
Proof. unfold appended. case_decide; tauto. Qed.

Lemma append_file_other path path' text files :
  path ≠ path' → append_file path text files !! path' = files !! path'.
Proof. intros H. unfold append_file. by rewrite lookup_insert_ne. Qed.

(** A line that was not written left no byte behind. *)
Definition leaves_nothing (io : SinkIo) : Prop := match io_event io with Cut (S _) => False | _ => True end.

(** How a call ends: the event is in the file, and the answer tells whether it
    is new; or the operating system refused something, and the event may be in
    the file or not. *)
Definition append_ends (io : SinkIo) (p : GatewayEventEnvelope * string) (h h' : history) (x : res bool) : Prop :=
  x = Ok (bool_decide (ge_event_id p.1 ∉ event_ids h)) ∧ h' = appended p h ∨
  x = os_error ∧ io ≠ io_ok ∧ (h' = h ∨ h' = appended p h).

Lemma sapp_empty s : s +:+ "" = s.
Proof. induction s as [|c s IH]; [done|]. by rewrite sapp_cons, IH. Qed.

Lemma append_file_nothing path files :
  default "" (append_file path "" files !! path) = default "" (files !! path).
Proof. unfold append_file. rewrite lookup_insert_eq. cbn. apply sapp_empty. Qed.

(** A file that was opened and not written. *)
Lemma write_nothing outcome path text files files' :
  write_file outcome path text files = (false, files') → (match outcome with Cut (S _) => False | _ => True end) →
  default "" (files' !! path) = default "" (files !! path).
Proof.
  destruct outcome as [| |[|n]]; cbn; intros H ?; try done; injection H as <-; [done|].
  assert (String.substring 0 0 text = "") as -> by (by destruct text). apply append_file_nothing.
Qed.

Lemma write_file_other outcome path path' text files :
  path ≠ path' → (write_file outcome path text files).2 !! path' = files !! path'.
Proof. intros H. destruct outcome; [|done|]; by apply append_file_other. Qed.

Lemma append_event_holds io st run h e raw :
  leaves_nothing io → holds st run h → canonical_event run e raw → ge_event_id e ∉ event_ids h →
  ∃ x st' h', append_event io (Some run) (ge_event_id e) (sha256_text raw) raw (index_of h) st = (x, st') ∧
    holds st' run h' ∧ js_runs_directory st' = js_runs_directory st ∧ append_ends io (e, raw) h h' x.
Proof.
  intros Hio [Hf Hk Hc Hn] He Hid. unfold append_event, append_ends, appended. cbn [fst].
  rewrite (bool_decide_eq_true_2 _ Hid), (decide_False (P := ge_event_id e ∈ event_ids h)) by done.
  destruct (write_file (io_event io) _ _ _) as [[] files] eqn:Hw; cbn [negb].
  2: { exists os_error, (st ⟪ js_files := files ⟫), h. split; [done|]. split; [|split; [done|]].
       - split; [|exact Hk|exact Hc|exact Hn]. rewrite <- Hf. exact (write_nothing _ _ _ _ _ Hw Hio).
       - right. split; [done|]. split; [|by left]. intros ->. cbn in Hw. discriminate. }
  assert (files = append_file (jsonl_path st (Some run)) (raw +:+ str1 newline) (js_files st)) as ->
    by (destruct (io_event io); cbn in Hw; congruence).
  set (st2 := _ ⟪ js_known := _ ⟫).
  rewrite index_line_ascii by (try apply sha256_ascii; apply (cv_ascii _ _ _ He)). cbn [orb].
  destruct (write_file (index_outcome _ _) _ _ _) as [indexed files2] eqn:Hw2.
  do 3 eexists. split; [done|]. instantiate (1 := h ++ [(e, raw)]). split; [|split; [done|]].
  - split.
    + change (default "" (files2 !! jsonl_path st (Some run)) = file_of (map snd (h ++ [(e, raw)]))).
      pose proof (write_file_other (index_outcome io (index_line (ge_event_id e) (sha256_text raw)))
        (index_path st2 (Some run)) (jsonl_path st (Some run)) (index_line (ge_event_id e) (sha256_text raw)) (js_files st2)
        (not_eq_sym (jsonl_index_differ _ _ _ _))) as Ho.
      rewrite Hw2 in Ho. cbn [snd] in Ho. rewrite Ho. subst st2. cbn.
      unfold append_file. rewrite lookup_insert_eq. cbn [default]. rewrite Hf, map_app, file_of_app. cbn.
      unfold str1. done.
    + right. cbn. rewrite lookup_insert_eq. by rewrite index_snoc.
    + apply Forall_app. by split; [|constructor].
    + unfold event_ids. rewrite map_app. apply NoDup_app. split; [done|]. split; [set_solver|apply NoDup_singleton].
  - destruct indexed; [by left|right]. split; [done|]. split; [|by right].
    intros ->. unfold index_outcome in Hw2. cbn in Hw2.
    by rewrite index_line_ascii in Hw2 by (try apply sha256_ascii; apply (cv_ascii _ _ _ He)).
Qed.

(** The dispatcher names no Run: the event says where it goes. *)
Lemma append_once_start io st run e raw :
  canonical_event run e raw →
  append_once io raw (sha256_text raw) None st =
  match known_events io (Some run) st with
  | (Err x, st1) => (Err x, st1)
  | (Ok known, st1) =>
      match known !! ge_event_id e with
      | Some existing =>
          if decide (existing = sha256_text raw) then (Ok false, st1)
          else (Err (ProjectionConflict "event_id already has different canonical content"), st1)
      | None => append_event io (Some run) (ge_event_id e) (sha256_text raw) raw known st1
      end
  end.
Proof.
  intros He. unfold append_once. rewrite (canonical_parse _ _ _ He). cbv zeta.
  rewrite (decide_False (P := sha256_text raw ≠ _)) by auto.
  change (ge_event_id (normal_envelope e)) with (ge_event_id e).
  change (ge_run_id (normal_envelope e)) with (ge_run_id e). by rewrite (cv_run _ _ _ He).
Qed.

Lemma append_once_holds io st run h e raw :
  leaves_nothing io → holds st run h → canonical_event run e raw →
  (∀ p, p ∈ h → ge_event_id p.1 = ge_event_id e → p.2 = raw) →
  ∃ x st' h', append_once io raw (sha256_text raw) None st = (x, st') ∧
    holds st' run h' ∧ js_runs_directory st' = js_runs_directory st ∧ append_ends io (e, raw) h h' x.
Proof.
  intros Hio H He Hsame. rewrite (append_once_start _ _ _ _ _ He).
  destruct (known_events_ok io _ _ _ H) as (x & st1 & -> & H1 & Hd & [->|[-> Hne]]).
  2: { exists os_error, st1, h. split; [done|]. split; [done|]. split; [done|]. right. by eauto. }
  destruct (index_of h !! ge_event_id e) as [d|] eqn:E.
  - apply index_lookup in E as (p & Hp & Hid & <-). rewrite (Hsame p Hp Hid), decide_True by done.
    assert (ge_event_id e ∈ event_ids h) as Hin by (apply list_elem_of_fmap; exists p; done).
    exists (Ok false), st1, h. split; [done|]. split; [done|]. split; [done|]. left. unfold appended. cbn [fst].
    by rewrite bool_decide_eq_false_2, decide_True by tauto.
  - apply index_none in E. destruct (append_event_holds io st1 run h e raw Hio H1 He E) as (x & st2 & h' & -> & H2 & Hd2 & K).
    exists x, st2, h'. by rewrite Hd2.
Qed.

(** The same id with another text is refused, and the file is left alone. *)
Lemma append_once_conflict st run h e raw p :
  holds st run h → canonical_event run e raw → p ∈ h → ge_event_id p.1 = ge_event_id e →
  sha256_text p.2 ≠ sha256_text raw →
  ∃ st', append_once io_ok raw (sha256_text raw) None st
         = (Err (ProjectionConflict "event_id already has different canonical content"), st') ∧ holds st' run h.
Proof.
  intros H He Hp Hid Hne. rewrite (append_once_start _ _ _ _ _ He).
  destruct (known_events_ok io_ok _ _ _ H) as (x & st1 & -> & H1 & _ & [->|[_ []]]); [|done].
  destruct (index_of h !! ge_event_id e) as [d|] eqn:E.
  - apply index_lookup in E as (q & Hq & Hqid & <-).
    assert (q = p) as ->.
    { apply list_elem_of_lookup in Hp as [i Hi], Hq as [j Hj].
      assert (i = j) as <-; [|congruence].
      apply (NoDup_lookup _ i j (ge_event_id e) (ho_ids _ _ _ H)); unfold event_ids;
        rewrite list_lookup_fmap; [rewrite Hi|rewrite Hj]; cbn; congruence. }
    rewrite decide_False by done. by exists st1.
  - apply index_none in E. destruct E. apply list_elem_of_fmap. by exists p.
Qed.

Lemma restart_holds st run h : holds st run h → holds (restart st) run h.
Proof. intros [Hf Hk Hc Hn]. split; [done|left; apply lookup_empty|done|done]. Qed.

Lemma holds_new st run :
  js_files st !! jsonl_path st (Some run) = None → js_known st !! Some run = None → holds st run [].
Proof. intros Hf Hk. split; [by rewrite Hf|by left|by constructor|by constructor]. Qed.

(** ** The other Runs *)

(** What an append to one Run leaves to another. *)
Record same_run (run : string) (st st' : JsonlEventSink) : Prop := {
  sr_directory : js_runs_directory st' = js_runs_directory st;
  sr_file : js_files st' !! jsonl_path st (Some run) = js_files st !! jsonl_path st (Some run);
  sr_known : js_known st' !! Some run = js_known st !! Some run
}.
#[local] Instance same_run_preorder run : PreOrder (same_run run).
Proof.
  split; [done|]. intros x y z [D1 F1 K1] [D2 F2 K2].
  assert (jsonl_path y (Some run) = jsonl_path x (Some run)) as E by (unfold jsonl_path; by rewrite D1).
  rewrite E in F2. split; congruence.
Qed.

Lemma holds_same run st st' h : same_run run st st' → holds st run h → holds st' run h.
Proof.
  intros [D F K] [Hf Hk Hc Hn].
  assert (jsonl_path st' (Some run) = jsonl_path st (Some run)) as E by (unfold jsonl_path; by rewrite D).
  split; [by rewrite E, F|by rewrite K|done|done].
Qed.

Lemma sapp_inj_r (c : string) : ∀ a b, a +:+ c = b +:+ c → a = b.
Proof.
  assert (∀ a b, String.length (a +:+ b) = (String.length a + String.length b)%nat) as Hl.
  { induction a as [|x a IH]; intros b; [done|]. rewrite sapp_cons. cbn. by rewrite IH. }
  induction a as [|x a IH]; intros [|y b] E; [done| | |].
  1,2: apply (f_equal String.length) in E; rewrite !Hl in E; cbn in E; lia.
  rewrite !sapp_cons in E. injection E as -> E. by rewrite (IH b E).
Qed.

Lemma jsonl_path_inj st run run' : jsonl_path st (Some run) = jsonl_path st (Some run') → run = run'.
Proof.
  unfold jsonl_path. cbn [run_name default]. intros E%(inj (String.append _))%(inj (String.append _)).
  by apply sapp_inj_r in E.
Qed.

Lemma rewrite_index_others io run run' values st : same_run run' st (rewrite_index io (Some run) values st).2.
Proof.
  unfold rewrite_index. destruct (negb (is_ascii _)); [done|]. destruct (negb _); [done|]. split; [done| |done].
  cbn. rewrite lookup_insert_ne; [done|]. by apply not_eq_sym, jsonl_index_differ.
Qed.

Lemma known_events_others io run run' st :
  run ≠ run' → same_run run' st (known_events io (Some run) st).2.
Proof.
  intros Hne. unfold known_events. destruct (js_known st !! _); [done|].
  destruct (load_index _ _ _) as [known|]; [|done].
  set (st1 := st ⟪ js_known := _ ⟫). pose proof (rewrite_index_others io run run' known st1) as H.
  assert (same_run run' st st1) as H1 by (split; [done..|cbn; rewrite lookup_insert_ne; congruence]).
  destruct (rewrite_index _ _ _ st1) as [[?|?] st2]; by etrans.
Qed.

Lemma append_event_others io run run' id hash raw known st :
  run ≠ run' → same_run run' st (append_event io (Some run) id hash raw known st).2.
Proof.
  intros Hne. unfold append_event.
  pose proof (write_file_other (io_event io) (jsonl_path st (Some run)) (jsonl_path st (Some run')) (raw +:+ str1 newline)
    (js_files st) ltac:(by intros E%jsonl_path_inj)) as Ho.
  destruct (write_file _ (jsonl_path st (Some run)) _ _) as [[] files]; cbn [negb snd] in *; [|by split].
  set (st2 := _ ⟪ js_known := _ ⟫).
  pose proof (write_file_other (index_outcome io (index_line id hash)) (index_path st2 (Some run)) (jsonl_path st (Some run'))
    (index_line id hash) (js_files st2) (not_eq_sym (jsonl_index_differ _ _ _ _))) as Hi.
  destruct (write_file (index_outcome _ _) _ _ _) as [indexed files2]. cbn [snd] in *. split; [done| |].
  - cbn. etrans; [exact Hi|exact Ho].
  - cbn. rewrite lookup_insert_ne; congruence.
Qed.

Lemma append_once_others io run run' e raw st :
  canonical_event run e raw → run ≠ run' → same_run run' st (append_once io raw (sha256_text raw) None st).2.
Proof.
  intros He Hne. rewrite (append_once_start _ _ _ _ _ He). pose proof (known_events_others io run run' st Hne) as Hk.
  destruct (known_events io (Some run) st) as [[known|x] st1]; [|exact Hk]. cbn [snd] in Hk.
  destruct (known !! _) as [d|]; [by case_decide|].
  etrans; [exact Hk|]. by apply append_event_others.
Qed.
