(* ===== verification/Creation.v ===== *)
(** * Creation: new Runs, their rows and tool observations

    [create_run] answers a repeated Idempotency-Key with the Run it created
    the first time, the row of [runs] always projects the snapshot of its Run,
    and a tool observation is materialized once and published once. *)

From stdpp Require Import relations.
From S2P Require Import Prelude PyText PyTime AgentTypes AgentState Sanitizer Commands.
From S2P Require Import OperationReduce FinalizeEvidence Store Events Operations FinalizeOps.
From S2P Require Import Controller Frames Outcomes Apply Observations Outbox System Demo StatesInv.
From S2P Require Import Lifecycle Records Replay.

#[local] Open Scope Z_scope.

(** ** Tables that [apply] never writes *)

Definition quiet (db : Db) := (db_idempotency db, db_observations db).

Lemma dispatch_quiet cfg env state command :
  tx_rel (same_part quiet) (dispatch cfg env state command).
Proof. apply dispatch_rel; first apply _; intros; by eauto with tx_frame. Qed.

Lemma apply_quiet cfg gate env c : tx_rel (same_part quiet) (apply cfg gate env c).
Proof.
  pose proof dispatch_quiet. unfold apply, commit, fence, save_opt, update_run_projection. prim; done || auto.
Qed.

Lemma create_state_quiet cfg env rq : tx_rel (same_part quiet) (create_state cfg env rq).
Proof.
  unfold create_state, write_created, update_run_projection.
  prim; try done; apply insert_state_rel; try done; apply _.
Qed.

Lemma create_run_observations cfg env rq : tx_rel (same_part db_observations) (create_run cfg env rq).
Proof.
  unfold create_run, write_created, bind_runtime_generation, insert_run, insert_sequence,
    update_run_projection.
  prim; try done; apply insert_state_rel; try done; apply _.
Qed.
Lemma materialize_idempotency gate env o :
  tx_rel (same_part db_idempotency) (materialize_tool_observation gate env o).
Proof. by apply materialize_rel; [apply _|]. Qed.
Lemma published_idempotency gate env i s :
  tx_rel (same_part db_idempotency) (mark_tool_observation_published gate env i s).
Proof. by apply mark_published_rel; [apply _|]. Qed.

(** ** Idempotency records are never changed *)

Definition keeps_idempotency (db db' : Db) : Prop :=
  ∀ key row, db_idempotency db !! key = Some row → db_idempotency db' !! key = Some row.

Lemma step_keeps_idempotency db db' : gateway_step db db' → keeps_idempotency db db'.
Proof.
  intros Hs key row. destruct Hs as [cfg gate env c r db db' Hc H|cfg env rq r db db' H
    |cfg env rq s db db' H|gate env o o' db db' H|gate env i s o db db' H|db db' H].
  - apply apply_quiet in H. unfold same_part, quiet in H. by injection H as -> _.
  - destruct r as [s b].
    destruct (create_run_ok _ _ _ _ _ _ _ H) as [(_ & -> & _)|(-> & _ & -> & _)]; [done|].
    intros Hk. destruct (decide (key = (rq_client_id rq, WorkloadKind_value (rq_workload_kind rq),
      rq_idempotency_key rq))) as [->|Hne]; [|by rewrite lookup_insert_ne].
    exfalso. unfold create_run in H. apply tx_bind_ok in H as (d & s1 & [-> ->]%tx_gets_ok & H).
    rewrite Hk in H. apply tx_bind_ok in H as ([] & s1 & [_ ->]%reject_ok & H).
    apply tx_bind_ok in H as (s0 & s1 & [_ ->]%tx_read_ok & H). apply tx_ret_ok in H as [[=] _].
  - apply create_state_quiet in H. unfold same_part, quiet in H. by injection H as -> _.
  - apply materialize_idempotency in H. unfold same_part in H. by rewrite H.
  - apply published_idempotency in H. unfold same_part in H. by rewrite H.
  - by apply dispatcher_redelivered in H as (dl & da & ob & ->).
Qed.

Lemma steps_keep_idempotency db db' : rtc gateway_step db db' → keeps_idempotency db db'.
Proof.
  induction 1 as [|x y z Hxy _ IH]; [by intros ???|].
  intros key row H. by apply IH, (step_keeps_idempotency _ _ Hxy).
Qed.

(** Every idempotency record names a Run that has a snapshot. *)
Definition idempotency_owned (db : Db) : Prop :=
  ∀ key row, db_idempotency db !! key = Some row → is_Some (db_states db !! ir_run_id row).

Lemma reachable_owned db : reachable db → idempotency_owned db.
Proof.
  intros Hr. assert (reachable db ∧ idempotency_owned db) as [_ H]; [|exact H]. revert db Hr.
  apply reachable_ind'.
  - intros d Hi. split; [by exists d|]. destruct Hi as (sinks & gens & ->).
    intros key row H. cbn in H. by rewrite lookup_empty in H.
  - intros d d' [Hr Ho] Hs. split; [by eapply reachable_step|]. intros key row.
    assert (∀ run, is_Some (db_states d !! run) → is_Some (db_states d' !! run)) as Hk.
    { intros run [x Hx]. destruct (steps_revision _ _ _ _ Hr (rtc_once _ _ Hs) Hx) as (y & Hy & _). eauto. }
    destruct Hs as [cfg gate env c r db db' Hc H|cfg env rq r db db' H
      |cfg env rq s db db' H|gate env o o' db db' H|gate env i s o db db' H|db db' H].
    + apply apply_quiet in H. unfold same_part, quiet in H. injection H as -> _. eauto.
    + destruct r as [s b]. apply create_run_ok in H as [(_ & -> & _)|(_ & Hn & -> & _)]; [eauto|].
      intros [[_ <-]|[_ Hx]]%lookup_insert_Some; [|eauto]. cbn.
      rewrite (rn_states _ _ _ _ _ _ _ Hn). rewrite lookup_insert_eq. eauto.
    + apply create_state_quiet in H. unfold same_part, quiet in H. injection H as -> _. eauto.
    + apply materialize_idempotency in H. unfold same_part in H. rewrite H. eauto.
    + apply published_idempotency in H. unfold same_part in H. rewrite H. eauto.
    + apply dispatcher_redelivered in H as (dl & da & ob & ->). eauto.
Qed.

(** What [create_run] does when the key is known. *)
Lemma create_run_known cfg env rq db row st :
  db_idempotency db !! (rq_client_id rq, WorkloadKind_value (rq_workload_kind rq),
    rq_idempotency_key rq) = Some row →
  state_in (ir_run_id row) db = Ok st →
  create_run cfg env rq db =
    if decide (ir_request_hash row = rq_request_hash rq) then Ok ((st, true), db)
    else Err (StateConflictError "Idempotency-Key is used for another request").
Proof.
  intros Hk Hs. unfold create_run, tx_gets, mbind, tx_bind. rewrite Hk. unfold reject.
  destruct (decide (ir_request_hash row = rq_request_hash rq)) as [E|E].
  - rewrite decide_False by (intros Hn; by apply Hn). unfold tx_read. by rewrite Hs.
  - by rewrite decide_True.
Qed.

(** An Idempotency-Key creates one Run.  Once [create_run]
    has answered a key, every later [create_run] of the same client, workload
    kind and key, by any controller, with the same request hash returns the
    current snapshot of that Run as a duplicate and writes nothing; with
    another request hash it is refused. *)
Lemma create_run_once cfg env rq s b db db1 :
  reachable db → create_run cfg env rq db = Ok ((s, b), db1) →
  ∀ db2 cfg' env' rq', rtc gateway_step db1 db2 →
    rq_client_id rq' = rq_client_id rq → rq_workload_kind rq' = rq_workload_kind rq →
    rq_idempotency_key rq' = rq_idempotency_key rq →
    ∃ row, db_states db2 !! st_run_id s = Some row ∧
      create_run cfg' env' rq' db2 =
        if decide (rq_request_hash rq' = rq_request_hash rq) then Ok ((sr_body row, true), db2)
        else Err (StateConflictError "Idempotency-Key is used for another request").
Proof.
  intros Hr H db2 cfg' env' rq' Hs Ec Ew Ek.
  assert (reachable db1) as Hr1 by (eapply reachable_step; [done|by econstructor]).
  pose proof (reachable_steps _ _ Hr1 Hs) as Hr2.
  destruct (reachable_states_ok _ Hr2) as [Hwf2 Hv2].
  assert (∃ r, db_idempotency db1 !! (rq_client_id rq, WorkloadKind_value (rq_workload_kind rq),
      rq_idempotency_key rq) = Some r ∧ ir_run_id r = st_run_id s ∧
      ir_request_hash r = rq_request_hash rq) as (r & Hk & Er & Eh).
  { destruct (create_run_ok _ _ _ _ _ _ _ H) as [(_ & -> & r & Hk & Hh & Hst)|(_ & Hn & -> & _)].
    - exists r. split; [done|]. split; [|done]. apply state_in_ok in Hst as (row & Hrow & _ & ->).
      destruct (reachable_states_ok _ Hr) as [Hwf _]. symmetry. apply (Hwf _ _ Hrow).
    - eexists. split; [apply lookup_insert_eq|]. split; [|done]. cbn. symmetry.
      apply (initial_state_ok _ _ _ _ (rn_state _ _ _ _ _ _ _ Hn)). }
  apply (steps_keep_idempotency _ _ Hs) in Hk.
  destruct (reachable_owned _ Hr2 _ _ Hk) as [row Hrow]. rewrite Er in Hrow. exists row.
  split; [done|].
  rewrite (create_run_known cfg' env' rq' db2 r (sr_body row)).
  - rewrite Eh. by destruct (decide (rq_request_hash rq' = _)), (decide (_ = rq_request_hash rq')).
  - by rewrite Ec, Ew, Ek.
  - rewrite Er. apply state_in_ok. eauto.
Qed.

(** ** The row of [runs] *)

Definition projected (db : Db) : Prop :=
  ∀ run row r, db_states db !! run = Some row → db_runs db !! run = Some r →
    project_run (sr_body row) r = r.

Lemma project_run_idem s r : project_run s (project_run s r) = project_run s r.
Proof. by destruct r. Qed.

(** Writing a snapshot and projecting it. *)
Lemma projected_write db db' run s q m :
  projected db → db_states db' = <[run := state_row s q]> (db_states db) →
  (m = db_runs db ∨ ∃ r, m = <[run := r]> (db_runs db)) →
  db_runs db' = alter (project_run s) run m → projected db'.
Proof.
  intros Hp Es Em Er run' row r. rewrite Es, Er.
  destruct (decide (run' = run)) as [->|Hne].
  - rewrite lookup_insert_eq, lookup_alter_eq. intros [= <-] (r0 & Hr0 & ->)%fmap_Some. cbn.
    apply project_run_idem.
  - rewrite lookup_insert_ne, lookup_alter_ne by done. intros Hrow Hr. apply (Hp run' row r Hrow).
    destruct Em as [->|[x ->]]; [done|]. by rewrite lookup_insert_ne in Hr.
Qed.

Lemma projected_same db db' :
  db_states db' = db_states db → db_runs db' = db_runs db → projected db → projected db'.
Proof. unfold projected. intros -> ->. done. Qed.

Lemma step_projected db db' :
  states_wf db → gateway_step db db' → projected db → projected db'.
Proof.
  intros Hwf Hs Hp. destruct Hs as [cfg gate env c r d d' Hc H|cfg env rq r d d' H
    |cfg env rq s d d' H|gate env o o' d d' H|gate env i s o d d' H|d d' H].
  - apply apply_ok in H as [_ [[-> _]|(state & o & db1 & F)]]; [done|].
    destruct (fresh_stepped _ _ _ _ _ _ _ _ _ Hwf F) as (row & _ & S).
    apply (projected_write _ _ _ _ _ (db_runs d) Hp (sp_states _ _ _ _ _ _ _ S)); [by left|].
    apply (sp_runs _ _ _ _ _ _ _ S).
  - destruct r as [s b]. apply create_run_ok in H as [(_ & -> & _)|(_ & Hn & _)]; [done|].
    destruct (rn_runs _ _ _ _ _ _ _ Hn) as (m & Hm & Er).
    apply (projected_write _ _ _ _ _ m Hp (rn_states _ _ _ _ _ _ _ Hn)); [|done].
    destruct Hm as [->| ->]; eauto.
  - apply create_state_ok in H as [[-> _]|Hn]; [done|].
    destruct (rn_runs _ _ _ _ _ _ _ Hn) as (m & Hm & Er).
    apply (projected_write _ _ _ _ _ m Hp (rn_states _ _ _ _ _ _ _ Hn)); [|done].
    destruct Hm as [->| ->]; eauto.
  - pose proof (observation_states _ _ _ _ _ _ H) as E1.
    apply (materialize_rel (same_part db_runs)) in H; [|done]. by apply (projected_same d).
  - pose proof (published_states _ _ _ _ _ _ _ H) as E1.
    apply (mark_published_rel (same_part db_runs)) in H; [|done]. by apply (projected_same d).
  - by apply dispatcher_redelivered in H as (dl & da & ob & ->).
Qed.

Lemma reachable_projected db : reachable db → projected db.
Proof.
  intros Hr. assert (reachable db ∧ projected db) as [_ H]; [|exact H]. revert db Hr.
  apply reachable_ind'.
  - intros d Hi. split; [by exists d|]. destruct Hi as (sinks & gens & ->).
    intros run row r H. cbn in H. by rewrite lookup_empty in H.
  - intros d d' [Hr Hp] Hs. split; [by eapply reachable_step|].
    destruct (reachable_states_ok _ Hr) as [Hwf _]. by eapply step_projected.
Qed.

(** In every reachable store the row of [runs] is the
    projection of the snapshot of its Run: the status shown to clients, the
    answer (only of a Run that succeeded), the error, the two machine states
    and the revision all come from the same snapshot. *)
Lemma run_projection db run row r :
  reachable db → db_states db !! run = Some row → db_runs db !! run = Some r →
  let s := sr_body row in
  ru_status r = projected_run_status s ∧ ru_task_state r = Some (st_task_state s) ∧
  ru_execution_state r = sr_execution_state row ∧ ru_state_revision r = st_revision s ∧
  ru_error r = st_error s ∧ ru_started_at r = st_started_at s ∧ ru_finished_at r = st_finished_at s ∧
  ru_recovery_required r = sr_recovery_required row ∧
  ru_terminal_target r = st_terminal_target s ∧
  (ru_answer r ≠ None → st_task_state s = TS_SUCCEEDED ∧ ru_answer r = st_result_summary s).
Proof.
  intros Hr Hrow Hrun s. pose proof (reachable_projected _ Hr _ _ _ Hrow Hrun) as E.
  destruct (reachable_states_ok _ Hr) as [Hwf _]. destruct (Hwf _ _ Hrow) as [_ ->].
  fold s in E. rewrite <- E. unfold project_run. cbn. split_and!; try done.
  intros Ha. case_decide; done.
Qed.

(** ** Observations *)

(** The content of a materialized observation. *)
Definition observation_content (o : MaterializedToolObservation) :=
  (ob_observation_id o, ob_run_id o, ob_operation_id o, ob_attempt_id o, ob_tool_call_id o,
   ob_position o, ob_name o, ob_arguments o, ob_status o, ob_finalized_content o, ob_content_hash o,
   ob_created_at o).

(** How the row of an observation may change: not at all, or once, from
    materialized to published. *)
Definition observation_moves (r r' : ObservationRow) : Prop :=
  r' = r ∨
  ob_state (nr_body r) ≠ TO_PUBLISHED ∧ ob_state (nr_body r') = TO_PUBLISHED ∧
  is_some (ob_session_record_id (nr_body r')) = true ∧
  observation_content (nr_body r') = observation_content (nr_body r).

Definition observations_grow (db db' : Db) : Prop :=
  ∀ i r, db_observations db !! i = Some r →
    ∃ r', db_observations db' !! i = Some r' ∧ observation_moves r r'.
#[local] Instance observations_grow_preorder : PreOrder observations_grow.
Proof.
  split; [intros ?? r H; exists r; split; [done|by left]|].
  intros x y z H1 H2 i r (r1 & E1 & M1)%H1. apply H2 in E1 as (r2 & E2 & M2). exists r2. split; [done|].
  destruct M1 as [->|(Ha & Hb & Hd & He)]; [done|]. right.
  destruct M2 as [->|(Hf & _)]; [done|]. by destruct Hf.
Qed.

Lemma insert_observation_ok o t db u db' :
  insert_observation o t db = Ok (u, db') →
  db_observations db !! ob_observation_id o = None ∧
  db' = db ⟪ db_observations := <[ob_observation_id o := observation_row o t]> (db_observations db) ⟫.
Proof.
  unfold insert_observation. intros (d & s1 & [-> ->]%tx_gets_ok & H)%tx_bind_ok.
  apply tx_bind_ok in H as ([] & s1 & [Ha ->]%abort_if_ok & H). abort_inv H.
  apply tx_modify_ok in H as ->. split; [|done].
  apply orb_false_iff in Ha as [Ha _]. by destruct (db_observations db !! _).
Qed.

Lemma check_observation_owner_db o db u db' : check_observation_owner o db = Ok (u, db') → db' = db.
Proof.
  intros H. assert (tx_rel eq (check_observation_owner o)) as Hr; [|by apply Hr in H].
  unfold check_observation_owner. tx_frame.
Qed.

Lemma materialize_ok gate env o o' db db' :
  materialize_tool_observation gate env o db = Ok (o', db') →
  ob_content_hash o = sha256_hex (ob_finalized_content o) ∧
  ((db' = db ∧ ∃ row, db_observations db !! ob_observation_id o = Some row ∧ o' = nr_body row ∧
      same_observation o' o = true) ∨
   (o' = o ∧ db_observations db !! ob_observation_id o = None ∧
    db' = db ⟪ db_observations := <[ob_observation_id o := observation_row o (env_now env)]>
                 (db_observations db) ⟫)).
Proof.
  unfold materialize_tool_observation. intros ([] & s1 & [_ ->]%tx_lift_ok & H)%tx_bind_ok.
  apply tx_bind_ok in H as ([] & s1 & [Hh%dec_stable ->]%reject_ok & H). split; [done|].
  apply tx_bind_ok in H as ([] & s1 & ->%check_observation_owner_db & H).
  apply tx_bind_ok in H as (d & s1 & [-> ->]%tx_gets_ok & H).
  destruct (db_observations db !! _) as [row|] eqn:E.
  - apply tx_bind_ok in H as (x & s1 & [[_ ->]%checked_ok ->]%tx_lift_ok & H).
    apply tx_bind_ok in H as ([] & s1 & [Hs ->]%require_ok & H). apply tx_ret_ok in H as [<- <-].
    left. split; [done|]. by exists row.
  - apply tx_bind_ok in H as ([] & s1 & [_ ->]%insert_observation_ok & H).
    apply tx_ret_ok in H as [<- <-]. by right.
Qed.

(** A published observation passes its validator. *)
Lemma published_valid gate env i s o db db' :
  mark_tool_observation_published gate env i s db = Ok (o, db') →
  MaterializedToolObservation_valid o = true.
Proof.
  unfold mark_tool_observation_published. intros ([] & s1 & [_ ->]%tx_lift_ok & H)%tx_bind_ok.
  apply tx_bind_ok in H as (d & s1 & [-> ->]%tx_gets_ok & H).
  apply tx_bind_ok in H as (row & s1 & [_ ->]%tx_lift_ok & H).
  apply tx_bind_ok in H as (x & s1 & [[Hv ->]%checked_ok ->]%tx_lift_ok & H). case_decide as Hs.
  - apply tx_bind_ok in H as ([] & s1 & [_ ->]%reject_ok & H). by apply tx_ret_ok in H as [<- _].
  - cbv zeta in H. apply tx_bind_ok in H as ([] & s1 & [_ ->]%require_ok & H).
    apply tx_bind_ok in H as ([] & s1 & ->%tx_modify_ok & H). apply tx_ret_ok in H as [<- _].
    unfold MaterializedToolObservation_valid in *. cbn. rewrite !andb_true_iff in *.
    destruct_and?. split_and!; try done. lia.
Qed.

Lemma published_ok gate env i s o db db' :
  mark_tool_observation_published gate env i s db = Ok (o, db') →
  ∃ row, db_observations db !! i = Some row ∧
    ((db' = db ∧ ob_state (nr_body row) = TO_PUBLISHED ∧
      ob_session_record_id (nr_body row) = Some s ∧ o = nr_body row) ∨
     (ob_state (nr_body row) ≠ TO_PUBLISHED ∧ ob_state o = TO_PUBLISHED ∧
      ob_session_record_id o = Some s ∧ observation_content o = observation_content (nr_body row) ∧
      ∃ row', nr_body row' = o ∧ db_observations db' = <[i := row']> (db_observations db))).
Proof.
  unfold mark_tool_observation_published. intros ([] & s1 & [_ ->]%tx_lift_ok & H)%tx_bind_ok.
  apply tx_bind_ok in H as (d & s1 & [-> ->]%tx_gets_ok & H).
  apply tx_bind_ok in H as (row & s1 & [Hrow%res_of_option_ok ->]%tx_lift_ok & H).
  apply tx_bind_ok in H as (x & s1 & [[_ ->]%checked_ok ->]%tx_lift_ok & H). exists row.
  split; [done|]. case_decide as Hs.
  - apply tx_bind_ok in H as ([] & s1 & [He%dec_stable ->]%reject_ok & H).
    apply tx_ret_ok in H as [<- <-]. by left.
  - cbv zeta in H. apply tx_bind_ok in H as ([] & s1 & [_ ->]%require_ok & H).
    apply tx_bind_ok in H as ([] & s1 & ->%tx_modify_ok & H). apply tx_ret_ok in H as [<- <-].
    right. split; [done|]. split; [done|]. split; [done|]. split; [done|]. eexists. split; [|cbn; reflexivity]. done.
Qed.

Lemma step_observations db db' : gateway_step db db' → observations_grow db db'.
Proof.
  assert (∀ d d', db_observations d' = db_observations d → observations_grow d d') as Hsame.
  { intros d d' E i r H. exists r. rewrite E. split; [done|by left]. }
  destruct 1 as [cfg gate env c r d d' Hc H|cfg env rq r d d' H
    |cfg env rq s d d' H|gate env o o' d d' H|gate env i s o d d' H|d d' H].
  - apply Hsame. apply apply_quiet in H. unfold same_part, quiet in H. by injection H.
  - apply Hsame. by apply create_run_observations in H.
  - apply Hsame. apply create_state_quiet in H. unfold same_part, quiet in H. by injection H.
  - apply materialize_ok in H as [_ [(-> & _)|(_ & Hn & ->)]]; [by apply Hsame|].
    intros i r Hr. exists r. cbn. split; [|by left]. rewrite lookup_insert_ne; [done|]. congruence.
  - apply published_ok in H as (row & Hrow & [(-> & _)|(Ha & Hb & Hc & Hd & row' & <- & E)]);
      [by apply Hsame|].
    intros j r Hr. rewrite E. destruct (decide (j = i)) as [->|Hne].
    + rewrite lookup_insert_eq. exists row'. split; [done|]. right.
      assert (r = row) as -> by congruence. by rewrite Hc.
    + exists r. rewrite lookup_insert_ne by done. split; [done|by left].
  - apply Hsame. by apply dispatcher_redelivered in H as (dl & da & ob & ->).
Qed.

Lemma steps_observations db db' : rtc gateway_step db db' → observations_grow db db'.
Proof.
  induction 1 as [|x y z Hxy _ IH]; [done|]. etrans; [|exact IH]. by apply step_observations.
Qed.

(** The content of a tool result is fixed when it is
    materialized and matches its hash: whatever happens later, materializing
    the same observation again either fails or returns the first content and
    writes nothing. *)
Lemma observation_stable gate env o o' db db1 :
  materialize_tool_observation gate env o db = Ok (o', db1) →
  ob_content_hash o = sha256_hex (ob_finalized_content o) ∧
  ∀ db2 gate' env' o2 o3 db3, rtc gateway_step db1 db2 →
    ob_observation_id o2 = ob_observation_id o →
    materialize_tool_observation gate' env' o2 db2 = Ok (o3, db3) →
    db3 = db2 ∧ observation_content o3 = observation_content o'.
Proof.
  intros H. pose proof H as [Hh Hm]%materialize_ok. split; [done|].
  intros db2 gate' env' o2 o3 db3 Hs Hid H2.
  assert (∃ r, db_observations db1 !! ob_observation_id o = Some r ∧ nr_body r = o') as (r & Hr & <-).
  { destruct Hm as [(-> & row & Hrow & -> & _)|(-> & _ & ->)]; [by exists row|].
    cbn. eexists. split; [apply lookup_insert_eq|done]. }
  apply (steps_observations _ _ Hs) in Hr as (r' & Hr' & Hmv). rewrite <- Hid in Hr'.
  apply materialize_ok in H2 as [_ [(-> & row & Hrow & -> & _)|(_ & Hn & _)]]; [|congruence].
  split; [done|]. assert (row = r') as -> by congruence.
  by destruct Hmv as [->|(_ & _ & _ & ?)].
Qed.

(** An observation is published once: after it has been
    published under a session record, publishing it again under that record,
    at any later time, returns the same observation and writes nothing, and
    publishing it under another record is refused. *)
Lemma published_once gate env i s o db db1 :
  mark_tool_observation_published gate env i s db = Ok (o, db1) →
  ∀ db2 env' s', rtc gateway_step db1 db2 →
    mark_tool_observation_published (Ok tt) env' i s' db2 =
      if decide (s' = s) then Ok (o, db2)
      else Err (StateConflictError "Published Tool observation record_id conflict").
Proof.
  intros H db2 env' s' Hs.
  assert (∃ r, db_observations db1 !! i = Some r ∧ nr_body r = o ∧ ob_state o = TO_PUBLISHED ∧
    ob_session_record_id o = Some s ∧ MaterializedToolObservation_valid o = true)
    as (r & Hr & <- & Hp & Hse & Hv).
  { pose proof (published_valid _ _ _ _ _ _ _ H) as Hv.
    apply published_ok in H as (row & Hrow & [(-> & Ha & Hb & ->)|(_ & Ha & Hb & _ & row' & E & Hd)]).
    - by exists row.
    - exists row'. rewrite Hd. split; [apply lookup_insert_eq|done]. }
  apply (steps_observations _ _ Hs) in Hr as (r' & Hr' & Hmv).
  destruct Hmv as [->|(Hc & _)]; [|done].
  unfold mark_tool_observation_published, tx_lift, tx_gets, mbind, tx_bind. rewrite Hr'. cbn.
  unfold checked. rewrite Hv. cbn. rewrite decide_True by done. unfold reject. rewrite Hse.
  destruct (decide (s' = s)) as [->|Hne].
  - by rewrite decide_False by (intros Hn; by apply Hn).
  - rewrite decide_True; [done|congruence].
Qed.

(** ** Witnesses *)

Lemma demo_run_row : ∃ r, db_runs (demo 3) !! "run-1" = Some r.
Proof.
  assert (is_some (db_runs (demo 3) !! "run-1") = true) as H by vm_cast_no_check (@eq_refl bool true).
  destruct (db_runs (demo 3) !! "run-1") as [r|]; [by exists r|done].
Qed.

Definition demo_observation (content : string) : MaterializedToolObservation :=
  mkMaterializedToolObservation "observation-1" "run-1" None None "call-1" "tool-call-1" 0 "read"
    [("path", JStr "notes.md")] OB_SUCCESS content (sha256_hex content) TO_MATERIALIZED None 0
    (demo_time 1) None.

(** Materialize in the store of the new Run, publish, repeat both. *)
Definition demo_materialize (n : nat) (content : string) (db : Db) :=
  materialize_tool_observation (Ok tt) (demo_env n) (demo_observation content) db.
Definition demo_publish (n : nat) (record : string) (db : Db) :=
  mark_tool_observation_published (Ok tt) (demo_env n) "observation-1" record db.

(** Two successive transactions, when both succeed. *)
Definition both_ok {A B} (m1 : Tx Db A) (m2 : Tx Db B) (db : Db) : bool :=
  match m1 db with Ok (_, db1) => is_ok (m2 db1) | Err _ => false end.
Lemma both_ok_eq {A B} (m1 : Tx Db A) (m2 : Tx Db B) db :
  both_ok m1 m2 db = true → ∃ a db1 b db2, m1 db = Ok (a, db1) ∧ m2 db1 = Ok (b, db2).
Proof.
  unfold both_ok. destruct (m1 db) as [[a db1]|]; [|done].
  intros (b & db2 & E)%ok_eq. by exists a, db1, b, db2.
Qed.

Lemma demo_materialized :
  both_ok (demo_materialize 40 "text") (demo_materialize 41 "text") (demo 0) = true.
Proof. vm_cast_no_check (@eq_refl bool true). Qed.
Lemma demo_published :
  both_ok (demo_materialize 40 "text") (demo_publish 42 "record-1") (demo 0) = true.
Proof. vm_cast_no_check (@eq_refl bool true). Qed.

