(* ===== verification/Delivery.v ===== *)
(** * Delivery: what the outbox guarantees

    Every delivery is attempted in the order of its stream, by one worker at a
    time, and is settled once; an outbox row is complete exactly when every
    required sink has the event; a restart returns what was in flight to the
    queue. *)

From stdpp Require Import relations.
From S2P Require Import Prelude PyText PyTime AgentTypes AgentState Sanitizer Commands.
From S2P Require Import OperationReduce FinalizeEvidence Store Events Operations FinalizeOps.
From S2P Require Import Controller Frames Outcomes Apply Observations Outbox OutboxFacts.
From S2P Require Import System Demo StatesInv Lifecycle Records Replay Ledger Streams.

#[local] Open Scope Z_scope.

(** ** The invariant *)

(** The attempt a delivery is at. *)
Definition current_attempt (k : string) (d : DeliveryRow) (st : DeliveryAttemptStatus) (db : Db) : Prop :=
  ∃ i a, db_delivery_attempts db !! i = Some a ∧ dt_delivery_id a = k ∧
    dt_attempt_no a = dl_attempt_count d ∧ dt_status a = st.

Record delivery_ok (db : Db) (k : string) (d : DeliveryRow) : Prop := {
  do_outbox : dl_outbox_id d = outbox_id_of (dl_event_id d);
  do_owner : is_Some (db_outbox db !! dl_outbox_id d);
  do_event : is_Some (db_events db !! dl_event_id d);
  do_count : 0 ≤ dl_attempt_count d;
  do_pending : dl_status d = DS_PENDING → dl_attempt_count d = 0;
  do_delivering : dl_status d = DS_DELIVERING → current_attempt k d DA_DELIVERING db;
  do_delivered : dl_status d = DS_DELIVERED → current_attempt k d DA_SUCCEEDED db;
  do_dead : dl_status d = DS_DEAD_LETTERED → current_attempt k d DA_FAILED db
}.

(** An attempt belongs to a delivery; one that is in flight or succeeded is its last. *)
Record attempt_ok (db : Db) (i : string) (a : DeliveryAttemptRow) : Prop := {
  ao_key : i = delivery_attempt_id (dt_delivery_id a) (dt_attempt_no a);
  ao_delivery : ∃ d, db_deliveries db !! dt_delivery_id a = Some d ∧
      1 ≤ dt_attempt_no a ≤ dl_attempt_count d ∧
      (dt_status a = DA_DELIVERING → dl_status d = DS_DELIVERING ∧ dt_attempt_no a = dl_attempt_count d) ∧
      (dt_status a = DA_SUCCEEDED → dl_status d = DS_DELIVERED ∧ dt_attempt_no a = dl_attempt_count d)
}.

(** An outbox row is complete exactly when no required delivery is outstanding. *)
Record outbox_ok (db : Db) (k : string) (o : OutboxRow) : Prop := {
  oo_key : k = outbox_id_of (ox_event_id o);
  oo_event : is_Some (db_events db !! ox_event_id o);
  oo_complete : is_some (ox_completed_at o) = negb (outstanding (ox_event_id o) db)
}.

Record queue_ok (db : Db) : Prop := {
  qo_deliveries : ∀ k d, db_deliveries db !! k = Some d → delivery_ok db k d;
  qo_attempts : ∀ i a, db_delivery_attempts db !! i = Some a → attempt_ok db i a;
  qo_outbox : ∀ k o, db_outbox db !! k = Some o → outbox_ok db k o
}.

Lemma outstanding_spec ev db :
  outstanding ev db = true ↔
  ∃ k d, db_deliveries db !! k = Some d ∧ dl_event_id d = ev ∧ dl_required d = true ∧
    dl_status d ≠ DS_DELIVERED.
Proof.
  unfold outstanding. rewrite anyrow_true. split.
  - intros (k & d & Hd & Hp). rewrite !andb_true_iff, bool_decide_eq_true in Hp.
    destruct Hp as [[??] Hs%negb_true_iff%bool_decide_eq_false]. eauto 10.
  - intros (k & d & Hd & He & Hq & Hs). exists k, d. split; [done|].
    by rewrite !andb_true_iff, negb_true_iff, bool_decide_eq_true, bool_decide_eq_false.
Qed.

Lemma outstanding_iff ev db db' :
  (∀ k d, db_deliveries db !! k = Some d → dl_event_id d = ev → dl_required d = true →
     dl_status d ≠ DS_DELIVERED → ∃ d', db_deliveries db' !! k = Some d' ∧ dl_event_id d' = ev ∧
       dl_required d' = true ∧ dl_status d' ≠ DS_DELIVERED) →
  outstanding ev db = true → outstanding ev db' = true.
Proof.
  intros H. rewrite !outstanding_spec. intros (k & d & Hd & He & Hq & Hs).
  destruct (H k d Hd He Hq Hs) as (d' & ? & ? & ? & ?). eauto 10.
Qed.

(** ** One delivery and its attempt change *)

(** The statuses of a delivery and of its last attempt agree. *)
Record agrees (s : DeliveryStatus) (st : DeliveryAttemptStatus) : Prop := {
  ag_started : s ≠ DS_PENDING;
  ag_delivering : s = DS_DELIVERING ↔ st = DA_DELIVERING;
  ag_delivered : s = DS_DELIVERED ↔ st = DA_SUCCEEDED;
  ag_dead : s = DS_DEAD_LETTERED → st = DA_FAILED
}.

Record one_change (id : string) (d d' : DeliveryRow) (i : string) (a' : DeliveryAttemptRow)
    (db db' : Db) : Prop := {
  oc_row : db_deliveries db !! id = Some d;
  oc_frozen : frozen d' = frozen d;
  oc_count : dl_attempt_count d ≤ dl_attempt_count d' ∧ 1 ≤ dl_attempt_count d';
  oc_deliveries : db_deliveries db' = <[id := d']> (db_deliveries db);
  oc_attempts : db_delivery_attempts db' = <[i := a']> (db_delivery_attempts db);
  oc_ids : dt_delivery_id a' = id ∧ dt_attempt_no a' = dl_attempt_count d' ∧
      i = delivery_attempt_id id (dl_attempt_count d');
  oc_same : ∀ a, db_delivery_attempts db !! i = Some a → dt_delivery_id a = id;
  oc_agrees : agrees (dl_status d') (dt_status a');
  oc_others : ∀ k a, db_delivery_attempts db !! k = Some a → dt_delivery_id a = id → k ≠ i →
      dt_status a ≠ DA_DELIVERING ∧ dt_status a ≠ DA_SUCCEEDED;
  oc_events : db_events db' = db_events db;
  oc_outbox : ∀ k o, db_outbox db !! k = Some o → is_Some (db_outbox db' !! k);
  oc_rows : ∀ k o, db_outbox db' !! k = Some o → outbox_ok db' k o
}.

Lemma one_change_ok id d d' i a' db db' : queue_ok db → one_change id d d' i a' db db' → queue_ok db'.
Proof.
  intros Q C. destruct (oc_ids _ _ _ _ _ _ _ C) as (Hdi & Hno & Hi).
  pose proof (oc_agrees _ _ _ _ _ _ _ C) as [Hst Hdl Hdd Hde].
  pose proof (oc_frozen _ _ _ _ _ _ _ C) as Hf. unfold frozen in Hf. injection Hf as F1 F2 F3 F4 F5 F6.
  destruct (oc_count _ _ _ _ _ _ _ C) as [Hle H1].
  assert (∀ k, is_Some (db_outbox db !! k) → is_Some (db_outbox db' !! k)) as Hox.
  { intros k [o Ho]. by apply (oc_outbox _ _ _ _ _ _ _ C k o). }
  assert (∀ k x st, k ≠ id → current_attempt k x st db → current_attempt k x st db') as Hcur.
  { intros k x st Hne (j & a & Ha & Hk & ?). exists j, a.
    rewrite (oc_attempts _ _ _ _ _ _ _ C), lookup_insert_ne; [done|].
    intros <-. apply Hne. rewrite <- Hk. by apply (oc_same _ _ _ _ _ _ _ C). }
  assert (∀ st, dt_status a' = st → current_attempt id d' st db') as Hmine.
  { intros st Hs. exists i, a'. rewrite (oc_attempts _ _ _ _ _ _ _ C), lookup_insert_eq. by split_and!. }
  split; [| |apply (oc_rows _ _ _ _ _ _ _ C)].
  - intros k x. rewrite (oc_deliveries _ _ _ _ _ _ _ C). intros [[<- <-]|[Hne Hx]]%lookup_insert_Some.
    + destruct (qo_deliveries _ Q _ _ (oc_row _ _ _ _ _ _ _ C)).
      split; rewrite ?F1, ?F2, ?(oc_events _ _ _ _ _ _ _ C); auto; try lia.
      * intros Hs. destruct (Hst Hs).
      * intros Hs. by apply Hmine, Hdl.
      * intros Hs. by apply Hmine, Hdd.
    + destruct (qo_deliveries _ Q _ _ Hx). split; rewrite ?(oc_events _ _ _ _ _ _ _ C); auto.
  - intros j a. rewrite (oc_attempts _ _ _ _ _ _ _ C). intros [[<- <-]|[Hne Ha]]%lookup_insert_Some.
    + split; [by rewrite Hdi, Hno|]. exists d'.
      rewrite Hdi, (oc_deliveries _ _ _ _ _ _ _ C), lookup_insert_eq, Hno.
      split; [done|]. split; [lia|]. split; intros Hs; (split; [|done]); tauto.
    + destruct (qo_attempts _ Q _ _ Ha) as [Hk (x & Hx & Hb & Ha1 & Ha2)]. split; [done|].
      rewrite (oc_deliveries _ _ _ _ _ _ _ C).
      destruct (decide (dt_delivery_id a = id)) as [E|Hn].
      * rewrite E in *. exists d'. rewrite lookup_insert_eq. split; [done|].
        pose proof (oc_row _ _ _ _ _ _ _ C) as Hr. rewrite Hx in Hr. injection Hr as ->.
        split; [lia|]. destruct (oc_others _ _ _ _ _ _ _ C j a Ha E ltac:(done)) as [N1 N2].
        by split; intros Hs.
      * exists x. by rewrite lookup_insert_ne.
Qed.

(** ** The dispatcher's steps *)

(** An outbox row stays right when what is outstanding does not change. *)
Lemma outbox_ok_same db db' k o :
  outbox_ok db k o → db_events db' = db_events db →
  (outstanding (ox_event_id o) db' = outstanding (ox_event_id o) db) → outbox_ok db' k o.
Proof. intros [] E Ho. split; [done|by rewrite E|by rewrite Ho]. Qed.

Lemma outstanding_change id d d' db db' ev :
  db_deliveries db !! id = Some d → db_deliveries db' = <[id := d']> (db_deliveries db) →
  frozen d' = frozen d →
  (dl_event_id d = ev → (dl_status d' = DS_DELIVERED ↔ dl_status d = DS_DELIVERED)) →
  outstanding ev db' = outstanding ev db.
Proof.
  intros Hd E Hf Hs. unfold frozen in Hf. injection Hf as _ F2 _ F4 _ _.
  apply eq_true_iff_eq. split; apply outstanding_iff; intros k x Hx He Hq Hn.
  - rewrite E in Hx. apply lookup_insert_Some in Hx as [[<- <-]|[_ Hx]]; [|by exists x].
    exists d. rewrite <- F2, <- F4. rewrite F2 in He. specialize (Hs He). rewrite F2. tauto.
  - rewrite E. destruct (decide (k = id)) as [->|Hne].
    + rewrite Hd in Hx. injection Hx as <-. exists d'. rewrite lookup_insert_eq, F2, F4.
      specialize (Hs He). tauto.
    + exists x. by rewrite lookup_insert_ne.
Qed.

Lemma claim_queue cfg env id rev r db db' :
  queue_ok db → claim cfg env id rev db = Ok (r, db') → queue_ok db'.
Proof.
  intros Q H. apply claim_ok in H as [[_ ->]|(d & c & _ & _ & C)]; [done|].
  pose proof (cl_row _ _ _ _ _ _ _ C) as Hd. destruct (qo_deliveries _ Q _ _ Hd) as [].
  destruct (cl_ids _ _ _ _ _ _ _ C) as (_ & _ & Hi & _).
  pose proof (cl_number _ _ _ _ _ _ _ C).
  assert (dl_status d ≠ DS_DELIVERED ∧ dl_status d ≠ DS_DELIVERING) as [Hn1 Hn2].
  { pose proof (cl_claimable _ _ _ _ _ _ _ C) as Hc. unfold claimable in Hc.
    apply andb_true_iff in Hc as [Hc%bool_decide_eq_true _]. elem_cases Hc; by rewrite Hc. }
  eapply one_change_ok; [exact Q|]. split; [exact Hd| | |apply (cl_deliveries _ _ _ _ _ _ _ C)
    |apply (cl_attempts _ _ _ _ _ _ _ C)|..]; cbn.
  - done.
  - lia.
  - by rewrite Hi.
  - intros a Ha. by rewrite (cl_fresh _ _ _ _ _ _ _ C) in Ha.
  - by split.
  - intros k a Ha Ea _. split; [by apply (cl_idle _ _ _ _ _ _ _ C k a)|]. intros Hs.
    destruct (qo_attempts _ Q _ _ Ha) as [_ (x & Hx & _ & _ & H2)]. rewrite Ea in Hx.
    assert (x = d) as -> by congruence. by destruct (H2 Hs).
  - apply (cl_events _ _ _ _ _ _ _ C).
  - intros k o. rewrite (cl_outbox _ _ _ _ _ _ _ C). by eauto.
  - intros k o. rewrite (cl_outbox _ _ _ _ _ _ _ C). intros Ho.
    apply (outbox_ok_same db); [by apply (qo_outbox _ Q)|apply (cl_events _ _ _ _ _ _ _ C)|].
    eapply outstanding_change; [exact Hd|apply (cl_deliveries _ _ _ _ _ _ _ C)|done|]. cbn. naive_solver.
Qed.

(** Settling a claim: the outbox rows are the caller's business. *)
Lemma settling_change c st f a d db db' :
  queue_ok db → claim_of c db → settling c st f a d db db' →
  frozen (f d) = frozen d → dl_attempt_count (f d) = dl_attempt_count d →
  agrees (dl_status (f d)) st →
  (∀ k o, db_outbox db !! k = Some o → is_Some (db_outbox db' !! k)) →
  (∀ k o, db_outbox db' !! k = Some o → outbox_ok db' k o) → queue_ok db'.
Proof.
  intros Q (a0 & d0 & Ha0 & Hdi & Hno & Hd0 & _) S Hf Hc Hag Ho1 Ho2.
  pose proof (sg_attempt _ _ _ _ _ _ _ S) as Ha. assert (a0 = a) as -> by congruence.
  pose proof (sg_delivery _ _ _ _ _ _ _ S) as Hd. assert (d0 = d) as -> by congruence.
  destruct (sg_attempts _ _ _ _ _ _ _ S) as (a' & Eat & Hst & Hd' & Hn').
  destruct (qo_attempts _ Q _ _ Ha) as [Hk (x & Hx & Hb & Hact & _)].
  rewrite Hdi in Hx. assert (x = d) as -> by congruence.
  destruct (Hact (sg_active _ _ _ _ _ _ _ S)) as [Hds Hcur].
  eapply one_change_ok; [exact Q|]. split; [exact Hd| | |apply (sg_deliveries _ _ _ _ _ _ _ S)
    |exact Eat|..]; cbn; rewrite ?Hc.
  - exact Hf.
  - lia.
  - split_and!; [congruence|congruence|by rewrite Hk, Hdi, Hcur].
  - intros b Hb'. congruence.
  - by rewrite Hst.
  - intros k b Hb' Eb Hne. destruct (qo_attempts _ Q _ _ Hb') as [Hkb (y & Hy & _ & B1 & B2)].
    rewrite Eb in Hy. assert (y = d) as -> by congruence. split; intros Hs.
    + destruct (B1 Hs) as [_ E]. apply Hne. by rewrite Hkb, Hk, Eb, Hdi, E, Hcur.
    + destruct (B2 Hs). congruence.
  - apply (sg_events _ _ _ _ _ _ _ S).
  - done.
  - done.
Qed.

Lemma failure_queue cfg env c e u db db' :
  queue_ok db → claim_of c db → finish_failure cfg env c e db = Ok (u, db') → queue_ok db'.
Proof.
  intros Q Hc H. apply finish_failure_ok in H as (a & d & delay & next & _ & _ & S & Ho).
  apply (settling_change _ _ _ _ _ _ _ Q Hc S); try done.
  - unfold set_undelivered. cbn. destruct (is_dead _ _); by split.
  - intros k o. rewrite Ho. eauto.
  - intros k o. rewrite Ho. intros Hk.
    apply (outbox_ok_same db); [by apply (qo_outbox _ Q)|apply (sg_events _ _ _ _ _ _ _ S)|].
    eapply outstanding_change; [apply (sg_delivery _ _ _ _ _ _ _ S)
      |apply (sg_deliveries _ _ _ _ _ _ _ S)|done|].
    destruct (sg_delivering _ _ _ _ _ _ _ S) as [-> _]. intros _. cbn. by destruct (is_dead _ _).
Qed.

(** A completed row: complete before, or nothing was outstanding any more. *)
Lemma complete_if_ok p t db k o :
  k = outbox_id_of (ox_event_id o) → is_Some (db_events db !! ox_event_id o) →
  (is_some (ox_completed_at o) = true → outstanding (ox_event_id o) db = false) →
  (outstanding (ox_event_id o) db = false → is_some (ox_completed_at o) = false → p o = true) →
  outbox_ok db k (complete_if p t db o).
Proof.
  intros Hk He H1 H2. unfold complete_if, completes.
  destruct (outstanding (ox_event_id o) db) eqn:Eo, (ox_completed_at o) eqn:Ec; cbn in *.
  - by specialize (H1 eq_refl).
  - rewrite andb_false_r. split; [done|done|by rewrite Eo, Ec].
  - rewrite andb_false_r. split; [done|done|by rewrite Eo, Ec].
  - rewrite (H2 eq_refl eq_refl). split; [done|done|cbn]. by rewrite Eo.
Qed.

Lemma success_queue env c u db db' :
  queue_ok db → claim_of c db → finish_success env c db = Ok (u, db') → queue_ok db'.
Proof.
  intros Q Hc H. apply finish_success_ok in H as (a & d & S & Ho).
  assert (dl_event_id d = cd_event_id c) as Hev.
  { destruct Hc as (? & d0 & _ & _ & _ & Hd0 & He & _).
    pose proof (sg_delivery _ _ _ _ _ _ _ S). congruence. }
  apply (settling_change _ _ _ _ _ _ _ Q Hc S); try done.
  - intros k o Hk. rewrite Ho, lookup_fmap, Hk. by eexists.
  - intros k o'. rewrite Ho. intros (o & <- & Hk)%lookup_fmap_Some.
    destruct (qo_outbox _ Q _ _ Hk) as [Hid He Hcm].
    apply complete_if_ok; [done|by rewrite (sg_events _ _ _ _ _ _ _ S)|..].
    + rewrite Hcm. intros Hn%negb_true_iff. apply not_true_iff_false. intros Ht.
      apply not_true_iff_false in Hn. apply Hn. revert Ht. apply outstanding_iff. intros i x Hx E1 E2 E3.
      rewrite (sg_deliveries _ _ _ _ _ _ _ S) in Hx.
      apply lookup_insert_Some in Hx as [[<- <-]|[_ Hx]]; [done|by exists x].
    + rewrite Hcm. intros Hn Hs%negb_false_iff. apply bool_decide_eq_true.
      destruct (decide (ox_event_id o = cd_event_id c)) as [|Hne]; [done|]. exfalso.
      assert (outstanding (ox_event_id o) db' = outstanding (ox_event_id o) db) as E; [|congruence].
      eapply outstanding_change; [apply (sg_delivery _ _ _ _ _ _ _ S)
        |apply (sg_deliveries _ _ _ _ _ _ _ S)|done|congruence].
Qed.

(** What a restart does to a row: only what was in flight changes. *)
Lemma reconciled_back t n db db' k d' :
  queue_ok db → reconciled t n db db' → db_deliveries db' !! k = Some d' →
  ∃ d, db_deliveries db !! k = Some d ∧
    frozen d' = frozen d ∧ dl_attempt_count d' = dl_attempt_count d ∧
    (dl_status d' = dl_status d ∧ dl_status d ≠ DS_DELIVERING ∨
     dl_status d' = DS_RETRYING ∧ dl_status d = DS_DELIVERING).
Proof.
  intros Q R. rewrite (rc_deliveries _ _ _ _ R). intros (d & Hd & ->)%fmap_Some_1. exists d. split; [done|].
  assert (dl_status d = DS_DELIVERING → in_flight k db = true) as Hfl.
  { intros Hs. destruct (do_delivering _ _ _ (qo_deliveries _ Q _ _ Hd) Hs) as (i & a & Ha & Hk & _ & Hst).
    apply in_flight_spec. eauto. }
  unfold set_retrying. destruct (in_flight k db); [case_decide|]; (split; [done|]); (split; [done|]);
    [by right|by left|]. left. split; [done|]. intros Hs. by specialize (Hfl Hs).
Qed.

Lemma reconciled_outstanding t n db db' ev :
  queue_ok db → reconciled t n db db' → outstanding ev db' = outstanding ev db.
Proof.
  intros Q R. apply eq_true_iff_eq. split; apply outstanding_iff; intros k x Hx He Hq Hn.
  - destruct (reconciled_back _ _ _ _ _ _ Q R Hx) as (d & Hd & Hf & _ & Hs). exists d. unfold frozen in Hf.
    injection Hf as _ F2 _ F4 _ _. split_and!; [done|congruence|congruence|].
    destruct Hs as [[E _]|[_ E]]; congruence.
  - rewrite (rc_deliveries _ _ _ _ R), Hx. eexists. split; [done|]. destruct (in_flight k db); [|done].
    unfold set_retrying. by case_decide.
Qed.

(** Nothing completes at a restart: what could complete had completed. *)
Lemma reconciled_outbox t n db db' :
  queue_ok db → reconciled t n db db' → db_outbox db' = db_outbox db.
Proof.
  intros Q R. rewrite (rc_outbox _ _ _ _ R). apply map_eq. intros k. rewrite lookup_fmap.
  destruct (db_outbox db !! k) as [o|] eqn:Ho; [|done]. cbn. f_equal.
  pose proof (oo_complete _ _ _ (qo_outbox _ Q _ _ Ho)) as Hc.
  unfold complete_if, completes. rewrite (reconciled_outstanding _ _ _ _ _ Q R).
  by destruct (ox_completed_at o), (outstanding _ _).
Qed.

Lemma reconcile_queue env n db db' :
  queue_ok db → reconcile_startup env db = Ok (n, db') → queue_ok db'.
Proof.
  intros Q R%reconcile_ok. set (t := de_now env) in *.
  pose proof (rc_events _ _ _ _ R) as Ee. pose proof (rc_deliveries _ _ _ _ R) as Ed.
  assert (∀ k d st, st ≠ DA_DELIVERING → current_attempt k d st db →
    ∀ d', dl_attempt_count d' = dl_attempt_count d → current_attempt k d' st db') as Hcur.
  { intros k d st Hne (i & a & Ha & Hk & Hn & Hst) d' Hc. exists i, a.
    rewrite (rc_attempts _ _ _ _ R), lookup_fmap, Ha. cbn. unfold set_interrupted.
    rewrite decide_False by congruence. split_and!; congruence. }
  split.
  - intros k d' Hd'. destruct (reconciled_back _ _ _ _ _ _ Q R Hd') as (d & Hd & Hf & Hc & Hs).
    unfold frozen in Hf. injection Hf as F1 F2 F3 F4 F5 F6.
    destruct (qo_deliveries _ Q _ _ Hd). split; rewrite ?F1, ?F2, ?Ee, ?Hc; try done.
    + by rewrite (reconciled_outbox _ _ _ _ Q R).
    + intros Hp. destruct Hs as [[E _]|[E _]]; [|congruence]. apply do_pending0. congruence.
    + intros Hp. destruct Hs as [[E Hn]|[E _]]; congruence.
    + intros Hp. destruct Hs as [[E Hn]|[E _]]; [|congruence].
      apply (Hcur k d); [done| |done]. apply do_delivered0. congruence.
    + intros Hp. destruct Hs as [[E Hn]|[E _]]; [|congruence].
      apply (Hcur k d); [done| |done]. apply do_dead0. congruence.
  - intros i a'. rewrite (rc_attempts _ _ _ _ R), lookup_fmap. intros (a & Ha & ->)%fmap_Some_1.
    destruct (qo_attempts _ Q _ _ Ha) as [Hk (d & Hd & Hb & H1 & H2)].
    assert (dt_delivery_id (set_interrupted t a) = dt_delivery_id a ∧
            dt_attempt_no (set_interrupted t a) = dt_attempt_no a) as [E1 E2]
      by (unfold set_interrupted; by case_decide).
    split; [by rewrite E1, E2|]. rewrite E1, E2, Ed, Hd. eexists. split; [done|].
    assert (dl_attempt_count (if in_flight (dt_delivery_id a) db then set_retrying t d else d)
      = dl_attempt_count d) as -> by (unfold set_retrying; destruct (in_flight _ _); [case_decide|]; done).
    split; [done|]. unfold set_interrupted. case_decide as Ha2; cbn; [done|].
    split; intros Hs; [done|]. destruct (H2 Hs) as [E3 E4]. split; [|done].
    destruct (in_flight _ _); [|done]. unfold set_retrying. by rewrite decide_False by congruence.
  - intros k o. rewrite (reconciled_outbox _ _ _ _ Q R). intros Ho.
    apply (outbox_ok_same db); [by apply (qo_outbox _ Q)|done|by eapply reconciled_outstanding].
Qed.

Lemma dispatcher_queue db db' : dispatcher_step db db' → queue_ok db → queue_ok db'.
Proof.
  intros Hs Q. destruct Hs; eauto using claim_queue, success_queue, failure_queue, reconcile_queue.
Qed.

(** ** A new event *)

Lemma event_queue now s ty p c k ca co db e db' :
  event_written now s ty p c k ca co db e db' →
  db_delivery_attempts db' = db_delivery_attempts db → queue_ok db → queue_ok db'.
Proof.
  intros W Ea Q. set (eid := ge_event_id e) in *. set (oid := outbox_id_of eid).
  pose proof (ew_deliveries _ _ _ _ _ _ _ _ _ _ _ W) as [Hkept Hsink Honly].
  pose proof (ew_outbox _ _ _ _ _ _ _ _ _ _ _ W) as Eo. fold eid oid in Hsink, Honly, Eo.
  pose proof (ew_events _ _ _ _ _ _ _ _ _ _ _ W) as Ee. fold eid in Ee.
  pose proof (ew_fresh_id _ _ _ _ _ _ _ _ _ _ _ W) as Hfe. fold eid in Hfe.
  pose proof (ew_fresh_outbox _ _ _ _ _ _ _ _ _ _ _ W) as Hfo. fold eid oid in Hfo.
  assert (∀ i, is_Some (db_events db !! i) → is_Some (db_events db' !! i) ∧ i ≠ eid) as He.
  { intros i [x Hx]. assert (i ≠ eid) as Hne by congruence. rewrite Ee, lookup_insert_ne by done. eauto. }
  assert (∀ i, is_Some (db_outbox db !! i) → is_Some (db_outbox db' !! i) ∧ i ≠ oid) as Ho.
  { intros i [x Hx]. assert (i ≠ oid) as Hne by congruence. rewrite Eo, lookup_insert_ne by done. eauto. }
  assert (∀ k d st, current_attempt k d st db → current_attempt k d st db') as Hcur
    by (intros ??? (i & a & Ha & ?); exists i, a; by rewrite Ea).
  split.
  - intros i d Hd. destruct (Honly i d Hd) as [Hx|(sid & sk & _ & -> & ->)].
    + destruct (qo_deliveries _ Q _ _ Hx). split; auto.
      * by apply Ho.
      * by apply He.
    + split; cbn; try done.
      * fold oid. rewrite Eo, lookup_insert_eq. by eexists.
      * rewrite Ee, lookup_insert_eq. by eexists.
  - intros i a. rewrite Ea. intros Ha. destruct (qo_attempts _ Q _ _ Ha) as [Hk (d & Hd & Hx)].
    split; [done|]. exists d. split; [by apply Hkept|done].
  - intros i o. rewrite Eo. intros [[<- <-]|[Hne Hi]]%lookup_insert_Some.
    + split; [by case_match|case_match; cbn; rewrite Ee, lookup_insert_eq; by eexists|].
      assert (outstanding eid db' = has_required oid (db_deliveries db')) as E.
      { apply eq_true_iff_eq. rewrite outstanding_spec. unfold has_required. rewrite anyrow_true.
        split.
        - intros (j & d & Hd & E1 & E2 & _). exists j, d. split; [done|]. rewrite E2, andb_true_r.
          apply bool_decide_eq_true. destruct (Honly j d Hd) as [Hx|(sid & sk & _ & _ & ->)]; [|done].
          by rewrite (do_outbox _ _ _ (qo_deliveries _ Q _ _ Hx)), E1.
        - intros (j & d & Hd & Hp). apply andb_true_iff in Hp as [Hp%bool_decide_eq_true Hq].
          exists j, d. split; [done|]. destruct (Honly j d Hd) as [Hx|(sid & sk & _ & _ & ->)]; [|done].
          pose proof (do_owner _ _ _ (qo_deliveries _ Q _ _ Hx)) as [y Hy]. congruence. }
      destruct (has_required oid (db_deliveries db')) eqn:Hr; cbn; by rewrite E.
    + destruct (qo_outbox _ Q _ _ Hi) as [Hid Hev Hcm]. split; [done|by apply He|].
      rewrite Hcm. f_equal. apply eq_true_iff_eq.
      split; apply outstanding_iff; intros j d Hd E1 E2 E3.
      * exists d. by rewrite (Hkept j d Hd).
      * destruct (Honly j d Hd) as [Hx|(sid & sk & _ & _ & ->)]; [by exists d|].
        apply He in Hev as [_ Hn]. by destruct Hn.
Qed.

Lemma write_event_attempts n s ty p c k ca co :
  tx_rel (same_part db_delivery_attempts) (write_event n s ty p c k ca co).
Proof. apply write_event_rel; [apply _|done..]. Qed.

Lemma queue_same db db' :
  db_deliveries db' = db_deliveries db → db_outbox db' = db_outbox db →
  db_delivery_attempts db' = db_delivery_attempts db → db_events db' = db_events db →
  keeps queue_ok db db'.
Proof.
  intros E1 E2 E3 E4 [Q1 Q2 Q3]. split.
  - intros k d. rewrite E1. intros Hd. destruct (Q1 k d Hd).
    split; unfold current_attempt in *; rewrite ?E2, ?E3, ?E4; done.
  - intros i a. rewrite E3. intros Ha. destruct (Q2 i a Ha) as [Hk H]. split; [done|]. by rewrite E1.
  - intros k o. rewrite E2. intros Ho. destruct (Q3 k o Ho) as [Hk He Hc].
    split; [done|by rewrite E4|]. unfold outstanding. by rewrite E1.
Qed.

Lemma queue_closed : closed (keeps queue_ok).
Proof.
  closed_by_same queue_same.
  - intros n s ty p c k ca co Hpay db e db' W Q. pose proof (write_event_attempts _ _ _ _ _ _ _ _ _ _ _ W).
    eapply event_queue; [by apply write_event_ok|done|done].
  - intros db db' H Q. by eapply dispatcher_queue.
Qed.

Lemma reachable_queue db : reachable db → queue_ok db.
Proof.
  revert db. apply reachable_keeps; [apply queue_closed|].
  intros d (sinks & gens & ->). split; intros k x H; cbn in H; by rewrite lookup_empty in H.
Qed.

(** ** Delivery in the order of the stream *)

(** [p] of event [pe] comes before [d] of event [e] at the same sink. *)
Definition comes_before (p : DeliveryRow) (pe : EventRow) (d : DeliveryRow) (e : EventRow) : Prop :=
  dl_sink_id p = dl_sink_id d ∧ er_stream_id pe = er_stream_id e ∧
  er_stream_sequence pe < er_stream_sequence e.

Lemma blocked_false d e db :
  blocked d e db = false ↔
  ∀ k p pe, db_deliveries db !! k = Some p → db_events db !! dl_event_id p = Some pe →
    comes_before p pe d e → settled p = true.
Proof.
  unfold blocked. rewrite anyrow_false. split.
  - intros H k p pe Hp He (E1 & E2 & E3). specialize (H k p Hp). rewrite He in H.
    rewrite E1, E2, !bool_decide_true in H by done. rewrite (proj2 (Z.ltb_lt _ _) E3) in H.
    by destruct (settled p).
  - intros H k p Hp. destruct (db_events db !! dl_event_id p) as [pe|] eqn:He; [|done].
    apply not_true_iff_false. rewrite !andb_true_iff, !bool_decide_eq_true, Z.ltb_lt.
    intros [[[E1 E2] E3] E4]. by rewrite (H k p pe Hp He) in E4.
Qed.

(** Nothing earlier is open once a delivery has been attempted. *)
Definition in_order (db : Db) : Prop :=
  ∀ k d e, db_deliveries db !! k = Some d → db_events db !! dl_event_id d = Some e →
    1 ≤ dl_attempt_count d → blocked d e db = false.

Lemma settled_stays d d' : delivery_moves d d' → settled d = true → d' = d.
Proof.
  intros [->|(_ & He & _)]; [done|]. unfold settled. rewrite bool_decide_eq_true. intros Hs.
  elem_cases Hs; rewrite Hs in He; inversion He; naive_solver.
Qed.

Lemma frozen_moves d d' : delivery_moves d d' → frozen d' = frozen d.
Proof. by intros [->|(? & _)]. Qed.

(** Deliveries that move keep a delivery unblocked. *)
Lemma unblocked_moves db db' d d' e :
  rows_move delivery_moves (db_deliveries db) (db_deliveries db') → db_events db' = db_events db →
  frozen d' = frozen d → blocked d e db = false → blocked d' e db' = false.
Proof.
  intros Hm Ee Hf. rewrite !blocked_false. intros H k p' pe Hp' Hpe (E1 & E2 & E3).
  destruct (rows_move_bwd _ _ _ _ _ Hm Hp') as (p & Hp & Hmv).
  pose proof (frozen_moves _ _ Hmv) as Hfp. unfold frozen in Hf, Hfp.
  injection Hf as _ _ F _ _ _. injection Hfp as _ G1 G2 _ _ _.
  rewrite Ee, G1 in Hpe. assert (settled p = true) as Hs.
  { apply (H k p pe Hp Hpe). split_and!; congruence. }
  by rewrite (settled_stays _ _ Hmv Hs).
Qed.

Lemma dispatcher_in_order db db' : dispatcher_step db db' → in_order db → in_order db'.
Proof.
  intros Hs Ho k d' e Hd' He Hc. destruct (dispatcher_moves _ _ Hs) as [Hm _].
  assert (db_events db' = db_events db) as Ee.
  { by apply dispatcher_redelivered in Hs as (dl & da & ob & ->). }
  destruct (rows_move_bwd _ _ _ _ _ Hm Hd') as (d & Hd & Hmv).
  pose proof (frozen_moves _ _ Hmv) as Hf.
  assert (dl_event_id d' = dl_event_id d) as E1 by (unfold frozen in Hf; congruence).
  rewrite Ee, E1 in He. apply (unblocked_moves db db' d); [done|done|done|].
  destruct (decide (1 ≤ dl_attempt_count d)) as [Hle|Hgt]; [by apply (Ho k d e)|].
  assert (dl_status d' = DS_DELIVERING) as Hst.
  { destruct Hmv as [->|(_ & _ & _ & Hn)]; [lia|]. case_decide; [done|lia]. }
  destruct Hs as [cfg env id rev r db db' Hu H|env c u db db' _ H|cfg env c er u db db' _ H|env n db db' H].
  - apply claim_ok in H as [[_ ->]|(x & c & _ & _ & C)]; [cbn in *; rewrite Hd in Hd'; injection Hd' as <-; lia|].
    rewrite (cl_deliveries _ _ _ _ _ _ _ C) in Hd'.
    apply lookup_insert_Some in Hd' as [[<- _]|[_ Hd']]; [by apply Hu|].
    rewrite Hd in Hd'. injection Hd' as <-. lia.
  - apply finish_success_ok in H as (a & x & S & _). rewrite (sg_deliveries _ _ _ _ _ _ _ S) in Hd'.
    apply lookup_insert_Some in Hd' as [[_ <-]|[_ Hd']]; [done|]. rewrite Hd in Hd'. injection Hd' as <-. lia.
  - apply finish_failure_ok in H as (a & x & dl & nx & _ & _ & S & _).
    rewrite (sg_deliveries _ _ _ _ _ _ _ S) in Hd'.
    apply lookup_insert_Some in Hd' as [[_ <-]|[_ Hd']]; [|rewrite Hd in Hd'; injection Hd' as <-; lia].
    cbn in Hst. by destruct (is_dead _ _).
  - apply reconcile_ok in H as R. rewrite (rc_deliveries _ _ _ _ R), Hd in Hd'. cbn in Hd'.
    injection Hd' as <-. destruct (in_flight k db); [|lia]. unfold set_retrying in *.
    case_decide; [done|lia].
Qed.

(** A new event is the last of its stream: it comes before nothing. *)
Lemma event_unblocked now s ty p c k ca co db e db' i d ev :
  event_written now s ty p c k ca co db e db' → streams_ok db → queue_ok db →
  db_deliveries db !! i = Some d → db_events db !! dl_event_id d = Some ev →
  blocked d ev db = false → blocked d ev db' = false.
Proof.
  intros W S Q Hd He Hb. set (eid := ge_event_id e) in *.
  pose proof (ew_deliveries _ _ _ _ _ _ _ _ _ _ _ W) as [_ _ Honly]. fold eid in Honly.
  pose proof (ew_events _ _ _ _ _ _ _ _ _ _ _ W) as Ee. fold eid in Ee.
  pose proof (ew_fresh_id _ _ _ _ _ _ _ _ _ _ _ W) as Hfe. fold eid in Hfe.
  rewrite blocked_false in *. intros j x xe Hj Hxe (E1 & E2 & E3).
  destruct (Honly j x Hj) as [Hy|(sid & sk & _ & _ & ->)].
  - destruct (do_event _ _ _ (qo_deliveries _ Q _ _ Hy)) as [z Hz].
    rewrite Ee, lookup_insert_ne in Hxe by congruence. by apply (Hb j x xe).
  - cbn in Hxe. rewrite Ee, lookup_insert_eq in Hxe. injection Hxe as <-. exfalso.
    pose proof (ss_bound _ S _ _ He) as [_ Hle]. rewrite <- E2 in Hle. cbn in E3, Hle.
    rewrite (ew_event _ _ _ _ _ _ _ _ _ _ _ W) in E3. cbn in E3.
    unfold next_sequence, stream_length in *. lia.
Qed.

Lemma event_in_order now s ty p c k ca co db e db' :
  event_written now s ty p c k ca co db e db' → streams_ok db → queue_ok db → in_order db → in_order db'.
Proof.
  intros W S Q Ho i d ev Hd He Hc.
  destruct (da_only _ _ _ _ _ (ew_deliveries _ _ _ _ _ _ _ _ _ _ _ W) i d Hd)
    as [Hx|(sid & sk & _ & _ & ->)]; [|done].
  destruct (do_event _ _ _ (qo_deliveries _ Q _ _ Hx)) as [y Hy].
  pose proof (ew_fresh_id _ _ _ _ _ _ _ _ _ _ _ W) as Hfe.
  rewrite (ew_events _ _ _ _ _ _ _ _ _ _ _ W), lookup_insert_ne in He by congruence.
  eapply event_unblocked; [done|done|done|exact Hx|done|]. by apply (Ho i d ev).
Qed.

Lemma order_closed :
  closed (keeps (λ db, (sequences_nonneg db ∧ streams_ok db) ∧ queue_ok db ∧ in_order db)).
Proof.
  assert (∀ db db', db_deliveries db' = db_deliveries db → db_outbox db' = db_outbox db →
    db_delivery_attempts db' = db_delivery_attempts db → db_events db' = db_events db →
    db_sequences db' = db_sequences db →
    keeps (λ db, (sequences_nonneg db ∧ streams_ok db) ∧ queue_ok db ∧ in_order db) db db') as Hsame.
  { intros db db' E1 E2 E3 E4 E5 (P & Q & O). split; [by apply (streams_keep db)|].
    split; [by apply (queue_same db db')|]. unfold in_order, blocked in *. by rewrite E1, E4. }
  closed_by_same Hsame.
  - intros n s ty p c k ca co Hpay db e db' W (P & Q & O).
    split; [by apply (cl_event _ streams_closed _ _ _ _ _ _ _ _ Hpay) in W; apply W|].
    split; [by apply (cl_event _ queue_closed _ _ _ _ _ _ _ _ Hpay) in W; apply W|].
    destruct P. eapply event_in_order; [by apply write_event_ok|done..].
  - intros run db u db' W (P & Q & O). pose proof W as [_ ->]%insert_sequence_ok.
    split; [by apply (cl_sequence _ streams_closed) in W; apply W|].
    split; [by eapply queue_same; [..|exact Q]|done].
  - intros db db' H (P & Q & O). split; [by apply (cl_dispatcher _ streams_closed _ _ H)|].
    split; [by eapply dispatcher_queue|by eapply dispatcher_in_order].
Qed.

Lemma reachable_in_order db : reachable db → in_order db.
Proof.
  intros Hr. apply (reachable_keeps _ order_closed) in Hr; [apply Hr|].
  intros d Hi. assert (reachable d) as Hd by (exists d; split; [done|apply rtc_refl]).
  split; [by apply reachable_streams|]. split; [by apply reachable_queue|].
  destruct Hi as (sinks & gens & ->). intros k x e H. cbn in H. by rewrite lookup_empty in H.
Qed.

(** ** Batches: candidates stay ready, claims stay valid

    [drain_once] reads its batch once and works through it while other
    transactions commit; what it read stays good. *)

Lemma due_unblocked now db x :
  x ∈ due_deliveries now db → unblocked (du_delivery_id x) db.
Proof.
  unfold due_deliveries. intros Hx%elem_of_take. destruct Hx as (i & Hx & _).
  apply list_elem_of_lookup_2 in Hx. rewrite merge_sort_Permutation in Hx.
  apply list_elem_of_omap in Hx as ([id d] & Hin & Hrow). apply elem_of_map_to_list in Hin.
  unfold due_row in Hrow. apply bind_Some in Hrow as (o & _ & Hrow).
  apply bind_Some in Hrow as (e & He & Hrow). destruct (_ && _) eqn:E; [|done].
  injection Hrow as <-. cbn. apply andb_true_iff in E as [_ Hb%negb_true_iff].
  intros d' e' Hd' He'. congruence.
Qed.

(** A delivery, later: the same policy, and the same row once it is settled. *)
Record delivery_later (d d' : DeliveryRow) : Prop := {
  lt_frozen : frozen d' = frozen d;
  lt_count : dl_attempt_count d ≤ dl_attempt_count d';
  lt_settled : settled d = true → d' = d
}.
#[local] Instance delivery_later_preorder : PreOrder delivery_later.
Proof.
  split; [done|]. intros x y z [F1 C1 S1] [F2 C2 S2]. split; [congruence|lia|].
  intros Hs. rewrite (S1 Hs) in S2. by apply S2.
Qed.
Lemma moves_later d d' : delivery_moves d d' → delivery_later d d'.
Proof.
  intros H. split; [by apply frozen_moves| |by apply settled_stays].
  destruct H as [->|(_ & _ & _ & ->)]; [lia|]. case_decide; lia.
Qed.

(** What every transaction keeps of a delivery. *)
Definition delivery_kept (db db' : Db) : Prop :=
  (∀ k d, db_deliveries db !! k = Some d → ∃ d', db_deliveries db' !! k = Some d' ∧ delivery_later d d') ∧
  (∀ c, claim_of c db → claim_of c db') ∧
  (∀ id, is_Some (db_deliveries db !! id) → unblocked id db → unblocked id db').

Definition good (db : Db) : Prop := (sequences_nonneg db ∧ streams_ok db) ∧ queue_ok db ∧ in_order db.

Lemma reachable_good db : reachable db → good db.
Proof.
  intros Hr. split; [by apply reachable_streams|].
  split; [by apply reachable_queue|by apply reachable_in_order].
Qed.

Lemma kept_same db db' :
  db_deliveries db' = db_deliveries db → db_delivery_attempts db' = db_delivery_attempts db →
  db_events db' = db_events db → delivery_kept db db'.
Proof.
  intros E1 E2 E3. unfold delivery_kept, claim_of, unblocked, blocked. rewrite E1, E2, E3.
  split; [|done]. intros k d Hd. by exists d.
Qed.

Lemma claim_of_moves c db db' :
  claim_of c db → rows_move delivery_moves (db_deliveries db) (db_deliveries db') →
  (∀ i a, db_delivery_attempts db !! i = Some a → ∃ a', db_delivery_attempts db' !! i = Some a' ∧
     dt_delivery_id a' = dt_delivery_id a ∧ dt_attempt_no a' = dt_attempt_no a) → claim_of c db'.
Proof.
  intros (a & d & Ha & E1 & E2 & Hd & E3 & E4) Hm Hat.
  destruct (Hat _ _ Ha) as (a' & Ha' & F1 & F2).
  destruct (rows_move_fwd _ _ _ _ _ Hm Hd) as (d' & Hd' & Hf%frozen_moves).
  unfold frozen in Hf. injection Hf as _ G1 G2 _ _ _. exists a', d'. split_and!; congruence.
Qed.

Lemma dispatcher_kept db db' : dispatcher_step db db' → delivery_kept db db'.
Proof.
  intros Hs. destruct (dispatcher_moves _ _ Hs) as [Hm _].
  assert (db_events db' = db_events db) as Ee
    by (by apply dispatcher_redelivered in Hs as (dl & da & ob & ->)).
  split.
  { intros k d Hd. destruct (rows_move_fwd _ _ _ _ _ Hm Hd) as (d' & Hd' & Hl%moves_later). by exists d'. }
  split.
  - intros c Hc. apply (claim_of_moves _ db); [done|done|]. intros i a Ha.
    destruct Hs as [cfg env id rev r db db' _ H|env x u db db' _ H|cfg env x er u db db' _ H|env n db db' H].
    + apply claim_ok in H as [[_ ->]|(y & z & _ & _ & C)]; [by exists a|].
      rewrite (cl_attempts _ _ _ _ _ _ _ C), lookup_insert_ne; [by exists a|].
      intros <-. by rewrite (cl_fresh _ _ _ _ _ _ _ C) in Ha.
    + apply finish_success_ok in H as (b & y & S & _).
      destruct (sg_attempts _ _ _ _ _ _ _ S) as (b' & -> & _ & E1 & E2).
      pose proof (sg_attempt _ _ _ _ _ _ _ S) as Hb.
      destruct (decide (i = cd_attempt_id x)) as [->|Hne]; [|rewrite lookup_insert_ne by done; by exists a].
      rewrite lookup_insert_eq. exists b'. split_and!; congruence.
    + apply finish_failure_ok in H as (b & y & dl & nx & _ & _ & S & _).
      destruct (sg_attempts _ _ _ _ _ _ _ S) as (b' & -> & _ & E1 & E2).
      pose proof (sg_attempt _ _ _ _ _ _ _ S) as Hb.
      destruct (decide (i = cd_attempt_id x)) as [->|Hne]; [|rewrite lookup_insert_ne by done; by exists a].
      rewrite lookup_insert_eq. exists b'. split_and!; congruence.
    + apply reconcile_ok in H as R. rewrite (rc_attempts _ _ _ _ R), lookup_fmap, Ha. cbn.
      eexists. split; [done|]. unfold set_interrupted. by case_decide.
  - intros id _ Hu d' e Hd' He. destruct (rows_move_bwd _ _ _ _ _ Hm Hd') as (d & Hd & Hmv).
    pose proof (frozen_moves _ _ Hmv) as Hf. pose proof Hf as Hf'. unfold frozen in Hf'.
    injection Hf' as _ G _ _ _ _. rewrite Ee, G in He.
    apply (unblocked_moves db db' d); [done|done|done|]. by apply Hu.
Qed.

Lemma event_kept now s ty p c k ca co db e db' :
  event_written now s ty p c k ca co db e db' →
  db_delivery_attempts db' = db_delivery_attempts db → good db → delivery_kept db db'.
Proof.
  intros W Ea [[Hn S] [Q O]].
  pose proof (ew_deliveries _ _ _ _ _ _ _ _ _ _ _ W) as [Hkept _ Honly].
  pose proof (ew_events _ _ _ _ _ _ _ _ _ _ _ W) as Ee.
  pose proof (ew_fresh_id _ _ _ _ _ _ _ _ _ _ _ W) as Hfe.
  split; [|split].
  - intros i d Hd. exists d. split; [by apply Hkept|done].
  - intros x (a & d & Ha & E1 & E2 & Hd & E3). exists a, d. rewrite Ea. split_and!; [done..|by apply Hkept| |]; tauto.
  - intros id [d Hd] Hu d' ev Hd' He. assert (d' = d) as -> by (rewrite (Hkept _ _ Hd) in Hd'; congruence).
    destruct (do_event _ _ _ (qo_deliveries _ Q _ _ Hd)) as [y Hy].
    rewrite Ee, lookup_insert_ne in He by congruence.
    eapply event_unblocked; [exact W|done|done|exact Hd|done|]. by apply Hu.
Qed.

Definition good_kept (db db' : Db) : Prop := good db → good db' ∧ delivery_kept db db'.
#[local] Instance good_kept_preorder : PreOrder good_kept.
Proof.
  split; [intros db H; split; [done|by apply kept_same]|].
  intros x y z H1 H2 Gx. destruct (H1 Gx) as [Gy (A1 & B1 & C1)]. destruct (H2 Gy) as [Gz (A2 & B2 & C2)].
  split; [done|]. split; [|split; [by auto|]].
  - intros k d Hd. destruct (A1 k d Hd) as (d1 & Hd1 & L1). destruct (A2 k d1 Hd1) as (d2 & Hd2 & L2).
    exists d2. split; [done|by etrans].
  - intros id Hs Hu. apply C2; [|by apply C1]. destruct Hs as [d Hd].
    destruct (A1 id d Hd) as (d1 & Hd1 & _). eauto.
Qed.

Lemma good_kept_closed : closed good_kept.
Proof.
  assert (∀ db db', db_deliveries db' = db_deliveries db → db_outbox db' = db_outbox db →
    db_delivery_attempts db' = db_delivery_attempts db → db_events db' = db_events db →
    db_sequences db' = db_sequences db → good_kept db db') as Hsame.
  { intros db db' E1 E2 E3 E4 E5 (P & Q & O). split; [|by apply kept_same]. split; [by apply (streams_keep db)|].
    split; [by apply (queue_same db db')|]. unfold in_order, blocked in *. by rewrite E1, E4. }
  closed_by_same Hsame.
  - intros n s ty p c k ca co Hpay db e db' W G. split; [by apply (cl_event _ order_closed _ _ _ _ _ _ _ _ Hpay) in W; apply W|].
    pose proof (write_event_attempts _ _ _ _ _ _ _ _ _ _ _ W).
    eapply event_kept; [by apply write_event_ok|done|done].
  - intros run db u db' W G. split; [by apply (cl_sequence _ order_closed) in W; apply W|].
    apply insert_sequence_ok in W as [_ ->]. by apply kept_same.
  - intros db db' H G. split; [by apply (cl_dispatcher _ order_closed _ _ H)|by apply dispatcher_kept].
Qed.

Lemma steps_kept db db' : reachable db → rtc gateway_step db db' → delivery_kept db db'.
Proof.
  intros Hr Hs. assert (good_kept db db') as H; [|by apply H, reachable_good].
  clear Hr. induction Hs as [|x y z Hxy _ IH]; [done|].
  etrans; [|exact IH]. by apply (gateway_step_rel _ good_kept_closed).
Qed.
