(* ===== verification/Outgoing.v ===== *)
(** * Outgoing: the guarantees of the outbox dispatcher

    The claims on deliveries, read off the invariants of Delivery.v; the
    dispatchers with what they hold between their transactions ([World]), so
    that a delivery may be claimed long after it was found due; and a concrete
    run of the dispatcher on the first events of the demo. *)

From stdpp Require Import relations.
From S2P Require Import Prelude PyText PyTime AgentTypes AgentState Sanitizer Commands.
From S2P Require Import OperationReduce FinalizeEvidence Store Events Operations FinalizeOps.
From S2P Require Import Controller Frames Outcomes Apply Observations Outbox OutboxFacts.
From S2P Require Import System Demo StatesInv Lifecycle Records Replay Ledger Streams Delivery.

#[local] Open Scope Z_scope.

Lemma leb_refl s : String.leb s s = true.
Proof. induction s as [|c s IH]; [done|]. unfold String.leb in *. cbn. unfold Ascii.compare. by rewrite N.compare_refl. Qed.

(** ** A batch of [drain_once] *)

Lemma claim_claim_of cfg env id rev c db db' :
  claim cfg env id rev db = Ok (Some c, db') → claim_of c db'.
Proof.
  intros H. apply claim_ok in H as [[[=] _]|(d & c' & [= <-] & _ & C)].
  destruct (cl_ids _ _ _ _ _ _ _ C) as (E0 & E1 & _ & _ & E2 & E3).
  eexists _, _. rewrite (cl_attempts _ _ _ _ _ _ _ C), (cl_deliveries _ _ _ _ _ _ _ C), E0, !lookup_insert_eq.
  split; [done|]. by rewrite E1, E2, E3.
Qed.

Lemma due_delivery now db x :
  x ∈ due_deliveries now db → ∃ d, db_deliveries db !! du_delivery_id x = Some d ∧
    dl_revision d = du_revision x ∧ claimable now d = true.
Proof.
  unfold due_deliveries. intros Hx%elem_of_take. destruct Hx as (i & Hx & _).
  apply list_elem_of_lookup_2 in Hx. rewrite merge_sort_Permutation in Hx.
  apply list_elem_of_omap in Hx as ([id d] & Hin & Hrow). apply elem_of_map_to_list in Hin.
  unfold due_row in Hrow. apply bind_Some in Hrow as (o & _ & Hrow).
  apply bind_Some in Hrow as (e & He & Hrow). destruct (_ && _) eqn:E; [|done].
  injection Hrow as <-. cbn. apply andb_true_iff in E as [E _]. by exists d.
Qed.

(** What the batch read of a candidate stays true. *)
Definition ready (db : Db) (x : DueDelivery) : Prop :=
  is_Some (db_deliveries db !! du_delivery_id x) ∧ unblocked (du_delivery_id x) db.

Lemma ready_steps db db' x : reachable db → rtc gateway_step db db' → ready db x → ready db' x.
Proof.
  intros Hr Hs [[d Hd] Hu]. destruct (steps_kept _ _ Hr Hs) as (A & _ & C).
  destruct (A _ _ Hd) as (d' & Hd' & _). split; [by exists d'|by apply C].
Qed.

Lemma drain_steps {S} cfg env (sink : ClaimedDelivery → S → SinkAnswer * S) l : ∀ n db st,
  reachable db → Forall (ready db) l → rtc gateway_step db (dr_db (drain cfg env sink l n db st)).
Proof.
  induction l as [|x l IH]; intros n db st Hr Hl; [apply rtc_refl|].
  apply Forall_cons in Hl as [[_ Hu] Hl]. cbn [drain].
  destruct (claim _ _ _ _ db) as [[[c|] db1]|e] eqn:Hc; [| |apply rtc_refl].
  2: { apply claim_ok in Hc as [[_ ->]|(d & c & [=] & _)]. by apply IH. }
  assert (gateway_step db db1) as H1 by (eapply step_dispatcher, ds_claim; [done|exact Hc]).
  apply claim_claim_of in Hc. cbv zeta.
  assert (∀ u db2 st2, dispatcher_step db1 db2 →
    rtc gateway_step db (dr_db (drain cfg env sink l u db2 st2))) as Hnext.
  { intros u db2 st2 H2. assert (rtc gateway_step db db2) as Hs
      by (eapply rtc_l; [exact H1|]; by apply rtc_once, step_dispatcher).
    etrans; [exact Hs|]. apply IH; [by eapply reachable_steps|].
    eapply Forall_impl; [exact Hl|]. intros y. by apply ready_steps. }
  destruct (sink c st) as [[|e|] st1]; [| |by apply rtc_once].
  - destruct (finish_success _ c db1) as [[u db2]|e] eqn:Hf; [|by apply rtc_once].
    by eapply Hnext, ds_success.
  - destruct (finish_failure _ _ c e db1) as [[u db2]|e'] eqn:Hf; [|by apply rtc_once].
    by eapply Hnext, ds_failure.
Qed.

(** ** The system with what its dispatchers have read

    A drain reads the due deliveries once, and claims them one by one in later
    transactions, when the store may have changed.  [wd_past] are the stores
    that were there before, which a drain may have read, and [wd_claims] the
    claims that [_claim] has returned. *)
Record World := mkWorld { wd_db : Db; wd_past : list Db; wd_claims : list ClaimedDelivery }.

Definition seen (w : World) : list Db := wd_db w :: wd_past w.
Definition commit_in (db' : Db) (c : option ClaimedDelivery) (w : World) : World :=
  mkWorld db' (seen w) (option_list c ++ wd_claims w).

Inductive world_step : World → World → Prop :=
| world_apply cfg gate env c r db' w :
    command_valid c = true → apply cfg gate env c (wd_db w) = Ok (r, db') → world_step w (commit_in db' None w)
| world_create_run cfg env rq r db' w :
    create_run cfg env rq (wd_db w) = Ok (r, db') → world_step w (commit_in db' None w)
| world_create_state cfg env rq s db' w :
    create_state cfg env rq (wd_db w) = Ok (s, db') → world_step w (commit_in db' None w)
| world_materialize gate env o o' db' w :
    materialize_tool_observation gate env o (wd_db w) = Ok (o', db') → world_step w (commit_in db' None w)
| world_publish gate env i s o db' w :
    mark_tool_observation_published gate env i s (wd_db w) = Ok (o, db') → world_step w (commit_in db' None w)
| world_claim cfg env now db x c db' w :
    db ∈ seen w → x ∈ due_deliveries now db →
    claim cfg env (du_delivery_id x) (du_revision x) (wd_db w) = Ok (c, db') → world_step w (commit_in db' c w)
| world_success env c u db' w :
    c ∈ wd_claims w → finish_success env c (wd_db w) = Ok (u, db') → world_step w (commit_in db' None w)
| world_failure cfg env c e u db' w :
    c ∈ wd_claims w → finish_failure cfg env c e (wd_db w) = Ok (u, db') → world_step w (commit_in db' None w)
| world_reconcile env n db' w :
    reconcile_startup env (wd_db w) = Ok (n, db') → world_step w (commit_in db' None w).

Definition world_initial (w : World) : Prop := initial (wd_db w) ∧ wd_past w = [] ∧ wd_claims w = [].
Definition world_reachable (w : World) : Prop := ∃ w0, world_initial w0 ∧ rtc world_step w0 w.

(** What was read is still true, so that the steps are those of [gateway_step]. *)
Record world_ok (w : World) : Prop := {
  wo_reachable : reachable (wd_db w);
  wo_past : Forall (λ db, reachable db ∧ rtc gateway_step db (wd_db w)) (wd_past w);
  wo_claims : Forall (λ c, claim_of c (wd_db w)) (wd_claims w)
}.

Lemma world_seen w db : world_ok w → db ∈ seen w → reachable db ∧ rtc gateway_step db (wd_db w).
Proof.
  intros [Hr Hp _] [->|Hdb]%elem_of_cons; [by split|]. rewrite Forall_forall in Hp. by apply Hp.
Qed.

Lemma commit_in_ok db' c w :
  world_ok w → gateway_step (wd_db w) db' → (∀ x, c = Some x → claim_of x db') → world_ok (commit_in db' c w).
Proof.
  intros Hw Hs Hc. pose proof Hw as [Hr Hp Hcl]. pose proof (rtc_once _ _ Hs) as Hss. split; cbn.
  - by eapply reachable_steps.
  - apply Forall_forall. intros db Hdb. destruct (world_seen _ _ Hw Hdb) as [H1 H2]. split; [done|by etrans].
  - destruct (steps_kept _ _ Hr Hss) as (_ & Hk & _). apply Forall_app. split; [|by eapply Forall_impl].
    destruct c as [x|]; cbn; [|done]. constructor; [by apply Hc|done].
Qed.

(** A candidate of an earlier query is not blocked now: nothing before it was
    open then, and nothing that is settled opens again. *)
Lemma candidate_ready w now db x : world_ok w → db ∈ seen w → x ∈ due_deliveries now db → ready (wd_db w) x.
Proof.
  intros Hw Hdb Hx. destruct (world_seen _ _ Hw Hdb) as [Hr Hs]. apply (ready_steps db); [done|done|].
  split; [|by eapply due_unblocked]. destruct (due_delivery _ _ _ Hx) as (d & Hd & _). by exists d.
Qed.

Lemma world_gateway w w' : world_ok w → world_step w w' → gateway_step (wd_db w) (wd_db w') ∧ world_ok w'.
Proof.
  intros Hw Hs. pose proof (wo_claims _ Hw) as Hc. rewrite Forall_forall in Hc.
  assert (∀ db' c, w' = commit_in db' c w → gateway_step (wd_db w) db' → (∀ x, c = Some x → claim_of x db') →
    gateway_step (wd_db w) (wd_db w') ∧ world_ok w') as K by (intros db' c -> H1 H2; split; [done|by apply commit_in_ok]).
  destruct Hs as [| | | | |cfg env now db x c db' w Hdb Hx H| | |]; try (eapply K; [done| |done]).
  6: { eapply K; [done| |].
       - eapply step_dispatcher, ds_claim; [|exact H]. by eapply candidate_ready.
       - intros y ->. by eapply claim_claim_of. }
  - by eapply step_apply.
  - by eapply step_create_run.
  - by eapply step_create_state.
  - by eapply step_materialize.
  - by eapply step_publish.
  - eapply step_dispatcher, ds_success; [by apply Hc|done].
  - eapply step_dispatcher, ds_failure; [by apply Hc|done].
  - by eapply step_dispatcher, ds_reconcile.
Qed.

Lemma world_steps_gateway w w' : world_ok w → rtc world_step w w' → rtc gateway_step (wd_db w) (wd_db w').
Proof.
  intros Hw Hs. induction Hs as [|x y z Hxy _ IH]; [done|]. destruct (world_gateway _ _ Hw Hxy) as [H1 H2].
  eapply rtc_l; [exact H1|by apply IH].
Qed.

Lemma world_reachable_ok w : world_reachable w → world_ok w.
Proof.
  intros (w0 & (Hi & Hp & Hc) & Hs). assert (world_ok w0) as H0.
  { split; [by eexists; split; [|apply rtc_refl]|by rewrite Hp|by rewrite Hc]. }
  clear Hi Hp Hc. induction Hs as [|x y z Hxy _ IH]; [done|]. apply IH. by eapply world_gateway.
Qed.

(** A [drain_once] is such a run: it claims what its query returned, and settles
    the claims it got. *)
Definition candidate (w : World) (x : DueDelivery) : Prop := ∃ now db, db ∈ seen w ∧ x ∈ due_deliveries now db.

Lemma candidate_step db' c w x : candidate w x → candidate (commit_in db' c w) x.
Proof. intros (now & db & Hdb & Hx). exists now, db. split; [by right|done]. Qed.

Lemma drain_world {S} cfg env (sink : ClaimedDelivery → S → SinkAnswer * S) l : ∀ n w st,
  Forall (candidate w) l →
  ∃ w', rtc world_step w w' ∧ wd_db w' = dr_db (drain cfg env sink l n (wd_db w) st).
Proof.
  induction l as [|x l IH]; intros n w st Hl; [by exists w; split; [apply rtc_refl|]|].
  apply Forall_cons in Hl as [(now & db & Hdb & Hx) Hl]. cbn [drain].
  destruct (claim _ _ _ _ (wd_db w)) as [[[c|] db1]|e] eqn:Hc; [| |by exists w; split; [apply rtc_refl|]].
  2: { apply claim_ok in Hc as [[_ ->]|(d & c & [=] & _)]. by apply IH. }
  set (w1 := commit_in db1 (Some c) w). assert (world_step w w1) as H1 by by eapply world_claim.
  assert (Forall (candidate w1) l) as Hl1 by (eapply Forall_impl; [exact Hl|intros y; apply candidate_step]).
  assert (∃ w', rtc world_step w w' ∧ wd_db w' = db1) as Hstop by (exists w1; split; [by apply rtc_once|done]).
  assert (∀ m w2 st2, world_step w1 w2 → Forall (candidate w2) l →
    ∃ w', rtc world_step w w' ∧ wd_db w' = dr_db (drain cfg env sink l m (wd_db w2) st2)) as Hnext.
  { intros m w2 st2 H2 Hl2. destruct (IH m w2 st2 Hl2) as (w' & Hs & E). exists w'. split; [|done].
    eapply rtc_l; [exact H1|]. by eapply rtc_l. }
  assert (c ∈ wd_claims w1) as Hin by (cbn; left). cbv zeta.
  destruct (sink c st) as [[|e|] st1]; [| |exact Hstop].
  - destruct (finish_success _ c db1) as [[u db2]|e] eqn:Hf; [|exact Hstop].
    apply (Hnext _ (commit_in db2 None w1)); [by eapply world_success|].
    eapply Forall_impl; [exact Hl1|intros y; apply candidate_step].
  - destruct (finish_failure _ _ c e db1) as [[u db2]|e'] eqn:Hf; [|exact Hstop].
    apply (Hnext _ (commit_in db2 None w1)); [by eapply world_failure|].
    eapply Forall_impl; [exact Hl1|intros y; apply candidate_step].
Qed.

Lemma drain_once_world {S} cfg paused env (sink : ClaimedDelivery → S → SinkAnswer * S) w st :
  ∃ w', rtc world_step w w' ∧ wd_db w' = dr_db (drain_once cfg paused env sink (wd_db w) st).
Proof.
  unfold drain_once. destruct paused; [by exists w; split; [apply rtc_refl|]|].
  apply drain_world, Forall_forall. intros x Hx. eexists _, (wd_db w). split; [left|exact Hx].
Qed.

(** ** A due delivery can be claimed *)

Lemma event_sound_body db id r :
  reachable db → db_events db !! id = Some r →
  ∃ body, er_canonical_event_json r = Some body ∧ er_canonical_hash r = sha256_hex body.
Proof.
  intros Hr Hi. destruct (reachable_events _ Hr _ _ Hi) as (e & _ & _ & _ & _ & _ & _ & Hb & Hh & _).
  by eexists.
Qed.

Lemma claim_due cfg env id d e body db :
  queue_ok db → db_deliveries db !! id = Some d → claimable (de_now env) d = true →
  db_events db !! dl_event_id d = Some e → er_canonical_event_json e = Some body →
  db_delivery_attempts db !! delivery_attempt_id id (dl_attempt_count d + 1) = None →
  ∃ c db', claim cfg env id (dl_revision d) db = Ok (Some c, db').
Proof.
  intros Q Hd Hc He Hb Hnew. unfold claim, insert_delivery_attempt, tx_gets, mbind, tx_bind, tx_modify.
  rewrite Hd, Z.eqb_refl, Hc. cbn. rewrite He, Hb. cbn. rewrite Hnew. cbn.
  assert (∀ i a, db_delivery_attempts db !! i = Some a → dt_delivery_id a = id →
    dt_attempt_no a ≠ dl_attempt_count d + 1 ∧ dt_status a ≠ DA_DELIVERING) as Ha.
  { intros i a Hi E. destruct (qo_attempts _ Q _ _ Hi) as [_ (y & Hy & Hle & Hs & _)].
    rewrite E in Hy. assert (y = d) as -> by congruence. split; [lia|]. intros [Hx _]%Hs.
    unfold claimable in Hc. rewrite Hx in Hc. done. }
  rewrite !(proj2 (anyrow_false _ _)).
  - pose proof (do_count _ _ _ (qo_deliveries _ Q _ _ Hd)).
    cbn. rewrite (proj2 (Z.ltb_ge _ _)) by lia. by eexists _, _.
  - intros i a Hi. destruct (decide (dt_delivery_id a = id)) as [E|Hne];
      [|by rewrite bool_decide_false]. destruct (Ha i a Hi E) as [_ Hx].
    by rewrite (bool_decide_false _ Hx), andb_false_r.
  - intros i a Hi. destruct (decide (dt_delivery_id a = id)) as [E|Hne];
      [|by rewrite bool_decide_false]. destruct (Ha i a Hi E) as [Hx _].
    by rewrite (bool_decide_false _ Hx), andb_false_r.
Qed.

(** ** Claims *)

(** C10: a sink sees the events of a stream in order.  Let
    transactions of the controller run between the transactions of any number
    of drains, each of which claims deliveries that a query of
    [_due_deliveries] returned, on the store as it is then or as it was at any
    earlier moment, and settles claims that [_claim] returned.  In every store
    reached so from a fresh database, once the delivery of an event has been
    attempted, the delivery of every earlier event of the stream to the same
    sink has been delivered or dead-lettered, and stays so. *)
Theorem sink_order w k d e k' d' e' :
  world_reachable w → db_deliveries (wd_db w) !! k = Some d → db_events (wd_db w) !! dl_event_id d = Some e →
  1 ≤ dl_attempt_count d →
  db_deliveries (wd_db w) !! k' = Some d' → db_events (wd_db w) !! dl_event_id d' = Some e' →
  comes_before d' e' d e →
  settled d' = true ∧ ∀ w2, rtc world_step w w2 → db_deliveries (wd_db w2) !! k' = Some d'.
Proof.
  intros Hw%world_reachable_ok Hd He Hc Hd' He' Hb. pose proof (wo_reachable _ Hw) as Hr.
  pose proof (reachable_in_order _ Hr k d e Hd He Hc) as Hf.
  assert (settled d' = true) as Hs by (by apply (proj1 (blocked_false _ _ _) Hf k' d' e')).
  split; [done|]. intros w2 Hst%world_steps_gateway; [|done]. destruct (steps_kept _ _ Hr Hst) as [Hk _].
  destruct (Hk k' d' Hd') as (x & Hx & L). by rewrite Hx, (lt_settled _ _ L Hs).
Qed.

(** In every reachable store a delivery is DELIVERING
    exactly when one of its attempts is in flight and DELIVERED exactly when
    one of its attempts succeeded, and at most one of its attempts is in flight
    or succeeded. *)
Lemma one_in_flight db k d :
  reachable db → db_deliveries db !! k = Some d →
  (dl_status d = DS_DELIVERING ↔ ∃ i a, db_delivery_attempts db !! i = Some a ∧
     dt_delivery_id a = k ∧ dt_status a = DA_DELIVERING) ∧
  (dl_status d = DS_DELIVERED ↔ ∃ i a, db_delivery_attempts db !! i = Some a ∧
     dt_delivery_id a = k ∧ dt_status a = DA_SUCCEEDED) ∧
  ∀ i j a b, db_delivery_attempts db !! i = Some a → db_delivery_attempts db !! j = Some b →
    dt_delivery_id a = k → dt_delivery_id b = k →
    dt_status a ∈ [DA_DELIVERING; DA_SUCCEEDED] → dt_status b ∈ [DA_DELIVERING; DA_SUCCEEDED] → i = j.
Proof.
  intros Q%reachable_queue Hd. pose proof (qo_deliveries _ Q _ _ Hd) as D.
  assert (∀ i a, db_delivery_attempts db !! i = Some a → dt_delivery_id a = k →
    (dt_status a = DA_DELIVERING → dl_status d = DS_DELIVERING) ∧
    (dt_status a = DA_SUCCEEDED → dl_status d = DS_DELIVERED) ∧
    (dt_status a ∈ [DA_DELIVERING; DA_SUCCEEDED] → i = delivery_attempt_id k (dl_attempt_count d))) as Ha.
  { intros i a Ha <-. destruct (qo_attempts _ Q _ _ Ha) as [Hi (x & Hx & _ & H1 & H2)].
    assert (x = d) as -> by congruence. split; [intros Hs; by apply H1|]. split; [intros Hs; by apply H2|].
    intros Hs. rewrite Hi. f_equal. elem_cases Hs; [by apply H1|by apply H2]. }
  split; [split|split; [split|]].
  - intros (i & a & ? & ? & _ & ?)%(do_delivering _ _ _ D). eauto 10.
  - intros (i & a & Hi & Hk & Hs). destruct (Ha i a Hi Hk) as (H1 & H2 & _). auto.
  - intros (i & a & ? & ? & _ & ?)%(do_delivered _ _ _ D). eauto 10.
  - intros (i & a & Hi & Hk & Hs). destruct (Ha i a Hi Hk) as (H1 & H2 & _). auto.
  - intros i j a b Hi Hj Ea Eb Sa Sb. destruct (Ha i a Hi Ea) as (_ & _ & Fa).
    destruct (Ha j b Hj Eb) as (_ & _ & Fb). by rewrite (Fa Sa), (Fb Sb).
Qed.

(** In every reachable store an outbox row is complete
    exactly when every required delivery of its event is DELIVERED; a
    dead-lettered required delivery keeps it open. *)
Lemma outbox_complete db k o :
  reachable db → db_outbox db !! k = Some o →
  is_Some (ox_completed_at o) ↔
  ∀ i d, db_deliveries db !! i = Some d → dl_event_id d = ox_event_id o → dl_required d = true →
    dl_status d = DS_DELIVERED.
Proof.
  intros Q%reachable_queue Ho. pose proof (oo_complete _ _ _ (qo_outbox _ Q _ _ Ho)) as Hc. split.
  - intros [t Ht] i d Hd He Hq. rewrite Ht in Hc. symmetry in Hc. apply negb_true_iff in Hc.
    destruct (decide (dl_status d = DS_DELIVERED)) as [|Hn]; [done|].
    apply not_true_iff_false in Hc. exfalso. apply Hc, outstanding_spec. by exists i, d.
  - intros H. destruct (ox_completed_at o) eqn:E; [by eexists|]. exfalso.
    symmetry in Hc. apply negb_false_iff, outstanding_spec in Hc as (i & d & Hd & He & Hq & Hn).
    by apply Hn, (H i d).
Qed.

(** On every reachable store the startup reconciliation
    succeeds; it leaves no delivery and no attempt in flight, makes every
    interrupted delivery due again at once, and changes no other delivery and
    no outbox row. *)
Lemma restart_recovers env db :
  reachable db →
  ∃ n db', reconcile_startup env db = Ok (n, db') ∧
    (∀ i a, db_delivery_attempts db' !! i = Some a → dt_status a ≠ DA_DELIVERING) ∧
    (∀ k d, db_deliveries db !! k = Some d → ∃ d', db_deliveries db' !! k = Some d' ∧
       (dl_status d ≠ DS_DELIVERING → d' = d) ∧
       (dl_status d = DS_DELIVERING → dl_status d' = DS_RETRYING ∧ claimable (de_now env) d' = true ∧
          frozen d' = frozen d ∧ dl_attempt_count d' = dl_attempt_count d)) ∧
    db_outbox db' = db_outbox db.
Proof.
  intros Hr. pose proof (reachable_queue _ Hr) as Q.
  assert (∃ n db', reconcile_startup env db = Ok (n, db')) as (n & db' & H).
  { unfold reconcile_startup, tx_gets, mbind, tx_bind, require. rewrite decide_True; [by eexists _, _|].
    unfold delivery_orphans. rewrite !orb_false_iff, !anyrow_false. split_and!.
    - intros i a Ha. by destruct (qo_attempts _ Q _ _ Ha) as [_ (d & -> & _)].
    - intros i o Ho. by destruct (qo_outbox _ Q _ _ Ho) as [_ [x ->] _].
    - intros i d Hd. destruct (qo_deliveries _ Q _ _ Hd) as [_ [x ->] [y ->] _ _ _ _ _]. done. }
  exists n, db'. split; [done|]. apply reconcile_ok in H as R.
  split; [|split].
  - intros i a. rewrite (rc_attempts _ _ _ _ R), lookup_fmap. intros (x & _ & ->)%fmap_Some_1.
    unfold set_interrupted. by case_decide.
  - intros k d Hd. rewrite (rc_deliveries _ _ _ _ R), Hd. eexists. split; [done|]. split.
    + intros Hs. destruct (in_flight k db); [|done]. unfold set_retrying. by rewrite decide_False.
    + intros Hs. assert (in_flight k db = true) as ->.
      { destruct (do_delivering _ _ _ (qo_deliveries _ Q _ _ Hd) Hs) as (i & a & ? & ? & _ & ?).
        apply in_flight_spec. eauto 10. }
      unfold set_retrying. rewrite decide_True by done. split; [done|]. split; [|done].
      unfold claimable. cbn. apply leb_refl.
  - by eapply reconciled_outbox.
Qed.


(** Whatever the sinks answer and the clock shows, and
    wherever it is interrupted, a [drain_once] on a reachable store is a
    sequence of the dispatcher's transactions: the store it leaves is reachable
    from the one it began with. *)
Lemma drain_is_steps {S} cfg paused env (sink : ClaimedDelivery → S → SinkAnswer * S) db st :
  reachable db →
  let r := drain_once cfg paused env sink db st in
  rtc gateway_step db (dr_db r) ∧ reachable (dr_db r) ∧
  (paused = true → dr_db r = db ∧ dr_outcome r = Ok 0).
Proof.
  intros Hr r. assert (rtc gateway_step db (dr_db r)) as Hs.
  { subst r. unfold drain_once. destruct paused; [apply rtc_refl|]. apply drain_steps; [done|].
    apply Forall_forall. intros x Hx. split; [|by eapply due_unblocked].
    destruct (due_delivery _ _ _ Hx) as (d & Hd & _). by exists d. }
  split; [done|]. split; [by eapply reachable_steps|]. subst r. by intros ->.
Qed.

(** The queue is never stuck: in a reachable store where
    some delivery is not settled and every such delivery can be claimed at
    [now], some delivery is due. *)
Lemma queue_progress now db k d :
  reachable db → db_deliveries db !! k = Some d → settled d = false →
  (∀ i x, db_deliveries db !! i = Some x → settled x = false → claimable now x = true) →
  due_deliveries now db ≠ [].
Proof.
  intros Hr Hd Hs Hc. pose proof (reachable_queue _ Hr) as Q.
  destruct (do_event _ _ _ (qo_deliveries _ Q _ _ Hd)) as [e He].
  assert (∃ i x xe, db_deliveries db !! i = Some x ∧ settled x = false ∧
    db_events db !! dl_event_id x = Some xe ∧ blocked x xe db = false) as (i & x & xe & Hx & Hsx & Hxe & Hb).
  { destruct (reachable_good _ Hr) as [[_ S] _].
    assert (0 ≤ er_stream_sequence e) as Hpos by (pose proof (ss_bound _ S _ _ He); lia).
    remember (Z.to_nat (er_stream_sequence e)) as n eqn:En.
    revert k d e Hd Hs He Hpos En. induction (lt_wf n) as [n _ IH]. intros k d e Hd Hs He Hpos En.
    destruct (blocked d e db) eqn:Hb; [|by exists k, d, e].
    unfold blocked in Hb. apply anyrow_true in Hb as (j & p & Hp & Hb).
    destruct (db_events db !! dl_event_id p) as [pe|] eqn:Hpe; [|done].
    rewrite !andb_true_iff, Z.ltb_lt, negb_true_iff in Hb. destruct Hb as [[[_ _] Hlt] Hsp].
    pose proof (ss_bound _ S _ _ Hpe). apply (IH (Z.to_nat (er_stream_sequence pe)) ltac:(lia) j p pe); auto; lia. }
  destruct (do_owner _ _ _ (qo_deliveries _ Q _ _ Hx)) as [o Ho].
  assert (is_Some (due_row now db (i, x))) as [y Hy].
  { unfold due_row. rewrite Ho. cbn. rewrite Hxe. cbn. rewrite (Hc i x Hx Hsx), Hb. by eexists. }
  assert (y ∈ merge_sort due_le (omap (due_row now db) (map_to_list (db_deliveries db)))) as Hin.
  { rewrite merge_sort_Permutation. apply list_elem_of_omap. exists (i, x). split; [|done].
    by apply elem_of_map_to_list. }
  unfold due_deliveries. destruct (merge_sort _ _); [by apply not_elem_of_nil in Hin|done].
Qed.

(** A due delivery of a reachable store is claimed, with the
    event's canonical body and hash and the next attempt number, provided its
    attempt id (a SHA-256) is new; and when the sink accepts it, it is recorded
    as delivered, whatever other transactions commit before that if they leave
    the claim alone. *)
Lemma due_delivered cfg env env2 db x :
  reachable db → x ∈ due_deliveries (de_now env) db →
  (∀ d, db_deliveries db !! du_delivery_id x = Some d →
     db_delivery_attempts db !! delivery_attempt_id (du_delivery_id x) (dl_attempt_count d + 1) = None) →
  ∃ c d db1, claim cfg env (du_delivery_id x) (du_revision x) db = Ok (Some c, db1) ∧
    db_deliveries db !! du_delivery_id x = Some d ∧ cd_attempt_no c = dl_attempt_count d + 1 ∧
    (∃ e, db_events db !! cd_event_id c = Some e ∧
       er_canonical_event_json e = Some (cd_canonical_event_json c) ∧
       cd_canonical_hash c = sha256_hex (cd_canonical_event_json c)) ∧
    ∀ db2, db_deliveries db2 !! cd_delivery_id c = db_deliveries db1 !! cd_delivery_id c →
      db_delivery_attempts db2 !! cd_attempt_id c = db_delivery_attempts db1 !! cd_attempt_id c →
      ∃ db3 d3, finish_success env2 c db2 = Ok (tt, db3) ∧
        db_deliveries db3 !! du_delivery_id x = Some d3 ∧ dl_status d3 = DS_DELIVERED ∧
        dl_delivered_at d3 = Some (de_now env2).
Proof.
  intros Hr Hx Hnew. pose proof (reachable_queue _ Hr) as Q.
  destruct (due_delivery _ _ _ Hx) as (d & Hd & Hrev & Hc).
  destruct (do_event _ _ _ (qo_deliveries _ Q _ _ Hd)) as [e He].
  destruct (event_sound_body _ _ _ Hr He) as (body & Hbody & Hhash).
  destruct (claim_due cfg env _ _ _ _ _ Q Hd Hc He Hbody (Hnew d Hd)) as (c & db1 & H).
  rewrite Hrev in H. exists c, d, db1. split; [done|]. split; [done|].
  apply claim_ok in H as [[[=] _]|(d' & c' & [= <-] & _ & C)].
  assert (d' = d) as -> by (pose proof (cl_row _ _ _ _ _ _ _ C); congruence).
  destruct (cl_ids _ _ _ _ _ _ _ C) as (E1 & E2 & E3 & E4 & E5 & E6). split; [done|]. split.
  { destruct (cl_body _ _ _ _ _ _ _ C) as (e' & He' & Hb' & Hh'). rewrite E6. exists e'.
    split; [done|]. split; [done|]. congruence. }
  intros db2 F1 F2. rewrite (cl_deliveries _ _ _ _ _ _ _ C), E1, lookup_insert_eq in F1.
  rewrite (cl_attempts _ _ _ _ _ _ _ C), lookup_insert_eq in F2.
  unfold finish_success, settle_attempt, settle_delivery, tx_gets, mbind, tx_bind, require.
  rewrite F2. cbn. rewrite decide_True by done. cbn. rewrite E1, F1. cbn. rewrite decide_True by (by rewrite E4).
  eexists _, _. split; [done|]. cbn. rewrite lookup_insert_eq. done.
Qed.

(** The delay before a retry doubles from the base up to the
    maximum and never exceeds it; from the 1025th attempt on the code raises
    [OverflowError] instead. *)
Lemma backoff_policy cfg n :
  0 ≤ dc_retry_base cfg ≤ dc_retry_max cfg → 1 ≤ n →
  (n ≤ 1024 → ∃ d, backoff cfg n = Ok d ∧ dc_retry_base cfg ≤ d ≤ dc_retry_max cfg ∧
     (n = 1 → d = dc_retry_base cfg) ∧
     (n < 1024 → backoff cfg (n + 1) = Ok (Z.min (dc_retry_max cfg) (2 * d)))) ∧
  (1024 < n → backoff cfg n = Err (OverflowError "int too large to convert to float")).
Proof.
  intros Hb Hn. unfold backoff. split; [|by intros; rewrite (proj2 (Z.leb_le _ _)) by lia].
  intros Hle. rewrite (proj2 (Z.leb_gt _ _)) by lia. eexists. split; [done|].
  replace (Z.max 0 (n - 1)) with (n - 1) by lia. replace (Z.max 0 (n + 1 - 1)) with (n - 1 + 1) by lia.
  assert (1 ≤ 2 ^ (n - 1)) as Hp by (apply (Z.pow_le_mono_r 2 0); lia).
  split; [nia|]. split; [intros ->; cbn; lia|]. intros Hlt.
  rewrite (proj2 (Z.leb_gt _ _)) by lia. f_equal. rewrite Z.pow_add_r by lia.
  change (2 ^ 1) with 2. nia.
Qed.

(** When a sink refuses a claimed delivery, the failure is
    recorded with its type and its sanitized text: the delivery is a dead letter
    when that is enabled and the attempt was the last one, and otherwise waits
    for the instant the backoff gives; no outbox row completes. *)
Lemma failure_outcome cfg env c e u db db' :
  finish_failure cfg env c e db = Ok (u, db') →
  ∃ d d', db_deliveries db !! cd_delivery_id c = Some d ∧
    db_deliveries db' = <[cd_delivery_id c := d']> (db_deliveries db) ∧ db_outbox db' = db_outbox db ∧
    frozen d' = frozen d ∧ dl_attempt_count d' = dl_attempt_count d ∧
    dl_last_error_type d' = Some (se_type e) ∧ dl_last_error d' = Some (error_summary e) ∧
    if dc_dead_letter_enabled cfg && (dc_retry_max_attempts cfg <=? cd_attempt_no c) then
      dl_status d' = DS_DEAD_LETTERED ∧ dl_next_retry_at d' = None ∧
      dl_dead_lettered_at d' = Some (de_now env)
    else
      ∃ delay at_, backoff cfg (cd_attempt_no c) = Ok delay ∧ dl_status d' = DS_RETRYING ∧
        dl_next_retry_at d' = Some (isoformat at_) ∧ instant at_ = instant (de_utc env) + delay.
Proof.
  intros H. apply finish_failure_ok in H as (a & d & delay & next & Hb & Hn & S & Ho).
  eexists d, _. split; [apply (sg_delivery _ _ _ _ _ _ _ S)|].
  split; [apply (sg_deliveries _ _ _ _ _ _ _ S)|]. split; [done|]. do 4 (split; [done|]).
  unfold set_undelivered. cbn. fold (is_dead cfg (cd_attempt_no c)). unfold next_retry in Hn.
  destruct (is_dead _ _); [by injection Hn as <-|].
  exists delay. unfold dt_add in Hn. destruct (_ && _); [|done]. cbn in Hn. injection Hn as <-.
  eexists. split; [done|]. split; [done|]. split; [done|]. unfold instant. cbn. lia.
Qed.

(** ** The clock of the retries

    [next_retry_at] is written in UTC and compared, as text, with the local
    time of [now_iso]. *)

Definition east : DispatchEnv :=
  let utc := ymd_to_ord 2026 1 1 * day_us in
  mkDispatchEnv (isoformat (mkdatetime (utc + 8 * 3600 * 1000000) (Some (8 * 3600))))
    (mkdatetime utc (Some 0)).

(** East by eight hours: a UTC time of the next eight hours is, as text, not
    after the local time of now. *)
Lemma east_text delay at_ :
  0 ≤ delay < 8 * 3600 * 1000000 → dt_add (de_utc east) delay = Ok at_ →
  String.leb (isoformat at_) (de_now east) = true.
Proof.
  intros Hd H. unfold dt_add in H. destruct (_ && _); [|done]. injection H as <-.
  set (day := ymd_to_ord 2026 1 1). unfold east. cbn [de_utc de_now]. fold day.
  assert (∀ us o, 0 ≤ us < day_us →
    isoformat (mkdatetime (day * day_us + us) o) =
    "2026-01-01T" +:+ digits 2 (us / 1000000 / 3600) +:+ ":" +:+ digits 2 (us / 1000000 / 60 mod 60) +:+ ":"
    +:+ digits 2 (us / 1000000 mod 60) +:+ (if us mod 1000000 =? 0 then "" else "." +:+ digits 6 (us mod 1000000))
    +:+ iso_offset o) as Hiso.
  { intros us o Hu. unfold isoformat. cbn [dt_local dt_utcoff].
    rewrite Z.add_comm, Z.div_add, Z.mod_add by (unfold day_us; lia).
    rewrite Z.div_small, Z.mod_small by done.
    change (ord_to_ymd (0 + day)) with (2026, 1, 1). reflexivity. }
  cbn [dt_local]. rewrite Hiso by (unfold day_us; lia).
  assert (0 ≤ delay / 1000000 / 3600 < 8) as Hh
    by (rewrite Z.div_div by lia; split; [apply Z.div_pos|apply Z.div_lt_upper_bound]; lia).
  remember (delay / 1000000 / 3600) as h.
  assert (h ∈ [0; 1; 2; 3; 4; 5; 6; 7]) as Hin.
  { rewrite !elem_of_cons, elem_of_nil. lia. }
  elem_cases Hin; subst h; rewrite Hin; vm_compute; reflexivity.
Qed.

(** East of UTC by eight hours a backoff of less than
    eight hours has no effect: the failed delivery can be claimed again at the
    very time of its failure. *)
Lemma retry_ignores_delay cfg c e u db db' d delay :
  finish_failure cfg east c e db = Ok (u, db') → db_deliveries db' !! cd_delivery_id c = Some d →
  dl_status d = DS_RETRYING → backoff cfg (cd_attempt_no c) = Ok delay →
  0 ≤ delay < 8 * 3600 * 1000000 → claimable (de_now east) d = true.
Proof.
  intros H Hd Hst Hdelay Hlt.
  apply finish_failure_ok in H as (a & d0 & delay' & next & Hb & Hn & S & _).
  assert (delay' = delay) as -> by congruence.
  rewrite (sg_deliveries _ _ _ _ _ _ _ S), lookup_insert_eq in Hd. injection Hd as <-.
  unfold claimable. rewrite Hst. cbn in *. unfold next_retry in Hn.
  destruct (is_dead _ _); [done|].
  destruct (dt_add _ _) as [at_|] eqn:Ha; [|done]. cbn in Hn. injection Hn as <-. cbn.
  by apply (east_text delay).
Qed.

(** ** Witnesses

    The dispatcher on the first three commands of the demo: two batches that
    the sink accepts, one that it refuses, and a claim that is never settled. *)

Definition demo_dispatcher : DispatcherConfig :=
  mkDispatcherConfig "epoch-1" 3 1000000 60000000 true.
Definition demo_clock : DispatchEnv :=
  let utc := ymd_to_ord 2026 1 2 * day_us in
  mkDispatchEnv (isoformat (mkdatetime utc (Some 0))) (mkdatetime utc (Some 0)).
Definition demo_drain (a : SinkAnswer) (db : Db) : DrainResult unit :=
  drain_once demo_dispatcher false (λ _, demo_clock) (λ _ st, (a, st)) db tt.

Definition demo_sent : Db := dr_db (demo_drain Delivered (dr_db (demo_drain Delivered (demo 3)))).
Definition demo_stopped : Db := dr_db (demo_drain Cancelled (demo 3)).

Lemma drain_reachable {S} cfg env (sink : ClaimedDelivery → S → SinkAnswer * S) db st :
  reachable db → reachable (dr_db (drain_once cfg false env sink db st)).
Proof.
  intros Hr. unfold drain_once.
  eapply reachable_steps, drain_steps; [done|done|]. apply Forall_forall. intros x Hx.
  split; [|by eapply due_unblocked]. destruct (due_delivery _ _ _ Hx) as (d & Hd & _). by exists d.
Qed.

Lemma demo_world n : ∃ w, world_reachable w ∧ wd_db w = demo n.
Proof.
  induction n as [|n (w & (w0 & Hi & Hs) & E)].
  - with_strategy transparent [demo demo_created] unfold demo, demo_created. set (w0 := mkWorld demo_empty [] []).
    assert (world_initial w0) as Hi by (split; [apply demo_empty_initial|done]).
    destruct (create_run _ _ _ demo_empty) as [[r db]|e] eqn:E.
    + exists (commit_in db None w0). split; [|done]. exists w0. split; [done|]. apply rtc_once. by eapply world_create_run.
    + exists w0. split; [|done]. exists w0. by split; [|apply rtc_refl].
  - with_strategy transparent [demo] cbn [demo]. unfold demo_step. destruct (command_valid _) eqn:Hv; [|by exists w; split; [exists w0|]].
    destruct (demo_apply _ _) as [[r db]|e] eqn:Ea; [|by exists w; split; [exists w0|]].
    exists (commit_in db None w). split; [|done]. exists w0. split; [done|]. eapply rtc_r; [exact Hs|].
    eapply world_apply; [exact Hv|]. rewrite E. exact Ea.
Qed.

Lemma drain_world_reachable a w :
  world_reachable w → ∃ w', world_reachable w' ∧ wd_db w' = dr_db (demo_drain a (wd_db w)).
Proof.
  intros (w0 & Hi & Hs). unfold demo_drain.
  destruct (drain_once_world demo_dispatcher false (λ _, demo_clock) (λ _ st, (a, st)) w tt) as (w' & Hw & E).
  exists w'. split; [|exact E]. exists w0. split; [done|by etrans].
Qed.

Lemma demo_sent_world : ∃ w, world_reachable w ∧ wd_db w = demo_sent.
Proof.
  destruct (demo_world 3) as (w & Hw & E). destruct (drain_world_reachable Delivered w Hw) as (w1 & Hw1 & E1).
  destruct (drain_world_reachable Delivered w1 Hw1) as (w2 & Hw2 & E2). exists w2. split; [done|].
  unfold demo_sent. rewrite E2, E1, E. reflexivity.
Qed.

Lemma demo_sent_reachable : reachable demo_sent.
Proof. destruct demo_sent_world as (w & Hw & <-). by apply world_reachable_ok. Qed.
Lemma demo_stopped_reachable : reachable demo_stopped.
Proof. apply drain_reachable, demo_reachable. Qed.

Instance comes_before_dec p pe d e : Decision (comes_before p pe d e).
Proof. unfold comes_before. apply _. Defined.

(** A pair of deliveries in order, the later one attempted. *)
Definition ordered_pair (db : Db) : bool :=
  anyrow (db_deliveries db) (λ d, (1 <=? dl_attempt_count d) &&
    anyrow (db_deliveries db) (λ d', match db_events db !! dl_event_id d, db_events db !! dl_event_id d' with
      | Some e, Some e' => bool_decide (comes_before d' e' d e) | _, _ => false end)).
Lemma demo_sent_pair : ordered_pair demo_sent = true.
Proof. vm_cast_no_check (@eq_refl bool true). Qed.

Lemma sink_order_witness : ∃ k k' d d',
  db_deliveries demo_sent !! k = Some d ∧ db_deliveries demo_sent !! k' = Some d' ∧
  dl_event_id d ≠ dl_event_id d' ∧ settled d' = true.
Proof.
  pose proof demo_sent_pair as H. unfold ordered_pair in H. apply anyrow_true in H as (k & d & Hd & H).
  apply andb_true_iff in H as [Hc%Z.leb_le H]. apply anyrow_true in H as (k' & d' & Hd' & H).
  destruct (db_events demo_sent !! dl_event_id d) as [e|] eqn:He; [|discriminate].
  destruct (db_events demo_sent !! dl_event_id d') as [e'|] eqn:He'; [|discriminate].
  apply bool_decide_eq_true in H.
  destruct demo_sent_world as (w & Hw & E). rewrite <- E in Hd, He, Hd', He'.
  destruct (sink_order w k d e k' d' e' Hw Hd He Hc Hd' He' H) as [Hs _]. rewrite E in Hd, He, Hd', He'.
  exists k, k', d, d'. do 2 (split; [assumption|]). split; [|exact Hs].
  intros Eid. destruct H as (_ & _ & Hlt). rewrite <- Eid, He in He'. injection He' as <-. lia.
Defined.

Definition has_status (s : DeliveryStatus) (db : Db) : bool :=
  anyrow (db_deliveries db) (λ d, bool_decide (dl_status d = s)).
Lemma has_status_ok s db :
  has_status s db = true → ∃ k d, db_deliveries db !! k = Some d ∧ dl_status d = s.
Proof. intros (k & d & Hd & H%bool_decide_eq_true)%anyrow_true. by exists k, d. Qed.

Lemma demo_stopped_delivering : has_status DS_DELIVERING demo_stopped = true.
Proof. vm_cast_no_check (@eq_refl bool true). Qed.
Lemma demo_sent_delivered : has_status DS_DELIVERED demo_sent = true.
Proof. vm_cast_no_check (@eq_refl bool true). Qed.

Lemma demo_sent_complete : anyrow (db_outbox demo_sent) (λ o, is_some (ox_completed_at o)) = true.
Proof. vm_cast_no_check (@eq_refl bool true). Qed.

Definition all_claimable (now : string) (db : Db) : bool :=
  negb (anyrow (db_deliveries db) (λ d, negb (settled d) && negb (claimable now d))).
Lemma demo_claimable : all_claimable (de_now demo_clock) (demo 3) = true.
Proof. vm_cast_no_check (@eq_refl bool true). Qed.
Lemma demo_pending : has_status DS_PENDING (demo 3) = true.
Proof. vm_cast_no_check (@eq_refl bool true). Qed.

(** The first delivery of the demo, never attempted before. *)
Definition first_due (db : Db) : option DueDelivery := head (due_deliveries (de_now demo_clock) db).
Lemma demo_first_due : match first_due (demo 3) with
  | Some x => bool_decide (db_delivery_attempts (demo 3) = ∅) | None => false end = true.
Proof. vm_cast_no_check (@eq_refl bool true). Qed.

(** A claim of the first due delivery, and its refusal. *)
Definition demo_claim : option (ClaimedDelivery * Db) :=
  x ← first_due (demo 3);
  match claim demo_dispatcher demo_clock (du_delivery_id x) (du_revision x) (demo 3) with
  | Ok (Some c, db) => Some (c, db) | _ => None end.
Definition demo_error : SinkError := mkSinkError "TimeoutError" "".
Definition demo_failure (env : DispatchEnv) : option (ClaimedDelivery * Db * Db) :=
  '(c, db) ← demo_claim;
  match finish_failure demo_dispatcher env c demo_error db with
  | Ok (_, db') => Some (c, db, db') | _ => None end.

Lemma demo_fails : is_some (demo_failure demo_clock) && match demo_failure east with
    | Some (c, _, db') => bool_decide (cd_attempt_no c = 1)
    | None => false end = true.
Proof. vm_cast_no_check (@eq_refl bool true). Qed.

Lemma demo_failure_ok env c db db' :
  demo_failure env = Some (c, db, db') →
  finish_failure demo_dispatcher env c demo_error db = Ok (tt, db').
Proof.
  unfold demo_failure. intros ([c0 db0] & _ & H)%bind_Some.
  destruct (finish_failure _ _ _ _ _) as [[[] x]|] eqn:E; [|done]. injection H as -> -> ->. done.
Qed.

