(* ===== verification/Draining.v ===== *)
(** * Draining: the dispatcher empties its queue

    When the sinks accept what they are given and no retry lies in the future,
    the dispatcher's loop ends, with every delivery settled. *)

From stdpp Require Import relations.
From S2P Require Import Prelude PyText PyTime AgentTypes AgentState Sanitizer Commands.
From S2P Require Import OperationReduce FinalizeEvidence Store Events Operations FinalizeOps.
From S2P Require Import Controller Frames Outcomes Apply Observations Outbox OutboxFacts.
From S2P Require Import System Demo StatesInv Lifecycle Records Replay Ledger Streams Delivery Outgoing.

#[local] Open Scope Z_scope.

(** The attempt a delivery will make next. *)
Definition next_attempt (k : string) (d : DeliveryRow) : string := delivery_attempt_id k (dl_attempt_count d + 1).

(** Nothing waits for a later time or for a restart, and the attempt ids to
    come, which are SHA-256 digests, are new and distinct. *)
Record drainable (env : nat → nat → DispatchEnv) (db : Db) : Prop := {
  dn_claimable : ∀ i j k d, db_deliveries db !! k = Some d → settled d = false →
      claimable (de_now (env i j)) d = true;
  dn_fresh : ∀ k d, db_deliveries db !! k = Some d → settled d = false →
      db_delivery_attempts db !! next_attempt k d = None;
  dn_distinct : ∀ k k' d d', db_deliveries db !! k = Some d → db_deliveries db !! k' = Some d' →
      settled d = false → settled d' = false → next_attempt k d = next_attempt k' d' → k = k'
}.

(** ** One delivery *)

(** [db'] is [db] with the delivery [k] made. *)
Record delivered (k : string) (d : DeliveryRow) (db db' : Db) : Prop := {
  dd_row : db_deliveries db !! k = Some d;
  dd_after : ∃ d', db_deliveries db' = <[k := d']> (db_deliveries db) ∧ settled d' = true ∧ dl_status d' = DS_DELIVERED;
  dd_attempts : ∀ i, i ≠ next_attempt k d → db_delivery_attempts db' !! i = db_delivery_attempts db !! i;
  dd_steps : rtc gateway_step db db'
}.

Lemma delivered_drainable env k d db db' :
  drainable env db → settled d = false → delivered k d db db' → drainable env db'.
Proof.
  intros [Hc Hf Hn] Hs [Hd (d' & E & Hs' & _) Ha _].
  assert (∀ i x, db_deliveries db' !! i = Some x → settled x = false →
    i ≠ k ∧ db_deliveries db !! i = Some x) as Hback.
  { intros i x. rewrite E. intros [[_ <-]|[Hne Hx]]%lookup_insert_Some Hx'; [congruence|done]. }
  split.
  - intros i j k' x Hx Hsx. destruct (Hback k' x Hx Hsx) as [_ Hx']. by eapply Hc.
  - intros k' x Hx Hsx. destruct (Hback k' x Hx Hsx) as [Hne Hx']. rewrite Ha; [by apply Hf|].
    intros En. by apply Hne, (Hn k' k x d).
  - intros i j x y Hx Hy Hsx Hsy. destruct (Hback i x Hx Hsx) as [_ Hx'], (Hback j y Hy Hsy) as [_ Hy']. by apply Hn.
Qed.

Lemma claim_success cfg env env2 k d db :
  reachable db → db_deliveries db !! k = Some d → claimable (de_now env) d = true → unblocked k db →
  db_delivery_attempts db !! next_attempt k d = None →
  ∃ c db1 db2, claim cfg env k (dl_revision d) db = Ok (Some c, db1) ∧
    finish_success env2 c db1 = Ok (tt, db2) ∧ delivered k d db db2.
Proof.
  intros Hr Hd Hc Hu Hnew. pose proof (reachable_queue _ Hr) as Q.
  destruct (do_event _ _ _ (qo_deliveries _ Q _ _ Hd)) as [e He].
  destruct (event_sound_body _ _ _ Hr He) as (body & Hbody & _).
  destruct (claim_due cfg env _ _ _ _ _ Q Hd Hc He Hbody Hnew) as (c & db1 & H).
  pose proof H as H'. apply claim_ok in H' as [[[=] _]|(d' & c' & [= <-] & _ & C)].
  assert (d' = d) as -> by (pose proof (cl_row _ _ _ _ _ _ _ C); congruence).
  destruct (cl_ids _ _ _ _ _ _ _ C) as (E1 & E2 & E3 & E4 & _).
  assert (∃ db2, finish_success env2 c db1 = Ok (tt, db2)) as [db2 H2].
  { unfold finish_success, settle_attempt, settle_delivery, tx_gets, mbind, tx_bind, require.
    rewrite (cl_attempts _ _ _ _ _ _ _ C), lookup_insert_eq. cbn. rewrite decide_True by done. cbn.
    rewrite (cl_deliveries _ _ _ _ _ _ _ C), E1, lookup_insert_eq. cbn. rewrite decide_True by (by rewrite E4).
    by eexists. }
  exists c, db1, db2. split; [done|]. split; [done|].
  apply finish_success_ok in H2 as S2. destruct S2 as (a & x & S & _).
  split; [done| | |].
  - eexists. rewrite (sg_deliveries _ _ _ _ _ _ _ S), (cl_deliveries _ _ _ _ _ _ _ C), E1, insert_insert_eq.
    split; [reflexivity|done].
  - intros i Hi. destruct (sg_attempts _ _ _ _ _ _ _ S) as (a' & -> & _).
    rewrite (cl_attempts _ _ _ _ _ _ _ C), E3. unfold next_attempt in Hi. by rewrite !lookup_insert_ne.
  - apply (rtc_l _ _ db1); [by eapply step_dispatcher, ds_claim|].
    apply rtc_once. eapply step_dispatcher, ds_success; [by eapply claim_claim_of|exact H2].
Qed.

(** ** One batch *)

Definition candidate (db : Db) (x : DueDelivery) : Prop :=
  ∃ d, db_deliveries db !! du_delivery_id x = Some d ∧ dl_revision d = du_revision x ∧
    settled d = false ∧ unblocked (du_delivery_id x) db.

(** The deliveries [ids] are made, the others are as they were. *)
Definition advanced (ids : list string) (db db' : Db) : Prop :=
  (∀ k d, db_deliveries db !! k = Some d → ∃ d', db_deliveries db' !! k = Some d' ∧
     if decide (k ∈ ids) then dl_status d' = DS_DELIVERED else d' = d) ∧
  (∀ k, is_Some (db_deliveries db' !! k) → is_Some (db_deliveries db !! k)).

Lemma candidate_delivered db db' k d x :
  reachable db → delivered k d db db' → candidate db x → du_delivery_id x ≠ k → candidate db' x.
Proof.
  intros Hr [Hd (d' & E & _) _ Hs] (y & Hy & Hrev & Hsy & Hu) Hne. exists y.
  rewrite E, lookup_insert_ne by done. split_and!; [done..|].
  destruct (steps_kept _ _ Hr Hs) as (_ & _ & Hk). apply Hk; [by eexists|done].
Qed.

Lemma drain_all {S} cfg env j (sink : ClaimedDelivery → S → SinkAnswer * S) l :
  (∀ c st, (sink c st).1 = Delivered) → ∀ n db st,
  reachable db → drainable env db → Forall (candidate db) l → NoDup (map du_delivery_id l) →
  let r := drain cfg (env j) sink l n db st in
  dr_outcome r = Ok (n + Z.of_nat (length l)) ∧ reachable (dr_db r) ∧ drainable env (dr_db r) ∧
  advanced (map du_delivery_id l) db (dr_db r).
Proof.
  intros Hsink. induction l as [|x l IH]; intros n db st Hr Hdr Hl Hn; cbv zeta.
  { cbn. rewrite Z.add_0_r. split_and!; [done..|]. split; [|by eauto]. intros k d Hk. exists d. split; [done|].
    rewrite decide_False; [done|]. apply not_elem_of_nil. }
  apply Forall_cons in Hl as [(d & Hd & Hrev & Hs & Hu) Hl]. cbn [map] in Hn. apply NoDup_cons in Hn as [Hx Hn].
  pose proof (dn_claimable _ _ Hdr j (2 * length (x :: l))%nat _ _ Hd Hs) as Hc.
  destruct (claim_success cfg (env j (2 * length (x :: l))%nat) (env j (2 * length (x :: l) + 1)%nat) _ d db
    Hr Hd Hc Hu (dn_fresh _ _ Hdr _ _ Hd Hs)) as (c & db1 & db2 & H1 & H2 & D).
  cbn [drain]. rewrite Hrev in H1. rewrite H1. pose proof (Hsink c st) as Ha.
  destruct (sink c st) as [a st1]. cbn [fst] in Ha. subst a. rewrite H2.
  assert (reachable db2) as Hr2 by (eapply reachable_steps; [exact Hr|apply D]).
  pose proof (delivered_drainable _ _ _ _ _ Hdr Hs D) as Hdr2.
  destruct (IH (n + 1) db2 st1 Hr2 Hdr2) as (Ho & Hr3 & Hdr3 & Had & Hkeep); [|done|].
  { rewrite Forall_forall in *. intros y Hy. apply (candidate_delivered db db2 _ d y Hr D); [by apply Hl|].
    intros E. apply Hx. rewrite <- E. by apply list_elem_of_fmap_2. }
  split; [rewrite Ho; cbn [length]; f_equal; lia|]. split; [done|]. split; [done|].
  destruct D as [_ (d' & E & _ & Hst) _ _]. rewrite E in Had, Hkeep. cbn [map]. split.
  - intros k y Hy. destruct (decide (k = du_delivery_id x)) as [->|Hne].
    + destruct (Had (du_delivery_id x) d') as (z & Hz & Hcase); [apply lookup_insert_eq|].
      rewrite decide_False in Hcase by done. subst z. exists d'. rewrite decide_True by left. by split.
    + destruct (Had k y) as (z & Hz & Hcase); [by rewrite lookup_insert_ne|]. exists z. split; [done|].
      case_decide as H3; case_decide as H4; [done|by destruct H4; right| |done].
      apply elem_of_cons in H4. tauto.
  - intros k Hk. apply Hkeep in Hk as [y Hy]. apply lookup_insert_Some in Hy as [[<- _]|[_ Hy]]; [by exists d|by exists y].
Qed.

Lemma due_candidates now db :
  Forall (candidate db) (due_deliveries now db) ∧ NoDup (map du_delivery_id (due_deliveries now db)).
Proof.
  split.
  - apply Forall_forall. intros x Hx. destruct (due_delivery _ _ _ Hx) as (d & Hd & Hrev & Hc).
    exists d. split_and!; [done|done| |by eapply due_unblocked].
    unfold claimable in Hc. apply andb_true_iff in Hc as [Hc%bool_decide_eq_true _].
    unfold settled. apply bool_decide_eq_false. intros Hs. elem_cases Hc; rewrite Hc in Hs; by elem_cases Hs.
  - unfold due_deliveries. rewrite <- firstn_map. eapply sublist_NoDup; [|apply sublist_take].
    rewrite merge_sort_Permutation. generalize (NoDup_fst_map_to_list (db_deliveries db)).
    induction (map_to_list (db_deliveries db)) as [|[k d] l IH]; intros Hn; [constructor|].
    apply NoDup_cons in Hn as [Hk Hn].
    change (omap (due_row now db) ((k, d) :: l)) with (match due_row now db (k, d) with
      | Some y => y :: omap (due_row now db) l | None => omap (due_row now db) l end). destruct (due_row now db (k, d)) as [x|] eqn:E; [|by apply IH].
    cbn [map]. constructor; [|by apply IH]. intros (y & Hy & Hin)%list_elem_of_fmap. apply Hk.
    apply list_elem_of_omap in Hin as ([k' d'] & Hin & E').
    assert (∀ i z w, due_row now db (i, z) = Some w → du_delivery_id w = i) as Hid.
    { intros i z w Hw. unfold due_row in Hw. apply bind_Some in Hw as (o & _ & Hw).
      apply bind_Some in Hw as (e & _ & Hw). destruct (_ && _); [|done]. by injection Hw as <-. }
    rewrite (Hid _ _ _ E) in Hy. rewrite (Hid _ _ _ E') in Hy. subst k'. by apply (list_elem_of_fmap_2 fst) in Hin.
Qed.

(** ** The loop *)

(** The deliveries that are not settled yet. *)
Definition unsettled (db : Db) : gset string := dom (filter (λ kv, settled kv.2 = false) (db_deliveries db)).
Lemma elem_of_unsettled db k : k ∈ unsettled db ↔ ∃ d, db_deliveries db !! k = Some d ∧ settled d = false.
Proof.
  unfold unsettled. rewrite elem_of_dom. split.
  - intros [d [Hd Hs]%map_lookup_filter_Some]. by exists d.
  - intros (d & Hd & Hs). exists d. by apply map_lookup_filter_Some.
Qed.

Lemma advanced_unsettled ids db db' k :
  advanced ids db db' → k ∈ unsettled db' → k ∈ unsettled db ∧ k ∉ ids.
Proof.
  intros [Ha Hk] (d' & Hd' & Hs)%elem_of_unsettled. destruct (Hk k ltac:(by eexists)) as [d Hd].
  destruct (Ha k d Hd) as (x & Hx & Hcase). assert (x = d') as -> by congruence.
  case_decide as Hin; [unfold settled in Hs; by rewrite Hcase in Hs|]. subst d'.
  split; [|done]. apply elem_of_unsettled. by exists d.
Qed.

Lemma advanced_smaller db db' k ids :
  advanced ids db db' → k ∈ ids → k ∈ unsettled db → (size (unsettled db') < size (unsettled db))%nat.
Proof.
  intros Ha Hk Hu. apply subset_size. split.
  - intros i Hi. by destruct (advanced_unsettled _ _ _ _ Ha Hi).
  - intros Hsub. destruct (advanced_unsettled _ _ _ _ Ha (Hsub k Hu)). done.
Qed.

Lemma idle_settled env j db :
  reachable db → drainable env db → due_deliveries (de_now (env j 0%nat)) db = [] →
  ∀ k d, db_deliveries db !! k = Some d → settled d = true.
Proof.
  intros Hr Hdr Hdue k d Hd. destruct (settled d) eqn:Hs; [done|]. exfalso.
  apply (queue_progress (de_now (env j 0%nat)) db k d); [done|done|done| |done].
  intros i x Hx Hsx. by apply (dn_claimable _ _ Hdr j 0%nat i x).
Qed.

(** ** Claim *)

(** C13: the dispatcher's loop ends with an empty queue: in a reachable store
    where nothing waits for a later time or for a restart (and the SHA-256
    ids of the next attempts are new and distinct), with sinks that accept
    what they are given, the loop goes idle after at most as many rounds as
    there are open deliveries, without an error, and then every delivery is
    settled: delivered, or the dead letter it already was. *)
Theorem dispatcher_goes_idle {S} cfg env (sink : ClaimedDelivery → S → SinkAnswer * S) db st fuel :
  (∀ c st, (sink c st).1 = Delivered) → reachable db → drainable env db →
  (size (unsettled db) < fuel)%nat →
  ∃ r, run_until_idle cfg env sink fuel db st = Some r ∧ dr_outcome r = Ok 0 ∧
    reachable (dr_db r) ∧ ∀ k d, db_deliveries db !! k = Some d →
      ∃ d', db_deliveries (dr_db r) !! k = Some d' ∧
        if settled d then d' = d else dl_status d' = DS_DELIVERED.
Proof.
  intros Hsink. revert db st. induction fuel as [|fuel IH]; intros db st Hr Hdr Hsize; [lia|].
  cbn [run_until_idle]. unfold drain_once. set (now := de_now (env fuel 0%nat)).
  destruct (due_candidates now db) as [Hcand Hnd].
  destruct (drain_all cfg env fuel sink (due_deliveries now db) Hsink 0 db st Hr Hdr Hcand Hnd) as (Ho & Hr' & Hdr' & Had).
  set (r := drain _ _ _ _ _ _ _) in *. rewrite Ho. destruct (due_deliveries now db) as [|x l] eqn:Hdue.
  - cbn. exists r. split; [done|]. split; [done|]. split; [done|]. intros k d Hd.
    destruct (proj1 Had k d Hd) as (d' & Hd' & Hcase). rewrite decide_False in Hcase by apply not_elem_of_nil.
    subst d'. exists d. split; [done|]. by rewrite (idle_settled env fuel db Hr Hdr Hdue k d Hd).
  - rewrite (proj2 (Z.eqb_neq _ _)) by (cbn [length]; lia).
    apply Forall_cons in Hcand as [(d0 & Hd0 & _ & Hs0 & _) Hcand].
    assert (size (unsettled (dr_db r)) < size (unsettled db))%nat as Hlt.
    { apply (advanced_smaller _ _ (du_delivery_id x) _ Had); [by left|]. apply elem_of_unsettled. by exists d0. }
    destruct (IH (dr_db r) (dr_sinks r) Hr' Hdr' ltac:(lia)) as (r2 & Hrun & Ho2 & Hr2 & Hall).
    exists r2. split; [done|]. split; [done|]. split; [done|]. intros k d Hd.
    destruct (proj1 Had k d Hd) as (d1 & Hd1 & Hcase). destruct (Hall k d1 Hd1) as (d2 & Hd2 & Hcase2).
    exists d2. split; [done|]. case_decide as Hin.
    + assert (settled d1 = true) as Hs1 by (unfold settled; by rewrite Hcase). rewrite Hs1 in Hcase2. subst d2.
      destruct (settled d) eqn:Hs; [|done].
      apply list_elem_of_fmap in Hin as (y & -> & Hy). rewrite Forall_forall in Hcand.
      apply elem_of_cons in Hy as [->|Hy]; [congruence|].
      destruct (Hcand y Hy) as (z & Hz & _ & Hsz & _). congruence.
    + subst d1. done.
Qed.

(** ** Witness *)

Definition open_rows (db : Db) : list (string * DeliveryRow) :=
  filter (λ kv, settled kv.2 = false) (map_to_list (db_deliveries db)).
Definition next_ids (db : Db) : list string := map (λ kv, next_attempt kv.1 kv.2) (open_rows db).
Definition drainable_check (now : string) (db : Db) : bool :=
  forallb (λ kv, claimable now kv.2 && is_none (db_delivery_attempts db !! next_attempt kv.1 kv.2)) (open_rows db)
  && bool_decide (NoDup (next_ids db)).

Lemma elem_of_open db k d : (k, d) ∈ open_rows db ↔ db_deliveries db !! k = Some d ∧ settled d = false.
Proof. unfold open_rows. rewrite list_elem_of_filter, elem_of_map_to_list. cbn. tauto. Qed.

Lemma drainable_checked clock db : drainable_check (de_now clock) db = true → drainable (λ _ _, clock) db.
Proof.
  unfold drainable_check. intros [Hall Hn%bool_decide_eq_true]%andb_true_iff. rewrite forallb_forall in Hall.
  assert (∀ k d, db_deliveries db !! k = Some d → settled d = false →
    claimable (de_now clock) d = true ∧ db_delivery_attempts db !! next_attempt k d = None) as H.
  { intros k d Hd Hs. assert ((k, d) ∈ open_rows db) as Hin by by apply elem_of_open.
    apply list_elem_of_In, Hall, andb_true_iff in Hin as [H1 H2]. split; [done|].
    cbn in H2. by destruct (db_delivery_attempts db !! _). }
  split; [intros; by eapply H|intros; by eapply H|].
  intros k k' d d' Hd Hd' Hs Hs' E. unfold next_ids in Hn.
  assert ((k, d) ∈ open_rows db ∧ (k', d') ∈ open_rows db) as [[i Hi]%list_elem_of_lookup [j Hj]%list_elem_of_lookup]
    by (by rewrite !elem_of_open).
  assert (i = j) as <-; [|congruence].
  apply (NoDup_lookup _ i j (next_attempt k d) Hn); rewrite list_lookup_fmap; [by rewrite Hi|].
  rewrite Hj. cbn. by rewrite E.
Qed.

Lemma demo_drainable : drainable_check (de_now demo_clock) (demo 3) = true.
Proof. vm_cast_no_check (@eq_refl bool true). Qed.

Lemma dispatcher_goes_idle_witness : ∃ fuel r,
  run_until_idle demo_dispatcher (λ _ _, demo_clock) (λ _ st, (Delivered, st)) fuel (demo 3) tt = Some r
  ∧ dr_outcome r = Ok 0.
Proof.
  destruct (dispatcher_goes_idle demo_dispatcher (λ _ _, demo_clock) (λ _ st, (Delivered, st)) (demo 3) tt
    (S (size (unsettled (demo 3))))) as (r & Hr & Ho & _).
  - reflexivity.
  - exact (demo_reachable 3).
  - exact (drainable_checked demo_clock (demo 3) demo_drainable).
  - lia.
  - eexists _, r. split; [exact Hr|exact Ho].
Defined.
