(* ===== verification/JsonlDelivery.v ===== *)
(** * JsonlDelivery: the dispatcher and the JSONL file together

    The outbox dispatcher hands claimed events to the append-once sink of
    Jsonl.v while the control plane commits further transactions, attempts
    fail, the operating system refuses accesses to the files, and the process
    restarts.  As long as a line that cannot be written leaves no byte in the
    file, the file of a Run is the events delivered so far, once each and in
    the order of the stream; what becomes of the file otherwise is shown at the
    end. *)

From stdpp Require Import relations.
From S2P Require Import Prelude PyText PyTime Sanitizer Json AgentTypes AgentState Commands.
From S2P Require Import OperationReduce FinalizeEvidence Store Events EventStore Codec Operations FinalizeOps.
From S2P Require Import Controller Frames Outcomes Apply Observations Outbox OutboxFacts Jsonl.
From S2P Require Import System Demo StatesInv Lifecycle Records Replay Ledger Streams ReadBack JsonlFacts Delivery Outgoing.

#[local] Open Scope Z_scope.

(** ** The sinks of the dispatcher *)

Section sinks.
(** The event bus is a callback of the application, with a state of its own;
    [describe] is the class name and the text of an exception; [disk] what the
    operating system does to the accesses of the JSONL sink for a claim. *)
Context {B : Type} (deliver_event : GatewayEventEnvelope → B → SinkAnswer * B).
Context (describe : pyerr → SinkError) (disk : ClaimedDelivery → SinkIo).

(* source: gateway/outbox.py:215-224 OutboxDispatcher.drain_once *)
Definition call_sink (c : ClaimedDelivery) (st : B * JsonlEventSink) : SinkAnswer * (B * JsonlEventSink) :=
  if decide (cd_sink_id c = "eventbus") then
    match parse_canonical_event (cd_canonical_event_json c) with
    | Err e => (Raised (describe e), st)
    | Ok event => let (answer, b) := deliver_event event st.1 in (answer, (b, st.2))
    end
  else if decide (cd_sink_id c = "jsonl") then
    match append_once (disk c) (cd_canonical_event_json c) (cd_canonical_hash c) None st.2 with
    | (Ok _, files) => (Delivered, (st.1, files))
    | (Err e, files) => (Raised (describe e), (st.1, files))
    end
  else (Raised (describe (RuntimeError ("No registered Event sink: " +:+ cd_sink_id c))), st).
End sinks.

(** ** Steps of the store and the files *)

(** A claim whose attempt is in flight, as [_claim] returned it. *)
Record in_flight_claim (c : ClaimedDelivery) (db : Db) : Prop := {
  ic_claim : claim_of c db;
  ic_attempt : ∃ a, db_delivery_attempts db !! cd_attempt_id c = Some a ∧ dt_status a = DA_DELIVERING;
  ic_event : ∃ r, db_events db !! cd_event_id c = Some r ∧
      er_canonical_event_json r = Some (cd_canonical_event_json c) ∧
      er_canonical_hash r = cd_canonical_hash c
}.

Definition jsonl_done (d : DeliveryRow) : Prop := dl_sink_id d = "jsonl" ∧ dl_status d = DS_DELIVERED.

(** A transaction that completes no JSONL delivery. *)
Definition completes_none (db db' : Db) : Prop :=
  ∀ k d, db_deliveries db' !! k = Some d → jsonl_done d → db_deliveries db !! k = Some d.

(** Texts in memory can be encoded; the operating system may refuse any access,
    but a line that could not be written left no byte; the rest of a step is
    the code's. *)
Definition appends (io : SinkIo) (c : ClaimedDelivery) (db : Db) (x : res bool) (st st' : JsonlEventSink) : Prop :=
  leaves_nothing io ∧ in_flight_claim c db ∧ cd_sink_id c = "jsonl" ∧ is_utf8 (cd_canonical_event_json c) = true ∧
  append_once io (cd_canonical_event_json c) (cd_canonical_hash c) None st = (x, st').

Inductive joint_step : Db * JsonlEventSink → Db * JsonlEventSink → Prop :=
| joint_store db db' st : gateway_step db db' → completes_none db db' → joint_step (db, st) (db', st)
| joint_call io c x db st st' : appends io c db x st st' → joint_step (db, st) (db, st')
| joint_success env io c b u db db' st st' :
    appends io c db (Ok b) st st' → finish_success env c db = Ok (u, db') →
    joint_step (db, st) (db', st')
| joint_restart db st : joint_step (db, st) (db, restart st).

(** A fresh database and an empty directory. *)
Definition joint_initial (x : Db * JsonlEventSink) : Prop :=
  initial x.1 ∧ js_files x.2 = ∅ ∧ js_known x.2 = ∅.
Definition joint_reachable (x : Db * JsonlEventSink) : Prop :=
  ∃ x0, joint_initial x0 ∧ rtc joint_step x0 x.

(** ** The file of a Run *)

Definition history_sequence (p : GatewayEventEnvelope * string) : Z := default 0 (ge_stream_sequence p.1).

Record recorded (db : Db) (run : string) (p : GatewayEventEnvelope * string) : Prop := {
  rd_event : ∃ r, db_events db !! ge_event_id p.1 = Some r ∧ er_stream_id r = run ∧
      er_canonical_event_json r = Some p.2 ∧ er_stream_sequence r = history_sequence p;
  rd_delivery : ∃ k d, db_deliveries db !! k = Some d ∧ dl_event_id d = ge_event_id p.1 ∧
      dl_sink_id d = "jsonl" ∧ 1 ≤ dl_attempt_count d
}.

Record projected (db : Db) (st : JsonlEventSink) (run : string) (h : history) : Prop := {
  pj_holds : holds st run h;
  pj_recorded : Forall (recorded db run) h;
  pj_order : StronglySorted Z.lt (map history_sequence h);
  pj_done : ∀ k d r, db_deliveries db !! k = Some d → jsonl_done d →
      db_events db !! dl_event_id d = Some r → er_stream_id r = run → dl_event_id d ∈ event_ids h
}.

(** ** What the store keeps *)

Lemma recorded_step db db' run p :
  reachable db → gateway_step db db' → recorded db run p → recorded db' run p.
Proof.
  intros Hr Hs [(r & He & Hrest) (k & d & Hd & E1 & E2 & Hc)]. split.
  - exists r. split; [|done]. by apply (gateway_step_rel _ events_kept_closed _ _ Hs).
  - destruct (steps_kept _ _ Hr (rtc_once _ _ Hs)) as (Hk & _).
    destruct (Hk k d Hd) as (d' & Hd' & [Hf Hn _]). unfold frozen in Hf. injection Hf as F1 F2 F3 F4 F5 F6.
    exists k, d'. split_and!; [done|congruence|congruence|lia].
Qed.

Lemma projected_step db db' st run h :
  reachable db → gateway_step db db' → projected db st run h →
  (∀ k d r, db_deliveries db' !! k = Some d → jsonl_done d → db_events db' !! dl_event_id d = Some r →
     er_stream_id r = run → db_deliveries db !! k = Some d ∨ dl_event_id d ∈ event_ids h) →
  projected db' st run h.
Proof.
  intros Hr Hs [Hh Hrec Ho Hd] Hnew. split; [done| |done|].
  - eapply Forall_impl; [exact Hrec|]. intros p. by apply recorded_step.
  - intros k d r Hk Hdone He E. destruct (Hnew k d r Hk Hdone He E) as [Hold|]; [|done].
    destruct (do_event _ _ _ (qo_deliveries _ (reachable_queue _ Hr) _ _ Hold)) as [r' Hr'].
    pose proof (gateway_step_rel _ events_kept_closed _ _ Hs _ _ Hr') as Hr2.
    apply (Hd k d r'); [done|done|done|congruence].
Qed.

(** ** Appending a claimed event *)

Lemma claimed_event c db :
  reachable db → in_flight_claim c db → is_utf8 (cd_canonical_event_json c) = true →
  ∃ e r, ge_event_id e = cd_event_id c ∧ db_events db !! cd_event_id c = Some r ∧
    er_canonical_event_json r = Some (cd_canonical_event_json c) ∧
    er_stream_sequence r = default 0 (ge_stream_sequence e) ∧
    canonical_event (er_stream_id r) e (cd_canonical_event_json c) ∧
    cd_canonical_hash c = sha256_text (cd_canonical_event_json c).
Proof.
  intros Hr [_ _ (r & He & Hraw & Hhash)] Hu.
  destruct (read_sound _ _ db (reachable_events _ Hr _ _ He))
    as (e & raw & Hraw' & Hh & Ht & Hrun & Hid & Hp & Hv & _ & Heid & Hseq & _).
  assert (raw = cd_canonical_event_json c) as -> by congruence.
  exists e, r. split_and!; [done..|by rewrite Hseq| |congruence].
  split; [done..|by rewrite Heid; apply hex64_ascii|done].
Qed.

Lemma in_flight_open c db :
  reachable db → in_flight_claim c db →
  ∃ d, db_deliveries db !! cd_delivery_id c = Some d ∧ dl_event_id d = cd_event_id c ∧
    dl_sink_id d = cd_sink_id c ∧ dl_status d = DS_DELIVERING ∧ 1 ≤ dl_attempt_count d.
Proof.
  intros Hr [(a0 & d & Ha0 & Hdi & Hno & Hd & Hev & Hsk) (a & Ha & Hst) _].
  assert (a0 = a) as -> by congruence.
  destruct (qo_attempts _ (reachable_queue _ Hr) _ _ Ha) as [_ (x & Hx & Hb & Hact & _)].
  rewrite Hdi in Hx. assert (x = d) as -> by congruence. destruct (Hact Hst) as [Hs _].
  exists d. split_and!; [done..|lia].
Qed.

(** An event that is not in the file yet comes after every event that is. *)
Lemma new_event_last c db st run h e r :
  reachable db → in_flight_claim c db → cd_sink_id c = "jsonl" → projected db st run h →
  db_events db !! cd_event_id c = Some r → er_stream_id r = run →
  er_stream_sequence r = default 0 (ge_stream_sequence e) → cd_event_id c ∉ event_ids h →
  Forall (λ p, history_sequence p < er_stream_sequence r) h.
Proof.
  intros Hr Hc Hsink P He Hrun Hseq Hnew. destruct (in_flight_open c db Hr Hc) as (d & Hd & Hev & Hsk & Hst & _).
  destruct (reachable_streams _ Hr) as [_ S]. rewrite Forall_forall. intros p Hp.
  pose proof (pj_recorded _ _ _ _ P) as Hrec. rewrite Forall_forall in Hrec.
  destruct (Hrec p Hp) as [(r' & He' & Hrun' & _ & Hsq) (k & d' & Hd' & Hev' & Hsk' & Hc')].
  rewrite <- Hsq. destruct (Z.lt_trichotomy (er_stream_sequence r') (er_stream_sequence r)) as [|[E|Hlt]]; [done| |].
  - exfalso. apply Hnew. apply list_elem_of_fmap. exists p. split; [|done].
    apply (ss_unique _ S _ _ r r'); [done|done|congruence|done].
  - exfalso. pose proof He' as He2. rewrite <- Hev' in He2.
    pose proof (reachable_in_order _ Hr k d' r' Hd' He2 Hc') as Hb. rewrite blocked_false in Hb.
    assert (settled d = true) as Hs.
    { apply (Hb _ _ r Hd); [by rewrite Hev|]. split_and!; congruence. }
    unfold settled in Hs. by rewrite Hst in Hs.
Qed.

Lemma sorted_snoc (l : list Z) x : StronglySorted Z.lt l → Forall (λ y, y < x) l → StronglySorted Z.lt (l ++ [x]).
Proof.
  intros Hs. induction Hs as [|y l Hs IH Hy]; intros Hx; [by repeat constructor|].
  apply Forall_cons in Hx as [Hx Hl]. cbn. constructor; [by apply IH|]. by apply Forall_app_2; [|constructor].
Qed.

(** A file with one more event. *)
Lemma appended_projected c db st st' h e r :
  reachable db → in_flight_claim c db → cd_sink_id c = "jsonl" → projected db st (er_stream_id r) h →
  ge_event_id e = cd_event_id c → db_events db !! cd_event_id c = Some r →
  er_canonical_event_json r = Some (cd_canonical_event_json c) → er_stream_sequence r = default 0 (ge_stream_sequence e) →
  let h' := appended (e, cd_canonical_event_json c) h in
  holds st' (er_stream_id r) h' → projected db st' (er_stream_id r) h' ∧ cd_event_id c ∈ event_ids h'.
Proof.
  intros Hr Hc Hsink P Hid He Hraw Hseq h' Hh. destruct (in_flight_open c db Hr Hc) as (d & Hdd & E1 & E2 & _ & Hcnt).
  subst h'. set (raw := cd_canonical_event_json c) in *.
  destruct (appended_cases (e, raw) h) as [[Hap Hin]|[Hap Hin]]; rewrite Hap in *; cbn [fst] in Hin; rewrite Hid in Hin.
  { split; [|done]. destruct P as [H1 H2 H3 H4]. by split. }
  split; [split; [done| | |]|].
  - apply Forall_app. split; [apply P|]. constructor; [|constructor].
    split; cbn [fst snd]; rewrite Hid; [by exists r|]. exists (cd_delivery_id c), d.
    split_and!; [done|done|congruence|done].
  - rewrite map_app. apply sorted_snoc; [apply P|].
    change (history_sequence (e, raw)) with (default 0 (ge_stream_sequence e)). rewrite <- Hseq, Forall_fmap. by eapply (new_event_last c db st _ h e).
  - intros k d' r' Hk Hdone He' E. pose proof (pj_done _ _ _ _ P k d' r' Hk Hdone He' E).
    unfold event_ids in *. rewrite map_app. set_solver.
  - unfold event_ids. rewrite map_app. cbn. rewrite Hid. set_solver.
Qed.

(** What an append leaves of the files: those of every Run still hold its
    events, and an append that answers has its event in the file. *)
Lemma call_projected io c db x st st' :
  reachable db → appends io c db x st st' → (∀ run, ∃ h, projected db st run h) →
  (io = io_ok → is_ok x = true) ∧ js_runs_directory st' = js_runs_directory st ∧
  ∀ run, ∃ h, projected db st' run h ∧
    (is_ok x = true → ∀ r, db_events db !! cd_event_id c = Some r → er_stream_id r = run → cd_event_id c ∈ event_ids h).
Proof.
  intros Hr (Hio & Hc & Hsink & Hu & Ha) Hall.
  destruct (claimed_event c db Hr Hc Hu) as (e & r & Hid & He & Hraw & Hseq & Hcan & Hhash).
  rewrite Hhash in Ha. destruct (Hall (er_stream_id r)) as [h P].
  destruct (append_once_holds io st _ h e _ Hio (pj_holds _ _ _ _ P) Hcan) as (x' & st1 & h' & Ha' & Hh & Hd & Hends).
  { intros p Hp E. pose proof (pj_recorded _ _ _ _ P) as Hrec. rewrite Forall_forall in Hrec.
    destruct (Hrec p Hp) as [(r' & He' & _ & Hraw' & _) _]. rewrite E, Hid in He'. congruence. }
  rewrite Ha in Ha'. injection Ha' as <- <-.
  split; [intros ->; by destruct Hends as [[-> _]|(_ & [] & _)]|]. split; [done|]. intros run.
  destruct (decide (run = er_stream_id r)) as [->|Hne].
  - exists h'. pose proof (λ H, appended_projected c db st st' h e r Hr Hc Hsink P Hid He Hraw Hseq H) as Happ. cbv zeta in Happ.
    destruct Hends as [[-> ->]|(-> & _ & [->| ->])].
    + destruct (Happ Hh) as [P' Hin]. by split.
    + split; [|done]. destruct P as [H1 H2 H3 H4]. by split.
    + destruct (Happ Hh) as [P' _]. by split.
  - destruct (Hall run) as [h2 P']. exists h2. split; [|intros _ r' Hr'; congruence].
    pose proof (append_once_others io _ run _ _ st Hcan ltac:(congruence)) as Hsame. rewrite Ha in Hsame.
    destruct P' as [H1 H2 H3 H4]. split; [by eapply holds_same|done..].
Qed.

(** ** The invariant *)

Definition joint_ok (x : Db * JsonlEventSink) : Prop :=
  reachable x.1 ∧ ∀ run, ∃ h, projected x.1 x.2 run h.

Lemma joint_step_ok x y : joint_step x y → joint_ok x → joint_ok y.
Proof.
  intros [db db' st Hs Hn|io c r db st st' Ha|env io c b u db db' st st' Ha Hf|db st] [Hr H]; cbn in Hr, H.
  - split; [by eapply reachable_steps, rtc_once|]. cbn. intros run. destruct (H run) as [h P]. exists h.
    apply (projected_step db); [done..|]. intros k d r' Hk Hd _ _. left. by apply Hn.
  - split; [done|]. intros run. destruct (call_projected _ _ _ _ _ _ Hr Ha H) as (_ & _ & Hall).
    destruct (Hall run) as (h & P & _). by exists h.
  - destruct (call_projected _ _ _ _ _ _ Hr Ha H) as (_ & _ & Hall). destruct Ha as (_ & Hc & _).
    assert (gateway_step db db') as Hs by (eapply step_dispatcher, ds_success; [apply Hc|exact Hf]).
    split; [by eapply reachable_steps, rtc_once|]. cbn. intros run. destruct (Hall run) as (h & P & Hin). exists h.
    apply (projected_step db); [done..|]. intros k d r' Hk Hd He E.
    destruct (finish_success_ok _ _ _ _ _ Hf) as (a & d0 & S & _).
    rewrite (sg_deliveries _ _ _ _ _ _ _ S) in Hk. apply lookup_insert_Some in Hk as [[_ <-]|[_ Hk]]; [|by left].
    right. destruct Hc as [(a1 & d1 & _ & _ & _ & Hd1 & Hev & _) _ _].
    pose proof (sg_delivery _ _ _ _ _ _ _ S) as Hd0. assert (d1 = d0) as -> by congruence.
    rewrite (sg_events _ _ _ _ _ _ _ S) in He. rewrite <- Hev in Hin. by apply (Hin eq_refl r').
  - split; [done|]. intros run. destruct (H run) as [h [H1 H2 H3 H4]]. exists h.
    split; [by apply restart_holds|done..].
Qed.

Lemma joint_reachable_ok x : joint_reachable x → joint_ok x.
Proof.
  intros (x0 & (Hi & Hf & Hk) & Hs). assert (joint_ok x0) as H0.
  { assert (reachable x0.1) as Hr by (eexists; split; [exact Hi|apply rtc_refl]). split; [done|].
    intros run. exists []. split; [|constructor|constructor|].
    { apply holds_new; [rewrite Hf|rewrite Hk]; apply lookup_empty. }
    intros k d r Hd. destruct Hi as (sinks & gens & E). rewrite E in Hd. cbn in Hd. by rewrite lookup_empty in Hd. }
  clear Hi Hf Hk. induction Hs as [|x y z Hxy _ IH]; [done|]. apply IH. by eapply joint_step_ok.
Qed.

Lemma joint_reachable_step x y : joint_reachable x → joint_step x y → joint_reachable y.
Proof. intros (x0 & Hi & Hs) H. exists x0. split; [done|]. by eapply rtc_r. Qed.

(** ** A batch of the dispatcher *)

Definition texts_utf8 (db : Db) : Prop :=
  ∀ id r raw, db_events db !! id = Some r → er_canonical_event_json r = Some raw → is_utf8 raw = true.

Lemma claim_in_flight cfg env id rev c db db' :
  claim cfg env id rev db = Ok (Some c, db') → in_flight_claim c db'.
Proof.
  intros H. pose proof (claim_claim_of _ _ _ _ _ _ _ H) as Hc.
  apply claim_ok in H as [[[=] _]|(d & c' & [= <-] & _ & C)].
  destruct (cl_ids _ _ _ _ _ _ _ C) as (E0 & _ & _ & _ & _ & E3). split; [done| |].
  - rewrite (cl_attempts _ _ _ _ _ _ _ C), lookup_insert_eq. by eexists.
  - rewrite E3, (cl_events _ _ _ _ _ _ _ C). apply (cl_body _ _ _ _ _ _ _ C).
Qed.

Lemma claim_completes_none cfg env id rev c db db' : claim cfg env id rev db = Ok (c, db') → completes_none db db'.
Proof.
  intros H. apply claim_ok in H as [[_ ->]|(d & c' & _ & _ & C)]; intros k x; [done|].
  rewrite (cl_deliveries _ _ _ _ _ _ _ C). by intros [[_ <-]|[_ H]]%lookup_insert_Some [].
Qed.
Lemma failure_completes_none cfg env c e u db db' : finish_failure cfg env c e db = Ok (u, db') → completes_none db db'.
Proof.
  intros H. apply finish_failure_ok in H as (a & d & dl & nx & _ & _ & S & _). intros k x.
  rewrite (sg_deliveries _ _ _ _ _ _ _ S). intros [[_ <-]|[_ H]]%lookup_insert_Some [_ Hs]; [|done].
  cbn in Hs. by destruct (is_dead _ _).
Qed.
Lemma success_completes_none env c u db db' :
  claim_of c db → cd_sink_id c ≠ "jsonl" → finish_success env c db = Ok (u, db') → completes_none db db'.
Proof.
  intros (_ & d1 & _ & _ & _ & Hd1 & _ & Hsk) Hne H. apply finish_success_ok in H as (a & d & S & _). intros k x.
  rewrite (sg_deliveries _ _ _ _ _ _ _ S). intros [[_ <-]|[_ H]]%lookup_insert_Some [Hj _]; [|done].
  pose proof (sg_delivery _ _ _ _ _ _ _ S) as Hd. assert (d1 = d) as -> by congruence. cbn in Hj. congruence.
Qed.

Lemma dispatcher_texts db db' : dispatcher_step db db' → texts_utf8 db → texts_utf8 db'.
Proof. intros (dl & da & ob & ->)%dispatcher_redelivered H. exact H. Qed.

Section batch.
Context {B : Type} (bus : GatewayEventEnvelope → B → SinkAnswer * B) (describe : pyerr → SinkError).
Context (disk : ClaimedDelivery → SinkIo) (Hdisk : ∀ c, leaves_nothing (disk c)).

(** What the sinks do to the files. *)
Lemma call_sink_joint c db b st a b' st' :
  joint_reachable (db, st) → texts_utf8 db → in_flight_claim c db →
  call_sink bus describe disk c (b, st) = (a, (b', st')) →
  joint_reachable (db, st') ∧
  ∀ env u db', a = Delivered → finish_success env c db = Ok (u, db') → joint_reachable (db', st').
Proof using Hdisk.
  intros HJ Ht Hc. unfold call_sink. cbn [fst snd].
  assert (∀ env u db', cd_sink_id c ≠ "jsonl" → finish_success env c db = Ok (u, db') →
    joint_reachable (db', st)) as Hother.
  { intros env u db' Hne Hf. eapply joint_reachable_step; [exact HJ|]. apply joint_store.
    - eapply step_dispatcher, ds_success; [apply (ic_claim _ _ Hc)|exact Hf].
    - eapply success_completes_none; [apply (ic_claim _ _ Hc)|done|exact Hf]. }
  case_decide as Hbus.
  { assert (cd_sink_id c ≠ "jsonl") as Hne by (rewrite Hbus; done).
    destruct (parse_canonical_event _) as [ev|e].
    - destruct (bus ev b) as [ans b1]. intros [= <- <- <-]. split; [done|]. intros env u db' _. by apply Hother.
    - intros [= <- <- <-]. by split. }
  case_decide as Hj; [|intros [= <- <- <-]; by split].
  destruct (append_once _ _ _ _ st) as [x st1] eqn:Ha.
  assert (appends (disk c) c db x st st1) as Hap.
  { split_and!; [done|done|done| |done]. destruct (ic_event _ _ Hc) as (r & He & Hraw & _). by eapply Ht. }
  destruct x as [done_|e]; intros [= <- <- <-].
  - split; [eapply joint_reachable_step; [exact HJ|by eapply joint_call]|].
    intros env u db' _ Hf. eapply joint_reachable_step; [exact HJ|by eapply joint_success].
  - split; [|done]. eapply joint_reachable_step; [exact HJ|by eapply joint_call].
Qed.

Lemma drain_joint cfg env l : ∀ n db b st,
  joint_reachable (db, st) → texts_utf8 db → Forall (ready db) l →
  let r := drain cfg env (call_sink bus describe disk) l n db (b, st) in joint_reachable (dr_db r, (dr_sinks r).2).
Proof using Hdisk.
  induction l as [|x l IH]; intros n db b st HJ Ht Hl; [done|]. cbv zeta.
  apply Forall_cons in Hl as [[_ Hu] Hl]. cbn [drain].
  destruct (joint_reachable_ok _ HJ) as [Hr _]. cbn [fst] in Hr.
  destruct (claim _ _ _ _ db) as [[[c|] db1]|e] eqn:Hc; [| |done].
  2: { apply claim_ok in Hc as [[_ ->]|(d & c & [=] & _)]. by apply IH. }
  assert (dispatcher_step db db1) as D1 by (eapply ds_claim; [done|exact Hc]).
  assert (gateway_step db db1) as S1 by by apply step_dispatcher.
  assert (joint_reachable (db1, st)) as HJ1.
  { eapply joint_reachable_step; [exact HJ|]. apply joint_store; [done|by eapply claim_completes_none]. }
  pose proof (dispatcher_texts _ _ D1 Ht) as Ht1. apply claim_in_flight in Hc as Hfl.
  destruct (call_sink bus describe disk c (b, st)) as [a [b2 st2]] eqn:Hcall.
  destruct (call_sink_joint _ _ _ _ _ _ _ HJ1 Ht1 Hfl Hcall) as [HJ2 Hdone].
  assert (∀ m db2, dispatcher_step db1 db2 → joint_reachable (db2, st2) →
    let r := drain cfg env (call_sink bus describe disk) l m db2 (b2, st2) in joint_reachable (dr_db r, (dr_sinks r).2)) as Hnext.
  { intros m db2 D2 HJ3. apply IH; [done|by eapply dispatcher_texts|].
    assert (rtc gateway_step db db2) as Hs by (eapply rtc_l; [exact S1|]; by apply rtc_once, step_dispatcher).
    eapply Forall_impl; [exact Hl|]. intros y. by apply ready_steps. }
  destruct a as [|e|]; [| |done].
  - destruct (finish_success _ c db1) as [[u db2]|e] eqn:Hf; [|done].
    apply Hnext; [eapply ds_success; [apply (ic_claim _ _ Hfl)|exact Hf]|by eapply Hdone].
  - destruct (finish_failure _ _ c e db1) as [[u db2]|e'] eqn:Hf; [|done].
    assert (dispatcher_step db1 db2) as D2 by (eapply ds_failure; [apply (ic_claim _ _ Hfl)|exact Hf]).
    apply Hnext; [exact D2|]. eapply joint_reachable_step; [exact HJ2|].
    apply joint_store; [by apply step_dispatcher|by eapply failure_completes_none].
Qed.
End batch.

(** ** The file and the store *)

(** The events of a stream, told apart by their position. *)
Definition sequence_of (db : Db) (id : string) : Z :=
  match db_events db !! id with Some r => er_stream_sequence r | None => 0 end.

Lemma sorted_ids (f : string → Z) (l l' : list string) :
  StronglySorted Z.lt (map f l) → StronglySorted Z.lt (map f l') → (∀ x, x ∈ l ↔ x ∈ l') → l = l'.
Proof.
  assert (∀ l : list string, StronglySorted Z.lt (map f l) → StronglySorted (λ x y, f x < f y) l) as Hmap.
  { induction l0 as [|x l0 IH]; intros H; [constructor|]. cbn in H. apply StronglySorted_inv in H as [H Hx].
    constructor; [by apply IH|]. by rewrite Forall_fmap in Hx. }
  assert (∀ l : list string, StronglySorted (λ x y, f x < f y) l → NoDup l) as Hdup.
  { induction 1 as [|x l0 H IH Hx]; constructor; [|done]. intros Hin. rewrite Forall_forall in Hx.
    specialize (Hx x Hin). lia. }
  assert (AntiSymm (=) (λ x y, f x < f y)) by (intros x y ??; lia).
  intros H1%Hmap H2%Hmap Hx. apply (StronglySorted_unique (λ x y, f x < f y)); [done|done|].
  by apply NoDup_Permutation; [apply Hdup..|].
Qed.

Lemma seqZ_strict n : ∀ a, StronglySorted Z.lt (seqZ a (Z.of_nat n)).
Proof.
  induction n as [|n IH]; intros a; [by rewrite seqZ_nil by lia; constructor|].
  rewrite seqZ_cons by lia. replace (Z.pred (Z.of_nat (S n))) with (Z.of_nat n) by lia. constructor; [apply IH|].
  apply Forall_seqZ. lia.
Qed.

Lemma recorded_sequences db run h :
  Forall (recorded db run) h → map (sequence_of db) (event_ids h) = map history_sequence h.
Proof.
  induction 1 as [|p h [(r & He & _ & _ & Hs) _] H IH]; [done|].
  change (sequence_of db (ge_event_id p.1) :: map (sequence_of db) (event_ids h) = map history_sequence (p :: h)).
  rewrite IH. cbn [map]. f_equal. unfold sequence_of. by rewrite He.
Qed.

Lemma same_texts db run h records :
  Forall (recorded db run) h → (∀ record, record ∈ records → read_canonical (ce_event_id record) db = Ok record) →
  event_ids h = map ce_event_id records → map snd h = map ce_canonical_event_json records.
Proof.
  intros Hh. revert records. induction Hh as [|p h [(r & He & _ & Hraw & _) _] Hh IH]; intros [|x l] Hread E; try done.
  cbn in E. injection E as E1 E2. cbn [map]. f_equal; [|apply IH; [|done]; intros y Hy; apply Hread; by right].
  specialize (Hread x ltac:(left)). unfold read_canonical, read_row in Hread. rewrite <- E1, He in Hread.
  cbn in Hread. rewrite Hraw in Hread. unfold validate_row, mbind, res_bind, mret, res_ret in Hread.
  case_decide; [done|]. destruct (parse_canonical_event p.2) as [e|]; [|done]. case_decide; [|done].
  by injection Hread as <-.
Qed.

(** ** Claims *)

(** The JSONL file of a Run is its delivered history: starting from a
    fresh database and an empty directory, after any sequence of transactions,
    claims, appends, failures and restarts, the file of a Run is a sequence of
    lines, each the canonical text of one committed event of the Run; no event
    is there twice, the lines are in the order of the stream, every event
    whose JSONL delivery is complete is there, and an append the dispatcher
    makes fails only if the operating system refuses something. *)
Lemma jsonl_history db st run :
  joint_reachable (db, st) →
  (∃ h, default "" (js_files st !! jsonl_path st (Some run)) = file_of (map snd h) ∧
    NoDup (event_ids h) ∧ StronglySorted Z.lt (map (sequence_of db) (event_ids h)) ∧
    (∀ p, p ∈ h → parse_canonical_event p.2 = Ok (normal_envelope p.1) ∧
       ∃ r, db_events db !! ge_event_id p.1 = Some r ∧ er_stream_id r = run ∧
         er_canonical_event_json r = Some p.2) ∧
    (∀ k d r, db_deliveries db !! k = Some d → jsonl_done d → db_events db !! dl_event_id d = Some r →
       er_stream_id r = run → dl_event_id d ∈ event_ids h)) ∧
  (∀ c x st', appends io_ok c db x st st' → is_ok x = true).
Proof.
  intros HJ%joint_reachable_ok. destruct HJ as [Hr H]. cbn in Hr, H. split.
  - destruct (H run) as [h [Hh Hrec Ho Hd]]. exists h. split_and!; [apply Hh|apply Hh|..].
    + by rewrite (recorded_sequences _ _ _ Hrec).
    + intros p Hp. pose proof (ho_events _ _ _ Hh) as Hc. rewrite Forall_forall in Hc, Hrec.
      split; [by eapply canonical_parse, Hc|]. destruct (Hrec p Hp) as [(r & He & Hs & Ht & _) _]. by exists r.
    + exact Hd.
  - intros c x st' Ha. destruct (call_projected _ _ _ _ _ _ Hr Ha H) as [Hok _]. by apply Hok.
Qed.

(** C11: the incremental projection and the rebuild agree.  Let the
    dispatcher deliver to the JSONL sink while the store commits transactions,
    sinks fail, the process restarts between two calls, and the operating
    system refuses to read a file, to replace the index, to open the event
    file or to write to the index; only, a line of the event file whose
    [write], [flush] or [fsync] raises must have left no byte in the file.
    When every event of a stream has been delivered to the sink, the file is
    byte for byte the file [ProjectionRebuilder.rebuild_jsonl] writes from the
    event store.  (A line whose write raises after bytes of it reached the file
    is outside of this: the line is there twice after the retry of the same
    process, and a cut line spoils the file.) *)
Theorem jsonl_equals_rebuild db st run :
  joint_reachable (db, st) →
  (∀ id r, db_events db !! id = Some r → er_stream_id r = run →
     ∃ k d, db_deliveries db !! k = Some d ∧ dl_event_id d = id ∧ jsonl_done d) →
  ∃ files, rebuild_jsonl (js_runs_directory st) run db (js_files st) = Ok (jsonl_path st (Some run), files) ∧
    files !! jsonl_path st (Some run) = Some (default "" (js_files st !! jsonl_path st (Some run))).
Proof.
  intros HJ%joint_reachable_ok Hall. destruct HJ as [Hr H]. cbn in Hr, H. destruct (H run) as [h [Hh Hrec Ho Hd]].
  destruct (reachable_streams _ Hr) as [Hn S].
  destruct (stream_records db run 0 Hr) as (records & Hrd & Hf & Hids & Hsq); [split; [done|apply Hn]|].
  assert (∀ record, record ∈ records → read_canonical (ce_event_id record) db = Ok record ∧
    sequence_of db (ce_event_id record) = ce_stream_sequence record) as Hread.
  { intros record (i & Hi)%list_elem_of_lookup. destruct (Forall2_lookup_r _ _ _ _ _ Hf Hi) as ([id r] & Hk & Hx).
    apply list_elem_of_lookup_2, elem_of_stream in Hk as (Hev & _).
    destruct (read_reachable db id r Hr Hev) as (x & Hx' & Hid & Hs). cbn in *.
    assert (x = record) as -> by congruence. unfold read_canonical, sequence_of. by rewrite Hid, Hev. }
  assert (map (sequence_of db) (map ce_event_id records) = map ce_stream_sequence records) as Hseq.
  { rewrite map_map. apply map_ext_in. intros x Hx%list_elem_of_In. by apply Hread. }
  assert (event_ids h = map ce_event_id records) as E.
  { apply (sorted_ids (sequence_of db)).
    - by rewrite (recorded_sequences _ _ _ Hrec).
    - rewrite Hseq, Hsq. replace (stream_length run db - 0) with (Z.of_nat (Z.to_nat (stream_length run db))).
      + apply seqZ_strict.
      + specialize (Hn run). lia.
    - intros id. rewrite Hids, list_elem_of_fmap. split.
      + intros (p & -> & Hp)%list_elem_of_fmap. rewrite Forall_forall in Hrec.
        destruct (Hrec p Hp) as [(r & He & Hs & _) _]. exists (ge_event_id p.1, r). split; [done|].
        apply elem_of_stream. split_and!; [done|done|]. pose proof (ss_bound _ S _ _ He). unfold row_sequence. cbn. lia.
      + intros ([i r] & -> & (He & Hs & _)%elem_of_stream). cbn in He, Hs.
        destruct (Hall i r He Hs) as (k & d & Hk & Hev & Hdone). cbn. rewrite <- Hev.
        apply (Hd k d r); [done|done|by rewrite Hev|done]. }
  eexists. unfold rebuild_jsonl. rewrite Hrd. cbn. split; [reflexivity|].
  change (js_runs_directory st +:+ "/" +:+ run +:+ ".jsonl") with (jsonl_path st (Some run)).
  rewrite lookup_insert_eq. f_equal.
  rewrite (ho_file _ _ _ Hh), jsonl_file. f_equal. symmetry. apply (same_texts db run); [done| |done].
  intros record Hx. by apply Hread.
Qed.

(** The dispatcher's own batch is such a sequence: a [drain_once] that
    calls the event bus and the JSONL sink, whatever the bus answers and
    wherever it stops, leaves the store and the files in a reachable state. *)
Lemma drain_projects {B} (bus : GatewayEventEnvelope → B → SinkAnswer * B) describe disk cfg paused env db b st :
  (∀ c, leaves_nothing (disk c)) → joint_reachable (db, st) → texts_utf8 db →
  let r := drain_once cfg paused env (call_sink bus describe disk) db (b, st) in
  joint_reachable (dr_db r, (dr_sinks r).2).
Proof.
  intros Hdisk HJ Ht. unfold drain_once. destruct paused; [done|]. apply drain_joint; [done|done|done|].
  apply Forall_forall. intros x Hx. split; [|by eapply due_unblocked].
  destruct (due_delivery _ _ _ Hx) as (d & Hd & _). by exists d.
Qed.

(** ** A line that is in the file although its write raised *)

(** When [flush] or [fsync] raises with the line in the file, the retry in the
    same process appends the line a second time. *)
Lemma failed_flush_appends_twice st run h e raw io :
  holds st run h → canonical_event run e raw → ge_event_id e ∉ event_ids h →
  io_read io = true → io_replace io = true → io_event io = Cut (String.length (raw +:+ str1 newline)) →
  ∃ st1 st2, append_once io raw (sha256_text raw) None st = (os_error, st1) ∧
    append_once io_ok raw (sha256_text raw) None st1 = (Ok true, st2) ∧
    default "" (js_files st2 !! jsonl_path st (Some run)) = file_of (map snd h ++ [raw; raw]).
Proof.
  intros H He Hid H1 H2 H3. rewrite (append_once_start _ _ _ _ _ He).
  destruct (known_stays io st run h H H1 H2) as (st0 & -> & Hh & Hk & Hd).
  rewrite (proj2 (index_none h _) Hid). unfold append_event at 1. rewrite H3. cbn [write_file negb].
  assert (∀ t, String.substring 0 (String.length t) t = t) as Hfull by (induction t as [|c t IH]; [done|cbn; by rewrite IH]).
  rewrite Hfull. set (st1 := st0 ⟪ js_files := _ ⟫). exists st1.
  assert (is_ascii (index_line (ge_event_id e) (sha256_text raw)) = true) as A
    by (apply index_line_ascii; [apply (cv_ascii _ _ _ He)|apply sha256_ascii]).
  rewrite (append_once_start _ _ _ _ _ He). unfold known_events. assert (js_known st1 !! Some run = Some (index_of h)) as -> by exact Hk.
  rewrite (proj2 (index_none h _) Hid). unfold append_event. cbn [write_file io_event io_ok negb]. unfold index_outcome. rewrite A.
  cbn [write_file io_index io_ok]. eexists. split; [done|]. split; [reflexivity|].
  cbn. rewrite append_file_other by apply not_eq_sym, jsonl_index_differ.
  unfold append_file, jsonl_path. cbn. rewrite Hd. fold (jsonl_path st (Some run)). rewrite !lookup_insert_eq. cbn.
  pose proof (ho_file _ _ _ Hh) as Hf. unfold jsonl_path in *. cbn in Hf. rewrite Hd in Hf. rewrite Hf, file_of_app. cbn.
  unfold str1. by rewrite !sapp_assoc, !sapp_cons, !sapp_nil.
Qed.

(** ** A line cut before its newline *)

Lemma clean_translate a : clean a = true → translate_newlines a = a.
Proof.
  induction a as [|c a IH]; [done|]. rewrite clean_cons. intros [Hc Ha]%andb_true_iff. cbn [translate_newlines].
  rewrite decide_False by (intros ->; done). by rewrite IH.
Qed.
Lemma clean_lines a : clean a = true → a ≠ "" → text_lines a = [a].
Proof.
  induction a as [|c a IH]; [done|]. rewrite clean_cons. intros [Hc Ha]%andb_true_iff _. cbn [text_lines].
  rewrite decide_False by (intros ->; done). destruct a as [|c' a]; [done|]. by rewrite IH.
Qed.

Definition brace : Ascii.ascii := Ascii.ascii_of_nat 123.
Lemma canonical_opens run e raw : canonical_event run e raw → ∃ t, raw = String brace t.
Proof.
  intros []. subst raw. unfold canonical_json. change (envelope_json e) with (JObj (envelope_fields e)).
  rewrite dumps_object. by eexists.
Qed.

(** Two documents on one line are no document. *)
Lemma joined_rejected run e1 raw1 e2 raw2 :
  canonical_event run e1 raw1 → canonical_event run e2 raw2 → json_loads (raw1 +:+ raw2) = None.
Proof.
  intros H1 H2. destruct (canonical_opens _ _ _ H2) as [t ->]. destruct H1 as [Ht _ Hp _ _ _].
  pose proof (envelope_json_wf e1 Hp) as Hw. change (JObj (envelope_fields e1)) with (envelope_json e1) in Hw.
  unfold json_loads. pose proof (need_dumps _ Hw) as Hn. unfold canonical_json in Ht. rewrite <- Ht in Hn.
  pose proof (reads_back_wf _ Hw (3 * (String.length (raw1 +:+ String brace t) + 1))%nat (String brace t)) as Hr.
  rewrite <- Ht in Hr. rewrite Hr; [done| |done]. rewrite length_sapp. lia.
Qed.

(** A JSONL file whose last line lost its newline is accepted, and the
    next append spoils it: the append succeeds, but it joins its event to the
    last one on one line, and from then on no process can open the file of
    the Run. *)
Lemma jsonl_torn_line st run e1 raw1 e2 raw2 :
  canonical_event run e1 raw1 → canonical_event run e2 raw2 → ge_event_id e1 ≠ ge_event_id e2 →
  js_known st !! Some run = None → js_files st !! jsonl_path st (Some run) = Some raw1 →
  ∃ st', append_once io_ok raw2 (sha256_text raw2) None st = (Ok true, st') ∧
    js_files st' !! jsonl_path st (Some run) = Some (raw1 +:+ raw2 +:+ str1 newline) ∧
    ∀ e raw, canonical_event run e raw → ∃ x,
      (append_once io_ok raw (sha256_text raw) None (restart st')).1 = Err (RuntimeError x).
Proof.
  intros H1 H2 Hne Hk Hf. rewrite (append_once_start _ _ _ _ _ H2). unfold known_events. rewrite Hk.
  pose proof (canonical_clean _ _ _ H1) as C1. pose proof (canonical_clean _ _ _ H2) as C2.
  destruct (canonical_opens _ _ _ H1) as [t1 E1].
  assert (load_index io_ok (jsonl_path st (Some run)) (js_files st) = Ok {[ge_event_id e1 := sha256_text raw1]}) as ->.
  { unfold load_index. rewrite Hf, (cv_utf8 _ _ _ H1), clean_translate, clean_lines by (done || by rewrite E1).
    cbn [load_lines]. rewrite (canonical_not_blank _ _ _ H1), (canonical_parse _ _ _ H1).
    rewrite decide_True by (left; apply lookup_empty). done. }
  unfold rewrite_index. rewrite map_to_list_singleton.
  assert (is_ascii (index_line (ge_event_id e1) (sha256_text raw1)) = true) as A1
    by (apply index_line_ascii; [apply (cv_ascii _ _ _ H1)|apply sha256_ascii]).
  assert (is_ascii (index_line (ge_event_id e2) (sha256_text raw2)) = true) as A2
    by (apply index_line_ascii; [apply (cv_ascii _ _ _ H2)|apply sha256_ascii]).
  change (merge_sort entry_le [(ge_event_id e1, sha256_text raw1)]) with [(ge_event_id e1, sha256_text raw1)].
  cbn [foldr fst snd]. rewrite is_ascii_app, A1. cbn [andb is_ascii forallb String.list_ascii_of_string negb io_replace io_ok].
  rewrite lookup_singleton_ne by done. unfold append_event, index_outcome. rewrite A2.
  cbn [write_file io_event io_index io_ok negb]. eexists. split; [reflexivity|].
  set (st' := _ ⟪ js_files := _ ⟫).
  assert (js_files st' !! jsonl_path st (Some run) = Some (raw1 +:+ raw2 +:+ str1 newline)) as Hf'.
  { subst st'. cbn. rewrite append_file_other by apply not_eq_sym, jsonl_index_differ.
    unfold append_file. rewrite lookup_insert_eq, lookup_insert_ne by apply not_eq_sym, jsonl_index_differ.
    change (jsonl_path _ (Some run)) with (jsonl_path st (Some run)). by rewrite Hf. }
  split; [exact Hf'|]. intros e raw He. rewrite (append_once_start _ _ _ _ _ He). unfold known_events.
  assert (js_known (restart st') !! Some run = None) as -> by apply lookup_empty. unfold load_index.
  change (jsonl_path (restart st') (Some run)) with (jsonl_path st (Some run)).
  change (js_files (restart st')) with (js_files st'). rewrite Hf'.
  assert (raw1 +:+ raw2 +:+ str1 newline = file_of [raw1 +:+ raw2]) as ->.
  { cbn. by rewrite sapp_assoc. }
  assert (clean (raw1 +:+ raw2) = true) as C by (by rewrite clean_app, C1, C2).
  rewrite utf8_file, lines_of_file; [|by constructor|].
  - cbn [load_lines]. assert (is_blank (raw1 +:+ raw2) = false) as ->.
    { rewrite E1, sapp_cons. unfold is_blank. rewrite code_points_cons by done. done. }
    unfold parse_canonical_event. rewrite (joined_rejected _ _ _ _ _ H1 H2). cbn. by eexists.
  - constructor; [|constructor]. apply utf8_app; [apply (cv_utf8 _ _ _ H1)|apply (cv_utf8 _ _ _ H2)].
Qed.

(** ** Witnesses

    A database whose one sink is the JSONL file: a Run is created and queued,
    one event is delivered, the process restarts, and the rest is delivered. *)

Definition file_empty : Db :=
  empty_db ⟪ db_sinks := {["jsonl" := mkSinkRow true 1 (demo_hash "config") true (demo_time 0)]} ⟫.
Definition file_created : Db :=
  match create_run demo_cfg (demo_env 0) demo_request file_empty with Ok (_, db) => db | Err _ => file_empty end.
Definition file_queued : Db :=
  match apply demo_cfg (Ok tt) (demo_env 1) (demo_command 1) file_created with
  | Ok (_, db) => db | Err _ => file_created
  end.
Definition file_sink : JsonlEventSink := mkJsonlEventSink "runs" ∅ ∅.
Definition file_drain (x : Db * JsonlEventSink) : Db * JsonlEventSink :=
  let r := drain_once demo_dispatcher false (λ _, demo_clock)
             (call_sink (λ _ b, (Delivered, b)) (λ _, mkSinkError "RuntimeError" "") (λ _, io_ok)) x.1 (tt, x.2) in
  (dr_db r, (dr_sinks r).2).
Definition file_first : Db * JsonlEventSink := file_drain (file_queued, file_sink).
Definition file_second : Db * JsonlEventSink := file_drain (file_first.1, restart file_first.2).

Definition none_done (db : Db) : bool :=
  negb (anyrow (db_deliveries db) (λ d, bool_decide (dl_status d = DS_DELIVERED))).
Lemma none_done_ok db db' : none_done db' = true → completes_none db db'.
Proof.
  unfold none_done. intros H%negb_true_iff k d Hd [_ Hs]. rewrite anyrow_false in H.
  specialize (H k d Hd). by rewrite bool_decide_eq_false in H.
Qed.

Definition utf8_store (db : Db) : bool :=
  negb (anyrow (db_events db) (λ r, negb (opt_all is_utf8 (er_canonical_event_json r)))).
Lemma utf8_store_ok db : utf8_store db = true → texts_utf8 db.
Proof.
  unfold utf8_store. intros H%negb_true_iff id r raw Hr Hraw. rewrite anyrow_false in H.
  specialize (H id r Hr). rewrite Hraw in H. by apply negb_false_iff in H.
Qed.

(** Every event has been delivered to the file. *)
Definition all_done (db : Db) : bool :=
  forallb (λ kv, anyrow (db_deliveries db) (λ d,
    bool_decide (dl_sink_id d = "jsonl" ∧ dl_status d = DS_DELIVERED) && bool_decide (dl_event_id d = kv.1)))
  (map_to_list (db_events db)).
Lemma all_done_ok db id r :
  all_done db = true → db_events db !! id = Some r →
  ∃ k d, db_deliveries db !! k = Some d ∧ dl_event_id d = id ∧ jsonl_done d.
Proof.
  unfold all_done. rewrite forallb_forall. intros H Hr.
  specialize (H (id, r)). rewrite <- list_elem_of_In, elem_of_map_to_list in H.
  destruct (proj1 (anyrow_true _ _) (H Hr)) as (k & d & Hd & [Hs%bool_decide_eq_true He%bool_decide_eq_true]%andb_true_iff).
  by exists k, d.
Qed.

Lemma file_created_ok : is_ok (create_run demo_cfg (demo_env 0) demo_request file_empty) = true.
Proof. vm_cast_no_check (@eq_refl bool true). Qed.
Lemma file_queued_ok : is_ok (apply demo_cfg (Ok tt) (demo_env 1) (demo_command 1) file_created) = true.
Proof. vm_cast_no_check (@eq_refl bool true). Qed.
Lemma file_command_ok : command_valid (demo_command 1) = true.
Proof. vm_cast_no_check (@eq_refl bool true). Qed.
Lemma file_created_none : none_done file_created = true.
Proof. vm_cast_no_check (@eq_refl bool true). Qed.
Lemma file_queued_none : none_done file_queued = true.
Proof. vm_cast_no_check (@eq_refl bool true). Qed.
Lemma file_queued_utf8 : utf8_store file_queued = true.
Proof. vm_cast_no_check (@eq_refl bool true). Qed.
Lemma file_first_utf8 : utf8_store file_first.1 = true.
Proof. vm_cast_no_check (@eq_refl bool true). Qed.

Lemma create_step cfg env rq db :
  is_ok (create_run cfg env rq db) = true →
  gateway_step db (match create_run cfg env rq db with Ok (_, db') => db' | Err _ => db end).
Proof. destruct (create_run _ _ _ _) as [[r db']|] eqn:E; [|done]. intros _. eapply step_create_run. exact E. Qed.
Lemma apply_step cfg gate env c db :
  command_valid c = true → is_ok (apply cfg gate env c db) = true →
  gateway_step db (match apply cfg gate env c db with Ok (_, db') => db' | Err _ => db end).
Proof. destruct (apply _ _ _ _ _) as [[r db']|] eqn:E; [|done]. intros Hc _. eapply step_apply; [exact Hc|exact E]. Qed.

Lemma file_queued_reachable : joint_reachable (file_queued, file_sink).
Proof.
  exists (file_empty, file_sink). split; [split; [|done]; exists (db_sinks file_empty), ∅; reflexivity|].
  apply (rtc_l _ _ (file_created, file_sink)).
  - apply joint_store; [|apply none_done_ok, file_created_none].
    exact (create_step demo_cfg (demo_env 0) demo_request file_empty file_created_ok).
  - apply rtc_once, joint_store; [|apply none_done_ok, file_queued_none].
    exact (apply_step demo_cfg (Ok tt) (demo_env 1) (demo_command 1) file_created file_command_ok file_queued_ok).
Qed.

Lemma file_drain_reachable x : joint_reachable x → texts_utf8 x.1 → joint_reachable (file_drain x).
Proof.
  destruct x as [db st]. intros HJ Ht. unfold file_drain, drain_once. apply drain_joint; [done|done|done|].
  apply Forall_forall. intros x Hx. split; [|by eapply due_unblocked].
  destruct (due_delivery _ _ _ Hx) as (d & Hd & _). by exists d.
Qed.

Lemma file_second_reachable : joint_reachable file_second.
Proof.
  apply file_drain_reachable; [|apply utf8_store_ok, file_first_utf8].
  eapply joint_reachable_step; [|apply joint_restart]. rewrite <- surjective_pairing.
  apply (file_drain_reachable (file_queued, file_sink)); [exact file_queued_reachable|apply utf8_store_ok, file_queued_utf8].
Qed.

Lemma file_second_done : all_done file_second.1 = true.
Proof. vm_cast_no_check (@eq_refl bool true). Qed.
Lemma file_second_directory : js_runs_directory file_second.2 = "runs".
Proof. vm_cast_no_check (@eq_refl string "runs"). Qed.

Lemma jsonl_equals_rebuild_witness : ∃ path files,
  rebuild_jsonl "runs" "run-1" file_second.1 (js_files file_second.2) = Ok (path, files)
  ∧ files !! path = Some (default "" (js_files file_second.2 !! path)).
Proof.
  destruct (jsonl_equals_rebuild file_second.1 file_second.2 "run-1") as (files & H1 & H2).
  - rewrite <- surjective_pairing. exact file_second_reachable.
  - intros id r Hr _. exact (all_done_ok _ id r file_second_done Hr).
  - rewrite file_second_directory in H1. exists (jsonl_path file_second.2 (Some "run-1")), files.
    split; [exact H1|exact H2].
Defined.

Definition torn_event (n : Z) (command : string) : GatewayEventEnvelope :=
  make_event demo_final_state "state_created" [("n", JInt n)] command "primary" None "run-1" n (demo_time 1).
Definition torn_text (n : Z) (command : string) : string := canonical_json (envelope_json (torn_event n command)).
Definition torn_check (n : Z) (command : string) : bool :=
  Envelope_valid (torn_event n command) && json_wf (JObj (ge_payload (torn_event n command)))
  && bool_decide (ge_run_id (torn_event n command) = Some "run-1")
  && is_ascii (ge_event_id (torn_event n command)) && is_utf8 (torn_text n command).
Lemma torn_canonical n command :
  torn_check n command = true → canonical_event "run-1" (torn_event n command) (torn_text n command).
Proof.
  unfold torn_check. intros [[[[H1 H2]%andb_true_iff H3%bool_decide_eq_true]%andb_true_iff H4]%andb_true_iff H5]%andb_true_iff.
  by split.
Qed.
Lemma torn_first : torn_check 1 "command-a" = true.
Proof. vm_cast_no_check (@eq_refl bool true). Qed.
Lemma torn_second : torn_check 2 "command-b" = true.
Proof. vm_cast_no_check (@eq_refl bool true). Qed.
Lemma torn_differ : String.eqb (ge_event_id (torn_event 1 "command-a")) (ge_event_id (torn_event 2 "command-b")) = false.
Proof. vm_cast_no_check (@eq_refl bool false). Qed.

Definition torn_sink : JsonlEventSink :=
  mkJsonlEventSink "runs" {["runs/run-1.jsonl" := torn_text 1 "command-a"]} ∅.

