(* ===== verification/Recovery.v ===== *)
(** * Recovery: restarting the unfinished Runs (gateway/recovery.py)

    [RecoveryCoordinator.recover] goes through the Runs that were not in a
    terminal state when the process stopped and submits, for each, the
    commands that bring it to a state somebody is responsible for: the queue,
    a human, or the finalizer.  Every command is a transaction of its own, so
    an exception keeps what was committed before it; [Rec] is a monad whose
    failures return the session they stopped in. *)

From stdpp Require Import relations.
From S2P Require Import Prelude PyText PyTime Sanitizer Json AgentTypes AgentState Commands.
From S2P Require Import OperationReduce FinalizeEvidence Store Events Operations FinalizeOps.
From S2P Require Import Controller Frames Outcomes Apply Observations Outbox System.

#[local] Open Scope Z_scope.

(** ** Sessions *)

(** The store, the number of transactions so far (it selects the clock and
    the random ids), and the Runs handed to the queue. *)
Record Session := mkSession { ss_db : Db; ss_clock : nat; ss_queue : list string }.
#[export] Instance Session_eta : Eta Session := λ r, mkSession (ss_db r) (ss_clock r) (ss_queue r).

Definition Rec (A : Type) : Type := Session → res A * Session.
#[export] Instance rec_ret : MRet Rec := λ A a s, (Ok a, s).
#[export] Instance rec_bind : MBind Rec := λ A B k m s,
  match m s with (Ok a, s') => k a s' | (Err e, s') => (Err e, s') end.

Definition rec_fail {A} (e : pyerr) : Rec A := λ s, (Err e, s).
Definition rec_read {A} (f : Db → res A) : Rec A := λ s, (f (ss_db s), s).

(** ** What the coordinator reads *)

Definition state_le (a b : string * StateRow) : Prop :=
  String.ltb (sr_updated_at a.2) (sr_updated_at b.2) = true
  ∨ sr_updated_at a.2 = sr_updated_at b.2 ∧ String.leb a.1 b.1 = true.
#[export] Instance state_le_dec a b : Decision (state_le a b).
Proof. unfold state_le. apply _. Defined.

(* source: gateway/state_controller.py StateController.nonterminal_states *)
Definition nonterminal_rows (db : Db) : list (string * StateRow) :=
  merge_sort state_le
    (filter (λ kv, sr_task_state kv.2 ∉ [TS_SUCCEEDED; TS_FAILED; TS_CANCELLED; TS_INTERRUPTED])
      (map_to_list (db_states db))).

(* source: gateway/state_controller.py StateController.nonterminal_states *)
Definition nonterminal_states (db : Db) : res (list AgentState) :=
  mapM (λ kv, checked "AgentState" AgentState_valid (sr_body kv.2)) (nonterminal_rows db).

Definition op_row_le (a b : string * OpRow) : Prop :=
  String.ltb (or_updated_at a.2) (or_updated_at b.2) = true
  ∨ or_updated_at a.2 = or_updated_at b.2 ∧ String.leb a.1 b.1 = true.
#[export] Instance op_row_le_dec a b : Decision (op_row_le a b).
Proof. unfold op_row_le. apply _. Defined.

(* source: gateway/state_controller.py StateController.operations *)
Definition operations (run_id : string) (db : Db) : res (list OperationRecord) :=
  mapM (λ kv, checked "OperationRecord" OperationRecord_valid (or_body kv.2))
    (merge_sort op_row_le (filter (λ kv, or_run_id kv.2 = run_id) (map_to_list (db_operations db)))).

(** The row of [runs] is what the queue gets. *)
(* source: gateway/store.py GatewayStore.run *)
Definition run_record (run_id : string) (db : Db) : res RunRow :=
  res_of_option (KeyError run_id) (db_runs db !! run_id).

(** ** The coordinator *)

(** Where a Run ends up. *)
(* source: gateway/recovery.py:47-47 RecoveryCoordinator.recover *)
Inductive Bucket := Queued | WaitingHuman | RecoveryRequired | Finalized.
#[export] Instance Bucket_eq_dec : EqDecision Bucket.
Proof. solve_decision. Defined.

Section coordinator.
Context (cfg : Config) (gate : nat → res unit) (env : nat → Env) (uuid : nat → string).
(** The finalizer is a component of its own (gateway/finalize.py), and the
    queue a callback; neither need be there. *)
Context (finalizer : option (string → Rec unit)) (enqueue_answer : string → res unit).

(** Building a command validates it; submitting it is one transaction. *)
Definition submit (command_id run_id : string) (expected_revision : Z) (body : CommandBody) : Rec ApplyResult := λ s,
  let c := mkCommand (mkStateCommand command_id "primary" None None run_id expected_revision
                        (cf_gateway_epoch cfg)) body in
  if command_valid c then
    match apply cfg (gate (ss_clock s)) (env (ss_clock s)) c (ss_db s) with
    | Ok (r, db) => (Ok r, mkSession db (S (ss_clock s)) (ss_queue s))
    | Err e => (Err e, s ⟪ ss_clock := S (ss_clock s) ⟫)
    end
  else (Err (ValidationError "StateCommand"), s).

(** [uuid4().hex] for the next command. *)
Definition fresh_id : Rec string := λ s, (Ok (uuid (ss_clock s)), s).

(* source: gateway/recovery.py RecoveryCoordinator._transition *)
Definition transition (run_id : string) (task : option TaskState) (execution : option ExecutionState)
    (outcome : option ExecutionOutcome) (finish_reason : option string) (terminal : option TerminalTarget)
    (reason : string) : Rec AgentState :=
  state ← rec_read (state_in run_id);
  id ← fresh_id;
  r ← submit id run_id (st_revision state)
    (Transition (mkTransitionCommand task execution outcome finish_reason terminal reason None None));
  mret (ar_state r).

Definition move_run (run_id : string) (task : TaskState) (reason : string) : Rec AgentState :=
  transition run_id (Some task) None None None None reason.

(* source: gateway/recovery.py RecoveryCoordinator._require_recovery *)
Definition require_recovery (run_id reason : string) : Rec unit :=
  state ← rec_read (state_in run_id);
  if decide (st_task_state state = TS_RECOVERY_REQUIRED) then mret tt else
  (if decide (st_task_state state = TS_RECOVERING) then mret tt
   else _ ← move_run run_id TS_RECOVERING "进入恢复检查"; mret tt);;
  _ ← move_run run_id TS_RECOVERY_REQUIRED reason;
  mret tt.

(* source: gateway/recovery.py RecoveryCoordinator._queue_for_recovery *)
Definition queue_for_recovery (run_id : string) : Rec unit :=
  state ← rec_read (state_in run_id);
  match st_task_state state with
  | TS_CREATED => _ ← move_run run_id TS_QUEUED "恢复 CREATED Run"; mret tt
  | TS_QUEUED => mret tt
  | t =>
      (if decide (t = TS_RECOVERING) then mret tt
       else _ ← move_run run_id TS_RECOVERING "Gateway 重启恢复"; mret tt);;
      _ ← move_run run_id TS_QUEUED "恢复边界校验完成，重新排队";
      mret tt
  end.

(* source: gateway/recovery.py RecoveryCoordinator._has_unknown_effect *)
Definition has_unknown_effect (run_id : string) : Rec bool :=
  state ← rec_read (state_in run_id);
  match st_current_operation_id state with
  | None | Some EmptyString => mret false
  | Some id =>
      operation ← rec_read (operation_in id);
      attempt ← rec_read (current_attempt_in (op_operation_id operation));
      if negb (at_side_effecting attempt) then mret false else
      match at_status attempt with
      | OS_RUNNING => mret true
      | OS_UNKNOWN =>
          match at_recovery_resolution attempt with
          | Some r => mret (bool_decide (r = RR_UNRESOLVED))
          | None => rec_fail (AttributeError "value")
          end
      | _ => mret false
      end
  end.

Definition run_finalizer (message run_id : string) : Rec unit :=
  match finalizer with Some f => f run_id | None => rec_fail (RuntimeError message) end.

(* source: gateway/recovery.py RecoveryCoordinator._complete_finalizing *)
Definition complete_finalizing (state : AgentState) : Rec unit :=
  match st_terminal_target state with
  | None => _ ← move_run (st_run_id state) TS_INTERRUPTED "FINALIZING 缺少 terminal_target"; mret tt
  | Some _ => run_finalizer "RecoveryCoordinator requires FinalizeCoordinator for FINALIZING v2" (st_run_id state)
  end.

(* source: gateway/recovery.py RecoveryCoordinator._finish_cancel *)
Definition finish_cancel (run_id : string) : Rec unit :=
  state ← rec_read (state_in run_id);
  (match st_execution state with
   | Some e => if decide (ex_state e = ES_FINISHED) then mret tt
               else _ ← transition run_id None (Some ES_FINISHED) (Some EO_CANCELLED) (Some "恢复取消流程") None
                          "取消内层执行"; mret tt
   | None => mret tt
   end);;
  _ ← transition run_id (Some TS_FINALIZING) None None None (Some TT_CANCELLED) "恢复取消 FINALIZING";
  run_finalizer "RecoveryCoordinator requires FinalizeCoordinator" run_id.

(* source: gateway/recovery.py RecoveryCoordinator._finish_from_outcome *)
Definition finish_from_outcome (run_id : string) (outcome : option ExecutionOutcome) : Rec unit :=
  match outcome with
  | None =>
      state ← rec_read (state_in run_id);
      if decide (st_task_state state = TS_RUNNING)
      then _ ← move_run run_id TS_INTERRUPTED "FINISHED outcome 损坏"; mret tt else mret tt
  | Some o =>
      let target := match o with
        | EO_SUCCESS => TT_SUCCEEDED | EO_ERROR | EO_EXHAUSTED => TT_FAILED | EO_CANCELLED => TT_CANCELLED end in
      state ← rec_read (state_in run_id);
      (if decide (target = TT_CANCELLED ∧ st_task_state state ≠ TS_CANCELLING)
       then _ ← move_run run_id TS_CANCELLING "恢复取消路径"; mret tt else mret tt);;
      _ ← transition run_id (Some TS_FINALIZING) None None None (Some target) "恢复 FINISHED Run";
      run_finalizer "RecoveryCoordinator requires FinalizeCoordinator" run_id
  end.

(** The operations of a parallel batch, one after the other. *)
(* source: gateway/recovery.py:142-159 RecoveryCoordinator._recover_acting *)
Fixpoint abandon_batch (run_id : string) (active : list OperationRecord) : Rec bool :=
  match active with
  | [] => mret true
  | operation :: rest =>
      attempt ← rec_read (current_attempt_in (op_operation_id operation));
      if decide (op_side_effecting operation = true ∨ at_status attempt = OS_UNKNOWN) then
        require_recovery run_id "Parallel Tool recovery found an unknown or side-effecting Attempt";;
        mret false
      else
        (if decide (at_status attempt ∈ [OS_PREPARED; OS_RUNNING]) then
           state ← rec_read (state_in run_id);
           _ ← submit ("recovery:parallel-tool:" +:+ at_attempt_id attempt +:+ ":abandon") run_id
             (st_revision state)
             (AbandonOperationAttempt (at_attempt_id attempt) "Gateway restarted during a PURE Tool batch");
           mret tt
         else mret tt);;
        abandon_batch run_id rest
  end.

(* source: gateway/recovery.py RecoveryCoordinator._recover_acting *)
Definition recover_acting (run_id : string) : Rec bool :=
  all ← rec_read (operations run_id);
  let active := filter (λ o, op_status o ∈ [OS_PREPARED; OS_RUNNING; OS_UNKNOWN]) all in
  if decide ((1 < length active)%nat ∨ Exists (λ o, truthy (op_tool_batch_id o) = true) active) then
    done_ ← abandon_batch run_id active;
    if done_ : bool then
      _ ← transition run_id None (Some ES_OBSERVING) None None None
        "All interrupted parallel Tool Attempts were PURE and safely abandoned";
      mret true
    else mret false
  else
    state ← rec_read (state_in run_id);
    match st_current_operation_id state with
    | None | Some EmptyString => require_recovery run_id "ACTING 缺少 Operation Ledger 记录";; mret false
    | Some id =>
        operation ← rec_read (operation_in id);
        attempt ← rec_read (current_attempt_in (op_operation_id operation));
        match at_status attempt with
        | OS_COMPLETED | OS_FAILED | OS_SKIPPED | OS_ABANDONED =>
            _ ← transition run_id None (Some ES_OBSERVING) None None None "恢复已确定的工具结果"; mret true
        | OS_PREPARED =>
            state ← rec_read (state_in run_id);
            match st_safe_checkpoint state with
            | None => require_recovery run_id "prepared Tool 缺少 SafeCheckpoint";; mret false
            | Some _ => mret true
            end
        | _ =>
            (if decide (at_status attempt = OS_RUNNING) then
               state ← rec_read (state_in run_id);
               id ← fresh_id;
               _ ← submit id run_id (st_revision state)
                 (MarkOperationAttemptUnknown (at_attempt_id attempt) "Gateway 在外部副作用执行期间退出");
               mret tt
             else mret tt);;
            require_recovery run_id "工具副作用结果未知，必须 reconcile 或人工处理";;
            mret false
        end
    end.

(* source: gateway/recovery.py:50-58 RecoveryCoordinator.recover *)
Definition adopt (stale : AgentState) : Rec AgentState :=
  if decide (st_gateway_epoch stale = cf_gateway_epoch cfg) then mret stale else
  id ← fresh_id;
  r ← submit id (st_run_id stale) (st_revision stale)
    (AdoptGatewayEpoch (st_gateway_epoch stale) "Gateway restart fencing takeover");
  mret (ar_state r).

Definition executing (state : AgentState) (e : ExecutionState) : Prop := ex_state <$> st_execution state = Some e.
#[export] Instance executing_dec state e : Decision (executing state e).
Proof. unfold executing. apply _. Defined.

(** [None]: the approval is still open, the Run waits for a human. *)
(* source: gateway/recovery.py:63-81 RecoveryCoordinator.recover *)
Definition resume_waiting (state : AgentState) : Rec (option AgentState) :=
  if decide (executing state ES_WAITING_HUMAN) then
    match st_approval_id state with
    | None | Some EmptyString => mret None
    | Some id =>
        approval ← rec_read (approval_in id);
        if decide (ap_status approval = AS_PENDING) then mret None else
        operation ← rec_read (operation_in (ap_operation_id approval));
        attempt ← rec_read (current_attempt_in (op_operation_id operation));
        (if decide (at_status attempt = OS_PREPARED) then
           _ ← submit ("recovery:" +:+ ap_approval_id approval +:+ ":skip") (st_run_id state) (st_revision state)
             (SkipOperationAttempt (at_attempt_id attempt)
                ("approval_" +:+ ApprovalStatus_value (ap_status approval) +:+ "_after_gateway_restart"));
           mret tt
         else mret tt);;
        _ ← transition (st_run_id state) None (Some ES_OBSERVING) None None None
          "审批已决定；旧进程未执行 Tool，从 observation 恢复";
        state' ← rec_read (state_in (st_run_id state));
        mret (Some state')
    end
  else mret (Some state).

(** The fields of [AbandonOperationAttemptCommand]: name, and whether it is
    required.  The class forbids extra keywords. *)
(* source: Agent/state.py:610-621 StateCommand *)
Definition StateCommand_fields : list (string * bool) :=
  [("command_id", true); ("event_key", false); ("causation_id", false); ("correlation_id", false);
   ("run_id", true); ("expected_revision", true); ("gateway_epoch", true)].
(* source: Agent/state.py AbandonOperationAttemptCommand *)
Definition AbandonOperationAttemptCommand_fields : list (string * bool) :=
  StateCommand_fields ++ [("attempt_id", true); ("abandonment_reason", true)].

(** pydantic's check of the keywords of a constructor call. *)
Definition keywords_fit (fields : list (string * bool)) (given : list string) : bool :=
  forallb (λ k, bool_decide (k ∈ fields.*1)) given
  && forallb (λ f, negb f.2 || bool_decide (f.1 ∈ given)) fields.

(** A model call that was in flight: the keywords of the command, as the code
    writes them. *)
(* source: gateway/recovery.py:118-125 RecoveryCoordinator.recover *)
Definition abandon_keywords : list string :=
  ["command_id"; "run_id"; "expected_revision"; "gateway_epoch"; "attempt_id"; "reason"].

(* source: gateway/recovery.py:111-125 RecoveryCoordinator.recover *)
Definition abandon_model_call (run_id : string) : Rec unit :=
  operation ← rec_read (active_operation run_id);
  match operation with
  | Some o =>
      if decide (op_kind o = OK_MODEL ∧ op_status o ∈ [OS_PREPARED; OS_RUNNING]) then
        attempt ← rec_read (current_attempt_in (op_operation_id o));
        current ← rec_read (state_in run_id);
        if keywords_fit AbandonOperationAttemptCommand_fields abandon_keywords then
          id ← fresh_id;
          _ ← submit id (st_run_id current) (st_revision current)
            (AbandonOperationAttempt (at_attempt_id attempt) "Gateway 重启，旧模型 HTTP attempt 不可继续");
          mret tt
        else rec_fail (ValidationError "AbandonOperationAttemptCommand")
      else mret tt
  | None => mret tt
  end.

Definition enqueue (run_id : string) : Rec unit := λ s,
  match enqueue_answer run_id with
  | Ok _ => (Ok tt, s ⟪ ss_queue := ss_queue s ++ [run_id] ⟫)
  | Err e => (Err e, s)
  end.

(* source: gateway/recovery.py:105-129 RecoveryCoordinator.recover *)
Definition requeue (state : AgentState) : Rec Bucket :=
  let run_id := st_run_id state in
  acting ← (if decide (executing state ES_ACTING) then
              ok ← recover_acting run_id;
              if ok : bool then state' ← rec_read (state_in run_id); mret (Some state') else mret None
            else mret (Some state));
  match acting with
  | None => mret RecoveryRequired
  | Some state =>
      (if decide (executing state ES_THINKING) then abandon_model_call (st_run_id state) else mret tt);;
      queue_for_recovery (st_run_id state);;
      _ ← rec_read (run_record (st_run_id state));
      enqueue (st_run_id state);;
      mret Queued
  end.

(* source: gateway/recovery.py:49-104 RecoveryCoordinator.recover *)
Definition recover_run (stale : AgentState) : Rec Bucket :=
  state ← adopt stale;
  if decide (st_task_state state = TS_RECOVERY_REQUIRED) then mret RecoveryRequired else
  resumed ← resume_waiting state;
  match resumed with
  | None => mret WaitingHuman
  | Some state =>
      let run_id := st_run_id state in
      if decide (st_task_state state = TS_FINALIZING) then complete_finalizing state;; mret Finalized
      else if decide (st_task_state state = TS_CANCELLING) then
        unknown ← has_unknown_effect run_id;
        if unknown : bool then
          _ ← move_run run_id TS_RECOVERY_REQUIRED "取消时副作用结果未知"; mret RecoveryRequired
        else finish_cancel run_id;; mret Finalized
      else if decide (st_workload_kind state ∉ [WK_CHAT; WK_CRON]) then
        require_recovery run_id (WorkloadKind_value (st_workload_kind state)
                                 +:+ " workload 驱动在 Gateway 重启时已中断");;
        mret RecoveryRequired
      else if decide (executing state ES_FINISHED) then
        finish_from_outcome run_id (st_execution state ≫= ex_outcome);; mret Finalized
      else requeue state
  end.

Fixpoint recover_runs (states : list AgentState) : Rec (list Bucket) :=
  match states with
  | [] => mret []
  | s :: rest => b ← recover_run s; bs ← recover_runs rest; mret (b :: bs)
  end.

(** The counts: how many Runs of each bucket. *)
(* source: gateway/recovery.py RecoveryCoordinator.recover *)
Definition recover : Rec (Bucket → nat) :=
  states ← rec_read nonterminal_states;
  bs ← recover_runs states;
  mret (λ b, length (filter (λ x, x = b) bs)).

End coordinator.
