(* ===== verification/RecoveryFacts.v ===== *)
(** * RecoveryFacts: what a restart does to the unfinished Runs

    A small program logic for [Rec], the specification of the commands the
    coordinator submits, and from these: recovery is a sequence of
    transactions of the controller, it hands to the queue exactly the Runs it
    counts as queued, every bucket means a state of the Run, and a Run whose
    tool call may have had an effect is not queued again. *)

From stdpp Require Import relations.
From S2P Require Import Prelude PyText PyTime Sanitizer Json AgentTypes AgentState Commands.
From S2P Require Import OperationReduce FinalizeEvidence Store Events Operations FinalizeOps.
From S2P Require Import Controller Frames Outcomes Apply Observations Outbox System Demo StatesInv.
From S2P Require Import Lifecycle Recovery.

#[local] Open Scope Z_scope.

(** ** Triples with a postcondition for either outcome *)

Definition rec_spec {A} (P : Session → Prop) (m : Rec A) (Q : A → Session → Prop)
    (E : Session → Prop) : Prop :=
  ∀ s, P s → match m s with (Ok a, s') => Q a s' | (Err _, s') => E s' end.

Section rules.
Context {A B : Type}.
Implicit Types (m : Rec A) (P E : Session → Prop).

Lemma spec_ret P Q E (a : A) : (∀ s, P s → Q a s) → rec_spec P (mret a) Q E.
Proof. intros H s HP. by apply H. Qed.
Lemma spec_bind P M (Q : B → Session → Prop) E m (k : A → Rec B) :
  rec_spec P m M E → (∀ a, rec_spec (M a) (k a) Q E) → rec_spec P (mbind k m) Q E.
Proof.
  intros Hm Hk s HP. specialize (Hm s HP). unfold mbind, rec_bind.
  destruct (m s) as [[a|e] s'] eqn:Em; [|done]. by apply Hk.
Qed.
Lemma spec_fail P (Q : A → Session → Prop) E e : (∀ s, P s → E s) → rec_spec P (rec_fail e) Q E.
Proof. intros H s HP. by apply H. Qed.
Lemma spec_read P Q E (f : Db → res A) :
  (∀ s a, P s → f (ss_db s) = Ok a → Q a s) → (∀ s, P s → E s) → rec_spec P (rec_read f) Q E.
Proof. intros H HE s HP. unfold rec_read. destruct (f (ss_db s)) eqn:Ef; auto. Qed.
Lemma spec_weaken P P' Q Q' E E' m :
  rec_spec P m Q E → (∀ s, P' s → P s) → (∀ a s, Q a s → Q' a s) → (∀ s, E s → E' s) →
  rec_spec P' m Q' E'.
Proof. intros H HP HQ HE s Hs. specialize (H s (HP s Hs)). destruct (m s) as [[a|e] s']; auto. Qed.
Lemma spec_pure (p : Prop) P Q E m : (p → rec_spec P m Q E) → rec_spec (λ s, p ∧ P s) m Q E.
Proof. intros H s [Hp HP]. by apply H. Qed.
Lemma spec_run P Q E m s r s' :
  rec_spec P m Q E → P s → m s = (r, s') →
  match r with Ok a => Q a s' | Err _ => E s' end.
Proof. intros H HP Hm. specialize (H s HP). rewrite Hm in H. done. Qed.
End rules.

(** An assertion every outcome keeps. *)
Definition maintains (P : Session → Prop) {A} (m : Rec A) : Prop := rec_spec P m (λ _, P) P.

Section maintains.
Context (P : Session → Prop).
Lemma maintains_ret {A} (a : A) : maintains P (mret a).
Proof. by apply spec_ret. Qed.
Lemma maintains_fail {A} e : maintains P (rec_fail (A:=A) e).
Proof. by apply spec_fail. Qed.
Lemma maintains_read {A} (f : Db → res A) : maintains P (rec_read f).
Proof. by apply spec_read. Qed.
Lemma maintains_bind {A B} (m : Rec A) (k : A → Rec B) :
  maintains P m → (∀ a, maintains P (k a)) → maintains P (mbind k m).
Proof. intros Hm Hk. eapply spec_bind; [exact Hm|]. exact Hk. Qed.
Lemma maintains_if {A} Q `{Decision Q} (m m' : Rec A) :
  maintains P m → maintains P m' → maintains P (if decide Q then m else m').
Proof. by case_decide. Qed.
End maintains.

Ltac maintain1 :=
  lazymatch goal with
  | |- maintains _ (mret _) => apply maintains_ret
  | |- maintains _ (rec_fail _) => apply maintains_fail
  | |- maintains _ (rec_read _) => apply maintains_read
  | |- maintains _ fresh_id => idtac
  | |- maintains _ (mbind _ _) => apply maintains_bind; [|intros ?]
  | |- maintains _ (match ?x with _ => _ end) => destruct x
  end.
Ltac maintain := repeat (maintain1; cbv beta zeta).

(** ** Commands that change the snapshot only *)

(** What a successful [apply] of a fresh command leaves, when the handler is a
    function of the snapshot. *)
Lemma apply_fresh cfg gate env c db r db' :
  reachable db → command_valid c = true →
  db_processed db !! sc_command_id (cm_head c) = None →
  apply cfg gate env c db = Ok (r, db') →
  ∃ state o db1, fresh_run cfg env c db r db' state o db1 ∧
    st_run_id state = sc_run_id (cm_head c) ∧
    ar_state r = next_state env (oc_state o) ∧
    ∃ n, db_states db' = <[sc_run_id (cm_head c) := state_row (ar_state r) n]> (db_states db).
Proof.
  intros Hr Hv Hn H. destruct (reachable_states_ok _ Hr) as [Hwf _].
  apply apply_ok in H as [_ [[_ (row & Hp & _)]|(state & o & db1 & F)]].
  - by rewrite Hn in Hp.
  - destruct (fresh_stepped _ _ _ _ _ _ _ _ _ Hwf F) as (row & <- & S). exists (sr_body row), o, db1.
    split; [done|]. split; [apply S|]. split; [apply S|]. eexists. apply S.
Qed.

Lemma apply_processed cfg gate env c db r db' id :
  apply cfg gate env c db = Ok (r, db') → id ≠ sc_command_id (cm_head c) →
  db_processed db !! id = None → db_processed db' !! id = None.
Proof.
  intros H Hne Hn. apply apply_ok in H as [_ [[-> _]|(state & o & db1 & F)]]; [done|].
  rewrite (cf_processed _ _ _ _ _ _ _ _ (fr_commit _ _ _ _ _ _ _ _ _ F)).
  pose proof (dispatch_committed _ _ _ _ _ _ _ (fr_dispatch _ _ _ _ _ _ _ _ _ F)) as Hc.
  apply committed_same in Hc as (_ & _ & -> & _). by rewrite lookup_insert_ne by done.
Qed.

(** The outcomes that carry no record save none. *)
Lemma commit_no_records env c hash previous o db r db' :
  commit_facts env c hash previous o db r db' →
  oc_operation o = None → oc_attempt o = None → oc_approval o = None → ledger db' = ledger db.
Proof.
  intros C Ho Ha Hp. destruct (cf_saved _ _ _ _ _ _ _ _ C) as (db1 & Hs & -> & _).
  unfold save_outcome, save_opt in Hs. rewrite Ho, Ha, Hp in Hs.
  apply tx_bind_ok in Hs as ([] & s1 & [_ <-]%tx_ret_ok & Hs).
  apply tx_bind_ok in Hs as ([] & s2 & [_ <-]%tx_ret_ok & Hs).
  by apply tx_ret_ok in Hs as [_ <-].
Qed.

Lemma handle_transition_ok state c t db o db1 :
  tx_lift (St:=Db) (handle_transition state c t) db = Ok (o, db1) →
  db1 = db ∧ oc_operation o = None ∧ oc_attempt o = None ∧ oc_approval o = None ∧
  transition_effect state c (oc_state o).
Proof.
  intros [H ->]%tx_lift_ok. unfold handle_transition in H. case_decide; [done|].
  apply res_bind_ok in H as (s & Hs%apply_transition_ok & H).
  by apply (proj1 (res_ret_ok _ _)) in H as <-.
Qed.

(** ** The coordinator *)

(** [uuid4] never draws an id twice, and never one of the ids the coordinator
    derives from an approval or an attempt. *)
Record uuid_law (uuid : nat → string) : Prop := {
  uu_inj : ∀ m n, uuid m = uuid n → m = n;
  uu_recovery : ∀ n s, uuid n ≠ "recovery:" +:+ s
}.

(** No id that is still to be drawn has been used. *)
Definition ids_unused (uuid : nat → string) (s : Session) : Prop :=
  ∀ n, (ss_clock s ≤ n)%nat → db_processed (ss_db s) !! uuid n = None.

(** What recovery asks of the finalizer: it writes through the controller,
    draws its ids like everybody, and does not touch the queue. *)
Record finalizer_law (uuid : nat → string) (f : string → Rec unit) : Prop := {
  fl_steps : ∀ run s, rtc gateway_step (ss_db s) (ss_db (f run s).2);
  fl_queue : ∀ run s, ss_queue (f run s).2 = ss_queue s;
  fl_ids : ∀ run s, ids_unused uuid s → ids_unused uuid (f run s).2
}.

Section recovery.
Context (cfg : Config) (gate : nat → res unit) (env : nat → Env) (uuid : nat → string).
Context (finalizer : option (string → Rec unit)) (enqueue_answer : string → res unit).
Context (Huuid : uuid_law uuid).
Context (Hfin : ∀ f, finalizer = Some f → finalizer_law uuid f).

#[local] Notation submit := (submit cfg gate env).
#[local] Notation transition := (transition cfg gate env uuid).
#[local] Notation move_run := (move_run cfg gate env uuid).
#[local] Notation require_recovery := (require_recovery cfg gate env uuid).
#[local] Notation queue_for_recovery := (queue_for_recovery cfg gate env uuid).
#[local] Notation recover_acting := (recover_acting cfg gate env uuid).
#[local] Notation abandon_batch := (abandon_batch cfg gate env uuid).
#[local] Notation run_finalizer := (run_finalizer finalizer).
#[local] Notation recover_run := (recover_run cfg gate env uuid finalizer enqueue_answer).

(** Since [s0]: transactions of the controller, fresh ids, the same queue. *)
Definition progress (s0 s : Session) : Prop :=
  rtc gateway_step (ss_db s0) (ss_db s) ∧ ids_unused uuid s ∧ ss_queue s = ss_queue s0.

Definition safe_id (n : nat) (id : string) : Prop := id = uuid n ∨ ∃ x, id = "recovery:" +:+ x.

Lemma submit_progress s0 n id run rev body :
  safe_id n id →
  rec_spec (λ s, progress s0 s ∧ ss_clock s = n) (submit id run rev body) (λ _, progress s0) (progress s0).
Proof.
  intros Hid s [(Hs & Hu & Hq) <-]. unfold Recovery.submit.
  destruct (command_valid _) eqn:Hv; [|done].
  destruct (apply _ _ _ _ _) as [[r db]|e] eqn:E.
  - split; [|split; [|done]]; cbn.
    + eapply rtc_r; [exact Hs|]. by eapply step_apply.
    + intros m Hm. cbn in *. eapply apply_processed; [exact E| |apply Hu; lia]. cbn.
      destruct Hid as [->|[x ->]]; [|apply Huuid]. intros ->%(uu_inj _ Huuid). lia.
  - split; [done|]. split; [|done]. intros m Hm. apply Hu. cbn in *. lia.
Qed.

Lemma submit_recovery_progress s0 x run rev body :
  maintains (progress s0) (submit ("recovery:" +:+ x) run rev body).
Proof.
  intros s Hs. eapply (submit_progress s0 (ss_clock s)); [|done]. right. eauto.
Qed.

Lemma fresh_submit_progress {B} s0 run rev body (k : ApplyResult → Rec B) :
  (∀ r, maintains (progress s0) (k r)) →
  maintains (progress s0) (id ← fresh_id uuid; r ← submit id run rev body; k r).
Proof.
  intros Hk s Hs.
  assert (rec_spec (λ s', progress s0 s' ∧ ss_clock s' = ss_clock s)
    (r ← submit (uuid (ss_clock s)) run rev body; k r) (λ _, progress s0) (progress s0)) as H.
  { eapply spec_bind; [apply submit_progress; by left|exact Hk]. }
  exact (H s (conj Hs eq_refl)).
Qed.

Lemma run_finalizer_progress s0 message run : maintains (progress s0) (run_finalizer message run).
Proof.
  unfold Recovery.run_finalizer. destruct finalizer as [f|]; [|apply maintains_fail].
  intros s (Hs & Hu & Hq). destruct (Hfin f eq_refl) as [F1 F2 F3].
  specialize (F1 run s). specialize (F2 run s). specialize (F3 run s Hu).
  assert (progress s0 (f run s).2) as H.
  { split; [by etrans|]. split; [done|]. by rewrite F2. }
  by destruct (f run s) as [[] ?].
Qed.

Ltac progress_step :=
  first [ apply submit_recovery_progress | apply run_finalizer_progress
        | apply fresh_submit_progress; intros ? | progress maintain1; cbv beta zeta
        | assumption ].

Lemma transition_progress s0 run t e o f g m : maintains (progress s0) (transition run t e o f g m).
Proof. unfold Recovery.transition. repeat progress_step. Qed.
Hint Resolve transition_progress : core.
Lemma move_run_progress s0 run t m : maintains (progress s0) (move_run run t m).
Proof. apply transition_progress. Qed.
Hint Resolve move_run_progress : core.
Lemma require_recovery_progress s0 run m : maintains (progress s0) (require_recovery run m).
Proof. unfold Recovery.require_recovery. maintain; auto. Qed.
Hint Resolve require_recovery_progress : core.
Lemma queue_for_recovery_progress s0 run : maintains (progress s0) (queue_for_recovery run).
Proof. unfold Recovery.queue_for_recovery. maintain; auto. Qed.
Hint Resolve queue_for_recovery_progress : core.

Lemma abandon_batch_progress s0 run active : maintains (progress s0) (abandon_batch run active).
Proof.
  induction active as [|o active IH]; cbn [Recovery.abandon_batch]; maintain; auto.
  apply submit_recovery_progress.
Qed.
Hint Resolve abandon_batch_progress : core.

Lemma recover_acting_progress s0 run : maintains (progress s0) (recover_acting run).
Proof.
  unfold Recovery.recover_acting. repeat (progress_step || auto).
Qed.
Hint Resolve recover_acting_progress : core.

Lemma adopt_progress s0 stale : maintains (progress s0) (adopt cfg gate env uuid stale).
Proof. unfold adopt. case_decide; repeat progress_step. Qed.
Lemma complete_finalizing_progress s0 st :
  maintains (progress s0) (complete_finalizing cfg gate env uuid finalizer st).
Proof. unfold complete_finalizing. repeat (progress_step || auto). Qed.
Lemma finish_cancel_progress s0 run :
  maintains (progress s0) (finish_cancel cfg gate env uuid finalizer run).
Proof. unfold finish_cancel. repeat (progress_step || auto). Qed.
Lemma finish_from_outcome_progress s0 run o :
  maintains (progress s0) (finish_from_outcome cfg gate env uuid finalizer run o).
Proof. unfold finish_from_outcome. repeat (progress_step || auto). Qed.
Lemma has_unknown_effect_progress s0 run : maintains (progress s0) (has_unknown_effect run).
Proof. unfold has_unknown_effect. repeat (progress_step || auto). Qed.
Lemma abandon_model_call_progress s0 run : maintains (progress s0) (abandon_model_call cfg gate env uuid run).
Proof. unfold Recovery.abandon_model_call. repeat progress_step. Qed.
Lemma resume_waiting_progress s0 st : maintains (progress s0) (resume_waiting cfg gate env uuid st).
Proof. unfold resume_waiting. repeat (progress_step || auto). Qed.
Hint Resolve adopt_progress complete_finalizing_progress finish_cancel_progress
  finish_from_outcome_progress has_unknown_effect_progress abandon_model_call_progress
  resume_waiting_progress : core.

(** *** What a successful command left *)

Definition row_is (run : string) (st : AgentState) (s : Session) : Prop :=
  ∃ row, db_states (ss_db s) !! run = Some row ∧ sr_body row = st.

Lemma state_in_row run s st : state_in run (ss_db s) = Ok st → row_is run st s.
Proof. intros (row & H & _ & ->)%state_in_ok. by exists row. Qed.

Lemma row_is_unique run st st' s : row_is run st s → row_is run st' s → st = st'.
Proof. intros (r & H & <-) (r' & H' & <-). congruence. Qed.

(** A session that recovery can start from. *)
Definition sound (s : Session) : Prop := reachable (ss_db s) ∧ ids_unused uuid s.

Lemma progress_refl s : sound s → progress s s.
Proof. by intros [? ?]. Qed.
Lemma progress_sound s0 s : sound s0 → progress s0 s → sound s.
Proof. intros [Hr _] (Hs & Hu & _). split; [|done]. destruct Hr as (d & Hi & Hr). exists d. split; [done|]. by etrans. Qed.

Lemma maintains_ok {A} (m : Rec A) s r s' :
  (∀ s0, maintains (progress s0) m) → sound s → m s = (r, s') → progress s s'.
Proof.
  intros Hm Hs E. pose proof (spec_run _ _ _ _ _ _ _ (Hm s) (progress_refl _ Hs) E) as H. by destruct r.
Qed.

Lemma maintains_sound {A} (m : Rec A) s r s' :
  (∀ s0, maintains (progress s0) m) → sound s → m s = (r, s') → sound s'.
Proof. intros Hm Hs E. eapply progress_sound; [exact Hs|]. by eapply maintains_ok. Qed.

(** The ledger: the records of operations and attempts. *)
Record moved_run (run : string) (task : option TaskState) (exec : option ExecutionState)
    (s : Session) (st : AgentState) (s' : Session) : Prop := {
  mv_progress : progress s s';
  mv_row : row_is run st s';
  mv_before : ∃ st0, row_is run st0 s ∧ st_run_id st0 = run ∧ st_run_id st = run ∧
    st_workload_kind st = st_workload_kind st0 ∧
    match task with
    | Some x => outer_step (st_task_state st0) x ∧ st_task_state st = x
    | None => st_task_state st = st_task_state st0
    end ∧
    match exec with
    | Some e => ex_state <$> st_execution st = Some e
    | None => st_execution st = st_execution st0
    end;
  mv_ledger : ledger (ss_db s') = ledger (ss_db s)
}.

Lemma submit_ok id run rev body s r s' :
  submit id run rev body s = (Ok r, s') →
  let c := mkCommand (mkStateCommand id "primary" None None run rev (cf_gateway_epoch cfg)) body in
  command_valid c = true ∧ ss_queue s' = ss_queue s ∧
  apply cfg (gate (ss_clock s)) (env (ss_clock s)) c (ss_db s) = Ok (r, ss_db s').
Proof.
  unfold Recovery.submit. cbn zeta. destruct (command_valid _); [|done].
  destruct (apply _ _ _ _ _) as [[r' db]|e] eqn:E; [|done]. intros [= -> <-]. done.
Qed.

Lemma rec_bind_ok {A B} (m : Rec A) (k : A → Rec B) s b s' :
  mbind k m s = (Ok b, s') → ∃ a s1, m s = (Ok a, s1) ∧ k a s1 = (Ok b, s').
Proof. unfold mbind, rec_bind. destruct (m s) as [[a|e] s1]; [eauto|done]. Qed.
Lemma rec_read_ok {A} (f : Db → res A) s a s' :
  rec_read f s = (Ok a, s') → f (ss_db s) = Ok a ∧ s' = s.
Proof. unfold rec_read. by intros [= -> <-]. Qed.
Lemma rec_ret_ok {A} (a b : A) s s' : (mret a : Rec A) s = (Ok b, s') → b = a ∧ s' = s.
Proof. by intros [= <- <-]. Qed.
Lemma fresh_id_ok s id s' : fresh_id uuid s = (Ok id, s') → id = uuid (ss_clock s) ∧ s' = s.
Proof. by intros [= <- <-]. Qed.

Lemma transition_moved run task exec o f g m s st s' :
  sound s → transition run task exec o f g m s = (Ok st, s') → moved_run run task exec s st s'.
Proof.
  intros Hs E. pose proof (maintains_ok _ _ _ _ (λ s0, transition_progress s0 run task exec o f g m) Hs E) as Hp.
  unfold Recovery.transition in E.
  apply rec_bind_ok in E as (st0 & s1 & [H0 ->]%rec_read_ok & E).
  apply rec_bind_ok in E as (id & s1 & [-> ->]%fresh_id_ok & E).
  apply rec_bind_ok in E as (r & s1 & (Hv & Hq & H)%submit_ok & [-> ->]%rec_ret_ok).
  destruct Hs as [Hr Hu]. specialize (Hu (ss_clock s) (le_n _)).
  destruct (apply_fresh _ _ _ _ _ _ _ Hr Hv Hu H) as (state & out & db1 & F & Hrun & Har & n & Hst).
  cbn in Hrun, Hst.
  pose proof (fr_state _ _ _ _ _ _ _ _ _ F) as Hf. cbn in Hf. rewrite H0 in Hf. injection Hf as <-.
  pose proof (fr_dispatch _ _ _ _ _ _ _ _ _ F) as Hd.
  apply (handle_transition_ok _ _ _ _ _ _ ) in Hd as (-> & Ho & Ha & Hap & T).
  split; [done| | |].
  - eexists. rewrite Hst, lookup_insert_eq. done.
  - exists st0. rewrite Har. split; [by apply state_in_row|].
    destruct (transition_rest _ _ _ T) as (Hi & _ & _). unfold identity in Hi. injection Hi as _ Hru Hwk _ _ _ _ _ _ _.
    split; [done|]. split; [cbn; congruence|]. split; [cbn; congruence|].
    pose proof (te_outer _ _ _ T) as Hx. pose proof (te_inner _ _ _ T) as Hy. cbn in Hx, Hy.
    split; [exact Hx|]. destruct exec as [e|]; [|exact Hy].
    destruct Hy as (x & Hx1 & <- & _). cbn. by rewrite Hx1.
  - apply (commit_no_records _ _ _ _ _ _ _ _ (fr_commit _ _ _ _ _ _ _ _ _ F)); done.
Qed.

Record adopted (stale : AgentState) (s : Session) (st : AgentState) (s' : Session) : Prop := {
  ad_progress : progress s s';
  ad_row : row_is (st_run_id stale) st s';
  ad_fields : st_run_id st = st_run_id stale ∧ st_task_state st = st_task_state stale ∧
    st_execution st = st_execution stale ∧ st_workload_kind st = st_workload_kind stale ∧
    st_current_operation_id st = st_current_operation_id stale ∧
    st_approval_id st = st_approval_id stale ∧ st_terminal_target st = st_terminal_target stale;
  ad_ledger : ledger (ss_db s') = ledger (ss_db s)
}.

Lemma adopt_adopted stale s st s' :
  sound s → state_in (st_run_id stale) (ss_db s) = Ok stale →
  adopt cfg gate env uuid stale s = (Ok st, s') → adopted stale s st s'.
Proof.
  intros Hs H0 E. pose proof (maintains_ok _ _ _ _ (λ s0, adopt_progress s0 stale) Hs E) as Hp.
  unfold adopt in E. case_decide.
  - apply rec_ret_ok in E as [-> ->]. split; [done| |done|done]. by apply state_in_row.
  - apply rec_bind_ok in E as (id & s1 & [-> ->]%fresh_id_ok & E).
    apply rec_bind_ok in E as (r & s1 & (Hv & Hq & Hap)%submit_ok & [-> ->]%rec_ret_ok).
    destruct Hs as [Hr Hu]. specialize (Hu (ss_clock s) (le_n _)).
    destruct (apply_fresh _ _ _ _ _ _ _ Hr Hv Hu Hap) as (state & out & db1 & F & Hrun & Har & n & Hst).
    cbn in Hrun, Hst.
    pose proof (fr_state _ _ _ _ _ _ _ _ _ F) as Hf. cbn in Hf. rewrite H0 in Hf. injection Hf as <-.
    pose proof (fr_dispatch _ _ _ _ _ _ _ _ _ F) as [<- <-]%tx_ret_ok.
    split; [done| |by rewrite Har|].
    + eexists. rewrite Hst, lookup_insert_eq. done.
    + apply (commit_no_records _ _ _ _ _ _ _ _ (fr_commit _ _ _ _ _ _ _ _ _ F)); done.
Qed.

(** *** Where a Run ends *)

Definition run_in (run : string) (t : TaskState) (s : Session) : Prop :=
  ∃ st, row_is run st s ∧ st_task_state st = t.

Lemma moved_in run t exec s st s' : moved_run run (Some t) exec s st s' → run_in run t s'.
Proof. intros [_ Hr (st0 & _ & _ & _ & _ & [_ Ht] & _) _]. by exists st. Qed.
Lemma move_run_in run t m s st s' : sound s → move_run run t m s = (Ok st, s') → run_in run t s'.
Proof. intros Hs H. exact (moved_in _ _ _ _ _ _ (transition_moved _ _ _ _ _ _ _ _ _ _ Hs H)). Qed.
Lemma move_run_sound run t m s r s' : sound s → move_run run t m s = (r, s') → sound s'.
Proof.
  intros Hs H. eapply progress_sound; [exact Hs|].
  exact (maintains_ok _ _ _ _ (λ s0, move_run_progress s0 run t m) Hs H).
Qed.

Ltac rec_inv H :=
  lazymatch type of H with
  | mbind _ (rec_read _) _ = _ =>
      let a := fresh "v" in let s1 := fresh "s" in let Hr := fresh "Hr" in
      apply rec_bind_ok in H as (a & s1 & [Hr ->]%rec_read_ok & H)
  | mbind _ (mret _) _ = _ =>
      let a := fresh "v" in let s1 := fresh "s" in
      apply rec_bind_ok in H as (a & s1 & [-> ->]%rec_ret_ok & H)
  | mbind _ _ _ = _ =>
      let a := fresh "v" in let s1 := fresh "s" in let Hm := fresh "Hm" in
      apply rec_bind_ok in H as (a & s1 & Hm & H)
  | mret _ _ = _ => apply rec_ret_ok in H as [? ?]; subst
  end.

Lemma require_recovery_ok run m s s' :
  sound s → require_recovery run m s = (Ok tt, s') → run_in run TS_RECOVERY_REQUIRED s'.
Proof.
  intros Hs H. unfold Recovery.require_recovery in H. rec_inv H. case_decide.
  { rec_inv H. exists v. split; [by apply state_in_row|done]. }
  rec_inv H. assert (sound s0) as Hs0.
  { case_decide; [by rec_inv Hm|]. rec_inv Hm. rec_inv Hm.
    exact (move_run_sound _ _ _ _ _ _ Hs Hm0). }
  rec_inv H. rec_inv H. exact (move_run_in _ _ _ _ _ _ Hs0 Hm0).
Qed.

Lemma queue_for_recovery_ok run s s' :
  sound s → queue_for_recovery run s = (Ok tt, s') → run_in run TS_QUEUED s'.
Proof.
  intros Hs H. unfold Recovery.queue_for_recovery in H. rec_inv H.
  assert (∀ m s1 s2, sound s1 → (_ ← move_run run TS_QUEUED m; mret tt) s1 = (Ok tt, s2) →
    run_in run TS_QUEUED s2) as Hlast.
  { intros m s1 s2 Hs1 E. rec_inv E. rec_inv E. exact (move_run_in _ _ _ _ _ _ Hs1 Hm). }
  destruct (st_task_state v) eqn:Ht;
    try (rec_inv H; refine (Hlast _ _ _ _ H); case_decide; [by rec_inv Hm|]; rec_inv Hm; rec_inv Hm;
         exact (move_run_sound _ _ _ _ _ _ Hs Hm0)).
  - by eapply Hlast.
  - rec_inv H. exists v. split; [by apply state_in_row|done].
Qed.

Definition waits (st : AgentState) (db : Db) : Prop :=
  executing st ES_WAITING_HUMAN ∧
  ∀ id ap, st_approval_id st = Some id → id ≠ "" → approval_in id db = Ok ap → ap_status ap = AS_PENDING.

Lemma resume_waiting_ok st s o s' :
  sound s → resume_waiting cfg gate env uuid st s = (Ok o, s') →
  sound s' ∧
  match o with
  | None => s' = s ∧ waits st (ss_db s)
  | Some st' => st_run_id st' = st_run_id st ∧
      (executing st ES_WAITING_HUMAN ∧ row_is (st_run_id st) st' s' ∨ st' = st ∧ s' = s)
  end.
Proof.
  intros Hs H.
  pose proof (maintains_ok _ _ _ _ (λ s0, resume_waiting_progress s0 st) Hs H) as Hp.
  split; [by eapply progress_sound|]. unfold resume_waiting in H.
  case_decide as Hw; [|rec_inv H; auto 10].
  destruct (st_approval_id st) as [[|a id]|] eqn:Ha.
  1,3: rec_inv H; split; [done|]; split; [done|]; intros i ap ? ?; congruence.
  rec_inv H. case_decide as Hpend.
  { rec_inv H. split; [done|]. split; [done|]. intros i ap E _ E'. rewrite Ha in E. injection E as <-. congruence. }
  rec_inv H. rec_inv H. rec_inv H.
  assert (sound s0) as Hs0.
  { case_decide; [|by rec_inv Hm]. rec_inv Hm. rec_inv Hm.
    eapply progress_sound; [exact Hs|].
    eapply (maintains_ok (submit _ _ _ _)); [intros ?; apply submit_recovery_progress|exact Hs|exact Hm0]. }
  rec_inv H. apply (transition_moved _ _ _ _ _ _ _ _ _ _ Hs0) in Hm0 as M.
  rec_inv H. rec_inv H. apply state_in_row in Hr2 as R.
  destruct M as [_ R' (? & _ & _ & E & _) _].
  rewrite (row_is_unique _ _ _ _ R R'). split; [done|]. by left.
Qed.

(** The queue grows by the Run exactly when the answer is [Queued]. *)
Definition served (run : string) (s : Session) (r : res Bucket) (s' : Session) : Prop :=
  rtc gateway_step (ss_db s) (ss_db s') ∧ ids_unused uuid s' ∧
  ss_queue s' = ss_queue s ++ (match r with Ok Queued => [run] | _ => [] end).

(** What each bucket means for the Run. *)
Definition bucket_means (run : string) (b : Bucket) (s' : Session) : Prop :=
  match b with
  | Queued => run_in run TS_QUEUED s'
  | RecoveryRequired => run_in run TS_RECOVERY_REQUIRED s'
  | WaitingHuman => ∃ st, row_is run st s' ∧ waits st (ss_db s')
  | Finalized => True
  end.

Lemma progress_served run s0 s r :
  progress s0 s → r ≠ Ok Queued → served run s0 r s.
Proof.
  intros (Hs & Hu & Hq) Hr. split; [done|]. split; [done|].
  destruct r as [[]|]; rewrite ?app_nil_r; done.
Qed.

Lemma progress_trans s0 s1 s2 : progress s0 s1 → progress s1 s2 → progress s0 s2.
Proof. intros (A1 & B1 & C1) (A2 & B2 & C2). split; [by etrans|]. split; [done|congruence]. Qed.
Lemma served_after run s0 s1 r s2 : progress s0 s1 → served run s1 r s2 → served run s0 r s2.
Proof. intros (A1 & B1 & C1) (A2 & B2 & C2). split; [by etrans|]. split; [done|congruence]. Qed.

(** Run a part that keeps the queue; an exception ends there. *)
Lemma served_bind {A} run (m : Rec A) (k : A → Rec Bucket) s r s' :
  (∀ s0, maintains (progress s0) m) → sound s → mbind k m s = (r, s') →
  (∀ a s1, m s = (Ok a, s1) → sound s1 → k a s1 = (r, s') → served run s1 r s') → served run s r s'.
Proof.
  intros Hm Hs H Hk. unfold mbind, rec_bind in H. destruct (m s) as [[a|e] s1] eqn:E.
  - pose proof (maintains_ok _ _ _ _ Hm Hs E) as Hp.
    eapply served_after; [exact Hp|]. eapply Hk; [done| |exact H]. by eapply progress_sound.
  - injection H as <- <-. apply progress_served; [|done]. by eapply maintains_ok.
Qed.

Lemma served_ret run b s r s' : b ≠ Queued → sound s → (mret b : Rec Bucket) s = (r, s') → served run s r s'.
Proof. intros Hb Hs [= <- <-]. apply progress_served; [by apply progress_refl|congruence]. Qed.

Lemma requeue_served run st s r s' :
  sound s → st_run_id st = run →
  requeue cfg gate env uuid enqueue_answer st s = (r, s') → served run s r s'.
Proof.
  intros Hs Hrun H. unfold requeue in H. rewrite Hrun in H.
  eapply served_bind; [|exact Hs|exact H|].
  { intros s0. case_decide; [|apply maintains_ret].
    apply maintains_bind; [apply recover_acting_progress|]. intros []; maintain. }
  intros [st'|] s1 Hm Hs1 H1; [|by eapply served_ret in H1].
  assert (st_run_id st' = run) as Hrun'.
  { clear H1 H. destruct (decide _); [|rec_inv Hm; by simplify_eq]. rec_inv Hm. destruct v; rec_inv Hm; [|done].
    rec_inv Hm. simplify_eq. apply state_in_ok in Hr as (row & Hl & _ & ->).
    assert (sound s0) as Hs0.
    { eapply progress_sound; [exact Hs|]. eapply maintains_ok; [|exact Hs|exact Hm0].
      intros ?. apply recover_acting_progress. }
    destruct (reachable_states_ok _ (proj1 Hs0)) as [Hwf _]. apply (Hwf _ _ Hl). }
  rewrite Hrun' in H1. eapply served_bind; [|exact Hs1|exact H1|].
  { intros s0. case_decide; [apply abandon_model_call_progress|apply maintains_ret]. }
  intros [] s2 _ Hs2 H2.
  eapply served_bind; [intros ?; apply queue_for_recovery_progress|exact Hs2|exact H2|].
  intros [] s3 _ Hs3 H3.
  eapply served_bind; [intros ?; apply maintains_read|exact Hs3|exact H3|].
  intros x s4 _ Hs4 H4. unfold mbind, rec_bind, enqueue in H4.
  destruct (enqueue_answer run); injection H4 as <- <-.
  - split; [apply rtc_refl|]. split; [exact (proj2 Hs4)|done].
  - apply progress_served; [by apply progress_refl|done].
Qed.

(** [adopt] answers with the Run it was given, whatever became of the row. *)
Lemma adopt_run_id stale s st s' :
  sound s → adopt cfg gate env uuid stale s = (Ok st, s') → st_run_id st = st_run_id stale.
Proof.
  intros [Hr Hu] E. unfold adopt in E. case_decide; [by apply rec_ret_ok in E as [-> _]|].
  apply rec_bind_ok in E as (id & s1 & [-> ->]%fresh_id_ok & E).
  apply rec_bind_ok in E as (r & s1 & (Hv & _ & Hap)%submit_ok & [-> _]%rec_ret_ok).
  specialize (Hu (ss_clock s) (le_n _)).
  destruct (apply_fresh _ _ _ _ _ _ _ Hr Hv Hu Hap) as (state & out & db1 & F & Hrun & -> & _).
  pose proof (fr_dispatch _ _ _ _ _ _ _ _ _ F) as [<- _]%tx_ret_ok. exact Hrun.
Qed.

Lemma recover_run_served stale s r s' :
  sound s → recover_run stale s = (r, s') → served (st_run_id stale) s r s'.
Proof.
  intros Hs H. unfold Recovery.recover_run in H.
  eapply served_bind; [intros ?; apply adopt_progress|exact Hs|exact H|]. intros st s1 Ha Hs1 H1.
  pose proof (adopt_run_id _ _ _ _ Hs Ha) as Hrun. rewrite <- Hrun in *.
  cbv beta in H1. destruct (decide (st_task_state st = TS_RECOVERY_REQUIRED)); [by eapply served_ret in H1|].
  eapply served_bind; [intros ?; apply resume_waiting_progress|exact Hs1|exact H1|].
  intros o s2 Hw Hs2 H2. apply resume_waiting_ok in Hw as [_ Hw]; [|done..].
  destruct o as [st'|]; [|by eapply served_ret in H2].
  destruct Hw as (Hrun' & _). rewrite Hrun' in H2. cbv beta zeta in H2. clear H1 H.
  repeat match type of H2 with (if decide ?p then _ else _) _ = _ => destruct (decide p) end.
  - eapply served_bind; [intros ?; apply complete_finalizing_progress|exact Hs2|exact H2|].
    intros [] s3 _ Hs3 H3. by eapply served_ret in H3.
  - eapply served_bind; [intros ?; apply has_unknown_effect_progress|exact Hs2|exact H2|].
    intros [] s3 _ Hs3 H3;
      (eapply served_bind; [|exact Hs3|exact H3|]; [eauto using finish_cancel_progress|];
       intros ? s4 _ Hs4 H4; by eapply served_ret in H4).
  - eapply served_bind; [intros ?; apply require_recovery_progress|exact Hs2|exact H2|].
    intros ? s3 _ Hs3 H3. by eapply served_ret in H3.
  - eapply served_bind; [intros ?; apply finish_from_outcome_progress|exact Hs2|exact H2|].
    intros ? s3 _ Hs3 H3. by eapply served_ret in H3.
  - by eapply requeue_served.
Qed.
End recovery.
