(* ===== verification/Restarting.v ===== *)
(** * Restarting: what recovery guarantees

    The claims on [RecoveryCoordinator.recover], with a demonstration in which
    a Gateway restarts while a side-effecting tool call of the demo Run is in
    flight, and one in which a model call is. *)

From Stdlib Require Import Ascii.
From stdpp Require Import relations.
From S2P Require Import Prelude PyText PyTime Sanitizer Json AgentTypes AgentState Commands.
From S2P Require Import OperationReduce FinalizeEvidence Store Events Operations FinalizeOps.
From S2P Require Import Controller Frames Outcomes Apply Observations Outbox System Demo StatesInv.
From S2P Require Import Lifecycle Recovery RecoveryFacts.

#[local] Open Scope Z_scope.

Section restarting.
Context (cfg : Config) (gate : nat → res unit) (env : nat → Env) (uuid : nat → string).
Context (finalizer : option (string → Rec unit)) (enqueue_answer : string → res unit).
Context (Huuid : uuid_law uuid).
Context (Hfin : ∀ f, finalizer = Some f → finalizer_law uuid f).

#[local] Notation recover_run := (recover_run cfg gate env uuid finalizer enqueue_answer).
#[local] Notation recover_runs := (recover_runs cfg gate env uuid finalizer enqueue_answer).
#[local] Notation recover := (recover cfg gate env uuid finalizer enqueue_answer).
#[local] Notation sound := (sound uuid).

Lemma enqueue_ok run s u s' :
  enqueue enqueue_answer run s = (Ok u, s') → ss_db s' = ss_db s.
Proof. unfold enqueue. destruct (enqueue_answer run); [|done]. by intros [= _ <-]. Qed.

(** The steps of [requeue], when it ends well. *)
Lemma requeue_ok st s b s' :
  sound s → requeue cfg gate env uuid enqueue_answer st s = (Ok b, s') →
  (b = Queued ∧ run_in (st_run_id st) TS_QUEUED s' ∧
     (executing st ES_ACTING → ∃ s1, recover_acting cfg gate env uuid (st_run_id st) s = (Ok true, s1))) ∨
  (b = RecoveryRequired ∧ executing st ES_ACTING ∧ recover_acting cfg gate env uuid (st_run_id st) s = (Ok false, s')).
Proof.
  intros Hs H. unfold requeue in H. apply rec_bind_ok in H as (o & s1 & Ho & H).
  assert (match o with
          | Some st' => sound s1 ∧ st_run_id st' = st_run_id st ∧
              (executing st ES_ACTING → ∃ s1, recover_acting cfg gate env uuid (st_run_id st) s = (Ok true, s1))
          | None => executing st ES_ACTING ∧ recover_acting cfg gate env uuid (st_run_id st) s = (Ok false, s1)
          end) as Hacting.
  { destruct (decide (executing st ES_ACTING)) as [He|He].
    - apply rec_bind_ok in Ho as (ok & s2 & Ha & Ho).
      assert (RecoveryFacts.sound uuid s2) as Hs2.
      { eapply maintains_sound; [|exact Hs|exact Ha]. intros ?. by apply recover_acting_progress. }
      destruct ok; [|by apply rec_ret_ok in Ho as [-> ->]].
      apply rec_bind_ok in Ho as (st' & s3 & [Hr ->]%rec_read_ok & [-> ->]%rec_ret_ok).
      split; [done|]. split; [|by eauto]. apply state_in_ok in Hr as (row & Hl & _ & ->).
      destruct (reachable_states_ok _ (proj1 Hs2)) as [Hwf _]. apply (Hwf _ _ Hl).
    - by apply rec_ret_ok in Ho as [-> ->]. }
  destruct o as [st'|]; cbv beta iota in H.
  2:{ apply rec_ret_ok in H as [-> ->]. by right. }
  destruct Hacting as (Hs1 & Hrun & Hact). rewrite Hrun in H. left.
  apply rec_bind_ok in H as ([] & s2 & Hm & H). apply rec_bind_ok in H as ([] & s3 & Hq & H).
  apply rec_bind_ok in H as (x & s4 & [_ ->]%rec_read_ok & H).
  apply rec_bind_ok in H as (? & s4 & He%enqueue_ok & [-> ->]%rec_ret_ok). split; [done|]. split; [|done].
  assert (RecoveryFacts.sound uuid s2) as Hs2.
  { eapply maintains_sound; [|exact Hs1|exact Hm]. intros ?.
    apply maintains_if; [by apply abandon_model_call_progress|apply maintains_ret]. }
  eapply queue_for_recovery_ok in Hq; [|done..]. unfold run_in, row_is in *. by rewrite He.
Qed.

Lemma abandon_batch_no run active s s' :
  sound s → abandon_batch cfg gate env uuid run active s = (Ok false, s') →
  run_in run TS_RECOVERY_REQUIRED s'.
Proof.
  revert s. induction active as [|o active IH]; intros s Hs H; cbn [abandon_batch] in H.
  { by apply rec_ret_ok in H as [? _]. }
  apply rec_bind_ok in H as (a & s1 & [_ ->]%rec_read_ok & H). case_decide.
  - apply rec_bind_ok in H as ([] & s1 & Hr & [_ ->]%rec_ret_ok). by eapply require_recovery_ok in Hr.
  - apply rec_bind_ok in H as ([] & s1 & Hm & H). eapply IH; [|exact H].
    eapply maintains_sound; [|exact Hs|exact Hm].
    intros s0. apply maintains_if; [|apply maintains_ret].
    apply maintains_bind; [apply maintains_read|intros st].
    apply maintains_bind; [by apply submit_recovery_progress|intros r; apply maintains_ret].
Qed.

Lemma recover_acting_no run s s' :
  sound s → recover_acting cfg gate env uuid run s = (Ok false, s') →
  run_in run TS_RECOVERY_REQUIRED s'.
Proof.
  intros Hs H. unfold recover_acting in H.
  apply rec_bind_ok in H as (all & s1 & [_ ->]%rec_read_ok & H). cbv zeta in H.
  match type of H with (if decide ?p then _ else _) _ = _ => destruct (decide p) end.
  - apply rec_bind_ok in H as ([] & s1 & Hb & H).
    + by apply rec_bind_ok in H as (? & ? & _ & [? _]%rec_ret_ok).
    + apply rec_ret_ok in H as [_ ->]. by eapply abandon_batch_no.
  - apply rec_bind_ok in H as (st & s1 & [_ ->]%rec_read_ok & H).
    assert (∀ m s1, sound s1 → (require_recovery cfg gate env uuid run m;; mret false) s1 = (Ok false, s') →
      run_in run TS_RECOVERY_REQUIRED s') as Hlast.
    { intros m s1 Hs1 E. apply rec_bind_ok in E as ([] & s2 & Hr & [_ ->]%rec_ret_ok).
      by eapply require_recovery_ok in Hr. }
    destruct (st_current_operation_id st) as [[|c id]|]; [by eapply Hlast| |by eapply Hlast].
    apply rec_bind_ok in H as (op & s1 & [_ ->]%rec_read_ok & H).
    apply rec_bind_ok in H as (a & s1 & [_ ->]%rec_read_ok & H).
    destruct (at_status a); try (by apply rec_bind_ok in H as (? & ? & _ & [? _]%rec_ret_ok));
      try (apply rec_bind_ok in H as ([] & s1 & Hm & H); eapply Hlast; [|exact H];
           eapply maintains_sound; [|exact Hs|exact Hm]; intros s0;
           first [apply maintains_ret|
             apply maintains_bind; [apply maintains_read|intros st1];
             apply fresh_submit_progress; [done|]; intros r; apply maintains_ret]).
    apply rec_bind_ok in H as (st1 & s1 & [_ ->]%rec_read_ok & H).
    destruct (st_safe_checkpoint st1); [by apply rec_ret_ok in H as [? _]|by eapply Hlast].
Qed.

(** ** All Runs *)

Lemma recover_runs_served states : ∀ s r s',
  sound s → recover_runs states s = (r, s') →
  rtc gateway_step (ss_db s) (ss_db s') ∧
  ∃ q, ss_queue s' = ss_queue s ++ q ∧ q `sublist_of` map st_run_id states ∧
    ∀ bs, r = Ok bs → length bs = length states ∧ length (filter (λ b, b = Queued) bs) = length q.
Proof.
  induction states as [|st states IH]; intros s r s' Hs H; cbn [Recovery.recover_runs] in H.
  { apply pair_equal_spec in H as [<- <-]. split; [done|]. exists []. rewrite app_nil_r.
    split; [done|]. split; [done|]. by intros bs [= <-]. }
  unfold mbind at 1, rec_bind at 1 in H.
  destruct (recover_run st s) as [r1 s1] eqn:E1.
  destruct (recover_run_served _ _ _ _ _ _ Huuid Hfin _ _ _ _ Hs E1) as (Hst & Hu & Hq).
  destruct r1 as [b|e].
  2:{ injection H as <- <-. split; [done|]. exists []. rewrite Hq. split; [done|].
      split; [apply sublist_nil_l|done]. }
  assert (RecoveryFacts.sound uuid s1) as Hs1.
  { split; [|done]. destruct Hs as [(d & Hi & Hr) _]. exists d. split; [done|]. by etrans. }
  unfold mbind, rec_bind in H. destruct (recover_runs states s1) as [r2 s2] eqn:E2.
  destruct (IH _ _ _ Hs1 E2) as (Hst2 & q & Hq2 & Hsub & Hbs).
  assert (r = match r2 with Ok bs => Ok (b :: bs) | Err e => Err e end ∧ s' = s2) as [-> ->]
    by (destruct r2; by injection H as <- <-).
  split; [by etrans|]. rewrite Hq2, Hq, <- app_assoc. eexists. split; [done|]. split.
  - destruct b; cbn; by constructor.
  - intros bs' E. destruct r2 as [bs|]; [|done]. injection E as <-.
    destruct (Hbs _ eq_refl) as [Hl Hf]. split; [cbn; by rewrite Hl|].
    destruct b; [rewrite filter_cons_True by done; cbn; by rewrite Hf|rewrite filter_cons_False by done; done..].
Qed.

(** The unfinished Runs, each once. *)
Definition unfinished (db : Db) : list string := (nonterminal_rows db).*1.

Lemma unfinished_nodup db : NoDup (unfinished db).
Proof.
  unfold unfinished, nonterminal_rows. rewrite merge_sort_Permutation.
  eapply sublist_NoDup; [apply (NoDup_fst_map_to_list (db_states db))|].
  apply (fmap_sublist fst), sublist_filter.
Qed.

Lemma nonterminal_ids db states :
  reachable db → nonterminal_states db = Ok states → map st_run_id states = unfinished db.
Proof.
  intros Hr H. destruct (reachable_states_ok _ Hr) as [Hwf _]. unfold nonterminal_states in H. unfold unfinished.
  assert (∀ kv, kv ∈ nonterminal_rows db → st_run_id (sr_body kv.2) = kv.1) as Hid.
  { intros [k v] Hin. unfold nonterminal_rows in Hin. rewrite merge_sort_Permutation in Hin.
    apply list_elem_of_filter in Hin as [_ Hin]. apply elem_of_map_to_list in Hin. by apply (Hwf k v). }
  revert states H Hid. induction (nonterminal_rows db) as [|kv l IH]; intros states H Hid.
  { by injection H as <-. }
  apply res_bind_ok in H as (st & Hst & H). apply res_bind_ok in H as (sts & Hsts & H).
  apply (proj1 (res_ret_ok _ _)) in H as <-. apply checked_ok in Hst as [_ ->]. cbn. f_equal.
  - apply Hid. left.
  - apply IH; [done|]. intros kv' Hin. apply Hid. by right.
Qed.

(** C17: whatever [recover] returns or raises, it is a
    sequence of transactions of the controller (so every invariant of a
    reachable store survives it), the Runs it hands to the queue are unfinished
    Runs, none twice, in the order of the table; and when it returns, the
    counts are those of the unfinished Runs, the queued ones being exactly
    those handed over. *)
Theorem recovery_accounts s r s' :
  sound s → recover s = (r, s') →
  rtc gateway_step (ss_db s) (ss_db s') ∧
  ∃ q, ss_queue s' = ss_queue s ++ q ∧ q `sublist_of` unfinished (ss_db s) ∧ NoDup q ∧
    ∀ counts, r = Ok counts → counts Queued = length q ∧
      (counts Queued + counts WaitingHuman + counts RecoveryRequired + counts Finalized)%nat
        = length (unfinished (ss_db s)).
Proof.
  intros Hs H. unfold Recovery.recover, mbind, rec_bind, rec_read in H.
  destruct (nonterminal_states (ss_db s)) as [states|e] eqn:E.
  2:{ injection H as <- <-. split; [done|]. exists []. rewrite app_nil_r.
      split; [done|]. split; [apply sublist_nil_l|]. split; [constructor|done]. }
  destruct (recover_runs states s) as [r1 s1] eqn:E1.
  destruct (recover_runs_served _ _ _ _ Hs E1) as (Hst & q & Hq & Hsub & Hbs).
  assert (r = match r1 with Ok bs => Ok (λ b, length (filter (λ x, x = b) bs)) | Err e => Err e end ∧ s' = s1)
    as [-> ->] by (destruct r1; by injection H as <- <-).
  split; [done|]. exists q. rewrite <- (nonterminal_ids _ _ (proj1 Hs) E). split; [done|]. split; [done|].
  split.
  - eapply sublist_NoDup; [|exact Hsub]. rewrite (nonterminal_ids _ _ (proj1 Hs) E). apply unfinished_nodup.
  - intros counts Hc. destruct r1 as [bs|]; [|done]. injection Hc as <-.
    destruct (Hbs _ eq_refl) as [Hl Hf]. split; [done|]. rewrite length_map, <- Hl. clear.
    induction bs as [|[] bs IH]; [done|..]; rewrite !filter_cons; repeat case_decide; try done; cbn [length]; lia.
Qed.

(** ** One Run *)

Lemma recover_run_bucket stale s b s' :
  sound s → state_in (st_run_id stale) (ss_db s) = Ok stale →
  recover_run stale s = (Ok b, s') → bucket_means (st_run_id stale) b s'.
Proof.
  intros Hs H0 H. unfold Recovery.recover_run in H.
  apply rec_bind_ok in H as (st & s1 & Ha & H).
  pose proof (maintains_sound _ _ _ _ _ (λ s0, adopt_progress _ _ _ _ Huuid s0 stale) Hs Ha) as Hs1.
  destruct (adopt_adopted _ _ _ _ Huuid _ _ _ _ Hs H0 Ha) as [_ Hrow (Hrun & _) _].
  destruct (decide (st_task_state st = TS_RECOVERY_REQUIRED)) as [Ht|_].
  { apply rec_ret_ok in H as [-> ->]. by exists st. }
  apply rec_bind_ok in H as (o & s2 & Hw & H).
  apply resume_waiting_ok in Hw as [Hs2 Hw]; [|done..]. rewrite Hrun in Hw.
  destruct o as [st'|]; cbv beta zeta iota in H.
  2:{ apply rec_ret_ok in H as [-> ->]. destruct Hw as [-> Hw]. by exists st. }
  destruct Hw as [Hrun' _]. rewrite Hrun' in H.
  repeat match type of H with (if decide ?p then _ else _) _ = _ => destruct (decide p) end.
  - by apply rec_bind_ok in H as (? & ? & _ & [-> ->]%rec_ret_ok).
  - apply rec_bind_ok in H as ([] & s3 & Hu & H).
    + apply rec_bind_ok in H as (st3 & s4 & Hm & [-> ->]%rec_ret_ok).
      eapply move_run_in; [done| |exact Hm].
      eapply maintains_sound; [|exact Hs2|exact Hu]. intros ?. by apply has_unknown_effect_progress.
    + by apply rec_bind_ok in H as (? & ? & _ & [-> ->]%rec_ret_ok).
  - apply rec_bind_ok in H as ([] & s3 & Hm & [-> ->]%rec_ret_ok). by eapply require_recovery_ok in Hm.
  - by apply rec_bind_ok in H as (? & ? & _ & [-> ->]%rec_ret_ok).
  - destruct (requeue_ok _ _ _ _ Hs2 H) as [(-> & Hq & _)|(-> & _ & Hr)]; rewrite Hrun' in *; [done|].
    exact (recover_acting_no _ _ _ Hs2 Hr).
Qed.

(** The bucket [recover] counts a Run in is the state the
    Run is in afterwards: a queued Run is in QUEUED, one that needs a decision
    in RECOVERY_REQUIRED, and one that waits for a human has an execution that
    waits and no decided approval. *)
Lemma recovery_buckets stale s b s' :
  sound s → state_in (st_run_id stale) (ss_db s) = Ok stale →
  recover_run stale s = (Ok b, s') → bucket_means (st_run_id stale) b s'.
Proof. apply recover_run_bucket. Qed.

(** *** A tool call that may have had an effect *)

Lemma abandon_batch_unsafe run active op s s' :
  op ∈ active → op_side_effecting op = true →
  abandon_batch cfg gate env uuid run active s ≠ (Ok true, s').
Proof.
  intros Hin Hse. revert s. induction Hin as [op active|op o active Hin IH]; intros s H; cbn [abandon_batch] in H;
    apply rec_bind_ok in H as (a & s1 & [_ ->]%rec_read_ok & H).
  - rewrite decide_True in H by auto. by apply rec_bind_ok in H as (? & ? & _ & [? _]%rec_ret_ok).
  - case_decide; [by apply rec_bind_ok in H as (? & ? & _ & [? _]%rec_ret_ok)|].
    apply rec_bind_ok in H as (? & s2 & _ & H). by apply (IH Hse s2).
Qed.

(** The Run is executing a side-effecting operation whose outcome nobody knows. *)
Record in_doubt (run : string) (st : AgentState) (op : OperationRecord) (at_ : OperationAttempt) (db : Db) : Prop := {
  id_acting : executing st ES_ACTING;
  id_current : st_current_operation_id st = Some (op_operation_id op);
  id_named : op_operation_id op ≠ "";
  id_operation : operation_in (op_operation_id op) db = Ok op;
  id_attempt : current_attempt_in (op_operation_id op) db = Ok at_;
  id_run : or_run_id <$> db_operations db !! op_operation_id op = Some run;
  id_effect : op_side_effecting op = true;
  id_open : op_status op ∈ [OS_PREPARED; OS_RUNNING; OS_UNKNOWN];
  id_status : at_status at_ ∈ [OS_RUNNING; OS_UNKNOWN]
}.

Lemma mapM_checked_elem {A B} what (valid : B → bool) (f : A → B) l all a :
  mapM (λ x, checked what valid (f x)) l = Ok all → a ∈ l → f a ∈ all.
Proof.
  revert all. induction l as [|x l IH]; intros all H Hin; [by apply not_elem_of_nil in Hin|].
  apply res_bind_ok in H as (b & [_ ->]%checked_ok & H). apply res_bind_ok in H as (bs & Hbs & H).
  apply (proj1 (res_ret_ok _ _)) in H as <-.
  apply elem_of_cons in Hin as [->|Hin]; [left|right; by apply IH].
Qed.

Lemma operations_listed run op db all :
  operation_in (op_operation_id op) db = Ok op → or_run_id <$> db_operations db !! op_operation_id op = Some run →
  operations run db = Ok all → op ∈ all.
Proof.
  unfold operation_in, operations. destruct (db_operations db !! op_operation_id op) as [row|] eqn:E; [|done].
  intros [_ ->]%checked_ok [= Hrun] H.
  apply (mapM_checked_elem _ _ (λ kv : string * OpRow, or_body kv.2) _ _ (op_operation_id (or_body row), row) H).
  rewrite merge_sort_Permutation. apply list_elem_of_filter. split; [done|]. by apply elem_of_map_to_list.
Qed.

Lemma in_doubt_ledger run st st' op at_ db db' :
  ledger db' = ledger db → st_execution st' = st_execution st →
  st_current_operation_id st' = st_current_operation_id st →
  in_doubt run st op at_ db → in_doubt run st' op at_ db'.
Proof.
  unfold ledger. intros [= Eo Ea _ _ _ _ _ _ _] He Hc [H1 H2 H3 H4 H5 H6 H7 H8 H9].
  split; unfold executing, operation_in, current_attempt_in, attempts_in, attempt_rows, operations in *;
    rewrite ?Eo, ?Ea, ?He, ?Hc; try done.
Qed.

Lemma recover_acting_unsafe run st op at_ s s' :
  state_in run (ss_db s) = Ok st → in_doubt run st op at_ (ss_db s) →
  recover_acting cfg gate env uuid run s ≠ (Ok true, s').
Proof.
  intros Hst [_ Hcur Hne Hop Hat Hrun Hse Hopen Hdoubt] H. unfold recover_acting in H.
  apply rec_bind_ok in H as (all & s1 & [Hl ->]%rec_read_ok & H). pose proof (operations_listed _ _ _ _ Hop Hrun Hl) as Hall. cbv zeta in H.
  match type of H with (if decide ?p then _ else _) _ = _ => destruct (decide p) end.
  - apply rec_bind_ok in H as ([] & s1 & Hb & H); [|by apply rec_ret_ok in H as [? _]].
    refine (abandon_batch_unsafe _ _ op _ _ _ Hse Hb). by apply list_elem_of_filter.
  - apply rec_bind_ok in H as (st' & s1 & [Hst' ->]%rec_read_ok & H).
    rewrite Hst in Hst'. injection Hst' as <-. rewrite Hcur in H.
    destruct (op_operation_id op) as [|c id] eqn:Hid; [done|].
    apply rec_bind_ok in H as (op' & s1 & [Hop' ->]%rec_read_ok & H).
    rewrite Hop in Hop'. injection Hop' as <-. rewrite Hid in H.
    apply rec_bind_ok in H as (a & s1 & [Ha ->]%rec_read_ok & H).
    rewrite Hat in Ha. injection Ha as <-.
    assert (at_status at_ = OS_RUNNING ∨ at_status at_ = OS_UNKNOWN) as [E|E] by set_solver;
      rewrite E in H; apply rec_bind_ok in H as (? & ? & _ & H);
      by apply rec_bind_ok in H as (? & ? & _ & [? _]%rec_ret_ok).
Qed.

(** C16: a Run that was in the middle of a side-effecting tool
    call, whose attempt is running or unknown, is never handed to the queue,
    whatever recovery returns or raises; and unless it was being cancelled or
    finalized, it is counted as RECOVERY_REQUIRED and left in that state. *)
Theorem recovery_unsafe_effects stale op at_ s r s' :
  sound s → state_in (st_run_id stale) (ss_db s) = Ok stale →
  in_doubt (st_run_id stale) stale op at_ (ss_db s) →
  recover_run stale s = (r, s') →
  ss_queue s' = ss_queue s ∧
  (∀ b, r = Ok b → st_task_state stale ∉ [TS_FINALIZING; TS_CANCELLING] →
     b = RecoveryRequired ∧ run_in (st_run_id stale) TS_RECOVERY_REQUIRED s').
Proof.
  intros Hs H0 Hd H. pose proof (recover_run_served _ _ _ _ _ _ Huuid Hfin _ _ _ _ Hs H) as (_ & _ & Hq).
  destruct r as [b|e]; [|rewrite app_nil_r in Hq; by split].
  pose proof (recover_run_bucket _ _ _ _ Hs H0 H) as Hb.
  assert (b ≠ Queued ∧ (st_task_state stale ∉ [TS_FINALIZING; TS_CANCELLING] → b = RecoveryRequired)) as [Hnq Hrr].
  2:{ split; [destruct b; by rewrite ?app_nil_r in Hq|].
      intros b' [= <-] Ht. rewrite (Hrr Ht) in Hb. split; [by apply Hrr|done]. }
  clear Hq Hb. unfold Recovery.recover_run in H.
  apply rec_bind_ok in H as (st & s1 & Ha & H).
  pose proof (maintains_sound _ _ _ _ _ (λ s0, adopt_progress _ _ _ _ Huuid s0 stale) Hs Ha) as Hs1.
  destruct (adopt_adopted _ _ _ _ Huuid _ _ _ _ Hs H0 Ha) as [_ Hrow (Hrun & Htask & Hex & _ & Hcur & _) Hled].
  apply (in_doubt_ledger _ _ _ _ _ _ _ Hled Hex Hcur) in Hd.
  pose proof (id_acting _ _ _ _ _ Hd) as Hact.
  destruct (decide (st_task_state st = TS_RECOVERY_REQUIRED)) as [Ht|_]; [by apply rec_ret_ok in H as [-> ->]|].
  apply rec_bind_ok in H as (o & s2 & Hw & H).
  unfold resume_waiting in Hw. rewrite decide_False in Hw by (unfold executing in *; congruence).
  apply rec_ret_ok in Hw as [-> ->]. cbv beta zeta iota in H. rewrite <- Htask.
  repeat match type of H with (if decide ?p then _ else _) _ = _ => destruct (decide p) as [E|?] end.
  - apply rec_bind_ok in H as (? & ? & _ & [-> ->]%rec_ret_ok). rewrite E. set_solver.
  - rewrite E. apply rec_bind_ok in H as ([] & s3 & _ & H);
      apply rec_bind_ok in H as (? & ? & _ & [-> ->]%rec_ret_ok); set_solver.
  - by apply rec_bind_ok in H as (? & ? & _ & [-> ->]%rec_ret_ok).
  - unfold executing in *. congruence.
  - destruct (requeue_ok _ _ _ _ Hs1 H) as [(-> & _ & Hq)|(-> & _)]; [|done].
    destruct (Hq Hact) as [s3 Hr]. exfalso. rewrite Hrun in Hr.
    refine (recover_acting_unsafe _ st _ _ _ _ _ Hd Hr).
    destruct Hrow as (row & Hl & <-). apply state_in_ok. exists row. split; [done|]. split; [|done].
    destruct (reachable_states_ok _ (proj1 Hs1)) as [_ Hv]. by apply (Hv (st_run_id stale)).
Qed.

(** *** A model call that was in flight *)

(** When a Run was waiting for a model call, recovery
    raises the validation error of the command it tries to build (its keywords
    do not fit the command class), the model operation stays open, and no Run
    after it is recovered. *)
Lemma recovery_thinking_fails stale rest s st s1 op at_ :
  adopt cfg gate env uuid stale s = (Ok st, s1) →
  st_task_state st ∉ [TS_RECOVERY_REQUIRED; TS_FINALIZING; TS_CANCELLING] →
  st_workload_kind st ∈ [WK_CHAT; WK_CRON] → executing st ES_THINKING →
  state_in (st_run_id st) (ss_db s1) = Ok st →
  active_operation (st_run_id st) (ss_db s1) = Ok (Some op) →
  op_kind op = OK_MODEL → op_status op ∈ [OS_PREPARED; OS_RUNNING] →
  current_attempt_in (op_operation_id op) (ss_db s1) = Ok at_ →
  recover_runs (stale :: rest) s = (Err (ValidationError "AbandonOperationAttemptCommand"), s1).
Proof.
  clear Huuid Hfin. intros Ha Ht Hw He Hst Hop Hk Ho Hat.
  assert (recover_run stale s = (Err (ValidationError "AbandonOperationAttemptCommand"), s1)) as Hr.
  { unfold Recovery.recover_run, mbind, rec_bind. rewrite Ha.
    rewrite decide_False by set_solver. unfold resume_waiting.
    rewrite decide_False by (unfold executing in *; congruence). cbn.
    rewrite !decide_False by (unfold executing in *; first [set_solver|congruence]).
    unfold requeue, mbind, rec_bind. rewrite decide_False by (unfold executing in *; congruence). cbn.
    rewrite decide_True by done. unfold abandon_model_call, mbind, rec_bind, rec_read. rewrite Hop.
    rewrite decide_True by done. rewrite Hat, Hst. reflexivity. }
  cbn [Recovery.recover_runs]. unfold mbind, rec_bind. by rewrite Hr.
Qed.
End restarting.

(** ** A demonstration

    The demo Run is RUNNING; [play] submits further commands.  In [acting] a
    side-effecting tool call is in flight, in [thinking] a model call. *)

Definition play_command (n : nat) (b : CommandBody) : Command :=
  mkCommand (mkStateCommand ("play-" +:+ str_of_int (Z.of_nat n)) "primary" None None "run-1"
    (Z.of_nat n - 1) "epoch-1") b.
Fixpoint play (n : nat) (bodies : list CommandBody) (db : Db) : Db :=
  match bodies with
  | [] => db
  | b :: rest =>
      play (S n) rest
        (if command_valid (play_command n b) then
           match apply demo_cfg (Ok tt) (demo_env n) (play_command n b) db with Ok (_, db') => db' | Err _ => db end
         else db)
  end.

Lemma play_steps bodies : ∀ n db, rtc gateway_step db (play n bodies db).
Proof.
  induction bodies as [|b bodies IH]; intros n db; [done|]. cbn [play]. etrans; [|apply IH].
  destruct (command_valid _) eqn:Hv; [|done].
  destruct (apply _ _ _ _ _) as [[r db']|e] eqn:E; [|done].
  apply rtc_once. eapply step_apply; [exact Hv|exact E].
Qed.

Definition move_inner (e : ExecutionState) : CommandBody :=
  Transition (mkTransitionCommand None (Some e) None None None "demo" None None).
Definition acting : Db :=
  play 4 [move_inner ES_THINKING; move_inner ES_ACTING;
          demo_create "op-x" "tool:x" (demo_hash "op-x") OK_TOOL true;
          StartOperationAttempt "attempt-op-x" None] (demo 3).
Definition thinking : Db :=
  play 4 [move_inner ES_THINKING; demo_create "op-m" "model:m" (demo_hash "op-m") OK_MODEL false;
          StartOperationAttempt "attempt-op-m" None] (demo 3).

Lemma play_reachable bodies : reachable (play 4 bodies (demo 3)).
Proof.
  destruct (demo_reachable 3) as (d & Hi & Hr). exists d. split; [done|]. etrans; [exact Hr|apply play_steps].
Qed.

Definition demo_uuid (n : nat) : string := String "u"%char (Nat.iter n (String "x"%char) "").
Lemma demo_uuid_law : uuid_law demo_uuid.
Proof.
  split; [|by intros n s]. unfold demo_uuid. intros m. induction m as [|m IH]; intros [|n] H; [done..|].
  f_equal. apply IH. cbn in H. by injection H as H; f_equal.
Qed.

(** No processed command has an id that [demo_uuid] may still draw. *)
Definition demo_unused (db : Db) : bool :=
  forallb (λ kv, match kv.1 with String c _ => negb (bool_decide (c = "u"%char)) | EmptyString => true end)
    (map_to_list (db_processed db)).
Lemma demo_sound db clock : reachable db → demo_unused db = true → sound demo_uuid (mkSession db clock []).
Proof.
  intros Hr Hu. split; [done|]. intros n _. cbn. apply eq_None_not_Some. intros [row H].
  unfold demo_unused in Hu. rewrite forallb_forall in Hu.
  specialize (Hu (demo_uuid n, row)). rewrite <- list_elem_of_In, elem_of_map_to_list in Hu.
  by specialize (Hu H).
Qed.

Lemma acting_unused : demo_unused acting = true.
Proof. vm_cast_no_check (@eq_refl bool true). Qed.
Lemma thinking_unused : demo_unused thinking = true.
Proof. vm_cast_no_check (@eq_refl bool true). Qed.

Definition demo_env' (n : nat) : Env := demo_env (40 + n).
Definition demo_recover := recover demo_cfg2 (λ _, Ok tt) demo_env' demo_uuid None (λ _, Ok tt).
Definition demo_recover_run := recover_run demo_cfg2 (λ _, Ok tt) demo_env' demo_uuid None (λ _, Ok tt).

Definition got {A} (d : A) (r : res A) : A := match r with Ok a => a | Err _ => d end.
Lemma got_ok {A} (d : A) (r : res A) : is_ok r = true → r = Ok (got d r).
Proof. by destruct r. Qed.

Definition acting_session : Session := mkSession acting 0 [].
Definition acting_state : AgentState := got demo_final_state (state_in "run-1" acting).

Lemma no_finalizer : ∀ f, None = Some f → finalizer_law demo_uuid f.
Proof. done. Qed.

Lemma recovery_accounts_witness :
  rtc gateway_step acting (ss_db (demo_recover acting_session).2) ∧
  ∃ q, ss_queue (demo_recover acting_session).2 = q ∧ q `sublist_of` unfinished acting ∧ NoDup q ∧
    ∀ counts, (demo_recover acting_session).1 = Ok counts → counts Queued = length q ∧
      (counts Queued + counts WaitingHuman + counts RecoveryRequired + counts Finalized)%nat
        = length (unfinished acting).
Proof.
  exact (recovery_accounts demo_cfg2 (λ _, Ok tt) demo_env' demo_uuid None (λ _, Ok tt) demo_uuid_law
    no_finalizer acting_session _ _ (demo_sound acting 0 (play_reachable _) acting_unused)
    (surjective_pairing (demo_recover acting_session))).
Defined.

Lemma acting_state_ok : state_in "run-1" acting = Ok acting_state.
Proof. apply got_ok. vm_cast_no_check (@eq_refl bool true). Qed.

Lemma pair_eta {A B} (x : A * B) a : x.1 = a → x = (a, x.2).
Proof. destruct x as [b s]. by intros [= ->]. Qed.

Lemma acting_bucket : (demo_recover_run acting_state acting_session).1 = Ok RecoveryRequired.
Proof. vm_cast_no_check (@eq_refl (res Bucket) (Ok RecoveryRequired)). Qed.
Lemma acting_run : st_run_id acting_state = "run-1".
Proof. vm_cast_no_check (@eq_refl string "run-1"). Qed.
Lemma acting_state_read : state_in (st_run_id acting_state) acting = Ok acting_state.
Proof. rewrite acting_run. exact acting_state_ok. Qed.

(** [in_doubt], as a test. *)
Definition in_doubt_check (run : string) (st : AgentState) (db : Db) : bool :=
  match st_current_operation_id st with
  | None => false
  | Some id =>
      match operation_in id db, current_attempt_in id db with
      | Ok op, Ok at_ =>
          bool_decide (executing st ES_ACTING) && bool_decide (op_operation_id op = id) && nonempty id
          && bool_decide (or_run_id <$> db_operations db !! id = Some run) && op_side_effecting op
          && bool_decide (op_status op ∈ [OS_PREPARED; OS_RUNNING; OS_UNKNOWN])
          && bool_decide (at_status at_ ∈ [OS_RUNNING; OS_UNKNOWN])
      | _, _ => false
      end
  end.
Lemma in_doubt_ok run st db : in_doubt_check run st db = true → ∃ op at_, in_doubt run st op at_ db.
Proof.
  unfold in_doubt_check. destruct (st_current_operation_id st) as [id|] eqn:Hc; [|done].
  destruct (operation_in id db) as [op|] eqn:Ho; [|done].
  destruct (current_attempt_in id db) as [at_|] eqn:Ha; [|done].
  rewrite !andb_true_iff, !bool_decide_eq_true. intros ((((((? & <-) & Hn) & ?) & ?) & ?) & ?).
  exists op, at_. split; try done. intros E. by rewrite E in Hn.
Qed.

Lemma acting_doubt : in_doubt_check "run-1" acting_state acting = true.
Proof. vm_cast_no_check (@eq_refl bool true). Qed.

Lemma recovery_unsafe_effects_witness :
  ss_queue (demo_recover_run acting_state acting_session).2 = [].
Proof.
  destruct (in_doubt_ok _ _ _ acting_doubt) as (op & at_ & Hd). rewrite <- acting_run in Hd.
  exact (proj1 (recovery_unsafe_effects demo_cfg2 (λ _, Ok tt) demo_env' demo_uuid None (λ _, Ok tt)
    demo_uuid_law no_finalizer acting_state op at_ acting_session _ _
    (demo_sound acting 0 (play_reachable _) acting_unused) acting_state_read Hd
    (surjective_pairing (demo_recover_run acting_state acting_session)))).
Defined.

(** The model call. *)
Definition thinking_session : Session := mkSession thinking 0 [].
Definition thinking_state : AgentState := got demo_final_state (state_in "run-1" thinking).
Definition thinking_adopted : res AgentState * Session :=
  adopt demo_cfg2 (λ _, Ok tt) demo_env' demo_uuid thinking_state thinking_session.
Definition thinking_check (x : res AgentState * Session) : bool :=
  match x with
  | (Ok st, s1) =>
      bool_decide (st_task_state st ∉ [TS_RECOVERY_REQUIRED; TS_FINALIZING; TS_CANCELLING])
      && bool_decide (st_workload_kind st ∈ [WK_CHAT; WK_CRON]) && bool_decide (executing st ES_THINKING)
      && match active_operation (st_run_id st) (ss_db s1) with
         | Ok (Some op) => bool_decide (op_kind op = OK_MODEL) && bool_decide (op_status op ∈ [OS_PREPARED; OS_RUNNING])
             && is_ok (current_attempt_in (op_operation_id op) (ss_db s1))
         | _ => false
         end
  | _ => false
  end.
Record thinking_facts (st : AgentState) (s1 : Session) (op : OperationRecord) (at_ : OperationAttempt) : Prop := {
  tf_task : st_task_state st ∉ [TS_RECOVERY_REQUIRED; TS_FINALIZING; TS_CANCELLING];
  tf_workload : st_workload_kind st ∈ [WK_CHAT; WK_CRON];
  tf_executing : executing st ES_THINKING;
  tf_read : state_in (st_run_id st) (ss_db s1) = Ok st;
  tf_active : active_operation (st_run_id st) (ss_db s1) = Ok (Some op);
  tf_kind : op_kind op = OK_MODEL;
  tf_status : op_status op ∈ [OS_PREPARED; OS_RUNNING];
  tf_attempt : current_attempt_in (op_operation_id op) (ss_db s1) = Ok at_
}.
Lemma thinking_check_ok (x : res AgentState * Session) :
  thinking_check x = true → (∀ st s1, x = (Ok st, s1) → state_in (st_run_id st) (ss_db s1) = Ok st) →
  ∃ st s1 op at_, x = (Ok st, s1) ∧ thinking_facts st s1 op at_.
Proof.
  destruct x as [[st|e] s1]; [|done]. intros H Hr. specialize (Hr _ _ eq_refl). unfold thinking_check in H.
  destruct (active_operation (st_run_id st) (ss_db s1)) as [[op|]|] eqn:Ho; try (by rewrite !andb_false_r in H).
  destruct (current_attempt_in (op_operation_id op) (ss_db s1)) as [at_|] eqn:Ha; [|by rewrite !andb_false_r in H].
  rewrite !andb_true_iff, !bool_decide_eq_true in H. destruct H as [[[Ht Hw] He] [[Hk Hst] _]].
  exists st, s1, op, at_. split; done.
Qed.

Lemma thinking_checked : thinking_check thinking_adopted = true.
Proof. vm_cast_no_check (@eq_refl bool true). Qed.
Lemma thinking_state_ok : state_in "run-1" thinking = Ok thinking_state.
Proof. apply got_ok. vm_cast_no_check (@eq_refl bool true). Qed.
Lemma thinking_run : st_run_id thinking_state = "run-1".
Proof. vm_cast_no_check (@eq_refl string "run-1"). Qed.

(** What adoption returns is what it stored. *)
Lemma adopted_read cfg gate env uuid stale s st s1 :
  uuid_law uuid → sound uuid s → state_in (st_run_id stale) (ss_db s) = Ok stale →
  adopt cfg gate env uuid stale s = (Ok st, s1) → state_in (st_run_id st) (ss_db s1) = Ok st.
Proof.
  intros Hu Hs H0 Ha. destruct (adopt_adopted _ _ _ _ Hu _ _ _ _ Hs H0 Ha) as [_ (row & Hl & <-) (Hrun & _) _].
  pose proof (maintains_sound _ _ _ _ _ (λ s0, adopt_progress _ _ _ _ Hu s0 stale) Hs Ha) as Hs1.
  rewrite Hrun. apply state_in_ok. exists row. split; [done|]. split; [|done].
  destruct (reachable_states_ok _ (proj1 Hs1)) as [_ Hv]. by apply (Hv (st_run_id stale)).
Qed.

Lemma thinking_stored : state_in (st_run_id thinking_state) (ss_db thinking_session) = Ok thinking_state.
Proof. rewrite thinking_run. exact thinking_state_ok. Qed.

Lemma thinking_read st s1 : thinking_adopted = (Ok st, s1) → state_in (st_run_id st) (ss_db s1) = Ok st.
Proof.
  exact (adopted_read demo_cfg2 (λ _, Ok tt) demo_env' demo_uuid thinking_state thinking_session st s1
    demo_uuid_law (demo_sound thinking 0 (play_reachable _) thinking_unused) thinking_stored).
Qed.

