(* ===== verification/Archive.v ===== *)
(** * Archive: moving old events to files (gateway/event_store.py, GatewayEventArchiveService)

    An archive is a frozen, contiguous range of hot events of one stream.
    [prepare] reserves its members, [write_and_verify] writes their bodies to
    a file, checks the file and then, in a second transaction, releases the
    hot bodies.  Between the two the process may stop: [recover_preparing]
    goes on at the next start.

    The files are [db_files].  A file is written under another name and
    renamed, so that a file is there with its whole content or not at all;
    what a failed write leaves under the other name is an input ([disk]). *)

From S2P Require Import Prelude PyText PyTime Sanitizer Json AgentTypes AgentState Commands.
From S2P Require Import FinalizeEvidence Store Events EventStore.

#[local] Open Scope Z_scope.

(** ** Time *)

(** [datetime.isoformat(timespec="seconds")] *)
Definition isoformat_seconds (dt : datetime) : string :=
  isoformat (mkdatetime (dt_local dt - dt_local dt mod 1000000) (dt_utcoff dt)).

(** [now - timedelta(days=n)]; out of the calendar it is an [OverflowError]. *)
Definition minus_days (now : datetime) (n : Z) : res datetime :=
  let l := dt_local now - n * day_us in
  if (0 <=? l) && (l <? max_local) then Ok (mkdatetime l (dt_utcoff now))
  else Err (OverflowError "date value out of range").

(** What a step draws from outside: [uuid4().hex] and the times. *)
Record ArchiveEnv := mkArchiveEnv { ae_uuid : string; ae_now : string }.

(** ** Which events may be archived *)

(* source: gateway/event_store.py:325-325 GatewayEventArchiveService.process_eligible *)
Definition finished_statuses : list string := ["completed"; "failed"; "cancelled"; "interrupted"].

(** The join with [runs] and [agent_states] of an event's Run. *)
(* source: gateway/event_store.py:350-356 GatewayEventArchiveService._prepare_eligible_stream *)
Definition run_settled (run_id : string) (db : Db) : bool :=
  match db_runs db !! run_id, db_states db !! run_id with
  | Some r, Some s => bool_decide (ru_status r ∈ finished_statuses) && negb (sr_recovery_required s)
  | _, _ => false
  end.

(* source: gateway/event_store.py:357-361 GatewayEventArchiveService._prepare_eligible_stream *)
Definition deliveries_settled (event_id : string) (db : Db) : bool :=
  negb (anyrow (db_deliveries db) (λ d, bool_decide (dl_event_id d = event_id) && dl_required d
          && negb (bool_decide (dl_status d = DS_DELIVERED))))
  && negb (anyrow (db_delivery_attempts db) (λ a,
       bool_decide (dt_status a = DA_DELIVERING)
       && match db_deliveries db !! dt_delivery_id a with
          | Some d => bool_decide (dl_event_id d = event_id)
          | None => false
          end)).

Definition hot_unreserved (r : EventRow) : bool :=
  bool_decide (er_storage_tier r = TIER_HOT) && is_none (er_archive_id r).

(* source: gateway/event_store.py:347-364 GatewayEventArchiveService._prepare_eligible_stream *)
Definition eligible (stream_id cutoff : string) (db : Db) (kv : string * EventRow) : bool :=
  bool_decide (er_stream_id kv.2 = stream_id) && hot_unreserved kv.2
  && String.ltb (er_occurred_at kv.2) cutoff && run_settled (er_run_id kv.2) db
  && deliveries_settled kv.1 db.

(* source: gateway/event_store.py:347-364 GatewayEventArchiveService._prepare_eligible_stream *)
Definition eligible_rows (stream_id cutoff : string) (limit : Z) (db : Db) : list (string * EventRow) :=
  let rows := merge_sort row_le (filter (λ kv, eligible stream_id cutoff db kv = true)
                (map_to_list (db_events db))) in
  if 0 <=? limit then take (Z.to_nat limit) rows else rows.

(** [SELECT MIN(stream_sequence)] of the hot events nobody has reserved. *)
(* source: gateway/event_store.py:368-373 GatewayEventArchiveService._prepare_eligible_stream *)
Definition oldest_hot (stream_id : string) (db : Db) : option Z :=
  match merge_sort row_le (filter (λ kv, er_stream_id kv.2 = stream_id ∧ hot_unreserved kv.2 = true)
          (map_to_list (db_events db))) with
  | [] => None
  | kv :: _ => Some (er_stream_sequence kv.2)
  end.

(** The longest prefix without a gap. *)
(* source: gateway/event_store.py:377-382 GatewayEventArchiveService._prepare_eligible_stream *)
Fixpoint contiguous_from (previous : Z) (rows : list (string * EventRow)) : list (string * EventRow) :=
  match rows with
  | [] => []
  | kv :: rest =>
      if er_stream_sequence kv.2 =? previous + 1
      then kv :: contiguous_from (er_stream_sequence kv.2) rest else []
  end.
(* source: gateway/event_store.py:377-383 GatewayEventArchiveService._prepare_eligible_stream *)
Definition contiguous_prefix (rows : list (string * EventRow)) : list (string * EventRow) :=
  match rows with
  | [] => []
  | kv :: rest => kv :: contiguous_from (er_stream_sequence kv.2) rest
  end.

(** ** Reserving members *)

(* source: gateway/event_store.py:416-417 GatewayEventArchiveService._insert_preparing *)
Definition archive_path (directory stream_id archive_id : string) : string :=
  directory +:+ "/" +:+ sha256_hex stream_id +:+ "/" +:+ archive_id +:+ ".events.jsonl".

(** The constraints of the archive table: its key, the unique path and the count. *)
(* source: gateway/event_store.py:418-423 GatewayEventArchiveService._insert_preparing *)
Definition insert_archive (archive_id : string) (r : ArchiveRow) : Tx Db unit :=
  db ← tx_gets (λ db, db);
  abort_if (is_some (db_archives db !! archive_id)
            || anyrow (db_archives db) (λ r', bool_decide (gx_archive_path r' = gx_archive_path r))
            || (gx_event_count r <=? 0)) "gateway_event_archives";;
  tx_modify (λ db, db ⟪ db_archives := <[archive_id := r]> (db_archives db) ⟫).

(* source: gateway/event_store.py:424-436 GatewayEventArchiveService._insert_preparing *)
Fixpoint reserve_members (archive_id : string) (rows : list (string * EventRow)) : Tx Db unit :=
  match rows with
  | [] => mret tt
  | (event_id, r) :: rest =>
      db ← tx_gets (λ db, db);
      abort_if (is_some (db_members db !! event_id)) "gateway_event_archive_members";;
      tx_modify (λ db, db ⟪ db_members :=
        <[event_id := mkMemberRow archive_id (er_stream_sequence r) (er_canonical_hash r) None None]>
          (db_members db) ⟫);;
      match db_events db !! event_id with
      | Some e =>
          if hot_unreserved e then
            tx_modify (λ db, db ⟪ db_events :=
              <[event_id := (e ⟪ er_archive_id := Some archive_id ⟫) ⟪ er_revision := er_revision e + 1 ⟫]>
                (db_events db) ⟫)
          else tx_fail (EventStoreIntegrityError "Archive member reservation CAS failed")
      | None => tx_fail (EventStoreIntegrityError "Archive member reservation CAS failed")
      end;;
      reserve_members archive_id rest
  end.

(** [sequences[0]] and [sequences[-1]]; [rows] is not empty where they are used. *)
Definition first_sequence (rows : list (string * EventRow)) : Z :=
  match rows with [] => 0 | kv :: _ => er_stream_sequence kv.2 end.
Definition last_sequence (rows : list (string * EventRow)) : Z :=
  match last rows with None => 0 | Some kv => er_stream_sequence kv.2 end.

(* source: gateway/event_store.py GatewayEventArchiveService._insert_preparing *)
Definition insert_preparing (directory : string) (env : ArchiveEnv) (stream_id : string)
    (rows : list (string * EventRow)) : Tx Db string :=
  let archive_id := ae_uuid env in
  insert_archive archive_id
    (mkArchiveRow stream_id (first_sequence rows) (last_sequence rows) (Z.of_nat (length rows)) None None None
       (archive_path directory stream_id archive_id) AR_PREPARING (ae_now env) None 0);;
  reserve_members archive_id rows;;
  mret archive_id.

(* source: gateway/event_store.py GatewayEventArchiveService._prepare_eligible_stream *)
Definition prepare_eligible_stream (directory : string) (env : ArchiveEnv) (stream_id cutoff : string)
    (segment_max_events : Z) : Tx Db (option string) :=
  db ← tx_gets (λ db, db);
  match eligible_rows stream_id cutoff segment_max_events db with
  | [] => mret None
  | (id, r) :: rest =>
      if decide (oldest_hot stream_id db = Some (er_stream_sequence r)) then
        archive_id ← insert_preparing directory env stream_id (contiguous_prefix ((id, r) :: rest));
        mret (Some archive_id)
      else mret None
  end.

(** [WHERE event_id IN (...)]: a repeated id selects one row. *)
(* source: gateway/event_store.py:394-398 GatewayEventArchiveService.prepare *)
Definition selected_rows (event_ids : list string) (db : Db) : list (string * EventRow) :=
  merge_sort row_le (filter (λ kv, kv.1 ∈ event_ids) (map_to_list (db_events db))).

(* source: gateway/event_store.py GatewayEventArchiveService.prepare *)
Definition prepare (directory : string) (env : ArchiveEnv) (stream_id : string) (event_ids : list string) :
    Tx Db string :=
  reject (event_ids = []) (ValueError "Archive requires at least one event");;
  db ← tx_gets (λ db, db);
  let rows := selected_rows event_ids db in
  reject (length rows ≠ length event_ids)
    (EventStoreIntegrityError "Archive selection contains missing events");;
  reject (Exists (λ kv, er_stream_id kv.2 ≠ stream_id ∨ er_storage_tier kv.2 ≠ TIER_HOT) rows)
    (EventStoreIntegrityError "Archive members must be hot events from one stream");;
  reject (map (λ kv, er_stream_sequence kv.2) rows
          ≠ seqZ (first_sequence rows) (last_sequence rows - first_sequence rows + 1))
    (EventStoreIntegrityError "Archive members must form a contiguous stream range");;
  insert_preparing directory env stream_id rows.

(** ** Writing and checking the file *)

(** A member as [write_and_verify] reads it, with the body of its event. *)
Record PlanMember := mkPlanMember {
  pm_event_id : string;
  pm_sequence : Z;
  pm_canonical_hash : string;
  pm_body : string
}.

(** What is computed before the file is opened; [pl_offsets] has the place of
    each body in the file. *)
Record ArchivePlan := mkArchivePlan {
  pl_path : string;
  pl_members : list PlanMember;
  pl_manifest : list (string * json);
  pl_manifest_hash : string;
  pl_members_hash : string;
  pl_events_hash : string;
  pl_header : string;
  pl_offsets : list (string * (Z * Z))
}.

Definition member_le (a b : string * MemberRow) : Prop := mb_stream_sequence a.2 ≤ mb_stream_sequence b.2.
#[export] Instance member_le_dec a b : Decision (member_le a b).
Proof. unfold member_le. apply _. Defined.
#[export] Instance member_le_total : Total member_le.
Proof. intros a b. unfold member_le. lia. Qed.

(** The frozen members, by sequence; the foreign key joins each to its event. *)
(* source: gateway/event_store.py:451-456 GatewayEventArchiveService.write_and_verify *)
Definition member_rows (archive_id : string) (db : Db) : list (string * MemberRow) :=
  merge_sort member_le (filter (λ kv, mb_archive_id kv.2 = archive_id ∧ is_some (db_events db !! kv.1) = true)
    (map_to_list (db_members db))).

(* source: gateway/event_store.py:457-460 GatewayEventArchiveService.write_and_verify *)
Definition plan_member (db : Db) (kv : string * MemberRow) : res PlanMember :=
  body ← res_of_option (EventStoreIntegrityError "PREPARING member lost its hot canonical body")
           (db_events db !! kv.1 ≫= er_canonical_event_json);
  mret (mkPlanMember kv.1 (mb_stream_sequence kv.2) (mb_canonical_hash kv.2) body).

(** [raw.encode("utf-8")] of every body; a lone surrogate cannot be encoded. *)
Definition encode_all (texts : list string) : res unit :=
  if forallb is_utf8 texts then Ok tt else Err (UnicodeError "surrogates not allowed").

(** The bodies, one per line. *)
(* source: gateway/event_store.py:462-464 GatewayEventArchiveService.write_and_verify *)
Definition events_bytes (members : list PlanMember) : string :=
  foldr (λ m acc, pm_body m +:+ str1 newline +:+ acc) "" members.

(* source: gateway/event_store.py:466-471 GatewayEventArchiveService.write_and_verify *)
Definition members_payload (members : list PlanMember) : json :=
  JArr (map (λ m, JObj [("event_id", JStr (pm_event_id m)); ("stream_sequence", JInt (pm_sequence m));
                        ("canonical_hash", JStr (pm_canonical_hash m))]) members).

(* source: gateway/event_store.py:472-482 GatewayEventArchiveService.write_and_verify *)
Definition manifest_payload (archive_id : string) (a : ArchiveRow) (members_hash events_hash : string) :
    list (string * json) :=
  [("archive_id", JStr archive_id); ("format_version", JInt 1); ("stream_id", JStr (gx_stream_id a));
   ("first_sequence", JInt (gx_first_sequence a)); ("last_sequence", JInt (gx_last_sequence a));
   ("event_count", JInt (gx_event_count a)); ("members_hash", JStr members_hash);
   ("events_content_hash", JStr events_hash); ("created_at", JStr (gx_created_at a))].

(* source: gateway/event_store.py:485-488 GatewayEventArchiveService.write_and_verify *)
Definition header_json (manifest : list (string * json)) (manifest_hash : string) : json :=
  JObj [("archive_manifest", JObj manifest); ("manifest_hash", JStr manifest_hash)].

(* source: gateway/event_store.py:492-497 GatewayEventArchiveService.write_and_verify *)
Fixpoint member_offsets (offset : Z) (members : list PlanMember) : list (string * (Z * Z)) :=
  match members with
  | [] => []
  | m :: rest =>
      let n := Z.of_nat (String.length (pm_body m)) in
      (pm_event_id m, (offset, n)) :: member_offsets (offset + n + 1) rest
  end.

(** The plan of a PREPARING archive; [None] when it is verified already. *)
(* source: gateway/event_store.py:440-497 GatewayEventArchiveService.write_and_verify *)
Definition archive_plan (archive_id : string) (db : Db) : res (string * option ArchivePlan) :=
  a ← res_of_option (KeyError archive_id) (db_archives db !! archive_id);
  if decide (gx_status a = AR_VERIFIED) then mret (gx_archive_path a, None) else
  if decide (gx_status a ≠ AR_PREPARING) then Err (EventStoreIntegrityError "Archive is not writable") else
  let rows := member_rows archive_id db in
  if decide (Z.of_nat (length rows) ≠ gx_event_count a)
  then Err (EventStoreIntegrityError "Frozen archive member count changed") else
  members ← mapM (plan_member db) rows;
  encode_all (map pm_body members);;
  let events_hash := sha256_hex (events_bytes members) in
  let members_hash := sha256_text (canonical_json (members_payload members)) in
  let manifest := manifest_payload archive_id a members_hash events_hash in
  let manifest_hash := sha256_text (canonical_json (JObj manifest)) in
  let header := canonical_json (header_json manifest manifest_hash) in
  encode_all [header];;
  let header := header +:+ str1 newline in
  mret (gx_archive_path a,
        Some (mkArchivePlan (gx_archive_path a) members manifest manifest_hash members_hash events_hash header
                (member_offsets (Z.of_nat (String.length header)) members))).

Definition archive_file (p : ArchivePlan) : string := pl_header p +:+ events_bytes (pl_members p).

(** A file that is there is never written again. [disk] is the text a failing
    write leaves in the partial file; the answer is whether it failed. *)
(* source: gateway/event_store.py:498-511 GatewayEventArchiveService.write_and_verify *)
Definition write_file (disk : option string) (p : ArchivePlan) (db : Db) : res unit * Db :=
  match db_files db !! pl_path p with
  | Some _ => (Ok tt, db)
  | None =>
      let partial := pl_path p +:+ ".partial" in
      match disk with
      | Some rest => (Err (RuntimeError "OSError"), db ⟪ db_files := <[partial := rest]> (db_files db) ⟫)
      | None => (Ok tt, db ⟪ db_files := <[pl_path p := archive_file p]> (delete partial (db_files db)) ⟫)
      end
  end.

(** A comparison of JSON documents: objects are equal whatever the order of
    their keys.  A number is compared by its text. *)
Definition json_same (a b : json) : bool := bool_decide (canonical_json a = canonical_json b).

(* source: gateway/event_store.py:569-573 GatewayEventArchiveService._verify_file *)
Fixpoint verify_members (data : string) (members : list PlanMember) (offsets : list (string * (Z * Z))) : res unit :=
  match offsets with
  | [] => Ok tt
  | (event_id, (offset, length)) :: rest =>
      m ← res_of_option (KeyError event_id) (last (filter (λ m, pm_event_id m = event_id) members));
      if decide (sha256_hex (slice offset length data) = pm_canonical_hash m)
      then verify_members data members rest
      else Err (EventStoreIntegrityError "Archive member hash mismatch")
  end.

(* source: gateway/event_store.py GatewayEventArchiveService._verify_file *)
Definition verify_file (p : ArchivePlan) (db : Db) : res unit :=
  data ← res_of_option (FileNotFoundError (pl_path p)) (db_files db !! pl_path p);
  '(first, event_region) ← res_of_option (EventStoreIntegrityError "Archive manifest line is missing")
                             (split_newline data);
  header ← (if is_utf8 first then res_of_option (ValueError "JSONDecodeError") (json_loads first)
            else Err (UnicodeError "invalid start byte"));
  if negb (json_same header (header_json (pl_manifest p) (pl_manifest_hash p)))
  then Err (EventStoreIntegrityError "Archive manifest differs after fsync") else
  if decide (sha256_text (canonical_json (JObj (pl_manifest p))) ≠ pl_manifest_hash p)
  then Err (EventStoreIntegrityError "Archive manifest hash mismatch") else
  if decide (sha256_hex event_region ≠ pl_events_hash p)
  then Err (EventStoreIntegrityError "Archive events content hash mismatch") else
  verify_members data (pl_members p) (pl_offsets p).

(** ** Releasing the hot bodies *)

(* source: gateway/event_store.py:521-526 GatewayEventArchiveService.write_and_verify *)
Definition set_offset (archive_id : string) (members : gmap string MemberRow) (o : string * (Z * Z)) :
    gmap string MemberRow :=
  alter (λ m, if decide (mb_archive_id m = archive_id)
              then (m ⟪ mb_byte_offset := Some o.2.1 ⟫) ⟪ mb_byte_length := Some o.2.2 ⟫ else m)
    o.1 members.

(* source: gateway/event_store.py:527-531 GatewayEventArchiveService.write_and_verify *)
Definition set_verified (now : string) (p : ArchivePlan) (a : ArchiveRow) : ArchiveRow :=
  a ⟪ gx_events_content_hash := Some (pl_events_hash p) ⟫ ⟪ gx_manifest_hash := Some (pl_manifest_hash p) ⟫
    ⟪ gx_members_hash := Some (pl_members_hash p) ⟫ ⟪ gx_status := AR_VERIFIED ⟫
    ⟪ gx_verified_at := Some now ⟫ ⟪ gx_revision := gx_revision a + 1 ⟫.

(* source: gateway/event_store.py:532-536 GatewayEventArchiveService.write_and_verify *)
Definition release (archive_id : string) (r : EventRow) : EventRow :=
  if decide (er_archive_id r = Some archive_id ∧ er_storage_tier r = TIER_HOT)
  then ((r ⟪ er_storage_tier := TIER_ARCHIVED ⟫) ⟪ er_canonical_event_json := None ⟫)
         ⟪ er_revision := er_revision r + 1 ⟫
  else r.

(* source: gateway/event_store.py:515-537 GatewayEventArchiveService.write_and_verify *)
Definition commit_archive (env : ArchiveEnv) (archive_id : string) (p : ArchivePlan) : Tx Db unit :=
  db ← tx_gets (λ db, db);
  match db_archives db !! archive_id with
  | Some a =>
      if decide (gx_status a = AR_PREPARING) then
        tx_modify (λ db, db ⟪ db_members := foldl (set_offset archive_id) (db_members db) (pl_offsets p) ⟫);;
        tx_modify (λ db, db ⟪ db_archives := <[archive_id := set_verified (ae_now env) p a]> (db_archives db) ⟫);;
        tx_modify (λ db, db ⟪ db_events := release archive_id <$> db_events db ⟫)
      else tx_fail (EventStoreIntegrityError "Archive state changed during file write")
  | None => tx_fail (EventStoreIntegrityError "Archive state changed during file write")
  end.

(** What fails keeps what was done before it: the partial file, the file. *)
(* source: gateway/event_store.py GatewayEventArchiveService.write_and_verify *)
Definition write_and_verify (env : ArchiveEnv) (disk : option string) (archive_id : string) (db : Db) :
    res string * Db :=
  match archive_plan archive_id db with
  | Err e => (Err e, db)
  | Ok (path, None) => (Ok path, db)
  | Ok (path, Some p) =>
      match write_file disk p db with
      | (Err e, db1) => (Err e, db1)
      | (Ok _, db1) =>
          match verify_file p db1 with
          | Err e => (Err e, db1)
          | Ok _ => match commit_archive env archive_id p db1 with
                    | Ok (_, db2) => (Ok path, db2)
                    | Err e => (Err e, db1)
                    end
          end
      end
  end.

(** ** Going on after a crash *)

(* source: gateway/event_store.py GatewayEventArchiveService._set_archive_status *)
Definition set_archive_status (archive_id : string) (status : ArchiveStatus) (db : Db) : Db :=
  db ⟪ db_archives := alter (λ a, (a ⟪ gx_status := status ⟫) ⟪ gx_revision := gx_revision a + 1 ⟫)
         archive_id (db_archives db) ⟫.

Definition preparing (db : Db) : list (string * ArchiveRow) :=
  filter (λ kv, gx_status kv.2 = AR_PREPARING) (map_to_list (db_archives db)).

(* source: gateway/event_store.py:583-597 GatewayEventArchiveService.recover_preparing *)
Definition recover_archive (env : ArchiveEnv) (disk : option string) (kv : string * ArchiveRow) (db : Db) :
    (string * ArchiveStatus) * Db :=
  match db_files db !! gx_archive_path kv.2 with
  | Some _ =>
      match write_and_verify env disk kv.1 db with
      | (Ok _, db1) => ((kv.1, AR_VERIFIED), db1)
      | (Err _, db1) => ((kv.1, AR_RECOVERY_REQUIRED), set_archive_status kv.1 AR_RECOVERY_REQUIRED db1)
      end
  | None => ((kv.1, AR_FAILED), set_archive_status kv.1 AR_FAILED db)
  end.

(* source: gateway/event_store.py:583-598 GatewayEventArchiveService.recover_preparing *)
Fixpoint recover_archives (env : nat → ArchiveEnv) (disk : nat → option string)
    (rows : list (string * ArchiveRow)) (db : Db) : list (string * ArchiveStatus) * Db :=
  match rows with
  | [] => ([], db)
  | kv :: rest =>
      let n := length rest in
      let (x, db1) := recover_archive (env n) (disk n) kv db in
      let (xs, db2) := recover_archives env disk rest db1 in
      (x :: xs, db2)
  end.

(* source: gateway/event_store.py GatewayEventArchiveService.recover_preparing *)
Definition recover_preparing (env : nat → ArchiveEnv) (disk : nat → option string) (db : Db) :
    list (string * ArchiveStatus) * Db :=
  recover_archives env disk (preparing db) db.

(** ** The daily work *)

Definition text_le (a b : string) : Prop := String.leb a b = true.
#[export] Instance text_le_dec a b : Decision (text_le a b).
Proof. unfold text_le. apply _. Defined.

(* source: gateway/event_store.py:321-331 GatewayEventArchiveService.process_eligible *)
Definition eligible_streams (cutoff : string) (db : Db) : list string :=
  merge_sort text_le (elements (list_to_set (C:=gset string)
    (map (λ kv, er_stream_id kv.2)
      (filter (λ kv, hot_unreserved kv.2 && String.ltb (er_occurred_at kv.2) cutoff
                     && run_settled (er_run_id kv.2) db = true) (map_to_list (db_events db)))))).

(* source: gateway/event_store.py:332-342 GatewayEventArchiveService.process_eligible *)
Fixpoint process_streams (directory : string) (env : nat → ArchiveEnv) (disk : nat → option string)
    (cutoff : string) (segment_max_events : Z) (streams : list string) (db : Db) : res (list string) * Db :=
  match streams with
  | [] => (Ok [], db)
  | stream_id :: rest =>
      let n := length rest in
      match prepare_eligible_stream directory (env n) stream_id cutoff segment_max_events db with
      | Err e => (Err e, db)
      | Ok (None, db1) => process_streams directory env disk cutoff segment_max_events rest db1
      | Ok (Some archive_id, db1) =>
          match write_and_verify (env n) (disk n) archive_id db1 with
          | (Err e, db2) => (Err e, db2)
          | (Ok _, db2) =>
              let (r, db3) := process_streams directory env disk cutoff segment_max_events rest db2 in
              ((l ← r; mret (archive_id :: l)), db3)
          end
      end
  end.

(* source: gateway/event_store.py GatewayEventArchiveService.process_eligible *)
Definition process_eligible (directory : string) (env : nat → ArchiveEnv) (disk : nat → option string)
    (now : datetime) (retention_days segment_max_events : Z) (db : Db) : res (list string) * Db :=
  match minus_days now retention_days with
  | Err e => (Err e, db)
  | Ok t =>
      let cutoff := isoformat_seconds t in
      process_streams directory env disk cutoff segment_max_events (eligible_streams cutoff db) db
  end.

(** ** Steps

    What the archive service may have done when it stops: a reservation, a
    file (or only the partial file), a released archive; or the whole of
    [recover_preparing], which runs at start before anything else. *)
Inductive archive_step : Db → Db → Prop :=
| step_prepare directory env stream_id event_ids archive_id db db' :
    ae_uuid env ≠ "" → prepare directory env stream_id event_ids db = Ok (archive_id, db') → archive_step db db'
| step_prepare_eligible directory env stream_id cutoff limit o db db' :
    ae_uuid env ≠ "" → prepare_eligible_stream directory env stream_id cutoff limit db = Ok (o, db') → archive_step db db'
| step_write_file archive_id path p disk r db db' :
    archive_plan archive_id db = Ok (path, Some p) → write_file disk p db = (r, db') → archive_step db db'
| step_commit env archive_id path p db db' :
    archive_plan archive_id db = Ok (path, Some p) → verify_file p db = Ok tt →
    commit_archive env archive_id p db = Ok (tt, db') → archive_step db db'
| step_set_status archive_id a status db db' :
    db_archives db !! archive_id = Some a → gx_status a = AR_PREPARING → status ≠ AR_VERIFIED →
    status ≠ AR_PREPARING → db' = set_archive_status archive_id status db → archive_step db db'.
