(* ===== verification/ArchiveFacts.v ===== *)
(** * ArchiveFacts: the invariant of the archive service

    [archive_inv]: every event has its canonical body, in its row or in a
    verified file; the members of an archive are frozen; the file of an archive
    in preparation is the one its plan describes.  It holds initially and every
    step of the controller, of the dispatcher and of the archive service keeps
    it, whatever the order of the steps and wherever the service stops. *)

From stdpp Require Import relations.
From S2P Require Import Prelude PyText PyTime Sanitizer Json AgentTypes AgentState Commands.
From S2P Require Import OperationReduce FinalizeEvidence Store Events EventStore Codec Operations FinalizeOps.
From S2P Require Import Controller Frames Outcomes Apply Observations Outbox OutboxFacts.
From S2P Require Import System Demo StatesInv Lifecycle Records Replay Ledger Streams ReadBack Jsonl JsonlFacts.
From S2P Require Import Archive.

#[local] Open Scope Z_scope.

(** ** Steps of the controller, seen from the archive *)

(** They leave the archives and the stored events alone, and add sound ones. *)
Record event_growth (db db' : Db) : Prop := {
  eg_archives : db_archives db' = db_archives db;
  eg_members : db_members db' = db_members db;
  eg_files : db_files db' = db_files db;
  eg_kept : ∀ id r, db_events db !! id = Some r → db_events db' !! id = Some r;
  eg_new : ∀ id r, db_events db' !! id = Some r → db_events db !! id = Some r ∨
    db_events db !! id = None ∧ event_sound id r ∧ hot_unreserved r = true
}.

#[export] Instance event_growth_preorder : PreOrder event_growth.
Proof.
  split.
  - intros db. split; auto.
  - intros a b c [A1 M1 F1 K1 N1] [A2 M2 F2 K2 N2]. split; try congruence; auto.
    intros id r H. destruct (N2 _ _ H) as [H1|(H1 & Hs & Hh)]; [by apply N1|].
    destruct (db_events a !! id) as [x|] eqn:E; [|by right]. by rewrite (K1 _ _ E) in H1.
Qed.

Definition event_tables (db : Db) := (db_events db, db_archives db, db_members db, db_files db).
Lemma event_growth_same db db' : event_tables db' = event_tables db → event_growth db db'.
Proof. intros [= E1 E2 E3 E4]. split; try done; intros id r; rewrite E1; auto. Qed.

Lemma event_growth_closed : closed event_growth.
Proof.
  closed_by_frame_with ltac:(intros; apply event_growth_same; reflexivity).
  intros n s ty p c k ca co Hp db e db' H.
  pose proof (write_event_rel (same_part (λ db, (db_archives db, db_members db, db_files db)))
    n s ty p c k ca co ltac:(done) ltac:(done) ltac:(done) ltac:(done) ltac:(done) _ _ _ H) as Hs.
  injection Hs as H1 H2 H3. apply write_event_ok in H as W.
  pose proof (ew_events _ _ _ _ _ _ _ _ _ _ _ W) as He. pose proof (ew_fresh_id _ _ _ _ _ _ _ _ _ _ _ W) as Hf.
  split; [done..| |]; intros id r.
  - intros Hr. rewrite He, lookup_insert_ne; [done|]. intros <-. congruence.
  - rewrite He. intros [[<- <-]|[_ Hr]]%lookup_insert_Some; [right|by left].
    split; [done|]. split; [by eapply event_row_sound|done].
Qed.

(** ** The invariant *)

(** The row with its body put back. *)
Definition with_body (raw : string) (r : EventRow) : EventRow := r ⟪ er_canonical_event_json := Some raw ⟫.

(** The archive of an event: a verified row, a file that passes the checks of
    the reader, and the place of the body in it. *)
Record stored (archive_id id raw : string) (db : Db) : Prop := mkStored {
  so_evidence : ∃ m a bytes offset len,
    db_members db !! id = Some m ∧ mb_archive_id m = archive_id ∧
    db_archives db !! archive_id = Some a ∧ gx_status a = AR_VERIFIED ∧
    mb_byte_offset m = Some offset ∧ mb_byte_length m = Some len ∧
    db_files db !! gx_archive_path a = Some bytes ∧
    check_archive a bytes = Ok tt ∧ slice offset len bytes = raw;
  so_text : is_utf8 raw = true
}.

(** Where the body of an event is. *)
Definition body_at (id : string) (r : EventRow) (raw : string) (db : Db) : Prop :=
  (er_storage_tier r = TIER_HOT ∧ er_canonical_event_json r = Some raw ∧
     ∀ a, er_archive_id r = Some a → ∃ m, db_members db !! id = Some m ∧ mb_archive_id m = a) ∨
  (er_storage_tier r = TIER_ARCHIVED ∧ er_canonical_event_json r = None ∧
     ∃ a, er_archive_id r = Some a ∧ a ≠ "" ∧ stored a id raw db).

Definition event_ok (id : string) (r : EventRow) (db : Db) : Prop :=
  ∃ raw, event_sound id (with_body raw r) ∧ body_at id r raw db.

(** The part of a row that no archive step changes. *)
Definition index_part (r : EventRow) : EventRow :=
  (((r ⟪ er_canonical_event_json := None ⟫) ⟪ er_storage_tier := TIER_HOT ⟫) ⟪ er_archive_id := None ⟫)
    ⟪ er_revision := 0 ⟫.

Lemma sound_index id raw r r' :
  index_part r' = index_part r → event_sound id (with_body raw r) → event_sound id (with_body raw r').
Proof. destruct r, r'. unfold index_part. cbn. intros [= -> -> -> -> -> -> -> -> -> -> -> -> -> ->]. done. Qed.

(** Every event and its body are there afterwards. *)
Definition carries (db db' : Db) : Prop := ∀ id r raw,
  db_events db !! id = Some r → body_at id r raw db →
  ∃ r', db_events db' !! id = Some r' ∧ index_part r' = index_part r ∧ body_at id r' raw db'.

Definition suffix : string := ".events.jsonl".

(** A member is frozen: it is the event it names, reserved by its archive. *)
Record member_ok (id : string) (m : MemberRow) (db : Db) : Prop := {
  mo_event : ∃ r, db_events db !! id = Some r ∧ er_archive_id r = Some (mb_archive_id m) ∧
    er_stream_sequence r = mb_stream_sequence m ∧ er_canonical_hash r = mb_canonical_hash m ∧
    ∃ a, db_archives db !! mb_archive_id m = Some a ∧ er_stream_id r = gx_stream_id a
}.

Record archive_inv (db : Db) : Prop := {
  ai_streams : sequences_nonneg db ∧ streams_ok db;
  ai_events : ∀ id r, db_events db !! id = Some r → event_ok id r db;
  ai_members : ∀ id m, db_members db !! id = Some m → member_ok id m db;
  ai_named : ∀ a ar, db_archives db !! a = Some ar → a ≠ "" ∧ ∃ x, gx_archive_path ar = x +:+ suffix;
  ai_paths : ∀ a b ar br, db_archives db !! a = Some ar → db_archives db !! b = Some br →
    gx_archive_path ar = gx_archive_path br → a = b;
  ai_files : ∀ path bytes, db_files db !! path = Some bytes →
    ∃ a ar, db_archives db !! a = Some ar ∧ (path = gx_archive_path ar ∨ path = gx_archive_path ar +:+ ".partial");
  ai_preparing : ∀ a ar bytes, db_archives db !! a = Some ar → gx_status ar = AR_PREPARING →
    db_files db !! gx_archive_path ar = Some bytes →
    ∃ p, archive_plan a db = Ok (gx_archive_path ar, Some p) ∧ bytes = archive_file p
}.

(** *** Text *)

Lemma app_suffix_inj a : ∀ b s t, String.length s = String.length t → a +:+ s = b +:+ t → s = t.
Proof.
  induction a as [|c a IH]; intros b s t Hl H.
  - rewrite sapp_nil in H. subst s. rewrite length_sapp in Hl. by destruct b; [|cbn in Hl; lia].
  - destruct b as [|d b]; [|rewrite !sapp_cons in H; injection H as _ H; by eapply IH].
    rewrite sapp_nil in H. subst t. rewrite length_sapp in Hl. cbn in Hl. lia.
Qed.
Lemma suffix_not_partial x path : (∃ y, path = y +:+ suffix) → x +:+ suffix ≠ path +:+ ".partial".
Proof.
  intros [y ->] H. unfold suffix in H.
  change (".events.jsonl") with (".even" +:+ "ts.jsonl") in H.
  rewrite <- sapp_assoc in H. apply app_suffix_inj in H; done.
Qed.

Lemma mapM_same {A B} (f g : A → res B) (l : list A) : (∀ x, x ∈ l → f x = g x) → mapM f l = mapM g l.
Proof.
  induction l as [|x l IH]; intros H; [done|]. unfold mapM, mbind, res_bind in *. cbn.
  rewrite (H x) by left. destruct (g x); [|done]. rewrite IH; [done|]. intros y Hy. apply H. by right.
Qed.

(** *** Plans depend on the frozen members only *)

Lemma elem_of_member_rows a db kv :
  kv ∈ member_rows a db ↔
  db_members db !! kv.1 = Some kv.2 ∧ mb_archive_id kv.2 = a ∧ is_some (db_events db !! kv.1) = true.
Proof.
  unfold member_rows. rewrite merge_sort_Permutation, list_elem_of_filter.
  destruct kv as [id m]. rewrite elem_of_map_to_list. cbn. tauto.
Qed.
Lemma member_rows_nodup a db : NoDup (member_rows a db).
Proof. unfold member_rows. rewrite merge_sort_Permutation. apply NoDup_filter, NoDup_map_to_list. Qed.
Lemma member_rows_ids_nodup a db : NoDup (member_rows a db).*1.
Proof.
  unfold member_rows. rewrite merge_sort_Permutation.
  eapply sublist_NoDup; [apply (NoDup_fst_map_to_list (db_members db))|].
  apply (fmap_sublist fst), sublist_filter.
Qed.
Lemma member_rows_sorted a db : Sorted member_le (member_rows a db).
Proof. apply Sorted_merge_sort. apply _. Qed.

Lemma members_distinct db id id' m m' :
  archive_inv db → db_members db !! id = Some m → db_members db !! id' = Some m' →
  mb_archive_id m = mb_archive_id m' → mb_stream_sequence m = mb_stream_sequence m' → id = id'.
Proof.
  intros I H H' Ha Hs.
  destruct (ai_members _ I _ _ H) as [(r & Hr & _ & Hseq & _ & a & Hx & Hst)].
  destruct (ai_members _ I _ _ H') as [(r' & Hr' & _ & Hseq' & _ & a' & Hx' & Hst')].
  rewrite Ha in Hx. rewrite Hx in Hx'. injection Hx' as <-.
  destruct (ai_streams _ I) as [_ S]. eapply (ss_unique _ S); [exact Hr|exact Hr'|congruence|congruence].
Qed.

(** The members of [a] are the same rows in both stores. *)
Definition same_members (a : string) (db db' : Db) : Prop :=
  ∀ id m, mb_archive_id m = a → db_members db' !! id = Some m ↔ db_members db !! id = Some m.

Lemma member_rows_same a db db' :
  archive_inv db → same_members a db db' →
  (∀ id r, db_events db !! id = Some r → is_some (db_events db' !! id) = true) →
  member_rows a db' = member_rows a db.
Proof.
  intros I Hm He. assert (Transitive member_le) by (intros x y z; unfold member_le; lia).
  assert (∀ kv, kv ∈ member_rows a db' ↔ kv ∈ member_rows a db) as Hin.
  { intros [id m]. rewrite !elem_of_member_rows. cbn. split.
    - intros (H1 & H2 & H3). apply Hm in H1; [|done]. split; [done|]. split; [done|].
      destruct (ai_members _ I _ _ H1) as [(r & -> & _)]. done.
    - intros (H1 & H2 & H3). split; [by apply Hm|]. split; [done|].
      destruct (db_events db !! id) as [r|] eqn:E; [by eapply He|done]. }
  apply (Sorted_unique_strong member_le); [|apply member_rows_sorted..|].
  - intros [i x] [j y] Hx%Hin Hy L1 L2. apply elem_of_member_rows in Hx as (Hx & Ax & _), Hy as (Hy & Ay & _).
    cbn in *. assert (i = j) as <-; [|congruence].
    eapply (members_distinct db); [done|exact Hx|exact Hy|congruence|]. unfold member_le in *. cbn in *. lia.
  - apply NoDup_Permutation; [apply member_rows_nodup..|]. exact Hin.
Qed.

Lemma plan_same a db db' :
  archive_inv db → db_archives db' !! a = db_archives db !! a → same_members a db db' →
  (∀ id r, db_events db !! id = Some r → is_some (db_events db' !! id) = true) →
  (∀ id m, db_members db !! id = Some m → mb_archive_id m = a →
     db_events db' !! id ≫= er_canonical_event_json = db_events db !! id ≫= er_canonical_event_json) →
  archive_plan a db' = archive_plan a db.
Proof.
  intros I Ha Hm He Hb. unfold archive_plan. rewrite Ha, (member_rows_same a db db' I Hm He).
  rewrite (mapM_same (plan_member db') (plan_member db)); [done|].
  intros [id m] (H1 & H2 & _)%elem_of_member_rows. unfold plan_member. cbn in *. by rewrite (Hb id m H1 H2).
Qed.

(** *** Steps of the controller keep it *)

(** A step that adds no event keeps [ai_events] when it carries the bodies. *)
Lemma events_carried db db' :
  archive_inv db → carries db db' →
  (∀ id r, db_events db' !! id = Some r → is_some (db_events db !! id) = true) →
  ∀ id r, db_events db' !! id = Some r → event_ok id r db'.
Proof.
  intros I C Hn id r' H. specialize (Hn _ _ H). destruct (db_events db !! id) as [r|] eqn:Hr; [|done].
  destruct (ai_events _ I _ _ Hr) as (raw & Hs & Hb).
  destruct (C _ _ _ Hr Hb) as (x & Hx & Hi & Hb'). rewrite H in Hx. injection Hx as <-.
  exists raw. split; [by eapply sound_index|done].
Qed.

Lemma body_at_same id r raw db db' :
  (∀ m, db_members db !! id = Some m → db_members db' !! id = Some m) →
  (∀ a ar, db_archives db !! a = Some ar → gx_status ar = AR_VERIFIED → db_archives db' !! a = Some ar) →
  (∀ a ar bytes, db_archives db !! a = Some ar → db_files db !! gx_archive_path ar = Some bytes →
     db_files db' !! gx_archive_path ar = Some bytes) →
  body_at id r raw db → body_at id r raw db'.
Proof.
  intros Hm Ha Hf [(Ht & Hr & Hx)|(Ht & Hr & a & Hid & Hne & [(m & ar & bytes & o & l & H1 & H2 & H3 & H4 & H5 & H6 & H7 & H8) Hu])].
  - left. split; [done|]. split; [done|]. intros a [m [Hm1 Hm2]]%Hx. exists m. auto.
  - right. split; [done|]. split; [done|]. exists a. split; [done|]. split; [done|]. split; [|done].
    exists m, ar, bytes, o, l. split; [by apply Hm|]. split; [done|]. split; [by apply Ha|].
    split; [done|]. split; [done|]. split; [done|]. split; [by eapply Hf|]. done.
Qed.

Lemma inv_gateway db db' :
  archive_inv db → sequences_nonneg db' ∧ streams_ok db' → event_growth db db' → archive_inv db' ∧ carries db db'.
Proof.
  intros I HS G. destruct G as [GA GM GF GK GN].
  assert (∀ id r, db_events db !! id = Some r → is_some (db_events db' !! id) = true) as He
    by (intros id r H; by rewrite (GK _ _ H)).
  assert (carries db db') as C.
  { intros id r raw Hr Hb. exists r. split; [by apply GK|]. split; [done|].
    apply (body_at_same _ _ _ db); [| | |done]; rewrite ?GM, ?GA, ?GF; auto. }
  split; [|exact C]. split; rewrite ?GA, ?GM, ?GF; try apply I; [done|..].
  - intros id r [H|(Hnone & Hs & Hh)]%GN.
    + destruct (ai_events _ I _ _ H) as (raw & Hs & Hb). exists raw. split; [done|].
      destruct (C _ _ _ H Hb) as (r' & Hr' & _ & Hb'). rewrite (GK _ _ H) in Hr'. by injection Hr' as <-.
    + pose proof Hs as (e & Hraw). destruct Hraw as (_ & _ & _ & _ & _ & _ & Hraw & _).
      eexists. split; [|left; split_and!].
      * unfold with_body. rewrite <- Hraw. by destruct r.
      * unfold hot_unreserved in Hh. apply andb_true_iff in Hh as [Hh _]. by apply bool_decide_eq_true in Hh.
      * exact Hraw.
      * intros a Ha. unfold hot_unreserved in Hh. rewrite Ha in Hh. by rewrite andb_false_r in Hh.
  - intros id m H. destruct (ai_members _ I _ _ H) as [(r & Hr & H1 & H2 & H3 & a & Ha & Hst)].
    split. exists r. split; [by apply GK|]. do 3 (split; [done|]). exists a. by rewrite GA.
  - intros a ar bytes Ha Hp Hf. destruct (ai_preparing _ I _ _ _ Ha Hp Hf) as (p & Hpl & Hb).
    exists p. split; [|done]. rewrite (plan_same a db); [done|done|by rewrite GA| |done|].
    + intros id m _. by rewrite GM.
    + intros id m Hm _. destruct (ai_members _ I _ _ Hm) as [(r & Hr & _)]. by rewrite Hr, (GK _ _ Hr).
Qed.

(** *** Reserving keeps it *)

Definition stream_key (r : EventRow) : string * Z := (er_stream_id r, er_stream_sequence r).

Lemma streams_relabel db db' :
  db_sequences db' = db_sequences db →
  (∀ id, stream_key <$> db_events db' !! id = stream_key <$> db_events db !! id) →
  sequences_nonneg db ∧ streams_ok db → sequences_nonneg db' ∧ streams_ok db'.
Proof.
  intros Es Ek [Hn [B U T]].
  assert (∀ run, stream_length run db' = stream_length run db) as El by (intros run; unfold stream_length; by rewrite Es).
  assert (∀ id r', db_events db' !! id = Some r' → ∃ r, db_events db !! id = Some r ∧ stream_key r' = stream_key r) as Hb.
  { intros id r' H. specialize (Ek id). rewrite H in Ek. destruct (db_events db !! id) as [r|]; [|done].
    exists r. split; [done|]. cbn in Ek. congruence. }
  split; [intros run; rewrite El; apply Hn|]. split.
  - intros id r' (r & Hr & [= -> ->])%Hb. rewrite El. by eapply B.
  - intros i j r r' (x & Hx & [= E1 E2])%Hb (y & Hy & [= E3 E4])%Hb H1 H2.
    eapply U; [exact Hx|exact Hy|congruence|congruence].
  - intros run k. rewrite El. intros (id & r & Hr & E1 & E2)%T. specialize (Ek id). rewrite Hr in Ek.
    destruct (db_events db' !! id) as [r'|] eqn:E; [|done]. cbn in Ek. injection Ek as E3 E4. exists id, r'. split; [done|]. split; congruence.
Qed.

(** What [reserve_members] does, for rows of the table. *)
Record reserved (a : string) (rows : list (string * EventRow)) (db db' : Db) : Prop := {
  rv_rest : (db_archives db', db_files db', db_sequences db') = (db_archives db, db_files db, db_sequences db);
  rv_kept : ∀ id m, db_members db !! id = Some m → db_members db' !! id = Some m;
  rv_new : ∀ id m, db_members db' !! id = Some m → db_members db !! id = Some m ∨
    db_members db !! id = None ∧ ∃ r, (id, r) ∈ rows ∧
      m = mkMemberRow a (er_stream_sequence r) (er_canonical_hash r) None None;
  rv_events : ∀ id, (id ∉ rows.*1 ∧ db_events db' !! id = db_events db !! id) ∨
    ∃ r, (id, r) ∈ rows ∧ db_events db !! id = Some r ∧ hot_unreserved r = true ∧
      db_events db' !! id = Some ((r ⟪ er_archive_id := Some a ⟫) ⟪ er_revision := er_revision r + 1 ⟫) ∧
      db_members db' !! id = Some (mkMemberRow a (er_stream_sequence r) (er_canonical_hash r) None None)
}.

Lemma reserve_members_ok a rows : ∀ db u db',
  NoDup rows.*1 → (∀ id r, (id, r) ∈ rows → db_events db !! id = Some r) →
  reserve_members a rows db = Ok (u, db') → reserved a rows db db'.
Proof.
  induction rows as [|[id r] rows IH]; intros db u db' Hn Hin H; cbn [reserve_members] in H.
  { apply tx_ret_ok in H as [_ <-]. split; [done|done|by left|].
    intros id. left. split; [apply not_elem_of_nil|done]. }
  cbn [fmap list_fmap] in Hn. apply NoDup_cons in Hn as [Hnot Hn].
  apply tx_bind_ok in H as (d & s1 & [-> ->]%tx_gets_ok & H).
  apply tx_bind_ok in H as ([] & s1 & [Hm ->]%abort_if_ok & H).
  apply tx_bind_ok in H as ([] & s1 & ->%tx_modify_ok & H).
  pose proof (Hin id r ltac:(left)) as Hr. cbn in H. rewrite Hr in H.
  apply tx_bind_ok in H as ([] & s2 & Hs2 & H).
  destruct (hot_unreserved r) eqn:Hhot; [|by apply tx_fail_ok in Hs2].
  apply tx_modify_ok in Hs2 as ->. cbn in H.
  assert (db_members db !! id = None) as Hmn by by destruct (db_members db !! id).
  apply IH in H as [R K N E]; [|done|].
  2:{ intros i x Hi. cbn. rewrite lookup_insert_ne; [apply Hin; by right|].
      intros <-. apply Hnot. apply list_elem_of_fmap. by exists (id, x). }
  cbn in *. split.
  - done.
  - intros i m Hi. apply K. rewrite lookup_insert_ne; [done|]. intros <-. congruence.
  - intros i m Hi. destruct (N i m Hi) as [[[<- <-]|[_ Hx]]%lookup_insert_Some|(Hx & x & Hx1 & Hx2)]; [|by left|].
    + right. split; [done|]. exists r. split; [left|done].
    + right. split; [apply lookup_insert_None in Hx; tauto|]. exists x. split; [by right|done].
  - intros i. destruct (decide (i = id)) as [->|Hne].
    + right. exists r. split; [left|]. split; [done|]. split; [done|].
      destruct (E id) as [[_ Ex]|(x & Hx & _)].
      * rewrite Ex, lookup_insert_eq. split; [done|]. apply K. by rewrite lookup_insert_eq.
      * exfalso. apply Hnot. apply list_elem_of_fmap. by exists (id, x).
    + destruct (E i) as [[Hni Ex]|(x & Hx & Hix & Hh & He & Hmx)].
      * left. split; [intros [|]%elem_of_cons; done|]. by rewrite Ex, lookup_insert_ne.
      * right. exists x. rewrite lookup_insert_ne in Hix by done. split; [by right|]. split_and!; done.
Qed.

Lemma insert_archive_ok a row db u db' :
  insert_archive a row db = Ok (u, db') →
  db_archives db !! a = None ∧ (∀ b br, db_archives db !! b = Some br → gx_archive_path br ≠ gx_archive_path row) ∧
  db' = db ⟪ db_archives := <[a := row]> (db_archives db) ⟫.
Proof.
  unfold insert_archive. intros (d & s1 & [-> ->]%tx_gets_ok & H)%tx_bind_ok.
  apply tx_bind_ok in H as ([] & s1 & [Hb ->]%abort_if_ok & H). apply tx_modify_ok in H.
  apply orb_false_iff in Hb as [Hb _]. apply orb_false_iff in Hb as [Hn Hp].
  split; [by destruct (db_archives db !! a)|]. split; [|done].
  intros b br Hbr E. rewrite anyrow_false in Hp. specialize (Hp b br Hbr).
  apply bool_decide_eq_false in Hp. done.
Qed.

(** What [_insert_preparing] leaves, for rows of one stream of the table. *)
Record prepared (directory : string) (env : ArchiveEnv) (stream_id : string) (rows : list (string * EventRow))
    (db db' : Db) : Prop := {
  pp_fresh : db_archives db !! ae_uuid env = None;
  pp_archives : ∃ row, gx_stream_id row = stream_id ∧ gx_status row = AR_PREPARING ∧
    gx_first_sequence row = first_sequence rows ∧ gx_last_sequence row = last_sequence rows ∧
    gx_event_count row = Z.of_nat (length rows) ∧
    gx_archive_path row = archive_path directory stream_id (ae_uuid env) ∧
    (∀ b br, db_archives db !! b = Some br → gx_archive_path br ≠ gx_archive_path row) ∧
    db_archives db' = <[ae_uuid env := row]> (db_archives db);
  pp_files : db_files db' = db_files db;
  pp_sequences : db_sequences db' = db_sequences db;
  pp_reserved : ∃ db1, db_events db1 = db_events db ∧ db_members db1 = db_members db ∧
    reserved (ae_uuid env) rows db1 db'
}.

Lemma insert_preparing_ok directory env stream_id rows db a db' :
  NoDup rows.*1 → (∀ id r, (id, r) ∈ rows → db_events db !! id = Some r) →
  insert_preparing directory env stream_id rows db = Ok (a, db') →
  a = ae_uuid env ∧ prepared directory env stream_id rows db db'.
Proof.
  intros Hn Hin H. unfold insert_preparing in H. cbv zeta in H.
  apply tx_bind_ok in H as ([] & s1 & (Hf & Hp & ->)%insert_archive_ok & H).
  apply tx_bind_ok in H as ([] & s2 & Hr & H). apply tx_ret_ok in H as [<- <-]. split; [done|].
  apply reserve_members_ok in Hr; [|done|exact Hin].
  pose proof (rv_rest _ _ _ _ Hr) as [= E1 E2 E3]. split; [done| |done|done|].
  - eexists. do 7 (split; [shelve|]). exact E1. Unshelve. all: done.
  - eexists. split; [|split; [|exact Hr]]; done.
Qed.

Lemma archive_path_suffix directory stream_id a : ∃ x, archive_path directory stream_id a = x +:+ suffix.
Proof. exists (directory +:+ "/" +:+ sha256_hex stream_id +:+ "/" +:+ a). unfold archive_path. by rewrite !sapp_assoc. Qed.

Lemma prepared_inv directory env stream_id rows db db' :
  archive_inv db → ae_uuid env ≠ "" → (∀ id r, (id, r) ∈ rows → er_stream_id r = stream_id) →
  prepared directory env stream_id rows db db' → archive_inv db' ∧ carries db db'.
Proof.
  intros I Hne Hst [Hfresh (row & Hs & Hp & _ & _ & _ & Hpath & Huniq & HA) HF HQ (db1 & E1 & E2 & R)].
  set (a := ae_uuid env) in *. destruct R as [_ K N E]. rewrite E2 in K, N. setoid_rewrite E1 in E.
  assert (∀ b br, db_archives db !! b = Some br → db_archives db' !! b = Some br) as HAk.
  { intros b br Hb. rewrite HA, lookup_insert_ne; [done|]. intros <-. congruence. }
  assert (∀ id r, db_events db !! id = Some r → is_some (db_events db' !! id) = true) as He.
  { intros id r Hr. destruct (E id) as [[_ ->]|(x & _ & _ & _ & -> & _)]; [by rewrite Hr|done]. }
  assert (carries db db') as C.
  { intros id r raw Hr Hb. destruct (E id) as [[_ Ex]|(x & Hx & Hix & Hh & Ex & Hm)].
    - exists r. rewrite Ex. split; [done|]. split; [done|]. apply (body_at_same _ _ _ db); [exact (K id)| | |done].
      + intros b br Hbr _. by apply HAk.
      + intros b br bytes _ Hf. by rewrite HF.
    - rewrite Hr in Hix. injection Hix as <-. eexists. split; [exact Ex|]. split; [done|].
      apply andb_true_iff in Hh as [Hh _]. apply bool_decide_eq_true in Hh.
      destruct Hb as [(Ht & Hraw & _)|(Ht & _)]; [|congruence]. left. split; [done|]. split; [done|].
      intros b [= <-]. eexists. split; [exact Hm|done]. }
  split; [|exact C]. split.
  - apply (streams_relabel db); [done| |apply I].
    intros id. destruct (E id) as [[_ ->]|(x & _ & -> & _ & -> & _)]; done.
  - apply (events_carried db); [done|done|]. intros id r Hr.
    destruct (E id) as [[_ Ex]|(x & _ & -> & _)]; [by rewrite <- Ex, Hr|done].
  - intros id m Hm'. destruct (N id m Hm') as [Hm|(Hm & r & Hr & _)].
    + destruct (ai_members _ I _ _ Hm) as [(r & Hr & Ha & H1 & H2 & ar & Har & H3)]. split.
      destruct (E id) as [[_ Ex]|(x & _ & Hix & Hh & _)].
      * exists r. rewrite Ex. do 4 (split; [done|]). exists ar. split; [by apply HAk|done].
      * rewrite Hr in Hix. injection Hix as <-. unfold hot_unreserved in Hh. rewrite Ha in Hh. by rewrite andb_false_r in Hh.
    + split. destruct (E id) as [[Hni _]|(x & Hx & Hix & Hh & Ex & Hmx)].
      * destruct Hni. apply list_elem_of_fmap. by exists (id, r).
      * rewrite Hm' in Hmx. injection Hmx as ->. eexists. split; [exact Ex|]. cbn. do 3 (split; [done|]).
        exists row. rewrite HA, lookup_insert_eq. split; [done|]. rewrite Hs. by eapply Hst.
  - intros b br. rewrite HA. intros [[<- <-]|[_ Hb]]%lookup_insert_Some; [|by apply (ai_named _ I b)].
    split; [done|]. rewrite Hpath. apply archive_path_suffix.
  - intros b c br cr. rewrite HA.
    intros [[<- <-]|[_ Hb]]%lookup_insert_Some [[<- <-]|[_ Hc]]%lookup_insert_Some Ep; [done| | |].
    + by destruct (Huniq _ _ Hc).
    + by destruct (Huniq _ _ Hb).
    + by eapply (ai_paths _ I).
  - intros path bytes. rewrite HF. intros (b & br & Hb & Hx)%(ai_files _ I). exists b, br. split; [by apply HAk|done].
  - intros b br bytes. rewrite HA, HF. intros [[<- <-]|[Hbne Hb]]%lookup_insert_Some Hpr Hf.
    + destruct (ai_files _ I _ _ Hf) as (c & cr & Hc & [Hx|Hx]); [by destruct (Huniq _ _ Hc)|].
      exfalso. destruct (archive_path_suffix directory stream_id a) as [y Hy]. rewrite Hpath, Hy in Hx.
      refine (suffix_not_partial _ _ _ Hx). apply (ai_named _ I _ _ Hc).
    + destruct (ai_preparing _ I _ _ _ Hb Hpr Hf) as (p & Hpl & Hbytes). exists p. split; [|done].
      rewrite (plan_same b db); [done|done| | |done|].
      * by rewrite (HAk _ _ Hb), Hb.
      * intros id m Hmb. split; [|apply K]. intros [?|(_ & x & _ & ->)]%N; [done|]. done.
      * intros id m Hm Hmb. destruct (E id) as [[_ ->]|(x & _ & -> & _ & -> & _)]; done.
Qed.

(** *** The text of an archive *)

Lemma substring_app pre : ∀ raw post, String.substring (String.length pre) (String.length raw) (pre +:+ raw +:+ post) = raw.
Proof.
  induction pre as [|c pre IH]; intros raw post; [|rewrite sapp_cons; apply IH].
  rewrite sapp_nil. change (String.length "") with 0%nat.
  induction raw as [|c raw IH]; [rewrite sapp_nil; by destruct post|]. rewrite sapp_cons. cbn. f_equal. exact IH.
Qed.
Lemma slice_app offset len pre raw post :
  offset = Z.of_nat (String.length pre) → len = Z.of_nat (String.length raw) →
  slice offset len (pre +:+ raw +:+ post) = raw.
Proof. intros -> ->. unfold slice. rewrite !Nat2Z.id. apply substring_app. Qed.

Lemma split_newline_line h rest : clean h = true → split_newline (h +:+ String newline rest) = Some (h, rest).
Proof.
  induction h as [|c h IH]; intros Hc; [done|]. rewrite clean_cons in Hc. apply andb_true_iff in Hc as [Hc Hh].
  rewrite sapp_cons. cbn [split_newline]. rewrite decide_False; [by rewrite IH|].
  intros ->. done.
Qed.

Lemma events_bytes_cons m l : events_bytes (m :: l) = pm_body m +:+ String newline (events_bytes l).
Proof. done. Qed.

(** Every offset is the place of a body. *)
Lemma member_offsets_ok members : ∀ pre base id o l,
  base = Z.of_nat (String.length pre) → (id, (o, l)) ∈ member_offsets base members →
  ∃ m, m ∈ members ∧ pm_event_id m = id ∧ slice o l (pre +:+ events_bytes members) = pm_body m.
Proof.
  induction members as [|m members IH]; intros pre base id o l Hb Hin; cbn [member_offsets] in Hin.
  { by apply not_elem_of_nil in Hin. }
  rewrite events_bytes_cons. apply elem_of_cons in Hin as [[= -> -> ->]|Hin].
  - exists m. split; [left|]. split; [done|]. by apply slice_app.
  - assert (base + Z.of_nat (String.length (pm_body m)) + 1 = Z.of_nat (String.length (pre +:+ pm_body m +:+ str1 newline)))
      as Hlen by (subst base; unfold str1; rewrite !length_sapp; cbn [String.length]; lia).
    destruct (IH _ _ _ _ _ Hlen Hin) as (m' & Hm' & Hid & Hs).
    exists m'. split; [by right|]. split; [done|]. rewrite <- Hs. f_equal.
    unfold str1. rewrite !sapp_assoc, sapp_cons, sapp_nil. done.
Qed.
Lemma member_offsets_ids members : ∀ base, (member_offsets base members).*1 = map pm_event_id members.
Proof. induction members as [|m members IH]; intros base; [done|]. cbn. by rewrite IH. Qed.

Lemma set_offset_lookup a members o id :
  set_offset a members o !! id = if decide (id = o.1) then
    (λ m, if decide (mb_archive_id m = a) then (m ⟪ mb_byte_offset := Some o.2.1 ⟫) ⟪ mb_byte_length := Some o.2.2 ⟫ else m)
      <$> members !! id else members !! id.
Proof.
  unfold set_offset. case_decide as E; [subst; apply lookup_alter_eq|by apply lookup_alter_ne].
Qed.

Lemma set_offsets_other a offs : ∀ members id, id ∉ offs.*1 → foldl (set_offset a) members offs !! id = members !! id.
Proof.
  induction offs as [|o offs IH]; intros members id Hid; [done|]. cbn [foldl fmap list_fmap] in *.
  rewrite IH by (intros H; apply Hid; by right). rewrite set_offset_lookup, decide_False; [done|].
  intros ->. apply Hid. left.
Qed.

Lemma set_offsets_frozen a offs : ∀ members id m',
  foldl (set_offset a) members offs !! id = Some m' → ∃ m, members !! id = Some m ∧
    mb_archive_id m' = mb_archive_id m ∧ mb_stream_sequence m' = mb_stream_sequence m ∧
    mb_canonical_hash m' = mb_canonical_hash m ∧ (mb_archive_id m ≠ a → m' = m).
Proof.
  induction offs as [|o offs IH]; intros members id m' H; [by exists m'|]. cbn [foldl] in H.
  destruct (IH _ _ _ H) as (m & Hm & H1 & H2 & H3 & H4). rewrite set_offset_lookup in Hm.
  case_decide as Hid; [|by exists m].
  destruct (members !! id) as [x|] eqn:E; [|done]. injection Hm as <-. exists x. split; [done|].
  case_decide as Hx; cbn in *; split_and!; try done; intros ?; try done; by apply H4.
Qed.

Lemma set_offsets_other_archive a offs members id m :
  members !! id = Some m → mb_archive_id m ≠ a → foldl (set_offset a) members offs !! id = Some m.
Proof.
  revert members. induction offs as [|o offs IH]; intros members H Hne; [done|]. cbn [foldl]. apply IH; [|done].
  rewrite set_offset_lookup. case_decide; [|done]. rewrite H. apply fmap_Some. exists m. by rewrite decide_False.
Qed.

Lemma set_offsets_member a offs : ∀ members id o l m,
  NoDup offs.*1 → (id, (o, l)) ∈ offs → members !! id = Some m → mb_archive_id m = a →
  foldl (set_offset a) members offs !! id = Some ((m ⟪ mb_byte_offset := Some o ⟫) ⟪ mb_byte_length := Some l ⟫).
Proof.
  induction offs as [|x offs IH]; intros members id o l m Hn Hin Hm Ha; [by apply not_elem_of_nil in Hin|].
  cbn [foldl fmap list_fmap] in *. apply NoDup_cons in Hn as [Hnot Hn].
  apply elem_of_cons in Hin as [<-|Hin].
  - rewrite set_offsets_other by done. rewrite set_offset_lookup, decide_True by done. rewrite Hm. cbn. by rewrite decide_True.
  - apply IH; [done|done| |done]. rewrite set_offset_lookup, decide_False; [done|].
    intros ->. apply Hnot. apply list_elem_of_fmap. by exists (x.1, (o, l)).
Qed.

(** *** The plan, taken apart *)

Definition member_of (db : Db) (kv : string * MemberRow) (m : PlanMember) : Prop :=
  pm_event_id m = kv.1 ∧ pm_sequence m = mb_stream_sequence kv.2 ∧ pm_canonical_hash m = mb_canonical_hash kv.2 ∧
  db_events db !! kv.1 ≫= er_canonical_event_json = Some (pm_body m).

Lemma plan_members_ok db rows : ∀ l, mapM (plan_member db) rows = Ok l → Forall2 (member_of db) rows l.
Proof.
  induction rows as [|kv rows IH]; intros l H; [by injection H as <-|].
  apply res_bind_ok in H as (m & Hm & H). apply res_bind_ok in H as (l' & Hl & H).
  apply (proj1 (res_ret_ok _ _)) in H as <-. constructor; [|by apply IH].
  unfold plan_member in Hm. apply res_bind_ok in Hm as (b & Hb%res_of_option_ok & Hm).
  by apply (proj1 (res_ret_ok _ _)) in Hm as <-.
Qed.

Record plan_facts (a : string) (ar : ArchiveRow) (p : ArchivePlan) (db : Db) : Prop := {
  pf_archive : db_archives db !! a = Some ar;
  pf_status : gx_status ar = AR_PREPARING;
  pf_path : pl_path p = gx_archive_path ar;
  pf_count : Z.of_nat (length (member_rows a db)) = gx_event_count ar;
  pf_members : Forall2 (member_of db) (member_rows a db) (pl_members p);
  pf_text : ∀ m, m ∈ pl_members p → is_utf8 (pm_body m) = true;
  pf_events_hash : pl_events_hash p = sha256_hex (events_bytes (pl_members p));
  pf_manifest : pl_manifest p = manifest_payload a ar (pl_members_hash p) (pl_events_hash p);
  pf_manifest_hash : pl_manifest_hash p = sha256_text (canonical_json (JObj (pl_manifest p)));
  pf_header : pl_header p = canonical_json (header_json (pl_manifest p) (pl_manifest_hash p)) +:+ str1 newline;
  pf_header_text : is_utf8 (canonical_json (header_json (pl_manifest p) (pl_manifest_hash p))) = true;
  pf_offsets : pl_offsets p = member_offsets (Z.of_nat (String.length (pl_header p))) (pl_members p)
}.

Lemma encode_all_ok l u : encode_all l = Ok u → ∀ x, x ∈ l → is_utf8 x = true.
Proof.
  unfold encode_all. destruct (forallb is_utf8 l) eqn:E; [|done]. intros _ x Hx.
  rewrite forallb_forall in E. apply E. by apply list_elem_of_In.
Qed.

Lemma archive_plan_ok a path p db :
  archive_plan a db = Ok (path, Some p) → ∃ ar, path = gx_archive_path ar ∧ plan_facts a ar p db.
Proof.
  unfold archive_plan. intros (ar & Har%res_of_option_ok & H)%res_bind_ok.
  case_decide as Hv; [by injection H|]. case_decide as Hs; [done|].
  cbv zeta in H. case_decide as Hc; [done|].
  apply res_bind_ok in H as (members & Hm & H). apply res_bind_ok in H as ([] & Ht & H).
  apply res_bind_ok in H as ([] & Hh & H). injection H as <- <-. exists ar. split; [done|].
  split; cbn [pl_path pl_members pl_manifest pl_manifest_hash pl_members_hash pl_events_hash pl_header pl_offsets]; try done.
  - by apply plan_members_ok.
  - intros m Hin. eapply encode_all_ok; [exact Ht|]. apply list_elem_of_fmap. by exists m.
  - eapply encode_all_ok; [exact Hh|]. left.
Qed.

Lemma manifest_wf a ar mh eh : json_wf (JObj (manifest_payload a ar mh eh)) = true.
Proof. apply fields_wf. split; [by apply (bool_decide_unpack _); vm_compute|]. repeat constructor. Qed.
Lemma header_wf m h : json_wf (JObj m) = true → json_wf (header_json m h) = true.
Proof.
  intros Hm. apply fields_wf. split; [by apply (bool_decide_unpack _); vm_compute|].
  constructor; [exact Hm|]. repeat constructor.
Qed.

Lemma archive_file_split a ar p db :
  plan_facts a ar p db →
  split_newline (archive_file p) =
    Some (canonical_json (header_json (pl_manifest p) (pl_manifest_hash p)), events_bytes (pl_members p)).
Proof.
  intros F. unfold archive_file. rewrite (pf_header _ _ _ _ F). unfold str1.
  rewrite sapp_assoc, sapp_cons, sapp_nil. apply split_newline_line, clean_dumps, header_wf.
  rewrite (pf_manifest _ _ _ _ F). apply manifest_wf.
Qed.

(** The reader accepts the file of the plan. *)
Lemma check_archive_file now a ar p db :
  plan_facts a ar p db → check_archive (set_verified now p ar) (archive_file p) = Ok tt.
Proof.
  intros F. unfold check_archive. rewrite (archive_file_split _ _ _ _ F). unfold res_of_option, mbind, res_bind.
  rewrite (pf_header_text _ _ _ _ F).
  assert (json_wf (JObj (pl_manifest p)) = true) as Hm by (rewrite (pf_manifest _ _ _ _ F); apply manifest_wf).
  pose proof (header_wf (pl_manifest p) (pl_manifest_hash p) Hm) as Hh.
  unfold canonical_json at 1. rewrite (loads_dumps _ Hh).
  pose proof (wf_fields _ Hh) as [Hnd _]. pose proof (wf_fields _ Hm) as [Hnm _].
  unfold header_json. rewrite json_sort_JObj, (dict_get_sort "archive_manifest") by exact Hnd.
  change (dict_get "archive_manifest" _) with (Some (JObj (pl_manifest p))). cbn [fmap option_fmap option_map].
  rewrite json_sort_JObj. unfold get_is. rewrite (dict_get_sort "manifest_hash") by exact Hnd.
  change (dict_get "manifest_hash" _) with (Some (JStr (pl_manifest_hash p))). cbn [fmap option_fmap option_map json_sort].
  rewrite (dict_get_sort "members_hash") by exact Hnm.
  assert (dict_get "members_hash" (pl_manifest p) = Some (JStr (pl_members_hash p))) as ->
    by (by rewrite (pf_manifest _ _ _ _ F)).
  cbn [fmap option_fmap option_map json_sort].
  change (gx_manifest_hash (set_verified now p ar)) with (Some (pl_manifest_hash p)).
  change (gx_members_hash (set_verified now p ar)) with (Some (pl_members_hash p)).
  change (gx_events_content_hash (set_verified now p ar)) with (Some (pl_events_hash p)).
  rewrite <- json_sort_JObj. unfold canonical_json. rewrite (dumps_sort _ Hm).
  rewrite !bool_decide_true; [done|..]; try done.
  - by rewrite (pf_events_hash _ _ _ _ F).
  - by rewrite (pf_manifest_hash _ _ _ _ F).
Qed.

Lemma verify_file_present p db : verify_file p db = Ok tt → is_some (db_files db !! pl_path p) = true.
Proof. unfold verify_file. destruct (db_files db !! pl_path p); done. Qed.

(** *** Writing the file keeps it *)

Lemma plan_files a db files : archive_plan a (db ⟪ db_files := files ⟫) = archive_plan a db.
Proof. reflexivity. Qed.

Lemma path_not_partial db a b ar br :
  archive_inv db → db_archives db !! a = Some ar → db_archives db !! b = Some br →
  gx_archive_path ar ≠ gx_archive_path br +:+ ".partial".
Proof.
  intros I Ha Hb. destruct (ai_named _ I _ _ Ha) as [_ [x ->]]. destruct (ai_named _ I _ _ Hb) as [_ Hy].
  by apply suffix_not_partial.
Qed.

(** Files that keep the ones of the archives. *)
Lemma inv_files db files :
  archive_inv db →
  (∀ path bytes, files !! path = Some bytes →
     ∃ a ar, db_archives db !! a = Some ar ∧ (path = gx_archive_path ar ∨ path = gx_archive_path ar +:+ ".partial")) →
  (∀ a ar bytes, db_archives db !! a = Some ar → db_files db !! gx_archive_path ar = Some bytes →
     files !! gx_archive_path ar = Some bytes) →
  (∀ a ar bytes, db_archives db !! a = Some ar → gx_status ar = AR_PREPARING → files !! gx_archive_path ar = Some bytes →
     ∃ p, archive_plan a db = Ok (gx_archive_path ar, Some p) ∧ bytes = archive_file p) →
  archive_inv (db ⟪ db_files := files ⟫) ∧ carries db (db ⟪ db_files := files ⟫).
Proof.
  intros I Hown Hkeep Hplan.
  assert (carries db (db ⟪ db_files := files ⟫)) as C.
  { intros id r raw Hr Hb. exists r. split; [done|]. split; [done|].
    apply (body_at_same _ _ _ db); [done|done|exact Hkeep|done]. }
  split; [|exact C].
  split; [|apply (events_carried db); [done|done|]; intros id r Hr; cbn in Hr; by rewrite Hr|intros id m Hm|exact (ai_named _ I)|exact (ai_paths _ I)|exact Hown|exact Hplan].
  - by apply (streams_relabel db); [..|apply I].
  - destruct (ai_members _ I _ _ Hm) as [H]. split. exact H.
Qed.

Lemma write_file_inv a path p disk r db db' :
  archive_inv db → archive_plan a db = Ok (path, Some p) → write_file disk p db = (r, db') →
  archive_inv db' ∧ carries db db'.
Proof.
  intros I Hp H. destruct (archive_plan_ok _ _ _ _ Hp) as (ar & -> & F). pose proof (pf_archive _ _ _ _ F) as Ha.
  unfold write_file in H. rewrite (pf_path _ _ _ _ F) in H.
  destruct (db_files db !! gx_archive_path ar) as [bytes|] eqn:Hf.
  { injection H as _ <-. split; [done|]. intros id x raw Hx Hb. by exists x. }
  destruct disk as [rest|]; injection H as _ <-; apply inv_files; try done.
  - intros q bytes [[<- <-]|[_ Hq]]%lookup_insert_Some; [by exists a, ar; auto|by eapply ai_files].
  - intros b br bytes Hb Hfb. rewrite lookup_insert_ne; [done|]. intros E.
    by eapply (path_not_partial db b a).
  - intros b br bytes Hb Hs. rewrite lookup_insert_ne; [by eapply ai_preparing|]. intros E.
    by eapply (path_not_partial db b a).
  - intros q bytes [[<- <-]|[_ [_ Hq]%lookup_delete_Some]]%lookup_insert_Some; [by exists a, ar; auto|by eapply ai_files].
  - intros b br bytes Hb Hfb. rewrite lookup_insert_ne by congruence.
    rewrite lookup_delete_ne; [done|]. intros E. by eapply (path_not_partial db b a).
  - intros b br bytes Hb Hs. intros [[E <-]|[_ [_ Hq]%lookup_delete_Some]]%lookup_insert_Some; [|by eapply ai_preparing].
    assert (a = b) as <- by exact (ai_paths _ I _ _ _ _ Ha Hb E).
    rewrite Ha in Hb. injection Hb as <-. by exists p.
Qed.

(** *** Releasing keeps it *)

Lemma commit_archive_ok env a p db u db' :
  commit_archive env a p db = Ok (u, db') → ∃ ar, db_archives db !! a = Some ar ∧ gx_status ar = AR_PREPARING ∧
    db' = ((db ⟪ db_members := foldl (set_offset a) (db_members db) (pl_offsets p) ⟫)
            ⟪ db_archives := <[a := set_verified (ae_now env) p ar]> (db_archives db) ⟫)
            ⟪ db_events := release a <$> db_events db ⟫.
Proof.
  unfold commit_archive. intros (d & s1 & [-> ->]%tx_gets_ok & H)%tx_bind_ok.
  destruct (db_archives db !! a) as [ar|]; [|by apply tx_fail_ok in H].
  case_decide; [|by apply tx_fail_ok in H]. exists ar. split; [done|]. split; [done|].
  apply tx_bind_ok in H as ([] & s1 & ->%tx_modify_ok & H).
  apply tx_bind_ok in H as ([] & s1 & ->%tx_modify_ok & H). by apply tx_modify_ok in H as ->.
Qed.

Lemma release_key a r : stream_key (release a r) = stream_key r ∧ er_archive_id (release a r) = er_archive_id r ∧
  er_canonical_hash (release a r) = er_canonical_hash r.
Proof. unfold release. by case_decide. Qed.

Lemma plan_ids_nodup a ar p db : plan_facts a ar p db → NoDup (map pm_event_id (pl_members p)).
Proof.
  intros F. replace (map pm_event_id (pl_members p)) with (member_rows a db).*1; [apply member_rows_ids_nodup|].
  pose proof (pf_members _ _ _ _ F) as H2. clear -H2. induction H2 as [|kv x l l' (E & _) _ IH]; [done|]. cbn. by rewrite E, IH.
Qed.

(** The evidence of an event the commit releases. *)
Lemma released_stored env a ar p id r m raw db db' :
  archive_inv db → plan_facts a ar p db → db_files db !! gx_archive_path ar = Some (archive_file p) →
  db_events db !! id = Some r → er_canonical_event_json r = Some raw →
  db_members db !! id = Some m → mb_archive_id m = a →
  db_members db' = foldl (set_offset a) (db_members db) (pl_offsets p) →
  db_archives db' = <[a := set_verified (ae_now env) p ar]> (db_archives db) →
  db_files db' = db_files db → stored a id raw db'.
Proof.
  intros I F Hf Hr Hraw Hm Ha HM HA HF.
  assert ((id, m) ∈ member_rows a db) as Hin.
  { apply elem_of_member_rows. cbn. split_and!; [done|done|by rewrite Hr]. }
  apply list_elem_of_lookup in Hin as [i Hi].
  destruct (Forall2_lookup_l _ _ _ _ _ (pf_members _ _ _ _ F) Hi) as (pm & Hpm & (E1 & E2 & E3 & E4)).
  cbn in E1, E4. rewrite Hr in E4. cbn in E4. assert (pm_body pm = raw) as Hbody by congruence.
  pose proof (plan_ids_nodup _ _ _ _ F) as Hnd.
  assert (id ∈ (pl_offsets p).*1) as Hid.
  { rewrite (pf_offsets _ _ _ _ F), member_offsets_ids. apply list_elem_of_fmap. exists pm. split; [done|].
    by eapply list_elem_of_lookup_2. }
  apply list_elem_of_fmap in Hid as ([id' [o l]] & -> & Ho). cbn in *.
  pose proof Ho as Ho'. rewrite (pf_offsets _ _ _ _ F) in Ho'.
  destruct (member_offsets_ok _ _ _ _ _ _ eq_refl Ho') as (pm' & Hpm' & Hid' & Hsl).
  assert (pm' = pm) as ->.
  { apply list_elem_of_lookup in Hpm' as [j Hj].
    assert (j = i) as ->; [|congruence].
    eapply (NoDup_lookup (map pm_event_id (pl_members p))); [done|..]; rewrite list_lookup_fmap.
    - rewrite Hj. done. - rewrite Hpm. cbn. congruence. }
  split.
  - do 5 eexists. rewrite HM, HA, HF. split.
    { apply set_offsets_member; [|exact Ho|exact Hm|exact Ha]. by rewrite (pf_offsets _ _ _ _ F), member_offsets_ids. }
    split; [exact Ha|]. split; [apply lookup_insert_eq|]. split; [done|]. split; [done|]. split; [done|].
    split; [exact Hf|]. split; [by eapply check_archive_file|]. by rewrite <- Hbody, <- Hsl.
  - rewrite <- Hbody. eapply (pf_text _ _ _ _ F). by eapply list_elem_of_lookup_2.
Qed.

Lemma commit_inv env a path p db db' :
  archive_inv db → archive_plan a db = Ok (path, Some p) → verify_file p db = Ok tt →
  commit_archive env a p db = Ok (tt, db') → archive_inv db' ∧ carries db db'.
Proof.
  intros I Hp Hv (ar & Ha & Hst & ->)%commit_archive_ok.
  destruct (archive_plan_ok _ _ _ _ Hp) as (ar' & -> & F). rewrite (pf_archive _ _ _ _ F) in Ha. injection Ha as ->.
  pose proof (pf_archive _ _ _ _ F) as Ha.
  apply verify_file_present in Hv. rewrite (pf_path _ _ _ _ F) in Hv.
  destruct (db_files db !! gx_archive_path ar) as [bytes|] eqn:Hf; [|done].
  assert (bytes = archive_file p) as ->.
  { destruct (ai_preparing _ I _ _ _ Ha Hst Hf) as (p' & Hp' & ->). rewrite Hp in Hp'. by injection Hp' as ->. }
  set (ar2 := set_verified (ae_now env) p ar).
  assert (∀ b br, <[a := ar2]> (db_archives db) !! b = Some br →
    ∃ br0, db_archives db !! b = Some br0 ∧ gx_archive_path br = gx_archive_path br0 ∧
      gx_stream_id br = gx_stream_id br0 ∧ (gx_status br = AR_PREPARING → b ≠ a ∧ br = br0)) as HA.
  { intros b br [[<- <-]|[Hne Hb]]%lookup_insert_Some; [by exists ar|]. exists br. by split_and!. }
  assert (∀ id r', release a <$> db_events db !! id = Some r' →
    ∃ r, db_events db !! id = Some r ∧ r' = release a r) as HE.
  { intros id r' H. destruct (db_events db !! id) as [r|]; [|done]. injection H as <-. eauto. }
  match goal with |- archive_inv ?d ∧ _ => set (db' := d) end.
  change (db_events db') with (release a <$> db_events db) in *.
  assert (∀ id, db_events db' !! id = release a <$> db_events db !! id) as Hev by (intros id; apply lookup_fmap).
  assert (db_archives db' !! a = Some ar2) as HAa by apply lookup_insert_eq.
  assert (∀ b, b ≠ a → db_archives db' !! b = db_archives db !! b) as HAn by (intros b Hb; by apply lookup_insert_ne).
  assert (∀ id m, mb_archive_id m ≠ a → db_members db !! id = Some m → db_members db' !! id = Some m) as HMo.
  { intros id m Hne Hm. by apply set_offsets_other_archive. }
  assert (carries db db') as C.
  { intros id r raw Hr Hb. exists (release a r). rewrite Hev, Hr. split; [done|].
    split; [unfold release; by case_decide|].
    destruct (decide (er_archive_id r = Some a ∧ er_storage_tier r = TIER_HOT)) as [[Hra Hrt]|Hno].
    - (* released by this step *)
      destruct Hb as [(_ & Hraw & Hm)|(Ht & _)]; [|congruence].
      destruct (Hm a Hra) as (m & Hm1 & Hm2).
      unfold release. rewrite decide_True by done. right. split; [done|]. split; [done|].
      exists a. split; [done|]. split; [by eapply ai_named|].
      by eapply (released_stored env a ar p id r m raw db).
    - unfold release. rewrite decide_False by done.
      destruct Hb as [(Ht & Hraw & Hm)|(Ht & Hraw & b & Hb & Hne & [(m & br & bytes & o & l & H1 & H2 & H3 & H4 & H5 & H6 & H7 & H8) Hu])].
      + left. split; [done|]. split; [done|]. intros b Hb. destruct (Hm b Hb) as (m & Hm1 & Hm2).
        exists m. split; [|done]. apply HMo; [|done]. intros E. apply Hno. split; [congruence|done].
      + right. split; [done|]. split; [done|]. exists b. split; [done|]. split; [done|]. split; [|done].
        assert (b ≠ a) as Hba by (intros ->; congruence).
        exists m, br, bytes, o, l. split; [apply HMo; [congruence|done]|]. split; [done|].
        split; [by rewrite HAn|done]. }
  split; [|exact C]. split.
  - apply (streams_relabel db); [done| |apply I]. intros id. rewrite Hev.
    destruct (db_events db !! id) as [r|]; [|done]. cbn. f_equal. apply release_key.
  - apply (events_carried db); [done|done|]. intros id r'. rewrite Hev. by destruct (db_events db !! id).
  - intros id m' (m & Hm & M1 & M2 & M3 & _)%set_offsets_frozen.
    destruct (ai_members _ I _ _ Hm) as [(r & Hr & Hra & E1 & E2 & br & Hbr & E3)].
    destruct (release_key a r) as ([= K1 K2] & K3 & K4).
    split. exists (release a r). rewrite Hev, Hr. split; [done|].
    split; [congruence|]. split; [congruence|]. split; [congruence|].
    destruct (decide (mb_archive_id m = a)) as [Ea|Hne].
    + exists ar2. rewrite M1, Ea. split; [exact HAa|]. rewrite Ea, Ha in Hbr. injection Hbr as <-. by rewrite K1.
    + exists br. rewrite M1. split; [by rewrite HAn|congruence].
  - intros b br (br0 & Hb & E & _)%HA. destruct (ai_named _ I _ _ Hb) as [? [x Hx]]. split; [done|].
    exists x. congruence.
  - intros b c br cr (br0 & Hb & Eb & _)%HA (cr0 & Hc & Ec & _)%HA Hpp. eapply (ai_paths _ I); [done|done|congruence].
  - intros q bytes (b & br & Hb & Hx)%(ai_files _ I). destruct (decide (b = a)) as [->|Hne].
    + exists a, ar2. split; [exact HAa|]. rewrite Ha in Hb. by injection Hb as <-.
    + exists b, br. split; [by rewrite HAn|done].
  - intros b br bytes (br0 & Hb & _ & _ & Hpr)%HA Hpb Hfb. destruct (Hpr Hpb) as [Hne ->].
    destruct (ai_preparing _ I _ _ _ Hb Hpb Hfb) as (q & Hq & Hbytes). exists q. split; [|done].
    rewrite (plan_same b db); [done|done| | | |].
    + by rewrite HAn.
    + intros id m Hmb. split; [|intros Hm; apply HMo; [congruence|done]].
      intros (m0 & Hm & M1 & _ & _ & M4)%set_offsets_frozen. rewrite M4; [done|congruence].
    + intros id r Hr. by rewrite Hev, Hr.
    + intros id m Hm Hmb. rewrite Hev. destruct (ai_members _ I _ _ Hm) as [(r & Hr & Hra & _)]. rewrite Hr.
      cbn. unfold release. rewrite decide_False; [done|]. intros [E _]. congruence.
Qed.

(** *** Marking an archive keeps it *)

Lemma status_inv a ar status db :
  archive_inv db → db_archives db !! a = Some ar → gx_status ar = AR_PREPARING →
  status ≠ AR_VERIFIED → status ≠ AR_PREPARING →
  archive_inv (set_archive_status a status db) ∧ carries db (set_archive_status a status db).
Proof.
  intros I Ha Hp Hv Hnp. set (db' := set_archive_status a status db).
  assert (∀ b br, db_archives db' !! b = Some br →
    ∃ br0, db_archives db !! b = Some br0 ∧ gx_archive_path br = gx_archive_path br0 ∧
      gx_stream_id br = gx_stream_id br0 ∧ (gx_status br = AR_PREPARING → b ≠ a ∧ br = br0)) as HA.
  { intros b br. unfold db', set_archive_status. cbn. intros [(-> & x & Hx & ->)|[Hne Hb]]%lookup_alter_Some.
    - exists x. split_and!; try done.
    - exists br. split_and!; done. }
  assert (∀ b br, db_archives db !! b = Some br → ∃ br', db_archives db' !! b = Some br' ∧
    gx_archive_path br' = gx_archive_path br ∧ gx_stream_id br' = gx_stream_id br ∧ (b ≠ a → br' = br)) as HK.
  { intros b br Hb. unfold db', set_archive_status. cbn. destruct (decide (b = a)) as [->|Hne].
    - rewrite lookup_alter_eq, Hb. eexists. split_and!; done.
    - rewrite lookup_alter_ne by done. exists br. done. }
  assert (carries db db') as C.
  { intros id r raw Hr Hb. exists r. split; [done|]. split; [done|].
    apply (body_at_same _ _ _ db); [done| |done|done]. intros b br Hbr Hs.
    destruct (HK _ _ Hbr) as (br' & Hb' & _ & _ & E). rewrite Hb', E; [done|]. intros ->. congruence. }
  split; [|exact C]. split.
  - by apply (streams_relabel db); [..|apply I].
  - apply (events_carried db); [done|done|]. intros id r Hr. change (db_events db !! id = Some r) in Hr. by rewrite Hr.
  - intros id m Hm. destruct (ai_members _ I _ _ Hm) as [(r & Hr & H1 & H2 & H3 & br & Hbr & H4)].
    destruct (HK _ _ Hbr) as (br' & Hb' & _ & Es & _).
    split. exists r. do 4 (split; [done|]). exists br'. split; [done|congruence].
  - intros b br (br0 & Hb & E & _)%HA. destruct (ai_named _ I _ _ Hb) as [? [x Hx]]. split; [done|].
    exists x. congruence.
  - intros b c br cr (br0 & Hb & Eb & _)%HA (cr0 & Hc & Ec & _)%HA Hpp. eapply (ai_paths _ I); [done|done|congruence].
  - intros q bytes (b & br & Hb & Hx)%(ai_files _ I). destruct (HK _ _ Hb) as (br' & Hb' & Ep & _).
    exists b, br'. by rewrite Ep.
  - intros b br bytes (br0 & Hb & _ & _ & Hpr)%HA Hpb Hfb. destruct (Hpr Hpb) as [Hne ->].
    destruct (ai_preparing _ I _ _ _ Hb Hpb Hfb) as (q & Hq & Hbytes). exists q. split; [|done].
    rewrite (plan_same b db); [done|done| |done| |done].
    + destruct (HK _ _ Hb) as (br' & -> & _ & _ & E). by rewrite Hb, E.
    + intros id r Hr. change (db_events db' !! id) with (db_events db !! id). by rewrite Hr.
Qed.
