(* ===== verification/Archiving.v ===== *)
(** * Archiving: what the archive service guarantees

    Archiving is invisible to every reader, selects only events nobody still
    needs hot, and completes from wherever it was interrupted. *)

From stdpp Require Import relations.
From S2P Require Import Prelude PyText PyTime Sanitizer Json AgentTypes AgentState Commands.
From S2P Require Import OperationReduce FinalizeEvidence Store Events EventStore Codec Operations FinalizeOps.
From S2P Require Import Controller Frames Outcomes Apply Observations Outbox OutboxFacts.
From S2P Require Import System Demo StatesInv Lifecycle Records Replay Ledger Streams ReadBack Jsonl JsonlFacts.
From S2P Require Import Recovery RecoveryFacts Restarting Archive ArchiveFacts.

#[local] Open Scope Z_scope.

(** ** All steps *)

Definition full_step (db db' : Db) : Prop := gateway_step db db' ∨ archive_step db db'.
Definition full_reachable (db : Db) : Prop := ∃ db0, initial db0 ∧ rtc full_step db0 db.

Lemma reachable_full db : reachable db → full_reachable db.
Proof.
  intros (d & Hi & Hr). exists d. split; [done|].
  eapply rtc_congruence with (f := id); [|exact Hr]. intros x y H. by left.
Qed.

Lemma initial_inv db : initial db → archive_inv db.
Proof.
  intros Hi. assert (reachable db) as Hr by (exists db; split; [done|apply rtc_refl]).
  split; [by apply reachable_streams|..]; destruct Hi as (sinks & gens & ->); cbn; intros *; by rewrite ?lookup_empty.
Qed.

(** Rows that come from the table. *)
Lemma sorted_rows_ids (P : string * EventRow → Prop) `{∀ kv, Decision (P kv)} db :
  NoDup (merge_sort row_le (filter P (map_to_list (db_events db)))).*1.
Proof.
  rewrite merge_sort_Permutation. eapply sublist_NoDup; [apply (NoDup_fst_map_to_list (db_events db))|].
  apply (fmap_sublist fst), sublist_filter.
Qed.
Lemma elem_of_sorted_rows (P : string * EventRow → Prop) `{∀ kv, Decision (P kv)} db kv :
  kv ∈ merge_sort row_le (filter P (map_to_list (db_events db))) ↔ db_events db !! kv.1 = Some kv.2 ∧ P kv.
Proof. rewrite merge_sort_Permutation, list_elem_of_filter. destruct kv. rewrite elem_of_map_to_list. cbn. tauto. Qed.

Lemma contiguous_from_prefix n rows : ∃ rest, rows = contiguous_from n rows ++ rest.
Proof.
  revert n. induction rows as [|kv rows IH]; intros n; [by exists []|]. cbn.
  destruct (_ =? _); [|by eexists]. destruct (IH (er_stream_sequence kv.2)) as [rest E].
  exists rest. cbn. by rewrite <- E.
Qed.
Lemma contiguous_prefix_prefix rows : ∃ rest, rows = contiguous_prefix rows ++ rest.
Proof.
  destruct rows as [|kv rows]; [by exists []|]. cbn.
  destruct (contiguous_from_prefix (er_stream_sequence kv.2) rows) as [rest E]. exists rest. by rewrite <- E.
Qed.

Lemma eligible_rows_take stream cutoff limit db : ∃ n,
  eligible_rows stream cutoff limit db =
    take n (merge_sort row_le (filter (λ kv, eligible stream cutoff db kv = true) (map_to_list (db_events db)))).
Proof.
  unfold eligible_rows. destruct (0 <=? limit); [by eexists|].
  eexists. symmetry. apply take_ge. reflexivity.
Qed.

(** What the service reserves: rows of the table, none twice. *)
Lemma prepare_eligible_ok directory env stream cutoff limit db o db' :
  prepare_eligible_stream directory env stream cutoff limit db = Ok (o, db') →
  (o = None ∧ db' = db) ∨
  ∃ rows, o = Some (ae_uuid env) ∧ rows = contiguous_prefix (eligible_rows stream cutoff limit db) ∧ rows ≠ [] ∧
    NoDup rows.*1 ∧ oldest_hot stream db = Some (first_sequence rows) ∧
    (∀ kv, kv ∈ rows → db_events db !! kv.1 = Some kv.2 ∧ eligible stream cutoff db kv = true) ∧
    prepared directory env stream rows db db'.
Proof.
  unfold prepare_eligible_stream. intros (d & s1 & [-> ->]%tx_gets_ok & H)%tx_bind_ok.
  destruct (eligible_rows stream cutoff limit db) as [|[id r] rest] eqn:E.
  { apply tx_ret_ok in H as [<- <-]. by left. }
  case_decide as Ho; [|apply tx_ret_ok in H as [<- <-]; by left].
  apply tx_bind_ok in H as (a & s1 & H & [<- <-]%tx_ret_ok). right.
  rewrite <- E in *. destruct (eligible_rows_take stream cutoff limit db) as [n En].
  destruct (contiguous_prefix_prefix (eligible_rows stream cutoff limit db)) as [tl Etl].
  assert (∀ kv, kv ∈ contiguous_prefix (eligible_rows stream cutoff limit db) →
    db_events db !! kv.1 = Some kv.2 ∧ eligible stream cutoff db kv = true) as Hin.
  { intros kv Hkv. apply (elem_of_sorted_rows (λ kv, eligible stream cutoff db kv = true)).
    eapply subseteq_take. rewrite <- En, Etl. apply elem_of_app. by left. }
  assert (NoDup (contiguous_prefix (eligible_rows stream cutoff limit db)).*1) as Hnd.
  { assert (NoDup (eligible_rows stream cutoff limit db).*1) as Hn.
    { rewrite En. eapply sublist_NoDup; [apply (sorted_rows_ids (λ kv, eligible stream cutoff db kv = true))|].
      apply (fmap_sublist fst), sublist_take. }
    rewrite Etl, fmap_app in Hn. by apply NoDup_app in Hn as [? _]. }
  apply insert_preparing_ok in H as [-> Hp]; [|done|by intros i x Hx; apply (Hin (i, x))].
  eexists. split; [done|]. split; [done|]. rewrite E in *. cbn [contiguous_prefix first_sequence] in *.
  split; [done|]. split; [done|]. split; [done|]. split; [exact Hin|exact Hp].
Qed.

Lemma prepare_ok directory env stream ids db a db' :
  prepare directory env stream ids db = Ok (a, db') →
  ∃ rows, rows = selected_rows ids db ∧ NoDup rows.*1 ∧
    (∀ kv, kv ∈ rows → db_events db !! kv.1 = Some kv.2 ∧ er_stream_id kv.2 = stream) ∧
    prepared directory env stream rows db db'.
Proof.
  unfold prepare. intros H. apply tx_bind_ok in H as ([] & s1 & [_ ->]%reject_ok & H).
  apply tx_bind_ok in H as (d & s1 & [-> ->]%tx_gets_ok & H). cbv zeta in H.
  apply tx_bind_ok in H as ([] & s1 & [_ ->]%reject_ok & H).
  apply tx_bind_ok in H as ([] & s1 & [Hst ->]%reject_ok & H).
  apply tx_bind_ok in H as ([] & s1 & [_ ->]%reject_ok & H).
  assert (∀ kv, kv ∈ selected_rows ids db → db_events db !! kv.1 = Some kv.2 ∧ er_stream_id kv.2 = stream) as Hin.
  { intros kv Hkv. apply (elem_of_sorted_rows (λ kv, kv.1 ∈ ids)) in Hkv as Hk. split; [apply Hk|].
    apply dec_stable. intros Hne. apply Hst. apply Exists_exists. exists kv. split; [done|]. by left. }
  apply insert_preparing_ok in H as [-> Hp]; [|apply (sorted_rows_ids (λ kv, kv.1 ∈ ids))|by intros i x Hx; apply (Hin (i, x))].
  eexists. split; [done|]. split; [apply (sorted_rows_ids (λ kv, kv.1 ∈ ids))|]. split; [exact Hin|exact Hp].
Qed.

Lemma archive_step_inv db db' :
  archive_inv db → archive_step db db' → archive_inv db' ∧ carries db db'.
Proof.
  intros I Hstep. revert I. destruct Hstep as [directory env stream ids a d d' Hne H|directory env stream cutoff limit o d d' Hne H
    |a path p disk r d d' Hp H|env a path p d d' Hp Hv H|a ar status d d' Ha Hs H1 H2 ->]; intros I.
  - apply prepare_ok in H as (rows & _ & _ & Hin & Hp).
    apply (prepared_inv directory env stream rows); [exact I|exact Hne| |exact Hp]. intros i x Hx. apply (Hin (i, x) Hx).
  - apply prepare_eligible_ok in H as [[_ ->]|(rows & _ & _ & _ & _ & _ & Hin & Hp)].
    { split; [done|]. intros i x raw Hx Hb. by exists x. }
    apply (prepared_inv directory env stream rows); [exact I|exact Hne| |exact Hp]. intros i x Hx.
    destruct (Hin (i, x) Hx) as [_ He]. unfold eligible in He. rewrite !andb_true_iff in He.
    destruct He as [[[[He _] _] _] _]. by apply bool_decide_eq_true in He.
  - by eapply write_file_inv.
  - by eapply commit_inv.
  - by eapply status_inv.
Qed.

Lemma full_step_inv db db' : archive_inv db → full_step db db' → archive_inv db' ∧ carries db db'.
Proof.
  intros I [H|H]; [|by apply archive_step_inv].
  apply inv_gateway; [done| |by apply (gateway_step_rel _ event_growth_closed)].
  apply (gateway_step_rel _ streams_closed) in H. apply H, I.
Qed.

Lemma full_inv db : full_reachable db → archive_inv db.
Proof.
  intros (d & Hi & Hr). apply initial_inv in Hi. induction Hr as [|x y z Hxy _ IH]; [done|].
  apply IH. by eapply full_step_inv.
Qed.

(** ** Reading *)

Lemma read_body id r raw db : body_at id r raw db → read_row id r db = validate_row id r raw.
Proof.
  intros [(_ & Hr & _)|(_ & Hr & a & Ha & Hne & [(m & ar & bytes & o & l & H1 & H2 & H3 & H4 & H5 & H6 & H7 & H8 & H9) Hu])];
    unfold read_row; rewrite Hr; [done|].
  unfold read_archive_member. rewrite Ha. destruct a as [|c a]; [done|].
  unfold archive_member. rewrite H1. unfold mbind, option_bind. rewrite H2, H3, decide_True by done.
  rewrite decide_False by (intros E; by rewrite H4 in E).
  rewrite H5, H6, H7. unfold res_of_option, res_bind. rewrite H8. rewrite H9, Hu. done.
Qed.

Lemma validate_index id raw r r' : index_part r' = index_part r → validate_row id r' raw = validate_row id r raw.
Proof. destruct r, r'. unfold index_part. cbn. by intros [= -> -> -> -> -> -> -> -> -> -> -> -> -> ->]. Qed.

(** Nothing appears or disappears, and every body is carried. *)
Record moved_bodies (db db' : Db) : Prop := {
  mb_before : archive_inv db;
  mb_after : archive_inv db';
  mb_carries : carries db db';
  mb_none : ∀ id r', db_events db' !! id = Some r' → is_some (db_events db !! id) = true
}.

Lemma archive_step_events db db' id r' :
  archive_step db db' → db_events db' !! id = Some r' → is_some (db_events db !! id) = true.
Proof.
  intros Hstep. revert r'. destruct Hstep as [directory env stream ids a d d' Hne H|directory env stream cutoff limit o d d' Hne H
    |a path p disk r d d' Hp H|env a path p d d' Hp Hv H|a ar status d d' Ha Hs H1 H2 ->]; intros r' Hr.
  - apply prepare_ok in H as (rows & _ & _ & _ & Hp). destruct (pp_reserved _ _ _ _ _ _ Hp) as (d1 & E & _ & R).
    destruct (rv_events _ _ _ _ R id) as [[_ Ex]|(x & _ & Ex & _)]; rewrite <- E; [by rewrite <- Ex, Hr|by rewrite Ex].
  - apply prepare_eligible_ok in H as [[_ ->]|(rows & _ & _ & _ & _ & _ & _ & Hp)]; [by rewrite Hr|].
    destruct (pp_reserved _ _ _ _ _ _ Hp) as (d1 & E & _ & R).
    destruct (rv_events _ _ _ _ R id) as [[_ Ex]|(x & _ & Ex & _)]; rewrite <- E; [by rewrite <- Ex, Hr|by rewrite Ex].
  - unfold write_file in H. repeat case_match; injection H as _ <-; cbn in Hr; by rewrite Hr.
  - apply commit_archive_ok in H as (ar & _ & _ & ->). cbn in Hr. rewrite lookup_fmap in Hr.
    by destruct (db_events d !! id).
  - cbn in Hr. by rewrite Hr.
Qed.

Lemma step_moves db db' : archive_inv db → archive_step db db' → moved_bodies db db'.
Proof.
  intros I H. destruct (archive_step_inv _ _ I H) as [I' C]. split; [done..|].
  intros id r'. by apply archive_step_events.
Qed.

Section moved.
Context {db db' : Db} (M : moved_bodies db db').

Lemma moved_row id r :
  db_events db !! id = Some r → ∃ r', db_events db' !! id = Some r' ∧ index_part r' = index_part r ∧
    read_row id r' db' = read_row id r db.
Proof.
  intros Hr. destruct (ai_events _ (mb_before _ _ M) _ _ Hr) as (raw & _ & Hb).
  destruct (mb_carries _ _ M _ _ _ Hr Hb) as (r' & Hr' & Hi & Hb'). exists r'. split; [done|]. split; [done|].
  rewrite (read_body _ _ _ _ Hb'), (read_body _ _ _ _ Hb). by apply validate_index.
Qed.

Lemma moved_read id : read_canonical id db' = read_canonical id db.
Proof.
  unfold read_canonical. destruct (db_events db !! id) as [r|] eqn:Hr.
  - destruct (moved_row _ _ Hr) as (r' & -> & _ & Hread). exact Hread.
  - destruct (db_events db' !! id) as [r'|] eqn:Hr'; [|done]. apply (mb_none _ _ M) in Hr'. by rewrite Hr in Hr'.
Qed.

(** The row of the same event afterwards. *)
Definition moved_to (kv : string * EventRow) : string * EventRow := (kv.1, default kv.2 (db_events db' !! kv.1)).

Lemma moved_to_spec kv :
  db_events db !! kv.1 = Some kv.2 → db_events db' !! kv.1 = Some (moved_to kv).2 ∧
    index_part (moved_to kv).2 = index_part kv.2 ∧ read_row kv.1 (moved_to kv).2 db' = read_row kv.1 kv.2 db.
Proof. intros Hr. destruct (moved_row _ _ Hr) as (r' & E & H). unfold moved_to. cbn. by rewrite E. Qed.

Lemma index_keys r r' : index_part r' = index_part r → er_stream_id r' = er_stream_id r ∧ er_stream_sequence r' = er_stream_sequence r.
Proof. destruct r, r'. unfold index_part. cbn. by intros [= -> -> -> -> -> -> -> -> -> -> -> -> -> ->]. Qed.

Lemma moved_stream stream after limit :
  stream_events stream after limit db' = map moved_to (stream_events stream after limit db).
Proof.
  assert (stream_events stream after None db' = map moved_to (stream_events stream after None db)) as E.
  { assert (Transitive row_le) by (intros x y z; unfold row_le; lia).
    assert (∀ kv', kv' ∈ stream_events stream after None db' ↔ kv' ∈ map moved_to (stream_events stream after None db)) as Hin.
    { intros [id r']. rewrite elem_of_stream, list_elem_of_fmap. cbn. split.
      - intros (Hr' & Hst & Hsq). pose proof (mb_none _ _ M _ _ Hr') as Hs.
        destruct (db_events db !! id) as [r|] eqn:Hr; [|done]. exists (id, r).
        assert (moved_to (id, r) = (id, r')) as Em by (unfold moved_to; cbn; by rewrite Hr').
        split; [by rewrite Em|]. apply elem_of_stream.
        destruct (moved_to_spec (id, r) Hr) as (_ & E2 & _). rewrite Em in E2. apply index_keys in E2 as [K1 K2].
        unfold row_sequence in *. cbn in *. split; [done|]. split; congruence.
      - intros ([i r] & E & (Hr & Hst & Hsq)%elem_of_stream). destruct (moved_to_spec _ Hr) as (E1 & E2 & _).
        apply index_keys in E2 as [K1 K2]. pose proof (f_equal fst E) as Ei. cbn in Ei. subst i.
        rewrite <- E in E1, K1, K2. unfold row_sequence in *. cbn in *. split; [done|]. split; congruence. }
    destruct (ai_streams _ (mb_after _ _ M)) as [_ S].
    apply (Sorted_unique_strong row_le).
    - intros [i x] [j y] (Hx & Sx & _)%elem_of_stream (Hy & Sy & _)%Hin%elem_of_stream L1 L2. cbn in *.
      assert (i = j) as <-; [|congruence]. eapply (ss_unique _ S); [exact Hx|exact Hy|congruence|].
      unfold row_le in *. cbn in *. lia.
    - unfold stream_events. apply Sorted_merge_sort. apply _.
    - assert (∀ kv, kv ∈ stream_events stream after None db → er_stream_sequence (moved_to kv).2 = er_stream_sequence kv.2) as Hk.
      { intros kv (Hr & _)%elem_of_stream. destruct (moved_to_spec _ Hr) as (_ & E2 & _). by by apply index_keys in E2 as [_ E2]. }
      assert (Sorted row_le (stream_events stream after None db)) as Hs by (unfold stream_events; apply Sorted_merge_sort; apply _).
      clear Hin. revert Hk Hs. generalize (stream_events stream after None db). intros l Hk Hs.
      induction Hs as [|kv l Hs IH Hh]; [constructor|]. cbn [map]. constructor.
      + apply IH. intros x Hx. apply Hk. by right.
      + destruct Hh as [|y l Hy]; [constructor|]. constructor. unfold row_le in *.
        rewrite (Hk kv) by left. by rewrite (Hk y) by (right; left).
    - apply NoDup_Permutation; [| |exact Hin].
      + eapply NoDup_fmap_1. apply (sorted_rows_ids (λ kv, er_stream_id kv.2 = stream ∧ after < er_stream_sequence kv.2)).
      + eapply (NoDup_fmap_1 fst). rewrite <- list_fmap_compose.
        apply (sorted_rows_ids (λ kv, er_stream_id kv.2 = stream ∧ after < er_stream_sequence kv.2)). }
  unfold stream_events in *. cbn in E. destruct limit as [n|]; [|exact E]. destruct (0 <=? n); [|exact E].
  rewrite E. apply firstn_map.
Qed.

Lemma moved_rows rows : ∀ previous,
  (∀ kv, kv ∈ rows → db_events db !! kv.1 = Some kv.2) →
  read_rows (map moved_to rows) previous db' = read_rows rows previous db.
Proof.
  induction rows as [|[id r] rows IH]; intros previous Hin; [done|]. cbn [map read_rows].
  destruct (moved_to_spec (id, r) (Hin _ ltac:(left))) as (_ & _ & Hrd). unfold moved_to at 1. cbn [fst].
  unfold moved_to in Hrd. cbn in Hrd. cbn [snd]. rewrite Hrd. unfold mbind, res_bind.
  destruct (read_row id r db) as [rec|]; [|done]. destruct (_ <=? _); [done|].
  rewrite IH; [done|]. intros kv Hkv. apply Hin. by right.
Qed.

Lemma moved_read_stream stream after limit : read_stream stream after limit db' = read_stream stream after limit db.
Proof.
  unfold read_stream. rewrite moved_stream. apply moved_rows. intros kv Hkv.
  apply (elem_of_stream stream after). revert Hkv. unfold stream_events.
  destruct limit as [n|]; [|done]. destruct (0 <=? n); [|done]. apply subseteq_take.
Qed.
End moved.

Lemma sound_reads id r raw : event_sound id (with_body raw r) →
  validate_row id r raw = Ok (mkCanonicalEventRecord id (er_stream_id r) (er_stream_sequence r) raw (sha256_text raw)).
Proof.
  intros Hs. destruct (read_sound id (with_body raw r) empty_db Hs) as (e & raw' & Hraw & H).
  injection Hraw as <-. destruct H as (_ & _ & _ & _ & _ & _ & _ & _ & _ & Hread). exact Hread.
Qed.

Lemma full_reads db id r :
  archive_inv db → db_events db !! id = Some r → ∃ raw,
    event_sound id (with_body raw r) ∧
    read_canonical id db = Ok (mkCanonicalEventRecord id (er_stream_id r) (er_stream_sequence r) raw (sha256_text raw)).
Proof.
  intros I Hr. destruct (ai_events _ I _ _ Hr) as (raw & Hs & Hb). exists raw. split; [done|].
  unfold read_canonical. rewrite Hr. cbn. by rewrite (read_body _ _ _ _ Hb), sound_reads.
Qed.

Lemma archive_steps_read db db' :
  archive_inv db → rtc archive_step db db' →
  archive_inv db' ∧ (∀ id, read_canonical id db' = read_canonical id db) ∧
  ∀ stream after limit, read_stream stream after limit db' = read_stream stream after limit db.
Proof.
  intros I Hr. induction Hr as [x|x y z Hxy _ IH]; [done|].
  pose proof (step_moves _ _ I Hxy) as M. destruct (IH (mb_after _ _ M)) as (I' & H1 & H2). split; [done|]. split.
  - intros id. by rewrite H1, (moved_read M).
  - intros stream after limit. by rewrite H2, (moved_read_stream M).
Qed.

Lemma full_steps_read db db' id record :
  archive_inv db → rtc full_step db db' → read_canonical id db = Ok record → read_canonical id db' = Ok record.
Proof.
  intros I Hr. induction Hr as [x|x y z Hxy _ IH]; [done|]. intros H.
  destruct (full_step_inv _ _ I Hxy) as [I' C]. apply IH; [done|].
  unfold read_canonical in H. destruct (db_events x !! id) as [r|] eqn:Hx; [|done].
  destruct (ai_events _ I _ _ Hx) as (raw & Hs & Hb). destruct (C _ _ _ Hx Hb) as (r' & Hy & Hi & Hb').
  unfold read_canonical. rewrite Hy. cbn in *. rewrite (read_body _ _ _ _ Hb'), (validate_index _ _ _ _ Hi).
  by rewrite <- (read_body _ _ _ _ Hb).
Qed.

(** ** Claims *)

(** C14: no reader can tell whether events have been archived.
    In every store the controller, the dispatcher and the archive service can
    reach, in any order of their steps and wherever the service stopped, every
    committed event is read back; steps of the archive service change the
    answer of no read, of one event or of a stream; and whatever happens
    later, an event that was read is read again with the same record. *)
Theorem archive_transparent db db' :
  full_reachable db → rtc archive_step db db' →
  (∀ id r, db_events db !! id = Some r → ∃ raw, read_canonical id db =
     Ok (mkCanonicalEventRecord id (er_stream_id r) (er_stream_sequence r) raw (sha256_text raw))) ∧
  (∀ id, read_canonical id db' = read_canonical id db) ∧
  (∀ stream after limit, read_stream stream after limit db' = read_stream stream after limit db) ∧
  ∀ db2 id record, rtc full_step db' db2 → read_canonical id db = Ok record → read_canonical id db2 = Ok record.
Proof.
  intros I%full_inv Hr. destruct (archive_steps_read _ _ I Hr) as (I' & H1 & H2).
  split. { intros id r Hr'. destruct (full_reads _ _ _ I Hr') as (raw & _ & H). eauto. }
  split; [done|]. split; [done|]. intros db2 id record Hs H. eapply full_steps_read; [exact I'|exact Hs|]. by rewrite H1.
Qed.

(** The members of an archive. *)
Definition members_of (a : string) (db : Db) : list (string * MemberRow) := member_rows a db.

Lemma contiguous_sequences rows : ∀ n,
  map row_sequence (contiguous_from n rows) = seqZ (n + 1) (Z.of_nat (length (contiguous_from n rows))).
Proof.
  induction rows as [|kv rows IH]; intros n; [done|]. cbn [contiguous_from].
  destruct (er_stream_sequence kv.2 =? n + 1) eqn:E; [|done]. apply Z.eqb_eq in E.
  cbn [map length]. rewrite IH, Nat2Z.inj_succ, (seqZ_cons (n + 1)) by lia. unfold row_sequence at 1.
  rewrite E, Z.pred_succ, <- Z.add_1_r. done.
Qed.
Lemma prefix_sequences rows :
  rows ≠ [] → map row_sequence (contiguous_prefix rows) =
    seqZ (first_sequence (contiguous_prefix rows)) (Z.of_nat (length (contiguous_prefix rows))).
Proof.
  destruct rows as [|kv rows]; [done|]. intros _. cbn [contiguous_prefix map length first_sequence].
  rewrite contiguous_sequences, Nat2Z.inj_succ, (seqZ_cons (er_stream_sequence kv.2)) by lia. unfold row_sequence at 1.
  rewrite Z.pred_succ, <- Z.add_1_r. done.
Qed.

(** The service reserves only what nobody still needs hot,
    oldest first: when a segment is prepared, each of its events is a hot
    event of the stream, older than the cutoff, whose Run has ended and needs
    no recovery, none of whose required deliveries is open and none of whose
    deliveries is in flight; the segment has at most the given size and is
    the range of sequence numbers that starts at the oldest hot event. *)
Lemma archive_eligible directory env stream cutoff limit db a db' :
  full_reachable db → prepare_eligible_stream directory env stream cutoff limit db = Ok (Some a, db') →
  ∃ ids, (∀ id, id ∈ ids ↔ ∃ m, db_members db' !! id = Some m ∧ mb_archive_id m = a) ∧
    ids ≠ [] ∧ NoDup ids ∧ (0 ≤ limit → Z.of_nat (length ids) ≤ limit) ∧
    ∃ first, oldest_hot stream db = Some first ∧
    ∀ i id, ids !! i = Some id → ∃ r r', db_events db !! id = Some r ∧ db_events db' !! id = Some r' ∧
      er_archive_id r' = Some a ∧ er_canonical_event_json r' = er_canonical_event_json r ∧
      er_stream_sequence r = first + Z.of_nat i ∧ er_stream_id r = stream ∧ hot_unreserved r = true ∧
      String.ltb (er_occurred_at r) cutoff = true ∧ run_settled (er_run_id r) db = true ∧
      deliveries_settled id db = true.
Proof.
  intros I%full_inv H. apply prepare_eligible_ok in H as [[? _]|(rows & [= ->] & Erows & Hne & Hnd & Hold & Hin & Hp)]; [done|].
  set (a := ae_uuid env) in *.
  destruct (pp_reserved _ _ _ _ _ _ Hp) as (d1 & E1 & E2 & [_ K N E]). rewrite E2 in K, N. setoid_rewrite E1 in E.
  exists rows.*1. split.
  { intros id. split.
    - intros Hid. destruct (E id) as [[Hx _]|(r & _ & _ & _ & _ & Hm)]; [done|]. eexists. split; [exact Hm|done].
    - intros (m & Hm & Ha). destruct (N _ _ Hm) as [Hm0|(_ & r & Hr & _)].
      + exfalso. destruct (ai_members _ I _ _ Hm0) as [(r & _ & _ & _ & _ & ar & Har & _)].
        rewrite Ha in Har. pose proof (pp_fresh _ _ _ _ _ _ Hp) as Hf. fold a in Hf. congruence.
      + apply list_elem_of_fmap. by exists (id, r). }
  split; [by destruct rows|]. split; [done|].
  pose proof (contiguous_prefix_prefix (eligible_rows stream cutoff limit db)) as [tl Htl]. split.
  { intros Hl. rewrite length_fmap, Erows. apply (f_equal length) in Htl. rewrite length_app in Htl.
    assert (length (eligible_rows stream cutoff limit db) ≤ Z.to_nat limit)%nat as Hle; [|lia].
    unfold eligible_rows. rewrite (proj2 (Z.leb_le 0 limit)) by done. rewrite length_take. lia. }
  exists (first_sequence rows). split; [done|]. intros i id Hi. rewrite list_lookup_fmap in Hi.
  destruct (rows !! i) as [[id' r]|] eqn:Er; [|done]. injection Hi as <-.
  pose proof (list_elem_of_lookup_2 _ _ _ Er) as Hel. destruct (Hin _ Hel) as [Hr He]. cbn in Hr, He.
  destruct (E id') as [[Hx _]|(x & _ & Hx & _ & Ex & _)].
  { exfalso. apply Hx. apply list_elem_of_fmap. by exists (id', r). }
  rewrite Hr in Hx. injection Hx as <-. exists r. eexists. split; [done|]. split; [exact Ex|]. split; [done|]. split; [done|].
  split.
  { pose proof (prefix_sequences (eligible_rows stream cutoff limit db)) as Hs. rewrite <- Erows in Hs.
    assert (eligible_rows stream cutoff limit db ≠ []) as Hn0 by (intros En; by rewrite En in Erows).
    specialize (Hs Hn0). apply (f_equal (λ l, l !! i)) in Hs. rewrite list_lookup_fmap, Er in Hs. cbn in Hs.
    symmetry in Hs. apply lookup_seqZ in Hs as [Hs _]. exact Hs. }
  unfold eligible in He. rewrite !andb_true_iff in He. cbn in He. destruct He as [[[[He1 He2] He3] He4] He5].
  apply bool_decide_eq_true in He1. done.
Qed.

(** ** The operations, as steps *)

Lemma write_file_archives disk p db r db' : write_file disk p db = (r, db') →
  db_archives db' = db_archives db ∧ (∀ a, archive_plan a db' = archive_plan a db) ∧
  (r = Ok tt → is_some (db_files db' !! pl_path p) = true).
Proof.
  unfold write_file. destruct (db_files db !! pl_path p) eqn:E.
  { intros [= <- <-]. split; [done|]. split; [done|]. by rewrite E. }
  destruct disk; intros [= <- <-]; (split; [done|]; split; [done|]); [done|].
  intros _. cbn. by rewrite lookup_insert_eq.
Qed.

Lemma write_and_verify_steps env disk a db r db' :
  write_and_verify env disk a db = (r, db') →
  rtc archive_step db db' ∧
  match r with
  | Ok _ => ∃ ar, db_archives db' !! a = Some ar ∧ gx_status ar = AR_VERIFIED ∧
      ∀ b, b ≠ a → db_archives db' !! b = db_archives db !! b
  | Err _ => db_archives db' = db_archives db
  end.
Proof.
  unfold write_and_verify. destruct (archive_plan a db) as [[path [p|]]|e] eqn:Hp.
  2:{ intros [= <- <-]. split; [done|]. unfold archive_plan in Hp.
      apply res_bind_ok in Hp as (ar & Har%res_of_option_ok & H). exists ar. split; [done|]. split; [|done].
      case_decide; [done|]. case_decide; [done|]. cbv zeta in H. case_decide; [done|].
      apply res_bind_ok in H as (? & _ & H). apply res_bind_ok in H as (? & _ & H).
      by apply res_bind_ok in H as (? & _ & H). }
  2:{ intros [= <- <-]. by split. }
  destruct (write_file disk p db) as [[u|e] db1] eqn:Hw.
  2:{ intros [= <- <-]. destruct (write_file_archives _ _ _ _ _ Hw) as (E & _ & _). split; [|done].
      apply rtc_once. by eapply step_write_file. }
  destruct (write_file_archives _ _ _ _ _ Hw) as (E & Epl & _).
  assert (archive_step db db1) as S1 by by eapply step_write_file.
  destruct (verify_file p db1) as [[]|e] eqn:Hv; [|intros [= <- <-]; split; [by apply rtc_once|done]].
  destruct (commit_archive env a p db1) as [[[] db2]|e] eqn:Hc; [|intros [= <- <-]; split; [by apply rtc_once|done]].
  intros [= <- <-]. split.
  - eapply rtc_l; [exact S1|]. apply rtc_once. eapply step_commit; [rewrite Epl; exact Hp|exact Hv|exact Hc].
  - apply commit_archive_ok in Hc as (ar & _ & _ & ->). eexists. split; [apply lookup_insert_eq|]. split; [done|].
    intros b Hb. cbn. rewrite lookup_insert_ne by done. by rewrite E.
Qed.

Lemma filter_none {A} (P : A → Prop) `{∀ x, Decision (P x)} l : (∀ x, x ∈ l → ¬ P x) → filter P l = [].
Proof.
  induction l as [|x l IH]; intros H'; [done|]. rewrite filter_cons_False by (apply H'; left).
  apply IH. intros y Hy. apply H'. by right.
Qed.

(** The check accepts the file of the plan. *)
Lemma member_hash db a ar p m :
  archive_inv db → plan_facts a ar p db → m ∈ pl_members p → sha256_hex (pm_body m) = pm_canonical_hash m.
Proof.
  intros I F Hm. apply list_elem_of_lookup in Hm as [i Hi].
  destruct (Forall2_lookup_r _ _ _ _ _ (pf_members _ _ _ _ F) Hi) as ([id mr] & Hmr & (E1 & E2 & E3 & E4)).
  apply list_elem_of_lookup_2, elem_of_member_rows in Hmr as (Hmr & _ & _). cbn in *.
  destruct (ai_members _ I _ _ Hmr) as [(r & Hr & _ & _ & Hh & _)]. rewrite Hr in E4. cbn in E4.
  destruct (ai_events _ I _ _ Hr) as (raw & Hs & [(_ & Hraw & _)|(_ & Hraw & _)]); [|congruence].
  assert (raw = pm_body m) as <- by congruence.
  destruct Hs as (e & _ & _ & _ & _ & _ & _ & Hc & Hch & _).
  change (er_canonical_hash r = sha256_hex (canonical_json (envelope_json e))) in Hch.
  change (Some raw = Some (canonical_json (envelope_json e))) in Hc. apply (inj Some) in Hc. congruence.
Qed.

Lemma verify_members_ok a ar p db data :
  archive_inv db → plan_facts a ar p db → data = archive_file p →
  ∀ offs, (∀ o, o ∈ offs → o ∈ pl_offsets p) → verify_members data (pl_members p) offs = Ok tt.
Proof.
  intros I F -> offs. induction offs as [|[id [o l]] offs IH]; intros Hin; [done|]. cbn [verify_members].
  pose proof (Hin _ ltac:(left)) as Ho. rewrite (pf_offsets _ _ _ _ F) in Ho.
  destruct (member_offsets_ok _ _ _ _ _ _ eq_refl Ho) as (m & Hm & Hid & Hs). fold (archive_file p) in Hs.
  assert (NoDup (map pm_event_id (pl_members p))) as Hnd by by eapply plan_ids_nodup.
  assert (filter (λ m, pm_event_id m = id) (pl_members p) = [m]) as ->.
  { clear -Hm Hid Hnd. induction (pl_members p) as [|x l IH]; [by apply not_elem_of_nil in Hm|].
    cbn [map] in Hnd. apply NoDup_cons in Hnd as [Hx Hnd]. apply elem_of_cons in Hm as [<-|Hm].
    - rewrite filter_cons_True by done. f_equal. apply filter_none. intros y Hy E. apply Hx.
      apply list_elem_of_fmap. exists y. split; [congruence|done].
    - rewrite filter_cons_False; [by apply IH|]. intros E. apply Hx. apply list_elem_of_fmap. exists m. split; [congruence|done]. }
  cbn. unfold mbind, res_bind. rewrite Hs, decide_True by by eapply member_hash. apply IH. intros x Hx. apply Hin. by right.
Qed.

Lemma verify_file_ok a ar p db :
  archive_inv db → plan_facts a ar p db → db_files db !! gx_archive_path ar = Some (archive_file p) →
  verify_file p db = Ok tt.
Proof.
  intros I F Hf. unfold verify_file, res_of_option, mbind, res_bind. rewrite (pf_path _ _ _ _ F), Hf.
  rewrite (archive_file_split _ _ _ _ F), (pf_header_text _ _ _ _ F).
  assert (json_wf (header_json (pl_manifest p) (pl_manifest_hash p)) = true) as Hh
    by (rewrite (pf_manifest _ _ _ _ F); apply header_wf, manifest_wf).
  unfold canonical_json at 1. rewrite (loads_dumps _ Hh).
  assert (json_same (json_sort (header_json (pl_manifest p) (pl_manifest_hash p)))
    (header_json (pl_manifest p) (pl_manifest_hash p)) = true) as ->.
  { unfold json_same, canonical_json. rewrite (dumps_sort _ Hh). by apply bool_decide_true. }
  cbv beta iota delta [negb].
  rewrite decide_False by (intros E; apply E; by rewrite (pf_manifest_hash _ _ _ _ F)).
  rewrite decide_False by (intros E; apply E; by rewrite (pf_events_hash _ _ _ _ F)).
  by eapply verify_members_ok.
Qed.

Lemma write_and_verify_completes env a path p db :
  archive_inv db → archive_plan a db = Ok (path, Some p) →
  ∃ db', write_and_verify env None a db = (Ok path, db').
Proof.
  intros I Hp. destruct (archive_plan_ok _ _ _ _ Hp) as (ar & -> & F). unfold write_and_verify. rewrite Hp.
  destruct (write_file None p db) as [r db1] eqn:Hw.
  destruct (write_file_inv _ _ _ _ _ _ _ I Hp Hw) as [I1 _].
  destruct (write_file_archives _ _ _ _ _ Hw) as (EA & Epl & _).
  assert (r = Ok tt ∧ is_some (db_files db1 !! gx_archive_path ar) = true) as [-> Hf].
  { unfold write_file in Hw. rewrite (pf_path _ _ _ _ F) in Hw.
    destruct (db_files db !! gx_archive_path ar) eqn:E; injection Hw as <- <-; (split; [done|]); [by rewrite E|].
    cbn. by rewrite lookup_insert_eq. }
  pose proof Hp as Hp1. rewrite <- Epl in Hp1. destruct (archive_plan_ok _ _ _ _ Hp1) as (ar' & Epath & F1).
  pose proof (pf_archive _ _ _ _ F1) as Ha1. rewrite EA, (pf_archive _ _ _ _ F) in Ha1. injection Ha1 as <-.
  destruct (db_files db1 !! gx_archive_path ar) as [bytes|] eqn:Hb; [|done].
  destruct (ai_preparing _ I1 _ _ _ (pf_archive _ _ _ _ F1) (pf_status _ _ _ _ F1) Hb) as (p' & Hp' & ->).
  rewrite Hp1 in Hp'. injection Hp' as <-. rewrite (verify_file_ok _ _ _ _ I1 F1 Hb).
  unfold commit_archive, mbind, tx_bind, tx_gets. rewrite (pf_archive _ _ _ _ F1).
  rewrite decide_True by apply (pf_status _ _ _ _ F1). by eexists.
Qed.

(** An archive in preparation is completed by
    [write_and_verify] wherever an earlier attempt stopped (before the file,
    after it, or in the middle of writing it): it returns, the archive is
    verified, every event reserved for it is released from its row, and what
    the file holds is read back with the hash recorded for it. *)
Lemma archive_completes env a path p db :
  full_reachable db → archive_plan a db = Ok (path, Some p) →
  ∃ db', write_and_verify env None a db = (Ok path, db') ∧ rtc archive_step db db' ∧
    (∃ ar, db_archives db' !! a = Some ar ∧ gx_status ar = AR_VERIFIED) ∧
    ∀ id r', db_events db' !! id = Some r' → er_archive_id r' = Some a →
      er_storage_tier r' = TIER_ARCHIVED ∧ er_canonical_event_json r' = None ∧
      ∃ raw, read_canonical id db' =
        Ok (mkCanonicalEventRecord id (er_stream_id r') (er_stream_sequence r') raw (er_canonical_hash r')).
Proof.
  intros I%full_inv Hp. destruct (write_and_verify_completes env _ _ _ _ I Hp) as [db' H].
  destruct (write_and_verify_steps _ _ _ _ _ _ H) as [Hst (ar & Har & Hv & _)].
  destruct (archive_steps_read _ _ I Hst) as [I' _].
  exists db'. split; [done|]. split; [done|]. split; [by exists ar|]. intros id r' Hr' Ha.
  assert (er_storage_tier r' = TIER_ARCHIVED) as Ht.
  { unfold write_and_verify in H. rewrite Hp in H. destruct (write_file None p db) as [[u|e] db1]; [|done].
    destruct (verify_file p db1); [|done]. destruct (commit_archive env a p db1) as [[[] db2]|] eqn:Hc; [|done].
    injection H as <-. apply commit_archive_ok in Hc as (? & _ & _ & ->). cbn in Hr'. rewrite lookup_fmap in Hr'.
    destruct (db_events db1 !! id) as [r|]; [|done]. injection Hr' as <-. unfold release in *.
    case_decide as Hd; [done|]. destruct (er_storage_tier r) eqn:E; [|done]. exfalso. by apply Hd. }
  destruct (full_reads _ _ _ I' Hr') as (raw & Hs & Hread).
  destruct (ai_events _ I' _ _ Hr') as (raw' & _ & [(Ht' & _)|(_ & Hnone & _)]); [congruence|].
  split; [done|]. split; [done|]. exists raw. rewrite Hread. f_equal. f_equal.
  destruct Hs as (e & _ & _ & _ & _ & _ & _ & Hc & Hch & _).
  change (er_canonical_hash r' = sha256_hex (canonical_json (envelope_json e))) in Hch.
  change (Some raw = Some (canonical_json (envelope_json e))) in Hc. apply (inj Some) in Hc. by rewrite Hch, Hc.
Qed.

(** *** The next start *)

Lemma recover_archive_ok env disk a ar db x db' :
  db_archives db !! a = Some ar → gx_status ar = AR_PREPARING →
  recover_archive env disk (a, ar) db = (x, db') →
  rtc archive_step db db' ∧ x.1 = a ∧
  (∃ ar', db_archives db' !! a = Some ar' ∧ gx_status ar' = x.2 ∧ x.2 ≠ AR_PREPARING) ∧
  ∀ b, b ≠ a → db_archives db' !! b = db_archives db !! b.
Proof.
  intros Ha Hp H. unfold recover_archive in H. cbn in H.
  assert (∀ st d, db_archives d = db_archives db → st ≠ AR_VERIFIED → st ≠ AR_PREPARING →
    archive_step d (set_archive_status a st d) ∧
    (∃ ar', db_archives (set_archive_status a st d) !! a = Some ar' ∧ gx_status ar' = st) ∧
    ∀ b, b ≠ a → db_archives (set_archive_status a st d) !! b = db_archives db !! b) as Hset.
  { intros st d E Hv Hn. split; [by eapply (step_set_status a ar); rewrite ?E|]. unfold set_archive_status. cbn. rewrite E. split.
    - rewrite lookup_alter_eq, Ha. by eexists.
    - intros b Hb. by apply lookup_alter_ne. }
  destruct (db_files db !! gx_archive_path ar).
  - destruct (write_and_verify env disk a db) as [[path|e] db1] eqn:Hw; injection H as <- <-;
      destruct (write_and_verify_steps _ _ _ _ _ _ Hw) as [Hst Hr].
    + destruct Hr as (ar' & Har & Hv & Ho). split; [done|]. split; [done|]. split; [by exists ar'|done].
    + destruct (Hset AR_RECOVERY_REQUIRED db1 Hr ltac:(done) ltac:(done)) as (S1 & (ar' & Har & Hs) & Ho).
      split; [eapply rtc_r; [exact Hst|exact S1]|]. split; [done|]. split; [by exists ar'|done].
  - injection H as <- <-. destruct (Hset AR_FAILED db eq_refl ltac:(done) ltac:(done)) as (S1 & (ar' & Har & Hs) & Ho).
    split; [by apply rtc_once|]. split; [done|]. split; [by exists ar'|done].
Qed.

Lemma recover_archives_ok env disk rows : ∀ db l db',
  NoDup rows.*1 → (∀ kv, kv ∈ rows → db_archives db !! kv.1 = Some kv.2 ∧ gx_status kv.2 = AR_PREPARING) →
  recover_archives env disk rows db = (l, db') →
  rtc archive_step db db' ∧ l.*1 = rows.*1 ∧
  (∀ a st, (a, st) ∈ l → st ≠ AR_PREPARING ∧ ∃ ar, db_archives db' !! a = Some ar ∧ gx_status ar = st) ∧
  ∀ b, b ∉ rows.*1 → db_archives db' !! b = db_archives db !! b.
Proof.
  induction rows as [|[a ar] rows IH]; intros db l db' Hnd Hin H; cbn [recover_archives] in H.
  { injection H as <- <-. split; [done|]. split; [done|]. split; [by intros a st []%not_elem_of_nil|done]. }
  cbn [fmap list_fmap] in Hnd. apply NoDup_cons in Hnd as [Hnot Hnd].
  destruct (recover_archive _ _ (a, ar) db) as [x db1] eqn:E1.
  destruct (recover_archives env disk rows db1) as [xs db2] eqn:E2. injection H as <- <-.
  destruct (Hin (a, ar) ltac:(left)) as [Ha Hp].
  destruct (recover_archive_ok _ _ _ _ _ _ _ Ha Hp E1) as (S1 & Hx & (ar' & Har & Hst & Hn) & Ho).
  destruct (IH db1 xs db2 Hnd) as (S2 & Hk & Hr & Ho2); [|done|].
  { intros [b br] Hb. cbn. assert (b ≠ a) by (intros ->; apply Hnot; apply list_elem_of_fmap; by exists (a, br)).
    rewrite Ho by done. apply (Hin (b, br)). by right. }
  split; [by etrans|]. split; [cbn; by rewrite Hx, Hk|]. split.
  - intros b st [E|Hb]%elem_of_cons; [|by apply Hr]. subst x. cbn in *. subst a. split; [done|]. exists ar'.
    by rewrite Ho2.
  - intros b Hb. cbn [fmap list_fmap] in Hb. rewrite Ho2 by (intros ?; apply Hb; by right). apply Ho. intros ->. apply Hb. left.
Qed.

(** After [recover_preparing] no archive is in
    preparation: each archive that was has the status reported for it, and
    none that was not is touched; all of it is steps of the service, so that
    every event is read as before, those of failed archives included. *)
Lemma archive_recovery_settles env disk db l db' :
  full_reachable db → recover_preparing env disk db = (l, db') →
  rtc archive_step db db' ∧ (∀ id, read_canonical id db' = read_canonical id db) ∧
  (∀ a ar, db_archives db' !! a = Some ar → gx_status ar ≠ AR_PREPARING) ∧
  (∀ a st, (a, st) ∈ l → ∃ ar, db_archives db' !! a = Some ar ∧ gx_status ar = st) ∧
  ∀ a ar, db_archives db !! a = Some ar → gx_status ar ≠ AR_PREPARING → db_archives db' !! a = Some ar.
Proof.
  intros I%full_inv H. unfold recover_preparing in H.
  assert (∀ kv, kv ∈ preparing db ↔ db_archives db !! kv.1 = Some kv.2 ∧ gx_status kv.2 = AR_PREPARING) as Hin.
  { intros [a ar]. unfold preparing. rewrite list_elem_of_filter, elem_of_map_to_list. cbn. tauto. }
  assert (NoDup (preparing db).*1) as Hnd.
  { eapply sublist_NoDup; [apply (NoDup_fst_map_to_list (db_archives db))|]. apply (fmap_sublist fst), sublist_filter. }
  destruct (recover_archives_ok _ _ _ _ _ _ Hnd (λ kv, proj1 (Hin kv)) H) as (Hst & Hk & Hr & Ho).
  split; [done|]. split; [by eapply archive_steps_read|].
  assert (∀ a, a ∉ (preparing db).*1 → ∀ ar, db_archives db !! a = Some ar → gx_status ar ≠ AR_PREPARING) as Hnp.
  { intros a Hna ar Ha Hp. apply Hna. apply list_elem_of_fmap. exists (a, ar). split; [done|]. by apply Hin. }
  split; [|split].
  - intros a ar Ha Hp. destruct (decide (a ∈ (preparing db).*1)) as [Hy|Hn].
    + rewrite <- Hk in Hy. apply list_elem_of_fmap in Hy as ([b st] & -> & Hb). cbn in *.
      destruct (Hr _ _ Hb) as (Hne & ar' & Har & Hs). congruence.
    + rewrite (Ho _ Hn) in Ha. by eapply Hnp.
  - intros a st Hb. by apply Hr.
  - intros a ar Ha Hp. rewrite Ho; [done|]. intros ([b br] & -> & [Hb Hbp]%Hin)%list_elem_of_fmap. cbn in *. congruence.
Qed.

(** A whole run of the daily work is a sequence of steps, whatever it raises. *)
Lemma process_eligible_steps directory env disk now days limit db r db' :
  (∀ n, ae_uuid (env n) ≠ "") → process_eligible directory env disk now days limit db = (r, db') →
  rtc archive_step db db'.
Proof.
  intros Hne H. unfold process_eligible in H. destruct (minus_days now days) as [t|e]; [|by injection H as _ <-].
  cbv zeta in H. revert H. generalize (eligible_streams (isoformat_seconds t) db). intros streams. revert db r db'.
  induction streams as [|s streams IH]; intros db r db' H; cbn [process_streams] in H; [by injection H as _ <-|].
  destruct (prepare_eligible_stream _ _ _ _ _ _) as [[[a|] db1]|e] eqn:E; [| |by injection H as _ <-].
  - assert (archive_step db db1) as S1 by by eapply step_prepare_eligible.
    destruct (write_and_verify _ _ a db1) as [r2 db2] eqn:Hw.
    destruct (write_and_verify_steps _ _ _ _ _ _ Hw) as [S2 _].
    destruct r2 as [path|e]; [|injection H as _ <-; by eapply rtc_l].
    destruct (process_streams _ _ _ _ _ _ db2) as [r3 db3] eqn:E3. injection H as _ <-.
    eapply rtc_l; [exact S1|]. etrans; [exact S2|]. by eapply IH.
  - eapply rtc_l; [by eapply step_prepare_eligible|]. by eapply IH.
Qed.

(** ** A demonstration

    A Run that was interrupted, in a store without event sinks; its first
    three events are archived. *)

Definition quiet_created : Db :=
  match create_run demo_cfg (demo_env 0) demo_request empty_db with Ok (_, db) => db | Err _ => empty_db end.
Definition quiet : Db :=
  play 1 [demo_move TS_QUEUED None; demo_move TS_STARTING None; demo_move TS_RUNNING None;
          demo_move TS_INTERRUPTED None] quiet_created.

Lemma quiet_full : full_reachable quiet.
Proof.
  apply reachable_full. exists empty_db. split; [exists ∅, ∅; reflexivity|].
  etrans; [|apply play_steps]. unfold quiet_created.
  destruct (create_run _ _ _ _) as [[r db]|e] eqn:E; [|done]. apply rtc_once. eapply step_create_run. exact E.
Qed.

Definition archive_env : ArchiveEnv := mkArchiveEnv "archive-1" "2027-01-01T00:00:00+00:00".
Definition quiet_prepare : res (option string * Db) :=
  prepare_eligible_stream "/archive" archive_env "run-1" "2027-01-01T00:00:00+00:00" 3 quiet.
Definition reserves (x : res (option string * Db)) : bool :=
  match x with
  | Ok (Some a, db) => match archive_plan a db with Ok (_, Some p) => bool_decide (length (pl_members p) = 3%nat) | _ => false end
  | _ => false
  end.
Lemma quiet_reserves : reserves quiet_prepare = true.
Proof. vm_cast_no_check (@eq_refl bool true). Qed.

Lemma reserves_ok x : reserves x = true → ∃ a db path p, x = Ok (Some a, db) ∧ archive_plan a db = Ok (path, Some p).
Proof.
  unfold reserves. destruct x as [[[a|] db]|e]; [|done..].
  destruct (archive_plan a db) as [[path [p|]]|] eqn:E; [|done..]. intros _. by exists a, db, path, p.
Qed.

Lemma quiet_prepared : ∃ a db path p, quiet_prepare = Ok (Some a, db) ∧ archive_step quiet db ∧ full_reachable db ∧
  archive_plan a db = Ok (path, Some p).
Proof.
  destruct (reserves_ok _ quiet_reserves) as (a & db & path & p & E & Hp). exists a, db, path, p.
  assert (archive_step quiet db) as Hs by (eapply step_prepare_eligible; [|exact E]; done).
  split; [done|]. split; [done|]. split; [|done]. destruct quiet_full as (d & Hi & Hr). exists d. split; [done|].
  eapply rtc_r; [exact Hr|by right].
Qed.

Lemma archive_transparent_witness : ∃ db', archive_step quiet db' ∧ ∀ stream after limit,
  read_stream stream after limit db' = read_stream stream after limit quiet.
Proof.
  destruct quiet_prepared as (a & db & path & p & _ & Hs & _). exists db. split; [exact Hs|].
  exact (proj1 (proj2 (proj2 (archive_transparent quiet db quiet_full (rtc_once _ _ Hs))))).
Defined.

