(* ===== verification/SessionReservation.v ===== *)
(** * SessionReservation: one writer per session (gateway/session_reservation.py)

    The registry lets one owner (a Run, a Finalize, a recovery, a refresh)
    change a session at a time, reentrantly.  It is three dictionaries guarded
    by one [asyncio.Condition]; each [async with self._condition] body runs
    without interruption up to its [wait()], so that it is one function of the
    state here, and a task that waits is a member of [sy_parked] until a
    [notify_all] moves it to [sy_ready]. *)

From S2P Require Import Prelude.

(* source: gateway/session_reservation.py SessionKey *)
Definition SessionKey : Type := string * string.

(* source: gateway/session_reservation.py SessionReservationRegistry.__init__ *)
Record Registry := mkRegistry {
  rg_owners : gmap SessionKey string;
  rg_owner_keys : gmap string (gset SessionKey);
  rg_depths : gmap (string * SessionKey) Z
}.
#[export] Instance eta_Registry : Eta Registry := λ r, mkRegistry (rg_owners r) (rg_owner_keys r) (rg_depths r).

Definition empty_registry : Registry := mkRegistry ∅ ∅ ∅.

(** One turn of the loop of [acquire]: [None] when another owner has the key. *)
(* source: gateway/session_reservation.py:37-44 SessionReservationRegistry.acquire *)
Definition try_acquire (key : SessionKey) (owner_id : string) (r : Registry) : option Registry :=
  if decide (rg_owners r !! key = None ∨ rg_owners r !! key = Some owner_id) then
    let depth_key := (owner_id, key) in
    Some (mkRegistry (<[key := owner_id]> (rg_owners r))
            (<[owner_id := {[key]} ∪ default ∅ (rg_owner_keys r !! owner_id)]> (rg_owner_keys r))
            (<[depth_key := default 0 (rg_depths r !! depth_key) + 1]> (rg_depths r)))
  else None.

(** [self._owners.pop(key)] if the key is still the owner's. *)
Definition drop_owner (key : SessionKey) (owner_id : string) (owners : gmap SessionKey string) :
    gmap SessionKey string :=
  if decide (owners !! key = Some owner_id) then delete key owners else owners.

(** The loop over the popped set; its order does not matter. *)
(* source: gateway/session_reservation.py:66-69 SessionReservationRegistry.release_owner *)
Definition release_keys (owner_id : string) (keys : list SessionKey) (r : Registry) : Registry :=
  foldl (λ r key, mkRegistry (drop_owner key owner_id (rg_owners r)) (rg_owner_keys r)
                    (delete (owner_id, key) (rg_depths r))) r keys.

(* source: gateway/session_reservation.py SessionReservationRegistry.release_owner *)
Definition release_owner (owner_id : string) (r : Registry) : Registry :=
  let keys := default ∅ (rg_owner_keys r !! owner_id) in
  release_keys owner_id (elements keys) (r ⟪ rg_owner_keys := delete owner_id (rg_owner_keys r) ⟫).

(** [keys.discard(key)], and the empty set is popped. *)
(* source: gateway/session_reservation.py:81-85 SessionReservationRegistry.release *)
Definition discard_key (key : SessionKey) (owner_id : string) (m : gmap string (gset SessionKey)) :
    gmap string (gset SessionKey) :=
  match m !! owner_id with
  | Some keys =>
      let rest := keys ∖ {[key]} in
      if decide (rest = ∅) then delete owner_id m else <[owner_id := rest]> m
  | None => m
  end.

(** The answer tells whether [notify_all] was called. *)
(* source: gateway/session_reservation.py SessionReservationRegistry.release *)
Definition release (key : SessionKey) (owner_id : string) (r : Registry) : Registry * bool :=
  let depth_key := (owner_id, key) in
  let depth := default 0 (rg_depths r !! depth_key) in
  if depth <=? 1 then
    (mkRegistry (drop_owner key owner_id (rg_owners r)) (discard_key key owner_id (rg_owner_keys r))
       (delete depth_key (rg_depths r)), true)
  else (r ⟪ rg_depths := <[depth_key := depth - 1]> (rg_depths r) ⟫, false).

(* source: gateway/session_reservation.py SessionReservationRegistry.is_reserved *)
Definition is_reserved (project_id session_id : string) (r : Registry) : bool :=
  is_some (rg_owners r !! ((project_id, session_id) : SessionKey)).

(* source: gateway/session_reservation.py SessionReservationRegistry.owner *)
Definition owner (project_id session_id : string) (r : Registry) : option string :=
  rg_owners r !! ((project_id, session_id) : SessionKey).

(* source: gateway/session_reservation.py SessionReservationRegistry.has_any *)
Definition has_any (r : Registry) : bool := negb (bool_decide (rg_owners r = ∅)).

(* source: gateway/session_reservation.py SessionReservationRegistry.busy_keys *)
Definition busy_keys (r : Registry) : gset SessionKey := dom (rg_owners r).

(** ** Tasks *)

(** [sy_parked]: inside [wait()]; [sy_ready]: notified, about to look again. *)
Record System := mkSystem {
  sy_registry : Registry;
  sy_parked : gmap string (SessionKey * string);
  sy_ready : gmap string (SessionKey * string)
}.
#[export] Instance eta_System : Eta System := λ s, mkSystem (sy_registry s) (sy_parked s) (sy_ready s).

Definition notify_all (s : System) : System :=
  mkSystem (sy_registry s) ∅ (sy_ready s ∪ sy_parked s).

(** One turn of [acquire] in a task; the error is [SessionReservationConflict]. *)
(* source: gateway/session_reservation.py SessionReservationRegistry.acquire *)
Definition acquire_turn (task : string) (key : SessionKey) (owner_id : string) (wait : bool) (s : System) :
    res (option SessionKey) * System :=
  match try_acquire key owner_id (sy_registry s) with
  | Some r => (Ok (Some key), (s ⟪ sy_registry := r ⟫) ⟪ sy_ready := delete task (sy_ready s) ⟫)
  | None =>
      if wait then (Ok None, mkSystem (sy_registry s) (<[task := (key, owner_id)]> (sy_parked s))
                               (delete task (sy_ready s)))
      else (Err (RuntimeError "SessionReservationConflict"), s)
  end.

(** [bind] hands its arguments to [acquire]; a caller that leaves [wait] out
    ([None]) does not wait. *)
(* source: gateway/session_reservation.py SessionReservationRegistry.bind *)
Definition bind_turn (task : string) (key : SessionKey) (owner_id : string) (wait : option bool)
    (s : System) : res (option SessionKey) * System :=
  acquire_turn task key owner_id (default false wait) s.

Definition release_turn (key : SessionKey) (owner_id : string) (s : System) : System :=
  let '(r, notified) := release key owner_id (sy_registry s) in
  let s' := s ⟪ sy_registry := r ⟫ in if notified : bool then notify_all s' else s'.

Definition release_owner_turn (owner_id : string) (s : System) : System :=
  notify_all (s ⟪ sy_registry := release_owner owner_id (sy_registry s) ⟫).

(** What the event loop may do next.  Any task may be cancelled while it waits. *)
Inductive turn : System → System → Prop :=
| turn_acquire task key owner_id wait s r s' :
    sy_parked s !! task = None → sy_ready s !! task = None →
    acquire_turn task key owner_id wait s = (r, s') → turn s s'
| turn_bind task key owner_id wait s r s' :
    sy_parked s !! task = None → sy_ready s !! task = None →
    bind_turn task key owner_id wait s = (r, s') → turn s s'
| turn_again task key owner_id s r s' :
    sy_ready s !! task = Some (key, owner_id) → acquire_turn task key owner_id true s = (r, s') → turn s s'
| turn_release key owner_id s : turn s (release_turn key owner_id s)
| turn_release_owner owner_id s : turn s (release_owner_turn owner_id s)
| turn_cancel task s :
    turn s (mkSystem (sy_registry s) (delete task (sy_parked s)) (delete task (sy_ready s))).

Definition idle : System := mkSystem empty_registry ∅ ∅.
Definition reachable_system (s : System) : Prop := rtc turn idle s.
