(* ===== verification/Reservations.v ===== *)
(** * Reservations: what the session registry promises

    The abstract registry is one map from a key to its owner and the number of
    levels the owner holds.  The three dictionaries of the code implement it;
    nothing inside a reservation drops it; no wake-up is lost. *)

From S2P Require Import Prelude SessionReservation.

(** ** The abstract registry *)

Notation Holdings := (gmap SessionKey (string * Z)).

Definition spec_acquire (key : SessionKey) (owner_id : string) (h : Holdings) : option Holdings :=
  match h !! key with
  | None => Some (<[key := (owner_id, 1)]> h)
  | Some (o, n) => if decide (o = owner_id) then Some (<[key := (o, n + 1)]> h) else None
  end.
Definition spec_release (key : SessionKey) (owner_id : string) (h : Holdings) : Holdings :=
  match h !! key with
  | Some (o, n) =>
      if decide (o = owner_id) then if n <=? 1 then delete key h else <[key := (o, n - 1)]> h else h
  | None => h
  end.
Definition spec_release_owner (owner_id : string) (h : Holdings) : Holdings :=
  filter (λ kv, kv.2.1 ≠ owner_id) h.

Definition holdings (r : Registry) : Holdings :=
  map_imap (λ key o, Some (o, default 0 (rg_depths r !! (o, key)))) (rg_owners r).

Lemma holdings_lookup r key :
  holdings r !! key = (λ o, (o, default 0 (rg_depths r !! (o, key)))) <$> rg_owners r !! key.
Proof. unfold holdings. rewrite map_lookup_imap. by destruct (_ !! key). Qed.

(** ** The three dictionaries agree *)

Record registry_ok (r : Registry) : Prop := {
  rk_depth : ∀ key o, rg_owners r !! key = Some o → ∃ n, rg_depths r !! (o, key) = Some n ∧ 1 ≤ n;
  rk_owner : ∀ key o n, rg_depths r !! (o, key) = Some n → rg_owners r !! key = Some o;
  rk_keys : ∀ key o, key ∈ default ∅ (rg_owner_keys r !! o) ↔ rg_owners r !! key = Some o;
  rk_nonempty : ∀ o keys, rg_owner_keys r !! o = Some keys → keys ≠ ∅
}.

Lemma empty_ok : registry_ok empty_registry.
Proof. split; cbn; intros *; rewrite ?lookup_empty; set_solver. Qed.

Lemma drop_owner_lookup key o owners key' :
  drop_owner key o owners !! key' =
    if decide (key' = key ∧ owners !! key = Some o) then None else owners !! key'.
Proof.
  unfold drop_owner. destruct (decide (owners !! key = Some o)) as [E|E].
  - destruct (decide (key' = key)) as [->|Hne].
    + rewrite decide_True by done. apply lookup_delete_eq.
    + rewrite decide_False by tauto. by rewrite lookup_delete_ne.
  - rewrite decide_False by tauto. done.
Qed.

Lemma discard_key_keys key o m key' o' :
  key' ∈ default ∅ (discard_key key o m !! o') ↔ key' ∈ default ∅ (m !! o') ∧ ¬ (key' = key ∧ o' = o).
Proof.
  unfold discard_key. destruct (m !! o) as [keys|] eqn:E.
  - destruct (decide (o' = o)) as [->|Hne].
    + case_decide as Hr; [rewrite lookup_delete_eq|rewrite lookup_insert_eq]; rewrite E; cbn; set_solver.
    + case_decide as Hr; [rewrite lookup_delete_ne by done|rewrite lookup_insert_ne by done]; set_solver.
  - destruct (decide (o' = o)) as [->|Hne]; [rewrite E; cbn|]; set_solver.
Qed.
Lemma discard_key_nonempty key o m o' keys :
  (∀ o keys, m !! o = Some keys → keys ≠ ∅) → discard_key key o m !! o' = Some keys → keys ≠ ∅.
Proof.
  intros Hm. unfold discard_key. destruct (m !! o) as [ks|] eqn:E; [|apply Hm]. case_decide as Hr.
  - intros [_ H]%lookup_delete_Some. by eapply Hm.
  - intros [[<- <-]|[_ H]]%lookup_insert_Some; [done|]. by eapply Hm.
Qed.

Lemma depths_pair (o o' : string) (key key' : SessionKey) : (o, key) ≠ (o', key') ↔ o ≠ o' ∨ key ≠ key'.
Proof. destruct (decide (o = o')), (decide (key = key')); intuition congruence. Qed.

(** ** Acquiring *)

Lemma try_acquire_ok key o r r' : registry_ok r → try_acquire key o r = Some r' → registry_ok r'.
Proof.
  intros [D O K N]. unfold try_acquire. case_decide as Hf; [|done]. intros [= <-]. split; cbn.
  - intros k p [[<- <-]|[Hne Hk]]%lookup_insert_Some.
    + rewrite lookup_insert_eq. eexists. split; [done|].
      destruct Hf as [Hf|(n & -> & Hn)%D]; [|cbn; lia].
      destruct (rg_depths r !! (o, key)) eqn:E; [apply O in E; congruence|cbn; lia].
    + rewrite lookup_insert_ne by (apply depths_pair; auto). by apply D.
  - intros k p n [[[= <- <-] _]|[Hne Hk]]%lookup_insert_Some; [by rewrite lookup_insert_eq|].
    apply O in Hk. destruct (decide (key = k)) as [->|]; [|by rewrite lookup_insert_ne].
    destruct Hf as [Hf|Hf]; congruence.
  - intros k p. destruct (decide (o = p)) as [->|Hp].
    + rewrite lookup_insert_eq. cbn. rewrite elem_of_union, elem_of_singleton, K, lookup_insert_Some.
      destruct (decide (key = k)) as [->|]; [|naive_solver].
      split; [auto|]. intros _. by left.
    + rewrite lookup_insert_ne by done. rewrite K, lookup_insert_Some.
      destruct (decide (key = k)) as [->|]; [|naive_solver].
      split; [intros H; destruct Hf; congruence|intros [[_ H]|[H _]]; congruence].
  - intros p keys [[<- <-]|[_ H]]%lookup_insert_Some; [set_solver|]. by eapply N.
Qed.

Lemma try_acquire_spec key o r :
  registry_ok r → holdings <$> try_acquire key o r = spec_acquire key o (holdings r).
Proof.
  intros R. unfold try_acquire, spec_acquire. rewrite holdings_lookup.
  assert (∀ n, n = default 0 (rg_depths r !! (o, key)) + 1 →
    holdings (mkRegistry (<[key := o]> (rg_owners r))
      (<[o := {[key]} ∪ default ∅ (rg_owner_keys r !! o)]> (rg_owner_keys r)) (<[(o, key) := n]> (rg_depths r)))
    = <[key := (o, n)]> (holdings r)) as Hins.
  { intros n _. apply map_eq. intros k. rewrite holdings_lookup. cbn.
    destruct (decide (k = key)) as [->|Hne]; [rewrite !lookup_insert_eq; cbn; by rewrite lookup_insert_eq|].
    rewrite !lookup_insert_ne by done. rewrite holdings_lookup. destruct (rg_owners r !! k); [|done]. cbn.
    by rewrite lookup_insert_ne by (apply depths_pair; auto). }
  destruct (rg_owners r !! key) as [p|] eqn:E; cbn.
  - destruct (decide (p = o)) as [->|Hne].
    + rewrite decide_True by auto. cbn. by rewrite Hins.
    + by rewrite decide_False by naive_solver.
  - rewrite decide_True by auto. cbn. rewrite Hins by done.
    destruct (rg_depths r !! (o, key)) eqn:Ed; [apply (rk_owner _ R) in Ed; congruence|done].
Qed.

(** ** Releasing *)

Lemma release_ok key o r : registry_ok r → registry_ok (release key o r).1.
Proof.
  intros [D O K N]. unfold release. destruct (_ <=? 1) eqn:Ed; cbn.
  - split; cbn.
    + intros k p. rewrite drop_owner_lookup. case_decide as Hc; [done|]. intros Hk.
      rewrite lookup_delete_ne; [by apply D|]. intros [= -> ->]. tauto.
    + intros k p n [Hne Hk]%lookup_delete_Some. apply O in Hk. rewrite drop_owner_lookup.
      rewrite decide_False; [done|]. intros [-> E]. congruence.
    + intros k p. rewrite discard_key_keys, K, drop_owner_lookup. case_decide as Hc; [|naive_solver].
      destruct Hc as [-> E]. naive_solver.
    + intros p keys. by apply discard_key_nonempty.
  - split; cbn; [| |done|done].
    + intros k p Hk. destruct (D _ _ Hk) as (n & Hn & Hp).
      destruct (decide ((o, key) = (p, k))) as [[= -> ->]|Hne].
      * rewrite lookup_insert_eq. eexists. split; [done|]. apply Z.leb_gt in Ed. lia.
      * rewrite lookup_insert_ne by done. eauto.
    + intros k p n [[[= <- <-] _]|[_ Hk]]%lookup_insert_Some; [|by eapply O].
      destruct (rg_depths r !! (o, key)) eqn:E; [by eapply O|]. cbn in Ed. done.
Qed.

Lemma release_spec key o r : registry_ok r → holdings (release key o r).1 = spec_release key o (holdings r).
Proof.
  intros R. unfold release, spec_release. rewrite holdings_lookup. apply map_eq. intros k.
  destruct (_ <=? 1) eqn:Ed; cbn; rewrite holdings_lookup; cbn.
  - rewrite drop_owner_lookup. destruct (rg_owners r !! key) as [p|] eqn:E; cbn.
    + destruct (decide (p = o)) as [->|Hne].
      * rewrite Ed. destruct (decide (k = key)) as [->|Hk].
        { by rewrite decide_True, lookup_delete_eq. }
        rewrite decide_False by tauto. rewrite lookup_delete_ne, holdings_lookup by done.
        destruct (rg_owners r !! k); [|done]. cbn. by rewrite lookup_delete_ne by (apply depths_pair; auto).
      * rewrite decide_False by naive_solver. rewrite holdings_lookup.
        destruct (rg_owners r !! k) as [q|] eqn:Eq; [|done]. cbn.
        rewrite lookup_delete_ne; [done|]. intros [= <- <-]. congruence.
    + rewrite decide_False by naive_solver. rewrite holdings_lookup.
      destruct (rg_owners r !! k) as [q|] eqn:Eq; [|done]. cbn.
      rewrite lookup_delete_ne; [done|]. intros [= <- <-]. congruence.
  - destruct (rg_depths r !! (o, key)) as [n|] eqn:En; [|done]. rewrite (rk_owner _ R _ _ _ En). cbn in *.
    rewrite decide_True by done. rewrite En. cbn. rewrite Ed. destruct (decide (k = key)) as [->|Hk]; cbn.
    + by rewrite (rk_owner _ R _ _ _ En), lookup_insert_eq; cbn; rewrite lookup_insert_eq.
    + rewrite lookup_insert_ne, holdings_lookup by done. destruct (rg_owners r !! k); [|done]. cbn.
      by rewrite lookup_insert_ne by (apply depths_pair; auto).
Qed.

(** ** Releasing everything an owner has *)

Lemma release_keys_parts o keys : ∀ r, NoDup keys →
  rg_owner_keys (release_keys o keys r) = rg_owner_keys r ∧
  (∀ k, rg_owners (release_keys o keys r) !! k =
     if decide (k ∈ keys ∧ rg_owners r !! k = Some o) then None else rg_owners r !! k) ∧
  (∀ p k, rg_depths (release_keys o keys r) !! (p, k) =
     if decide (k ∈ keys ∧ p = o) then None else rg_depths r !! (p, k)).
Proof.
  unfold release_keys. induction keys as [|key keys IH]; intros r Hnd.
  { split; [done|]. split; intros *; by rewrite decide_False by (intros [H _]; by apply elem_of_nil in H). }
  apply NoDup_cons in Hnd as [Hni Hnd]. cbn [foldl].
  destruct (IH (mkRegistry (drop_owner key o (rg_owners r)) (rg_owner_keys r) (delete (o, key) (rg_depths r))) Hnd)
    as (E1 & E2 & E3). split; [done|]. split; intros *.
  - rewrite E2. cbn. rewrite drop_owner_lookup. repeat case_decide; try done; set_solver.
  - rewrite E3. cbn. destruct (decide ((o, key) = (p, k))) as [[= <- <-]|Hne].
    + rewrite lookup_delete_eq. repeat case_decide; try done; set_solver.
    + rewrite lookup_delete_ne by done. repeat case_decide; try done; [set_solver|].
      exfalso. match goal with H : _ ∧ p = o |- _ => destruct H as [[->|]%elem_of_cons ->] end; [done|tauto].
Qed.

Section release_owner.
Context (o : string) (r : Registry) (R : registry_ok r).

Lemma release_owner_owners k :
  rg_owners (release_owner o r) !! k = if decide (rg_owners r !! k = Some o) then None else rg_owners r !! k.
Proof using R.
  unfold release_owner. destruct (release_keys_parts o (elements (default ∅ (rg_owner_keys r !! o)))
    (r ⟪ rg_owner_keys := delete o (rg_owner_keys r) ⟫) (NoDup_elements _)) as (_ & -> & _). cbn.
  pose proof (rk_keys _ R k o) as Hk. repeat case_decide; try done; rewrite elem_of_elements in *; tauto.
Qed.
Lemma release_owner_depths p k :
  rg_depths (release_owner o r) !! (p, k) = if decide (p = o) then None else rg_depths r !! (p, k).
Proof using R.
  unfold release_owner. destruct (release_keys_parts o (elements (default ∅ (rg_owner_keys r !! o)))
    (r ⟪ rg_owner_keys := delete o (rg_owner_keys r) ⟫) (NoDup_elements _)) as (_ & _ & ->). cbn.
  pose proof (rk_keys _ R k o) as Hk. repeat case_decide; try done; [tauto|]. subst.
  destruct (rg_depths r !! (o, k)) eqn:E; [|done]. apply (rk_owner _ R) in E. rewrite elem_of_elements in *. tauto.
Qed.
Lemma release_owner_keys : rg_owner_keys (release_owner o r) = delete o (rg_owner_keys r).
Proof. exact (proj1 (release_keys_parts o _ _ (NoDup_elements _))). Qed.

Lemma release_owner_ok : registry_ok (release_owner o r).
Proof using R.
  destruct R as [D O K N]. split.
  - intros k p. rewrite release_owner_owners, release_owner_depths. repeat case_decide; try done; [congruence|apply D].
  - intros k p n. rewrite release_owner_owners, release_owner_depths. case_decide; [done|]. intros Hd%O.
    rewrite decide_False by congruence. done.
  - intros k p. rewrite release_owner_owners, release_owner_keys. destruct (decide (p = o)) as [->|Hne].
    + rewrite lookup_delete_eq. case_decide; set_solver.
    + rewrite lookup_delete_ne, K by done. case_decide; [|done]. split; [congruence|done].
  - intros p keys. rewrite release_owner_keys. intros [_ Hk]%lookup_delete_Some. by eapply N.
Qed.

Lemma release_owner_spec : holdings (release_owner o r) = spec_release_owner o (holdings r).
Proof using R.
  apply map_eq. intros k. rewrite holdings_lookup, release_owner_owners. unfold spec_release_owner.
  rewrite map_lookup_filter, holdings_lookup. destruct (rg_owners r !! k) as [p|] eqn:E; [|by case_decide].
  destruct (decide (p = o)) as [->|Hne]; cbn.
  - rewrite decide_True by done. by rewrite option_guard_False by tauto.
  - rewrite decide_False by congruence. cbn. rewrite release_owner_depths, decide_False by done.
    by rewrite option_guard_True by done.
Qed.
End release_owner.

(** ** Every state of the event loop *)

Definition parked_ok (s : System) : Prop :=
  ∀ task key o, sy_parked s !! task = Some (key, o) →
    sy_ready s !! task = None ∧ ∃ p, rg_owners (sy_registry s) !! key = Some p ∧ p ≠ o.

(** Acquiring never gives a key away, so that nobody parked becomes entitled. *)
Lemma acquire_keeps_owner key o r r' k p :
  try_acquire key o r = Some r' → rg_owners r !! k = Some p → rg_owners r' !! k = Some p.
Proof.
  unfold try_acquire. case_decide as Hf; [|done]. intros [= <-] Hk. cbn.
  destruct (decide (key = k)) as [->|]; [|by rewrite lookup_insert_ne].
  rewrite lookup_insert_eq. destruct Hf; congruence.
Qed.

Lemma acquire_turn_ok task key o wait s r s' :
  registry_ok (sy_registry s) → parked_ok s → acquire_turn task key o wait s = (r, s') →
  registry_ok (sy_registry s') ∧ parked_ok s'.
Proof.
  intros R P. unfold acquire_turn. destruct (try_acquire key o (sy_registry s)) as [reg|] eqn:E.
  - intros [= <- <-]. cbn. split; [by eapply try_acquire_ok|]. intros t k p Ht. cbn in *.
    destruct (P _ _ _ Ht) as (Hr & q & Hq & Hne). split; [by apply lookup_delete_None; right|].
    exists q. split; [by eapply acquire_keeps_owner|done].
  - destruct wait; intros [= <- <-]; [|done]. cbn. split; [done|]. intros t k p Ht. cbn in *.
    apply lookup_insert_Some in Ht as [[-> [= -> ->]]|[_ Ht]].
    2:{ destruct (P _ _ _ Ht) as [Hr Hp]. split; [by apply lookup_delete_None; right|done]. }
    split; [apply lookup_delete_eq|].
    unfold try_acquire in E. case_decide as Hf; [done|].
    destruct (rg_owners (sy_registry s) !! k) as [q|]; [|tauto]. exists q. split; [done|]. intros ->. tauto.
Qed.

Lemma release_kept key o r : (release key o r).2 = false → rg_owners (release key o r).1 = rg_owners r.
Proof. unfold release. by destruct (_ <=? 1). Qed.

Lemma turn_ok s s' : registry_ok (sy_registry s) ∧ parked_ok s → turn s s' → registry_ok (sy_registry s') ∧ parked_ok s'.
Proof.
  intros [R P]. destruct 1 as [task key o wait s r s' _ _ H|task key o wait s r s' _ _ H|task key o s r s' _ H|key o s|o s|task s].
  - by eapply acquire_turn_ok.
  - unfold bind_turn in H. by eapply acquire_turn_ok.
  - by eapply acquire_turn_ok.
  - unfold release_turn. pose proof (release_ok key o _ R) as R'. pose proof (release_kept key o (sy_registry s)) as Ko.
    destruct (release key o (sy_registry s)) as [reg [|]]; cbn in *; (split; [done|]).
    + intros t k p; cbn; by rewrite lookup_empty.
    + intros t k p Ht. cbn in *. rewrite Ko by done. by eapply P.
  - cbn. split; [by apply release_owner_ok|]. intros t k p; cbn; by rewrite lookup_empty.
  - cbn. split; [done|]. intros t k p Ht. cbn in *. apply lookup_delete_Some in Ht as [_ Ht].
    destruct (P _ _ _ Ht) as [Hr Hp]. split; [by apply lookup_delete_None; right|done].
Qed.

Lemma reachable_ok s : reachable_system s → registry_ok (sy_registry s) ∧ parked_ok s.
Proof.
  intros H. unfold reachable_system in H.
  assert (registry_ok (sy_registry idle) ∧ parked_ok idle) as I.
  { split; [apply empty_ok|]. intros t k p; cbn; by rewrite lookup_empty. }
  induction H as [|x y z Hxy _ IH]; [done|]. apply IH. by eapply turn_ok.
Qed.

(** ** Inside a reservation *)

(** The levels an owner holds. *)
Definition held (key : SessionKey) (o : string) (r : Registry) : Z :=
  match holdings r !! key with Some (p, n) => if decide (p = o) then n else 0 | None => 0 end.

(** What may happen inside [async with reserve(...)] of an owner: other owners
    do anything; the owner itself opens and closes further reservations. *)
Inductive inside (o : string) : Registry → Registry → Prop :=
| inside_done r : inside o r r
| inside_acquire key p r r' : p ≠ o → try_acquire key p r = Some r' → inside o r r'
| inside_release key p r : p ≠ o → inside o r (release key p r).1
| inside_release_owner p r : p ≠ o → inside o r (release_owner p r)
| inside_reserve key r r1 r2 : try_acquire key o r = Some r1 → inside o r1 r2 → inside o r (release key o r2).1
| inside_then r1 r2 r3 : inside o r1 r2 → inside o r2 r3 → inside o r1 r3.

Lemma held_try_acquire key p r r' k o :
  registry_ok r → try_acquire key p r = Some r' →
  held k o r' = held k o r + (if decide (k = key ∧ p = o) then 1 else 0).
Proof.
  intros R H. pose proof (try_acquire_spec key p r R) as E. rewrite H in E. cbn in E. unfold held.
  symmetry in E. unfold spec_acquire in E.
  destruct (holdings r !! key) as [[q n]|] eqn:Eh.
  - case_decide as Hq; [|done]. injection E as <-. subst q. destruct (decide (k = key)) as [->|Hk].
    + rewrite lookup_insert_eq, Eh. repeat case_decide; intuition lia.
    + rewrite lookup_insert_ne by done. rewrite (decide_False (P := k = key ∧ _)) by tauto. lia.
  - injection E as <-. destruct (decide (k = key)) as [->|Hk].
    + rewrite lookup_insert_eq, Eh. repeat case_decide; intuition lia.
    + rewrite lookup_insert_ne by done. rewrite (decide_False (P := k = key ∧ _)) by tauto. lia.
Qed.

Lemma holdings_positive r key p n : registry_ok r → holdings r !! key = Some (p, n) → 1 ≤ n.
Proof.
  intros R. rewrite holdings_lookup. destruct (rg_owners r !! key) as [q|] eqn:E; [|done]. intros [= <- <-].
  destruct (rk_depth _ R _ _ E) as (m & -> & Hm). done.
Qed.

Lemma held_release key p r k o :
  registry_ok r →
  held k o (release key p r).1 = if decide (k = key ∧ p = o) then Z.max 0 (held k o r - 1) else held k o r.
Proof.
  intros R. unfold held. rewrite release_spec by done. unfold spec_release.
  destruct (holdings r !! key) as [[q n]|] eqn:Eh.
  - pose proof (holdings_positive _ _ _ _ R Eh) as Hn. destruct (decide (q = p)) as [->|Hq].
    + destruct (decide (k = key)) as [->|Hk].
      * destruct (n <=? 1) eqn:En; [rewrite lookup_delete_eq|rewrite lookup_insert_eq]; rewrite Eh;
          [apply Z.leb_le in En|apply Z.leb_gt in En]; repeat case_decide; intuition lia.
      * rewrite (decide_False (P := k = key ∧ _)) by tauto.
        destruct (n <=? 1); [by rewrite lookup_delete_ne|by rewrite lookup_insert_ne].
    + destruct (decide (k = key ∧ p = o)) as [[-> ->]|]; [|done]. rewrite Eh. by rewrite decide_False.
  - destruct (decide (k = key ∧ p = o)) as [[-> ->]|]; [|done]. by rewrite Eh.
Qed.

Lemma held_release_owner p r k o :
  registry_ok r → p ≠ o → held k o (release_owner p r) = held k o r.
Proof.
  intros R Hp. unfold held. rewrite release_owner_spec by done. unfold spec_release_owner. rewrite map_lookup_filter.
  destruct (holdings r !! k) as [[q n]|]; [|done]. cbn. destruct (decide (q = p)) as [->|Hq].
  - rewrite option_guard_False by tauto. cbn. by rewrite decide_False.
  - by rewrite option_guard_True.
Qed.

Lemma inside_keeps o r r' :
  inside o r r' → registry_ok r → registry_ok r' ∧ ∀ key, held key o r' = held key o r.
Proof.
  induction 1 as [r|key p r r' Hp H|key p r Hp|p r Hp|key r r1 r2 H _ IH|r1 r2 r3 _ IH1 _ IH2]; intros R.
  - done.
  - split; [by eapply try_acquire_ok|]. intros k. rewrite (held_try_acquire _ _ _ _ k o R H).
    rewrite decide_False by naive_solver. lia.
  - split; [by apply release_ok|]. intros k. rewrite held_release by done. by rewrite decide_False by naive_solver.
  - split; [by apply release_owner_ok|]. intros k. by apply held_release_owner.
  - destruct IH as [R2 E]; [by eapply try_acquire_ok|]. split; [by apply release_ok|]. intros k.
    rewrite held_release, E, (held_try_acquire _ _ _ _ k o R H) by done.
    assert (0 ≤ held k o r).
    { unfold held. destruct (holdings r !! k) as [[q n]|] eqn:Eh; [|done].
      pose proof (holdings_positive _ _ _ _ R Eh). case_decide; lia. }
    case_decide; lia.
  - destruct IH1 as [R2 E1]; [done|]. destruct IH2 as [R3 E2]; [done|]. split; [done|]. intros k. by rewrite E2.
Qed.

(** ** Claims *)

(** The three dictionaries implement one map from sessions to
    their owner and level.  In every state the event loop can reach, acquiring,
    releasing one level and releasing everything act on that map as the
    abstract registry does, also when they are refused, and the readers answer
    from it; so a session has one owner, who holds a positive number of
    levels. *)
Lemma registry_refines s :
  reachable_system s →
  let r := sy_registry s in
  (∀ key o, holdings <$> try_acquire key o r = spec_acquire key o (holdings r)) ∧
  (∀ key o, holdings (release key o r).1 = spec_release key o (holdings r)) ∧
  (∀ o, holdings (release_owner o r) = spec_release_owner o (holdings r)) ∧
  (∀ project session, owner project session r = fst <$> holdings r !! ((project, session) : SessionKey)) ∧
  (∀ project session, is_reserved project session r = is_some (holdings r !! ((project, session) : SessionKey))) ∧
  busy_keys r = dom (holdings r) ∧
  (has_any r = true ↔ holdings r ≠ ∅) ∧
  ∀ key o n, holdings r !! key = Some (o, n) → 1 ≤ n.
Proof.
  intros [R _]%reachable_ok r. subst r. set (r := sy_registry s) in *.
  split; [intros; by apply try_acquire_spec|]. split; [intros; by apply release_spec|].
  split; [intros; by apply release_owner_spec|].
  split. { intros p ss. unfold owner. rewrite holdings_lookup. by destruct (rg_owners r !! ((p, ss) : SessionKey)). }
  split. { intros p ss. unfold is_reserved. rewrite holdings_lookup. by destruct (rg_owners r !! ((p, ss) : SessionKey)). }
  assert (∀ k, holdings r !! k = None ↔ rg_owners r !! k = None) as Hn.
  { intros k. rewrite holdings_lookup. by destruct (rg_owners r !! k). }
  split. { apply set_eq. intros k. unfold busy_keys. rewrite !elem_of_dom, <- !not_eq_None_Some. by rewrite Hn. }
  split. { unfold has_any. rewrite negb_true_iff, bool_decide_eq_false, !map_empty.
    split; intros E E'; apply E; intros k; by apply Hn. }
  intros. by eapply holdings_positive.
Qed.

(** C40: no wake-up is lost.  A task that waits for a session
    without having been notified waits for one another owner holds; when that
    owner gives the session up, by releasing its last level or all it has, the
    task is notified; and a notified task that looks again while the session
    is free gets it. *)
Theorem no_lost_wakeup s task key o :
  reachable_system s → sy_parked s !! task = Some (key, o) →
  ∃ p n, p ≠ o ∧ holdings (sy_registry s) !! key = Some (p, n) ∧
    (n = 1 → sy_ready (release_turn key p s) !! task = Some (key, o)) ∧
    sy_ready (release_owner_turn p s) !! task = Some (key, o) ∧
    ∀ s', reachable_system s' → sy_ready s' !! task = Some (key, o) →
      holdings (sy_registry s') !! key = None →
      ∃ s2, acquire_turn task key o true s' = (Ok (Some key), s2) ∧ turn s' s2 ∧
        holdings (sy_registry s2) !! key = Some (o, 1).
Proof.
  intros Hs Ht. destruct (reachable_ok _ Hs) as [R P]. destruct (P _ _ _ Ht) as (Hr0 & p & Hp & Hne).
  destruct (rk_depth _ R _ _ Hp) as (n & Hn & Hpos). exists p, n. split; [done|].
  split; [rewrite holdings_lookup, Hp; cbn; by rewrite Hn|].
  assert ((sy_ready s ∪ sy_parked s) !! task = Some (key, o)) as Hu by by rewrite lookup_union_r.
  split. { intros ->. unfold release_turn, release. rewrite Hn. cbn. exact Hu. }
  split; [exact Hu|]. intros s' [R' _]%reachable_ok Hr Hfree.
  assert (rg_owners (sy_registry s') !! key = None) as Hf.
  { rewrite holdings_lookup in Hfree. by destruct (rg_owners (sy_registry s') !! key). }
  pose proof (try_acquire_spec key o _ R') as Hspec. unfold spec_acquire in Hspec. rewrite Hfree in Hspec.
  unfold acquire_turn. destruct (try_acquire key o (sy_registry s')) as [reg|] eqn:E; [|done].
  injection Hspec as Hspec. eexists. split; [done|]. split; [|cbn; by rewrite Hspec, lookup_insert_eq].
  eapply turn_again; [exact Hr|]. unfold acquire_turn. by rewrite E.
Qed.

(** C39: a reservation is exclusive and gives back exactly what it
    took.  While an owner is inside it, whatever the other owners do and
    whatever further reservations the owner itself opens and closes, the
    session is the owner's and nobody else's attempt succeeds; when it leaves,
    the owner holds on every session the levels it held before, and a session
    it did not hold before is free again. *)
Theorem reservation_exclusive key o r r1 r2 :
  (∃ s, reachable_system s ∧ sy_registry s = r) → try_acquire key o r = Some r1 → inside o r1 r2 →
  rg_owners r2 !! key = Some o ∧
  (∀ p, p ≠ o → try_acquire key p r2 = None) ∧
  (∀ k, held k o (release key o r2).1 = held k o r) ∧
  (held key o r = 0 → rg_owners (release key o r2).1 !! key = None).
Proof.
  intros (s & [R _]%reachable_ok & <-) H Hin. set (r := sy_registry s) in *.
  assert (registry_ok r1) as R1 by by eapply try_acquire_ok.
  destruct (inside_keeps _ _ _ Hin R1) as [R2 E2].
  assert (0 ≤ held key o r) as H0.
  { unfold held. destruct (holdings r !! key) as [[q n]|] eqn:Eh; [|done].
    pose proof (holdings_positive _ _ _ _ R Eh). case_decide; lia. }
  assert (held key o r2 = held key o r + 1) as Hk.
  { rewrite E2, (held_try_acquire _ _ _ _ key o R H). by rewrite decide_True. }
  assert (rg_owners r2 !! key = Some o) as Ho.
  { unfold held in Hk at 1. rewrite holdings_lookup in Hk.
    destruct (rg_owners r2 !! key) as [q|]; cbn in Hk; [|lia]. case_decide as Hq; [by rewrite Hq|lia]. }
  split; [done|]. split.
  { intros p Hp. unfold try_acquire. rewrite Ho. rewrite decide_False; [done|]. intros [?|[= ->]]; done. }
  assert (inside o r (release key o r2).1) as Hall by by eapply inside_reserve.
  destruct (inside_keeps _ _ _ Hall R) as [R3 E3]. split; [exact E3|]. intros Hz.
  assert (holdings (release key o r2).1 !! key = None) as Hn.
  { rewrite release_spec by done. unfold spec_release. rewrite holdings_lookup, Ho. cbn.
    rewrite decide_True by done. destruct (rk_depth _ R2 _ _ Ho) as (n & Hn & Hp). rewrite Hn. cbn.
    assert (n = 1) as ->; [|apply lookup_delete_eq].
    unfold held in Hk at 1. rewrite holdings_lookup, Ho in Hk. cbn in Hk. rewrite decide_True, Hn in Hk by done.
    cbn in Hk. lia. }
  rewrite holdings_lookup in Hn. by destruct (rg_owners (release key o r2).1 !! key).
Qed.

(** ** Two Runs on one session *)

Definition session_key : SessionKey := ("project", "session").
Definition taken : System := (acquire_turn "task-1" session_key "run-1" true idle).2.
Definition contended : System := (acquire_turn "task-2" session_key "run-2" true taken).2.

Lemma taken_reachable : reachable_system taken.
Proof. apply rtc_once. by eapply (turn_acquire "task-1" session_key "run-1" true), surjective_pairing. Qed.
Lemma contended_reachable : reachable_system contended.
Proof.
  eapply rtc_r; [exact taken_reachable|].
  by eapply (turn_acquire "task-2" session_key "run-2" true), surjective_pairing.
Qed.

Lemma no_lost_wakeup_witness : ∃ p n, p ≠ "run-2" ∧
  holdings (sy_registry contended) !! session_key = Some (p, n) ∧
  sy_ready (release_owner_turn p contended) !! "task-2" = Some (session_key, "run-2").
Proof.
  destruct (no_lost_wakeup contended "task-2" session_key "run-2" contended_reachable eq_refl)
    as (p & n & Hne & Hh & _ & Hr & _). exists p, n. auto.
Defined.

Lemma reservation_exclusive_witness : ∃ r1, try_acquire session_key "run-1" (sy_registry taken) = Some r1 ∧
  try_acquire session_key "run-2" r1 = None ∧
  ∀ k, held k "run-1" (release session_key "run-1" r1).1 = held k "run-1" (sy_registry taken).
Proof.
  destruct (try_acquire session_key "run-1" (sy_registry taken)) as [r1|] eqn:E; [|discriminate E].
  destruct (reservation_exclusive session_key "run-1" (sy_registry taken) r1 r1
    (ex_intro _ taken (conj taken_reachable eq_refl)) E (inside_done _ _)) as (_ & Hx & Hh & _).
  exists r1. split; [done|]. split; [by apply Hx|exact Hh].
Defined.
