(* ===== verification/CronModels.v ===== *)
(** * CronModels: the contracts of the job scheduler (cron/models.py)

    Aware times are instants: microseconds of UTC since 0001-01-01.
    [utc_iso] prints one at second precision, [parse_time] reads one back.
    Records have the validators pydantic runs when it builds or reads them. *)

From S2P Require Import Prelude PyText PyTime.

#[local] Open Scope Z_scope.

(* source: cron/models.py ScheduleKind *)
Inductive ScheduleKind := SK_interval | SK_once | SK_cron.
(* source: cron/models.py JobState *)
Inductive JobState := JS_scheduled | JS_paused | JS_completed | JS_deleted.
(* source: cron/models.py DispatchState *)
Inductive DispatchState :=
| DS_pending | DS_claimed | DS_running | DS_succeeded | DS_failed | DS_cancelled | DS_skipped
| DS_recovery_required.
(* source: cron/models.py DispatchState *)
Definition DispatchState_value (s : DispatchState) : string :=
  match s with
  | DS_pending => "pending" | DS_claimed => "claimed" | DS_running => "running" | DS_succeeded => "succeeded"
  | DS_failed => "failed" | DS_cancelled => "cancelled" | DS_skipped => "skipped"
  | DS_recovery_required => "recovery_required"
  end.
(* source: cron/models.py MisfirePolicy *)
Inductive MisfirePolicy := MP_skip | MP_fire_once | MP_catch_up.
(* source: cron/models.py SandboxPolicy *)
Inductive SandboxPolicy := SP_read_only | SP_checkpointed_workspace.
(* source: cron/models.py:151-151 CronDispatch.trigger *)
Inductive Trigger := TR_scheduled | TR_run_now | TR_retry | TR_legacy.
(* source: cron/models.py:80-80 CronRuntimeProfile.memory_access *)
Inductive MemoryAccess := MA_none | MA_project.
(* source: cron/models.py:93-93 HeartbeatState.status *)
Inductive HeartbeatStatus := HB_stopped | HB_running | HB_unhealthy.

#[export] Instance ScheduleKind_eq_dec : EqDecision ScheduleKind. Proof. solve_decision. Defined.
#[export] Instance JobState_eq_dec : EqDecision JobState. Proof. solve_decision. Defined.
#[export] Instance DispatchState_eq_dec : EqDecision DispatchState. Proof. solve_decision. Defined.
#[export] Instance MisfirePolicy_eq_dec : EqDecision MisfirePolicy. Proof. solve_decision. Defined.
#[export] Instance SandboxPolicy_eq_dec : EqDecision SandboxPolicy. Proof. solve_decision. Defined.
#[export] Instance Trigger_eq_dec : EqDecision Trigger. Proof. solve_decision. Defined.
#[export] Instance MemoryAccess_eq_dec : EqDecision MemoryAccess. Proof. solve_decision. Defined.
#[export] Instance HeartbeatStatus_eq_dec : EqDecision HeartbeatStatus. Proof. solve_decision. Defined.

(** ** Time *)

(** An aware datetime, converted to UTC. *)
Notation utc := Z (only parsing).

(* source: cron/models.py utc_iso *)
Definition utc_iso (t : utc) : string := isoformat (mkdatetime (t - t mod 1000000) None) +:+ "Z".

(** [astimezone(timezone.utc)] fails outside the years 1 to 9999. *)
(* source: cron/models.py parse_time *)
Definition parse_time (value : string) : res utc :=
  match fromisoformat (replace_Z value) with
  | None => Err (ValueError "invalid ISO 8601 timestamp")
  | Some dt =>
      match dt_utcoff dt with
      | None => Err (ValueError "time must include timezone")
      | Some _ =>
          let t := instant dt in
          if (0 <=? t) && (t <? max_local) then Ok t else Err (OverflowError "date value out of range")
      end
  end.

(** [t + timedelta(seconds=n)] *)
Definition add_seconds (t : utc) (n : Z) : res utc :=
  let t' := t + n * 1000000 in
  if (0 <=? t') && (t' <? max_local) then Ok t' else Err (OverflowError "date value out of range").

(** ** Schedules *)

Definition len_in (lo hi : Z) (s : string) : bool := (lo <=? py_len s) && (py_len s <=? hi).
Definition in_range (lo hi n : Z) : bool := (lo <=? n) && (n <=? hi).

(* source: cron/models.py CronSchedule *)
Record CronSchedule := mkCronSchedule {
  cs_kind : ScheduleKind;
  cs_interval_seconds : option Z;
  cs_run_at : option string;
  cs_expression : option string;
  cs_timezone : string
}.
#[export] Instance CronSchedule_eq_dec : EqDecision CronSchedule. Proof. solve_decision. Defined.

(* source: cron/models.py CronSchedule.validate_shape *)
Definition schedule_shape (s : CronSchedule) : bool :=
  match cs_kind s with
  | SK_interval => is_some (cs_interval_seconds s) && is_none (cs_run_at s) && is_none (cs_expression s)
  | SK_once =>
      match cs_run_at s with
      | Some t => is_none (cs_interval_seconds s) && is_none (cs_expression s) && is_ok (parse_time t)
      | None => false
      end
  | SK_cron => truthy (cs_expression s) && is_none (cs_interval_seconds s) && is_none (cs_run_at s)
  end.

(* source: cron/models.py:43-48 CronSchedule *)
Definition CronSchedule_valid (s : CronSchedule) : bool :=
  match cs_interval_seconds s with Some n => 60 <=? n | None => true end
  && len_in 1 100 (cs_timezone s) && schedule_shape s.

(** ** Profiles *)

(* source: cron/models.py CronResourceLimits *)
Record CronResourceLimits := mkCronResourceLimits {
  cl_timeout_seconds : Z;
  cl_max_turns : Z;
  cl_max_model_calls : Z;
  cl_max_tool_calls : Z;
  cl_token_budget : Z
}.
#[export] Instance CronResourceLimits_eq_dec : EqDecision CronResourceLimits. Proof. solve_decision. Defined.

(* source: cron/models.py:66-70 CronResourceLimits *)
Definition default_limits : CronResourceLimits := mkCronResourceLimits 1800 1 8 24 200000.
(* source: cron/models.py:66-70 CronResourceLimits *)
Definition CronResourceLimits_valid (l : CronResourceLimits) : bool :=
  in_range 30 86400 (cl_timeout_seconds l) && in_range 1 32 (cl_max_turns l)
  && in_range 1 200 (cl_max_model_calls l) && in_range 0 500 (cl_max_tool_calls l)
  && in_range 1000 10000000 (cl_token_budget l).

(* source: cron/models.py CronRuntimeProfile *)
Record CronRuntimeProfile := mkCronRuntimeProfile {
  cp_allowed_tools : list string;
  cp_allowed_skills : list string;
  cp_sandbox_policy : SandboxPolicy;
  cp_preapproved_tools : list string;
  cp_max_parallel_tool_calls : Z;
  cp_memory_access : MemoryAccess;
  cp_allowed_memory_kinds : list string;
  cp_limits : CronResourceLimits
}.
#[export] Instance CronRuntimeProfile_eq_dec : EqDecision CronRuntimeProfile. Proof. solve_decision. Defined.

Definition default_profile : CronRuntimeProfile :=
  mkCronRuntimeProfile [] [] SP_read_only [] 4 MA_none [] default_limits.

(* source: cron/models.py CronRuntimeProfile.validate_grants *)
Definition CronRuntimeProfile_valid (p : CronRuntimeProfile) : bool :=
  bool_decide (Forall (λ t, t ∈ cp_allowed_tools p) (cp_preapproved_tools p))
  && in_range 1 16 (cp_max_parallel_tool_calls p) && CronResourceLimits_valid (cp_limits p).

(* source: cron/models.py HeartbeatState *)
Record HeartbeatState := mkHeartbeatState {
  hb_status : HeartbeatStatus;
  hb_interval_seconds : Z;
  hb_last_tick_at : option string;
  hb_next_tick_at : option string;
  hb_last_error : option string
}.
#[export] Instance eta_HeartbeatState : Eta HeartbeatState := λ h,
  mkHeartbeatState (hb_status h) (hb_interval_seconds h) (hb_last_tick_at h) (hb_next_tick_at h) (hb_last_error h).
(* source: cron/models.py:94-94 HeartbeatState.interval_seconds *)
Definition HeartbeatState_valid (h : HeartbeatState) : bool := 5 <=? hb_interval_seconds h.

(** ** Jobs *)

(* source: cron/models.py CronJob *)
Record CronJob := mkCronJob {
  cj_job_id : string;
  cj_project_id : string;
  cj_name : string;
  cj_prompt : string;
  cj_schedule : CronSchedule;
  cj_state : JobState;
  cj_misfire_policy : MisfirePolicy;
  cj_runtime_profile : CronRuntimeProfile;
  cj_revision : Z;
  cj_created_at : string;
  cj_updated_at : string;
  cj_deleted_at : option string;
  cj_next_run_at : option string;
  cj_current_dispatch_id : option string;
  cj_current_run_id : option string;
  cj_last_run_at : option string;
  cj_last_run_id : option string;
  cj_last_session_id : option string;
  cj_last_status : option string;
  cj_last_error : option string;
  cj_last_success_at : option string;
  cj_last_success_run_id : option string;
  cj_last_failure_at : option string;
  cj_last_failure_run_id : option string;
  cj_consecutive_failures : Z;
  cj_missed_count : Z;
  cj_overlap_skipped : Z;
  cj_run_count : Z;
  cj_failure_count : Z
}.
#[export] Instance CronJob_eq_dec : EqDecision CronJob. Proof. solve_decision. Defined.
#[export] Instance eta_CronJob : Eta CronJob := λ j,
  mkCronJob (cj_job_id j) (cj_project_id j) (cj_name j) (cj_prompt j) (cj_schedule j) (cj_state j)
    (cj_misfire_policy j) (cj_runtime_profile j) (cj_revision j) (cj_created_at j) (cj_updated_at j)
    (cj_deleted_at j) (cj_next_run_at j) (cj_current_dispatch_id j) (cj_current_run_id j) (cj_last_run_at j)
    (cj_last_run_id j) (cj_last_session_id j) (cj_last_status j) (cj_last_error j) (cj_last_success_at j)
    (cj_last_success_run_id j) (cj_last_failure_at j) (cj_last_failure_run_id j) (cj_consecutive_failures j)
    (cj_missed_count j) (cj_overlap_skipped j) (cj_run_count j) (cj_failure_count j).

(* source: cron/models.py:103-131 CronJob *)
Definition CronJob_valid (j : CronJob) : bool :=
  nonempty (cj_job_id j) && nonempty (cj_project_id j) && len_in 1 120 (cj_name j)
  && len_in 1 20000 (cj_prompt j) && CronSchedule_valid (cj_schedule j)
  && CronRuntimeProfile_valid (cj_runtime_profile j) && (1 <=? cj_revision j)
  && (0 <=? cj_consecutive_failures j) && (0 <=? cj_missed_count j) && (0 <=? cj_overlap_skipped j)
  && (0 <=? cj_run_count j) && (0 <=? cj_failure_count j).

(** The constructor with the defaults of the class. *)
(* source: cron/models.py:103-131 CronJob *)
Definition new_job (job_id project_id name prompt : string) (schedule : CronSchedule) (policy : MisfirePolicy)
    (profile : CronRuntimeProfile) (timestamp : string) (next_run_at : option string) : CronJob :=
  mkCronJob job_id project_id name prompt schedule JS_scheduled policy profile 1 timestamp timestamp None
    next_run_at None None None None None None None None None None None 0 0 0 0 0.

(** ** Dispatches *)

(** [job_snapshot] is the dump of a job; it holds the job here. *)
(* source: cron/models.py CronDispatch *)
Record CronDispatch := mkCronDispatch {
  cd_dispatch_id : string;
  cd_job_id : string;
  cd_job_revision : Z;
  cd_trigger : Trigger;
  cd_scheduled_for : option string;
  cd_status : DispatchState;
  cd_coalesced_count : Z;
  cd_misfire_window_start : option string;
  cd_misfire_window_end : option string;
  cd_claim_token : option string;
  cd_claim_epoch : option string;
  cd_claim_expires_at : option string;
  cd_session_id : option string;
  cd_run_id : option string;
  cd_operation_id : option string;
  cd_attempt_id : option string;
  cd_retry_of_dispatch_id : option string;
  cd_job_snapshot : CronJob;
  cd_request_hash : string;
  cd_revision : Z;
  cd_result : option string;
  cd_error : option string;
  cd_created_at : string;
  cd_claimed_at : option string;
  cd_started_at : option string;
  cd_completed_at : option string
}.
#[export] Instance CronDispatch_eq_dec : EqDecision CronDispatch. Proof. solve_decision. Defined.
#[export] Instance eta_CronDispatch : Eta CronDispatch := λ d,
  mkCronDispatch (cd_dispatch_id d) (cd_job_id d) (cd_job_revision d) (cd_trigger d) (cd_scheduled_for d)
    (cd_status d) (cd_coalesced_count d) (cd_misfire_window_start d) (cd_misfire_window_end d)
    (cd_claim_token d) (cd_claim_epoch d) (cd_claim_expires_at d) (cd_session_id d) (cd_run_id d)
    (cd_operation_id d) (cd_attempt_id d) (cd_retry_of_dispatch_id d) (cd_job_snapshot d) (cd_request_hash d)
    (cd_revision d) (cd_result d) (cd_error d) (cd_created_at d) (cd_claimed_at d) (cd_started_at d)
    (cd_completed_at d).

(* source: cron/models.py:180-180 CronDispatch.validate_binding *)
Definition bound_status (s : DispatchState) : bool :=
  match s with DS_running | DS_succeeded | DS_failed | DS_recovery_required => true | _ => false end.

(* source: cron/models.py CronDispatch.validate_binding *)
Definition validate_binding (d : CronDispatch) : bool :=
  negb (bool_decide (cd_status d = DS_claimed) && is_some (cd_run_id d))
  && (negb (bound_status (cd_status d))
      || truthy (cd_session_id d) && truthy (cd_run_id d) && truthy (cd_operation_id d) && truthy (cd_attempt_id d)).

(* source: cron/models.py:148-173 CronDispatch *)
Definition CronDispatch_valid (d : CronDispatch) : bool :=
  (1 <=? cd_job_revision d) && (1 <=? cd_coalesced_count d) && (1 <=? cd_revision d) && validate_binding d.

(** Reading a row back runs the validators. *)
Definition valid_job (j : CronJob) : res CronJob :=
  if CronJob_valid j then Ok j else Err (ValidationError "CronJob").
Definition valid_dispatch (d : CronDispatch) : res CronDispatch :=
  if CronDispatch_valid d then Ok d else Err (ValidationError "CronDispatch").

(* source: cron/models.py CronPreview *)
Record CronPreview := mkCronPreview { pv_schedule : CronSchedule; pv_next_runs : list string }.

(* source: cron/models.py CronStatus *)
Record CronStatus := mkCronStatus {
  ct_healthy : bool;
  ct_heartbeat : HeartbeatState;
  ct_jobs_total : Z;
  ct_jobs_scheduled : Z;
  ct_jobs_running : Z;
  ct_last_error : option string
}.

(* source: cron/models.py CronJobCreateRequest *)
Record CronJobCreateRequest := mkCronJobCreateRequest {
  cc_project_id : string;
  cc_name : string;
  cc_prompt : string;
  cc_schedule : CronSchedule;
  cc_misfire_policy : MisfirePolicy;
  cc_runtime_profile : option CronRuntimeProfile;
  cc_preapproved_tools : list string
}.
(* source: cron/models.py:206-212 CronJobCreateRequest *)
Definition CronJobCreateRequest_valid (r : CronJobCreateRequest) : bool :=
  nonempty (cc_project_id r) && len_in 1 120 (cc_name r) && len_in 1 20000 (cc_prompt r)
  && CronSchedule_valid (cc_schedule r)
  && match cc_runtime_profile r with Some p => CronRuntimeProfile_valid p | None => true end.

(* source: cron/models.py CronJobEditRequest *)
Record CronJobEditRequest := mkCronJobEditRequest {
  ce_name : option string;
  ce_prompt : option string;
  ce_schedule : option CronSchedule;
  ce_misfire_policy : option MisfirePolicy;
  ce_runtime_profile : option CronRuntimeProfile;
  ce_preapproved_tools : option (list string)
}.
(* source: cron/models.py:217-222 CronJobEditRequest *)
Definition CronJobEditRequest_valid (r : CronJobEditRequest) : bool :=
  match ce_name r with Some s => len_in 1 120 s | None => true end
  && match ce_prompt r with Some s => len_in 1 20000 s | None => true end
  && match ce_schedule r with Some s => CronSchedule_valid s | None => true end
  && match ce_runtime_profile r with Some p => CronRuntimeProfile_valid p | None => true end.
