(* ===== verification/CronSchedules.v ===== *)
(** * CronSchedules: the next run of a schedule (cron/schedule.py)

    [croniter] and the time zone database are not part of the program: they
    are the record [Calendar], an argument of what uses them. *)

From S2P Require Import Prelude PyText PyTime Sanitizer CronModels.

#[local] Open Scope Z_scope.

(** ** Strings *)

(** [s.strip()] and [s.split()] on Unicode white space. *)
Definition py_strip (s : string) : string :=
  let drop_spaces := λ l, (span is_space l).2 in
  of_code_points (reverse (drop_spaces (reverse (drop_spaces (code_points s))))).

Fixpoint split_points (word : list Z) (s : list Z) : list (list Z) :=
  match s with
  | [] => if decide (word = []) then [] else [reverse word]
  | c :: rest =>
      if is_space c then
        if decide (word = []) then split_points [] rest else reverse word :: split_points [] rest
      else split_points (c :: word) rest
  end.
Definition py_split (s : list Z) : list (list Z) := split_points [] s.

(** [str.upper] on what can end in an ASCII letter; every other character
    keeps a value outside ASCII and is refused by the field check. *)
Definition upper_point (c : Z) : list Z :=
  if (97 <=? c) && (c <=? 122) then [c - 32]
  else if c =? 0xDF then [83; 83] else if c =? 0x17F then [83] else if c =? 0x131 then [73]
  else if c =? 0xFB00 then [70; 70] else if c =? 0xFB01 then [70; 73] else if c =? 0xFB02 then [70; 76]
  else if c =? 0xFB03 then [70; 70; 73] else if c =? 0xFB04 then [70; 70; 76]
  else if c =? 0xFB05 then [83; 84] else if c =? 0xFB06 then [83; 84]
  else [c].

Definition is_upper_letter (c : Z) : bool := (65 <=? c) && (c <=? 90).
(** [[0-9*/,-]] *)
Definition numeric_char (c : Z) : bool :=
  ((48 <=? c) && (c <=? 57)) || (c =? 42) || (c =? 47) || (c =? 44) || (c =? 45).
Definition named_char (c : Z) : bool := numeric_char c || is_upper_letter c.

(** [re.findall(r"[A-Z]+", field)] *)
Fixpoint letter_runs (word : list Z) (s : list Z) : list (list Z) :=
  match s with
  | [] => if decide (word = []) then [] else [reverse word]
  | c :: rest =>
      if is_upper_letter c then letter_runs (c :: word) rest
      else if decide (word = []) then letter_runs [] rest else reverse word :: letter_runs [] rest
  end.

(* source: cron/schedule.py:135-138 _validate_standard_fields *)
Definition allowed_names (index : nat) : list (list Z) :=
  match index with
  | 3%nat => map code_points ["JAN"; "FEB"; "MAR"; "APR"; "MAY"; "JUN"; "JUL"; "AUG"; "SEP"; "OCT"; "NOV"; "DEC"]
  | 4%nat => map code_points ["SUN"; "MON"; "TUE"; "WED"; "THU"; "FRI"; "SAT"]
  | _ => []
  end.

(* source: cron/schedule.py:131-134 _validate_standard_fields *)
Definition field_chars_ok (index : nat) (field : list Z) : bool :=
  negb (bool_decide (field = []))
  && forallb (if bool_decide (index = 3 ∨ index = 4)%nat then named_char else numeric_char) field.

(* source: cron/schedule.py _validate_standard_fields *)
Definition validate_standard_fields (expression : string) : res unit :=
  let fields := py_split (mjoin (map upper_point (code_points expression))) in
  if forallb id (imap field_chars_ok fields) then
    if forallb (λ index, forallb (λ name, bool_decide (name ∈ allowed_names index))
                  (letter_runs [] (default [] (fields !! index)))) [3%nat; 4%nat]
    then Ok tt else Err (ValueError "unknown name")
  else Err (ValueError "unsupported syntax").

(** ** The calendar *)

(** [cal_zone name]: [ZoneInfo(name)] exists.  [cal_local]/[cal_utc]: the wall
    clock of an instant in a zone and the instant of a wall clock time with
    [fold=0], in microseconds.  [cal_is_valid]: [croniter.is_valid].
    [cal_next e base n]: what the [n]-th [get_next] (from 0) of
    [croniter(e, base)] returns, [None] for its errors.  [cal_probe]: whether
    the first [get_next] from a time in a zone succeeds. *)
Record Calendar := mkCalendar {
  cal_zone : string → bool;
  cal_local : string → Z → Z;
  cal_utc : string → Z → Z;
  cal_is_valid : string → bool;
  cal_next : string → Z → nat → option Z;
  cal_probe : string → string → Z → bool
}.

Section calendar.
Context (cal : Calendar).

(* source: cron/schedule.py _zone *)
Definition zone (value : string) : res unit :=
  if cal_zone cal value then Ok tt else Err (ValueError "unknown time zone").

(** A wall clock time that its zone skips is [None]. *)
(* source: cron/schedule.py _normalize_local_candidate *)
Definition normalize_local_candidate (value : Z) (tz : string) : option utc :=
  if decide (cal_local cal tz (cal_utc cal tz value) = value) then Some (cal_utc cal tz value) else None.

(* source: cron/schedule.py CronScheduleCalculator.validate *)
Definition validate (now : utc) (expression timezone_name : string) : res CronSchedule :=
  let expression := py_strip expression in
  if startswith "@" expression || negb (length (py_split (code_points expression)) =? 5)%nat
  then Err (ValueError "five fields") else
  validate_standard_fields expression;;
  zone timezone_name;;
  if cal_is_valid cal expression && cal_probe cal expression timezone_name now then
    let s := mkCronSchedule SK_cron None None (Some expression) timezone_name in
    if CronSchedule_valid s then Ok s else Err (ValidationError "CronSchedule")
  else Err (ValueError "invalid cron expression").

(** The loop of [next_after] over the candidates of croniter. *)
(* source: cron/schedule.py:49-58 CronScheduleCalculator.next_after *)
Fixpoint first_candidate (fuel n : nat) (expression tz : string) (local_base : Z) (base : utc) : res utc :=
  match fuel with
  | O => Err (ValueError "no next time")
  | S fuel =>
      match cal_next cal expression local_base n with
      | None => Err (ValueError "cannot compute next time")
      | Some candidate =>
          match normalize_local_candidate candidate tz with
          | Some t => if base <? t then Ok t else first_candidate fuel (S n) expression tz local_base base
          | None => first_candidate fuel (S n) expression tz local_base base
          end
      end
  end.

(* source: cron/schedule.py:51-51 CronScheduleCalculator.next_after *)
Definition candidate_limit : nat := Z.to_nat 10000.

(* source: cron/schedule.py CronScheduleCalculator.next_after *)
Definition next_after (s : CronSchedule) (base : utc) : res (option utc) :=
  match cs_kind s with
  | SK_once =>
      target ← parse_time (default "None" (cs_run_at s));
      mret (if base <? target then Some target else None)
  | SK_interval =>
      t ← add_seconds base (default 0 (cs_interval_seconds s)); mret (Some t)
  | SK_cron =>
      let expression := default "None" (cs_expression s) in
      zone (cs_timezone s);;
      t ← first_candidate candidate_limit 0 expression (cs_timezone s) (cal_local cal (cs_timezone s) base) base;
      mret (Some t)
  end.

(* source: cron/schedule.py:75-81 CronScheduleCalculator.next_future *)
Fixpoint next_future_cron (fuel : nat) (s : CronSchedule) (candidate now : utc) : res (option utc) :=
  match fuel with
  | O => Err (ValueError "too many missed periods")
  | S fuel =>
      n ← next_after s candidate;
      match n with
      | None => mret None
      | Some t => if now <? t then mret (Some t) else next_future_cron fuel s t now
      end
  end.

(* source: cron/schedule.py:76-76 CronScheduleCalculator.next_future *)
Definition period_limit : nat := Z.to_nat 100000.

(** [int(total_seconds() // seconds)]: the floats are exact here for spans
    below 2^32 seconds. *)
(* source: cron/schedule.py:72-73 CronScheduleCalculator.next_future *)
Definition missed_periods (seconds scheduled_at now : Z) : Z :=
  Z.max 1 ((now - scheduled_at) / (seconds * 1000000) + 1).

(* source: cron/schedule.py CronScheduleCalculator.next_future *)
Definition next_future (s : CronSchedule) (scheduled_at now : utc) : res (option utc) :=
  match cs_kind s with
  | SK_once => mret None
  | SK_interval =>
      let seconds := default 0 (cs_interval_seconds s) in
      t ← add_seconds scheduled_at (seconds * missed_periods seconds scheduled_at now);
      mret (Some t)
  | SK_cron => next_future_cron period_limit s scheduled_at now
  end.

(* source: cron/schedule.py:92-99 CronScheduleCalculator.preview *)
Fixpoint next_runs (count : nat) (s : CronSchedule) (selected : utc) : res (list string) :=
  match count with
  | O => mret []
  | S count =>
      n ← next_after s selected;
      match n with
      | None => mret []
      | Some t => rest ← next_runs count s t; mret (utc_iso t :: rest)
      end
  end.

(* source: cron/schedule.py CronScheduleCalculator.preview *)
Definition preview (s : CronSchedule) (count : Z) (base_time : utc) : res CronPreview :=
  if (count <? 1) || (20 <? count) then Err (ValueError "count must be between 1 and 20") else
  values ← next_runs (Z.to_nat count) s base_time;
  mret (mkCronPreview s values).

End calendar.
