(* ===== verification/CronStore.v ===== *)
(** * CronStore: jobs and dispatches in SQLite (cron/store.py)

    A row holds its JSON document, as a record, and the columns that
    statements and indexes read.  A method that reads, decides and then writes
    in a transaction of its own is two definitions: the read, and the
    transaction with what was read as an argument, so that something else may
    happen in between; the method itself runs them in a row. *)

From S2P Require Import Prelude PyText PyTime CronModels.

#[local] Open Scope Z_scope.

(** ** Tables *)

(* source: cron/store.py@TABLE cron_jobs *)
Record JobRow := mkJobRow {
  jr_project_id : string;
  jr_state : JobState;
  jr_revision : Z;
  jr_job : CronJob
}.

(** [dr_rowid] is SQLite's row number, the order of insertion. *)
(* source: cron/store.py@TABLE cron_dispatches *)
Record DispatchRow := mkDispatchRow {
  dr_rowid : Z;
  dr_job_id : string;
  dr_scheduled_for : option string;
  dr_status : DispatchState;
  dr_run_id : option string;
  dr_operation_id : option string;
  dr_attempt_id : option string;
  dr_revision : Z;
  dr_created_at : string;
  dr_dispatch : CronDispatch
}.

(* source: cron/store.py:54-123 CronStore.ensure *)
Record CronDb := mkCronDb {
  db_heartbeat : HeartbeatState;
  db_jobs : gmap string JobRow;
  db_dispatches : gmap string DispatchRow
}.
#[export] Instance eta_CronDb : Eta CronDb := λ d, mkCronDb (db_heartbeat d) (db_jobs d) (db_dispatches d).

(** The tables before anything is imported into them. *)
(* source: cron/store.py:63-64 CronStore.ensure *)
Definition fresh_db (heartbeat_seconds : Z) : CronDb :=
  mkCronDb (mkHeartbeatState HB_stopped heartbeat_seconds None None None) ∅ ∅.

(** ** Indexes *)

(* source: cron/store.py:108-110 cron_one_active_dispatch_per_job *)
Definition active (s : DispatchState) : bool :=
  match s with DS_claimed | DS_running | DS_recovery_required => true | _ => false end.

Definition same_key (a b : option string) : bool := is_some a && bool_decide (a = b).

(** Two rows that a unique index does not admit together: the period of a job,
    the active dispatch of a job, and the three identities. *)
(* source: cron/store.py:99-110 CronStore.ensure *)
Definition rows_clash (a b : DispatchRow) : bool :=
  bool_decide (dr_job_id a = dr_job_id b)
    && (same_key (dr_scheduled_for a) (dr_scheduled_for b) || active (dr_status a) && active (dr_status b))
  || same_key (dr_run_id a) (dr_run_id b) || same_key (dr_operation_id a) (dr_operation_id b)
  || same_key (dr_attempt_id a) (dr_attempt_id b).

Definition any_dispatch (p : string → DispatchRow → bool) (db : CronDb) : bool :=
  existsb (λ kv, p kv.1 kv.2) (map_to_list (db_dispatches db)).

Definition clashes (id : string) (r : DispatchRow) (db : CronDb) : bool :=
  any_dispatch (λ id' r', negb (bool_decide (id' = id)) && rows_clash r r') db.

(** ** Statements *)

Definition job_row (j : CronJob) : JobRow := mkJobRow (cj_project_id j) (cj_state j) (cj_revision j) j.

Definition dispatch_row (rowid : Z) (d : CronDispatch) : DispatchRow :=
  mkDispatchRow rowid (cd_job_id d) (cd_scheduled_for d) (cd_status d) (cd_run_id d) (cd_operation_id d)
    (cd_attempt_id d) (cd_revision d) (cd_created_at d) d.

(** [INSERT OR REPLACE]. *)
(* source: cron/store.py CronStore._insert_job *)
Definition insert_job (j : CronJob) : Tx CronDb unit :=
  require (1 ≤ cj_revision j) (IntegrityError "cron_jobs");;
  tx_modify (λ db, db ⟪ db_jobs := <[cj_job_id j := job_row j]> (db_jobs db) ⟫).

Definition next_rowid (db : CronDb) : Z :=
  1 + foldr (λ kv n, Z.max (dr_rowid kv.2) n) 0 (map_to_list (db_dispatches db)).

(* source: cron/store.py CronStore._insert_dispatch *)
Definition insert_dispatch (d : CronDispatch) : Tx CronDb unit :=
  db ← tx_gets (λ db, db);
  let r := dispatch_row (next_rowid db) d in
  reject (is_some (db_dispatches db !! cd_dispatch_id d) = true) (IntegrityError "cron_dispatches");;
  reject (clashes (cd_dispatch_id d) r db = true) (IntegrityError "cron_dispatches");;
  reject (is_none (db_jobs db !! cd_job_id d) = true) (IntegrityError "FOREIGN KEY");;
  reject (match cd_retry_of_dispatch_id d with
          | Some o => is_none (db_dispatches db !! o) && negb (bool_decide (o = cd_dispatch_id d))
          | None => false
          end = true) (IntegrityError "FOREIGN KEY");;
  require (1 ≤ cd_revision d) (IntegrityError "cron_dispatches");;
  tx_modify (λ db, db ⟪ db_dispatches := <[cd_dispatch_id d := r]> (db_dispatches db) ⟫).

(** [UPDATE ... WHERE dispatch_id=? AND revision=?]: the columns it does not
    name keep their value. *)
(* source: cron/store.py CronStore._replace_dispatch *)
Definition replace_dispatch (d : CronDispatch) (expected_revision : Z) : Tx CronDb unit :=
  db ← tx_gets (λ db, db);
  match db_dispatches db !! cd_dispatch_id d with
  | Some old =>
      if decide (dr_revision old = expected_revision) then
        let r := mkDispatchRow (dr_rowid old) (dr_job_id old) (dr_scheduled_for old) (cd_status d) (cd_run_id d)
                   (cd_operation_id d) (cd_attempt_id d) (cd_revision d) (dr_created_at old) d in
        reject (clashes (cd_dispatch_id d) r db = true) (IntegrityError "cron_dispatches");;
        require (1 ≤ cd_revision d) (IntegrityError "cron_dispatches");;
        tx_modify (λ db, db ⟪ db_dispatches := <[cd_dispatch_id d := r]> (db_dispatches db) ⟫)
      else tx_fail (RuntimeError "Cron dispatch revision conflict")
  | None => tx_fail (RuntimeError "Cron dispatch revision conflict")
  end.

(** [UPDATE cron_jobs SET ... WHERE job_id=? AND revision=?]; [columns] gives
    the new value of the columns the statement names. *)
Definition update_job (j : CronJob) (expected_revision : Z) (columns : JobRow → JobRow) : Tx CronDb unit :=
  db ← tx_gets (λ db, db);
  match db_jobs db !! cj_job_id j with
  | Some old =>
      if decide (jr_revision old = expected_revision) then
        require (1 ≤ cj_revision j) (IntegrityError "cron_jobs");;
        tx_modify (λ db, db ⟪ db_jobs := <[cj_job_id j := columns old]> (db_jobs db) ⟫)
      else tx_fail (RuntimeError "Cron job revision conflict")
  | None => tx_fail (RuntimeError "Cron job revision conflict")
  end.

(** The columns of an [UPDATE] with and without the state. *)
Definition with_state (j : CronJob) (old : JobRow) : JobRow :=
  mkJobRow (jr_project_id old) (cj_state j) (cj_revision j) j.
Definition without_state (j : CronJob) (old : JobRow) : JobRow :=
  mkJobRow (jr_project_id old) (jr_state old) (cj_revision j) j.

(** ** Reading *)

(* source: cron/store.py CronStore.heartbeat *)
Definition heartbeat (db : CronDb) : res HeartbeatState :=
  if HeartbeatState_valid (db_heartbeat db) then Ok (db_heartbeat db) else Err (ValidationError "HeartbeatState").

(* source: cron/store.py CronStore.set_heartbeat *)
Definition set_heartbeat (h : HeartbeatState) : Tx CronDb unit := tx_modify (λ db, db ⟪ db_heartbeat := h ⟫).

(** [ORDER BY json_extract(job_json,'$.name'),job_id] *)
Definition job_le (a b : string * JobRow) : Prop :=
  String.ltb (cj_name (jr_job a.2)) (cj_name (jr_job b.2)) = true
  ∨ cj_name (jr_job a.2) = cj_name (jr_job b.2) ∧ String.leb a.1 b.1 = true.
#[export] Instance job_le_dec a b : Decision (job_le a b).
Proof. unfold job_le. apply _. Defined.

(* source: cron/store.py CronStore.jobs *)
Definition jobs (project_id : option string) (include_deleted : bool) (db : CronDb) : res (list CronJob) :=
  let rows := filter (λ kv, (truthy project_id = true → project_id = Some (jr_project_id kv.2))
                ∧ (include_deleted = false → jr_state kv.2 ≠ JS_deleted)) (map_to_list (db_jobs db)) in
  mapM (λ kv, valid_job (jr_job kv.2)) (merge_sort job_le rows).

(* source: cron/store.py CronStore.job *)
Definition job (job_id : string) (db : CronDb) : res CronJob :=
  r ← res_of_option (KeyError job_id) (db_jobs db !! job_id); valid_job (jr_job r).

(** [ORDER BY created_at]: equal times come in the order of insertion. *)
Definition created_le (a b : string * DispatchRow) : Prop :=
  String.ltb (dr_created_at a.2) (dr_created_at b.2) = true
  ∨ dr_created_at a.2 = dr_created_at b.2 ∧ dr_rowid a.2 ≤ dr_rowid b.2.
#[export] Instance created_le_dec a b : Decision (created_le a b).
Proof. unfold created_le. apply _. Defined.

Definition dispatch_rows (P : DispatchRow → bool) (db : CronDb) : list (string * DispatchRow) :=
  merge_sort created_le (filter (λ kv, P kv.2 = true) (map_to_list (db_dispatches db))).

(* source: cron/store.py CronStore.dispatches *)
Definition dispatches (job_id : string) (limit : nat) (db : CronDb) : res (list CronDispatch) :=
  mapM (λ kv, valid_dispatch (dr_dispatch kv.2))
    (take limit (reverse (dispatch_rows (λ r, bool_decide (dr_job_id r = job_id)) db))).

(* source: cron/store.py CronStore.active_dispatches *)
Definition active_dispatches (db : CronDb) : res (list CronDispatch) :=
  mapM (λ kv, valid_dispatch (dr_dispatch kv.2)) (dispatch_rows (λ r, active (dr_status r)) db).

(* source: cron/store.py CronStore.dispatch *)
Definition dispatch (dispatch_id : string) (db : CronDb) : res CronDispatch :=
  r ← res_of_option (KeyError dispatch_id) (db_dispatches db !! dispatch_id); valid_dispatch (dr_dispatch r).

(* source: cron/store.py CronStore.dispatch_by_run_id *)
Definition dispatch_by_run_id (run_id : string) (db : CronDb) : res CronDispatch :=
  match dispatch_rows (λ r, bool_decide (dr_run_id r = Some run_id)) db with
  | kv :: _ => valid_dispatch (dr_dispatch kv.2)
  | [] => Err (KeyError run_id)
  end.

(** ** Jobs *)

(* source: cron/store.py CronStore.save_job *)
Definition save_job (j : CronJob) (expected_revision : option Z) : Tx CronDb unit :=
  match expected_revision with
  | None => insert_job j
  | Some n => update_job j n (with_state j)
  end.

Fixpoint insert_dispatches (ds : list CronDispatch) : Tx CronDb unit :=
  match ds with
  | [] => mret tt
  | d :: ds => insert_dispatch d;; insert_dispatches ds
  end.

Definition sum_coalesced (ds : list CronDispatch) : Z := foldr (λ d n, cd_coalesced_count d + n) 0 ds.

(* source: cron/store.py:294-310 CronStore.due_materialize *)
Definition materialized (j : CronJob) (ds : list CronDispatch) (next_run_at : option string) (now : string) : CronJob :=
  let skipped := filter (λ d, cd_status d = DS_skipped) ds in
  let overlapped := filter (λ d, cd_status d = DS_skipped ∧ cd_error d = Some "overlap_skipped") ds in
  j ⟪ cj_next_run_at := next_run_at ⟫ ⟪ cj_missed_count := cj_missed_count j + sum_coalesced skipped ⟫
    ⟪ cj_overlap_skipped := cj_overlap_skipped j + sum_coalesced overlapped ⟫ ⟪ cj_updated_at := now ⟫
    ⟪ cj_revision := cj_revision j + 1 ⟫.

(* source: cron/store.py CronStore.due_materialize *)
Definition due_materialize (j : CronJob) (ds : list CronDispatch) (next_run_at : option string) (now : string) :
    Tx CronDb unit :=
  db ← tx_gets (λ db, db);
  require (jr_revision <$> db_jobs db !! cj_job_id j = Some (cj_revision j)) (RuntimeError "Cron job revision conflict");;
  insert_dispatches ds;;
  let updated := materialized j ds next_run_at now in
  update_job updated (cj_revision j) (without_state updated).

(** ** Dispatches *)

(* source: cron/store.py CronStore.claim_next *)
Definition claim_next (job_id token epoch now expiry : string) : Tx CronDb (option CronDispatch) :=
  db ← tx_gets (λ db, db);
  match db_jobs db !! job_id with
  | None => mret None
  | Some r =>
      j ← tx_lift (valid_job (jr_job r));
      if decide (cj_state j ≠ JS_scheduled ∨ truthy (cj_current_dispatch_id j) = true) then mret None else
      match dispatch_rows (λ r, bool_decide (dr_job_id r = job_id) && bool_decide (dr_status r = DS_pending)) db with
      | [] => mret None
      | kv :: _ =>
          old ← tx_lift (valid_dispatch (dr_dispatch kv.2));
          let claimed := old ⟪ cd_status := DS_claimed ⟫ ⟪ cd_claim_token := Some token ⟫
                           ⟪ cd_claim_epoch := Some epoch ⟫ ⟪ cd_claim_expires_at := Some expiry ⟫
                           ⟪ cd_claimed_at := Some now ⟫ ⟪ cd_revision := cd_revision old + 1 ⟫ in
          replace_dispatch claimed (cd_revision old);;
          mret (Some claimed)
      end
  end.

(* source: cron/store.py:412-417 CronStore.bind_running *)
Definition bound (d : CronDispatch) (now session_id run_id operation_id attempt_id : string) : CronDispatch :=
  d ⟪ cd_status := DS_running ⟫ ⟪ cd_session_id := Some session_id ⟫ ⟪ cd_run_id := Some run_id ⟫
    ⟪ cd_operation_id := Some operation_id ⟫ ⟪ cd_attempt_id := Some attempt_id ⟫
    ⟪ cd_started_at := Some now ⟫ ⟪ cd_revision := cd_revision d + 1 ⟫.
(* source: cron/store.py:418-421 CronStore.bind_running *)
Definition occupied (j : CronJob) (dispatch_id now run_id : string) : CronJob :=
  j ⟪ cj_current_dispatch_id := Some dispatch_id ⟫ ⟪ cj_current_run_id := Some run_id ⟫
    ⟪ cj_last_run_at := Some now ⟫ ⟪ cj_revision := cj_revision j + 1 ⟫ ⟪ cj_updated_at := now ⟫.

(** [bind_running] after its two reads. *)
(* source: cron/store.py:407-433 CronStore.bind_running *)
Definition bind_running_write (selected : CronDispatch) (j : CronJob)
    (claim_token now session_id run_id operation_id attempt_id : string) : Tx CronDb CronDispatch :=
  require (cd_status selected = DS_claimed ∧ cd_claim_token selected = Some claim_token)
    (RuntimeError "Cron dispatch claim no longer owned");;
  reject (cj_state j = JS_deleted) (RuntimeError "Cron job deleted before dispatch bind");;
  let b := bound selected now session_id run_id operation_id attempt_id in
  let updated := occupied j (cd_dispatch_id selected) now run_id in
  replace_dispatch b (cd_revision selected);;
  update_job updated (cj_revision j) (without_state updated);;
  mret b.

(* source: cron/store.py CronStore.bind_running *)
Definition bind_running (dispatch_id claim_token now session_id run_id operation_id attempt_id : string) :
    Tx CronDb CronDispatch :=
  selected ← tx_read (dispatch dispatch_id);
  require (cd_status selected = DS_claimed ∧ cd_claim_token selected = Some claim_token)
    (RuntimeError "Cron dispatch claim no longer owned");;
  j ← tx_read (job (cd_job_id selected));
  bind_running_write selected j claim_token now session_id run_id operation_id attempt_id.

(* source: cron/store.py:368-369 CronStore.mark_terminal *)
Definition settled (d : CronDispatch) (status : DispatchState) (result error : option string) (completed : string) :
    CronDispatch :=
  d ⟪ cd_status := status ⟫ ⟪ cd_result := result ⟫ ⟪ cd_error := error ⟫
    ⟪ cd_completed_at := Some completed ⟫ ⟪ cd_revision := cd_revision d + 1 ⟫.

(* source: cron/store.py:371-384 CronStore.mark_terminal *)
Definition released (j : CronJob) (d : CronDispatch) (status : DispatchState) (error : option string)
    (completed : string) : CronJob :=
  let success := bool_decide (status = DS_succeeded) in
  let state := if bool_decide (cs_kind (cj_schedule j) = SK_once) && success then JS_completed else cj_state j in
  j ⟪ cj_state := state ⟫ ⟪ cj_current_dispatch_id := None ⟫ ⟪ cj_current_run_id := None ⟫
    ⟪ cj_last_run_at := Some completed ⟫ ⟪ cj_last_run_id := cd_run_id d ⟫ ⟪ cj_last_session_id := cd_session_id d ⟫
    ⟪ cj_last_status := Some (DispatchState_value status) ⟫ ⟪ cj_last_error := error ⟫ ⟪ cj_run_count := cj_run_count j + 1 ⟫
    ⟪ cj_failure_count := cj_failure_count j + (if success then 0 else 1) ⟫
    ⟪ cj_consecutive_failures := if success then 0 else cj_consecutive_failures j + 1 ⟫
    ⟪ cj_last_success_at := if success then Some completed else cj_last_success_at j ⟫
    ⟪ cj_last_success_run_id := if success then cd_run_id d else cj_last_success_run_id j ⟫
    ⟪ cj_last_failure_at := if success then None else Some completed ⟫
    ⟪ cj_last_failure_run_id := if success then None else cd_run_id d ⟫
    ⟪ cj_updated_at := completed ⟫ ⟪ cj_revision := cj_revision j + 1 ⟫.

(** [mark_terminal] after its two reads, of a dispatch that is bound. *)
(* source: cron/store.py:368-393 CronStore.mark_terminal *)
Definition mark_terminal_write (selected : CronDispatch) (j : CronJob) (status : DispatchState)
    (result error : option string) (completed : string) : Tx CronDb CronDispatch :=
  let final := settled selected status result error completed in
  let updated := released j selected status error completed in
  replace_dispatch final (cd_revision selected);;
  update_job updated (cj_revision j) (with_state updated);;
  mret final.

Definition unsettled (s : DispatchState) : bool :=
  match s with DS_running | DS_recovery_required => true | _ => false end.

(* source: cron/store.py CronStore.mark_terminal *)
Definition mark_terminal (dispatch_id : string) (status : DispatchState) (result error : option string)
    (completed : string) : Tx CronDb CronDispatch :=
  selected ← tx_read (dispatch dispatch_id);
  if unsettled (cd_status selected) then
    j ← tx_read (job (cd_job_id selected));
    mark_terminal_write selected j status result error completed
  else mret selected.

(* source: cron/store.py:439-445 CronStore.cancel_unbound *)
Definition cancel_unbound_write (selected : CronDispatch) (reason now : string) : Tx CronDb CronDispatch :=
  let cancelled := selected ⟪ cd_status := DS_cancelled ⟫ ⟪ cd_error := Some reason ⟫
                     ⟪ cd_completed_at := Some now ⟫ ⟪ cd_revision := cd_revision selected + 1 ⟫ in
  replace_dispatch cancelled (cd_revision selected);; mret cancelled.

Definition unbound (s : DispatchState) : bool := match s with DS_pending | DS_claimed => true | _ => false end.

(* source: cron/store.py CronStore.cancel_unbound *)
Definition cancel_unbound (dispatch_id reason now : string) : Tx CronDb CronDispatch :=
  selected ← tx_read (dispatch dispatch_id);
  if unbound (cd_status selected) then cancel_unbound_write selected reason now else mret selected.

(* source: cron/store.py:455-463 CronStore.mark_recovery_required *)
Definition mark_recovery_write (selected : CronDispatch) (reason : string) : Tx CronDb CronDispatch :=
  let required := selected ⟪ cd_status := DS_recovery_required ⟫ ⟪ cd_error := Some reason ⟫
                    ⟪ cd_revision := cd_revision selected + 1 ⟫ in
  replace_dispatch required (cd_revision selected);; mret required.

(* source: cron/store.py CronStore.mark_recovery_required *)
Definition mark_recovery_required (dispatch_id reason : string) : Tx CronDb CronDispatch :=
  selected ← tx_read (dispatch dispatch_id);
  if unsettled (cd_status selected) then mark_recovery_write selected reason else mret selected.
