(* ===== verification/CronImport.v ===== *)
(** * CronImport: the jobs of an older version (cron/store.py)

    When the tables are made, the jobs of an older version are read once from
    its file jobs.json: entries that are not jobs are left out, and a file that
    cannot be read leaves the heartbeat unhealthy.  An imported job keeps the
    counters it had, and has no dispatches. *)

From S2P Require Import Prelude PyText CronModels CronStore.

#[local] Open Scope Z_scope.

Definition Fields := list (string * json).

(** ** Values *)

(** A field of a strict model that may be null. *)
Definition opt_str (j : option json) : option (option string) :=
  match j with None | Some JNull => Some None | Some (JStr s) => Some (Some s) | _ => None end.
Definition opt_int (j : option json) : option (option Z) :=
  match j with None | Some JNull => Some None | Some (JInt z) => Some (Some z) | _ => None end.

(* source: cron/models.py ScheduleKind *)
Definition ScheduleKind_parse (s : string) : option ScheduleKind :=
  if decide (s = "interval") then Some SK_interval else if decide (s = "once") then Some SK_once
  else if decide (s = "cron") then Some SK_cron else None.

(** What Python and SQLite make of a value, where the text of a float, of a
    list or of an object matters: [str(x)] ([repr]), [int(x)] of a float or a
    string ([int_of]), the text SQLite stores for a float ([real_text]).
    [localzone] is the name of the local time zone, and [complaint] the text
    of the exception that a file raises. *)
Record Platform := mkPlatform {
  pf_localzone : string;
  pf_repr : json → string;
  pf_int_of : json → option Z;
  pf_real_text : json → string;
  pf_complaint : string → string
}.

Section import.
Context (pf : Platform).

(** [str(x)] *)
Definition py_str (j : json) : string :=
  match j with
  | JStr s => s
  | JNull => "None"
  | JBool b => if b then "True" else "False"
  | JInt z => str_of_int z
  | _ => pf_repr pf j
  end.

(** [int(x)]; [None] is a [TypeError] or a [ValueError]. *)
Definition py_int (j : json) : option Z :=
  match j with
  | JInt z => Some z
  | JBool b => Some (if b then 1 else 0)
  | JFloat _ | JStr _ => pf_int_of pf j
  | _ => None
  end.

(** A value bound to a TEXT column; a list or an object is refused, and so is
    an integer of more than 64 bits. *)
Definition text_column (j : json) : res (option string) :=
  match j with
  | JNull => Ok None
  | JStr s => Ok (Some s)
  | JInt z => if (- 2 ^ 63 <=? z) && (z <? 2 ^ 63) then Ok (Some (str_of_int z))
              else Err (OverflowError "Python int too large to convert to SQLite INTEGER")
  | JBool b => Ok (Some (if b then "1" else "0"))
  | JFloat _ => Ok (Some (pf_real_text pf j))
  | JArr _ | JObj _ => Err (TypeError "sqlite3.ProgrammingError")
  end.

(** ** Jobs *)

(** [CronSchedule.model_validate(old.get("schedule"), strict=True)] *)
(* source: cron/models.py CronSchedule *)
Definition schedule_of (j : json) : option CronSchedule :=
  match j with
  | JObj d =>
      if negb (forallb (λ k, bool_decide (k ∈ ["kind"; "interval_seconds"; "run_at"; "expression"; "timezone"])) d.*1)
      then None else
      kind ← match dict_get "kind" d with Some (JStr s) => ScheduleKind_parse s | _ => None end;
      interval ← opt_int (dict_get "interval_seconds" d);
      run_at ← opt_str (dict_get "run_at" d);
      expression ← opt_str (dict_get "expression" d);
      timezone ← match dict_get "timezone" d with None => Some (pf_localzone pf) | Some (JStr s) => Some s | _ => None end;
      let s := mkCronSchedule kind interval run_at expression timezone in
      if CronSchedule_valid s then Some s else None
  | _ => None
  end.

(** [tuple(x)], whose members must be strings. *)
(* source: cron/store.py:162-163 CronStore._migrate_legacy_json_once *)
Definition grants_of (j : json) : option (list string) :=
  match j with
  | JArr l => mapM (λ x, match x with JStr s => Some s | _ => None end) l
  | JStr s => Some (map (λ c, of_code_points [c]) (code_points s))
  | JObj d => Some d.*1
  | _ => None
  end.

(** A state that cannot be a member of a set is an error, one that is not
    among the three is [scheduled]. *)
(* source: cron/store.py:164-166 CronStore._migrate_legacy_json_once *)
Definition legacy_state (j : option json) : option JobState :=
  match j with
  | Some (JStr s) => Some (if decide (s = "paused") then JS_paused else if decide (s = "completed") then JS_completed
                           else JS_scheduled)
  | Some (JArr _ | JObj _) => None
  | _ => Some JS_scheduled
  end.

Definition count_of (k : string) (old : Fields) : option Z := py_int (default (JInt 0) (dict_get k old)).

(** The job an entry stands for; [None] is an exception, and the entry is left
    out. *)
(* source: cron/store.py:160-179 CronStore._migrate_legacy_json_once *)
Definition legacy_job (now key : string) (old : Fields) : option CronJob :=
  schedule ← schedule_of (default JNull (dict_get "schedule" old));
  grants ← grants_of (default (JArr []) (dict_get "preapproved_tools" old));
  let profile := mkCronRuntimeProfile grants [] SP_read_only grants 4 MA_none [] default_limits in
  if negb (CronRuntimeProfile_valid profile) then None else
  state ← legacy_state (dict_get "state" old);
  project_id ← dict_get "project_id" old;
  name ← dict_get "name" old;
  prompt ← dict_get "prompt" old;
  next_run_at ← opt_str (dict_get "next_run_at" old);
  last_run_id ← opt_str (dict_get "last_run_id" old);
  last_session_id ← opt_str (dict_get "last_session_id" old);
  last_status ← opt_str (dict_get "last_status" old);
  last_error ← opt_str (dict_get "last_error" old);
  run_count ← count_of "run_count" old;
  failure_count ← count_of "failure_count" old;
  overlap_skipped ← count_of "skipped_overlap_count" old;
  let job := mkCronJob (py_str (default (JStr key) (dict_get "job_id" old))) (py_str project_id) (py_str name) (py_str prompt)
    schedule state MP_fire_once profile 1 (py_str (default (JStr now) (dict_get "created_at" old))) now None
    next_run_at None None None last_run_id last_session_id last_status last_error None None None None 0 0 overlap_skipped
    run_count failure_count in
  if CronJob_valid job then Some job else None.

(* source: cron/store.py:155-183 CronStore._migrate_legacy_json_once *)
Fixpoint import_jobs (now : string) (entries : Fields) : Tx CronDb unit :=
  match entries with
  | [] => mret tt
  | (key, old) :: rest =>
      match (match old with JObj d => legacy_job now key d | _ => None end) with
      | Some job => insert_job job
      | None => mret tt
      end;;
      import_jobs now rest
  end.

(** The heartbeat is stored as it was; the CHECK of the table refuses another
    status than the three. *)
(* source: cron/store.py:184-189 CronStore._migrate_legacy_json_once *)
Definition import_heartbeat (h : Fields) : Tx CronDb unit :=
  status ← tx_lift (text_column (default (JStr "stopped") (dict_get "status" h)));
  last_tick_at ← tx_lift (text_column (default JNull (dict_get "last_tick_at" h)));
  next_tick_at ← tx_lift (text_column (default JNull (dict_get "next_tick_at" h)));
  last_error ← tx_lift (text_column (default JNull (dict_get "last_error" h)));
  status ← tx_lift (if decide (status = Some "stopped") then Ok HB_stopped
                    else if decide (status = Some "running") then Ok HB_running
                    else if decide (status = Some "unhealthy") then Ok HB_unhealthy
                    else Err (IntegrityError "cron_heartbeat"));
  tx_modify (λ db, db ⟪ db_heartbeat :=
    mkHeartbeatState status (hb_interval_seconds (db_heartbeat db)) last_tick_at next_tick_at last_error ⟫).

(* source: cron/store.py:141-151 CronStore._migrate_legacy_json_once *)
Definition legacy_invalid (raw : string) : Tx CronDb unit :=
  tx_modify (λ db, db ⟪ db_heartbeat := (db_heartbeat db) ⟪ hb_status := HB_unhealthy ⟫
    ⟪ hb_last_error := Some ("legacy jobs.json invalid: " +:+ pf_complaint pf raw) ⟫ ⟫).

Definition member (k : string) (payload : json) : json :=
  match payload with JObj d => default (JObj []) (dict_get k d) | _ => JObj [] end.

(** [raw]: the bytes of jobs.json, when it exists. *)
(* source: cron/store.py CronStore._migrate_legacy_json_once *)
Definition migrate_legacy_json (now : string) (raw : option string) : Tx CronDb unit :=
  match raw with
  | None => mret tt
  | Some raw =>
      match (if is_utf8 raw then json_loads raw else None) with
      | None => legacy_invalid raw
      | Some payload =>
          match member "jobs" payload with
          | JObj entries =>
              import_jobs now entries;;
              match member "heartbeat" payload with JObj h => import_heartbeat h | _ => mret tt end
          | _ => legacy_invalid raw
          end
      end
  end.

(** The store of a new installation.  A transaction that fails leaves no mark
    that it ran: the next start tries again. *)
(* source: cron/store.py CronStore.ensure *)
Definition ensure (heartbeat_seconds : Z) (now : string) (raw : option string) : res CronDb :=
  match migrate_legacy_json now raw (fresh_db heartbeat_seconds) with
  | Ok (_, db) => Ok db
  | Err e => Err e
  end.

(** ** What is imported *)

(** The tables after the import: jobs at their first version that no dispatch
    and no Run belongs to. *)
Record imported (db : CronDb) : Prop := {
  im_jobs : ∀ id r, db_jobs db !! id = Some r →
    r = job_row (jr_job r) ∧ cj_job_id (jr_job r) = id ∧ CronJob_valid (jr_job r) = true ∧
    cj_revision (jr_job r) = 1 ∧ cj_missed_count (jr_job r) = 0 ∧
    cj_current_dispatch_id (jr_job r) = None ∧ cj_current_run_id (jr_job r) = None;
  im_dispatches : db_dispatches db = ∅
}.

Lemma legacy_job_new now key old j :
  legacy_job now key old = Some j →
  CronJob_valid j = true ∧ cj_revision j = 1 ∧ cj_missed_count j = 0 ∧
  cj_current_dispatch_id j = None ∧ cj_current_run_id j = None.
Proof.
  unfold legacy_job. intros H. repeat (apply bind_Some in H as (? & _ & H); try (destruct (negb _); [done|])).
  cbv zeta in H. lazymatch type of H with (if CronJob_valid ?x then _ else _) = _ => set (job := x) in H end.
  destruct (CronJob_valid job) eqn:E; [|done]. injection H as <-. by split_and!.
Qed.

Lemma import_jobs_ok now entries : ∀ db u db',
  imported db → import_jobs now entries db = Ok (u, db') → imported db'.
Proof.
  induction entries as [|[key old] rest IH]; intros db u db' I; cbn [import_jobs].
  { by intros [_ <-]%tx_ret_ok. }
  intros (u1 & db1 & H1 & H)%tx_bind_ok. eapply IH; [|exact H].
  destruct (match old with JObj d => legacy_job now key d | _ => None end) as [j|] eqn:E.
  2: { by apply tx_ret_ok in H1 as [_ <-]. }
  destruct old as [| | | | | |d]; try done. apply legacy_job_new in E as (Hv & Hr & Hm & Hd & Hn).
  unfold insert_job in H1. apply tx_bind_ok in H1 as ([] & s & [_ ->]%require_ok & ->%tx_modify_ok).
  destruct I as [Ij Id]. split; [|done]. intros id r. cbn. intros [[<- <-]|[_ Hr']]%lookup_insert_Some; [|by apply Ij].
  by split_and!.
Qed.

Lemma imported_heartbeat db h : imported db → imported (db ⟪ db_heartbeat := h ⟫).
Proof. by intros []. Qed.

Lemma ensure_imported seconds now raw db : ensure seconds now raw = Ok db → imported db.
Proof.
  unfold ensure. destruct (migrate_legacy_json _ _ _) as [[u db1]|e] eqn:H; [|done]. intros [= <-].
  assert (imported (fresh_db seconds)) as I by (split; [intros id r; cbn; by rewrite lookup_empty|done]).
  unfold migrate_legacy_json in H. destruct raw as [raw|]; [|by apply tx_ret_ok in H as [_ <-]].
  assert (∀ u db', legacy_invalid raw (fresh_db seconds) = Ok (u, db') → imported db') as Hbad.
  { intros u' db' ->%tx_modify_ok. by apply imported_heartbeat. }
  destruct (if is_utf8 raw then json_loads raw else None) as [payload|]; [|by eapply Hbad].
  destruct (member "jobs" payload) as [| | | | | |entries]; try (by eapply Hbad).
  apply tx_bind_ok in H as (u1 & db2 & H1 & H). apply (import_jobs_ok _ _ _ _ _ I) in H1.
  destruct (member "heartbeat" payload) as [| | | | | |h]; try (by apply tx_ret_ok in H as [_ <-]).
  unfold import_heartbeat in H. do 5 (apply tx_bind_ok in H as (? & s & [_ ->]%tx_lift_ok & H)).
  apply tx_modify_ok in H as ->. by apply imported_heartbeat.
Qed.
End import.
