(* ===== verification/CronScheduler.v ===== *)
(** * CronScheduler: job management and the dispatcher (cron/service.py, cron/scheduler.py)

    The service changes jobs on behalf of clients; the scheduler turns due
    periods into dispatches, claims one per job and hands it over.  Time,
    random ids and [submit_dispatch] (the application) are arguments. *)

From S2P Require Import Prelude PyText PyTime CronModels CronSchedules CronStore.

#[local] Open Scope Z_scope.

(** ** The service *)

(* source: cron/service.py _NEVER_PREAPPROVE *)
Definition NEVER_PREAPPROVE : list string :=
  ["bash"; "cronjob"; "harness_evolve"; "harness_capability"; "sandbox_rollback"; "skill_install"; "subagent"].

(** [tuple(sorted(set(...)))] *)
Definition text_le (a b : string) : Prop := String.leb a b = true.
#[export] Instance text_le_dec a b : Decision (text_le a b).
Proof. unfold text_le. apply _. Defined.
Definition sorted_set (l : list string) : list string := merge_sort text_le (remove_dups l).

(* source: cron/service.py _validate_preapproved_tools *)
Definition validate_preapproved_tools (values : list string) : res (list string) :=
  let selected := sorted_set (filter (λ v, v ≠ "") (map py_strip values)) in
  if existsb (λ t, bool_decide (t ∈ NEVER_PREAPPROVE)) selected then Err (ValueError "Cron cannot preapprove")
  else Ok selected.

Definition build_profile (p : CronRuntimeProfile) : res CronRuntimeProfile :=
  if CronRuntimeProfile_valid p then Ok p else Err (ValidationError "CronRuntimeProfile").
Definition build_job (j : CronJob) : res CronJob := valid_job j.
Definition build_dispatch (d : CronDispatch) : res CronDispatch := valid_dispatch d.

(* source: cron/service.py CronService._profile *)
Definition profile_of (runtime_profile : option CronRuntimeProfile) (grants : option (list string))
    (previous : option CronJob) : res CronRuntimeProfile :=
  match runtime_profile with
  | Some p =>
      validate_preapproved_tools (cp_allowed_tools p);;
      validate_preapproved_tools (cp_preapproved_tools p);; mret p
  | None =>
      match grants with
      | Some g =>
          selected ← validate_preapproved_tools g;
          let old := match previous with Some j => cj_runtime_profile j | None => default_profile end in
          build_profile
            (mkCronRuntimeProfile (sorted_set (selected ++ cp_allowed_tools old)) (cp_allowed_skills old)
               (cp_sandbox_policy old) selected (cp_max_parallel_tool_calls old) (cp_memory_access old)
               (cp_allowed_memory_kinds old) (cp_limits old))
      | None => mret (match previous with Some j => cj_runtime_profile j | None => default_profile end)
      end
  end.

Section service.
Context (cal : Calendar).

(* source: cron/service.py CronService.validate_schedule *)
Definition validate_schedule (now : utc) (s : CronSchedule) : res CronSchedule :=
  match cs_kind s with
  | SK_cron => validate cal now (default "None" (cs_expression s)) (cs_timezone s)
  | SK_once => parse_time (default "None" (cs_run_at s));; mret s
  | SK_interval => mret s
  end.

(* source: cron/service.py CronService._initial_next *)
Definition initial_next (s : CronSchedule) (now : utc) : res utc :=
  match cs_kind s with
  | SK_once =>
      selected ← parse_time (default "None" (cs_run_at s));
      if selected <=? now then Err (ValueError "one-time schedule must be in the future") else mret selected
  | _ =>
      n ← next_after cal s now; res_of_option (ValueError "schedule has no next run") n
  end.

(* source: cron/service.py CronService.create *)
Definition create (uuid : string) (now : utc) (request : CronJobCreateRequest) : Tx CronDb CronJob :=
  schedule ← tx_lift (validate_schedule now (cc_schedule request));
  profile ← tx_lift (profile_of (cc_runtime_profile request) (Some (cc_preapproved_tools request)) None);
  next ← tx_lift (initial_next schedule now);
  j ← tx_lift (build_job (new_job ("cron_" +:+ uuid) (cc_project_id request) (py_strip (cc_name request))
        (py_strip (cc_prompt request)) schedule (cc_misfire_policy request) profile (utc_iso now)
        (Some (utc_iso next))));
  save_job j None;; mret j.

(** [digest] is the first half of the hexadecimal SHA-256 of the project and
    the name of the preset.  Nothing in here suspends: no other operation runs
    between the look for the job and its insertion. *)
(* source: cron/service.py CronService.ensure_paper_research_preset *)
Definition ensure_paper_research_preset (digest : string) (now : utc) (project_id expression timezone_name : string) :
    Tx CronDb CronJob :=
  let job_id := "cron_paper_research_" +:+ digest in
  db ← tx_gets (λ db, db);
  if is_some (db_jobs db !! job_id) then tx_read (job job_id) else
  let s := mkCronSchedule SK_cron None None (Some expression) timezone_name in
  require (CronSchedule_valid s = true) (ValidationError "CronSchedule");;
  schedule ← tx_lift (validate_schedule now s);
  let tools := ["paper_library_download"; "paper_library_save"; "reference_write"] in
  profile ← tx_lift (build_profile (mkCronRuntimeProfile tools ["search-summary-paper"] SP_read_only tools 4 MA_none []
    default_limits));
  next ← tx_lift (initial_next schedule now);
  j ← tx_lift (build_job (new_job job_id project_id "定时论文调研"
        "执行一次无记忆论文调研。读取研究方向，使用已授权工具和 search-summary-paper Skill；对单一来源失败使用候选来源继续。"
        schedule MP_fire_once profile (utc_iso now) (Some (utc_iso next))));
  save_job j None;; mret j.

(* source: cron/service.py CronService.tool_preapproved *)
Definition tool_preapproved (job_id tool_name : string) (db : CronDb) : res bool :=
  match job job_id db with
  | Err (KeyError _) => Ok false
  | Err e => Err e
  | Ok j => Ok (bool_decide (tool_name ∈ cp_preapproved_tools (cj_runtime_profile j)))
  end.

(** What an edit writes; [model_copy] runs no validator. *)
(* source: cron/service.py:122-137 CronService.edit *)
Definition edited (now : utc) (request : CronJobEditRequest) (j : CronJob) : res CronJob :=
  schedule ← match ce_schedule request with Some s => validate_schedule now s | None => mret (cj_schedule j) end;
  profile ← profile_of (ce_runtime_profile request) (ce_preapproved_tools request) (Some j);
  next ← match ce_schedule request with
         | Some _ => t ← initial_next schedule now; mret (Some (utc_iso t))
         | None => mret (cj_next_run_at j)
         end;
  let state := if is_some (ce_schedule request)
                  && bool_decide (cs_kind (cj_schedule j) = SK_once ∧ cj_state j = JS_completed)
               then JS_scheduled else cj_state j in
  mret (j ⟪ cj_name := py_strip (default (cj_name j) (ce_name request)) ⟫
          ⟪ cj_prompt := py_strip (default (cj_prompt j) (ce_prompt request)) ⟫
          ⟪ cj_schedule := schedule ⟫
          ⟪ cj_misfire_policy := default (cj_misfire_policy j) (ce_misfire_policy request) ⟫
          ⟪ cj_runtime_profile := profile ⟫ ⟪ cj_state := state ⟫ ⟪ cj_next_run_at := next ⟫
          ⟪ cj_revision := cj_revision j + 1 ⟫ ⟪ cj_updated_at := utc_iso now ⟫).

(** Each of these reads a job, decides, and saves it under its revision. *)
(* source: cron/service.py CronService.edit *)
Definition edit_write (now : utc) (request : CronJobEditRequest) (j : CronJob) : Tx CronDb CronJob :=
  reject (cj_state j = JS_deleted) (RuntimeError "deleted Cron job cannot be edited");;
  updated ← tx_lift (edited now request j);
  save_job updated (Some (cj_revision j));; mret updated.

(* source: cron/service.py CronService.pause *)
Definition pause_write (now : utc) (j : CronJob) : Tx CronDb CronJob :=
  reject (cj_state j = JS_completed ∨ cj_state j = JS_deleted)
    (RuntimeError "completed or deleted Cron job cannot be paused");;
  let updated := j ⟪ cj_state := JS_paused ⟫ ⟪ cj_revision := cj_revision j + 1 ⟫ ⟪ cj_updated_at := utc_iso now ⟫ in
  save_job updated (Some (cj_revision j));; mret updated.

(* source: cron/service.py CronService.resume *)
Definition resume_write (now : utc) (j : CronJob) : Tx CronDb CronJob :=
  reject (cj_state j = JS_deleted) (RuntimeError "deleted Cron job cannot be resumed");;
  reject (cs_kind (cj_schedule j) = SK_once ∧ cj_state j = JS_completed)
    (RuntimeError "completed one-time Cron job cannot be resumed");;
  next ← tx_lift (initial_next (cj_schedule j) now);
  let updated := j ⟪ cj_state := JS_scheduled ⟫ ⟪ cj_next_run_at := Some (utc_iso next) ⟫
                   ⟪ cj_revision := cj_revision j + 1 ⟫ ⟪ cj_updated_at := utc_iso now ⟫ in
  save_job updated (Some (cj_revision j));; mret updated.

(* source: cron/service.py:193-196 CronService.remove *)
Definition remove_write (now : utc) (j : CronJob) : Tx CronDb CronJob :=
  let updated := j ⟪ cj_state := JS_deleted ⟫ ⟪ cj_next_run_at := None ⟫ ⟪ cj_deleted_at := Some (utc_iso now) ⟫
                   ⟪ cj_revision := cj_revision j + 1 ⟫ ⟪ cj_updated_at := utc_iso now ⟫ in
  save_job updated (Some (cj_revision j));; mret updated.

(* source: cron/service.py:168-171 CronService.trigger *)
Definition run_now_dispatch (uuid timestamp : string) (j : CronJob) : CronDispatch :=
  mkCronDispatch ("cron_dispatch_" +:+ uuid) (cj_job_id j) (cj_revision j) TR_run_now None DS_pending 1 None None
    None None None None None None None None j
    (sha256_hex ("run-now:" +:+ cj_job_id j +:+ ":" +:+ str_of_int (cj_revision j) +:+ ":" +:+ timestamp))
    1 None None timestamp None None None.

(* source: cron/service.py CronService.trigger *)
Definition trigger_write (uuid : string) (now : utc) (j : CronJob) : Tx CronDb unit :=
  reject (cj_state j = JS_deleted ∨ truthy (cj_current_dispatch_id j) = true)
    (RuntimeError "Cron job already has an active dispatch or has been deleted");;
  d ← tx_lift (build_dispatch (run_now_dispatch uuid (utc_iso now) j));
  due_materialize j [d] (cj_next_run_at j) (utc_iso now).

(* source: cron/service.py:180-183 CronService.retry *)
Definition retry_dispatch (uuid timestamp : string) (o : CronDispatch) : CronDispatch :=
  mkCronDispatch ("cron_dispatch_" +:+ uuid) (cd_job_id o) (cd_job_revision o) TR_retry None DS_pending 1 None None
    None None None None None None None (Some (cd_dispatch_id o)) (cd_job_snapshot o)
    (sha256_hex ("retry:" +:+ cd_dispatch_id o +:+ ":" +:+ timestamp)) 1 None None timestamp None None None.

(* source: cron/service.py CronService.retry *)
Definition retry_write (uuid : string) (now : utc) (original : CronDispatch) (j : CronJob) : Tx CronDb CronDispatch :=
  require (cd_status original = DS_failed ∨ cd_status original = DS_cancelled)
    (RuntimeError "only a determined failed/cancelled dispatch can be retried");;
  d ← tx_lift (build_dispatch (retry_dispatch uuid (utc_iso now) original));
  due_materialize j [d] (cj_next_run_at j) (utc_iso now);; mret d.

(** A method without suspension between its read and its write. *)
Definition on_job {A} (job_id : string) (k : CronJob → Tx CronDb A) : Tx CronDb A :=
  j ← tx_read (job job_id); k j.

Definition edit now request job_id : Tx CronDb CronJob := on_job job_id (edit_write now request).
Definition pause now job_id : Tx CronDb CronJob := on_job job_id (pause_write now).
Definition resume now job_id : Tx CronDb CronJob := on_job job_id (resume_write now).
Definition trigger uuid now job_id : Tx CronDb CronJob :=
  on_job job_id (trigger_write uuid now);; tx_read (job job_id).
Definition retry uuid now dispatch_id : Tx CronDb CronDispatch :=
  original ← tx_read (dispatch dispatch_id);
  require (cd_status original = DS_failed ∨ cd_status original = DS_cancelled)
    (RuntimeError "only a determined failed/cancelled dispatch can be retried");;
  on_job (cd_job_id original) (retry_write uuid now original).

(** What was done before an error stays. *)
(* source: cron/service.py:198-200 CronService.remove *)
Fixpoint cancel_all (now : utc) (ds : list CronDispatch) (db : CronDb) : res unit * CronDb :=
  match ds with
  | [] => (Ok tt, db)
  | d :: ds =>
      if unbound (cd_status d) then
        match cancel_unbound (cd_dispatch_id d) "job_deleted_before_claim" (utc_iso now) db with
        | Ok (_, db) => cancel_all now ds db
        | Err e => (Err e, db)
        end
      else cancel_all now ds db
  end.

(* source: cron/service.py CronService.remove *)
Definition remove (now : utc) (job_id : string) (db : CronDb) : res CronJob * CronDb :=
  match job job_id db with
  | Err e => (Err e, db)
  | Ok j =>
      if decide (cj_state j = JS_deleted) then (Ok j, db) else
      match remove_write now j db with
      | Err e => (Err e, db)
      | Ok (updated, db) =>
          match dispatches job_id (Z.to_nat 10000) db with
          | Err e => (Err e, db)
          | Ok ds =>
              match cancel_all now ds db with
              | (Ok _, db) => (Ok updated, db)
              | (Err e, db) => (Err e, db)
              end
          end
      end
  end.

(* source: cron/service.py CronService.status *)
Definition status (error : option string) (db : CronDb) : res CronStatus :=
  h ← heartbeat db;
  js ← jobs None true db;
  mret (mkCronStatus
    (negb (bool_decide (hb_status h = HB_unhealthy)) && negb (truthy error) && negb (truthy (hb_last_error h))) h
    (Z.of_nat (length js)) (Z.of_nat (length (filter (λ j, cj_state j = JS_scheduled) js)))
    (Z.of_nat (length (filter (λ j, is_some (cj_current_run_id j) = true) js))) (opt_str_or error (hb_last_error h))).

(** ** Due periods *)

(* source: cron/scheduler.py:114-114 CronScheduler._materialize_due *)
Definition occurrence_limit : nat := Z.to_nat 100000.

(** The occurrences up to [now] and where the cursor stops. *)
(* source: cron/scheduler.py:111-121 CronScheduler._materialize_due *)
Fixpoint due_occurrences (limit : nat) (s : CronSchedule) (now cursor : utc) : res (list utc * utc) :=
  match limit with
  | O => mret ([], cursor)
  | S limit =>
      if now <? cursor then mret ([], cursor) else
      nxt ← next_after cal s cursor;
      match nxt with
      | None => mret ([cursor], cursor)
      | Some t => '(occurrences, last) ← due_occurrences limit s now t; mret (cursor :: occurrences, last)
      end
  end.

(* source: cron/scheduler.py CronScheduler._new_dispatch *)
Definition new_dispatch (uuid : string) (j : CronJob) (tr : Trigger) (scheduled_for : string) (coalesced : Z)
    (now : string) : CronDispatch :=
  mkCronDispatch ("cron_dispatch_" +:+ uuid) (cj_job_id j) (cj_revision j) tr (Some scheduled_for) DS_pending
    coalesced (if coalesced =? 1 then Some scheduled_for else None) (Some scheduled_for)
    None None None None None None None None j
    (sha256_hex (cj_job_id j +:+ ":" +:+ str_of_int (cj_revision j) +:+ ":" +:+ scheduled_for +:+ ":" +:+ str_of_int coalesced))
    1 None None now None None None.

(* source: cron/scheduler.py:137-141 CronScheduler._materialize_due *)
Definition skip (reason now : string) (d : CronDispatch) : CronDispatch :=
  d ⟪ cd_status := DS_skipped ⟫ ⟪ cd_completed_at := Some now ⟫ ⟪ cd_error := Some reason ⟫.

(** The dispatches to create for the occurrences, and the new cursor. *)
(* source: cron/scheduler.py:122-161 CronScheduler._materialize_due *)
Definition plan (uuid : nat → string) (j : CronJob) (now : utc) (pending : nat) (occurrences : list utc) (cursor : utc) :
    res (list CronDispatch * option string) :=
  let now_s := utc_iso now in
  let latest := utc_iso (default cursor (last occurrences)) in
  let coalesced := new_dispatch (uuid 0%nat) j TR_scheduled latest (Z.of_nat (length occurrences)) now_s in
  let next_run := if now <? cursor then Some (utc_iso cursor) else None in
  if truthy (cj_current_dispatch_id j) || truthy (cj_current_run_id j) then
    d ← build_dispatch coalesced; mret ([skip "overlap_skipped" now_s d], next_run)
  else match cj_misfire_policy j with
  | MP_skip => d ← build_dispatch coalesced; mret ([skip "misfire_skip" now_s d], next_run)
  | MP_fire_once => d ← build_dispatch coalesced; mret ([d], next_run)
  | MP_catch_up =>
      let capacity := (10 - pending)%nat in
      created ← mapM build_dispatch
        (imap (λ i t, new_dispatch (uuid i) j TR_scheduled (utc_iso t) 1 now_s) (take capacity occurrences));
      mret (created, match drop capacity occurrences with
                     | [] => next_run
                     | t :: _ => Some (utc_iso t)
                     end)
  end.

(* source: cron/scheduler.py CronScheduler._materialize_due *)
Definition materialize_due (uuid : nat → string) (j : CronJob) (now : utc) : Tx CronDb unit :=
  if negb (bool_decide (cj_state j = JS_scheduled)) || negb (truthy (cj_next_run_at j)) then mret tt else
  match parse_time (default "" (cj_next_run_at j)) with
  | Err (ValueError _) => mret tt
  | Err e => tx_fail e
  | Ok due =>
      if now <? due then mret tt else
      ds ← tx_read (dispatches (cj_job_id j) (Z.to_nat 1000));
      let pending := length (filter (λ d, cd_status d = DS_pending) ds) in
      '(occurrences, cursor) ← tx_lift (due_occurrences occurrence_limit (cj_schedule j) now due);
      if decide (occurrences = []) then mret tt else
      '(created, next_run) ← tx_lift (plan uuid j now pending occurrences cursor);
      if decide (created = []) then mret tt else
      due_materialize j created next_run (utc_iso now)
  end.

(** ** A tick *)

(** What a tick draws from outside: the ids of the dispatches it creates for a
    job, and the token and the time of its claim. *)
Record TickEnv := mkTickEnv {
  te_now : utc;
  te_uuid : string → nat → string;
  te_token : string → string;
  te_claim_now : string → utc;
  te_epoch : string
}.

(* source: cron/scheduler.py:73-74 CronScheduler._tick_impl *)
Fixpoint materialize_all (env : TickEnv) (js : list CronJob) (db : CronDb) : res unit * CronDb :=
  match js with
  | [] => (Ok tt, db)
  | j :: js =>
      match materialize_due (te_uuid env (cj_job_id j)) j (te_now env) db with
      | Ok (_, db) => materialize_all env js db
      | Err e => (Err e, db)
      end
  end.

(** [claim_next] with its default lease of 120 seconds. *)
Definition claim (env : TickEnv) (job_id : string) : Tx CronDb (option CronDispatch) :=
  expiry ← tx_lift (add_seconds (te_claim_now env job_id) 120);
  claim_next job_id (te_token env job_id) (te_epoch env) (utc_iso (te_claim_now env job_id)) (utc_iso expiry).

(** An exception of one claim goes on to the next job. *)
(* source: cron/scheduler.py:75-82 CronScheduler._tick_impl *)
Fixpoint claim_all (env : TickEnv) (js : list CronJob) (db : CronDb) : list CronDispatch * CronDb :=
  match js with
  | [] => ([], db)
  | j :: js =>
      match claim env (cj_job_id j) db with
      | Ok (Some d, db) => let '(ds, db) := claim_all env js db in (d :: ds, db)
      | Ok (None, db) => claim_all env js db
      | Err _ => claim_all env js db
      end
  end.

(* source: cron/scheduler.py:83-86 CronScheduler._tick_impl *)
Definition beat (now : utc) : Tx CronDb unit :=
  h ← tx_read heartbeat;
  next ← tx_lift (add_seconds now (hb_interval_seconds h));
  set_heartbeat (h ⟪ hb_status := HB_running ⟫ ⟪ hb_last_tick_at := Some (utc_iso now) ⟫
                   ⟪ hb_next_tick_at := Some (utc_iso next) ⟫ ⟪ hb_last_error := None ⟫).

Section tick.
Context (submit_dispatch : CronDispatch → CronDb → res unit * CronDb).

(* source: cron/scheduler.py:87-98 CronScheduler._tick_impl *)
Fixpoint submit_all (ds : list CronDispatch) (db : CronDb) : list string * CronDb :=
  match ds with
  | [] => ([], db)
  | d :: ds =>
      let '(r, db) := submit_dispatch d db in
      let '(rest, db') := submit_all ds db in
      match r, dispatch (cd_dispatch_id d) db with
      | Ok _, Ok b => (str_or (cd_run_id b) (cd_dispatch_id d) :: rest, db')
      | _, _ => (rest, db')
      end
  end.

(** [maintenance] is [_maintenance_epoch]. *)
(* source: cron/scheduler.py CronScheduler._tick_impl *)
Definition tick (maintenance : option Z) (env : TickEnv) (db : CronDb) : res (list string) * CronDb :=
  if is_some maintenance then (Ok [], db) else
  match jobs None false db with
  | Err e => (Err e, db)
  | Ok js =>
      match materialize_all env js db with
      | (Err e, db) => (Err e, db)
      | (Ok _, db) =>
          match jobs None false db with
          | Err e => (Err e, db)
          | Ok js =>
              let '(claimed, db) := claim_all env js db in
              match beat (te_now env) db with
              | Err e => (Err e, db)
              | Ok (_, db) => let '(submitted, db) := submit_all claimed db in (Ok submitted, db)
              end
          end
      end
  end.
End tick.

End service.

(** ** Maintenance *)

(** The answer: whether it was acknowledged and whether it was stale. *)
(* source: cron/scheduler.py CronScheduler.quiesce *)
Definition quiesce (epoch : Z) (maintenance : option Z) : (bool * bool) * option Z :=
  match maintenance with
  | Some m => if epoch <=? m then ((epoch =? m, epoch <? m), Some m) else ((true, false), Some epoch)
  | None => ((true, false), Some epoch)
  end.

(* source: cron/scheduler.py CronScheduler.resume *)
Definition resume_scheduler (epoch : Z) (maintenance : option Z) : option Z :=
  if decide (maintenance = Some epoch) then None else maintenance.
