(* ===== verification/CronFacts.v ===== *)
(** * CronFacts: what one scheduler statement can change

    The steps of the cron system, with whatever a caller read earlier; each is
    reduced to one of a few changes of the two tables ([delta]), on which the
    invariants are proved. *)

From S2P Require Import Prelude PyText PyTime CronModels CronSchedules CronStore CronImport CronScheduler.

#[local] Open Scope Z_scope.

(** ** The system

    [sy_seen_jobs] and [sy_seen_dispatches] are the versions some caller has
    read and may still act on, after any number of other steps. *)
Record CronSys := mkCronSys {
  sy_db : CronDb;
  sy_seen_jobs : list CronJob;
  sy_seen_dispatches : list CronDispatch
}.

Definition finished (s : DispatchState) : bool :=
  match s with DS_succeeded | DS_failed | DS_cancelled => true | _ => false end.

Section steps.
Context (cal : Calendar).

Inductive cron_write (js : list CronJob) (ds : list CronDispatch) : CronDb → CronDb → Prop :=
| w_heartbeat h db u db' : set_heartbeat h db = Ok (u, db') → cron_write js ds db db'
| w_create uuid now request j db db' :
    db_jobs db !! ("cron_" +:+ uuid) = None →
    create cal uuid now request db = Ok (j, db') → cron_write js ds db db'
| w_preset digest now project expression tz j db db' :
    ensure_paper_research_preset cal digest now project expression tz db = Ok (j, db') → cron_write js ds db db'
| w_edit now request j a db db' : j ∈ js → edit_write cal now request j db = Ok (a, db') → cron_write js ds db db'
| w_pause now j a db db' : j ∈ js → pause_write now j db = Ok (a, db') → cron_write js ds db db'
| w_resume now j a db db' : j ∈ js → resume_write cal now j db = Ok (a, db') → cron_write js ds db db'
| w_remove now j a db db' : j ∈ js → remove_write now j db = Ok (a, db') → cron_write js ds db db'
| w_trigger uuid now j a db db' : j ∈ js → trigger_write uuid now j db = Ok (a, db') → cron_write js ds db db'
| w_retry uuid now d j a db db' : d ∈ ds → j ∈ js → cj_job_id j = cd_job_id d →
    retry_write uuid now d j db = Ok (a, db') → cron_write js ds db db'
| w_materialize uuid j now a db db' : j ∈ js → materialize_due cal uuid j now db = Ok (a, db') → cron_write js ds db db'
| w_claim job_id token epoch now expiry a db db' :
    claim_next job_id token epoch now expiry db = Ok (a, db') → cron_write js ds db db'
| w_bind d j token now session run operation attempt a db db' : d ∈ ds → j ∈ js → cj_job_id j = cd_job_id d →
    session ≠ "" → run ≠ "" → operation ≠ "" → attempt ≠ "" →
    bind_running_write d j token now session run operation attempt db = Ok (a, db') → cron_write js ds db db'
| w_settle d j status result error completed a db db' : d ∈ ds → j ∈ js → cj_job_id j = cd_job_id d →
    unsettled (cd_status d) = true → finished status = true →
    mark_terminal_write d j status result error completed db = Ok (a, db') → cron_write js ds db db'
| w_cancel d reason now a db db' : d ∈ ds → unbound (cd_status d) = true →
    cancel_unbound_write d reason now db = Ok (a, db') → cron_write js ds db db'
| w_recovery d reason a db db' : d ∈ ds → unsettled (cd_status d) = true →
    mark_recovery_write d reason db = Ok (a, db') → cron_write js ds db db'.

Inductive cron_step : CronSys → CronSys → Prop :=
| step_read_job id j db js ds : job id db = Ok j → cron_step (mkCronSys db js ds) (mkCronSys db (j :: js) ds)
| step_read_dispatch id d db js ds :
    dispatch id db = Ok d → cron_step (mkCronSys db js ds) (mkCronSys db js (d :: ds))
| step_write db db' js ds : cron_write js ds db db' → cron_step (mkCronSys db js ds) (mkCronSys db' js ds).

(** The store begins with what is imported from an older version, if there was
    one. *)
Definition cron_initial (db : CronDb) : Prop := ∃ pf seconds now raw, ensure pf seconds now raw = Ok db.
Definition cron_reachable (s : CronSys) : Prop :=
  ∃ db0, cron_initial db0 ∧ rtc cron_step (mkCronSys db0 [] []) s.
End steps.

(** ** Statements *)

Lemma update_job_ok j n cols db u db' :
  update_job j n cols db = Ok (u, db') ↔
  ∃ old, db_jobs db !! cj_job_id j = Some old ∧ jr_revision old = n ∧ 1 ≤ cj_revision j ∧
    db' = db ⟪ db_jobs := <[cj_job_id j := cols old]> (db_jobs db) ⟫.
Proof.
  unfold update_job, mbind, tx_bind, tx_gets. destruct u. destruct (db_jobs db !! cj_job_id j) as [old|].
  - case_decide; [|split; [done|naive_solver]]. unfold require. case_decide; [|split; [done|naive_solver]].
    cbn. split; [intros [= <-]; eauto|]. intros (? & [= <-] & _ & _ & ->). done.
  - split; [done|]. by intros (? & ? & _).
Qed.

Lemma replace_dispatch_ok d n db u db' :
  replace_dispatch d n db = Ok (u, db') ↔
  ∃ old, db_dispatches db !! cd_dispatch_id d = Some old ∧ dr_revision old = n ∧ 1 ≤ cd_revision d ∧
    let r := mkDispatchRow (dr_rowid old) (dr_job_id old) (dr_scheduled_for old) (cd_status d) (cd_run_id d)
               (cd_operation_id d) (cd_attempt_id d) (cd_revision d) (dr_created_at old) d in
    clashes (cd_dispatch_id d) r db = false ∧
    db' = db ⟪ db_dispatches := <[cd_dispatch_id d := r]> (db_dispatches db) ⟫.
Proof.
  unfold replace_dispatch, mbind, tx_bind, tx_gets. destruct u.
  destruct (db_dispatches db !! cd_dispatch_id d) as [old|].
  2:{ split; [done|]. by intros (? & ? & _). }
  case_decide; [|split; [done|naive_solver]]. unfold reject, require.
  destruct (clashes _ _ db) eqn:E.
  { rewrite decide_True by done. split; [done|]. intros (? & [= <-] & _ & _ & Hc & _). by rewrite Hc in E. }
  rewrite decide_False by done. case_decide; [|split; [done|naive_solver]].
  cbn. split; [intros [= <-]; eauto 10|]. intros (? & [= <-] & _ & _ & _ & ->). done.
Qed.

Lemma insert_dispatch_ok d db u db' :
  insert_dispatch d db = Ok (u, db') →
  db_dispatches db !! cd_dispatch_id d = None ∧ is_some (db_jobs db !! cd_job_id d) = true ∧
  clashes (cd_dispatch_id d) (dispatch_row (next_rowid db) d) db = false ∧
  db' = db ⟪ db_dispatches := <[cd_dispatch_id d := dispatch_row (next_rowid db) d]> (db_dispatches db) ⟫.
Proof.
  unfold insert_dispatch. intros (d0 & s1 & [-> ->]%tx_gets_ok & H)%tx_bind_ok. cbv zeta in H.
  apply tx_bind_ok in H as ([] & s1 & [H1 ->]%reject_ok & H).
  apply tx_bind_ok in H as ([] & s1 & [H2 ->]%reject_ok & H).
  apply tx_bind_ok in H as ([] & s1 & [H3 ->]%reject_ok & H).
  apply tx_bind_ok in H as ([] & s1 & [_ ->]%reject_ok & H).
  apply tx_bind_ok in H as ([] & s1 & [_ ->]%require_ok & ->%tx_modify_ok).
  apply not_true_is_false in H1, H2, H3.
  split; [by destruct (db_dispatches db !! cd_dispatch_id d)|].
  split; [by destruct (db_jobs db !! cd_job_id d)|done].
Qed.

(** ** Unique indexes *)

Lemma clashes_false id r db :
  clashes id r db = false ↔ ∀ id' r', db_dispatches db !! id' = Some r' → id' ≠ id → rows_clash r r' = false.
Proof.
  unfold clashes, any_dispatch. rewrite <- not_true_iff_false, existsb_exists. split.
  - intros H id' r' Hr Hne. apply not_true_is_false. intros Hc. apply H. exists (id', r').
    rewrite <- list_elem_of_In, elem_of_map_to_list. cbn. by rewrite bool_decide_eq_false_2.
  - intros H ([id' r'] & Hin%list_elem_of_In & Hc). apply elem_of_map_to_list in Hin. cbn in Hc.
    apply andb_true_iff in Hc as [Hne Hc]. apply negb_true_iff, bool_decide_eq_false in Hne.
    by rewrite (H id' r') in Hc.
Qed.

Lemma same_key_sym a b : same_key a b = same_key b a.
Proof.
  unfold same_key. destruct a as [a|], b as [b|]; cbn; try done.
  destruct (decide (a = b)) as [->|Hne]; [done|]. rewrite !bool_decide_eq_false_2; naive_solver.
Qed.
Lemma rows_clash_sym a b : rows_clash a b = rows_clash b a.
Proof.
  unfold rows_clash. rewrite (same_key_sym (dr_scheduled_for a)), (same_key_sym (dr_run_id a)),
    (same_key_sym (dr_operation_id a)), (same_key_sym (dr_attempt_id a)), (andb_comm (active (dr_status a))).
  do 3 f_equal. f_equal. apply bool_decide_ext. naive_solver.
Qed.

(** ** Tables and versions *)

Definition job_at (db : CronDb) (j : CronJob) : Prop := db_jobs db !! cj_job_id j = Some (job_row j).
Definition dispatch_at (db : CronDb) (n : Z) (d : CronDispatch) : Prop :=
  db_dispatches db !! cd_dispatch_id d = Some (dispatch_row n d).

(** Every column is the field of the document it was written from. *)
Record mirrored (db : CronDb) : Prop := {
  mi_jobs : ∀ id r, db_jobs db !! id = Some r → r = job_row (jr_job r) ∧ cj_job_id (jr_job r) = id;
  mi_dispatches : ∀ id r, db_dispatches db !! id = Some r →
    r = dispatch_row (dr_rowid r) (dr_dispatch r) ∧ cd_dispatch_id (dr_dispatch r) = id
}.

(** A version that was read is the stored one, or older. *)
Definition job_seen (db : CronDb) (j : CronJob) : Prop :=
  ∃ r, db_jobs db !! cj_job_id j = Some r ∧ cj_revision j ≤ jr_revision r ∧ (cj_revision j = jr_revision r → jr_job r = j).
Definition dispatch_seen (db : CronDb) (d : CronDispatch) : Prop :=
  ∃ r, db_dispatches db !! cd_dispatch_id d = Some r ∧ cd_revision d ≤ dr_revision r ∧
    (cd_revision d = dr_revision r → dr_dispatch r = d).

(** ** Changes *)

Definition job_core (j : CronJob) : string * string * string := (cj_job_id j, cj_project_id j, cj_created_at j).
Definition job_binding (j : CronJob) : option string * option string := (cj_current_dispatch_id j, cj_current_run_id j).
Definition job_counts (j : CronJob) : Z * Z * Z * Z :=
  (cj_run_count j, cj_failure_count j, cj_missed_count j, cj_overlap_skipped j).

(** What never changes of a dispatch. *)
Definition dispatch_core (d : CronDispatch) :=
  (cd_dispatch_id d, cd_job_id d, cd_job_revision d, cd_trigger d, cd_scheduled_for d, cd_coalesced_count d,
   cd_misfire_window_start d, cd_misfire_window_end d, cd_retry_of_dispatch_id d, cd_job_snapshot d,
   cd_request_hash d, cd_created_at d).

Definition identities (d : CronDispatch) : list (option string) :=
  [cd_session_id d; cd_run_id d; cd_operation_id d; cd_attempt_id d].
Definition no_identity (d : CronDispatch) : Prop := Forall (λ o, o = None) (identities d).
Definition has_identity (d : CronDispatch) : Prop := Forall (λ o, truthy o = true) (identities d).

(** The state machine of a dispatch. *)
Definition edge (a b : DispatchState) : bool :=
  match a, b with
  | DS_pending, (DS_claimed | DS_cancelled) => true
  | DS_claimed, (DS_running | DS_cancelled) => true
  | (DS_running | DS_recovery_required), (DS_recovery_required | DS_succeeded | DS_failed | DS_cancelled) => true
  | _, _ => false
  end.

Record moves (d d' : CronDispatch) : Prop := {
  mv_core : dispatch_core d' = dispatch_core d;
  mv_revision : cd_revision d' = cd_revision d + 1;
  mv_edge : edge (cd_status d) (cd_status d') = true;
  mv_identity : if bool_decide (cd_status d = DS_claimed ∧ cd_status d' = DS_running) then has_identity d'
                else identities d' = identities d
}.

Record new_row (job_id : string) (d : CronDispatch) : Prop := {
  nr_id : cd_dispatch_id d ≠ "";
  nr_job : cd_job_id d = job_id;
  nr_status : cd_status d = DS_pending ∨ cd_status d = DS_skipped;
  nr_identity : no_identity d;
  nr_revision : cd_revision d = 1;
  nr_coalesced : 1 ≤ cd_coalesced_count d
}.

Definition no_clash (id : string) (r : DispatchRow) (m : gmap string DispatchRow) : Prop :=
  ∀ id' r', m !! id' = Some r' → id' ≠ id → rows_clash r r' = false.

Inductive added : list CronDispatch → gmap string DispatchRow → gmap string DispatchRow → Prop :=
| added_nil m : added [] m m
| added_cons d ds n m m' :
    m !! cd_dispatch_id d = None → no_clash (cd_dispatch_id d) (dispatch_row n d) m →
    added ds (<[cd_dispatch_id d := dispatch_row n d]> m) m' → added (d :: ds) m m'.

Inductive delta (db db' : CronDb) : Prop :=
| delta_none : db_jobs db' = db_jobs db → db_dispatches db' = db_dispatches db → delta db db'
| delta_new_job j :
    db_jobs db !! cj_job_id j = None → job_binding j = (None, None) → job_counts j = (0, 0, 0, 0) →
    db_jobs db' = <[cj_job_id j := job_row j]> (db_jobs db) → db_dispatches db' = db_dispatches db → delta db db'
| delta_job j j' :
    job_at db j → job_core j' = job_core j → job_binding j' = job_binding j → job_counts j' = job_counts j →
    cj_revision j' = cj_revision j + 1 →
    db_jobs db' = <[cj_job_id j' := job_row j']> (db_jobs db) → db_dispatches db' = db_dispatches db → delta db db'
| delta_materialize j ds next now :
    job_at db j → Forall (new_row (cj_job_id j)) ds → added ds (db_dispatches db) (db_dispatches db') →
    db_jobs db' = <[cj_job_id j := job_row (materialized j ds next now)]> (db_jobs db) → delta db db'
| delta_dispatch n d d' :
    dispatch_at db n d → moves d d' → unsettled (cd_status d') = unsettled (cd_status d) →
    no_clash (cd_dispatch_id d') (dispatch_row n d') (db_dispatches db) →
    db_jobs db' = db_jobs db → db_dispatches db' = <[cd_dispatch_id d' := dispatch_row n d']> (db_dispatches db) →
    delta db db'
| delta_bind n d d' j j' :
    dispatch_at db n d → job_at db j → cj_job_id j = cd_job_id d → moves d d' →
    cd_status d = DS_claimed → cd_status d' = DS_running →
    no_clash (cd_dispatch_id d') (dispatch_row n d') (db_dispatches db) →
    job_core j' = job_core j → job_counts j' = job_counts j → cj_revision j' = cj_revision j + 1 →
    job_binding j' = (Some (cd_dispatch_id d), cd_run_id d') →
    db_jobs db' = <[cj_job_id j' := job_row j']> (db_jobs db) →
    db_dispatches db' = <[cd_dispatch_id d' := dispatch_row n d']> (db_dispatches db) → delta db db'
| delta_settle n d status result error completed j :
    dispatch_at db n d → job_at db j → cj_job_id j = cd_job_id d → unsettled (cd_status d) = true →
    finished status = true →
    let d' := settled d status result error completed in let j' := released j d status error completed in
    no_clash (cd_dispatch_id d) (dispatch_row n d') (db_dispatches db) →
    db_jobs db' = <[cj_job_id j := job_row j']> (db_jobs db) →
    db_dispatches db' = <[cd_dispatch_id d := dispatch_row n d']> (db_dispatches db) → delta db db'.

(** ** From a seen version to the stored one *)

Lemma seen_job_stored db j n cols u db' upd :
  mirrored db → job_seen db j → cj_job_id upd = cj_job_id j → n = cj_revision j →
  update_job upd n cols db = Ok (u, db') →
  job_at db j ∧ db_jobs db' = <[cj_job_id j := cols (job_row j)]> (db_jobs db) ∧ db_dispatches db' = db_dispatches db.
Proof.
  intros M (r & Hr & _ & Hv) Hid -> (old & Hold & Hrev & _ & ->)%update_job_ok. rewrite Hid in *.
  assert (r = old) as -> by congruence. destruct (mi_jobs _ M _ _ Hold) as [E _].
  rewrite Hv in E by congruence. unfold job_at. rewrite Hold, E. done.
Qed.

Lemma seen_dispatch_stored db d n d' u db' :
  mirrored db → dispatch_seen db d → dispatch_core d' = dispatch_core d → n = cd_revision d →
  replace_dispatch d' n db = Ok (u, db') →
  ∃ m, dispatch_at db m d ∧ no_clash (cd_dispatch_id d') (dispatch_row m d') (db_dispatches db) ∧
    db_dispatches db' = <[cd_dispatch_id d' := dispatch_row m d']> (db_dispatches db) ∧ db_jobs db' = db_jobs db.
Proof.
  intros M (r & Hr & _ & Hv) Hc -> (old & Hold & Hrev & _ & Hcl & ->)%replace_dispatch_ok. cbv zeta in Hcl.
  unfold dispatch_core in Hc. injection Hc as E1 E2 _ _ E5 _ _ _ _ _ _ E12. rewrite E1 in *.
  assert (r = old) as -> by congruence. destruct (mi_dispatches _ M _ _ Hold) as [E _].
  rewrite Hv in E by congruence. exists (dr_rowid old). unfold dispatch_at. rewrite Hold. split; [by rewrite <- E|].
  rewrite E in Hcl |- *. cbn in *. unfold dispatch_row. rewrite E2, E5, E12.
  split; [|done]. intros id' r' H1 H2. by eapply clashes_false.
Qed.

Lemma insert_dispatches_added ds : ∀ db u db',
  insert_dispatches ds db = Ok (u, db') →
  added ds (db_dispatches db) (db_dispatches db') ∧ db_jobs db' = db_jobs db ∧ db_heartbeat db' = db_heartbeat db.
Proof.
  induction ds as [|d ds IH]; intros db u db'; cbn.
  { intros [_ ->]%tx_ret_ok. by split; [constructor|]. }
  intros ([] & db1 & (H1 & _ & H3 & ->)%insert_dispatch_ok & H)%tx_bind_ok.
  apply IH in H as (Ha & E1 & E2). split; [|done]. econstructor; [done| |exact Ha].
  exact (proj1 (clashes_false _ _ _) H3).
Qed.

(** ** Every write is a change *)

Definition dispatch_shape (d : CronDispatch) : Prop :=
  cd_dispatch_id d ≠ "" ∧ 1 ≤ cd_coalesced_count d ∧
  match cd_status d with
  | DS_pending | DS_claimed | DS_skipped => no_identity d
  | DS_running | DS_recovery_required | DS_succeeded | DS_failed => has_identity d
  | DS_cancelled => no_identity d ∨ has_identity d
  end.

Lemma save_delta db j j' a b :
  mirrored db → job_seen db j → job_core j' = job_core j → job_binding j' = job_binding j →
  job_counts j' = job_counts j → cj_revision j' = cj_revision j + 1 →
  (save_job j' (Some (cj_revision j));; mret j') db = Ok (a, b) → delta db b.
Proof.
  intros M S Hc Hb Hn Hr (u & d1 & H & [_ ->]%tx_ret_ok)%tx_bind_ok. cbn in H.
  unfold job_core in Hc. injection Hc as E1 E2 E3.
  destruct (seen_job_stored _ _ _ _ _ _ _ M S E1 eq_refl H) as (Hat & Hj & Hd).
  apply (delta_job _ _ j j'); try done; [unfold job_core; congruence|]. rewrite Hj, E1. f_equal. unfold job_row, with_state. cbn. by rewrite E2.
Qed.

Lemma due_materialize_ok db j ds next now u b :
  mirrored db → job_seen db j → due_materialize j ds next now db = Ok (u, b) →
  job_at db j ∧ added ds (db_dispatches db) (db_dispatches b) ∧
  db_jobs b = <[cj_job_id j := job_row (materialized j ds next now)]> (db_jobs db).
Proof.
  intros M S (d0 & s1 & [-> ->]%tx_gets_ok & H)%tx_bind_ok.
  apply tx_bind_ok in H as ([] & s1 & [Hrev ->]%require_ok & H).
  apply tx_bind_ok in H as ([] & s1 & (Ha & Ej & _)%insert_dispatches_added & H).
  destruct S as (r & Hr & Hle & Hv). rewrite Hr in Hrev. injection Hrev as Hrev.
  destruct (mi_jobs _ M _ _ Hr) as [Er _]. rewrite Hv in Er by done.
  apply update_job_ok in H as (old & Hold & _ & _ & ->). change (cj_job_id (materialized j ds next now)) with (cj_job_id j) in *.
  rewrite Ej, Hr in Hold. injection Hold as <-. unfold job_at. rewrite Hr. split; [by rewrite Er|]. split; [done|].
  cbn. rewrite Ej. by rewrite Er.
Qed.

Lemma materialize_delta db j ds next now u b :
  mirrored db → job_seen db j → Forall (new_row (cj_job_id j)) ds →
  due_materialize j ds next now db = Ok (u, b) → delta db b.
Proof.
  intros M S Hds H. destruct (due_materialize_ok _ _ _ _ _ _ _ M S H) as (Hat & Ha & Ej).
  by apply (delta_materialize _ _ j ds next now).
Qed.

Lemma replace_delta {A} db d d' (a x : A) b :
  mirrored db → dispatch_seen db d → moves d d' → unsettled (cd_status d') = unsettled (cd_status d) →
  (replace_dispatch d' (cd_revision d);; mret a) db = Ok (x, b) → delta db b.
Proof.
  intros M S Hm Hu (u & s1 & H & [_ <-]%tx_ret_ok)%tx_bind_ok.
  destruct (seen_dispatch_stored _ _ _ _ _ _ M S (mv_core _ _ Hm) eq_refl H) as (n & Hat & Hc & Ed & Ej).
  by apply (delta_dispatch _ _ n d d').
Qed.

Lemma dispatch_rows_in P db kv :
  kv ∈ dispatch_rows P db → db_dispatches db !! kv.1 = Some kv.2 ∧ P kv.2 = true.
Proof.
  unfold dispatch_rows. rewrite merge_sort_Permutation, list_elem_of_filter. destruct kv.
  rewrite elem_of_map_to_list. cbn. tauto.
Qed.

Lemma claim_delta db job_id token epoch now expiry a b :
  mirrored db → claim_next job_id token epoch now expiry db = Ok (a, b) → delta db b.
Proof.
  intros M (d0 & s1 & [-> ->]%tx_gets_ok & H)%tx_bind_ok.
  destruct (db_jobs db !! job_id) as [r|]; [|apply tx_ret_ok in H as [_ <-]; by apply delta_none].
  apply tx_bind_ok in H as (j & s1 & [_ ->]%tx_lift_ok & H).
  case_decide; [apply tx_ret_ok in H as [_ <-]; by apply delta_none|].
  destruct (dispatch_rows _ db) as [|[id row] rest] eqn:E; [apply tx_ret_ok in H as [_ <-]; by apply delta_none|].
  apply tx_bind_ok in H as (old & s1 & [Hv ->]%tx_lift_ok & H). cbv zeta in H.
  assert ((id, row) ∈ dispatch_rows (λ r, bool_decide (dr_job_id r = job_id) && bool_decide (dr_status r = DS_pending)) db)
    as Hin by (rewrite E; left).
  apply dispatch_rows_in in Hin as [Hrow Hp]. cbn in Hrow, Hp, Hv. apply andb_true_iff in Hp as [_ Hp%bool_decide_eq_true].
  destruct (mi_dispatches _ M _ _ Hrow) as [Er Hid]. unfold valid_dispatch in Hv. destruct (CronDispatch_valid _); [|done].
  injection Hv as <-. assert (cd_status (dr_dispatch row) = DS_pending) as Hst by (rewrite Er in Hp; exact Hp).
  eapply (replace_delta _ (dr_dispatch row)); [exact M| | | |exact H].
  - exists row. rewrite Hid. split; [done|]. rewrite Er at 1. cbn. split; [|done]. rewrite Er. cbn. lia.
  - split; [done|done|cbn; by rewrite Hst|]. cbn. by rewrite bool_decide_eq_false_2 by (rewrite Hst; naive_solver).
  - cbn. by rewrite Hst.
Qed.

Lemma build_dispatch_ok d d' : build_dispatch d = Ok d' → d' = d ∧ 1 ≤ cd_coalesced_count d.
Proof.
  unfold build_dispatch, valid_dispatch, CronDispatch_valid. destruct (_ && _) eqn:E; [|done]. intros [= <-].
  split; [done|]. rewrite !andb_true_iff in E. destruct E as [[[_ E] _] _]. by apply Z.leb_le in E.
Qed.

Lemma no_identity_new uuid j tr t n now : no_identity (new_dispatch uuid j tr t n now).
Proof. by repeat constructor. Qed.

Lemma plan_rows uuid j now pending occs cursor ds next :
  plan uuid j now pending occs cursor = Ok (ds, next) → Forall (new_row (cj_job_id j)) ds.
Proof.
  assert (∀ i t n d, build_dispatch (new_dispatch (uuid i) j TR_scheduled t n (utc_iso now)) = Ok d →
    new_row (cj_job_id j) d ∧ ∀ reason, new_row (cj_job_id j) (skip reason (utc_iso now) d)) as Hnew.
  { intros i t n d [-> Hc]%build_dispatch_ok. split; [|intros reason]; (split; cbn; auto; apply no_identity_new). }
  unfold plan. intros H. cbv zeta in H. destruct (_ || _).
  { apply res_bind_ok in H as (d & H1 & [= <- _]). constructor; [|done]. by apply (Hnew _ _ _ _ H1). }
  destruct (cj_misfire_policy j).
  1,2: apply res_bind_ok in H as (d & H1 & [= <- _]); constructor; [|done]; by apply (Hnew _ _ _ _ H1).
  apply res_bind_ok in H as (l & H1 & [= <- _]). clear -H1 Hnew.
  apply Forall_forall. intros d Hd.
  assert (∀ l l', mapM build_dispatch l = Ok l' → ∀ d, d ∈ l' → ∃ d0, d0 ∈ l ∧ build_dispatch d0 = Ok d) as Hm.
  { clear. induction l as [|x l IH]; intros l'; [by intros [= <-] d ?%elem_of_nil|].
    intros (y & Hy & (l2 & Hl2 & [= <-])%res_bind_ok)%res_bind_ok d [->|Hd]%elem_of_cons; [exists x; by split; [left|]|].
    destruct (IH _ Hl2 _ Hd) as (d0 & ? & ?). exists d0. split; [by right|done]. }
  destruct (Hm _ _ H1 _ Hd) as (d0 & Hin & Hb). apply elem_of_lookup_imap in Hin as (i & t & -> & _).
  by apply (Hnew _ _ _ _ Hb).
Qed.

Lemma materialize_due_delta cal uuid j now u db b :
  mirrored db → job_seen db j → materialize_due cal uuid j now db = Ok (u, b) → delta db b.
Proof.
  intros M S. unfold materialize_due.
  destruct (_ || _); [intros [_ ->]%tx_ret_ok; by apply delta_none|].
  destruct (parse_time _) as [due|e]; [|destruct e; intros H; try done; by apply tx_ret_ok in H as [_ ->]; apply delta_none].
  destruct (now <? due); [intros [_ ->]%tx_ret_ok; by apply delta_none|].
  intros (l & s1 & [_ ->]%tx_read_ok & H)%tx_bind_ok. cbv zeta in H.
  apply tx_bind_ok in H as ([occs cursor] & s1 & [_ ->]%tx_lift_ok & H).
  case_decide; [apply tx_ret_ok in H as [_ ->]; by apply delta_none|].
  apply tx_bind_ok in H as ([ds next] & s1 & [Hp%plan_rows ->]%tx_lift_ok & H).
  case_decide; [apply tx_ret_ok in H as [_ ->]; by apply delta_none|].
  by eapply materialize_delta.
Qed.

Lemma edited_keeps cal now request j j' : edited cal now request j = Ok j' →
  job_core j' = job_core j ∧ job_binding j' = job_binding j ∧ job_counts j' = job_counts j ∧
  cj_revision j' = cj_revision j + 1.
Proof.
  unfold edited. intros (sch & _ & H)%res_bind_ok. apply res_bind_ok in H as (prof & _ & H).
  apply res_bind_ok in H as (next & _ & H). injection H as <-. done.
Qed.

Lemma bind_delta db d j token now ss run op att a b :
  mirrored db → dispatch_seen db d → job_seen db j → cj_job_id j = cd_job_id d →
  ss ≠ "" → run ≠ "" → op ≠ "" → att ≠ "" →
  bind_running_write d j token now ss run op att db = Ok (a, b) → delta db b.
Proof.
  intros M Sd Sj Hid H1 H2 H3 H4 ([] & s1 & [[Hst Htok] ->]%require_ok & H)%tx_bind_ok.
  apply tx_bind_ok in H as ([] & s1 & [_ ->]%reject_ok & H). cbv zeta in H.
  apply tx_bind_ok in H as (u & s1 & Hd & H). apply tx_bind_ok in H as (u' & s2 & Hj & [_ <-]%tx_ret_ok).
  destruct (seen_dispatch_stored db d _ (bound d now ss run op att) u s1 M Sd eq_refl eq_refl Hd) as (n & Hat & Hc & Ed & Ej).
  assert (job_at db j ∧ db_jobs s2 = <[cj_job_id j := job_row (occupied j (cd_dispatch_id d) now run)]> (db_jobs db)
    ∧ db_dispatches s2 = db_dispatches s1) as (Hjat & Ej2 & Ed2).
  { destruct Sj as (r & Hr & _ & Hv). apply update_job_ok in Hj as (old & Hold & Hrev & _ & ->).
    change (cj_job_id (occupied j (cd_dispatch_id d) now run)) with (cj_job_id j) in *.
    rewrite Ej, Hr in Hold. injection Hold as <-. destruct (mi_jobs _ M _ _ Hr) as [Er _].
    rewrite Hv in Er by congruence. unfold job_at. rewrite Hr, Er. split; [done|]. split; [|done].
    cbn. rewrite Ej. done. }
  eapply (delta_bind _ _ n d (bound d now ss run op att) j (occupied j (cd_dispatch_id d) now run)); try done.
  - split; [done|done|cbn; by rewrite Hst|]. cbn. rewrite bool_decide_eq_true_2 by done.
    unfold has_identity, identities. cbn. unfold truthy. repeat constructor; by rewrite bool_decide_eq_false_2.
  - by rewrite Ed2.
Qed.

Lemma settle_delta db d j status result error completed a b :
  mirrored db → dispatch_seen db d → job_seen db j → cj_job_id j = cd_job_id d →
  unsettled (cd_status d) = true → finished status = true →
  mark_terminal_write d j status result error completed db = Ok (a, b) → delta db b.
Proof.
  intros M Sd Sj Hid Hu Hf H. unfold mark_terminal_write in H. cbv zeta in H.
  apply tx_bind_ok in H as (u & s1 & Hd & H). apply tx_bind_ok in H as (u' & s2 & Hj & [_ <-]%tx_ret_ok).
  destruct (seen_dispatch_stored db d _ (settled d status result error completed) u s1 M Sd eq_refl eq_refl Hd)
    as (n & Hat & Hc & Ed & Ej).
  assert (job_at db j ∧ db_jobs s2 = <[cj_job_id j := job_row (released j d status error completed)]> (db_jobs db)
    ∧ db_dispatches s2 = db_dispatches s1) as (Hjat & Ej2 & Ed2).
  { destruct Sj as (r & Hr & _ & Hv). apply update_job_ok in Hj as (old & Hold & Hrev & _ & ->).
    change (cj_job_id (released j d status error completed)) with (cj_job_id j) in *.
    rewrite Ej, Hr in Hold. injection Hold as <-. destruct (mi_jobs _ M _ _ Hr) as [Er _].
    rewrite Hv in Er by congruence. unfold job_at. rewrite Hr, Er. split; [done|]. split; [|done].
    cbn. rewrite Ej. done. }
  eapply (delta_settle _ _ n d status result error completed j); try done. by rewrite Ed2.
Qed.

Lemma insert_delta new db j0 j db' :
  build_job new = Ok j0 → db_jobs db !! cj_job_id new = None →
  job_binding new = (None, None) → job_counts new = (0, 0, 0, 0) →
  (save_job j0 None;; mret j0) db = Ok (j, db') → delta db db'.
Proof.
  intros Hb Hf H1 H2 (u & s1 & H & [_ <-]%tx_ret_ok)%tx_bind_ok.
  unfold build_job, valid_job in Hb. destruct (CronJob_valid _); [|done]. injection Hb as <-.
  apply tx_bind_ok in H as ([] & s2 & [_ ->]%require_ok & ->%tx_modify_ok). by apply (delta_new_job _ _ new).
Qed.

Lemma write_delta cal js ds db db' :
  mirrored db → (∀ j, j ∈ js → job_seen db j) → (∀ d, d ∈ ds → dispatch_seen db d) →
  cron_write cal js ds db db' → delta db db'.
Proof.
  intros M Sj Sd Hw. revert M Sj Sd.
  destruct Hw as [h db u b H|uuid now rq j db b Hf H|dg now pr ex tz j db b H|now rq j a db b Hj H|now j a db b Hj H|now j a db b Hj H|now j a db b Hj H
    |uuid now j a db b Hj H|uuid now d j a db b Hd Hj Hid H|uuid j now a db b Hj H|id tok ep now ex a db b H
    |d j tok now ss run op att a db b Hd Hj Hid H1 H2 H3 H4 H|d j st r e c a db b Hd Hj Hid Hu Hfin H
    |d reason now a db b Hd Hu H|d reason a db b Hd Hu H]; intros M Sj Sd.
  - apply tx_modify_ok in H as ->. by apply delta_none.
  - unfold create in H. apply tx_bind_ok in H as (sch & s1 & [_ ->]%tx_lift_ok & H).
    apply tx_bind_ok in H as (pr & s1 & [_ ->]%tx_lift_ok & H). apply tx_bind_ok in H as (nx & s1 & [_ ->]%tx_lift_ok & H).
    apply tx_bind_ok in H as (j0 & s1 & [Hb ->]%tx_lift_ok & H). by eapply (insert_delta _ _ j0 j).
  - unfold ensure_paper_research_preset in H. cbv zeta in H. apply tx_bind_ok in H as (db1 & s1 & [-> ->]%tx_gets_ok & H).
    destruct (db_jobs db !! _) as [r|] eqn:Hf; [by apply tx_read_ok in H as [_ ->]; apply delta_none|].
    cbn [is_some] in H. apply tx_bind_ok in H as ([] & s1 & [_ ->]%require_ok & H).
    do 3 (apply tx_bind_ok in H as (? & s1 & [_ ->]%tx_lift_ok & H)).
    apply tx_bind_ok in H as (j0 & s1 & [Hb ->]%tx_lift_ok & H). by eapply (insert_delta _ _ j0 j).
  - apply tx_bind_ok in H as ([] & s1 & [_ ->]%reject_ok & H). apply tx_bind_ok in H as (j' & s1 & [He ->]%tx_lift_ok & H).
    apply edited_keeps in He as (E1 & E2 & E3 & E4). by eapply (save_delta _ j j'); auto.
  - apply tx_bind_ok in H as ([] & s1 & [_ ->]%reject_ok & H). by refine (save_delta _ j _ _ _ M (Sj _ Hj) _ _ _ _ H).
  - apply tx_bind_ok in H as ([] & s1 & [_ ->]%reject_ok & H). apply tx_bind_ok in H as ([] & s1 & [_ ->]%reject_ok & H).
    apply tx_bind_ok in H as (nx & s1 & [_ ->]%tx_lift_ok & H). by refine (save_delta _ j _ _ _ M (Sj _ Hj) _ _ _ _ H).
  - by refine (save_delta _ j _ _ _ M (Sj _ Hj) _ _ _ _ H).
  - apply tx_bind_ok in H as ([] & s1 & [_ ->]%reject_ok & H).
    apply tx_bind_ok in H as (d & s1 & [Hb ->]%tx_lift_ok & H). apply build_dispatch_ok in Hb as [-> _].
    eapply materialize_delta; [done|by apply Sj| |exact H]. constructor; [|done].
    split; [done|done|by left| |done|done]. by repeat constructor.
  - apply tx_bind_ok in H as ([] & s1 & [_ ->]%require_ok & H).
    apply tx_bind_ok in H as (d' & s1 & [Hb ->]%tx_lift_ok & H). apply build_dispatch_ok in Hb as [-> _].
    apply tx_bind_ok in H as (u & s1 & H & [_ <-]%tx_ret_ok).
    eapply materialize_delta; [done|by apply Sj| |exact H]. constructor; [|done].
    split; [done|done|by left| |done|done]. by repeat constructor.
  - eapply materialize_due_delta; [done|by apply Sj|exact H].
  - by eapply claim_delta.
  - exact (bind_delta _ d j _ _ _ _ _ _ _ _ M (Sd _ Hd) (Sj _ Hj) Hid H1 H2 H3 H4 H).
  - exact (settle_delta _ d j _ _ _ _ _ _ M (Sd _ Hd) (Sj _ Hj) Hid Hu Hfin H).
  - eapply (replace_delta _ d); [done|by apply Sd| | |exact H].
    + split; [done|done|by destruct (cd_status d)|]. cbn. by rewrite bool_decide_eq_false_2 by naive_solver.
    + cbn. by destruct (cd_status d).
  - eapply (replace_delta _ d); [done|by apply Sd| | |exact H].
    + split; [done|done|by destruct (cd_status d)|]. cbn. by rewrite bool_decide_eq_false_2 by naive_solver.
    + cbn. by rewrite Hu.
Qed.
