(* ===== verification/CronInvariant.v ===== *)
(** * CronInvariant: what holds of the two tables in every reachable state *)

From S2P Require Import Prelude PyText PyTime CronModels CronSchedules CronStore CronImport CronScheduler CronFacts.

#[local] Open Scope Z_scope.

(** ** Rows before and after a change *)

Inductive row_moved (db : CronDb) (id : string) (r r' : DispatchRow) : Prop :=
| row_moved_intro n d d' :
    r = dispatch_row n d → r' = dispatch_row n d' → cd_dispatch_id d = id → moves d d' → row_moved db id r r'.

Lemma settled_moves d status result error completed :
  unsettled (cd_status d) = true → finished status = true → moves d (settled d status result error completed).
Proof.
  intros Hu Hf. split; [done|done|cbn; by destruct (cd_status d), status|]. cbn.
  rewrite bool_decide_eq_false_2; [done|]. intros [E _]. by rewrite E in Hu.
Qed.

Lemma added_rows ds m m' : added ds m m' → ∀ id r', m' !! id = Some r' →
  m !! id = Some r' ∨ m !! id = None ∧ ∃ n d, d ∈ ds ∧ r' = dispatch_row n d ∧ cd_dispatch_id d = id.
Proof.
  induction 1 as [m|d ds n m m' Hn _ Ha IH]; intros id r' Hr; [by left|].
  destruct (IH _ _ Hr) as [H|(H & n' & d' & Hin & -> & Hid)].
  - apply lookup_insert_Some in H as [[<- <-]|[_ H]]; [|by left].
    right. split; [done|]. exists n, d. split; [by left|done].
  - apply lookup_insert_None in H as [H _]. right. split; [done|]. exists n', d'. split; [by right|done].
Qed.
Lemma added_keeps ds m m' id r : added ds m m' → m !! id = Some r → m' !! id = Some r.
Proof. induction 1 as [m|d ds n m m' Hn _ Ha IH]; intros Hr; [done|]. apply IH. rewrite lookup_insert_ne; [done|]. intros <-. congruence. Qed.

Section delta.
Context {db db' : CronDb} (D : delta db db').

Lemma delta_rows id r' : db_dispatches db' !! id = Some r' →
  db_dispatches db !! id = Some r'
  ∨ (db_dispatches db !! id = None ∧ ∃ n d, r' = dispatch_row n d ∧ cd_dispatch_id d = id ∧ new_row (cd_job_id d) d
      ∧ is_some (db_jobs db' !! cd_job_id d) = true)
  ∨ ∃ r, db_dispatches db !! id = Some r ∧ row_moved db id r r'.
Proof using D.
  intros Hr. destruct D as [_ E|j _ _ _ _ E|j j' _ _ _ _ _ _ E|j ds next now Hj Hn Ha Ej|n d d' Hat Hm _ _ _ E
    |n d d' j j' Hat _ _ Hm _ _ _ _ _ _ _ _ E|n d st re er co j Hat _ _ Hu Hf d' j' _ _ E].
  1-3: left; by rewrite <- E.
  - destruct (added_rows _ _ _ Ha _ _ Hr) as [H|(H & n & d & Hin & -> & Hid)]; [by left|right; left]. split; [done|].
    exists n, d. pose proof (proj1 (Forall_forall _ _) Hn _ Hin) as Hd. pose proof (nr_job _ _ Hd) as Hjd.
    split; [done|]. split; [done|]. rewrite Hjd. split; [done|]. by rewrite Ej, lookup_insert_eq.
  - assert (cd_dispatch_id d' = cd_dispatch_id d) as Hid by (pose proof (mv_core _ _ Hm) as C; by injection C).
    rewrite E in Hr. apply lookup_insert_Some in Hr as [[<- <-]|[_ Hr]]; [|by left].
    right; right. rewrite Hid. eexists. split; [exact Hat|]. by econstructor.
  - assert (cd_dispatch_id d' = cd_dispatch_id d) as Hid by (pose proof (mv_core _ _ Hm) as C; by injection C).
    rewrite E in Hr. apply lookup_insert_Some in Hr as [[<- <-]|[_ Hr]]; [|by left].
    right; right. rewrite Hid. eexists. split; [exact Hat|]. by econstructor.
  - rewrite E in Hr. apply lookup_insert_Some in Hr as [[<- <-]|[_ Hr]]; [|by left].
    right; right. eexists. split; [exact Hat|]. econstructor; [done|done|done|]. by apply settled_moves.
Qed.

Lemma delta_row_stays id r : db_dispatches db !! id = Some r →
  ∃ r', db_dispatches db' !! id = Some r' ∧ (r' = r ∨ row_moved db id r r').
Proof using D.
  intros Hr. assert (is_some (db_dispatches db' !! id) = true) as Hs.
  { destruct D as [_ E|j _ _ _ _ E|j j' _ _ _ _ _ _ E|j ds next now Hj Hn Ha Ej|n d d' Hat Hm _ _ _ E
      |n d d' j j' Hat _ _ Hm _ _ _ _ _ _ _ _ E|n d st re er co j Hat _ _ Hu Hf d' j' _ _ E].
    1-3: by rewrite E, Hr.
    - by rewrite (added_keeps _ _ _ _ _ Ha Hr).
    - rewrite E. destruct (decide (cd_dispatch_id d' = id)) as [->|]; [by rewrite lookup_insert_eq|by rewrite lookup_insert_ne, Hr].
    - rewrite E. destruct (decide (cd_dispatch_id d' = id)) as [->|]; [by rewrite lookup_insert_eq|by rewrite lookup_insert_ne, Hr].
    - rewrite E. destruct (decide (cd_dispatch_id d = id)) as [->|]; [by rewrite lookup_insert_eq|by rewrite lookup_insert_ne, Hr]. }
  destruct (db_dispatches db' !! id) as [r'|] eqn:Hr'; [|done]. exists r'. split; [done|].
  destruct (delta_rows _ _ Hr') as [H|[[H _]|(r0 & H & Hm)]]; [left; congruence|congruence|].
  right. by replace r with r0 by congruence.
Qed.

(** A job row stays, changes with its revision, or is new. *)
Lemma delta_jobs id r' : db_jobs db' !! id = Some r' →
  db_jobs db !! id = Some r' ∨
  ∃ j', r' = job_row j' ∧ cj_job_id j' = id ∧
    match db_jobs db !! id with
    | None => job_binding j' = (None, None) ∧ job_counts j' = (0, 0, 0, 0)
    | Some r => ∃ j, r = job_row j ∧ job_core j' = job_core j ∧ cj_revision j' = cj_revision j + 1
    end.
Proof using D.
  intros Hr. destruct D as [E _|j Hf Hb Hc E _|j j' Hj Hc Hb Hn Hv E _|j ds next now Hj Hn Ha E|n d d' Hat Hm _ _ E _
    |n d d' j j' Hat Hj _ Hm _ _ _ Hc _ Hv _ E _|n d st re er co j Hat Hj _ Hu Hf d' j' _ E _].
  1,5: left; by rewrite <- E.
  all: rewrite E in Hr; apply lookup_insert_Some in Hr as [[<- <-]|[_ Hr]]; [right|by left].
  - exists j. split; [done|]. split; [done|]. by rewrite Hf.
  - exists j'. split; [done|]. split; [done|]. assert (cj_job_id j' = cj_job_id j) as -> by (by injection Hc).
    rewrite Hj. by exists j.
  - eexists. split; [done|]. split; [done|]. rewrite Hj. by exists j.
  - exists j'. split; [done|]. split; [done|]. assert (cj_job_id j' = cj_job_id j) as -> by (by injection Hc).
    rewrite Hj. by exists j.
  - exists j'. split; [done|]. split; [done|]. rewrite Hj. by exists j.
Qed.

Lemma delta_job_stays id r : db_jobs db !! id = Some r → is_some (db_jobs db' !! id) = true.
Proof using D.
  intros Hr. destruct D as [E _|j _ _ _ E _|j j' _ _ _ _ _ E _|j ds next now _ _ _ E|n d d' _ _ _ _ E _
    |n d d' j j' _ _ _ _ _ _ _ _ _ _ _ E _|n d st re er co j _ _ _ _ _ d' j' _ E _];
    rewrite E; try (by rewrite Hr).
  all: rewrite lookup_insert; case_decide; [done|by rewrite Hr].
Qed.
End delta.

(** ** What was read stays an older version *)

Lemma moves_id d d' : moves d d' → cd_dispatch_id d' = cd_dispatch_id d.
Proof. intros M. pose proof (mv_core _ _ M) as C. by injection C. Qed.

Lemma delta_mirrored db db' : mirrored db → delta db db' → mirrored db'.
Proof.
  intros M D. split.
  - intros id r Hr. destruct (delta_jobs D _ _ Hr) as [H|(j & -> & Hid & _)]; [by apply (mi_jobs _ M)|done].
  - intros id r Hr. destruct (delta_rows D _ _ Hr) as [H|[(_ & n & d & -> & Hid & _)|(r0 & _ & [n d d' _ -> Hid Hm])]].
    + by apply (mi_dispatches _ M).
    + done.
    + split; [done|]. cbn. by rewrite (moves_id _ _ Hm).
Qed.

Lemma delta_job_seen db db' j : mirrored db → delta db db' → job_seen db j → job_seen db' j.
Proof.
  intros M D (r & Hr & Hle & Hv). pose proof (delta_job_stays D _ _ Hr) as Hs.
  destruct (db_jobs db' !! cj_job_id j) as [r'|] eqn:Hr'; [|done]. exists r'. split; [done|].
  destruct (delta_jobs D _ _ Hr') as [H|(j' & -> & Hid & Hx)]; [by replace r' with r by congruence|].
  rewrite Hr in Hx. destruct Hx as (j0 & -> & _ & Hrev). cbn in *. split; lia.
Qed.
Lemma delta_dispatch_seen db db' d : mirrored db → delta db db' → dispatch_seen db d → dispatch_seen db' d.
Proof.
  intros M D (r & Hr & Hle & Hv). destruct (delta_row_stays D _ _ Hr) as (r' & Hr' & [->|[n d0 d' -> -> Hid Hm]]).
  - by exists r.
  - exists (dispatch_row n d'). split; [done|]. pose proof (mv_revision _ _ Hm). cbn in *. split; lia.
Qed.

(** ** Unique indexes *)

Definition unique (m : gmap string DispatchRow) : Prop :=
  ∀ i j ri rj, m !! i = Some ri → m !! j = Some rj → i ≠ j → rows_clash ri rj = false.

Lemma unique_insert m id r : unique m → no_clash id r m → unique (<[id := r]> m).
Proof.
  intros U N i j ri rj [[<- <-]|[H1 Hi]]%lookup_insert_Some [[<- <-]|[H2 Hj]]%lookup_insert_Some Hne; [done|..].
  - by eapply N.
  - rewrite rows_clash_sym. by eapply N.
  - by eapply U.
Qed.
Lemma unique_added ds m m' : unique m → added ds m m' → unique m'.
Proof. intros U. induction 1 as [m|d ds n m m' _ Hc _ IH]; [done|]. apply IH. by apply unique_insert. Qed.

Lemma delta_unique db db' : unique (db_dispatches db) → delta db db' → unique (db_dispatches db').
Proof.
  intros U D. destruct D as [_ E|j _ _ _ _ E|j j' _ _ _ _ _ _ E|j ds next now Hj Hn Ha Ej|n d d' Hat Hm _ Hc _ E
    |n d d' j j' Hat _ _ Hm _ _ Hc _ _ _ _ _ E|n d st re er co j Hat _ _ Hu Hf d' j' Hc _ E].
  1-3: by rewrite E.
  - by eapply unique_added.
  - rewrite E. by apply unique_insert.
  - rewrite E. by apply unique_insert.
  - rewrite E. by apply unique_insert.
Qed.

(** ** The Run a job is occupied with *)

(** The Run of a dispatch of the job, while it is not settled. *)
Definition open_run (m : gmap string DispatchRow) (job_id dispatch_id : string) : option (option string) :=
  r ← m !! dispatch_id;
  if bool_decide (dr_job_id r = job_id) && unsettled (dr_status r) then Some (dr_run_id r) else None.

Definition binding_ok (m : gmap string DispatchRow) (j : CronJob) : Prop :=
  match cj_current_dispatch_id j with
  | Some id => open_run m (cj_job_id j) id = Some (cj_current_run_id j) ∧ truthy (cj_current_run_id j) = true ∧ id ≠ ""
  | None => cj_current_run_id j = None ∧ ∀ id, open_run m (cj_job_id j) id = None
  end.

Lemma binding_same m m' j j' :
  (∀ id, open_run m' (cj_job_id j) id = open_run m (cj_job_id j) id) → cj_job_id j' = cj_job_id j →
  job_binding j' = job_binding j → binding_ok m j → binding_ok m' j'.
Proof.
  intros Ho Hi [= E1 E2]. unfold binding_ok. rewrite Hi, E1, E2.
  destruct (cj_current_dispatch_id j); [by rewrite Ho|]. intros [? H]. split; [done|]. intros id. by rewrite Ho.
Qed.

Lemma open_added ds m m' job_id id :
  Forall (λ d, cd_status d = DS_pending ∨ cd_status d = DS_skipped) ds → added ds m m' →
  open_run m' job_id id = open_run m job_id id.
Proof.
  intros Hd Ha. revert Hd. induction Ha as [m|d ds n m m' Hn _ _ IH]; intros [Hs Hd]%Forall_cons_1 || intros _; [done|].
  rewrite IH by done. unfold open_run. rewrite lookup_insert. case_decide as He; [|done]. subst id. rewrite Hn. cbn.
  destruct Hs as [-> | ->]; cbn; by rewrite andb_false_r.
Qed.

Lemma open_other m k r job_id id :
  (match m !! k with Some r0 => dr_job_id r0 = dr_job_id r | None => True end) → dr_job_id r ≠ job_id →
  open_run (<[k := r]> m) job_id id = open_run m job_id id.
Proof.
  intros H0 Hj. unfold open_run. rewrite lookup_insert. case_decide as He; [|done]. subst k.
  destruct (m !! id) as [r0|]; cbn; by rewrite !bool_decide_eq_false_2 by congruence.
Qed.

(** Only one dispatch of a job is open. *)
Lemma open_unique m job_id a b x y :
  unique m → open_run m job_id a = Some x → open_run m job_id b = Some y → a = b.
Proof.
  intros U Ha Hb. unfold open_run in *. destruct (m !! a) as [ra|] eqn:Ea; [|done]. destruct (m !! b) as [rb|] eqn:Eb; [|done].
  cbn in *. destruct (bool_decide (dr_job_id ra = job_id)) eqn:Ja, (unsettled (dr_status ra)) eqn:Sa; try done.
  destruct (bool_decide (dr_job_id rb = job_id)) eqn:Jb, (unsettled (dr_status rb)) eqn:Sb; try done.
  apply bool_decide_eq_true in Ja, Jb. destruct (decide (a = b)) as [|Hne]; [done|].
  pose proof (U _ _ _ _ Ea Eb Hne) as Hc. unfold rows_clash in Hc. rewrite bool_decide_eq_true_2 in Hc by congruence.
  assert (active (dr_status ra) = true) as E1 by (by destruct (dr_status ra)).
  assert (active (dr_status rb) = true) as E2 by (by destruct (dr_status rb)).
  rewrite E1, E2 in Hc. cbn in Hc. by rewrite !orb_true_r in Hc.
Qed.

(** ** The invariant *)

Record cron_inv (db : CronDb) : Prop := {
  ci_mirror : mirrored db;
  ci_shape : ∀ id r, db_dispatches db !! id = Some r → dispatch_shape (dr_dispatch r);
  ci_owned : ∀ id r, db_dispatches db !! id = Some r → is_some (db_jobs db !! dr_job_id r) = true;
  ci_unique : unique (db_dispatches db);
  ci_binding : ∀ id r, db_jobs db !! id = Some r → binding_ok (db_dispatches db) (jr_job r)
}.

Lemma new_row_shape job_id d : new_row job_id d → dispatch_shape d.
Proof. intros [H1 _ Hs Hi _ Hc]. split; [done|]. split; [done|]. by destruct Hs as [-> | ->]. Qed.

Lemma moves_shape d d' : moves d d' → dispatch_shape d → dispatch_shape d'.
Proof.
  intros [Hc _ He Hi] (H1 & H2 & H3). injection Hc as E1 _ _ _ _ E6 _ _ _ _ _ _.
  split; [by rewrite E1|]. split; [by rewrite E6|].
  destruct (bool_decide _) eqn:Hb.
  - apply bool_decide_eq_true in Hb as [_ ->]. done.
  - apply bool_decide_eq_false in Hb. unfold no_identity, has_identity in *. rewrite Hi.
    destruct (cd_status d) eqn:S1, (cd_status d') eqn:S2; try done; first [by left|by right|by exfalso; apply Hb].
Qed.

Lemma moves_job d d' : moves d d' → cd_job_id d' = cd_job_id d.
Proof. intros M. pose proof (mv_core _ _ M) as C. by injection C. Qed.

Lemma moves_run d d' : moves d d' → unsettled (cd_status d') = unsettled (cd_status d) → cd_run_id d' = cd_run_id d.
Proof.
  intros [_ _ _ Hi] Hu. rewrite bool_decide_eq_false_2 in Hi by (intros [E1 E2]; by rewrite E1, E2 in Hu).
  by injection Hi.
Qed.

Lemma open_same m n d d' job_id id :
  m !! cd_dispatch_id d = Some (dispatch_row n d) → moves d d' → unsettled (cd_status d') = unsettled (cd_status d) →
  open_run (<[cd_dispatch_id d' := dispatch_row n d']> m) job_id id = open_run m job_id id.
Proof.
  intros Hat M Hu. rewrite (moves_id _ _ M). unfold open_run. rewrite lookup_insert. case_decide as He; [|done].
  subst id. rewrite Hat. cbn. by rewrite (moves_job _ _ M), Hu, (moves_run _ _ M Hu).
Qed.

(** While a dispatch is claimed its job is free. *)
Lemma claimed_free db n d j :
  cron_inv db → dispatch_at db n d → job_at db j → cj_job_id j = cd_job_id d → cd_status d = DS_claimed →
  job_binding j = (None, None) ∧ ∀ id, open_run (db_dispatches db) (cj_job_id j) id = None.
Proof.
  intros I Hd Hj Hid Hst. pose proof (ci_binding _ I _ _ Hj) as B. unfold binding_ok in B. cbn in B.
  unfold job_binding. destruct (cj_current_dispatch_id j) as [id|]; [|by destruct B as [-> B]].
  exfalso. destruct B as (B & _). unfold open_run in B. destruct (db_dispatches db !! id) as [r|] eqn:Hr; [|done]. cbn in B.
  destruct (bool_decide (dr_job_id r = cj_job_id j)) eqn:Jb, (unsettled (dr_status r)) eqn:Sb; try done.
  apply bool_decide_eq_true in Jb. destruct (decide (id = cd_dispatch_id d)) as [->|Hne].
  - unfold dispatch_at in Hd. assert (r = dispatch_row n d) as -> by congruence. cbn in Sb. by rewrite Hst in Sb.
  - pose proof (ci_unique _ I _ _ _ _ Hr Hd Hne) as Hc. unfold rows_clash in Hc. cbn in Hc.
    rewrite bool_decide_eq_true_2 in Hc by congruence. rewrite Hst in Hc.
    assert (active (dr_status r) = true) as E by (by destruct (dr_status r)). rewrite E in Hc. cbn in Hc.
    by rewrite !orb_true_r in Hc.
Qed.

(** An unsettled dispatch is the one its job names. *)
Lemma unsettled_current db n d j :
  cron_inv db → dispatch_at db n d → job_at db j → cj_job_id j = cd_job_id d → unsettled (cd_status d) = true →
  job_binding j = (Some (cd_dispatch_id d), cd_run_id d).
Proof.
  intros I Hd Hj Hid Hst. pose proof (ci_binding _ I _ _ Hj) as B. unfold binding_ok in B. cbn in B.
  assert (open_run (db_dispatches db) (cj_job_id j) (cd_dispatch_id d) = Some (cd_run_id d)) as Ho.
  { unfold open_run. rewrite Hd. cbn. by rewrite bool_decide_eq_true_2, Hst. }
  unfold job_binding. destruct (cj_current_dispatch_id j) as [id|]; [|by destruct B as [_ B]; rewrite B in Ho].
  destruct B as (B & _). pose proof (open_unique _ _ _ _ _ _ (ci_unique _ I) B Ho) as ->. rewrite Ho in B. congruence.
Qed.

Lemma delta_binding db db' : cron_inv db → delta db db' →
  ∀ id r, db_jobs db' !! id = Some r → binding_ok (db_dispatches db') (jr_job r).
Proof.
  intros I D id r Hr. pose proof (ci_binding _ I) as B.
  destruct D as [Ej E|j Hf Hb Hc Ej E|j j' Hj Hc Hb Hn Hv Ej E|j ds next now Hj Hn Ha Ej|n d d' Hat Hm Hu Hcl Ej E
    |n d d' j j' Hat Hj Hid Hm S1 S2 Hcl Hc Hn Hv Hb Ej E|n d st re er co j Hat Hj Hid Hu Hf d' j' Hcl Ej E]; rewrite Ej in Hr; try rewrite E.
  - by eapply B.
  - apply lookup_insert_Some in Hr as [[<- <-]|[_ Hr]]; [|by eapply B]. unfold binding_ok. cbn.
    injection Hb as -> ->. split; [done|]. intros i. unfold open_run.
    destruct (db_dispatches db !! i) as [r|] eqn:Hr; [|done]. cbn. pose proof (ci_owned _ I _ _ Hr) as Ho.
    rewrite bool_decide_eq_false_2; [done|]. intros E'. by rewrite E', Hf in Ho.
  - apply lookup_insert_Some in Hr as [[<- <-]|[_ Hr]]; [|by eapply B]. cbn.
    apply (binding_same (db_dispatches db) _ j j'); [done|by injection Hc|exact Hb|exact (B _ _ Hj)].
  - assert (∀ i k, open_run (db_dispatches db') k i = open_run (db_dispatches db) k i) as Ho.
    { intros i k. eapply open_added; [|exact Ha]. eapply Forall_impl; [exact Hn|]. by intros d []. }
    apply lookup_insert_Some in Hr as [[<- <-]|[_ Hr]].
    + cbn. eapply (binding_same _ _ j); [|done|done|exact (B _ _ Hj)]. by intros i.
    + eapply binding_same; [|done|done|exact (B _ _ Hr)]. by intros i.
  - eapply binding_same; [|done|done|exact (B _ _ Hr)]. intros i. by apply (open_same _ n d d').
  - destruct (claimed_free _ _ _ _ I Hat Hj Hid S1) as [_ Hfree]. pose proof (moves_job _ _ Hm) as Hjd.
    pose proof (moves_id _ _ Hm) as Hdd. assert (cj_job_id j' = cj_job_id j) as Hjj by (by injection Hc).
    apply lookup_insert_Some in Hr as [[<- <-]|[Hne Hr]].
    + cbn. unfold binding_ok. injection Hb as -> ->. rewrite Hjj. unfold open_run. rewrite Hdd, lookup_insert_eq. cbn.
      rewrite Hjd, <- Hid, bool_decide_eq_true_2, S2 by done. split; [done|].
      pose proof (mv_identity _ _ Hm) as Hi. rewrite bool_decide_eq_true_2 in Hi by done.
      unfold has_identity, identities in Hi. rewrite !Forall_cons in Hi. split; [apply Hi|].
      apply (ci_shape _ I _ _ Hat).
    + eapply binding_same; [|done|done|exact (B _ _ Hr)]. intros i. apply open_other.
      * rewrite Hdd. unfold dispatch_at in Hat. by rewrite Hat.
      * cbn. destruct (mi_jobs _ (ci_mirror _ I) _ _ Hr) as [_ Hk]. congruence.
  - pose proof (unsettled_current _ _ _ _ I Hat Hj Hid Hu) as Hcur. subst d' j'.
    apply lookup_insert_Some in Hr as [[<- <-]|[Hne Hr]].
    + unfold binding_ok. cbn. split; [done|]. intros i. unfold open_run. rewrite lookup_insert.
      case_decide as He; [cbn; by destruct (bool_decide _), st|].
      destruct (db_dispatches db !! i) as [r|] eqn:Hr; [|done]. cbn.
      destruct (bool_decide (dr_job_id r = cj_job_id j) && unsettled (dr_status r)) eqn:E1; [|done]. exfalso. apply He.
      apply (open_unique (db_dispatches db) (cj_job_id j) _ _ (cd_run_id d) (dr_run_id r) (ci_unique _ I)); unfold open_run.
      * rewrite Hat. cbn. by rewrite bool_decide_eq_true_2, Hu.
      * rewrite Hr. cbn. by rewrite E1.
    + eapply binding_same; [|done|done|exact (B _ _ Hr)]. intros i. apply open_other.
      * unfold dispatch_at in Hat. by rewrite Hat.
      * cbn. destruct (mi_jobs _ (ci_mirror _ I) _ _ Hr) as [_ Hk]. congruence.
Qed.

Lemma delta_inv db db' : cron_inv db → delta db db' → cron_inv db'.
Proof.
  intros I D. pose proof (delta_mirrored _ _ (ci_mirror _ I) D) as M'. split.
  - done.
  - intros id r Hr. destruct (delta_rows D _ _ Hr) as [H|[(_ & n & d & -> & _ & Hn & _)|(r0 & Hr0 & [n d d' -> -> _ Hm])]].
    + by apply (ci_shape _ I _ _ H).
    + by eapply new_row_shape.
    + eapply moves_shape; [exact Hm|]. apply (ci_shape _ I _ _ Hr0).
  - intros id r Hr. destruct (delta_rows D _ _ Hr) as [H|[(_ & n & d & -> & _ & _ & Hs)|(r0 & Hr0 & [n d d' -> -> _ Hm])]].
    + pose proof (ci_owned _ I _ _ H) as Ho. destruct (db_jobs db !! dr_job_id r) as [x|] eqn:Ex; [|done].
      by apply (delta_job_stays D _ _ Ex).
    + done.
    + pose proof (ci_owned _ I _ _ Hr0) as Ho. cbn in *. rewrite (moves_job _ _ Hm).
      destruct (db_jobs db !! cd_job_id d) as [x|] eqn:Ex; [|done]. by apply (delta_job_stays D _ _ Ex).
  - eapply delta_unique; [apply I|exact D].
  - exact (delta_binding _ _ I D).
Qed.

(** ** Every reachable state *)

Record sys_ok (s : CronSys) : Prop := {
  so_inv : cron_inv (sy_db s);
  so_jobs : ∀ j, j ∈ sy_seen_jobs s → job_seen (sy_db s) j;
  so_dispatches : ∀ d, d ∈ sy_seen_dispatches s → dispatch_seen (sy_db s) d
}.

Lemma job_ok id db j : job id db = Ok j → ∃ r, db_jobs db !! id = Some r ∧ jr_job r = j.
Proof.
  unfold job. intros (r & Hr%res_of_option_ok & H)%res_bind_ok. unfold valid_job in H.
  destruct (CronJob_valid _); [|done]. injection H as <-. eauto.
Qed.
Lemma dispatch_ok id db d : dispatch id db = Ok d → ∃ r, db_dispatches db !! id = Some r ∧ dr_dispatch r = d.
Proof.
  unfold dispatch. intros (r & Hr%res_of_option_ok & H)%res_bind_ok. unfold valid_dispatch in H.
  destruct (CronDispatch_valid _); [|done]. injection H as <-. eauto.
Qed.

Lemma job_read_seen id db j : mirrored db → job id db = Ok j → job_seen db j.
Proof.
  intros M (r & Hr & <-)%job_ok. destruct (mi_jobs _ M _ _ Hr) as [E Hid]. exists r. rewrite Hid.
  split; [done|]. rewrite E at 2. cbn. split; [lia|done].
Qed.
Lemma dispatch_read_seen id db d : mirrored db → dispatch id db = Ok d → dispatch_seen db d.
Proof.
  intros M (r & Hr & <-)%dispatch_ok. destruct (mi_dispatches _ M _ _ Hr) as [E Hid]. exists r. rewrite Hid.
  split; [done|]. rewrite E at 2. cbn. split; [lia|done].
Qed.

Lemma step_ok cal s s' : sys_ok s → cron_step cal s s' → sys_ok s' ∧ delta (sy_db s) (sy_db s').
Proof.
  intros O. destruct 1 as [id j db js ds H|id d db js ds H|db db' js ds H].
  - split; [|by apply delta_none]. split; [apply O| |apply O]. cbn. intros j' [->|Hj]%elem_of_cons; [|by apply (so_jobs _ O)].
    eapply job_read_seen; [apply O|exact H].
  - split; [|by apply delta_none]. split; [apply O|apply O|]. cbn. intros d' [->|Hd]%elem_of_cons; [|by apply (so_dispatches _ O)].
    eapply dispatch_read_seen; [apply O|exact H].
  - assert (delta db db') as D.
    { eapply write_delta; [apply O|apply (so_jobs _ O)|apply (so_dispatches _ O)|exact H]. }
    split; [|done]. split; cbn.
    + eapply delta_inv; [apply O|exact D].
    + intros j Hj. eapply delta_job_seen; [apply O|exact D|]. by apply (so_jobs _ O).
    + intros d Hd. eapply delta_dispatch_seen; [apply O|exact D|]. by apply (so_dispatches _ O).
Qed.

Lemma initial_ok db : cron_initial db → sys_ok (mkCronSys db [] []).
Proof.
  intros (pf & seconds & now & raw & [Hj Hd]%ensure_imported).
  assert (∀ A (x : A), x ∉ []) as Hnil by (intros; apply not_elem_of_nil).
  split; [|by intros j ?%Hnil|by intros d ?%Hnil]. cbn.
  split; [split|..]; rewrite ?Hd; try (intros id r; by rewrite lookup_empty).
  - intros id r Hr. by destruct (Hj _ _ Hr) as (? & ? & _).
  - intros id r Hr. destruct (Hj _ _ Hr) as (_ & _ & _ & _ & _ & E1 & E2). unfold binding_ok. rewrite E1. split; [done|].
    intros i. unfold open_run. by rewrite lookup_empty.
Qed.
Lemma fresh_initial seconds : cron_initial (fresh_db seconds).
Proof. exists (mkPlatform "" (λ _, "") (λ _, None) (λ _, "") (λ s, s)), seconds, "", None. done. Qed.

Lemma steps_ok cal s s' : sys_ok s → rtc (cron_step cal) s s' → sys_ok s' ∧ rtc delta (sy_db s) (sy_db s').
Proof.
  intros O H. induction H as [s|x y z Hxy _ IH]; [done|].
  destruct (step_ok _ _ _ O Hxy) as [Oy D]. destruct (IH Oy) as [Oz R]. split; [done|]. by eapply rtc_l.
Qed.
Lemma cron_reachable_ok cal s : cron_reachable cal s → sys_ok s.
Proof. intros (db0 & Hi & H). by eapply steps_ok; [apply initial_ok|]. Qed.
