(* ===== verification/CronLedger.v ===== *)
(** * CronLedger: history and counters of the scheduler

    A dispatch keeps what it is, moves along its state machine and is frozen
    once it has ended; the counters of a job are sums over its dispatches. *)

From S2P Require Import Prelude PyText PyTime CronModels CronSchedules CronStore CronImport CronScheduler CronFacts CronInvariant.

#[local] Open Scope Z_scope.

(** ** History of a dispatch *)

Definition ended (s : DispatchState) : bool :=
  match s with DS_succeeded | DS_failed | DS_cancelled | DS_skipped => true | _ => false end.

Record row_history (r r' : DispatchRow) : Prop := {
  rh_core : dispatch_core (dr_dispatch r') = dispatch_core (dr_dispatch r);
  rh_status : rtc (λ a b, edge a b = true) (dr_status r) (dr_status r');
  rh_ended : ended (dr_status r) = true → r' = r;
  rh_identity : has_identity (dr_dispatch r) → identities (dr_dispatch r') = identities (dr_dispatch r);
  rh_revision : dr_revision r ≤ dr_revision r' ∧ (dr_revision r = dr_revision r' → r' = r)
}.

Lemma row_history_refl r : row_history r r.
Proof. by split. Qed.

Lemma row_history_trans a b c : row_history a b → row_history b c → row_history a c.
Proof.
  intros [C1 S1 E1 I1 [R1 V1]] [C2 S2 E2 I2 [R2 V2]]. split.
  - congruence.
  - by etrans.
  - intros H. pose proof (E1 H) as ->. by apply E2.
  - intros H. assert (has_identity (dr_dispatch b)) by (unfold has_identity; by rewrite (I1 H)).
    rewrite I2 by done. by apply I1.
  - split; [lia|]. intros H. rewrite V2, V1 by lia. done.
Qed.

Lemma moves_history n d d' : dispatch_shape d → moves d d' → row_history (dispatch_row n d) (dispatch_row n d').
Proof.
  intros S [C V E I]. split; cbn.
  - done.
  - by apply rtc_once.
  - intros H. by destruct (cd_status d).
  - intros H. rewrite bool_decide_eq_false_2 in I; [done|]. intros [E1 _]. destruct S as (_ & _ & S). rewrite E1 in S.
    unfold no_identity, has_identity, identities in *. rewrite !Forall_cons in H, S. destruct H as [H _], S as [S _].
    by rewrite S in H.
  - split; [lia|]. intros H. lia.
Qed.

Lemma delta_history db db' id r :
  cron_inv db → delta db db' → db_dispatches db !! id = Some r →
  ∃ r', db_dispatches db' !! id = Some r' ∧ row_history r r'.
Proof.
  intros I D Hr. destruct (delta_row_stays D _ _ Hr) as (r' & Hr' & [->|[n d d' -> -> _ Hm]]).
  - exists r. split; [done|apply row_history_refl].
  - eexists. split; [exact Hr'|]. apply moves_history; [|done]. apply (ci_shape _ I _ _ Hr).
Qed.

Lemma steps_history cal s s' id r :
  sys_ok s → rtc (cron_step cal) s s' → db_dispatches (sy_db s) !! id = Some r →
  ∃ r', db_dispatches (sy_db s') !! id = Some r' ∧ row_history r r'.
Proof.
  intros O H. revert r O. induction H as [s|x y z Hxy _ IH]; intros r O Hr.
  { exists r. split; [done|apply row_history_refl]. }
  destruct (step_ok _ _ _ O Hxy) as [Oy D].
  destruct (delta_history _ _ _ _ (so_inv _ O) D Hr) as (r1 & H1 & R1).
  destruct (IH _ Oy H1) as (r2 & H2 & R2). exists r2. split; [done|]. by eapply row_history_trans.
Qed.

(** ** Sums over the dispatches *)

Definition total (w : DispatchRow → Z) (m : gmap string DispatchRow) : Z := map_fold (λ _ r n, w r + n) 0 m.

Lemma total_new w m id r : m !! id = None → total w (<[id := r]> m) = w r + total w m.
Proof.
  intros H. unfold total. rewrite map_fold_insert_L; [done| |done].
  intros j1 j2 z1 z2 y _ _ _. lia.
Qed.
Lemma total_change w m id r r' : m !! id = Some r → total w (<[id := r']> m) = total w m - w r + w r'.
Proof.
  intros H. rewrite <- insert_delete_eq. rewrite total_new by apply lookup_delete_eq.
  rewrite <- (insert_delete_id m id r H) at 2. rewrite total_new by apply lookup_delete_eq. lia.
Qed.
Lemma total_zero w m : (∀ id r, m !! id = Some r → w r = 0) → total w m = 0.
Proof.
  induction m as [|id r m Hn IH] using map_ind; [done|]. intros H. rewrite total_new by done.
  rewrite (H id r) by apply lookup_insert_eq. rewrite IH; [done|]. intros i x Hx. apply (H i).
  rewrite lookup_insert_ne; [done|]. intros <-. congruence.
Qed.

(** The sum over new rows does not depend on their row numbers. *)
Lemma total_added w w0 ds m m' :
  (∀ n d, w (dispatch_row n d) = w0 d) → added ds m m' →
  total w m' = total w m + foldr (λ d n, w0 d + n) 0 ds.
Proof.
  intros Hw. induction 1 as [m|d ds n m m' Hn _ _ IH]; cbn; [lia|]. rewrite IH, total_new, Hw by done. lia.
Qed.

(** ** The counters *)

Definition of_job (job_id : string) (r : DispatchRow) : bool := bool_decide (dr_job_id r = job_id).
Definition one (b : bool) : Z := if b then 1 else 0.
(** A Run that has ended, and one that has not succeeded. *)
Definition run_weight (job_id : string) (r : DispatchRow) : Z :=
  one (of_job job_id r && finished (dr_status r) && is_some (dr_run_id r)).
Definition failure_weight (job_id : string) (r : DispatchRow) : Z :=
  one (of_job job_id r && finished (dr_status r) && is_some (dr_run_id r) && negb (bool_decide (dr_status r = DS_succeeded))).
(** The periods a skipped dispatch stands for. *)
Definition missed_weight (job_id : string) (r : DispatchRow) : Z :=
  if of_job job_id r && bool_decide (dr_status r = DS_skipped) then cd_coalesced_count (dr_dispatch r) else 0.
Definition overlap_weight (job_id : string) (r : DispatchRow) : Z :=
  if of_job job_id r && bool_decide (dr_status r = DS_skipped ∧ cd_error (dr_dispatch r) = Some "overlap_skipped")
  then cd_coalesced_count (dr_dispatch r) else 0.

Definition counted (m : gmap string DispatchRow) (job_id : string) : Z * Z * Z * Z :=
  (total (run_weight job_id) m, total (failure_weight job_id) m,
   total (missed_weight job_id) m, total (overlap_weight job_id) m).

(** What a job was imported with. *)
Definition start_counts (db0 : CronDb) (job_id : string) : Z * Z * Z * Z :=
  match db_jobs db0 !! job_id with Some r => job_counts (jr_job r) | None => (0, 0, 0, 0) end.
Definition plus4 (x y : Z * Z * Z * Z) : Z * Z * Z * Z :=
  match x, y with (a, b, c, d), (a', b', c', d') => (a + a', b + b', c + c', d + d') end.

(** The counters of a job since the store began as [db0]; no job is lost. *)
Record counts_ok (db0 db : CronDb) : Prop := {
  co_counts : ∀ id r, db_jobs db !! id = Some r →
    job_counts (jr_job r) = plus4 (start_counts db0 id) (counted (db_dispatches db) id);
  co_kept : ∀ id, db_jobs db !! id = None → db_jobs db0 !! id = None
}.

Lemma plus4_zero x : plus4 x (0, 0, 0, 0) = x.
Proof. destruct x as [[[a b] c] d]. cbn. by rewrite !Z.add_0_r. Qed.

Lemma counted_change m id r r' job_id :
  m !! id = Some r →
  (∀ w, w ∈ [run_weight job_id; failure_weight job_id; missed_weight job_id; overlap_weight job_id] → w r' = w r) →
  counted (<[id := r']> m) job_id = counted m job_id.
Proof.
  intros Hr H. unfold counted. rewrite !(total_change _ _ _ r r' Hr).
  rewrite !H by (repeat first [by left|right]). rewrite !pair_equal_spec; lia.
Qed.

(** A move within the open states, or an unbound cancellation, counts nothing. *)
Lemma moves_weights n d d' job_id w :
  dispatch_shape d → moves d d' → unsettled (cd_status d) = false ∨ finished (cd_status d') = false →
  w ∈ [run_weight job_id; failure_weight job_id; missed_weight job_id; overlap_weight job_id] →
  w (dispatch_row n d') = w (dispatch_row n d).
Proof.
  intros (_ & _ & S) M Hu Hw. pose proof (mv_edge _ _ M) as E. pose proof (mv_identity _ _ M) as I.
  assert (finished (cd_status d) = false ∧ finished (cd_status d') && is_some (cd_run_id d') = false) as [F1 F2].
  { split; [by destruct (cd_status d)|].
    destruct (finished (cd_status d')) eqn:F; [|done]. destruct Hu as [Hu|]; [|done].
    rewrite bool_decide_eq_false_2 in I by (intros [_ X]; by rewrite X in F).
    assert (no_identity d) as N by (by destruct (cd_status d)). unfold no_identity in N. rewrite <- I in N.
    unfold identities in N. rewrite !Forall_cons in N. destruct N as (_ & N & _). by rewrite N. }
  assert (cd_status d ≠ DS_skipped ∧ cd_status d' ≠ DS_skipped) as [K1 K2] by (by destruct (cd_status d), (cd_status d')).
  elem_cases Hw; subst w; unfold run_weight, failure_weight, missed_weight, overlap_weight; cbn.
  - by rewrite <- !andb_assoc, F2, F1, !andb_false_r.
  - by rewrite <- !andb_assoc, (andb_assoc (finished _)), F2, F1, !andb_false_r.
  - by rewrite !bool_decide_eq_false_2, !andb_false_r.
  - by rewrite !bool_decide_eq_false_2, !andb_false_r by naive_solver.
Qed.

Section materialized_counts.
Context (job_id : string) (ds : list CronDispatch) (Hds : Forall (new_row job_id) ds).

Let weigh (w : DispatchRow → Z) : Z := foldr (λ d n, w (dispatch_row 0 d) + n) 0 ds.

Lemma weigh_zero w : (∀ d, d ∈ ds → w (dispatch_row 0 d) = 0) → weigh w = 0.
Proof. unfold weigh. clear Hds. induction ds as [|d l IH]; cbn; [done|]. intros H. rewrite H by left. rewrite IH; [done|]. intros x Hx. apply H. by right. Qed.

Lemma weigh_filter (P : CronDispatch → Prop) `{∀ d, Decision (P d)} w :
  (∀ d, d ∈ ds → w (dispatch_row 0 d) = if decide (P d) then cd_coalesced_count d else 0) →
  weigh w = sum_coalesced (filter P ds).
Proof.
  unfold weigh, sum_coalesced. clear Hds. induction ds as [|d l IH]; [done|]. intros H'.
  rewrite filter_cons. cbn [foldr]. rewrite H' by left. rewrite IH by (intros x Hx; apply H'; by right).
  case_decide; cbn; lia.
Qed.

Lemma weigh_other k : k ≠ job_id → ∀ w, w ∈ [run_weight k; failure_weight k; missed_weight k; overlap_weight k] → weigh w = 0.
Proof using Hds.
  intros Hk w Hw. apply weigh_zero. intros d Hd. pose proof (proj1 (Forall_forall _ _) Hds _ Hd) as Hn.
  assert (of_job k (dispatch_row 0 d) = false) as F.
  { unfold of_job. cbn. apply bool_decide_eq_false_2. rewrite (nr_job _ _ Hn). congruence. }
  elem_cases Hw; subst w; unfold run_weight, failure_weight, missed_weight, overlap_weight; by rewrite F.
Qed.

Lemma weigh_same :
  weigh (run_weight job_id) = 0 ∧ weigh (failure_weight job_id) = 0 ∧
  weigh (missed_weight job_id) = sum_coalesced (filter (λ d, cd_status d = DS_skipped) ds) ∧
  weigh (overlap_weight job_id)
    = sum_coalesced (filter (λ d, cd_status d = DS_skipped ∧ cd_error d = Some "overlap_skipped") ds).
Proof using Hds.
  assert (∀ d, d ∈ ds → of_job job_id (dispatch_row 0 d) = true ∧ finished (cd_status d) = false) as F.
  { intros d Hd. pose proof (proj1 (Forall_forall _ _) Hds _ Hd) as Hn. split.
    - unfold of_job. cbn. by apply bool_decide_eq_true_2, Hn.
    - by destruct (nr_status _ _ Hn) as [-> | ->]. }
  split; [|split; [|split]].
  - apply weigh_zero. intros d Hd. destruct (F d Hd) as [F1 F2]. unfold run_weight. cbn. by rewrite F1, F2.
  - apply weigh_zero. intros d Hd. destruct (F d Hd) as [F1 F2]. unfold failure_weight. cbn. by rewrite F1, F2.
  - apply weigh_filter. intros d Hd. destruct (F d Hd) as [F1 _]. unfold missed_weight. rewrite F1. cbn.
    case_decide; [by rewrite bool_decide_eq_true_2|by rewrite bool_decide_eq_false_2].
  - apply weigh_filter. intros d Hd. destruct (F d Hd) as [F1 _]. unfold overlap_weight. rewrite F1. cbn [andb].
    case_decide; [by rewrite bool_decide_eq_true_2|by rewrite bool_decide_eq_false_2].
Qed.
End materialized_counts.

Lemma counted_added k ds m m' : added ds m m' →
  counted m' k =
    (total (run_weight k) m + foldr (λ d n, run_weight k (dispatch_row 0 d) + n) 0 ds,
     total (failure_weight k) m + foldr (λ d n, failure_weight k (dispatch_row 0 d) + n) 0 ds,
     total (missed_weight k) m + foldr (λ d n, missed_weight k (dispatch_row 0 d) + n) 0 ds,
     total (overlap_weight k) m + foldr (λ d n, overlap_weight k (dispatch_row 0 d) + n) 0 ds).
Proof.
  intros Ha. unfold counted.
  rewrite (total_added (run_weight k) (λ d, run_weight k (dispatch_row 0 d)) ds m m'),
    (total_added (failure_weight k) (λ d, failure_weight k (dispatch_row 0 d)) ds m m'),
    (total_added (missed_weight k) (λ d, missed_weight k (dispatch_row 0 d)) ds m m'),
    (total_added (overlap_weight k) (λ d, overlap_weight k (dispatch_row 0 d)) ds m m') by done.
  done.
Qed.

(** Settling the Run of a job counts it, for this job only. *)
Lemma counted_settled db n d status result error completed k :
  cron_inv db → dispatch_at db n d → unsettled (cd_status d) = true → finished status = true →
  counted (<[cd_dispatch_id d := dispatch_row n (settled d status result error completed)]> (db_dispatches db)) k =
    let '(a, b, c, e) := counted (db_dispatches db) k in
    if decide (k = cd_job_id d) then (a + 1, b + (if bool_decide (status = DS_succeeded) then 0 else 1), c, e)
    else (a, b, c, e).
Proof.
  intros I Hat Hu Hf. unfold counted. rewrite !(total_change _ _ _ _ _ Hat).
  pose proof (ci_shape _ I _ _ Hat) as (_ & _ & S). cbn in S.
  assert (is_some (cd_run_id d) = true) as Hr.
  { assert (has_identity d) as H by (by destruct (cd_status d)). unfold has_identity, identities in H.
    rewrite !Forall_cons in H. destruct H as (_ & H & _). by destruct (cd_run_id d). }
  unfold run_weight, failure_weight, missed_weight, overlap_weight, of_job. cbn. rewrite Hf, Hr.
  assert (finished (cd_status d) = false) as -> by (by destruct (cd_status d)).
  rewrite (bool_decide_eq_false_2 (status = DS_skipped)) by (intros ->; done).
  rewrite (bool_decide_eq_false_2 (status = DS_skipped ∧ _)) by (intros [-> _]; done).
  rewrite (bool_decide_eq_false_2 (cd_status d = DS_skipped)) by (intros E; by rewrite E in Hu).
  rewrite (bool_decide_eq_false_2 (cd_status d = DS_skipped ∧ _)) by (intros [E _]; by rewrite E in Hu).
  rewrite !andb_false_r. case_decide as Hk.
  - rewrite bool_decide_eq_true_2 by done. cbn. destruct (bool_decide (status = DS_succeeded)); cbn; rewrite !pair_equal_spec; lia.
  - rewrite bool_decide_eq_false_2 by congruence. cbn. rewrite !pair_equal_spec; lia.
Qed.

Lemma delta_jobs_kept db db' id : delta db db' → db_jobs db' !! id = None → db_jobs db !! id = None.
Proof.
  assert (∀ (m : gmap string JobRow) k r, <[k := r]> m !! id = None → m !! id = None) as Hi
    by (intros m k r [H _]%lookup_insert_None; done).
  intros D H. destruct D; try congruence;
    lazymatch goal with E : db_jobs _ = <[_ := _]> _ |- _ => rewrite E in H; by eapply Hi end.
Qed.

Lemma delta_counts db0 db db' : cron_inv db → counts_ok db0 db → delta db db' → counts_ok db0 db'.
Proof.
  intros I [K G] D. split; [|intros id Hid; by eapply G, delta_jobs_kept]. intros id r Hr.
  destruct D as [Ej E|j Hf Hb Hc Ej E|j j' Hj Hc Hb Hn Hv Ej E|j ds next now Hj Hn Ha Ej|n d d' Hat Hm Hu Hcl Ej E
    |n d d' j j' Hat Hj Hid Hm S1 S2 Hcl Hc Hn Hv Hb Ej E|n d st re er co j Hat Hj Hid Hu Hf d' j' Hcl Ej E]; rewrite Ej in Hr; try rewrite E.
  - by apply K.
  - apply lookup_insert_Some in Hr as [[<- <-]|[_ Hr]]; [|by apply K]. cbn. rewrite Hc. unfold counted.
    assert (∀ i r, db_dispatches db !! i = Some r → of_job (cj_job_id j) r = false) as F.
    { intros i r Hr. pose proof (ci_owned _ I _ _ Hr) as Ho. unfold of_job. apply bool_decide_eq_false_2. intros E'.
      by rewrite E', Hf in Ho. }
    unfold start_counts. rewrite (G _ Hf).
    rewrite !total_zero; [done|..]; intros i r Hr;
      unfold run_weight, failure_weight, missed_weight, overlap_weight; by rewrite (F _ _ Hr).
  - apply lookup_insert_Some in Hr as [[<- <-]|[_ Hr]]; [|by apply K]. cbn. rewrite Hn.
    assert (cj_job_id j' = cj_job_id j) as -> by (by injection Hc). apply (K _ _ Hj).
  - rewrite (counted_added _ _ _ _ Ha). destruct (decide (id = cj_job_id j)) as [->|Hne].
    + rewrite lookup_insert_eq in Hr. injection Hr as <-. destruct (weigh_same _ _ Hn) as (-> & -> & -> & ->).
      pose proof (K _ _ Hj) as Kj. cbn in Kj. unfold job_counts, counted in *. cbn in *.
      destruct (start_counts db0 (cj_job_id j)) as [[[a b] c] e]. cbn in *. injection Kj as -> -> -> ->.
      rewrite !pair_equal_spec; lia.
    + rewrite lookup_insert_ne in Hr by done. rewrite (K _ _ Hr). unfold counted.
      rewrite !(weigh_other _ _ Hn id Hne) by (repeat first [by left|right]). by rewrite !Z.add_0_r.
  - rewrite (K _ _ Hr), (moves_id _ _ Hm). f_equal. symmetry. eapply counted_change; [exact Hat|]. intros w Hw.
    eapply moves_weights; [apply (ci_shape _ I _ _ Hat)|done| |exact Hw].
    destruct (unsettled (cd_status d)) eqn:U; [right; by destruct (cd_status d')|by left].
  - assert (counted (<[cd_dispatch_id d' := dispatch_row n d']> (db_dispatches db)) id = counted (db_dispatches db) id) as ->.
    { rewrite (moves_id _ _ Hm). eapply counted_change; [exact Hat|]. intros w Hw.
      eapply moves_weights; [apply (ci_shape _ I _ _ Hat)|done| |exact Hw]. left. by rewrite S1. }
    apply lookup_insert_Some in Hr as [[<- <-]|[_ Hr]]; [|by apply K]. cbn. rewrite Hn.
    assert (cj_job_id j' = cj_job_id j) as -> by (by injection Hc). apply (K _ _ Hj).
  - subst d' j'. rewrite (counted_settled _ _ _ _ _ _ _ _ I Hat Hu Hf).
    apply lookup_insert_Some in Hr as [[<- <-]|[Hne Hr]].
    + pose proof (K _ _ Hj) as Kj. cbn in Kj. unfold job_counts in *. cbn in *. unfold counted in *.
      rewrite decide_True by done. destruct (start_counts db0 (cj_job_id j)) as [[[a b] c] e]. cbn in *.
      injection Kj as -> -> -> ->. rewrite !pair_equal_spec; lia.
    + rewrite (K _ _ Hr). unfold counted. rewrite decide_False by congruence. done.
Qed.

Lemma steps_counts cal db0 s s' :
  sys_ok s → counts_ok db0 (sy_db s) → rtc (cron_step cal) s s' → counts_ok db0 (sy_db s').
Proof.
  intros O K H. induction H as [s|x y z Hxy _ IH]; [done|]. destruct (step_ok _ _ _ O Hxy) as [Oy D].
  apply IH; [done|]. eapply delta_counts; [apply O|exact K|exact D].
Qed.
Lemma reachable_counts cal db0 s :
  cron_initial db0 → rtc (cron_step cal) (mkCronSys db0 [] []) s → counts_ok db0 (sy_db s).
Proof.
  intros Hi H. eapply steps_counts; [by apply (initial_ok db0)| |exact H]. split; [|done]. cbn. intros id r Hr.
  destruct Hi as (pf & seconds & now & raw & [_ Hd]%ensure_imported). unfold start_counts. rewrite Hr, Hd.
  assert (counted ∅ id = (0, 0, 0, 0)) as ->; [|by rewrite plus4_zero].
  unfold counted. rewrite !total_zero; [done|..]; intros i x; by rewrite lookup_empty.
Qed.
