(* ===== verification/CronSteps.v ===== *)
(** * CronSteps: the operations of the scheduler are steps of its system

    What a client method or a tick does, with its reads and writes in a row,
    is a sequence of the steps whose interleavings the invariants cover. *)

From S2P Require Import Prelude PyText PyTime CronModels CronSchedules CronStore CronScheduler.
From S2P Require Import CronFacts CronInvariant CronLedger.

#[local] Open Scope Z_scope.

Section steps.
Context (cal : Calendar).

(** From whatever was read before. *)
Definition db_steps (db db' : CronDb) : Prop :=
  ∀ js ds, ∃ js' ds', js ⊆ js' ∧ ds ⊆ ds' ∧ rtc (cron_step cal) (mkCronSys db js ds) (mkCronSys db' js' ds').

#[local] Instance db_steps_preorder : PreOrder db_steps.
Proof.
  split.
  - intros db js ds. exists js, ds. by split_and!.
  - intros x y z H1 H2 js ds. destruct (H1 js ds) as (j1 & d1 & S1 & S2 & R1). destruct (H2 j1 d1) as (j2 & d2 & S3 & S4 & R2).
    exists j2, d2. split; [by etrans|]. split; [by etrans|]. by etrans.
Qed.

Lemma write_steps db db' : (∀ js ds, cron_write cal js ds db db') → db_steps db db'.
Proof. intros H js ds. exists js, ds. split; [done|]. split; [done|]. apply rtc_once. by constructor. Qed.

(** Reading a job and then writing with it. *)
Lemma job_steps id j db db' :
  job id db = Ok j → (∀ js ds, j ∈ js → cron_write cal js ds db db') → db_steps db db'.
Proof.
  intros Hj H js ds. exists (j :: js), ds. split; [set_solver|]. split; [done|].
  eapply rtc_l; [by eapply step_read_job|]. apply rtc_once. constructor. apply H. by left.
Qed.
Lemma dispatch_steps id d db db' :
  dispatch id db = Ok d → (∀ js ds, d ∈ ds → cron_write cal js ds db db') → db_steps db db'.
Proof.
  intros Hd H js ds. exists js, (d :: ds). split; [done|]. split; [set_solver|].
  eapply rtc_l; [by eapply step_read_dispatch|]. apply rtc_once. constructor. apply H. by left.
Qed.
Lemma both_steps id d id' j db db' :
  dispatch id db = Ok d → job id' db = Ok j → (∀ js ds, d ∈ ds → j ∈ js → cron_write cal js ds db db') → db_steps db db'.
Proof.
  intros Hd Hj H js ds. exists (j :: js), (d :: ds). split; [set_solver|]. split; [set_solver|].
  eapply rtc_l; [by eapply step_read_dispatch|]. eapply rtc_l; [by eapply step_read_job|].
  apply rtc_once. constructor. apply H; by left.
Qed.

(** ** Client methods *)

Definition tx_steps {A} (m : Tx CronDb A) : Prop := ∀ db a db', m db = Ok (a, db') → db_steps db db'.

Lemma on_job_steps {A} id (k : CronJob → Tx CronDb A) :
  (∀ j db a db' js ds, j ∈ js → k j db = Ok (a, db') → cron_write cal js ds db db') → tx_steps (on_job id k).
Proof.
  intros Hk db a db' (j & s1 & [Hj ->]%tx_read_ok & H)%tx_bind_ok. eapply job_steps; [exact Hj|].
  intros js ds Hin. by eapply Hk.
Qed.

Lemma edit_steps now rq id : tx_steps (edit cal now rq id).
Proof. apply on_job_steps. intros *. by eapply w_edit. Qed.
Lemma pause_steps now id : tx_steps (pause now id).
Proof. apply on_job_steps. intros *. by eapply w_pause. Qed.
Lemma resume_steps now id : tx_steps (resume cal now id).
Proof. apply on_job_steps. intros *. by eapply w_resume. Qed.
Lemma trigger_steps uuid now id : tx_steps (trigger uuid now id).
Proof.
  intros db a db' (u & s1 & H & [_ ->]%tx_read_ok)%tx_bind_ok. revert H. apply on_job_steps. intros *. by eapply w_trigger.
Qed.

Lemma create_steps uuid now request db j db' :
  db_jobs db !! ("cron_" +:+ uuid) = None → create cal uuid now request db = Ok (j, db') → db_steps db db'.
Proof. intros Hf H. apply write_steps. intros js ds. by eapply w_create. Qed.
Lemma preset_steps digest now project expression tz :
  tx_steps (ensure_paper_research_preset cal digest now project expression tz).
Proof. intros db a db' H. apply write_steps. intros js ds. by eapply w_preset. Qed.
Lemma heartbeat_steps h : tx_steps (set_heartbeat h).
Proof. intros db a db' H. apply write_steps. intros js ds. by eapply w_heartbeat. Qed.
Lemma claim_steps id token epoch now expiry : tx_steps (claim_next id token epoch now expiry).
Proof. intros db a db' H. apply write_steps. intros js ds. by eapply w_claim. Qed.

(** A dispatch belongs to the job its methods read. *)
Lemma job_has_id db id j : cron_inv db → job id db = Ok j → cj_job_id j = id.
Proof. intros I (r & Hr & <-)%job_ok. by destruct (mi_jobs _ (ci_mirror _ I) _ _ Hr). Qed.

Section invariant.
Context (db : CronDb) (I : cron_inv db).

Lemma retry_steps uuid now id a db' : retry uuid now id db = Ok (a, db') → db_steps db db'.
Proof using I.
  intros (d & s1 & [Hd ->]%tx_read_ok & H)%tx_bind_ok. apply tx_bind_ok in H as ([] & s1 & [_ ->]%require_ok & H).
  apply tx_bind_ok in H as (j & s1 & [Hj ->]%tx_read_ok & H). eapply both_steps; [exact Hd|exact Hj|].
  intros js ds Hds Hjs. refine (w_retry cal js ds _ _ d j _ db db' Hds Hjs _ H). by eapply job_has_id.
Qed.

Lemma settle_steps id status result error completed a db' :
  finished status = true → mark_terminal id status result error completed db = Ok (a, db') → db_steps db db'.
Proof using I.
  intros Hf (d & s1 & [Hd ->]%tx_read_ok & H)%tx_bind_ok. destruct (unsettled (cd_status d)) eqn:Hu.
  2:{ apply tx_ret_ok in H as [_ ->]. reflexivity. }
  apply tx_bind_ok in H as (j & s1 & [Hj ->]%tx_read_ok & H). eapply both_steps; [exact Hd|exact Hj|].
  intros js ds Hds Hjs. refine (w_settle cal js ds d j _ _ _ _ _ db db' Hds Hjs _ Hu Hf H). by eapply job_has_id.
Qed.

Lemma bind_steps id token now se ru op att a db' :
  se ≠ "" → ru ≠ "" → op ≠ "" → att ≠ "" →
  bind_running id token now se ru op att db = Ok (a, db') → db_steps db db'.
Proof using I.
  intros H1 H2 H3 H4 (d & s1 & [Hd ->]%tx_read_ok & H)%tx_bind_ok.
  apply tx_bind_ok in H as ([] & s1 & [_ ->]%require_ok & H).
  apply tx_bind_ok in H as (j & s1 & [Hj ->]%tx_read_ok & H). eapply both_steps; [exact Hd|exact Hj|].
  intros js ds Hds Hjs. refine (w_bind cal js ds d j _ _ _ _ _ _ _ db db' Hds Hjs _ H1 H2 H3 H4 H). by eapply job_has_id.
Qed.
End invariant.

Lemma cancel_steps id reason now : tx_steps (cancel_unbound id reason now).
Proof.
  intros db a db' (d & s1 & [Hd ->]%tx_read_ok & H)%tx_bind_ok. destruct (unbound (cd_status d)) eqn:Hu.
  2:{ apply tx_ret_ok in H as [_ ->]. reflexivity. }
  eapply dispatch_steps; [exact Hd|]. intros js ds Hds. by eapply w_cancel.
Qed.
Lemma recovery_steps id reason : tx_steps (mark_recovery_required id reason).
Proof.
  intros db a db' (d & s1 & [Hd ->]%tx_read_ok & H)%tx_bind_ok. destruct (unsettled (cd_status d)) eqn:Hu.
  2:{ apply tx_ret_ok in H as [_ ->]. reflexivity. }
  eapply dispatch_steps; [exact Hd|]. intros js ds Hds. by eapply w_recovery.
Qed.

Lemma cancel_all_steps now ds : ∀ db r db', cancel_all now ds db = (r, db') → db_steps db db'.
Proof.
  induction ds as [|d ds IH]; intros db r db'; cbn; [by intros [= _ <-]|].
  destruct (unbound (cd_status d)); [|by apply IH].
  destruct (cancel_unbound _ _ _ db) as [[x d1]|e] eqn:E; [|by intros [= _ <-]].
  intros H. etrans; [by eapply cancel_steps|by eapply IH].
Qed.

Lemma remove_steps now id db r db' : remove now id db = (r, db') → db_steps db db'.
Proof.
  unfold remove. destruct (job id db) as [j|e] eqn:Hj; [|by intros [= _ <-]].
  case_decide; [by intros [= _ <-]|]. destruct (remove_write now j db) as [[u d1]|e] eqn:Hw; [|by intros [= _ <-]].
  assert (db_steps db d1) as S1.
  { eapply job_steps; [exact Hj|]. intros js ds Hin. by eapply w_remove. }
  destruct (dispatches id _ d1) as [ds|e]; [|by intros [= _ <-]].
  destruct (cancel_all now ds d1) as [[v|e] d2] eqn:Hc; intros [= _ <-]; (etrans; [exact S1|by eapply cancel_all_steps]).
Qed.

(** ** A tick *)

(** The jobs of a list were read by their ids. *)
Lemma jobs_read p b db l : cron_inv db → jobs p b db = Ok l → ∀ j, j ∈ l → job (cj_job_id j) db = Ok j.
Proof.
  intros I. unfold jobs. set (rows := merge_sort _ _).
  assert (∀ kv, kv ∈ rows → db_jobs db !! kv.1 = Some kv.2) as Hrows.
  { intros [id r]. unfold rows. rewrite merge_sort_Permutation, list_elem_of_filter, elem_of_map_to_list. tauto. }
  clearbody rows. revert l. induction rows as [|kv rows IH]; intros l; [by intros [= <-] j ?%elem_of_nil|].
  intros (x & Hx & (l2 & Hl2 & [= <-])%res_bind_ok)%res_bind_ok j [->|Hin]%elem_of_cons.
  - pose proof (Hrows kv ltac:(left)) as Hr. destruct (mi_jobs _ (ci_mirror _ I) _ _ Hr) as [_ Hid].
    assert (x = jr_job kv.2) as -> by (unfold valid_job in Hx; destruct (CronJob_valid _); congruence).
    unfold job. by rewrite Hid, Hr.
  - eapply IH; [|exact Hl2|exact Hin]. intros k Hk. apply Hrows. by right.
Qed.

Lemma read_all l : ∀ db js ds, (∀ j, j ∈ l → job (cj_job_id j) db = Ok j) →
  ∃ js', js ⊆ js' ∧ l ⊆ js' ∧ rtc (cron_step cal) (mkCronSys db js ds) (mkCronSys db js' ds).
Proof.
  induction l as [|j l IH]; intros db js ds H; [by exists js; split; [|split; [set_solver|]]|].
  destruct (IH db (j :: js) ds) as (js' & S1 & S2 & R); [intros x Hx; apply H; by right|].
  exists js'. split; [set_solver|]. split; [set_solver|]. eapply rtc_l; [|exact R]. eapply step_read_job. apply H. by left.
Qed.

Lemma materialize_all_steps env l : ∀ db js ds r db', l ⊆ js → materialize_all cal env l db = (r, db') →
  rtc (cron_step cal) (mkCronSys db js ds) (mkCronSys db' js ds).
Proof.
  induction l as [|j l IH]; intros db js ds r db' Hl; cbn; [by intros [= _ <-]|].
  destruct (materialize_due _ _ _ _ db) as [[u d1]|e] eqn:E; [|by intros [= _ <-]]. intros H.
  eapply rtc_l; [|eapply IH; [|exact H]; set_solver]. constructor. eapply w_materialize; [|exact E]. set_solver.
Qed.

Lemma claim_all_steps env l : ∀ db js ds r db', claim_all env l db = (r, db') →
  rtc (cron_step cal) (mkCronSys db js ds) (mkCronSys db' js ds).
Proof.
  induction l as [|j l IH]; intros db js ds r db'; cbn; [by intros [= _ <-]|].
  destruct (claim env (cj_job_id j) db) as [[o d1]|e] eqn:E; [|by apply IH].
  assert (cron_step cal (mkCronSys db js ds) (mkCronSys d1 js ds)) as S1.
  { constructor. apply tx_bind_ok in E as (x & s1 & [_ ->]%tx_lift_ok & E). by eapply w_claim. }
  destruct o as [d|]; [|intros H; eapply rtc_l; [exact S1|by eapply IH]].
  destruct (claim_all env l d1) as [ds2 d2] eqn:E2. intros [= _ <-]. eapply rtc_l; [exact S1|by eapply IH].
Qed.

Section tick.
Context (submit_dispatch : CronDispatch → CronDb → res unit * CronDb).
Context (Hsubmit : ∀ d db r db', cron_inv db → submit_dispatch d db = (r, db') → db_steps db db').

Lemma steps_inv db db' : cron_inv db → db_steps db db' → cron_inv db'.
Proof.
  intros I H. destruct (H [] []) as (js & ds & _ & _ & R).
  assert (sys_ok (mkCronSys db [] [])) as O by (split; [done|by intros j ?%elem_of_nil|by intros d ?%elem_of_nil]).
  destruct (steps_ok _ _ _ O R) as [O' _]. apply O'.
Qed.

Lemma submit_all_steps l : ∀ db r db', cron_inv db → submit_all submit_dispatch l db = (r, db') → db_steps db db'.
Proof using Hsubmit.
  induction l as [|d l IH]; intros db r db' I; cbn; [by intros [= _ <-]|].
  destruct (submit_dispatch d db) as [x d1] eqn:E. destruct (submit_all submit_dispatch l d1) as [rest d2] eqn:E2.
  intros H. assert (d2 = db') as <- by (destruct x, (dispatch (cd_dispatch_id d) d1); by injection H). pose proof (Hsubmit _ _ _ _ I E) as S1.
  etrans; [exact S1|]. eapply IH; [|exact E2]. by eapply steps_inv.
Qed.

Lemma tick_steps m env db r db' : cron_inv db → tick cal submit_dispatch m env db = (r, db') → db_steps db db'.
Proof using Hsubmit.
  intros I. unfold tick. destruct (is_some m); [by intros [= _ <-]|].
  destruct (jobs None false db) as [l|e] eqn:Hl; [|by intros [= _ <-]].
  destruct (materialize_all cal env l db) as [x d1] eqn:Hm.
  assert (db_steps db d1) as S1.
  { intros js ds. destruct (read_all l db js ds (jobs_read _ _ _ _ I Hl)) as (js' & H1 & H2 & R).
    exists js', ds. split; [done|]. split; [done|]. etrans; [exact R|]. by eapply materialize_all_steps. }
  destruct x as [u|e]; [|by intros [= _ <-]]. destruct (jobs None false d1) as [l2|e]; [|by intros [= _ <-]].
  destruct (claim_all env l2 d1) as [claimed d2] eqn:Hc.
  assert (db_steps d1 d2) as S2.
  { intros js ds. exists js, ds. split; [done|]. split; [done|]. by eapply claim_all_steps. }
  destruct (beat (te_now env) d2) as [[u2 d3]|e] eqn:Hb; [|intros [= _ <-]; by etrans].
  assert (db_steps d2 d3) as S3.
  { apply write_steps. intros js ds. apply tx_bind_ok in Hb as (h & s1 & [_ ->]%tx_read_ok & Hb).
    apply tx_bind_ok in Hb as (n & s1 & [_ ->]%tx_lift_ok & Hb). by eapply w_heartbeat. }
  destruct (submit_all submit_dispatch claimed d3) as [sub d4] eqn:Hs. intros [= _ <-].
  assert (cron_inv d3) as I3 by (eapply steps_inv; [|exact S3]; eapply steps_inv; [|exact S2]; by eapply steps_inv).
  etrans; [exact S1|]. etrans; [exact S2|]. etrans; [exact S3|]. by eapply submit_all_steps.
Qed.
End tick.
End steps.
