(* ===== verification/Scheduling.v ===== *)
(** * Scheduling: what the job scheduler promises

    One Run of a job at a time, dispatches that keep their history, counters
    that agree with the dispatches, the due periods accounted for once, and the
    operations as changes of the two tables. *)

From S2P Require Import Prelude PyText PyTime CronModels CronSchedules CronStore CronImport CronScheduler.
From S2P Require Import CronFacts CronInvariant CronLedger CronSteps.

#[local] Open Scope Z_scope.

(** ** Periods of a schedule

    [periods s c l e]: [l] are periods in a row from [c]; [e] is the one after
    them, or [None] when the schedule has ended. *)
Inductive periods (cal : Calendar) (s : CronSchedule) : utc → list utc → option utc → Prop :=
| periods_here c : periods cal s c [] (Some c)
| periods_last c : next_after cal s c = Ok None → periods cal s c [c] None
| periods_next c t l e : next_after cal s c = Ok (Some t) → periods cal s t l e → periods cal s c (c :: l) e.

Lemma due_occurrences_periods cal s now limit : ∀ c l last,
  due_occurrences cal limit s now c = Ok (l, last) →
  ∃ e, periods cal s c l e ∧ Forall (λ t, t ≤ now) l ∧
    match e with
    | Some t => last = t ∧ (now < t ∨ length l = limit)
    | None => last ≤ now
    end.
Proof.
  induction limit as [|limit IH]; intros c l last; cbn.
  { intros [= <- <-]. exists (Some c). split; [constructor|]. auto. }
  destruct (now <? c) eqn:E.
  { intros [= <- <-]. exists (Some c). split; [constructor|]. split; [done|]. split; [done|]. left. lia. }
  apply Z.ltb_ge in E. intros (nxt & Hn & H)%res_bind_ok. destruct nxt as [t|].
  - apply res_bind_ok in H as ([l' last'] & H & [= <- <-]). apply IH in H as (e & Hp & Hl & He).
    exists e. split; [by eapply periods_next|]. split; [by constructor|].
    destruct e; [|done]. cbn. destruct He as [-> He]. split; [done|]. destruct He; auto.
  - injection H as <- <-. exists None. split; [by constructor|]. split; [by constructor|done].
Qed.


Lemma periods_app cal s c l t l' e : periods cal s c l (Some t) → periods cal s t l' e → periods cal s c (l ++ l') e.
Proof.
  intros H Hp. remember (Some t) as e0 eqn:E. induction H as [c|c H|c u l e1 Hn _ IH]; cbn.
  - by injection E as ->.
  - done.
  - eapply periods_next; [exact Hn|]. by apply IH.
Qed.

(** *** The closed form of an interval *)

Lemma interval_periods cal s c n :
  cs_kind s = SK_interval → 0 ≤ c → 0 ≤ default 0 (cs_interval_seconds s) →
  c + Z.of_nat n * (default 0 (cs_interval_seconds s) * 1000000) < max_local →
  periods cal s c (map (λ i, c + Z.of_nat i * (default 0 (cs_interval_seconds s) * 1000000)) (seq 0 n))
    (Some (c + Z.of_nat n * (default 0 (cs_interval_seconds s) * 1000000))).
Proof.
  intros Hk Hc. set (p := default 0 (cs_interval_seconds s)). intros Hp. induction n as [|n IH]; intros Hn.
  { cbn. rewrite Z.add_0_r. constructor. }
  rewrite seq_S, map_app. cbn [map Nat.add]. eapply periods_app.
  - apply IH. nia.
  - eapply periods_next; [|rewrite Nat2Z.inj_succ; apply periods_here].
    unfold next_after. rewrite Hk. unfold mbind, res_bind, add_seconds. fold p.
    replace (c + Z.of_nat n * (p * 1000000) + p * 1000000) with (c + Z.succ (Z.of_nat n) * (p * 1000000)) by lia.
    rewrite (proj2 (andb_true_iff _ _)); [done|]. split; [apply Z.leb_le|apply Z.ltb_lt]; nia.
Qed.

Lemma next_future_cron_periods cal s now fuel : ∀ c t,
  next_future_cron cal fuel s c now = Ok (Some t) →
  ∃ l, periods cal s c (c :: l) (Some t) ∧ now < t ∧ Forall (λ u, u ≤ now) l.
Proof.
  induction fuel as [|fuel IH]; intros c t; cbn; [done|]. intros ([u|] & Hn & H)%res_bind_ok; [|done].
  destruct (now <? u) eqn:E.
  - injection H as ->. exists []. split; [|split; [lia|done]]. eapply periods_next; [exact Hn|constructor].
  - apply Z.ltb_ge in E. apply IH in H as (l & Hp & Ht & Hl). exists (u :: l). split; [by eapply periods_next|]. split; [done|].
    by constructor.
Qed.

(** [next_future] goes to the first period after now, on the
    grid of the schedule.  Whether it iterates (cron expressions) or computes
    (intervals), its answer is a period the schedule reaches from the given
    one by [next_after], it lies after now, and no period in between does. *)
Lemma next_future_first cal s at_ now t :
  CronSchedule_valid s = true → 0 ≤ at_ → next_future cal s at_ now = Ok (Some t) →
  ∃ l, periods cal s at_ (at_ :: l) (Some t) ∧ now < t ∧ Forall (λ u, u ≤ now) l.
Proof.
  intros V Hat. unfold next_future. destruct (cs_kind s) eqn:Hk; [|done|by apply next_future_cron_periods].
  intros (t0 & Ht & [= <-])%res_bind_ok.
  set (p := default 0 (cs_interval_seconds s)) in *.
  assert (60 ≤ p) as Hp.
  { unfold CronSchedule_valid, schedule_shape in V. rewrite Hk in V. unfold p.
    destruct (cs_interval_seconds s); cbn in *; [|by rewrite !andb_false_r in V].
    rewrite !andb_true_iff in V. lia. }
  unfold add_seconds in Ht. cbv zeta in Ht. destruct (_ && _) eqn:Hr; [|done]. injection Ht as <-.
  apply andb_true_iff in Hr as [_ Hr%Z.ltb_lt]. set (k := missed_periods p at_ now) in *.
  assert (1 ≤ k) as H1 by (unfold k, missed_periods; lia).
  assert (now < at_ + p * k * 1000000 ∧ (2 ≤ k → at_ + p * (k - 1) * 1000000 ≤ now)) as [Hlt Hle].
  { unfold k, missed_periods. set (d := now - at_). set (m := p * 1000000). assert (0 < m) by (unfold m; lia).
    pose proof (Z.mul_succ_div_gt d m ltac:(lia)). pose proof (Z.mul_div_le d m ltac:(lia)).
    replace (p * Z.max 1 (d / m + 1) * 1000000) with (m * Z.max 1 (d / m + 1)) by (unfold m; lia).
    replace (p * (Z.max 1 (d / m + 1) - 1) * 1000000) with (m * (Z.max 1 (d / m + 1) - 1)) by (unfold m; lia).
    split; [|intros Hk2]; [|replace (Z.max 1 (d / m + 1) - 1) with (d / m) by lia; unfold d in *; lia].
    destruct (Z.max_spec 1 (d / m + 1)) as [[_ ->]|[Hm ->]]; unfold d in *; nia. }
  pose proof (interval_periods cal s at_ (Z.to_nat k) Hk Hat ltac:(fold p; lia)) as Hi. fold p in Hi.
  rewrite Z2Nat.id in Hi by lia. specialize (Hi ltac:(lia)).
  replace (at_ + k * (p * 1000000)) with (at_ + p * k * 1000000) in Hi by lia.
  destruct (Z.to_nat k) as [|n] eqn:En; [lia|]. rewrite <- cons_seq in Hi. cbn [map] in Hi.
  rewrite Z.add_0_r in Hi. eexists. split; [exact Hi|]. split; [done|].
  apply Forall_map, Forall_forall. intros i Hi'%elem_of_seq. cbn.
  assert (2 ≤ k) by lia. specialize (Hle H). nia.
Qed.

(** ** Planning dispatches for periods *)

(** A dispatch stands for a group of consecutive periods. *)
Record stands_for (d : CronDispatch) (g : list utc) : Prop := {
  sf_some : g ≠ [];
  sf_trigger : cd_trigger d = TR_scheduled;
  sf_count : cd_coalesced_count d = Z.of_nat (length g);
  sf_period : cd_scheduled_for d = utc_iso <$> last g
}.

Definition is_occupied (j : CronJob) : bool := truthy (cj_current_dispatch_id j) || truthy (cj_current_run_id j).

(** What each policy makes of the groups. *)
Definition by_policy (j : CronJob) (pending : nat) (ds : list CronDispatch) (rest : list utc) : Prop :=
  if is_occupied j then
    ∃ d, ds = [d] ∧ cd_status d = DS_skipped ∧ cd_error d = Some "overlap_skipped" ∧ rest = []
  else match cj_misfire_policy j with
  | MP_skip => ∃ d, ds = [d] ∧ cd_status d = DS_skipped ∧ cd_error d = Some "misfire_skip" ∧ rest = []
  | MP_fire_once => ∃ d, ds = [d] ∧ cd_status d = DS_pending ∧ rest = []
  | MP_catch_up =>
      Forall (λ d, cd_status d = DS_pending ∧ cd_coalesced_count d = 1) ds ∧
      (length ds ≤ 10 - pending)%nat ∧ (rest = [] ∨ length ds = (10 - pending)%nat)
  end.

Lemma mapM_build ds ds' : mapM build_dispatch ds = Ok ds' → ds' = ds.
Proof.
  revert ds'. induction ds as [|d ds IH]; intros ds'; [by intros [= <-]|].
  intros (x & [-> _]%build_dispatch_ok & (l & ->%IH & [= <-])%res_bind_ok)%res_bind_ok. done.
Qed.

Lemma imap_stands (f : nat → utc → CronDispatch) l :
  (∀ i t, stands_for (f i t) [t]) → Forall2 stands_for (imap f l) (map (λ t, [t]) l).
Proof. revert f. induction l as [|t l IH]; intros f Hf; [constructor|]. rewrite imap_cons. constructor; [done|]. apply IH. intros i u. apply Hf. Qed.

Lemma plan_groups uuid j now pending l cursor ds next :
  l ≠ [] → plan uuid j now pending l cursor = Ok (ds, next) →
  ∃ groups rest, l = mjoin groups ++ rest ∧ Forall2 stands_for ds groups ∧ by_policy j pending ds rest ∧
    next = match rest with
           | t :: _ => Some (utc_iso t)
           | [] => if now <? cursor then Some (utc_iso cursor) else None
           end.
Proof.
  intros Hl H.
  assert (∀ d, build_dispatch (new_dispatch (uuid 0%nat) j TR_scheduled (utc_iso (default cursor (last l)))
    (Z.of_nat (length l)) (utc_iso now)) = Ok d →
    stands_for d l ∧ cd_status d = DS_pending ∧ ∀ reason, stands_for (skip reason (utc_iso now) d) l) as Hone.
  { intros d [-> _]%build_dispatch_ok.
    assert (Some (utc_iso (default cursor (last l))) = utc_iso <$> last l) as E.
    { destruct (last l) eqn:El; [done|]. by apply last_None in El. }
    split; [|split; [done|intros reason]]; by split. }
  unfold plan in H. cbv zeta in H. unfold by_policy, is_occupied. destruct (_ || _).
  { apply res_bind_ok in H as (d & (_ & _ & Hd)%Hone & [= <- <-]).
    exists [l], []. rewrite app_nil_r. cbn. rewrite app_nil_r. split; [done|]. split; [by constructor|]. split; [by eexists|done]. }
  destruct (cj_misfire_policy j).
  - apply res_bind_ok in H as (d & (_ & _ & Hd)%Hone & [= <- <-]).
    exists [l], []. rewrite app_nil_r. cbn. rewrite app_nil_r. split; [done|]. split; [by constructor|]. split; [by eexists|done].
  - apply res_bind_ok in H as (d & (Hd & Hs & _)%Hone & [= <- <-]).
    exists [l], []. rewrite app_nil_r. cbn. rewrite app_nil_r. split; [done|]. split; [by constructor|]. split; [by eexists|done].
  - apply res_bind_ok in H as (created & ->%mapM_build & [= <- <-]).
    exists (map (λ t, [t]) (take (10 - pending) l)), (drop (10 - pending) l).
    assert (∀ k : list utc, mjoin (map (λ t, [t]) k) = k) as Hj.
    { induction k as [|t k IH]; [done|]. cbn. f_equal. exact IH. }
    rewrite Hj, take_drop. split; [done|]. split; [apply imap_stands; by intros i t|].
    rewrite length_imap, length_take. split; [|done]. split; [|split; [lia|]].
    + apply Forall_forall. intros d (i & t & -> & _)%elem_of_lookup_imap. done.
    + destruct (decide (length l ≤ 10 - pending)%nat); [left; by apply drop_ge|right; lia].
Qed.

Lemma groups_coalesced ds groups : Forall2 stands_for ds groups → sum_coalesced ds = Z.of_nat (length (mjoin groups)).
Proof.
  induction 1 as [|d g ds gs Hd _ IH]; [done|].
  change (cd_coalesced_count d + sum_coalesced ds = Z.of_nat (length (g ++ mjoin gs))).
  rewrite length_app, IH, (sf_count _ _ Hd). lia.
Qed.

(** What [materialize_due] does to the tables when a period is due. *)
Lemma materialize_due_ok cal uuid j now db u db' text due :
  cj_state j = JS_scheduled → cj_next_run_at j = Some text → text ≠ "" → parse_time text = Ok due → due ≤ now →
  materialize_due cal uuid j now db = Ok (u, db') →
  ∃ known l last ds next,
    dispatches (cj_job_id j) (Z.to_nat 1000) db = Ok known ∧
    due_occurrences cal occurrence_limit (cj_schedule j) now due = Ok (l, last) ∧ l ≠ [] ∧
    plan uuid j now (length (filter (λ d, cd_status d = DS_pending) known)) l last = Ok (ds, next) ∧
    (ds = [] ∧ db' = db ∨ ds ≠ [] ∧ due_materialize j ds next (utc_iso now) db = Ok (u, db')).
Proof.
  intros Hst Hn Hne Hp Hle. unfold materialize_due. rewrite Hst, Hn. change (default "" (Some text)) with text.
  rewrite bool_decide_eq_true_2 by done. cbn [negb orb]. unfold truthy.
  rewrite bool_decide_eq_false_2 by done. cbn [negb orb]. rewrite Hp, (proj2 (Z.ltb_ge _ _)) by done.
  intros (known & s1 & [Hk ->]%tx_read_ok & H)%tx_bind_ok. cbv zeta in H.
  apply tx_bind_ok in H as ([l last] & s1 & [Ho ->]%tx_lift_ok & H).
  assert (l ≠ []) as Hl.
  { destruct (due_occurrences_periods _ _ _ _ _ _ _ Ho) as (e & Hper & _ & He).
    intros ->. inversion Hper; subst. destruct He as [-> [He|He]]; [lia|]. by destruct occurrence_limit eqn:E. }
  rewrite decide_False in H by done.
  apply tx_bind_ok in H as ([ds next] & s1 & [Hpl ->]%tx_lift_ok & H).
  exists known, l, last, ds, next. split; [done|]. split; [done|]. split; [done|]. split; [done|].
  case_decide as Hd; [left|by right]. by apply tx_ret_ok in H as [_ ->].
Qed.


(** ** Claims *)

(** C18: a job has one Run at a time.  In every state that clients,
    the scheduler and the Runs can reach, in any interleaving of their reads
    and writes: at most one dispatch of a job is claimed, running or in need
    of recovery; the job names a dispatch and a Run exactly while that
    dispatch, bound to that Run, is not settled; no two dispatches share a
    Run, and no period of a job has two dispatches. *)
Theorem one_run_at_a_time cal s :
  cron_reachable cal s →
  (∀ a b ra rb, db_dispatches (sy_db s) !! a = Some ra → db_dispatches (sy_db s) !! b = Some rb →
     dr_job_id ra = dr_job_id rb → active (dr_status ra) = true → active (dr_status rb) = true → a = b) ∧
  (∀ id r d run, db_jobs (sy_db s) !! id = Some r →
     (cj_current_dispatch_id (jr_job r) = Some d ∧ cj_current_run_id (jr_job r) = Some run ↔
      ∃ row, db_dispatches (sy_db s) !! d = Some row ∧ dr_job_id row = id ∧ unsettled (dr_status row) = true ∧
        dr_run_id row = Some run)) ∧
  (∀ a b ra rb run, db_dispatches (sy_db s) !! a = Some ra → db_dispatches (sy_db s) !! b = Some rb →
     dr_run_id ra = Some run → dr_run_id rb = Some run → a = b) ∧
  (∀ a b ra rb t, db_dispatches (sy_db s) !! a = Some ra → db_dispatches (sy_db s) !! b = Some rb →
     dr_job_id ra = dr_job_id rb → dr_scheduled_for ra = Some t → dr_scheduled_for rb = Some t → a = b).
Proof.
  intros I%cron_reachable_ok%so_inv. set (db := sy_db s) in *.
  assert (∀ a b ra rb, db_dispatches db !! a = Some ra → db_dispatches db !! b = Some rb → rows_clash ra rb = true → a = b) as U.
  { intros a b ra rb Ha Hb Hc. destruct (decide (a = b)) as [|Hne]; [done|]. by rewrite (ci_unique _ I _ _ _ _ Ha Hb Hne) in Hc. }
  split; [|split; [|split]].
  - intros a b ra rb Ha Hb Hj H1 H2. apply (U _ _ _ _ Ha Hb). unfold rows_clash.
    by rewrite bool_decide_eq_true_2, H1, H2, orb_true_r.
  - intros id r d run Hr. destruct (mi_jobs _ (ci_mirror _ I) _ _ Hr) as [Er Hid].
    assert (job_at db (jr_job r)) as Hat by (unfold job_at; by rewrite Hid, Hr, Er at 1). split.
    + intros [H1 H2]. pose proof (ci_binding _ I _ _ Hr) as B. unfold binding_ok in B. rewrite H1, H2, Hid in B.
      destruct B as (B & _). unfold open_run in B. destruct (db_dispatches db !! d) as [row|]; [|done]. cbn in B.
      exists row. destruct (bool_decide _) eqn:Hj, (unsettled _) eqn:Hu; try done. cbn in B. injection B as ->.
      by apply bool_decide_eq_true in Hj.
    + intros (row & Hrow & Hj & Hu & Hrun). destruct (mi_dispatches _ (ci_mirror _ I) _ _ Hrow) as [Erow Hd].
      assert (dispatch_at db (dr_rowid row) (dr_dispatch row)) as Hdat by (unfold dispatch_at; by rewrite Hd, Hrow, Erow at 1).
      rewrite Erow in Hj, Hu, Hrun. cbn in Hj, Hu, Hrun.
      pose proof (unsettled_current _ _ _ _ I Hdat Hat ltac:(congruence) Hu) as Hb. injection Hb as -> ->. by rewrite Hd.
  - intros a b ra rb run Ha Hb H1 H2. apply (U _ _ _ _ Ha Hb). unfold rows_clash, same_key.
    rewrite H1, H2, (bool_decide_eq_true_2 (Some run = Some run)) by done. cbn. by rewrite !orb_true_r.
  - intros a b ra rb t Ha Hb Hj H1 H2. apply (U _ _ _ _ Ha Hb). unfold rows_clash, same_key.
    by rewrite bool_decide_eq_true_2, H1, H2, (bool_decide_eq_true_2 (Some t = Some t)) by done.
Qed.

(** A dispatch is never rewritten.  Whatever happens after a
    state, each of its dispatches is still there with the job, period, request
    and snapshot it was created with; its status has moved along the edges of
    its state machine; once bound it keeps its session, Run, operation and
    attempt; and when it has ended or was skipped its row is the same for
    ever. *)
Lemma dispatch_history cal s s' id r :
  cron_reachable cal s → rtc (cron_step cal) s s' → db_dispatches (sy_db s) !! id = Some r →
  ∃ r', db_dispatches (sy_db s') !! id = Some r' ∧
    dispatch_core (dr_dispatch r') = dispatch_core (dr_dispatch r) ∧
    rtc (λ a b, edge a b = true) (dr_status r) (dr_status r') ∧
    (has_identity (dr_dispatch r) → identities (dr_dispatch r') = identities (dr_dispatch r)) ∧
    (ended (dr_status r) = true → r' = r).
Proof.
  intros O%cron_reachable_ok H Hr. destruct (steps_history _ _ _ _ _ O H Hr) as (r' & Hr' & [C S E I _]).
  exists r'. auto.
Qed.

(** What a job was imported with from an older version. *)
Definition imported_count (f : CronJob → Z) (db0 : CronDb) (id : string) : Z :=
  match db_jobs db0 !! id with Some r => f (jr_job r) | None => 0 end.

(** C21: the counters of a job are what it was imported with and what
    its dispatches say.  [raw] is the file of an older version, if there is one,
    from which the store was made when it was first used.  In every state
    reached from there, the Runs a job counts are those it was imported with
    and its dispatches that ended with a Run, its failures those it was imported
    with and the dispatches among them that did not succeed, and its overlapped
    periods those it was imported with and the periods its dispatches skipped
    for an overlap stand for; its missed periods are exactly the periods its
    skipped dispatches stand for.  Without such a file nothing is imported. *)
Theorem counters_match cal pf seconds now raw db0 s id r :
  ensure pf seconds now raw = Ok db0 → rtc (cron_step cal) (mkCronSys db0 [] []) s → db_jobs (sy_db s) !! id = Some r →
  cj_run_count (jr_job r) = imported_count cj_run_count db0 id + total (run_weight id) (db_dispatches (sy_db s)) ∧
  cj_failure_count (jr_job r) = imported_count cj_failure_count db0 id + total (failure_weight id) (db_dispatches (sy_db s)) ∧
  cj_overlap_skipped (jr_job r) = imported_count cj_overlap_skipped db0 id + total (overlap_weight id) (db_dispatches (sy_db s)) ∧
  cj_missed_count (jr_job r) = total (missed_weight id) (db_dispatches (sy_db s)) ∧
  (raw = None → db_jobs db0 = ∅).
Proof.
  intros He H Hr. pose proof (reachable_counts cal db0 s ltac:(by exists pf, seconds, now, raw) H) as K.
  apply (co_counts _ _ K) in Hr. apply ensure_imported in He as I. unfold start_counts, job_counts, counted in Hr.
  unfold imported_count. split_and!.
  5:{ intros ->. unfold ensure in He. by injection He as <-. }
  all: destruct (db_jobs db0 !! id) as [r0|] eqn:E0; cbn in Hr.
  all: try (destruct (im_jobs _ I _ _ E0) as (_ & _ & _ & _ & Em & _)); injection Hr as H1 H2 H3 H4; lia.
Qed.

(** *** Stale versions *)

Lemma stale_update db j n cols u db' upd :
  mirrored db → job_seen db j → ¬ job_at db j → cj_job_id upd = cj_job_id j → n = cj_revision j →
  update_job upd n cols db = Ok (u, db') → False.
Proof. intros M S Hn Hid Hrev H. apply Hn. by eapply seen_job_stored. Qed.

(** C20: no update is lost.  Once the stored version of a job is no
    longer the one a caller has read, nothing that caller still does on the
    strength of it takes effect: editing, pausing, resuming, removing,
    triggering, creating dispatches, binding a Run and settling one are all
    refused; and so is every write to a dispatch that changed since it was
    read. *)
Theorem stale_writes_refused cal s j :
  cron_reachable cal s → j ∈ sy_seen_jobs s → db_jobs (sy_db s) !! cj_job_id j ≠ Some (job_row j) →
  (∀ now rq a db', edit_write cal now rq j (sy_db s) ≠ Ok (a, db')) ∧
  (∀ now a db', pause_write now j (sy_db s) ≠ Ok (a, db')) ∧
  (∀ now a db', resume_write cal now j (sy_db s) ≠ Ok (a, db')) ∧
  (∀ now a db', remove_write now j (sy_db s) ≠ Ok (a, db')) ∧
  (∀ uuid now a db', trigger_write uuid now j (sy_db s) ≠ Ok (a, db')) ∧
  (∀ ds next now a db', due_materialize j ds next now (sy_db s) ≠ Ok (a, db')) ∧
  (∀ d token now se ru op att a db', bind_running_write d j token now se ru op att (sy_db s) ≠ Ok (a, db')) ∧
  (∀ d st re er c a db', mark_terminal_write d j st re er c (sy_db s) ≠ Ok (a, db')) ∧
  (∀ d d' a db', d ∈ sy_seen_dispatches s → dispatch_core d' = dispatch_core d →
     (∀ n, db_dispatches (sy_db s) !! cd_dispatch_id d ≠ Some (dispatch_row n d)) →
     replace_dispatch d' (cd_revision d) (sy_db s) ≠ Ok (a, db')).
Proof.
  intros O%cron_reachable_ok Hj Hn. pose proof (so_jobs _ O _ Hj) as S. pose proof (ci_mirror _ (so_inv _ O)) as M.
  set (db := sy_db s) in *. change (¬ job_at db j) in Hn.
  assert (∀ upd db2 (u : unit) db' cols, cj_job_id upd = cj_job_id j → db_jobs db2 = db_jobs db →
    update_job upd (cj_revision j) cols db2 = Ok (u, db') → False) as Hupd.
  { intros upd db2 u db' cols Hid Ej (old & Ho & Hr & H1 & _)%update_job_ok.
    rewrite Ej in Ho. eapply (stale_update db j (cj_revision j) id tt _ upd M S Hn Hid eq_refl). apply update_job_ok.
    exists old. split; [exact Ho|]. split; [done|]. by split. }
  assert (∀ ds next now (a : unit) db', due_materialize j ds next now db = Ok (a, db') → False) as Hdue.
  { intros ds next now a db' H. apply Hn. by eapply due_materialize_ok. }
  assert (∀ d n (u : unit) db2, replace_dispatch d n db = Ok (u, db2) → db_jobs db2 = db_jobs db) as Hrep.
  { intros d n u db2 (old & _ & _ & _ & _ & ->)%replace_dispatch_ok. done. }
  split_and!.
  - intros now rq a db' H. apply tx_bind_ok in H as ([] & s1 & [_ ->]%reject_ok & H).
    apply tx_bind_ok in H as (j' & s1 & [He ->]%tx_lift_ok & H). apply edited_keeps in He as (E1 & _).
    apply tx_bind_ok in H as (u & s1 & H & _). eapply Hupd; [|done|exact H]. by injection E1.
  - intros now a db' H. apply tx_bind_ok in H as ([] & s1 & [_ ->]%reject_ok & H). cbv zeta in H.
    apply tx_bind_ok in H as (u & s1 & H & _). by eapply Hupd in H.
  - intros now a db' H. apply tx_bind_ok in H as ([] & s1 & [_ ->]%reject_ok & H).
    apply tx_bind_ok in H as ([] & s1 & [_ ->]%reject_ok & H). apply tx_bind_ok in H as (n & s1 & [_ ->]%tx_lift_ok & H).
    cbv zeta in H. apply tx_bind_ok in H as (u & s1 & H & _). by eapply Hupd in H.
  - intros now a db' H. unfold remove_write in H. cbv zeta in H. apply tx_bind_ok in H as (u & s1 & H & _). by eapply Hupd in H.
  - intros uuid now a db' H. apply tx_bind_ok in H as ([] & s1 & [_ ->]%reject_ok & H).
    apply tx_bind_ok in H as (d & s1 & [_ ->]%tx_lift_ok & H). by eapply Hdue.
  - intros ds next now a db' H. by eapply Hdue.
  - intros d token now se ru op att a db' H. apply tx_bind_ok in H as ([] & s1 & [_ ->]%require_ok & H).
    apply tx_bind_ok in H as ([] & s1 & [_ ->]%reject_ok & H). cbv zeta in H.
    apply tx_bind_ok in H as (u & s1 & Hd%Hrep & H). apply tx_bind_ok in H as (u' & s2 & H & _). by eapply Hupd in H.
  - intros d st re er c a db' H. unfold mark_terminal_write in H. cbv zeta in H.
    apply tx_bind_ok in H as (u & s1 & Hd%Hrep & H). apply tx_bind_ok in H as (u' & s2 & H & _). by eapply Hupd in H.
  - intros d d' a db' Hd Hc Hne H. destruct (seen_dispatch_stored _ _ _ _ _ _ M (so_dispatches _ O _ Hd) Hc eq_refl H) as (n & Hat & _).
    by apply (Hne n).
Qed.

(** *** Due periods *)





(** *** What the code does not do as it means to *)

(** A job whose policy is to skip what was missed never runs on
    its schedule.  Every dispatch the scheduler creates for such a job, be its
    period a moment or a month old, is skipped, and stays so for ever. *)
Lemma skip_policy_never_runs cal s id j uuid now u db' d r :
  cron_reachable cal s → job id (sy_db s) = Ok j → cj_misfire_policy j = MP_skip →
  materialize_due cal uuid j now (sy_db s) = Ok (u, db') →
  db_dispatches (sy_db s) !! d = None → db_dispatches db' !! d = Some r →
  dr_status r = DS_skipped ∧
  ∀ s', rtc (cron_step cal) (mkCronSys db' (sy_seen_jobs s) (sy_seen_dispatches s)) s' →
    db_dispatches (sy_db s') !! d = Some r.
Proof.
  intros O%cron_reachable_ok Hj Hpol H Hnone Hr. pose proof (ci_mirror _ (so_inv _ O)) as M.
  pose proof (job_read_seen _ _ _ M Hj) as S.
  assert (dr_status r = DS_skipped) as Hs.
  { unfold materialize_due in H. destruct (_ || _); [apply tx_ret_ok in H as [_ <-]; congruence|].
    destruct (parse_time _) as [due|e]; [|destruct e; try done; apply tx_ret_ok in H as [_ <-]; congruence].
    destruct (now <? due); [apply tx_ret_ok in H as [_ <-]; congruence|].
    apply tx_bind_ok in H as (known & s1 & [_ ->]%tx_read_ok & H). cbv zeta in H.
    apply tx_bind_ok in H as ([l last] & s1 & [_ ->]%tx_lift_ok & H).
    case_decide as Hl; [apply tx_ret_ok in H as [_ <-]; congruence|].
    apply tx_bind_ok in H as ([ds next] & s1 & [Hp ->]%tx_lift_ok & H).
    case_decide; [apply tx_ret_ok in H as [_ <-]; congruence|].
    apply due_materialize_ok in H as (_ & Ha & _); [|done..].
    destruct (added_rows _ _ _ Ha _ _ Hr) as [|(_ & n & d0 & Hin & -> & _)]; [congruence|]. cbn.
    destruct (plan_groups _ _ _ _ _ _ _ _ Hl Hp) as (gs & rest & _ & _ & Hby & _). unfold by_policy in Hby. rewrite Hpol in Hby.
    destruct (is_occupied j); destruct Hby as (d1 & Eds & Hs & _); rewrite Eds in Hin;
      by apply list_elem_of_singleton in Hin as ->. }
  split; [done|]. intros s' Hst.
  assert (delta (sy_db s) db') as D by (eapply materialize_due_delta; [exact M|exact S|exact H]).
  assert (sys_ok (mkCronSys db' (sy_seen_jobs s) (sy_seen_dispatches s))) as O'.
  { split; cbn.
    - eapply delta_inv; [apply O|exact D].
    - intros j0 Hj0. eapply delta_job_seen; [exact M|exact D|]. by apply (so_jobs _ O).
    - intros d0 Hd0. eapply delta_dispatch_seen; [exact M|exact D|]. by apply (so_dispatches _ O). }
  destruct (steps_history _ _ _ _ _ O' Hst Hr) as (r' & Hr' & Hh). rewrite Hr'. f_equal.
  apply (rh_ended _ _ Hh). by rewrite Hs.
Qed.

Lemma mapM_fails {A B} (f : A → res B) l x e :
  x ∈ l → f x = Err e → (∀ y e', f y = Err e' → e' = e) → mapM f l = Err e.
Proof.
  intros Hx He Hall. induction l as [|y l IH]; [by apply elem_of_nil in Hx|].
  change ((b ← f y; bs ← mapM f l; mret (b :: bs)) = Err e).
  destruct (f y) as [b|e'] eqn:Ey; [|by rewrite (Hall _ _ Ey)].
  apply elem_of_cons in Hx as [->|Hx]; [congruence|].
  change ((bs ← mapM f l; mret (b :: bs)) = Err e). by rewrite IH.
Qed.

Lemma valid_job_error j e : valid_job j = Err e → e = ValidationError "CronJob".
Proof. unfold valid_job. destruct (CronJob_valid j); [done|]. by intros [= <-]. Qed.

(** A stored job that does not validate makes every list of jobs fail. *)
Lemma invalid_job_lists db id r b :
  db_jobs db !! id = Some r → jr_state r ≠ JS_deleted → CronJob_valid (jr_job r) = false →
  jobs None b db = Err (ValidationError "CronJob").
Proof.
  intros Hr Hst Hv. unfold jobs. eapply (mapM_fails _ _ (id, r)).
  - rewrite merge_sort_Permutation. apply list_elem_of_filter. cbn. split; [done|]. by apply elem_of_map_to_list.
  - cbn. unfold valid_job. by rewrite Hv.
  - intros y e'. apply valid_job_error.
Qed.

(** An edit can stop the whole scheduler.  The request checks
    the length of a name before its white space is stripped, and an edit
    stores the stripped name without checking it: after an edit to a name of
    white space, which is accepted, no job can be listed, every tick of the
    scheduler fails before it looks at any job, and the job itself can no
    longer be read, edited, paused, resumed or removed. *)
Lemma blank_name_stops_scheduler cal s j now rq a db' :
  cron_reachable cal s → j ∈ sy_seen_jobs s → py_strip (default (cj_name j) (ce_name rq)) = "" →
  edit_write cal now rq j (sy_db s) = Ok (a, db') →
  (∀ b, jobs None b db' = Err (ValidationError "CronJob")) ∧
  (∀ submit env, tick cal submit None env db' = (Err (ValidationError "CronJob"), db')) ∧
  job (cj_job_id j) db' = Err (ValidationError "CronJob") ∧
  (∀ now' rq', edit cal now' rq' (cj_job_id j) db' = Err (ValidationError "CronJob")) ∧
  (∀ now', pause now' (cj_job_id j) db' = Err (ValidationError "CronJob")) ∧
  (∀ now', resume cal now' (cj_job_id j) db' = Err (ValidationError "CronJob")) ∧
  (∀ now', remove now' (cj_job_id j) db' = (Err (ValidationError "CronJob"), db')).
Proof.
  intros O%cron_reachable_ok Hj Hblank H. pose proof (so_jobs _ O _ Hj) as S. pose proof (ci_mirror _ (so_inv _ O)) as M.
  apply tx_bind_ok in H as ([] & s1 & [Hdel ->]%reject_ok & H).
  apply tx_bind_ok in H as (j' & s1 & [He ->]%tx_lift_ok & H). apply tx_bind_ok in H as (u & s1 & H & [_ <-]%tx_ret_ok).
  destruct (edited_keeps _ _ _ _ _ He) as (E1 & _). unfold job_core in E1. injection E1 as Eid _ _.
  destruct (seen_job_stored _ _ _ _ _ _ _ M S Eid eq_refl H) as (_ & Ej & _).
  assert (cj_name j' = "" ∧ cj_state j' ≠ JS_deleted) as [Hname Hst].
  { unfold edited in He. apply res_bind_ok in He as (sch & _ & He). apply res_bind_ok in He as (pr & _ & He).
    apply res_bind_ok in He as (nx & _ & He). injection He as <-. cbn. split; [exact Hblank|]. by destruct (_ && _). }
  assert (db_jobs s1 !! cj_job_id j = Some (with_state j' (job_row j))) as Hrow by (rewrite Ej; apply lookup_insert_eq).
  assert (CronJob_valid j' = false) as Hv.
  { unfold CronJob_valid. rewrite Hname. cbn. by rewrite !andb_false_r. }
  assert (∀ b, jobs None b s1 = Err (ValidationError "CronJob")) as Hjobs by (intros b; by eapply invalid_job_lists).
  assert (job (cj_job_id j) s1 = Err (ValidationError "CronJob")) as Hjob.
  { unfold job. rewrite Hrow. cbn. unfold valid_job. by rewrite Hv. }
  split; [done|]. split. { intros submit env. unfold tick. cbn. by rewrite Hjobs. }
  split; [done|]. split_and!; intros; unfold edit, pause, resume, remove, on_job, mbind, tx_bind, tx_read; by rewrite Hjob.
Qed.

Lemma interval_exhausted cal s now limit : ∀ c l last,
  cs_kind s = SK_interval → 0 ≤ c → 0 ≤ default 0 (cs_interval_seconds s) →
  c + Z.of_nat limit * (default 0 (cs_interval_seconds s) * 1000000) ≤ now →
  due_occurrences cal limit s now c = Ok (l, last) → length l = limit ∧ last ≤ now.
Proof.
  induction limit as [|limit IH]; intros c l last Hk Hc Hp Hn; cbn [due_occurrences].
  { intros [= <- <-]. split; [done|lia]. }
  rewrite (proj2 (Z.ltb_ge _ _)) by nia. unfold next_after. rewrite Hk.
  set (p := default 0 (cs_interval_seconds s)) in *. unfold add_seconds. cbv zeta.
  destruct (_ && _) eqn:Er; [|done]. intros H. apply res_bind_ok in H as (o & [= <-] & H).
  apply res_bind_ok in H as ([l' last'] & H & [= <- <-]).
  apply IH in H as [<- Hl]; [done|done|lia|done|fold p; lia].
Qed.

(** A long outage ends an interval job.  The scheduler looks
    at no more than 100,000 due periods; when at least as many of an interval
    job were missed (70 days of one that runs every minute) and its policy is
    not to catch up, the job, still scheduled, is left without a next run,
    and no later look at it does anything. *)
Lemma long_outage_stops_job cal s id j uuid now u db' text due :
  cron_reachable cal s → job id (sy_db s) = Ok j → CronJob_valid j = true → cj_state j = JS_scheduled →
  cs_kind (cj_schedule j) = SK_interval → cj_misfire_policy j ≠ MP_catch_up ∨ is_occupied j = true →
  cj_next_run_at j = Some text → parse_time text = Ok due →
  due + 100000 * (default 0 (cs_interval_seconds (cj_schedule j)) * 1000000) ≤ now →
  materialize_due cal uuid j now (sy_db s) = Ok (u, db') →
  ∃ j', db_jobs db' !! id = Some (job_row j') ∧ cj_state j' = JS_scheduled ∧ cj_next_run_at j' = None ∧
    ∀ uuid' now' db2, materialize_due cal uuid' j' now' db2 = Ok (tt, db2).
Proof.
  intros O%cron_reachable_ok Hj Hv Hst Hk Hpol Hn Hp Hlong H. pose proof (ci_mirror _ (so_inv _ O)) as M.
  assert (cj_job_id j = id) as Hid.
  { apply job_ok in Hj as (r & Hr & <-). by destruct (mi_jobs _ M _ _ Hr). }
  assert (0 ≤ default 0 (cs_interval_seconds (cj_schedule j))) as Hpos.
  { unfold CronJob_valid, CronSchedule_valid in Hv. rewrite !andb_true_iff in Hv.
    destruct (cs_interval_seconds (cj_schedule j)) as [z|]; cbn in *; [|done].
    assert ((60 <=? z) = true) by apply Hv. lia. }
  assert (0 ≤ due) as Hdue.
  { unfold parse_time in Hp. destruct (fromisoformat _) as [dt|]; [|done]. destruct (dt_utcoff dt); [|done].
    cbv zeta in Hp. destruct (_ && _) eqn:Er; [|done]. injection Hp as <-. apply andb_true_iff in Er as [Er _]. lia. }
  assert (text ≠ "") as Hne by (intros ->; discriminate Hp).
  assert (due ≤ now) as Hle by (revert Hlong Hpos; generalize (default 0 (cs_interval_seconds (cj_schedule j))); lia).
  destruct (materialize_due_ok _ _ _ _ _ _ _ _ _ Hst Hn Hne Hp Hle H) as (known & l & last & ds & next & _ & Ho & Hl & Hpl & Hd).
  assert (due + Z.of_nat occurrence_limit * (default 0 (cs_interval_seconds (cj_schedule j)) * 1000000) ≤ now) as Hlim.
  { unfold occurrence_limit. rewrite Z2Nat.id; [exact Hlong|done]. }
  destruct (interval_exhausted _ _ _ _ _ _ _ Hk Hdue Hpos Hlim Ho) as [_ Hlast].
  destruct (plan_groups _ _ _ _ _ _ _ _ Hl Hpl) as (gs & rest & _ & _ & Hby & Enext).
  assert (rest = [] ∧ ds ≠ []) as [-> Hds].
  { unfold by_policy in Hby. destruct (is_occupied j); [by destruct Hby as (d & -> & _ & _ & ->)|].
    destruct Hpol as [Hpol|]; [|done]. destruct (cj_misfire_policy j); [|destruct Hby as (d & -> & _ & ->)|done]; [|done].
    by destruct Hby as (d & -> & _ & _ & ->). }
  rewrite (proj2 (Z.ltb_ge _ _)) in Enext by done. subst next.
  destruct Hd as [[? _]|[_ Hd]]; [done|].
  destruct (due_materialize_ok _ _ _ _ _ _ _ M (job_read_seen _ _ _ M Hj) Hd) as (_ & _ & Ej).
  exists (materialized j ds None (utc_iso now)). rewrite Ej, <- Hid, lookup_insert_eq. split; [done|]. split; [done|].
  split; [done|]. intros uuid' now' db2. unfold materialize_due. cbn. by rewrite Hst.
Qed.

(** A removed one-time job comes back.  Removing a job while
    its Run is under way is allowed; when that Run then succeeds, the job is
    marked completed whatever its state was, and it is listed again. *)
Lemma removed_job_returns cal s d j result error completed a db' :
  cron_reachable cal s → d ∈ sy_seen_dispatches s → j ∈ sy_seen_jobs s → cj_job_id j = cd_job_id d →
  cj_state j = JS_deleted → cs_kind (cj_schedule j) = SK_once → unsettled (cd_status d) = true →
  mark_terminal_write d j DS_succeeded result error completed (sy_db s) = Ok (a, db') →
  ∃ j', db_jobs db' !! cj_job_id j = Some (job_row j') ∧ cj_state j' = JS_completed ∧
    cj_deleted_at j' = cj_deleted_at j ∧ ∀ l, jobs None false db' = Ok l → j' ∈ l.
Proof.
  intros O%cron_reachable_ok Hd Hj Hid Hst Hk Hu H. pose proof (ci_mirror _ (so_inv _ O)) as M.
  destruct (so_jobs _ O _ Hj) as (r & Hr & _ & Hv).
  unfold mark_terminal_write in H. cbv zeta in H. apply tx_bind_ok in H as (u & s1 & Hrep & H).
  apply tx_bind_ok in H as (u' & s2 & Hup & [_ <-]%tx_ret_ok).
  apply replace_dispatch_ok in Hrep as (o & _ & _ & _ & _ & ->). apply update_job_ok in Hup as (old & Hold & Hrev & _ & ->).
  change (db_jobs (sy_db s) !! cj_job_id j = Some old) in Hold. assert (old = r) as -> by congruence.
  destruct (mi_jobs _ M _ _ Hr) as [Er _]. rewrite Hv in Er by congruence.
  set (j' := released j d DS_succeeded error completed).
  assert (cj_state j' = JS_completed) as Hc by (unfold j', released; cbn; by rewrite Hk).
  exists j'. cbn. split; [|split; [done|split; [done|]]].
  - change (cj_job_id (released j d DS_succeeded error completed)) with (cj_job_id j).
    rewrite lookup_insert_eq, Er. done.
  - intros l Hl. unfold jobs in Hl.
    assert (∀ (ks : list (string * JobRow)) l, mapM (λ kv, valid_job (jr_job kv.2)) ks = Ok l →
      ∀ kv, kv ∈ ks → jr_job kv.2 ∈ l) as Hm.
    { clear. induction ks as [|k ks IH]; intros l; [by intros _ kv ?%elem_of_nil|].
      intros (x & Hx & (l2 & Hl2 & [= <-])%res_bind_ok)%res_bind_ok kv [->|Hin]%elem_of_cons.
      - unfold valid_job in Hx. destruct (CronJob_valid _); [|done]. injection Hx as ->. left.
      - right. by eapply IH. }
    apply (Hm _ _ Hl (cj_job_id j, with_state j' r)). rewrite merge_sort_Permutation. apply list_elem_of_filter.
    split. { split; [done|]. intros _. change (cj_state j' ≠ JS_deleted). by rewrite Hc. }
    apply elem_of_map_to_list. apply lookup_insert_eq.
Qed.

(** *** The operations as a whole *)

(** [db'] is where [s] can get by steps, with everything read still in hand. *)
Definition leads_to (cal : Calendar) (s : CronSys) (db' : CronDb) : Prop :=
  ∃ js ds, sy_seen_jobs s ⊆ js ∧ sy_seen_dispatches s ⊆ ds ∧ rtc (cron_step cal) s (mkCronSys db' js ds).

Lemma db_steps_lead cal s db' : db_steps cal (sy_db s) db' → leads_to cal s db'.
Proof. destruct s as [db js ds]. intros H. destruct (H js ds) as (j2 & d2 & H1 & H2 & R). by exists j2, d2. Qed.

(** An operation that leads from [s] to [db'] does what steps of the system
    do, and what it does to the tables is a sequence of the changes [delta]: a
    new job, a new version of a job that keeps its dispatch, Run and counters,
    new dispatches with the job that counts them, a move of a dispatch along its
    state machine, a Run bound to it and its job, or settled in both. *)
Definition implements (cal : Calendar) (s : CronSys) (db' : CronDb) : Prop :=
  leads_to cal s db' ∧ rtc delta (sy_db s) db' ∧ cron_inv db'.

Lemma db_steps_implement cal s db' : cron_reachable cal s → db_steps cal (sy_db s) db' → implements cal s db'.
Proof.
  intros O%cron_reachable_ok H. apply db_steps_lead in H as L. split; [done|]. destruct L as (js & ds & _ & _ & R).
  destruct (steps_ok _ _ _ O R) as [O' D]. split; [done|]. apply O'.
Qed.

(** A due job may have been read long before. *)
Lemma seen_implements cal s uuid j now a db' :
  cron_reachable cal s → j ∈ sy_seen_jobs s → materialize_due cal uuid j now (sy_db s) = Ok (a, db') → implements cal s db'.
Proof.
  destruct s as [db js ds]. intros O%cron_reachable_ok Hj H. cbn in Hj, H.
  assert (cron_step cal (mkCronSys db js ds) (mkCronSys db' js ds)) as S by (constructor; by eapply w_materialize).
  destruct (step_ok _ _ _ O S) as [O' D]. split; [|split; [by apply rtc_once|apply O']].
  exists js, ds. split; [done|]. split; [done|]. by apply rtc_once.
Qed.

(** C22: the operations keep to the changes of the tables.  A tick,
    wherever it fails, and whatever handing a dispatch over does if that keeps
    to the steps of the system; removing a job with the cancellation of its
    dispatches, wherever it fails; creating a job whose number is not in use;
    the preset for paper research; editing, pausing, resuming and triggering a
    job; retrying a dispatch; claiming one; binding one to non-empty session,
    Run, operation and attempt; settling one with succeeded, failed or
    cancelled; cancelling one; marking one for recovery; looking for due
    periods with a job as it was read at any time before; storing a heartbeat:
    each, when it succeeds, does what steps of the system do, changes the two
    tables by a sequence of changes of the kinds listed at [delta], and leaves
    the invariants of the tables true.  [save_job] and [due_materialize] of the
    store are called by these alone. *)
Theorem operations_are_steps cal s :
  cron_reachable cal s →
  (∀ submit m env r db',
     (∀ d db r db', cron_inv db → submit d db = (r, db') → db_steps cal db db') →
     tick cal submit m env (sy_db s) = (r, db') → implements cal s db') ∧
  (∀ now id r db', remove now id (sy_db s) = (r, db') → implements cal s db') ∧
  (∀ uuid now rq j db', db_jobs (sy_db s) !! ("cron_" +:+ uuid) = None →
     create cal uuid now rq (sy_db s) = Ok (j, db') → implements cal s db') ∧
  (∀ digest now project expression tz j db',
     ensure_paper_research_preset cal digest now project expression tz (sy_db s) = Ok (j, db') → implements cal s db') ∧
  (∀ now rq id a db', edit cal now rq id (sy_db s) = Ok (a, db') → implements cal s db') ∧
  (∀ now id a db', pause now id (sy_db s) = Ok (a, db') → implements cal s db') ∧
  (∀ now id a db', resume cal now id (sy_db s) = Ok (a, db') → implements cal s db') ∧
  (∀ uuid now id a db', trigger uuid now id (sy_db s) = Ok (a, db') → implements cal s db') ∧
  (∀ uuid now id a db', retry uuid now id (sy_db s) = Ok (a, db') → implements cal s db') ∧
  (∀ id token epoch now expiry a db', claim_next id token epoch now expiry (sy_db s) = Ok (a, db') → implements cal s db') ∧
  (∀ id token now se ru op att a db', se ≠ "" → ru ≠ "" → op ≠ "" → att ≠ "" →
     bind_running id token now se ru op att (sy_db s) = Ok (a, db') → implements cal s db') ∧
  (∀ id st re er c a db', finished st = true → mark_terminal id st re er c (sy_db s) = Ok (a, db') → implements cal s db') ∧
  (∀ id reason now a db', cancel_unbound id reason now (sy_db s) = Ok (a, db') → implements cal s db') ∧
  (∀ id reason a db', mark_recovery_required id reason (sy_db s) = Ok (a, db') → implements cal s db') ∧
  (∀ uuid j now a db', j ∈ sy_seen_jobs s → materialize_due cal uuid j now (sy_db s) = Ok (a, db') → implements cal s db') ∧
  (∀ h a db', set_heartbeat h (sy_db s) = Ok (a, db') → implements cal s db').
Proof.
  intros R. pose proof (so_inv _ (cron_reachable_ok _ _ R)) as I.
  split_and!; intros; first [by eapply seen_implements|apply db_steps_implement; [exact R|]].
  - match goal with Hs : ∀ d db r db', _, H : tick _ _ _ _ _ = _ |- _ => exact (tick_steps cal _ Hs _ _ _ _ _ I H) end.
  - by eapply remove_steps.
  - by eapply create_steps.
  - by eapply preset_steps.
  - by eapply edit_steps.
  - by eapply pause_steps.
  - by eapply resume_steps.
  - by eapply trigger_steps.
  - by eapply retry_steps.
  - by eapply claim_steps.
  - match goal with H : bind_running _ _ _ _ _ _ _ _ = _ |- _ => refine (bind_steps cal _ I _ _ _ _ _ _ _ _ _ _ _ _ _ H); done end.
  - match goal with H : mark_terminal _ _ _ _ _ _ = _ |- _ => refine (settle_steps cal _ I _ _ _ _ _ _ _ _ H); done end.
  - by eapply cancel_steps.
  - by eapply recovery_steps.
  - by eapply heartbeat_steps.
Qed.

(** ** A demonstration

    One job that runs every minute: it is created, a tick creates and claims
    its first dispatch and binds it to a Run, the Run ends. *)

(** No zones and no cron expressions: the job has an interval. *)
Definition demo_cal : Calendar := mkCalendar (λ _, false) (λ _ t, t) (λ _ t, t) (λ _, false) (λ _ _ _, None) (λ _ _ _, false).
Definition demo_start : utc := ymd_to_ord 2026 1 5 * day_us.
Definition minutes (n : Z) : utc := demo_start + n * 60000000.

Definition every_minute : CronSchedule := mkCronSchedule SK_interval (Some 60) None None "UTC".
Definition at_noon : CronSchedule := mkCronSchedule SK_once None (Some "2026-01-05T12:00:00Z") None "UTC".
Definition demo_request (schedule : CronSchedule) (policy : MisfirePolicy) : CronJobCreateRequest :=
  mkCronJobCreateRequest "project" "job" "prompt" schedule policy None [].

(** The store after a transaction; a failed one leaves it. *)
Definition after {A} (m : Tx CronDb A) (db : CronDb) : CronDb := match m db with Ok (_, db') => db' | Err _ => db end.

Definition demo_created (schedule : CronSchedule) (policy : MisfirePolicy) : CronDb :=
  after (create demo_cal "1" demo_start (demo_request schedule policy)) (fresh_db 60).

Definition demo_submit (d : CronDispatch) (db : CronDb) : res unit * CronDb :=
  match bind_running (cd_dispatch_id d) (default "" (cd_claim_token d)) "now" "session-1" "run-1" "operation-1" "attempt-1" db with
  | Ok (_, db) => (Ok tt, db)
  | Err e => (Err e, db)
  end.
Definition demo_tick (now : utc) : TickEnv :=
  mkTickEnv now (λ job i, job +:+ "-" +:+ utc_iso now +:+ "-" +:+ str_of_int (Z.of_nat i)) (λ _, "token") (λ _, now) "epoch-1".

Lemma demo_submit_steps d db r db' : cron_inv db → demo_submit d db = (r, db') → db_steps demo_cal db db'.
Proof.
  unfold demo_submit. intros I. destruct (bind_running _ _ _ _ _ _ _ db) as [[x d1]|e] eqn:E; intros [= _ <-].
  - refine (bind_steps demo_cal _ I _ _ _ _ _ _ _ _ _ _ _ _ _ E); done.
  - by apply (db_steps_preorder demo_cal).
Qed.

Lemma leads_reachable cal s db' :
  cron_reachable cal s → leads_to cal s db' → ∃ js ds, cron_reachable cal (mkCronSys db' js ds).
Proof. intros (db0 & Hi & R) (js & ds & _ & _ & R2). exists js, ds, db0. split; [exact Hi|]. by etrans. Qed.

Lemma demo_store_reachable schedule policy : cron_reachable demo_cal (mkCronSys (demo_created schedule policy) [] []).
Proof.
  exists (fresh_db 60). split; [apply fresh_initial|]. unfold demo_created, after.
  destruct (create _ _ _ _ _) as [[j db]|e] eqn:E; [|apply rtc_refl].
  apply rtc_once. constructor. by eapply w_create.
Qed.

(** After [n] minutes. *)
Definition demo_ticked (schedule : CronSchedule) (policy : MisfirePolicy) (n : Z) : CronDb :=
  (tick demo_cal demo_submit None (demo_tick (minutes n)) (demo_created schedule policy)).2.
Lemma demo_ticked_reachable schedule policy n :
  ∃ js ds, cron_reachable demo_cal (mkCronSys (demo_ticked schedule policy n) js ds).
Proof.
  eapply leads_reachable; [apply demo_store_reachable|]. apply db_steps_lead.
  refine (tick_steps demo_cal _ demo_submit_steps _ _ _ _ _ _ (surjective_pairing _)).
  exact (so_inv _ (cron_reachable_ok _ _ (demo_store_reachable schedule policy))).
Qed.

(** What a computation returns, and that it does. *)
Definition holds {A} (r : res A) (test : A → bool) : bool := match r with Ok a => test a | Err _ => false end.
Lemma holds_ok {A} (r : res A) test : holds r test = true → ∃ a, r = Ok a ∧ test a = true.
Proof. destruct r as [a|]; [|done]. intros H. by exists a. Qed.

Lemma read_job_reachable cal db js ds id j :
  cron_reachable cal (mkCronSys db js ds) → job id db = Ok j → cron_reachable cal (mkCronSys db (j :: js) ds).
Proof. intros (db0 & Hi & R) H. exists db0. split; [exact Hi|]. eapply rtc_r; [exact R|]. by eapply step_read_job. Qed.
Lemma read_dispatch_reachable cal db js ds id d :
  cron_reachable cal (mkCronSys db js ds) → dispatch id db = Ok d → cron_reachable cal (mkCronSys db js (d :: ds)).
Proof. intros (db0 & Hi & R) H. exists db0. split; [exact Hi|]. eapply rtc_r; [exact R|]. by eapply step_read_dispatch. Qed.

(** The minute job is under way; its Run ends. *)
Definition demo_running : CronDb := demo_ticked every_minute MP_fire_once 1.
Definition demo_dispatch : string := "cron_dispatch_cron_1-2026-01-05T00:01:00Z-0".
Definition demo_settled : CronDb :=
  after (mark_terminal demo_dispatch DS_succeeded (Some "answer") None (utc_iso (minutes 1))) demo_running.

Lemma after_steps cal {A} (m : Tx CronDb A) db :
  (∀ a db', m db = Ok (a, db') → db_steps cal db db') → db_steps cal db (after m db).
Proof. unfold after. destruct (m db) as [[a db']|e]; intros H; [by eapply H|]. apply (db_steps_preorder cal). Qed.

Lemma demo_settle_steps : db_steps demo_cal demo_running demo_settled.
Proof.
  apply after_steps. intros a db'. refine (settle_steps demo_cal _ _ _ _ _ _ _ _ _ _); [|done].
  destruct (demo_ticked_reachable every_minute MP_fire_once 1) as (js & ds & R). exact (so_inv _ (cron_reachable_ok _ _ R)).
Qed.
Lemma demo_running_check : holds (dispatch demo_dispatch demo_running)
  (λ d, bool_decide (cd_status d = DS_running) && bool_decide (cd_run_id d = Some "run-1")) = true.
Proof. vm_cast_no_check (@eq_refl bool true). Qed.
Lemma one_run_at_a_time_witness :
  ∃ row, db_dispatches demo_running !! demo_dispatch = Some row ∧ active (dr_status row) = true ∧
    ∀ b rb, db_dispatches demo_running !! b = Some rb → dr_job_id row = dr_job_id rb → active (dr_status rb) = true →
      demo_dispatch = b.
Proof.
  destruct (demo_ticked_reachable every_minute MP_fire_once 1) as (js & ds & R).
  destruct (holds_ok _ _ demo_running_check) as (d & (row & Hrow & <-)%dispatch_ok & Hd).
  apply andb_true_iff in Hd as [Hst%bool_decide_eq_true _]. exists row.
  destruct (mi_dispatches _ (ci_mirror _ (so_inv _ (cron_reachable_ok _ _ R))) _ _ Hrow) as [Er _].
  assert (active (dr_status row) = true) as Ha by (rewrite Er; unfold dispatch_row; cbn [dr_status]; by rewrite Hst).
  split; [exact Hrow|]. split; [exact Ha|]. intros b rb Hb Hj Hab.
  exact (proj1 (one_run_at_a_time demo_cal _ R) demo_dispatch b row rb Hrow Hb Hj Ha Hab).
Defined.

(** The same job, imported from an older version with seven Runs, two of them
    failed, and three overlaps; an entry that is not a job is left out. *)
Definition legacy_text : string := json_dumps (JObj [("jobs", JObj [
  ("cron_1", JObj [("project_id", JStr "project"); ("name", JStr "job"); ("prompt", JStr "prompt");
    ("schedule", JObj [("kind", JStr "interval"); ("interval_seconds", JInt 60)]);
    ("next_run_at", JStr "2026-01-05T00:01:00Z"); ("run_count", JInt 7); ("failure_count", JInt 2);
    ("skipped_overlap_count", JInt 3)]);
  ("broken", JNull)])]).
Definition demo_platform : Platform := mkPlatform "UTC" (λ _, "") (λ _, None) (λ _, "") (λ s, s).
Definition demo_imported : CronDb :=
  match ensure demo_platform 60 "2026-01-05T00:00:00Z" (Some legacy_text) with Ok db => db | Err _ => fresh_db 60 end.
Definition imported_running : CronDb := (tick demo_cal demo_submit None (demo_tick (minutes 1)) demo_imported).2.
Definition imported_settled : CronDb :=
  after (mark_terminal demo_dispatch DS_failed None (Some "late") (utc_iso (minutes 1))) imported_running.

Lemma imported_check : is_ok (ensure demo_platform 60 "2026-01-05T00:00:00Z" (Some legacy_text)) = true.
Proof. vm_cast_no_check (@eq_refl bool true). Qed.
Lemma imported_settled_check : match db_jobs imported_settled !! "cron_1", db_jobs demo_imported !! "cron_1" with
  | Some r, Some r0 => bool_decide (job_counts (jr_job r) = (8, 3, 0, 3) ∧ job_counts (jr_job r0) = (7, 2, 0, 3))
  | _, _ => false end = true.
Proof. vm_cast_no_check (@eq_refl bool true). Qed.

Lemma imported_ensured : ensure demo_platform 60 "2026-01-05T00:00:00Z" (Some legacy_text) = Ok demo_imported.
Proof. pose proof imported_check as C. unfold demo_imported. by destruct (ensure _ _ _ _). Qed.
Lemma imported_steps : db_steps demo_cal demo_imported imported_settled.
Proof.
  assert (cron_inv demo_imported) as I.
  { apply (so_inv (mkCronSys demo_imported [] [])), initial_ok. do 4 eexists. exact imported_ensured. }
  assert (db_steps demo_cal demo_imported imported_running) as S1
    by exact (tick_steps demo_cal _ demo_submit_steps _ _ _ _ _ I (surjective_pairing _)).
  apply (db_steps_preorder demo_cal) with imported_running; [exact S1|]. apply after_steps. intros a db'.
  refine (settle_steps demo_cal _ _ _ _ _ _ _ _ _ _); [|done]. by eapply steps_inv.
Qed.

(** The Run of the imported job failed: it is its eighth, and its third failure. *)
Lemma counters_match_witness :
  total (run_weight "cron_1") (db_dispatches imported_settled) = 1 ∧
  total (failure_weight "cron_1") (db_dispatches imported_settled) = 1 ∧
  total (missed_weight "cron_1") (db_dispatches imported_settled) = 0 ∧
  total (overlap_weight "cron_1") (db_dispatches imported_settled) = 0.
Proof.
  destruct (imported_steps [] []) as (js & ds & _ & _ & R). pose proof imported_settled_check as C.
  destruct (db_jobs imported_settled !! "cron_1") as [r|] eqn:Hr; [|discriminate C].
  destruct (db_jobs demo_imported !! "cron_1") as [r0|] eqn:H0; [|discriminate C].
  apply bool_decide_eq_true in C as [C C0].
  destruct (counters_match demo_cal _ _ _ _ _ _ "cron_1" r imported_ensured R Hr) as (H1 & H2 & H3 & H4 & _).
  unfold imported_count in *. rewrite H0 in *. unfold job_counts in *. injection C as ????. injection C0 as ????.
  cbn [sy_db] in *. lia.
Defined.

(** The job is read while its Run is under way and written after it ended. *)
Lemma stale_check : holds (job "cron_1" demo_running) (λ j, bool_decide (cj_job_id j = "cron_1") &&
  match db_jobs demo_settled !! "cron_1" with Some r => bool_decide (jr_revision r ≠ cj_revision j) | None => false end) = true.
Proof. vm_cast_no_check (@eq_refl bool true). Qed.

Lemma stale_writes_refused_witness :
  ∃ j, job "cron_1" demo_running = Ok j ∧
    (∀ now a db', pause_write now j demo_settled ≠ Ok (a, db')) ∧ (∀ now a db', remove_write now j demo_settled ≠ Ok (a, db')).
Proof.
  destruct (demo_ticked_reachable every_minute MP_fire_once 1) as (js & ds & R).
  destruct (holds_ok _ _ stale_check) as (j & Hj & C). apply andb_true_iff in C as [Hid%bool_decide_eq_true C].
  apply (read_job_reachable _ _ _ _ _ _ R) in Hj as R2.
  destruct (demo_settle_steps (j :: js) ds) as (js' & ds' & S1 & _ & S).
  assert (cron_reachable demo_cal (mkCronSys demo_settled js' ds')) as R3.
  { destruct R2 as (db0 & Hi & R2). exists db0. split; [exact Hi|]. by etrans. }
  destruct (stale_writes_refused demo_cal _ j R3) as (_ & H2 & _ & H4 & _).
  - cbn [sy_seen_jobs]. apply S1. by left.
  - cbn [sy_db]. rewrite Hid. intros E. rewrite E in C. apply bool_decide_eq_true in C. by apply C.
  - exists j. split; [exact Hj|]. split; [exact H2|exact H4].
Defined.

Definition demo_materializes (policy : MisfirePolicy) (now : utc) (test : CronDb → bool) : bool :=
  holds (job "cron_1" (demo_created every_minute policy)) (λ j,
    bool_decide (cj_state j = JS_scheduled) && bool_decide (cj_misfire_policy j = policy) &&
    bool_decide (cj_next_run_at j = Some (utc_iso (minutes 1))) &&
    holds (parse_time (utc_iso (minutes 1))) (λ due, bool_decide (due = minutes 1)) &&
    holds (materialize_due demo_cal (λ i, str_of_int (Z.of_nat i)) j now (demo_created every_minute policy)) (λ x, test x.2)).




Lemma skip_check : demo_materializes MP_skip (minutes 1) (λ db,
  bool_decide (db_dispatches (demo_created every_minute MP_skip) !! "cron_dispatch_0" = None) &&
  is_some (db_dispatches db !! "cron_dispatch_0")) = true.
Proof. vm_cast_no_check (@eq_refl bool true). Qed.

(** An edit of the name to a blank. *)
Definition blank_request : CronJobEditRequest := mkCronJobEditRequest (Some " ") None None None None None.
Lemma blank_check : CronJobEditRequest_valid blank_request && bool_decide (py_strip " " = "") &&
  holds (job "cron_1" (demo_created every_minute MP_fire_once)) (λ j,
    holds (edit_write demo_cal (minutes 0) blank_request j (demo_created every_minute MP_fire_once)) (λ _, true)) = true.
Proof. vm_cast_no_check (@eq_refl bool true). Qed.

(** The periods of an interval that are all due. *)
Lemma interval_occurrences cal s now p limit : ∀ c,
  cs_kind s = SK_interval → cs_interval_seconds s = Some p → 0 ≤ p → 0 ≤ c → c + Z.of_nat limit * (p * 1000000) ≤ now → now < max_local →
  ∃ l, due_occurrences cal limit s now c = Ok (l, c + Z.of_nat limit * (p * 1000000)) ∧ length l = limit ∧
    (limit ≠ 0%nat → last l = Some (c + (Z.of_nat limit - 1) * (p * 1000000))).
Proof.
  induction limit as [|limit IH]; intros c Hk Hs Hp Hc Hn Hmax; cbn [due_occurrences].
  { exists []. by rewrite Z.add_0_r. }
  assert (0 ≤ Z.of_nat limit * (p * 1000000)) as H0 by (apply Z.mul_nonneg_nonneg; lia).
  rewrite Nat2Z.inj_succ, Z.mul_succ_l in Hn |- *.
  rewrite (proj2 (Z.ltb_ge _ _)) by lia. unfold next_after. rewrite Hk. unfold mbind, res_bind, add_seconds. rewrite Hs.
  cbn [default]. unfold id. cbv zeta. rewrite (proj2 (andb_true_iff _ _)) by (split; [apply Z.leb_le|apply Z.ltb_lt]; lia).
  destruct (IH (c + p * 1000000)) as (l & Hd & Hlen & Hlast); [done..|lia|lia|done|].
  unfold mret, res_ret. cbv beta iota. rewrite Hd. exists (c :: l). cbn [length]. rewrite Hlen. split; [|split; [done|]].
  - f_equal. f_equal. lia.
  - intros _. destruct limit as [|limit]; [apply nil_length_inv in Hlen as ->; cbn; f_equal; lia|].
    destruct l as [|x l]; [done|]. change (last (c :: x :: l)) with (last (x :: l)). rewrite Hlast by done. f_equal. lia.
Qed.

(** A job of an interval that fires once, looked at too late. *)
Lemma late_materialize cal uuid j now db text due p d known db' :
  cj_state j = JS_scheduled → cj_next_run_at j = Some text → text ≠ "" → parse_time text = Ok due → 0 ≤ due →
  cs_kind (cj_schedule j) = SK_interval → cs_interval_seconds (cj_schedule j) = Some p → 0 ≤ p →
  due + 100000 * (p * 1000000) ≤ now → now < max_local → is_occupied j = false → cj_misfire_policy j = MP_fire_once →
  dispatches (cj_job_id j) (Z.to_nat 1000) db = Ok known →
  build_dispatch (new_dispatch (uuid 0%nat) j TR_scheduled (utc_iso (due + 99999 * (p * 1000000))) 100000 (utc_iso now)) = Ok d →
  due_materialize j [d] None (utc_iso now) db = Ok (tt, db') →
  materialize_due cal uuid j now db = Ok (tt, db').
Proof.
  intros Hst Hn Hne Hp Hdue Hk Hs Hpos Hlong Hmax Hocc Hpol Hkn Hd Hm.
  assert (due ≤ now) as Hle by (clear -Hlong Hpos; lia).
  assert (Z.of_nat occurrence_limit = 100000) as El by (unfold occurrence_limit; rewrite Z2Nat.id; done).
  destruct (interval_occurrences cal (cj_schedule j) now p occurrence_limit due) as (l & Ho & Hlen & Hlast); [done..|by rewrite El|done|].
  assert (occurrence_limit ≠ 0%nat) as Hnz by (intros E; rewrite E in El; done).
  specialize (Hlast Hnz). rewrite El in Ho, Hlast. assert (l ≠ []) as Hl by (intros ->; by cbn in Hlen; subst).
  unfold materialize_due. rewrite Hst, Hn. change (default "" (Some text)) with text. rewrite bool_decide_eq_true_2 by done.
  unfold truthy. rewrite bool_decide_eq_false_2 by done. cbn [negb orb]. rewrite Hp, (proj2 (Z.ltb_ge _ _) Hle).
  unfold mbind, tx_bind, tx_read. rewrite Hkn. unfold tx_lift. rewrite Ho. rewrite decide_False by done.
  unfold plan. cbv zeta. rewrite Hlast. cbn [default]. unfold id. rewrite Hlen, El. unfold is_occupied in Hocc. rewrite Hocc, Hpol.
  replace (due + (100000 - 1) * (p * 1000000)) with (due + 99999 * (p * 1000000)) by lia. rewrite Hd.
  unfold mbind, res_bind, mret, res_ret. cbv beta iota. rewrite (proj2 (Z.ltb_ge _ _)) by (clear -Hlong; lia).
  rewrite decide_False by done. exact Hm.
Qed.

(** The minute job after 70 days without the scheduler. *)
Definition demo_late : utc := minutes 100001.
Definition late_dispatch (j : CronJob) : CronDispatch :=
  new_dispatch "0" j TR_scheduled (utc_iso (minutes 100000)) 100000 (utc_iso demo_late).
Lemma late_check : holds (job "cron_1" (demo_created every_minute MP_fire_once)) (λ j,
    bool_decide (cj_state j = JS_scheduled) && bool_decide (cj_misfire_policy j = MP_fire_once) &&
    bool_decide (cj_next_run_at j = Some (utc_iso (minutes 1))) && CronJob_valid j && negb (is_occupied j) &&
    bool_decide (cs_kind (cj_schedule j) = SK_interval) && bool_decide (cs_interval_seconds (cj_schedule j) = Some 60) &&
    holds (parse_time (utc_iso (minutes 1))) (λ due, bool_decide (due = minutes 1)) &&
    holds (dispatches (cj_job_id j) (Z.to_nat 1000) (demo_created every_minute MP_fire_once)) (λ _, true) &&
    holds (build_dispatch (late_dispatch j)) (λ d,
      holds (due_materialize j [d] None (utc_iso demo_late) (demo_created every_minute MP_fire_once)) (λ _, true))) = true.
Proof. vm_cast_no_check (@eq_refl bool true). Qed.

Lemma late_minutes : minutes 1 + 99999 * (60 * 1000000) = minutes 100000 ∧ minutes 1 + 100000 * (60 * 1000000) ≤ demo_late ∧
  demo_late < max_local ∧ 0 ≤ minutes 1.
Proof. by vm_compute. Qed.

(** A one-time job is removed while its Run is under way. *)
Definition noon_running : CronDb := demo_ticked at_noon MP_fire_once 720.
Definition noon_dispatch : string := "cron_dispatch_cron_1-2026-01-05T12:00:00Z-0".
Definition noon_removed : CronDb := (remove (minutes 721) "cron_1" noon_running).2.
Lemma noon_removed_reachable : ∃ js ds, cron_reachable demo_cal (mkCronSys noon_removed js ds).
Proof.
  destruct (demo_ticked_reachable at_noon MP_fire_once 720) as (js & ds & R). eapply leads_reachable; [exact R|].
  apply db_steps_lead. exact (remove_steps demo_cal _ _ _ _ _ (surjective_pairing _)).
Qed.
Lemma noon_check : holds (job "cron_1" noon_removed) (λ j, holds (dispatch noon_dispatch noon_removed) (λ d,
    bool_decide (cj_state j = JS_deleted) && bool_decide (cs_kind (cj_schedule j) = SK_once) &&
    bool_decide (cj_job_id j = cd_job_id d) && unsettled (cd_status d) &&
    holds (mark_terminal_write d j DS_succeeded (Some "answer") None (utc_iso (minutes 722)) noon_removed) (λ _, true))) = true.
Proof. vm_cast_no_check (@eq_refl bool true). Qed.

Lemma operations_are_steps_witness :
  implements demo_cal (mkCronSys (demo_created every_minute MP_fire_once) [] []) demo_running ∧
  ∀ now id r db', remove now id (demo_created every_minute MP_fire_once) = (r, db') →
    implements demo_cal (mkCronSys (demo_created every_minute MP_fire_once) [] []) db'.
Proof.
  destruct (operations_are_steps demo_cal _ (demo_store_reachable every_minute MP_fire_once)) as (H1 & H2 & _).
  split; [|exact H2].
  exact (H1 demo_submit None (demo_tick (minutes 1)) _ _ demo_submit_steps (surjective_pairing _)).
Defined.
