(* ===== verification/RuntimeResources.v ===== *)
(** * RuntimeResources: generations of runtime plugins and reload plans

    The data of Agent/resources.py and what it computes without touching the
    database: discovery checks, the identity of a generation, the reasons why
    a reload needs an approval.  Files, and so the artifacts of a generation,
    are not modelled; what the providers find on disk is an argument. *)

From Stdlib Require Import Ascii.
From S2P Require Import Prelude PyText AgentState.

#[local] Open Scope Z_scope.

(** ** Data *)

(* source: Agent/resources.py RuntimeProfile *)
Inductive RuntimeProfile : Set :=
| RP_INTERACTIVE | RP_CRON | RP_DREAM | RP_SUBAGENT | RP_COMPRESSION | RP_MAINTENANCE
| RP_HARNESS_MANUAL | RP_HARNESS_ERROR | RP_HARNESS_CAPABILITY | RP_HARNESS_DREAM.
#[export] Instance RuntimeProfile_eq_dec : EqDecision RuntimeProfile.
Proof. solve_decision. Defined.

(* source: Agent/resources.py RuntimeProfile *)
Definition RuntimeProfile_value (p : RuntimeProfile) : string :=
  match p with
  | RP_INTERACTIVE => "interactive" | RP_CRON => "cron" | RP_DREAM => "dream" | RP_SUBAGENT => "subagent"
  | RP_COMPRESSION => "compression" | RP_MAINTENANCE => "maintenance"
  | RP_HARNESS_MANUAL => "harness:manual" | RP_HARNESS_ERROR => "harness:error"
  | RP_HARNESS_CAPABILITY => "harness:capability" | RP_HARNESS_DREAM => "harness:dream"
  end.

(* source: Agent/resources.py RuntimeContributionKind *)
Inductive ContributionKind : Set :=
| CK_TOOL | CK_SKILL | CK_STABLE_PROMPT | CK_HOOK | CK_EXTENSION | CK_DYNAMIC_CONTEXT | CK_OBSERVER.
#[export] Instance ContributionKind_eq_dec : EqDecision ContributionKind.
Proof. solve_decision. Defined.

(* source: Agent/resources.py RuntimeContributionKind *)
Definition ContributionKind_value (k : ContributionKind) : string :=
  match k with
  | CK_TOOL => "tool" | CK_SKILL => "skill" | CK_STABLE_PROMPT => "stable_prompt" | CK_HOOK => "hook"
  | CK_EXTENSION => "extension" | CK_DYNAMIC_CONTEXT => "dynamic_context" | CK_OBSERVER => "observer"
  end.

(* source: Agent/resources.py RuntimePluginFailureKind *)
Inductive PluginFailureKind : Set :=
| FK_PLUGIN_EXCEPTION | FK_PLUGIN_TIMEOUT | FK_CONTRACT_VIOLATION | FK_LOAD_FAILURE
| FK_BUSINESS_FAILURE | FK_INVALID_ARGUMENTS | FK_PROVIDER_FAILURE | FK_POLICY_DENIAL.
#[export] Instance PluginFailureKind_eq_dec : EqDecision PluginFailureKind.
Proof. solve_decision. Defined.

(* source: Agent/resources.py RuntimePluginFailureKind *)
Definition PluginFailureKind_value (k : PluginFailureKind) : string :=
  match k with
  | FK_PLUGIN_EXCEPTION => "plugin_exception" | FK_PLUGIN_TIMEOUT => "plugin_timeout"
  | FK_CONTRACT_VIOLATION => "contract_violation" | FK_LOAD_FAILURE => "load_failure"
  | FK_BUSINESS_FAILURE => "business_failure" | FK_INVALID_ARGUMENTS => "invalid_arguments"
  | FK_PROVIDER_FAILURE => "provider_failure" | FK_POLICY_DENIAL => "policy_denial"
  end.

(* source: Agent/resources.py RuntimePluginFailureKind.counts_toward_quarantine *)
Definition counts_toward_quarantine (k : PluginFailureKind) : bool :=
  match k with
  | FK_PLUGIN_EXCEPTION | FK_PLUGIN_TIMEOUT | FK_CONTRACT_VIOLATION | FK_LOAD_FAILURE => true
  | _ => false
  end.

(* source: Agent/resources.py RuntimeResourceFile *)
Record ResourceFile := mkResourceFile {
  rf_root : string; rf_path : string; rf_source_hash : string; rf_semantic_hash : string
}.

(* source: Agent/resources.py RuntimePluginContribution *)
Record Contribution := mkContribution {
  rb_kind : ContributionKind; rb_name : string; rb_profiles : list RuntimeProfile; rb_contract : list (string * json)
}.

(* source: Agent/resources.py RuntimePluginDescriptor *)
Record Descriptor := mkDescriptor {
  rd_plugin_id : string; rd_display_name : string; rd_description : string; rd_plugin_version : string;
  rd_source_hash : string; rd_semantic_hash : string; rd_core_api_version : Z;
  rd_requires_plugins : list string; rd_conflicts_with : list string;
  rd_contributions : list Contribution; rd_files : list ResourceFile
}.

(** The artifact root is a function of the identity, see [artifact_root]. *)
(* source: Agent/resources.py RuntimeResourceGeneration *)
Record Generation := mkGeneration {
  gn_generation_id : string; gn_parent_generation_id : option string; gn_core_api_version : Z;
  gn_descriptors : list Descriptor; gn_semantic_hash : string; gn_source_hash : string; gn_artifact_root : string
}.

(* source: Agent/resources.py RuntimeReloadPlan *)
Record ReloadPlan := mkReloadPlan {
  pl_plan_hash : string; pl_generation : Generation; pl_changed_plugins : list string;
  pl_removed_plugins : list string; pl_approval_required : bool; pl_reasons : list string
}.

(* source: Agent/resources.py RuntimeReloadResult *)
Record ReloadResult := mkReloadResult {
  rl_status : string; rl_generation_id : option string; rl_plan_hash : option string; rl_changed_plugins : list string
}.

Section decisions.
#[local] Instance json_eq_dec : EqDecision json.
Proof.
  refine (fix go (a b : json) {struct a} : {a = b} + {a ≠ b} := _).
  destruct a as [|x|x|x|x|l|l], b as [|y|y|y|y|m|m]; try (by right).
  - by left.
  - destruct (decide (x = y)) as [->|]; [by left|right; congruence].
  - destruct (decide (x = y)) as [->|]; [by left|right; congruence].
  - destruct (decide (x = y)) as [->|]; [by left|right; congruence].
  - destruct (decide (x = y)) as [->|]; [by left|right; congruence].
  - assert ({l = m} + {l ≠ m}) as [->|]; [|by left|right; congruence].
    revert m. induction l as [|x l IH]; intros [|y m]; [by left|by right|by right|].
    destruct (go x y) as [->|]; [|right; congruence]. destruct (IH m) as [->|]; [by left|right; congruence].
  - assert ({l = m} + {l ≠ m}) as [->|]; [|by left|right; congruence].
    revert m. induction l as [|[k x] l IH]; intros [|[k' y] m]; [by left|by right|by right|].
    destruct (decide (k = k')) as [->|]; [|right; congruence].
    destruct (go x y) as [->|]; [|right; congruence]. destruct (IH m) as [->|]; [by left|right; congruence].
Defined.
#[local] Instance ResourceFile_eq_dec : EqDecision ResourceFile.
Proof. solve_decision. Defined.
#[local] Instance Contribution_eq_dec : EqDecision Contribution.
Proof. solve_decision. Defined.
#[local] Instance Descriptor_eq_dec : EqDecision Descriptor.
Proof. solve_decision. Defined.
(** The stored JSON texts of two generations are compared. *)
#[export] Instance Generation_eq_dec : EqDecision Generation.
Proof. solve_decision. Defined.
End decisions.

(** ** Discovery *)

Definition CORE_API_VERSION : Z := 1.

Definition id_le (a b : Descriptor) : Prop := String.leb (rd_plugin_id a) (rd_plugin_id b) = true.
#[export] Instance id_le_dec a b : Decision (id_le a b).
Proof. unfold id_le. apply _. Defined.

Definition by_id (ds : list Descriptor) (id : string) : option Descriptor :=
  List.find (λ d, bool_decide (rd_plugin_id d = id)) ds.

Definition exposed_profiles (d : Descriptor) : list RuntimeProfile := mjoin (map rb_profiles (rd_contributions d)).

Definition subset_of {A} `{EqDecision A} (l k : list A) : bool := forallb (λ x, bool_decide (x ∈ k)) l.

Definition slash : ascii := "047".

Fixpoint split_slash (s : string) : list string :=
  match s with
  | EmptyString => [""]
  | String c s' =>
      if decide (c = slash) then "" :: split_slash s'
      else match split_slash s' with
           | p :: ps => String c p :: ps
           | [] => [str1 c]
           end
  end.

(** [Path( *path.split("/")).parts]. *)
Definition path_parts (path : string) : list string :=
  filter (λ p, p ≠ "" ∧ p ≠ ".") (split_slash path).

(* source: Agent/resources.py RuntimePluginManager._validate_hot_resource_member *)
Definition validate_hot_resource_member (m : ResourceFile) : res unit :=
  let parts := path_parts (rf_path m) in
  if bool_decide (rf_root m = "agent") then
    if bool_decide (take 2 parts = [".yy"; "agents"]) then Ok tt
    else Err (ValueError ("Agent-home Runtime resource is outside .yy/agents: " +:+ rf_path m))
  else
    let allowed := match parts with
                   | p :: _ => bool_decide (p ∈ ["tools"; "skills"; "extension"; "observer_plugins"; "runtime-plugins";
                                                 "runtime-resources"])
                   | [] => false
                   end in
    if allowed || bool_decide (take 2 parts = ["harness-evolution"; "runtime"]) then Ok tt
    else Err (ValueError ("Stable Core cannot be published by Runtime reload: " +:+ rf_path m)).

Definition remove_prefix (prefix path : string) : option string :=
  if String.prefix prefix path
  then Some (String.substring (String.length prefix) (String.length path - String.length prefix) path) else None.

(* source: Agent/resources.py RuntimePluginManager._profile_member_path *)
Definition profile_member_path (profile : RuntimeProfile) (m : ResourceFile) : string :=
  let source := bool_decide (rf_root m = "source") in
  let path :=
    if source && String.prefix "runtime-plugins/" (rf_path m) then
      match split_slash (rf_path m) with
      | _ :: _ :: rest => match rest with [] => rf_path m | _ => join "/" rest end
      | _ => rf_path m
      end
    else rf_path m in
  let under prefix k := if source then default k (remove_prefix prefix path) else k in
  if String.prefix "harness:" (RuntimeProfile_value profile) then under "harness-evolution/runtime/" path
  else match profile with
       | RP_INTERACTIVE | RP_CRON | RP_DREAM =>
           under ("runtime-resources/" +:+ RuntimeProfile_value profile +:+ "/") path
       | _ => path
       end.

(** What the loop of [discover] has seen so far. *)
Record Seen := mkSeen {
  sn_contributions : list (RuntimeProfile * ContributionKind * string);
  sn_members : list (string * string);
  sn_mounted : list (RuntimeProfile * string * string)
}.
Definition nothing_seen : Seen := mkSeen [] [] [].

(* source: Agent/resources.py:770-794 RuntimePluginManager.discover *)
Definition check_dependencies (all : list Descriptor) (d : Descriptor) : res unit :=
  let known id := is_some (by_id all id) in
  if negb (rd_core_api_version d =? CORE_API_VERSION)
  then Err (ValueError ("Unsupported core API for plugin " +:+ rd_plugin_id d))
  else if negb (forallb known (rd_requires_plugins d))
  then Err (ValueError ("Plugin " +:+ rd_plugin_id d +:+ " has missing dependency"))
  else if existsb known (rd_conflicts_with d)
  then Err (ValueError ("Plugin " +:+ rd_plugin_id d +:+ " conflicts"))
  else if forallb (λ id, match by_id all id with
                         | Some r => subset_of (exposed_profiles d) (exposed_profiles r)
                         | None => true
                         end) (rd_requires_plugins d)
  then Ok tt
  else Err (ValueError ("Plugin " +:+ rd_plugin_id d +:+ " dependency is not exposed")).

(* source: Agent/resources.py:795-802 RuntimePluginManager.discover *)
Definition see_contribution (kind : ContributionKind) (name : string) (seen : res Seen) (profile : RuntimeProfile) : res Seen :=
  s ← seen;
  if bool_decide ((profile, kind, name) ∈ sn_contributions s)
  then Err (ValueError "Duplicate Runtime contribution")
  else mret (mkSeen ((profile, kind, name) :: sn_contributions s) (sn_members s) (sn_mounted s)).

(* source: Agent/resources.py:814-821 RuntimePluginManager.discover *)
Definition see_mount (m : ResourceFile) (seen : res Seen) (profile : RuntimeProfile) : res Seen :=
  s ← seen;
  let mounted := (profile, rf_root m, profile_member_path profile m) in
  if bool_decide (mounted ∈ sn_mounted s) then Err (ValueError "Runtime plugins mount the same resource")
  else mret (mkSeen (sn_contributions s) (sn_members s) (mounted :: sn_mounted s)).

(* source: Agent/resources.py:803-821 RuntimePluginManager.discover *)
Definition see_member (d : Descriptor) (seen : res Seen) (m : ResourceFile) : res Seen :=
  s ← seen;
  validate_hot_resource_member m ≫= λ _,
  if bool_decide ((rf_root m, rf_path m) ∈ sn_members s) then Err (ValueError "Runtime plugins overlap on member")
  else foldl (see_mount m)
         (Ok (mkSeen (sn_contributions s) ((rf_root m, rf_path m) :: sn_members s) (sn_mounted s)))
         (remove_dups (exposed_profiles d)).

(* source: Agent/resources.py:769-821 RuntimePluginManager.discover *)
Definition see_descriptor (all : list Descriptor) (seen : res Seen) (d : Descriptor) : res Seen :=
  s ← seen;
  check_dependencies all d ≫= λ _,
  s ← foldl (λ acc c, foldl (see_contribution (rb_kind c) (rb_name c)) acc (rb_profiles c)) (Ok s) (rd_contributions d);
  foldl (see_member d) (Ok s) (rd_files d).

(** [found] is what the providers return, [disabled] the setting. *)
(* source: Agent/resources.py RuntimePluginManager.discover *)
Definition discover (disabled : list string) (found : list Descriptor) : res (list Descriptor) :=
  let values := merge_sort id_le (filter (λ d, rd_plugin_id d ∉ disabled) found) in
  if negb (bool_decide (NoDup (map rd_plugin_id values))) then Err (ValueError "Duplicate Runtime plugin id") else
  foldl (see_descriptor values) (Ok nothing_seen) values ≫= λ _, mret values.

(** ** Identities and plans *)

(** [sorted] on strings. *)
Definition str_le (a b : string) : Prop := String.leb a b = true.
#[export] Instance str_le_dec a b : Decision (str_le a b).
Proof. unfold str_le. apply _. Defined.
Definition sorted_set (l : list string) : list string := merge_sort str_le (remove_dups l).

Definition jstrs (l : list string) : json := JArr (map JStr l).

Definition contribution_json (c : Contribution) : json :=
  JObj [("kind", JStr (ContributionKind_value (rb_kind c))); ("name", JStr (rb_name c));
        ("profiles", jstrs (map RuntimeProfile_value (rb_profiles c))); ("contract", JObj (rb_contract c))].

Definition identity_of (j : json) : string := sha256_hex (json_dumps j).

(* source: Agent/resources.py _descriptor_semantic_identity *)
Definition descriptor_semantic_identity (d : Descriptor) : string :=
  identity_of (JObj [
    ("plugin_id", JStr (rd_plugin_id d)); ("plugin_version", JStr (rd_plugin_version d));
    ("core_api_version", JInt (rd_core_api_version d)); ("requires_plugins", jstrs (rd_requires_plugins d));
    ("conflicts_with", jstrs (rd_conflicts_with d));
    ("contributions", JArr (map contribution_json (rd_contributions d)));
    ("member_semantics", JArr (map (λ f, jstrs [rf_root f; rf_path f; rf_semantic_hash f]) (rd_files d)))]).

(* source: Agent/resources.py:845-855 RuntimePluginManager.plan_reload *)
Definition semantic_payload (ds : list Descriptor) : json :=
  JArr (map (λ d, JObj [
    ("plugin_id", JStr (rd_plugin_id d)); ("semantic_hash", JStr (rd_semantic_hash d));
    ("core_api_version", JInt (rd_core_api_version d)); ("requires_plugins", jstrs (rd_requires_plugins d));
    ("conflicts_with", jstrs (rd_conflicts_with d));
    ("contributions", JArr (map contribution_json (rd_contributions d)))]) ds).

(* source: Agent/resources.py:857-859 RuntimePluginManager.plan_reload *)
Definition source_identity (ds : list Descriptor) : string :=
  identity_of (JArr (map (λ d, jstrs [rd_plugin_id d; rd_source_hash d]) ds)).

(** The storage root is left out of the path. *)
(* source: Agent/resources.py RuntimePluginManager._artifact_root *)
Definition artifact_root (generation_id : string) : string := py_take 24 generation_id.

Definition of_kind (kinds : list ContributionKind) (d : Descriptor) : bool :=
  existsb (λ c, bool_decide (rb_kind c ∈ kinds)) (rd_contributions d).
(* source: Agent/resources.py:943-951 RuntimePluginManager._approval_reasons *)
Definition executable : Descriptor → bool := of_kind [CK_TOOL; CK_EXTENSION; CK_HOOK; CK_OBSERVER].

(* source: Agent/resources.py:926-955 RuntimePluginManager._approval_reasons *)
Definition item_reasons (old : list Descriptor) (d : Descriptor) : list string :=
  let previous := by_id old (rd_plugin_id d) in
  let previous_profiles := match previous with Some p => exposed_profiles p | None => [] end in
  let expanded := filter (λ p, p ∉ previous_profiles) (exposed_profiles d) in
  (if is_some previous && negb (bool_decide (expanded = []))
   then ["expanded profile exposure: " +:+ rd_plugin_id d +:+ ":" +:+ join "," (sorted_set (map RuntimeProfile_value expanded))]
   else [])
  ++ match previous with
     | None => if executable d then ["new executable plugin: " +:+ rd_plugin_id d] else []
     | Some p =>
         if executable d && negb (bool_decide (rd_semantic_hash p = rd_semantic_hash d))
         then ["executable contract or implementation changed: " +:+ rd_plugin_id d] else []
     end.

(* source: Agent/resources.py RuntimePluginManager._approval_reasons *)
Definition approval_reasons (current : option Generation) (candidate : Generation) : list string :=
  match current with
  | None => []
  | Some c =>
      let old := gn_descriptors c in
      mjoin (map (item_reasons old) (gn_descriptors candidate))
      ++ mjoin (map (λ id, match by_id old id with
                           | Some p => if of_kind [CK_TOOL] p then ["removed tool plugin: " +:+ id] else []
                           | None => []
                           end)
           (filter (λ id, id ∉ map rd_plugin_id (gn_descriptors candidate)) (sorted_set (map rd_plugin_id old))))
  end.

(** The identity of the parts of a plan. *)
Definition plan_payload (generation_id : string) (parent : option string) (changed removed : list string)
    (required : bool) (reasons : list string) : json :=
  JObj [("generation_id", JStr generation_id); ("parent_generation_id", jopt parent);
        ("changed_plugins", jstrs changed); ("removed_plugins", jstrs removed);
        ("approval_required", JBool required); ("reasons", jstrs reasons)].

(* source: Agent/resources.py:856-912 RuntimePluginManager.plan_reload *)
Definition plan_of (current : option Generation) (ds : list Descriptor) : ReloadPlan :=
  let semantic_hash := identity_of (semantic_payload ds) in
  let old := match current with Some c => gn_descriptors c | None => [] end in
  let changed := sorted_set (map rd_plugin_id (filter (λ d,
    descriptor_semantic_identity <$> by_id old (rd_plugin_id d) ≠ Some (descriptor_semantic_identity d)) ds)) in
  let removed := filter (λ id, id ∉ map rd_plugin_id ds) (sorted_set (map rd_plugin_id old)) in
  let parent := gn_generation_id <$> current in
  let fresh := identity_of (JObj [("core_api_version", JInt CORE_API_VERSION); ("parent_generation_id", jopt parent);
                                  ("semantic", semantic_payload ds)]) in
  let generation_id :=
    match current with
    | Some c => if bool_decide (semantic_hash = gn_semantic_hash c ∧ changed = [] ∧ removed = [])
                then gn_generation_id c else fresh
    | None => fresh
    end in
  let generation := mkGeneration generation_id parent 1 ds semantic_hash (source_identity ds) (artifact_root generation_id) in
  let reasons := approval_reasons current generation in
  let required := negb (bool_decide (reasons = [])) in
  mkReloadPlan (identity_of (plan_payload generation_id parent changed removed required reasons))
    generation changed removed required reasons.

(* source: Agent/resources.py RuntimePluginManager.plan_reload *)
Definition plan_reload (current : option Generation) (disabled : list string) (found : list Descriptor) : res ReloadPlan :=
  ds ← discover disabled found; mret (plan_of current ds).

(** *** Plans that need no approval *)

(** One pass over the descriptors; a pass that adds none is the last. *)
(* source: Agent/resources.py:1042-1051 RuntimePluginManager._disable_quarantined_member *)
Definition disable_pass (ds : list Descriptor) (disabled : list string) : list string :=
  foldl (λ acc d, if bool_decide (rd_plugin_id d ∉ acc) && existsb (λ r, bool_decide (r ∈ acc)) (rd_requires_plugins d)
                  then rd_plugin_id d :: acc else acc) disabled ds.
(* source: Agent/resources.py:1042-1051 RuntimePluginManager._disable_quarantined_member *)
Fixpoint disable_closure (fuel : nat) (ds : list Descriptor) (disabled : list string) : list string :=
  match fuel with
  | O => disabled
  | S fuel => let more := disable_pass ds disabled in
              if decide (length more = length disabled) then more else disable_closure fuel ds more
  end.

(* source: Agent/resources.py:1052-1098 RuntimePluginManager._disable_quarantined_member *)
Definition disable_plan (current : Generation) (plugin_id : string) : ReloadPlan :=
  let disabled := sorted_set (disable_closure (S (length (gn_descriptors current))) (gn_descriptors current) [plugin_id]) in
  let ds := filter (λ d, rd_plugin_id d ∉ disabled) (gn_descriptors current) in
  let parent := gn_generation_id current in
  let generation_id := identity_of (JObj [
    ("core_api_version", JInt CORE_API_VERSION); ("parent_generation_id", JStr parent);
    ("quarantined_plugins", jstrs disabled); ("semantic", semantic_payload ds)]) in
  let reason := "quarantine-disable:" +:+ join "," disabled in
  mkReloadPlan (identity_of (plan_payload generation_id (Some parent) disabled disabled false [reason]))
    (mkGeneration generation_id (Some parent) 1 ds (identity_of (semantic_payload ds)) (source_identity ds)
       (artifact_root generation_id)) disabled disabled false [reason].

(* source: Agent/resources.py:1286-1329 RuntimePluginManager.rollback_member *)
Definition rollback_plan (current previous : Generation) (plugin_id : string) : res ReloadPlan :=
  match by_id (gn_descriptors previous) plugin_id with
  | None => Err (KeyError plugin_id)
  | Some replacement =>
      let ds := merge_sort id_le (filter (λ d, rd_plugin_id d ≠ plugin_id) (gn_descriptors current) ++ [replacement]) in
      let pairs := JArr (map (λ d, jstrs [rd_plugin_id d; rd_semantic_hash d]) ds) in
      let parent := gn_generation_id current in
      let from := gn_generation_id previous in
      let generation_id := identity_of (JObj [
        ("core_api_version", JInt CORE_API_VERSION); ("parent_generation_id", JStr parent);
        ("rollback_plugin", JStr plugin_id); ("rollback_source_generation", JStr from); ("members", pairs)]) in
      let reason := "rollback:" +:+ plugin_id +:+ ":" +:+ from in
      Ok (mkReloadPlan (identity_of (plan_payload generation_id (Some parent) [plugin_id] [] false [reason]))
            (mkGeneration generation_id (Some parent) 1 ds (identity_of pairs) (source_identity ds)
               (artifact_root generation_id)) [plugin_id] [] false [reason])
  end.
