(* ===== verification/RuntimeLedger.v ===== *)
(** * RuntimeLedger: the tables of runtime generations and their statements

    The part of gateway/state_controller.py that records which generation of
    runtime plugins is the head, who still refers to an older one, and which
    plugins failed.  The controller opens its connections with
    [isolation_level=None] and these methods issue no BEGIN, so every statement
    commits on its own: an operation is not a transaction here but a sequence
    of them, and a crash or an exception leaves what came before. *)

From S2P Require Import Prelude PyText PyTime AgentTypes Store Sanitizer RuntimeResources CronModels CronStore Archive.

#[local] Open Scope Z_scope.

(** ** Statements that commit one by one

    The result, and the states after each statement that wrote, in order. *)
Definition Auto (St A : Type) : Type := St → res A * list St.

(** Where a sequence of statements ends. *)
Definition ends {St} (s : St) (t : list St) : St := default s (last t).

#[export] Instance auto_ret {St} : MRet (Auto St) := λ A a s, (Ok a, []).
#[export] Instance auto_bind {St} : MBind (Auto St) := λ A B k m s,
  match m s with
  | (Ok a, t) => let '(r, t') := k a (ends s t) in (r, t ++ t')
  | (Err e, t) => (Err e, t)
  end.
Definition auto_read {St A} (f : St → res A) : Auto St A := λ s, (f s, []).
Definition auto_lift {St A} (r : res A) : Auto St A := λ s, (r, []).
(** One statement: atomic by itself. *)
Definition statement {St A} (m : Tx St A) : Auto St A := λ s,
  match m s with Ok (a, s') => (Ok a, [s']) | Err e => (Err e, []) end.
Definition auto_guard {St} (P : Prop) `{Decision P} (e : pyerr) : Auto St unit := λ s,
  (if decide P then Err e else Ok tt, []).
Arguments auto_guard {St} P {_} e.

(** ** Tables *)

(* source: gateway/state_controller.py@TABLE runtime_resource_generations *)
Inductive GenerationStatus : Set := GS_preparing | GS_active | GS_retired | GS_rejected | GS_quarantined.
#[export] Instance GenerationStatus_eq_dec : EqDecision GenerationStatus.
Proof. solve_decision. Defined.

(** [gw_rowid]: the order of insertion, where a query leaves the order open. *)
(* source: gateway/state_controller.py@TABLE runtime_resource_generations *)
Record GenerationRow := mkGenerationRow {
  gw_rowid : Z;
  gw_generation : Generation;
  gw_status : GenerationStatus;
  gw_created_at : string;
  gw_activated_at : option string;
  gw_retired_at : option string;
  gw_artifact_deleted_at : option string
}.
#[export] Instance GenerationRow_eta : Eta GenerationRow := λ r, mkGenerationRow (gw_rowid r) (gw_generation r)
  (gw_status r) (gw_created_at r) (gw_activated_at r) (gw_retired_at r) (gw_artifact_deleted_at r).

(* source: gateway/state_controller.py@TABLE runtime_resource_profile_heads *)
Record HeadRow := mkHeadRow { hd_generation_id : string; hd_revision : Z; hd_updated_at : string }.

(* source: gateway/state_controller.py@TABLE runtime_reload_attempts *)
Inductive ReloadStatus : Set := LS_activated | LS_unchanged | LS_awaiting_approval | LS_rejected | LS_failed | LS_rollback.
#[export] Instance ReloadStatus_eq_dec : EqDecision ReloadStatus.
Proof. solve_decision. Defined.

(* source: gateway/state_controller.py@TABLE runtime_reload_attempts *)
Record ReloadAttemptRow := mkReloadAttemptRow {
  la_plan : option ReloadPlan; la_generation_id : option string; la_actor : string; la_status : ReloadStatus;
  la_error : option string; la_created_at : string
}.

(* source: gateway/state_controller.py@TABLE runtime_generation_references *)
Record ReferenceRow := mkReferenceRow {
  rr_generation_id : string; rr_owner_kind : string; rr_owner_id : string; rr_active : bool;
  rr_created_at : string; rr_released_at : option string
}.
#[export] Instance ReferenceRow_eta : Eta ReferenceRow := λ r, mkReferenceRow (rr_generation_id r) (rr_owner_kind r)
  (rr_owner_id r) (rr_active r) (rr_created_at r) (rr_released_at r).

(* source: gateway/state_controller.py@TABLE runtime_plugin_health *)
Record HealthRow := mkHealthRow {
  ph_failure_count : Z; ph_failure_streak : Z; ph_ignored_failure_count : Z; ph_quarantined : bool;
  ph_last_failure_kind : option string; ph_last_error : option string; ph_quarantined_at : option string;
  ph_revision : Z; ph_updated_at : string
}.
#[export] Instance HealthRow_eta : Eta HealthRow := λ r, mkHealthRow (ph_failure_count r) (ph_failure_streak r)
  (ph_ignored_failure_count r) (ph_quarantined r) (ph_last_failure_kind r) (ph_last_error r) (ph_quarantined_at r)
  (ph_revision r) (ph_updated_at r).

(* source: gateway/state_controller.py@TABLE runtime_reload_approvals *)
Record ApprovalRow := mkApprovalRow {
  av_generation_id : string; av_actor : string; av_approved : bool; av_approved_at : string; av_plan : ReloadPlan
}.

Record RtDb := mkRtDb {
  rt_generations : gmap string GenerationRow;
  rt_heads : gmap string HeadRow;
  rt_attempts : gmap string ReloadAttemptRow;
  rt_references : gmap string ReferenceRow;
  rt_health : gmap (string * string * string) HealthRow;
  rt_approvals : gmap string ApprovalRow
}.
#[export] Instance RtDb_eta : Eta RtDb := λ d, mkRtDb (rt_generations d) (rt_heads d) (rt_attempts d)
  (rt_references d) (rt_health d) (rt_approvals d).
Definition empty_rt : RtDb := mkRtDb ∅ ∅ ∅ ∅ ∅ ∅.

Definition head_of (d : RtDb) : option string := hd_generation_id <$> rt_heads d !! "global".

(** ** Statements *)

Definition next_generation_rowid (d : RtDb) : Z :=
  1 + foldr (λ kv n, Z.max (gw_rowid kv.2) n) 0 (map_to_list (rt_generations d)).

(** [INSERT INTO runtime_resource_generations]. *)
Definition insert_generation (g : Generation) (status : GenerationStatus) (now : string) (activated : option string) :
    Tx RtDb unit :=
  d ← tx_gets (λ d, d);
  reject (is_some (rt_generations d !! gn_generation_id g) = true) (IntegrityError "runtime_resource_generations");;
  reject (match gn_parent_generation_id g with
          | Some p => is_none (rt_generations d !! p) && negb (bool_decide (p = gn_generation_id g))
          | None => false
          end = true) (IntegrityError "FOREIGN KEY");;
  require (1 ≤ gn_core_api_version g) (IntegrityError "runtime_resource_generations");;
  tx_modify (λ d, d ⟪ rt_generations := <[gn_generation_id g :=
    mkGenerationRow (next_generation_rowid d) g status now activated None None]> (rt_generations d) ⟫).

(** [UPDATE runtime_resource_generations ... WHERE generation_id=? AND ...]. *)
Definition update_generation (id : string) (p : GenerationRow → bool) (f : GenerationRow → GenerationRow) : Tx RtDb unit :=
  tx_modify (λ d, d ⟪ rt_generations := alter (λ r, if p r then f r else r) id (rt_generations d) ⟫).

Definition insert_attempt (id : string) (r : ReloadAttemptRow) : Tx RtDb unit :=
  d ← tx_gets (λ d, d);
  reject (is_some (rt_attempts d !! id) = true) (IntegrityError "runtime_reload_attempts");;
  reject (match la_generation_id r with Some g => is_none (rt_generations d !! g) | None => false end = true)
    (IntegrityError "FOREIGN KEY");;
  tx_modify (λ d, d ⟪ rt_attempts := <[id := r]> (rt_attempts d) ⟫).

(** What an operation draws from outside. *)
Record RtEnv := mkRtEnv { re_now : string; re_uuid : string }.

(** ** Reading *)

(* source: gateway/state_controller.py StateController.active_runtime_generation *)
Definition active_runtime_generation (d : RtDb) : option GenerationRow :=
  h ← rt_heads d !! "global"; rt_generations d !! hd_generation_id h.

(* source: gateway/state_controller.py StateController.runtime_generation *)
Definition runtime_generation (id : string) (d : RtDb) : option GenerationRow := rt_generations d !! id.

Definition active_reference (owner_kind owner_id : string) (d : RtDb) : option (string * ReferenceRow) :=
  List.find (λ kv, bool_decide (rr_owner_kind kv.2 = owner_kind) && bool_decide (rr_owner_id kv.2 = owner_id)
                   && rr_active kv.2) (map_to_list (rt_references d)).

(* source: gateway/state_controller.py StateController.runtime_generation_reference *)
Definition runtime_generation_reference (owner_kind owner_id : string) (d : RtDb) : option ReferenceRow :=
  snd <$> active_reference owner_kind owner_id d.

Definition referenced (id : string) (d : RtDb) : bool :=
  existsb (λ kv, bool_decide (rr_generation_id kv.2 = id) && rr_active kv.2) (map_to_list (rt_references d)).

Definition is_head (id : string) (d : RtDb) : bool :=
  existsb (λ kv, bool_decide (hd_generation_id kv.2 = id)) (map_to_list (rt_heads d)).

(* source: gateway/state_controller.py StateController.runtime_reload_plan_is_approved *)
Definition runtime_reload_plan_is_approved (plan_hash generation_id : string) (d : RtDb) : bool :=
  match rt_approvals d !! plan_hash with
  | Some r => bool_decide (av_generation_id r = generation_id) && av_approved r
  | None => false
  end.

(** ** Operations *)

(* source: gateway/state_controller.py StateController.record_runtime_reload_attempt *)
Definition record_runtime_reload_attempt (env : RtEnv) (plan : ReloadPlan) (actor : string) (status : ReloadStatus)
    (error : option string) : Auto RtDb string :=
  let now := re_now env in
  let g := pl_generation plan in
  let attempt_id := sha256_hex ("runtime-reload:" +:+ pl_plan_hash plan +:+ ":" +:+ actor +:+ ":" +:+ re_uuid env) in
  existing ← auto_read (λ d, Ok (rt_generations d !! gn_generation_id g));
  match existing with
  | None => statement (insert_generation g GS_preparing now None)
  | Some row =>
      auto_guard (gw_generation row ≠ g ∧ status ≠ LS_unchanged)
        (StateInvariantError "Runtime reload plan conflicts with stored generation")
  end;;
  statement (insert_attempt attempt_id
    (mkReloadAttemptRow (Some plan) (Some (gn_generation_id g)) actor status (sanitize_text <$> error) now));;
  mret attempt_id.

(* source: gateway/state_controller.py StateController.record_runtime_reload_failure *)
Definition record_runtime_reload_failure (env : RtEnv) (actor error : string) : Auto RtDb unit :=
  statement (insert_attempt (re_uuid env)
    (mkReloadAttemptRow None None actor LS_failed (Some (sanitize_text error)) (re_now env))).

(* source: gateway/state_controller.py StateController.approve_runtime_reload_plan *)
Definition approve_runtime_reload_plan (env : RtEnv) (plan : ReloadPlan) (actor : string) : Auto RtDb unit :=
  let g := pl_generation plan in
  existing ← auto_read (λ d, Ok (rt_generations d !! gn_generation_id g));
  match existing with
  | None => statement (insert_generation g GS_preparing (re_now env) None)
  | Some _ => mret tt
  end;;
  statement (tx_modify (λ d, d ⟪ rt_approvals := <[pl_plan_hash plan :=
    match rt_approvals d !! pl_plan_hash plan with
    | Some old => mkApprovalRow (av_generation_id old) actor true (re_now env) (av_plan old)
    | None => mkApprovalRow (gn_generation_id g) actor true (re_now env) plan
    end]> (rt_approvals d) ⟫)).

(** [UPDATE runtime_resource_profile_heads ... WHERE profile='global' AND
    revision=?]: false when no row matched. *)
(* source: gateway/state_controller.py:4883-4887 StateController.activate_runtime_generation *)
Definition move_head (id now : string) (revision : Z) : Tx RtDb bool :=
  d ← tx_gets (λ d, d);
  match rt_heads d !! "global" with
  | Some h =>
      if decide (hd_revision h = revision)
      then tx_modify (λ d, d ⟪ rt_heads := <["global" := mkHeadRow id (revision + 1) now]> (rt_heads d) ⟫);; mret true
      else mret false
  | None => mret false
  end.

(** [any(reason.startswith("rollback:") ...)]. *)
(* source: gateway/state_controller.py:4890-4892 StateController.activate_runtime_generation *)
Definition activation_status (plan : ReloadPlan) : ReloadStatus :=
  if existsb (startswith "rollback:") (pl_reasons plan) then LS_rollback else LS_activated.

(* source: gateway/state_controller.py StateController.activate_runtime_generation *)
Definition activate_runtime_generation (env : RtEnv) (plan : ReloadPlan) (actor : string) : Auto RtDb string :=
  let g := pl_generation plan in
  let id := gn_generation_id g in
  let now := re_now env in
  head ← auto_read (λ d, Ok (rt_heads d !! "global"));
  let current_id := hd_generation_id <$> head in
  auto_guard (gn_parent_generation_id g ≠ current_id)
    (StateConflictError "Runtime resource head changed while the reload plan was being built");;
  existing ← auto_read (λ d, Ok (rt_generations d !! id));
  auto_guard (match existing with Some row => bool_decide (gw_generation row = g) | None => true end = false)
    (StateInvariantError "Runtime generation identity has conflicting content");;
  match existing with
  | None => statement (insert_generation g GS_active now (Some now))
  | Some _ => statement (update_generation id (λ _, true) (λ r,
      ((r ⟪ gw_status := GS_active ⟫) ⟪ gw_activated_at := Some now ⟫) ⟪ gw_retired_at := None ⟫))
  end;;
  match current_id with
  | Some c =>
      if truthy current_id && negb (bool_decide (c = id))
      then statement (update_generation c (λ r, bool_decide (gw_status r = GS_active)) (λ r,
             (r ⟪ gw_status := GS_retired ⟫) ⟪ gw_retired_at := Some now ⟫))
      else mret tt
  | None => mret tt
  end;;
  match head with
  | None => statement (tx_modify (λ d, d ⟪ rt_heads := <["global" := mkHeadRow id 0 now]> (rt_heads d) ⟫))
  | Some h =>
      moved ← statement (move_head id now (hd_revision h));
      auto_guard (moved = false) (StateConflictError "Runtime resource generation CAS failed")
  end;;
  statement (insert_attempt (re_uuid env)
    (mkReloadAttemptRow (Some plan) (Some id) actor (activation_status plan) None now));;
  mret id.

(** *** References *)

Definition owner_kinds : list string := ["run"; "runtime"; "operation"; "cron"; "harness"; "recovery"].

(* source: gateway/state_controller.py:4908-4910 StateController.acquire_runtime_generation_reference *)
Definition reference_id (owner_kind owner_id generation_id : string) : string :=
  sha256_hex ("runtime-generation-ref:" +:+ owner_kind +:+ ":" +:+ owner_id +:+ ":" +:+ generation_id).

(** [INSERT ... ON CONFLICT(reference_id) DO UPDATE SET status='active']; the
    caller has seen no active reference of the owner. *)
(* source: gateway/state_controller.py:4931-4936 StateController.acquire_runtime_generation_reference *)
Definition upsert_reference (generation_id owner_kind owner_id now : string) : Tx RtDb unit :=
  d ← tx_gets (λ d, d);
  let id := reference_id owner_kind owner_id generation_id in
  require (owner_kind ∈ owner_kinds) (IntegrityError "runtime_generation_references");;
  reject (is_none (rt_generations d !! generation_id) = true) (IntegrityError "FOREIGN KEY");;
  tx_modify (λ d, d ⟪ rt_references := <[id :=
    match rt_references d !! id with
    | Some old => (old ⟪ rr_active := true ⟫) ⟪ rr_released_at := None ⟫
    | None => mkReferenceRow generation_id owner_kind owner_id true now None
    end]> (rt_references d) ⟫).

(* source: gateway/state_controller.py:4912-4918 StateController.acquire_runtime_generation_reference *)
Definition available (generation_id : string) (d : RtDb) : bool :=
  match rt_generations d !! generation_id with
  | Some row => is_none (gw_artifact_deleted_at row)
  | None => false
  end.

(* source: gateway/state_controller.py StateController.acquire_runtime_generation_reference *)
Definition acquire_runtime_generation_reference (env : RtEnv) (generation_id owner_kind owner_id : string) :
    Auto RtDb ReferenceRow :=
  usable ← auto_read (λ d, Ok (available generation_id d));
  auto_guard (usable = false) (StateInvariantError "Referenced Runtime generation is unavailable");;
  active ← auto_read (λ d, Ok (runtime_generation_reference owner_kind owner_id d));
  match active with
  | Some row =>
      auto_guard (rr_generation_id row ≠ generation_id)
        (StateConflictError "Runtime owner is already fenced to a different Generation");;
      mret row
  | None =>
      statement (upsert_reference generation_id owner_kind owner_id (re_now env));;
      auto_read (λ d, res_of_option (RuntimeError "assert")
        (rt_references d !! reference_id owner_kind owner_id generation_id))
  end.

(** [UPDATE ... SET status='released' WHERE status='active' AND ...]; the
    number of rows it changed. *)
Definition release_where (p : ReferenceRow → bool) (now : string) : Tx RtDb Z :=
  d ← tx_gets (λ d, d);
  let hit r := rr_active r && p r in
  tx_modify (λ d, d ⟪ rt_references := (λ r, if hit r then (r ⟪ rr_active := false ⟫) ⟪ rr_released_at := Some now ⟫
                                               else r) <$> rt_references d ⟫);;
  mret (Z.of_nat (length (List.filter (λ kv, hit kv.2) (map_to_list (rt_references d))))).

Definition owned_by (owner_kind owner_id : string) (r : ReferenceRow) : bool :=
  bool_decide (rr_owner_kind r = owner_kind) && bool_decide (rr_owner_id r = owner_id).

(* source: gateway/state_controller.py StateController.release_runtime_generation_reference *)
Definition release_runtime_generation_reference (env : RtEnv) (owner_kind owner_id : string) : Auto RtDb unit :=
  statement (release_where (owned_by owner_kind owner_id) (re_now env));; mret tt.

(* source: gateway/state_controller.py StateController.release_runtime_generation_references_by_kind *)
Definition release_runtime_generation_references_by_kind (env : RtEnv) (owner_kind : string) : Auto RtDb Z :=
  auto_guard (owner_kind ≠ "runtime") (ValueError "Bulk release is only valid for process-local Runtime references");;
  statement (release_where (λ r, bool_decide (rr_owner_kind r = owner_kind)) (re_now env)).

(* source: gateway/state_controller.py:4983-4984 StateController.reconcile_runtime_generation_references *)
Definition run_ended (db : Db) (run_id : string) : bool :=
  match db_states db !! run_id with
  | Some s => bool_decide (sr_task_state s ∈ TERMINAL_STATES)
  | None => false
  end.
(* source: gateway/state_controller.py:4994-4997 StateController.reconcile_runtime_generation_references *)
Definition dispatch_ended (cron : CronDb) (dispatch_id : string) : bool :=
  match db_dispatches cron !! dispatch_id with
  | Some r => bool_decide (dr_status r ∈ [DS_succeeded; DS_failed; DS_cancelled; DS_skipped])
  | None => false
  end.

(** The tables of Runs and of cron dispatches are read; [cron] is [None] when
    the cron tables have not been created. *)
(* source: gateway/state_controller.py StateController.reconcile_runtime_generation_references *)
Definition reconcile_runtime_generation_references (env : RtEnv) (db : Db) (cron : option CronDb) :
    Auto RtDb (Z * Z * Z) :=
  let now := re_now env in
  let kind k r := bool_decide (rr_owner_kind r = k) in
  runtime_refs ← statement (release_where (kind "runtime") now);
  terminal_run_refs ← statement (release_where (λ r, kind "run" r && run_ended db (rr_owner_id r)) now);
  cron_refs ← match cron with
              | Some c => statement (release_where (λ r, kind "cron" r && dispatch_ended c (rr_owner_id r)) now)
              | None => mret 0
              end;
  mret (runtime_refs, terminal_run_refs, cron_refs).

(** What creating a Run does to these tables; it is part of the transaction
    of [create_run]. *)
(* source: gateway/state_controller.py:1300-1315 StateController.create_run *)
Definition bind_run_generation (run_id generation_id now : string) : Tx RtDb unit :=
  d ← tx_gets (λ d, d);
  reject (available generation_id d = false) (StateInvariantError "Run Runtime generation is unavailable");;
  let id := reference_id "run" run_id generation_id in
  reject (is_some (rt_references d !! id) = true ∨ is_some (active_reference "run" run_id d) = true)
    (IntegrityError "runtime_generation_references");;
  tx_modify (λ d, d ⟪ rt_references := <[id := mkReferenceRow generation_id "run" run_id true now None]> (rt_references d) ⟫).

(** *** Health of plugins *)

(* source: gateway/state_controller.py:5036-5049 StateController.record_runtime_plugin_failure *)
Definition failed_health (old : option HealthRow) (failure_kind summary now : string) (counts : bool) (threshold : Z) :
    HealthRow :=
  let previous := match old with Some r => ph_quarantined r | None => false end in
  let get (f : HealthRow → Z) := match old with Some r => f r | None => 0 end in
  let failures := get ph_failure_count + (if counts then 1 else 0) in
  let streak := get ph_failure_streak + (if counts then 1 else 0) in
  let ignored := get ph_ignored_failure_count + (if counts then 0 else 1) in
  let quarantined := (Z.max 1 threshold <=? streak) || previous in
  let since := match old with Some r => if truthy (ph_quarantined_at r) then ph_quarantined_at r else None | None => None end in
  mkHealthRow failures streak ignored quarantined (Some failure_kind) (Some summary)
    (if quarantined && negb previous then Some now else since)
    (match old with Some r => ph_revision r + 1 | None => 0 end) now.

(** [quarantined_now] of the answer. *)
(* source: gateway/state_controller.py StateController.record_runtime_plugin_failure *)
Definition record_runtime_plugin_failure (env : RtEnv) (generation_id plugin_id profile failure_kind error : string)
    (counts : bool) (threshold : Z) : Auto RtDb bool :=
  let key := (generation_id, plugin_id, profile) in
  old ← auto_read (λ d, Ok (rt_health d !! key));
  let row := failed_health old failure_kind (py_take 2000 (sanitize_text error)) (re_now env) counts threshold in
  statement (d ← tx_gets (λ d, d);
             reject (is_none (rt_generations d !! generation_id) = true) (IntegrityError "FOREIGN KEY");;
             tx_modify (λ d, d ⟪ rt_health := <[key := row]> (rt_health d) ⟫));;
  (if ph_quarantined row
   then statement (update_generation generation_id (λ r, bool_decide (gw_status r = GS_retired))
          (λ r, r ⟪ gw_status := GS_quarantined ⟫))
   else mret tt);;
  mret (ph_quarantined row && negb (match old with Some r => ph_quarantined r | None => false end)).

(* source: gateway/state_controller.py StateController.record_runtime_plugin_success *)
Definition record_runtime_plugin_success (env : RtEnv) (generation_id plugin_id profile : string) : Auto RtDb unit :=
  statement (tx_modify (λ d, d ⟪ rt_health := alter (λ r,
    if ph_quarantined r then r
    else ((r ⟪ ph_failure_streak := 0 ⟫) ⟪ ph_revision := ph_revision r + 1 ⟫) ⟪ ph_updated_at := re_now env ⟫)
    (generation_id, plugin_id, profile) (rt_health d) ⟫)).

(* source: gateway/state_controller.py StateController.mark_runtime_generation_quarantined *)
Definition mark_runtime_generation_quarantined (generation_id : string) : Auto RtDb unit :=
  head ← auto_read (λ d, Ok (is_head generation_id d));
  auto_guard (head = true) (StateConflictError "Cannot quarantine the active Runtime generation head");;
  statement (update_generation generation_id (λ r, bool_decide (gw_status r = GS_retired))
    (λ r, r ⟪ gw_status := GS_quarantined ⟫)).

(** [ORDER BY COALESCE(activated_at,created_at) DESC]; equal times come in the
    order of insertion. *)
Definition latest_first (a b : string * GenerationRow) : Prop :=
  let key (kv : string * GenerationRow) := default (gw_created_at kv.2) (gw_activated_at kv.2) in
  String.ltb (key b) (key a) = true ∨ key a = key b ∧ gw_rowid a.2 ≤ gw_rowid b.2.
#[export] Instance latest_first_dec a b : Decision (latest_first a b).
Proof. unfold latest_first. apply _. Defined.

(* source: gateway/state_controller.py:5110-5116 StateController.last_healthy_runtime_plugin_generation *)
Definition fallback_rows (excluding : string) (d : RtDb) : list (string * GenerationRow) :=
  merge_sort latest_first (filter (λ kv, kv.1 ≠ excluding ∧ gw_artifact_deleted_at kv.2 = None
    ∧ gw_status kv.2 ∈ [GS_active; GS_retired] ∧ is_some (gw_activated_at kv.2) = true) (map_to_list (rt_generations d))).

(* source: gateway/state_controller.py:5117-5124 StateController.last_healthy_runtime_plugin_generation *)
Definition quarantined_in (plugin_id id : string) (d : RtDb) : bool :=
  existsb (λ kv, bool_decide (kv.1.1.1 = id) && bool_decide (kv.1.1.2 = plugin_id) && ph_quarantined kv.2)
    (map_to_list (rt_health d)).

(* source: gateway/state_controller.py StateController.last_healthy_runtime_plugin_generation *)
Definition last_healthy_runtime_plugin_generation (plugin_id excluding : string) (d : RtDb) : option string :=
  fst <$> List.find (λ kv, negb (quarantined_in plugin_id kv.1 d)
    && is_some (by_id (gn_descriptors (gw_generation kv.2)) plugin_id)) (fallback_rows excluding d).

(** *** Garbage *)

(* source: gateway/state_controller.py StateController.runtime_generation_gc_candidates *)
Definition runtime_generation_gc_candidates (now : datetime) (retention_days : Z) (d : RtDb) : res (list string) :=
  t ← minus_days now retention_days;
  let cutoff := isoformat t in
  mret (map fst (filter (λ kv,
    gw_status kv.2 ∈ [GS_retired; GS_quarantined; GS_rejected] ∧ gw_artifact_deleted_at kv.2 = None
    ∧ String.ltb (default (gw_created_at kv.2) (gw_retired_at kv.2)) cutoff = true
    ∧ referenced kv.1 d = false ∧ is_head kv.1 d = false) (map_to_list (rt_generations d)))).

(* source: gateway/state_controller.py StateController.runtime_generation_pending_artifact_cleanup *)
Definition runtime_generation_pending_artifact_cleanup (d : RtDb) : list string :=
  map fst (filter (λ kv, is_some (gw_artifact_deleted_at kv.2) = true) (map_to_list (rt_generations d))).

(* source: gateway/state_controller.py StateController.delete_runtime_generation_if_unreferenced *)
Definition delete_runtime_generation_if_unreferenced (env : RtEnv) (generation_id : string) : Auto RtDb bool :=
  used ← auto_read (λ d, Ok (referenced generation_id d || is_head generation_id d));
  if used : bool then mret false else
  let hit r := negb (bool_decide (gw_status r = GS_active)) && is_none (gw_artifact_deleted_at r) in
  old ← auto_read (λ d, Ok (rt_generations d !! generation_id));
  statement (update_generation generation_id hit (λ r, r ⟪ gw_artifact_deleted_at := Some (re_now env) ⟫));;
  mret (match old with Some r => hit r | None => false end).
