(* ===== verification/RuntimeManager.v ===== *)
(** * RuntimeManager: reloading, rolling back and collecting generations

    [RuntimePluginManager] of Agent/resources.py over the tables of
    RuntimeLedger.  Writing an artifact and testing it are arguments that may
    fail; removing an artifact has no part in the tables. *)

From S2P Require Import Prelude PyText PyTime RuntimeResources RuntimeLedger.

#[local] Open Scope Z_scope.

(** [except Exception: ...; raise]: what the handler does stays, its own
    exception is swallowed. *)
Definition auto_on_error {St A B} (m : Auto St A) (h : pyerr → Auto St B) : Auto St A := λ s,
  match m s with
  | (Err e, t) => (Err e, t ++ (h e (ends s t)).2)
  | ok => ok
  end.

(** The text of an exception, as far as it is recorded. *)
Definition error_text (e : pyerr) : string :=
  match e with
  | StateConflictError m | StateInvariantError m | ValueError m | TypeError m | RuntimeError m | OverflowError m => m
  | KeyError k => k
  | _ => "error"
  end.

Section manager.
Context (materialize : Generation → list Generation → res unit) (smoke_test : Generation → res unit).

(* source: Agent/resources.py RuntimePluginManager.generation *)
Definition generation (id : string) (d : RtDb) : res Generation :=
  row ← res_of_option (KeyError id) (runtime_generation id d); mret (gw_generation row).

Definition current_generation (d : RtDb) : option Generation := gw_generation <$> active_runtime_generation d.

(** Writing and testing the artifact, then the tables. *)
Definition publish (env : RtEnv) (plan : ReloadPlan) (fallbacks : list Generation) (actor : string) : Auto RtDb string :=
  auto_lift (materialize (pl_generation plan) fallbacks);;
  auto_lift (smoke_test (pl_generation plan));;
  activate_runtime_generation env plan actor.

(* source: Agent/resources.py:1151-1193 RuntimePluginManager.reload *)
Definition reload_body (env : nat → RtEnv) (disabled : list string) (found : list Descriptor) (actor : string)
    (approved_plan_hash : option string) : Auto RtDb ReloadResult :=
  plan ← auto_read (λ d, plan_reload (current_generation d) disabled found);
  let g := pl_generation plan in
  let id := gn_generation_id g in
  current ← auto_read (λ d, Ok (current_generation d));
  if bool_decide (gn_generation_id <$> current = Some id) then
    record_runtime_reload_attempt (env 0%nat) plan actor LS_unchanged None;;
    mret (mkReloadResult "unchanged" (Some id) (Some (pl_plan_hash plan)) [])
  else
    (if pl_approval_required plan && bool_decide (approved_plan_hash = Some (pl_plan_hash plan))
     then approve_runtime_reload_plan (env 0%nat) plan actor else mret tt);;
    approved ← auto_read (λ d, Ok (negb (pl_approval_required plan)
                                   || runtime_reload_plan_is_approved (pl_plan_hash plan) id d));
    if negb approved then
      record_runtime_reload_attempt (env 1%nat) plan actor LS_awaiting_approval None;;
      mret (mkReloadResult "awaiting_approval" (Some id) (Some (pl_plan_hash plan)) (pl_changed_plugins plan))
    else
      publish (env 1%nat) plan [] actor;;
      mret (mkReloadResult "activated" (Some id) (Some (pl_plan_hash plan)) (pl_changed_plugins plan)).

(* source: Agent/resources.py RuntimePluginManager.reload *)
Definition reload (env : nat → RtEnv) (disabled : list string) (found : list Descriptor) (actor : string)
    (approved_plan_hash : option string) : Auto RtDb ReloadResult :=
  auto_on_error (reload_body env disabled found actor approved_plan_hash)
    (λ e, record_runtime_reload_failure (env 2%nat) actor (error_text e)).

(* source: Agent/resources.py RuntimePluginManager._disable_quarantined_member *)
Definition disable_quarantined_member (env : RtEnv) (plugin_id generation_id actor : string) : Auto RtDb ReloadResult :=
  current ← auto_read (generation generation_id);
  let plan := disable_plan current plugin_id in
  publish env plan [current] actor;;
  mret (mkReloadResult "activated" (Some (gn_generation_id (pl_generation plan))) (Some (pl_plan_hash plan))
          (pl_changed_plugins plan)).

(* source: Agent/resources.py RuntimePluginManager.rollback_member *)
Definition rollback_member (env : RtEnv) (plugin_id from_generation_id actor : string) : Auto RtDb ReloadResult :=
  current ← auto_read (λ d, res_of_option (RuntimeError "No active generation to roll back") (current_generation d));
  previous ← auto_read (generation from_generation_id);
  plan ← auto_lift (rollback_plan current previous plugin_id);
  publish env plan [current; previous] actor;;
  mret (mkReloadResult "activated" (Some (gn_generation_id (pl_generation plan))) (Some (pl_plan_hash plan))
          (pl_changed_plugins plan)).

(* source: Agent/resources.py RuntimePluginManager.report_failure *)
Definition report_failure (env : nat → RtEnv) (generation_id plugin_id : string) (profile : RuntimeProfile)
    (kind : PluginFailureKind) (error actor : string) (threshold : Z) : Auto RtDb (option ReloadResult) :=
  let via := actor +:+ ":automatic-quarantine" in
  now ← record_runtime_plugin_failure (env 0%nat) generation_id plugin_id (RuntimeProfile_value profile)
          (PluginFailureKind_value kind) error (counts_toward_quarantine kind) threshold;
  if negb now then mret None else
  fallback ← auto_read (λ d, Ok (last_healthy_runtime_plugin_generation plugin_id generation_id d));
  match fallback with
  | None =>
      head ← auto_read (λ d, Ok (current_generation d));
      if bool_decide (gn_generation_id <$> head = Some generation_id) then
        result ← disable_quarantined_member (env 1%nat) plugin_id generation_id via;
        mark_runtime_generation_quarantined generation_id;;
        mret (Some result)
      else mark_runtime_generation_quarantined generation_id;; mret None
  | Some f =>
      result ← rollback_member (env 1%nat) plugin_id f via;
      mark_runtime_generation_quarantined generation_id;;
      mret (Some result)
  end.

(* source: Agent/resources.py RuntimePluginManager.report_success *)
Definition report_success (env : RtEnv) (generation_id plugin_id : string) (profile : RuntimeProfile) : Auto RtDb unit :=
  record_runtime_plugin_success env generation_id plugin_id (RuntimeProfile_value profile).

(* source: Agent/resources.py RuntimePluginManager.acquire_reference *)
Definition acquire_reference (env : RtEnv) (generation_id owner_kind owner_id : string) : Auto RtDb ReferenceRow :=
  auto_read (generation generation_id);;
  acquire_runtime_generation_reference env generation_id owner_kind owner_id.

(* source: Agent/resources.py:1138-1148 RuntimePluginManager.collect_garbage *)
Fixpoint collect_candidates (env : RtEnv) (candidates : list string) : Auto RtDb (list string) :=
  match candidates with
  | [] => mret []
  | id :: rest =>
      deleted ← delete_runtime_generation_if_unreferenced env id;
      removed ← collect_candidates env rest;
      mret (if deleted : bool then id :: removed else removed)
  end.

(* source: Agent/resources.py RuntimePluginManager.collect_garbage *)
Definition collect_garbage (env : RtEnv) (now : datetime) (retention_days : Z) : Auto RtDb (list string) :=
  pending ← auto_read (λ d, Ok (runtime_generation_pending_artifact_cleanup d));
  candidates ← auto_read (runtime_generation_gc_candidates now retention_days);
  removed ← collect_candidates env candidates;
  mret (pending ++ removed).

End manager.
