(* ===== verification/GenerationFacts.v ===== *)
(** * GenerationFacts: what every statement on the generation tables keeps

    A small program logic for sequences of statements: an invariant that holds
    after each statement, so also where a crash stops the sequence, and a
    postcondition where it ends.  The invariant of the tables is about the
    lineage of the head: every generation that was ever the head, each one the
    parent of the next. *)

From S2P Require Import Prelude PyText PyTime Store RuntimeResources CronStore RuntimeLedger RuntimeManager.

#[local] Open Scope Z_scope.

(** ** Sequences of statements *)

(** From a state with [I] and [P], [I] holds after every statement and [Q] at
    the end if there is one. *)
Definition triple {St A} (I P : St → Prop) (m : Auto St A) (Q : A → St → Prop) : Prop :=
  ∀ s, I s → P s → Forall I (m s).2 ∧ ∀ a, (m s).1 = Ok a → Q a (ends s (m s).2).

Section triples.
Context {St : Type} (I : St → Prop).
Implicit Types (P : St → Prop).

Lemma ends_app (s : St) t t' : ends s (t ++ t') = ends (ends s t) t'.
Proof. unfold ends. rewrite last_app. by destruct (last t'). Qed.

Lemma ends_inv s t : I s → Forall I t → I (ends s t).
Proof.
  intros Hs Ht. unfold ends. destruct (last t) as [x|] eqn:E; [|done]. cbn.
  apply last_Some_elem_of in E. rewrite Forall_forall in Ht. by apply Ht.
Qed.

Lemma triple_ret {A} P (a : A) Q : (∀ s, I s → P s → Q a s) → triple I P (mret a) Q.
Proof. intros H s Hs HP. split; [constructor|]. intros a' [= <-]. by apply H. Qed.

Lemma triple_bind {A B} P (m : Auto St A) R (k : A → Auto St B) Q :
  triple I P m R → (∀ a, triple I (R a) (k a) Q) → triple I P (m ≫= k) Q.
Proof.
  intros Hm Hk s Hs HP. destruct (Hm s Hs HP) as [Ht HR]. unfold mbind, auto_bind.
  destruct (m s) as [[a|e] t]; cbn [fst snd] in *; [|by split].
  destruct (Hk a (ends s t)) as [Ht' HQ]; [by apply ends_inv|by apply HR|].
  destruct (k a (ends s t)) as [r t']; cbn [fst snd] in *. split; [by apply Forall_app|].
  intros b Hb. rewrite ends_app. by apply HQ.
Qed.

Lemma triple_read {A} P (f : St → res A) Q :
  (∀ s a, I s → P s → f s = Ok a → Q a s) → triple I P (auto_read f) Q.
Proof. intros H s Hs HP. split; [constructor|]. intros a Ha. by apply H. Qed.

Lemma triple_lift {A} P (r : res A) Q : (∀ s a, I s → P s → r = Ok a → Q a s) → triple I P (auto_lift r) Q.
Proof. intros H s Hs HP. split; [constructor|]. intros a Ha. by apply H. Qed.

Lemma triple_guard P (C : Prop) `{Decision C} e Q :
  (∀ s, I s → P s → ¬ C → Q tt s) → triple I P (auto_guard C e) Q.
Proof.
  intros HQ s Hs HP. split; [constructor|]. intros [] Ha. unfold auto_guard in *. cbn in *.
  destruct (decide C); [done|]. by apply HQ.
Qed.

Lemma triple_statement {A} P (m : Tx St A) Q :
  (∀ s a s', I s → P s → m s = Ok (a, s') → I s' ∧ Q a s') → triple I P (statement m) Q.
Proof.
  intros H s Hs HP. unfold statement. destruct (m s) as [[a s']|e] eqn:E; [|by split].
  destruct (H s a s' Hs HP E) as [HI HQ]. split; [by constructor|]. intros b [= <-]. done.
Qed.

Lemma triple_post {A} P (m : Auto St A) Q Q' : triple I P m Q → (∀ a s, I s → Q a s → Q' a s) → triple I P m Q'.
Proof.
  intros Hm H s Hs HP. destruct (Hm s Hs HP) as [Ht HQ]. split; [done|]. intros a Ha. apply H; [by apply ends_inv|by apply HQ].
Qed.

Lemma triple_pre {A} P P' (m : Auto St A) Q : triple I P m Q → (∀ s, I s → P' s → P s) → triple I P' m Q.
Proof. intros Hm H s Hs HP. apply Hm; [done|by apply H]. Qed.

(** Programs about which nothing more is said. *)
Definition keeps {A} (m : Auto St A) : Prop := triple I (λ _, True) m (λ _ _, True).

Lemma keeps_triple {A} P (m : Auto St A) : keeps m → triple I P m (λ _ _, True).
Proof. intros H. by apply (triple_pre (λ _, True)). Qed.

Lemma keeps_bind {A B} (m : Auto St A) (k : A → Auto St B) : keeps m → (∀ a, keeps (k a)) → keeps (m ≫= k).
Proof. intros Hm Hk. eapply triple_bind; [exact Hm|]. intros a. exact (Hk a). Qed.
Lemma keeps_ret {A} (a : A) : keeps (mret a).
Proof. by apply triple_ret. Qed.
Lemma keeps_read {A} (f : St → res A) : keeps (auto_read f).
Proof. by apply triple_read. Qed.
Lemma keeps_lift {A} (r : res A) : keeps (auto_lift r).
Proof. by apply triple_lift. Qed.
Lemma keeps_guard (C : Prop) `{Decision C} e : keeps (auto_guard C e).
Proof. by apply triple_guard. Qed.
Lemma keeps_statement {A} (m : Tx St A) : (∀ s a s', I s → m s = Ok (a, s') → I s') → keeps (statement m).
Proof. intros H. apply triple_statement. intros s a s' Hs _ E. split; [by eapply H|done]. Qed.
Lemma keeps_on_error {A B} (m : Auto St A) (h : pyerr → Auto St B) :
  keeps m → (∀ e, keeps (h e)) → keeps (auto_on_error m h).
Proof.
  intros Hm Hh s Hs _. destruct (Hm s Hs Logic.I) as [Ht _]. unfold auto_on_error. split; [|done].
  destruct (m s) as [[a|e] t]; cbn in *; [done|]. apply Forall_app. split; [done|].
  apply Hh; [|done]. by apply ends_inv.
Qed.
End triples.
Create HintDb keeps.
#[export] Hint Resolve keeps_ret keeps_read keeps_lift keeps_guard : keeps.
#[export] Hint Extern 2 (keeps _ (_ ≫= _)) => apply keeps_bind : keeps.

(** ** The invariant *)

Definition displaced (s : GenerationStatus) : bool := bool_decide (s ∈ [GS_retired; GS_quarantined; GS_rejected]).

(** Each generation of [l] is stored, its parent is the one before it. *)
Definition lineage (m : gmap string GenerationRow) (l : list string) : Prop :=
  ∀ i g, l !! i = Some g → ∃ r, m !! g = Some r ∧
    gn_parent_generation_id (gw_generation r) = match i with O => None | S j => l !! j end.

Definition active_ref (d : RtDb) (k : string) (r : ReferenceRow) : Prop := rt_references d !! k = Some r ∧ rr_active r = true.

(** [l]: the heads so far, the present one last; [seen]: the candidates for
    collection that were read. *)
Record rt_inv (seen l : list string) (d : RtDb) : Prop := {
  ri_keyed : ∀ id r, rt_generations d !! id = Some r → gn_generation_id (gw_generation r) = id;
  ri_lineage : lineage (rt_generations d) l;
  ri_nodup : NoDup l;
  ri_head : head_of d = last l;
  ri_profile : ∀ p h, rt_heads d !! p = Some h → p = "global";
  ri_displaced : ∀ id r, rt_generations d !! id = Some r → displaced (gw_status r) = true → id ∈ l;
  ri_gone : ∀ id r, rt_generations d !! id = Some r → is_some (gw_artifact_deleted_at r) = true →
    id ∈ l ∧ head_of d ≠ Some id ∧ ∀ k ref, active_ref d k ref → rr_generation_id ref ≠ id;
  ri_seen : ∀ id, id ∈ seen → id ∈ l ∧ head_of d ≠ Some id;
  ri_owner : ∀ k k' r r', active_ref d k r → active_ref d k' r' → rr_owner_kind r = rr_owner_kind r' →
    rr_owner_id r = rr_owner_id r' → k = k';
  ri_target : ∀ k r, rt_references d !! k = Some r → is_some (rt_generations d !! rr_generation_id r) = true
}.

(** Rows stay, with their content; a mark of deletion stays. *)
Definition rows_kept (d d' : RtDb) : Prop :=
  ∀ id r, rt_generations d !! id = Some r → ∃ r', rt_generations d' !! id = Some r' ∧
    gw_generation r' = gw_generation r ∧ (is_some (gw_artifact_deleted_at r) = true → is_some (gw_artifact_deleted_at r') = true).

#[export] Instance rows_kept_preorder : PreOrder rows_kept.
Proof.
  split.
  - intros d id r H. exists r. auto.
  - intros x y z H1 H2 id r H. destruct (H1 _ _ H) as (r1 & E1 & G1 & D1). destruct (H2 _ _ E1) as (r2 & E2 & G2 & D2).
    exists r2. split; [done|]. split; [congruence|auto].
Qed.

Lemma kept_lineage d d' l : rows_kept d d' → lineage (rt_generations d) l → lineage (rt_generations d') l.
Proof.
  intros K L i g H. destruct (L i g H) as (r & Hr & Hp). destruct (K _ _ Hr) as (r' & Hr' & E & _).
  exists r'. split; [done|]. by rewrite E.
Qed.

(** Tables the invariant does not look at. *)
Lemma inv_same seen l d d' :
  rt_generations d' = rt_generations d → rt_heads d' = rt_heads d → rt_references d' = rt_references d →
  rt_inv seen l d → rt_inv seen l d' ∧ rows_kept d d'.
Proof.
  intros E1 E2 E3 [K L N H P Di G S O T]. split.
  - split; unfold head_of, active_ref in *; rewrite ?E1, ?E2, ?E3; done.
  - intros id r Hr. exists r. by rewrite E1.
Qed.

(** Generation rows change; heads and references do not. *)
Lemma inv_rows seen l d m :
  rows_kept d (d ⟪ rt_generations := m ⟫) →
  (∀ id r, m !! id = Some r → gn_generation_id (gw_generation r) = id) →
  (∀ id r, m !! id = Some r → displaced (gw_status r) = true → id ∈ l) →
  (∀ id r, m !! id = Some r → is_some (gw_artifact_deleted_at r) = true →
     id ∈ l ∧ head_of d ≠ Some id ∧ ∀ k ref, active_ref d k ref → rr_generation_id ref ≠ id) →
  rt_inv seen l d → rt_inv seen l (d ⟪ rt_generations := m ⟫).
Proof.
  intros RK HK HD HG [K L N H P Di G S O T]. split; try done; cbn.
  - exact (kept_lineage d (d ⟪ rt_generations := m ⟫) l RK L).
  - intros k r Hr. specialize (T _ _ Hr). destruct (rt_generations d !! rr_generation_id r) as [x|] eqn:E; [|done].
    destruct (RK _ _ E) as (x' & E' & _). cbn in E'. by rewrite E'.
Qed.

Lemma inv_insert seen l g status now act d u d' :
  rt_inv seen l d → displaced status = false → insert_generation g status now act d = Ok (u, d') →
  rt_inv seen l d' ∧ rows_kept d d' ∧ rt_heads d' = rt_heads d ∧ rt_references d' = rt_references d ∧
  (∃ r, rt_generations d' !! gn_generation_id g = Some r ∧ gw_generation r = g ∧ gw_status r = status ∧
     rt_generations d !! gn_generation_id g = None).
Proof.
  intros I Hs H. unfold insert_generation in H. apply tx_bind_ok in H as (d0 & s & [-> ->]%tx_gets_ok & H).
  apply tx_bind_ok in H as ([] & s & [Hnew ->]%reject_ok & H). apply tx_bind_ok in H as ([] & s & [_ ->]%reject_ok & H).
  apply tx_bind_ok in H as ([] & s & [_ ->]%require_ok & H). injection H as _ <-.
  set (row := mkGenerationRow _ _ _ _ _ _ _).
  assert (rt_generations d !! gn_generation_id g = None) as Hn by (destruct (rt_generations d !! gn_generation_id g); done).
  assert (rows_kept d (d ⟪ rt_generations := <[gn_generation_id g := row]> (rt_generations d) ⟫)) as RK.
  { intros id r Hr. exists r. cbn. rewrite lookup_insert_ne by congruence. auto. }
  split; [|split; [done|split; [done|split; [done|]]]].
  - apply inv_rows; [done|..|done]; intros id r [[<- <-]|[_ Hr]]%lookup_insert_Some.
    + done.
    + by apply (ri_keyed _ _ _ I).
    + cbn. by rewrite Hs.
    + by apply (ri_displaced _ _ _ I).
    + done.
    + by apply (ri_gone _ _ _ I).
  - exists row. cbn. by rewrite lookup_insert_eq.
Qed.

Lemma inv_update seen l id p f d u d' :
  rt_inv seen l d →
  (∀ r, rt_generations d !! id = Some r → p r = true → gw_generation (f r) = gw_generation r ∧
     gw_artifact_deleted_at (f r) = gw_artifact_deleted_at r ∧ (displaced (gw_status (f r)) = true → id ∈ l)) →
  update_generation id p f d = Ok (u, d') →
  rt_inv seen l d' ∧ rows_kept d d' ∧ rt_heads d' = rt_heads d ∧ rt_references d' = rt_references d.
Proof.
  intros I Hf H. injection H as _ <-. set (m := alter _ _ _).
  assert (∀ k r', m !! k = Some r' → ∃ r, rt_generations d !! k = Some r ∧ gw_generation r' = gw_generation r ∧
    gw_artifact_deleted_at r' = gw_artifact_deleted_at r ∧ (displaced (gw_status r') = true → k ∈ l)) as Hm.
  { intros k r'. unfold m. destruct (decide (k = id)) as [->|Hne].
    - rewrite lookup_alter_eq. intros (r & Hr & ->)%fmap_Some. exists r. split; [done|].
      destruct (p r) eqn:Ep; [by apply Hf|]. split; [done|]. split; [done|]. by apply (ri_displaced _ _ _ I).
    - rewrite lookup_alter_ne by done. intros Hr. exists r'. split; [done|]. split; [done|]. split; [done|].
      by apply (ri_displaced _ _ _ I). }
  assert (rows_kept d (d ⟪ rt_generations := m ⟫)) as RK.
  { intros k r Hr. change (∃ r', m !! k = Some r' ∧ gw_generation r' = gw_generation r ∧
      (is_some (gw_artifact_deleted_at r) = true → is_some (gw_artifact_deleted_at r') = true)).
    destruct (m !! k) as [r'|] eqn:E.
    - destruct (Hm _ _ E) as (r0 & Hr0 & Hg & Hd & _). exists r'. rewrite Hr in Hr0. injection Hr0 as <-.
      rewrite Hd. auto.
    - exfalso. unfold m in E. destruct (decide (k = id)) as [->|Hne].
      + rewrite lookup_alter_eq, Hr in E. done.
      + rewrite lookup_alter_ne in E by done. congruence. }
  split; [|by split_and!]. apply inv_rows; [done|..|done]; intros k r' Hr'; destruct (Hm _ _ Hr') as (r & Hr & Hg & Hd & Hs).
  - rewrite Hg. by apply (ri_keyed _ _ _ I).
  - done.
  - rewrite Hd. by apply (ri_gone _ _ _ I).
Qed.

(** *** The head moves *)

Lemma lineage_fresh m l id r :
  lineage m l → NoDup l → m !! id = Some r → gn_parent_generation_id (gw_generation r) = last l → id ∉ l.
Proof.
  intros L N Hr Hp Hin. apply list_elem_of_lookup in Hin as [i Hi]. destruct (L _ _ Hi) as (r' & Hr' & Hp').
  assert (r' = r) as -> by congruence. rewrite Hp in Hp'. rewrite last_lookup in Hp'. destruct i as [|j].
  - apply lookup_lt_Some in Hi as Hl. destruct (lookup_lt_is_Some_2 l (pred (length l)) ltac:(lia)) as [x Hx]. congruence.
  - apply lookup_lt_Some in Hi as Hl. destruct (lookup_lt_is_Some_2 l (pred (length l)) ltac:(lia)) as [x Hx].
    rewrite Hx in Hp'. symmetry in Hp'. pose proof (NoDup_lookup _ _ _ _ N Hp' Hx). lia.
Qed.

Lemma inv_head seen l d id r h :
  rt_inv seen l d → rt_generations d !! id = Some r → gn_parent_generation_id (gw_generation r) = head_of d →
  hd_generation_id h = id →
  rt_inv seen (l ++ [id]) (d ⟪ rt_heads := <["global" := h]> (rt_heads d) ⟫).
Proof.
  intros I Hr Hp Hh. pose proof (ri_head _ _ _ I) as Eh. rewrite Eh in Hp.
  assert (id ∉ l) as Hfresh by (eapply lineage_fresh; [apply I|apply I|exact Hr|exact Hp]).
  assert (head_of (d ⟪ rt_heads := <["global" := h]> (rt_heads d) ⟫) = Some id) as Eh'.
  { unfold head_of. cbn. by rewrite lookup_insert_eq, <- Hh. }
  assert (∀ g, g ∈ l → g ∈ l ++ [id] ∧ Some id ≠ Some g) as Hold.
  { intros g Hg. split; [apply elem_of_app; by left|]. intros [= ->]. done. }
  destruct I as [K L N H P Di G S O T]. split; try done; rewrite ?Eh'.
  - intros i g Hi. apply lookup_app_Some in Hi as [Hi|[Hlen Hi]].
    + destruct (L _ _ Hi) as (r' & Hr' & Hp'). exists r'. split; [done|]. rewrite Hp'. destruct i as [|j]; [done|].
      symmetry. apply lookup_app_l. apply lookup_lt_Some in Hi. lia.
    + destruct (i - length l)%nat as [|n] eqn:En; [|by destruct n]. injection Hi as <-. assert (i = length l) as -> by lia.
      exists r. split; [done|]. rewrite Hp, last_lookup. destruct (length l) as [|j] eqn:El; [by apply nil_length_inv in El as ->|].
      cbn. rewrite lookup_app_l by lia. done.
  - apply NoDup_app. split; [done|]. split; [|apply NoDup_singleton]. intros x Hx ->%list_elem_of_singleton. done.
  - by rewrite last_snoc.
  - intros p x Hx. cbn in Hx. apply lookup_insert_Some in Hx as [[<- _]|[_ Hx]]; [done|]. by eapply P.
  - intros x y Hy Hd. apply Hold. by eapply Di.
  - intros x y Hy Hd. destruct (G _ _ Hy Hd) as (Hl & _ & Href). destruct (Hold _ Hl). by split_and!.
  - intros x Hx. apply Hold. by apply S.
Qed.

(** *** References *)

Lemma active_reference_spec k o d :
  match active_reference k o d with
  | Some (id, r) => active_ref d id r ∧ rr_owner_kind r = k ∧ rr_owner_id r = o
  | None => ∀ id r, active_ref d id r → rr_owner_kind r = k → rr_owner_id r = o → False
  end.
Proof.
  unfold active_reference. destruct (List.find _ _) as [[id r]|] eqn:E.
  - apply List.find_some in E as [Hin E]. apply list_elem_of_In, elem_of_map_to_list in Hin.
    rewrite !andb_true_iff, !bool_decide_eq_true in E. cbn in *. destruct E as [[E1 E2] E3]. by split_and!.
  - intros id r [Hr Ha] <- <-. pose proof (List.find_none _ _ E (id, r)) as Hf. cbn in Hf.
    rewrite !bool_decide_eq_true_2, Ha in Hf by done. apply elem_of_map_to_list, list_elem_of_In in Hr. by apply Hf in Hr.
Qed.

Lemma inv_references seen l d m :
  (∀ k r, m !! k = Some r → is_some (rt_generations d !! rr_generation_id r) = true) →
  (∀ k r, m !! k = Some r → rr_active r = true →
     active_ref d k r ∨ available (rr_generation_id r) d = true ∧
       ∀ k' r', m !! k' = Some r' → rr_active r' = true → rr_owner_kind r' = rr_owner_kind r → rr_owner_id r' = rr_owner_id r → k' = k) →
  rt_inv seen l d → rt_inv seen l (d ⟪ rt_references := m ⟫) ∧ rows_kept d (d ⟪ rt_references := m ⟫).
Proof.
  intros HT HA [K L N H P Di G S O T]. split; [|by intros id r Hr; exists r]. split; try done.
  - intros id r Hr Hd. destruct (G _ _ Hr Hd) as (Hl & Hh & Href). split; [done|]. split; [done|].
    intros k ref [Hk Ha] E. destruct (HA _ _ Hk Ha) as [Hold|[Hav _]]; [by eapply Href|].
    unfold available in Hav. change (rt_generations d !! id = Some r) in Hr. rewrite E, Hr in Hav.
    destruct (gw_artifact_deleted_at r); done.
  - intros k k' r r' [Hk Ha] [Hk' Ha'] E1 E2. destruct (HA _ _ Hk Ha) as [Hold|[_ Hu]]; [|by symmetry; apply (Hu k' r')].
    destruct (HA _ _ Hk' Ha') as [Hold'|[_ Hu]]; [|by apply (Hu k r)]. by eapply O.
Qed.

Lemma inv_release seen l p now d n d' :
  rt_inv seen l d → release_where p now d = Ok (n, d') → rt_inv seen l d' ∧ rows_kept d d'.
Proof.
  intros I H. apply tx_bind_ok in H as (d0 & s & [-> ->]%tx_gets_ok & H). cbv zeta in H.
  apply tx_bind_ok in H as (u & s & H & [_ ->]%tx_ret_ok). injection H as _ <-. apply inv_references; [..|done].
  - intros k r. rewrite lookup_fmap. intros (r0 & Hr0 & ->)%fmap_Some. pose proof (ri_target _ _ _ I _ _ Hr0) as Ht.
    by destruct (_ && _).
  - intros k r. rewrite lookup_fmap. intros (r0 & Hr0 & ->)%fmap_Some Ha. left. destruct (rr_active r0 && p r0); [done|]. by split.
Qed.

(** The hash that names a reference is not the one of a reference to another
    generation. *)
Definition reference_unshared (k o g : string) (d : RtDb) : Prop :=
  ∀ r, rt_references d !! reference_id k o g = Some r →
    rr_generation_id r = g ∧ rr_owner_kind r = k ∧ rr_owner_id r = o.

Lemma inv_upsert seen l g k o now d u d' :
  rt_inv seen l d → available g d = true → active_reference k o d = None → reference_unshared k o g d →
  upsert_reference g k o now d = Ok (u, d') → rt_inv seen l d' ∧ rows_kept d d'.
Proof.
  intros I Hav Hno Hun H. apply tx_bind_ok in H as (d0 & s & [-> ->]%tx_gets_ok & H). cbv zeta in H.
  apply tx_bind_ok in H as ([] & s & [_ ->]%require_ok & H). apply tx_bind_ok in H as ([] & s & [Hg ->]%reject_ok & H).
  injection H as _ <-. set (row := match rt_references d !! reference_id k o g with Some _ => _ | None => _ end).
  assert (rr_generation_id row = g ∧ rr_owner_kind row = k ∧ rr_owner_id row = o) as (E1 & E2 & E3).
  { unfold row. destruct (rt_references d !! reference_id k o g) as [old|] eqn:E; [|done]. by apply Hun in E. }
  pose proof (active_reference_spec k o d) as Sp. rewrite Hno in Sp.
  apply inv_references; [..|done].
  - intros i r [[<- <-]|[_ Hr]]%lookup_insert_Some; [|by apply (ri_target _ _ _ I _ _ Hr)].
    rewrite E1. destruct (rt_generations d !! g); done.
  - intros i r Hi Ha. destruct (decide (i = reference_id k o g)) as [->|Hne].
    + rewrite lookup_insert_eq in Hi. injection Hi as <-. right. split; [by rewrite E1|].
      rewrite E2, E3. intros k' r' [[<- _]|[_ Hr']]%lookup_insert_Some; [done|]. intros Ha' Ek Eo.
      exfalso. by apply (Sp k' r').
    + rewrite lookup_insert_ne in Hi by done. left. by split.
Qed.

Lemma inv_bind_run seen l run g now d u d' :
  rt_inv seen l d → bind_run_generation run g now d = Ok (u, d') → rt_inv seen l d' ∧ rows_kept d d'.
Proof.
  intros I H. apply tx_bind_ok in H as (d0 & s & [-> ->]%tx_gets_ok & H).
  apply tx_bind_ok in H as ([] & s & [Hav ->]%reject_ok & H). cbv zeta in H.
  apply tx_bind_ok in H as ([] & s & [Hno ->]%reject_ok & H). injection H as _ <-.
  apply not_false_is_true in Hav. pose proof (active_reference_spec "run" run d) as Sp.
  destruct (active_reference "run" run d) as [[i x]|] eqn:Ea; [by destruct Hno; right|].
  apply inv_references; [..|done].
  - intros i r [[<- <-]|[_ Hr]]%lookup_insert_Some; [|by apply (ri_target _ _ _ I _ _ Hr)]. cbn. revert Hav. unfold available.
    by destruct (rt_generations d !! g).
  - intros i r [[<- <-]|[Hne Hr]]%lookup_insert_Some Ha; [|by left]. right. cbn. split; [done|].
    intros k' r' [[<- _]|[_ Hr']]%lookup_insert_Some; [done|]. intros Ha' Ek Eo. exfalso. by apply (Sp k' r').
Qed.

Lemma is_head_spec seen l id d : rt_inv seen l d → is_head id d = true ↔ head_of d = Some id.
Proof.
  intros I. unfold is_head, head_of. rewrite existsb_exists. split.
  - intros ([p h] & Hin & E%bool_decide_eq_true). apply list_elem_of_In, elem_of_map_to_list in Hin. cbn in *.
    rewrite (ri_profile _ _ _ I _ _ Hin) in Hin. by rewrite Hin, <- E.
  - intros (h & Hh & E)%fmap_Some. exists ("global", h). split; [by apply list_elem_of_In, elem_of_map_to_list|].
    by apply bool_decide_eq_true.
Qed.

Lemma referenced_false id d k r : referenced id d = false → active_ref d k r → rr_generation_id r ≠ id.
Proof.
  intros H [Hr Ha] E. apply not_true_iff_false in H. apply H. apply existsb_exists. exists (k, r). cbn.
  rewrite (bool_decide_eq_true_2 _ E), Ha. split; [|done]. by apply list_elem_of_In, elem_of_map_to_list.
Qed.

(** A candidate that was seen is marked: it can never be needed again. *)
Lemma inv_delete seen l id f p d u d' :
  rt_inv seen l d → id ∈ seen → referenced id d = false →
  (∀ r, gw_generation (f r) = gw_generation r ∧ gw_status (f r) = gw_status r ∧ is_some (gw_artifact_deleted_at (f r)) = true) →
  update_generation id p f d = Ok (u, d') → rt_inv seen l d' ∧ rows_kept d d'.
Proof.
  intros I Hs Href Hf H. injection H as _ <-. set (m := alter _ _ _). destruct (ri_seen _ _ _ I _ Hs) as [Hl Hh].
  assert (∀ k r', m !! k = Some r' → ∃ r, rt_generations d !! k = Some r ∧ gw_generation r' = gw_generation r ∧
    gw_status r' = gw_status r ∧ (k = id ∨ r' = r)) as Hm.
  { intros k r'. unfold m. destruct (decide (k = id)) as [->|Hne].
    - rewrite lookup_alter_eq. intros (r & Hr & ->)%fmap_Some. exists r. split; [done|].
      destruct (p r); [destruct (Hf r) as (E1 & E2 & _)|]; auto.
    - rewrite lookup_alter_ne by done. intros Hr. exists r'. auto. }
  assert (rows_kept d (d ⟪ rt_generations := m ⟫)) as RK.
  { intros k r Hr. cbn. unfold m. destruct (decide (k = id)) as [->|Hne].
    - rewrite lookup_alter_eq, Hr. cbn. eexists. split; [done|]. destruct (p r); [destruct (Hf r) as (E1 & E2 & E3)|]; auto.
    - rewrite lookup_alter_ne by done. exists r. auto. }
  split; [|done]. apply inv_rows; [done|..|done]; intros k r' Hr'; destruct (Hm _ _ Hr') as (r & Hr & Hg & Es & Hk).
  - rewrite Hg. by apply (ri_keyed _ _ _ I).
  - rewrite Es. by apply (ri_displaced _ _ _ I).
  - intros Hd. destruct Hk as [->| ->]; [|by apply (ri_gone _ _ _ I _ _ Hr)]. split; [done|]. split; [done|].
    intros i ref Hi. by eapply referenced_false.
Qed.

(** ** Operations *)

(** Where a state can be after [d0], whose heads so far were [l]. *)
Definition safe (seen l : list string) (d0 d : RtDb) : Prop :=
  ∃ l', l `prefix_of` l' ∧ rt_inv seen l' d ∧ rows_kept d0 d.

Lemma safe_here seen l d : rt_inv seen l d → safe seen l d d.
Proof. intros I. exists l. by split_and!. Qed.

Lemma safe_step seen l d0 d d' :
  (∀ l', rt_inv seen l' d → rt_inv seen l' d' ∧ rows_kept d d') → safe seen l d0 d → safe seen l d0 d'.
Proof. intros H (l' & Hp & I & K). destruct (H _ I) as [I' K']. exists l'. split_and!; [done..|by etrans]. Qed.

Section operations.
Context (seen l : list string) (d0 : RtDb).
Notation I := (safe seen l d0).

Lemma attempt_keeps id r : keeps I (statement (insert_attempt id r)).
Proof.
  apply keeps_statement. intros d u d' Hs H. apply tx_bind_ok in H as (d1 & s & [-> ->]%tx_gets_ok & H).
  apply tx_bind_ok in H as ([] & s & [_ ->]%reject_ok & H). apply tx_bind_ok in H as ([] & s & [_ ->]%reject_ok & H).
  injection H as _ <-. revert Hs. apply safe_step. intros l' I. by eapply inv_same.
Qed.

Lemma insert_keeps g now : keeps I (statement (insert_generation g GS_preparing now None)).
Proof.
  apply keeps_statement. intros d u d' Hs H. revert Hs. apply safe_step. intros l' I.
  by destruct (inv_insert seen l' g GS_preparing now None d u d' I eq_refl H) as (I' & K & _).
Qed.

Lemma release_keeps p now : keeps I (statement (release_where p now)).
Proof. apply keeps_statement. intros d u d' Hs H. revert Hs. apply safe_step. intros l' I. by eapply inv_release. Qed.

#[local] Hint Resolve attempt_keeps insert_keeps release_keeps : keeps.
#[local] Hint Extern 1 (keeps _ (if ?b then _ else _)) => destruct b : keeps.
#[local] Hint Extern 1 (keeps _ (match ?o with Some _ => _ | None => _ end)) => destruct o : keeps.

Lemma record_attempt_keeps env plan actor status error : keeps I (record_runtime_reload_attempt env plan actor status error).
Proof. unfold record_runtime_reload_attempt. auto 10 with keeps. Qed.
Lemma record_failure_keeps env actor error : keeps I (record_runtime_reload_failure env actor error).
Proof. unfold record_runtime_reload_failure. auto with keeps. Qed.

Lemma approve_keeps env plan actor : keeps I (approve_runtime_reload_plan env plan actor).
Proof.
  unfold approve_runtime_reload_plan. apply keeps_bind; [auto with keeps|]. intros o. apply keeps_bind; [auto with keeps|]. intros _.
  apply keeps_statement. intros d u d' Hs [= _ <-]. revert Hs. apply safe_step. intros l' I. by eapply inv_same.
Qed.

Lemma release_owner_keeps env k o : keeps I (release_runtime_generation_reference env k o).
Proof. unfold release_runtime_generation_reference. auto with keeps. Qed.
Lemma release_kind_keeps env k : keeps I (release_runtime_generation_references_by_kind env k).
Proof. unfold release_runtime_generation_references_by_kind. auto with keeps. Qed.
Lemma reconcile_keeps env db cron : keeps I (reconcile_runtime_generation_references env db cron).
Proof. unfold reconcile_runtime_generation_references. cbv zeta. auto 10 with keeps. Qed.

Lemma acquire_keeps env g k o :
  triple I (reference_unshared k o g) (acquire_runtime_generation_reference env g k o) (λ _ _, True).
Proof.
  unfold acquire_runtime_generation_reference.
  eapply (triple_bind _ _ _ (λ b d, reference_unshared k o g d ∧ available g d = b)).
  { apply triple_read. intros d b _ Hu [= <-]. done. }
  intros usable. eapply (triple_bind _ _ _ (λ _ d, reference_unshared k o g d ∧ available g d = true)).
  { apply triple_guard. intros d _ [Hu <-] H. by destruct (available g d). }
  intros _. eapply (triple_bind _ _ _ (λ o' d, (reference_unshared k o g d ∧ available g d = true) ∧
    runtime_generation_reference k o d = o')).
  { apply triple_read. intros d a _ Hav [= <-]. done. }
  intros [row|].
  { apply keeps_triple, keeps_bind; auto with keeps. }
  eapply (triple_bind _ _ _ (λ _ _, True)); [|intros _; apply keeps_read]. apply triple_statement.
  intros d u d' Hs [[Hu Hav] Hno] H. split; [|done]. revert Hs. apply safe_step. intros l' I.
  eapply inv_upsert; [exact I|exact Hav| |exact Hu|exact H].
  unfold runtime_generation_reference in Hno. by destruct (active_reference k o d).
Qed.

Lemma bind_run_keeps run g now : keeps I (statement (bind_run_generation run g now)).
Proof. apply keeps_statement. intros d u d' Hs H. revert Hs. apply safe_step. intros l' I. by eapply inv_bind_run. Qed.

(** A retired row was a head, so may be quarantined. *)
Lemma quarantine_keeps id :
  keeps I (statement (update_generation id (λ r, bool_decide (gw_status r = GS_retired)) (λ r, r ⟪ gw_status := GS_quarantined ⟫))).
Proof.
  apply keeps_statement. intros d u d' Hs H. revert Hs. apply safe_step. intros l' I.
  assert (rt_inv seen l' d' ∧ rows_kept d d' ∧ rt_heads d' = rt_heads d ∧ rt_references d' = rt_references d) as (I' & K & _).
  2: done.
  refine (inv_update seen l' id _ _ d u d' I _ H).
  intros r Hr E%bool_decide_eq_true. split; [done|]. split; [done|]. intros _.
  apply (ri_displaced _ _ _ I _ _ Hr). by rewrite E.
Qed.
#[local] Hint Resolve quarantine_keeps : keeps.

Lemma plugin_failure_keeps env g p pr k e c t : keeps I (record_runtime_plugin_failure env g p pr k e c t).
Proof.
  unfold record_runtime_plugin_failure. cbv zeta. apply keeps_bind; [auto with keeps|]. intros old. apply keeps_bind.
  { apply keeps_statement. intros d u d' Hs H. apply tx_bind_ok in H as (d1 & s & [-> ->]%tx_gets_ok & H).
    apply tx_bind_ok in H as ([] & s & [_ ->]%reject_ok & H). injection H as _ <-.
    revert Hs. apply safe_step. intros l' I. by eapply inv_same. }
  intros _. auto with keeps.
Qed.
Lemma plugin_success_keeps env g p pr : keeps I (record_runtime_plugin_success env g p pr).
Proof.
  apply keeps_statement. intros d u d' Hs H. injection H as _ <-. revert Hs. apply safe_step. intros l' I. by eapply inv_same.
Qed.
Lemma mark_keeps g : keeps I (mark_runtime_generation_quarantined g).
Proof. unfold mark_runtime_generation_quarantined. auto 10 with keeps. Qed.

Lemma delete_keeps env g : g ∈ seen → keeps I (delete_runtime_generation_if_unreferenced env g).
Proof.
  intros Hg. unfold delete_runtime_generation_if_unreferenced.
  eapply (triple_bind _ _ _ (λ b d, referenced g d || is_head g d = b)); [apply triple_read; congruence|].
  intros [|]; [by apply triple_ret|]. cbv zeta.
  eapply (triple_bind _ _ _ (λ _ d, referenced g d || is_head g d = false)); [apply triple_read; congruence|].
  intros old. eapply (triple_bind _ _ _ (λ _ _, True)); [|intros _; by apply triple_ret]. apply triple_statement.
  intros d u d' Hs [Href _]%orb_false_iff H. split; [|done]. revert Hs. apply safe_step. intros l' I.
  refine (inv_delete seen l' g _ _ d u d' I Hg Href _ H). by intros r.
Qed.

(** Activation: the row of the new generation is there before the head moves
    to it, and the head is still its parent. *)
Definition ready_to_move (g : Generation) (head : option HeadRow) (d : RtDb) : Prop :=
  rt_heads d !! "global" = head ∧ gn_parent_generation_id g = hd_generation_id <$> head ∧
  ∃ r, rt_generations d !! gn_generation_id g = Some r ∧ gw_generation r = g.

Lemma moved_safe g head h d :
  safe seen l d0 d → ready_to_move g head d → hd_generation_id h = gn_generation_id g →
  safe seen l d0 (d ⟪ rt_heads := <["global" := h]> (rt_heads d) ⟫).
Proof.
  intros (l' & Hp & I & K) (Hh & Hpar & r & Hr & <-) Eh. exists (l' ++ [gn_generation_id (gw_generation r)]).
  split; [by apply prefix_app_r|]. split; [|exact K]. eapply inv_head; [exact I|exact Hr| |exact Eh].
  unfold head_of. by rewrite Hh.
Qed.

Lemma existing_updated g id head f d u d' :
  safe seen l d0 d → ready_to_move g head d →
  (∀ r, rt_generations d !! id = Some r → gw_generation (f r) = gw_generation r ∧
     gw_artifact_deleted_at (f r) = gw_artifact_deleted_at r ∧
     (displaced (gw_status (f r)) = true → hd_generation_id <$> head = Some id)) →
  ∀ p, update_generation id p f d = Ok (u, d') → safe seen l d0 d' ∧ ready_to_move g head d'.
Proof.
  intros (l' & Hp & I & K) (Hh & Hpar & r & Hr & Hg) Hf p H.
  assert (rt_inv seen l' d' ∧ rows_kept d d' ∧ rt_heads d' = rt_heads d ∧ rt_references d' = rt_references d) as (I' & K' & E1 & E2).
  { refine (inv_update seen l' id p f d u d' I _ H). intros x Hx _. destruct (Hf _ Hx) as (F1 & F2 & F3). split; [done|]. split; [done|]. intros Hd.
    specialize (F3 Hd). pose proof (ri_head _ _ _ I) as Eh. unfold head_of in Eh. rewrite Hh, F3 in Eh.
    by apply last_Some_elem_of. }
  split; [exists l'; split_and!; [done..|by etrans]|]. split; [by rewrite E1|]. split; [done|].
  destruct (K' _ _ Hr) as (r' & Hr' & E & _). exists r'. split; [done|]. congruence.
Qed.

Lemma move_head_ok id now rev d b d' :
  move_head id now rev d = Ok (b, d') →
  (b = true ∧ ∃ h, rt_heads d !! "global" = Some h ∧ hd_revision h = rev ∧
     d' = d ⟪ rt_heads := <["global" := mkHeadRow id (rev + 1) now]> (rt_heads d) ⟫) ∨
  (b = false ∧ d' = d).
Proof.
  intros (d1 & s & [-> ->]%tx_gets_ok & H)%tx_bind_ok. destruct (rt_heads d !! "global") as [h|] eqn:E.
  - case_decide.
    + apply tx_bind_ok in H as (u & s & H & [Hb ->]%tx_ret_ok). injection H as _ <-. left. split; [done|]. by exists h.
    + apply tx_ret_ok in H as [Hb ->]. by right.
  - apply tx_ret_ok in H as [Hb ->]. by right.
Qed.

Lemma activate_keeps env plan actor : keeps I (activate_runtime_generation env plan actor).
Proof.
  unfold activate_runtime_generation. cbv zeta. set (g := pl_generation plan).
  eapply (triple_bind _ _ _ (λ head d, rt_heads d !! "global" = head)); [apply triple_read; congruence|]. intros head.
  eapply (triple_bind _ _ _ (λ _ d, rt_heads d !! "global" = head ∧ gn_parent_generation_id g = hd_generation_id <$> head)).
  { apply triple_guard. intros d _ Hh Hn. split; [done|]. by destruct (decide (gn_parent_generation_id g = hd_generation_id <$> head)). }
  intros _. eapply (triple_bind _ _ _ (λ ex d, (rt_heads d !! "global" = head ∧ gn_parent_generation_id g = hd_generation_id <$> head)
    ∧ rt_generations d !! gn_generation_id g = ex)); [apply triple_read; by intros d a _ HP [= <-]|].
  intros ex. eapply (triple_bind _ _ _ (λ _ d, (rt_heads d !! "global" = head ∧ gn_parent_generation_id g = hd_generation_id <$> head)
    ∧ rt_generations d !! gn_generation_id g = ex ∧ from_option (λ r, gw_generation r = g) True ex)).
  { apply triple_guard. intros d _ [H1 H2] Hn. split; [done|]. split; [done|]. destruct ex as [r|]; [|done]. cbn.
    case_bool_decide; [done|]. by destruct Hn. }
  intros _. eapply (triple_bind _ _ _ (λ _, ready_to_move g head)).
  { destruct ex as [r|]; apply triple_statement; intros d u d' Hs [[H1 H2] [H3 H4]] H.
    - assert (ready_to_move g head d) as Hr by (split; [exact H1|]; split; [exact H2|]; exists r; split; [exact H3|exact H4]).
      refine (existing_updated g (gn_generation_id g) head _ d u d' Hs Hr _ _ H). by intros x _.
    - destruct Hs as (l' & Hp & I & K).
      destruct (inv_insert seen l' g GS_active (re_now env) (Some (re_now env)) d u d' I eq_refl H) as (I' & K' & E1 & _ & r & Hr & Hg & _).
      split; [exists l'; split_and!; [done..|by etrans]|]. split; [by rewrite E1|]. split; [exact H2|by exists r]. }
  intros _. eapply (triple_bind _ _ _ (λ _, ready_to_move g head)).
  { destruct (hd_generation_id <$> head) as [c|] eqn:Ec; [|by apply triple_ret]. destruct (_ && _); [|by apply triple_ret].
    apply triple_statement. intros d u d' Hs Hr H.
    refine (existing_updated g c head _ d u d' Hs Hr _ _ H). intros x _. split; [done|]. by split. }
  intros _. apply (triple_bind _ _ _ (λ _ _, True)).
  { destruct head as [h|].
    - eapply (triple_bind _ _ _ (λ _ _, True)); [|intros b; apply keeps_guard]. apply triple_statement.
      intros d b d' Hs Hr H. split; [|done]. apply move_head_ok in H as [(-> & h' & _ & _ & ->)|[-> ->]]; [|done].
      by eapply moved_safe.
    - apply triple_statement. intros d u d' Hs Hr [= _ <-]. split; [|done]. by eapply moved_safe. }
  intros _. apply keeps_bind; [apply attempt_keeps|]. intros _. apply keeps_ret.
Qed.
End operations.

(** ** The system

    Any operation of the controller may run, and stop after any of its
    statements; the candidates for collection may have been read long ago. *)
Record RtSys := mkRtSys { rs_db : RtDb; rs_seen : list string }.

Inductive op_trace (seen : list string) (d : RtDb) : list RtDb → Prop :=
| ot_attempt env plan actor status error : op_trace seen d (record_runtime_reload_attempt env plan actor status error d).2
| ot_failure env actor error : op_trace seen d (record_runtime_reload_failure env actor error d).2
| ot_approve env plan actor : op_trace seen d (approve_runtime_reload_plan env plan actor d).2
| ot_activate env plan actor : op_trace seen d (activate_runtime_generation env plan actor d).2
| ot_acquire env g k o : reference_unshared k o g d → op_trace seen d (acquire_runtime_generation_reference env g k o d).2
| ot_release env k o : op_trace seen d (release_runtime_generation_reference env k o d).2
| ot_release_kind env k : op_trace seen d (release_runtime_generation_references_by_kind env k d).2
| ot_reconcile env db cron : op_trace seen d (reconcile_runtime_generation_references env db cron d).2
| ot_bind_run run g now : op_trace seen d (statement (bind_run_generation run g now) d).2
| ot_plugin_failure env g p pr k e c t : op_trace seen d (record_runtime_plugin_failure env g p pr k e c t d).2
| ot_plugin_success env g p pr : op_trace seen d (record_runtime_plugin_success env g p pr d).2
| ot_quarantine g : op_trace seen d (mark_runtime_generation_quarantined g d).2
| ot_delete env g : g ∈ seen → op_trace seen d (delete_runtime_generation_if_unreferenced env g d).2.

Inductive rt_step : RtSys → RtSys → Prop :=
| rt_candidates now days c d seen :
    runtime_generation_gc_candidates now days d = Ok c → rt_step (mkRtSys d seen) (mkRtSys d (c ++ seen))
| rt_op d seen t d' : op_trace seen d t → d' ∈ t → rt_step (mkRtSys d seen) (mkRtSys d' seen).

Definition rt_reachable (s : RtSys) : Prop := rtc rt_step (mkRtSys empty_rt []) s.

Lemma op_trace_safe seen l d t :
  rt_inv seen l d → op_trace seen d t → Forall (safe seen l d) t.
Proof.
  intros I H. pose proof (safe_here _ _ _ I) as Hs.
  assert (∀ A (m : Auto RtDb A), keeps (safe seen l d) m → Forall (safe seen l d) (m d).2) as Hk.
  { intros A m K. by apply K. }
  destruct H as [| | | |env g k o Hu| | | | | | | |]; [apply Hk..| |apply Hk|apply Hk|apply Hk|apply Hk|apply Hk|apply Hk|apply Hk|apply Hk].
  - apply record_attempt_keeps.
  - apply record_failure_keeps.
  - apply approve_keeps.
  - apply activate_keeps.
  - exact (proj1 (acquire_keeps seen l d env g k o d Hs Hu)).
  - apply release_owner_keeps.
  - apply release_kind_keeps.
  - apply reconcile_keeps.
  - apply bind_run_keeps.
  - apply plugin_failure_keeps.
  - apply plugin_success_keeps.
  - apply mark_keeps.
  - by apply delete_keeps.
Qed.

Lemma candidates_inv seen l d now days c :
  rt_inv seen l d → runtime_generation_gc_candidates now days d = Ok c → rt_inv (c ++ seen) l d.
Proof.
  intros I (t & _ & [= <-])%res_bind_ok. destruct I as [K L N H P Di G S O T]. split; try done.
  intros id [Hc|Hs]%elem_of_app; [|by apply S]. apply list_elem_of_fmap in Hc as ([k r] & -> & Hc).
  apply list_elem_of_filter in Hc as ((Hst & _ & _ & _ & Hh) & Hin). apply elem_of_map_to_list in Hin. cbn in *. split.
  - eapply Di; [exact Hin|]. by apply bool_decide_eq_true.
  - intros E. assert (rt_inv seen l d) as I by by split. apply (is_head_spec _ _ _ _ I) in E. congruence.
Qed.

(** Every step keeps the invariant and only extends the lineage. *)
Lemma rt_step_inv s s' l :
  rt_step s s' → rt_inv (rs_seen s) l (rs_db s) →
  ∃ l', l `prefix_of` l' ∧ rt_inv (rs_seen s') l' (rs_db s') ∧ rows_kept (rs_db s) (rs_db s').
Proof.
  intros [now days c d seen H|d seen t d' Ht Hd] I; cbn in *.
  - exists l. split; [done|]. split; [by eapply candidates_inv|done].
  - pose proof (op_trace_safe _ _ _ _ I Ht) as Hf. rewrite Forall_forall in Hf. exact (Hf _ Hd).
Qed.

Lemma rt_steps_inv s s' l :
  rtc rt_step s s' → rt_inv (rs_seen s) l (rs_db s) →
  ∃ l', l `prefix_of` l' ∧ rt_inv (rs_seen s') l' (rs_db s') ∧ rows_kept (rs_db s) (rs_db s').
Proof.
  intros H. revert l. induction H as [s|s s1 s2 H1 _ IH]; intros l I; [by exists l|].
  destruct (rt_step_inv _ _ _ H1 I) as (l1 & P1 & I1 & K1). destruct (IH _ I1) as (l2 & P2 & I2 & K2).
  exists l2. split; [by etrans|]. split; [done|]. by etrans.
Qed.

Lemma empty_rt_inv : rt_inv [] [] empty_rt.
Proof.
  split; cbn.
  - done.
  - done.
  - apply NoDup_nil_2.
  - done.
  - done.
  - done.
  - done.
  - intros id H. by apply elem_of_nil in H.
  - by intros k k' r r' [Hr _].
  - done.
Qed.

Lemma rt_reachable_inv s : rt_reachable s → ∃ l, rt_inv (rs_seen s) l (rs_db s).
Proof. intros H. destruct (rt_steps_inv _ _ [] H empty_rt_inv) as (l & _ & I & _). by exists l. Qed.

(** ** What a quarantined plugin takes with it *)

(** [q] is the plugin itself, or requires something that needs it. *)
Inductive needs (ds : list Descriptor) (plugin : string) : string → Prop :=
| needs_self : needs ds plugin plugin
| needs_step d q : d ∈ ds → q ∈ rd_requires_plugins d → needs ds plugin q → needs ds plugin (rd_plugin_id d).

Section closure.
Context (ds : list Descriptor).

(** How many of [l] are not in [acc] yet. *)
Definition missing (l : list Descriptor) (acc : list string) : nat := length (filter (λ d, rd_plugin_id d ∉ acc) l).

Lemma missing_le l acc acc' : acc ⊆ acc' → (missing l acc' ≤ missing l acc)%nat.
Proof.
  intros H. unfold missing. induction l as [|d l IH]; [done|]. rewrite !filter_cons.
  destruct (decide (rd_plugin_id d ∉ acc')), (decide (rd_plugin_id d ∉ acc)) as [|Hn]; cbn; try lia.
  exfalso. apply Hn. intros Hin. by apply H in Hin.
Qed.

Definition pass_one (acc : list string) (d : Descriptor) : list string :=
  if bool_decide (rd_plugin_id d ∉ acc) && existsb (λ r, bool_decide (r ∈ acc)) (rd_requires_plugins d)
  then rd_plugin_id d :: acc else acc.

Lemma pass_one_cases acc d :
  (pass_one acc d = acc ∧ (rd_plugin_id d ∈ acc ∨ ∀ q, q ∈ rd_requires_plugins d → q ∉ acc)) ∨
  (pass_one acc d = rd_plugin_id d :: acc ∧ rd_plugin_id d ∉ acc ∧ ∃ q, q ∈ rd_requires_plugins d ∧ q ∈ acc).
Proof.
  unfold pass_one. case_bool_decide as Hd; cbn [andb].
  - destruct (existsb _ _) eqn:E; [right|left]; (split; [done|]).
    + split; [done|]. apply existsb_exists in E as (q & Hq%list_elem_of_In & Hin%bool_decide_eq_true). by exists q.
    + right. intros q Hq Hin. apply not_true_iff_false in E. apply E, existsb_exists. exists q.
      split; [by apply list_elem_of_In|by apply bool_decide_eq_true].
  - left. split; [done|]. left. by destruct (decide (rd_plugin_id d ∈ acc)).
Qed.

(** A pass only adds; it makes what is missing fewer; when it adds nothing,
    nothing more is to be added. *)
Lemma pass_spec l acc : l ⊆ ds →
  acc ⊆ foldl pass_one acc l ∧ (length acc ≤ length (foldl pass_one acc l))%nat ∧
  (missing l (foldl pass_one acc l) + (length (foldl pass_one acc l) - length acc) ≤ missing l acc)%nat ∧
  (length (foldl pass_one acc l) = length acc →
     foldl pass_one acc l = acc ∧ ∀ d, d ∈ l → rd_plugin_id d ∈ acc ∨ ∀ q, q ∈ rd_requires_plugins d → q ∉ acc).
Proof.
  revert acc. induction l as [|d l IH]; intros acc Hl; cbn [foldl].
  - split; [done|]. split; [done|]. split; [lia|]. intros _. split; [done|]. by intros d ?%elem_of_nil.
  - assert (l ⊆ ds) as Hl' by (intros x Hx; apply Hl; by right). destruct (IH (pass_one acc d) Hl') as (H1 & H2 & H3 & H4).
    set (r := foldl pass_one (pass_one acc d) l) in *.
    destruct (pass_one_cases acc d) as [[E Hd]|(E & Hd & q & Hq & Hin)]; rewrite E in *.
    + split; [done|]. split; [done|]. split.
      * unfold missing in *. rewrite !filter_cons.
        destruct (decide (rd_plugin_id d ∉ r)), (decide (rd_plugin_id d ∉ acc)) as [|Hn]; cbn; try lia.
        exfalso. apply Hn. intros Hx. by apply H1 in Hx.
      * intros El. destruct (H4 El) as [-> H]. split; [done|]. intros x [->|Hx]%elem_of_cons; [done|by apply H].
    + assert (acc ⊆ r) as Hr by (intros x Hx; apply H1; by right). cbn [length] in *. split; [done|]. split; [lia|]. split; [|lia].
      pose proof (missing_le l acc (rd_plugin_id d :: acc) ltac:(intros x Hx; by right)) as Hle.
      unfold missing in *. rewrite !filter_cons. rewrite decide_False by (intros Hn; apply Hn, H1; by left).
      rewrite decide_True by done. cbn. lia.
Qed.

Lemma pass_needs plugin l acc :
  l ⊆ ds → (∀ x, x ∈ acc → needs ds plugin x) → ∀ x, x ∈ foldl pass_one acc l → needs ds plugin x.
Proof.
  revert acc. induction l as [|d l IH]; intros acc Hl Hacc; [done|]. cbn [foldl].
  apply IH; [intros x Hx; apply Hl; by right|]. intros x Hx.
  destruct (pass_one_cases acc d) as [[E _]|(E & _ & q & Hq & Hin)]; rewrite E in Hx; [by apply Hacc|].
  apply elem_of_cons in Hx as [->|Hx]; [|by apply Hacc]. apply needs_step with q; [apply Hl; by left|done|by apply Hacc].
Qed.

Lemma closure_spec fuel acc :
  (missing ds acc < fuel)%nat →
  acc ⊆ disable_closure fuel ds acc ∧
  ∀ d, d ∈ ds → rd_plugin_id d ∈ disable_closure fuel ds acc ∨ ∀ q, q ∈ rd_requires_plugins d → q ∉ disable_closure fuel ds acc.
Proof.
  revert acc. induction fuel as [|fuel IH]; intros acc Hf; [lia|]. cbn [disable_closure].
  change (disable_pass ds acc) with (foldl pass_one acc ds).
  destruct (pass_spec ds acc ltac:(done)) as (H1 & H2 & H3 & H4). destruct (decide _) as [E|E].
  - destruct (H4 E) as [E' H]. rewrite E'. by split.
  - destruct (IH (foldl pass_one acc ds)) as [H5 H6]; [lia|]. split; [by etrans|done].
Qed.

Lemma closure_needs plugin fuel acc :
  (∀ x, x ∈ acc → needs ds plugin x) → ∀ x, x ∈ disable_closure fuel ds acc → needs ds plugin x.
Proof.
  revert acc. induction fuel as [|fuel IH]; intros acc Hacc; [done|]. cbn [disable_closure].
  change (disable_pass ds acc) with (foldl pass_one acc ds). pose proof (pass_needs plugin ds acc ltac:(done) Hacc) as Hp.
  destruct (decide _); [done|by apply IH].
Qed.

Lemma sorted_set_elem l x : x ∈ sorted_set l ↔ x ∈ l.
Proof.
  unfold sorted_set. rewrite (merge_sort_Permutation str_le (remove_dups l)). apply elem_of_remove_dups.
Qed.

(** The passes compute exactly the plugins that need the quarantined one. *)
Lemma disabled_needs plugin q :
  q ∈ sorted_set (disable_closure (S (length ds)) ds [plugin]) ↔ needs ds plugin q.
Proof.
  rewrite sorted_set_elem. split.
  - apply closure_needs. intros x ->%list_elem_of_singleton. constructor.
  - destruct (closure_spec (S (length ds)) [plugin]) as [H1 H2].
    { unfold missing. pose proof (length_filter (λ d, rd_plugin_id d ∉ [plugin]) ds). lia. }
    induction 1 as [|d r Hd Hr _ IH]; [apply H1; by left|]. destruct (H2 d Hd) as [H|H]; [done|]. by destruct (H _ Hr).
Qed.

End closure.
