(* ===== verification/Generations.v ===== *)
(** * Generations: what the ledger of runtime generations promises

    Crashes included: the operations commit statement by statement, and the
    theorems hold of every state between two statements. *)

From S2P Require Import Prelude PyText PyTime Store RuntimeResources RuntimeLedger RuntimeManager GenerationFacts.

#[local] Open Scope Z_scope.

Lemma last_moves_on {A} (l n : list A) g : NoDup (l ++ n) → last l = Some g → n ≠ [] → last (l ++ n) ≠ Some g.
Proof.
  intros (_ & D & _)%NoDup_app Hl Hn. rewrite last_app. destruct (last n) as [y|] eqn:E; [|by apply last_None in E].
  intros [= ->]. apply (D g); by apply last_Some_elem_of.
Qed.

(** C24: the head only moves forward.  The heads the ledger has ever had form
    one line, each the stored parent of the next, in which none occurs twice;
    later states extend it.  So a generation that was displaced never becomes
    the head again, whatever operations run, in whatever order, and wherever
    a crash cuts them off. *)
Theorem head_lineage s s' :
  rt_reachable s → rtc rt_step s s' →
  (∃ l l', l `prefix_of` l' ∧ NoDup l' ∧ lineage (rt_generations (rs_db s')) l' ∧
     head_of (rs_db s) = last l ∧ head_of (rs_db s') = last l') ∧
  (∀ s2 g, rtc rt_step s' s2 → head_of (rs_db s) = Some g → head_of (rs_db s') ≠ Some g → head_of (rs_db s2) ≠ Some g).
Proof.
  intros [l I]%rt_reachable_inv H. destruct (rt_steps_inv _ _ _ H I) as (l' & P & I' & _). split.
  - exists l, l'. split; [done|]. split; [apply I'|]. split; [apply I'|]. split; [apply I|apply I'].
  - intros s2 g H2 Hg Hn Hg2. destruct (rt_steps_inv _ _ _ H2 I') as (l2 & P2 & I2 & _).
    rewrite (ri_head _ _ _ I) in Hg. rewrite (ri_head _ _ _ I') in Hn. rewrite (ri_head _ _ _ I2) in Hg2.
    destruct P as [m ->], P2 as [m2 ->]. pose proof (ri_nodup _ _ _ I2) as N. rewrite <- app_assoc in N, Hg2.
    revert Hg2. apply last_moves_on; [done|done|]. intros [-> ->]%app_nil. by rewrite app_nil_r in Hn.
Qed.

(** C23: what someone still refers to is kept.  Every active reference is to
    a stored generation whose artifact has not been collected, the head has
    not been collected either, and an owner is bound to one generation; this
    although the collector works on candidates it may have read long before.
    Once collected, a generation is neither referred to nor the head ever
    again. *)
Theorem references_protected s :
  rt_reachable s →
  (∀ k r, active_ref (rs_db s) k r → available (rr_generation_id r) (rs_db s) = true) ∧
  (∀ g, head_of (rs_db s) = Some g → available g (rs_db s) = true) ∧
  (∀ k k' r r', active_ref (rs_db s) k r → active_ref (rs_db s) k' r' → rr_owner_kind r = rr_owner_kind r' →
     rr_owner_id r = rr_owner_id r' → k = k') ∧
  (∀ s' g r, rtc rt_step s s' → rt_generations (rs_db s) !! g = Some r → is_some (gw_artifact_deleted_at r) = true →
     head_of (rs_db s') ≠ Some g ∧ ∀ k ref, active_ref (rs_db s') k ref → rr_generation_id ref ≠ g).
Proof.
  intros [l I]%rt_reachable_inv. split; [|split; [|split]].
  - intros k r [Hr Ha]. pose proof (ri_target _ _ _ I _ _ Hr) as T. unfold available.
    destruct (rt_generations (rs_db s) !! rr_generation_id r) as [row|] eqn:E; [|done].
    destruct (gw_artifact_deleted_at row) eqn:Ed; [|done].
    destruct (ri_gone _ _ _ I _ _ E) as (_ & _ & G); [by rewrite Ed|]. by destruct (G k r).
  - intros g Hg. unfold available. pose proof (ri_head _ _ _ I) as Eh. rewrite Hg in Eh. symmetry in Eh.
    rewrite last_lookup in Eh. destruct (ri_lineage _ _ _ I _ _ Eh) as (row & E & _). rewrite E.
    destruct (gw_artifact_deleted_at row) eqn:Ed; [|done].
    destruct (ri_gone _ _ _ I _ _ E) as (_ & G & _); [by rewrite Ed|]. done.
  - apply (ri_owner _ _ _ I).
  - intros s' g r H Hr Hd. destruct (rt_steps_inv _ _ _ H I) as (l' & _ & I' & K).
    destruct (K _ _ Hr) as (r' & Hr' & _ & Hd'). destruct (ri_gone _ _ _ I' _ _ Hr' (Hd' Hd)) as (_ & G1 & G2). by split.
Qed.

(** *** Interrupted activations *)

Lemma guard_passes {St} (P : Prop) `{Decision P} e (s : St) : ¬ P → auto_guard P e s = (Ok tt, []).
Proof. intros HP. unfold auto_guard. by rewrite decide_False. Qed.

Lemma auto_bind_ok {St A B} (m : Auto St A) (k : A → Auto St B) s a t :
  m s = (Ok a, t) → (m ≫= k) s = let '(r, t') := k a (ends s t) in (r, t ++ t').
Proof. unfold mbind, auto_bind. by intros ->. Qed.

Lemma auto_bind_inv {St A B} (m : Auto St A) (k : A → Auto St B) s b t :
  (m ≫= k) s = (Ok b, t) → ∃ a t1 t2, m s = (Ok a, t1) ∧ k a (ends s t1) = (Ok b, t2) ∧ t = t1 ++ t2.
Proof.
  unfold mbind, auto_bind. destruct (m s) as [[a|e] t1]; [|done]. destruct (k a (ends s t1)) as [r t2] eqn:E.
  intros [= -> <-]. by exists a, t1, t2.
Qed.

Lemma statement_inv {St A} (m : Tx St A) s a t : statement m s = (Ok a, t) → ∃ s', m s = Ok (a, s') ∧ t = [s'].
Proof. unfold statement. destruct (m s) as [[x s']|e]; [|done]. intros [= -> <-]. by exists s'. Qed.

Lemma guard_inv {St} (P : Prop) `{Decision P} e (s : St) u t : auto_guard P e s = (Ok u, t) → ¬ P ∧ t = [].
Proof. unfold auto_guard. destruct (decide P); [done|]. by intros [= <-]. Qed.

Lemma insert_attempt_ok id r d :
  rt_attempts d !! id = None → (∀ g, la_generation_id r = Some g → is_some (rt_generations d !! g) = true) →
  insert_attempt id r d = Ok (tt, d ⟪ rt_attempts := <[id := r]> (rt_attempts d) ⟫).
Proof.
  intros Hn Hg. unfold insert_attempt, mbind, tx_bind, tx_gets, reject. rewrite Hn, decide_False by done.
  rewrite decide_False; [done|]. destruct (la_generation_id r) as [g|] eqn:E; [|done].
  specialize (Hg _ eq_refl). by destruct (rt_generations d !! g).
Qed.

(** The generation is stored, its parent is the head: activating it works,
    whatever an earlier attempt has left. *)
Lemma activate_again env plan actor d r :
  let g := pl_generation plan in
  rt_generations d !! gn_generation_id g = Some r → gw_generation r = g → gn_parent_generation_id g = head_of d →
  head_of d ≠ Some (gn_generation_id g) → rt_attempts d !! re_uuid env = None →
  ∃ t r', activate_runtime_generation env plan actor d = (Ok (gn_generation_id g), t) ∧
    head_of (ends d t) = Some (gn_generation_id g) ∧
    rt_generations (ends d t) !! gn_generation_id g = Some r' ∧ gw_status r' = GS_active.
Proof.
  intros g Hr Hg Hp Hne Ha. unfold activate_runtime_generation. cbv zeta. fold g. set (id := gn_generation_id g) in *.
  set (now := re_now env). unfold head_of in Hp, Hne.
  set (f1 := λ r : GenerationRow, ((r ⟪ gw_status := GS_active ⟫) ⟪ gw_activated_at := Some now ⟫) ⟪ gw_retired_at := None ⟫).
  rewrite (auto_bind_ok _ _ _ (rt_heads d !! "global") []) by done. cbn [ends last default].
  rewrite (auto_bind_ok _ _ _ tt []) by (apply guard_passes; intros Hx; by apply Hx).
  rewrite (auto_bind_ok _ _ _ (Some r) []) by (unfold auto_read; change (ends d []) with d; by rewrite Hr).
  rewrite (auto_bind_ok _ _ _ tt []) by (apply guard_passes; rewrite bool_decide_eq_true_2 by done; done).
  set (d1 := d ⟪ rt_generations := alter (λ r, if true then f1 r else r) id (rt_generations d) ⟫).
  rewrite (auto_bind_ok _ _ _ tt [d1]) by done.
  assert (rt_generations d1 !! id = Some (f1 r)) as Hr1 by (cbn; by rewrite lookup_alter_eq, Hr).
  match goal with |- context [match hd_generation_id <$> rt_heads d !! "global" with Some _ => _ | None => _ end ≫= ?k] =>
    set (m2 := match hd_generation_id <$> rt_heads d !! "global" with Some _ => _ | None => _ end); set (k2 := k) end.
  assert (∃ t2, m2 d1 = (Ok tt, t2) ∧ rt_heads (ends d1 t2) = rt_heads d ∧ rt_attempts (ends d1 t2) = rt_attempts d ∧
    rt_generations (ends d1 t2) !! id = Some (f1 r)) as (t2 & E2 & Hh2 & Ha2 & Hr2).
  { unfold m2. destruct (rt_heads d !! "global") as [h|] eqn:Eh; [|by exists []]. cbn [fmap option_fmap option_map].
    destruct (_ && _); [|by exists []]. eexists. split; [done|]. split; [done|]. split; [done|]. cbn.
    rewrite lookup_alter_ne; [by rewrite lookup_alter_eq, Hr|]. intros Ex. apply Hne. cbn. by rewrite Ex. }
  rewrite (auto_bind_ok m2 k2 _ tt t2) by done. unfold k2. clear m2 k2 E2. change (ends d [d1]) with d1.
  set (d2 := ends d1 t2) in *.
  match goal with |- context [match rt_heads d !! "global" with Some _ => _ | None => _ end ≫= ?k] =>
    set (m3 := match rt_heads d !! "global" with Some _ => _ | None => _ end); set (k3 := k) end.
  assert (∃ d3, m3 d2 = (Ok tt, [d3]) ∧ head_of d3 = Some id ∧ rt_attempts d3 = rt_attempts d ∧
    rt_generations d3 !! id = Some (f1 r)) as (d3 & E3 & Hh3 & Ha3 & Hr3).
  { unfold m3. destruct (rt_heads d !! "global") as [h|] eqn:Eh.
    - exists (d2 ⟪ rt_heads := <["global" := mkHeadRow id (hd_revision h + 1) now]> (rt_heads d2) ⟫).
      rewrite (auto_bind_ok _ _ _ true [d2 ⟪ rt_heads := <["global" := mkHeadRow id (hd_revision h + 1) now]> (rt_heads d2) ⟫]).
      + split; [done|]. unfold head_of. cbn. by rewrite lookup_insert_eq.
      + unfold statement, move_head, mbind, tx_bind, tx_gets.
        assert (rt_heads d2 !! "global" = Some h) as -> by (by rewrite Hh2). by rewrite decide_True.
    - eexists. split; [done|]. unfold head_of. cbn. by rewrite lookup_insert_eq. }
  rewrite (auto_bind_ok m3 k3 _ tt [d3]) by done. unfold k3. clear m3 k3 E3. change (ends d2 [d3]) with d3.
  set (row := mkReloadAttemptRow _ _ _ _ _ _).
  rewrite (auto_bind_ok _ _ _ tt [d3 ⟪ rt_attempts := <[re_uuid env := row]> (rt_attempts d3) ⟫]).
  2: { unfold statement. rewrite insert_attempt_ok; [done| |].
       - change (rt_attempts d3 !! re_uuid env = None). by rewrite Ha3.
       - intros x [= <-]. change (is_some (rt_generations d3 !! id) = true). by rewrite Hr3. }
  eexists _, (f1 r). split; [done|]. rewrite !ends_app. done.
Qed.

(** The row of the generation is active, and the head is where it was or has
    arrived. *)
Definition underway (heads : gmap string HeadRow) (g : Generation) (d : RtDb) : Prop :=
  (rt_heads d = heads ∨ head_of d = Some (gn_generation_id g)) ∧
  ∃ r, rt_generations d !! gn_generation_id g = Some r ∧ gw_generation r = g ∧ gw_status r = GS_active.

Lemma activation_underway seen l env plan actor id t d :
  rt_inv seen l d → activate_runtime_generation env plan actor d = (Ok id, t) →
  id = gn_generation_id (pl_generation plan) ∧ gn_parent_generation_id (pl_generation plan) = head_of d ∧
  head_of d ≠ Some id ∧ Forall (underway (rt_heads d) (pl_generation plan)) t.
Proof.
  intros Iv H. set (g := pl_generation plan).
  assert (id = gn_generation_id g) as ->.
  { unfold activate_runtime_generation in H. cbv zeta in H. fold g in H.
    repeat (apply auto_bind_inv in H as (? & ? & ? & _ & H & _)). by injection H. }
  apply auto_bind_inv in H as (head & t1 & t2 & [= <- <-] & H & ->).
  apply auto_bind_inv in H as (u & t1 & t3 & [Hp ->]%guard_inv & H & ->).
  apply auto_bind_inv in H as (ex & t1 & t4 & [= <- <-] & H & ->).
  apply auto_bind_inv in H as (u2 & t1 & t5 & [Hc ->]%guard_inv & H & ->). cbn [app] in *.
  change (ends (ends (ends (ends d []) []) []) []) with d in H. change (ends (ends d []) []) with d in *.
  fold g in Hp, Hc, H. assert (gn_parent_generation_id g = head_of d) as Hpar.
  { unfold head_of. destruct (decide (gn_parent_generation_id g = hd_generation_id <$> rt_heads d !! "global")); done. }
  apply auto_bind_inv in H as (u3 & t1 & t6 & H1 & H & ->).
  assert (∃ d1, t1 = [d1] ∧ underway (rt_heads d) g d1) as (d1 & -> & Hd1).
  { destruct (rt_generations d !! gn_generation_id g) as [r|] eqn:Er; apply statement_inv in H1 as (d1 & H1 & ->); exists d1; split; try done.
    - case_bool_decide as Eg; [|by destruct Hc]. injection H1 as _ <-. split; [by left|]. eexists. cbn.
      rewrite lookup_alter_eq, Er. by split.
    - destruct (inv_insert seen l g GS_active _ _ d u3 d1 Iv eq_refl H1) as (_ & _ & E1 & _ & r & Hr & Hg & Hs & _).
      split; [by left|]. by exists r. }
  assert (head_of d ≠ Some (gn_generation_id g)) as Hne.
  { pose proof (ri_head _ _ _ Iv) as Eh. destruct (rt_generations d !! gn_generation_id g) as [r|] eqn:Er.
    - case_bool_decide as Eg; [|by destruct Hc]. intros E. rewrite E in Eh. symmetry in Eh.
      eapply (lineage_fresh _ l _ r (ri_lineage _ _ _ Iv) (ri_nodup _ _ _ Iv) Er); [by rewrite Eg, Hpar, E, Eh|].
      by apply last_Some_elem_of.
    - intros E. rewrite E in Eh. symmetry in Eh. rewrite last_lookup in Eh.
      destruct (ri_lineage _ _ _ Iv _ _ Eh) as (row & E2 & _). congruence. }
  split; [done|]. split; [done|]. split; [done|]. constructor; [done|].
  change (ends d [d1]) with d1 in H.
  set (J := underway (rt_heads d) g).
  match type of H with ?m _ = _ => assert (keeps J m) as Hk end.
  { apply keeps_bind.
    { destruct (hd_generation_id <$> rt_heads d !! "global") as [c|] eqn:Ec; [|apply keeps_ret].
      destruct (truthy _ && _) eqn:Ene; [|apply keeps_ret]. apply keeps_statement.
      intros x v x' [Hh (r & Hr & Hg & Hs)] [= _ <-]. split; [exact Hh|]. exists r. cbn.
      apply andb_true_iff in Ene as [_ Ene%negb_true_iff%bool_decide_eq_false]. by rewrite lookup_alter_ne. }
    intros _. apply keeps_bind.
    { assert (∀ h x, J x → hd_generation_id h = gn_generation_id g → J (x ⟪ rt_heads := <["global" := h]> (rt_heads x) ⟫)) as Hmove.
      { intros h x [_ Hx] Eh. split; [right|exact Hx]. unfold head_of. cbn. by rewrite lookup_insert_eq, <- Eh. }
      destruct (rt_heads d !! "global") as [h|].
      - apply keeps_bind; [|intros b; apply keeps_guard]. apply keeps_statement. intros x b x' Hx Hm.
        apply move_head_ok in Hm as [(_ & h' & _ & _ & ->)|[_ ->]]; [by apply Hmove|done].
      - apply keeps_statement. intros x v x' Hx [= _ <-]. by apply Hmove. }
    intros _. apply keeps_bind; [|intros _; apply keeps_ret]. apply keeps_statement.
    intros x v x' Hx Hi. apply tx_bind_ok in Hi as (y & z & [-> ->]%tx_gets_ok & Hi).
    apply tx_bind_ok in Hi as ([] & z & [_ ->]%reject_ok & Hi). apply tx_bind_ok in Hi as ([] & z & [_ ->]%reject_ok & Hi).
    injection Hi as _ <-. exact Hx. }
  destruct (Hk d1 Hd1 Logic.I) as [Hf _]. by rewrite H in Hf.
Qed.

(** C26: an interrupted activation can be repeated.  Wherever an
    activation that could succeed is cut off after its first statement, the
    generation is stored as active; the head is still the old one, and then
    the same activation, tried again, succeeds; or the head has moved. *)
Theorem activation_recovers s env plan actor id t :
  rt_reachable s → activate_runtime_generation env plan actor (rs_db s) = (Ok id, t) →
  ∀ d, d ∈ t →
    (∃ r, rt_generations d !! id = Some r ∧ gw_generation r = pl_generation plan ∧ gw_status r = GS_active) ∧
    (head_of d = Some id ∨
     head_of d = head_of (rs_db s) ∧
     ∀ env' actor', rt_attempts d !! re_uuid env' = None →
       ∃ t' r, activate_runtime_generation env' plan actor' d = (Ok id, t') ∧ head_of (ends d t') = Some id ∧
         rt_generations (ends d t') !! id = Some r ∧ gw_status r = GS_active).
Proof.
  intros [l Iv]%rt_reachable_inv H d Hd. destruct (activation_underway _ _ _ _ _ _ _ _ Iv H) as (Eid & Hpar & Hne & Hf).
  rewrite Forall_forall in Hf. destruct (Hf _ Hd) as [Hh (r & Hr & Hg & Hs)]. rewrite Eid in *.
  split; [by exists r|]. destruct Hh as [Hh|Hh]; [right|by left].
  assert (head_of d = head_of (rs_db s)) as Eh by (unfold head_of; by rewrite Hh).
  split; [done|]. intros env' actor' Hu. apply activate_again with r; [done|done|by rewrite Eh|by rewrite Eh|done].
Qed.

(** *** Approvals *)

(** A property of the heads alone. *)
Definition of_heads (J : RtDb → Prop) : Prop := ∀ x y, rt_heads x = rt_heads y → J x → J y.

Section heads.
Context (J : RtDb → Prop) (HJ : of_heads J).

Lemma heads_statement {A} (m : Tx RtDb A) : (∀ x a y, m x = Ok (a, y) → rt_heads y = rt_heads x) → keeps J (statement m).
Proof. intros H. apply keeps_statement. intros x a y Hx E. eapply HJ; [|exact Hx]. symmetry. by eapply H. Qed.

Lemma heads_insert_attempt id r : keeps J (statement (insert_attempt id r)).
Proof.
  apply heads_statement. intros x a y (x1 & z & [-> ->]%tx_gets_ok & H)%tx_bind_ok.
  apply tx_bind_ok in H as ([] & z & [_ ->]%reject_ok & H). apply tx_bind_ok in H as ([] & z & [_ ->]%reject_ok & H).
  by injection H as _ <-.
Qed.
Lemma heads_insert_generation g st now act : keeps J (statement (insert_generation g st now act)).
Proof.
  apply heads_statement. intros x a y (x1 & z & [-> ->]%tx_gets_ok & H)%tx_bind_ok.
  apply tx_bind_ok in H as ([] & z & [_ ->]%reject_ok & H). apply tx_bind_ok in H as ([] & z & [_ ->]%reject_ok & H).
  apply tx_bind_ok in H as ([] & z & [_ ->]%require_ok & H). by injection H as _ <-.
Qed.
Lemma heads_update id p f : keeps J (statement (update_generation id p f)).
Proof. apply heads_statement. intros x a y [= _ <-]. done. Qed.
#[local] Hint Resolve heads_insert_attempt heads_insert_generation heads_update : keeps.
#[local] Hint Extern 1 (keeps _ (if ?b then _ else _)) => destruct b : keeps.
#[local] Hint Extern 1 (keeps _ (match ?o with Some _ => _ | None => _ end)) => destruct o : keeps.

Lemma heads_record_attempt env plan actor st e : keeps J (record_runtime_reload_attempt env plan actor st e).
Proof. unfold record_runtime_reload_attempt. auto 10 with keeps. Qed.
Lemma heads_record_failure env actor e : keeps J (record_runtime_reload_failure env actor e).
Proof. unfold record_runtime_reload_failure. auto with keeps. Qed.
Lemma heads_approve env plan actor : keeps J (approve_runtime_reload_plan env plan actor).
Proof.
  unfold approve_runtime_reload_plan. apply keeps_bind; [auto with keeps|]. intros o. apply keeps_bind; [auto with keeps|].
  intros _. apply heads_statement. intros x a y [= _ <-]. done.
Qed.

(** Only the plan that is activated moves the head. *)
Lemma heads_activate env plan actor :
  (∀ x h, J x → hd_generation_id h = gn_generation_id (pl_generation plan) →
     J (x ⟪ rt_heads := <["global" := h]> (rt_heads x) ⟫)) →
  keeps J (activate_runtime_generation env plan actor).
Proof.
  intros Hmove. unfold activate_runtime_generation. cbv zeta. apply keeps_bind; [auto with keeps|]. intros head.
  apply keeps_bind; [auto with keeps|]. intros _. apply keeps_bind; [auto with keeps|]. intros ex.
  apply keeps_bind; [auto with keeps|]. intros _. apply keeps_bind; [destruct ex; auto with keeps|]. intros _.
  apply keeps_bind; [destruct (hd_generation_id <$> head); [destruct (_ && _)|]; auto with keeps|]. intros _.
  apply keeps_bind; [|intros _; auto with keeps]. destruct head as [h|].
  - apply keeps_bind; [|intros b; auto with keeps]. apply keeps_statement. intros x b y Hx Hm.
    apply move_head_ok in Hm as [(_ & h' & _ & _ & ->)|[_ ->]]; [by apply Hmove|done].
  - apply keeps_statement. intros x u y Hx [= _ <-]. by apply Hmove.
Qed.
End heads.

(** Each executable plugin of the plan was there before, with the same
    implementation and in no new profile. *)
Definition nothing_new (current : Generation) (plan : ReloadPlan) : Prop :=
  ∀ d, d ∈ gn_descriptors (pl_generation plan) → executable d = true →
    ∃ old, old ∈ gn_descriptors current ∧ rd_plugin_id old = rd_plugin_id d ∧ rd_semantic_hash old = rd_semantic_hash d ∧
      exposed_profiles d ⊆ exposed_profiles old.

Lemma by_id_in ds id d : by_id ds id = Some d → d ∈ ds ∧ rd_plugin_id d = id.
Proof. intros [H E%bool_decide_eq_true]%List.find_some. split; [by apply list_elem_of_In|done]. Qed.

Lemma mjoin_map_nil {A B} (f : A → list B) l x : mjoin (map f l) = [] → x ∈ l → f x = [].
Proof.
  induction l as [|y l IH]; cbn; [by intros _ ?%elem_of_nil|]. intros [Hy H]%app_nil [->|Hx]%elem_of_cons; [done|by apply IH].
Qed.

Lemma plan_descriptors current ds : gn_descriptors (pl_generation (plan_of current ds)) = ds.
Proof. done. Qed.

Lemma plan_reasons current ds : pl_reasons (plan_of current ds) = approval_reasons current (pl_generation (plan_of current ds)).
Proof. done. Qed.
Lemma plan_required current ds : pl_approval_required (plan_of current ds) = negb (bool_decide (pl_reasons (plan_of current ds) = [])).
Proof. done. Qed.

Lemma no_approval_nothing_new c ds : pl_approval_required (plan_of (Some c) ds) = false → nothing_new c (plan_of (Some c) ds).
Proof.
  rewrite plan_required, negb_false_iff, bool_decide_eq_true, plan_reasons. intros H.
  cbn [approval_reasons] in H. rewrite plan_descriptors in H. apply app_nil in H as [H _]. intros d Hd Hx.
  rewrite plan_descriptors in Hd. pose proof (mjoin_map_nil _ _ _ H Hd) as Hi. unfold item_reasons in Hi. cbv zeta in Hi.
  apply app_nil in Hi as [He Hi]. destruct (by_id (gn_descriptors c) (rd_plugin_id d)) as [old|] eqn:E; [|by rewrite Hx in Hi].
  apply by_id_in in E as [Hin Hid]. rewrite Hx in Hi. cbn in Hi, He. exists old. split; [done|]. split; [done|]. split.
  - destruct (bool_decide (rd_semantic_hash old = rd_semantic_hash d)) eqn:Es; [exact (proj1 (bool_decide_eq_true _) Es)|done].
  - destruct (bool_decide (filter _ _ = [])) eqn:Ef; [pose proof (proj1 (bool_decide_eq_true _) Ef) as Hf|done]. intros p Hp. destruct (decide (p ∈ exposed_profiles old)) as [|Hn]; [done|].
    exfalso. assert (p ∈ filter (λ q, q ∉ exposed_profiles old) (exposed_profiles d)) as Hpf by by apply list_elem_of_filter.
    rewrite Hf in Hpf. by apply elem_of_nil in Hpf.
Qed.

(** Why a plan may take effect. *)
Definition permitted (current : option Generation) (plan : ReloadPlan) (approval : option string) (d : RtDb) : Prop :=
  approval = Some (pl_plan_hash plan) ∨
  runtime_reload_plan_is_approved (pl_plan_hash plan) (gn_generation_id (pl_generation plan)) d = true ∨
  match current with Some c => nothing_new c plan | None => True end.

Section io.
Context (materialize : Generation → list Generation → res unit) (smoke_test : Generation → res unit).

(** C25: executable plugins change only with an approval.  When a
    reload moves the head, at whatever statement it stopped, the head is the
    planned generation, and either the exact plan was approved, with the call
    or earlier, or every executable plugin of it was already part of the
    current generation with the same implementation and in no fewer profiles,
    or there was no generation before. *)
Theorem reload_approved s env disabled found actor approval d' :
  d' ∈ (reload materialize smoke_test env disabled found actor approval s).2 → head_of d' ≠ head_of s →
  ∃ plan, plan_reload (current_generation s) disabled found = Ok plan ∧
    head_of d' = Some (gn_generation_id (pl_generation plan)) ∧ permitted (current_generation s) plan approval s.
Proof.
  set (J := λ x, head_of x = head_of s ∨ ∃ plan, plan_reload (current_generation s) disabled found = Ok plan ∧
    head_of x = Some (gn_generation_id (pl_generation plan)) ∧ permitted (current_generation s) plan approval s).
  assert (of_heads J) as HJ by (intros x y E; unfold J, head_of; by rewrite E).
  assert (triple J (λ x, x = s) (reload materialize smoke_test env disabled found actor approval) (λ _ _, True)) as Ht.
  2: { destruct (Ht s) as [Hf _]; [by left|done|]. rewrite Forall_forall in Hf. intros Hd Hne. by destruct (Hf _ Hd). }
  assert (triple J (λ x, x = s) (reload_body materialize smoke_test env disabled found actor approval) (λ _ _, True)) as Hb.
  { unfold reload_body. apply (triple_bind _ _ _ (λ plan x, x = s ∧ plan_reload (current_generation s) disabled found = Ok plan)).
    { apply triple_read. by intros x plan _ ->. }
    intros plan. cbv zeta. apply (triple_bind _ _ _ (λ current x, x = s ∧ plan_reload (current_generation s) disabled found = Ok plan)).
    { apply triple_read. by intros x c _ H _. }
    intros current. case_bool_decide.
    { apply keeps_triple, keeps_bind; [by apply heads_record_attempt|]. intros _. apply keeps_ret. }
    set (K := plan_reload (current_generation s) disabled found = Ok plan ∧ permitted (current_generation s) plan approval s).
    assert (∀ e, K → keeps J (publish materialize smoke_test e plan [] actor)) as Hpub.
    { intros e [Hplan Hperm]. unfold publish. apply keeps_bind; [apply keeps_lift|]. intros _.
      apply keeps_bind; [apply keeps_lift|]. intros _. apply heads_activate; [done|]. intros x h _ Eh. right. exists plan.
      split; [done|]. split; [|done]. unfold head_of. cbn. by rewrite lookup_insert_eq, <- Eh. }
    apply (triple_bind _ _ _ (λ _ x, plan_reload (current_generation s) disabled found = Ok plan ∧
      (x = s ∨ approval = Some (pl_plan_hash plan)))).
    { destruct (pl_approval_required plan && bool_decide (approval = Some (pl_plan_hash plan))) eqn:E.
      - apply andb_true_iff in E as [_ E%bool_decide_eq_true]. intros x Hx [-> Hplan].
        destruct (heads_approve J HJ (env 0%nat) plan actor s Hx Logic.I) as [Hf _]. split; [exact Hf|]. intros _ _. by split; [|right].
      - apply triple_ret. intros x _ [-> Hplan]. by split; [|left]. }
    intros _. apply (triple_bind _ _ _ (λ ok _, ok = true → K)).
    { apply triple_read. intros x ok _ [Hplan Hx] [= <-] Hok. split; [done|]. destruct Hx as [->|Hx]; [|by left].
      apply orb_true_iff in Hok as [Hok%negb_true_iff|Hok]; [|by right; left]. right. right.
      apply res_bind_ok in Hplan as (ds & _ & [= <-]). destruct (current_generation s) as [c|]; [|done].
      by apply no_approval_nothing_new. }
    intros ok. destruct ok; cbn [negb].
    - intros x Hx HK. specialize (HK eq_refl). refine (keeps_bind J _ _ (Hpub _ HK) _ x Hx Logic.I). intros _. apply keeps_ret.
    - apply keeps_triple, keeps_bind; [by apply heads_record_attempt|]. intros _. apply keeps_ret. }
  intros x Hx ->. destruct (Hb s Hx eq_refl) as [Hf _]. split; [|done]. unfold reload, auto_on_error.
  destruct (reload_body _ _ _ _ _ _ _ s) as [[a|e] t]; cbn [snd] in *; [done|]. apply Forall_app. split; [done|].
  apply (heads_record_failure J HJ); [|done]. by apply ends_inv.
Qed.

(** *** What the identity of a generation leaves out *)

(** The same plugin from differently formatted files. *)
Definition reformatted (d d' : Descriptor) : Prop :=
  rd_plugin_id d' = rd_plugin_id d ∧ rd_plugin_version d' = rd_plugin_version d ∧
  rd_semantic_hash d' = rd_semantic_hash d ∧ rd_core_api_version d' = rd_core_api_version d ∧
  rd_requires_plugins d' = rd_requires_plugins d ∧ rd_conflicts_with d' = rd_conflicts_with d ∧
  rd_contributions d' = rd_contributions d ∧
  map (λ f, [rf_root f; rf_path f; rf_semantic_hash f]) (rd_files d') =
  map (λ f, [rf_root f; rf_path f; rf_semantic_hash f]) (rd_files d).

Lemma map_reformatted {A} (f : Descriptor → A) ds ds' :
  (∀ d d', reformatted d d' → f d' = f d) → Forall2 reformatted ds ds' → map f ds' = map f ds.
Proof. intros Hf. induction 1 as [|d d' ds ds' Hd _ IH]; [done|]. cbn. by rewrite (Hf _ _ Hd), IH. Qed.

Lemma reformatted_identity d d' : reformatted d d' → descriptor_semantic_identity d' = descriptor_semantic_identity d.
Proof.
  intros (E1 & E2 & E3 & E4 & E5 & E6 & E7 & E8). unfold descriptor_semantic_identity. rewrite E1, E2, E4, E5, E6, E7.
  assert (∀ l, map (λ f, jstrs [rf_root f; rf_path f; rf_semantic_hash f]) l =
    map jstrs (map (λ f, [rf_root f; rf_path f; rf_semantic_hash f]) l)) as Hm by (intros l; by rewrite map_map).
  by rewrite !Hm, E8.
Qed.

Lemma reformatted_payload ds ds' : Forall2 reformatted ds ds' → semantic_payload ds' = semantic_payload ds.
Proof.
  intros H. unfold semantic_payload. f_equal. eapply map_reformatted; [|exact H].
  intros d d' (E1 & E2 & E3 & E4 & E5 & E6 & E7 & E8). by rewrite E1, E3, E4, E5, E6, E7.
Qed.

Lemma reformatted_filter {A} (f : Descriptor → A) P `{∀ d, Decision (P d)} ds ds' :
  (∀ d d', reformatted d d' → f d' = f d ∧ (P d' ↔ P d)) → Forall2 reformatted ds ds' →
  map f (filter P ds') = map f (filter P ds).
Proof.
  intros Hf. induction 1 as [|d d' ds ds' Hd _ IH]; [done|]. destruct (Hf _ _ Hd) as [E1 E2]. rewrite !filter_cons.
  destruct (decide (P d')), (decide (P d)); try tauto; cbn; by rewrite ?E1, IH.
Qed.

Lemma reformatted_id current ds ds' : Forall2 reformatted ds ds' →
  gn_generation_id (pl_generation (plan_of current ds')) = gn_generation_id (pl_generation (plan_of current ds)).
Proof.
  intros H. unfold plan_of. cbn [pl_generation gn_generation_id]. rewrite (reformatted_payload _ _ H).
  rewrite (map_reformatted rd_plugin_id ds ds') by (try done; by intros d d' [E _]).
  rewrite (reformatted_filter rd_plugin_id _ ds ds'); [done| |done].
  intros d d' Hd. split; [apply Hd|]. rewrite (reformatted_identity _ _ Hd). by destruct Hd as [-> _].
Qed.

(** Someone else's content is stored under the identity of the plan: the plan
    can neither be recorded nor activated. *)
Definition blocked (g : Generation) (d0 d : RtDb) : Prop :=
  rt_heads d = rt_heads d0 ∧ ∃ r, rt_generations d !! gn_generation_id g = Some r ∧ gw_generation r ≠ g.

Lemma blocked_heads_only g d0 d d' :
  rt_heads d' = rt_heads d → rt_generations d' = rt_generations d → blocked g d0 d → blocked g d0 d'.
Proof. intros E1 E2 [H1 H2]. unfold blocked. by rewrite E1, E2. Qed.

Lemma refused {St} (I : St → Prop) (C : Prop) `{Decision C} e s :
  C → Forall I (auto_guard C e s).2 ∧ ∀ a : unit, (auto_guard C e s).1 = Ok a → False.
Proof. intros HC. unfold auto_guard. rewrite decide_True by done. split; [constructor|done]. Qed.

Lemma blocked_approve g d0 env plan actor :
  pl_generation plan = g → keeps (blocked g d0) (approve_runtime_reload_plan env plan actor).
Proof.
  intros <-. unfold approve_runtime_reload_plan. cbv zeta.
  eapply (triple_bind _ _ _ (λ ex _, is_some ex = true)).
  { apply triple_read. intros x ex [_ (r & Hr & _)] _ [= <-]. by rewrite Hr. }
  intros [row|]; [|by intros x _ [=]]. eapply (triple_bind _ _ _ (λ _ _, True)); [by apply triple_ret|]. intros _.
  apply keeps_triple, keeps_statement. intros x u y Hx [= _ <-]. by apply (blocked_heads_only _ _ x).
Qed.

Lemma blocked_record g d0 P env plan actor st e :
  pl_generation plan = g → st ≠ LS_unchanged →
  triple (blocked g d0) P (record_runtime_reload_attempt env plan actor st e) (λ _ _, False).
Proof.
  intros <- Hst. unfold record_runtime_reload_attempt. cbv zeta.
  eapply (triple_bind _ _ _ (λ ex _, ∃ r, ex = Some r ∧ gw_generation r ≠ pl_generation plan)).
  { apply triple_read. intros x ex [_ (r & Hr & Hne)] _ [= <-]. by exists r. }
  intros ex. eapply (triple_bind _ _ _ (λ _ _, False)); [|by intros ? x ? []].
  intros x _ (r & -> & Hne). by apply refused.
Qed.

Lemma blocked_activate g d0 P env plan actor :
  pl_generation plan = g → triple (blocked g d0) P (activate_runtime_generation env plan actor) (λ _ _, False).
Proof.
  intros <-. unfold activate_runtime_generation. cbv zeta.
  eapply (triple_bind _ _ _ (λ _ _, True)); [by apply triple_read|]. intros head.
  eapply (triple_bind _ _ _ (λ _ _, True)); [by apply triple_guard|]. intros _.
  eapply (triple_bind _ _ _ (λ ex _, ∃ r, ex = Some r ∧ gw_generation r ≠ pl_generation plan)).
  { apply triple_read. intros x ex [_ (r & Hr & Hne)] _ [= <-]. by exists r. }
  intros ex. eapply (triple_bind _ _ _ (λ _ _, False)); [|by intros ? x ? []].
  intros x _ (r & -> & Hne). apply refused. by apply bool_decide_eq_false.
Qed.

Lemma blocked_reload env disabled found actor approval d ds c :
  discover disabled found = Ok ds → current_generation d = Some c →
  let g := pl_generation (plan_of (Some c) ds) in
  gn_generation_id c ≠ gn_generation_id g → blocked g d d →
  ∃ e t, reload materialize smoke_test env disabled found actor approval d = (Err e, t) ∧
    ∀ d', d' ∈ t → rt_heads d' = rt_heads d.
Proof.
  intros Hds Hc g Hid Hb. set (plan := plan_of (Some c) ds).
  assert (plan_reload (current_generation d) disabled found = Ok plan) as Hp by (unfold plan_reload; by rewrite Hds, Hc).
  assert (triple (blocked g d) (λ x, x = d) (reload_body materialize smoke_test env disabled found actor approval)
    (λ _ _, False)) as Ht.
  { unfold reload_body. eapply (triple_bind _ _ _ (λ p x, p = plan ∧ x = d)).
    { apply triple_read. intros x p _ -> E. split; [congruence|done]. }
    intros p. cbv zeta. eapply (triple_bind _ _ _ (λ cur _, p = plan ∧ cur = Some c)).
    { apply triple_read. intros x cur _ [-> ->] [= <-]. done. }
    intros cur. intros x Hx [-> ->]. rewrite bool_decide_eq_false_2 by (intros [= E]; by apply Hid).
    revert x Hx. match goal with |- ∀ x, _ → Forall _ (?m x).2 ∧ _ => enough (triple (blocked g d) (λ _, True) m (λ _ _, False)) as Hm
      by (intros x Hx; by apply Hm) end.
    eapply (triple_bind _ _ _ (λ _ _, True)).
    { destruct (_ && _); [by apply blocked_approve|by apply triple_ret]. }
    intros _. eapply (triple_bind _ _ _ (λ _ _, True)); [by apply triple_read|]. intros ok. destruct ok; cbn [negb].
    - eapply (triple_bind _ _ _ (λ _ _, False)); [|by intros ? x ? []]. unfold publish.
      eapply (triple_bind _ _ _ (λ _ _, True)); [by apply triple_lift|]. intros _.
      eapply (triple_bind _ _ _ (λ _ _, True)); [by apply triple_lift|]. intros _. by apply blocked_activate.
    - eapply (triple_bind _ _ _ (λ _ _, False)); [|by intros ? x ? []]. by apply blocked_record. }
  destruct (Ht d Hb eq_refl) as [Hf Hq]. unfold reload, auto_on_error.
  destruct (reload_body _ _ _ _ _ _ _ d) as [[a|e] t] eqn:E; cbn [fst snd] in *; [by destruct (Hq a)|].
  eexists e, _. split; [done|]. set (J := λ x, rt_heads x = rt_heads d).
  assert (Forall J t) as HfJ by (eapply Forall_impl; [exact Hf|]; by intros x [Hx _]).
  intros d' [Hd|Hd]%elem_of_app; [rewrite Forall_forall in HfJ; by apply HfJ|].
  assert (of_heads J) as HJ by (intros x y Exy Hx; unfold J in *; congruence).
  destruct (heads_record_failure J HJ (env 2%nat) actor (error_text e) (ends d t)) as [Hg _];
    [by apply ends_inv|done|]. rewrite Forall_forall in Hg. by apply Hg.
Qed.

(** A recorded plan is stored with its content. *)
Lemma record_stores P env plan actor st e :
  st ≠ LS_unchanged →
  triple (λ _, True) P (record_runtime_reload_attempt env plan actor st e)
    (λ _ x, ∃ r, rt_generations x !! gn_generation_id (pl_generation plan) = Some r ∧ gw_generation r = pl_generation plan).
Proof.
  intros Hst. unfold record_runtime_reload_attempt. cbv zeta. set (g := pl_generation plan).
  set (Q := λ x, ∃ r, rt_generations x !! gn_generation_id g = Some r ∧ gw_generation r = g).
  eapply (triple_bind _ _ _ (λ ex x, rt_generations x !! gn_generation_id g = ex)).
  { by apply triple_read; intros x ex _ _ [= <-]. }
  intros ex. eapply (triple_bind _ _ _ (λ _ x, Q x)).
  - destruct ex as [row|].
    + apply triple_guard. intros x _ Hx Hn. exists row. split; [done|]. destruct (decide (gw_generation row = g)); [done|].
      by destruct Hn.
    + apply triple_statement. intros x u y _ _ H. split; [done|].
      apply tx_bind_ok in H as (d0 & s & [-> ->]%tx_gets_ok & H). apply tx_bind_ok in H as ([] & s & [_ ->]%reject_ok & H).
      apply tx_bind_ok in H as ([] & s & [_ ->]%reject_ok & H). apply tx_bind_ok in H as ([] & s & [_ ->]%require_ok & H).
      injection H as _ <-. unfold Q. cbn. rewrite lookup_insert_eq. by eexists.
  - intros _. eapply (triple_bind _ _ _ (λ _ x, Q x)); [|intros _; by apply triple_ret].
    apply triple_statement. intros x u y _ (r & Hr) H. split; [done|].
    apply tx_bind_ok in H as (d0 & s & [-> ->]%tx_gets_ok & H). apply tx_bind_ok in H as ([] & s & [_ ->]%reject_ok & H).
    apply tx_bind_ok in H as ([] & s & [_ ->]%reject_ok & H). injection H as _ <-. by exists r.
Qed.

Lemma triple_true {St A} (I P : St → Prop) (m : Auto St A) Q : triple (λ _, True) P m Q →
  ∀ s, P s → ∀ a, (m s).1 = Ok a → Q a (ends s (m s).2).
Proof. intros H s HP a Ha. by apply H. Qed.

(** A reload that waits for an approval leaves its plan in the tables. *)
Lemma awaiting_stored env disabled found actor approval s r t ds :
  reload materialize smoke_test env disabled found actor approval s = (Ok r, t) → rl_status r = "awaiting_approval" →
  discover disabled found = Ok ds →
  ∃ c, current_generation s = Some c ∧
    let g := pl_generation (plan_of (Some c) ds) in
    gn_generation_id c ≠ gn_generation_id g ∧
    ∃ row, rt_generations (ends s t) !! gn_generation_id g = Some row ∧ gw_generation row = g.
Proof.
  intros H Hst Hds. set (plan := plan_of (current_generation s) ds).
  assert (plan_reload (current_generation s) disabled found = Ok plan) as Hp by (unfold plan_reload; by rewrite Hds).
  set (Q := λ r x, rl_status r = "awaiting_approval" → pl_approval_required plan = true ∧
    gn_generation_id <$> current_generation s ≠ Some (gn_generation_id (pl_generation plan)) ∧
    ∃ row, rt_generations x !! gn_generation_id (pl_generation plan) = Some row ∧ gw_generation row = pl_generation plan).
  assert (triple (λ _, True) (λ x, x = s) (reload_body materialize smoke_test env disabled found actor approval) Q) as Ht.
  { unfold reload_body. eapply (triple_bind _ _ _ (λ p x, p = plan ∧ x = s)).
    { apply triple_read. intros x p _ -> E. split; [congruence|done]. }
    intros p. cbv zeta. eapply (triple_bind _ _ _ (λ cur _, p = plan ∧ cur = current_generation s)).
    { apply triple_read. intros x cur _ [-> ->] [= <-]. done. }
    intros cur x _ [-> ->]. revert x. case_bool_decide as Hid; match goal with |- ∀ x, Forall _ (?m x).2 ∧ _ =>
      enough (triple (λ _, True) (λ _, True) m Q) as Hm by (intros x; by apply Hm) end.
    { eapply (triple_bind _ _ _ (λ _ _, True)); [by apply keeps_triple, heads_record_attempt|].
      intros _. apply triple_ret. intros x _ _ [=]. }
    eapply (triple_bind _ _ _ (λ _ _, True)).
    { destruct (_ && _); [by apply heads_approve|by apply triple_ret]. }
    intros _. eapply (triple_bind _ _ _ (λ ok _, ok = false → pl_approval_required plan = true)).
    { apply triple_read. intros x ok _ _ [= <-] [Hr%negb_false_iff _]%orb_false_iff. exact Hr. }
    intros ok. destruct ok; cbn [negb].
    - eapply (triple_bind _ _ _ (λ _ _, True)); [|intros _; by apply triple_ret; intros x _ _ [=]].
      intros x _ _. split; [by apply Forall_true|done].
    - eapply (triple_bind _ _ _ (λ _ x, pl_approval_required plan = true ∧
        ∃ row, rt_generations x !! gn_generation_id (pl_generation plan) = Some row ∧ gw_generation row = pl_generation plan)).
      + intros x Hx Hreq. destruct (record_stores (λ _, True) (env 1%nat) plan actor LS_awaiting_approval None) with x
          as [Hf Hq]; try done. split; [exact Hf|]. intros a Ha. split; [by apply Hreq|]. by eapply Hq.
      + intros _. apply triple_ret. intros x _ [Hreq Hrow] _. done. }
  destruct (Ht s Logic.I eq_refl) as [_ Hq]. unfold reload, auto_on_error in H.
  destruct (reload_body _ _ _ _ _ _ _ s) as [[a|e] t0] eqn:E; cbn [fst snd] in *; [|done]. injection H as <- <-.
  destruct (Hq _ eq_refl Hst) as (Hreq & Hid & row & Hrow). unfold plan in *.
  destruct (current_generation s) as [c|]; [|done]. exists c. split; [done|]. cbv zeta. split; [|by exists row].
  intros Ex. apply Hid. exact (f_equal Some Ex).
Qed.

Lemma current_kept d d' c :
  rows_kept d d' → head_of d' = head_of d → current_generation d = Some c → current_generation d' = Some c.
Proof.
  unfold current_generation, active_runtime_generation, head_of. intros K Eh (row & H & ->)%fmap_Some.
  apply bind_Some in H as (h & Hh & Hr). rewrite Hh in Eh. apply fmap_Some in Eh as (h' & Hh' & Eh).
  rewrite Hh'. cbn. rewrite <- Eh. destruct (K _ _ Hr) as (row' & -> & E & _). cbn. by rewrite E.
Qed.

Lemma safe_awaiting seen l env disabled found actor approval s r t :
  reload materialize smoke_test env disabled found actor approval s = (Ok r, t) → rt_inv seen l s →
  ∃ l', l `prefix_of` l' ∧ rt_inv seen l' (ends s t) ∧ rows_kept s (ends s t).
Proof.
  intros H I. assert (keeps (safe seen l s) (reload materialize smoke_test env disabled found actor approval)) as K.
  { unfold reload. apply keeps_on_error; [|intros e; apply record_failure_keeps]. unfold reload_body, publish. cbv zeta.
    repeat first [apply record_attempt_keeps | apply approve_keeps | apply activate_keeps
      | apply keeps_bind; [|intros ?] | auto with keeps; fail | case_match]. }
  destruct (K s) as [Hf _]; [by apply safe_here|done|]. rewrite H in Hf. cbn in Hf.
  apply (ends_inv _ _ _ (safe_here seen l s I) Hf).
Qed.

(** A reload that waits for an approval and the formatting of sources.
    While a plan waits, a plugin file is changed in a way that leaves its
    meaning, and so the identity of the planned generation, as it was.  From
    then on, as long as the head stays, no reload succeeds, with whatever
    approval: the stored content is another one. *)
Lemma reformatting_blocks s env disabled found actor approval r t ds :
  rt_reachable s → reload materialize smoke_test env disabled found actor approval (rs_db s) = (Ok r, t) →
  rl_status r = "awaiting_approval" → discover disabled found = Ok ds →
  ∀ s' disabled' found' ds', rtc rt_step (mkRtSys (ends (rs_db s) t) (rs_seen s)) s' →
    head_of (rs_db s') = head_of (rs_db s) →
    discover disabled' found' = Ok ds' → Forall2 reformatted ds ds' → ds ≠ ds' →
    ∀ env' actor' approval', ∃ e t',
      reload materialize smoke_test env' disabled' found' actor' approval' (rs_db s') = (Err e, t') ∧
      ∀ d, d ∈ t' → head_of d = head_of (rs_db s).
Proof.
  intros [l I]%rt_reachable_inv H Hst Hds s' disabled' found' ds' H' Eh Hds' Hf Hne env' actor' approval'.
  destruct (safe_awaiting _ _ _ _ _ _ _ _ _ _ H I) as (l1 & _ & I1 & K1).
  destruct (rt_steps_inv _ _ l1 H' I1) as (l2 & _ & _ & K2). cbn [rs_db] in K2.
  destruct (awaiting_stored _ _ _ _ _ _ _ _ _ H Hst Hds) as (c & Hc & Hid & row & Hrow & Hg).
  assert (current_generation (rs_db s') = Some c) as Hc' by (refine (current_kept _ _ c _ Eh Hc); by etrans).
  destruct (K2 _ _ Hrow) as (row' & Hrow' & Eg & _). rewrite <- (reformatted_id (Some c) ds ds' Hf) in Hid, Hrow'.
  destruct (blocked_reload env' disabled' found' actor' approval' (rs_db s') ds' c Hds' Hc' Hid) as (e & t' & E & Ht).
  { split; [done|]. exists row'. split; [done|]. rewrite Eg, Hg. intros Ex. apply Hne.
    apply (f_equal gn_descriptors) in Ex. exact Ex. }
  exists e, t'. split; [done|]. intros d Hd. unfold head_of. rewrite (Ht _ Hd). exact Eh.
Qed.

(** *** Rolling back and disabling *)

Definition stores (g : Generation) (d : RtDb) : Prop :=
  ∃ r, rt_generations d !! gn_generation_id g = Some r ∧ gw_generation r = g.

Lemma stores_update g id p f :
  (∀ r, gw_generation (f r) = gw_generation r) → keeps (stores g) (statement (update_generation id p f)).
Proof.
  intros Hf. apply keeps_statement. intros x u y (r & Hr & Hg) [= _ <-]. unfold stores. cbn.
  destruct (decide (id = gn_generation_id g)) as [->|Hne]; [|rewrite lookup_alter_ne by done; by exists r].
  rewrite lookup_alter_eq, Hr. eexists. split; [done|]. cbn. destruct (p r); [by rewrite Hf|done].
Qed.

(** What a successful activation ends with. *)
Lemma activate_done env plan actor :
  triple (λ _, True) (λ _, True) (activate_runtime_generation env plan actor)
    (λ id x, id = gn_generation_id (pl_generation plan) ∧ current_generation x = Some (pl_generation plan)).
Proof.
  unfold activate_runtime_generation. cbv zeta. set (g := pl_generation plan).
  eapply (triple_bind _ _ _ (λ _ _, True)); [by apply triple_read|]. intros head.
  eapply (triple_bind _ _ _ (λ _ _, True)); [by apply triple_guard|]. intros _.
  eapply (triple_bind _ _ _ (λ ex x, rt_generations x !! gn_generation_id g = ex)); [by apply triple_read; intros ???? [= <-]|].
  intros ex. eapply (triple_bind _ _ _ (λ _ x, rt_generations x !! gn_generation_id g = ex ∧
    match ex with Some row => gw_generation row = g | None => True end)).
  { apply triple_guard. intros x _ Hx Hn. split; [done|]. destruct ex as [row|]; [|done].
    case_bool_decide as E; [exact E|by destruct Hn]. }
  intros _. eapply (triple_bind _ _ _ (λ _, stores g)).
  { destruct ex as [row|]; apply triple_statement; intros x u y _ [Hx Hg] H; (split; [done|]).
    - injection H as _ <-. unfold stores. cbn. rewrite lookup_alter_eq, Hx. by eexists.
    - apply tx_bind_ok in H as (d0 & s & [-> ->]%tx_gets_ok & H). apply tx_bind_ok in H as ([] & s & [_ ->]%reject_ok & H).
      apply tx_bind_ok in H as ([] & s & [_ ->]%reject_ok & H). apply tx_bind_ok in H as ([] & s & [_ ->]%require_ok & H).
      injection H as _ <-. unfold stores. cbn. rewrite lookup_insert_eq. by eexists. }
  intros _. eapply (triple_bind _ _ _ (λ _, stores g)).
  { assert (∀ A (m : Auto RtDb A), keeps (stores g) m → triple (λ _, True) (stores g) m (λ _, stores g)) as Hk.
    { intros A m K x _ Hx. destruct (K x Hx Logic.I) as [Hf _]. split; [by apply Forall_true|]. intros a _. by apply ends_inv. }
    apply Hk. destruct (hd_generation_id <$> head); [destruct (_ && _)|]; [by apply stores_update|by apply keeps_ret..]. }
  intros _. eapply (triple_bind _ _ _ (λ _ x, current_generation x = Some g)).
  { assert (∀ x h, stores g x → hd_generation_id h = gn_generation_id g →
      current_generation (x ⟪ rt_heads := <["global" := h]> (rt_heads x) ⟫) = Some g) as Hm.
    { intros x h (r & Hr & Hg) Eh. unfold current_generation, active_runtime_generation. cbn. rewrite lookup_insert_eq. cbn.
      by rewrite Eh, Hr, <- Hg. }
    destruct head as [h|]; [|apply triple_statement; intros x u y _ Hx [= _ <-]; split; [done|by apply Hm]].
    eapply (triple_bind _ _ _ (λ b x, b = true → current_generation x = Some g)).
    - apply triple_statement. intros x b y _ Hx H. split; [done|].
      apply move_head_ok in H as [(_ & h' & _ & _ & ->)|[-> ->]]; [|done]. intros _. by apply Hm.
    - intros b. apply triple_guard. intros x _ Hx Hb. apply Hx. by destruct b. }
  intros _. eapply (triple_bind _ _ _ (λ _ x, current_generation x = Some g)).
  - apply triple_statement. intros x u y _ Hx H. split; [done|].
    apply tx_bind_ok in H as (d0 & s & [-> ->]%tx_gets_ok & H). apply tx_bind_ok in H as ([] & s & [_ ->]%reject_ok & H).
    apply tx_bind_ok in H as ([] & s & [_ ->]%reject_ok & H). by injection H as _ <-.
  - intros _. by apply triple_ret.
Qed.

Lemma publish_done env plan fallbacks actor :
  triple (λ _, True) (λ _, True) (publish materialize smoke_test env plan fallbacks actor)
    (λ _ x, current_generation x = Some (pl_generation plan)).
Proof.
  unfold publish. eapply (triple_bind _ _ _ (λ _ _, True)); [by apply triple_lift|]. intros _.
  eapply (triple_bind _ _ _ (λ _ _, True)); [by apply triple_lift|]. intros _.
  eapply triple_post; [apply activate_done|]. by intros id x _ [_ Hx].
Qed.

Lemma current_update o id p f :
  (∀ r, gw_generation (f r) = gw_generation r) →
  keeps (λ x, current_generation x = o) (statement (update_generation id p f)).
Proof.
  intros Hf. apply keeps_statement. intros x u y <- [= _ <-]. unfold current_generation, active_runtime_generation. cbn.
  destruct (rt_heads x !! "global") as [h|]; [|done]. cbn. destruct (decide (id = hd_generation_id h)) as [->|Hne].
  - rewrite lookup_alter_eq. destruct (rt_generations x !! _) as [r|]; [|done]. cbn. by destruct (p r); rewrite ?Hf.
  - by rewrite lookup_alter_ne.
Qed.

Lemma keeps_post {St A} (I : St → Prop) (m : Auto St A) : keeps I m → triple (λ _, True) I m (λ _ x, I x).
Proof. intros K x _ Hx. split; [by apply Forall_true|]. intros a _. apply ends_inv; [done|]. by apply K. Qed.

Lemma mark_current o id : keeps (λ x, current_generation x = o) (mark_runtime_generation_quarantined id).
Proof.
  unfold mark_runtime_generation_quarantined. apply keeps_bind; [apply keeps_read|]. intros h.
  apply keeps_bind; [apply keeps_guard|]. intros _. by apply current_update.
Qed.

Lemma failure_current o env g p pr k e c t :
  keeps (λ x, current_generation x = o) (record_runtime_plugin_failure env g p pr k e c t).
Proof.
  unfold record_runtime_plugin_failure. cbv zeta. apply keeps_bind; [apply keeps_read|]. intros old. apply keeps_bind.
  { apply keeps_statement. intros x u y Hx H. apply tx_bind_ok in H as (d1 & s & [-> ->]%tx_gets_ok & H).
    apply tx_bind_ok in H as ([] & s & [_ ->]%reject_ok & H). injection H as _ <-. exact Hx. }
  intros _. apply keeps_bind; [|intros _; apply keeps_ret]. destruct (ph_quarantined _); [|apply keeps_ret].
  by apply current_update.
Qed.

Lemma disabled_descriptors c plugin x :
  x ∈ gn_descriptors (pl_generation (disable_plan c plugin)) ↔
  x ∈ gn_descriptors c ∧ ¬ needs (gn_descriptors c) plugin (rd_plugin_id x).
Proof.
  unfold disable_plan. cbv zeta. cbn [pl_generation gn_descriptors]. rewrite list_elem_of_filter, disabled_needs. tauto.
Qed.

Lemma by_id_absent ds id : id ∉ map rd_plugin_id ds → by_id ds id = None.
Proof.
  intros H. destruct (by_id ds id) as [d|] eqn:E; [|done]. apply by_id_in in E as [Hd <-].
  destruct H. by apply list_elem_of_fmap_2.
Qed.

Lemma by_id_unique ds id d : d ∈ ds → rd_plugin_id d = id → (∀ x, x ∈ ds → rd_plugin_id x = id → x = d) → by_id ds id = Some d.
Proof.
  intros Hd Hid Hu. destruct (by_id ds id) as [x|] eqn:E.
  - apply by_id_in in E as [Hx Ex]. by rewrite (Hu x Hx Ex).
  - pose proof (List.find_none _ _ E d) as Hn. cbv beta in Hn. rewrite bool_decide_eq_true_2 in Hn by done.
    discriminate Hn. by apply list_elem_of_In.
Qed.

Lemma rollback_descriptors c previous plugin plan :
  rollback_plan c previous plugin = Ok plan →
  ∃ d, by_id (gn_descriptors previous) plugin = Some d ∧ by_id (gn_descriptors (pl_generation plan)) plugin = Some d ∧
    gn_descriptors (pl_generation plan) ≡ₚ d :: filter (λ x, rd_plugin_id x ≠ plugin) (gn_descriptors c) ∧
    gn_parent_generation_id (pl_generation plan) = Some (gn_generation_id c).
Proof.
  unfold rollback_plan. destruct (by_id _ plugin) as [d|] eqn:E; [|done]. intros [= <-]. exists d. cbn.
  assert (merge_sort id_le (filter (λ d, rd_plugin_id d ≠ plugin) (gn_descriptors c) ++ [d])
    ≡ₚ d :: filter (λ x, rd_plugin_id x ≠ plugin) (gn_descriptors c)) as Hp.
  { rewrite merge_sort_Permutation. symmetry. apply Permutation_cons_append. }
  split; [done|]. split; [|done]. apply by_id_in in E as [_ E]. apply by_id_unique; [rewrite Hp; by left|done|].
  intros x Hx Ex. rewrite Hp in Hx. apply elem_of_cons in Hx as [->|Hx]; [done|]. by apply list_elem_of_filter in Hx as [].
Qed.

(** What falling back does to the plugin. *)
Definition fell_back (plugin failed : string) (d1 : RtDb) (current next : Generation) : Prop :=
  gn_parent_generation_id next = Some (gn_generation_id current) ∧
  match last_healthy_runtime_plugin_generation plugin failed d1 with
  | Some f => ∃ previous d, generation f d1 = Ok previous ∧ by_id (gn_descriptors previous) plugin = Some d ∧
      by_id (gn_descriptors next) plugin = Some d ∧
      gn_descriptors next ≡ₚ d :: filter (λ x, rd_plugin_id x ≠ plugin) (gn_descriptors current)
  | None => gn_generation_id current = failed ∧
      ∀ x, x ∈ gn_descriptors next ↔ x ∈ gn_descriptors current ∧ ¬ needs (gn_descriptors current) plugin (rd_plugin_id x)
  end.

Lemma rollback_member_done env plugin failed f actor d1 :
  last_healthy_runtime_plugin_generation plugin failed d1 = Some f →
  triple (λ _, True) (λ x, x = d1) (rollback_member materialize smoke_test env plugin f actor) (λ r x,
    ∃ current next, current_generation d1 = Some current ∧ current_generation x = Some next ∧
      fell_back plugin failed d1 current next ∧ rl_generation_id r = Some (gn_generation_id next)).
Proof.
  intros Hf. unfold rollback_member. eapply (triple_bind _ _ _ (λ c x, x = d1 ∧ current_generation d1 = Some c)).
  { apply triple_read. intros x c _ -> H. split; [done|]. destruct (current_generation d1); cbn in H; congruence. }
  intros c. eapply (triple_bind _ _ _ (λ p _, generation f d1 = Ok p ∧ current_generation d1 = Some c)).
  { apply triple_read. by intros x p _ [-> Hc] H. }
  intros p. eapply (triple_bind _ _ _ (λ plan _, rollback_plan c p plugin = Ok plan ∧ generation f d1 = Ok p ∧
    current_generation d1 = Some c)); [by apply triple_lift|].
  intros plan x _ (Hplan & Hp & Hc). revert x. match goal with |- ∀ x, Forall _ (?m x).2 ∧ _ =>
    enough (triple (λ _, True) (λ _, True) m (λ r x, current_generation x = Some (pl_generation plan) ∧
      rl_generation_id r = Some (gn_generation_id (pl_generation plan)))) as Hm end.
  - intros x. destruct (Hm x Logic.I Logic.I) as [Hx Hq]. split; [done|]. intros r Hr. destruct (Hq r Hr) as [H1 H2].
    exists c, (pl_generation plan). split; [done|]. split; [done|]. split; [|done].
    destruct (rollback_descriptors _ _ _ _ Hplan) as (d & E1 & E2 & E3 & E4). split; [done|]. rewrite Hf. by exists p, d.
  - eapply (triple_bind _ _ _ (λ _ x, current_generation x = Some (pl_generation plan))); [by apply publish_done|].
    intros _. by apply triple_ret.
Qed.

Lemma disable_member_done env plugin failed actor d1 c :
  last_healthy_runtime_plugin_generation plugin failed d1 = None → current_generation d1 = Some c →
  gn_generation_id c = failed → generation failed d1 = Ok c →
  triple (λ _, True) (λ x, x = d1) (disable_quarantined_member materialize smoke_test env plugin failed actor) (λ r x,
    ∃ current next, current_generation d1 = Some current ∧ current_generation x = Some next ∧
      fell_back plugin failed d1 current next ∧ rl_generation_id r = Some (gn_generation_id next)).
Proof.
  intros Hf Hc Hid Hg. unfold disable_quarantined_member. eapply (triple_bind _ _ _ (λ p x, p = c)).
  { apply triple_read. intros x p _ ->. congruence. }
  intros p x _ ->. revert x. match goal with |- ∀ x, Forall _ (?m x).2 ∧ _ =>
    enough (triple (λ _, True) (λ _, True) m (λ r x, current_generation x = Some (pl_generation (disable_plan c plugin)) ∧
      rl_generation_id r = Some (gn_generation_id (pl_generation (disable_plan c plugin))))) as Hm end.
  - intros x. destruct (Hm x Logic.I Logic.I) as [Hx Hq]. split; [done|]. intros r Hr. destruct (Hq r Hr) as [H1 H2].
    exists c, (pl_generation (disable_plan c plugin)). split; [done|]. split; [done|]. split; [|done].
    split; [done|]. rewrite Hf. split; [done|]. apply disabled_descriptors.
  - cbv zeta. eapply (triple_bind _ _ _ (λ _ x, current_generation x = Some (pl_generation (disable_plan c plugin))));
      [by apply publish_done|]. intros _. by apply triple_ret.
Qed.

(** The failed generation is marked and the new one reported. *)
Lemma answered_done plugin failed d1 m r t :
  triple (λ _, True) (λ x, x = d1) m (λ r x, ∃ current next, current_generation d1 = Some current ∧
    current_generation x = Some next ∧ fell_back plugin failed d1 current next ∧
    rl_generation_id r = Some (gn_generation_id next)) →
  (r' ← m; mark_runtime_generation_quarantined failed;; mret (Some r')) d1 = (Ok (Some r), t) →
  ∃ current next, current_generation d1 = Some current ∧ current_generation (ends d1 t) = Some next ∧
    rl_generation_id r = Some (gn_generation_id next) ∧ fell_back plugin failed d1 current next.
Proof.
  intros Hm Hb. apply auto_bind_inv in Hb as (r' & u1 & u2 & Er & Hb & ->).
  apply auto_bind_inv in Hb as (v & u3 & u4 & Ek & Hb & ->). injection Hb as <- <-. rewrite app_nil_r, ends_app.
  destruct (Hm d1 Logic.I eq_refl) as [_ Hq]. rewrite Er in Hq. destruct (Hq _ eq_refl) as (c & n & Hc & Hn & Hfb & Hr).
  exists c, n. split; [done|]. cbn [snd] in Hn. split; [|done].
  destruct (mark_current (Some n) failed (ends d1 u1) Hn Logic.I) as [Hk _]. rewrite Ek in Hk. by apply ends_inv.
Qed.

(** A plugin that keeps failing is replaced.  When a failure has
    quarantined a plugin and the report answers with a new generation, that
    generation is the head, a child of the former one.  If another stored
    generation has the plugin, and there it is not quarantined, the new one has
    the plugin in the version of that generation and every other plugin as it
    was; health is kept per generation, so the version can be the one that just
    failed.
    Otherwise the plugin and exactly those that need it are gone. *)
Lemma rollback_restores s env failed plugin profile kind error actor threshold r t :
  rt_reachable s →
  report_failure materialize smoke_test env failed plugin profile kind error actor threshold (rs_db s) = (Ok (Some r), t) →
  let d1 := ends (rs_db s) (record_runtime_plugin_failure (env 0%nat) failed plugin (RuntimeProfile_value profile)
    (PluginFailureKind_value kind) error (counts_toward_quarantine kind) threshold (rs_db s)).2 in
  ∃ current next, current_generation (rs_db s) = Some current ∧
    current_generation (ends (rs_db s) t) = Some next ∧ rl_generation_id r = Some (gn_generation_id next) ∧
    fell_back plugin failed d1 current next.
Proof.
  intros [l I]%rt_reachable_inv H d1. unfold report_failure in H. cbv zeta in H.
  apply auto_bind_inv in H as (now & t1 & t2 & H1 & H & ->). unfold d1. clear d1. rewrite H1. cbn [snd].
  set (d1 := ends (rs_db s) t1) in *. rewrite ends_app. fold d1.
  destruct (failure_current (current_generation (rs_db s)) (env 0%nat) failed plugin (RuntimeProfile_value profile)
    (PluginFailureKind_value kind) error (counts_toward_quarantine kind) threshold (rs_db s) eq_refl Logic.I) as [Hcur _].
  destruct (plugin_failure_keeps (rs_seen s) l (rs_db s) (env 0%nat) failed plugin (RuntimeProfile_value profile)
    (PluginFailureKind_value kind) error (counts_toward_quarantine kind) threshold (rs_db s) (safe_here _ _ _ I) Logic.I)
    as [Hsafe _].
  rewrite H1 in Hcur, Hsafe. cbn [snd] in Hcur, Hsafe.
  pose proof (ends_inv _ _ _ eq_refl Hcur) as Ec. cbv beta in Ec. fold d1 in Ec. rewrite <- Ec.
  destruct (ends_inv _ _ _ (safe_here _ _ _ I) Hsafe) as (l1 & _ & I1 & _). fold d1 in I1. clear Hcur Hsafe H1 Ec.
  destruct now; [|by injection H]. cbn [negb] in H.
  apply auto_bind_inv in H as (fb & t3 & t4 & [= Ef <-] & H & ->). change (ends d1 []) with d1 in H. cbn [app].
  destruct fb as [f|].
  - eapply answered_done; [|exact H]. by apply rollback_member_done.
  - apply auto_bind_inv in H as (h & t5 & t6 & [= <- <-] & H & ->). change (ends d1 []) with d1 in H. cbn [app] in *.
    case_bool_decide as Eh.
    + apply fmap_Some in Eh as (c & Hc & Eid). eapply answered_done; [|exact H]. apply (disable_member_done _ _ _ _ _ c); [done|done|done|].
      unfold current_generation, active_runtime_generation in Hc. apply fmap_Some in Hc as (row & Hc & ->).
      apply bind_Some in Hc as (h & _ & Hr). pose proof (ri_keyed _ _ _ I1 _ _ Hr) as Ek. unfold generation, runtime_generation.
      rewrite Eid, Ek, Hr. done.
    + apply auto_bind_inv in H as (v & u3 & u4 & _ & H & _). by injection H.
Qed.

End io.

(** ** A short history *)

Section demo.
Definition works_with (g : Generation) (fallbacks : list Generation) : res unit := Ok tt.
Definition works (g : Generation) : res unit := Ok tt.
Definition demo_env (uuid : string) (n : nat) : RtEnv := mkRtEnv "2026-01-01T00:00:00.000000+00:00" uuid.

Definition demo_plugin (id semantic source : string) (kind : ContributionKind) (needed : list string) : Descriptor :=
  mkDescriptor id id id "1" source semantic 1 needed [] [mkContribution kind id [RP_INTERACTIVE] []]
    [mkResourceFile "source" ("tools/" +:+ id +:+ ".py") source semantic].
Definition tool_a := demo_plugin "a" "m1" "s1" CK_TOOL [].
Definition skill_b := demo_plugin "b" "m2" "s2" CK_SKILL ["a"].
(** The same tool with another implementation; and that one reformatted. *)
Definition tool_a2 := demo_plugin "a" "m3" "s3" CK_TOOL [].
Definition tool_a3 := demo_plugin "a" "m3" "s4" CK_TOOL [].

Definition plan1 : ReloadPlan := plan_of None [tool_a].
Definition state1 : RtDb := ends empty_rt (activate_runtime_generation (demo_env "u1" 0) plan1 "me" empty_rt).2.
Definition id1 : string := gn_generation_id (pl_generation plan1).
Definition plan2 : ReloadPlan := plan_of (Some (pl_generation plan1)) [tool_a; skill_b].
Definition state2 : RtDb := ends state1 (activate_runtime_generation (demo_env "u2" 0) plan2 "me" state1).2.
Definition id2 : string := gn_generation_id (pl_generation plan2).
(** A reload that has to be approved. *)
Definition asked : res ReloadResult * list RtDb := reload works_with works (demo_env "u3") [] [tool_a2] "me" None state1.

Lemma step_ends seen d t : op_trace seen d t → bool_decide (t = []) = false → rt_step (mkRtSys d seen) (mkRtSys (ends d t) seen).
Proof.
  intros Ht Hne%bool_decide_eq_false. eapply rt_op; [exact Ht|]. unfold ends.
  destruct (last t) as [x|] eqn:E; [by apply last_Some_elem_of|]. by apply last_None in E.
Qed.
Lemma history_steps :
  rt_step (mkRtSys empty_rt []) (mkRtSys state1 []) ∧ rt_step (mkRtSys state1 []) (mkRtSys state2 []).
Proof. split; (apply step_ends; [apply ot_activate|by vm_compute]). Qed.
Lemma history_reachable : rt_reachable (mkRtSys state1 []) ∧ rt_reachable (mkRtSys state2 []).
Proof.
  destruct history_steps as [H1 H2]. split; [exact (rtc_once _ _ H1)|]. exact (rtc_l _ _ _ _ H1 (rtc_once _ _ H2)).
Qed.

(** The second generation displaces the first. *)
Lemma head_lineage_witness :
  rt_reachable (mkRtSys state1 []) ∧ head_of state1 = Some id1 ∧ head_of state2 = Some id2 ∧
  (∃ l l', l `prefix_of` l' ∧ NoDup l' ∧ lineage (rt_generations state2) l' ∧
     head_of state1 = last l ∧ head_of state2 = last l') ∧
  (∀ s2 g, rtc rt_step (mkRtSys state2 []) s2 → head_of state1 = Some g → head_of state2 ≠ Some g → head_of (rs_db s2) ≠ Some g).
Proof.
  split; [exact (proj1 history_reachable)|]. split; [by vm_compute|]. split; [by vm_compute|].
  apply (head_lineage (mkRtSys state1 []) (mkRtSys state2 []) (proj1 history_reachable)). exact (rtc_once _ _ (proj2 history_steps)).
Defined.

(** A Run holds the first generation. *)
Definition held : RtDb := ends state2 (acquire_runtime_generation_reference (demo_env "u4" 0) id1 "run" "r1" state2).2.

Lemma held_reachable : rt_reachable (mkRtSys held []).
Proof.
  eapply rtc_r; [apply history_reachable|]. apply step_ends; [|by vm_compute]. apply ot_acquire. intros r H.
  assert (rt_references state2 = ∅) as E by by vm_compute. rewrite E in H. discriminate H.
Qed.

Lemma references_protected_witness :
  rt_reachable (mkRtSys held []) ∧ referenced id1 held = true ∧
  (∀ k r, active_ref held k r → available (rr_generation_id r) held = true) ∧
  (∀ g, head_of held = Some g → available g held = true).
Proof.
  split; [exact held_reachable|]. split; [by vm_compute|].
  destruct (references_protected (mkRtSys held []) held_reachable) as (H1 & H2 & _). by split.
Defined.

Lemma activation_recovers_witness :
  ∃ t, activate_runtime_generation (demo_env "u2" 0) plan2 "me" state1 = (Ok id2, t) ∧ length t = 4%nat ∧
  ∀ d, d ∈ t →
    (∃ r, rt_generations d !! id2 = Some r ∧ gw_generation r = pl_generation plan2 ∧ gw_status r = GS_active) ∧
    (head_of d = Some id2 ∨
     head_of d = head_of state1 ∧
     ∀ env' actor', rt_attempts d !! re_uuid env' = None →
       ∃ t' r, activate_runtime_generation env' plan2 actor' d = (Ok id2, t') ∧ head_of (ends d t') = Some id2 ∧
         rt_generations (ends d t') !! id2 = Some r ∧ gw_status r = GS_active).
Proof.
  exists (activate_runtime_generation (demo_env "u2" 0) plan2 "me" state1).2.
  assert ((activate_runtime_generation (demo_env "u2" 0) plan2 "me" state1).1 = Ok id2) as E by by vm_compute.
  assert (activate_runtime_generation (demo_env "u2" 0) plan2 "me" state1 =
    (Ok id2, (activate_runtime_generation (demo_env "u2" 0) plan2 "me" state1).2)) as H.
  { rewrite <- E. apply surjective_pairing. }
  split; [exact H|]. split; [by vm_compute|].
  exact (activation_recovers (mkRtSys state1 []) _ _ _ _ _ (proj1 history_reachable) H).
Defined.

(** With the hash of the plan the other implementation becomes the head. *)
Definition plan3 : ReloadPlan := plan_of (Some (pl_generation plan1)) [tool_a2].
Definition granted : res ReloadResult * list RtDb :=
  reload works_with works (demo_env "u3") [] [tool_a2] "me" (Some (pl_plan_hash plan3)) state1.

Lemma reload_approved_witness :
  head_of (ends state1 granted.2) ≠ head_of state1 ∧
  ∃ plan, plan_reload (current_generation state1) [] [tool_a2] = Ok plan ∧
    head_of (ends state1 granted.2) = Some (gn_generation_id (pl_generation plan)) ∧
    permitted (current_generation state1) plan (Some (pl_plan_hash plan3)) state1.
Proof.
  assert (bool_decide (head_of (ends state1 granted.2) = head_of state1) = false) as Hne by by vm_compute.
  apply bool_decide_eq_false in Hne. split; [exact Hne|].
  refine (reload_approved works_with works state1 (demo_env "u3") [] [tool_a2] "me" (Some (pl_plan_hash plan3)) _ _ Hne).
  change (ends state1 granted.2 ∈ granted.2). unfold ends. destruct (last granted.2) as [x|] eqn:E; [by apply last_Some_elem_of|].
  exfalso. apply Hne. unfold ends. by rewrite E.
Defined.

(** The tool fails in the second generation; the first has it too, the same. *)
Definition failing : res (option ReloadResult) * list RtDb :=
  report_failure works_with works (demo_env "u5") id2 "a" RP_INTERACTIVE FK_PLUGIN_EXCEPTION "boom" "me" 1 state2.

End demo.
