(* ===== verification/DurableTools.v ===== *)
(** * DurableTools: the two phases of a tool call (gateway/durable_execution.py)

    [DurableToolCoordinator] puts a ledger entry before and after every tool
    call.  Its methods are sequences of commands with waits between them, where
    the tool works, a human decides or time passes; everything else in the
    process and outside it may commit meanwhile. *)

From stdpp Require Import relations.
From S2P Require Import Prelude PyText PyTime Json AgentTypes AgentState Commands.
From S2P Require Import OperationReduce Store Operations Controller System.

#[local] Open Scope Z_scope.

(** ** Tasks *)

(** What somebody who watches the task sees: a commit of its own, the call of
    a tool body while the store is [db], the question to a human; the last two
    are a call and a question that no operation stands for. *)
Inductive Moment :=
| Committed (db : Db)
| Called (attempt_id : string) (db : Db)
| Asked (operation_id attempt_id : string)
| Ran (name : string)
| AskedDirectly (name : string).

(** [tk_clock] selects the clock, the random ids, the answers and what others
    commit; [tk_operation] and [tk_attempt] are the context variables. *)
Record Task := mkTask {
  tk_db : Db; tk_clock : nat; tk_trace : list Moment;
  tk_operation : option string; tk_attempt : option string
}.
#[export] Instance Task_eta : Eta Task := λ r, mkTask (tk_db r) (tk_clock r) (tk_trace r) (tk_operation r) (tk_attempt r).

(** An exception of a tool body: its text, its type, the [retryable] it
    declares, and whether it is a ConnectionError, TimeoutError or OSError. *)
Record ToolError := mkToolError {
  te_text : string; te_type : string; te_retryable : option bool; te_transport : bool
}.

(** [RequestError]: raised before anything was done, and marked as such
    ([tool_request_error]); [CallbackError]: by another callback of a tool. *)
Inductive Exn :=
| Failure (e : pyerr)
| FromTool (e : ToolError)
| RequestError (e : ToolError)
| CallbackError (e : ToolError)
| CancelledError (text : string)
| ToolExecutionObservationError (text : string)
| PermissionError (text : string) (extension_policy_denial : bool)
| OutOfFuel.

Inductive Answer (A : Type) :=
| Done (a : A)
| Raised (e : Exn).
Arguments Done {A} a.
Arguments Raised {A} e.

Definition Co (A : Type) : Type := Task → Answer A * Task.
#[export] Instance co_ret : MRet Co := λ A a s, (Done a, s).
#[export] Instance co_bind : MBind Co := λ A B k m s,
  match m s with (Done a, s') => k a s' | (Raised e, s') => (Raised e, s') end.

Definition co_raise {A} (e : Exn) : Co A := λ s, (Raised e, s).
Definition co_fail {A} (e : pyerr) : Co A := co_raise (Failure e).
Definition co_read {A} (f : Db → res A) : Co A := λ s,
  (match f (tk_db s) with Ok a => Done a | Err e => Raised (Failure e) end, s).
Definition co_lift {A} (r : res A) : Co A := co_read (λ _, r).
Definition co_see (m : Moment) : Co unit := λ s, (Done tt, s ⟪ tk_trace := tk_trace s ++ [m] ⟫).
Definition co_task {A} (f : Task → A) : Co A := λ s, (Done (f s), s).
Definition set_context (operation_id attempt_id : option string) : Co unit := λ s,
  (Done tt, (s ⟪ tk_operation := operation_id ⟫) ⟪ tk_attempt := attempt_id ⟫).

(** [try: m; except BaseException as e: h e; raise]. *)
Definition co_except {A} (m : Co A) (h : Exn → Co unit) : Co A := λ s,
  match m s with
  | (Raised e, s') => match h e s' with (Done _, s'') => (Raised e, s'') | (Raised e', s'') => (Raised e', s'') end
  | ok => ok
  end.

(** [str(e) or type(e).__name__]. *)
Definition message (text type : string) : string := if bool_decide (text = "") then type else text.

(** How a tool body ends. *)
Inductive BodyResult :=
| Returned (s : string)
| Threw (e : ToolError)
| WasCancelled (text : string).

(* source: gateway/durable_execution.py _is_retryable_tool_error *)
Definition is_retryable_tool_error (e : ToolError) : bool :=
  match te_retryable e with Some b => b | None => te_transport e end.

(* source: Agent/state.py ToolIdempotency *)
Definition ToolIdempotency_value (i : ToolIdempotency) : string :=
  match i with
  | TI_PURE => "pure" | TI_IDEMPOTENT => "idempotent" | TI_EXTERNALLY_IDEMPOTENT => "externally_idempotent"
  | TI_NON_IDEMPOTENT => "non_idempotent"
  end.

(** [ToolIdempotency(raw)]. *)
Definition ToolIdempotency_parse (s : string) : option ToolIdempotency :=
  List.find (λ i, bool_decide (ToolIdempotency_value i = s))
    [TI_PURE; TI_IDEMPOTENT; TI_EXTERNALLY_IDEMPOTENT; TI_NON_IDEMPOTENT].

(** [declared]: the attribute of the tool, stripped and in lower case. *)
(* source: gateway/durable_execution.py _idempotency_of *)
Definition idempotency_of (declared : option string) (risk : string) : res ToolIdempotency :=
  match declared with
  | Some raw => res_of_option (ValueError "invalid idempotency declaration") (ToolIdempotency_parse raw)
  | None => mret (if bool_decide (risk = "read") then TI_PURE
                  else if bool_decide (risk = "write") then TI_IDEMPOTENT else TI_NON_IDEMPOTENT)
  end.

(* source: gateway/durable_execution.py:550-553 DurableToolCoordinator._record_uncertain_or_failed *)
Definition uncertain (i : ToolIdempotency) : bool :=
  bool_decide (i ∈ [TI_EXTERNALLY_IDEMPOTENT; TI_NON_IDEMPOTENT]).

(** ** The coordinator *)

(* source: gateway/durable_execution.py DurableToolCoordinator.__init__ *)
Record CoordinatorConfig := mkCoordinatorConfig {
  cc_retry_max_attempts : Z; cc_retry_base_us : Z; cc_retry_max_us : Z
}.

(* source: gateway/durable_execution.py DurableRunBinding *)
Record DurableRunBinding := mkDurableRunBinding { rb_run_id : string; rb_turn_id : string }.

Section coordinator.
Context (cfg : Config) (cc : CoordinatorConfig).
(** The write gate, the clock and [uuid4] at each moment; [expires] is
    [_after_seconds(heartbeat_seconds)]. *)
Context (gate : nat → res unit) (env : nat → Env) (uuid : nat → nat → string) (expires : nat → string).
(** What others have committed when a wait is over, and whether the task is
    cancelled in it. *)
Context (others : nat → Db → Db) (cancelled : nat → option string).
(** The text of an exception the controller raises; the model has a short form
    of it. *)
Context (describe : pyerr → string).
Context (binding : option DurableRunBinding).

Definition exn_message (e : Exn) : string :=
  match e with
  | FromTool e | RequestError e | CallbackError e => message (te_text e) (te_type e)
  | CancelledError t => message t "CancelledError"
  | ToolExecutionObservationError t => message t "ToolExecutionObservationError"
  | PermissionError t _ => message t "PermissionError"
  | Failure e => describe e
  | OutOfFuel => ""
  end.

Definition others_commit : Co unit := λ s,
  (Done tt, (s ⟪ tk_db := others (tk_clock s) (tk_db s) ⟫) ⟪ tk_clock := S (tk_clock s) ⟫).

(** [await] on a sleep, a contended lock, another task. *)
Definition co_wait : Co unit :=
  n ← co_task tk_clock;
  others_commit;;
  match cancelled n with Some text => co_raise (CancelledError text) | None => mret tt end.

(** [self.controller.apply(...)] with the id [uuid (clock) 0]. *)
Definition co_apply (run_id : string) (expected_revision : Z) (body : nat → CommandBody) : Co ApplyResult := λ s,
  let n := tk_clock s in
  let c := mkCommand (mkStateCommand (uuid n 0) "primary" None None run_id expected_revision
                        (cf_gateway_epoch cfg)) (body n) in
  if command_valid c then
    match apply cfg (gate n) (env n) c (tk_db s) with
    | Ok (r, db) => (Done r, ((s ⟪ tk_db := db ⟫) ⟪ tk_clock := S n ⟫) ⟪ tk_trace := tk_trace s ++ [Committed db] ⟫)
    | Err e => (Raised (Failure e), s ⟪ tk_clock := S n ⟫)
    end
  else (Raised (Failure (ValidationError "StateCommand")), s).

Definition plain_transition (task : option TaskState) (execution : option ExecutionState) (outcome : option ExecutionOutcome)
    (finish_reason : option string) (reason : string) : CommandBody :=
  Transition (mkTransitionCommand task execution outcome finish_reason None reason None None).

(** A transition from the state that was just read. *)
Definition transition_to (state : AgentState) (execution : ExecutionState) (reason : string) : Co AgentState :=
  r ← co_apply (st_run_id state) (st_revision state) (λ _, plain_transition None (Some execution) None None reason);
  mret (ar_state r).

Definition execution_of (state : AgentState) : option ExecutionState := ex_state <$> st_execution state.

(* source: gateway/durable_execution.py DurableToolCoordinator._binding *)
Definition the_binding : Co DurableRunBinding :=
  co_lift (res_of_option (RuntimeError "Durable Tool is not bound to a Gateway Run") binding).

(** [async with self._run_lock(run_id)]: taking the lock may wait; between
    the reading and the command inside it nothing else runs. *)
(* source: gateway/durable_execution.py DurableToolCoordinator._run_lock *)
Definition with_run_lock {A} (m : Co A) : Co A := co_wait;; m.

(* source: gateway/durable_execution.py:143-149 DurableToolCoordinator.prepare *)
Definition frozen_request (name risk workspace_root : string) (arguments : list (string * json)) : string :=
  json_dumps (JObj [("name", JStr name); ("arguments", JObj arguments); ("workspace_root", JStr workspace_root);
                    ("risk", JStr risk)]).

(* source: gateway/durable_execution.py DurableToolCoordinator.prepare *)
Definition prepare (declared : option string) (name : string) (arguments : list (string * json)) (risk : string)
    (workspace_root tool_call_id : string) (batch : option string) (position : option Z) : Co OperationRecord :=
  b ← the_binding;
  parent ← co_task tk_operation;
  selected ← co_lift (idempotency_of declared risk);
  state ← co_read (state_in (rb_run_id b));
  state ← (if decide (execution_of state = Some ES_OBSERVING)
           then transition_to state ES_THINKING "处理同一模型回复中的下一个工具调用" else mret state);
  let source := str_or (st_model_call_id state) "model-call-unavailable" in
  let stable_key := "tool:" +:+ rb_turn_id b +:+ ":" +:+ source +:+ ":" +:+ tool_call_id in
  r ← co_apply (rb_run_id b) (st_revision state) (λ n, CreateOperationWithAttempt
    (mkCreateOperationWithAttemptCommand (uuid n 1) (uuid n 2) parent (Some (rb_turn_id b)) OK_TOOL name stable_key
      (sha256_hex (frozen_request name risk workspace_root arguments)) selected (negb (bool_decide (risk = "read")))
      None (Some source) (Some tool_call_id) batch position None
      (if bool_decide (risk = "read") then None else Some (uuid n 3)) (Some (sha256_hex stable_key))
      (mkRetryPolicySnapshot (cc_retry_max_attempts cc) (cc_retry_base_us cc) (cc_retry_max_us cc)
         (negb (bool_decide (selected = TI_NON_IDEMPOTENT))) (bool_decide (selected = TI_EXTERNALLY_IDEMPOTENT))
         (bool_decide (selected = TI_NON_IDEMPOTENT)))));
  co_lift (res_of_option (RuntimeError "assert") (ar_operation r)).

(* source: gateway/durable_execution.py DurableToolCoordinator.waiting_human *)
Definition waiting_human (operation : OperationRecord) : Co unit :=
  state ← co_read (state_in (op_run_id operation));
  if decide (execution_of state = Some ES_THINKING) then
    transition_to state ES_WAITING_HUMAN ("工具 " +:+ op_name operation +:+ " 等待用户审批");; mret tt
  else co_fail (RuntimeError "工具审批只能从 THINKING 进入 WAITING_HUMAN").

(** [approval]: the callback, [None] when there is none; its n-th answer may be
    an exception. *)
(* source: gateway/durable_execution.py DurableToolCoordinator.request_approval *)
Definition request_approval (operation : OperationRecord) (approval : option (nat → Exn + bool)) : Co bool :=
  match approval with
  | None => mret false
  | Some ask =>
      b ← the_binding;
      if negb (bool_decide (op_run_id operation = rb_run_id b))
      then co_fail (RuntimeError "Durable Approval Operation does not belong to the bound Run") else
      attempt ← co_read (current_attempt_in (op_operation_id operation));
      outer ← co_task (λ s, (tk_operation s, tk_attempt s));
      set_context (Some (op_operation_id operation)) (Some (at_attempt_id attempt));;
      co_see (Asked (op_operation_id operation) (at_attempt_id attempt));;
      n ← co_task tk_clock;
      others_commit;;
      set_context outer.1 outer.2;;
      match ask n with inl e => co_raise e | inr yes => mret yes end
  end.

(** [json.dumps] with [", "] and [": "] between the parts. *)
Definition not_executed (name reason : string) : string :=
  "{" +:+ join ", " [quote "status" +:+ ": " +:+ quote "NOT_EXECUTED"; quote "tool" +:+ ": " +:+ quote name;
                     quote "reason" +:+ ": " +:+ quote reason] +:+ "}".
(** The same with [sort_keys=True]. *)
Definition not_executed_sorted (name reason : string) : string :=
  "{" +:+ join ", " [quote "reason" +:+ ": " +:+ quote reason; quote "status" +:+ ": " +:+ quote "NOT_EXECUTED";
                     quote "tool" +:+ ": " +:+ quote name] +:+ "}".

(** Skip the current attempt, unless it is skipped already. *)
Definition skip_current (operation : OperationRecord) (state : AgentState) (reason : string) : Co AgentState :=
  attempt ← co_read (current_attempt_in (op_operation_id operation));
  if decide (at_status attempt = OS_SKIPPED) then mret state else
  r ← co_apply (st_run_id state) (st_revision state) (λ _, SkipOperationAttempt (at_attempt_id attempt) reason);
  mret (ar_state r).

(* source: gateway/durable_execution.py DurableToolCoordinator.approval_decided *)
Definition approval_decided (operation : OperationRecord) (approved : bool) : Co (option string) :=
  state ← co_read (state_in (op_run_id operation));
  if approved then
    transition_to state ES_ACTING ("工具 " +:+ op_name operation +:+ " 审批通过");; mret None
  else
    skipped ← skip_current operation state "approval_denied_or_timeout";
    transition_to skipped ES_OBSERVING ("工具 " +:+ op_name operation +:+ " 未执行，记录结构化 observation");;
    set_context None None;;
    mret (Some (not_executed (op_name operation) "approval_denied_or_timeout")).

(* source: gateway/durable_execution.py DurableToolCoordinator.skip_denied *)
Definition skip_denied (operation : OperationRecord) (reason : string) : Co string :=
  state ← co_read (state_in (op_run_id operation));
  state ← skip_current operation state reason;
  (match execution_of state with
   | Some e => if decide (e = ES_OBSERVING) then mret tt
               else transition_to state ES_OBSERVING ("Tool " +:+ op_name operation +:+ " denied: " +:+ reason);; mret tt
   | None => mret tt
   end);;
  set_context None None;;
  mret (not_executed_sorted (op_name operation) reason).

(* source: gateway/durable_execution.py DurableToolCoordinator.begin_parallel_group *)
Definition begin_parallel_group : Co unit :=
  b ← the_binding;
  with_run_lock (
    state ← co_read (state_in (rb_run_id b));
    match execution_of state with
    | None => co_fail (RuntimeError "Parallel Tool group requires an execution state")
    | Some ES_THINKING => transition_to state ES_ACTING "Begin parallel PURE Tool group";; mret tt
    | Some ES_ACTING => mret tt
    | Some _ => co_fail (RuntimeError "Cannot begin parallel Tool group")
    end).

(* source: gateway/durable_execution.py DurableToolCoordinator.finish_parallel_group *)
Definition finish_parallel_group : Co unit :=
  b ← the_binding;
  with_run_lock (
    state ← co_read (state_in (rb_run_id b));
    if decide (execution_of state = Some ES_ACTING)
    then transition_to state ES_OBSERVING "Parallel PURE Tool group settled";; mret tt else mret tt).

(** A command built from the state just read. *)
Definition from_state (run_id : string) (body : nat → CommandBody) : Co ApplyResult :=
  state ← co_read (state_in run_id); co_apply (st_run_id state) (st_revision state) body.

(** *** Calling the body *)

(* source: gateway/durable_execution.py DurableToolCoordinator._record_uncertain_or_failed *)
Definition record_uncertain_or_failed (operation : OperationRecord) (e : Exn) (cancelled manage : bool) : Co unit :=
  let run := op_run_id operation in
  co_read (state_in run);;
  current ← co_task tk_attempt;
  attempt_id ← co_lift (res_of_option (RuntimeError "Tool failure 缺少当前 Attempt") current);
  if uncertain (op_idempotency operation) then
    from_state run (λ _, MarkOperationAttemptUnknown attempt_id
      ((if cancelled then "cancelled during external operation: " else "tool raised after dispatch: ") +:+ exn_message e));;
    from_state run (λ _, plain_transition (Some TS_RECOVERY_REQUIRED) None None None "外部工具副作用结果未知");;
    mret tt
  else
    with_run_lock (from_state run (λ _, FailOperationAttempt attempt_id FK_RETRYABLE (exn_message e)));;
    if negb manage then mret tt else
    from_state run (λ _, plain_transition None (Some ES_FINISHED)
      (Some (if cancelled then EO_CANCELLED else EO_ERROR)) (Some (exn_message e)) "无未知副作用的工具执行终止");;
    mret tt.

(** [body n]: how the call at moment [n] ends. *)
Context (body : nat → BodyResult).

(** The call itself, between its two commits. *)
(* source: gateway/durable_execution.py:377-378 DurableToolCoordinator.execute *)
Definition call_body (attempt_id : string) : Co BodyResult :=
  db ← co_task tk_db;
  co_see (Called attempt_id db);;
  n ← co_task tk_clock;
  others_commit;;
  mret (body n).

(** The failure is reported to the model. *)
(* source: gateway/durable_execution.py:419-434 DurableToolCoordinator.execute *)
Definition report_failure (operation : OperationRecord) (text : string) (manage : bool) : Co OperationRecord :=
  current ← co_read (state_in (op_run_id operation));
  (if manage then transition_to current ES_OBSERVING "Determined tool failure; return observation to model";; mret tt
   else mret tt);;
  set_context None None;;
  co_raise (ToolExecutionObservationError text).

(** A failure that leaves nothing unknown: recorded, and retried when the
    policy allows.  The answer is the operation with its next attempt. *)
(* source: gateway/durable_execution.py:399-450 DurableToolCoordinator.execute *)
Definition retry_or_report (operation : OperationRecord) (attempt_id : string) (e : ToolError) (manage : bool) :
    Co OperationRecord :=
  let text := message (te_text e) (te_type e) in
  failed ← with_run_lock (from_state (op_run_id operation) (λ _, FailOperationAttempt attempt_id
    (if is_retryable_tool_error e then FK_RETRYABLE else FK_TERMINAL) text));
  let operation := default operation (ar_operation failed) in
  let policy := op_retry_policy_snapshot operation in
  match op_next_retry_at operation with
  | Some at_ =>
      if bool_decide (op_failure_kind operation = Some FK_RETRYABLE) && rp_automatic policy then
        co_lift (parse_iso at_);;
        co_wait;;
        next ← with_run_lock (from_state (op_run_id operation) (λ n, BeginOperationAttempt
          (mkBeginOperationAttemptCommand (op_operation_id operation) (uuid n 1) (op_latest_attempt_no operation)
             (op_request_hash operation) None (if op_side_effecting operation then Some (uuid n 2) else None) None None)));
        let operation := default operation (ar_operation next) in
        attempt ← co_lift (res_of_option (RuntimeError "assert") (ar_attempt next));
        context ← co_task tk_operation;
        set_context context (Some (at_attempt_id attempt));;
        mret operation
      else
        report_failure operation text manage
  | None => report_failure operation text manage
  end.

(* source: gateway/durable_execution.py:454-482 DurableToolCoordinator.execute *)
Definition complete (operation : OperationRecord) (attempt_id result : string) (manage : bool) : Co string :=
  with_run_lock (from_state (op_run_id operation) (λ _,
    CompleteOperationAttempt attempt_id result (sha256_hex result) "tool_return"));;
  (if manage then
     state ← co_read (state_in (op_run_id operation));
     transition_to state ES_OBSERVING ("工具 " +:+ op_name operation +:+ " 结果已提交 Ledger");; mret tt
   else mret tt);;
  set_context None None;;
  mret result.

(* source: gateway/durable_execution.py:361-376 DurableToolCoordinator.execute *)
Definition start_attempt (operation : OperationRecord) : Co (OperationRecord * string) :=
  current ← co_task tk_attempt;
  attempt_id ← co_lift (res_of_option (RuntimeError "Tool Operation 缺少当前 Attempt") current);
  started ← with_run_lock (from_state (op_run_id operation) (λ n, StartOperationAttempt attempt_id (Some (expires n))));
  mret (default operation (ar_operation started), attempt_id).

(** The loop: one attempt, and after a failure that may be retried the next. *)
(* source: gateway/durable_execution.py:361-453 DurableToolCoordinator.execute *)
Fixpoint attempts_loop (fuel : nat) (operation : OperationRecord) (manage : bool) : Co string :=
  match fuel with
  | O => co_raise OutOfFuel
  | S fuel =>
      p ← start_attempt operation;
      r ← call_body p.2;
      (** the heartbeat is stopped *)
      co_wait;;
      match r with
      | Returned s => complete p.1 p.2 s manage
      | WasCancelled text =>
          record_uncertain_or_failed p.1 (CancelledError text) true manage;;
          co_raise (CancelledError text)
      | Threw e =>
          if uncertain (op_idempotency p.1) then
            record_uncertain_or_failed p.1 (FromTool e) false manage;;
            co_raise (FromTool e)
          else
            next ← retry_or_report p.1 p.2 e manage;
            attempts_loop fuel next manage
      end
  end.

Definition maintained : list string :=
  ["subagent"; "cronjob"; "harness_capability"; "harness_evolve"; "harness_manual"; "harness_error"; "harness_dream"].

(** [admission]: the answer of the gate to the call as a whole; [draining]: it
    has a gate, and that is not running normally. *)
Context (admission : nat → res unit) (draining : nat → bool).

(* source: gateway/durable_execution.py DurableToolCoordinator.execute *)
Definition execute (fuel : nat) (operation : OperationRecord) (manage : bool) : Co string :=
  n ← co_task tk_clock;
  co_lift (admission n);;
  if draining n && bool_decide (op_name operation ∈ maintained) then skip_denied operation "maintenance_new_work_denied"
  else
    attempt ← co_read (current_attempt_in (op_operation_id operation));
    set_context (Some (op_operation_id operation)) (Some (at_attempt_id attempt));;
    state ← co_read (state_in (op_run_id operation));
    (match execution_of state with
     | None => co_fail (RuntimeError "Tool Operation 缺少内层执行状态")
     | Some e =>
         if manage && bool_decide (e = ES_THINKING)
         then transition_to state ES_ACTING ("开始执行工具 " +:+ op_name operation);; mret tt
         else if bool_decide (e = ES_ACTING) then mret tt else co_fail (RuntimeError "不能在此状态执行工具")
     end);;
    attempts_loop fuel operation manage.

(** One round of the heartbeat; false when it stops. *)
(* source: gateway/durable_execution.py DurableToolCoordinator._heartbeat_loop *)
Definition heartbeat_round (operation : OperationRecord) (attempt_id : string) : Co bool :=
  co_wait;;
  current ← co_read (operation_in (op_operation_id operation));
  if negb (bool_decide (op_status current = OS_RUNNING)) then mret false else
  with_run_lock (from_state (op_run_id operation) (λ n, HeartbeatOperationAttempt attempt_id (env_now (env n)) (expires n)));;
  mret true.

(* source: gateway/durable_execution.py DurableToolCoordinator.preexecution_failed_if_safe *)
Definition preexecution_failed_if_safe (operation : option OperationRecord) (e : Exn) : Co unit :=
  match operation with
  | None => mret tt
  | Some operation =>
      current ← co_read (operation_in (op_operation_id operation));
      if negb (bool_decide (op_status current = OS_PREPARED)) then mret tt else
      attempt ← co_read (current_attempt_in (op_operation_id operation));
      with_run_lock (from_state (op_run_id operation) (λ _, FailOperationAttempt (at_attempt_id attempt) FK_TERMINAL (exn_message e)));;
      state ← co_read (state_in (op_run_id operation));
      (if decide (execution_of state = Some ES_WAITING_HUMAN) then
         co_apply (st_run_id state) (st_revision state) (λ _, plain_transition None (Some ES_FINISHED) (Some EO_ERROR)
           (Some (exn_message e)) "工具在真实副作用前失败");; mret tt
       else mret tt);;
      set_context None None
  end.

End coordinator.
