(* ===== verification/Contracts.v ===== *)
(** * Contracts: the immutable half of an operation

    What an operation is, its request, its idempotency and its retry policy,
    is fixed when it is created, and an attempt that was started is never
    PREPARED again: in a system whose clients never reuse an identifier no
    later command changes either. *)

From stdpp Require Import relations.
From S2P Require Import Prelude PyText PyTime AgentTypes AgentState Sanitizer Commands.
From S2P Require Import OperationReduce FinalizeEvidence Store Events Operations FinalizeOps.
From S2P Require Import Controller Frames Outcomes Apply Observations Outbox System Demo StatesInv.
From S2P Require Import Lifecycle Records Replay Ledger Projection.

#[local] Open Scope Z_scope.

Record contract_kept (db db' : Db) : Prop := {
  ck_operations : ∀ id row, db_operations db !! id = Some row →
    ∃ row', db_operations db' !! id = Some row' ∧ same_contract (or_body row) (or_body row');
  ck_attempts : ∀ id r, db_attempts db !! id = Some r →
    ∃ r', db_attempts db' !! id = Some r' ∧ tr_operation_id r' = tr_operation_id r ∧
      (at_status (tr_body r') = OS_PREPARED → at_status (tr_body r) = OS_PREPARED)
}.

#[export] Instance contract_kept_preorder : PreOrder contract_kept.
Proof.
  split.
  - intros db. split; intros id x H; by exists x.
  - intros x y z H1 H2. split.
    + intros id row H. destruct (ck_operations _ _ H1 _ _ H) as (r1 & E1 & [C1 D1]).
      destruct (ck_operations _ _ H2 _ _ E1) as (r2 & E2 & [C2 D2]). exists r2. split; [done|]. split; congruence.
    + intros id r H. destruct (ck_attempts _ _ H1 _ _ H) as (r1 & E1 & D1 & C1).
      destruct (ck_attempts _ _ H2 _ _ E1) as (r2 & E2 & D2 & C2). exists r2. split_and!; [done|congruence|auto].
Qed.

Lemma tables_contract db db' : tables db' = tables db → contract_kept db db'.
Proof. intros [= E1 E2]. split; intros id x; rewrite ?E1, ?E2; by exists x. Qed.

Lemma pair_contract db o a db' : sound db o a → pair_saved o a db db' → contract_kept db db'.
Proof.
  intros S [(row' & E & Hrow) Ea]. split.
  - intros id row Hr. rewrite E. destruct (decide (op_operation_id o = id)) as [<-|Hne].
    + rewrite lookup_insert_eq. exists row'. split; [done|]. pose proof (so_operation _ _ _ S _ Hr) as Hc.
      rewrite Hr in Hrow. by subst row'.
    + rewrite lookup_insert_ne by done. by exists row.
  - intros id r Hr. rewrite Ea, (upserted_fresh _ _ (so_attempt _ _ _ S)).
    destruct (decide (at_attempt_id a = id)) as [<-|Hne].
    + rewrite lookup_insert_eq. eexists. split; [done|]. split; [|by apply (so_started _ _ _ S)].
      pose proof (so_attempt _ _ _ S _ Hr) as Hk. unfold attempt_key in Hk. by injection Hk.
    + rewrite lookup_insert_ne by done. by exists r.
Qed.

Lemma save_opt_contract p db db' u db1 u' :
  opt_sound db p → save_opt save_operation p.1 db = Ok (u, db1) → save_opt save_attempt p.2 db1 = Ok (u', db') →
  contract_kept db db'.
Proof.
  destruct p as [[o|] [a|]]; try done; cbn [fst snd save_opt].
  - intros S H1 H2. eapply pair_contract; [exact S|]. by eapply save_pair_saved.
  - by intros _ [_ <-]%tx_ret_ok [_ <-]%tx_ret_ok.
Qed.

(** *** Handlers that write themselves *)

Lemma begin_operation_contract env h state c t db o db' : 
  ledger_ok db → fresh_ids env (mkCommand h (BeginOperation c)) db = true →
  begin_operation state c t db = Ok (o, db') → contract_kept db db'.
Proof.
  intros L Hf. unfold begin_operation. intros (d & s1 & [-> ->]%tx_gets_ok & H)%tx_bind_ok.
  destruct (db_operations db !! bo_operation_id c) as [row|] eqn:Eo.
  { assert (db' = db) as ->; [|reflexivity].
    apply tx_bind_ok in H as (e & s1 & [_ ->]%tx_read_ok & H). apply tx_bind_ok in H as ([] & s1 & [_ ->]%reject_ok & H).
    by apply tx_ret_ok in H as [_ <-]. }
  apply tx_bind_ok in H as ([] & s1 & [_ ->]%reject_ok & H).
  apply tx_bind_ok in H as (op & s1 & [[_ Hop]%checked_ok ->]%tx_lift_ok & H).
  apply tx_bind_ok in H as (at_ & s1 & [[_ Hat]%checked_ok ->]%tx_lift_ok & H).
  apply tx_bind_ok in H as ([] & s1 & (row & -> & _)%save_operation_ok & H).
  apply tx_bind_ok in H as ([] & s2 & [new S]%save_attempt_ok & H). apply tx_ret_ok in H as [_ <-].
  rewrite (as_store _ _ _ _ S).
  assert (op_operation_id op = bo_operation_id c) as Eid by by rewrite Hop.
  split; intros id old Hold; cbn; rewrite lookup_insert_ne; try (by exists old); [congruence|].
  unfold fresh_ids in Hf. cbn in Hf. rewrite Eo, Hat in *. cbn in *. intros <-. by rewrite Hold in Hf.
Qed.

Lemma recovery_retry_contract env state c o a t db p db' :
  ledger_ok db → recovery_retry env state c o a t db = Ok (p, db') → contract_kept db db'.
Proof.
  intros L. unfold recovery_retry. destruct o as [o|], a as [a|]; try (by intros []%tx_fail_ok).
  intros ([] & s1 & [_ ->]%reject_ok & H)%tx_bind_ok. apply tx_bind_ok in H as ([] & s1 & [_ ->]%reject_ok & H).
  apply tx_bind_ok in H as (o1 & s1 & Ho1 & H). apply tx_bind_ok in H as (cmd & s2 & [_ ->]%tx_lift_ok & H).
  assert (db' = s1) as -> by (eapply read_only; [|exact H]; unfold begin_operation_attempt; by tx_frame).
  case_decide; [|by apply tx_ret_ok in Ho1 as [_ <-]].
  apply tx_bind_ok in Ho1 as ([o2 a2] & s3 & Hu & Ho1).
  apply update_attempt_sound in Hu as [-> S]; [|by intros ?|done]. cbn in S, Ho1.
  apply tx_bind_ok in Ho1 as ([] & s3 & Ha2 & Ho1). apply tx_bind_ok in Ho1 as ([] & s4 & Ho2 & Ho1).
  apply tx_ret_ok in Ho1 as [_ <-]. eapply pair_contract; [exact S|]. by eapply save_pair_reversed.
Qed.

Lemma recovery_effect_contract env state c o a t db q db' :
  ledger_ok db → recovery_effect env state c o a t db = Ok (q, db') → contract_kept db db'.
Proof.
  intros L. unfold recovery_effect. destruct (rc_action c).
  - case_decide; [by intros [_ <-]%tx_ret_ok|].
    intros (p & s1 & Hr & Hp)%tx_bind_ok. apply tx_ret_ok in Hp as [_ <-]. by eapply recovery_retry_contract.
  - intros (p & s1 & H & Hp)%tx_bind_ok. apply tx_ret_ok in Hp as [_ <-].
    assert (s1 = db) as -> by (eapply read_only; [|exact H]; unfold recovery_confirm; by tx_frame). reflexivity.
  - destruct o, a; try (by intros [_ <-]%tx_ret_ok).
    intros (p & s1 & H & Hp)%tx_bind_ok. apply tx_ret_ok in Hp as [_ <-].
    assert (s1 = db) as -> by (eapply read_only; [|exact H]; unfold recovery_fail; by tx_frame). reflexivity.
  - by intros [_ <-]%tx_ret_ok.
Qed.

Lemma apply_recovery_contract env state h c t db r db' :
  ledger_ok db → db_attempts db !! env_uuid env 1 = None →
  apply_recovery env state h c t db = Ok (r, db') → contract_kept db db'.
Proof.
  intros L Hf. unfold apply_recovery.
  intros (p & s1 & Hp & H)%tx_bind_ok. destruct (recovery_target_sound _ _ _ _ _ L Hp) as [-> Sp].
  apply tx_bind_ok in H as (q & s2 & Hq & H).
  destruct (recovery_effect_sound _ _ _ _ _ _ _ _ L Hf Sp Hq) as [_ Sq].
  pose proof (recovery_effect_contract _ _ _ _ _ _ _ _ _ L Hq) as C1.
  apply tx_bind_ok in H as ([] & s3 & H1 & H). apply tx_bind_ok in H as ([] & s4 & H2 & H).
  pose proof (save_opt_contract _ _ _ _ _ _ Sq H1 H2) as C2.
  apply tx_bind_ok in H as ([] & s5 & H3 & H). apply tx_ret_ok in H as [_ <-].
  etrans; [exact C1|]. etrans; [exact C2|]. apply tables_contract.
  apply (insert_decision_rel (same_part tables)) in H3; [exact H3|done].
Qed.

(** *** Commands *)

Lemma dispatch_contract cfg env state h b db o db' :
  ledger_ok db → fresh_ids env (mkCommand h b) db = true →
  dispatch cfg env state (mkCommand h b) db = Ok (o, db') → contract_kept db db'.
Proof.
  intros L Hf. unfold dispatch. cbn [cm_body cm_head].
  destruct b;
    try (intros Hm; apply tables_contract; revert Hm;
      lazymatch goal with |- ?m _ = _ → _ => assert (tx_rel (same_part tables) m) as R end;
      [unfold start_replacement, start_finalize, invalidate_generation, finalize_audit, put_receipt,
        finalize_inbox, put_inbox, finalize_terminal, handle_create_operation,
        create_operation_with_attempt, handle_begin_attempt, begin_operation_attempt, handle_attempt,
        guard_finalize_completion, handle_operation, reconcile_attempt, selected_attempt, create_safe_checkpoint,
        create_approval, decide_approval, expire_approval, settle_approval; tx_frame|apply R]; fail).
  - intros (x & s1 & H & Ho)%tx_bind_ok.
    apply tx_bind_ok in Ho as (a & s2 & [_ ->]%tx_read_ok & Ho). apply tx_ret_ok in Ho as [_ <-].
    by eapply begin_operation_contract.
  - intros (r & s1 & H & Ho)%tx_bind_ok. apply tx_ret_ok in Ho as [_ <-].
    unfold fresh_ids in Hf. cbn in Hf.
    assert (db_attempts db !! env_uuid env 1 = None) as Hn by by destruct (db_attempts db !! _).
    by eapply apply_recovery_contract.
Qed.

Lemma apply_contract cfg gate env c db r db' :
  states_wf db → ledger_ok db → fresh_ids env c db = true →
  apply cfg gate env c db = Ok (r, db') → contract_kept db db'.
Proof.
  intros Hwf L Hf H. apply apply_ok in H as [_ [[-> _]|(state & o & db1 & F)]]; [reflexivity|].
  destruct (fresh_stepped _ _ _ _ _ _ _ _ _ Hwf F) as (row & <- & S). destruct c as [h b].
  pose proof (fr_dispatch _ _ _ _ _ _ _ _ _ F) as D.
  destruct (dispatch_sound _ _ _ _ _ _ _ _ L (sp_run _ _ _ _ _ _ _ S) Hf D) as [L1 S1].
  destruct (cf_saved _ _ _ _ _ _ _ _ (fr_commit _ _ _ _ _ _ _ _ _ F)) as (d & Hs & Hl & _).
  etrans; [by eapply dispatch_contract|]. trans d; [|apply tables_contract; unfold ledger in Hl; unfold tables; congruence].
  unfold save_outcome in Hs.
  apply tx_bind_ok in Hs as ([] & s1 & H1 & Hs). apply tx_bind_ok in Hs as ([] & s2 & H2 & H3).
  unfold outcome_sound in S1.
  trans s2; [|apply tables_contract; destruct (oc_approval o); cbn [save_opt] in H3;
    [by apply (save_approval_rel (same_part tables)) in H3|by apply tx_ret_ok in H3 as [_ <-]]].
  destruct (oc_operation o) as [op|], (oc_attempt o) as [a|]; try done; cbn [save_opt] in H1, H2.
  - eapply (save_opt_contract (Some op, Some a)); [exact S1|exact H1|exact H2].
  - apply tx_ret_ok in H1 as [_ <-]. by apply tx_ret_ok in H2 as [_ <-].
Qed.

(** A system of tidy clients keeps its contracts. *)
Lemma tidy_step_contract db db' : states_wf db → ledger_ok db → tidy_step db db' → contract_kept db db'.
Proof.
  intros Hwf L H. destruct H as [cfg gate env c r d d' _ Hf H|d d' _ E E']; [by eapply apply_contract|apply tables_contract; unfold tables; congruence].
Qed.

Lemma tidy_extend db db' : tidy_reachable db → rtc tidy_step db db' → tidy_reachable db'.
Proof. intros (d & Hi & Hr) H. exists d. split; [done|]. by trans db. Qed.

Lemma tidy_wf db : tidy_reachable db → states_wf db ∧ ledger_ok db.
Proof.
  intros H. split; [by apply reachable_states_wf, tidy_is_reachable|by apply tidy_ledger].
Qed.

Lemma tidy_contract db db' : tidy_reachable db → rtc tidy_step db db' → contract_kept db db'.
Proof.
  intros Ht Hr. induction Hr as [|x y z Hxy _ IH]; [reflexivity|].
  destruct (tidy_wf _ Ht) as [Hwf L]. trans y; [by apply tidy_step_contract|].
  apply IH. eapply tidy_extend; [exact Ht|by apply rtc_once].
Qed.
