(* ===== verification/ToolFacts.v ===== *)
(** * ToolFacts: a program logic for the coordinator of tools

    [co_spec]: what holds when a method of DurableTools answers and when it
    raises.  Waits let others commit, so what a task knows across them is what
    every commit keeps. *)

From stdpp Require Import relations.
From S2P Require Import Prelude PyText PyTime Sanitizer AgentTypes AgentState Commands.
From S2P Require Import OperationReduce Store Operations Controller Frames Outcomes Apply Records System StatesInv.
From S2P Require Import Demo Lifecycle RecoveryFacts Replay Ledger Projection Safety DurableTools Contracts.

#[local] Open Scope Z_scope.

(** ** Rules *)

Section rules.
Context {A B : Type}.
Implicit Types (P : Task → Prop) (Q : A → Task → Prop) (E : Exn → Task → Prop).

Definition co_spec P (m : Co A) Q E : Prop :=
  ∀ s, P s → match m s with (Done a, s') => Q a s' | (Raised e, s') => E e s' end.
End rules.

Section spec.
Context {A B : Type}.
Implicit Types (P : Task → Prop).

Lemma co_spec_ret P Q E (a : A) : (∀ s, P s → Q a s) → co_spec P (mret a) Q E.
Proof. intros H s HP. by apply H. Qed.
Lemma co_spec_raise P (Q : A → Task → Prop) E e : (∀ s, P s → E e s) → co_spec P (co_raise e) Q E.
Proof. intros H s HP. by apply H. Qed.
Lemma co_spec_bind P (m : Co A) (k : A → Co B) M Q E :
  co_spec P m M E → (∀ a, co_spec (M a) (k a) Q E) → co_spec P (m ≫= k) Q E.
Proof.
  intros Hm Hk s HP. specialize (Hm s HP). unfold mbind, co_bind. destruct (m s) as [[a|e] s']; [|done]. by apply Hk.
Qed.
Lemma co_spec_read P Q E (f : Db → res A) :
  (∀ s a, P s → f (tk_db s) = Ok a → Q a s) → (∀ s e, P s → E (Failure e) s) → co_spec P (co_read f) Q E.
Proof. intros H HE s HP. unfold co_read. destruct (f (tk_db s)) eqn:Ef; [by apply H|by apply HE]. Qed.
Lemma co_spec_task P Q E (f : Task → A) : (∀ s, P s → Q (f s) s) → co_spec P (co_task f) Q E.
Proof. intros H s HP. by apply H. Qed.
Lemma co_spec_weaken P P' Q Q' E E' (m : Co A) :
  co_spec P m Q E → (∀ s, P' s → P s) → (∀ a s, Q a s → Q' a s) → (∀ e s, E e s → E' e s) → co_spec P' m Q' E'.
Proof. intros H HP HQ HE s Hs. specialize (H s (HP s Hs)). destruct (m s) as [[a|e] s']; auto. Qed.
Lemma co_spec_error P Q E E' (m : Co A) : co_spec P m Q E → (∀ e s, E e s → E' e s) → co_spec P m Q E'.
Proof. intros H HE. by eapply co_spec_weaken. Qed.
Lemma co_spec_pre P P' Q E (m : Co A) : co_spec P m Q E → (∀ s, P' s → P s) → co_spec P' m Q E.
Proof. intros H HP. by eapply co_spec_weaken. Qed.
Lemma co_spec_true P Q E (m : Co A) : (∀ a s, Q a s) → (∀ e s, E e s) → co_spec P m Q E.
Proof. intros HQ HE s _. destruct (m s) as [[]]; auto. Qed.
Lemma co_spec_pure P (φ : Prop) (m : Co A) Q E : (φ → co_spec P m Q E) → co_spec (λ s, P s ∧ φ) m Q E.
Proof. intros H s [HP Hφ]. by apply H. Qed.
Lemma co_spec_ex {X} (P : X → Task → Prop) (m : Co A) Q E :
  (∀ x, co_spec (P x) m Q E) → co_spec (λ s, ∃ x, P x s) m Q E.
Proof. intros H s [x Hx]. by apply (H x). Qed.
Lemma co_spec_given P (a : A) (k : A → Co B) (Q : B → Task → Prop) E : co_spec P (k a) Q E → co_spec P (mret a ≫= k) Q E.
Proof. done. Qed.
Lemma co_spec_except P (m : Co A) h M Q E :
  co_spec P m Q M → (∀ e, co_spec (M e) (h e) (λ _, E e) (λ e', E e')) → co_spec P (co_except m h) Q E.
Proof.
  intros Hm Hh s HP. specialize (Hm s HP). unfold co_except. destruct (m s) as [[a|e] s']; [done|].
  specialize (Hh e s' Hm). by destruct (h e s') as [[[]|e'] s''].
Qed.
End spec.

(** The same before and after, whatever happens. *)
Definition co_keeps {A} (P : Task → Prop) (m : Co A) : Prop := co_spec P m (λ _, P) (λ _, P).

Section keeps.
Context (P : Task → Prop).
Lemma co_keeps_ret {A} (a : A) : co_keeps P (mret a).
Proof. by apply co_spec_ret. Qed.
Lemma co_keeps_raise {A} e : co_keeps P (co_raise (A:=A) e).
Proof. by apply co_spec_raise. Qed.
Lemma co_keeps_read {A} (f : Db → res A) : co_keeps P (co_read f).
Proof. by apply co_spec_read. Qed.
Lemma co_keeps_lift {A} (r : res A) : co_keeps P (co_lift r).
Proof. by apply co_spec_read. Qed.
Lemma co_keeps_task {A} (f : Task → A) : co_keeps P (co_task f).
Proof. by apply co_spec_task. Qed.
Lemma co_keeps_bind {A B} (m : Co A) (k : A → Co B) : co_keeps P m → (∀ a, co_keeps P (k a)) → co_keeps P (m ≫= k).
Proof. intros Hm Hk. eapply co_spec_bind; [exact Hm|exact Hk]. Qed.
Lemma co_keeps_except {A} (m : Co A) h : co_keeps P m → (∀ e, co_keeps P (h e)) → co_keeps P (co_except m h).
Proof. intros Hm Hh. eapply co_spec_except; [exact Hm|]. intros e. apply Hh. Qed.
End keeps.

(** ** What the commands of the coordinator do *)

(** The commands that write one operation and one attempt. *)
Definition pair_body (b : CommandBody) : bool :=
  match b with
  | CreateOperationWithAttempt _ | BeginOperationAttempt _ | StartOperationAttempt _ _ | CompleteOperationAttempt _ _ _ _
  | FailOperationAttempt _ _ _ | MarkOperationAttemptUnknown _ _ | SkipOperationAttempt _ _
  | HeartbeatOperationAttempt _ _ _ => true
  | _ => false
  end.

(** The attempt they change, from what, and how. *)
Definition attempt_change (t : string) (b : CommandBody) :
    option (string * list OperationStatus * (OperationAttempt → OperationAttempt)) :=
  match b with
  | StartOperationAttempt id e => Some (id, [OS_PREPARED], set_running t e)
  | CompleteOperationAttempt id r h s => Some (id, [OS_RUNNING; OS_UNKNOWN], set_completed t r h s)
  | FailOperationAttempt id k r => Some (id, [OS_PREPARED; OS_RUNNING], set_failed t k r)
  | MarkOperationAttemptUnknown id r => Some (id, [OS_RUNNING], set_unknown r)
  | SkipOperationAttempt id r => Some (id, [OS_PREPARED], set_skipped t (sanitize_text r))
  | HeartbeatOperationAttempt id a e => Some (id, [OS_RUNNING], set_heartbeat a e)
  | _ => None
  end.

(** The attempt they would add. *)
Definition new_attempt_id (b : CommandBody) : option string :=
  match b with
  | CreateOperationWithAttempt c => Some (co_attempt_id c)
  | BeginOperationAttempt c => Some (ba_attempt_id c)
  | _ => None
  end.

Record pair_applied (env : Env) (b : CommandBody) (db : Db) (r : ApplyResult) (db' : Db)
    (o : OperationRecord) (a : OperationAttempt) : Prop := {
  pa_operation : ar_operation r = Some o;
  pa_attempt : ar_attempt r = Some a;
  pa_attempts : db_attempts db' = <[at_attempt_id a := fresh_attempt_row a]> (db_attempts db);
  pa_operations : ∃ row, db_operations db' = <[op_operation_id o := row]> (db_operations db) ∧ or_body row = o;
  pa_sound : sound db o a;
  pa_new : is_some (db_attempts db !! at_attempt_id a) = true ∨ new_attempt_id b = Some (at_attempt_id a);
  pa_begun : ∀ c, b = BeginOperationAttempt c → at_operation_id a = ba_operation_id c ∧ at_status a = OS_PREPARED;
  pa_change : ∀ id allowed f, attempt_change (env_now env) b = Some (id, allowed, f) →
    ∃ old, attempt_in id db = Ok old ∧ at_status old ∈ allowed ∧ at_attempt_id old = id ∧
      a = (f old) ⟪ at_updated_at := env_now env ⟫
}.

Lemma updates_keep_key t b id allowed f : attempt_change t b = Some (id, allowed, f) → keeps_key f.
Proof. destruct b; intros [= <- <- <-]; by intros ?. Qed.

(** What the records of an outcome are. *)
Definition pair_outcome (t : string) (b : CommandBody) (db : Db) (o : Outcome) : Prop :=
  oc_approval o = None ∧ ∃ op a, oc_operation o = Some op ∧ oc_attempt o = Some a ∧ sound db op a ∧
    (is_some (db_attempts db !! at_attempt_id a) = true ∨ new_attempt_id b = Some (at_attempt_id a)) ∧
    (∀ c, b = BeginOperationAttempt c → at_operation_id a = ba_operation_id c ∧ at_status a = OS_PREPARED) ∧
    ∀ id allowed f, attempt_change t b = Some (id, allowed, f) →
      ∃ old, attempt_in id db = Ok old ∧ at_status old ∈ allowed ∧ at_attempt_id old = id ∧ a = (f old) ⟪ at_updated_at := t ⟫.

Lemma update_outcome state id t allowed f b (k : OperationRecord * OperationAttempt → Outcome) db o db1 :
  attempt_change t b = Some (id, allowed, f) → ledger_ok db →
  (∀ p, oc_approval (k p) = None ∧ oc_operation (k p) = Some p.1 ∧ oc_attempt (k p) = Some p.2) →
  (p ← update_attempt state id t allowed f; mret (k p)) db = Ok (o, db1) → db1 = db ∧ pair_outcome t b db o.
Proof.
  intros Hc L Hp (p & s1 & Hup & Hx)%tx_bind_ok. apply tx_ret_ok in Hx as [<- <-].
  destruct (update_attempt_sound _ _ _ _ _ _ _ _ (updates_keep_key _ _ _ _ _ Hc) L Hup) as [-> S].
  apply update_attempt_ok in Hup as [_ [old U]]. destruct (Hp p) as (E1 & E2 & E3). split; [done|]. split; [done|].
  exists p.1, p.2. pose proof (au_old _ _ _ _ _ _ _ _ U) as Hold. apply attempt_in_ok in Hold as (row & Hr & _ & Eo).
  assert (at_attempt_id old = id) as Ei by (subst old; by destruct (lk_attempts _ L _ _ Hr)).
  split; [done|]. split; [done|]. split; [done|]. split.
  { left. rewrite (au_new _ _ _ _ _ _ _ _ U). cbn. destruct (updates_keep_key _ _ _ _ _ Hc old) as [-> _].
    by rewrite Ei, Hr. }
  split; [by intros c ->|]. rewrite Hc. intros ? ? ? [= <- <- <-]. exists old.
  split; [apply U|]. split; [apply U|]. split; [done|]. apply U.
Qed.

(** The attempt a creation returns exists already or carries the new id. *)
Lemma create_names state c t db p db' :
  ledger_ok db → create_operation_with_attempt state c t db = Ok (p, db') →
  is_some (db_attempts db !! at_attempt_id p.2) = true ∨ Some (co_attempt_id c) = Some (at_attempt_id p.2).
Proof.
  intros L. unfold create_operation_with_attempt. intros (d & s1 & [-> ->]%tx_gets_ok & H)%tx_bind_ok.
  destruct (operation_by_key _ _ _ _) as [row|].
  - left. apply tx_bind_ok in H as (o & s1 & [_ ->]%tx_lift_ok & H).
    apply tx_bind_ok in H as ([] & s1 & [_ ->]%require_ok & H).
    apply tx_bind_ok in H as (a & s1 & [[_ Ha]%current_attempt_in_ok ->]%tx_read_ok & H).
    apply tx_ret_ok in H as [<- <-]. cbn. rewrite attempt_rows_perm in Ha.
    apply elem_of_bodies in Ha as (k & r & Hr & _ & ->). destruct (lk_attempts _ L _ _ Hr) as [_ ->]. by rewrite Hr.
  - right. apply tx_bind_ok in H as (o & s1 & [_ ->]%tx_lift_ok & H).
    apply tx_bind_ok in H as (a & s1 & [[_ Ha]%checked_ok ->]%tx_lift_ok & H).
    apply tx_bind_ok in H as (o' & s1 & [_ ->]%tx_lift_ok & H). apply tx_ret_ok in H as [<- <-]. cbn. by rewrite Ha.
Qed.

Lemma pair_dispatch cfg env state h b db o db1 :
  pair_body b = true → ledger_ok db → st_run_id state = sc_run_id h → fresh_ids env (mkCommand h b) db = true →
  dispatch cfg env state (mkCommand h b) db = Ok (o, db1) → db1 = db ∧ pair_outcome (env_now env) b db o.
Proof.
  intros Hb L Hrun Hf H. unfold dispatch in H. cbn [cm_body cm_head] in H.
  destruct b; try discriminate Hb; try (eapply update_outcome; [reflexivity|exact L| |exact H]; by intros ?).
  - apply tx_bind_ok in H as (p & s1 & H & Ho). apply tx_ret_ok in Ho as [<- <-].
    destruct (create_operation_sound _ _ _ _ _ _ _ _ L Hrun Hf H) as [-> S]. split; [done|]. split; [done|].
    exists p.1, p.2. split_and!; try done. by eapply create_names.
  - apply tx_bind_ok in H as (p & s1 & H & Ho). apply tx_ret_ok in Ho as [<- <-]. unfold fresh_ids in Hf. cbn in Hf.
    assert (db_attempts db !! ba_attempt_id c = None) as Hn by by destruct (db_attempts db !! _).
    destruct (begin_attempt_sound _ _ _ _ _ _ L Hn H) as [-> S]. split; [done|]. split; [done|].
    apply begin_operation_attempt_ok in H as [_ (op & l & latest & B)].
    pose proof (ab_new _ _ _ _ _ _ _ _ B) as Hnew. pose proof (ab_operation _ _ _ _ _ _ _ _ B) as Hop.
    apply operation_in_ok in Hop as (row & Hrow & _ & ->). destruct (lk_operations _ L _ _ Hrow) as [Hid _].
    exists p.1, p.2. split_and!; try done.
    + right. by rewrite Hnew.
    + intros c' [= <-]. by rewrite Hnew.
  - cbn [handle_attempt] in H. apply tx_bind_ok in H as ([] & s1 & Hg & H).
    assert (s1 = db) as -> by (eapply read_only; [|exact Hg]; unfold guard_finalize_completion; by tx_frame).
    eapply update_outcome; [reflexivity|exact L| |exact H]; by intros ?.
Qed.

(** A command with a fresh id that writes a pair. *)
Lemma apply_pair cfg gate env h b db r db' :
  tidy_reachable db → pair_body b = true → fresh_ids env (mkCommand h b) db = true →
  db_processed db !! sc_command_id h = None → apply cfg gate env (mkCommand h b) db = Ok (r, db') →
  ∃ o a, pair_applied env b db r db' o a.
Proof.
  intros Ht Hb Hf Hn H. pose proof (tidy_ledger _ Ht) as L. destruct (reachable_states_ok _ (tidy_is_reachable _ Ht)) as [Hwf _].
  apply apply_ok in H as [_ [(_ & row & Hp & _)|(state & o & db1 & F)]]; [cbn in Hp; congruence|].
  destruct (fresh_stepped _ _ _ _ _ _ _ _ _ Hwf F) as (row & <- & S).
  destruct (pair_dispatch _ _ _ _ _ _ _ _ Hb L (sp_run _ _ _ _ _ _ _ S) Hf (fr_dispatch _ _ _ _ _ _ _ _ _ F))
    as (-> & Happ & op & a & Ho & Ha & So & Hi & Hb' & Hc).
  pose proof (fr_commit _ _ _ _ _ _ _ _ _ F) as C.
  destruct (cf_event _ _ _ _ _ _ _ _ C) as (e & d1 & d2 & _ & _ & _ & _ & _ & Hr).
  destruct (cf_saved _ _ _ _ _ _ _ _ C) as (d & Hs & Hl & _). unfold save_outcome in Hs. rewrite Ho, Ha, Happ in Hs.
  cbn [save_opt] in Hs. apply tx_bind_ok in Hs as ([] & s1 & H1 & Hs). apply tx_bind_ok in Hs as ([] & s2 & H2 & H3).
  apply tx_ret_ok in H3 as [_ ->]. destruct (save_pair_saved _ _ _ _ _ _ _ H1 H2) as [(row' & E1 & Hrow) E2].
  exists op, a. split.
  - by rewrite Hr.
  - by rewrite Hr.
  - assert (db_attempts db' = db_attempts d) as -> by (unfold ledger in Hl; congruence). rewrite E2.
    by rewrite (upserted_fresh _ _ (so_attempt _ _ _ So)).
  - exists row'. split; [|by destruct (db_operations db !! _); subst row'].
    assert (db_operations db' = db_operations d) as -> by (unfold ledger in Hl; congruence). exact E1.
  - done.
  - done.
  - done.
  - exact Hc.
Qed.

(** What a transition that is new leaves. *)
Record transition_applied (run : string) (c : TransitionCommand) (db : Db) (r : ApplyResult) (db' : Db) : Prop := {
  ta_tables : tables db' = tables db;
  ta_row : ∃ row, db_states db' !! run = Some row ∧ sr_body row = ar_state r;
  ta_task : ∀ t, tc_task_state c = Some t → st_task_state (ar_state r) = t;
  ta_execution : ∀ e, tc_execution_state c = Some e → execution_of (ar_state r) = Some e
}.

Lemma apply_transition_new cfg gate env h t db r db' :
  tidy_reachable db → db_processed db !! sc_command_id h = None →
  apply cfg gate env (mkCommand h (Transition t)) db = Ok (r, db') → transition_applied (sc_run_id h) t db r db'.
Proof.
  intros Ht Hn H. destruct (reachable_states_ok _ (tidy_is_reachable _ Ht)) as [Hwf _].
  apply apply_ok in H as [_ [(_ & row & Hp & _)|(state & o & db1 & F)]]; [cbn in Hp; congruence|].
  destruct (fresh_stepped _ _ _ _ _ _ _ _ _ Hwf F) as (row & <- & S).
  pose proof (fr_dispatch _ _ _ _ _ _ _ _ _ F) as D. unfold dispatch in D. cbn [cm_body cm_head] in D.
  apply handle_transition_ok in D as (-> & Ho & Ha & Hp & T).
  pose proof (commit_no_records _ _ _ _ _ _ _ _ (fr_commit _ _ _ _ _ _ _ _ _ F) Ho Ha Hp) as Hl.
  destruct (sp_result _ _ _ _ _ _ _ S) as (Er & _). split.
  - unfold ledger in Hl. unfold tables. congruence.
  - eexists. rewrite (sp_states _ _ _ _ _ _ _ S). cbn. by rewrite lookup_insert_eq.
  - intros x Hx. rewrite Er. pose proof (te_outer _ _ _ T) as To. rewrite Hx in To. apply To.
  - intros e He. rewrite Er. pose proof (te_inner _ _ _ T) as Ti. rewrite He in Ti. destruct Ti as (x & Ex & <- & _).
    unfold execution_of. cbn. by rewrite Ex.
Qed.
