(* ===== verification/ToolRuns.v ===== *)
(** * ToolRuns: what the execution of a tool does to the ledger

    The invariant of a task that executes tools, and the contract of every
    part of [execute] in the program logic of ToolFacts. *)

From stdpp Require Import relations.
From S2P Require Import Prelude PyText PyTime Sanitizer AgentTypes AgentState Commands.
From S2P Require Import OperationReduce Store Operations Controller Frames Outcomes Apply Records System StatesInv.
From S2P Require Import Demo Lifecycle RecoveryFacts Replay Ledger Projection Safety DurableTools Contracts ToolFacts.

#[local] Open Scope Z_scope.

(** ** The world around a task *)

Definition unused (id : string) (db : Db) : Prop := db_processed db !! id = None ∧ db_attempts db !! id = None.

(** The others are tidy clients, and nobody draws an id twice. *)
Record world_law (uuid : nat → nat → string) (others : nat → Db → Db) : Prop := {
  wl_steps : ∀ n db, tidy_reachable db → rtc tidy_step db (others n db);
  wl_unused : ∀ n m k db, (n < m)%nat → unused (uuid m k) db → unused (uuid m k) (others n db);
  wl_distinct : ∀ n m k l, uuid n k = uuid m l → n = m ∧ k = l
}.

Record live (uuid : nat → nat → string) (s : Task) : Prop := {
  lv_tidy : tidy_reachable (tk_db s);
  lv_unused : ∀ m k, (tk_clock s ≤ m)%nat → unused (uuid m k) (tk_db s)
}.

(** ** The calls of bodies *)

Definition call_of (m : Moment) : option (string * Db) :=
  match m with Called id db => Some (id, db) | _ => None end.
Definition calls (s : Task) : list (string * Db) := omap call_of (tk_trace s).

(** The operation whose body was called. *)
Definition owner (c : string * Db) : option string := tr_operation_id <$> db_attempts c.2 !! c.1.
Definition calls_of (operation_id : string) (l : list (string * Db)) : list (string * Db) :=
  filter (λ c, owner c = Some operation_id) l.

Record call_ok (c : string * Db) (db : Db) : Prop := {
  cl_reached : tidy_reachable c.2;
  cl_running : ∃ r, db_attempts c.2 !! c.1 = Some r ∧ at_status (tr_body r) = OS_RUNNING;
  cl_since : contract_kept c.2 db
}.

(** Every call was of a running attempt, and no attempt was called twice. *)
Definition accounted (l : list (string * Db)) (db : Db) : Prop :=
  NoDup l.*1 ∧ ∀ c, c ∈ l → call_ok c db.

(** The record at hand is an operation of the store, though perhaps an older
    version of it. *)
Definition held (o : OperationRecord) (db : Db) : Prop :=
  ∃ row, db_operations db !! op_operation_id o = Some row ∧ same_contract (or_body row) o.

Lemma same_contract_id o o' : same_contract o o' → op_operation_id o = op_operation_id o'.
Proof. intros [E _]. unfold immutable_metadata in E. by injection E. Qed.
Lemma same_contract_sym o o' : same_contract o o' → same_contract o' o.
Proof. intros []. by split. Qed.
Lemma same_contract_trans o1 o2 o3 : same_contract o1 o2 → same_contract o2 o3 → same_contract o1 o3.
Proof. intros [] []. split; congruence. Qed.

Lemma held_same o o' db : same_contract o o' → held o db → held o' db.
Proof.
  intros C (row & E & H). exists row. rewrite <- (same_contract_id _ _ C). split; [done|]. by eapply same_contract_trans.
Qed.
Lemma held_kept o db db' : contract_kept db db' → held o db → held o db'.
Proof.
  intros K (row & E & H). destruct (ck_operations _ _ K _ _ E) as (row' & E' & H'). exists row'. split; [done|].
  eapply same_contract_trans; [|exact H]. by apply same_contract_sym.
Qed.

(** A called attempt is not PREPARED any more. *)
Lemma called_started c db : call_ok c db →
  ∃ r r', db_attempts c.2 !! c.1 = Some r ∧ db_attempts db !! c.1 = Some r' ∧
    tr_operation_id r' = tr_operation_id r ∧ at_status (tr_body r') ≠ OS_PREPARED.
Proof.
  intros [_ (r & Hr & Hs) K]. destruct (ck_attempts _ _ K _ _ Hr) as (r' & Hr' & Ho & Hp).
  exists r, r'. split_and!; try done. intros E. specialize (Hp E). congruence.
Qed.

(** An operation is not called more often than its policy allows attempts. *)
Lemma calls_bounded o l db :
  ledger_ok db → held o db → accounted l db →
  Z.of_nat (length (calls_of (op_operation_id o) l)) ≤ rp_max_attempts (op_retry_policy_snapshot o).
Proof.
  intros L (row & Hrow & [_ <-]) [Hnd Hok]. destruct (lk_projects _ L _ _ Hrow) as [Hmax _].
  set (oid := op_operation_id o) in *. etrans; [|exact Hmax]. apply inj_le.
  rewrite <- (length_fmap fst), <- (length_fmap at_attempt_id (bodies_of _ _)).
  apply submseteq_length, NoDup_submseteq.
  - eapply sublist_NoDup; [exact Hnd|]. apply fmap_sublist, sublist_filter.
  - intros x ([aid db0] & -> & [Ho Hin]%list_elem_of_filter)%list_elem_of_fmap.
    destruct (called_started _ _ (Hok _ Hin)) as (r & r' & Hr & Hr' & E & _). unfold owner in Ho. cbn in *.
    rewrite Hr in Ho. injection Ho as Ho. destruct (lk_attempts _ L _ _ Hr') as [_ Ei].
    apply list_elem_of_fmap. exists (tr_body r'). split; [done|]. apply elem_of_bodies. exists aid, r'. split_and!; congruence.
Qed.

(** ** Progress *)

(** From [s] to [s'] by commits alone, its own and those of others. *)
Record advance (s s' : Task) : Prop := {
  ad_steps : rtc tidy_step (tk_db s) (tk_db s');
  ad_calls : calls s' = calls s;
  ad_context : tk_operation s' = tk_operation s ∧ tk_attempt s' = tk_attempt s
}.

#[export] Instance advance_preorder : PreOrder advance.
Proof.
  split.
  - intros s. split; [apply rtc_refl|done|done].
  - intros x y z [A1 B1 [C1 D1]] [A2 B2 [C2 D2]]. split; [by etrans|congruence|split; congruence].
Qed.

(** What a task knows about the operation [o] it executes: the calls so far. *)
Record inv (uuid : nat → nat → string) (o : OperationRecord) (l : list (string * Db)) (s : Task) : Prop := {
  in_live : live uuid s;
  in_calls : calls s = l;
  in_accounted : accounted l (tk_db s);
  in_held : held o (tk_db s)
}.

(** Its current attempt is [aid]. *)
Record at_attempt (uuid : nat → nat → string) (o : OperationRecord) (l : list (string * Db)) (aid : string) (s : Task) : Prop := {
  aa_inv : inv uuid o l s;
  aa_attempt : tk_attempt s = Some aid;
  aa_owner : ∃ r, db_attempts (tk_db s) !! aid = Some r ∧ tr_operation_id r = op_operation_id o
}.

Lemma accounted_kept l db db' : contract_kept db db' → accounted l db → accounted l db'.
Proof. intros K [Hnd H]. split; [done|]. intros c [A B C]%H. split; [done|done|by etrans]. Qed.

Lemma inv_contract uuid o o' l s : same_contract o o' → inv uuid o l s → inv uuid o' l s.
Proof. intros C []. split; try done. by eapply held_same. Qed.

Lemma inv_advance uuid o l s s' : live uuid s' → advance s s' → inv uuid o l s → inv uuid o l s'.
Proof.
  intros Lv A [[Ht _] Hc Ha Hh]. pose proof (tidy_contract _ _ Ht (ad_steps _ _ A)) as K. split; [done|..].
  - by rewrite (ad_calls _ _ A).
  - by eapply accounted_kept.
  - by eapply held_kept.
Qed.

Lemma at_attempt_same uuid o o' l aid s : same_contract o o' → at_attempt uuid o l aid s → at_attempt uuid o' l aid s.
Proof.
  intros C [I Hk Ho]. split; [by eapply inv_contract|done|]. by rewrite <- (same_contract_id _ _ C).
Qed.

Lemma at_attempt_advance uuid o l aid s s' : live uuid s' → advance s s' → at_attempt uuid o l aid s → at_attempt uuid o l aid s'.
Proof.
  intros Lv A [I Hk (r & Hr & Ho)]. pose proof (tidy_contract _ _ (lv_tidy _ _ (in_live _ _ _ _ I)) (ad_steps _ _ A)) as K.
  split; [by eapply inv_advance| |].
  - destruct (ad_context _ _ A) as [_ ->]. done.
  - destruct (ck_attempts _ _ K _ _ Hr) as (r' & Hr' & E & _). exists r'. split; [done|congruence].
Qed.

(** An exception that no body raised. *)
Definition benign (e : Exn) : Prop := match e with FromTool _ | OutOfFuel => False | _ => True end.

Section world.
Context (cfg : Config) (cc : CoordinatorConfig).
Context (gate : nat → res unit) (env : nat → Env) (uuid : nat → nat → string) (expires : nat → string).
Context (others : nat → Db → Db) (cancelled : nat → option string).
Context (W : world_law uuid others).

Notation co_apply := (co_apply cfg gate env uuid).
Notation from_state := (from_state cfg gate env uuid).
Notation co_wait := (co_wait others cancelled).
Notation with_run_lock := (with_run_lock others cancelled).
Notation live := (live uuid).

Lemma others_advance s s' : live s → others_commit others s = (Done tt, s') → live s' ∧ advance s s'.
Proof.
  intros [Ht Hu] [= <-]. pose proof (wl_steps _ _ W (tk_clock s) _ Ht) as Hs. split; [split|split].
  - cbn. by eapply tidy_extend.
  - intros m k Hm. cbn in *. apply (wl_unused _ _ W); [lia|]. apply Hu. lia.
  - exact Hs.
  - done.
  - done.
Qed.

(** The commands the coordinator makes at moment [n]. *)
Definition ok_body (n : nat) (b : CommandBody) : Prop :=
  (∃ t, b = Transition t) ∨
  (pair_body b = true ∧ (∀ c, b ≠ CreateOperationWithAttempt c) ∧ ∀ id, new_attempt_id b = Some id → ∃ k, id = uuid n (S k)).

Definition applied (env : Env) (run : string) (b : CommandBody) (db : Db) (r : ApplyResult) (db' : Db) : Prop :=
  match b with
  | Transition t => transition_applied run t db r db'
  | _ => ∃ o a, pair_applied env b db r db' o a
  end.

Lemma pair_not_transition b : pair_body b = true → ∀ env run db r db',
  applied env run b db r db' ↔ ∃ o a, pair_applied env b db r db' o a.
Proof. by destruct b. Qed.

Lemma command_applied n h b db r db' :
  live (mkTask db n [] None None) → ok_body n b → command_valid (mkCommand h b) = true →
  apply cfg (gate n) (env n) (mkCommand h b) db = Ok (r, db') → sc_command_id h = uuid n 0 →
  tidy_step db db' ∧ applied (env n) (sc_run_id h) b db r db' ∧ ∀ m k, (n < m)%nat → unused (uuid m k) db'.
Proof.
  intros [Ht Hu] Hb Hv H Hid. cbn in *. destruct (Hu n 0%nat ltac:(lia)) as [Hp _]. rewrite <- Hid in Hp.
  assert (∀ m k, (n < m)%nat → db_processed db' !! uuid m k = None) as Hproc.
  { intros m k Hm. eapply apply_processed; [exact H| |apply Hu; lia]. cbn. rewrite Hid.
    intros E. apply (wl_distinct _ _ W) in E. lia. }
  assert (fresh_ids (env n) (mkCommand h b) db = true) as Hf.
  { destruct Hb as [[t ->]|(Hb & Hc & Hi)]; [done|]. destruct b; try done; [by destruct (Hc c)|].
    destruct (Hi _ eq_refl) as [k E]. unfold fresh_ids. cbn. destruct (Hu n (S k) ltac:(lia)) as [_ Ha].
    by rewrite E, Ha. }
  split; [by eapply tidy_apply|]. destruct Hb as [[t ->]|(Hb & Hc & Hi)].
  - pose proof (apply_transition_new _ _ _ _ _ _ _ _ Ht Hp H) as T. split; [done|]. intros m k Hm. split; [by apply Hproc|].
    pose proof (ta_tables _ _ _ _ _ T) as [= _ ->]. apply Hu. lia.
  - destruct (apply_pair _ _ _ _ _ _ _ _ Ht Hb Hf Hp H) as (o & a & P).
    split; [apply pair_not_transition; [done|]; by exists o, a|]. intros m k Hm. split; [by apply Hproc|].
    rewrite (pa_attempts _ _ _ _ _ _ _ P). rewrite lookup_insert_ne; [apply Hu; lia|].
    intros E. destruct (pa_new _ _ _ _ _ _ _ P) as [Hs|Hn].
    + destruct (Hu m k ltac:(lia)) as [_ Ha]. rewrite E, Ha in Hs. done.
    + destruct (Hi _ Hn) as [j Ej]. rewrite E in Ej. apply (wl_distinct _ _ W) in Ej. lia.
Qed.

(** *** Rules *)

Section rules.
Context {A : Type}.
Implicit Types (P : Task → Prop) (E : Exn → Task → Prop).

Lemma co_apply_rule P E (Q : ApplyResult → Task → Prop) run rev b :
  (∀ s, P s → live s ∧ ok_body (tk_clock s) (b (tk_clock s))) →
  (∀ s s' r, P s → live s' → advance s s' →
     applied (env (tk_clock s)) run (b (tk_clock s)) (tk_db s) r (tk_db s') → Q r s') →
  (∀ s s' e, P s → live s' → advance s s' → E (Failure e) s') →
  co_spec P (co_apply run rev b) Q E.
Proof.
  intros HP HQ HE s Hs. destruct (HP s Hs) as [Lv Hb]. unfold DurableTools.co_apply.
  destruct (command_valid _) eqn:Hv; [|eapply HE; [exact Hs|exact Lv|reflexivity]].
  destruct (apply _ _ _ _ _) as [[r db]|e] eqn:Ha.
  - destruct (command_applied (tk_clock s) _ _ _ _ _ ltac:(by destruct Lv) Hb Hv Ha eq_refl) as (St & Ap & Un).
    apply (HQ s); [done| | |done].
    + split; [|exact Un]. eapply tidy_extend; [apply Lv|by apply rtc_once].
    + split; [by apply rtc_once| |done]. unfold calls. cbn. by rewrite omap_app, app_nil_r.
  - apply (HE s); [done| |].
    + split; [apply Lv|]. intros m k Hm. cbn in *. apply Lv. lia.
    + split; [apply rtc_refl|done|done].
Qed.

Lemma from_state_rule P E (Q : ApplyResult → Task → Prop) run b :
  (∀ s, P s → live s ∧ ok_body (tk_clock s) (b (tk_clock s))) →
  (∀ s s' r, P s → live s' → advance s s' →
     applied (env (tk_clock s)) run (b (tk_clock s)) (tk_db s) r (tk_db s') → Q r s') →
  (∀ s s' e, P s → live s' → advance s s' → E (Failure e) s') →
  co_spec P (from_state run b) Q E.
Proof.
  intros HP HQ HE. unfold DurableTools.from_state.
  eapply (co_spec_bind _ _ _ (λ st s, P s ∧ st_run_id st = run)).
  - apply co_spec_read.
    + intros s st Hs Hst. split; [done|]. apply state_in_ok in Hst as (row & Hr & _ & ->).
      destruct (tidy_wf _ (lv_tidy _ _ (proj1 (HP s Hs)))) as [Hwf _]. by destruct (Hwf _ _ Hr).
    + intros s e Hs. eapply HE; [exact Hs|apply (HP s Hs)|reflexivity].
  - intros st. apply co_apply_rule.
    + intros s [Hs _]. by apply HP.
    + intros s s' r [Hs <-]. by apply HQ.
    + intros s s' e [Hs _]. by apply HE.
Qed.

Lemma co_wait_rule P E (Q : Task → Prop) :
  (∀ s, P s → live s) → (∀ s s', P s → live s' → advance s s' → Q s') →
  (∀ s s' t, P s → live s' → advance s s' → E (CancelledError t) s') →
  co_spec P co_wait (λ _, Q) E.
Proof.
  intros HP HQ HE s Hs. destruct (others_commit others s) as [[[]|e] s'] eqn:Ho; [|done].
  destruct (others_advance _ _ (HP s Hs) Ho) as [Lv Ad]. unfold DurableTools.co_wait, mbind, co_bind, co_task. rewrite Ho.
  destruct (cancelled (tk_clock s)) as [t|]; [by apply (HE s)|by apply (HQ s)].
Qed.

Lemma with_run_lock_rule P P' E (Q : A → Task → Prop) m :
  (∀ s, P s → live s) → (∀ s s', P s → live s' → advance s s' → P' s') →
  (∀ s s' t, P s → live s' → advance s s' → E (CancelledError t) s') →
  co_spec P' m Q E → co_spec P (with_run_lock m) Q E.
Proof.
  intros HP HQ HE Hm. unfold DurableTools.with_run_lock. eapply co_spec_bind; [by apply co_wait_rule|]. intros [].
  exact Hm.
Qed.
End rules.

(** *** Commands on the current attempt *)

Lemma pair_same_contract e b db r db' o o' a :
  pair_applied e b db r db' o' a → at_operation_id a = op_operation_id o → held o db → same_contract o o'.
Proof.
  intros P E (row & Hr & C). rewrite <- E, (so_id _ _ _ (pa_sound _ _ _ _ _ _ _ P)) in Hr.
  eapply same_contract_trans; [apply same_contract_sym; exact C|]. by apply (so_operation _ _ _ (pa_sound _ _ _ _ _ _ _ P)).
Qed.

(** What the store says about an attempt. *)
Definition attempt_is (aid : string) (f : OperationAttempt → Prop) (db : Db) : Prop :=
  ∃ r, db_attempts db !! aid = Some r ∧ f (tr_body r).

(** An update of the current attempt: the operation returned is the one at
    hand, and the attempt is now the updated one. *)
Lemma updated o l aid s run b r db' allowed f e :
  at_attempt uuid o l aid s → attempt_change (env_now e) b = Some (aid, allowed, f) → applied e run b (tk_db s) r db' →
  same_contract o (default o (ar_operation r)) ∧
  ∃ old, attempt_is aid (λ a, a = old) (tk_db s) ∧ at_status old ∈ allowed ∧
    attempt_is aid (λ a, a = (f old) ⟪ at_updated_at := env_now e ⟫) db'.
Proof.
  intros [I Hk (row & Hrow & Hown)] Hc Ap.
  assert (∃ o' a, pair_applied e b (tk_db s) r db' o' a) as (o' & a & P) by by destruct b.
  destruct (pa_change _ _ _ _ _ _ _ P _ _ _ Hc) as (old & Hin & Hal & Hid & ->). set (a := _ ⟪ at_updated_at := _ ⟫) in *.
  apply attempt_in_ok in Hin as (row' & Hr' & _ & ->). rewrite Hrow in Hr'. injection Hr' as <-.
  assert (at_attempt_id a = aid) as Ei by (destruct (updates_keep_key _ _ _ _ _ Hc (tr_body row)) as [E _]; transitivity (at_attempt_id (f (tr_body row))); [done|congruence]).
  pose proof (pa_attempts _ _ _ _ _ _ _ P) as Ha. rewrite Ei in Ha. split.
  - rewrite (pa_operation _ _ _ _ _ _ _ P). cbn. eapply pair_same_contract; [exact P| |apply I].
    pose proof (so_attempt _ _ _ (pa_sound _ _ _ _ _ _ _ P)) as Hs. rewrite Ei in Hs. specialize (Hs _ Hrow).
    unfold attempt_key in Hs. cbn [fresh_attempt_row tr_operation_id] in Hs. injection Hs as Hs _ _ _ _. exact (eq_trans (eq_sym Hs) Hown).
  - exists (tr_body row). split; [by exists row|]. split; [done|]. exists (fresh_attempt_row a).
    by rewrite Ha, lookup_insert_eq.
Qed.

Definition quiet (o : OperationRecord) (l : list (string * Db)) (e : Exn) (s : Task) : Prop := inv uuid o l s ∧ benign e.

Lemma change_ok n b id allowed f t : attempt_change t b = Some (id, allowed, f) → ok_body n b.
Proof. intros H. right. destruct b; try discriminate H; by split_and!. Qed.

(** [with_run_lock (from_state …)] on the current attempt. *)
Lemma locked_update o l aid (b : nat → CommandBody) run (Q : ApplyResult → Task → Prop) :
  (∀ n, ∃ allowed f, attempt_change (env_now (env n)) (b n) = Some (aid, allowed, f)) →
  (∀ s s' r n allowed f old, at_attempt uuid o l aid s → at_attempt uuid o l aid s' →
     attempt_change (env_now (env n)) (b n) = Some (aid, allowed, f) →
     same_contract o (default o (ar_operation r)) → attempt_is aid (λ a, a = old) (tk_db s) → at_status old ∈ allowed →
     attempt_is aid (λ a, a = (f old) ⟪ at_updated_at := env_now (env n) ⟫) (tk_db s') → Q r s') →
  co_spec (at_attempt uuid o l aid) (from_state run b) Q (quiet o l).
Proof.
  intros Hb HQ. apply from_state_rule.
  - intros s A. split; [apply A|]. destruct (Hb (tk_clock s)) as (al & f & Hc). by eapply change_ok.
  - intros s s' r A Lv Ad Ap. destruct (Hb (tk_clock s)) as (al & f & Hc).
    destruct (updated _ _ _ _ _ _ _ _ _ _ _ A Hc Ap) as (Hs & old & H1 & H2 & H3).
    eapply HQ; [exact A|by eapply at_attempt_advance|exact Hc|exact Hs|exact H1|exact H2|exact H3].
  - intros s s' e A Lv Ad. split; [|done]. eapply inv_advance; [done|exact Ad|apply A].
Qed.

Lemma with_run_lock_at {B} o l aid (Q : B → Task → Prop) m :
  co_spec (at_attempt uuid o l aid) m Q (quiet o l) → co_spec (at_attempt uuid o l aid) (with_run_lock m) Q (quiet o l).
Proof.
  apply with_run_lock_rule.
  - intros s A. apply A.
  - intros s s' A Lv Ad. by eapply at_attempt_advance.
  - intros s s' t A Lv Ad. split; [|done]. eapply inv_advance; [done|exact Ad|apply A].
Qed.

Lemma start_attempt_spec o l aid :
  co_spec (at_attempt uuid o l aid) (start_attempt cfg gate env uuid expires others cancelled o)
    (λ p s, p.2 = aid ∧ same_contract o p.1 ∧ at_attempt uuid o l aid s ∧ aid ∉ l.*1 ∧
      attempt_is aid (λ a, at_status a = OS_RUNNING) (tk_db s)) (quiet o l).
Proof.
  unfold start_attempt. eapply (co_spec_bind _ _ _ (λ x s, at_attempt uuid o l aid s ∧ x = Some aid)).
  { apply co_spec_task. intros s A. split; [done|apply A]. }
  intros x. eapply (co_spec_bind _ _ _ (λ y s, at_attempt uuid o l aid s ∧ y = aid)).
  { apply co_spec_read; [|intros s e [A _]; by split; [apply A|]]. intros s y [A ->] Hy. by injection Hy as <-. }
  intros y. eapply (co_spec_bind _ _ _ (λ r s, at_attempt uuid o l aid s ∧ y = aid ∧ aid ∉ l.*1 ∧
      same_contract o (default o (ar_operation r)) ∧ attempt_is aid (λ a, at_status a = OS_RUNNING) (tk_db s))).
  - intros s [A ->]. revert s A. apply with_run_lock_at, locked_update; [by eauto|].
    intros s s' r n al f old A A' [= <- <-] Hs (row & Hrow & <-) Hal (row' & Hrow' & E'). split_and!; try done.
    + intros ([aid' db0] & E & Hin)%list_elem_of_fmap. cbn in E. subst aid'.
      destruct (called_started _ _ (proj2 (in_accounted _ _ _ _ (aa_inv _ _ _ _ _ A)) _ Hin)) as (r1 & r2 & _ & Hr2 & _ & Hne).
      cbn in Hr2. rewrite Hrow in Hr2. injection Hr2 as <-. by apply list_elem_of_singleton in Hal.
    + exists row'. split; [done|]. by rewrite E'.
  - intros r. apply co_spec_ret. intros s (A & -> & Hn & Hs & Hr). by split_and!.
Qed.

Context (body : nat → BodyResult).

Lemma call_body_spec o l aid :
  co_spec (λ s, at_attempt uuid o l aid s ∧ aid ∉ l.*1 ∧ attempt_is aid (λ a, at_status a = OS_RUNNING) (tk_db s))
    (call_body others body aid)
    (λ r s, (∃ db, at_attempt uuid o (l ++ [(aid, db)]) aid s ∧ owner (aid, db) = Some (op_operation_id o)) ∧
            ∃ n, r = body n) (λ _ _, False).
Proof.
  intros s (A & Hn & Hr). unfold call_body, mbind, co_bind, co_task, co_see.
  set (s1 := s ⟪ tk_trace := _ ⟫).
  assert (live s1) as Lv1 by (destruct (in_live _ _ _ _ (aa_inv _ _ _ _ _ A)); by split).
  assert (at_attempt uuid o (l ++ [(aid, tk_db s)]) aid s1) as A1.
  { destruct A as [[Lv Hc [Hnd Hok] Hh] Hk Ho]. split; [split|done|done]; [done| |split|done].
    - unfold calls in *. cbn. by rewrite omap_app, Hc.
    - rewrite fmap_app. apply NoDup_app. split; [done|]. split; [|by apply NoDup_singleton].
      intros x Hx. by intros ->%list_elem_of_singleton.
    - intros c [Hc'|Hc']%elem_of_app; [by apply Hok|]. apply list_elem_of_singleton in Hc' as ->.
      split; [apply Lv|exact Hr|reflexivity]. }
  destruct (others_commit others s1) as [[[]|e] s2] eqn:Ho; [|done].
  destruct (others_advance _ _ Lv1 Ho) as [Lv2 Ad]. split; [|by eexists].
  exists (tk_db s). split; [by eapply at_attempt_advance|]. destruct (aa_owner _ _ _ _ _ A) as (r & Hrow & Ho').
  unfold owner. cbn. by rewrite Hrow, <- Ho'.
Qed.

(** *** Transitions *)

(** What the store says about a Run. *)
Definition run_is (run : string) (f : AgentState → Prop) (db : Db) : Prop :=
  ∃ row, db_states db !! run = Some row ∧ f (sr_body row).

Lemma attempt_is_tables aid f db db' : tables db' = tables db → attempt_is aid f db → attempt_is aid f db'.
Proof. unfold attempt_is. by intros [= _ ->]. Qed.

(** A transition of the Run leaves the current attempt as it is. *)
Lemma transition_rule o l aid f run rev task ex oc fr reason :
  co_spec (λ s, inv uuid o l s ∧ attempt_is aid f (tk_db s)) (co_apply run rev (λ _, plain_transition task ex oc fr reason))
    (λ r s, inv uuid o l s ∧ attempt_is aid f (tk_db s) ∧
       run_is run (λ st, st = ar_state r) (tk_db s) ∧
       (∀ x, task = Some x → st_task_state (ar_state r) = x) ∧
       (∀ e, ex = Some e → execution_of (ar_state r) = Some e))
    (quiet o l).
Proof.
  apply co_apply_rule.
  - intros s [I _]. split; [apply I|]. left. by eexists.
  - intros s s' r [I Ha] Lv Ad [Et Er Ex Ee].
    split; [by eapply inv_advance|]. split; [by eapply attempt_is_tables|]. by split.
  - intros s s' e [I _] Lv Ad. split; [by eapply inv_advance|done].
Qed.

Lemma transition_inv o l run rev task ex oc fr reason :
  co_spec (inv uuid o l) (co_apply run rev (λ _, plain_transition task ex oc fr reason)) (λ _, inv uuid o l) (quiet o l).
Proof.
  apply co_apply_rule.
  - intros s I. split; [apply I|]. left. by eexists.
  - intros s s' r I Lv Ad _. by eapply inv_advance.
  - intros s s' e I Lv Ad. split; [by eapply inv_advance|done].
Qed.

Lemma context_inv o l op at_ s : inv uuid o l s → inv uuid o l ((s ⟪ tk_operation := op ⟫) ⟪ tk_attempt := at_ ⟫).
Proof. intros [[] ? ? ?]. by split. Qed.

(** The end of [execute] when the body returned [result]. *)
Definition returned (result : string) (a : OperationAttempt) : Prop :=
  at_status a = OS_COMPLETED ∧ at_result a = Some (sanitize_text result) ∧
  at_result_hash a = Some (sha256_hex result) ∧ at_result_source a = Some "tool_return".
Definition completed (o : OperationRecord) (aid result : string) (manage : bool) (db : Db) : Prop :=
  attempt_is aid (returned result) db ∧
  (manage = true → run_is (op_run_id o) (λ st, execution_of st = Some ES_OBSERVING) db).

Lemma complete_spec o l aid result manage :
  co_spec (at_attempt uuid o l aid) (complete cfg gate env uuid others cancelled o aid result manage)
    (λ x s, x = result ∧ inv uuid o l s ∧ completed o aid result manage (tk_db s)) (quiet o l).
Proof.
  unfold complete. set (f := returned result).
  eapply (co_spec_bind _ _ _ (λ _ s, inv uuid o l s ∧ attempt_is aid f (tk_db s))).
  { apply with_run_lock_at, locked_update; [by eauto|].
    intros s s' r n al g old A A' [= <- <-] _ _ _ (row & Hr & Er). split; [apply A'|]. exists row. split; [done|].
    by rewrite Er. }
  intros _. eapply (co_spec_bind _ _ _ (λ _ s, inv uuid o l s ∧ completed o aid result manage (tk_db s))).
  - destruct manage; [|apply co_spec_ret; intros s [I Ha]; by split].
    eapply (co_spec_bind _ _ _ (λ st s, (inv uuid o l s ∧ attempt_is aid f (tk_db s)) ∧ st_run_id st = op_run_id o)).
    { apply co_spec_read; [|intros s e [I _]; by split]. intros s st [I Ha] Hst. split; [done|].
      apply state_in_ok in Hst as (row & Hr & _ & ->).
      destruct (tidy_wf _ (lv_tidy _ _ (in_live _ _ _ _ I))) as [Hwf _]. by destruct (Hwf _ _ Hr). }
    intros st. unfold transition_to. eapply (co_spec_bind _ _ _ (λ _ s, inv uuid o l s ∧ completed o aid result true (tk_db s)));
      [|intros _; by apply co_spec_ret].
    eapply (co_spec_bind _ _ _ (λ _ s, inv uuid o l s ∧ completed o aid result true (tk_db s))); [|intros r; by apply co_spec_ret].
    intros s [HP Hrun]. generalize (transition_rule o l aid f (st_run_id st) (st_revision st) None (Some ES_OBSERVING) None None
      ("工具 " +:+ op_name o +:+ " 结果已提交 Ledger") s HP). destruct (co_apply _ _ _ _) as [[r|e] s']; [|done]. intros (I & Ha & (row & Hr & Er) & _ & Hx).
    split; [done|]. split; [exact Ha|]. intros _. exists row. rewrite <- Hrun. split; [done|]. rewrite Er. by apply Hx.
  - intros _ s [I Hc]. cbn. split; [done|]. split; [by apply context_inv|done].
Qed.

(** *** Failures *)

Lemma quiet_same o o' l e s : same_contract o o' → quiet o l e s → quiet o' l e s.
Proof. intros C [I B]. split; [by eapply inv_contract|done]. Qed.

Lemma quiet_read {A} o l (f : Db → res A) (P : Task → Prop) :
  (∀ s, P s → inv uuid o l s) → co_spec P (co_read f) (λ a s, P s ∧ f (tk_db s) = Ok a) (quiet o l).
Proof. intros HP. apply co_spec_read; [by intros s a|]. intros s e Hs. split; [by apply HP|done]. Qed.

Lemma report_failure_spec o l text manage :
  co_spec (inv uuid o l) (report_failure cfg gate env uuid o text manage) (λ _ _, False) (quiet o l).
Proof.
  unfold report_failure. eapply (co_spec_bind _ _ _ (λ _, inv uuid o l)).
  { eapply co_spec_weaken; [by apply (quiet_read o l _ (inv uuid o l))|done|by intros st s [I _]|done]. }
  intros st. eapply (co_spec_bind _ _ _ (λ _, inv uuid o l)).
  - destruct manage; [|by apply co_spec_ret]. unfold transition_to.
    eapply (co_spec_bind _ _ _ (λ _, inv uuid o l)); [|intros st'; by apply co_spec_ret].
    eapply (co_spec_bind _ _ _ (λ _, inv uuid o l)); [apply transition_inv|intros r; by apply co_spec_ret].
  - intros _ s I. split; [by apply context_inv|done].
Qed.

(** A new attempt of the operation, begun under the lock. *)
Lemma begin_next_spec o l aid no h mc rb rr (ext : nat → option string) run :
  co_spec (at_attempt uuid o l aid)
    (from_state run (λ n, BeginOperationAttempt (mkBeginOperationAttemptCommand (op_operation_id o) (uuid n 1) no h mc (ext n) rb rr)))
    (λ r s, inv uuid o l s ∧ same_contract o (default o (ar_operation r)) ∧
       ∀ a, ar_attempt r = Some a → ∃ row, db_attempts (tk_db s) !! at_attempt_id a = Some row ∧ tr_operation_id row = op_operation_id o)
    (quiet o l).
Proof.
  apply from_state_rule.
  - intros s A. split; [apply A|]. right. split_and!; [done|done|]. intros id [= <-]. by exists 0%nat.
  - intros s s' r A Lv Ad (o' & a & P). pose proof (aa_inv _ _ _ _ _ A) as I.
    destruct (pa_begun _ _ _ _ _ _ _ P _ eq_refl) as [Eo _]. cbn in Eo.
    split; [by eapply inv_advance|]. split.
    + rewrite (pa_operation _ _ _ _ _ _ _ P). cbn. eapply pair_same_contract; [exact P|exact Eo|apply I].
    + rewrite (pa_attempt _ _ _ _ _ _ _ P). intros x [= <-]. rewrite (pa_attempts _ _ _ _ _ _ _ P), lookup_insert_eq.
      by eexists.
  - intros s s' e A Lv Ad. split; [|done]. eapply inv_advance; [done|exact Ad|apply A].
Qed.

Lemma retry_or_report_spec o l aid e manage :
  co_spec (at_attempt uuid o l aid) (retry_or_report cfg gate env uuid others cancelled o aid e manage)
    (λ next s, same_contract o next ∧ ∃ aid', at_attempt uuid next l aid' s) (quiet o l).
Proof.
  unfold retry_or_report.
  eapply (co_spec_bind _ _ _ (λ r s, at_attempt uuid o l aid s ∧ same_contract o (default o (ar_operation r)))).
  { apply with_run_lock_at, locked_update; [by eauto|]. by intros. }
  intros failed. apply co_spec_pure. intros C. set (o1 := default o (ar_operation failed)) in *.
  eapply (co_spec_weaken (at_attempt uuid o1 l aid) _ (λ next s, same_contract o1 next ∧ ∃ aid', at_attempt uuid next l aid' s)
            _ (quiet o1 l)).
  2: intros s A; by eapply at_attempt_same.
  2: intros next s [C' H]; split; [by eapply same_contract_trans|done].
  2: intros x s; apply quiet_same, same_contract_sym, C.
  assert (co_spec (at_attempt uuid o1 l aid) (report_failure cfg gate env uuid o1 (message (te_text e) (te_type e)) manage)
    (λ next s, same_contract o1 next ∧ ∃ aid', at_attempt uuid next l aid' s) (quiet o1 l)) as Rep.
  { eapply co_spec_weaken; [apply report_failure_spec|intros s A; apply A|done|done]. }
  destruct (op_next_retry_at o1) as [due|]; [|exact Rep]. case_match; [|exact Rep]. clear Rep.
  eapply (co_spec_bind _ _ _ (λ _, at_attempt uuid o1 l aid)).
  { eapply co_spec_weaken; [apply (quiet_read o1 l _ (at_attempt uuid o1 l aid)); intros s A; apply A|done|by intros x s [A _]|done]. }
  intros _. eapply (co_spec_bind _ _ _ (λ _, at_attempt uuid o1 l aid)).
  { apply co_wait_rule.
    - intros s A. apply A.
    - intros s s' A Lv Ad. by eapply at_attempt_advance.
    - intros s s' t A Lv Ad. split; [|done]. eapply inv_advance; [done|exact Ad|apply A]. }
  intros _. eapply co_spec_bind; [apply with_run_lock_at, (begin_next_spec o1 l aid _ _ None None None (λ n, if op_side_effecting o1 then Some (uuid n 2) else None))|].
  intros r. cbn beta. set (o2 := default o1 (ar_operation r)).
  eapply (co_spec_bind _ _ _ (λ a s, inv uuid o1 l s ∧ same_contract o1 o2 ∧ ∃ row, db_attempts (tk_db s) !! at_attempt_id a = Some row ∧
      tr_operation_id row = op_operation_id o1)).
  { apply co_spec_read; [|intros s x [I _]; by split]. intros s a (I & C2 & Ha) Hr%res_of_option_ok. auto. }
  intros a. eapply (co_spec_bind _ _ _ (λ _ s, inv uuid o1 l s ∧ same_contract o1 o2 ∧ ∃ row, db_attempts (tk_db s) !! at_attempt_id a = Some row ∧
      tr_operation_id row = op_operation_id o1)).
  { by apply co_spec_task. }
  intros c s (I & C2 & row & Hr & Ho). cbn. split; [done|]. exists (at_attempt_id a). split; cbn.
  - apply (inv_contract _ _ _ _ _ C2). by apply context_inv.
  - done.
  - exists row. split; [done|]. by rewrite <- (same_contract_id _ _ C2).
Qed.

(** The end of [execute] when the effect of the body is unknown. *)
Definition left_unknown (o : OperationRecord) (aid : string) (db : Db) : Prop :=
  attempt_is aid (λ a, at_status a = OS_UNKNOWN) db ∧
  run_is (op_run_id o) (λ st, st_task_state st = TS_RECOVERY_REQUIRED) db.

Context (describe : pyerr → string).

Lemma uncertain_spec o l aid x c manage :
  uncertain (op_idempotency o) = true →
  co_spec (at_attempt uuid o l aid) (record_uncertain_or_failed cfg gate env uuid others cancelled describe o x c manage)
    (λ _ s, inv uuid o l s ∧ left_unknown o aid (tk_db s)) (quiet o l).
Proof.
  intros Hu. unfold record_uncertain_or_failed. rewrite Hu.
  eapply (co_spec_bind _ _ _ (λ _, at_attempt uuid o l aid)).
  { eapply co_spec_weaken; [apply (quiet_read o l _ (at_attempt uuid o l aid)); intros s A; apply A|done|by intros st s [A _]|done]. }
  intros _. eapply (co_spec_bind _ _ _ (λ y s, at_attempt uuid o l aid s ∧ y = Some aid)).
  { apply co_spec_task. intros s A. split; [done|apply A]. }
  intros y. eapply (co_spec_bind _ _ _ (λ z s, at_attempt uuid o l aid s ∧ z = aid)).
  { apply co_spec_read; [|intros s e [A _]; by split; [apply A|]]. intros s z [A ->] Hz. by injection Hz as <-. }
  intros z. set (f := λ a, at_status a = OS_UNKNOWN).
  eapply (co_spec_bind _ _ _ (λ _ s, inv uuid o l s ∧ attempt_is aid f (tk_db s))).
  { apply co_spec_pure. intros ->. apply locked_update; [by eauto|].
    intros s s' r n al g old A A' [= <- <-] _ _ _ (row & Hr & Er). split; [apply A'|]. exists row. split; [done|]. by rewrite Er. }
  intros _. unfold DurableTools.from_state.
  eapply (co_spec_bind _ _ _ (λ r s, inv uuid o l s ∧ left_unknown o aid (tk_db s))); [|intros r; by apply co_spec_ret].
  eapply (co_spec_bind _ _ _ (λ st s, (inv uuid o l s ∧ attempt_is aid f (tk_db s)) ∧ st_run_id st = op_run_id o)).
  { apply co_spec_read; [|intros s e [I _]; by split]. intros s st [I Ha] Hst. split; [done|].
    apply state_in_ok in Hst as (row & Hr & _ & ->).
    destruct (tidy_wf _ (lv_tidy _ _ (in_live _ _ _ _ I))) as [Hwf _]. by destruct (Hwf _ _ Hr). }
  intros st. apply co_spec_pure. intros Hrun. eapply co_spec_weaken; [apply (transition_rule o l aid f)|done| |done].
  intros r s (I & Ha & (row & Hr & Er) & Ht & _). split; [done|]. split; [exact Ha|]. exists row. rewrite <- Hrun.
  split; [done|]. rewrite Er. by apply Ht.
Qed.

Lemma certain_spec o l aid x c manage :
  uncertain (op_idempotency o) = false →
  co_spec (at_attempt uuid o l aid) (record_uncertain_or_failed cfg gate env uuid others cancelled describe o x c manage)
    (λ _ s, inv uuid o l s) (quiet o l).
Proof.
  intros Hu. unfold record_uncertain_or_failed. rewrite Hu.
  eapply (co_spec_bind _ _ _ (λ _, at_attempt uuid o l aid)).
  { eapply co_spec_weaken; [apply (quiet_read o l _ (at_attempt uuid o l aid)); intros s A; apply A|done|by intros st s [A _]|done]. }
  intros _. eapply (co_spec_bind _ _ _ (λ y s, at_attempt uuid o l aid s ∧ y = Some aid)).
  { apply co_spec_task. intros s A. split; [done|apply A]. }
  intros y. eapply (co_spec_bind _ _ _ (λ z s, at_attempt uuid o l aid s ∧ z = aid)).
  { apply co_spec_read; [|intros s e [A _]; by split; [apply A|]]. intros s z [A ->] Hz. by injection Hz as <-. }
  intros z. eapply (co_spec_bind _ _ _ (λ _, inv uuid o l)).
  { apply co_spec_pure. intros ->. apply with_run_lock_at, locked_update; [by eauto|].
    intros s s' r n al g old A A' _ _ _ _ _. apply A'. }
  intros _. destruct manage; [|by apply co_spec_ret].
  eapply (co_spec_bind _ _ _ (λ _, inv uuid o l)); [|intros r; by apply co_spec_ret].
  apply from_state_rule.
  - intros s I. split; [apply I|]. left. by eexists.
  - intros s s' r I Lv Ad _. by eapply inv_advance.
  - intros s s' e I Lv Ad. split; [by eapply inv_advance|done].
Qed.

(** *** The loop *)

(** The calls of this execution: of this operation, one when its effect could
    stay unknown. *)
Definition grown (o : OperationRecord) (l l' : list (string * Db)) : Prop :=
  ∃ k, l' = l ++ k ∧ Forall (λ c, owner c = Some (op_operation_id o)) k ∧
    (uncertain (op_idempotency o) = true → (length k ≤ 1)%nat).

Lemma grown_refl o l : grown o l l.
Proof. exists []. rewrite app_nil_r. split_and!; [done|constructor|cbn; lia]. Qed.
Lemma grown_one o l c : owner c = Some (op_operation_id o) → grown o l (l ++ [c]).
Proof. intros H. exists [c]. split_and!; [done|by constructor|cbn; lia]. Qed.

Definition fuel_enough (fuel : nat) (o : OperationRecord) (l : list (string * Db)) : Prop :=
  rp_max_attempts (op_retry_policy_snapshot o) < Z.of_nat fuel + Z.of_nat (length (calls_of (op_operation_id o) l)).

Definition loop_done (o : OperationRecord) (l : list (string * Db)) (manage : bool) (x : string) (s : Task) : Prop :=
  ∃ l' aid db, grown o l l' ∧ last l' = Some (aid, db) ∧ inv uuid o l' s ∧ completed o aid x manage (tk_db s) ∧
    ∃ n, body n = Returned x.

Definition loop_raised (fuel : nat) (o : OperationRecord) (l : list (string * Db)) (e : Exn) (s : Task) : Prop :=
  ∃ l', grown o l l' ∧ inv uuid o l' s ∧
    match e with
    | OutOfFuel => ¬ fuel_enough fuel o l
    | FromTool t => uncertain (op_idempotency o) = true ∧
        ∃ aid db, last l' = Some (aid, db) ∧ left_unknown o aid (tk_db s) ∧ ∃ n, body n = Threw t
    | _ => True
    end.

Lemma quiet_raised fuel o l l' e s : grown o l l' → quiet o l' e s → loop_raised fuel o l e s.
Proof. intros G [I B]. exists l'. split_and!; try done. by destruct e. Qed.

Lemma same_contract_run o o' : same_contract o o' →
  op_run_id o = op_run_id o' ∧ op_idempotency o = op_idempotency o'.
Proof. intros [E _]. unfold immutable_metadata in E. by injection E. Qed.

Lemma calls_of_one o l c : owner c = Some (op_operation_id o) →
  length (calls_of (op_operation_id o) (l ++ [c])) = S (length (calls_of (op_operation_id o) l)).
Proof.
  intros H. unfold calls_of. rewrite filter_app, length_app, (filter_cons_True _ c []) by done. cbn. lia.
Qed.

Lemma grown_again o o1 next l c l' :
  owner c = Some (op_operation_id o) → same_contract o o1 → uncertain (op_idempotency o1) = false →
  same_contract o next → grown next (l ++ [c]) l' → grown o l l'.
Proof.
  intros Hc C1 Hu C (k & -> & Hk & _). exists (c :: k). rewrite <- app_assoc. split; [done|]. split.
  - constructor; [done|]. by rewrite (same_contract_id _ _ C).
  - destruct (same_contract_run _ _ C1) as [_ ->]. congruence.
Qed.

Lemma attempts_loop_spec manage fuel : ∀ o l,
  co_spec (λ s, ∃ aid, at_attempt uuid o l aid s)
    (attempts_loop cfg gate env uuid expires others cancelled describe body fuel o manage)
    (loop_done o l manage) (loop_raised fuel o l).
Proof.
  induction fuel as [|fuel IH]; intros o l.
  { apply co_spec_raise. intros s [aid [I _ _]]. exists l. split_and!; [apply grown_refl|done|].
    pose proof (calls_bounded _ _ _ (tidy_ledger _ (lv_tidy _ _ (in_live _ _ _ _ I))) (in_held _ _ _ _ I) (in_accounted _ _ _ _ I)).
    unfold fuel_enough. lia. }
  apply co_spec_ex. intros aid. cbn [attempts_loop].
  eapply co_spec_bind; [eapply co_spec_error; [apply start_attempt_spec|intros e s; apply quiet_raised, grown_refl]|].
  intros [o1 aid1]. cbn [fst snd].
  eapply (co_spec_pre (λ s, (at_attempt uuid o l aid s ∧ aid ∉ l.*1 ∧ attempt_is aid (λ a, at_status a = OS_RUNNING) (tk_db s)) ∧
     (aid1 = aid ∧ same_contract o o1))); [|intros s (-> & C & A & Hn & Hr); by split_and!].
  apply co_spec_pure. intros [-> C]. destruct (same_contract_run _ _ C) as [Erun Eidem].
  eapply co_spec_bind; [eapply co_spec_error; [apply call_body_spec|done]|].
  intros r. apply co_spec_pure. intros [n Hn]. apply co_spec_ex. intros db. apply co_spec_pure. intros Hown.
  set (l1 := l ++ [(aid, db)]) in *. pose proof (grown_one o l (aid, db) Hown) as G. fold l1 in G.
  assert (∀ e s, quiet o1 l1 e s → loop_raised (S fuel) o l e s) as HE.
  { intros e s Hq. eapply quiet_raised; [exact G|]. eapply quiet_same; [apply same_contract_sym, C|exact Hq]. }
  eapply (co_spec_bind _ _ _ (λ _, at_attempt uuid o1 l1 aid)).
  { apply co_wait_rule.
    - intros s A. apply A.
    - intros s s' A Lv Ad. eapply at_attempt_same; [exact C|]. by eapply at_attempt_advance.
    - intros s s' t A Lv Ad. apply HE. split; [|done]. eapply inv_contract; [exact C|]. eapply inv_advance; [done|exact Ad|apply A]. }
  intros _. destruct r as [result|t|text].
  - eapply co_spec_weaken; [apply (complete_spec o1 l1 aid)|done| |exact HE].
    intros x s (Ex & I & Hc & Hm). subst x. exists l1, aid, db. split; [done|]. split; [apply last_snoc|].
    split; [eapply inv_contract; [apply same_contract_sym, C|exact I]|]. split; [|by exists n].
    split; [exact Hc|]. by rewrite Erun.
  - destruct (uncertain (op_idempotency o1)) eqn:Hu.
    + eapply co_spec_bind; [eapply co_spec_error; [by apply (uncertain_spec o1 l1 aid)|exact HE]|].
      intros u. apply co_spec_raise. intros s [I [Ha Hr]]. exists l1. split; [done|].
      split; [eapply inv_contract; [apply same_contract_sym, C|exact I]|]. split; [by rewrite Eidem|].
      exists aid, db. split; [apply last_snoc|]. split; [|by exists n]. split; [done|]. by rewrite Erun.
    + eapply co_spec_bind; [eapply co_spec_error; [apply (retry_or_report_spec o1 l1 aid)|exact HE]|].
      intros next. eapply (co_spec_pre (λ s, (∃ aid', at_attempt uuid next l1 aid' s) ∧ same_contract o1 next));
        [|intros s [C2 H]; by split].
      apply co_spec_pure. intros C2. pose proof (same_contract_trans _ _ _ C C2) as C3.
      eapply co_spec_weaken; [apply (IH next l1)|done| |].
      * intros x s (l2 & aid2 & db2 & G2 & Hl & I & Hc & Hb). exists l2, aid2, db2.
        destruct (same_contract_run _ _ C3) as [Er _]. destruct Hc as [Hc Hm]. rewrite <- Er in Hm.
        split; [exact (grown_again _ _ _ _ _ _ Hown C Hu C3 G2)|]. split; [done|].
        split; [eapply inv_contract; [apply same_contract_sym, C3|exact I]|]. done.
      * intros e s (l2 & G2 & I & He). exists l2.
        split; [exact (grown_again _ _ _ _ _ _ Hown C Hu C3 G2)|]. split; [eapply inv_contract; [apply same_contract_sym, C3|exact I]|].
        destruct e; try exact He.
        -- destruct He as [Hu' _]. destruct (same_contract_run _ _ C2) as [_ Ei]. rewrite <- Ei in Hu'. congruence.
        -- intros Hf. apply He. unfold fuel_enough in *. destruct C3 as [Em Ep].
           rewrite <- Ep, <- (same_contract_id _ _ (conj Em Ep)). unfold l1. rewrite calls_of_one by done. lia.
  - destruct (uncertain (op_idempotency o1)) eqn:Hu.
    + eapply co_spec_bind; [eapply co_spec_error; [by apply (uncertain_spec o1 l1 aid)|exact HE]|].
      intros u. apply co_spec_raise. intros s [I _]. by apply HE.
    + eapply co_spec_bind; [eapply co_spec_error; [by apply (certain_spec o1 l1 aid)|exact HE]|].
      intros u. apply co_spec_raise. intros s I. by apply HE.
Qed.

(** *** Refusals *)

Lemma skip_current_spec o l st reason :
  co_spec (inv uuid o l) (skip_current cfg gate env uuid o st reason) (λ _, inv uuid o l) (quiet o l).
Proof.
  unfold skip_current. eapply co_spec_bind; [by apply (quiet_read o l _ (inv uuid o l))|].
  intros a. eapply co_spec_pre; [|intros s [I _]; exact I]. case_decide; [by apply co_spec_ret|].
  eapply (co_spec_bind _ _ _ (λ _, inv uuid o l)); [|intros r; by apply co_spec_ret]. apply co_apply_rule.
  - intros s I. split; [apply I|]. right. by split_and!.
  - intros s s' r I Lv Ad _. by eapply inv_advance.
  - intros s s' e I Lv Ad. split; [by eapply inv_advance|done].
Qed.

Lemma skip_denied_spec o l reason :
  co_spec (inv uuid o l) (skip_denied cfg gate env uuid o reason)
    (λ x s, x = not_executed_sorted (op_name o) reason ∧ inv uuid o l s) (quiet o l).
Proof.
  unfold skip_denied. eapply co_spec_bind; [by apply (quiet_read o l _ (inv uuid o l))|].
  intros st. eapply co_spec_bind; [eapply co_spec_pre; [apply skip_current_spec|by intros s [I _]]|]. intros st'.
  eapply (co_spec_bind _ _ _ (λ _, inv uuid o l)).
  - destruct (execution_of st') as [e|]; [|by apply co_spec_ret]. case_decide; [by apply co_spec_ret|].
    eapply (co_spec_bind _ _ _ (λ _, inv uuid o l)); [|intros u; by apply co_spec_ret].
    eapply (co_spec_bind _ _ _ (λ _, inv uuid o l)); [apply transition_inv|intros r; by apply co_spec_ret].
  - intros u s I. split; [done|]. by apply context_inv.
Qed.

(** *** Execution *)

Context (admission : nat → res unit) (draining : nat → bool).

(** The current attempt of the operation becomes the one of the task. *)
Lemma enter_spec o l a :
  co_spec (λ s, inv uuid o l s ∧ current_attempt_in (op_operation_id o) (tk_db s) = Ok a)
    (set_context (Some (op_operation_id o)) (Some (at_attempt_id a)))
    (λ _, at_attempt uuid o l (at_attempt_id a)) (quiet o l).
Proof.
  intros s [I [_ Ha]%current_attempt_in_ok]. cbn. split; [by apply context_inv|done|].
  rewrite attempt_rows_perm in Ha. apply elem_of_bodies in Ha as (k & r & Hr & Ho & ->).
  destruct (lk_attempts _ (tidy_ledger _ (lv_tidy _ _ (in_live _ _ _ _ I))) _ _ Hr) as [_ ->]. by exists r.
Qed.

Lemma transition_at o l aid run rev task ex oc fr reason :
  co_spec (at_attempt uuid o l aid) (co_apply run rev (λ _, plain_transition task ex oc fr reason))
    (λ _, at_attempt uuid o l aid) (quiet o l).
Proof.
  apply co_apply_rule.
  - intros s A. split; [apply A|]. left. by eexists.
  - intros s s' r A Lv Ad _. by eapply at_attempt_advance.
  - intros s s' e A Lv Ad. split; [eapply inv_advance; [done|exact Ad|apply A]|done].
Qed.

Lemma execute_spec o l fuel manage :
  co_spec (inv uuid o l)
    (execute cfg gate env uuid expires others cancelled describe body admission draining fuel o manage)
    (λ x s, (op_name o ∈ maintained ∧ x = not_executed_sorted (op_name o) "maintenance_new_work_denied" ∧ inv uuid o l s) ∨
       loop_done o l manage x s)
    (loop_raised fuel o l).
Proof.
  assert (∀ e s, quiet o l e s → loop_raised fuel o l e s) as HE by (intros e s; apply quiet_raised, grown_refl).
  unfold execute. eapply (co_spec_bind _ _ _ (λ _, inv uuid o l)); [by apply co_spec_task|]. intros n.
  eapply (co_spec_bind _ _ _ (λ _, inv uuid o l)).
  { apply co_spec_read; [done|]. intros s e I. by apply HE. }
  intros u. destruct (draining n && _) eqn:Hd.
  { apply andb_true_iff in Hd as [_ Hd%bool_decide_eq_true].
    eapply co_spec_weaken; [apply skip_denied_spec|done|intros x s ?; by left|exact HE]. }
  eapply co_spec_bind; [eapply co_spec_error; [by apply (quiet_read o l _ (inv uuid o l))|exact HE]|]. intros a.
  eapply co_spec_bind; [eapply co_spec_error; [apply enter_spec|exact HE]|]. intros u'. cbn beta.
  set (aid := at_attempt_id a).
  eapply (co_spec_bind _ _ _ (λ _, at_attempt uuid o l aid)).
  { apply co_spec_read; [done|]. intros s e A. apply HE. by split; [apply A|]. }
  intros st. eapply (co_spec_bind _ _ _ (λ _, at_attempt uuid o l aid)).
  - eapply co_spec_error; [|exact HE].
    destruct (execution_of st) as [e|]; [|apply co_spec_raise; intros s A; split; [apply A|done]].
    case_match.
    + eapply (co_spec_bind _ _ _ (λ _, at_attempt uuid o l aid)); [|intros v; by apply co_spec_ret].
      eapply (co_spec_bind _ _ _ (λ _, at_attempt uuid o l aid)); [apply transition_at|intros r; by apply co_spec_ret].
    + case_match; [by apply co_spec_ret|]. apply co_spec_raise. intros s A. split; [apply A|done].
  - intros v. eapply co_spec_weaken; [apply (attempts_loop_spec manage fuel o l)| | |done].
    + intros s A. by exists aid.
    + intros x s D. by right.
Qed.
End world.
