(* ===== verification/ToolLedger.v ===== *)
(** * ToolLedger: the guarantees of [execute]

    When the body of a tool is called, how often, what its result and its
    failure leave in the ledger, and that the retries end. *)

From Stdlib Require Import Ascii.
From stdpp Require Import relations.
From S2P Require Import Prelude PyText PyTime Sanitizer AgentTypes AgentState Commands.
From S2P Require Import OperationReduce Store Operations Controller Frames Outcomes Apply Records System StatesInv.
From S2P Require Import Demo Lifecycle RecoveryFacts Replay Ledger Projection Safety DurableTools Contracts ToolFacts ToolRuns.

#[local] Open Scope Z_scope.

(** ** A call and its store *)

(** What the called attempt repeats of its operation. *)
Lemma call_inherits o c db :
  call_ok c db → held o db → ledger_ok db → owner c = Some (op_operation_id o) →
  ∃ r, db_attempts c.2 !! c.1 = Some r ∧ tr_operation_id r = op_operation_id o ∧ tr_status r = OS_RUNNING ∧
    tr_run_id r = op_run_id o ∧ tr_request_hash r = op_request_hash o ∧ tr_side_effecting r = op_side_effecting o.
Proof.
  intros [Ht (r & Hr & Hs) K] (row' & Hrow' & C') L' Ho. unfold owner in Ho. rewrite Hr in Ho. injection Ho as Ho.
  pose proof (tidy_ledger _ Ht) as L. destruct (lk_attempts _ L _ _ Hr) as [Er _].
  destruct (lookup_some _ (lk_owner _ L _ _ Hr)) as [row Hrow]. rewrite Ho in Hrow.
  destruct (ck_operations _ _ K _ _ Hrow) as (row2 & Hrow2 & C2). rewrite Hrow' in Hrow2. injection Hrow2 as <-.
  pose proof (same_contract_trans _ _ _ C2 C') as [Em _]. unfold immutable_metadata in Em.
  injection Em as E1 _ E3 _ _ _ _ E8 _ E10 _ _ _ _ _ _.
  destruct (lk_projects _ L _ _ Hrow) as [_ (g & (latest & R)%reduce_operation_ok & _)].
  assert (tr_body r ∈ bodies_of (op_operation_id o) (db_attempts c.2)) as Hin.
  { apply elem_of_bodies. exists c.1, r. by split_and!. }
  pose proof (rd_inherits R _ Hin) as Hi. unfold inherits in Hi. rewrite !andb_true_iff, !bool_decide_eq_true in Hi.
  destruct Hi as [[[I1 I2] I3] I4]. cbn in *. exists r. split; [done|]. rewrite Er. cbn. split_and!; congruence.
Qed.

(** Nothing else of the Run can have an effect then. *)
Lemma call_alone c db r :
  call_ok c db → db_attempts c.2 !! c.1 = Some r → tr_side_effecting r = true →
  ∀ j r', j ≠ c.1 → db_attempts c.2 !! j = Some r' → tr_run_id r' = tr_run_id r → open_side_effect r' = false.
Proof.
  intros [Ht (r0 & Hr0 & Hs) _] Hr Hse j r' Hne Hr' E. rewrite Hr in Hr0. injection Hr0 as <-.
  destruct (reachable_attempts _ (tidy_is_reachable _ Ht)) as [Hd _]. specialize (Hd c.1 j r r' (not_eq_sym Hne) Hr Hr').
  destruct (lk_attempts _ (tidy_ledger _ Ht) _ _ Hr) as [Er _].
  assert (open_side_effect r = true) as Ho.
  { unfold open_side_effect. rewrite Hse. rewrite (bool_decide_true (tr_status r ∈ _)); [done|]. rewrite Er. cbn. rewrite Hs.
    set_solver. }
  unfold attempt_clash in Hd. rewrite !orb_false_iff in Hd. destruct Hd as [[_ H3] _].
  rewrite Ho, (bool_decide_true _ (eq_sym E)) in H3. by destruct (open_side_effect r').
Qed.

Lemma grown_calls o l l' s : grown o l l' → calls s = l' →
  ∃ k, calls s = l ++ k ∧ Forall (λ c, owner c = Some (op_operation_id o)) k.
Proof. intros (k & -> & Hk & _) ->. by exists k. Qed.

Section claims.
Context (cfg : Config) (gate : nat → res unit) (env : nat → Env) (uuid : nat → nat → string) (expires : nat → string).
Context (others : nat → Db → Db) (cancelled : nat → option string) (describe : pyerr → string).
Context (body : nat → BodyResult) (admission : nat → res unit) (draining : nat → bool).

Notation execute := (execute cfg gate env uuid expires others cancelled describe body admission draining).

(** What the theorems ask of the task: a tidy store, unused ids, every earlier
    call accounted for, and an operation of the store. *)
Definition ready (o : OperationRecord) (s : Task) : Prop :=
  live uuid s ∧ accounted (calls s) (tk_db s) ∧ held o (tk_db s).

Lemma ready_inv o s : ready o s → inv uuid o (calls s) s.
Proof. intros (L & A & H). by split. Qed.

Lemma execute_grown o s fuel manage x s' :
  world_law uuid others → ready o s → execute fuel o manage s = (x, s') →
  ∃ l', grown o (calls s) l' ∧ inv uuid o l' s'.
Proof.
  intros W R H. pose proof (execute_spec cfg gate env uuid expires others cancelled W body describe admission draining
    o (calls s) fuel manage s (ready_inv _ _ R)) as E. rewrite H in E. destruct x as [x|e].
  - destruct E as [(_ & _ & I)|(l' & aid & db & G & _ & I & _)]; [|by exists l'].
    exists (calls s). split; [apply grown_refl|done].
  - destruct E as (l' & G & I & _). by exists l'.
Qed.

(** C27: whatever others commit while it runs and however it ends, execute
    calls the body of a tool only for an attempt that is committed as RUNNING,
    belongs to this operation and its Run, and has its request hash; no attempt
    is ever called twice, in this or any earlier execution; and when the tool
    has side effects, no other side effect of the Run is open at that moment. *)
Theorem tool_calls_guarded o s fuel manage x s' :
  world_law uuid others → ready o s → execute fuel o manage s = (x, s') →
  ready o s' ∧ NoDup (calls s').*1 ∧ ∃ k, calls s' = calls s ++ k ∧
    ∀ aid db, (aid, db) ∈ k → ∃ r,
      db_attempts db !! aid = Some r ∧ tr_status r = OS_RUNNING ∧ tr_operation_id r = op_operation_id o ∧
      tr_run_id r = op_run_id o ∧ tr_request_hash r = op_request_hash o ∧ tr_side_effecting r = op_side_effecting o ∧
      (op_side_effecting o = true → ∀ j r', j ≠ aid → db_attempts db !! j = Some r' → tr_run_id r' = op_run_id o →
         open_side_effect r' = false).
Proof.
  intros W R H. destruct (execute_grown _ _ _ _ _ _ W R H) as (l' & G & I). pose proof I as [Lv Hc Ha Hh].
  split; [split_and!; [done| |done]; by rewrite Hc|]. split; [rewrite Hc; apply Ha|].
  destruct (grown_calls _ _ _ _ G Hc) as (k & Hk & Ho). exists k. split; [done|]. intros aid db Hin.
  rewrite Forall_forall in Ho. specialize (Ho _ Hin).
  assert (call_ok (aid, db) (tk_db s')) as Hok by (apply Ha; rewrite <- Hc, Hk; apply elem_of_app; by right).
  destruct (call_inherits _ _ _ Hok Hh (tidy_ledger _ (lv_tidy _ _ Lv)) Ho) as (r & Hr & E1 & E2 & E3 & E4 & E5).
  exists r. split_and!; try done. intros Hse j r' Hne Hr' Er.
  eapply (call_alone _ _ r Hok Hr); [congruence|exact Hne|exact Hr'|congruence].
Qed.

(** C28: an execution of a tool whose effect can stay unknown calls
    its body at most once.  When the execution ends with the exception that the
    body raised, the last attempt called is UNKNOWN and the Run is
    RECOVERY_REQUIRED.  What then becomes of the attempt, reconciled with the
    outside or decided by a human, is not part of an execution. *)
Theorem uncertain_body_once o s fuel manage x s' :
  world_law uuid others → ready o s → uncertain (op_idempotency o) = true → execute fuel o manage s = (x, s') →
  (length (calls s') ≤ S (length (calls s)))%nat ∧
  ∀ e, x = Raised (FromTool e) → ∃ aid db n,
    last (calls s') = Some (aid, db) ∧ body n = Threw e ∧
    attempt_is aid (λ a, at_status a = OS_UNKNOWN) (tk_db s') ∧
    run_is (op_run_id o) (λ st, st_task_state st = TS_RECOVERY_REQUIRED) (tk_db s').
Proof.
  intros W R Hu H. split.
  - destruct (execute_grown _ _ _ _ _ _ W R H) as (l' & (k & -> & _ & Hk) & I). rewrite (in_calls _ _ _ _ I), length_app.
    specialize (Hk Hu). lia.
  - intros e ->. pose proof (execute_spec cfg gate env uuid expires others cancelled W body describe admission draining
      o (calls s) fuel manage s (ready_inv _ _ R)) as E. rewrite H in E.
    destruct E as (l' & _ & I & _ & aid & db & Hl & [Ha Hr] & n & Hn). rewrite <- (in_calls _ _ _ _ I) in Hl. eauto 10.
Qed.

(** C29: an answer of execute is either the refusal of new work in
    maintenance, and no body was called, or what the body returned: the last
    attempt called is then COMPLETED with the sanitized answer and the hash of
    the answer, and the Run has gone on to OBSERVING when the execution manages
    its state. *)
Theorem tool_answer_recorded o s fuel manage result s' :
  world_law uuid others → ready o s → execute fuel o manage s = (Done result, s') →
  (op_name o ∈ maintained ∧ calls s' = calls s ∧
     result = not_executed_sorted (op_name o) "maintenance_new_work_denied") ∨
  ∃ aid db n, last (calls s') = Some (aid, db) ∧ body n = Returned result ∧
    attempt_is aid (λ a, at_status a = OS_COMPLETED ∧ at_result a = Some (sanitize_text result) ∧
      at_result_hash a = Some (sha256_hex result)) (tk_db s') ∧
    (manage = true → run_is (op_run_id o) (λ st, execution_of st = Some ES_OBSERVING) (tk_db s')).
Proof.
  intros W R H. pose proof (execute_spec cfg gate env uuid expires others cancelled W body describe admission draining
    o (calls s) fuel manage s (ready_inv _ _ R)) as E. rewrite H in E.
  destruct E as [(Hm & -> & I)|(l' & aid & db & _ & Hl & I & [(r & Hr & Hs & Hre & Hh & _) Hob] & n & Hn)].
  - left. split_and!; [done|apply I|done].
  - right. exists aid, db, n. rewrite (in_calls _ _ _ _ I). split_and!; try done. by exists r.
Qed.

(** C30: an operation is executed at most [max_attempts] times, over
    all its executions, so the loop of execute ends: with more fuel than that it
    never runs out. *)
Theorem tool_retries_end o s fuel manage x s' :
  world_law uuid others → ready o s → rp_max_attempts (op_retry_policy_snapshot o) < Z.of_nat fuel →
  execute fuel o manage s = (x, s') →
  x ≠ Raised OutOfFuel ∧
  Z.of_nat (length (calls_of (op_operation_id o) (calls s'))) ≤ rp_max_attempts (op_retry_policy_snapshot o).
Proof.
  intros W R Hf H. split.
  - intros ->. pose proof (execute_spec cfg gate env uuid expires others cancelled W body describe admission draining
      o (calls s) fuel manage s (ready_inv _ _ R)) as E. rewrite H in E.
    destruct E as (l' & _ & _ & Hn). apply Hn. unfold fuel_enough. lia.
  - destruct (execute_grown _ _ _ _ _ _ W R H) as (l' & _ & I). rewrite (in_calls _ _ _ _ I).
    apply (calls_bounded _ _ (tk_db s')); [apply tidy_ledger, I|apply I|apply I].
Qed.

End claims.

(** ** Witnesses *)

(** Commands played by tidy clients on the demo store. *)
Definition tool_command (n : nat) (b : CommandBody) : Command :=
  mkCommand (mkStateCommand ("setup-" +:+ str_of_int (Z.of_nat n)) "primary" None None "run-1" (Z.of_nat n - 1) "epoch-1") b.
Fixpoint tidy_play (n : nat) (bodies : list CommandBody) (db : Db) : option Db :=
  match bodies with
  | [] => Some db
  | b :: rest =>
      if command_valid (tool_command n b) && fresh_ids (demo_env n) (tool_command n b) db then
        match apply demo_cfg (Ok tt) (demo_env n) (tool_command n b) db with
        | Ok (_, db') => tidy_play (S n) rest db'
        | Err _ => None
        end
      else None
  end.

Lemma tidy_play_reachable bodies : ∀ n db db', tidy_reachable db → tidy_play n bodies db = Some db' → tidy_reachable db'.
Proof.
  induction bodies as [|b bodies IH]; intros n db db' Ht H; cbn [tidy_play] in H; [by injection H as <-|].
  destruct (_ && _) eqn:Hc; [|done]. apply andb_true_iff in Hc as [Hv Hf].
  destruct (apply _ _ _ _ _) as [[r d]|e] eqn:Ha; [|done]. eapply IH; [|exact H].
  eapply tidy_extend; [exact Ht|]. apply rtc_once. by eapply tidy_apply.
Qed.

(** A Run at THINKING with one prepared tool: [safe] says whether its effect is
    known when it fails. *)
Definition tool_create (safe : bool) : CommandBody :=
  CreateOperationWithAttempt (mkCreateOperationWithAttemptCommand "op-t" "attempt-op-t" None None OK_TOOL "web_search" "tool:t"
    (demo_hash "op-t") (if safe then TI_IDEMPOTENT else TI_NON_IDEMPOTENT) true None None None None None None None None
    demo_policy).
Definition tool_start (safe : bool) : option Db :=
  tidy_play 4 [Transition (mkTransitionCommand None (Some ES_THINKING) None None None "demo" None None); tool_create safe]
    (demo 3).
Definition tool_db (safe : bool) : Db := default demo_empty (tool_start safe).

Definition tool_uuid (m k : nat) : string :=
  String "t"%char (Nat.iter m (String "x"%char) (String "-"%char (Nat.iter k (String "y"%char) ""))).
Lemma iter_inj (c : Ascii.ascii) k : ∀ l, Nat.iter k (String c) "" = Nat.iter l (String c) "" → k = l.
Proof. induction k as [|k IH]; intros [|l] [=]; [done|]. f_equal. by apply IH. Qed.
Lemma tool_uuid_inj m k n l : tool_uuid m k = tool_uuid n l → m = n ∧ k = l.
Proof.
  unfold tool_uuid. intros [= H]. revert n H. induction m as [|m IH]; intros [|n] [= H].
  - split; [done|]. by eapply iter_inj.
  - destruct (IH n H) as [-> ->]. done.
Qed.

Definition not_drawn (s : string) : bool := match s with String c _ => negb (bool_decide (c = "t"%char)) | EmptyString => true end.
Definition tool_unused (db : Db) : bool :=
  forallb (λ kv, not_drawn kv.1) (map_to_list (db_processed db)) && forallb (λ kv, not_drawn kv.1) (map_to_list (db_attempts db)).
Lemma none_drawn {A} (M : gmap string A) m k : forallb (λ kv, not_drawn kv.1) (map_to_list M) = true → M !! tool_uuid m k = None.
Proof.
  intros H. apply eq_None_not_Some. intros [a Ha]. rewrite forallb_forall in H. specialize (H (tool_uuid m k, a)).
  rewrite <- list_elem_of_In, elem_of_map_to_list in H. by specialize (H Ha).
Qed.

(** What is known of the stores, by evaluation. *)
Definition tool_held (safe : bool) (db : Db) : bool :=
  match operation_in "op-t" db with
  | Ok o => bool_decide (op_operation_id o = "op-t") && bool_decide (uncertain (op_idempotency o) = negb safe)
            && bool_decide (rp_max_attempts (op_retry_policy_snapshot o) = 3) 
  | Err _ => false
  end.
Definition tool_check (safe : bool) : bool :=
  is_some (tool_start safe) && tool_unused (tool_db safe) && tool_held safe (tool_db safe).
Lemma tool_checked : tool_check true && tool_check false = true.
Proof. vm_cast_no_check (@eq_refl bool true). Qed.

Definition tool_task (safe : bool) : Task := mkTask (tool_db safe) 0 [] None None.
Definition no_error : pyerr → string := λ _, "".

(** One execution, alone in the world. *)
Definition tool_execute (body : nat → BodyResult) (fuel : nat) (o : OperationRecord) : Task → Answer string * Task :=
  execute demo_cfg (λ _, Ok tt) (λ n, demo_env (6 + n)) tool_uuid (λ n, demo_time (6 + n)) (λ _ db, db) (λ _, None)
    no_error body (λ _, Ok tt) (λ _, false) fuel o true.

Lemma tool_world : world_law tool_uuid (λ _ db, db).
Proof. split; [by intros; apply rtc_refl|done|intros n m k l; apply tool_uuid_inj]. Qed.

Record tool_facts (safe : bool) (db : Db) (o : OperationRecord) : Prop := {
  tf_read : operation_in "op-t" db = Ok o;
  tf_ready : ready tool_uuid o (mkTask db 0 [] None None);
  tf_uncertain : uncertain (op_idempotency o) = negb safe;
  tf_max : rp_max_attempts (op_retry_policy_snapshot o) = 3
}.

Lemma tool_facts_of safe db :
  tidy_reachable db → tool_unused db = true → tool_held safe db = true → ∃ o, tool_facts safe db o.
Proof.
  intros Ht Hu Hh. unfold tool_held in Hh. destruct (operation_in "op-t" db) as [o|e] eqn:Ho; [|discriminate Hh].
  apply andb_true_iff in Hh as [Hh Hm%bool_decide_eq_true]. apply andb_true_iff in Hh as [Hi%bool_decide_eq_true Hun%bool_decide_eq_true].
  unfold tool_unused in Hu. apply andb_true_iff in Hu as [Hp Ha]. exists o. split; [exact Ho| |exact Hun|exact Hm].
  split; [split|split]; [exact Ht| | |].
  - intros m k _. split; [exact (none_drawn _ m k Hp)|exact (none_drawn _ m k Ha)].
  - split; [constructor|]. intros c Hc. by apply not_elem_of_nil in Hc.
  - apply operation_in_ok in Ho as (row & Hr & _ & Eo). exists row. rewrite Hi, Eo. split; [exact Hr|split; reflexivity].
Qed.

Lemma default_some {A} (d : A) (x : option A) : is_some x = true → x = Some (default d x).
Proof. by destruct x. Qed.

Lemma tool_facts_ok safe : ∃ o, tool_facts safe (tool_db safe) o.
Proof.
  assert (tool_check safe = true) as H
    by (pose proof tool_checked as H; apply andb_true_iff in H as [H1 H2]; destruct safe; [exact H1|exact H2]).
  unfold tool_check in H. apply andb_true_iff in H as [H Hh]. apply andb_true_iff in H as [Hs Hu].
  apply (default_some demo_empty) in Hs. apply tool_facts_of; [|exact Hu|exact Hh].
  exact (tidy_play_reachable _ _ _ _ (demo_tidy 3 ltac:(lia)) Hs).
Qed.

(** Three ways a body can end. *)
Definition flaky (n : nat) : BodyResult := Threw (mkToolError "timed out" "TimeoutError" None true).
Definition working (n : nat) : BodyResult := Returned "found it".

(** How an execution ended, as a test. *)
Definition ended (safe : bool) (body : nat → BodyResult) (f : Answer string → bool) (calls_made : nat) : bool :=
  match operation_in "op-t" (tool_db safe) with
  | Ok o => let '(x, s') := tool_execute body 4 o (tool_task safe) in
            f x && (length (calls s') =? calls_made)%nat
  | Err _ => false
  end.
Definition threw (x : Answer string) : bool := match x with Raised (FromTool _) => true | _ => false end.
Definition observed (x : Answer string) : bool := match x with Raised (ToolExecutionObservationError _) => true | _ => false end.
Definition answered (x : Answer string) : bool := match x with Done _ => true | _ => false end.
Lemma ended_all : ended true flaky observed 3 && ended false flaky threw 1 && ended true working answered 1 = true.
Proof. vm_cast_no_check (@eq_refl bool true). Qed.

Lemma ended_ok safe body f k o : ended safe body f k = true → tool_facts safe (tool_db safe) o →
  ∃ x s', tool_execute body 4 o (tool_task safe) = (x, s') ∧ f x = true ∧ length (calls s') = k.
Proof.
  intros H F. unfold ended in H. rewrite (tf_read _ _ _ F) in H. destruct (tool_execute _ _ _ _) as [x s'].
  apply andb_true_iff in H as [Hf Hk%Nat.eqb_eq]. by exists x, s'.
Qed.
Lemma ended_each : ended true flaky observed 3 = true ∧ ended false flaky threw 1 = true ∧ ended true working answered 1 = true.
Proof.
  pose proof ended_all as H. apply andb_true_iff in H as [H H3]. apply andb_true_iff in H as [H1 H2].
  exact (conj H1 (conj H2 H3)).
Qed.

(** A search that times out is called three times, for three attempts. *)
Lemma tool_calls_guarded_witness : ∃ o x s',
  tool_execute flaky 4 o (tool_task true) = (x, s') ∧ length (calls s') = 3%nat ∧ NoDup (calls s').*1.
Proof.
  destruct (tool_facts_ok true) as [o F]. destruct (ended_ok _ _ _ _ o (proj1 ended_each) F) as (x & s' & H & _ & Hk).
  exists o, x, s'. split; [exact H|]. split; [exact Hk|].
  exact (proj1 (proj2 (tool_calls_guarded demo_cfg (λ _, Ok tt) (λ n, demo_env (6 + n)) tool_uuid (λ n, demo_time (6 + n)) (λ _ db, db) (λ _, None)
    no_error flaky (λ _, Ok tt) (λ _, false) o (tool_task true) 4 true x s'
    tool_world (tf_ready _ _ _ F) H))).
Defined.

(** A search whose effect would stay unknown is called once. *)
Lemma uncertain_body_once_witness : ∃ o x s',
  tool_execute flaky 4 o (tool_task false) = (x, s') ∧ threw x = true ∧
  run_is (op_run_id o) (λ st, st_task_state st = TS_RECOVERY_REQUIRED) (tk_db s').
Proof.
  destruct (tool_facts_ok false) as [o F].
  destruct (ended_ok _ _ _ _ o (proj1 (proj2 ended_each)) F) as (x & s' & H & Hx & _).
  exists o, x, s'. split; [exact H|]. split; [exact Hx|]. destruct x as [?|[e|e|e|e|t|t|t b|]]; try discriminate Hx.
  destruct (proj2 (uncertain_body_once demo_cfg (λ _, Ok tt) (λ n, demo_env (6 + n)) tool_uuid (λ n, demo_time (6 + n)) (λ _ db, db) (λ _, None)
    no_error flaky (λ _, Ok tt) (λ _, false) o (tool_task false) 4 true (Raised (FromTool e)) s'
    tool_world (tf_ready _ _ _ F) (tf_uncertain _ _ _ F) H) _ eq_refl)
    as (aid & db & n & _ & _ & _ & Hr).
  exact Hr.
Defined.

Lemma tool_answer_recorded_witness : ∃ o result s',
  tool_execute working 4 o (tool_task true) = (Done result, s') ∧ length (calls s') = 1%nat ∧
  ((op_name o ∈ maintained ∧ calls s' = calls (tool_task true)) ∨
   ∃ aid db n, last (calls s') = Some (aid, db) ∧ working n = Returned result).
Proof.
  destruct (tool_facts_ok true) as [o F].
  destruct (ended_ok _ _ _ _ o (proj2 (proj2 ended_each)) F) as (x & s' & H & Hx & Hk).
  destruct x as [result|e]; [|discriminate Hx]. exists o, result, s'. split; [exact H|]. split; [exact Hk|].
  destruct (tool_answer_recorded demo_cfg (λ _, Ok tt) (λ n, demo_env (6 + n)) tool_uuid (λ n, demo_time (6 + n)) (λ _ db, db) (λ _, None)
    no_error working (λ _, Ok tt) (λ _, false) o (tool_task true) 4 true result s'
    tool_world (tf_ready _ _ _ F) H)
    as [(Hm & Hc & _)|(aid & db & n & Hl & Hn & _)]; [left; exact (conj Hm Hc)|right; exists aid, db, n; exact (conj Hl Hn)].
Defined.

Lemma tool_retries_end_witness : ∃ o x s',
  tool_execute flaky 4 o (tool_task true) = (x, s') ∧ x ≠ Raised OutOfFuel.
Proof.
  destruct (tool_facts_ok true) as [o F]. destruct (ended_ok _ _ _ _ o (proj1 ended_each) F) as (x & s' & H & _ & _).
  exists o, x, s'. split; [exact H|].
  assert (rp_max_attempts (op_retry_policy_snapshot o) < Z.of_nat 4) as Hm by (rewrite (tf_max _ _ _ F); reflexivity).
  exact (proj1 (tool_retries_end demo_cfg (λ _, Ok tt) (λ n, demo_env (6 + n)) tool_uuid (λ n, demo_time (6 + n)) (λ _ db, db) (λ _, None)
    no_error flaky (λ _, Ok tt) (λ _, false) o (tool_task true) 4 true x s' tool_world (tf_ready _ _ _ F) Hm H)).
Defined.
