(* ===== verification/Tools.v ===== *)
(** * Tools: the registry of tools (tool/registry.py, tool/contracts.py)

    Registration, argument schemas, the contract of a tool and its hash, the
    subsets given to sub-agents, and the gate every call goes through:
    validation, risk, the authorization of an extension or the approval of a
    human, and then the coordinator of DurableTools.  The registry has the gate
    twice, in [execute] and in [prepare_invocation] with [execute_prepared], and
    so has this file. *)

From S2P Require Import Prelude PyText PyTime Json AgentTypes AgentState Commands.
From S2P Require Import OperationReduce Store Operations Controller DurableTools.

#[local] Open Scope Z_scope.

Definition Args := list (string * json).

(** ** Argument schemas *)

(** The type a schema is compiled to; an object lists its fields and whether
    they are required. *)
(* source: tool/registry.py _schema_type *)
Inductive Annotation :=
| A_str
| A_literal (allowed : list json)
| A_list (item : Annotation) (minimum maximum : option Z)
| A_int
| A_float
| A_bool
| A_dict
| A_any
| A_object (fields : list (string * (Annotation * bool))).

Definition ArgumentModel := list (string * (Annotation * bool)).

(** [isinstance(x, int)]: booleans are integers. *)
Definition as_int (j : option json) : option Z :=
  match j with Some (JInt z) => Some z | Some (JBool b) => Some (if b then 1 else 0) | _ => None end.

Definition str_items (l : list json) : option (list string) :=
  mapM (λ j, match j with JStr s => Some s | _ => None end) l.

Fixpoint json_depth (j : json) : nat :=
  match j with
  | JArr l => S (foldr (λ x n, Nat.max (json_depth x) n) O l)
  | JObj d => S (foldr (λ kv n, Nat.max (json_depth kv.2) n) O d)
  | _ => 1
  end.

Section schema.
(** Whether pydantic accepts the names of the fields of a model. *)
Context (create_model : list string → res unit).

(** [fuel] bounds the nesting. *)
(* source: tool/registry.py _build_object_model *)
Definition build_object_model_ (schema_type : list (string * json) → res Annotation) (properties : list (string * json))
    (required : list string) : res ArgumentModel :=
  (if forallb (λ k, bool_decide (k ∈ properties.*1)) required then mret tt
   else Err (ValueError "required names an unknown field"));;
  fields ← mapM (λ kv,
    match kv.2 with
    | JObj definition => a ← schema_type definition; mret (kv.1, (a, bool_decide (kv.1 ∈ required)))
    | _ => Err (ValueError "the definition of a field must be an object")
    end) properties;
  create_model properties.*1;;
  mret fields.

(* source: tool/registry.py _schema_type *)
Fixpoint schema_type (fuel : nat) (definition : list (string * json)) : res Annotation :=
  match fuel with
  | O => Err (RuntimeError "fuel")
  | S fuel =>
      match dict_get "type" definition with
      | Some (JStr kind) =>
          if bool_decide (kind = "string") then
            mret (match dict_get "enum" definition with Some (JArr (x :: l)) => A_literal (x :: l) | _ => A_str end)
          else if bool_decide (kind = "array") then
            match default (JObj []) (dict_get "items" definition) with
            | JObj items =>
                item ← schema_type fuel items;
                mret (A_list item (as_int (dict_get "minItems" definition)) (as_int (dict_get "maxItems" definition)))
            | _ => Err (ValueError "items must be an object")
            end
          else if bool_decide (kind = "integer") then mret A_int
          else if bool_decide (kind = "number") then mret A_float
          else if bool_decide (kind = "boolean") then mret A_bool
          else if bool_decide (kind = "object") then
            match dict_get "properties" definition with
            | None | Some JNull => mret A_dict
            | Some (JObj properties) =>
                match default (JArr []) (dict_get "required" definition) with
                | JArr l =>
                    match str_items l with
                    | Some required => m ← build_object_model_ (schema_type fuel) properties required; mret (A_object m)
                    | None => Err (ValueError "required must be a list of strings")
                    end
                | _ => Err (ValueError "required must be a list of strings")
                end
            | Some _ => Err (ValueError "properties must be an object")
            end
          else mret A_any
      | _ => mret A_any
      end
  end.

(** [set(x)] of the [required] of a schema, when its members are strings. *)
(* source: tool/registry.py:555-560 _build_argument_model *)
Definition required_names (j : json) : res (list string) :=
  match j with
  | JArr l =>
      match str_items l with
      | Some names => mret names
      | None => if existsb (λ x, match x with JArr _ | JObj _ => true | _ => false end) l
                then Err (TypeError "unhashable") else Err (ValueError "required names an unknown field")
      end
  | JStr s => mret (map (λ c, of_code_points [c]) (code_points s))
  | JObj d => mret d.*1
  | _ => Err (TypeError "not iterable")
  end.

(* source: tool/registry.py _build_argument_model *)
Definition build_argument_model (schema : list (string * json)) : res ArgumentModel :=
  (if match dict_get "type" schema with None => true | Some (JStr t) => bool_decide (t = "object") | Some _ => false end
   then mret tt else Err (ValueError "the argument schema must be an object"));;
  required ← required_names (default (JArr []) (dict_get "required" schema));
  match default (JObj []) (dict_get "properties" schema) with
  | JObj properties => build_object_model_ (schema_type (json_depth (JObj schema))) properties required
  | _ => Err (ValueError "properties must be an object")
  end.
End schema.

(** ** Tools and their context *)

(* source: tool/contracts.py ExtensionToolAuthorization *)
Record ExtensionToolAuthorization := mkExtensionToolAuthorization {
  ea_hook_id : string; ea_source_hash : string; ea_manifest_hash : string; ea_grant_version : Z;
  ea_allowed_tools : list string; ea_tool_contract_hashes : list (string * string); ea_trace_id : string
}.
(* source: tool/contracts.py ExtensionToolAuthorization *)
Definition ExtensionToolAuthorization_valid (a : ExtensionToolAuthorization) : bool := 1 <=? ea_grant_version a.

(** [tx_approval]: the callback that asks a human, its answers by moment;
    [tx_durable]: there is an operation coordinator; [tx_bash]: the sandbox can
    run bash. *)
(* source: tool/contracts.py ToolContext *)
Record ToolContext := mkToolContext {
  tx_approval : option (nat → Exn + bool);
  tx_authorization : option ExtensionToolAuthorization;
  tx_durable : bool;
  tx_bash : bool;
  tx_workspace_root : string
}.

(** A tool: its declarations, [None] when the attribute is missing, and its
    callbacks, which may raise.  [tl_idempotency] is stripped and in lower
    case; [prepare_arguments] may answer something that is not an object. *)
(* source: tool/contracts.py AsyncTool *)
Record AsyncTool := mkAsyncTool {
  tl_name : string; tl_description : string; tl_schema : list (string * json); tl_risk : string;
  tl_idempotency : option string; tl_parallel_safe : option bool; tl_delegatable : option bool;
  tl_extension_preapproval : option bool; tl_runtime_profiles : option (list string);
  tl_risk_for : option (Args → ToolError + string);
  tl_is_available : option (ToolContext → bool);
  tl_prepare_arguments : option (Args → ToolError + option Args);
  tl_ensure_available : option (Args → ToolContext → option ToolError);
  tl_approval_required : option (Args → ToolContext → ToolError + bool);
  tl_ends_turn : option (string → bool);
  tl_run : Args → nat → BodyResult
}.

(* source: tool/registry.py PreparedToolInvocation *)
Record PreparedToolInvocation := mkPreparedToolInvocation {
  pi_tool : AsyncTool; pi_name : string; pi_arguments : Args; pi_risk : string; pi_idempotency : string;
  pi_approval_required : bool; pi_parallel_safe : bool; pi_tool_call_id : string
}.

(* source: tool/registry.py ToolExecutionResult *)
Record ToolExecutionResult := mkToolExecutionResult {
  xr_result : string; xr_operation : option string; xr_attempt : option string
}.

(** ** The registry *)

(** The two dictionaries in the order of registration. *)
(* source: tool/registry.py AsyncToolRegistry.__init__ *)
Record Registry := mkRegistry {
  rg_tools : list (string * AsyncTool); rg_models : list (string * ArgumentModel); rg_frozen : bool
}.
#[export] Instance Registry_eta : Eta Registry := λ r, mkRegistry (rg_tools r) (rg_models r) (rg_frozen r).

Definition find_tool (name : string) (l : list (string * AsyncTool)) : option AsyncTool :=
  snd <$> List.find (λ kv, bool_decide (kv.1 = name)) l.
Definition tool_of (rg : Registry) (name : string) : option AsyncTool := find_tool name (rg_tools rg).
Definition unknown_tool {A} (text name : string) : res A := Err (ValueError (text +:+ name)).

Definition STATIC_RISKS : list string := ["read"; "write"; "high"].

Section registry.
Context (create_model : list string → res unit).

(** A tool whose schema is refused stays in the registry, without a model of
    its arguments. *)
(* source: tool/registry.py AsyncToolRegistry.register *)
Definition register (tool : AsyncTool) (rg : Registry) : res unit * Registry :=
  if rg_frozen rg then (Err (RuntimeError "Tool Registry is frozen for the active Runtime Trace"), rg)
  else if is_some (tool_of rg (tl_name tool)) then (Err (ValueError "duplicate tool name"), rg)
  else if negb (bool_decide (tl_risk tool ∈ "dynamic" :: STATIC_RISKS)) then (Err (ValueError "invalid risk"), rg)
  else if bool_decide (tl_risk tool = "dynamic") && is_none (tl_risk_for tool)
    then (Err (ValueError "a dynamic tool must implement risk_for"), rg)
  else
    let rg := rg ⟪ rg_tools := rg_tools rg ++ [(tl_name tool, tool)] ⟫ in
    match build_argument_model create_model (tl_schema tool) with
    | Ok m => (Ok tt, rg ⟪ rg_models := rg_models rg ++ [(tl_name tool, m)] ⟫)
    | Err e => (Err e, rg)
    end.

(* source: tool/registry.py AsyncToolRegistry.__init__ *)
Fixpoint register_all (tools : list AsyncTool) (rg : Registry) : res Registry :=
  match tools with
  | [] => mret rg
  | t :: rest => match register t rg with (Ok _, rg) => register_all rest rg | (Err e, _) => Err e end
  end.
(* source: tool/registry.py AsyncToolRegistry.__init__ *)
Definition new_registry (tools : list AsyncTool) : res Registry := register_all tools (mkRegistry [] [] false).

(* source: tool/registry.py AsyncToolRegistry.freeze *)
Definition freeze (rg : Registry) : Registry := rg ⟪ rg_frozen := true ⟫.

(* source: tool/registry.py AsyncToolRegistry.is_available *)
Definition is_available (rg : Registry) (name : string) (context : option ToolContext) : res bool :=
  match tool_of rg name with
  | None => unknown_tool "Unknown tool: " name
  | Some tool =>
      mret (match context with
            | None => true
            | Some c => if bool_decide (name = "bash") then tx_bash c
                        else match tl_is_available tool with Some p => p c | None => true end
            end)
  end.

(* source: tool/registry.py AsyncToolRegistry.names *)
Definition names (rg : Registry) (context : option ToolContext) : list string :=
  List.filter (λ n, match is_available rg n context with Ok b => b | Err _ => false end) (rg_tools rg).*1.

(* source: tool/registry.py AsyncToolRegistry.is_delegatable *)
Definition is_delegatable (rg : Registry) (name : string) : res bool :=
  match tool_of rg name with None => unknown_tool "未知工具：" name | Some t => mret (default true (tl_delegatable t)) end.

Definition NOT_FOR_SUBAGENTS : list string :=
  ["subagent"; "skill_install"; "cronjob"; "harness_evolve"; "harness_capability"; "harness_manual"; "harness_error";
   "harness_dream"; "sandbox_checkpoint_history"; "sandbox_checkpoint_branch"].

(** One name; the tools chosen so far are compared as objects, here by name. *)
(* source: tool/registry.py AsyncToolRegistry.select *)
Definition select_one (rg : Registry) (chosen : list AsyncTool) (name : string) : res (list AsyncTool) :=
  if bool_decide (name ∈ NOT_FOR_SUBAGENTS) then Err (ValueError "not for sub-agents") else
  match tool_of rg name with
  | None => unknown_tool "未知工具：" name
  | Some tool =>
      if negb (default true (tl_delegatable tool)) then Err (ValueError "not for sub-agents")
      else mret (if bool_decide (name ∈ map tl_name chosen) then chosen else chosen ++ [tool])
  end.
(* source: tool/registry.py AsyncToolRegistry.select *)
Fixpoint select_all (rg : Registry) (chosen : list AsyncTool) (ns : list string) : res (list AsyncTool) :=
  match ns with [] => mret chosen | n :: rest => chosen ← select_one rg chosen n; select_all rg chosen rest end.
(* source: tool/registry.py AsyncToolRegistry.select *)
Definition select (rg : Registry) (ns : list string) : res Registry := chosen ← select_all rg [] ns; new_registry chosen.

(* source: tool/registry.py AsyncToolRegistry.excluding *)
Definition excluding (rg : Registry) (ns : list string) : res Registry :=
  new_registry (List.filter (λ kv, negb (bool_decide (kv.1 ∈ ns))) (rg_tools rg)).*2.

(* source: tool/registry.py AsyncToolRegistry.ends_turn *)
Definition ends_turn (rg : Registry) (name result : string) : res bool :=
  match tool_of rg name with
  | None => unknown_tool "未知工具：" name
  | Some t => mret (match tl_ends_turn t with Some p => p result | None => false end)
  end.
(* source: tool/registry.py AsyncToolRegistry.can_end_turn *)
Definition can_end_turn (rg : Registry) (name : string) : res bool :=
  match tool_of rg name with None => unknown_tool "Unknown tool: " name | Some t => mret (is_some (tl_ends_turn t)) end.

(** *** Contracts *)

Definition ALL_PROFILES : list string := ["interactive"; "cron"; "harness"; "maintenance"].

(* source: tool/registry.py AsyncToolRegistry.contract_snapshot *)
Definition contract (tool : AsyncTool) : json :=
  JObj [("schema", JObj (tl_schema tool)); ("risk", JStr (tl_risk tool));
        ("idempotency", JStr (default "pure" (tl_idempotency tool)));
        ("parallel_safe", JBool (default false (tl_parallel_safe tool)));
        ("delegatable", JBool (default true (tl_delegatable tool)));
        ("extension_preapproval", JBool (default false (tl_extension_preapproval tool)));
        ("runtime_profiles", JArr (map JStr (default ALL_PROFILES (tl_runtime_profiles tool))))].
(** The order of the names does not matter to the readers. *)
(* source: tool/registry.py AsyncToolRegistry.contract_snapshot *)
Definition contract_snapshot (rg : Registry) : list (string * json) := map (λ kv, (kv.1, contract kv.2)) (rg_tools rg).

(* source: tool/registry.py AsyncToolRegistry.extension_preapproval_allowed *)
Definition extension_preapproval_allowed (rg : Registry) (name : string) : res bool :=
  match tool_of rg name with None => unknown_tool "Unknown Tool: " name | Some t => mret (default false (tl_extension_preapproval t)) end.

(* source: tool/registry.py AsyncToolRegistry.tool_contract_hash *)
Definition tool_contract_hash (rg : Registry) (name : string) : res string :=
  match dict_get name (contract_snapshot rg) with
  | None => unknown_tool "Unknown Tool: " name
  | Some snapshot => mret (sha256_hex (json_dumps snapshot))
  end.
End registry.

(** ** Calls *)

(** An exception of the registry while it checks a request. *)
Definition request_error {A} (text type : string) : Exn + A := inl (RequestError (mkToolError text type None false)).

Section calls.
Context (cfg : Config) (cc : CoordinatorConfig).
Context (gate : nat → res unit) (env : nat → Env) (uuid : nat → nat → string) (expires : nat → string).
Context (others : nat → Db → Db) (cancelled : nat → option string) (describe : pyerr → string).
Context (binding : option DurableRunBinding) (admission : nat → res unit) (draining : nat → bool).
(** [model_validate(...).model_dump(exclude_unset=True)] of the model that
    pydantic builds from the fields. *)
Context (model_validate : ArgumentModel → Args → ToolError + Args).

#[local] Notation prepare := (prepare cfg cc gate env uuid binding).
#[local] Notation waiting_human := (waiting_human cfg gate env uuid).
#[local] Notation request_approval := (request_approval others binding).
#[local] Notation approval_decided := (approval_decided cfg gate env uuid).
#[local] Notation skip_denied := (skip_denied cfg gate env uuid).
#[local] Notation run_durably := (λ body, DurableTools.execute cfg gate env uuid expires others cancelled describe body admission draining).
#[local] Notation preexecution_failed_if_safe := (preexecution_failed_if_safe cfg gate env uuid others cancelled describe).

Definition co_sum {A} (x : Exn + A) : Co A := match x with inl e => co_raise e | inr a => mret a end.

(* source: tool/registry.py AsyncToolRegistry.prepare_arguments *)
Definition prepare_arguments (tool : AsyncTool) (arguments : Args) : Exn + Args :=
  match tl_prepare_arguments tool with
  | None => inr arguments
  | Some f => match f arguments with
              | inl e => inl (RequestError e)
              | inr (Some a) => inr a
              | inr None => request_error "prepare_arguments must answer an object" "ValueError"
              end
  end.

(* source: tool/registry.py AsyncToolRegistry._validate *)
Definition validate (rg : Registry) (name : string) (arguments : Args) : Exn + Args :=
  match List.find (λ kv, bool_decide (kv.1 = name)) (rg_models rg) with
  | None => request_error name "KeyError"
  | Some (_, m) => match model_validate m arguments with
                   | inl e => request_error (te_text e) "ValueError"
                   | inr a => inr a
                   end
  end.

(** The checks that come before everything else; what they raise is marked
    [tool_request_error]. *)
(* source: tool/registry.py:310-326 AsyncToolRegistry.execute *)
Definition preflight (rg : Registry) (tool : AsyncTool) (name : string) (arguments : Args) (context : ToolContext) : Exn + Args :=
  match prepare_arguments tool arguments with
  | inl e => inl e
  | inr a =>
      match validate rg name a with
      | inl e => inl e
      | inr a => match (match tl_ensure_available tool with Some f => f a context | None => None end) with
                 | Some e => inl (RequestError e)
                 | None => inr a
                 end
      end
  end.

(* source: tool/registry.py AsyncToolRegistry._resolved_risk *)
Definition resolved_risk (tool : AsyncTool) (arguments : Args) : Exn + string :=
  if negb (bool_decide (tl_risk tool = "dynamic")) then inr (tl_risk tool) else
  match tl_risk_for tool with
  | None => inl (Failure (TypeError "risk_for is not callable"))
  | Some f => match f arguments with
              | inl e => inl (CallbackError e)
              | inr r => if bool_decide (r ∈ STATIC_RISKS) then inr r else inl (Failure (ValueError "invalid risk"))
              end
  end.

(* source: tool/registry.py:327-330 AsyncToolRegistry.execute *)
Definition needs_approval (tool : AsyncTool) (risk : string) (arguments : Args) (context : ToolContext) : Exn + bool :=
  if bool_decide (risk = "read") then inr false else
  match tl_approval_required tool with
  | None => inr true
  | Some f => match f arguments context with inl e => inl (CallbackError e) | inr b => inr b end
  end.

(** The tool that is called, its arguments, and whether it needs an approval,
    when the request may go on. *)
(* source: tool/registry.py:300-330 AsyncToolRegistry.execute *)
Definition admitted (rg : Registry) (name : string) (arguments : Args) (context : ToolContext) :
    Exn + (AsyncTool * Args * bool) :=
  match tool_of rg name with
  | None => inl (Failure (ValueError ("未知工具：" +:+ name)))
  | Some tool =>
      match is_available rg name (Some context) with
      | Err e => inl (Failure e)
      | Ok false =>
          if bool_decide (name = "bash")
          then inl (Failure (BashUnavailableError
                 "当前 Trace 未运行安全沙箱，Bash 已禁用且不会回退到无隔离的宿主机 Shell"))
          else inl (Failure (RuntimeError ("工具在当前执行上下文中不可用：" +:+ name)))
      | Ok true =>
          match preflight rg tool name arguments context with
          | inl e => inl e
          | inr a => match resolved_risk tool a with
                     | inl e => inl e
                     | inr risk => match needs_approval tool risk a context with
                                   | inl e => inl e
                                   | inr b => inr (tool, a, b)
                                   end
                     end
          end
      end
  end.

(** The hash an authorization was granted for. *)
(* source: tool/registry.py:346-346 AsyncToolRegistry.execute *)
Definition granted_hash (name : string) (a : ExtensionToolAuthorization) : option string :=
  snd <$> List.find (λ kv, bool_decide (kv.1 = name)) (ea_tool_contract_hashes a).

(** Why an extension may not call the tool. *)
(* source: tool/registry.py:345-352 AsyncToolRegistry.execute *)
Definition extension_denial (rg : Registry) (name : string) (a : ExtensionToolAuthorization) : res (option string) :=
  if negb (bool_decide (name ∈ ea_allowed_tools a)) then mret (Some "extension_tool_not_preapproved") else
  allowed ← extension_preapproval_allowed rg name;
  if negb allowed then mret (Some "tool_disallows_extension_preapproval") else
  actual ← tool_contract_hash rg name;
  mret (if negb (bool_decide (granted_hash name a = Some actual)) then Some "extension_tool_contract_changed" else None).

(* source: tool/registry.py:345-360 AsyncToolRegistry.execute *)
Definition check_extension (rg : Registry) (name : string) (context : ToolContext) (operation : option OperationRecord) : Co unit :=
  denial ← (match tx_authorization context with
            | Some a => co_lift (extension_denial rg name a)
            | None => mret None
            end);
  match denial with
  | None => mret tt
  | Some reason =>
      match operation with Some o => skip_denied o reason;; mret tt | None => mret tt end;;
      co_raise (PermissionError ("Extension Tool invocation denied: " +:+ reason) true)
  end.

(** Without a coordinator the human is asked directly. *)
(* source: tool/registry.py:375-379 AsyncToolRegistry.execute *)
Definition ask_directly (name : string) (context : ToolContext) : Co bool :=
  match tx_approval context with
  | None => mret false
  | Some ask =>
      co_see (AskedDirectly name);;
      n ← co_task tk_clock;
      others_commit others;;
      co_sum (ask n)
  end.

(** The approval: whether the call is approved, and the observation of a
    refusal that the ledger knows. *)
(* source: tool/registry.py:361-382 AsyncToolRegistry.execute *)
Definition get_approval (name : string) (context : ToolContext) (operation : option OperationRecord) : Co (bool * option string) :=
  match tx_authorization context, operation with
  | Some _, _ => mret (true, None)
  | None, Some o =>
      waiting_human o;;
      yes ← request_approval o (tx_approval context);
      denied ← approval_decided o yes;
      mret (yes, denied)
  | None, None => yes ← ask_directly name context; mret (yes, None)
  end.

(** Without a coordinator the body is called directly. *)
(* source: tool/registry.py:387-388 AsyncToolRegistry.execute *)
Definition run_directly (name : string) (body : nat → BodyResult) : Co string :=
  co_see (Ran name);;
  n ← co_task tk_clock;
  others_commit others;;
  match body n with
  | Returned s => mret s
  | Threw e => co_raise (FromTool e)
  | WasCancelled t => co_raise (CancelledError t)
  end.

(* source: tool/registry.py:342-392 AsyncToolRegistry.execute *)
Definition gated_call (fuel : nat) (rg : Registry) (tool : AsyncTool) (name : string) (arguments : Args) (approval : bool)
    (context : ToolContext) (operation : option OperationRecord) : Co string :=
  check_extension rg name context operation;;
  answer ← (if approval then
              p ← get_approval name context operation;
              match p with
              | (true, _) => mret None
              | (false, Some denied) => mret (Some denied)
              | (false, None) => co_raise (PermissionError ("工具调用未获批准：" +:+ name) false)
              end
            else mret None);
  match answer with
  | Some denied => mret denied
  | None =>
      match operation with
      | None => run_directly name (tl_run tool arguments)
      | Some o => run_durably (tl_run tool arguments) fuel o true
      end
  end.

(* source: tool/registry.py:393-396 AsyncToolRegistry.execute *)
Definition on_failure (context : ToolContext) (operation : option OperationRecord) (e : Exn) : Co unit :=
  if tx_durable context then preexecution_failed_if_safe operation e else mret tt.

(** The risk of a dynamic tool is asked for a second time for the ledger. *)
(* source: tool/registry.py AsyncToolRegistry.execute *)
Definition execute (fuel : nat) (rg : Registry) (name : string) (arguments : Args) (context : ToolContext)
    (tool_call_id : option string) : Co string :=
  p ← co_sum (admitted rg name arguments context);
  let '(tool, arguments, approval) := p in
  operation ← (if tx_durable context then
                 risk ← co_sum (resolved_risk tool arguments);
                 o ← prepare (tl_idempotency tool) name arguments risk (tx_workspace_root context)
                       (str_or tool_call_id ("direct_" +:+ name)) None None;
                 mret (Some o)
               else mret None);
  co_except (gated_call fuel rg tool name arguments approval context operation) (on_failure context operation).

(** *** Prepared calls

    [prepare_invocation] and [execute_prepared] repeat the code of [execute];
    so do the definitions of this part. *)

(* source: tool/registry.py:220-233 AsyncToolRegistry.prepare_invocation *)
Definition prepared_preflight (rg : Registry) (tool : AsyncTool) (name : string) (arguments : Args) (context : ToolContext) :
    Exn + Args :=
  match prepare_arguments tool arguments with
  | inl e => inl e
  | inr prepared =>
      match validate rg name prepared with
      | inl e => inl e
      | inr selected =>
          match tl_ensure_available tool with
          | None => inr selected
          | Some ensure => match ensure selected context with Some e => inl (RequestError e) | None => inr selected end
          end
      end
  end.

(* source: tool/registry.py:240-243 AsyncToolRegistry.prepare_invocation *)
Definition prepared_approval_required (tool : AsyncTool) (risk : string) (selected : Args) (context : ToolContext) : Exn + bool :=
  match (negb (bool_decide (risk = "read")) : bool), tl_approval_required tool with
  | true, Some f => match f selected context with inr b => inr b | inl e => inl (CallbackError e) end
  | needs, _ => inr needs
  end.

(* source: tool/registry.py:244-252 AsyncToolRegistry.prepare_invocation *)
Definition runtime_allowed (rg : Registry) (name : string) (context : ToolContext) : res bool :=
  match tx_authorization context with
  | None => mret true
  | Some a =>
      if negb (bool_decide (name ∈ ea_allowed_tools a)) then mret false else
      allowed ← extension_preapproval_allowed rg name;
      if negb allowed then mret false else
      actual ← tool_contract_hash rg name;
      mret (bool_decide (granted_hash name a = Some actual))
  end.

(* source: tool/registry.py AsyncToolRegistry.prepare_invocation *)
Definition prepare_invocation (rg : Registry) (name : string) (arguments : Args) (context : ToolContext)
    (tool_call_id : string) : Exn + PreparedToolInvocation :=
  match tool_of rg name with
  | None => inl (Failure (ValueError ("Unknown tool: " +:+ name)))
  | Some tool =>
      match is_available rg name (Some context) with
      | Err e => inl (Failure e)
      | Ok false =>
          inl (Failure (if bool_decide (name = "bash")
                        then BashUnavailableError "当前 Trace 未运行安全沙箱；Bash 已禁用且不会回退到无隔离的宿主机 Shell"
                        else RuntimeError ("工具在当前执行上下文中不可用：" +:+ name)))
      | Ok true =>
          match prepared_preflight rg tool name arguments context with
          | inl e => inl e
          | inr selected =>
              match resolved_risk tool selected with
              | inl e => inl e
              | inr risk =>
                  let idempotency := default (if bool_decide (risk = "read") then "pure" else "non_idempotent") (tl_idempotency tool) in
                  match prepared_approval_required tool risk selected context, runtime_allowed rg name context with
                  | inl e, _ => inl e
                  | _, Err e => inl (Failure e)
                  | inr needs, Ok runtime =>
                      inr (mkPreparedToolInvocation tool name selected risk idempotency needs
                             (default false (tl_parallel_safe tool) && bool_decide (risk = "read")
                              && bool_decide (idempotency = "pure") && negb needs && is_none (tl_ends_turn tool) && runtime)
                             tool_call_id)
                  end
              end
          end
      end
  end.

(** Why an extension may not make the prepared call. *)
(* source: tool/registry.py:431-437 AsyncToolRegistry.execute_prepared *)
Definition prepared_denial (rg : Registry) (name : string) (a : ExtensionToolAuthorization) : res (option string) :=
  if bool_decide (name ∈ ea_allowed_tools a) then
    allowed ← extension_preapproval_allowed rg name;
    if allowed : bool then
      actual ← tool_contract_hash rg name;
      mret (if bool_decide (granted_hash name a = Some actual) then None else Some "extension_tool_contract_changed")
    else mret (Some "tool_disallows_extension_preapproval")
  else mret (Some "extension_tool_not_preapproved").

(** The answer of [execute_prepared] names the operation and its attempt. *)
(* source: tool/registry.py:469-491 AsyncToolRegistry.execute_prepared *)
Definition with_attempt_id (result : string) (operation : option OperationRecord) : Co ToolExecutionResult :=
  match operation with
  | None => mret (mkToolExecutionResult result None None)
  | Some o =>
      attempt ← co_read (current_attempt_in (op_operation_id o));
      mret (mkToolExecutionResult result (Some (op_operation_id o)) (Some (at_attempt_id attempt)))
  end.

(** The [try] of [execute_prepared]. *)
(* source: tool/registry.py:427-491 AsyncToolRegistry.execute_prepared *)
Definition prepared_body (fuel : nat) (rg : Registry) (prepared : PreparedToolInvocation) (context : ToolContext)
    (operation : option OperationRecord) (manage : bool) : Co ToolExecutionResult :=
  let name := pi_name prepared in
  let arguments := pi_arguments prepared in
  match tx_authorization context with
  | Some a =>
      denial ← co_lift (prepared_denial rg name a);
      match denial with
      | Some reason =>
          (if operation is Some o then skip_denied o reason;; mret tt else mret tt);;
          co_raise (PermissionError ("Extension Tool invocation denied: " +:+ reason) true)
      | None => mret tt
      end
  | None => mret tt
  end;;
  refused ← (if pi_approval_required prepared then
               match tx_authorization context, operation with
               | Some _, _ => mret None
               | None, Some o =>
                   waiting_human o;;
                   approved ← request_approval o (tx_approval context);
                   denied_result ← approval_decided o approved;
                   match denied_result with
                   | Some denied => if approved : bool then mret None else mret (Some denied)
                   | None => if approved then mret None else co_raise (PermissionError ("工具调用未获批准：" +:+ name) false)
                   end
               | None, None =>
                   approved ← ask_directly name context;
                   if approved : bool then mret None else co_raise (PermissionError ("工具调用未获批准：" +:+ name) false)
               end
             else mret None);
  match refused, operation with
  | Some denied, _ => with_attempt_id denied operation
  | None, None => result ← run_directly name (tl_run (pi_tool prepared) arguments); mret (mkToolExecutionResult result None None)
  | None, Some o => result ← run_durably (tl_run (pi_tool prepared) arguments) fuel o manage; with_attempt_id result operation
  end.

(** What [execute_prepared] writes on an exception that leaves its [try]: the
    operation, and the attempt unless the ledger cannot be read. *)
(* source: tool/registry.py:492-502 AsyncToolRegistry.execute_prepared *)
Record ExceptionIds := mkExceptionIds { durable_operation_id : option string; durable_attempt_id : option string }.
Definition no_ids : ExceptionIds := mkExceptionIds None None.
(* source: tool/registry.py:492-502 AsyncToolRegistry.execute_prepared *)
Definition exception_ids (operation : option OperationRecord) (db : Db) : ExceptionIds :=
  match operation with
  | None => no_ids
  | Some o => mkExceptionIds (Some (op_operation_id o))
                match current_attempt_in (op_operation_id o) db with Ok a => Some (at_attempt_id a) | Err _ => None end
  end.

(** The exception comes with the ids written on it; one that the ledger raises
    while the failure is recorded has none. *)
(* source: tool/registry.py AsyncToolRegistry.execute_prepared *)
Definition execute_prepared (fuel : nat) (rg : Registry) (prepared : PreparedToolInvocation) (context : ToolContext)
    (prepared_operation : option OperationRecord) (manage : bool) (batch : option string) (position : option Z) (s : Task) :
    Answer ToolExecutionResult * ExceptionIds * Task :=
  match (match tx_durable context, prepared_operation with
         | true, None =>
             o ← prepare (tl_idempotency (pi_tool prepared)) (pi_name prepared) (pi_arguments prepared) (pi_risk prepared)
                   (tx_workspace_root context) (pi_tool_call_id prepared) batch position;
             mret (Some o)
         | false, Some _ => co_fail (RuntimeError "Prepared Durable Operation requires a coordinator")
         | _, o => mret o
         end) s with
  | (Raised e, s1) => (Raised e, no_ids, s1)
  | (Done operation, s1) =>
      match prepared_body fuel rg prepared context operation manage s1 with
      | (Done x, s2) => (Done x, no_ids, s2)
      | (Raised e, s2) =>
          match (if tx_durable context then preexecution_failed_if_safe operation e else mret tt) s2 with
          | (Done _, s3) => (Raised e, exception_ids operation (tk_db s2), s3)
          | (Raised e', s3) => (Raised e', no_ids, s3)
          end
      end
  end.
End calls.
