(* ===== verification/ToolGate.v ===== *)
(** * ToolGate: what a call of a tool has passed

    The gate of the registry: no body without a valid request and the
    authorization it needs; the two copies of the gate agree; what a sub-agent
    can be given; schemas. *)

From S2P Require Import Prelude PyText PyTime Json AgentTypes AgentState Commands.
From S2P Require Import OperationReduce Store Operations Controller System Demo DurableTools ToolFacts ToolLedger Tools.

#[local] Open Scope Z_scope.

(** ** What a task shows *)

Definition is_body (m : Moment) : bool := match m with Called _ _ | Ran _ => true | _ => false end.
Definition is_question (m : Moment) : bool := match m with Asked _ _ | AskedDirectly _ => true | _ => false end.
Definition seen (f : Moment → bool) (s : Task) : list Moment := List.filter f (tk_trace s).
Definition bodies : Task → list Moment := seen is_body.
Definition questions : Task → list Moment := seen is_question.

(** Commits are not looked at. *)
Definition blind (f : Moment → bool) : Prop := ∀ db, f (Committed db) = false.

Section frames.
Context (cfg : Config) (cc : CoordinatorConfig).
Context (gate : nat → res unit) (env : nat → Env) (uuid : nat → nat → string) (expires : nat → string).
Context (others : nat → Db → Db) (cancelled : nat → option string) (describe : pyerr → string).
Context (binding : option DurableRunBinding) (admission : nat → res unit) (draining : nat → bool).
Context (f : Moment → bool) (Hf : blind f) (w : list Moment).

#[local] Notation keeps := (co_keeps (λ s, seen f s = w)).

Lemma seen_apply run rev b : keeps (co_apply cfg gate env uuid run rev b).
Proof.
  intros s Hs. unfold co_apply. destruct (command_valid _); [|done]. destruct (apply _ _ _ _ _) as [[r db]|e]; [|done].
  unfold seen in *. cbn. by rewrite List.filter_app, Hs; cbn; rewrite Hf, app_nil_r.
Qed.
Lemma seen_others : keeps (others_commit others).
Proof. by intros s Hs. Qed.
Lemma seen_context o a : keeps (set_context o a).
Proof. by intros s Hs. Qed.
Lemma seen_see m : f m = false → keeps (co_see m).
Proof. intros Hm s Hs. unfold seen in *. cbn. by rewrite List.filter_app, Hs; cbn; rewrite Hm, app_nil_r. Qed.
End frames.

Ltac co_frame Hf := repeat lazymatch goal with
  | |- co_keeps _ (mret _) => apply co_keeps_ret
  | |- co_keeps _ (co_raise _) => apply co_keeps_raise
  | |- co_keeps _ (co_fail _) => apply co_keeps_raise
  | |- co_keeps _ (co_read _) => apply co_keeps_read
  | |- co_keeps _ (co_lift _) => apply co_keeps_lift
  | |- co_keeps _ (co_task _) => apply co_keeps_task
  | |- co_keeps _ (co_apply _ _ _ _ _ _ _) => apply (seen_apply _ _ _ _ _ Hf)
  | |- co_keeps _ (others_commit _) => apply seen_others
  | |- co_keeps _ (set_context _ _) => apply seen_context
  | |- co_keeps _ (co_see _) => apply seen_see; done
  | |- co_keeps _ (mbind _ _) => apply co_keeps_bind; [|intros ?]
  | |- co_keeps _ (match ?x with _ => _ end) => destruct x
  | |- co_keeps _ (let _ := _ in _) => cbv zeta
  end.

Section methods.
Context (cfg : Config) (cc : CoordinatorConfig).
Context (gate : nat → res unit) (env : nat → Env) (uuid : nat → nat → string) (expires : nat → string).
Context (others : nat → Db → Db) (cancelled : nat → option string) (describe : pyerr → string).
Context (binding : option DurableRunBinding) (admission : nat → res unit) (draining : nat → bool).
Context (f : Moment → bool) (Hf : blind f) (w : list Moment).

#[local] Notation keeps := (co_keeps (λ s, seen f s = w)).

Lemma seen_prepare declared name args risk root id batch pos : keeps (prepare cfg cc gate env uuid binding declared name args risk root id batch pos).
Proof. unfold prepare, the_binding, transition_to. co_frame Hf. Qed.
Lemma seen_waiting o : keeps (waiting_human cfg gate env uuid o).
Proof. unfold waiting_human, transition_to. co_frame Hf. Qed.
Lemma seen_skip o r : keeps (skip_denied cfg gate env uuid o r).
Proof. unfold skip_denied, skip_current, transition_to. co_frame Hf. Qed.
Lemma seen_decided o b : keeps (approval_decided cfg gate env uuid o b).
Proof. unfold approval_decided, skip_current, transition_to. co_frame Hf. Qed.
Lemma seen_failed o e : keeps (preexecution_failed_if_safe cfg gate env uuid others cancelled describe o e).
Proof. unfold preexecution_failed_if_safe, with_run_lock, co_wait, from_state. co_frame Hf. Qed.
Lemma seen_request o ask : (∀ i j, f (Asked i j) = false) → keeps (request_approval others binding o ask).
Proof. intros Hq. unfold request_approval, the_binding. co_frame Hf. Qed.

(** The execution of an operation asks nobody. *)
Lemma seen_loop body manage fuel : (∀ i d, f (Called i d) = false) → ∀ o,
  keeps (attempts_loop cfg gate env uuid expires others cancelled describe body fuel o manage).
Proof.
  intros Hc. induction fuel as [|fuel IH]; intros o; cbn [attempts_loop]; [apply co_keeps_raise|].
  unfold start_attempt, call_body, complete, record_uncertain_or_failed, retry_or_report, report_failure, with_run_lock, co_wait,
    from_state, transition_to.
  co_frame Hf; apply IH.
Qed.
Lemma seen_execute body fuel o manage : (∀ i d, f (Called i d) = false) →
  keeps (DurableTools.execute cfg gate env uuid expires others cancelled describe body admission draining fuel o manage).
Proof.
  intros Hc. unfold DurableTools.execute, transition_to. co_frame Hf; try (by apply seen_loop); apply seen_skip.
Qed.
End methods.

(** ** The gate *)

(** Somebody said yes. *)
Definition approved (context : ToolContext) : Prop := ∃ ask n, tx_approval context = Some ask ∧ ask n = inr true.

(** What stands between the request and the body. *)
Definition passed (rg : Registry) (name : string) (context : ToolContext) (approval : bool) : Prop :=
  match tx_authorization context with
  | Some auth => extension_denial rg name auth = Ok None
  | None => approval = true → approved context
  end.

Lemma blind_body : blind is_body.
Proof. by intros db. Qed.
Lemma blind_question : blind is_question.
Proof. by intros db. Qed.

Section gate.
Context (cfg : Config) (cc : CoordinatorConfig).
Context (gate : nat → res unit) (env : nat → Env) (uuid : nat → nat → string) (expires : nat → string).
Context (others : nat → Db → Db) (cancelled : nat → option string) (describe : pyerr → string).
Context (binding : option DurableRunBinding) (admission : nat → res unit) (draining : nat → bool).
Context (model_validate : ArgumentModel → Args → ToolError + Args).

Lemma request_spec b o ask :
  co_spec (λ s, bodies s = b) (request_approval others binding o ask)
    (λ yes s, bodies s = b ∧ (yes = true → ∃ f n, ask = Some f ∧ f n = inr true)) (λ _ s, bodies s = b).
Proof.
  unfold request_approval. destruct ask as [f|]; [|by apply co_spec_ret].
  eapply co_spec_bind; [apply (co_keeps_lift (λ s, bodies s = b))|]. intros bd.
  destruct (negb _); [by apply co_spec_raise|].
  eapply co_spec_bind; [apply (co_keeps_read (λ s, bodies s = b))|]. intros at_.
  eapply co_spec_bind; [apply (co_keeps_task (λ s, bodies s = b))|]. intros outer.
  eapply co_spec_bind; [apply (seen_context is_body b)|]. intros u1.
  eapply co_spec_bind; [by apply (seen_see is_body b)|]. intros u2.
  eapply co_spec_bind; [apply (co_keeps_task (λ s, bodies s = b))|]. intros n.
  eapply co_spec_bind; [apply (seen_others others is_body b)|]. intros u3.
  eapply co_spec_bind; [apply (seen_context is_body b)|]. intros u4.
  destruct (f n) as [e|yes] eqn:E; [by apply co_spec_raise|]. apply co_spec_ret. intros s Hs. split; [done|].
  intros ->. by exists f, n.
Qed.

Lemma approval_spec b name context operation :
  co_spec (λ s, bodies s = b) (get_approval cfg gate env uuid others binding name context operation)
    (λ p s, bodies s = b ∧ (p.1 = true → tx_authorization context = None → approved context)) (λ _ s, bodies s = b).
Proof.
  unfold get_approval. destruct (tx_authorization context) as [auth|]; [by apply co_spec_ret|]. destruct operation as [o|].
  - eapply co_spec_bind; [apply (seen_waiting _ _ _ _ is_body blind_body b)|]. intros u.
    eapply co_spec_bind; [apply (request_spec b)|]. intros yes. apply co_spec_pure. intros Hy.
    eapply co_spec_bind; [apply (seen_decided _ _ _ _ is_body blind_body b)|]. intros d. apply co_spec_ret. intros s Hs.
    split; [done|]. intros E _. cbn in E. destruct (Hy E) as (f & n & Hf). by exists f, n.
  - unfold ask_directly. destruct (tx_approval context) as [f|] eqn:Ea.
    + eapply (co_spec_bind _ _ _ (λ yes s, bodies s = b ∧ (yes = true → approved context))).
      * eapply co_spec_bind; [by apply (seen_see is_body b)|]. intros u.
        eapply co_spec_bind; [apply (co_keeps_task (λ s, bodies s = b))|]. intros n.
        eapply co_spec_bind; [apply (seen_others others is_body b)|]. intros u'.
        unfold co_sum. destruct (f n) as [e|yes] eqn:E; [by apply co_spec_raise|]. apply co_spec_ret. intros s Hs.
        split; [done|]. intros ->. by exists f, n.
      * intros yes. apply co_spec_ret. intros s [Hs Hy]. by split; [|intros E _; apply Hy].
    + by apply co_spec_ret.
Qed.

Lemma extension_spec b rg name context operation :
  co_spec (λ s, bodies s = b) (check_extension cfg gate env uuid rg name context operation)
    (λ _ s, bodies s = b ∧ ∀ auth, tx_authorization context = Some auth → extension_denial rg name auth = Ok None)
    (λ _ s, bodies s = b).
Proof.
  unfold check_extension. destruct (tx_authorization context) as [auth|]; cbn.
  - unfold co_lift, co_read. destruct (extension_denial rg name auth) as [[reason|]|e] eqn:E.
    + apply (co_spec_bind _ _ _ (λ d s, bodies s = b ∧ d = Some reason)); [by intros s Hs|].
      intros d. apply co_spec_pure. intros ->.
      eapply (co_spec_bind _ _ _ (λ _ s, bodies s = b)); [|intros u; by apply co_spec_raise].
      destruct operation as [o|]; [|by apply co_spec_ret].
      eapply (co_spec_bind _ _ _ (λ _ s, bodies s = b)); [apply (seen_skip _ _ _ _ is_body blind_body b)|].
      intros x. by apply co_spec_ret.
    + intros s Hs. cbn. split; [done|]. by intros ? [= <-].
    + by intros s Hs.
  - intros s Hs. by split.
Qed.

Lemma gated_spec b fuel rg tool name args approval context operation :
  let ended := λ s, bodies s = b ∨ passed rg name context approval in
  co_spec (λ s, bodies s = b)
    (gated_call cfg gate env uuid expires others cancelled describe binding admission draining fuel rg tool name args approval
       context operation)
    (λ _, ended) (λ _, ended).
Proof.
  intros ended. unfold gated_call.
  eapply co_spec_bind; [eapply co_spec_error; [apply (extension_spec b)|intros e s; by left]|]. intros u. apply co_spec_pure. intros Hx.
  eapply (co_spec_bind _ _ _ (λ a s, bodies s = b ∧ (a = None → passed rg name context approval))).
  - destruct approval.
    + eapply co_spec_bind; [eapply co_spec_error; [by apply (approval_spec b)|intros e s; by left]|]. intros [yes d].
      apply co_spec_pure. cbn. intros Hy. destruct yes.
      * apply co_spec_ret. intros s Hs. split; [done|]. intros _. unfold passed.
        destruct (tx_authorization context) as [auth|]; [by apply Hx|by auto].
      * destruct d as [d|]; [by apply co_spec_ret|]. apply co_spec_raise. by left.
    + apply co_spec_ret. intros s Hs. split; [done|]. intros _. unfold passed.
      destruct (tx_authorization context) as [auth|]; [by apply Hx|done].
  - intros [d|].
    + apply co_spec_ret. intros s [Hs _]. by left.
    + apply co_spec_pure. intros Hp. specialize (Hp eq_refl). apply co_spec_true; by right.
Qed.
End gate.

(** ** Schemas *)

Lemma depth_field k j d : dict_get k d = Some j → (S (json_depth j) ≤ json_depth (JObj d))%nat.
Proof.
  cbn. induction d as [|[k' v] d IH]; [done|]. cbn. destruct (decide (k = k')); [intros [= ->]; lia|]. intros H%IH. lia.
Qed.
Lemma depth_member k j d : (k, j) ∈ d → (S (json_depth j) ≤ json_depth (JObj d))%nat.
Proof.
  cbn. induction d as [|[k' v] d IH]; intros H; [by apply not_elem_of_nil in H|].
  apply elem_of_cons in H as [[= <- <-]|Hin%IH]; cbn; lia.
Qed.

Lemma mapM_ext_in {A B} (f g : A → res B) l : (∀ x, x ∈ l → f x = g x) → mapM f l = mapM g l.
Proof.
  induction l as [|x l IH]; [done|]. intros H. cbn. rewrite (H x) by left. rewrite IH; [done|]. intros y Hy. apply H. by right.
Qed.

Lemma object_model_ext cm f g properties required :
  (∀ k d, (k, JObj d) ∈ properties → f d = g d) →
  build_object_model_ cm f properties required = build_object_model_ cm g properties required.
Proof.
  intros H. unfold build_object_model_. destruct (forallb _ _); [|done]. cbn.
  rewrite (mapM_ext_in _ (λ kv : string * json, match kv.2 with
    | JObj definition => a ← g definition; mret (kv.1, (a, bool_decide (kv.1 ∈ required)))
    | _ => Err (ValueError "the definition of a field must be an object") end)); [done|].
  intros [k v] Hin. cbn. destruct v; try done. by rewrite (H _ _ Hin).
Qed.

Lemma schema_fuel cm n : ∀ m d, (json_depth (JObj d) ≤ n)%nat → (n ≤ m)%nat → schema_type cm m d = schema_type cm n d.
Proof.
  induction n as [|n IH]; intros m d Hd Hm; [cbn in Hd; lia|]. destruct m as [|m]; [lia|].
  assert (∀ k x, dict_get k d = Some (JObj x) → schema_type cm m x = schema_type cm n x) as Hk.
  { intros k x Hx%depth_field. apply IH; lia. }
  cbn [schema_type]. destruct (dict_get "type" d) as [[]|] eqn:Et; try done.
  assert (schema_type cm m [] = schema_type cm n []) as H0 by (apply depth_field in Et; apply IH; cbn in *; lia).
  repeat case_bool_decide; try done.
  - destruct (dict_get "items" d) as [j|] eqn:Ei; cbn [default from_option id]; [|by rewrite H0].
    destruct j; try done. by rewrite (Hk _ _ Ei).
  - destruct (dict_get "properties" d) as [[]|] eqn:Ep; try done.
    destruct (default _ _); try done. destruct (str_items _); [|done].
    rewrite (object_model_ext cm (schema_type cm m) (schema_type cm n)); [done|].
    intros k x Hin%depth_member. apply depth_field in Ep. apply IH; lia.
Qed.

(** ** Registries *)

(** Names are the names of the tools, each once, with a risk the registry
    knows. *)
Definition registry_ok (rg : Registry) : Prop :=
  NoDup (rg_tools rg).*1 ∧ ∀ k t, (k, t) ∈ rg_tools rg → k = tl_name t ∧ tl_risk t ∈ "dynamic" :: STATIC_RISKS.

Lemma find_none {A} (l : list (string * A)) n : List.find (λ kv, bool_decide (kv.1 = n)) l = None → n ∉ l.*1.
Proof.
  intros H Hin. apply list_elem_of_fmap in Hin as (kv & -> & Hin).
  pose proof (find_none _ _ H kv (proj1 (list_elem_of_In _ _) Hin)) as Hn. cbn in Hn.
  by rewrite bool_decide_true in Hn.
Qed.

Lemma register_ok cm t rg r rg' : register cm t rg = (r, rg') → registry_ok rg →
  registry_ok rg' ∧ (r = Ok tt → rg_tools rg' = rg_tools rg ++ [(tl_name t, t)]).
Proof.
  intros H R. unfold register in H. destruct (rg_frozen rg); [injection H as <- <-; by split|].
  destruct (tool_of rg (tl_name t)) eqn:Ht; [injection H as <- <-; by split|]. cbn [is_some] in H.
  destruct (negb _) eqn:Hr; [injection H as <- <-; by split|].
  destruct (_ && _); [injection H as <- <-; by split|]. apply negb_false_iff, bool_decide_eq_true in Hr.
  assert (∀ ms, registry_ok ((rg ⟪ rg_tools := rg_tools rg ++ [(tl_name t, t)] ⟫) ⟪ rg_models := ms ⟫)) as Hok.
  { intros ms. destruct R as [Hn Hk]. split; cbn.
    - rewrite fmap_app. apply NoDup_app. split; [done|]. split; [|apply NoDup_singleton].
      intros x Hx ->%list_elem_of_singleton. revert Hx. apply find_none. unfold tool_of, find_tool in Ht.
      by destruct (List.find _ _).
    - intros k u [Hin|Hin]%elem_of_app; [by apply Hk|]. apply list_elem_of_singleton in Hin as [= -> ->]. done. }
  destruct (build_argument_model _ _); injection H as <- <-; split; try done.
  - apply Hok.
  - apply (Hok (rg_models rg)).
Qed.

Lemma register_all_ok cm l : ∀ rg rg', register_all cm l rg = Ok rg' → registry_ok rg →
  registry_ok rg' ∧ rg_tools rg' = rg_tools rg ++ map (λ t, (tl_name t, t)) l.
Proof.
  induction l as [|t l IH]; intros rg rg' H R; cbn in H.
  - injection H as <-. by rewrite app_nil_r.
  - destruct (register cm t rg) as [[[]|e] rg1] eqn:E; [|done]. destruct (register_ok _ _ _ _ _ E R) as [R1 E1].
    destruct (IH _ _ H R1) as [R2 E2]. split; [done|]. rewrite E2, (E1 eq_refl), <- app_assoc. done.
Qed.

Lemma new_registry_ok cm l rg : new_registry cm l = Ok rg → registry_ok rg ∧ rg_tools rg = map (λ t, (tl_name t, t)) l.
Proof. intros H. refine (register_all_ok _ _ _ _ H _). split; [constructor|]. intros k t Hin. by apply not_elem_of_nil in Hin. Qed.

Lemma tool_of_in rg n t : tool_of rg n = Some t → (n, t) ∈ rg_tools rg.
Proof.
  unfold tool_of, find_tool. intros ([k u] & H & E)%fmap_Some. apply find_some in H as [Hin E']. cbn in *.
  apply bool_decide_eq_true in E'. subst. by apply list_elem_of_In.
Qed.
Lemma in_tool_of rg n t : registry_ok rg → (n, t) ∈ rg_tools rg → tool_of rg n = Some t.
Proof.
  intros [Hn _] Hin. unfold tool_of, find_tool. induction (rg_tools rg) as [|[k u] l IH]; [by apply not_elem_of_nil in Hin|].
  cbn in *. apply NoDup_cons in Hn as [Hk Hn]. apply elem_of_cons in Hin as [[= <- <-]|Hin]; [by rewrite bool_decide_true|].
  rewrite bool_decide_false; [by apply IH|]. intros ->. apply Hk. apply list_elem_of_fmap. by exists (n, t).
Qed.

(** The tools chosen so far. *)
Definition choosable (rg : Registry) (ns : list string) (t : AsyncTool) : Prop :=
  tl_name t ∈ ns ∧ tl_name t ∉ NOT_FOR_SUBAGENTS ∧ tl_delegatable t ≠ Some false ∧ tool_of rg (tl_name t) = Some t.
Lemma select_all_ok rg ns : registry_ok rg → ∀ done_ todo chosen l,
  ns = done_ ++ todo → select_all rg chosen todo = Ok l → (∀ t, t ∈ chosen → choosable rg ns t) → ∀ t, t ∈ l → choosable rg ns t.
Proof.
  intros R done_ todo. revert done_. induction todo as [|n todo IH]; intros done_ chosen l E H Hc; cbn in H; [by injection H as <-|].
  destruct (select_one rg chosen n) as [c|e] eqn:Es; [|done]. cbn in H.
  apply (IH (done_ ++ [n]) c l); [by rewrite <- app_assoc|exact H|].
  unfold select_one in Es. case_bool_decide as Hf; [done|]. destruct (tool_of rg n) as [t|] eqn:Ht; [|done].
  destruct (default true (tl_delegatable t)) eqn:Hd; [|done]. cbn in Es. injection Es as <-.
  destruct R as [_ Hk]. destruct (Hk _ _ (tool_of_in _ _ _ Ht)) as [En _].
  assert (choosable rg ns t) as Ct.
  { unfold choosable. rewrite <- En. split_and!; [rewrite E; set_solver|done| |done]. intros Ef. by rewrite Ef in Hd. }
  intros u Hu. case_bool_decide; [by apply Hc|]. apply elem_of_app in Hu as [Hu|Hu]; [by apply Hc|].
  by apply list_elem_of_singleton in Hu as ->.
Qed.

(** ** Claims *)

Lemma admitted_ok mv rg name args context tool a approval :
  admitted mv rg name args context = inr (tool, a, approval) →
  tool_of rg name = Some tool ∧ is_available rg name (Some context) = Ok true ∧
  preflight mv rg tool name args context = inr a ∧
  ∃ risk, resolved_risk tool a = inr risk ∧ needs_approval tool risk a context = inr approval.
Proof.
  unfold admitted. destruct (tool_of rg name) as [t|]; [|discriminate].
  destruct (is_available rg name (Some context)) as [[]|]; try (case_bool_decide; discriminate); try discriminate.
  destruct (preflight _ _ _ _ _ _) as [e|x] eqn:Ep; [discriminate|].
  destruct (resolved_risk t x) as [e|r] eqn:Er; [discriminate|].
  destruct (needs_approval t r x context) as [e|b] eqn:En; [discriminate|]. intros [= -> -> ->]. eauto 6.
Qed.

Lemma snapshot_tool rg name tool :
  tool_of rg name = Some tool → dict_get name (contract_snapshot rg) = Some (contract tool).
Proof.
  unfold tool_of, find_tool. intros Ht. unfold contract_snapshot. induction (rg_tools rg) as [|[k u] l IH]; [discriminate Ht|].
  cbn in *. destruct (decide (name = k)) as [->|Hne].
  - rewrite bool_decide_true in Ht by reflexivity. by injection Ht as ->.
  - rewrite bool_decide_false in Ht by congruence. by apply IH.
Qed.

(** What an extension must hold. *)
Lemma extension_denial_none rg name tool a :
  registry_ok rg → tool_of rg name = Some tool → extension_denial rg name a = Ok None →
  name ∈ ea_allowed_tools a ∧ tl_extension_preapproval tool = Some true ∧
  (name, sha256_hex (json_dumps (contract tool))) ∈ ea_tool_contract_hashes a.
Proof.
  intros R Ht H. unfold extension_denial, granted_hash in H. case_bool_decide as Ha; [|discriminate H]. cbn in H.
  unfold extension_preapproval_allowed, tool_contract_hash in H. rewrite Ht in H. cbn in H.
  pose proof (snapshot_tool _ _ _ Ht) as E.
  rewrite E in H. generalize dependent (sha256_hex (json_dumps (contract tool))). intros h H. cbn in H.
  destruct (tl_extension_preapproval tool) as [[]|]; cbn in H; try discriminate H.
  case_bool_decide as Hh; [|discriminate H]. split; [done|]. split; [done|].
  apply fmap_Some in Hh as ([k v] & Hf & ->). apply find_some in Hf as [Hin Hk]. cbn in *.
  apply bool_decide_eq_true in Hk. subst k. by apply list_elem_of_In.
Qed.

Lemma names_keys rg c name : name ∈ names rg c → name ∈ (rg_tools rg).*1.
Proof. unfold names. rewrite !list_elem_of_In, filter_In. by intros [H _]. Qed.
Lemma names_nodup rg c : NoDup (rg_tools rg).*1 → NoDup (names rg c).
Proof. unfold names. rewrite !NoDup_ListNoDup. apply List.NoDup_filter. Qed.
Lemma tool_names rg name t : tool_of rg name = Some t → name ∈ names rg None.
Proof.
  intros H. unfold names. rewrite list_elem_of_In, filter_In. unfold is_available. rewrite H. split; [|done].
  apply list_elem_of_In, list_elem_of_fmap. exists (name, t). split; [done|]. by apply tool_of_in.
Qed.

(** *** The two copies *)

Lemma preflight_agree mv rg tool name args context :
  prepared_preflight mv rg tool name args context = preflight mv rg tool name args context.
Proof.
  unfold prepared_preflight, preflight. destruct (prepare_arguments tool args) as [e|a]; [done|].
  destruct (validate mv rg name a) as [e|a']; [done|]. by destruct (tl_ensure_available tool).
Qed.

Lemma approval_agree tool risk a context :
  prepared_approval_required tool risk a context = needs_approval tool risk a context.
Proof.
  unfold prepared_approval_required, needs_approval. case_bool_decide; cbn.
  - done.
  - destruct (tl_approval_required tool) as [f|]; [|done]. by destruct (f a context).
Qed.

Lemma denial_agree rg name auth : prepared_denial rg name auth = extension_denial rg name auth.
Proof.
  unfold prepared_denial, extension_denial. case_bool_decide; [|done]. cbn.
  destruct (extension_preapproval_allowed rg name) as [[]|e]; [|done|done]. cbn [mbind res_bind negb].
  destruct (tool_contract_hash rg name) as [h|e]; [|done]. cbn. by case_bool_decide.
Qed.

Lemma runtime_allowed_ok rg name tool context :
  tool_of rg name = Some tool → is_ok (runtime_allowed rg name context) = true.
Proof.
  intros Ht. unfold runtime_allowed. destruct (tx_authorization context); [|done]. case_bool_decide; [|done].
  unfold extension_preapproval_allowed, tool_contract_hash. rewrite Ht, (snapshot_tool _ _ _ Ht). cbn.
  by destruct (default false _).
Qed.

(** The exceptions of the two copies of the checks. *)
Definition same_refusal (rg : Registry) (name : string) (context : ToolContext) (e e' : Exn) : Prop :=
  e' = e ∨
  tool_of rg name = None ∧
    e = Failure (ValueError ("Unknown tool: " +:+ name)) ∧ e' = Failure (ValueError ("未知工具：" +:+ name)) ∨
  name = "bash" ∧ tx_bash context = false ∧ ∃ t t', e = Failure (BashUnavailableError t) ∧ e' = Failure (BashUnavailableError t').

Lemma refusals_agree mv rg name args context id e :
  prepare_invocation mv rg name args context id = inl e →
  ∃ e', admitted mv rg name args context = inl e' ∧ same_refusal rg name context e e'.
Proof.
  unfold prepare_invocation, admitted, same_refusal. destruct (tool_of rg name) as [tool|] eqn:Ht.
  2: { intros [= <-]. eexists. split; [done|]. right. by left. }
  destruct (is_available rg name (Some context)) as [[]|x] eqn:Hav.
  - rewrite preflight_agree. destruct (preflight _ _ _ _ _ _) as [x|a]; [intros [= <-]; eauto|].
    destruct (resolved_risk tool a) as [x|risk]; [intros [= <-]; eauto|].
    rewrite approval_agree. destruct (needs_approval tool risk a context) as [x|b]; [intros [= <-]; eauto|].
    pose proof (runtime_allowed_ok _ _ _ context Ht) as Hr. by destruct (runtime_allowed rg name context).
  - intros [= <-]. case_bool_decide as Hb; [|by eauto]. eexists. split; [done|]. right. right. split; [done|].
    split; [|by eauto]. unfold is_available in Hav. rewrite Ht in Hav. cbn in Hav.
    rewrite bool_decide_true in Hav by done. by injection Hav.
  - intros [= <-]. by eauto.
Qed.

Lemma prepared_admitted mv rg name args context id p :
  prepare_invocation mv rg name args context id = inr p →
  admitted mv rg name args context = inr (pi_tool p, pi_arguments p, pi_approval_required p) ∧
  resolved_risk (pi_tool p) (pi_arguments p) = inr (pi_risk p) ∧ pi_name p = name ∧ pi_tool_call_id p = id.
Proof.
  unfold prepare_invocation, admitted. destruct (tool_of rg name) as [tool|]; [|done].
  destruct (is_available rg name (Some context)) as [[]|x]; [|done|done].
  rewrite preflight_agree. destruct (preflight _ _ _ _ _ _) as [x|a]; [done|].
  destruct (resolved_risk tool a) as [x|risk] eqn:Hr; [done|].
  rewrite approval_agree. destruct (needs_approval tool risk a context) as [x|b]; [done|].
  destruct (runtime_allowed rg name context); [|done]. by intros [= <-].
Qed.

Lemma co_some_bind {A B} (m : Co A) (k : option A → Co B) s :
  ((o ← m; mret (Some o)) ≫= k) s = match m s with (Done o, s1) => k (Some o) s1 | (Raised e, s1) => (Raised e, s1) end.
Proof. unfold mbind, co_bind, mret, co_ret. by destruct (m s) as [[]]. Qed.

Section claims.
Context (cfg : Config) (cc : CoordinatorConfig).
Context (gate : nat → res unit) (env : nat → Env) (uuid : nat → nat → string) (expires : nat → string).
Context (others : nat → Db → Db) (cancelled : nat → option string) (describe : pyerr → string).
Context (binding : option DurableRunBinding) (admission : nat → res unit) (draining : nat → bool).
Context (model_validate : ArgumentModel → Args → ToolError + Args).

Notation call := (execute cfg cc gate env uuid expires others cancelled describe binding admission draining model_validate).
Notation call_prepared := (execute_prepared cfg cc gate env uuid expires others cancelled describe binding admission draining).
Notation prepare_call := (prepare_invocation model_validate).

Lemma call_spec b fuel rg name args context id :
  co_spec (λ s, bodies s = b) (call fuel rg name args context id)
    (λ _ s, bodies s = b ∨ ∃ tool a approval,
       admitted model_validate rg name args context = inr (tool, a, approval) ∧ passed rg name context approval)
    (λ _ s, bodies s = b ∨ ∃ tool a approval,
       admitted model_validate rg name args context = inr (tool, a, approval) ∧ passed rg name context approval).
Proof.
  unfold execute. destruct (admitted _ _ _ _ _) as [e|[[tool a] approval]] eqn:Ha; [apply co_spec_raise; intros s Hs; by left|].
  cbn [co_sum]. apply co_spec_given. cbv beta iota. eapply (co_spec_bind _ _ _ (λ _ s, bodies s = b)).
  { destruct (tx_durable context); [|by apply co_spec_ret].
    apply (co_spec_error (λ s, bodies s = b) (λ _ s, bodies s = b) (λ _ s, bodies s = b)); [|intros e s H; by left].
    destruct (resolved_risk tool a) as [e|risk]; [by apply co_spec_raise|]. change (co_sum (inr risk)) with (mret (M := Co) risk).
    change (mbind ?k (mret risk)) with (k risk). cbv beta.
    eapply (co_spec_bind _ _ _ (λ _ s, bodies s = b)); [apply (seen_prepare _ _ _ _ _ _ is_body blind_body b)|].
    intros o. by apply co_spec_ret. }
  intros operation.
  eapply (co_spec_weaken (λ s, bodies s = b) _ (λ _ s, bodies s = b ∨ passed rg name context approval) _
            (λ _ s, bodies s = b ∨ passed rg name context approval)); [|done| |].
  2,3: intros x s [H|H]; [by left|right; by exists tool, a, approval].
  eapply co_spec_except; [apply (gated_spec _ _ _ _ _ _ _ _ _ _ _ b)|]. intros e s [Hs|Hp].
  - unfold on_failure. destruct (tx_durable context); [|by left].
    pose proof (seen_failed cfg gate env uuid others cancelled describe is_body blind_body b operation e s Hs) as K.
    destruct (preexecution_failed_if_safe _ _ _ _ _ _ _ _ _ s) as [[[]|e'] s']; by left.
  - destruct (on_failure _ _ _ _ _ _ _ _ _ _ s) as [[[]|e'] s']; by right.
Qed.

Lemma call_silent q fuel rg name args context id auth :
  tx_authorization context = Some auth → co_keeps (λ s, questions s = q) (call fuel rg name args context id).
Proof.
  intros Hx. unfold execute. destruct (admitted _ _ _ _ _) as [e|[[tool a] approval]]; [by apply co_spec_raise|].
  cbn [co_sum]. apply co_spec_given. cbv beta iota. eapply (co_spec_bind _ _ _ (λ _ s, questions s = q)).
  { destruct (tx_durable context); [|by apply co_spec_ret].
    destruct (resolved_risk tool a) as [e|risk]; [by apply co_spec_raise|]. change (co_sum (inr risk)) with (mret (M := Co) risk).
    change (mbind ?k (mret risk)) with (k risk). cbv beta.
    eapply (co_spec_bind _ _ _ (λ _ s, questions s = q)); [apply (seen_prepare _ _ _ _ _ _ is_question blind_question q)|].
    intros o. by apply co_spec_ret. }
  intros operation. apply co_keeps_except.
  - unfold gated_call, check_extension, get_approval, run_directly. rewrite Hx.
    apply co_keeps_bind; [|intros u; apply co_keeps_bind; [|intros [d|]]].
    + apply co_keeps_bind; [apply co_keeps_lift|]. intros [reason|]; [|apply co_keeps_ret].
      apply co_keeps_bind; [|intros v; apply co_keeps_raise].
      destruct operation; [|apply co_keeps_ret]. apply co_keeps_bind; [|intros v; apply co_keeps_ret].
      apply (seen_skip _ _ _ _ is_question blind_question q).
    + destruct approval; [|apply co_keeps_ret]. apply co_keeps_bind; [apply co_keeps_ret|]. intros [[] [d|]].
      all: first [apply co_keeps_ret|apply co_keeps_raise].
    + apply co_keeps_ret.
    + destruct operation as [o|]; [by apply (seen_execute _ _ _ _ _ _ _ _ _ _ is_question blind_question q)|].
      apply co_keeps_bind; [by apply (seen_see is_question q)|]. intros v. apply co_keeps_bind; [apply co_keeps_task|]. intros n.
      apply co_keeps_bind; [apply (seen_others others is_question q)|]. intros v'. destruct (tl_run tool a n).
      all: first [apply co_keeps_ret|apply co_keeps_raise].
  - intros e. unfold on_failure. destruct (tx_durable context); [|apply co_keeps_ret].
    apply (seen_failed _ _ _ _ _ _ _ is_question blind_question q).
Qed.

(** C31: a call runs the body of a tool only when the tool is
    registered and available and its arguments passed the checks; for an
    extension only when its authorization names the tool, the tool allows it,
    and the contract hash it was granted for is the hash of the contract now;
    for anybody else only when the risk is read, the tool needs no approval for
    these arguments, or a human said yes.  An extension never makes a human be
    asked. *)
Theorem tool_gate fuel rg name args context id s x s' :
  registry_ok rg → call fuel rg name args context id s = (x, s') →
  (bodies s' ≠ bodies s → ∃ tool a risk approval,
     tool_of rg name = Some tool ∧ is_available rg name (Some context) = Ok true ∧
     preflight model_validate rg tool name args context = inr a ∧ resolved_risk tool a = inr risk ∧
     needs_approval tool risk a context = inr approval ∧
     match tx_authorization context with
     | Some auth => name ∈ ea_allowed_tools auth ∧ tl_extension_preapproval tool = Some true ∧
         (name, sha256_hex (json_dumps (contract tool))) ∈ ea_tool_contract_hashes auth
     | None => approval = false ∨ ∃ ask n, tx_approval context = Some ask ∧ ask n = inr true
     end) ∧
  (is_some (tx_authorization context) = true → questions s' = questions s).
Proof.
  intros R H. split.
  - intros Hb. pose proof (call_spec (bodies s) fuel rg name args context id s eq_refl) as E. rewrite H in E.
    assert (bodies s' = bodies s ∨ ∃ tool a approval,
      admitted model_validate rg name args context = inr (tool, a, approval) ∧ passed rg name context approval) as [|G]
      by (destruct x; exact E); [done|].
    destruct G as (tool & a & approval & Ha & Hp). destruct (admitted_ok _ _ _ _ _ _ _ _ Ha) as (Ht & Hav & Hpf & risk & Hr & Hn).
    exists tool, a, risk, approval. split_and!; try assumption. unfold passed in Hp.
    destruct (tx_authorization context) as [auth|]; [by apply (extension_denial_none rg)|].
    destruct approval; [right; by apply Hp|by left].
  - destruct (tx_authorization context) as [auth|] eqn:Ea; [|discriminate]. intros _.
    pose proof (call_silent (questions s) fuel rg name args context id auth Ea s eq_refl) as E. rewrite H in E. by destruct x.
Qed.

Notation gated := (gated_call cfg gate env uuid expires others cancelled describe binding admission draining).
Notation body := (prepared_body cfg gate env uuid expires others cancelled describe binding admission draining).

(** Behind the checks the two copies do the same; execute_prepared then reads
    the attempt back. *)
Lemma body_agrees fuel rg p context operation s :
  body fuel rg p context operation true s =
  (x ← gated fuel rg (pi_tool p) (pi_name p) (pi_arguments p) (pi_approval_required p) context operation;
   with_attempt_id x operation) s.
Proof.
  unfold prepared_body, gated_call, check_extension, get_approval, mbind, co_bind, mret, co_ret, co_lift, co_read, co_raise.
  destruct (tx_authorization context) as [auth|].
  - rewrite denial_agree. destruct (extension_denial rg (pi_name p) auth) as [[reason|]|e]; [|..|done].
    + destruct operation as [o|]; [|done]. by destruct (skip_denied _ _ _ _ _ _ s) as [[]].
    + destruct (pi_approval_required p), operation as [o|]; try (by destruct (run_directly _ _ _ _) as [[]]).
      all: by destruct (DurableTools.execute _ _ _ _ _ _ _ _ _ _ _ _ _ _ s) as [[]].
  - destruct (pi_approval_required p).
    + destruct operation as [o|].
      * destruct (waiting_human _ _ _ _ _ s) as [[u|e] s1]; [|done].
        destruct (request_approval _ _ _ _ s1) as [[yes|e] s2]; [|done].
        destruct (approval_decided _ _ _ _ _ _ s2) as [[denied|e] s3]; [|done].
        destruct yes, denied as [denied|]; try done.
        all: by destruct (DurableTools.execute _ _ _ _ _ _ _ _ _ _ _ _ _ _ s3) as [[]].
      * destruct (ask_directly _ _ _ s) as [[[]|e] s1]; [|done..]. by destruct (run_directly _ _ _ s1) as [[]].
    + destruct operation as [o|]; [by destruct (DurableTools.execute _ _ _ _ _ _ _ _ _ _ _ _ _ _ s) as [[]]|].
      by destruct (run_directly _ _ _ s) as [[]].
Qed.

(** What is raised or answered after the operation was prepared. *)
Lemma operation_agrees fuel rg p context operation s :
  let run := co_except (gated fuel rg (pi_tool p) (pi_name p) (pi_arguments p) (pi_approval_required p) context operation)
               (on_failure cfg gate env uuid others cancelled describe context operation) in
  let run' := match body fuel rg p context operation true s with
              | (Done x, s2) => (Done x, no_ids, s2)
              | (Raised e, s2) =>
                  match on_failure cfg gate env uuid others cancelled describe context operation e s2 with
                  | (Done _, s3) => (Raised e, exception_ids operation (tk_db s2), s3)
                  | (Raised e', s3) => (Raised e', no_ids, s3)
                  end
              end in
  match run s with
  | (Raised e, s') => ∃ ids, run' = (Raised e, ids, s') ∧ (ids = no_ids ∨ ∃ db, ids = exception_ids operation db)
  | (Done x, s') =>
      match operation with
      | None => run' = (Done (mkToolExecutionResult x None None), no_ids, s')
      | Some o =>
          match current_attempt_in (op_operation_id o) (tk_db s') with
          | Ok a => run' = (Done (mkToolExecutionResult x (Some (op_operation_id o)) (Some (at_attempt_id a))), no_ids, s')
          | Err _ => ∃ y ids s'', run' = (Raised y, ids, s'')
          end
      end
  end.
Proof.
  intros run run'. unfold run, run', co_except. rewrite body_agrees. unfold mbind, co_bind.
  destruct (gated _ _ _ _ _ _ _ _ s) as [[x|e] s1].
  - unfold with_attempt_id, mbind, co_bind, mret, co_ret, co_read.
    destruct operation as [o|]; [|done].
    destruct (current_attempt_in (op_operation_id o) (tk_db s1)) as [at_|e] eqn:E; [done|].
    destruct (on_failure _ _ _ _ _ _ _ _ _ _ s1) as [[u|e'] s2]; eauto.
  - destruct (on_failure _ _ _ _ _ _ _ _ _ _ s1) as [[u|e'] s2]; eexists; (split; [done|]); [by right; eexists|by left].
Qed.

(** The operation that the ledger prepares for the call. *)
Notation prepares p context :=
  (prepare cfg cc gate env uuid binding (tl_idempotency (pi_tool p)) (pi_name p) (pi_arguments p) (pi_risk p)
     (tx_workspace_root context) (pi_tool_call_id p) None None).

(** C32: the two ways to call a tool agree, though the registry has
    its checks, its approval and its refusals twice.  What prepare_invocation
    refuses, execute refuses with the same exception and nothing done; only the
    texts for a name that is not registered and for a bash without a sandbox
    differ.  What prepare_invocation accepts ends through execute_prepared as
    through execute.  An exception is the same in the same store, and those ids
    that execute_prepared writes on it are those of the operation prepared for
    the call.  An answer is the same in the same store, and execute_prepared
    names the operation and its current attempt with it, unless that attempt
    cannot be read back, when execute_prepared raises instead. *)
Theorem prepared_call_agrees fuel rg name args context id s :
  match prepare_call rg name args context (str_or id ("direct_" +:+ name)) with
  | inl e => ∃ e', call fuel rg name args context id s = (Raised e', s) ∧
      (e' = e ∨
       tool_of rg name = None ∧
         e = Failure (ValueError ("Unknown tool: " +:+ name)) ∧ e' = Failure (ValueError ("未知工具：" +:+ name)) ∨
       name = "bash" ∧ tx_bash context = false ∧ ∃ t t', e = Failure (BashUnavailableError t) ∧ e' = Failure (BashUnavailableError t'))
  | inr p =>
      match call fuel rg name args context id s with
      | (Raised e, s') => ∃ ids, call_prepared fuel rg p context None true None None s = (Raised e, ids, s') ∧
          (ids = no_ids ∨ tx_durable context = true ∧
             ∃ o s1 db, prepares p context s = (Done o, s1) ∧ ids = exception_ids (Some o) db)
      | (Done x, s') =>
          if tx_durable context then
            ∃ o s1, prepares p context s = (Done o, s1) ∧
            match current_attempt_in (op_operation_id o) (tk_db s') with
            | Ok a => call_prepared fuel rg p context None true None None s
                      = (Done (mkToolExecutionResult x (Some (op_operation_id o)) (Some (at_attempt_id a))), no_ids, s')
            | Err _ => ∃ y ids s'', call_prepared fuel rg p context None true None None s = (Raised y, ids, s'')
            end
          else call_prepared fuel rg p context None true None None s = (Done (mkToolExecutionResult x None None), no_ids, s')
      end
  end.
Proof.
  destruct (prepare_invocation _ _ _ _ _ _) as [e|p] eqn:Hp.
  { destruct (refusals_agree _ _ _ _ _ _ _ Hp) as (e' & Ha & He). exists e'. split; [|exact He].
    unfold execute. by rewrite Ha. }
  apply prepared_admitted in Hp as (Ha & Hr & Hname & Hid). unfold execute, execute_prepared. rewrite Ha. cbn [co_sum].
  change (mbind ?k (mret ?x)) with (k x). cbv beta iota. rewrite Hr. cbn [co_sum].
  change (mbind ?k (mret ?x)) with (k x). cbv beta iota. rewrite Hname, Hid.
  destruct (tx_durable context) eqn:Hd; unfold on_failure; rewrite Hd.
  - rewrite co_some_bind. unfold mbind, co_bind.
    destruct (prepare _ _ _ _ _ _ _ _ _ _ _ _ _ _ s) as [[o|e] s1]; [|by eexists; split; [|left]].
    pose proof (operation_agrees fuel rg p context (Some o) s1) as K. unfold on_failure in K. rewrite Hd, Hname in K.
    unfold mret, co_ret. cbv zeta in K.
    destruct (co_except _ _ s1) as [[x|e] s']; [by eauto|]. destruct K as (ids & Hi & [->|[db ->]]); eauto 10.
  - pose proof (operation_agrees fuel rg p context None s) as K. unfold on_failure in K. rewrite Hd, Hname in K. cbv zeta in K.
    unfold mbind, co_bind, mret, co_ret.
    destruct (co_except _ _ s) as [[x|e] s']; [exact K|]. destruct K as (ids & Hi & [->|[db ->]]); eauto.
Qed.

(** C33: what a sub-agent gets from select is a subset: every tool in
    it was asked for, is the registered one, may be delegated, and is none of
    the tools that are never given to a sub-agent; and none is there twice. *)
Theorem subagent_tools create_model rg ns rg' :
  registry_ok rg → select create_model rg ns = Ok rg' →
  registry_ok rg' ∧ NoDup (names rg' None) ∧
  ∀ name, name ∈ names rg' None → name ∈ ns ∧ name ∉ NOT_FOR_SUBAGENTS ∧ name ∈ names rg None ∧
    ∃ tool, tool_of rg name = Some tool ∧ tool_of rg' name = Some tool ∧ tl_delegatable tool ≠ Some false.
Proof.
  intros R H. unfold select in H. destruct (select_all rg [] ns) as [l|e] eqn:Es; [|discriminate H]. cbn in H.
  destruct (new_registry_ok _ _ _ H) as [R' E]. split; [done|].
  assert (∀ t, t ∈ l → choosable rg ns t) as Hc.
  { apply (select_all_ok rg ns R [] ns [] l); [done|done|]. intros t Ht. by apply not_elem_of_nil in Ht. }
  split; [apply names_nodup, R'|]. intros name Hn. apply names_keys, list_elem_of_fmap in Hn as ([k t] & -> & Hin). cbn.
  rewrite E in Hin. apply list_elem_of_In, in_map_iff in Hin as (u & [= <- <-] & Hu%list_elem_of_In).
  destruct (Hc u Hu) as (H1 & H2 & H3 & H4). split_and!; try done.
  - by eapply tool_names.
  - exists u. split_and!; try done. apply in_tool_of; [done|]. rewrite E. apply list_elem_of_In, in_map_iff.
    exists u. split; [done|]. by apply list_elem_of_In.
Qed.
End claims.

(** ** Witnesses *)

(** A tool that writes, and one that reads. *)
Definition demo_tool (name risk : string) : AsyncTool :=
  mkAsyncTool name "demo" [("type", JStr "object"); ("properties", JObj [("path", JObj [("type", JStr "string")])]);
                           ("required", JArr [JStr "path"])]
    risk None None None None None None None None None None None (λ _ _, Returned "written").
Definition any_model (l : list string) : res unit := Ok tt.
Definition demo_tools : Registry := match new_registry any_model [demo_tool "edit" "write"; demo_tool "read_file" "read"] with
  | Ok rg => rg | Err _ => mkRegistry [] [] false end.
Lemma demo_tools_ok : new_registry any_model [demo_tool "edit" "write"; demo_tool "read_file" "read"] = Ok demo_tools.
Proof. reflexivity. Qed.

(** A human who agrees, and a Run at THINKING. *)
Definition demo_context : ToolContext := mkToolContext (Some (λ _, inr true)) None true true "/yy/workspace".
Definition thinking_db : Db :=
  default demo_empty (tidy_play 4 [Transition (mkTransitionCommand None (Some ES_THINKING) None None None "demo" None None)] (demo 3)).
Definition demo_call : Answer string * Task :=
  execute demo_cfg (mkCoordinatorConfig 3 0 0) (λ _, Ok tt) (λ n, demo_env (6 + n)) tool_uuid (λ n, demo_time (6 + n))
    (λ _ db, db) (λ _, None) no_error (Some (mkDurableRunBinding "run-1" "turn-1")) (λ _, Ok tt) (λ _, false)
    (λ _ a, inr a) 4 demo_tools "edit" [("path", JStr "notes.md")] demo_context (Some "call-1")
    (mkTask thinking_db 0 [] None None).
Definition one_body (p : Answer string * Task) : bool := answered p.1 && (length (bodies p.2) =? 1)%nat.
Lemma demo_call_checked : one_body demo_call = true.
Proof. vm_cast_no_check (@eq_refl bool true). Qed.

Lemma tool_gate_witness : ∃ s', demo_call = (demo_call.1, s') ∧ length (bodies s') = 1%nat ∧
  ∃ tool, tool_of demo_tools "edit" = Some tool ∧ ∃ ask n, tx_approval demo_context = Some ask ∧ ask n = inr true.
Proof.
  pose proof demo_call_checked as H. unfold one_body in H. apply andb_true_iff in H as [_ Hk%Nat.eqb_eq].
  exists demo_call.2. split; [exact (surjective_pairing demo_call)|]. split; [exact Hk|].
  destruct (proj1 (tool_gate demo_cfg (mkCoordinatorConfig 3 0 0) (λ _, Ok tt) (λ n, demo_env (6 + n)) tool_uuid
    (λ n, demo_time (6 + n)) (λ _ db, db) (λ _, None) no_error (Some (mkDurableRunBinding "run-1" "turn-1")) (λ _, Ok tt)
    (λ _, false) (λ _ a, inr a) 4 demo_tools "edit" [("path", JStr "notes.md")] demo_context (Some "call-1")
    (mkTask thinking_db 0 [] None None) _ _ (proj1 (new_registry_ok _ _ _ demo_tools_ok)) (surjective_pairing demo_call)))
    as (tool & a & risk & approval & Ht & _ & _ & Hr & Hn & Hg).
  - intros E. rewrite E in Hk. discriminate Hk.
  - exists tool. split; [exact Ht|]. destruct Hg as [->|Hg]; [|exact Hg]. exists (λ _, inr true), 0%nat. by split.
Defined.

Lemma subagent_tools_witness : ∃ rg', select any_model demo_tools ["read_file"; "read_file"] = Ok rg' ∧
  names rg' None = ["read_file"] ∧ NoDup (names rg' None).
Proof.
  eexists. split; [reflexivity|]. split; [reflexivity|].
  exact (proj1 (proj2 (subagent_tools any_model demo_tools ["read_file"; "read_file"] _ (proj1 (new_registry_ok _ _ _ demo_tools_ok))
    eq_refl))).
Defined.
