(* ===== verification/ProviderContext.v ===== *)
(** * ProviderContext: the packets that ride along a conversation
    (memory/provider_context.py)

    A packet holds the fragments of context that changed since the last user
    record, with the hash of each and the hash of the query it was made for.
    The fragments in force are found by replaying the packets of a history. *)

From S2P Require Import Prelude PyText PyTime Sanitizer Json AgentState.

#[local] Open Scope Z_scope.

(** A record, as the JSON object of its line. *)
Definition Dict := list (string * json).
Definition Texts := list (string * string).

Definition str_of (k : string) (d : Dict) : option string := match dict_get k d with Some (JStr s) => Some s | _ => None end.
Definition role_of (d : Dict) : string := default "" (str_of "role" d).
(** [str(r.get(k))], of a text or nothing. *)
Definition str_get (k : string) (d : Dict) : string := default "None" (str_of k d).
Definition as_map (l : Texts) : gmap string string := list_to_map l.
Definition objects_of (l : Texts) : json := JObj (map (λ kv, (kv.1, JStr kv.2)) l).

(** [s in text]. *)
Fixpoint has_text (s text : string) : bool :=
  startswith s text || match text with EmptyString => false | String _ rest => has_text s rest end.

(* source: memory/provider_context.py digest *)
Definition digest (text : string) : string := sha256_hex text.

(* source: memory/provider_context.py ProviderContextRecord *)
Record ProviderContextRecord := mkPacket {
  pc_context_epoch : string; pc_query_hash : string; pc_fragments : Texts; pc_fragment_hashes : Texts;
  pc_content_hash : string; pc_origin_refs : Texts
}.

(* source: memory/provider_context.py ProviderContextRecord.compute_hash *)
Definition compute_hash (fragments : Texts) : string := digest (json_dumps (objects_of fragments)).

(* source: memory/provider_context.py ProviderContextRecord.verify *)
Definition verify (p : ProviderContextRecord) : res ProviderContextRecord :=
  if negb (bool_decide (as_map (pc_fragment_hashes p) = digest <$> as_map (pc_fragments p)))
  then Err (ValidationError "Provider context fragment hash mismatch")
  else if negb (bool_decide (pc_content_hash p = compute_hash (pc_fragments p)))
  then Err (ValidationError "Provider context content hash mismatch")
  else Ok p.

(** The value that [create] keeps as it is, or as text. *)
Definition as_text (j : json) : string := match j with JStr s => s | _ => json_dumps j end.

(* source: memory/provider_context.py ProviderContextRecord.create *)
Definition create_packet (query epoch : string) (fragments : Texts) (origin_refs : Dict) : res ProviderContextRecord :=
  verify (mkPacket epoch (digest query) fragments (map (λ kv, (kv.1, digest kv.2)) fragments) (compute_hash fragments)
    (map (λ kv, (kv.1, as_text kv.2)) origin_refs)).

(** [priority.get(name, 0)]. *)
Definition priority (name : string) : Z :=
  if bool_decide (name = "agent") then -80 else if bool_decide (name = "memory") then -70
  else if bool_decide (name = "continuity") then -60 else if bool_decide (name = "harness") then -50 else 0.
Definition rendered_before (a b : string * string) : Prop :=
  priority a.1 < priority b.1 ∨ priority a.1 = priority b.1 ∧ String.leb a.1 b.1 = true.
#[export] Instance rendered_before_dec a b : Decision (rendered_before a b).
Proof. unfold rendered_before. apply _. Defined.

Definition newline : string := str1 (byte_to 10).

(* source: memory/provider_context.py ProviderContextRecord.render *)
Definition render (p : ProviderContextRecord) (query : string) : res string :=
  if negb (bool_decide (digest query = pc_query_hash p)) then Err (ValueError "Provider context belongs to a different user query")
  else match pc_fragments p with
  | [] => Ok query
  | fragments =>
      Ok ("<user_query>" +:+ newline +:+ query +:+ newline +:+ "</user_query>" +:+ newline +:+ newline
          +:+ join (newline +:+ newline) (map snd (merge_sort rendered_before fragments)))
  end.

(** *** A packet as the JSON of a record *)

(** [dict[str, str]]. *)
Definition texts_of (j : json) : option Texts :=
  match j with
  | JObj d => mapM (λ kv, match kv.2 with JStr s => Some (kv.1, s) | _ => None end) d
  | _ => None
  end.
Definition PACKET_FIELDS : list string :=
  ["schema_version"; "context_epoch"; "query_hash"; "fragments"; "fragment_hashes"; "content_hash"; "origin_refs"].

(* source: memory/provider_context.py ProviderContextRecord *)
Definition packet_fields (j : json) : option ProviderContextRecord :=
  match j with
  | JObj d =>
      if negb (forallb (λ kv, bool_decide (kv.1 ∈ PACKET_FIELDS)) d) then None else
      if negb (match dict_get "schema_version" d with None | Some (JInt 1) => true | _ => false end) then None else
      epoch ← str_of "context_epoch" d; query ← str_of "query_hash" d; content ← str_of "content_hash" d;
      fragments ← dict_get "fragments" d ≫= texts_of;
      hashes ← dict_get "fragment_hashes" d ≫= texts_of;
      refs ← match dict_get "origin_refs" d with None => Some [] | Some j => texts_of j end;
      Some (mkPacket epoch query fragments hashes content refs)
  | _ => None
  end.

(** [ProviderContextRecord.model_validate]. *)
(* source: memory/provider_context.py ProviderContextRecord *)
Definition packet_of (j : json) : res ProviderContextRecord :=
  p ← res_of_option (ValidationError "ProviderContextRecord") (packet_fields j); verify p.

(* source: memory/provider_context.py ProviderContextRecord *)
Definition packet_json (p : ProviderContextRecord) : json :=
  JObj [("schema_version", JInt 1); ("context_epoch", JStr (pc_context_epoch p)); ("query_hash", JStr (pc_query_hash p));
        ("fragments", objects_of (pc_fragments p)); ("fragment_hashes", objects_of (pc_fragment_hashes p));
        ("content_hash", JStr (pc_content_hash p)); ("origin_refs", objects_of (pc_origin_refs p))].

(** *** The packets of a history *)

(** [{str(r.get("record_id")): r for r in records if r.get("role") == "user"}]. *)
Definition user_records (records : list Dict) : gmap string Dict :=
  foldl (λ m r, if bool_decide (role_of r = "user") then <[str_get "record_id" r := r]> m else m) ∅ records.

(** Older records hold origin references that are not texts. *)
(* source: memory/provider_context.py:85-93 effective_contexts *)
Definition normalize_origin (raw : json) : json :=
  match raw with
  | JObj d =>
      match dict_get "origin_refs" d with
      | Some (JObj refs) => JObj (dict_set "origin_refs" (JObj (map (λ kv, (kv.1, JStr (as_text kv.2))) refs)) d)
      | _ => raw
      end
  | _ => raw
  end.

Definition target_of (r : Dict) : string :=
  default "None" (opt_str_or (str_of "context_target_record_id" r) (str_of "record_id" r)).

(* source: memory/provider_context.py:77-101 effective_contexts *)
Fixpoint contexts_of (users : gmap string Dict) (result : gmap string ProviderContextRecord) (records : list Dict)
    : res (gmap string ProviderContextRecord) :=
  match records with
  | [] => Ok result
  | r :: rest =>
      match dict_get "provider_context" r with
      | None | Some JNull => contexts_of users result rest
      | Some raw =>
          p ← packet_of (normalize_origin raw);
          user ← res_of_option (ValueError "Provider context has no visible user record") (users !! target_of r);
          render p (str_get "content" user);;
          contexts_of users (<[target_of r := p]> result) rest
      end
  end.

(* source: memory/provider_context.py effective_contexts *)
Definition effective_contexts (records : list Dict) : res (gmap string ProviderContextRecord) :=
  contexts_of (user_records records) ∅ records.

(** [baseline.update(fragments)]. *)
Definition overlay (fragments : Texts) (baseline : gmap string string) : gmap string string :=
  foldl (λ m kv, <[kv.1 := kv.2]> m) baseline fragments.

(* source: memory/provider_context.py:116-125 context_baseline *)
Fixpoint baseline_of (contexts : gmap string ProviderContextRecord) (before : option string) (baseline : gmap string string)
    (records : list Dict) : gmap string string :=
  match records with
  | [] => baseline
  | r :: rest =>
      if bool_decide (role_of r = "user") then
        if bool_decide (before = Some (str_get "record_id" r)) then baseline
        else baseline_of contexts before
               (match contexts !! str_get "record_id" r with Some p => overlay (pc_fragments p) baseline | None => baseline end) rest
      else baseline_of contexts before baseline rest
  end.

(* source: memory/provider_context.py context_baseline *)
Definition context_baseline (records : list Dict) (before : option string) : res (gmap string string) :=
  contexts ← effective_contexts records; mret (baseline_of contexts before ∅ records).

Definition quoted (s : string) : string := str1 dquote +:+ s +:+ str1 dquote.

(* source: memory/persistence.py:11-29 _EPHEMERAL_MARKERS *)
Definition EPHEMERAL_MARKERS : list string :=
  flat_map (λ n, ["<" +:+ n +:+ " ephemeral=" +:+ quoted "true" +:+ ">"; "</" +:+ n +:+ ">"])
    ["harness_runtime_context"; "agent_runtime_context"; "relevant_memory"; "continuity_fragment"].

(* source: memory/persistence.py SessionPersistenceProjection.assert_persistable *)
Definition assert_persistable (content : string) : res string :=
  if existsb (λ m, has_text m content) EPHEMERAL_MARKERS
  then Err (ValueError "Ephemeral runtime context must never be persisted in Session data") else Ok content.

(* source: memory/persistence.py SessionPersistenceProjection.assert_no_ephemeral *)
Fixpoint no_ephemeral (value : json) : bool :=
  match value with
  | JStr s => is_ok (assert_persistable s)
  | JObj d => forallb (λ kv, is_ok (assert_persistable kv.1) && no_ephemeral kv.2) d
  | JArr l => forallb no_ephemeral l
  | _ => true
  end.

(* source: memory/provider_context.py:135-136 prepare_context *)
Definition tag_of (key : string) : option string :=
  if bool_decide (key = "memory") then Some "relevant_memory" else if bool_decide (key = "continuity") then Some "continuity_fragment"
  else if bool_decide (key = "harness") then Some "harness_runtime_context" else None.
(* source: memory/provider_context.py:139-140 prepare_context *)
Definition tombstone (tag : string) : string :=
  "<" +:+ tag +:+ " ephemeral=" +:+ quoted "true" +:+ ">" +:+ newline
  +:+ "{" +:+ quoted "active" +:+ ":false}" +:+ newline +:+ "</" +:+ tag +:+ ">".

Definition sanitize_texts (l : Texts) : Texts :=
  map (λ kv, (kv.1, if sensitive_key kv.1 then REDACTED else sanitize_text kv.2)) l.

(** A key of the baseline that is gone is given as inactive; the order of these
    keys, that of a Python set, is the map's here. *)
(* source: memory/provider_context.py:137-140 prepare_context *)
Definition with_tombstones (baseline : gmap string string) (current : Texts) : Texts :=
  current ++ omap (λ kv : string * string, if bool_decide (kv.1 ∈ current.*1) then None else (λ t, (kv.1, tombstone t)) <$> tag_of kv.1)
               (map_to_list baseline).

(* source: memory/provider_context.py prepare_context *)
Definition prepare_context (query epoch : string) (current : Texts) (baseline : gmap string string) (origin_refs : Dict)
    : res ProviderContextRecord :=
  assert_persistable query;;
  let current := with_tombstones baseline (sanitize_texts current) in
  create_packet query epoch (List.filter (λ kv, negb (bool_decide (baseline !! kv.1 = Some kv.2))) current) origin_refs.
