(* ===== verification/Sessions.v ===== *)
(** * Sessions: the conversation files (memory/session.py, memory/models.py)

    A session is an entry of one index file and a list of segments, each a file
    of one record per line.  Every method is a sequence of writes to the
    directory; the directories it passes through are kept, so that a crash can
    stop it at any of them. *)

From S2P Require Import Prelude PyText PyTime Json AgentState ProviderContext.
From Stdlib Require Import Ascii.

#[local] Open Scope Z_scope.

(** ** Records *)

Definition in_literals (l : list string) (j : json) : bool := match j with JStr s => bool_decide (s ∈ l) | _ => false end.
Definition optional (f : json → bool) (k : string) (d : Dict) : bool :=
  match dict_get k d with None | Some JNull => true | Some j => f j end.
Definition is_str (j : json) : bool := match j with JStr _ => true | _ => false end.
Definition is_text (j : json) : bool := match j with JStr s => nonempty s | _ => false end.

Definition ROLES : list string := ["user"; "assistant"; "tool"; "summary"; "extension"; "provider_context"].

Definition objects (j : json) : bool :=
  match j with JArr l => forallb (λ x, match x with JObj _ => true | _ => false end) l | _ => false end.

(* source: memory/models.py SessionRecord *)
Definition fields_valid (d : Dict) : bool :=
  match dict_get "role" d with Some j => in_literals ROLES j | None => false end
  && match dict_get "content" d with Some JNull => true | Some j => is_str j | None => false end
  && match dict_get "timestamp" d with Some j => is_text j | None => false end
  && optional objects "tool_calls" d && optional is_str "tool_call_id" d && optional is_str "name" d
  && optional is_str "reasoning" d
  && optional (in_literals ["interactive"; "cron"; "maintenance"; "extension"]) "origin" d
  && optional is_text "record_id" d && optional is_text "run_id" d && optional is_text "turn_id" d
  && optional is_text "operation_id" d && optional is_str "context_target_record_id" d
  && optional (λ j, is_ok (packet_of j)) "provider_context" d.

Definition given (k : string) (d : Dict) : bool := match dict_get k d with None | Some JNull => false | Some _ => true end.

(* source: memory/models.py SessionRecord._validate_role_payload *)
Definition payload_valid (d : Dict) : bool :=
  let role := role_of d in
  let content := str_of "content" d in
  let target := nonempty (default "" (str_of "context_target_record_id" d)) in
  (if given "provider_context" d then
     bool_decide (role ∈ ["user"; "provider_context"])
     && (negb (bool_decide (role = "user")) || is_ok (p ← packet_of (default JNull (dict_get "provider_context" d)); render p (default "" content)))
   else true)
  && (if bool_decide (role = "provider_context") then is_none content && target && given "provider_context" d else negb target)
  && (if bool_decide (role ∈ ["user"; "summary"; "extension"; "tool"]) then is_some content else true)
  && (if bool_decide (role = "assistant") then
        is_some content || match dict_get "tool_calls" d with Some (JArr (_ :: _)) => true | _ => false end
      else true)
  && (if bool_decide (role = "tool") then
        nonempty (default "" (str_of "tool_call_id" d)) && nonempty (default "" (str_of "name" d)) else true).

Definition record_valid (d : Dict) : bool := fields_valid d && payload_valid d.

Definition FIELDS : list string :=
  ["role"; "content"; "timestamp"; "tool_calls"; "tool_call_id"; "name"; "reasoning"; "origin"; "record_id"; "run_id"; "turn_id";
   "operation_id"; "provider_context"; "context_target_record_id"].

(** [SessionRecord.model_validate(d).model_dump(exclude_unset=True)]: the
    declared fields in their order, then the others. *)
(* source: memory/models.py SessionRecord *)
Definition validated (d : Dict) : res Dict :=
  if record_valid d then
    mret (omap (λ k, (λ v, (k, v)) <$> dict_get k d) FIELDS ++ List.filter (λ kv, negb (bool_decide (kv.1 ∈ FIELDS))) d)
  else Err (ValidationError "SessionRecord").

(** ** The index *)

(* source: memory/models.py SessionIndexEntry *)
Inductive SegmentState := SegmentPending | SegmentActive.

(* source: memory/models.py SessionIndexEntry *)
Record Entry := mkEntry {
  sn_created_at : string; sn_workspace_id : option string; sn_latest_file : string; sn_files : list string;
  sn_state : SegmentState; sn_materialized_at : option string; sn_skill_catalog : option Dict; sn_display_name : option string
}.
#[export] Instance Entry_eta : Eta Entry := λ r, mkEntry (sn_created_at r) (sn_workspace_id r) (sn_latest_file r) (sn_files r)
  (sn_state r) (sn_materialized_at r) (sn_skill_catalog r) (sn_display_name r).

Definition is_pending (e : Entry) : bool := match sn_state e with SegmentPending => true | SegmentActive => false end.

(* source: memory/models.py SessionIndexEntry *)
Definition Entry_valid (e : Entry) : bool :=
  nonempty (sn_created_at e) && opt_nonempty (sn_workspace_id e) && nonempty (sn_latest_file e)
  && bool_decide (sn_latest_file e ∈ sn_files e) && opt_all (λ n, py_len n <=? 200) (sn_display_name e).

(* source: memory/session.py SessionStore.is_session_hash *)
Definition is_session_hash (s : string) : bool :=
  (String.length s =? 16)%nat && forallb is_lower_hex (String.list_ascii_of_string s).

Notation Index := (gmap string Entry).
(* source: memory/models.py:80-93 SessionIndex *)
Definition Index_valid (i : Index) : bool :=
  forallb (λ kv, is_session_hash kv.1 && Entry_valid kv.2) (map_to_list i).

(** ** The directory *)

(** A line of a segment: a record; a record whose line break a crash has cut
    off; any other text, which is no record. *)
Inductive Line := Written (d : Dict) | Unended (d : Dict) | Torn.

Record Disk := mkDisk { dk_index : option Index; dk_files : gmap string (list Line) }.
#[export] Instance Disk_eta : Eta Disk := λ r, mkDisk (dk_index r) (dk_files r).

(** The directory now, and every directory on the way to it. *)
Record Drive := mkDrive { dv_disk : Disk; dv_trail : list Disk }.
#[export] Instance Drive_eta : Eta Drive := λ r, mkDrive (dv_disk r) (dv_trail r).

Definition Fs (A : Type) : Type := Drive → res A * Drive.
#[export] Instance fs_ret : MRet Fs := λ A a s, (Ok a, s).
#[export] Instance fs_bind : MBind Fs := λ A B k m s, match m s with (Ok a, s') => k a s' | (Err e, s') => (Err e, s') end.
Definition fs_fail {A} (e : pyerr) : Fs A := λ s, (Err e, s).
Definition fs_lift {A} (r : res A) : Fs A := λ s, (r, s).
Definition fs_disk : Fs Disk := λ s, (Ok (dv_disk s), s).
Definition fs_write (f : Disk → Disk) : Fs unit := λ s, (Ok tt, mkDrive (f (dv_disk s)) (dv_trail s ++ [f (dv_disk s)])).

(** A file of the directory itself; the store makes no name with a slash. *)
Definition plain_name (s : string) : bool :=
  negb (existsb (λ c, bool_decide (c = "/"%char)) (String.list_ascii_of_string s)) && negb (bool_decide (s ∈ [""; "."; ".."])).

(** The temporary file is replaced in one step. *)
(* source: memory/session.py SessionStore._write_index *)
Definition write_index (i : Index) : Fs unit :=
  if Index_valid i then fs_write (λ d, d ⟪ dk_index := Some i ⟫) else fs_fail (ValidationError "SessionIndex").

Section sessions.
(** [self.workspace_id]. *)
Context (workspace_id : option string).

(* source: memory/session.py SessionStore.initialize *)
Definition initialize : Fs unit :=
  d ← fs_disk;
  (match dk_index d with None => write_index ∅ | Some _ => mret tt end);;
  match workspace_id with
  | None => mret tt
  | Some w =>
      d ← fs_disk;
      let i := default ∅ (dk_index d) in
      if negb (Index_valid i) then fs_fail (ValidationError "SessionIndex")
      else if existsb (λ kv, match sn_workspace_id kv.2 with Some b => negb (bool_decide (b = w)) | None => false end) (map_to_list i)
      then fs_fail (ValueError "Session belongs to another Workspace")
      else if existsb (λ kv, is_none (sn_workspace_id kv.2)) (map_to_list i)
      then write_index ((λ e, if is_none (sn_workspace_id e) then e ⟪ sn_workspace_id := Some w ⟫ else e) <$> i)
      else mret tt
  end.

(* source: memory/session.py SessionStore._read_index *)
Definition read_index : Fs Index :=
  initialize;;
  d ← fs_disk;
  let i := default ∅ (dk_index d) in
  if Index_valid i then mret i else fs_fail (ValidationError "SessionIndex").

(* source: memory/session.py SessionStore.index_entry *)
Definition index_entry (session_id : string) : Fs Entry :=
  i ← read_index; fs_lift (res_of_option (KeyError session_id) (i !! session_id)).

(* source: memory/session.py SessionStore.exists *)
Definition exists_ (session_id : string) : Fs bool := i ← read_index; mret (is_some (i !! session_id)).

(** [stamp]: the time as text; [date]: its day. *)
(* source: memory/session.py SessionStore.create *)
Definition create (stamp date new_id : string) (session_id display_name : option string) : Fs string :=
  initialize;;
  let id := str_or session_id new_id in
  if negb (is_session_hash id) then fs_fail (ValueError "a session id is 16 lower case hexadecimal digits") else
  there ← exists_ id;
  if (there : bool) then fs_fail (ValueError "the session exists") else
  let filename := date +:+ "_" +:+ id +:+ "_001.jsonl" in
  i ← read_index;
  write_index (<[id := mkEntry stamp workspace_id filename [filename] SegmentPending None None display_name]> i);;
  mret id.

(** *** Reading *)

(* source: memory/session.py:141-153 SessionStore.read_all_records_strict *)
Fixpoint read_lines (filename : string) (lines : list Line) : res (list (string * Dict)) :=
  match lines with
  | [] => mret []
  | Torn :: _ => Err (ValueError "an invalid line")
  | (Written d | Unended d) :: rest =>
      if record_valid d then r ← read_lines filename rest; mret ((filename, d) :: r)
      else Err (ValueError "an invalid line")
  end.

(* source: memory/session.py:133-141 SessionStore.read_all_records_strict *)
Definition read_segment (e : Entry) (files : gmap string (list Line)) (filename : string) : res (list (string * Dict)) :=
  if negb (plain_name filename) then Err (ValueError "Session segment escapes its authorized directory") else
  match files !! filename with
  | None => if is_pending e && bool_decide (filename = sn_latest_file e) then mret []
            else Err (ValueError "Session index references missing segment")
  | Some lines => read_lines filename lines
  end.

Definition read_segments (e : Entry) (files : gmap string (list Line)) (names : list string) : res (list (string * Dict)) :=
  l ← mapM (read_segment e files) names; mret (mjoin l).

(* source: memory/session.py SessionStore.read_all_records_strict *)
Definition read_all_records_strict (session_id : string) : Fs (list (string * Dict)) :=
  e ← index_entry session_id;
  d ← fs_disk;
  fs_lift (read_segments e (dk_files d) (sn_files e)).

(* source: memory/session.py SessionStore.record_by_id_strict *)
Definition record_by_id_strict (session_id record_id : string) : Fs (option Dict) :=
  l ← read_all_records_strict session_id;
  mret (snd <$> List.find (λ fr, bool_decide (str_of "record_id" fr.2 = Some record_id)) l).

(* source: memory/session.py SessionStore.find_records_strict *)
Definition find_records_strict (session_id run_id : string) (turn_id : option string) : Fs (list (string * Dict)) :=
  l ← read_all_records_strict session_id;
  mret (List.filter (λ fr, bool_decide (str_of "run_id" fr.2 = Some run_id)
                           && match turn_id with None => true | Some t => bool_decide (str_of "turn_id" fr.2 = Some t) end) l).

(* source: memory/session.py SessionStore._active_path *)
Definition active_path (session_id : string) : Fs string :=
  e ← index_entry session_id; mret (sn_latest_file e).

(** [str.splitlines] also splits at three code points that [json.dumps] leaves
    as they are; the first piece of a record so split is no JSON. *)
Definition splits_line (c : Z) : bool := bool_decide (c ∈ [0x85; 0x2028; 0x2029]).
Fixpoint any_point (p : Z → bool) (j : json) : bool :=
  match j with
  | JStr s => existsb p (code_points s)
  | JArr l => existsb (any_point p) l
  | JObj d => existsb (λ kv, existsb p (code_points kv.1) || any_point p kv.2) d
  | _ => false
  end.

(* source: memory/session.py:299-307 SessionStore.read_records *)
Fixpoint split_lines (lines : list Line) : res (list Dict) :=
  match lines with
  | [] => mret []
  | Torn :: _ => Err (ValueError "an invalid line")
  | (Written d | Unended d) :: rest =>
      if record_valid d && negb (any_point splits_line (JObj d)) then r ← split_lines rest; mret (d :: r)
      else Err (ValueError "an invalid line")
  end.

(** The latest segment alone. *)
(* source: memory/session.py SessionStore.read_records *)
Definition read_records (session_id : string) : Fs (list Dict) :=
  path ← active_path session_id;
  e ← index_entry session_id;
  d ← fs_disk;
  match dk_files d !! path with
  | None => if is_pending e then mret [] else fs_fail (FileNotFoundError path)
  | Some lines => fs_lift (split_lines lines)
  end.

(* source: memory/session.py SessionStore.latest_summary *)
Definition latest_summary (session_id : string) : Fs string :=
  l ← read_records session_id;
  mret (default "" (head (omap (λ d, if bool_decide (role_of d = "summary") then str_of "content" d else None) l))).

(** *** Writing *)

(* source: memory/session.py SessionStore._activate_if_materialized *)
Definition activate_if_materialized (stamp session_id : string) : Fs unit :=
  i ← read_index;
  e ← fs_lift (res_of_option (KeyError session_id) (i !! session_id));
  if negb (is_pending e) then mret tt else
  d ← fs_disk;
  match dk_files d !! sn_latest_file e with
  | Some (_ :: _) => write_index (<[session_id := (e ⟪ sn_state := SegmentActive ⟫) ⟪ sn_materialized_at := Some stamp ⟫]> i)
  | _ => mret tt
  end.

Definition setdefault (k : string) (v : json) (d : Dict) : Dict := if is_some (dict_get k d) then d else d ++ [(k, v)].

(** [str(selected["record_id"])]; a value that is neither a text nor [None] is
    refused when the record is validated, whatever its text. *)
Definition record_key (d : Dict) : string :=
  match dict_get "record_id" d with Some (JStr s) => s | Some JNull => "None" | Some j => json_dumps j | None => "" end.

(** A text written at the end of a file goes on the line that has no end. *)
Definition put_line (x : Line) (lines : list Line) : list Line :=
  match last lines with
  | Some (Unended _) => removelast lines ++ [Torn]
  | _ => lines ++ [x]
  end.
(** The file is opened, which makes it, and one line is written; a crash can cut
    it anywhere. *)
(* source: memory/session.py:114-117 SessionStore.append_once *)
Definition append_line (path : string) (d : Dict) : Fs unit :=
  disk ← fs_disk;
  let lines := default [] (dk_files disk !! path) in
  let write l := fs_write (λ k, k ⟪ dk_files := <[path := l]> (dk_files k) ⟫) in
  write lines;; write (put_line Torn lines);; write (put_line (Unended d) lines);; write (put_line (Written d) lines).

(* source: memory/session.py SessionStore._canonical_record *)
Definition canonical_record (d : Dict) : res string := json_dumps_finite (JObj d).

(* source: memory/session.py SessionStore.append_once *)
Definition append_once (stamp uuid session_id : string) (record : Dict) : Fs bool :=
  let selected := setdefault "record_id" (JStr uuid) record in
  let record_id := record_key selected in
  if negb (nonempty record_id) then fs_fail (ValueError "Session record_id cannot be empty") else
  existing ← record_by_id_strict session_id record_id;
  match existing with
  | Some e =>
      expected ← fs_lift (validated (dict_set "timestamp" (default JNull (dict_get "timestamp" e)) selected));
      actual ← fs_lift (validated e);
      expected ← fs_lift (canonical_record expected);
      actual ← fs_lift (canonical_record actual);
      if negb (bool_decide (expected = actual))
      then fs_fail (ValueError "Session record_id content conflict")
      else activate_if_materialized stamp session_id;; mret false
  | None =>
      d ← fs_lift (validated (setdefault "timestamp" (JStr stamp) selected));
      path ← active_path session_id;
      append_line path d;;
      activate_if_materialized stamp session_id;;
      mret true
  end.

(* source: memory/session.py SessionStore.append *)
Definition append (stamp uuid session_id role : string) (content : option string) (metadata : Dict) : Fs string :=
  let record := dict_update [("role", JStr role); ("content", jopt content); ("timestamp", JStr stamp); ("record_id", JStr uuid)] metadata in
  append_once stamp uuid session_id record;;
  mret (record_key record).

(** A whole file, written beside its name and put there in one step. *)
(* source: memory/session.py SessionStore._publish_segment *)
Definition publish_segment (path : string) (records : list Dict) : Fs unit :=
  l ← fs_lift (mapM validated records);
  fs_write (λ k, k ⟪ dk_files := <[path := map Written l]> (dk_files k) ⟫).

(** [f"{number:03d}"]. *)
Definition three_digits (n : nat) : string :=
  (if (n <? 10)%nat then "00" else if (n <? 100)%nat then "0" else "") +:+ str_of_int (Z.of_nat n).
(** [s.split("_", 1)[0]]. *)
Fixpoint before_underscore (s : string) : string :=
  match s with
  | EmptyString => ""
  | String c rest => if bool_decide (c = "_"%char) then "" else String c (before_underscore rest)
  end.

(* source: memory/session.py SessionStore.rollover *)
Definition rollover (stamp session_id : string) (initial_records : list Dict) (skill_catalog : option Dict) : Fs string :=
  i ← read_index;
  e ← fs_lift (res_of_option (KeyError session_id) (i !! session_id));
  d ← fs_disk;
  let unmaterialized := is_pending e && is_none (dk_files d !! sn_latest_file e) in
  let date := before_underscore (default "" (head (sn_files e))) in
  let filename := date +:+ "_" +:+ session_id +:+ "_" +:+ three_digits (S (length (sn_files e))) +:+ ".jsonl" in
  if unmaterialized && bool_decide (length initial_records = O) then mret filename else
  publish_segment filename (map (setdefault "timestamp" (JStr stamp)) initial_records);;
  let e := (e ⟪ sn_files := if unmaterialized then [filename] else sn_files e ++ [filename] ⟫) ⟪ sn_latest_file := filename ⟫ in
  let e := if bool_decide (length initial_records = O) then e
           else (e ⟪ sn_state := SegmentActive ⟫) ⟪ sn_materialized_at := Some stamp ⟫ in
  let e := match skill_catalog with Some c => e ⟪ sn_skill_catalog := Some c ⟫ | None => e end in
  write_index (<[session_id := e]> i);;
  mret filename.

(* source: memory/session.py SessionStore.start_new_segment *)
Definition start_new_segment (stamp session_id : string) : Fs string := rollover stamp session_id [] None.

(** The position of the last user record. *)
Definition last_user (l : list (string * Dict)) : option nat :=
  foldl (λ acc p, if bool_decide (role_of p.2.2 = "user") then Some p.1 else acc) None (imap pair l).

Definition unlink (name : string) : Fs unit :=
  d ← fs_disk;
  if is_some (dk_files d !! name) then fs_write (λ k, k ⟪ dk_files := delete name (dk_files k) ⟫) else mret tt.
Fixpoint each (f : string → Fs unit) (l : list string) : Fs unit :=
  match l with [] => mret tt | x :: rest => f x;; each f rest end.

(** [suffix]: eight characters of a fresh uuid. *)
(* source: memory/session.py SessionStore.truncate_last_turn *)
Definition truncate_last_turn (stamp suffix session_id : string) : Fs Z :=
  all ← read_all_records_strict session_id;
  at_ ← fs_lift (res_of_option (ValueError "Session has no user turn") (last_user all));
  let retained := map snd (take at_ all) in
  i ← read_index;
  e ← fs_lift (res_of_option (KeyError session_id) (i !! session_id));
  let filename := before_underscore (default "" (head (sn_files e))) +:+ "_" +:+ session_id +:+ "_edit-" +:+ suffix +:+ ".jsonl" in
  (if bool_decide (length retained = O) then mret tt else publish_segment filename retained);;
  let e' := (e ⟪ sn_files := [filename] ⟫) ⟪ sn_latest_file := filename ⟫ in
  write_index (<[session_id := if bool_decide (length retained = O)
     then (e' ⟪ sn_state := SegmentPending ⟫) ⟪ sn_materialized_at := None ⟫
     else (e' ⟪ sn_state := SegmentActive ⟫) ⟪ sn_materialized_at := Some stamp ⟫]> i);;
  each (λ old, if bool_decide (old = filename) || negb (plain_name old) then mret tt else unlink old) (sn_files e);;
  mret (Z.of_nat (length all - length retained)).

(* source: memory/session.py SessionStore.delete *)
Definition delete_ (session_id : string) : Fs unit :=
  i ← read_index;
  e ← fs_lift (res_of_option (KeyError session_id) (i !! session_id));
  if negb (forallb plain_name (sn_files e)) then fs_fail (PermissionError "Session file boundary is invalid") else
  each unlink (sn_files e);;
  write_index (delete session_id i).

(* source: memory/session.py SessionStore.set_skill_catalog *)
Definition set_skill_catalog (session_id : string) (catalog : Dict) : Fs unit :=
  i ← read_index;
  e ← fs_lift (res_of_option (KeyError session_id) (i !! session_id));
  write_index (<[session_id := e ⟪ sn_skill_catalog := Some catalog ⟫]> i).

Definition without (ks : list string) (d : Dict) : Dict := List.filter (λ kv, negb (bool_decide (kv.1 ∈ ks))) d.

(** [uuids]: the ids of the copies, the first for the session. *)
(* source: memory/session.py:385-389 SessionStore.branch *)
Fixpoint copy_records (stamp new_id : string) (uuids : nat → string) (n : nat) (l : list Dict) : Fs unit :=
  match l with
  | [] => mret tt
  | d :: rest => append_once stamp (uuids n) new_id (without ["record_id"; "session_file"] d);; copy_records stamp new_id uuids (S n) rest
  end.
(* source: memory/session.py SessionStore.branch *)
Definition branch (stamp date new_id name : string) (uuids : nat → string) (session_id : string) (cutoff : option string) : Fs string :=
  all ← read_all_records_strict session_id;
  records ← (match cutoff with
             | None | Some "" => mret all
             | Some c =>
                 match list_find (λ fr : string * Dict, str_of "record_id" fr.2 = Some c) all with
                 | None => fs_fail (KeyError c)
                 | Some (k, _) => mret (take (S k) all)
                 end
             end);
  if bool_decide (length records = O) then fs_fail (ValueError "Cannot branch an empty session") else
  id ← create stamp date new_id None (Some name);
  copy_records stamp id uuids 0 (map snd records);;
  mret id.

(** *** The conversation that a session gives back *)

(* source: memory/session.py SessionStore.record_digest *)
Definition record_digest (d : Dict) : res string := text ← canonical_record d; mret (sha256_hex text).

(** [{str(record.record_id): (filename, record) for ... if record.record_id}]. *)
Definition by_record_id (l : list (string * Dict)) : gmap string (string * Dict) :=
  foldl (λ m fr, match str_of "record_id" fr.2 with Some id => <[id := fr]> m | None => m end) ∅ l.

Definition dict_of (j : json) : option Dict := match j with JObj d => Some d | _ => None end.

(* source: memory/session.py:229-250 SessionStore.context_records *)
Fixpoint protected_records (located : gmap string (string * Dict)) (seen : list string) (refs : list json) : res (list Dict) :=
  match refs with
  | [] => mret []
  | item :: rest =>
      d ← res_of_option (ValueError "protected_tail_refs is an array of objects") (dict_of item);
      id ← res_of_option (ValueError "a protected tail reference lacks a record_id or a sha256") (str_of "record_id" d);
      hash ← res_of_option (ValueError "a protected tail reference lacks a record_id or a sha256") (str_of "sha256" d);
      if bool_decide (id ∈ seen) then Err (ValueError "a repeated protected tail reference") else
      fr ← res_of_option (ValueError "a protected tail record does not exist") (located !! id);
      if match str_of "segment" d with Some s => negb (bool_decide (s = fr.1)) | None => false end
      then Err (ValueError "a protected tail segment does not match") else
      actual ← record_digest fr.2;
      if negb (bool_decide (actual = hash)) then Err (ValueError "a protected tail hash does not match") else
      if negb (bool_decide (role_of fr.2 ∈ ["user"; "assistant"; "tool"])) then Err (ValueError "a protected tail role cannot be restored") else
      r ← protected_records located (id :: seen) rest;
      mret (fr.2 :: r)
  end.

Definition is_summary (d : Dict) : bool := bool_decide (role_of d = "summary").

(* source: memory/session.py SessionStore.context_records *)
Definition context_records (session_id : string) : Fs (list Dict) :=
  active ← read_records session_id;
  let summary := List.find is_summary active in
  match summary ≫= dict_get "protected_tail_refs" with
  | Some (JArr ((_ :: _) as refs)) =>
      all ← read_all_records_strict session_id;
      protected ← fs_lift (protected_records (by_record_id all) [] refs);
      mret (match summary with Some s => [s] | None => [] end ++ protected ++ List.filter (λ d, negb (is_summary d)) active)
  | _ => mret active
  end.

(* source: memory/session.py:266-277 SessionStore.make_record_refs *)
Definition make_record_ref (locations : gmap string (string * Dict)) (requested : Dict) : res json :=
  id ← res_of_option (ValueError "a protected record has no record_id") (str_of "record_id" requested);
  fr ← res_of_option (ValueError "a protected record is not committed") (locations !! id);
  h ← record_digest fr.2;
  h' ← record_digest requested;
  if negb (bool_decide (h = h')) then Err (ValueError "a protected record differs from the disk")
  else mret (JObj [("record_id", JStr id); ("segment", JStr fr.1); ("sha256", JStr h)]).

(* source: memory/session.py SessionStore.make_record_refs *)
Definition make_record_refs (session_id : string) (records : list Dict) : Fs (list json) :=
  all ← read_all_records_strict session_id;
  fs_lift (mapM (make_record_ref (by_record_id all)) records).
End sessions.

Definition UNKNOWN_RESULT : string :=
  "此前运行中断，未找到该工具调用的结果记录；执行结果未知，不得假定工具已经执行或尚未执行。".
Definition MARKER : Dict := [("role", JStr "assistant"); ("content", JStr "此前回答在运行期间中断，没有产生可恢复的最终答复。")].

(* source: memory/session.py:624-635 _complete_incomplete_tool_chains *)
Definition close_pending (pending : Texts) : list Dict :=
  map (λ kv, [("role", JStr "tool"); ("tool_call_id", JStr kv.1); ("name", JStr kv.2); ("content", JStr UNKNOWN_RESULT)]) pending.

(** [pending[k] = v]: a key keeps its place. *)
Fixpoint text_set (k v : string) (l : Texts) : Texts :=
  match l with [] => [(k, v)] | (k', v') :: l' => if bool_decide (k = k') then (k, v) :: l' else (k', v') :: text_set k v l' end.

(** The id and the name of a call. *)
(* source: memory/session.py:645-651 _complete_incomplete_tool_chains *)
Definition call_of (call : json) : option (string * string) :=
  d ← dict_of call; id ← str_of "id" d; f ← dict_get "function" d ≫= dict_of; name ← str_of "name" f; Some (id, name).
Definition tool_calls_of (m : Dict) : option (list json) := match dict_get "tool_calls" m with Some (JArr l) => Some l | _ => None end.

(* source: memory/session.py:642-655 _complete_incomplete_tool_chains *)
Definition pending_after (m : Dict) (pending : Texts) : Texts :=
  match role_of m, tool_calls_of m with
  | "assistant", Some calls => foldl (λ p c, match call_of c with Some (id, name) => text_set id name p | None => p end) [] calls
  | "tool", _ => match str_of "tool_call_id" m with
                 | Some id => List.filter (λ kv, negb (bool_decide (kv.1 = id))) pending
                 | None => pending
                 end
  | _, _ => pending
  end.

(* source: memory/session.py _complete_incomplete_tool_chains *)
Fixpoint complete_tool_chains (pending : Texts) (records : list Dict) : list Dict :=
  match records with
  | [] => close_pending pending
  | m :: rest =>
      if bool_decide (role_of m = "tool") then m :: complete_tool_chains (pending_after m pending) rest
      else close_pending pending ++ m :: complete_tool_chains (pending_after m []) rest
  end.

(** [previous]: the role of [normalized[-1]]. *)
(* source: memory/session.py _normalize_recovered_history *)
Fixpoint normalize_from (allow_trailing_user : bool) (previous : option string) (records : list Dict) : list Dict :=
  match records with
  | [] => if bool_decide (previous = Some "user") && negb allow_trailing_user then [MARKER] else []
  | m :: rest =>
      (if bool_decide (role_of m = "user") && bool_decide (previous ∈ [Some "user"; Some "tool"]) then [MARKER] else [])
      ++ m :: normalize_from allow_trailing_user (Some (role_of m)) rest
  end.

(* source: memory/session.py:193-209 SessionStore.restore *)
Definition message_of (projections : gmap string ProviderContextRecord) (value : Dict) : res (option Dict) :=
  let content := str_of "content" value in
  match role_of value, content with
  | "user", Some text =>
      text ← (match projections !! str_get "record_id" value with Some p => render p text | None => mret text end);
      mret (Some [("role", JStr "user"); ("content", JStr text)])
  | "assistant", _ =>
      match content, dict_get "content" value with
      | None, Some (JNull) | None, None | Some _, _ =>
          let message := [("role", JStr "assistant"); ("content", jopt content)] in
          mret (match tool_calls_of value with
                | Some calls => Some (message ++ [("tool_calls", JArr calls)])
                | None => if is_some content then Some message else None
                end)
      | None, Some _ => mret None
      end
  | "tool", Some text =>
      mret (id ← str_of "tool_call_id" value; name ← str_of "name" value;
            Some [("role", JStr "tool"); ("tool_call_id", JStr id); ("name", JStr name); ("content", JStr text)])
  | _, _ => mret None
  end.

(* source: memory/session.py SessionStore.restore *)
Definition restore (workspace_id : option string) (session_id : string) (provider_context : bool) : Fs (list Dict) :=
  records ← context_records workspace_id session_id;
  projections ← (if provider_context then fs_lift (effective_contexts records) else mret ∅);
  let protected_current := List.find is_summary records ≫= str_of "protected_current_query_record_id" in
  messages ← fs_lift (mapM (message_of projections) records);
  mret (normalize_from (is_some protected_current) None (complete_tool_chains [] (omap id messages))).
