(* ===== verification/SessionFacts.v ===== *)
(** * SessionFacts: records and directories of the session store

    What a directory says of a session ([view]); which directories are in order
    ([store_ok]); how records behave under validation; and what each method of
    the store does in an orderly directory. *)

From S2P Require Import Prelude PyText PyTime Json AgentState ProviderContext Sessions.

(** ** Dicts *)

Lemma dict_get_cons k k' v d : dict_get k ((k', v) :: d) = if decide (k = k') then Some v else dict_get k d.
Proof. done. Qed.

Lemma dict_app_get k a b : dict_get k (a ++ b) = match dict_get k a with Some v => Some v | None => dict_get k b end.
Proof. induction a as [|[k' v] a IH]; [done|]. cbn. by destruct (decide (k = k')). Qed.

Lemma dict_get_in k v d : dict_get k d = Some v → (k, v) ∈ d.
Proof.
  induction d as [|[k' v'] d IH]; [done|]. cbn. destruct (decide (k = k')) as [->|]; intros H.
  - injection H as ->. left.
  - right. auto.
Qed.

Lemma dict_get_keys k d : dict_get k d = None ↔ k ∉ d.*1.
Proof.
  induction d as [|[k' v'] d IH]; cbn; [split; [inversion 2|done]|]. rewrite not_elem_of_cons.
  destruct (decide (k = k')) as [->|]; [split; [done|tauto]|]. rewrite IH. tauto.
Qed.

Lemma dict_get_filter (p : string → bool) k (d : Dict) :
  dict_get k (List.filter (λ kv, p kv.1) d) = if p k then dict_get k d else None.
Proof.
  induction d as [|[k' v'] d IH]; cbn; [by destruct (p k)|].
  destruct (decide (k = k')) as [->|]; destruct (p k') eqn:E; cbn.
  - by rewrite decide_True.
  - rewrite IH. by destruct (p k').
  - by rewrite decide_False.
  - done.
Qed.

Lemma dict_set_same k v d : dict_get k d = Some v → dict_set k v d = d.
Proof.
  induction d as [|[k' v'] d IH]; [done|]. cbn. destruct (decide (k = k')) as [->|]; intros H.
  - by injection H as ->.
  - by rewrite IH.
Qed.

Lemma dict_get_set_ne k k' v d : k ≠ k' → dict_get k (dict_set k' v d) = dict_get k d.
Proof.
  intros Hne. induction d as [|[k0 v0] d IH]; cbn; [by rewrite decide_False|].
  destruct (decide (k' = k0)) as [->|]; cbn.
  - by rewrite !decide_False by done.
  - by rewrite IH.
Qed.

Lemma setdefault_get k v d k' : dict_get k' (setdefault k v d) = if decide (k' = k) then Some (default v (dict_get k d)) else dict_get k' d.
Proof.
  unfold setdefault. destruct (dict_get k d) as [v'|] eqn:E; cbn.
  - by destruct (decide (k' = k)) as [->|].
  - rewrite dict_app_get. cbn. destruct (decide (k' = k)) as [->|]; [by rewrite E|]. by destruct (dict_get k' d).
Qed.

Lemma setdefault_as_set k v d : setdefault k v d = dict_set k (default v (dict_get k d)) d.
Proof.
  unfold setdefault. destruct (dict_get k d) as [v'|] eqn:E; cbn; symmetry.
  - by apply dict_set_same.
  - by apply dict_set_new, dict_get_keys.
Qed.

Lemma none_passes {A} (p : A → bool) l : (∀ x, x ∈ l → p x = false) → List.filter p l = [].
Proof.
  induction l as [|x l IH]; [done|]. intros H. cbn. rewrite (H x) by left. apply IH. intros y Hy. apply H. by right.
Qed.

(** ** Validation *)

Lemma record_valid_ext a b : (∀ k, dict_get k a = dict_get k b) → record_valid a = record_valid b.
Proof.
  intros H. unfold record_valid, fields_valid, payload_valid, optional, given, role_of, str_of. by rewrite !H.
Qed.

Definition fields_of (r : Dict) (l : list string) : Dict := omap (λ k, (λ v, (k, v)) <$> dict_get k r) l.
Definition extra (k : string) : bool := negb (bool_decide (k ∈ FIELDS)).
Definition extras_of (r : Dict) : Dict := List.filter (λ kv, extra kv.1) r.

Lemma fields_of_cons r k l :
  fields_of r (k :: l) = match dict_get k r with Some v => (k, v) :: fields_of r l | None => fields_of r l end.
Proof. unfold fields_of. cbn. by destruct (dict_get k r). Qed.

Lemma fields_get (r : Dict) k l : dict_get k (fields_of r l) = if decide (k ∈ l) then dict_get k r else None.
Proof.
  induction l as [|k' l IH]; [done|]. rewrite fields_of_cons. destruct (dict_get k' r) as [v|] eqn:E.
  - rewrite dict_get_cons. destruct (decide (k = k')) as [->|Hne]; [by rewrite decide_True, E by left|].
    rewrite IH. apply decide_ext. rewrite elem_of_cons. tauto.
  - rewrite IH. destruct (decide (k = k')) as [->|Hne]; [rewrite E; by repeat case_decide|].
    apply decide_ext. rewrite elem_of_cons. tauto.
Qed.

Lemma fields_in (r : Dict) k v l : (k, v) ∈ fields_of r l → k ∈ l ∧ dict_get k r = Some v.
Proof.
  induction l as [|k' l IH]; [inversion 1|]. rewrite fields_of_cons. rewrite elem_of_cons. intros H.
  destruct (dict_get k' r) as [v'|] eqn:E; [|tauto]. apply elem_of_cons in H as [[= -> ->]|H]; [|tauto]. auto.
Qed.

Lemma fields_ext r r' l : (∀ k, dict_get k r = dict_get k r') → fields_of r l = fields_of r' l.
Proof. intros H. induction l as [|k l IH]; [done|]. rewrite !fields_of_cons, H, IH. done. Qed.

Lemma extras_get r k : dict_get k (extras_of r) = if decide (k ∈ FIELDS) then None else dict_get k r.
Proof.
  etransitivity; [apply (dict_get_filter extra)|]. unfold extra.
  case_decide; [by rewrite bool_decide_true|by rewrite bool_decide_false].
Qed.

Lemma extras_fields r l : l ⊆ FIELDS → extras_of (fields_of r l) = [].
Proof.
  intros H. unfold extras_of. apply none_passes. intros [k v] Hk. apply fields_in in Hk as [Hk _].
  unfold extra. cbn. rewrite bool_decide_true by auto. done.
Qed.

Lemma validated_spec r d : validated r = Ok d ↔ record_valid r = true ∧ d = fields_of r FIELDS ++ extras_of r.
Proof.
  unfold validated. destruct (record_valid r); split; intros H.
  - by injection H as <-.
  - by destruct H as [_ ->].
  - discriminate H.
  - by destruct H as [H _].
Qed.

Lemma validated_get r d k : validated r = Ok d → dict_get k d = dict_get k r.
Proof.
  intros [_ ->]%validated_spec. rewrite dict_app_get, fields_get, extras_get. destruct (decide (k ∈ FIELDS)); by destruct (dict_get k r).
Qed.

Lemma validated_valid r d : validated r = Ok d → record_valid d = true.
Proof.
  intros H. rewrite (record_valid_ext d r) by (intros; by apply validated_get). by apply validated_spec in H as [? _].
Qed.

Lemma extras_app a b : extras_of (a ++ b) = extras_of a ++ extras_of b.
Proof. apply List.filter_app. Qed.

Lemma extras_idem r : extras_of (extras_of r) = extras_of r.
Proof.
  unfold extras_of. induction r as [|kv r IH]; [done|]. cbn.
  destruct (extra kv.1) eqn:E; cbn; [by rewrite E, IH|done].
Qed.

Lemma validated_idem r d : validated r = Ok d → validated d = Ok d.
Proof.
  intros H. apply validated_spec. split; [by eapply validated_valid|].
  rewrite (fields_ext d r) by (intros; by apply validated_get). apply validated_spec in H as [_ ->].
  by rewrite extras_app, extras_fields, extras_idem by done.
Qed.

Lemma in_extras r kv : kv ∈ extras_of r → kv ∈ r ∧ kv.1 ∉ FIELDS.
Proof.
  unfold extras_of. intros H. apply list_elem_of_In, List.filter_In in H as [H1 H2].
  split; [by apply list_elem_of_In|]. by apply negb_true_iff, bool_decide_eq_false in H2.
Qed.

Lemma in_validated r d kv : validated r = Ok d → kv ∈ d → kv ∈ r.
Proof.
  intros [_ ->]%validated_spec [H|H]%elem_of_app; [|by apply in_extras in H as [? _]].
  destruct kv as [k v]. apply fields_in in H as [_ H]. by apply dict_get_in.
Qed.

Lemma validated_finite r d : validated r = Ok d → finite (JObj r) = true → finite (JObj d) = true.
Proof.
  intros Hv. cbn. rewrite !forallb_forall. intros H kv Hk. apply H, list_elem_of_In. eapply in_validated; [exact Hv|].
  by apply list_elem_of_In.
Qed.

Lemma fields_of_nodup r l : NoDup l → NoDup (fields_of r l).*1.
Proof.
  induction 1 as [|k l Hk _ IH]; [by constructor|]. rewrite fields_of_cons. destruct (dict_get k r); [|done]. cbn.
  constructor; [|done]. intros ([k' v] & -> & H)%list_elem_of_fmap. by apply fields_in in H as [? _].
Qed.

Lemma FIELDS_nodup : NoDup FIELDS.
Proof. by apply (bool_decide_unpack _). Qed.

Lemma validated_wf r d : validated r = Ok d → json_wf (JObj r) = true → json_wf (JObj d) = true.
Proof.
  intros Hv [Hn Hw]%fields_wf. apply fields_wf. split.
  - apply validated_spec in Hv as [_ ->]. rewrite fmap_app. apply NoDup_app. split_and!.
    + apply fields_of_nodup, FIELDS_nodup.
    + intros k ([k1 v1] & -> & H1)%list_elem_of_fmap ([k2 v2] & E & H2)%list_elem_of_fmap.
      apply fields_in in H1 as [H1 _]. apply in_extras in H2 as [_ H2]. cbn in *. by subst.
    + clear Hw. unfold extras_of. induction r as [|kv r IH]; [by constructor|]. cbn in *.
      apply NoDup_cons in Hn as [Hk Hn]. destruct (extra kv.1); [|auto]. cbn. constructor; [|auto].
      intros (kv' & E & H)%list_elem_of_fmap. apply Hk, list_elem_of_fmap. exists kv'. split; [done|].
      apply list_elem_of_In in H. apply list_elem_of_In. by apply List.filter_In in H as [? _].
  - rewrite Forall_forall in Hw. apply Forall_forall. intros kv H. eapply Hw, in_validated; done.
Qed.
