(* ===== verification/SessionDisk.v ===== *)
(** * SessionDisk: orderly directories of the session store

    [store_ok]: the index is valid and bound to the workspace, every session
    has its own segments, the last one the latest, and every line is whole.  The
    methods of the store keep it; [view] is what a directory says of a
    session. *)

From S2P Require Import Prelude PyText PyTime Json AgentState ProviderContext Sessions SessionFacts.

Lemma fs_bindE {A B} (m : Fs A) (f : A → Fs B) s :
  (m ≫= f) s = match m s with (Ok a, s') => f a s' | (Err e, s') => (Err e, s') end.
Proof. done. Qed.
Lemma fs_bind_ok {A B} (m : Fs A) (f : A → Fs B) s a s' : m s = (Ok a, s') → (m ≫= f) s = f a s'.
Proof. intros H. by rewrite fs_bindE, H. Qed.

Definition put_file (n : string) (ls : list Line) (k : Disk) : Disk := k ⟪ dk_files := <[n := ls]> (dk_files k) ⟫.
Definition put_entry (sid : string) (e : Entry) (i : Index) (k : Disk) : Disk := k ⟪ dk_index := Some (<[sid := e]> i) ⟫.
(** A step of the directory. *)
Definition step_to (k : Disk) (s : Drive) : Drive := mkDrive k (dv_trail s ++ [k]).

Definition view (k : Disk) (sid : string) : res (list (string * Dict)) :=
  match dk_index k with
  | Some i => match i !! sid with Some e => read_segments e (dk_files k) (sn_files e) | None => Err (KeyError sid) end
  | None => Err (KeyError sid)
  end.

Definition whole (ls : list Line) : Prop := Forall (λ x, ∃ d, x = Written d) ls.
Record entry_tidy (e : Entry) : Prop := {
  et_nodup : NoDup (sn_files e); et_latest : last (sn_files e) = Some (sn_latest_file e); et_plain : Forall (λ n, plain_name n = true) (sn_files e)
}.
Definition bound (ws : option string) (i : Index) : Prop := ws = None ∨ map_Forall (λ _ e, sn_workspace_id e = ws) i.

Record store_ok (ws : option string) (k : Disk) (i : Index) : Prop := {
  so_index : dk_index k = Some i;
  so_valid : Index_valid i = true;
  so_bound : bound ws i;
  so_tidy : ∀ sid e, i !! sid = Some e → entry_tidy e;
  so_apart : ∀ s1 s2 e1 e2 n, i !! s1 = Some e1 → i !! s2 = Some e2 → n ∈ sn_files e1 → n ∈ sn_files e2 → s1 = s2;
  so_whole : ∀ n ls, dk_files k !! n = Some ls → whole ls;
  so_reserved : ∀ sid e, i !! sid = Some e → is_pending e = true → dk_files k !! sn_latest_file e = None → sn_files e = [sn_latest_file e]
}.

Lemma Index_valid_spec i : Index_valid i = true ↔ map_Forall (λ k e, is_session_hash k = true ∧ Entry_valid e = true) i.
Proof.
  unfold Index_valid. rewrite forallb_forall. split.
  - intros H k e He. specialize (H (k, e)). apply andb_true_iff, H, list_elem_of_In, elem_of_map_to_list, He.
  - intros H [k e] He%list_elem_of_In%elem_of_map_to_list. apply andb_true_iff, (H k e He).
Qed.

Lemma bound_existsb ws w i (p : Entry → bool) :
  bound ws i → ws = Some w → (∀ e, sn_workspace_id e = Some w → p e = false) → existsb (λ kv, p kv.2) (map_to_list i) = false.
Proof.
  intros [->|H] E Hp; [done|]. apply not_true_iff_false. rewrite existsb_exists.
  intros ([k e] & Hk%list_elem_of_In%elem_of_map_to_list & Ht). rewrite Hp in Ht; [done|]. by rewrite <- E, <- (H k e).
Qed.

Section store.
Context (ws : option string).
Implicit Types (k : Disk) (i : Index) (s : Drive) (sid n : string) (e : Entry).

Lemma initialize_ok s i : store_ok ws (dv_disk s) i → initialize ws s = (Ok tt, s).
Proof.
  intros [Hi Hv Hb _ _ _ _]. unfold initialize. destruct ws as [w|] eqn:Ew.
  - rewrite fs_bindE. unfold fs_disk at 1. rewrite Hi. rewrite fs_bindE. cbn [mret fs_ret]. rewrite fs_bindE. unfold fs_disk at 1.
    rewrite Hi. cbn [from_option id]. rewrite Hv. cbn [negb].
    rewrite (bound_existsb (Some w) w i (λ e, match sn_workspace_id e with Some b => negb (bool_decide (b = w)) | None => false end));
      [|done|done|intros e ->; by rewrite bool_decide_true].
    rewrite (bound_existsb (Some w) w i (λ e, is_none (sn_workspace_id e))); [done|done|done|by intros e ->].
  - rewrite fs_bindE. unfold fs_disk at 1. rewrite Hi. done.
Qed.

Lemma read_index_ok s i : store_ok ws (dv_disk s) i → read_index ws s = (Ok i, s).
Proof.
  intros H. unfold read_index. rewrite (fs_bind_ok _ _ _ _ _ (initialize_ok _ _ H)). rewrite fs_bindE. unfold fs_disk.
  rewrite (so_index _ _ _ H). cbn [from_option id]. by rewrite (so_valid _ _ _ H).
Qed.

Lemma index_entry_ok s i sid e : store_ok ws (dv_disk s) i → i !! sid = Some e → index_entry ws sid s = (Ok e, s).
Proof. intros H He. unfold index_entry. rewrite (fs_bind_ok _ _ _ _ _ (read_index_ok _ _ H)). by rewrite He. Qed.

Lemma active_path_ok s i sid e : store_ok ws (dv_disk s) i → i !! sid = Some e → active_path ws sid s = (Ok (sn_latest_file e), s).
Proof. intros H He. unfold active_path. by rewrite (fs_bind_ok _ _ _ _ _ (index_entry_ok _ _ _ _ H He)). Qed.

Lemma read_all_ok s i sid e :
  store_ok ws (dv_disk s) i → i !! sid = Some e → read_all_records_strict ws sid s = (view (dv_disk s) sid, s).
Proof.
  intros H He. unfold read_all_records_strict. rewrite (fs_bind_ok _ _ _ _ _ (index_entry_ok _ _ _ _ H He)).
  rewrite fs_bindE. unfold fs_disk, fs_lift, view. by rewrite (so_index _ _ _ H), He.
Qed.

(** ** Changes of the directory *)

Lemma put_file_ok k i n ls : store_ok ws k i → whole ls → store_ok ws (put_file n ls k) i.
Proof.
  intros [Hi Hv Hb Ht Ha Hw Hr] Hls. split; [done..| |].
  - intros m ls'. cbn. destruct (decide (m = n)) as [->|Hne].
    + rewrite lookup_insert_eq. by intros [= <-].
    + rewrite lookup_insert_ne by done. apply Hw.
  - intros sid e He Hp Hn. cbn in Hn. apply lookup_insert_None in Hn as [Hn _]. eauto.
Qed.

Lemma put_entry_ok k i sid e :
  store_ok ws k i → is_session_hash sid = true → Entry_valid e = true → sn_workspace_id e = ws ∨ ws = None → entry_tidy e →
  (∀ sid' e' n, n ∈ sn_files e → i !! sid' = Some e' → n ∈ sn_files e' → sid' = sid) →
  (is_pending e = true → dk_files k !! sn_latest_file e = None → sn_files e = [sn_latest_file e]) →
  store_ok ws (put_entry sid e i k) (<[sid := e]> i).
Proof.
  intros [Hi Hv Hb Ht Ha Hw Hr] Hs He Hws Hte Hap Hres. split; [done|..].
  - apply Index_valid_spec, map_Forall_insert_2; [done|by apply Index_valid_spec].
  - destruct Hws as [Hws| ->]; [|by left]. destruct Hb as [Hb|Hb]; [by left|right]. by apply map_Forall_insert_2.
  - intros sid' e'. destruct (decide (sid' = sid)) as [->|Hne].
    + rewrite lookup_insert_eq. by intros [= <-].
    + rewrite lookup_insert_ne by done. apply Ht.
  - intros s1 s2 e1 e2 n.
    destruct (decide (s1 = sid)) as [->|]; [rewrite lookup_insert_eq; intros [= <-]|rewrite lookup_insert_ne by done; intros H1];
    (destruct (decide (s2 = sid)) as [->|]; [rewrite lookup_insert_eq; intros [= <-]|rewrite lookup_insert_ne by done; intros H2]); intros; eauto.
    symmetry. eauto.
  - done.
  - intros sid' e'. destruct (decide (sid' = sid)) as [->|Hne].
    + rewrite lookup_insert_eq. by intros [= <-].
    + rewrite lookup_insert_ne by done. apply Hr.
Qed.

(** ** What a session reads *)

Lemma mapM_agree {A} (f g : string → res A) l : (∀ n, n ∈ l → f n = g n) → mapM f l = mapM g l.
Proof.
  induction l as [|n l IH]; [done|]. intros H. cbn. rewrite (H n) by left. destruct (g n); [|done]. cbn.
  rewrite IH; [done|]. intros m Hm. apply H. by right.
Qed.

Lemma read_segments_agree e e' f f' l :
  (∀ n, n ∈ l → read_segment e f n = read_segment e' f' n) → read_segments e f l = read_segments e' f' l.
Proof. intros H. unfold read_segments. by rewrite (mapM_agree _ (read_segment e' f')). Qed.

Lemma mapM_snoc {A} (f : string → res A) l n :
  mapM f (l ++ [n]) = (a ← mapM f l; b ← f n; mret (a ++ [b])).
Proof.
  induction l as [|m l IH]; cbn; [by destruct (f n)|]. destruct (f m) as [c|]; [|done]. cbn. rewrite IH.
  destruct (mapM f l); [|done]. cbn. by destruct (f n).
Qed.

Lemma read_segments_snoc e f l n :
  read_segments e f (l ++ [n]) = (a ← read_segments e f l; b ← read_segment e f n; mret (a ++ b)).
Proof.
  unfold read_segments. rewrite mapM_snoc. destruct (mapM (read_segment e f) l) as [a|]; [|done]. cbn.
  destruct (read_segment e f n) as [b|]; [|done]. cbn. rewrite join_app. cbn. by rewrite app_nil_r.
Qed.

Lemma view_put_file k i sid e n ls :
  store_ok ws k i → i !! sid = Some e → n ∉ sn_files e → view (put_file n ls k) sid = view k sid.
Proof.
  intros H He Hn. unfold view. cbn. rewrite (so_index _ _ _ H), He. apply read_segments_agree.
  intros m Hm. unfold read_segment. rewrite lookup_insert_ne; [done|]. by intros ->.
Qed.

Lemma view_put_entry k i sid sid' e : dk_index k = Some i → sid' ≠ sid → view (put_entry sid e i k) sid' = view k sid'.
Proof. intros H Hne. unfold view. cbn. by rewrite H, lookup_insert_ne. Qed.

Lemma read_lines_snoc n ls d l :
  read_lines n ls = Ok l → record_valid d = true → read_lines n (ls ++ [Written d]) = Ok (l ++ [(n, d)]).
Proof.
  revert l. induction ls as [|x ls IH]; intros l; cbn.
  - intros [= <-] ->. done.
  - destruct x as [d'|d'|]; [..|done]; (destruct (record_valid d'); [|done]);
      (destruct (read_lines n ls) as [r|]; [|done]); intros [= <-] Hd; by rewrite (IH r eq_refl Hd).
Qed.

Lemma whole_put ls x : whole ls → put_line x ls = ls ++ [x].
Proof.
  intros H. unfold put_line. destruct (last ls) as [y|] eqn:E; [|done].
  apply last_Some in E as [l' ->]. apply Forall_app in H as [_ H]. apply Forall_cons in H as [[d ->] _]. done.
Qed.

(** ** Appending *)

Lemma latest_split e : entry_tidy e → ∃ front, sn_files e = front ++ [sn_latest_file e] ∧ sn_latest_file e ∉ front ∧ plain_name (sn_latest_file e) = true.
Proof.
  intros [Hn Hl Hp]. apply last_Some in Hl as [front Hf]. exists front. split; [done|].
  rewrite Hf in Hn, Hp. apply NoDup_app in Hn as (_ & Hn & _). apply Forall_app in Hp as [_ Hp]. apply Forall_cons in Hp as [Hp _].
  split; [|exact Hp]. intros Hin. apply (Hn _ Hin). left.
Qed.

Definition lines_at k n : list Line := default [] (dk_files k !! n).

Lemma lines_at_whole k i n : store_ok ws k i → whole (lines_at k n).
Proof. intros H. unfold lines_at. destruct (dk_files k !! n) eqn:E; [by eapply so_whole|by constructor]. Qed.

Lemma view_append k i sid e l d :
  store_ok ws k i → i !! sid = Some e → view k sid = Ok l → record_valid d = true →
  view (put_file (sn_latest_file e) (lines_at k (sn_latest_file e) ++ [Written d]) k) sid = Ok (l ++ [(sn_latest_file e, d)]).
Proof.
  intros H He. destruct (latest_split e) as (front & Hf & Hn & Hp); [by eapply so_tidy|].
  unfold view. cbn. rewrite (so_index _ _ _ H), He, Hf, !read_segments_snoc. intros Hv Hd.
  rewrite (read_segments_agree e e _ (dk_files k) front).
  2: { intros m Hm. unfold read_segment. rewrite lookup_insert_ne; [done|]. intros E. apply Hn. by rewrite E. }
  destruct (read_segments e (dk_files k) front) as [a|]; [|done]. cbn in Hv |- *.
  unfold read_segment, lines_at in *. rewrite Hp in *. cbn [negb] in *. rewrite lookup_insert_eq.
  assert (∃ b, read_lines (sn_latest_file e) (default [] (dk_files k !! sn_latest_file e)) = Ok b ∧ l = a ++ b) as (b & Hb & ->).
  { destruct (dk_files k !! sn_latest_file e) as [ls|].
    - destruct (read_lines (sn_latest_file e) ls) as [b|] eqn:E; [|done]. cbn in Hv. injection Hv as <-. by exists b.
    - destruct (is_pending e && _); [|done]. cbn in Hv. injection Hv as <-. by exists []. }
  rewrite (read_lines_snoc _ _ _ _ Hb Hd). cbn. by rewrite (assoc_L (++)).
Qed.

Lemma put_file_twice n ls ls' k : put_file n ls' (put_file n ls k) = put_file n ls' k.
Proof. unfold put_file. destruct k. cbn. unfold upd. cbn. by rewrite insert_insert_eq. Qed.

Lemma write_index_ok i s : Index_valid i = true → write_index i s = (Ok tt, step_to ((dv_disk s) ⟪ dk_index := Some i ⟫) s).
Proof. intros H. unfold write_index. by rewrite H. Qed.

Definition activated (stamp : string) (e : Entry) : Entry := (e ⟪ sn_state := SegmentActive ⟫) ⟪ sn_materialized_at := Some stamp ⟫.

Lemma activate_ok stamp s i sid e x ls :
  store_ok ws (dv_disk s) i → i !! sid = Some e → dk_files (dv_disk s) !! sn_latest_file e = Some (x :: ls) →
  activate_if_materialized ws stamp sid s
  = (Ok tt, if is_pending e then step_to (put_entry sid (activated stamp e) i (dv_disk s)) s else s).
Proof.
  intros H He Hf. unfold activate_if_materialized. rewrite (fs_bind_ok _ _ _ _ _ (read_index_ok _ _ H)).
  rewrite He. rewrite fs_bindE. cbn [fs_lift res_of_option]. destruct (is_pending e) eqn:Ep; [|done]. cbn [negb].
  rewrite fs_bindE. unfold fs_disk. rewrite Hf. apply write_index_ok.
  pose proof (so_valid _ _ _ H) as Hv. rewrite Index_valid_spec in Hv |- *. apply map_Forall_insert_2; [|done].
  by specialize (Hv _ _ He).
Qed.

Lemma append_line_ok path d s i :
  store_ok ws (dv_disk s) i →
  let k := dv_disk s in let ls := lines_at k path in
  append_line path d s
  = (Ok tt, mkDrive (put_file path (ls ++ [Written d]) k)
       (dv_trail s ++ [put_file path ls k; put_file path (ls ++ [Torn]) k; put_file path (ls ++ [Unended d]) k;
                       put_file path (ls ++ [Written d]) k])).
Proof.
  intros H k ls. unfold append_line. rewrite fs_bindE. unfold fs_disk. fold k. fold (lines_at k path). fold ls.
  rewrite !whole_put by (by eapply lines_at_whole).
  set (s1 := step_to (put_file path ls k) s). set (s2 := step_to (put_file path (ls ++ [Torn]) (dv_disk s1)) s1).
  set (s3 := step_to (put_file path (ls ++ [Unended d]) (dv_disk s2)) s2).
  transitivity (@Ok unit tt, step_to (put_file path (ls ++ [Written d]) (dv_disk s3)) s3); [reflexivity|].
  unfold s3, s2, s1, step_to. cbn [dv_disk dv_trail]. rewrite !put_file_twice. by rewrite <- !(assoc_L (++)).
Qed.

Lemma find_record_ok s i sid e l id :
  store_ok ws (dv_disk s) i → i !! sid = Some e → view (dv_disk s) sid = Ok l →
  record_by_id_strict ws sid id s = (Ok (snd <$> List.find (λ fr, bool_decide (str_of "record_id" fr.2 = Some id)) l), s).
Proof.
  intros H He Hl. unfold record_by_id_strict. rewrite fs_bindE, (read_all_ok _ _ _ _ H He), Hl. done.
Qed.

Lemma key_of (r : Dict) uuid id : str_of "record_id" r = Some id → setdefault "record_id" (JStr uuid) r = r ∧ record_key r = id.
Proof.
  unfold str_of, setdefault, record_key. destruct (dict_get "record_id" r) as [[]|]; try done. by intros [= ->].
Qed.

(** A new record: the directories on the way, and the last. *)
Definition appended (stamp sid : string) (e : Entry) (i : Index) (d : Dict) (s : Drive) : Drive :=
  let k := dv_disk s in let n := sn_latest_file e in let ls := lines_at k n in
  let k' := put_file n (ls ++ [Written d]) k in
  let s' := mkDrive k' (dv_trail s ++ [put_file n ls k; put_file n (ls ++ [Torn]) k; put_file n (ls ++ [Unended d]) k; k']) in
  if is_pending e then step_to (put_entry sid (activated stamp e) i k') s' else s'.

Lemma append_new stamp uuid s i sid e l r id d :
  store_ok ws (dv_disk s) i → i !! sid = Some e → view (dv_disk s) sid = Ok l →
  str_of "record_id" r = Some id → nonempty id = true → (∀ fr, fr ∈ l → str_of "record_id" fr.2 ≠ Some id) →
  validated (setdefault "timestamp" (JStr stamp) r) = Ok d →
  append_once ws stamp uuid sid r s = (Ok true, appended stamp sid e i d s).
Proof.
  intros H He Hl Hr Hid Hnew Hd. unfold append_once. destruct (key_of r uuid id Hr) as [-> ->]. rewrite Hid. cbn [negb].
  rewrite (fs_bind_ok _ _ _ _ _ (find_record_ok _ _ _ _ _ _ H He Hl)).
  destruct (List.find _ l) as [x|] eqn:Ef.
  { apply List.find_some in Ef as [Hx E]. apply bool_decide_eq_true in E. by destruct (Hnew x); [apply list_elem_of_In|]. }
  cbn [fmap option_fmap option_map]. rewrite Hd. rewrite fs_bindE. cbn [fs_lift].
  rewrite (fs_bind_ok _ _ _ _ _ (active_path_ok _ _ _ _ H He)).
  rewrite (fs_bind_ok _ _ _ _ _ (append_line_ok _ d _ _ H)). unfold appended.
  set (k' := put_file _ (_ ++ [Written d]) _).
  assert (dk_files k' !! sn_latest_file e = Some (lines_at (dv_disk s) (sn_latest_file e) ++ [Written d])) as Hk by apply lookup_insert_eq.
  assert (store_ok ws k' i) as H'.
  { apply put_file_ok; [done|]. apply Forall_app. split; [by eapply lines_at_whole|]. apply Forall_singleton. eauto. }
  rewrite fs_bindE. destruct (lines_at (dv_disk s) (sn_latest_file e) ++ [Written d]) as [|x ls] eqn:Els; [by destruct (lines_at _ _)|].
  rewrite (activate_ok stamp _ i sid e x ls); [|exact H'|done|exact Hk]. cbn [dv_disk]. by destruct (is_pending e).
Qed.
End store.

(** A directory of one session with one segment. *)
Lemma single_ok ws sid e l :
  is_session_hash sid = true → Entry_valid e = true → sn_workspace_id e = ws → sn_files e = [sn_latest_file e] →
  plain_name (sn_latest_file e) = true →
  store_ok ws (mkDisk (Some {[sid := e]}) (if bool_decide (l = []) then ∅ else {[sn_latest_file e := map Written l]})) {[sid := e]}.
Proof.
  intros Hs Hv Hw Hf Hp. split; [done| | | | | |].
  - apply Index_valid_spec, map_Forall_singleton. done.
  - right. by apply map_Forall_singleton.
  - intros sid' e' [<- <-]%lookup_singleton_Some. split; rewrite Hf; [apply NoDup_singleton|done|by repeat constructor].
  - by intros s1 s2 e1 e2 n [<- <-]%lookup_singleton_Some [<- <-]%lookup_singleton_Some.
  - intros n ls. cbn. destruct (bool_decide (l = [])); [done|]. intros [<- <-]%lookup_singleton_Some.
    unfold whole. clear. induction l; constructor; eauto.
  - by intros sid' e' [<- <-]%lookup_singleton_Some.
Qed.
