(* ===== verification/SessionSteps.v ===== *)
(** * SessionSteps: the writes of the session store, directory by directory

    For each method that writes: the directories it passes through, the answer,
    and that an orderly directory is left orderly. *)

From S2P Require Import Prelude PyText PyTime Json AgentState ProviderContext Sessions SessionFacts SessionDisk.
From Stdlib Require Import Ascii.

Lemma forall_last {A} (P : A → Prop) l x : Forall P l → last l = Some x → P x.
Proof. intros H E. apply last_Some in E as [l' ->]. apply Forall_app in H as [_ H]. by apply Forall_cons in H as [H _]. Qed.

Lemma whole_map l : whole (map Written l).
Proof. unfold whole. induction l; constructor; eauto. Qed.

Lemma entry_is_valid ws k i sid e : store_ok ws k i → i !! sid = Some e → is_session_hash sid = true ∧ Entry_valid e = true.
Proof. intros H He. pose proof (so_valid _ _ _ H) as Hv. rewrite Index_valid_spec in Hv. exact (Hv _ _ He). Qed.

Lemma entry_bound ws k i sid e : store_ok ws k i → i !! sid = Some e → sn_workspace_id e = ws ∨ ws = None.
Proof. intros H He. destruct (so_bound _ _ _ H) as [->|Hb]; [by right|left; exact (Hb _ _ He)]. Qed.

(** ** Names of segments *)

Definition slash_free (s : string) : bool := forallb (λ c, negb (bool_decide (c = "/"%char))) (String.list_ascii_of_string s).

Lemma slash_free_app a b : slash_free (a +:+ b) = slash_free a && slash_free b.
Proof. induction a as [|c a IH]; [done|]. rewrite sapp_cons. unfold slash_free in *. cbn. by rewrite IH, andb_assoc. Qed.

Lemma slash_free_chars (p : ascii → bool) s : p "/"%char = false → forallb p (String.list_ascii_of_string s) = true → slash_free s = true.
Proof.
  intros Hp H. unfold slash_free. rewrite forallb_forall in H |- *. intros c Hc. apply negb_true_iff, bool_decide_eq_false.
  intros ->. by rewrite (H _ Hc) in Hp.
Qed.

Lemma plain_slash_free s : plain_name s = true → slash_free s = true.
Proof.
  unfold plain_name. intros [H _]%andb_true_iff. apply negb_true_iff in H. unfold slash_free. apply forallb_forall. intros c Hc.
  apply negb_true_iff, bool_decide_eq_false. intros ->. apply not_true_iff_false in H. apply H. apply existsb_exists.
  exists "/"%char. split; [done|]. by apply bool_decide_eq_true.
Qed.

Lemma plain_long s : slash_free s = true → (2 < String.length s)%nat → plain_name s = true.
Proof.
  intros H Hl. unfold plain_name. apply andb_true_iff. split.
  - apply negb_true_iff, not_true_iff_false. rewrite existsb_exists. intros (c & Hc & E). apply bool_decide_eq_true in E.
    unfold slash_free in H. rewrite forallb_forall in H. specialize (H c Hc). by rewrite bool_decide_true in H.
  - apply negb_true_iff, bool_decide_eq_false. intros Hin. elem_cases Hin; subst s; cbn in Hl; lia.
Qed.

Lemma slash_free_date s : slash_free s = true → slash_free (before_underscore s) = true.
Proof.
  induction s as [|c s IH]; [done|]. unfold slash_free in *. cbn. intros [H1 H2]%andb_true_iff.
  destruct (bool_decide (c = "_"%char)); [done|]. cbn. by rewrite H1, IH.
Qed.

Lemma date_again s t : before_underscore (before_underscore s +:+ "_" +:+ t) = before_underscore s.
Proof.
  change ("_" +:+ t) with (String "_" t).
  induction s as [|c s IH]; [done|]. cbn [before_underscore]. destruct (bool_decide (c = "_"%char)) eqn:E; [done|].
  rewrite sapp_cons. cbn [before_underscore]. by rewrite E, IH.
Qed.

Lemma hash_spec sid : is_session_hash sid = true → slash_free sid = true ∧ String.length sid = 16%nat.
Proof.
  unfold is_session_hash. intros [H1 H2]%andb_true_iff. split; [by apply (slash_free_chars is_lower_hex)|]. by apply Nat.eqb_eq.
Qed.

Lemma slash_free_digits n : slash_free (three_digits n) = true.
Proof.
  unfold three_digits. rewrite slash_free_app. destruct (str_of_int_number (Z.of_nat n)) as (_ & _ & H).
  rewrite (slash_free_chars num_char _ ltac:(done) H). by destruct (n <? 10)%nat; [|destruct (n <? 100)%nat].
Qed.

(** The name of a segment of a session. *)
Lemma segment_name_plain ws k i sid e rest :
  store_ok ws k i → i !! sid = Some e → slash_free rest = true →
  plain_name (before_underscore (default "" (head (sn_files e))) +:+ "_" +:+ sid +:+ "_" +:+ rest) = true.
Proof.
  intros H He Hr. destruct (entry_is_valid _ _ _ _ _ H He) as [[Hs Hl]%hash_spec _].
  assert (slash_free (default "" (head (sn_files e))) = true) as Hd.
  { destruct (so_tidy _ _ _ H _ _ He) as [_ _ Hp]. destruct (sn_files e) as [|f l]; [done|]. cbn.
    apply Forall_cons in Hp as [Hp _]. by apply plain_slash_free. }
  apply plain_long.
  - rewrite !slash_free_app, (slash_free_date _ Hd), Hs, Hr. done.
  - rewrite !length_sapp. lia.
Qed.

Section steps.
Context (ws : option string).
Implicit Types (k : Disk) (i : Index) (s : Drive) (sid n : string) (e : Entry) (d r : Dict).

(** ** Appending *)

Lemma view_activated stamp k i sid e l :
  dk_index k = Some i → i !! sid = Some e → view k sid = Ok l → is_some (dk_files k !! sn_latest_file e) = true →
  view (put_entry sid (activated stamp e) i k) sid = Ok l.
Proof.
  intros Hi He Hv Hl. unfold view in *. cbn. rewrite Hi, He in Hv. rewrite lookup_insert_eq, <- Hv.
  change (sn_files (activated stamp e)) with (sn_files e). apply read_segments_agree. intros n Hn. unfold read_segment. cbn.
  destruct (plain_name n); [|done]. cbn. destruct (dk_files k !! n) eqn:En; [done|].
  rewrite (bool_decide_false (n = sn_latest_file e)); [by rewrite andb_false_r|]. intros ->. by rewrite En in Hl.
Qed.

Lemma put_activated_ok stamp k i sid e :
  store_ok ws k i → i !! sid = Some e → store_ok ws (put_entry sid (activated stamp e) i k) (<[sid := activated stamp e]> i).
Proof.
  intros H He. destruct (entry_is_valid _ _ _ _ _ H He) as [Hs Hv]. apply put_entry_ok; [done..| | | |].
  - exact (entry_bound _ _ _ _ _ H He).
  - destruct (so_tidy _ _ _ H _ _ He) as [H1 H2 H3]. by split.
  - intros sid' e' n Hn He' Hn'. exact (so_apart _ _ _ H _ _ _ _ n He' He Hn' Hn).
  - done.
Qed.

(** What an append leaves. *)
Lemma appended_spec stamp s i sid e l d :
  store_ok ws (dv_disk s) i → i !! sid = Some e → view (dv_disk s) sid = Ok l → record_valid d = true →
  ∃ i' e', store_ok ws (dv_disk (appended stamp sid e i d s)) i' ∧ i' !! sid = Some e' ∧ is_pending e' = false
    ∧ view (dv_disk (appended stamp sid e i d s)) sid = Ok (l ++ [(sn_latest_file e, d)])
    ∧ is_some (dk_files (dv_disk (appended stamp sid e i d s)) !! sn_latest_file e') = true
    ∧ (∀ sid', sid' ≠ sid → i' !! sid' = i !! sid' ∧ (is_some (i !! sid') = true → view (dv_disk (appended stamp sid e i d s)) sid' = view (dv_disk s) sid')).
Proof.
  intros H He Hl Hd. set (k := dv_disk s). set (n := sn_latest_file e).
  set (k' := put_file n (lines_at k n ++ [Written d]) k).
  assert (store_ok ws k' i) as H'.
  { apply put_file_ok; [done|]. apply Forall_app. split; [by eapply lines_at_whole|]. apply Forall_singleton. eauto. }
  assert (view k' sid = Ok (l ++ [(n, d)])) as Hv by (by eapply view_append).
  assert (n ∈ sn_files e) as Hn.
  { destruct (latest_split e) as (f & -> & _ & _); [by eapply so_tidy|]. apply elem_of_app. right. by left. }
  assert (∀ sid', sid' ≠ sid → is_some (i !! sid') = true → view k' sid' = view k sid') as Ho.
  { intros sid' Hne Hs. destruct (i !! sid') as [e'|] eqn:E; [|done]. eapply view_put_file; [done..|].
    intros Hin. apply Hne. exact (so_apart _ _ _ H _ _ _ _ n E He Hin Hn). }
  assert (is_some (dk_files k' !! n) = true) as Hk by (unfold k'; cbn; by rewrite lookup_insert_eq).
  unfold appended. fold k n k'. destruct (is_pending e) eqn:Ep; cbn [dv_disk step_to].
  - exists (<[sid := activated stamp e]> i), (activated stamp e). split_and!.
    + by apply put_activated_ok.
    + apply lookup_insert_eq.
    + done.
    + eapply view_activated; [by apply (so_index _ _ _ H')|done..].
    + exact Hk.
    + intros sid' Hne. split; [by rewrite lookup_insert_ne|]. intros Hs. rewrite <- Ho by done.
      apply view_put_entry; [apply (so_index _ _ _ H')|done].
  - exists i, e. split_and!; [done..|]. intros sid' Hne. split; [done|]. by apply Ho.
Qed.

(** A record that is already there. *)
Definition compare_records r x : res bool :=
  expected ← validated (dict_set "timestamp" (default JNull (dict_get "timestamp" x)) r);
  actual ← validated x;
  a ← canonical_record expected;
  b ← canonical_record actual;
  if negb (bool_decide (a = b)) then Err (ValueError "Session record_id content conflict") else Ok false.

Lemma activate_none stamp s i sid e :
  store_ok ws (dv_disk s) i → i !! sid = Some e → is_pending e = false → activate_if_materialized ws stamp sid s = (Ok tt, s).
Proof.
  intros H He Hp. unfold activate_if_materialized. rewrite (fs_bind_ok _ _ _ _ _ (read_index_ok _ _ _ H)), He.
  rewrite fs_bindE. cbn [fs_lift res_of_option]. by rewrite Hp.
Qed.

Lemma append_known stamp uuid s i sid e l r id fx :
  store_ok ws (dv_disk s) i → i !! sid = Some e → is_pending e = false → view (dv_disk s) sid = Ok l →
  str_of "record_id" r = Some id → nonempty id = true →
  List.find (λ fr, bool_decide (str_of "record_id" fr.2 = Some id)) l = Some fx →
  append_once ws stamp uuid sid r s = (compare_records r fx.2, s).
Proof.
  intros H He Hp Hl Hr Hid Hf. unfold append_once. destruct (key_of r uuid id Hr) as [-> ->]. rewrite Hid. cbn [negb].
  rewrite (fs_bind_ok _ _ _ _ _ (find_record_ok _ _ _ _ _ _ _ H He Hl)), Hf. cbn [fmap option_fmap option_map].
  unfold compare_records. rewrite fs_bindE. unfold fs_lift at 1. destruct (validated (dict_set _ _ r)) as [x|]; [|done].
  rewrite fs_bindE. unfold fs_lift at 1. destruct (validated fx.2) as [y|]; [|done].
  rewrite fs_bindE. unfold fs_lift at 1. cbn [mbind res_bind]. destruct (canonical_record x) as [a|]; [|done].
  rewrite fs_bindE. unfold fs_lift at 1. destruct (canonical_record y) as [b|]; [|done].
  cbn [mbind res_bind]. destruct (negb (bool_decide (a = b))); [done|]. by rewrite (fs_bind_ok _ _ _ _ _ (activate_none stamp _ _ _ _ H He Hp)).
Qed.

(** The same record again is the same record. *)
Lemma compare_same stamp r d :
  validated (setdefault "timestamp" (JStr stamp) r) = Ok d → finite (JObj r) = true → compare_records r d = Ok false.
Proof.
  intros Hd Hf. unfold compare_records.
  rewrite (validated_get _ _ "timestamp" Hd), setdefault_get. cbn [decide]. rewrite decide_True by done. cbn [default from_option id].
  rewrite <- setdefault_as_set, Hd, (validated_idem _ _ Hd). cbn [mbind res_bind].
  assert (finite (JObj d) = true) as Hfd.
  { apply (validated_finite _ _ Hd). unfold setdefault. destruct (is_some _); [done|]. cbn in Hf |- *. by rewrite forallb_app, Hf. }
  unfold canonical_record, json_dumps_finite. rewrite Hfd. cbn [mbind res_bind]. by rewrite bool_decide_true.
Qed.

(** Only the same record passes for it. *)
Lemma compare_only r r' d (key : string) :
  compare_records r' d = Ok false → (∀ q, dict_get q d = dict_get q r ∨ q = "timestamp") → json_wf (JObj d) = true → json_wf (JObj r') = true →
  validated d = Ok d → key ≠ "timestamp" → json_sort <$> dict_get key r' = json_sort <$> dict_get key r.
Proof.
  intros Hc Hdr Hwd Hwr Hd Hk. unfold compare_records in Hc. rewrite Hd in Hc.
  destruct (validated (dict_set _ _ r')) as [x|] eqn:Ex; [|done]. cbn [mbind res_bind] in Hc.
  unfold canonical_record, json_dumps_finite in Hc. destruct (finite (JObj x)); [|done]. destruct (finite (JObj d)); [|done]. cbn [mbind res_bind] in Hc.
  destruct (bool_decide _) eqn:E; [|done]. apply bool_decide_eq_true in E. clear Hc.
  assert (json_wf (JObj x) = true) as Hwx.
  { apply (validated_wf _ _ Ex). apply dict_set_wf; [|done]. destruct (dict_get "timestamp" d) eqn:Et; [|done]. cbn.
    apply fields_wf in Hwd as [_ Hwd]. by eapply dict_get_wf. }
  apply dumps_eq in E; [|done..]. rewrite !json_sort_JObj in E. injection E as E.
  apply fields_wf in Hwx as [Hnx _]. apply fields_wf in Hwd as [Hnd _].
  pose proof (dict_get_sort key x Hnx) as Hx. rewrite E, (dict_get_sort key d Hnd) in Hx.
  rewrite (validated_get _ _ _ Ex), dict_get_set_ne in Hx by done. destruct (Hdr key) as [<-|]; [|done]. by rewrite Hx.
Qed.

(** ** A new segment *)

(** No session has the segment. *)
Definition fresh i n : Prop := ∀ sid e, i !! sid = Some e → n ∉ sn_files e.

Definition rollover_name sid e : string :=
  before_underscore (default "" (head (sn_files e))) +:+ "_" +:+ sid +:+ "_" +:+ three_digits (S (length (sn_files e))) +:+ ".jsonl".
Definition unmaterialized k e : bool := is_pending e && is_none (dk_files k !! sn_latest_file e).
Definition stamped stamp (records : list Dict) : list Dict := map (setdefault "timestamp" (JStr stamp)) records.

(** The entry after a rollover to [n]. *)
Definition rolled stamp n (gone : bool) (count : nat) (catalog : option Dict) e : Entry :=
  let e := (e ⟪ sn_files := if gone then [n] else sn_files e ++ [n] ⟫) ⟪ sn_latest_file := n ⟫ in
  let e := if bool_decide (count = O) then e else (e ⟪ sn_state := SegmentActive ⟫) ⟪ sn_materialized_at := Some stamp ⟫ in
  match catalog with Some c => e ⟪ sn_skill_catalog := Some c ⟫ | None => e end.

Lemma rolled_fields stamp n gone count catalog e :
  let e' := rolled stamp n gone count catalog e in
  sn_files e' = (if gone then [n] else sn_files e ++ [n]) ∧ sn_latest_file e' = n ∧ sn_workspace_id e' = sn_workspace_id e
  ∧ sn_created_at e' = sn_created_at e ∧ sn_display_name e' = sn_display_name e ∧ (count ≠ O → is_pending e' = false).
Proof. unfold rolled. destruct catalog, (bool_decide (count = O)) eqn:E; cbn; split_and!; try done; by apply bool_decide_eq_true in E. Qed.

Lemma Entry_valid_files e e' :
  Entry_valid e = true → sn_created_at e' = sn_created_at e → sn_workspace_id e' = sn_workspace_id e → sn_display_name e' = sn_display_name e →
  nonempty (sn_latest_file e') = true → sn_latest_file e' ∈ sn_files e' → Entry_valid e' = true.
Proof.
  unfold Entry_valid. intros H -> -> -> Hl Hf. apply andb_true_iff in H as [H Hd]. apply andb_true_iff in H as [H _].
  apply andb_true_iff in H as [H _]. by rewrite H, Hl, Hd, bool_decide_true.
Qed.

Lemma name_nonempty a b : nonempty (a +:+ "_" +:+ b) = true.
Proof. by destruct a. Qed.

Lemma Index_valid_insert k i sid e e' :
  store_ok ws k i → i !! sid = Some e → Entry_valid e' = true → Index_valid (<[sid := e']> i) = true.
Proof.
  intros H He Hv. destruct (entry_is_valid _ _ _ _ _ H He) as [Hs _]. apply Index_valid_spec, map_Forall_insert_2; [done|].
  apply Index_valid_spec, (so_valid _ _ _ H).
Qed.

Lemma rolled_valid stamp sid gone count catalog k i e :
  store_ok ws k i → i !! sid = Some e → Entry_valid (rolled stamp (rollover_name sid e) gone count catalog e) = true.
Proof.
  intros H He. destruct (entry_is_valid _ _ _ _ _ H He) as [_ Hv].
  destruct (rolled_fields stamp (rollover_name sid e) gone count catalog e) as (Hf & Hl & Hw & Hc & Hn & _).
  apply (Entry_valid_files e); [done..| |].
  - rewrite Hl. apply name_nonempty.
  - rewrite Hl, Hf. destruct gone; [by left|]. apply elem_of_app. right. by left.
Qed.

(** The directories of a rollover. *)
Lemma rollover_ok stamp s i sid e records catalog :
  store_ok ws (dv_disk s) i → i !! sid = Some e →
  let k := dv_disk s in let n := rollover_name sid e in
  rollover ws stamp sid records catalog s =
    if unmaterialized k e && bool_decide (length records = O) then (Ok n, s) else
    match mapM validated (stamped stamp records) with
    | Err x => (Err x, s)
    | Ok l =>
        let s' := step_to (put_file n (map Written l) k) s in
        (Ok n, step_to (put_entry sid (rolled stamp n (unmaterialized k e) (length records) catalog e) i (dv_disk s')) s')
    end.
Proof.
  intros H He k n. unfold rollover. rewrite (fs_bind_ok _ _ _ _ _ (read_index_ok _ _ _ H)), He.
  rewrite fs_bindE. cbn [fs_lift res_of_option]. rewrite fs_bindE. unfold fs_disk. fold k. fold (unmaterialized k e).
  fold (rollover_name sid e). fold n. cbn zeta.
  destruct (unmaterialized k e && _); [done|]. unfold publish_segment. fold (stamped stamp records).
  rewrite fs_bindE, fs_bindE. unfold fs_lift. destruct (mapM validated (stamped stamp records)) as [l|]; [|done].
  unfold fs_write. cbn beta iota. rewrite fs_bindE.
  fold (rolled stamp n (unmaterialized k e) (length records) catalog e).
  rewrite write_index_ok; [done|]. eapply Index_valid_insert; [done..|]. by eapply rolled_valid.
Qed.

Lemma rollover_plain k i sid e : store_ok ws k i → i !! sid = Some e → plain_name (rollover_name sid e) = true.
Proof.
  intros H He. unfold rollover_name. eapply segment_name_plain; [done..|]. by rewrite slash_free_app, slash_free_digits.
Qed.

Lemma fresh_apart k i sid e n l :
  store_ok ws k i → i !! sid = Some e → fresh i n → l ⊆ sn_files e ++ [n] →
  ∀ sid' e' m, m ∈ l → i !! sid' = Some e' → m ∈ sn_files e' → sid' = sid.
Proof.
  intros H He Hf Hl sid' e' m Hm He' Hm'. apply Hl in Hm. apply elem_of_app in Hm as [Hm|Hm].
  - exact (so_apart _ _ _ H _ _ _ _ m He' He Hm' Hm).
  - apply list_elem_of_singleton in Hm as ->. by destruct (Hf _ _ He').
Qed.

Lemma put_rolled_ok stamp k i sid e catalog count l :
  store_ok ws k i → i !! sid = Some e → let n := rollover_name sid e in fresh i n → 
  let e' := rolled stamp n (unmaterialized k e) count catalog e in let k' := put_file n (map Written l) k in
  store_ok ws (put_entry sid e' i k') (<[sid := e']> i).
Proof.
  intros H He n Hf e' k'. assert (store_ok ws k' i) as H' by (apply put_file_ok; [done|apply whole_map]).
  destruct (rolled_fields stamp n (unmaterialized k e) count catalog e) as (E1 & E2 & E3 & _).
  fold e' in E1, E2, E3. destruct (entry_is_valid _ _ _ _ _ H He) as [Hs _].
  pose proof (rollover_plain _ _ _ _ H He) as Hp. fold n in Hp. destruct (so_tidy _ _ _ H _ _ He) as [T1 T2 T3].
  apply put_entry_ok; [done..| | | | |].
  - by eapply rolled_valid.
  - rewrite E3. exact (entry_bound _ _ _ _ _ H He).
  - split; rewrite E1, ?E2.
    + destruct (unmaterialized k e); [apply NoDup_singleton|]. apply NoDup_app. split_and!; [done| |apply NoDup_singleton].
      intros x Hx ->%list_elem_of_singleton. exact (Hf _ _ He Hx).
    + destruct (unmaterialized k e); [done|]. by rewrite last_snoc.
    + destruct (unmaterialized k e); [by repeat constructor|]. apply Forall_app. split; [done|]. by repeat constructor.
  - eapply (fresh_apart k i sid e n); [done..|]. rewrite E1. destruct (unmaterialized k e); set_solver.
  - intros _. rewrite E2. unfold k'. cbn. by rewrite lookup_insert_eq.
Qed.

Lemma read_lines_written n l : Forall (λ d, record_valid d = true) l → read_lines n (map Written l) = Ok (map (pair n) l).
Proof. induction 1 as [|d l Hd _ IH]; [done|]. cbn. by rewrite Hd, IH. Qed.

Lemma mapM_validated l l' : mapM validated l = Ok l' → Forall2 (λ r d, validated r = Ok d) l l'.
Proof.
  revert l'. induction l as [|r l IH]; intros l'; cbn; [intros [= <-]; constructor|].
  destruct (validated r) as [d|] eqn:E; [|done]. cbn. destruct (mapM validated l) as [x|]; [|done]. cbn. intros [= <-].
  constructor; auto.
Qed.

Lemma validated_all l l' : mapM validated l = Ok l' → Forall (λ d, record_valid d = true) l'.
Proof. intros H%mapM_validated. induction H; constructor; [by eapply validated_valid|done]. Qed.

Lemma view_nothing k i sid e : store_ok ws k i → i !! sid = Some e → unmaterialized k e = true → view k sid = Ok [].
Proof.
  intros H He [Hp Hn]%andb_true_iff. destruct (dk_files k !! sn_latest_file e) eqn:E; [done|].
  unfold view. rewrite (so_index _ _ _ H), He, (so_reserved _ _ _ H _ _ He Hp E).
  destruct (latest_split e) as (_ & _ & _ & Hpl); [by eapply so_tidy|].
  unfold read_segments, read_segment. cbn. rewrite Hpl, E, Hp. cbn. by rewrite bool_decide_true.
Qed.

Lemma view_rolled stamp k i sid e catalog count l recs :
  store_ok ws k i → i !! sid = Some e → let n := rollover_name sid e in fresh i n → view k sid = Ok l →
  Forall (λ d, record_valid d = true) recs →
  view (put_entry sid (rolled stamp n (unmaterialized k e) count catalog e) i (put_file n (map Written recs) k)) sid
  = Ok (l ++ map (pair n) recs).
Proof.
  intros H He n Hf Hv Hr. set (e' := rolled _ _ _ _ _ _).
  destruct (rolled_fields stamp n (unmaterialized k e) count catalog e) as (E1 & E2 & _). fold e' in E1, E2.
  pose proof (rollover_plain _ _ _ _ H He) as Hp. fold n in Hp.
  assert (∀ front, read_segments e' (<[n := map Written recs]> (dk_files k)) (front ++ [n])
            = (a ← read_segments e' (<[n := map Written recs]> (dk_files k)) front; mret (a ++ map (pair n) recs))) as Hlast.
  { intros front. rewrite read_segments_snoc. f_equal. unfold read_segment at 1. rewrite Hp. cbn [negb].
    by rewrite lookup_insert_eq, read_lines_written. }
  unfold view. cbn. rewrite lookup_insert_eq, E1. destruct (unmaterialized k e) eqn:Eu.
  - rewrite (view_nothing k i sid e H He Eu) in Hv. injection Hv as <-. apply (Hlast []).
  - rewrite Hlast. unfold view in Hv. rewrite (so_index _ _ _ H), He in Hv.
    rewrite (read_segments_agree e' e _ (dk_files k) (sn_files e)); [by rewrite Hv|].
    intros m Hm. assert (m ≠ n) as Hne by (intros ->; exact (Hf _ _ He Hm)).
    unfold read_segment. rewrite lookup_insert_ne by done. destruct (plain_name m); [|done]. cbn [negb].
    destruct (dk_files k !! m) eqn:Em; [done|]. rewrite E2, (bool_decide_false (m = n)) by done. rewrite andb_false_r.
    destruct (is_pending e && bool_decide (m = sn_latest_file e)) eqn:Ep; [|done].
    apply andb_true_iff in Ep as [Ep Eq]. apply bool_decide_eq_true in Eq as ->. unfold unmaterialized in Eu. by rewrite Ep, Em in Eu.
Qed.

(** ** Removing a turn *)

(** What every directory on the way shows: the session as it was or as it will
    be, the others as they are. *)
Definition old_or_new i k sid (new : list (string * Dict)) k' : Prop :=
  (view k' sid = view k sid ∨ view k' sid = Ok new) ∧ (∀ sid', sid' ≠ sid → is_some (i !! sid') = true → view k' sid' = view k sid').

Lemma view_same k k' i sid e :
  dk_index k = Some i → dk_index k' = Some i → i !! sid = Some e → (∀ m, m ∈ sn_files e → dk_files k' !! m = dk_files k !! m) → view k' sid = view k sid.
Proof.
  intros H H' He Hf. unfold view. rewrite H, H', He. apply read_segments_agree. intros m Hm. unfold read_segment. by rewrite Hf.
Qed.

Definition unlink_old n : string → Fs unit := λ old, if bool_decide (old = n) || negb (plain_name old) then mret tt else unlink old.
(** Only files of [l] other than [n] are gone. *)
Definition fewer n (l : list string) k k' : Prop :=
  dk_index k' = dk_index k ∧ (∀ m, m ∉ l ∨ m = n → dk_files k' !! m = dk_files k !! m) ∧ (∀ m ls, dk_files k' !! m = Some ls → dk_files k !! m = Some ls).

Lemma fewer_refl n l k : fewer n l k k.
Proof. split_and!; done. Qed.

Lemma unlinks_ok n l : ∀ s, ∃ k' tr, each (unlink_old n) l s = (Ok tt, mkDrive k' (dv_trail s ++ tr)) ∧ fewer n l (dv_disk s) k' ∧ Forall (fewer n l (dv_disk s)) tr.
Proof.
  induction l as [|x l IH]; intros s.
  - exists (dv_disk s), []. destruct s. cbn. rewrite app_nil_r. split_and!; [done|apply fewer_refl|constructor].
  - cbn [each]. rewrite fs_bindE. unfold unlink_old at 1.
    assert (∀ k', fewer n l (dv_disk s) k' → fewer n (x :: l) (dv_disk s) k') as Hmono.
    { intros k' (H1 & H2 & H3). split_and!; [done| |done]. intros m Hm. apply H2. rewrite elem_of_cons in Hm. tauto. }
    destruct (bool_decide (x = n) || negb (plain_name x)) eqn:Eb; cbn [mret fs_ret].
    { destruct (IH s) as (k' & tr & E & Hk & Ht). exists k', tr. split_and!; [done|auto|by eapply Forall_impl]. }
    apply orb_false_iff in Eb as [Hx _]. apply bool_decide_eq_false in Hx. unfold unlink. rewrite fs_bindE. unfold fs_disk.
    destruct (is_some (dk_files (dv_disk s) !! x)); cbn [mret fs_ret].
    2: { destruct (IH s) as (k' & tr & E & Hk & Ht). exists k', tr. split_and!; [done|auto|by eapply Forall_impl]. }
    unfold fs_write. set (k1 := (dv_disk s) ⟪ dk_files := delete x (dk_files (dv_disk s)) ⟫).
    assert (fewer n (x :: l) (dv_disk s) k1) as H1.
    { split_and!; [done| |].
      - intros m Hm. cbn. apply lookup_delete_ne. intros <-. destruct Hm as [Hm|Hm]; [apply Hm; left|done].
      - intros m ls Hm. cbn in Hm. by apply lookup_delete_Some in Hm as [_ Hm]. }
    assert (∀ k', fewer n l k1 k' → fewer n (x :: l) (dv_disk s) k') as Htrans.
    { intros k' (A & B & C). destruct H1 as (A1 & B1 & C1). split_and!; [by rewrite A| |eauto].
      intros m Hm. rewrite B, B1; [done|done|]. rewrite elem_of_cons in Hm. tauto. }
    destruct (IH (mkDrive k1 (dv_trail s ++ [k1]))) as (k' & tr & E & Hk & Ht). cbn [dv_disk dv_trail] in *.
    exists k', (k1 :: tr). split_and!.
    + rewrite E. by rewrite <- (assoc_L (++)).
    + auto.
    + constructor; [done|]. by eapply Forall_impl.
Qed.

Definition edit_name suffix sid e : string :=
  before_underscore (default "" (head (sn_files e))) +:+ "_" +:+ sid +:+ "_edit-" +:+ suffix +:+ ".jsonl".
Definition edited stamp n (count : nat) e : Entry :=
  let e' := (e ⟪ sn_files := [n] ⟫) ⟪ sn_latest_file := n ⟫ in
  if bool_decide (count = O) then (e' ⟪ sn_state := SegmentPending ⟫) ⟪ sn_materialized_at := None ⟫
  else (e' ⟪ sn_state := SegmentActive ⟫) ⟪ sn_materialized_at := Some stamp ⟫.

Lemma edited_fields stamp n count e :
  let e' := edited stamp n count e in
  sn_files e' = [n] ∧ sn_latest_file e' = n ∧ sn_workspace_id e' = sn_workspace_id e ∧ sn_created_at e' = sn_created_at e
  ∧ sn_display_name e' = sn_display_name e ∧ is_pending e' = bool_decide (count = O).
Proof. unfold edited. destruct (bool_decide (count = O)); done. Qed.

(** The directory once the index names the new segment. *)
Definition edit_file n (recs : list Dict) k : Disk := if bool_decide (length recs = O) then k else put_file n (map Written recs) k.
Definition edit_disk stamp n sid e i (recs : list Dict) k : Disk := put_entry sid (edited stamp n (length recs) e) i (edit_file n recs k).

Lemma edit_file_lookup n recs k : dk_files k !! n = None → dk_files (edit_file n recs k) !! n = if bool_decide (length recs = O) then None else Some (map Written recs).
Proof. intros H. unfold edit_file. destruct (bool_decide _); [done|]. apply lookup_insert_eq. Qed.

Lemma edit_file_other n recs k m : m ≠ n → dk_files (edit_file n recs k) !! m = dk_files k !! m.
Proof. intros H. unfold edit_file. destruct (bool_decide _); [done|]. by apply lookup_insert_ne. Qed.

Lemma edit_disk_ok stamp n sid e i recs k :
  store_ok ws k i → i !! sid = Some e → fresh i n → plain_name n = true → nonempty n = true →
  let e' := edited stamp n (length recs) e in store_ok ws (edit_disk stamp n sid e i recs k) (<[sid := e']> i).
Proof.
  intros H He Hf Hp Hn e'. destruct (edited_fields stamp n (length recs) e) as (E1 & E2 & E3 & E4 & E5 & E6).
  fold e' in E1, E2, E3, E4, E5, E6. destruct (entry_is_valid _ _ _ _ _ H He) as [Hs Hv].
  apply put_entry_ok; [|done| | | | |].
  - unfold edit_file. destruct (bool_decide _); [done|]. apply put_file_ok; [done|apply whole_map].
  - fold e'. apply (Entry_valid_files e); rewrite ?E2, ?E1; [done..|]. by left.
  - fold e'. rewrite E3. exact (entry_bound _ _ _ _ _ H He).
  - fold e'. split; rewrite E1, ?E2; [apply NoDup_singleton|done|by repeat constructor].
  - fold e'. rewrite E1. eapply (fresh_apart k i sid e n); [done..|]. set_solver.
  - fold e'. intros _ _. by rewrite E1, E2.
Qed.

Lemma view_edited stamp n sid e i recs k :
  dk_files k !! n = None → plain_name n = true → Forall (λ d, record_valid d = true) recs →
  view (edit_disk stamp n sid e i recs k) sid = Ok (map (pair n) recs).
Proof.
  intros Hn Hp Hr. unfold view.
  change (dk_index (edit_disk stamp n sid e i recs k)) with (Some (<[sid := edited stamp n (length recs) e]> i)).
  change (dk_files (edit_disk stamp n sid e i recs k)) with (dk_files (edit_file n recs k)). cbn beta iota. rewrite lookup_insert_eq.
  destruct (edited_fields stamp n (length recs) e) as (-> & E2 & _ & _ & _ & E6).
  change [n] with ([] ++ [n]). rewrite read_segments_snoc. cbn [read_segments mapM mbind res_bind mret res_ret].
  unfold read_segment. rewrite Hp, E2, E6, edit_file_lookup by done. cbn [negb].
  destruct (bool_decide (length recs = O)) eqn:E.
  - apply bool_decide_eq_true in E. destruct recs; [|done]. cbn. by rewrite bool_decide_true.
  - by rewrite read_lines_written.
Qed.

Lemma read_lines_valid n ls l : read_lines n ls = Ok l → Forall (λ fr, record_valid fr.2 = true) l.
Proof.
  revert l. induction ls as [|x ls IH]; intros l; cbn; [intros [= <-]; constructor|].
  destruct x as [d|d|]; [..|done]; (destruct (record_valid d) eqn:Ed; [|done]); (destruct (read_lines n ls) as [r|]; [|done]);
    intros [= <-]; constructor; auto.
Qed.

Lemma view_valid k sid l : view k sid = Ok l → Forall (λ fr, record_valid fr.2 = true) l.
Proof.
  unfold view. destruct (dk_index k) as [i|]; [|done]. destruct (i !! sid) as [e|]; [|done]. unfold read_segments.
  revert l. induction (sn_files e) as [|n ns IH]; intros l; cbn; [intros [= <-]; constructor|].
  destruct (read_segment e (dk_files k) n) as [a|] eqn:Ea; [|done]. cbn.
  destruct (mapM (read_segment e (dk_files k)) ns) as [b|]; [|done]. cbn. intros [= <-]. apply Forall_app. split; [|by apply IH].
  unfold read_segment in Ea. destruct (negb (plain_name n)); [done|]. destruct (dk_files k !! n) as [ls|]; [by eapply read_lines_valid|].
  destruct (is_pending e && _); [|done]. injection Ea as <-. constructor.
Qed.

Lemma valid_validated l : Forall (λ d, record_valid d = true) l → ∃ l', mapM validated l = Ok l'.
Proof.
  induction 1 as [|d l Hd _ [l' IH]]; [by exists []|]. cbn [mapM].
  assert (validated d = Ok (fields_of d FIELDS ++ extras_of d)) as -> by (by apply validated_spec). cbn [mbind res_bind].
  rewrite IH. by eexists.
Qed.

Lemma edit_plain k i sid e suffix :
  store_ok ws k i → i !! sid = Some e → slash_free suffix = true → plain_name (edit_name suffix sid e) = true.
Proof.
  intros H He Hs. unfold edit_name. change ("_edit-" +:+ suffix +:+ ".jsonl") with ("_" +:+ ("edit-" +:+ suffix +:+ ".jsonl")).
  eapply segment_name_plain; [done..|]. by rewrite !slash_free_app, Hs.
Qed.

(** The views of a directory on the way. *)
Lemma edit_view k i sid e n recs stamp k' :
  store_ok ws k i → i !! sid = Some e → fresh i n → dk_files k !! n = None → plain_name n = true → Forall (λ d, record_valid d = true) recs →
  fewer n (sn_files e) (edit_disk stamp n sid e i recs k) k' →
  view k' sid = Ok (map (pair n) recs) ∧ (∀ sid', sid' ≠ sid → is_some (i !! sid') = true → view k' sid' = view k sid').
Proof.
  intros H He Hf Hn Hp Hr (F1 & F2 & F3). split.
  - rewrite <- (view_edited stamp n sid e i recs k) by done.
    apply (view_same _ _ (<[sid := edited stamp n (length recs) e]> i) sid (edited stamp n (length recs) e)); [done|done|apply lookup_insert_eq|].
    intros m Hm. apply F2. right. destruct (edited_fields stamp n (length recs) e) as (E & _). rewrite E in Hm.
    by apply list_elem_of_singleton in Hm.
  - intros sid' Hne Hs. destruct (i !! sid') as [e'|] eqn:E'; [|done]. unfold view. rewrite F1, (so_index _ _ _ H), E'.
    change (dk_index (edit_disk stamp n sid e i recs k)) with (Some (<[sid := edited stamp n (length recs) e]> i)).
    cbn beta iota. rewrite lookup_insert_ne, E' by done. apply read_segments_agree. intros m Hm. unfold read_segment.
    rewrite F2 by (left; intros Hm'; apply Hne; exact (so_apart _ _ _ H _ _ _ _ m E' He Hm Hm')).
    change (dk_files (edit_disk stamp n sid e i recs k)) with (dk_files (edit_file n recs k)).
    by rewrite edit_file_other by (intros ->; exact (Hf _ _ E' Hm)).
Qed.

Lemma fewer_ok k i sid e n l k' : store_ok ws k i → i !! sid = Some e → sn_files e = [n] →
  (∀ sid' e' m, sid' ≠ sid → i !! sid' = Some e' → m ∈ sn_files e' → m ∉ l) → fewer n l k k' → store_ok ws k' i.
Proof.
  intros [A B C D E F G] He Hn Ho (F1 & F2 & F3). split; [by rewrite F1|done|done|done|done|eauto|].
  intros sid' e' He' Hp Hm. destruct (latest_split e') as (f & Hf & _); [by eapply D|].
  apply (G sid'); [done..|]. rewrite <- F2; [done|]. destruct (decide (sid' = sid)) as [->|Hne].
  - right. rewrite He in He'. injection He' as <-. rewrite Hn in Hf. destruct f as [|x f]; [by injection Hf|]. injection Hf as _ Hf. by destruct f.
  - left. apply (Ho sid' e'); [done..|]. rewrite Hf. apply elem_of_app. right. by left.
Qed.

Lemma truncate_ok stamp suffix s i sid e l at_ :
  store_ok ws (dv_disk s) i → i !! sid = Some e → view (dv_disk s) sid = Ok l → last_user l = Some at_ →
  let n := edit_name suffix sid e in slash_free suffix = true → fresh i n → dk_files (dv_disk s) !! n = None →
  ∃ recs k' tr, mapM validated (map snd (take at_ l)) = Ok recs
    ∧ truncate_last_turn ws stamp suffix sid s = (Ok (Z.of_nat (length l - length recs)), mkDrive k' (dv_trail s ++ tr))
    ∧ fewer n (sn_files e) (edit_disk stamp n sid e i recs (dv_disk s)) k'
    ∧ Forall (λ k, k = edit_file n recs (dv_disk s) ∨ fewer n (sn_files e) (edit_disk stamp n sid e i recs (dv_disk s)) k) tr.
Proof.
  intros H He Hl Hat n Hs Hf Hn. set (k := dv_disk s).
  destruct (valid_validated (map snd (take at_ l))) as [recs Hrecs].
  { apply Forall_fmap. apply Forall_take. by eapply view_valid. }
  pose proof (Forall2_length _ _ _ (mapM_validated _ _ Hrecs)) as Hlen.
  assert (length (map snd (take at_ l)) = length recs) as Hlen' by done.
  set (s1 := if bool_decide (length recs = O) then s else step_to (edit_file n recs k) s).
  assert (dv_disk s1 = edit_file n recs k) as Hs1 by (unfold s1, edit_file; by destruct (bool_decide _)).
  set (s2 := step_to (edit_disk stamp n sid e i recs k) s1).
  destruct (unlinks_ok n (sn_files e) s2) as (k' & tr & Eu & Hk' & Htr).
  exists recs, k', ((if bool_decide (length recs = O) then [] else [edit_file n recs k]) ++ [edit_disk stamp n sid e i recs k] ++ tr).
  split_and!; [done| |done|].
  - unfold truncate_last_turn. rewrite fs_bindE, (read_all_ok _ _ _ _ _ H He).
    rewrite Hl, Hat. rewrite fs_bindE. cbn [fs_lift res_of_option]. rewrite (fs_bind_ok _ _ _ _ _ (read_index_ok _ _ _ H)), He.
    rewrite fs_bindE. cbn [fs_lift res_of_option]. fold (edit_name suffix sid e). fold n. rewrite Hlen'.
    rewrite fs_bindE.
    assert ((if bool_decide (length recs = O) then mret tt else publish_segment n (map snd (take at_ l))) s = (Ok tt, s1)) as ->.
    { unfold s1. destruct (bool_decide (length recs = O)) eqn:E0; [done|]. unfold publish_segment. rewrite fs_bindE. unfold fs_lift.
      rewrite Hrecs. unfold fs_write, step_to, edit_file. by rewrite E0. }
    rewrite fs_bindE. fold (edited stamp n (length recs) e).
    rewrite write_index_ok.
    2: { eapply Index_valid_insert; [done..|]. destruct (entry_is_valid _ _ _ _ _ H He) as [_ Hv].
         destruct (edited_fields stamp n (length recs) e) as (E1 & E2 & E3 & E4 & E5 & _).
         apply (Entry_valid_files e); rewrite ?E2, ?E1; [done..|apply name_nonempty|by left]. }
    change ((dv_disk s1) ⟪ dk_index := _ ⟫) with (put_entry sid (edited stamp n (length recs) e) i (dv_disk s1)). rewrite Hs1.
    fold (edit_disk stamp n sid e i recs k). fold s2. rewrite fs_bindE. fold (unlink_old n). rewrite Eu.
    unfold s2, s1. cbn. do 2 f_equal. destruct (bool_decide (length recs = O)); cbn; by rewrite <- ?(assoc_L (++)).
  - rewrite !Forall_app. split_and!.
    + destruct (bool_decide _); constructor; [by left|constructor].
    + constructor; [right; apply fewer_refl|constructor].
    + eapply Forall_impl; [exact Htr|]. intros x Hx. by right.
Qed.

(** ** The directories on the way *)

Lemma rollover_views stamp k i sid e catalog count l recs :
  store_ok ws k i → i !! sid = Some e → let n := rollover_name sid e in fresh i n → view k sid = Ok l →
  Forall (λ d, record_valid d = true) recs →
  Forall (old_or_new i k sid (l ++ map (pair n) recs))
    ([put_file n (map Written recs) k]
     ++ [put_entry sid (rolled stamp n (unmaterialized k e) count catalog e) i (put_file n (map Written recs) k)]).
Proof.
  intros H He n Hf Hv Hr.
  assert (∀ sid', is_some (i !! sid') = true → view (put_file n (map Written recs) k) sid' = view k sid') as Ho.
  { intros sid' Hs. destruct (i !! sid') as [e'|] eqn:E'; [|done]. eapply view_put_file; [done..|]. exact (Hf _ _ E'). }
  constructor; [|constructor; [|constructor]].
  - split; [left; apply Ho; by rewrite He|]. intros sid' _. apply Ho.
  - split; [right; by eapply view_rolled|]. intros sid' Hne Hs. rewrite <- Ho by done.
    apply view_put_entry; [apply (so_index _ _ _ H)|done].
Qed.

Lemma edit_views k i sid e n recs stamp k' :
  store_ok ws k i → i !! sid = Some e → fresh i n → dk_files k !! n = None → plain_name n = true → Forall (λ d, record_valid d = true) recs →
  k' = edit_file n recs k ∨ fewer n (sn_files e) (edit_disk stamp n sid e i recs k) k' → old_or_new i k sid (map (pair n) recs) k'.
Proof.
  intros H He Hf Hn Hp Hr [->|Hk].
  - assert (∀ sid', is_some (i !! sid') = true → view (edit_file n recs k) sid' = view k sid') as Ho.
    { intros sid' Hs. destruct (i !! sid') as [e'|] eqn:E'; [|done]. unfold edit_file. destruct (bool_decide _); [done|].
      eapply view_put_file; [done..|]. exact (Hf _ _ E'). }
    split; [left; apply Ho; by rewrite He|]. intros sid' _. apply Ho.
  - destruct (edit_view k i sid e n recs stamp k' H He Hf Hn Hp Hr Hk) as [H1 H2]. split; [by right|done].
Qed.

Lemma edited_ok stamp n sid e i recs k k' :
  store_ok ws k i → i !! sid = Some e → fresh i n → plain_name n = true → nonempty n = true →
  fewer n (sn_files e) (edit_disk stamp n sid e i recs k) k' → store_ok ws k' (<[sid := edited stamp n (length recs) e]> i).
Proof.
  intros H He Hf Hp Hn Hk. destruct (edited_fields stamp n (length recs) e) as (E1 & _).
  eapply (fewer_ok _ _ sid _ n); [by apply edit_disk_ok|apply lookup_insert_eq|exact E1| |exact Hk].
  intros sid' e' m Hne He' Hm Hm'. rewrite lookup_insert_ne in He' by done. apply Hne. exact (so_apart _ _ _ H _ _ _ _ m He' He Hm Hm').
Qed.

Lemma compare_never r x : compare_records r x ≠ Ok true.
Proof.
  unfold compare_records. destruct (validated (dict_set _ _ r)) as [a|]; [|done]. cbn [mbind res_bind].
  destruct (validated x) as [b|]; [|done]. cbn [mbind res_bind].
  destruct (canonical_record a) as [ta|]; [|done]. cbn [mbind res_bind]. destruct (canonical_record b) as [tb|]; [|done]. cbn [mbind res_bind].
  by destruct (bool_decide (ta = tb)).
Qed.
End steps.

Lemma find_snoc {A} (p : A → bool) l x : (∀ y, y ∈ l → p y = false) → p x = true → List.find p (l ++ [x]) = Some x.
Proof.
  induction l as [|y l IH]; cbn; intros H Hx; [by rewrite Hx|]. rewrite (H y) by left. apply IH; [|done]. intros z Hz. apply H. by right.
Qed.

(** ** References to records *)

Lemma by_record_id_snoc l fr : by_record_id (l ++ [fr]) = match str_of "record_id" fr.2 with Some id => <[id := fr]> (by_record_id l) | None => by_record_id l end.
Proof. unfold by_record_id. by rewrite foldl_app. Qed.

Definition ids_of (l : list (string * Dict)) : list string := omap (λ fr, str_of "record_id" fr.2) l.

Lemma by_record_id_in l id fr : by_record_id l !! id = Some fr → fr ∈ l ∧ str_of "record_id" fr.2 = Some id.
Proof.
  induction l as [|x l IH] using rev_ind; [done|]. rewrite by_record_id_snoc. destruct (str_of "record_id" x.2) as [id'|] eqn:E.
  - intros [[<- <-]|[_ H]]%lookup_insert_Some; [split; [apply elem_of_app; right; by left|done]|].
    destruct (IH H) as [Hin ?]. split; [apply elem_of_app; by left|done].
  - intros H. destruct (IH H) as [Hin ?]. split; [apply elem_of_app; by left|done].
Qed.

Lemma by_record_id_unique l id fr : NoDup (ids_of l) → fr ∈ l → str_of "record_id" fr.2 = Some id → by_record_id l !! id = Some fr.
Proof.
  unfold ids_of. induction l as [|x l IH] using rev_ind; [by intros _ ?%elem_of_nil|]. rewrite omap_app, by_record_id_snoc.
  intros (Hn & Hd & _)%NoDup_app [Hin|Hin]%elem_of_app Hr.
  - destruct (str_of "record_id" x.2) as [id'|] eqn:E; [|by apply IH]. rewrite lookup_insert_ne; [by apply IH|]. intros ->.
    apply (Hd id); [apply list_elem_of_omap; by exists fr|]. apply list_elem_of_omap. exists x. split; [by left|done].
  - apply list_elem_of_singleton in Hin as <-. rewrite Hr. apply lookup_insert_eq.
Qed.

(** What a reference of [make_record_refs] holds. *)
Definition ref_of (located : gmap string (string * Dict)) (r : Dict) (j : json) : Prop :=
  ∃ id f h, str_of "record_id" r = Some id ∧ located !! id = Some (f, r) ∧ record_digest r = Ok h
    ∧ j = JObj [("record_id", JStr id); ("segment", JStr f); ("sha256", JStr h)].

Lemma refs_made (located : gmap string (string * Dict)) (recs : list Dict) :
  (∀ r : Dict, r ∈ recs → finite (JObj r) = true ∧ ∃ id f, str_of "record_id" r = Some id ∧ located !! id = Some (f, r)) →
  ∃ refs, mapM (make_record_ref located) recs = Ok refs ∧ Forall2 (ref_of located) recs refs.
Proof.
  induction recs as [|r recs IH]; intros H; [exists []; split; [done|constructor]|].
  destruct (IH ltac:(intros; apply H; by right)) as (refs & E & Hf). destruct (H r ltac:(left)) as (Hfin & id & f & Hid & Hl).
  assert (∃ h, record_digest r = Ok h) as [h Hh] by (unfold record_digest, canonical_record, json_dumps_finite; rewrite Hfin; by eexists).
  set (j := JObj [("record_id", JStr id); ("segment", JStr f); ("sha256", JStr h)]).
  assert (make_record_ref located r = Ok j) as Hj.
  { unfold make_record_ref. rewrite Hid. cbn [res_of_option mbind res_bind]. rewrite Hl. cbn [res_of_option mbind res_bind snd fst].
    rewrite Hh. cbn [mbind res_bind]. by rewrite bool_decide_true. }
  exists (j :: refs). split.
  - cbn [mapM]. rewrite Hj. cbn [mbind res_bind]. by rewrite E.
  - constructor; [|done]. by exists id, f, h.
Qed.

Lemma refs_read (located located' : gmap string (string * Dict)) (recs : list Dict) : ∀ refs seen,
  Forall2 (ref_of located) recs refs → NoDup (omap (str_of "record_id") recs) →
  (∀ (r : Dict) id, r ∈ recs → str_of "record_id" r = Some id → id ∉ seen ∧ located' !! id = located !! id) →
  (∀ r : Dict, r ∈ recs → role_of r ∈ ["user"; "assistant"; "tool"]) →
  protected_records located' seen refs = Ok recs.
Proof.
  induction recs as [|r recs IH]; intros refs seen Hf Hn Hl Hr; inversion Hf as [|? j ? refs' Hj Hf' Ea Eb]; subst; [done|].
  destruct Hj as (id & f & h & Hid & Hloc & Hh & ->). cbn in Hn. rewrite Hid in Hn. apply NoDup_cons in Hn as [Hni Hn].
  destruct (Hl r id ltac:(left) Hid) as [Hs Hl1]. cbn [protected_records dict_of res_of_option mbind res_bind].
  change (str_of "record_id" [("record_id", JStr id); ("segment", JStr f); ("sha256", JStr h)]) with (Some id).
  change (str_of "sha256" [("record_id", JStr id); ("segment", JStr f); ("sha256", JStr h)]) with (Some h).
  change (str_of "segment" [("record_id", JStr id); ("segment", JStr f); ("sha256", JStr h)]) with (Some f).
  cbn [res_of_option mbind res_bind]. rewrite bool_decide_false by done. rewrite Hl1, Hloc. cbn [res_of_option mbind res_bind fst snd].
  rewrite bool_decide_true by done. cbn [negb]. rewrite Hh. cbn [mbind res_bind]. rewrite bool_decide_true by done. cbn [negb].
  rewrite bool_decide_true by (apply Hr; left). cbn [negb].
  rewrite (IH refs' (id :: seen)); [done|done|done| |intros; apply Hr; by right].
  intros r' id' Hr' Hid'. destruct (Hl r' id' ltac:(by right) Hid') as [Hs' Hl']. split; [|done].
  rewrite not_elem_of_cons. split; [|done]. intros ->. apply Hni, list_elem_of_omap. by exists r'.
Qed.

(** A record in a file of one name alone does not answer a reference to another. *)
Lemma refs_moved n recs seen item rest d seg :
  item = JObj d → str_of "segment" d = Some seg → seg ≠ n → ∃ x, protected_records (by_record_id (map (pair n) recs)) seen (item :: rest) = Err x.
Proof.
  intros -> Hd Hne. cbn [protected_records dict_of res_of_option mbind res_bind].
  destruct (str_of "record_id" d) as [id|]; [|by eexists]. destruct (str_of "sha256" d) as [h|]; [|by eexists].
  cbn [res_of_option mbind res_bind]. destruct (bool_decide (id ∈ seen)); [by eexists|].
  destruct (by_record_id _ !! id) as [fr|] eqn:E; [|by eexists]. cbn [res_of_option mbind res_bind].
  apply by_record_id_in in E as [Hin _]. apply list_elem_of_fmap in Hin as (r & -> & _). cbn [fst]. rewrite Hd, bool_decide_false by done. by eexists.
Qed.

Section reading.
Context (ws : option string).

Lemma read_records_ok s i sid e ls :
  store_ok ws (dv_disk s) i → i !! sid = Some e → dk_files (dv_disk s) !! sn_latest_file e = Some ls →
  read_records ws sid s = (split_lines ls, s).
Proof.
  intros H He Hf. unfold read_records. rewrite (fs_bind_ok _ _ _ _ _ (active_path_ok _ _ _ _ _ H He)).
  rewrite (fs_bind_ok _ _ _ _ _ (index_entry_ok _ _ _ _ _ H He)). rewrite fs_bindE. unfold fs_disk. by rewrite Hf.
Qed.

Lemma split_written l : Forall (λ d, record_valid d = true) l → ∀ x, split_lines (map Written l) = Ok x → x = l.
Proof.
  induction 1 as [|d l Hd _ IH]; intros x; cbn; [by intros [= <-]|]. rewrite Hd.
  destruct (negb _); [|done]. cbn. destruct (split_lines (map Written l)) as [y|]; [|done]. cbn. intros [= <-]. by rewrite (IH y).
Qed.
End reading.

Lemma find_validated (l : list (string * Dict)) recs f summary :
  Forall2 (λ r d, validated r = Ok d) (map snd l) recs → List.find (λ fr, is_summary fr.2) l = Some (f, summary) →
  ∃ r, List.find is_summary recs = Some r ∧ dict_get "protected_tail_refs" r = dict_get "protected_tail_refs" summary.
Proof.
  revert recs. induction l as [|[g x] l IH]; intros recs; [done|]. cbn. intros H. inversion H as [|? d ? recs' Hd Hrest]; subst. cbn.
  assert (is_summary d = is_summary x) as -> by (unfold is_summary, role_of, str_of; by rewrite (validated_get _ _ "role" Hd)).
  destruct (is_summary x); [|by apply IH]. intros [= <- <-]. exists d. split; [done|]. by apply validated_get.
Qed.

Lemma rollover_name_again sid e e1 : sn_files e1 = [rollover_name sid e] → length (sn_files e) = 1%nat → rollover_name sid e1 = rollover_name sid e.
Proof. intros H Hl. unfold rollover_name at 1. rewrite H. cbn [head default from_option id length]. unfold rollover_name. by rewrite date_again, Hl. Qed.

Lemma view_twice n k recs i sid e :
  dk_index k = Some i → i !! sid = Some e → sn_files e = [n; n] → dk_files k !! n = Some (map Written recs) → plain_name n = true →
  Forall (λ d, record_valid d = true) recs → view k sid = Ok (map (pair n) (recs ++ recs)).
Proof.
  intros Hi He Hf Hn Hp Hr. unfold view. rewrite Hi, He, Hf. unfold read_segments, read_segment. cbn [mapM]. rewrite Hp, Hn, read_lines_written by done.
  cbn. by rewrite app_nil_r, map_app.
Qed.
