(* ===== verification/Conversations.v ===== *)
(** * Conversations: what the session store promises

    Appending is idempotent by record id; replacing segments is atomic under a
    crash; a compaction keeps the records it protects; what is restored is a
    conversation a model accepts.  And two ways to lose one. *)

From S2P Require Import Prelude PyText PyTime Json AgentState ProviderContext Sessions SessionFacts SessionDisk SessionSteps.

(** The session [sid] of an orderly directory, and its records. *)
Record session_at (ws : option string) (s : Drive) (i : Index) (sid : string) (e : Entry) (l : list (string * Dict)) : Prop := {
  sa_ok : store_ok ws (dv_disk s) i; sa_entry : i !! sid = Some e; sa_view : view (dv_disk s) sid = Ok l
}.

(** ** Histories *)

Definition is_tool (m : Dict) : bool := bool_decide (role_of m = "tool").
(** The tool messages that come first. *)
Fixpoint tools_of (l : list Dict) : list Dict :=
  match l with m :: rest => if is_tool m then m :: tools_of rest else [] | [] => [] end.
Definition answers (c : string) (l : list Dict) : Prop := ∃ t, t ∈ tools_of l ∧ str_of "tool_call_id" t = Some c.
(** Every call of a message is answered before anything else is said. *)
Fixpoint answered (l : list Dict) : Prop :=
  match l with
  | [] => True
  | m :: rest =>
      (role_of m = "assistant" → ∀ calls call c name, tool_calls_of m = Some calls → call ∈ calls → call_of call = Some (c, name) → answers c rest)
      ∧ answered rest
  end.
(** No user message comes right after another one or after a tool's. *)
Fixpoint alternates (previous : option string) (l : list Dict) : Prop :=
  match l with
  | [] => True
  | m :: rest => (role_of m = "user" → previous ≠ Some "user" ∧ previous ≠ Some "tool") ∧ alternates (Some (role_of m)) rest
  end.

Lemma text_set_keys k v p c : c ∈ (text_set k v p).*1 ↔ c = k ∨ c ∈ p.*1.
Proof.
  induction p as [|[k' v'] p IH]; cbn; [rewrite elem_of_cons, elem_of_nil; tauto|].
  destruct (bool_decide (k = k')) eqn:E; cbn; rewrite !elem_of_cons; [apply bool_decide_eq_true in E as ->; tauto|].
  rewrite IH. tauto.
Qed.

Lemma calls_pending calls : ∀ p c, c ∈ p.*1 ∨ (∃ call name, call ∈ calls ∧ call_of call = Some (c, name)) →
  c ∈ (foldl (λ p c, match call_of c with Some (id, name) => text_set id name p | None => p end) p calls).*1.
Proof.
  induction calls as [|x calls IH]; cbn; intros p c H.
  - destruct H as [H|(call & _ & H & _)]; [done|by apply elem_of_nil in H].
  - apply IH. destruct H as [H|(call & name & [->|H]%elem_of_cons & E)].
    + left. destruct (call_of x) as [[]|]; [apply text_set_keys; by right|done].
    + left. rewrite E. apply text_set_keys. by left.
    + right. eauto.
Qed.

Lemma closes_tools p rest : (∀ c, c ∈ p.*1 → answers c (close_pending p ++ rest)).
Proof.
  intros c ([c' n] & -> & H)%list_elem_of_fmap. induction p as [|[c1 n1] p IH]; [by apply elem_of_nil in H|].
  apply elem_of_cons in H as [[= <- <-]|H]; [eexists; split; [left|done]|].
  destruct (IH H) as (t & Ht & E). exists t. split; [by right|done].
Qed.

Lemma closes_answered p rest : answered rest → answered (close_pending p ++ rest).
Proof. intros H. induction p as [|[c n] p IH]; [done|]. split; [done|exact IH]. Qed.

Lemma complete_answered records : ∀ p, answered (complete_tool_chains p records) ∧ (∀ c, c ∈ p.*1 → answers c (complete_tool_chains p records)).
Proof.
  induction records as [|m rest IH]; intros p; cbn [complete_tool_chains].
  - split; [rewrite <- (app_nil_r (close_pending p)); by apply closes_answered|].
    intros c Hc. rewrite <- (app_nil_r (close_pending p)). by apply closes_tools.
  - destruct (bool_decide (role_of m = "tool")) eqn:Er.
    + destruct (IH (pending_after m p)) as [Ha Ho]. apply bool_decide_eq_true in Er. split; [split; [by rewrite Er|done]|].
      intros c Hc. unfold answers. cbn [tools_of]. unfold is_tool. rewrite bool_decide_true by done.
      destruct (decide (str_of "tool_call_id" m = Some c)) as [Em|Em]; [exists m; split; [by left|done]|].
      destruct (Ho c) as (t & Ht & E); [|exists t; split; [by right|done]].
      unfold pending_after. rewrite Er. destruct (str_of "tool_call_id" m) as [id|]; [|done].
      apply list_elem_of_fmap in Hc as ([c' n] & -> & Hc). apply list_elem_of_fmap. exists (c', n). split; [done|].
      apply list_elem_of_In, List.filter_In. split; [by apply list_elem_of_In|]. apply negb_true_iff, bool_decide_eq_false.
      cbn in *. congruence.
    + destruct (IH (pending_after m [])) as [Ha Ho]. split; [|by apply closes_tools]. apply closes_answered. split; [|done].
      intros Hr calls call c name Hc Hin E. apply Ho. unfold pending_after. rewrite Hr, Hc. apply calls_pending. right. eauto.
Qed.

Lemma normalize_tools a l : ∀ previous, tools_of (normalize_from a previous l) = tools_of l.
Proof.
  induction l as [|m rest IH]; intros previous; cbn [normalize_from]; [by destruct (_ && _)|].
  destruct (bool_decide (role_of m = "user") && _) eqn:E; cbn; [|by rewrite IH].
  apply andb_true_iff in E as [E _]. apply bool_decide_eq_true in E. unfold is_tool. by rewrite E.
Qed.

Lemma normalize_answered a l : ∀ previous, answered l → answered (normalize_from a previous l).
Proof.
  induction l as [|m rest IH]; intros previous; cbn [normalize_from].
  - intros _. by destruct (_ && _).
  - intros [Hm Hr]. assert (answered (m :: normalize_from a (Some (role_of m)) rest)) as H.
    { split; [|by apply IH]. intros R calls call c name Hc Hin E. unfold answers. rewrite normalize_tools.
      exact (Hm R calls call c name Hc Hin E). }
    destruct (bool_decide (role_of m = "user") && _); [split; [done|exact H]|exact H].
Qed.

Lemma normalize_alternates a l : ∀ previous, alternates previous (normalize_from a previous l).
Proof.
  induction l as [|m rest IH]; intros previous; cbn [normalize_from]; [destruct (_ && _); done|].
  destruct (bool_decide (role_of m = "user") && bool_decide (previous ∈ [Some "user"; Some "tool"])) eqn:E; cbn [app alternates].
  - split; [done|]. split; [done|]. apply IH.
  - split; [|apply IH]. intros R. rewrite (bool_decide_true (role_of m = "user")) in E by done. apply bool_decide_eq_false in E.
    rewrite !elem_of_cons, elem_of_nil in E. tauto.
Qed.

Lemma normalize_last l : ∀ previous m, last (normalize_from false previous l) = Some m → role_of m ≠ "user".
Proof.
  induction l as [|x rest IH]; intros previous m; cbn [normalize_from].
  - destruct (_ && _); [|done]. intros H. by injection H as <-.
  - rewrite last_app, last_cons. destruct (last (normalize_from false (Some (role_of x)) rest)) as [y|] eqn:E.
    { intros H. injection H as <-. by eapply IH. }
    intros H. injection H as <-. destruct rest as [|z rest]; cbn [normalize_from] in E.
    + destruct (bool_decide (Some (role_of x) = Some "user")) eqn:Eu; [done|]. apply bool_decide_eq_false in Eu. congruence.
    + rewrite last_app, last_cons in E. by destruct (last (normalize_from _ _ rest)).
Qed.

(** Only markers and unknown results are added, and nothing is lost. *)
Definition added (m : Dict) : Prop := m = MARKER ∨ role_of m = "tool" ∧ str_of "content" m = Some UNKNOWN_RESULT.

Lemma close_added p : Forall added (close_pending p).
Proof. apply Forall_fmap, Forall_forall. intros [c n] _. by right. Qed.

Lemma complete_sub records : ∀ p, records `sublist_of` complete_tool_chains p records ∧ Forall (λ m, m ∈ records ∨ added m) (complete_tool_chains p records).
Proof.
  induction records as [|m rest IH]; intros p; cbn [complete_tool_chains].
  - split; [apply sublist_nil_l|]. eapply Forall_impl; [apply close_added|]. by right.
  - assert (∀ q, m :: rest `sublist_of` m :: complete_tool_chains q rest ∧ Forall (λ x, x ∈ m :: rest ∨ added x) (m :: complete_tool_chains q rest)) as H.
    { intros q. destruct (IH q) as [Hs Hf]. split; [by apply sublist_skip|]. constructor; [left; left|].
      eapply Forall_impl; [exact Hf|]. intros x [Hx|Hx]; [left; by right|by right]. }
    destruct (bool_decide (role_of m = "tool")); [apply H|]. destruct (H (pending_after m [])) as [Hs Hf]. split.
    + by apply sublist_inserts_l.
    + apply Forall_app. split; [|done]. eapply Forall_impl; [apply close_added|]. by right.
Qed.

Lemma normalize_sub a l : ∀ previous, l `sublist_of` normalize_from a previous l ∧ Forall (λ m, m ∈ l ∨ added m) (normalize_from a previous l).
Proof.
  induction l as [|m rest IH]; intros previous; cbn [normalize_from].
  - split; [apply sublist_nil_l|]. destruct (_ && _); [|constructor]. constructor; [right; by left|constructor].
  - destruct (IH (Some (role_of m))) as [Hs Hf]. split.
    + by apply sublist_inserts_l, sublist_skip.
    + apply Forall_app. split; [destruct (_ && _); [constructor; [right; by left|]|]; constructor|]. constructor; [left; left|].
      eapply Forall_impl; [exact Hf|]. intros x [Hx|Hx]; [left; by right|by right].
Qed.

(** ** Properties *)

(** C37: what [restore] gives back is a conversation: every call of an assistant
    message is answered by the tool messages that follow it, before anything
    else; no user message follows another one or a tool's; the last message is
    not the user's, unless a compaction runs in the middle of a turn.  The
    messages of the records are all there in their order, and what is added says
    that a result or an answer is missing. *)
Theorem restored_history ws sid packets s s' l :
  restore ws sid packets s = (Ok l, s') →
  answered l ∧ alternates None l
  ∧ ∃ records projections messages,
      context_records ws sid s = (Ok records, s')
      ∧ mapM (message_of projections) records = Ok messages
      ∧ omap id messages `sublist_of` l
      ∧ Forall (λ m, m ∈ omap id messages ∨ added m) l
      ∧ (List.find is_summary records ≫= str_of "protected_current_query_record_id" = None → ∀ m, last l = Some m → role_of m ≠ "user").
Proof.
  unfold restore. rewrite fs_bindE. destruct (context_records ws sid s) as [[records|x] s1] eqn:Er; [|done].
  rewrite fs_bindE. intros H.
  assert (∃ projections, (if packets then fs_lift (effective_contexts records) else mret ∅) s1 = (Ok projections, s1)) as [projections Ep].
  { destruct packets; [|by eexists]. unfold fs_lift in *. destruct (effective_contexts records); [by eexists|done]. }
  rewrite Ep, fs_bindE in H. unfold fs_lift in H. destruct (mapM (message_of projections) records) as [messages|] eqn:Em; [|done].
  injection H as <- <-. set (c := complete_tool_chains [] (omap id messages)).
  destruct (complete_answered (omap id messages) []) as [Ha _]. destruct (complete_sub (omap id messages) []) as [Hs1 Hf1]. fold c in Ha, Hs1, Hf1.
  set (a := is_some _). destruct (normalize_sub a c None) as [Hs2 Hf2]. split_and!.
  - by apply normalize_answered.
  - apply normalize_alternates.
  - exists records, projections, messages. split_and!; [done|done|by etrans| |].
    + eapply Forall_impl; [exact Hf2|]. intros m [Hm|Hm]; [|by right]. rewrite Forall_forall in Hf1. by apply Hf1.
    + intros En m. unfold a. rewrite En. apply normalize_last.
Qed.

(** C34: a record that the session does not have is appended once.  The first
    append adds exactly this record at the end and makes the session active;
    the same record appended again changes nothing and says so, at any time;
    another content under its id is an error that changes nothing.  The other
    sessions read as before. *)
Theorem session_append_once ws stamp uuid s i sid e l r id :
  session_at ws s i sid e l → str_of "record_id" r = Some id → nonempty id = true →
  (∀ fr, fr ∈ l → str_of "record_id" fr.2 ≠ Some id) → record_valid (setdefault "timestamp" (JStr stamp) r) = true →
  json_wf (JObj r) = true → finite (JObj r) = true →
  ∃ d s' i' e',
    (∀ key, key ≠ "timestamp" → dict_get key d = dict_get key r)
    ∧ append_once ws stamp uuid sid r s = (Ok true, s')
    ∧ session_at ws s' i' sid e' (l ++ [(sn_latest_file e, d)]) ∧ is_pending e' = false
    ∧ (∀ sid', sid' ≠ sid → is_some (i !! sid') = true → view (dv_disk s') sid' = view (dv_disk s) sid')
    ∧ (∀ stamp' uuid', append_once ws stamp' uuid' sid r s' = (Ok false, s'))
    ∧ (∀ stamp' uuid' r', str_of "record_id" r' = Some id → json_wf (JObj r') = true →
         ∃ a, append_once ws stamp' uuid' sid r' s' = (a, s') ∧ a ≠ Ok true
              ∧ (a = Ok false → ∀ key, key ≠ "timestamp" → json_sort <$> dict_get key r' = json_sort <$> dict_get key r)).
Proof.
  intros [H He Hl] Hr Hid Hnew Hv Hwf Hfin.
  destruct (validated (setdefault "timestamp" (JStr stamp) r)) as [d|] eqn:Hd; [|unfold validated in Hd; by rewrite Hv in Hd].
  assert (∀ key, key ≠ "timestamp" → dict_get key d = dict_get key r) as Hdr.
  { intros key Hk. by rewrite (validated_get _ _ key Hd), setdefault_get, decide_False. }
  destruct (appended_spec ws stamp s i sid e l d H He Hl (validated_valid _ _ Hd)) as (i' & e' & H' & He' & Hp & Hv' & _ & Ho).
  set (s' := appended stamp sid e i d s) in *. exists d, s', i', e'.
  assert (List.find (λ fr, bool_decide (str_of "record_id" fr.2 = Some id)) (l ++ [(sn_latest_file e, d)]) = Some (sn_latest_file e, d)) as Hf.
  { apply find_snoc.
    - intros x Hx. apply bool_decide_eq_false. by apply Hnew.
    - apply bool_decide_eq_true. unfold str_of in *. cbn. by rewrite Hdr. }
  assert (json_wf (JObj d) = true) as Hwd.
  { apply (validated_wf _ _ Hd). rewrite setdefault_as_set. apply dict_set_wf; [|done].
    destruct (dict_get "timestamp" r) eqn:Et; [|done]. apply fields_wf in Hwf as [_ Hwf]. by eapply dict_get_wf. }
  pose proof (append_known ws) as Hknown. split_and!; [done| | |done| | |].
  - by eapply append_new.
  - by split.
  - intros sid' Hne Hs. by apply Ho.
  - intros stamp' uuid'. rewrite (append_known ws _ _ _ _ _ _ _ _ _ _ H' He' Hp Hv' Hr Hid Hf). cbn [snd]. by rewrite (compare_same stamp).
  - intros stamp' uuid' r' Hr' Hw'. exists (compare_records r' d).
    rewrite (append_known ws _ _ _ _ _ _ _ _ _ _ H' He' Hp Hv' Hr' Hid Hf). split_and!; [done|apply compare_never|].
    intros Hc key Hk. eapply (compare_only r r' d key); [done| |done|done|by eapply validated_idem|done].
    intros q. destruct (decide (q = "timestamp")); [by right|left; by apply Hdr].
Qed.

(** C35: a new segment and the removal of the last turn are atomic, when
    the name of the segment they make is in no session's catalogue and, for the
    removal, no file has it.  Every directory on the way, where a crash may
    stop, shows the session either as it was or as it will be, and every other
    session as it is.  At the end it is as it will be; invalid records are
    refused before anything is written.  A name can be in use: the second
    rollover of a session that was only registered makes the same name as the
    first, and its records overwrite the segment that the session has
    ([second_rollover_overwrites] below). *)
Theorem session_rewrites_atomic ws s i sid e l :
  session_at ws s i sid e l →
  (∀ stamp records catalog, fresh i (rollover_name sid e) →
     match mapM validated (stamped stamp records) with
     | Err x => records ≠ [] ∧ rollover ws stamp sid records catalog s = (Err x, s)
     | Ok new =>
         ∃ s' tr i', rollover ws stamp sid records catalog s = (Ok (rollover_name sid e), s') ∧ dv_trail s' = dv_trail s ++ tr
           ∧ Forall (old_or_new i (dv_disk s) sid (l ++ map (pair (rollover_name sid e)) new)) tr
           ∧ view (dv_disk s') sid = Ok (l ++ map (pair (rollover_name sid e)) new) ∧ store_ok ws (dv_disk s') i'
     end)
  ∧ (∀ stamp suffix at_, last_user l = Some at_ → slash_free suffix = true → fresh i (edit_name suffix sid e) →
       dk_files (dv_disk s) !! edit_name suffix sid e = None →
       ∃ s' tr i' recs, truncate_last_turn ws stamp suffix sid s = (Ok (Z.of_nat (length l - length recs)), s') ∧ dv_trail s' = dv_trail s ++ tr
         ∧ Forall2 (λ fr d, ∀ key, dict_get key d = dict_get key fr.2) (take at_ l) recs
         ∧ Forall (old_or_new i (dv_disk s) sid (map (pair (edit_name suffix sid e)) recs)) tr
         ∧ view (dv_disk s') sid = Ok (map (pair (edit_name suffix sid e)) recs) ∧ store_ok ws (dv_disk s') i').
Proof.
  intros [H He Hl]. split.
  - intros stamp records catalog Hf. pose proof (rollover_ok ws stamp s i sid e records catalog H He) as R. cbv zeta in R.
    destruct (mapM validated (stamped stamp records)) as [new|x] eqn:Em.
    + destruct (unmaterialized (dv_disk s) e && bool_decide (length records = O)) eqn:Eu.
      { apply andb_true_iff in Eu as [_ Eu]. apply bool_decide_eq_true in Eu. destruct records; [|done]. cbn in Em. injection Em as <-.
        exists s, [], i. cbn. rewrite !app_nil_r. by split_and!. }
      exists (step_to (put_entry sid (rolled stamp (rollover_name sid e) (unmaterialized (dv_disk s) e) (length records) catalog e) i
                (put_file (rollover_name sid e) (map Written new) (dv_disk s))) (step_to (put_file (rollover_name sid e) (map Written new) (dv_disk s)) s)).
      eexists _, _. rewrite R. split_and!; [done| | | |].
      * cbn. by rewrite <- (assoc_L (++)).
      * apply (rollover_views ws); [done..|]. by eapply validated_all.
      * cbn. eapply view_rolled; [done..|]. by eapply validated_all.
      * cbn. by eapply put_rolled_ok.
    + rewrite R. destruct records as [|r records]; [done|]. cbn [length]. rewrite (bool_decide_false (S _ = O)) by done.
      by rewrite andb_false_r.
  - intros stamp suffix at_ Hat Hs Hf Hn.
    destruct (truncate_ok ws stamp suffix s i sid e l at_ H He Hl Hat Hs Hf Hn) as (recs & k' & tr & Hm & Ht & Hk & Htr).
    pose proof (validated_all _ _ Hm) as Hvd. pose proof (edit_plain ws _ _ _ _ suffix H He Hs) as Hp.
    exists (mkDrive k' (dv_trail s ++ tr)), tr, (<[sid := edited stamp (edit_name suffix sid e) (length recs) e]> i), recs.
    split_and!; [done|done| | | |].
    + apply mapM_validated in Hm. apply Forall2_fmap_l in Hm. eapply Forall2_impl; [exact Hm|]. cbn. intros fr d Hd key.
      by apply validated_get.
    + eapply Forall_impl; [exact Htr|]. intros x Hx. by apply (edit_views ws _ _ sid e _ recs stamp x).
    + by apply (edit_view ws (dv_disk s) i sid e _ recs stamp k').
    + eapply (edited_ok ws); [done|done|done|done|apply name_nonempty|done].
Qed.

(** C36: a compaction keeps the records it protects.  References made to records
    of the session, put in the summary that opens a new segment, bring back
    exactly these records after the summary.  This is so when the records of
    the session have different ids; the protected ones are different records of
    it with the role user, assistant or tool and only finite numbers; the new
    segment has a name that no session's catalogue has; and the summary is a
    valid record with the role summary, an id that is new to the session if it
    has one, and no character that [str.splitlines] takes for the end of a line
    (U+0085, U+2028, U+2029).  Without the last two the
    code does not do it: a name in use has its records overwritten
    ([second_rollover_overwrites]), and a summary with a line separator cannot
    be read back. *)
Theorem compaction_keeps_tail ws s i sid e l recs :
  session_at ws s i sid e l → NoDup (ids_of l) → NoDup (omap (str_of "record_id") recs) →
  (∀ r : Dict, r ∈ recs → finite (JObj r) = true ∧ role_of r ∈ ["user"; "assistant"; "tool"] ∧ is_some (str_of "record_id" r) = true ∧ ∃ f, (f, r) ∈ l) →
  fresh i (rollover_name sid e) →
  ∃ refs, make_record_refs ws sid recs s = (Ok refs, s)
    ∧ ∀ stamp catalog summary opened,
        validated (setdefault "timestamp" (JStr stamp) summary) = Ok opened → role_of summary = "summary" →
        dict_get "protected_tail_refs" summary = Some (JArr refs) → any_point splits_line (JObj opened) = false →
        (∀ id, str_of "record_id" summary = Some id → id ∉ ids_of l) →
        ∃ s', rollover ws stamp sid [summary] catalog s = (Ok (rollover_name sid e), s')
              ∧ context_records ws sid s' = (Ok (opened :: recs), s').
Proof.
  intros [H He Hl] Hn Hnr Hrecs Hf.
  assert (∀ r : Dict, r ∈ recs → finite (JObj r) = true ∧ ∃ id f, str_of "record_id" r = Some id ∧ by_record_id l !! id = Some (f, r)) as Hloc.
  { intros r Hr. destruct (Hrecs r Hr) as (Hfin & _ & Hid & f & Hin). split; [done|].
    destruct (str_of "record_id" r) as [id|] eqn:E; [|done]. exists id, f. split; [done|]. by apply by_record_id_unique. }
  destruct (refs_made _ _ Hloc) as (refs & Hm & Hrefs). exists refs. split.
  { unfold make_record_refs. rewrite fs_bindE, (read_all_ok _ _ _ _ _ H He), Hl. unfold fs_lift. by rewrite Hm. }
  intros stamp catalog summary opened Hop Hrole Hgets Hsplit Hids. set (n := rollover_name sid e) in *.
  pose proof (rollover_ok ws stamp s i sid e [summary] catalog H He) as R. cbv zeta in R.
  cbn [stamped map mapM length] in R. rewrite Hop in R. cbn [mbind res_bind mret res_ret] in R.
  rewrite (bool_decide_false (1%nat = O)), andb_false_r in R by done. eexists. split; [exact R|].
  set (k := dv_disk s) in *. set (e' := rolled stamp n (unmaterialized k e) 1 catalog e).
  destruct (rolled_fields stamp n (unmaterialized k e) 1 catalog e) as (_ & E2 & _). fold e' in E2.
  assert (record_valid opened = true) as Hvo by (by eapply validated_valid).
  set (s' := step_to _ _). assert (store_ok ws (dv_disk s') (<[sid := e']> i)) as H' by (by apply put_rolled_ok).
  assert (<[sid := e']> i !! sid = Some e') as He' by apply lookup_insert_eq.
  assert (dk_files (dv_disk s') !! sn_latest_file e' = Some [Written opened]) as Hfile by (rewrite E2; apply lookup_insert_eq).
  assert (∀ key, key ≠ "timestamp" → dict_get key opened = dict_get key summary) as Hget.
  { intros key Hk. by rewrite (validated_get _ _ key Hop), setdefault_get, decide_False. }
  assert (is_summary opened = true) as Hsum.
  { apply bool_decide_eq_true. unfold role_of, str_of in *. by rewrite Hget. }
  unfold context_records. rewrite fs_bindE, (read_records_ok _ _ _ _ _ _ H' He' Hfile). cbn [split_lines]. rewrite Hvo, Hsplit. cbn [andb negb].
  cbn [mbind res_bind mret res_ret List.find]. rewrite Hsum. cbn [mbind option_bind]. rewrite Hget, Hgets by done.
  destruct refs as [|ref refs']; [by inversion Hrefs|]. set (refs := ref :: refs') in *.
  rewrite fs_bindE, (read_all_ok _ _ _ _ _ H' He').
  pose proof (view_rolled ws stamp k i sid e catalog 1 l [opened] H He Hf Hl ltac:(by repeat constructor)) as Hv.
  change (view (dv_disk s') sid = Ok (l ++ [(n, opened)])) in Hv. rewrite Hv. rewrite fs_bindE. unfold fs_lift.
  rewrite (refs_read (by_record_id l) _ recs); [|done|done| |by intros r Hr; destruct (Hrecs r Hr) as (_ & ? & _)].
  - cbn [List.filter]. rewrite Hsum. cbn [negb app]. by rewrite app_nil_r.
  - intros r id Hr Hid. split; [apply not_elem_of_nil|]. rewrite by_record_id_snoc. cbn [snd].
    unfold str_of at 1. rewrite Hget by done. fold (str_of "record_id" summary). destruct (str_of "record_id" summary) as [id'|]; [|done].
    apply lookup_insert_ne. intros ->. apply (Hids id eq_refl). destruct (Hrecs r Hr) as (_ & _ & _ & f & Hin).
    apply list_elem_of_omap. by exists (f, r).
Qed.

(** C38: removing the last turn of a compacted session loses the conversation.
    When the first summary among the records kept begins its references with one
    into a segment of the session, and the new segment has a name that is not in
    use, the removal succeeds and moves the records to that segment, but the
    summary still refers to the old one: in the directory the removal leaves,
    [restore] fails, with and without the packets of contexts. *)
Theorem edit_breaks_compaction ws s i sid e l at_ stamp suffix f summary d rest seg :
  session_at ws s i sid e l → last_user l = Some at_ → slash_free suffix = true → fresh i (edit_name suffix sid e) →
  dk_files (dv_disk s) !! edit_name suffix sid e = None →
  List.find (λ fr, is_summary fr.2) (take at_ l) = Some (f, summary) →
  dict_get "protected_tail_refs" summary = Some (JArr (JObj d :: rest)) → str_of "segment" d = Some seg → seg ∈ sn_files e →
  ∃ count s', truncate_last_turn ws stamp suffix sid s = (Ok count, s') ∧ ∀ packets, ∃ x, restore ws sid packets s' = (Err x, s').
Proof.
  intros [H He Hl] Hat Hs Hf Hn Hsum Hrefs Hseg Hin. set (n := edit_name suffix sid e) in *.
  destruct (truncate_ok ws stamp suffix s i sid e l at_ H He Hl Hat Hs Hf Hn) as (recs & k' & tr & Hm & Ht & Hk & _).
  pose proof (validated_all _ _ Hm) as Hvd. pose proof (edit_plain ws _ _ _ _ suffix H He Hs) as Hp. fold n in Hk, Hp.
  eexists _, _. split; [exact Ht|]. intros packets. set (s' := mkDrive _ _). set (e' := edited stamp n (length recs) e).
  destruct (edited_fields stamp n (length recs) e) as (E1 & E2 & _). fold e' in E1, E2.
  assert (store_ok ws (dv_disk s') (<[sid := e']> i)) as H' by (eapply (edited_ok ws); [done|done|done|done|apply name_nonempty|done]).
  assert (<[sid := e']> i !! sid = Some e') as He' by apply lookup_insert_eq.
  assert (∃ r, List.find is_summary recs = Some r ∧ dict_get "protected_tail_refs" r = dict_get "protected_tail_refs" summary) as (r & Hr & Hg).
  { apply (find_validated (take at_ l) recs f summary); [by apply mapM_validated|done]. }
  assert (recs ≠ []) as Hne by (by intros ->).
  assert (dk_files (dv_disk s') !! sn_latest_file e' = Some (map Written recs)) as Hfile.
  { rewrite E2. destruct Hk as (_ & Hk & _). cbn [s' dv_disk]. rewrite (Hk n) by (by right). cbn.
    rewrite (edit_file_lookup n recs _ Hn). by destruct recs. }
  unfold restore. rewrite fs_bindE. unfold context_records. rewrite fs_bindE, (read_records_ok _ _ _ _ _ _ H' He' Hfile).
  destruct (split_lines (map Written recs)) as [y|x] eqn:Ey; [|by eexists]. apply (split_written recs Hvd) in Ey as ->.
  rewrite Hr. cbn [mbind option_bind]. rewrite Hg, Hrefs. rewrite fs_bindE, (read_all_ok _ _ _ _ _ H' He').
  destruct (edit_view ws _ _ _ _ n recs stamp k' H He Hf Hn Hp Hvd Hk) as [Hv _]. change (dv_disk s') with k'. rewrite Hv, fs_bindE. unfold fs_lift.
  destruct (refs_moved n recs [] (JObj d) rest d seg eq_refl Hseg) as [x ->]; [|by eexists]. intros ->. exact (Hf _ _ He Hin).
Qed.

(** A session that was only registered, and is rolled over with records, is
    rolled over the next time into the same segment: the first records are
    gone from the disk, and the others are read twice. *)
Lemma second_rollover_overwrites ws s i sid e l stamp stamp' records records' new new' catalog catalog' :
  session_at ws s i sid e l → unmaterialized (dv_disk s) e = true → fresh i (rollover_name sid e) →
  mapM validated (stamped stamp records) = Ok new → records ≠ [] → mapM validated (stamped stamp' records') = Ok new' →
  let n := rollover_name sid e in
  ∃ s1 s2, rollover ws stamp sid records catalog s = (Ok n, s1) ∧ view (dv_disk s1) sid = Ok (map (pair n) new)
    ∧ rollover ws stamp' sid records' catalog' s1 = (Ok n, s2) ∧ view (dv_disk s2) sid = Ok (map (pair n) (new' ++ new'))
    ∧ dk_files (dv_disk s2) = <[n := map Written new']> (dk_files (dv_disk s)).
Proof.
  intros [H He Hl] Hu Hf Hnew Hne Hnew' n. set (k := dv_disk s) in *.
  assert (length records ≠ O) as Hlen by (by destruct records).
  pose proof (rollover_ok ws stamp s i sid e records catalog H He) as R. cbv zeta in R. fold k in R.
  rewrite Hu, (bool_decide_false (length records = O)), Hnew in R by done. cbn [andb] in R. fold n in R.
  set (e1 := rolled stamp n true (length records) catalog e) in *. set (s1 := step_to (put_entry sid e1 i _) _) in R.
  destruct (rolled_fields stamp n true (length records) catalog e) as (E1 & E2 & _ & _ & _ & E3). fold e1 in E1, E2, E3.
  assert (store_ok ws (dv_disk s1) (<[sid := e1]> i)) as H1.
  { pose proof (put_rolled_ok ws stamp k i sid e catalog (length records) new H He Hf) as P. cbv zeta in P. by rewrite Hu in P. }
  assert (<[sid := e1]> i !! sid = Some e1) as He1 by apply lookup_insert_eq.
  assert (rollover_name sid e1 = n) as En.
  { apply rollover_name_again; [exact E1|]. apply andb_true_iff in Hu as [Hp Hn]. rewrite (so_reserved _ _ _ H _ _ He Hp); [done|].
    fold k. by destruct (dk_files k !! sn_latest_file e). }
  assert (plain_name n = true) as Hp by (exact (rollover_plain ws _ _ _ _ H He)).
  pose proof (rollover_ok ws stamp' s1 _ sid e1 records' catalog' H1 He1) as R'. cbv zeta in R'. rewrite En in R'.
  assert (unmaterialized (dv_disk s1) e1 = false) as Hu1 by (unfold unmaterialized; by rewrite E3).
  rewrite Hu1, Hnew' in R'. cbn [andb] in R'. set (s2 := step_to (put_entry sid _ _ _) _) in R'.
  exists s1, s2. split_and!; [exact R| |exact R'| |].
  - pose proof (view_rolled ws stamp k i sid e catalog (length records) l new H He Hf Hl ltac:(by eapply validated_all)) as V.
    rewrite Hu in V. rewrite (view_nothing ws k i sid e H He Hu) in Hl. injection Hl as <-. exact V.
  - eapply (view_twice n (dv_disk s2) new'); [reflexivity|apply lookup_insert_eq| | |exact Hp|by eapply validated_all].
    + destruct (rolled_fields stamp' n false (length records') catalog' e1) as (-> & _). by rewrite E1.
    + apply lookup_insert_eq.
  - change (dk_files (dv_disk s2)) with (<[n := map Written new']> (<[n := map Written new]> (dk_files k))). apply insert_insert_eq.
Qed.

(** ** Concrete sessions *)

Definition sid0 : string := "0123456789abcdef".
Definition segment0 : string := "2026-01-01_0123456789abcdef_001.jsonl".
Definition pending0 : Entry := mkEntry "2026-01-01 10:00:00" None segment0 [segment0] SegmentPending None None None.
Definition active0 : Entry := mkEntry "2026-01-01 10:00:00" None segment0 [segment0] SegmentActive (Some "2026-01-01 10:00:01") None None.
(** A session that holds [l]. *)
Definition holding (l : list Dict) : Drive :=
  mkDrive (mkDisk (Some {[sid0 := if bool_decide (l = []) then pending0 else active0]})
             (if bool_decide (l = []) then ∅ else {[segment0 := map Written l]})) [].

Definition said (role text id : string) : Dict :=
  [("role", JStr role); ("content", JStr text); ("timestamp", JStr "2026-01-01 10:00:02"); ("record_id", JStr id)].
Definition record0 : Dict := [("role", JStr "user"); ("content", JStr "hello"); ("record_id", JStr "r1")].
Definition history0 : list Dict := [said "user" "hello" "r1"; said "assistant" "hi" "r2"; said "user" "go on" "r3"].
Definition summary0 (refs : list json) : Dict :=
  [("role", JStr "summary"); ("content", JStr "a greeting"); ("timestamp", JStr "2026-01-01 10:00:03"); ("record_id", JStr "s1");
   ("protected_tail_refs", JArr refs)].
Definition call0 : Dict :=
  [("role", JStr "assistant"); ("content", JNull); ("timestamp", JStr "2026-01-01 10:00:02"); ("record_id", JStr "r2");
   ("tool_calls", JArr [JObj [("id", JStr "c1"); ("function", JObj [("name", JStr "read")])]])].

Lemma holding_at l :
  forallb record_valid l = true → session_at None (holding l) {[sid0 := if bool_decide (l = []) then pending0 else active0]} sid0
    (if bool_decide (l = []) then pending0 else active0) (map (pair segment0) l).
Proof.
  intros H. split; [| |].
  - pose proof (single_ok None sid0 (if bool_decide (l = []) then pending0 else active0) l) as S. unfold holding.
    destruct l as [|x l]; (apply S; [by vm_compute|by vm_compute|done|done|by vm_compute]).
  - unfold holding. apply lookup_singleton_eq.
  - destruct l as [|x l]; [by vm_compute|]. unfold view, holding. cbn [dv_disk dk_index]. rewrite lookup_singleton_eq.
    cbn [bool_decide decide_rel]. rewrite (bool_decide_false (x :: l = [])) by done. unfold read_segments, read_segment. cbn [sn_files active0 mapM].
    replace (plain_name segment0) with true by (by vm_compute). cbn [negb dk_files]. rewrite lookup_singleton_eq.
    rewrite read_lines_written; [cbn; by rewrite app_nil_r|]. rewrite forallb_forall in H. apply Forall_forall. intros d Hd. by apply H, list_elem_of_In.
Qed.

Lemma nobody_else e n : n ∉ sn_files e → fresh {[sid0 := e]} n.
Proof. intros H sid' e' E. apply lookup_singleton_Some in E as [<- <-]. exact H. Qed.

(** A first record, a conflict, and the same record again. *)
Lemma session_append_once_witness : ∃ s', append_once None "2026-01-01 10:00:02" "u" sid0 record0 (holding []) = (Ok true, s')
  ∧ append_once None "later" "v" sid0 record0 s' = (Ok false, s').
Proof.
  destruct (session_append_once None "2026-01-01 10:00:02" "u" (holding []) _ sid0 _ _ record0 "r1" (holding_at [] eq_refl) eq_refl eq_refl
    (λ fr H, match not_elem_of_nil fr H with end) ltac:(by vm_compute) ltac:(by vm_compute) ltac:(by vm_compute))
    as (d & s' & i' & e' & _ & H1 & _ & _ & _ & H2 & _).
  exists s'. split; [exact H1|apply H2].
Defined.

(** The last turn of three records is removed. *)
Lemma session_rewrites_atomic_witness : ∃ s', truncate_last_turn None "now" "abcd1234" sid0 (holding history0) = (Ok 1%Z, s').
Proof.
  destruct (session_rewrites_atomic None (holding history0) _ sid0 _ _ (holding_at history0 ltac:(by vm_compute))) as [_ H].
  destruct (H "now" "abcd1234" 2%nat ltac:(by vm_compute) ltac:(by vm_compute)) as (s' & tr & i' & recs & E & _ & H2 & _).
  - apply nobody_else, (bool_decide_unpack _). by vm_compute.
  - by vm_compute.
  - exists s'. rewrite E. apply Forall2_length in H2. change (length (take 2 (map (pair segment0) history0))) with 2%nat in H2. by rewrite <- H2.
Defined.

(** The answer is protected; the summary opens the second segment. *)
Lemma compaction_keeps_tail_witness : ∃ refs s' opened,
  rollover None "now" sid0 [summary0 refs] None (holding history0) = (Ok "2026-01-01_0123456789abcdef_002.jsonl", s')
  ∧ context_records None sid0 s' = (Ok [opened; said "assistant" "hi" "r2"], s').
Proof.
  destruct (compaction_keeps_tail None (holding history0) _ sid0 _ _ [said "assistant" "hi" "r2"] (holding_at history0 ltac:(by vm_compute)))
    as (refs & Hr & H).
  - apply (bool_decide_unpack _). by vm_compute.
  - apply (bool_decide_unpack _). by vm_compute.
  - intros r ->%list_elem_of_singleton. split_and!; [by vm_compute| |by vm_compute|].
    + apply (bool_decide_unpack _). by vm_compute.
    + exists segment0. right. left.
  - apply nobody_else, (bool_decide_unpack _). by vm_compute.
  - apply (f_equal fst) in Hr. vm_compute in Hr. injection Hr as <-.
    match type of H with context [Some (JArr ?l)] =>
      destruct (H "now" None (summary0 l) (summary0 l)) as (s' & H1 & H2);
        [by vm_compute|by vm_compute|reflexivity|by vm_compute| |exists l, s', (summary0 l); split; [exact H1|exact H2]]
    end.
    intros id Hid. injection Hid as <-. apply (bool_decide_unpack _). by vm_compute.
Defined.

(** The summary of a compaction in one segment, and a turn after it. *)
Definition compacted0 : list Dict := [said "assistant" "hi" "r2"; summary0 [JObj [("segment", JStr segment0)]]; said "user" "go on" "r3"].
Lemma edit_breaks_compaction_witness : ∃ count s',
  truncate_last_turn None "now" "abcd1234" sid0 (holding compacted0) = (Ok count, s') ∧
  ∀ packets, ∃ x, restore None sid0 packets s' = (Err x, s').
Proof.
  refine (edit_breaks_compaction None (holding compacted0) _ sid0 _ _ 2 "now" "abcd1234" segment0 (summary0 [JObj [("segment", JStr segment0)]])
    [("segment", JStr segment0)] [] segment0 (holding_at compacted0 _) _ _ _ _ _ _ _ _);
    [by vm_compute|by vm_compute|by vm_compute| |by vm_compute|by vm_compute|done|done|by left].
  apply nobody_else, (bool_decide_unpack _). by vm_compute.
Defined.

(** A run was interrupted in the middle of a tool call. *)
Lemma restored_history_witness : ∃ l, (restore None sid0 false (holding [said "user" "hello" "r1"; call0])).1 = Ok l ∧ answered l ∧ alternates None l.
Proof.
  destruct (restore None sid0 false (holding [said "user" "hello" "r1"; call0])) as [[l|x] s'] eqn:E; [|by vm_compute in E].
  exists l. split; [done|]. destruct (restored_history None sid0 false _ s' l E) as (H1 & H2 & _). by split.
Defined.
